(* ===== verification/_CoqProject ===== *)
-Q . S2P
Prelude.v
External.v
Ids.v
States.v
Entities.v
Gates.v
MutationGuard.v
BudgetPolicy.v
VectorLedger.v
BudgetLedger.v
Framing.v
Toy.v
Merkle.v
Records.v
AuditBatch.v
Text.v
Store.v
HarnessErrors.v
Session.v
InvocationBudget.v
Paths.v
Argv.v
Proposal.v
Events.v
Credentials.v
Routing.v
EgressRequest.v
EgressProxy.v
Forge.v
Canonical.v
LocalForge.v
LaunchClaims.v
Capability.v
Submissions.v
Commands.v
NonceLedger.v
RunCoding.v
Effects.v
GraphDelta.v
Authority.v
LaunchGrants.v
Recovery.v
Dispatch.v
Admission.v
Context.v
Memory.v
MemoryLeases.v
MemoryCommands.v
MemoryEffects.v
MemoryGraphs.v
Broker.v
BrokerMemory.v
RestartRecovery.v
LaunchIssuer.v
MutationPermits.v
Policy.v
Runner.v
Heartbeat.v
Workspace.v
LedgerFrame.v
LedgerInv.v
LedgerSafety.v
LedgerWrites.v
LedgerLeases.v
LedgerExpiry.v
LedgerBlocked.v
LedgerQuota.v
LedgerLaunch.v
LeaseClient.v
AttemptRun.v
AttemptSafety.v
Verifier.v
VerifierChain.v
ToyLedger.v
ToyLaunch.v
ToyHarness.v
ToyBroker.v
ToyPolicy.v
ToyRunner.v
ToyVerifier.v
