(* ===== verification/Prelude.v ===== *)
(** * Verification of the Bullet Farm kernel

    The kernel is a control plane for coding agents: a daemon and a runner
    share a ledger of missions, plans, work packages, leased attempts,
    commands, external effects and events. This development models the
    decision code of the kernel, written in Rust, and proves what the rest of
    the system relies on.

    ** Conventions

    A function that returns [Result] is a function to [result E A] ([Ok],
    [Err], [Panic]); a method on `&mut self` is a function in the monad
    [stateful S E], which returns the state also when it refuses, so that a
    partial change before an error is visible. A [u64] or [u32] is a [Z] with
    its wrap-around written out: the workspace profile does not enable
    overflow checks, so plain `+` wraps and [checked_add] refuses. A Rust
    string is the byte string it is in memory. [BTreeMap] and [HashMap] are
    [gmap]; where the source iterates in key order the model sorts. Code from
    outside the repository (BLAKE3, hex, serde_json, chrono, the operating
    system) is a class of operations in External, with classes of laws for
    what the theorems assume of it; the Toy files give instances that
    satisfy the laws, so every theorem about them is exercised on concrete
    data. Over each definition stands the file and line range it translates.

    ** Files

    - Prelude: outcomes, the state monad with [moves] and [triple] rules,
      integers, tactics, hint databases. External: interfaces of third-party
      code. Paths: std::path. Toy, ToyLedger, ToyLaunch, ToyHarness,
      ToyBroker, ToyPolicy, ToyRunner, ToyVerifier: instances that satisfy the laws and the concrete runs of the witnesses.
    - crates/domain: Ids (ids.rs, digest.rs, error.rs), States (states.rs),
      Entities (entities.rs, taxonomy.rs, authority.rs, observation.rs,
      behavior.rs), Gates (gates.rs), MutationGuard (mutation_guard.rs).
    - crates/budgets: BudgetPolicy (classes.rs), VectorLedger (dimensions.rs, lib.rs)
      and BudgetLedger (lib.rs).
    - crates/application, audit: Framing and Merkle (audit_batch/merkle.rs),
      AuditBatch (audit_batch.rs).
    - crates/application, values: Records (records.rs), Text and Store (error
      and text validation), Submissions (coding_tasks, conversations and
      run_coding payloads), Commands (commands.rs), NonceLedger
      (nonce_ledger.rs), RunCoding (admission plan), Effects (effect_state.rs,
      effects.rs), GraphDelta (graph_delta.rs), Authority (authority.rs,
      authority_revision.rs, launch_grant/nonce.rs), Context (context.rs).
    - crates/application, the in-process ledger: Memory (memory/mod.rs,
      support.rs, clock.rs), MemoryLeases (memory/authority.rs,
      authority/reclaim.rs, context.rs), MemoryCommands (memory/commands.rs),
      MemoryEffects (memory/effects.rs, launch_grant.rs, the nonces of
      lease_transport.rs), MemoryGraphs (materializer.rs,
      memory/materialization.rs, graph deltas of memory/mod.rs).
    - Theorems about the whole ledger: LedgerFrame (which operations leave
      authority alone), LedgerInv (the authority invariant), LedgerSafety
      (every operation keeps it; reachability).
    - What follows for reachable ledgers: LedgerWrites (which tables an
      operation writes, and refusals), LedgerLeases (acquisition and the
      active-lease check), LedgerExpiry (lease windows against the clock),
      LedgerBlocked (a holder ended by put_attempt), LedgerQuota (coding
      reservations).
    - Signed authority: HarnessErrors (harness-core/src/error.rs), Canonical
      (launch_grant/canonical.rs), LaunchClaims (launch_grant/claims.rs,
      expectation.rs), LaunchGrants (launch_grant/keys.rs, verify.rs,
      nonce.rs), LaunchIssuer (application launch_grant/issuer.rs, nonce.rs),
      MutationPermits (harness-core admission/mutation_permit.rs, application
      mutation_reservation.rs and mutation_permit/mod.rs). LedgerLaunch
      runs them over the in-process ledger: the nonce port and
      the lease gate are classes, and the ledger is shown to be an instance.
      PASETO tokens are an interface whose laws say that a signed token is
      framed and verifies with its key, footer and assertion; nothing is
      assumed about forgery.
    - Policy snapshots (crates/application policy_snapshot.rs and its
      modules): Policy (the snapshot, keys.rs, live.rs, dogfood.rs, load.rs,
      generation.rs, activation.rs).
    - crates/harness-core: Session (session.rs), InvocationBudget and Argv
      (argv.rs), Proposal (proposal.rs), Events (event.rs and the log check of
      admission/receipt.rs), Capability (capability.rs, probe.rs,
      admission/protocol.rs), Credentials (admission/credentials.rs),
      Admission (admission.rs, admission/receipt.rs, admission/signed.rs).
      The file system is a class of calls; what staging does to it is stated
      over any file system whose calls are recorded.
    - crates/harness-egress: EgressRequest (request.rs, the head reader of
      tunnel.rs), EgressProxy (allowlist.rs, decisions.rs,
      error.rs, proxy.rs): the threads of the proxy as interleaved steps on
      the state they share.
    - crates/effects: Forge (error.rs, forge.rs, phase.rs, lost.rs,
      integration.rs and the github, gitlab and jeryu adapters), LocalForge
      (git_env.rs, local.rs, local_state.rs, local_integration.rs,
      attest.rs), Broker (broker.rs) over any ledger and forge,
      BrokerMemory (the in-process ledger as its ledger), Recovery
      (application effect_recovery.rs and its validation.rs) and
      RestartRecovery (recovery.rs). The [Ledger] methods that the broker
      calls, the claim store and the forge are classes; git is an interface
      of commands and answers.
    - crates/runner: Runner (error.rs, scope.rs, gate.rs, capsule.rs),
      Heartbeat (clock.rs, heartbeat.rs), Workspace (gitd/records.rs,
      gitd/workspace_binding.rs), LeaseClient (lease.rs with the services of
      application leases.rs and queue.rs, over the in-process ledger),
      AttemptRun (attempt.rs and attempt/) over a class of ports, and
      AttemptSafety: the protocol of an attempt as an abstract machine and the
      proof that every run follows it.
    - Dispatch (application command_dispatch.rs, operator_commands/projection.rs,
      authority_scope/): runner claims on commands, the check of a command's
      durable rows, scope grants.
    - crates/verifier: Verifier (error.rs, request.rs, evidence.rs,
      aggregate.rs, gate.rs, workspace.rs, safe_git.rs, run.rs) and
      VerifierChain (signed_chain.rs and its modules).
    - Routing (crates/behavior, crates/router, crates/fusion,
      crates/projections).

    ** What the theorems show

    Lease authority: in every ledger reachable by any sequence of
    operations, refused ones included, a variant has at most one writer, its
    fence is the highest ever granted, and neither fences nor attempts nor
    the event log go back. Budgets: every dimension conserves its opening
    capacity, admission is exactly the documented floor rule, unknown usage
    is never headroom, and the scalar ledger refines an abstract account.
    Audit: Merkle proofs are complete and sound, batches and chains commit
    their events. Where a digest commits to something, the only exception is a
    BLAKE3 collision between byte strings that the two runs in question hash;
    these pairs are computed from the inputs. Mutation guard: revoked
    authority is never accepted again. State machines: nothing lands or
    commits without its whole pipeline. Values: parsers admit exactly their
    grammar; stored forms decode to what was stored.
    Leases in time: an acquisition hands the variant over to exactly one
    attempt, and fifteen seconds of silence followed by the sweep free every
    variant; a holder that put_attempt ended while leased blocks its variant
    for good. Operations write only their tables, and all but five leave the
    tables alone when they refuse. Grants and permits: a mint binds the
    current writer and never outlives its lease, the minted grant is admitted
    once if the policy enables live launches and its replay is refused, in every
    interleaving with other operations;
    a mutation is spent at most once, by the attempt and fence that reserved
    it, while that attempt is the writer.
    Policies: a loaded policy is at least as restrictive as the built-in one,
    resolves the runner's key while it is active, and an admission binds a
    generation that every component acknowledged.
    Effects: whatever the ledger and the forge answer, an intent is committed
    only after a read of the remote showed the desired object, a second push
    comes only right after a read that shows the first had no effect, and a
    protected target moves only along a passed check on the exact subject. A
    restart pass over a claim store that keeps its documented contract pushes
    at most once, after a read of absence, reports what its last call showed,
    and terminates.
    Harness: a provider is dispatched only with every piece of evidence; a
    plain invocation carries no denied argument and inherits no authority; a
    proposal touches only the paths it names; the invocation budget is
    linearizable and never exceeded; event streams are numbered without gap
    and logs are accepted exactly when well formed; the
    file-system calls of a staging create the home, its fixed directories and
    the granted credentials with the bytes that were checked, and nothing else. Egress: under every interleaving the proxy
    connects only to reviewed hosts, only once armed, never above its tunnel
    limit, and logs every connection once.
    Runner: whatever the provider, the workspace daemon, the lease authority
    and the gates answer, an attempt applies only proposals on its checkpoint
    right after an authority check, tests the tree it verified, prepares a
    candidate only when every gate passed on that tree, and releases as
    succeeded only what it preserved, right after another authority check; it
    ends within its repair budget. Once a heartbeat was acknowledged, and if two
    heartbeat intervals fit into a fifth of the lease, the runner is frozen
    before its lease expires; in general its deadline precedes the expiry
    exactly when the last acknowledgement took less than that fifth. An accepted generation pointer commits the whole
    generation.
    Verifier: evidence is green exactly when a fresh clone was checked out at
    the requested head, showed the requested tree and ancestry, and the gate
    exited with 0 in it; an admitted chain is about the expected candidate
    and request, what the verifier signs is admitted, and a proof root
    commits the intent and the evidence.
    Commands: the rows of an operator's command are accepted exactly when
    they tell one of four stories, none of which is a success.

    ** Bounds

    A few loops of the source are not structural. The two level loops of the
    Merkle tree take the number of leaves as fuel, and the theorems show that
    this is enough (no [Panic] outcome). The head reader of the egress proxy
    takes the head limit as fuel, which is enough even when bytes arrive one
    at a time. The mutual recursion of the restart pass takes fuel for two
    rounds, and its outcome is shown not to depend on more. The
    repair loop of an attempt takes one turn per repair round and one more;
    the run is shown not to depend on more. Everything else is structural
    recursion on the data.

    ** Not modelled

    SQL executed by SQLite or Postgres (crates/adapters,
    crates/adapters-postgres); processes, namespaces, nftables and sandboxes
    (the gate and workspace processes and the signed and HTTP clients of
    crates/runner, the provider harnesses, namespace.rs,
    sandbox.rs, filesystem.rs, probes.rs, ruleset.rs and receipt.rs of
    crates/harness-egress); the durable queue and signed observations of
    crates/effects; the command line, daemon and terminal
    interfaces (apps); generated code (generated/, contracts/generated) and
    test doubles. Also left out: probe grants and the key file of
    launch_grant, candidate preparation and lease-transport settlements, which
    are decision code in reach of the same technique, and the store traits of
    operator sessions, operator commands and scope grants, which only the SQL
    adapters implement. *)

From stdpp Require Export base tactics gmap strings list pretty sorting.
From Stdlib Require Import Lia ZArith.
From stdpp Require Import options.

Create HintDb kernel discriminated.
Create Rewrite HintDb kernel.

Declare Scope kernel_scope.
Delimit Scope kernel_scope with kernel.

(** ** Outcomes

    A Rust function that returns [Result<A, E>] returns a value, returns an
    error, or panics (an `expect` on [None], an index out of range). *)
Inductive result (E A : Type) : Type :=
| Ok (a : A)
| Err (e : E)
| Panic.
Arguments Ok {E A} a.
Arguments Err {E A} e.
Arguments Panic {E A}.

Global Instance result_ret E : MRet (result E) := fun A a => Ok a.
Global Instance result_bind E : MBind (result E) := fun A B f m =>
  match m with Ok a => f a | Err e => Err e | Panic => Panic end.
Global Instance result_fmap E : FMap (result E) := fun A B f m =>
  match m with Ok a => Ok (f a) | Err e => Err e | Panic => Panic end.

Global Instance result_eq_dec E A `{EqDecision E, EqDecision A} :
  EqDecision (result E A).
Proof. solve_decision. Defined.

(** [Option::ok_or]. *)
Definition ok_or {E A} (o : option A) (e : E) : result E A :=
  match o with Some a => Ok a | None => Err e end.

(** [Option::expect]. *)
Definition expect {E A} (o : option A) : result E A :=
  match o with Some a => Ok a | None => Panic end.

(** [Result::map_err]. *)
Definition map_err {E F A} (f : E -> F) (r : result E A) : result F A :=
  match r with Ok a => Ok a | Err e => Err (f e) | Panic => Panic end.

(** `if cond { return Err(e) }` in front of the rest of a function. *)
Definition refuse_if {E} (b : bool) (e : E) : result E unit :=
  if b then Err e else Ok tt.

Definition is_ok {E A} (r : result E A) : bool :=
  match r with Ok _ => true | _ => false end.

Definition is_err {E A} (r : result E A) : bool :=
  match r with Err _ => true | _ => false end.

Section ResultLemmas.
Context {E A B : Type}.
Implicit Types (m : result E A) (f : A -> result E B).

Lemma bind_Ok m f b :
  (m ≫= f) = Ok b <-> exists a, m = Ok a /\ f a = Ok b.
Proof. destruct m; naive_solver. Qed.

Lemma bind_Err m f e :
  (m ≫= f) = Err e <-> m = Err e \/ exists a, m = Ok a /\ f a = Err e.
Proof. destruct m; naive_solver. Qed.

Lemma bind_Panic m f :
  (m ≫= f) = Panic <-> m = Panic \/ exists a, m = Ok a /\ f a = Panic.
Proof. destruct m; naive_solver. Qed.

Lemma bind_assoc {C} m f (g : B -> result E C) :
  ((m ≫= f) ≫= g) = (m ≫= (fun a => f a ≫= g)).
Proof. by destruct m. Qed.

Lemma ok_or_Ok (o : option A) (e : E) a : ok_or o e = Ok a <-> o = Some a.
Proof. destruct o; naive_solver. Qed.

Lemma ok_or_Err (o : option A) (e e' : E) :
  ok_or o e = Err e' <-> o = None /\ e = e'.
Proof. destruct o; naive_solver. Qed.

Lemma expect_Ok (o : option A) a : expect (E:=E) o = Ok a <-> o = Some a.
Proof. destruct o; naive_solver. Qed.

Lemma refuse_if_Ok b (e : E) u : refuse_if b e = Ok u <-> b = false.
Proof. destruct b, u; naive_solver. Qed.

Lemma refuse_if_Err b (e e' : E) : refuse_if b e = Err e' <-> b = true /\ e = e'.
Proof. destruct b; naive_solver. Qed.
End ResultLemmas.

Lemma map_err_Ok {E F A} (g : E -> F) (r : result E A) a :
  map_err g r = Ok a <-> r = Ok a.
Proof. destruct r; naive_solver. Qed.

Lemma map_err_Err {E F A} (g : E -> F) (r : result E A) e' :
  map_err g r = Err e' <-> exists e, r = Err e /\ g e = e'.
Proof. destruct r; naive_solver. Qed.

(** [inv_result] inverts every hypothesis that says how a monadic
    computation ended, down to the outcomes of its steps. *)
Ltac inv_result_step :=
  match goal with
  | H : (_ ≫= _) = Ok _ |- _ => apply bind_Ok in H as (? & ? & H)
  | H : ok_or _ _ = Ok _ |- _ => apply ok_or_Ok in H
  | H : expect _ = Ok _ |- _ => apply expect_Ok in H
  | H : refuse_if _ _ = Ok _ |- _ => apply refuse_if_Ok in H
  | H : map_err _ _ = Ok _ |- _ => apply map_err_Ok in H
  | H : mret _ = _ |- _ => progress unfold mret, result_ret in H
  | H : Ok _ = Ok _ |- _ => injection H as H
  | H : Ok _ = Err _ |- _ => discriminate H
  | H : Err _ = Ok _ |- _ => discriminate H
  | H : Panic = Ok _ |- _ => discriminate H
  | H : Ok _ = Panic |- _ => discriminate H
  | H : Err _ = Panic |- _ => discriminate H
  | H : Panic = Err _ |- _ => discriminate H
  | H : (_ || _)%bool = false |- _ => apply orb_false_iff in H as [? ?]
  | H : negb _ = false |- _ => apply negb_false_iff in H
  | H : negb _ = true |- _ => apply negb_true_iff in H
  | H : (_ && _)%bool = true |- _ => apply andb_true_iff in H as [? ?]
  | H : bool_decide _ = true |- _ => apply bool_decide_eq_true in H
  | H : bool_decide _ = false |- _ => apply bool_decide_eq_false in H
  end.
Ltac inv_result := repeat inv_result_step; simplify_eq.

(** Runs the monadic plumbing in the goal, and nothing else. *)
Ltac run_result :=
  cbn [mbind result_bind mret result_ret map_err ok_or expect refuse_if
       negb orb andb fst snd].

(** Proves a [Forall] over a literal list, element by element. *)
Tactic Notation "forall_by" tactic3(t) :=
  repeat (apply Forall_cons; split; [t|]); apply Forall_nil; exact I.

(** [case_result] additionally splits on the conditionals and matches that
    stand in a hypothesis about an outcome. *)
Ltac case_result_step :=
  match goal with
  | H : (if ?b then _ else _) = _ |- _ => destruct b eqn:?
  | H : match ?x with _ => _ end = Ok _ |- _ => destruct x eqn:?
  end.
Ltac case_result := repeat (inv_result; try discriminate; try case_result_step);
  simplify_eq.

(** `for x in xs { f(x)?; }`. *)
Fixpoint for_each {E A} (f : A -> result E unit) (xs : list A) : result E unit :=
  match xs with
  | [] => Ok tt
  | x :: rest => _ ← f x; for_each f rest
  end.

Lemma for_each_Ok {E A} (f : A -> result E unit) xs u :
  for_each f xs = Ok u <-> Forall (fun x => f x = Ok tt) xs.
Proof.
  destruct u. induction xs as [|x xs IH]; simpl.
  { split; [constructor|done]. }
  rewrite Forall_cons, bind_Ok, <- IH. split.
  - intros ([] & ? & ?). done.
  - intros [? ?]. by exists tt.
Qed.

(** ** Stateful functions

    A method on `&mut self` maps the state before the call to the state after
    it and the outcome; a `?` leaves the state as the failing step left it. *)
Definition stateful (S E A : Type) : Type := S -> S * result E A.

Global Instance stateful_ret S E : MRet (stateful S E) := fun A a s => (s, Ok a).
Global Instance stateful_bind S E : MBind (stateful S E) := fun A B f m s =>
  match m s with
  | (s1, Ok a) => f a s1
  | (s1, Err e) => (s1, Err e)
  | (s1, Panic) => (s1, Panic)
  end.

(** A computation that only reads the state. *)
Definition reading {S E A} (f : S -> result E A) : stateful S E A := fun s => (s, f s).
(** A pure computation. *)
Definition pure_step {S E A} (r : result E A) : stateful S E A := fun s => (s, r).
(** An assignment. *)
Definition assign {S E} (f : S -> S) : stateful S E unit := fun s => (f s, Ok tt).

(** [Result::map_err] on the result of a method. *)
Definition st_map_err {S E F A} (f : E -> F) (m : stateful S E A) : stateful S F A :=
  fun s => let '(t, r) := m s in (t, map_err f r).

Lemma st_map_err_Ok {S E F A} (f : E -> F) (m : stateful S E A) s t a :
  st_map_err f m s = (t, Ok a) <-> m s = (t, Ok a).
Proof. unfold st_map_err. destruct (m s) as [t' []]; cbn; naive_solver. Qed.

Section StatefulLemmas.
Context {S E A B : Type}.
Implicit Types (m : stateful S E A) (f : A -> stateful S E B) (s t : S).

Lemma st_bind_Ok m f s t b :
  (m ≫= f) s = (t, Ok b) <-> exists s1 a, m s = (s1, Ok a) /\ f a s1 = (t, Ok b).
Proof.
  unfold mbind, stateful_bind. destruct (m s) as [s1 [a|e|]]; naive_solver.
Qed.

Lemma st_bind_Err m f s t e :
  (m ≫= f) s = (t, Err e) <->
  m s = (t, Err e) \/ exists s1 a, m s = (s1, Ok a) /\ f a s1 = (t, Err e).
Proof.
  unfold mbind, stateful_bind. destruct (m s) as [s1 [a|e'|]]; naive_solver.
Qed.

Lemma st_reading_Ok (g : S -> result E A) s t a :
  reading g s = (t, Ok a) <-> t = s /\ g s = Ok a.
Proof. unfold reading. split; [by intros [= <- ->]|by intros [-> ->]]. Qed.

Lemma st_pure_Ok (r : result E A) s t a :
  pure_step r s = (t, Ok a) <-> t = s /\ r = Ok a.
Proof. unfold pure_step. split; [by intros [= <- ->]|by intros [-> ->]]. Qed.

Lemma st_assign_Ok (g : S -> S) s t u :
  assign (E:=E) g s = (t, Ok u) <-> t = g s.
Proof. unfold assign. destruct u. split; [by intros [= <-]|by intros ->]. Qed.

Lemma st_ret_Ok (a b : A) s t :
  mret (M:=stateful S E) a s = (t, Ok b) <-> t = s /\ a = b.
Proof. unfold mret, stateful_ret. split; [by intros [= <- ->]|by intros [-> ->]]. Qed.
End StatefulLemmas.

(** Inverts hypotheses about successful stateful runs. *)
Ltac inv_st_step :=
  match goal with
  | H : (_ ≫= _) _ = (_, Ok _) |- _ => apply st_bind_Ok in H as (? & ? & ? & H)
  | H : reading _ _ = (_, Ok _) |- _ => apply st_reading_Ok in H as [-> H]
  | H : pure_step _ _ = (_, Ok _) |- _ => apply st_pure_Ok in H as [-> H]
  | H : assign _ _ = (_, Ok _) |- _ => apply st_assign_Ok in H as ->
  | H : mret _ _ = (_, Ok _) |- _ => apply st_ret_Ok in H as [-> H]
  end.
Ltac inv_st := repeat (inv_st_step || inv_result_step); simplify_eq.

(** A method moves the state along a preorder, whether it succeeds or is
    refused; a panic ends the process and leaves no state to speak of. *)
Definition moves {S E A} (R : relation S) (m : stateful S E A) : Prop :=
  forall s, match m s with (t, (Ok _ | Err _)) => R s t | (_, Panic) => True end.

(** From a state in [P], the method ends in [Q] when it succeeds and in [I]
    when it is refused. *)
Definition triple {S E A} (P : S -> Prop) (m : stateful S E A) (Q : A -> S -> Prop)
  (I : S -> Prop) : Prop :=
  forall s, P s -> match m s with (t, Ok a) => Q a t | (t, Err _) => I t | (_, Panic) => True end.

Section MovesLemmas.
Context {S E : Type} (R : relation S) `{!PreOrder R}.

Lemma moves_bind {A B} (m : stateful S E A) (f : A -> stateful S E B) :
  moves R m -> (forall a, moves R (f a)) -> moves R (m ≫= f).
Proof using All.
  intros Hm Hf s. specialize (Hm s). unfold mbind, stateful_bind.
  destruct (m s) as [t [a|e|]]; [|done|done].
  specialize (Hf a t). destruct (f a t) as [u [b|e|]]; [|by etrans|done]. by etrans.
Qed.

Lemma moves_ret {A} (a : A) : moves R (mret (M:=stateful S E) a).
Proof using All. intros s. simpl. done. Qed.

Lemma moves_reading {A} (g : S -> result E A) : moves R (reading g).
Proof using All. intros s. unfold reading. by destruct (g s). Qed.

Lemma moves_pure {A} (r : result E A) : moves R (pure_step r).
Proof using All. intros s. unfold pure_step. by destruct r. Qed.

Lemma moves_assign (g : S -> S) : (forall s, R s (g s)) -> moves R (assign (E:=E) g).
Proof using All. intros Hg s. simpl. done. Qed.
End MovesLemmas.

Lemma triple_bind {S E A B} (P : S -> Prop) (m : stateful S E A) (f : A -> stateful S E B)
  (Q1 : A -> S -> Prop) (Q : B -> S -> Prop) (I : S -> Prop) :
  triple P m Q1 I -> (forall a, triple (Q1 a) (f a) Q I) -> triple P (m ≫= f) Q I.
Proof.
  intros Hm Hf s Hs. specialize (Hm s Hs). unfold mbind, stateful_bind.
  destruct (m s) as [t [a|e|]]; [|done|done]. by apply Hf.
Qed.

Lemma triple_conseq {S E A} (P P' : S -> Prop) (m : stateful S E A)
  (Q Q' : A -> S -> Prop) (I : S -> Prop) :
  triple P m Q I -> (forall s, P' s -> P s) -> (forall a s, Q a s -> Q' a s) ->
  triple P' m Q' I.
Proof.
  intros Hm HP HQ s Hs. specialize (Hm s (HP s Hs)). destruct (m s) as [t [a|e|]]; auto.
Qed.

Lemma triple_reading {S E A} (P : S -> Prop) (g : S -> result E A) (I : S -> Prop) :
  (forall s, P s -> I s) -> triple P (reading g) (fun a s => P s /\ g s = Ok a) I.
Proof. intros HI s Hs. unfold reading. destruct (g s) eqn:?; auto. Qed.

Lemma triple_pure {S E A} (P : S -> Prop) (r : result E A) (I : S -> Prop) :
  (forall s, P s -> I s) -> triple P (pure_step r) (fun a s => P s /\ r = Ok a) I.
Proof. intros HI s Hs. unfold pure_step. destruct r; auto. Qed.

Lemma triple_assign {S E} (P : S -> Prop) (g : S -> S) (Q : unit -> S -> Prop) (I : S -> Prop) :
  (forall s, P s -> Q tt (g s)) -> triple P (assign (E:=E) g) Q I.
Proof. intros HQ s Hs. simpl. auto. Qed.

Lemma triple_ret {S E A} (P : S -> Prop) (a : A) (Q : A -> S -> Prop) (I : S -> Prop) :
  (forall s, P s -> Q a s) -> triple P (mret (M:=stateful S E) a) Q I.
Proof. intros HQ s Hs. simpl. auto. Qed.

(** A refusal, whatever the state. *)
Lemma triple_err {S E A} (P : S -> Prop) (e : E) (Q : A -> S -> Prop) (I : S -> Prop) :
  (forall s, P s -> I s) -> triple P (pure_step (Err e)) Q I.
Proof. intros HI s Hs. simpl. auto. Qed.

(** ** Machine integers

    A [u64] or [i64] is a [Z] in the range of its width. `checked_*`
    operations return [None] outside the range; the plain operators of an
    optimised build wrap around. *)
Definition u32_max : Z := 2 ^ 32 - 1.
Definition u64_max : Z := 2 ^ 64 - 1.
Definition i64_min : Z := - 2 ^ 63.
Definition i64_max : Z := 2 ^ 63 - 1.

Definition is_u32 (z : Z) : Prop := (0 <= z <= u32_max)%Z.
Definition is_u64 (z : Z) : Prop := (0 <= z <= u64_max)%Z.
Definition is_i64 (z : Z) : Prop := (i64_min <= z <= i64_max)%Z.

Global Instance is_u32_dec z : Decision (is_u32 z).
Proof. unfold is_u32. apply _. Defined.
Global Instance is_u64_dec z : Decision (is_u64 z).
Proof. unfold is_u64. apply _. Defined.
Global Instance is_i64_dec z : Decision (is_i64 z).
Proof. unfold is_i64. apply _. Defined.

Definition to_u64 (z : Z) : option Z := if decide (is_u64 z) then Some z else None.
Definition to_i64 (z : Z) : option Z := if decide (is_i64 z) then Some z else None.
Definition u64_checked_add (a b : Z) : option Z := to_u64 (a + b).
Definition u64_checked_sub (a b : Z) : option Z := to_u64 (a - b).
Definition u64_checked_mul (a b : Z) : option Z := to_u64 (a * b).
Definition i64_checked_add (a b : Z) : option Z := to_i64 (a + b).
Definition i64_checked_sub (a b : Z) : option Z := to_i64 (a - b).
Definition u64_saturating_sub (a b : Z) : Z := Z.max 0 (a - b).
Definition u64_saturating_add (a b : Z) : Z := Z.min u64_max (a + b).
Definition u64_wrapping_add (a b : Z) : Z := (a + b) mod 2 ^ 64.
Definition u64_wrapping_sub (a b : Z) : Z := (a - b) mod 2 ^ 64.
Definition u32_wrapping_add (a b : Z) : Z := (a + b) mod 2 ^ 32.
Definition u32_saturating_mul (a b : Z) : Z := Z.min u32_max (a * b).

Lemma to_u64_Some z r : to_u64 z = Some r <-> r = z /\ is_u64 z.
Proof. unfold to_u64. case_decide; naive_solver. Qed.
Lemma to_u64_None z : to_u64 z = None <-> ~ is_u64 z.
Proof. unfold to_u64. case_decide; naive_solver. Qed.
Lemma to_i64_Some z r : to_i64 z = Some r <-> r = z /\ is_i64 z.
Proof. unfold to_i64. case_decide; naive_solver. Qed.
Lemma to_i64_None z : to_i64 z = None <-> ~ is_i64 z.
Proof. unfold to_i64. case_decide; naive_solver. Qed.

Lemma u64_wrapping_add_range a b : is_u64 (u64_wrapping_add a b).
Proof.
  unfold is_u64, u64_wrapping_add, u64_max.
  pose proof (Z.mod_pos_bound (a + b) (2 ^ 64)). lia.
Qed.

Lemma u64_wrapping_add_small a b :
  (0 <= a + b <= u64_max)%Z -> u64_wrapping_add a b = (a + b)%Z.
Proof.
  unfold u64_wrapping_add, u64_max. intros. apply Z.mod_small. lia.
Qed.

(** Turns checked arithmetic in the hypotheses into linear facts. *)
Ltac inv_int_step :=
  match goal with
  | H : u64_checked_add _ _ = _ |- _ => unfold u64_checked_add in H
  | H : u64_checked_sub _ _ = _ |- _ => unfold u64_checked_sub in H
  | H : u64_checked_mul _ _ = _ |- _ => unfold u64_checked_mul in H
  | H : i64_checked_add _ _ = _ |- _ => unfold i64_checked_add in H
  | H : i64_checked_sub _ _ = _ |- _ => unfold i64_checked_sub in H
  | H : to_u64 _ = Some _ |- _ => apply to_u64_Some in H as [-> H]
  | H : to_u64 _ = None |- _ => apply to_u64_None in H
  | H : to_i64 _ = Some _ |- _ => apply to_i64_Some in H as [-> H]
  | H : to_i64 _ = None |- _ => apply to_i64_None in H
  end.
Ltac int_lia :=
  repeat inv_int_step;
  unfold is_u64, is_u32, is_i64, u64_saturating_sub, u64_saturating_add in *;
  unfold u64_max, u32_max, i64_min, i64_max in *; lia.

(** ** Strings

    A Rust string is its sequence of UTF-8 bytes. *)

(** [str::strip_prefix]. *)
Fixpoint strip_prefix (p s : string) : option string :=
  match p, s with
  | EmptyString, _ => Some s
  | String a p', String b s' => if Ascii.eqb a b then strip_prefix p' s' else None
  | String _ _, EmptyString => None
  end.

Definition starts_with (p s : string) : bool := bool_decide (is_Some (strip_prefix p s)).

(** [str::bytes().all(f)]. *)
Fixpoint string_all (f : Ascii.ascii -> bool) (s : string) : bool :=
  match s with
  | EmptyString => true
  | String a s' => f a && string_all f s'
  end.

Fixpoint string_any (f : Ascii.ascii -> bool) (s : string) : bool :=
  match s with
  | EmptyString => false
  | String a s' => f a || string_any f s'
  end.

(** The number of a byte. *)
Definition byte_val (a : Ascii.ascii) : Z := Z.of_N (Ascii.N_of_ascii a).

Definition is_empty (s : string) : bool := match s with EmptyString => true | _ => false end.

Definition str_len (s : string) : Z := Z.of_nat (String.length s).

(** Lexicographic order of byte strings, the [Ord] of [str]. *)
Definition str_le (a b : string) : Prop := String.leb a b = true.
Definition str_lt (a b : string) : Prop := String.ltb a b = true.
Global Instance str_le_dec : RelDecision str_le.
Proof. intros a b. unfold str_le. apply _. Defined.
Global Instance str_lt_dec : RelDecision str_lt.
Proof. intros a b. unfold str_lt. apply _. Defined.

Lemma string_app_cons x a b : String x a +:+ b = String x (a +:+ b).
Proof. done. Qed.
Lemma string_app_nil_l b : EmptyString +:+ b = b.
Proof. done. Qed.
Hint Rewrite string_app_cons string_app_nil_l : kernel.

Lemma strip_prefix_Some p s r : strip_prefix p s = Some r <-> s = p +:+ r.
Proof.
  revert s; induction p as [|a p IH]; intros s; simpl; autorewrite with kernel.
  { naive_solver. }
  destruct s as [|b s]; [done|].
  destruct (Ascii.eqb_spec a b) as [->|Hne].
  - rewrite IH. split; congruence.
  - split; [done|]. intros [=]; congruence.
Qed.

Lemma strip_prefix_app p r : strip_prefix p (p +:+ r) = Some r.
Proof. by apply strip_prefix_Some. Qed.

Lemma starts_with_spec p s : starts_with p s = true <-> exists r, s = p +:+ r.
Proof.
  unfold starts_with. rewrite bool_decide_eq_true. unfold is_Some.
  setoid_rewrite strip_prefix_Some. done.
Qed.

Lemma string_app_length a b :
  String.length (a +:+ b) = String.length a + String.length b.
Proof. induction a; autorewrite with kernel; simpl; congruence. Qed.

Lemma string_app_inj_len a a' b b' :
  String.length a = String.length a' ->
  a +:+ b = a' +:+ b' -> a = a' /\ b = b'.
Proof.
  revert a'; induction a as [|x a IH]; intros [|y a'];
    autorewrite with kernel; simpl; try lia; [done|].
  intros Hl [= -> H]. destruct (IH a') as [-> ->]; auto with lia.
Qed.

Lemma string_all_app f a b : string_all f (a +:+ b) = string_all f a && string_all f b.
Proof. induction a as [|x a IH]; autorewrite with kernel; simpl; [done|]. by rewrite IH, andb_assoc. Qed.

Lemma string_app_assoc (a b c : string) : (a +:+ b) +:+ c = a +:+ (b +:+ c).
Proof. induction a as [|x a IH]; autorewrite with kernel; simpl; [done|]. by rewrite IH. Qed.

Lemma string_app_nil_r a : a +:+ EmptyString = a.
Proof. induction a as [|x a IH]; autorewrite with kernel; simpl; [done|]. by rewrite IH. Qed.

(** A field that does not contain the separator ends at the first one. *)
Definition no_char (c : Ascii.ascii) (s : string) : bool :=
  string_all (fun a => negb (Ascii.eqb a c)) s.

Lemma string_sep_inj c a a' b b' :
  no_char c a = true -> no_char c a' = true ->
  a +:+ String c b = a' +:+ String c b' -> a = a' /\ b = b'.
Proof.
  unfold no_char. revert a'; induction a as [|x a IH]; intros [|y a'];
    autorewrite with kernel; simpl; try done.
  - by intros _ _ [= ->].
  - intros _ [Hy _]%andb_true_iff [= <- _]. by rewrite Ascii.eqb_refl in Hy.
  - intros [Hx _]%andb_true_iff _ [= <- _]. by rewrite Ascii.eqb_refl in Hx.
  - intros [_ Hx]%andb_true_iff [_ Hy]%andb_true_iff [= -> H].
    destruct (IH a' Hx Hy H) as [-> ->]. done.
Qed.

Lemma string_all_impl (f g : Ascii.ascii -> bool) s :
  (forall a, f a = true -> g a = true) -> string_all f s = true -> string_all g s = true.
Proof.
  intros Hfg. induction s as [|a s IH]; simpl; [done|].
  intros [Ha Hs]%andb_true_iff. by rewrite Hfg, IH.
Qed.

(** Decimal numbers are written with digits only. *)
Definition is_ascii_digit (a : Ascii.ascii) : bool :=
  let b := byte_val a in bool_decide (48 <= b <= 57)%Z.

Lemma pretty_N_char_digit n : is_ascii_digit (pretty_N_char n) = true.
Proof. destruct n as [|p]; [done|]. do 4 (destruct p; try done). Qed.

Lemma pretty_N_go_digits n s :
  string_all is_ascii_digit s = true -> string_all is_ascii_digit (pretty_N_go n s) = true.
Proof.
  revert s. induction (N.lt_wf_0 n) as [n _ IH]. intros s Hs.
  destruct (decide (n = 0%N)) as [->|Hn]; [by rewrite pretty_N_go_0|].
  rewrite pretty_N_go_step by lia. apply IH; [apply N.div_lt; lia|].
  cbn [string_all]. by rewrite pretty_N_char_digit.
Qed.

Lemma pretty_N_digits (n : N) : string_all is_ascii_digit (pretty n) = true.
Proof.
  unfold pretty, pretty_N. case_decide; [done|]. by apply pretty_N_go_digits.
Qed.

Lemma pretty_Z_digits (z : Z) : (0 <= z)%Z -> string_all is_ascii_digit (pretty z) = true.
Proof. destruct z as [|p|p]; intros; [done|apply pretty_N_digits|lia]. Qed.

Lemma digits_no_char c s :
  is_ascii_digit c = false -> string_all is_ascii_digit s = true -> no_char c s = true.
Proof.
  intros Hc. apply string_all_impl. intros a Ha.
  destruct (Ascii.eqb_spec a c) as [->|]; [congruence|done].
Qed.

(** The order of strings is total and antisymmetric. *)
Lemma str_compare_antisym a b : String.compare a b = CompOpp (String.compare b a).
Proof. apply String.compare_antisym. Qed.

Global Instance str_le_total : Total str_le.
Proof. intros a b. unfold str_le. destruct (String.leb_total a b); auto. Qed.

Global Instance str_le_antisym : AntiSymm (=) str_le.
Proof. intros a b ??. by apply String.leb_antisym. Qed.

(** The order is lexicographic on bytes. *)
Lemma str_le_cons x a y b :
  str_le (String x a) (String y b) <-> (byte_val x < byte_val y)%Z \/ x = y /\ str_le a b.
Proof.
  unfold str_le, String.leb, byte_val. cbn [String.compare]. unfold Ascii.compare.
  destruct (N.compare_spec (Ascii.N_of_ascii x) (Ascii.N_of_ascii y)) as [Heq|Hlt|Hgt].
  - assert (x = y) as ->.
    { rewrite <-(Ascii.ascii_N_embedding x), <-(Ascii.ascii_N_embedding y). by rewrite Heq. }
    split; [by right|]. intros [?|[_ ?]]; [lia|done].
  - split; [left; lia|done].
  - split; [done|]. intros [?|[-> _]]; lia.
Qed.

Global Instance str_le_trans : Transitive str_le.
Proof.
  intros a. induction a as [|x a IH]; intros [|y b] [|z c] Hab Hbc; try done.
  apply str_le_cons in Hab as [Hxy|[-> Hab]]; apply str_le_cons in Hbc as [Hyz|[-> Hbc]];
    apply str_le_cons; [left; lia|by left|by left|right]. split; [done|by apply (IH b)].
Qed.

(** ** Ordered maps

    A [BTreeMap<String, V>] is a [gmap string V]; iterating it visits the
    entries in increasing key order. *)
Definition entry_le {V} : relation (string * V) := fun x y => str_le x.1 y.1.
Global Instance entry_le_dec {V} : RelDecision (@entry_le V).
Proof. intros x y. unfold entry_le. apply _. Defined.
Global Instance entry_le_total {V} : Total (@entry_le V).
Proof. intros x y. apply (total str_le). Qed.

Definition iter_map {V} (m : gmap string V) : list (string * V) :=
  merge_sort entry_le (map_to_list m).

Definition map_values {V} (m : gmap string V) : list V := (iter_map m).*2.

Lemma iter_map_perm {V} (m : gmap string V) : iter_map m ≡ₚ map_to_list m.
Proof. apply merge_sort_Permutation. Qed.

Lemma elem_of_iter_map {V} (m : gmap string V) k v :
  (k, v) ∈ iter_map m <-> m !! k = Some v.
Proof. rewrite iter_map_perm. apply elem_of_map_to_list. Qed.

Lemma iter_map_sorted {V} (m : gmap string V) : Sorted entry_le (iter_map m).
Proof. apply Sorted_merge_sort, _. Qed.

Lemma elem_of_map_values {V} (m : gmap string V) v :
  v ∈ map_values m <-> exists k, m !! k = Some v.
Proof.
  unfold map_values. rewrite list_elem_of_fmap. split.
  - intros ([k v'] & -> & H). exists k. by apply elem_of_iter_map.
  - intros [k H]. exists (k, v). split; [done|]. by apply elem_of_iter_map.
Qed.

(** Changing one entry of a list changes a count by that entry. *)
Lemma filter_insert_count {A} (P : A -> bool) (l : list A) i c d :
  l !! i = Some c ->
  (length (filter (fun x => P x = true) (<[i := d]> l)) + (if P c then 1 else 0)
   = length (filter (fun x => P x = true) l) + (if P d then 1 else 0))%nat.
Proof.
  revert i. induction l as [|x l IH]; intros [|i] Hi; simplify_eq/=.
  - rewrite !filter_cons. destruct (P c), (P d); simpl; lia.
  - rewrite !filter_cons. specialize (IH i Hi). destruct (P x); simpl; lia.
Qed.

Lemma mjoin_insert_perm {A B} (f : A -> list B) (l : list A) i c d :
  l !! i = Some c ->
  mjoin (f <$> <[i := d]> l) ++ f c ≡ₚ mjoin (f <$> l) ++ f d.
Proof.
  revert i. induction l as [|x l IH]; intros [|i] Hi; simplify_eq/=.
  - rewrite <-!app_assoc. rewrite (Permutation_app_comm (mjoin _) (f c)), app_assoc.
    rewrite (Permutation_app_comm (f d) (f c)), <-app_assoc.
    by rewrite (Permutation_app_comm (f d)).
  - rewrite <-!app_assoc. by rewrite (IH i Hi).
Qed.
