(* ===== verification/External.v ===== *)
(** * Interfaces of the code the kernel calls but does not contain

    The BLAKE3, hex, serde_json and chrono crates are not part of the
    repository. Each is an operational class (what the kernel calls) and,
    where a theorem needs it, a class of laws that state the crate's
    documented behaviour. *)

From S2P Require Import Prelude.
From Stdlib Require Import Eqdep_dec.
From stdpp Require Import options.

(** A byte slice or vector. *)
Definition bytes : Type := string.

(** [[u8; 32]]. *)
Record array32 : Type := MkArray32 {
  array32_bytes : bytes;
  array32_len : bool_decide (String.length array32_bytes = 32) = true
}.

Lemma array32_eq (a b : array32) : array32_bytes a = array32_bytes b -> a = b.
Proof.
  destruct a as [x Hx], b as [y Hy]; simpl; intros ->. f_equal.
  apply UIP_dec. apply Bool.bool_dec.
Qed.

(** 32 zero bytes, for examples. *)
Definition zero_array32 : array32 :=
  MkArray32 (String.concat EmptyString
    (replicate 32 (String (Ascii.ascii_of_nat 0) EmptyString))) eq_refl.

Global Instance array32_eq_dec : EqDecision array32.
Proof.
  refine (fun a b => cast_if (decide (array32_bytes a = array32_bytes b)));
    [by apply array32_eq | congruence].
Defined.

(** [Vec<u8>::try_into::<[u8; 32]>]. *)
Definition to_array32 (b : bytes) : option array32 :=
  match bool_decide (String.length b = 32) as r
    return bool_decide (String.length b = 32) = r -> option array32
  with
  | true => fun H => Some (MkArray32 b H)
  | false => fun _ => None
  end eq_refl.

Lemma array32_length a : String.length (array32_bytes a) = 32.
Proof. exact (bool_decide_eq_true_1 _ (array32_len a)). Qed.

Lemma to_array32_bytes a : to_array32 (array32_bytes a) = Some a.
Proof.
  unfold to_array32. generalize (eq_refl (bool_decide (String.length (array32_bytes a) = 32))).
  generalize (bool_decide (String.length (array32_bytes a) = 32)) at 2 3.
  intros [] H; [f_equal; by apply array32_eq|].
  pose proof (array32_len a). congruence.
Qed.

Lemma to_array32_Some b a : to_array32 b = Some a <-> array32_bytes a = b.
Proof.
  split; [|intros <-; apply to_array32_bytes].
  unfold to_array32. generalize (eq_refl (bool_decide (String.length b = 32))).
  generalize (bool_decide (String.length b = 32)) at 2 3.
  intros [] H; naive_solver.
Qed.

Lemma to_array32_None b : to_array32 b = None <-> String.length b <> 32.
Proof.
  split.
  - intros H Hl. assert (Hb : bool_decide (String.length b = 32) = true)
      by by apply bool_decide_eq_true.
    pose proof (to_array32_bytes (MkArray32 b Hb)). simpl in *. congruence.
  - intros Hl. destruct (to_array32 b) as [a|] eqn:Ha; [|done].
    apply to_array32_Some in Ha as <-. by rewrite array32_length in Hl.
Qed.

(** [blake3::hash(..).as_bytes()]. *)
Class Blake3 := blake3_hash : bytes -> array32.

(** Lowercase hexadecimal digits. *)
Definition is_lower_hex (a : Ascii.ascii) : bool :=
  let b := byte_val a in
  bool_decide ((48 <= b <= 57)%Z) || bool_decide ((97 <= b <= 102)%Z).

(** The [hex] crate; [hex_decode] fails with a message. *)
Class Hex := {
  hex_encode : bytes -> string;
  hex_decode : string -> result string bytes
}.

(** Encoding writes two lowercase digits per byte and decoding reverses it. *)
Class HexLaws `{Hex} := {
  hex_encode_length b : String.length (hex_encode b) = 2 * String.length b;
  hex_encode_lower b : string_all is_lower_hex (hex_encode b) = true;
  hex_decode_encode b : hex_decode (hex_encode b) = Ok b
}.

(** [serde_json] at one type: compact encoding, and decoding. *)
Class Json (A : Type) := {
  to_json : A -> result string bytes;
  of_json : bytes -> result string A
}.

(** A value that was encoded decodes to itself. *)
Class JsonLaws (A : Type) `{Json A} :=
  of_json_to_json (a : A) b : to_json a = Ok b -> of_json b = Ok a.

(** [chrono]: instants are milliseconds since the Unix epoch.
    [format_millis] is [DateTime::from_timestamp_millis] followed by
    [to_rfc3339_opts(Millis, true)], and [None] when the instant is out of
    range; [parse_rfc3339] gives the instant of a text, if it is one. Instants
    are counted in nanoseconds, the resolution of a parsed text. *)
Class Chrono := {
  format_millis : Z -> option string;
  parse_rfc3339 : string -> option Z
}.

(** The years 0000 to 9999, in which the written year has four digits. *)
Definition four_digit_years (m : Z) : Prop :=
  (-62167219200000 <= m < 253402300800000)%Z.
Global Instance four_digit_years_dec m : Decision (four_digit_years m).
Proof. unfold four_digit_years. apply _. Defined.

(** What is written is read back; in the years of four digits every instant
    can be written, at a fixed width that orders texts as instants. *)
Class ChronoLaws `{Chrono} := {
  parse_format m s : format_millis m = Some s -> parse_rfc3339 s = Some (m * 1000000)%Z;
  format_in_range m : four_digit_years m -> is_Some (format_millis m);
  format_order m1 m2 s1 s2 :
    four_digit_years m1 -> four_digit_years m2 ->
    format_millis m1 = Some s1 -> format_millis m2 = Some s2 ->
    (str_lt s1 s2 <-> (m1 < m2)%Z)
}.

(** A codec that knows one value, for examples. *)
Definition one_value_json {A} `{EqDecision A} (a : A) (text : string) : Json A := {|
  to_json x := if decide (x = a) then Ok text else Err "unknown value";
  of_json s := if decide (s = text) then Ok a else Err "unknown text"
|}.

Lemma one_value_json_laws {A} `{EqDecision A} (a : A) (text : string) :
  @JsonLaws A (one_value_json a text).
Proof.
  intros x b Hx. cbn in *. destruct (decide (x = a)) as [->|]; [|done].
  injection Hx as <-. by rewrite decide_True.
Qed.
