(* ===== verification/Ids.v ===== *)
(** * Typed identifiers, digests and domain errors

    Models crates/domain/src/ids.rs, digest.rs and error.rs. *)

From S2P Require Import Prelude External.
From stdpp Require Import options.

(** ** Errors *)

(** crates/domain/src/error.rs:5-40 (DomainError) *)
Inductive DomainError : Type :=
| InvalidId (raw : string)
| InvalidTransition (from to : string)
| InvalidLeaseTtl (ttl : Z)
| StaleAuthority (msg : string)
| FenceError (msg : string)
| IdempotencyError (msg : string)
| EncodingError (msg : string)
| ConflictError (msg : string)
| UnknownState (msg : string).

Global Instance DomainError_eq_dec : EqDecision DomainError.
Proof. solve_decision. Defined.

(** crates/domain/src/error.rs:43-57 (DomainError::reason_code) *)
Definition DomainError_reason_code (e : DomainError) : string :=
  match e with
  | InvalidId _ => "INVALID_ID"
  | InvalidTransition _ _ => "INVALID_TRANSITION"
  | InvalidLeaseTtl _ => "INVALID_LEASE_TTL"
  | StaleAuthority _ => "STALE_AUTHORITY"
  | FenceError _ => "FENCE_REUSE"
  | IdempotencyError _ => "IDEMPOTENCY_CONFLICT"
  | EncodingError _ => "ENCODING_FAILURE"
  | ConflictError _ => "GRAPH_CONFLICT"
  | UnknownState _ => "UNKNOWN_STATE"
  end.

(** The `#[error(..)]` rendering of thiserror. *)
(** crates/domain/src/error.rs:8-40 (Display for DomainError) *)
Definition DomainError_display (e : DomainError) : string :=
  match e with
  | InvalidId s => "invalid id: " +:+ s
  | InvalidTransition from to =>
      "invalid transition: " +:+ from +:+ " cannot become " +:+ to
  | InvalidLeaseTtl n =>
      "invalid lease TTL " +:+ pretty n +:+ "; expected Phase-1 range 1..=15 seconds"
  | StaleAuthority s => "stale or incomplete authority token: " +:+ s
  | FenceError s => "fence invariant violated: " +:+ s
  | IdempotencyError s => "idempotency conflict: " +:+ s
  | EncodingError s => "canonical encoding: " +:+ s
  | ConflictError s => "graph conflict: " +:+ s
  | UnknownState s => "unknown state label: " +:+ s
  end.

(** ** Digests *)

(** crates/domain/src/digest.rs:6-8 (Digest) *)
Record Digest : Type := MkDigest { as_bytes : array32 }.

Global Instance Digest_eq_dec : EqDecision Digest.
Proof. solve_decision. Defined.

Section DigestOps.
Context `{Blake3} `{Hex}.

(** crates/domain/src/digest.rs:11-15 (Digest::of) *)
Definition Digest_of (b : bytes) : Digest := MkDigest (blake3_hash b).

(** crates/domain/src/digest.rs:17-22 (Digest::of_json) *)
Definition Digest_of_json {A} `{Json A} (value : A) : result DomainError Digest :=
  b ← map_err EncodingError (to_json value);
  mret (Digest_of b).

(** crates/domain/src/digest.rs:24-28 (Digest::to_hex) *)
Definition to_hex (d : Digest) : string := hex_encode (array32_bytes (as_bytes d)).

(** crates/domain/src/digest.rs:36-43 (Digest::from_hex) *)
Definition from_hex (text : string) : result DomainError Digest :=
  raw ← map_err EncodingError (hex_decode text);
  b ← ok_or (to_array32 raw) (EncodingError "digest must be 32 bytes");
  mret (MkDigest b).

Lemma to_hex_length `{!HexLaws} d : String.length (to_hex d) = 64.
Proof. unfold to_hex. by rewrite hex_encode_length, array32_length. Qed.

Lemma to_hex_lower `{!HexLaws} d : string_all is_lower_hex (to_hex d) = true.
Proof. apply hex_encode_lower. Qed.

Lemma from_hex_to_hex `{!HexLaws} d : from_hex (to_hex d) = Ok d.
Proof.
  unfold from_hex, to_hex. rewrite hex_decode_encode. simpl.
  rewrite to_array32_bytes. by destruct d.
Qed.

Lemma to_hex_inj `{!HexLaws} d1 d2 : to_hex d1 = to_hex d2 -> d1 = d2.
Proof.
  intros Heq. pose proof (from_hex_to_hex d1) as Hd.
  rewrite Heq, from_hex_to_hex in Hd. naive_solver.
Qed.
End DigestOps.

(** ** Identifiers

    The macro [typed_id!] makes one type per prefix; here the prefix is the
    index of the type. *)

(** crates/domain/src/ids.rs:19-23 (typed_id! struct) *)
Record Id (prefix : string) : Type := MkId { id_as_str : string }.
Arguments MkId {prefix} _.
Arguments id_as_str {prefix} _.

Global Instance Id_eq_dec p : EqDecision (Id p).
Proof. solve_decision. Defined.
Global Instance Id_countable p : Countable (Id p).
Proof. by apply (inj_countable' id_as_str MkId); intros []. Defined.

Lemma Id_eq {p} (a b : Id p) : id_as_str a = id_as_str b <-> a = b.
Proof. destruct a, b; simpl; naive_solver. Qed.

(** crates/domain/src/ids.rs:96-115 (typed_id! instances) *)
Definition id_prefixes : list string :=
  ["org"; "rep"; "mis"; "acc"; "pln"; "wpk"; "sel"; "var"; "atm"; "run";
   "wsp"; "can"; "evd"; "efi"; "efr"; "cmd"; "cog"; "ctx"; "prf"; "req"].

Definition OrganizationId := Id "org".
Definition RepositoryId := Id "rep".
Definition MissionId := Id "mis".
Definition AcceptanceContractId := Id "acc".
Definition PlanRevisionId := Id "pln".
Definition WorkPackageId := Id "wpk".
Definition SelectionGroupId := Id "sel".
Definition VariantId := Id "var".
Definition AttemptId := Id "atm".
Definition RunnerId := Id "run".
Definition WorkspaceId := Id "wsp".
Definition CandidateId := Id "can".
Definition EvidenceId := Id "evd".
Definition EffectId := Id "efi".
Definition EffectReceiptId := Id "efr".
Definition CommandId := Id "cmd".
Definition CognitiveTaskId := Id "cog".
Definition ContextCapsuleId := Id "ctx".
Definition ProfileId := Id "prf".
Definition RequirementId := Id "req".

(** crates/domain/src/ids.rs:28-33 (typed_id!::from_seed) *)
Definition id_from_seed `{Blake3} `{Hex} {p : string} (seed : string) : Id p :=
  let digest := Digest_of (p +:+ ":" +:+ seed) in
  MkId (p +:+ "_" +:+ to_hex digest).

(** crates/domain/src/ids.rs:35-50 (typed_id!::parse) *)
Definition id_parse {p : string} (raw : string) : result DomainError (Id p) :=
  match strip_prefix (p +:+ "_") raw with
  | None => Err (InvalidId raw)
  | Some body =>
      if negb (bool_decide (str_len body = 64%Z)) || negb (string_all is_lower_hex body)
      then Err (InvalidId raw)
      else Ok (MkId raw)
  end.

(** The wire form: a prefix, an underscore, 64 lowercase hex digits. *)
Definition id_wire_form (p raw : string) : Prop :=
  exists body, raw = p +:+ "_" +:+ body /\ String.length body = 64
    /\ string_all is_lower_hex body = true.

Lemma id_parse_Ok p raw (i : Id p) :
  id_parse raw = Ok i <-> id_as_str i = raw /\ id_wire_form p raw.
Proof.
  unfold id_parse, id_wire_form, str_len. split.
  - intros H. destruct (strip_prefix _ raw) as [body|] eqn:Hs; [|done].
    apply strip_prefix_Some in Hs. case_result.
    split; [done|]. exists body. rewrite string_app_assoc.
    split; [done|]. split; [lia|done].
  - intros (<- & body & Hraw & Hlen & Hall).
    rewrite Hraw, <- string_app_assoc, strip_prefix_app, Hlen, Hall. simpl.
    destruct i as [s]; simpl in *. by rewrite string_app_assoc, <- Hraw.
Qed.

Lemma id_parse_total p raw : (exists i : Id p, id_parse raw = Ok i) \/
  id_parse (p:=p) raw = Err (InvalidId raw).
Proof. unfold id_parse. destruct (strip_prefix _ raw); [case_match|]; eauto. Qed.

Lemma id_from_seed_wire `{Blake3} `{HexLaws} p seed :
  id_wire_form p (id_as_str (id_from_seed (p:=p) seed)).
Proof.
  eexists. split; [done|]. split; [apply to_hex_length|apply to_hex_lower].
Qed.

(** Two identifier types accept a common string only if they are the same. *)
Lemma id_wire_form_prefix p q raw :
  String.length p = String.length q ->
  id_wire_form p raw -> id_wire_form q raw -> p = q.
Proof.
  intros Hl (b & -> & _) (b' & Heq & _).
  by apply string_app_inj_len in Heq as [].
Qed.

Lemma id_prefixes_length p : p ∈ id_prefixes -> String.length p = 3.
Proof.
  intros Hp. unfold id_prefixes in Hp.
  repeat (apply elem_of_cons in Hp as [->|Hp]; [done|]). by apply elem_of_nil in Hp.
Qed.

Lemma id_from_seed_inj `{Blake3} `{HexLaws} p s1 s2 :
  id_from_seed (p:=p) s1 = id_from_seed s2 ->
  s1 = s2 \/ exists x y, x <> y /\ blake3_hash x = blake3_hash y.
Proof.
  intros Heq. destruct (decide (s1 = s2)) as [->|Hne]; [by left|right].
  unfold id_from_seed in Heq. injection Heq as Heq.
  apply (inj (String.append _)) in Heq. apply (inj (String.append _)) in Heq.
  apply to_hex_inj in Heq. injection Heq as Heq.
  eexists _, _. split; [|exact Heq].
  intros Hc. apply (inj (String.append _)) in Hc. by apply (inj (String.append _)) in Hc.
Qed.

(** ** Properties *)

(** An identifier type admits exactly the strings made of its prefix, an
    underscore and 64 lowercase hexadecimal digits, keeps the string as it
    is, refuses every other string by naming it; and no string is an
    identifier of two of the twenty types. *)
Theorem id_parse_exact (p raw : string) :
  (forall i : Id p, id_parse raw = Ok i <-> id_as_str i = raw /\ id_wire_form p raw) /\
  (~ id_wire_form p raw -> id_parse (p:=p) raw = Err (InvalidId raw)) /\
  (forall q (i : Id p) (j : Id q), p ∈ id_prefixes -> q ∈ id_prefixes ->
     id_parse raw = Ok i -> id_parse raw = Ok j -> p = q).
Proof.
  split; [intros; apply id_parse_Ok|]. split.
  - intros Hn. destruct (id_parse_total p raw) as [[i Hi]|]; [|done].
    by apply id_parse_Ok in Hi as [_ ?].
  - intros q i j Hp Hq [_ Hi]%id_parse_Ok [_ Hj]%id_parse_Ok.
    apply (id_wire_form_prefix p q raw); [|done|done].
    by rewrite !id_prefixes_length.
Qed.

(** An identifier made from a seed passes its own parser, and two seeds
    give the same identifier only if BLAKE3 collides. *)
Theorem id_from_seed_canonical `{Blake3} `{HexLaws} (p : string) (s1 s2 : string) :
  id_parse (id_as_str (id_from_seed (p:=p) s1)) = Ok (id_from_seed (p:=p) s1) /\
  (id_from_seed (p:=p) s1 = id_from_seed s2 ->
   s1 = s2 \/ exists x y, x <> y /\ blake3_hash x = blake3_hash y).
Proof.
  split; [|apply id_from_seed_inj].
  apply id_parse_Ok. split; [done|apply id_from_seed_wire].
Qed.
