(* ===== verification/States.v ===== *)
(** * State machines of the domain

    Models crates/domain/src/states.rs: the Mission, Work Package, Attempt
    and Command Phase machines. The `allow!` tables are matches on the pair
    of the current and the requested state, in the order of the source. *)

From S2P Require Import Prelude Ids.
From stdpp Require Import options.

(** crates/domain/src/states.rs:6-24 (MissionState) *)
Inductive MissionState : Type :=
| MissionDraft
| MissionAdmitted
| MissionPlanning
| MissionActive
| MissionObserving
| MissionSurvived
| MissionRejected.

(** crates/domain/src/states.rs:26-70 (WorkPackageState) *)
Inductive WorkPackageState : Type :=
| WpPending
| WpReady
| WpLeased
| WpExecuting
| WpPrepared
| WpVerifying
| WpVerified
| WpReviewing
| WpIntegrationReady
| WpIntegrating
| WpIntegrated
| WpObserving
| WpSurvived
| WpStruggling
| WpEscalating
| WpQuarantined
| WpCancelled
| WpFailed
| WpReverted
| WpRejected.

(** crates/domain/src/states.rs:72-100 (AttemptState) *)
Inductive AttemptState : Type :=
| AtCreated
| AtStarting
| AtRunning
| AtPaused
| AtCheckpointing
| AtPreparing
| AtSucceeded
| AtSuperseded
| AtFailed
| AtCrashed
| AtCancelled
| AtQuarantined.

Definition MissionState_debug (s : MissionState) : string :=
  match s with
  | MissionDraft => "Draft"
  | MissionAdmitted => "Admitted"
  | MissionPlanning => "Planning"
  | MissionActive => "Active"
  | MissionObserving => "Observing"
  | MissionSurvived => "Survived"
  | MissionRejected => "Rejected"
  end.

Definition WorkPackageState_debug (s : WorkPackageState) : string :=
  match s with
  | WpPending => "Pending"
  | WpReady => "Ready"
  | WpLeased => "Leased"
  | WpExecuting => "Executing"
  | WpPrepared => "Prepared"
  | WpVerifying => "Verifying"
  | WpVerified => "Verified"
  | WpReviewing => "Reviewing"
  | WpIntegrationReady => "IntegrationReady"
  | WpIntegrating => "Integrating"
  | WpIntegrated => "Integrated"
  | WpObserving => "Observing"
  | WpSurvived => "Survived"
  | WpStruggling => "Struggling"
  | WpEscalating => "Escalating"
  | WpQuarantined => "Quarantined"
  | WpCancelled => "Cancelled"
  | WpFailed => "Failed"
  | WpReverted => "Reverted"
  | WpRejected => "Rejected"
  end.

Definition AttemptState_debug (s : AttemptState) : string :=
  match s with
  | AtCreated => "Created"
  | AtStarting => "Starting"
  | AtRunning => "Running"
  | AtPaused => "Paused"
  | AtCheckpointing => "Checkpointing"
  | AtPreparing => "Preparing"
  | AtSucceeded => "Succeeded"
  | AtSuperseded => "Superseded"
  | AtFailed => "Failed"
  | AtCrashed => "Crashed"
  | AtCancelled => "Cancelled"
  | AtQuarantined => "Quarantined"
  end.

(** crates/domain/src/states.rs:233-258 (WorkPackageState::as_str) *)
Definition WorkPackageState_as_str (s : WorkPackageState) : string :=
  match s with
  | WpPending => "pending"
  | WpReady => "ready"
  | WpLeased => "leased"
  | WpExecuting => "executing"
  | WpPrepared => "prepared"
  | WpVerifying => "verifying"
  | WpVerified => "verified"
  | WpReviewing => "reviewing"
  | WpIntegrationReady => "integration_ready"
  | WpIntegrating => "integrating"
  | WpIntegrated => "integrated"
  | WpObserving => "observing"
  | WpSurvived => "survived"
  | WpStruggling => "struggling"
  | WpEscalating => "escalating"
  | WpQuarantined => "quarantined"
  | WpCancelled => "cancelled"
  | WpFailed => "failed"
  | WpReverted => "reverted"
  | WpRejected => "rejected"
  end.

(** crates/domain/src/states.rs:368-385 (AttemptState::as_str) *)
Definition AttemptState_as_str (s : AttemptState) : string :=
  match s with
  | AtCreated => "created"
  | AtStarting => "starting"
  | AtRunning => "running"
  | AtPaused => "paused"
  | AtCheckpointing => "checkpointing"
  | AtPreparing => "preparing"
  | AtSucceeded => "succeeded"
  | AtSuperseded => "superseded"
  | AtFailed => "failed"
  | AtCrashed => "crashed"
  | AtCancelled => "cancelled"
  | AtQuarantined => "quarantined"
  end.

(** crates/domain/src/states.rs:102-116 (CommandPhase) *)
Inductive CommandPhase : Type :=
| PhasePending
| PhaseApplied
| PhaseFailed
| PhaseVerified
| PhaseUnknown.

Global Instance MissionState_eq_dec : EqDecision MissionState.
Proof. solve_decision. Defined.
Global Instance WorkPackageState_eq_dec : EqDecision WorkPackageState.
Proof. solve_decision. Defined.
Global Instance AttemptState_eq_dec : EqDecision AttemptState.
Proof. solve_decision. Defined.
Global Instance CommandPhase_eq_dec : EqDecision CommandPhase.
Proof. solve_decision. Defined.

(** ** Command phases *)

(** crates/domain/src/states.rs:119-129 (CommandPhase::as_str) *)
Definition CommandPhase_as_str (p : CommandPhase) : string :=
  match p with
  | PhasePending => "pending"
  | PhaseApplied => "applied"
  | PhaseFailed => "failed"
  | PhaseVerified => "verified"
  | PhaseUnknown => "unknown"
  end.

(** crates/domain/src/states.rs:131-145 (CommandPhase::parse) *)
Definition CommandPhase_parse (name : string) : result DomainError CommandPhase :=
  if bool_decide (name = "pending") then Ok PhasePending
  else if bool_decide (name = "applied") then Ok PhaseApplied
  else if bool_decide (name = "failed") then Ok PhaseFailed
  else if bool_decide (name = "verified") then Ok PhaseVerified
  else if bool_decide (name = "unknown") then Ok PhaseUnknown
  else Err (UnknownState ("command phase " +:+ name)).

(** ** Transitions *)

(** crates/domain/src/states.rs:161-178 (MissionState::transition) *)
Definition MissionState_transition (from to : MissionState)
  : result DomainError MissionState :=
  match from, to with
  | MissionDraft, MissionAdmitted => Ok MissionAdmitted
  | MissionAdmitted, MissionPlanning => Ok MissionPlanning
  | MissionPlanning, MissionActive => Ok MissionActive
  | MissionActive, MissionObserving => Ok MissionObserving
  | MissionObserving, MissionSurvived => Ok MissionSurvived
  | (MissionDraft | MissionAdmitted | MissionPlanning | MissionActive
      | MissionObserving), MissionRejected => Ok MissionRejected
  | _, _ => Err (InvalidTransition (MissionState_debug from) (MissionState_debug to))
  end.

(** crates/domain/src/states.rs:182-231 (WorkPackageState::transition) *)
Definition WorkPackageState_transition (from to : WorkPackageState)
  : result DomainError WorkPackageState :=
  match from, to with
  | WpPending, WpReady => Ok WpReady
  | WpReady, WpPending => Ok WpPending
  | WpReady, WpLeased => Ok WpLeased
  | WpLeased, WpExecuting => Ok WpExecuting
  | (WpLeased | WpExecuting), WpReady => Ok WpReady
  | WpExecuting, WpPrepared => Ok WpPrepared
  | WpPrepared, WpVerifying => Ok WpVerifying
  | WpVerifying, WpVerified => Ok WpVerified
  | WpVerified, WpReviewing => Ok WpReviewing
  | WpReviewing, WpIntegrationReady => Ok WpIntegrationReady
  | WpIntegrationReady, WpIntegrating => Ok WpIntegrating
  | WpIntegrating, WpIntegrated => Ok WpIntegrated
  | WpIntegrated, WpObserving => Ok WpObserving
  | WpObserving, WpSurvived => Ok WpSurvived
  | WpExecuting, WpStruggling => Ok WpStruggling
  | (WpStruggling | WpEscalating), WpExecuting => Ok WpExecuting
  | WpStruggling, WpEscalating => Ok WpEscalating
  | (WpIntegrated | WpObserving), WpReverted => Ok WpReverted
  | (WpPending | WpReady | WpLeased | WpExecuting | WpPrepared | WpVerifying
      | WpVerified | WpReviewing | WpIntegrationReady | WpIntegrating
      | WpStruggling | WpEscalating), WpRejected => Ok WpRejected
  | (WpPending | WpReady | WpLeased | WpExecuting | WpPrepared | WpVerifying
      | WpVerified | WpReviewing | WpIntegrationReady | WpIntegrating
      | WpStruggling | WpEscalating), WpFailed => Ok WpFailed
  | (WpPending | WpReady | WpLeased | WpExecuting | WpPrepared | WpVerifying
      | WpVerified | WpReviewing | WpIntegrationReady | WpIntegrating
      | WpStruggling | WpEscalating), WpCancelled => Ok WpCancelled
  | (WpPending | WpReady | WpLeased | WpExecuting | WpPrepared | WpVerifying
      | WpVerified | WpReviewing | WpIntegrationReady | WpIntegrating
      | WpStruggling | WpEscalating), WpQuarantined => Ok WpQuarantined
  | _, _ =>
      Err (InvalidTransition (WorkPackageState_debug from) (WorkPackageState_debug to))
  end.

(** crates/domain/src/states.rs:262-300 (AttemptState::transition) *)
Definition AttemptState_transition (from to : AttemptState)
  : result DomainError AttemptState :=
  match from, to with
  | AtCreated, AtStarting => Ok AtStarting
  | AtStarting, AtRunning => Ok AtRunning
  | AtRunning, AtPaused => Ok AtPaused
  | (AtPaused | AtCheckpointing), AtRunning => Ok AtRunning
  | AtRunning, AtCheckpointing => Ok AtCheckpointing
  | (AtRunning | AtCheckpointing), AtPreparing => Ok AtPreparing
  | AtPreparing, AtSucceeded => Ok AtSucceeded
  | (AtCreated | AtStarting | AtRunning | AtPaused | AtCheckpointing | AtPreparing),
      AtSuperseded => Ok AtSuperseded
  | (AtCreated | AtStarting | AtRunning | AtPaused | AtCheckpointing | AtPreparing),
      AtFailed => Ok AtFailed
  | (AtCreated | AtStarting | AtRunning | AtPaused | AtCheckpointing | AtPreparing),
      AtCrashed => Ok AtCrashed
  | (AtCreated | AtStarting | AtRunning | AtPaused | AtCheckpointing | AtPreparing),
      AtCancelled => Ok AtCancelled
  | (AtCreated | AtStarting | AtRunning | AtPaused | AtCheckpointing | AtPreparing),
      AtQuarantined => Ok AtQuarantined
  | _, _ => Err (InvalidTransition (AttemptState_debug from) (AttemptState_debug to))
  end.

(** ** Attempt predicates *)

(** crates/domain/src/states.rs:302-309 (AttemptState::permits_lease_heartbeat) *)
Definition permits_lease_heartbeat (s : AttemptState) : bool :=
  match s with
  | AtStarting | AtRunning | AtPaused | AtCheckpointing | AtPreparing => true
  | _ => false
  end.

(** crates/domain/src/states.rs:311-319 (AttemptState::permits_online_lease_check) *)
Definition permits_online_lease_check (s : AttemptState) : bool :=
  match s with
  | AtStarting | AtRunning | AtPaused | AtCheckpointing | AtPreparing => true
  | _ => false
  end.

(** crates/domain/src/states.rs:321-325 (AttemptState::permits_patch_application) *)
Definition permits_patch_application (s : AttemptState) : bool :=
  match s with AtRunning => true | _ => false end.

(** crates/domain/src/states.rs:327-334 (AttemptState::permits_expiry_reclaim) *)
Definition permits_expiry_reclaim (s : AttemptState) : bool :=
  match s with
  | AtStarting | AtRunning | AtPaused | AtCheckpointing | AtPreparing => true
  | _ => false
  end.

(** crates/domain/src/states.rs:336-348 (AttemptState::is_terminal_release_target) *)
Definition is_terminal_release_target (s : AttemptState) : bool :=
  match s with
  | AtSucceeded | AtSuperseded | AtFailed | AtCrashed | AtCancelled | AtQuarantined => true
  | _ => false
  end.

(** crates/domain/src/states.rs:350-357 (AttemptState::appears_in_active_attempt_projection) *)
Definition appears_in_active_attempt_projection (s : AttemptState) : bool :=
  match s with
  | AtStarting | AtRunning | AtPaused | AtCheckpointing | AtPreparing => true
  | _ => false
  end.

(** crates/domain/src/states.rs:359-366 (AttemptState::permits_preserved_workspace_cleanup) *)
Definition permits_preserved_workspace_cleanup (s : AttemptState) : bool :=
  match s with
  | AtSucceeded | AtSuperseded | AtFailed | AtCrashed | AtCancelled => true
  | _ => false
  end.

(** crates/domain/src/states.rs:387-408 (AttemptState::parse) *)
Definition AttemptState_parse (name : string) : result DomainError AttemptState :=
  if bool_decide (name = "created") then Ok AtCreated
  else if bool_decide (name = "starting") then Ok AtStarting
  else if bool_decide (name = "running") then Ok AtRunning
  else if bool_decide (name = "paused") then Ok AtPaused
  else if bool_decide (name = "checkpointing") then Ok AtCheckpointing
  else if bool_decide (name = "preparing") then Ok AtPreparing
  else if bool_decide (name = "succeeded") then Ok AtSucceeded
  else if bool_decide (name = "superseded") then Ok AtSuperseded
  else if bool_decide (name = "failed") then Ok AtFailed
  else if bool_decide (name = "crashed") then Ok AtCrashed
  else if bool_decide (name = "cancelled") then Ok AtCancelled
  else if bool_decide (name = "quarantined") then Ok AtQuarantined
  else Err (UnknownState ("attempt state " +:+ name)).

(** ** Edges and paths *)

Definition wp_edge (s t : WorkPackageState) : Prop :=
  WorkPackageState_transition s t = Ok t.
Definition at_edge (s t : AttemptState) : Prop :=
  AttemptState_transition s t = Ok t.

Global Instance wp_edge_dec : RelDecision wp_edge.
Proof. intros s t. unfold wp_edge. apply _. Defined.
Global Instance at_edge_dec : RelDecision at_edge.
Proof. intros s t. unfold at_edge. apply _. Defined.

(** A path lists the states entered after the first. *)
Inductive wp_path : WorkPackageState -> list WorkPackageState -> WorkPackageState -> Prop :=
| wp_path_nil s : wp_path s [] s
| wp_path_cons s t l u : wp_edge s t -> wp_path t l u -> wp_path s (t :: l) u.

(** The stages between preparation and landing, in order. *)
Definition landing_pipeline : list WorkPackageState :=
  [WpVerifying; WpVerified; WpReviewing; WpIntegrationReady; WpIntegrating; WpIntegrated].

(** The stages a package in state [s] still has to enter before it has
    landed; [None] when it can no longer land. *)
Definition stages_left (s : WorkPackageState) : option (list WorkPackageState) :=
  match s with
  | WpPending | WpReady | WpLeased | WpExecuting | WpPrepared | WpStruggling
  | WpEscalating => Some landing_pipeline
  | WpVerifying => Some (drop 1 landing_pipeline)
  | WpVerified => Some (drop 2 landing_pipeline)
  | WpReviewing => Some (drop 3 landing_pipeline)
  | WpIntegrationReady => Some (drop 4 landing_pipeline)
  | WpIntegrating => Some (drop 5 landing_pipeline)
  | WpIntegrated | WpObserving | WpSurvived | WpReverted => Some []
  | WpQuarantined | WpCancelled | WpFailed | WpRejected => None
  end.

(** The package is on the protected target, or was. *)
Definition has_landed (s : WorkPackageState) : bool :=
  match s with WpIntegrated | WpObserving | WpSurvived | WpReverted => true | _ => false end.

Lemma wp_edge_stages s t :
  wp_edge s t ->
  match stages_left t with
  | None => True
  | Some lt => stages_left s = Some lt \/ stages_left s = Some (t :: lt)
  end.
Proof. destruct s, t; intros [=]; simpl; auto. Qed.

Lemma wp_edge_dead s t : stages_left s = None -> ~ wp_edge s t.
Proof. destruct s; intros [=]; destruct t; intros [=]. Qed.

Lemma wp_path_stages s l t :
  wp_path s l t -> has_landed t = true ->
  exists ls, stages_left s = Some ls /\ ls `sublist_of` l.
Proof.
  induction 1 as [s|s t l u Hst Hp IH]; intros Hu.
  { exists []. split; [by destruct s|constructor]. }
  destruct (IH Hu) as (lt & Hlt & Hsub).
  pose proof (wp_edge_stages _ _ Hst) as Hs. rewrite Hlt in Hs.
  destruct Hs as [Hs|Hs]; (eexists; split; [exact Hs|]); by constructor.
Qed.

Lemma AttemptState_transition_target s t u :
  AttemptState_transition s t = Ok u -> u = t /\ at_edge s t.
Proof. unfold at_edge. destruct s, t; intros [=]; subst; done. Qed.

Lemma WorkPackageState_transition_target s t u :
  WorkPackageState_transition s t = Ok u -> u = t /\ wp_edge s t.
Proof. unfold wp_edge. destruct s, t; intros [=]; subst; done. Qed.

Lemma AttemptState_transition_refusal s t :
  ~ at_edge s t ->
  AttemptState_transition s t
  = Err (InvalidTransition (AttemptState_debug s) (AttemptState_debug t)).
Proof. unfold at_edge. destruct s, t; simpl; congruence. Qed.

Lemma WorkPackageState_transition_refusal s t :
  ~ wp_edge s t ->
  WorkPackageState_transition s t
  = Err (InvalidTransition (WorkPackageState_debug s) (WorkPackageState_debug t)).
Proof. unfold wp_edge. destruct s, t; simpl; congruence. Qed.

Lemma live_attempt_may_terminate s t :
  permits_expiry_reclaim s = true -> t <> AtSucceeded ->
  is_terminal_release_target t = true -> at_edge s t.
Proof. destruct s, t; intros; try discriminate; (reflexivity || congruence). Qed.

(** No state that is the target of a terminal release has an edge out. *)
Lemma terminal_iff_absorbing s :
  is_terminal_release_target s = true <-> forall t, ~ at_edge s t.
Proof.
  unfold at_edge. split.
  - destruct s; intros [=] []; intros [=].
  - intros H. pose proof (H AtFailed) as Hf. by destruct s; simpl in *.
Qed.

Lemma AttemptState_parse_as_str s : AttemptState_parse (AttemptState_as_str s) = Ok s.
Proof. by destruct s. Qed.

Lemma AttemptState_parse_Ok name s :
  AttemptState_parse name = Ok s -> name = AttemptState_as_str s.
Proof. unfold AttemptState_parse. intros. repeat case_bool_decide; by simplify_eq. Qed.

Lemma CommandPhase_parse_as_str p : CommandPhase_parse (CommandPhase_as_str p) = Ok p.
Proof. by destruct p. Qed.

Lemma CommandPhase_parse_Ok name p :
  CommandPhase_parse name = Ok p -> name = CommandPhase_as_str p.
Proof. unfold CommandPhase_parse. intros. repeat case_bool_decide; by simplify_eq. Qed.


(** ** Properties *)

(** A work package that starts anywhere before preparation and reaches
    the protected target (integrated, observing, survived or reverted) has
    entered verifying, verified, reviewing, integration-ready, integrating
    and integrated, in that order, whatever detours its path took; no path
    leaves a quarantined, cancelled, failed or rejected package. *)
Theorem landing_requires_whole_pipeline s l t :
  wp_path s l t ->
  has_landed t = true ->
  exists ls, stages_left s = Some ls /\ ls `sublist_of` l.
Proof. apply wp_path_stages. Qed.

(** A package that struggles, escalates and is requeued still passes every
    stage before it lands. *)
Lemma landing_requires_whole_pipeline_witness :
  landing_pipeline `sublist_of`
    [WpReady; WpLeased; WpExecuting; WpStruggling; WpEscalating; WpExecuting; WpPrepared;
     WpVerifying; WpVerified; WpReviewing; WpIntegrationReady; WpIntegrating;
     WpIntegrated; WpObserving; WpReverted].
Proof.
  edestruct (landing_requires_whole_pipeline WpPending) as (ls & Hls & Hsub).
  3: { injection Hls as <-. exact Hsub. }
  - repeat (eapply wp_path_cons; [reflexivity|]). apply wp_path_nil.
  - reflexivity.
Defined.

(** The targets of a terminal release are exactly the attempt states
    that refuse every transition, with the error that names both states; and
    every attempt that holds a renewable lease can be moved to every terminal
    state except success, which only a preparing attempt reaches. *)
Theorem terminal_attempts_absorbing s :
  (is_terminal_release_target s = true <->
   forall t, AttemptState_transition s t
             = Err (InvalidTransition (AttemptState_debug s) (AttemptState_debug t))) /\
  (forall t, permits_expiry_reclaim s = true -> is_terminal_release_target t = true ->
   (at_edge s t <-> (t <> AtSucceeded \/ s = AtPreparing))).
Proof.
  split.
  - rewrite terminal_iff_absorbing. split; intros H t.
    + apply AttemptState_transition_refusal, H.
    + unfold at_edge. by rewrite H.
  - intros t Hs Ht. split.
    + intros He. destruct (decide (t = AtSucceeded)) as [->|]; [right|by left].
      by destruct s.
    + intros [Hne| ->]; [by apply live_attempt_may_terminate|by destruct t].
Qed.

(** The persisted names of attempt states and command phases decode to
    the state they were written for, and no other string decodes at all. *)
Theorem state_labels_roundtrip (name : string) :
  (forall s, AttemptState_parse name = Ok s <-> name = AttemptState_as_str s) /\
  (forall p, CommandPhase_parse name = Ok p <-> name = CommandPhase_as_str p).
Proof.
  split; intros x; split.
  - apply AttemptState_parse_Ok.
  - intros ->. apply AttemptState_parse_as_str.
  - apply CommandPhase_parse_Ok.
  - intros ->. apply CommandPhase_parse_as_str.
Qed.
