(* ===== verification/Entities.v ===== *)
(** * Entities, observations and preservation decisions

    Models crates/domain/src/entities.rs, taxonomy.rs, authority.rs,
    observation.rs and behavior.rs. A field [f] of a struct [S] is the
    projection [S_f]. *)

From S2P Require Import Prelude External Ids States.
From stdpp Require Import options.

(** ** Task taxonomy *)

(** crates/domain/src/taxonomy.rs:5-41 (TaskClass) *)
Inductive TaskClass : Type :=
| DeterministicTransform | ExtractStructured | ClassifyRoute | SummarizeLocal
| CompressContext | MechanicalCodeEdit | BoundedBugFix | FeatureImplementation
| BroadRefactor | ArchitectureDesign | SecurityAnalysis | MigrationDesign
| CodeReview | FusionRank | FusionSynthesize | CompletionAssessment.

(** crates/domain/src/taxonomy.rs:43-57 (ModelTier) *)
Inductive ModelTier : Type := TierD0 | TierM1 | TierM2 | TierM3 | TierM4.

Global Instance TaskClass_eq_dec : EqDecision TaskClass.
Proof. solve_decision. Defined.
Global Instance ModelTier_eq_dec : EqDecision ModelTier.
Proof. solve_decision. Defined.

(** crates/domain/src/taxonomy.rs:59-72 (TaskClassification) *)
Record TaskClassification : Type := MkTaskClassification {
  TaskClassification_primary_class : TaskClass;
  TaskClassification_risk_class : string;
  TaskClassification_quality_floor : ModelTier;
  TaskClassification_evidence_requirement : string;
  TaskClassification_classifier_version : string
}.

(** crates/domain/src/taxonomy.rs:75-93 (TaskClass::default_tier) *)
Definition default_tier (c : TaskClass) : ModelTier :=
  match c with
  | DeterministicTransform | ClassifyRoute => TierD0
  | ExtractStructured | SummarizeLocal | MechanicalCodeEdit
  | CompletionAssessment => TierM1
  | BoundedBugFix | CompressContext | FusionRank => TierM2
  | FeatureImplementation | CodeReview | FusionSynthesize => TierM3
  | BroadRefactor | ArchitectureDesign | SecurityAnalysis | MigrationDesign => TierM4
  end.

(** crates/domain/src/taxonomy.rs:97-111 (TaskClassification::declared) *)
Definition TaskClassification_declared (primary_class : TaskClass) (risk_class : string)
  : TaskClassification := {|
  TaskClassification_primary_class := primary_class;
  TaskClassification_risk_class := risk_class;
  TaskClassification_quality_floor := default_tier primary_class;
  TaskClassification_evidence_requirement :=
    if bool_decide (str_le "R2" risk_class) then "E3" else "E1";
  TaskClassification_classifier_version := "bullet-taxonomy-v0"
|}.

(** ** Authoritative entities *)

(** crates/domain/src/entities.rs:13-30 (Mission) *)
Record Mission : Type := MkMission {
  Mission_id : MissionId;
  Mission_organization_id : OrganizationId;
  Mission_repository_id : RepositoryId;
  Mission_title : string;
  Mission_objective : string;
  Mission_acceptance_contract_id : AcceptanceContractId;
  Mission_state : MissionState
}.

(** crates/domain/src/entities.rs:43-52 (PlanRevision) *)
Record PlanRevision : Type := MkPlanRevision {
  PlanRevision_id : PlanRevisionId;
  PlanRevision_mission_id : MissionId;
  PlanRevision_canonical_hash : Digest
}.

(** crates/domain/src/entities.rs:54-69 (WorkPackage) *)
Record WorkPackage : Type := MkWorkPackage {
  WorkPackage_id : WorkPackageId;
  WorkPackage_mission_id : MissionId;
  WorkPackage_plan_revision_id : PlanRevisionId;
  WorkPackage_task_class : TaskClass;
  WorkPackage_title : string;
  WorkPackage_state : WorkPackageState
}.

(** crates/domain/src/entities.rs:71-82 (Variant) *)
Record Variant : Type := MkVariant {
  Variant_id : VariantId;
  Variant_selection_group_id : SelectionGroupId;
  Variant_work_package_id : WorkPackageId;
  Variant_fence_counter : Z
}.

(** crates/domain/src/entities.rs:84-109 (Attempt) *)
Record Attempt : Type := MkAttempt {
  Attempt_id : AttemptId;
  Attempt_variant_id : VariantId;
  Attempt_work_package_id : WorkPackageId;
  Attempt_fence : Z;
  Attempt_runner_id : RunnerId;
  Attempt_runner_epoch : Z;
  Attempt_workspace_id : WorkspaceId;
  Attempt_workspace_nonce : array32;
  Attempt_scope_revision : Z;
  Attempt_context_revision : Z;
  Attempt_state : AttemptState
}.

(** crates/domain/src/entities.rs:111-126 (Candidate) *)
Record Candidate : Type := MkCandidate {
  Candidate_id : CandidateId;
  Candidate_attempt_id : AttemptId;
  Candidate_base_sha : string;
  Candidate_head_sha : string;
  Candidate_tree_sha : string;
  Candidate_patch_digest : Digest
}.

(** crates/domain/src/entities.rs:128-141 (Evidence) *)
Record Evidence : Type := MkEvidence {
  Evidence_id : EvidenceId;
  Evidence_candidate_id : CandidateId;
  Evidence_tier : string;
  Evidence_gate : string;
  Evidence_result : string
}.

(** crates/domain/src/entities.rs:143-156 (Effect) *)
Record Effect : Type := MkEffect {
  Effect_id : EffectId;
  Effect_attempt_id : AttemptId;
  Effect_logical_key : string;
  Effect_desired : string;
  Effect_outcome : string
}.

Global Instance Mission_eq_dec : EqDecision Mission.
Proof. solve_decision. Defined.
Global Instance PlanRevision_eq_dec : EqDecision PlanRevision.
Proof. solve_decision. Defined.
Global Instance WorkPackage_eq_dec : EqDecision WorkPackage.
Proof. solve_decision. Defined.
Global Instance Variant_eq_dec : EqDecision Variant.
Proof. solve_decision. Defined.
Global Instance Attempt_eq_dec : EqDecision Attempt.
Proof. solve_decision. Defined.
Global Instance Candidate_eq_dec : EqDecision Candidate.
Proof. solve_decision. Defined.
Global Instance Evidence_eq_dec : EqDecision Evidence.
Proof. solve_decision. Defined.
Global Instance Effect_eq_dec : EqDecision Effect.
Proof. solve_decision. Defined.

Definition set_WorkPackage_state (p : WorkPackage) (s : WorkPackageState) : WorkPackage :=
  MkWorkPackage (WorkPackage_id p) (WorkPackage_mission_id p)
    (WorkPackage_plan_revision_id p) (WorkPackage_task_class p) (WorkPackage_title p) s.

Definition set_Variant_fence_counter (v : Variant) (n : Z) : Variant :=
  MkVariant (Variant_id v) (Variant_selection_group_id v) (Variant_work_package_id v) n.

Definition set_Attempt_state (a : Attempt) (s : AttemptState) : Attempt :=
  MkAttempt (Attempt_id a) (Attempt_variant_id a) (Attempt_work_package_id a)
    (Attempt_fence a) (Attempt_runner_id a) (Attempt_runner_epoch a)
    (Attempt_workspace_id a) (Attempt_workspace_nonce a) (Attempt_scope_revision a)
    (Attempt_context_revision a) s.

(** ** Authority tokens *)

(** crates/domain/src/authority.rs:11-58 (AuthorityToken) *)
Record AuthorityToken : Type := MkAuthorityToken {
  AuthorityToken_organization_id : OrganizationId;
  AuthorityToken_repository_id : RepositoryId;
  AuthorityToken_mission_id : MissionId;
  AuthorityToken_acceptance_contract_id : AcceptanceContractId;
  AuthorityToken_plan_revision_id : PlanRevisionId;
  AuthorityToken_graph_sequence : Z;
  AuthorityToken_work_package_id : WorkPackageId;
  AuthorityToken_selection_group_id : SelectionGroupId;
  AuthorityToken_variant_id : VariantId;
  AuthorityToken_attempt_id : AttemptId;
  AuthorityToken_attempt_fence : Z;
  AuthorityToken_runner_id : RunnerId;
  AuthorityToken_runner_epoch : Z;
  AuthorityToken_workspace_id : WorkspaceId;
  AuthorityToken_workspace_nonce : array32;
  AuthorityToken_scope_revision : Z;
  AuthorityToken_context_revision : Z;
  AuthorityToken_config_snapshot_hash : Digest;
  AuthorityToken_policy_snapshot_hash : Digest;
  AuthorityToken_routing_policy_hash : Digest;
  AuthorityToken_credential_profile_id : option ProfileId;
  AuthorityToken_credential_generation : option Z
}.

Global Instance AuthorityToken_eq_dec : EqDecision AuthorityToken.
Proof. solve_decision. Defined.

(** crates/domain/src/authority.rs:61-76 (AuthorityToken::verify) *)
Definition AuthorityToken_verify (t : AuthorityToken) (attempt : AttemptId) (fence : Z)
  : result DomainError unit :=
  if negb (bool_decide (AuthorityToken_attempt_id t = attempt)) then
    Err (StaleAuthority ("token attempt " +:+ id_as_str (AuthorityToken_attempt_id t)
                         +:+ " != " +:+ id_as_str attempt))
  else if negb (bool_decide (AuthorityToken_attempt_fence t = fence)) then
    Err (StaleAuthority ("token fence " +:+ pretty (AuthorityToken_attempt_fence t)
                         +:+ " != " +:+ pretty fence))
  else Ok tt.

Lemma AuthorityToken_verify_Ok t a f u :
  AuthorityToken_verify t a f = Ok u <->
  AuthorityToken_attempt_id t = a /\ AuthorityToken_attempt_fence t = f.
Proof.
  unfold AuthorityToken_verify. destruct u.
  repeat case_bool_decide; simpl; naive_solver.
Qed.

(** ** Observations *)

(** crates/domain/src/observation.rs:6-31 (Observation) *)
Inductive Observation (T : Type) : Type :=
| ObsValue (value : T)
| ObsEmpty
| ObsUnknown (source reason : string)
| ObsContradictory (sources : list string) (reason : string).
Arguments ObsValue {T} value.
Arguments ObsEmpty {T}.
Arguments ObsUnknown {T} source reason.
Arguments ObsContradictory {T} sources reason.

(** crates/domain/src/observation.rs:40-44 (Observation::is_verified) *)
Definition is_verified {T} (o : Observation T) : bool :=
  match o with ObsValue _ => true | _ => false end.

(** crates/domain/src/observation.rs:46-55 (Observation::kind_name) *)
Definition kind_name {T} (o : Observation T) : string :=
  match o with
  | ObsValue _ => "value"
  | ObsEmpty => "empty"
  | ObsUnknown _ _ => "unknown"
  | ObsContradictory _ _ => "contradictory"
  end.

(** crates/domain/src/observation.rs:222-231 (Observation<String>::render) *)
Definition Observation_render (o : Observation string) : string :=
  match o with
  | ObsValue value => value
  | ObsEmpty => "empty"
  | ObsUnknown source reason => "unknown (" +:+ source +:+ ": " +:+ reason +:+ ")"
  | ObsContradictory _ reason => "contradictory (" +:+ reason +:+ ")"
  end.

(** ** Preservation before workspace cleanup *)

(** crates/domain/src/observation.rs:58-64 (PreservationOperation) *)
Inductive PreservationOperation : Type := CleanupWorkspace.

(** crates/domain/src/observation.rs:66-82 (PreservationOutcome) *)
Inductive PreservationOutcome : Type :=
| PresPreserved | PresFailed | PresUnsupported | PresError | PresUnknown | PresSuperseded.

Definition PreservationOutcome_debug (o : PreservationOutcome) : string :=
  match o with
  | PresPreserved => "Preserved"
  | PresFailed => "Failed"
  | PresUnsupported => "Unsupported"
  | PresError => "Error"
  | PresUnknown => "Unknown"
  | PresSuperseded => "Superseded"
  end.

(** crates/domain/src/observation.rs:84-95 (PreservationSubject) *)
Record PreservationSubject : Type := MkPreservationSubject {
  PreservationSubject_attempt_id : AttemptId;
  PreservationSubject_fence : Z;
  PreservationSubject_workspace_id : WorkspaceId;
  PreservationSubject_workspace_nonce : array32
}.

(** crates/domain/src/observation.rs:98-107 (PreservationSubject::from_attempt) *)
Definition PreservationSubject_from_attempt (a : Attempt) : PreservationSubject := {|
  PreservationSubject_attempt_id := Attempt_id a;
  PreservationSubject_fence := Attempt_fence a;
  PreservationSubject_workspace_id := Attempt_workspace_id a;
  PreservationSubject_workspace_nonce := Attempt_workspace_nonce a
|}.

(** crates/domain/src/observation.rs:110-121 (PreservationRecord) *)
Record PreservationRecord : Type := MkPreservationRecord {
  PreservationRecord_subject : PreservationSubject;
  PreservationRecord_operation : PreservationOperation;
  PreservationRecord_receipt_digest : Digest;
  PreservationRecord_outcome : PreservationOutcome
}.

Global Instance PreservationOperation_eq_dec : EqDecision PreservationOperation.
Proof. solve_decision. Defined.
Global Instance PreservationOutcome_eq_dec : EqDecision PreservationOutcome.
Proof. solve_decision. Defined.
Global Instance PreservationSubject_eq_dec : EqDecision PreservationSubject.
Proof. solve_decision. Defined.

(** crates/domain/src/observation.rs:124-138 (PreservationRecord::for_attempt) *)
Definition PreservationRecord_for_attempt (a : Attempt) (op : PreservationOperation)
  (receipt : Digest) (outcome : PreservationOutcome) : PreservationRecord :=
  MkPreservationRecord (PreservationSubject_from_attempt a) op receipt outcome.

(** crates/domain/src/observation.rs:141-151 (PreservationDecision) *)
Record PreservationDecision : Type := MkPreservationDecision {
  PreservationDecision_subject : PreservationSubject;
  PreservationDecision_operation : PreservationOperation;
  PreservationDecision_receipt_digest : Digest
}.

(** crates/domain/src/observation.rs:216-218 (PreservationDecision::refusal) *)
Definition PreservationDecision_refusal (a : Attempt) (reason : string) : DomainError :=
  StaleAuthority (reason +:+ " for " +:+ id_as_str (Attempt_id a)).

(** crates/domain/src/observation.rs:154-196 (PreservationDecision::for_workspace_cleanup) *)
Definition for_workspace_cleanup (observation : Observation PreservationRecord)
  (a : Attempt) : result DomainError PreservationDecision :=
  if negb (permits_preserved_workspace_cleanup (Attempt_state a)) then
    Err (PreservationDecision_refusal a "Attempt state cannot clean up")
  else
  match observation with
  | ObsValue record =>
      if negb (bool_decide (PreservationRecord_outcome record = PresPreserved)) then
        Err (PreservationDecision_refusal a
               ("preservation outcome is "
                +:+ PreservationOutcome_debug (PreservationRecord_outcome record)))
      else if negb (bool_decide (PreservationRecord_operation record = CleanupWorkspace))
           || negb (bool_decide (PreservationRecord_subject record
                                 = PreservationSubject_from_attempt a)) then
        Err (PreservationDecision_refusal a
               "preservation subject or operation does not match")
      else
        Ok {| PreservationDecision_subject := PreservationRecord_subject record;
              PreservationDecision_operation := PreservationRecord_operation record;
              PreservationDecision_receipt_digest :=
                PreservationRecord_receipt_digest record |}
  | other =>
      Err (PreservationDecision_refusal a
             ("preservation observation is " +:+ kind_name other))
  end.

(** crates/domain/src/observation.rs:198-214 (PreservationDecision::authorize_workspace_cleanup) *)
Definition authorize_workspace_cleanup (d : PreservationDecision) (a : Attempt)
  : result DomainError Digest :=
  if negb (bool_decide (PreservationDecision_operation d = CleanupWorkspace))
     || negb (bool_decide (PreservationDecision_subject d
                           = PreservationSubject_from_attempt a))
     || negb (permits_preserved_workspace_cleanup (Attempt_state a))
  then Err (PreservationDecision_refusal a "cleanup decision is stale or mismatched")
  else Ok (PreservationDecision_receipt_digest d).

Lemma for_workspace_cleanup_Ok obs a d :
  for_workspace_cleanup obs a = Ok d <->
  permits_preserved_workspace_cleanup (Attempt_state a) = true /\
  obs = ObsValue (PreservationRecord_for_attempt a CleanupWorkspace
                    (PreservationDecision_receipt_digest d) PresPreserved) /\
  PreservationDecision_subject d = PreservationSubject_from_attempt a.
Proof.
  unfold for_workspace_cleanup, PreservationRecord_for_attempt. split.
  - intros H. destruct (permits_preserved_workspace_cleanup _); [|done]. simpl in H.
    destruct obs as [[s [] r o]| | |]; simpl in H; try done. case_result.
    by subst.
  - intros (-> & -> & Hs). destruct d as [s [] r]; simpl in *; subst.
    by repeat case_bool_decide.
Qed.

Lemma authorize_workspace_cleanup_Ok d a r :
  authorize_workspace_cleanup d a = Ok r <->
  r = PreservationDecision_receipt_digest d /\
  PreservationDecision_subject d = PreservationSubject_from_attempt a /\
  permits_preserved_workspace_cleanup (Attempt_state a) = true.
Proof.
  unfold authorize_workspace_cleanup. split.
  - intros H. case_result. done.
  - intros (-> & -> & ->). destruct (PreservationDecision_operation d).
    by repeat case_bool_decide.
Qed.

(** ** Behavior rules *)

(** crates/domain/src/behavior.rs:6-18 (Enforcement) *)
Inductive Enforcement : Type := EnfBlock | EnfPause | EnfQuarantine | EnfTerminate.

(** crates/domain/src/behavior.rs:20-33 (BehaviorRule) *)
Record BehaviorRule : Type := MkBehaviorRule {
  BehaviorRule_id : string;
  BehaviorRule_version : string;
  BehaviorRule_title : string;
  BehaviorRule_action : Enforcement;
  BehaviorRule_fail_closed : bool
}.

(** crates/domain/src/behavior.rs:35-75 (default_catalog) *)
Definition default_catalog : list BehaviorRule := [
  MkBehaviorRule "GT001" "v1" "Uses Git worktree for writable task" EnfBlock true;
  MkBehaviorRule "CL001" "v1" "Deletes workspace before verified preservation" EnfBlock true;
  MkBehaviorRule "CP002" "v1" "Emits done without exact Candidate" EnfBlock true;
  MkBehaviorRule "CL002" "v1" "Treats failed observation as empty or clean" EnfBlock true;
  MkBehaviorRule "FS004" "v1"
    "Writes runtime/provider configuration into product repository" EnfQuarantine true
].

(** crates/domain/src/behavior.rs:77-85 (reject_worktree) *)
Definition reject_worktree (is_worktree : option bool) : bool :=
  match is_worktree with
  | Some true => true
  | Some false => false
  | None => true
  end.

(** ** Properties *)

(** A workspace is cleaned up only on evidence: if a decision is taken
    for an attempt and later authorises a cleanup, then the observation was a
    verified record with outcome preserved for exactly that attempt, fence,
    workspace and nonce, the receipt returned is the recorded one, and the
    attempt cleaned up is in a terminal, non-quarantined state. *)
Theorem cleanup_needs_preserved_record obs a a' d r :
  for_workspace_cleanup obs a = Ok d ->
  authorize_workspace_cleanup d a' = Ok r ->
  obs = ObsValue (PreservationRecord_for_attempt a' CleanupWorkspace r PresPreserved) /\
  PreservationSubject_from_attempt a = PreservationSubject_from_attempt a' /\
  is_terminal_release_target (Attempt_state a') = true /\
  Attempt_state a' <> AtQuarantined.
Proof.
  intros (_ & -> & Hs)%for_workspace_cleanup_Ok
    (-> & Hs' & Hst)%authorize_workspace_cleanup_Ok.
  unfold PreservationRecord_for_attempt. rewrite <- Hs', <- Hs.
  split; [done|]. split; [done|]. by destruct (Attempt_state a').
Qed.

Definition sample_attempt (s : AttemptState) (fence : Z) : Attempt :=
  MkAttempt (MkId "a") (MkId "v") (MkId "w") fence (MkId "r") 1 (MkId "ws")
    (zero_array32) 1 1 s.

(** A crashed attempt whose workspace was preserved. *)
Lemma cleanup_needs_preserved_record_witness :
  let a := sample_attempt AtCrashed 3 in
  let rec := PreservationRecord_for_attempt a CleanupWorkspace
               (MkDigest zero_array32) PresPreserved in
  is_terminal_release_target (Attempt_state a) = true.
Proof.
  intros a rec.
  refine (proj1 (proj2 (proj2
    (cleanup_needs_preserved_record (ObsValue rec) a a
       (MkPreservationDecision (PreservationSubject_from_attempt a) CleanupWorkspace
          (MkDigest zero_array32)) (MkDigest zero_array32) _ _))));
  vm_compute; reflexivity.
Defined.
