(* ===== verification/Gates.v ===== *)
(** * Gate identifiers, outcomes and evidence tiers

    Models crates/domain/src/gates.rs. *)

From S2P Require Import Prelude External Ids States Entities.
From stdpp Require Import options.

Definition MAX_GATE_IDS : nat := 16.

(** crates/domain/src/gates.rs:17-19 (REPOSITORY_GATE_ID) *)
Definition REPOSITORY_GATE_ID : string :=
  "gat_8888888888888888888888888888888888888888888888888888888888888888".

(** crates/domain/src/gates.rs:21-24 (GateId) *)
Record GateId : Type := MkGateId { GateId_as_str : string }.

Global Instance GateId_eq_dec : EqDecision GateId.
Proof. solve_decision. Defined.
Global Instance GateId_countable : Countable GateId.
Proof. by apply (inj_countable' GateId_as_str MkGateId); intros []. Defined.

(** `{value:?}`: a quoted string with quotes, backslashes and ASCII control
    characters escaped; bytes above 127 are written as they are. *)
Fixpoint str_debug_body (s : string) : string :=
  match s with
  | EmptyString => EmptyString
  | String a rest =>
      let b := byte_val a in
      let tail := str_debug_body rest in
      if bool_decide (b = 0%Z) then "\0" +:+ tail
      else if bool_decide (b = 9%Z) then "\t" +:+ tail
      else if bool_decide (b = 10%Z) then "\n" +:+ tail
      else if bool_decide (b = 13%Z) then "\r" +:+ tail
      else if bool_decide (b = 34%Z) then "\" +:+ String a tail
      else if bool_decide (b = 92%Z) then "\\" +:+ tail
      else if bool_decide (b < 16)%Z then
        "\u{" +:+ String.substring (Z.to_nat b) 1 "0123456789abcdef" +:+ "}" +:+ tail
      else if bool_decide (b < 32)%Z then
        "\u{1" +:+ String.substring (Z.to_nat (b - 16)) 1 "0123456789abcdef" +:+ "}" +:+ tail
      else if bool_decide (b = 127%Z) then "\u{7f}" +:+ tail
      else String a tail
  end.

Definition dquote : string := String (Ascii.ascii_of_nat 34) EmptyString.
Definition str_debug (s : string) : string := dquote +:+ str_debug_body s +:+ dquote.

(** The shape `gat_` followed by 64 lowercase hexadecimal digits. *)
(** crates/domain/src/gates.rs:33-38 (GateId::parse admitted_shape) *)
Definition gate_admitted_shape (value : string) : bool :=
  match strip_prefix "gat_" value with
  | Some body => bool_decide (str_len body = 64%Z) && string_all is_lower_hex body
  | None => false
  end.

(** crates/domain/src/gates.rs:27-45 (GateId::parse) *)
Definition GateId_parse (value : string) : result DomainError GateId :=
  if negb (gate_admitted_shape value) then
    Err (InvalidId
      ("gate_id must be gat_ followed by 64 lowercase hexadecimal characters: "
       +:+ str_debug value))
  else Ok (MkGateId value).

(** crates/domain/src/gates.rs:87-95 (GateDefinition) *)
Record GateDefinition : Type := MkGateDefinition {
  GateDefinition_id : string;
  GateDefinition_program : string;
  GateDefinition_args : list string;
  GateDefinition_timeout_secs : Z
}.

(** crates/domain/src/gates.rs:122-129 (GateDefinition::argv) *)
Definition GateDefinition_argv (g : GateDefinition) : list string :=
  GateDefinition_program g :: GateDefinition_args g.

(** crates/domain/src/gates.rs:132-137 (GATES) *)
Definition GATES : list GateDefinition :=
  [MkGateDefinition REPOSITORY_GATE_ID "/usr/bin/grep" ["-qx"; "PONG"; "PONG.txt"] 2].

(** crates/domain/src/gates.rs:139-146 (gate_definition) *)
Definition gate_definition (g : GateId) : option GateDefinition :=
  List.find (fun d => bool_decide (GateDefinition_id d = GateId_as_str g)) GATES.

Fixpoint parse_gate_ids_loop (values : list string) (seen : gset GateId)
  (parsed : list GateId) : result DomainError (list GateId) :=
  match values with
  | [] => Ok parsed
  | value :: rest =>
      gate_id ← GateId_parse value;
      if bool_decide (gate_id ∈ seen) then
        Err (InvalidId ("duplicate gate_id: " +:+ GateId_as_str gate_id))
      else parse_gate_ids_loop rest ({[gate_id]} ∪ seen) (parsed ++ [gate_id])
  end.

(** crates/domain/src/gates.rs:148-172 (parse_gate_ids) *)
Definition parse_gate_ids (gate_ids : list string) : result DomainError (list GateId) :=
  if bool_decide (gate_ids = []) || bool_decide (MAX_GATE_IDS < length gate_ids) then
    Err (InvalidId ("gate_ids must contain 1..=" +:+ pretty MAX_GATE_IDS +:+ " entries"))
  else parse_gate_ids_loop gate_ids ∅ [].

(** crates/domain/src/gates.rs:178-204 (GateOutcome) *)
Inductive GateOutcome : Type :=
| GatePass | GateFail | GateFlaky | GateInfraError | GateCancelled | GateTimedOut
| GateNotRun | GateUnsupported | GateUnknown | GateSuperseded | GateInvalidated.

Global Instance GateOutcome_eq_dec : EqDecision GateOutcome.
Proof. solve_decision. Defined.

(** crates/domain/src/gates.rs:207-223 (GateOutcome::as_str) *)
Definition GateOutcome_as_str (o : GateOutcome) : string :=
  match o with
  | GatePass => "PASS"
  | GateFail => "FAIL"
  | GateFlaky => "FLAKY"
  | GateInfraError => "INFRA_ERROR"
  | GateCancelled => "CANCELLED"
  | GateTimedOut => "TIMED_OUT"
  | GateNotRun => "NOT_RUN"
  | GateUnsupported => "UNSUPPORTED"
  | GateUnknown => "UNKNOWN"
  | GateSuperseded => "SUPERSEDED"
  | GateInvalidated => "INVALIDATED"
  end.

(** crates/domain/src/gates.rs:225-242 (GateOutcome::parse) *)
Definition GateOutcome_parse (name : string) : GateOutcome :=
  if bool_decide (name = "PASS") then GatePass
  else if bool_decide (name = "FAIL") then GateFail
  else if bool_decide (name = "FLAKY") then GateFlaky
  else if bool_decide (name = "INFRA_ERROR") then GateInfraError
  else if bool_decide (name = "CANCELLED") then GateCancelled
  else if bool_decide (name = "TIMED_OUT") then GateTimedOut
  else if bool_decide (name = "NOT_RUN") then GateNotRun
  else if bool_decide (name = "UNSUPPORTED") then GateUnsupported
  else if bool_decide (name = "SUPERSEDED") then GateSuperseded
  else if bool_decide (name = "INVALIDATED") then GateInvalidated
  else GateUnknown.

(** crates/domain/src/gates.rs:244-249 (GateOutcome::satisfies_requirement) *)
Definition GateOutcome_satisfies_requirement (o : GateOutcome) : bool :=
  match o with GatePass => true | _ => false end.

(** crates/domain/src/gates.rs:252-265 (EvidenceTier) *)
Inductive EvidenceTier : Type := TierE0 | TierE1 | TierE2 | TierE3 | TierE4.

(** crates/domain/src/gates.rs:268-278 (EvidenceTier::as_str) *)
Definition EvidenceTier_as_str (t : EvidenceTier) : string :=
  match t with
  | TierE0 => "E0" | TierE1 => "E1" | TierE2 => "E2" | TierE3 => "E3" | TierE4 => "E4"
  end.

(** crates/domain/src/gates.rs:280-294 (EvidenceTier::parse) *)
Definition EvidenceTier_parse (name : string) : result DomainError EvidenceTier :=
  if bool_decide (name = "E0") then Ok TierE0
  else if bool_decide (name = "E1") then Ok TierE1
  else if bool_decide (name = "E2") then Ok TierE2
  else if bool_decide (name = "E3") then Ok TierE3
  else if bool_decide (name = "E4") then Ok TierE4
  else Err (UnknownState ("evidence tier " +:+ name)).

(** crates/domain/src/gates.rs:298-315 (Evidence::typed) *)
Definition Evidence_typed (id : EvidenceId) (candidate : CandidateId) (tier : EvidenceTier)
  (gate : string) (outcome : GateOutcome) : Evidence :=
  MkEvidence id candidate (EvidenceTier_as_str tier) gate (GateOutcome_as_str outcome).

(** crates/domain/src/gates.rs:317-321 (Evidence::outcome) *)
Definition Evidence_outcome_typed (e : Evidence) : GateOutcome :=
  GateOutcome_parse (Evidence_result e).

(** crates/domain/src/gates.rs:323-330 (Evidence::tier_typed) *)
Definition Evidence_tier_typed (e : Evidence) : result DomainError EvidenceTier :=
  EvidenceTier_parse (Evidence_tier e).

(** crates/domain/src/gates.rs:332-336 (Evidence::satisfies_requirement) *)
Definition Evidence_satisfies_requirement (e : Evidence) : bool :=
  GateOutcome_satisfies_requirement (Evidence_outcome_typed e).

(** ** Lemmas *)

Lemma gate_admitted_shape_spec value :
  gate_admitted_shape value = true <-> id_wire_form "gat" value.
Proof.
  unfold gate_admitted_shape, id_wire_form, str_len.
  destruct (strip_prefix "gat_" value) as [body|] eqn:Hs.
  - apply strip_prefix_Some in Hs as ->. rewrite andb_true_iff, bool_decide_eq_true.
    split.
    + intros [Hl Hx]. exists body. split; [done|]. split; [lia|done].
    + intros (b & Heq & Hl & Hx).
      change ("gat" +:+ "_" +:+ b) with ("gat_" +:+ b) in Heq.
      apply (inj (String.append _)) in Heq as ->. split; [lia|done].
  - split; [done|]. intros (b & -> & _).
    change ("gat" +:+ "_" +:+ b) with ("gat_" +:+ b) in Hs.
    by rewrite strip_prefix_app in Hs.
Qed.

Lemma GateId_parse_Ok value g :
  GateId_parse value = Ok g <-> GateId_as_str g = value /\ gate_admitted_shape value = true.
Proof.
  unfold GateId_parse. destruct g as [s], (gate_admitted_shape value); simpl; naive_solver.
Qed.

Lemma parse_gate_ids_loop_Ok values seen parsed out :
  parse_gate_ids_loop values seen parsed = Ok out <->
  exists fresh, out = parsed ++ fresh /\ GateId_as_str <$> fresh = values /\
    Forall (fun v => gate_admitted_shape v = true) values /\ NoDup fresh /\
    (forall g, g ∈ fresh -> g ∉ seen).
Proof.
  revert seen parsed. induction values as [|v values IH]; intros seen parsed; simpl.
  - split.
    + intros [= <-]. exists []. rewrite app_nil_r.
      repeat split; try constructor. intros g Hg. by apply elem_of_nil in Hg.
    + intros (fresh & -> & Hf & _). apply fmap_nil_inv in Hf as ->. by rewrite app_nil_r.
  - split.
    + intros H. apply bind_Ok in H as (g & Hg & H).
      apply GateId_parse_Ok in Hg as [<- Hshape].
      case_bool_decide as Hseen; [done|].
      apply IH in H as (fresh & -> & <- & Hall & Hnd & Hfresh).
      exists (g :: fresh). rewrite <- app_assoc. split; [done|]. split; [done|].
      split; [by constructor|]. split; [|set_solver].
      constructor; [|done]. intros Hin. apply (Hfresh g Hin). set_solver.
    + intros (fresh & -> & Hmap & Hall & Hnd & Hfresh).
      destruct fresh as [|g fresh]; [done|]. injection Hmap as Hv Hmap. subst.
      apply Forall_cons in Hall as [Hshape Hall]. apply NoDup_cons in Hnd as [Hg Hnd].
      assert (GateId_parse (GateId_as_str g) = Ok g) as -> by by apply GateId_parse_Ok.
      simpl. rewrite bool_decide_false by set_solver. apply IH.
      exists fresh. rewrite <- app_assoc. split; [done|]. split; [done|].
      split; [done|]. split; [done|]. set_solver.
Qed.

Lemma GateOutcome_parse_as_str o : GateOutcome_parse (GateOutcome_as_str o) = o.
Proof. by destruct o. Qed.

Lemma GateOutcome_parse_pass name :
  GateOutcome_satisfies_requirement (GateOutcome_parse name) = true <-> name = "PASS".
Proof.
  split; [|by intros ->].
  unfold GateOutcome_parse. repeat case_bool_decide; done.
Qed.

Lemma EvidenceTier_parse_as_str t : EvidenceTier_parse (EvidenceTier_as_str t) = Ok t.
Proof. by destruct t. Qed.

(** ** Properties *)

(** A list of gate identifiers is admitted exactly when it has between
    one and sixteen entries, each `gat_` and 64 lowercase hexadecimal digits,
    with no repetition; the admitted list is the given one in its order. *)
Theorem parse_gate_ids_iff (values : list string) (out : list GateId) :
  parse_gate_ids values = Ok out <->
  (1 <= length values <= MAX_GATE_IDS) /\
  Forall (id_wire_form "gat") values /\ NoDup values /\
  GateId_as_str <$> out = values.
Proof.
  assert (Inj (=) (=) GateId_as_str) as Hinj by (intros [x] [y]; simpl; congruence).
  unfold parse_gate_ids. split.
  - intros H. case_bool_decide as Hn; [done|].
    case_bool_decide as Hm; [done|]. simpl in H.
    apply parse_gate_ids_loop_Ok in H as (fresh & -> & <- & Hall & Hnd & _).
    split. { destruct fresh; [done|]. simpl in *. lia. }
    split. { eapply Forall_impl; [exact Hall|]. by intros ? ?%gate_admitted_shape_spec. }
    split; [by apply NoDup_fmap_2|done].
  - intros (Hlen & Hall & Hnd & <-).
    rewrite bool_decide_false by (destruct out; simpl in *; [lia|done]).
    rewrite bool_decide_false by lia. simpl.
    apply parse_gate_ids_loop_Ok. exists out. split; [done|]. split; [done|].
    split. { eapply Forall_impl; [exact Hall|]. by intros ? ?%gate_admitted_shape_spec. }
    split; [by apply NoDup_fmap_1 in Hnd|set_solver].
Qed.

(** Evidence satisfies a requirement exactly when its recorded result is
    the string PASS: every other recorded result, an unrecognised one
    included, is decoded to an outcome that does not satisfy it. *)
Theorem only_pass_satisfies (e : Evidence) :
  (Evidence_satisfies_requirement e = true <-> Evidence_result e = "PASS") /\
  (forall id c tier gate o,
     Evidence_outcome_typed (Evidence_typed id c tier gate o) = o /\
     Evidence_tier_typed (Evidence_typed id c tier gate o) = Ok tier).
Proof.
  split; [apply GateOutcome_parse_pass|].
  intros. split; [apply GateOutcome_parse_as_str|apply EvidenceTier_parse_as_str].
Qed.
