(* ===== verification/MutationGuard.v ===== *)
(** * The mutation guard

    Models crates/domain/src/mutation_guard.rs: the fence, scope, freeze and
    restore protocol in front of every workspace mutation. A method on
    `&mut self` returns the next state with its outcome; the `+= 1` of the
    source wraps at 64 bits. *)

From S2P Require Import Prelude.
From stdpp Require Import options.

Local Open Scope Z_scope.

(** crates/domain/src/mutation_guard.rs:5-16 (MutationContext) *)
Record MutationContext : Type := MkMutationContext {
  MutationContext_fence : Z;
  MutationContext_scope_revision : Z;
  MutationContext_authority_epoch : Z;
  MutationContext_freeze_generation : Z
}.

(** crates/domain/src/mutation_guard.rs:18-28 (MutationGuard) *)
Record MutationGuard : Type := MkMutationGuard {
  guard_fence : Z;
  guard_scope_revision : Z;
  guard_acknowledged_scope : Z;
  guard_authority_epoch : Z;
  guard_freeze_generation : Z;
  guard_barrier : bool;
  guard_frozen : bool
}.

(** crates/domain/src/mutation_guard.rs:30-51 (MutationRefusal) *)
Inductive MutationRefusal : Type :=
| RefusedFence | RefusedScopeRevision | RefusedBarrier | RefusedFrozen
| RefusedAuthorityEpoch | RefusedFreezeGeneration.

(** crates/domain/src/mutation_guard.rs:54-65 (MutationRefusal::reason_code) *)
Definition MutationRefusal_reason_code (r : MutationRefusal) : string :=
  match r with
  | RefusedFence => "STALE_FENCE"
  | RefusedScopeRevision => "STALE_SCOPE_REVISION"
  | RefusedBarrier => "MUTATION_BARRIER"
  | RefusedFrozen => "FROZEN"
  | RefusedAuthorityEpoch => "STALE_AUTHORITY_EPOCH"
  | RefusedFreezeGeneration => "STALE_FREEZE_GENERATION"
  end.

Global Instance MutationRefusal_eq_dec : EqDecision MutationRefusal.
Proof. solve_decision. Defined.
Global Instance MutationGuard_eq_dec : EqDecision MutationGuard.
Proof. solve_decision. Defined.

(** crates/domain/src/mutation_guard.rs:69-86 (MutationGuard::new) *)
Definition MutationGuard_new (fence scope_revision authority_epoch freeze_generation : Z)
  : MutationGuard :=
  MkMutationGuard fence scope_revision scope_revision authority_epoch freeze_generation
    false false.

(** crates/domain/src/mutation_guard.rs:88-111 (MutationGuard::authorize_apply) *)
Definition authorize_apply (g : MutationGuard) (request : MutationContext)
  : result MutationRefusal unit :=
  if guard_frozen g then Err RefusedFrozen
  else if negb (bool_decide (MutationContext_fence request = guard_fence g))
  then Err RefusedFence
  else if negb (bool_decide (MutationContext_scope_revision request
                             = guard_scope_revision g))
       || negb (bool_decide (guard_acknowledged_scope g = guard_scope_revision g))
  then Err RefusedScopeRevision
  else if guard_barrier g then Err RefusedBarrier
  else if negb (bool_decide (MutationContext_authority_epoch request
                             = guard_authority_epoch g))
  then Err RefusedAuthorityEpoch
  else if negb (bool_decide (MutationContext_freeze_generation request
                             = guard_freeze_generation g))
  then Err RefusedFreezeGeneration
  else Ok tt.

(** crates/domain/src/mutation_guard.rs:113-120 (MutationGuard::enter_barrier) *)
Definition enter_barrier (g : MutationGuard) : MutationGuard * result MutationRefusal unit :=
  if guard_frozen g then (g, Err RefusedFrozen)
  else (MkMutationGuard (guard_fence g) (guard_scope_revision g)
          (guard_acknowledged_scope g) (guard_authority_epoch g)
          (guard_freeze_generation g) true (guard_frozen g), Ok tt).

(** crates/domain/src/mutation_guard.rs:122-129 (MutationGuard::append_scope_revision) *)
Definition append_scope_revision (g : MutationGuard)
  : MutationGuard * result MutationRefusal Z :=
  if negb (guard_barrier g) then (g, Err RefusedBarrier)
  else
    let next := u64_wrapping_add (guard_scope_revision g) 1 in
    (MkMutationGuard (guard_fence g) next
       (guard_acknowledged_scope g) (guard_authority_epoch g)
       (guard_freeze_generation g) (guard_barrier g) (guard_frozen g), Ok next).

(** crates/domain/src/mutation_guard.rs:131-138 (MutationGuard::acknowledge_scope) *)
Definition acknowledge_scope (revision : Z) (g : MutationGuard)
  : MutationGuard * result MutationRefusal unit :=
  if negb (bool_decide (revision = guard_scope_revision g))
  then (g, Err RefusedScopeRevision)
  else (MkMutationGuard (guard_fence g) (guard_scope_revision g) revision
          (guard_authority_epoch g) (guard_freeze_generation g)
          (guard_barrier g) (guard_frozen g), Ok tt).

(** crates/domain/src/mutation_guard.rs:140-147 (MutationGuard::resume) *)
Definition resume (g : MutationGuard) : MutationGuard * result MutationRefusal unit :=
  if negb (bool_decide (guard_acknowledged_scope g = guard_scope_revision g))
  then (g, Err RefusedScopeRevision)
  else (MkMutationGuard (guard_fence g) (guard_scope_revision g)
          (guard_acknowledged_scope g) (guard_authority_epoch g)
          (guard_freeze_generation g) false (guard_frozen g), Ok tt).

(** crates/domain/src/mutation_guard.rs:149-154 (MutationGuard::freeze) *)
Definition freeze (g : MutationGuard) : MutationGuard * Z :=
  let next := u64_wrapping_add (guard_freeze_generation g) 1 in
  (MkMutationGuard (guard_fence g) (guard_scope_revision g)
     (guard_acknowledged_scope g) (guard_authority_epoch g) next
     (guard_barrier g) true, next).

(** crates/domain/src/mutation_guard.rs:156-161 (MutationGuard::restore) *)
Definition restore (g : MutationGuard) : MutationGuard * Z :=
  let next := u64_wrapping_add (guard_authority_epoch g) 1 in
  (MkMutationGuard (guard_fence g) (guard_scope_revision g)
     (guard_acknowledged_scope g) next (guard_freeze_generation g)
     (guard_barrier g) true, next).

(** crates/domain/src/mutation_guard.rs:163-170 (MutationGuard::recover_active) *)
Definition recover_active (g : MutationGuard) : MutationGuard * result MutationRefusal unit :=
  if negb (guard_frozen g) then (g, Err RefusedFrozen)
  else (MkMutationGuard (guard_fence g) (guard_scope_revision g)
          (guard_acknowledged_scope g) (guard_authority_epoch g)
          (guard_freeze_generation g) (guard_barrier g) false, Ok tt).

(** ** Runs of the protocol *)

Inductive GuardOp : Type :=
| OpEnterBarrier | OpAppend | OpAcknowledge (revision : Z) | OpResume
| OpFreeze | OpRestore | OpRecover.

Definition guard_step (op : GuardOp) (g : MutationGuard) : MutationGuard :=
  match op with
  | OpEnterBarrier => (enter_barrier g).1
  | OpAppend => (append_scope_revision g).1
  | OpAcknowledge r => (acknowledge_scope r g).1
  | OpResume => (resume g).1
  | OpFreeze => (freeze g).1
  | OpRestore => (restore g).1
  | OpRecover => (recover_active g).1
  end.

Definition guard_run (ops : list GuardOp) (g : MutationGuard) : MutationGuard :=
  foldl (fun g op => guard_step op g) g ops.

(** Without a barrier the writer has acknowledged the current scope. *)
Definition guard_inv (g : MutationGuard) : Prop :=
  guard_barrier g = false -> guard_acknowledged_scope g = guard_scope_revision g.

(** [n] more operations cannot wrap a counter. *)
Definition guard_room (n : nat) (g : MutationGuard) : Prop :=
  0 <= guard_scope_revision g <= u64_max - Z.of_nat n /\
  0 <= guard_authority_epoch g <= u64_max - Z.of_nat n /\
  0 <= guard_freeze_generation g <= u64_max - Z.of_nat n.

Global Instance guard_room_dec n g : Decision (guard_room n g).
Proof. unfold guard_room. apply _. Defined.

Lemma authorize_apply_Ok g c u :
  authorize_apply g c = Ok u <->
  guard_frozen g = false /\ guard_barrier g = false /\
  guard_acknowledged_scope g = guard_scope_revision g /\
  c = MkMutationContext (guard_fence g) (guard_scope_revision g)
        (guard_authority_epoch g) (guard_freeze_generation g).
Proof.
  unfold authorize_apply. destruct u, c as [f s e z]; simpl.
  destruct (guard_frozen g), (guard_barrier g);
    repeat case_bool_decide; simpl; naive_solver.
Qed.

Ltac guard_cases :=
  unfold enter_barrier, append_scope_revision, acknowledge_scope, resume, freeze,
    restore, recover_active in *; repeat (case_match; simpl in *; inv_result).

Lemma guard_step_inv op g : guard_inv g -> guard_inv (guard_step op g).
Proof. unfold guard_inv. destruct op; simpl; guard_cases; auto; congruence. Qed.

Lemma guard_run_inv ops g : guard_inv g -> guard_inv (guard_run ops g).
Proof.
  revert g. induction ops as [|op ops IH]; intros g Hg; simpl; [done|].
  by apply IH, guard_step_inv.
Qed.

(** One step moves each counter up by what the operation says. *)
Lemma guard_step_counters op g n :
  guard_room (S n) g ->
  guard_room n (guard_step op g) /\
  guard_fence (guard_step op g) = guard_fence g /\
  guard_freeze_generation (guard_step op g) =
    guard_freeze_generation g + (match op with OpFreeze => 1 | _ => 0 end) /\
  guard_authority_epoch (guard_step op g) =
    guard_authority_epoch g + (match op with OpRestore => 1 | _ => 0 end) /\
  guard_scope_revision (guard_step op g) =
    guard_scope_revision g +
    (match op with OpAppend => if guard_barrier g then 1 else 0 | _ => 0 end).
Proof.
  unfold guard_room. intros (Hs & He & Hf).
  destruct op; simpl; guard_cases; rewrite ?u64_wrapping_add_small by lia; lia.
Qed.

(** Over a run the counters only grow, strictly at a freeze or a restore. *)
Lemma guard_run_monotone ops g :
  guard_room (length ops) g ->
  guard_fence (guard_run ops g) = guard_fence g /\
  guard_scope_revision g <= guard_scope_revision (guard_run ops g) /\
  guard_freeze_generation g <= guard_freeze_generation (guard_run ops g) /\
  guard_authority_epoch g <= guard_authority_epoch (guard_run ops g) /\
  (OpFreeze ∈ ops -> guard_freeze_generation g < guard_freeze_generation (guard_run ops g)) /\
  (OpRestore ∈ ops -> guard_authority_epoch g < guard_authority_epoch (guard_run ops g)).
Proof.
  revert g. induction ops as [|op ops IH]; intros g Hroom.
  { repeat split; try (simpl; lia); by intros ?%elem_of_nil. }
  destruct (guard_step_counters op g _ Hroom) as (Hroom' & Hfe & Hfr & Hep & Hsc).
  destruct (IH _ Hroom') as (If & Is & Ifr & Iep & Hf & Hr).
  change (guard_run (op :: ops) g) with (guard_run ops (guard_step op g)).
  repeat split; try congruence; try (destruct op; try case_match; lia).
  - rewrite elem_of_cons. intros [<-|Hin]; [lia|]. specialize (Hf Hin). destruct op; lia.
  - rewrite elem_of_cons. intros [<-|Hin]; [lia|]. specialize (Hr Hin). destruct op; lia.
Qed.

(** C12: revocation is permanent. Starting from any guard with room on its
    64-bit counters, a mutation context that is authorized before and
    still authorized after a sequence of operations proves that the sequence
    contained no freeze and no restore, and that no scope revision was
    appended: an authority revoked once by any of them is never accepted
    again, whatever acknowledgements, resumes and recoveries follow. *)
Theorem revoked_context_never_reauthorized ops g c :
  guard_room (length ops) g ->
  authorize_apply g c = Ok tt ->
  authorize_apply (guard_run ops g) c = Ok tt ->
  (OpFreeze ∉ ops) /\ (OpRestore ∉ ops) /\
  guard_scope_revision (guard_run ops g) = guard_scope_revision g.
Proof.
  intros Hroom H1 H2.
  apply authorize_apply_Ok in H1 as (_ & _ & _ & ->).
  apply authorize_apply_Ok in H2 as (_ & _ & _ & [= Hf Hs He Hz]).
  destruct (guard_run_monotone ops g Hroom) as (_ & _ & _ & _ & Hfr & Hre).
  repeat split; [intros Hin; specialize (Hfr Hin)
                |intros Hin; specialize (Hre Hin)|]; lia.
Qed.

Lemma revoked_context_never_reauthorized_witness :
  (OpFreeze ∉ [OpEnterBarrier; OpAcknowledge 3; OpResume]) /\
  (OpRestore ∉ [OpEnterBarrier; OpAcknowledge 3; OpResume]) /\
  guard_scope_revision
    (guard_run [OpEnterBarrier; OpAcknowledge 3; OpResume] (MutationGuard_new 7 3 1 0)) = 3.
Proof.
  apply (revoked_context_never_reauthorized
           [OpEnterBarrier; OpAcknowledge 3; OpResume]
           (MutationGuard_new 7 3 1 0) (MkMutationContext 7 3 1 0)).
  - apply (bool_decide_unpack _). by vm_compute.
  - reflexivity.
  - reflexivity.
Defined.

(** the scope barrier holds. In every state reached from a new guard, an
    apply is authorized exactly when the guard is neither frozen nor barred
    and the request carries the four current counters; in particular between
    the append of a scope revision and the writer's acknowledgement of it no
    request at all is authorized. *)
Theorem authorized_iff_current fence scope epoch generation ops c :
  let g := guard_run ops (MutationGuard_new fence scope epoch generation) in
  authorize_apply g c = Ok tt <->
  guard_frozen g = false /\ guard_barrier g = false /\
  c = MkMutationContext (guard_fence g) (guard_scope_revision g)
        (guard_authority_epoch g) (guard_freeze_generation g).
Proof.
  intros g. rewrite authorize_apply_Ok.
  assert (guard_inv g) as Hinv by (apply guard_run_inv; done).
  unfold guard_inv in Hinv. naive_solver.
Qed.
