(* ===== verification/BudgetPolicy.v ===== *)
(** * Reserve classes and budget-policy snapshots

    Models crates/budgets/src/classes.rs. A fixed-size array is a [vec]; the
    ladder of classes indexes it through [class_index]. *)

From S2P Require Import Prelude.
From stdpp Require Import vector.
From stdpp Require Import options.

Local Open Scope Z_scope.

Definition MAX_PROVENANCE_BYTES : Z := 256.
Definition MAX_SAFE_INTEGER : Z := 2 ^ 53 - 1.

(** crates/budgets/src/classes.rs:14-34 (ReserveClass) *)
Inductive ReserveClass : Type :=
| Incident | Security | Critical | IntegrationRepair | HumanInteractive | Normal
| Benchmark | Speculative.

Global Instance ReserveClass_eq_dec : EqDecision ReserveClass.
Proof. solve_decision. Defined.

(** crates/budgets/src/classes.rs:37-47 (ReserveClass::LADDER) *)
Definition LADDER : list ReserveClass :=
  [Incident; Security; Critical; IntegrationRepair; HumanInteractive; Normal;
   Benchmark; Speculative].

(** crates/budgets/src/classes.rs:49-62 (ReserveClass::name) *)
Definition ReserveClass_name (c : ReserveClass) : string :=
  match c with
  | Incident => "incident"
  | Security => "security"
  | Critical => "critical"
  | IntegrationRepair => "integration_repair"
  | HumanInteractive => "human_interactive"
  | Normal => "normal"
  | Benchmark => "benchmark"
  | Speculative => "speculative"
  end.

(** The position of a class, as an index of an array of eight. *)
Definition class_index (c : ReserveClass) : fin 8 :=
  match c with
  | Incident => 0 | Security => 1 | Critical => 2 | IntegrationRepair => 3
  | HumanInteractive => 4 | Normal => 5 | Benchmark => 6 | Speculative => 7
  end%fin.

(** crates/budgets/src/classes.rs:64-68 (ReserveClass::rank) *)
Definition ReserveClass_rank (c : ReserveClass) : nat := fin_to_nat (class_index c).

(** crates/budgets/src/classes.rs:70-74 (ReserveClass::outranks) *)
Definition outranks (c other : ReserveClass) : bool :=
  bool_decide (ReserveClass_rank c < ReserveClass_rank other)%nat.

(** crates/budgets/src/classes.rs:83-90 (ReserveClassFloor) *)
Record ReserveClassFloor : Type := MkReserveClassFloor {
  ReserveClassFloor_class : ReserveClass;
  ReserveClassFloor_floor_percent : Z
}.

(** crates/budgets/src/classes.rs:92-98 (BudgetPolicySubject) *)
Record BudgetPolicySubject : Type := MkBudgetPolicySubject {
  BudgetPolicySubject_policy_id : string;
  BudgetPolicySubject_provenance : string;
  BudgetPolicySubject_generation : Z
}.

(** crates/budgets/src/classes.rs:120-125 (BudgetPolicySnapshot) *)
Record BudgetPolicySnapshot : Type := MkBudgetPolicySnapshot {
  BudgetPolicySnapshot_subject : BudgetPolicySubject;
  BudgetPolicySnapshot_floors : vec Z 8
}.

Global Instance BudgetPolicySubject_eq_dec : EqDecision BudgetPolicySubject.
Proof. solve_decision. Defined.
Global Instance BudgetPolicySnapshot_eq_dec : EqDecision BudgetPolicySnapshot.
Proof. solve_decision. Defined.

(** crates/budgets/src/classes.rs:242-290 (BudgetPolicyError) *)
Inductive BudgetPolicyError : Type :=
| PolicyMissing
| PolicyInvalidSubject (why : string)
| PolicyMissingClass (class : ReserveClass)
| PolicyDuplicateClass (class : ReserveClass)
| PolicyOutOfRange (class : ReserveClass) (floor_percent : Z)
| PolicyNonMonotone (higher : ReserveClass) (higher_floor : Z)
    (lower : ReserveClass) (lower_floor : Z)
| PolicyWrongGeneration (expected actual : Z)
| PolicySnapshotMismatch.

(** crates/budgets/src/classes.rs:293-306 (BudgetPolicyError::reason_code) *)
Definition BudgetPolicyError_reason_code (e : BudgetPolicyError) : string :=
  match e with
  | PolicyMissing => "BUDGET_POLICY_MISSING"
  | PolicyInvalidSubject _ => "BUDGET_POLICY_SUBJECT_INVALID"
  | PolicyMissingClass _ => "BUDGET_POLICY_CLASS_MISSING"
  | PolicyDuplicateClass _ => "BUDGET_POLICY_CLASS_DUPLICATE"
  | PolicyOutOfRange _ _ => "BUDGET_POLICY_FLOOR_OUT_OF_RANGE"
  | PolicyNonMonotone _ _ _ _ => "BUDGET_POLICY_FLOOR_NON_MONOTONE"
  | PolicyWrongGeneration _ _ => "BUDGET_POLICY_GENERATION_MISMATCH"
  | PolicySnapshotMismatch => "BUDGET_POLICY_SNAPSHOT_MISMATCH"
  end.

(** [[T]::join]. *)
Fixpoint join_strings (sep : string) (l : list string) : string :=
  match l with
  | [] => EmptyString
  | [s] => s
  | s :: rest => s +:+ sep +:+ join_strings sep rest
  end.

(** crates/budgets/src/classes.rs:234-240 (derive_policy_id) *)
Definition derive_policy_id (provenance : string) (floors : vec Z 8) : string :=
  let values := join_strings "," (pretty <$> vec_to_list floors) in
  "budget-policy-v1:" +:+ pretty (String.length provenance) +:+ ":" +:+ provenance
    +:+ ":" +:+ values.

(** [u8::is_ascii_graphic]. *)
Definition is_ascii_graphic (a : Ascii.ascii) : bool :=
  bool_decide (33 <= byte_val a <= 126).

(** The loop over the supplied rules; each slot is filled at most once. *)
(** crates/budgets/src/classes.rs:151-163 (BudgetPolicySnapshot::try_new rule loop) *)
Fixpoint collect_floors (rules : list ReserveClassFloor) (floors : vec (option Z) 8)
  : result BudgetPolicyError (vec (option Z) 8) :=
  match rules with
  | [] => Ok floors
  | rule :: rest =>
      let class := ReserveClassFloor_class rule in
      let floor := ReserveClassFloor_floor_percent rule in
      if bool_decide (100 < floor) then Err (PolicyOutOfRange class floor)
      else
        let previous := floors !!! class_index class in
        let floors' := vinsert (class_index class) (Some (floor mod 2 ^ 8)) floors in
        if bool_decide (is_Some previous) then Err (PolicyDuplicateClass class)
        else collect_floors rest floors'
  end.

(** crates/budgets/src/classes.rs:164-168 (BudgetPolicySnapshot::try_new value loop) *)
Fixpoint complete_floors (classes : list ReserveClass) (floors : vec (option Z) 8)
  (values : vec Z 8) : result BudgetPolicyError (vec Z 8) :=
  match classes with
  | [] => Ok values
  | class :: rest =>
      v ← ok_or (floors !!! class_index class) (PolicyMissingClass class);
      complete_floors rest floors (vinsert (class_index class) v values)
  end.

(** crates/budgets/src/classes.rs:169-179 (BudgetPolicySnapshot::try_new window loop) *)
Fixpoint check_monotone (classes : list ReserveClass) (values : vec Z 8)
  : result BudgetPolicyError unit :=
  match classes with
  | higher :: ((lower :: _) as rest) =>
      let hv := values !!! class_index higher in
      let lv := values !!! class_index lower in
      if bool_decide (lv <= hv) then Err (PolicyNonMonotone higher hv lower lv)
      else check_monotone rest values
  | _ => Ok tt
  end.

Definition provenance_ok (provenance : string) : bool :=
  negb (is_empty provenance || bool_decide (MAX_PROVENANCE_BYTES < str_len provenance)
        || negb (string_all is_ascii_graphic provenance)).

(** crates/budgets/src/classes.rs:128-187 (BudgetPolicySnapshot::try_new) *)
Definition BudgetPolicySnapshot_try_new (provenance : string) (generation : Z)
  (rules : list ReserveClassFloor) : result BudgetPolicyError BudgetPolicySnapshot :=
  if is_empty provenance || bool_decide (MAX_PROVENANCE_BYTES < str_len provenance)
     || negb (string_all is_ascii_graphic provenance)
  then Err (PolicyInvalidSubject "provenance must contain 1..=256 printable ASCII bytes")
  else if bool_decide (generation = 0) || bool_decide (MAX_SAFE_INTEGER < generation)
  then Err (PolicyInvalidSubject "generation must be within 1..=MAX_SAFE_INTEGER")
  else
    floors ← collect_floors rules (vreplicate 8 None);
    values ← complete_floors LADDER floors (vreplicate 8 0);
    _ ← check_monotone LADDER values;
    mret (MkBudgetPolicySnapshot
            (MkBudgetPolicySubject (derive_policy_id provenance values) provenance generation)
            values).

(** crates/budgets/src/classes.rs:309-318 (floor_units) *)
Definition floor_units (percent opening : Z) : Z :=
  let percent := if bool_decide (100 < percent) then 100 else percent in
  let scaled := opening * percent in
  let ceil := (scaled + 99) / 100 in
  ceil mod 2 ^ 64.

(** crates/budgets/src/classes.rs:195-199 (BudgetPolicySnapshot::floor_percent) *)
Definition floor_percent (p : BudgetPolicySnapshot) (class : ReserveClass) : Z :=
  BudgetPolicySnapshot_floors p !!! class_index class.

(** crates/budgets/src/classes.rs:201-205 (BudgetPolicySnapshot::floor_units) *)
Definition policy_floor_units (p : BudgetPolicySnapshot) (class : ReserveClass) (opening : Z)
  : Z := floor_units (floor_percent p class) opening.

(** crates/budgets/src/classes.rs:207-211 (BudgetPolicySnapshot::emergency_floor_units) *)
Definition emergency_floor_units (p : BudgetPolicySnapshot) (opening : Z) : Z :=
  policy_floor_units p IntegrationRepair opening.

(** crates/budgets/src/classes.rs:213-217 (BudgetPolicySnapshot::may_spend_emergency_reserve) *)
Definition may_spend_emergency_reserve (p : BudgetPolicySnapshot) (class : ReserveClass)
  : bool := outranks class IntegrationRepair.

(** crates/budgets/src/classes.rs:219-231 (BudgetPolicySnapshot::require_exact) *)
Definition require_exact (p : BudgetPolicySnapshot) (supplied : option BudgetPolicySnapshot)
  : result BudgetPolicyError unit :=
  s ← ok_or supplied PolicyMissing;
  let expected := BudgetPolicySubject_generation (BudgetPolicySnapshot_subject p) in
  let actual := BudgetPolicySubject_generation (BudgetPolicySnapshot_subject s) in
  if negb (bool_decide (actual = expected)) then Err (PolicyWrongGeneration expected actual)
  else if negb (bool_decide (s = p)) then Err PolicySnapshotMismatch
  else Ok tt.

(** ** Lemmas *)

Global Instance class_index_inj : Inj (=) (=) class_index.
Proof. intros [] []; simpl; congruence. Qed.

Lemma class_in_ladder c : c ∈ LADDER.
Proof. destruct c; repeat (apply elem_of_cons; (by left) || right). Qed.

Lemma require_exact_Ok p s u : require_exact p s = Ok u <-> s = Some p.
Proof.
  unfold require_exact. destruct s as [s|]; simpl; [|done]. destruct u.
  repeat case_bool_decide; simpl; naive_solver.
Qed.

Lemma scaled_bounds percent opening :
  0 <= percent <= 100 -> is_u64 opening ->
  0 <= opening * percent <= opening * 100.
Proof.
  intros Hp [Ho _]. split; [apply Z.mul_nonneg_nonneg|apply Z.mul_le_mono_nonneg_l]; lia.
Qed.

Lemma floor_units_exact percent opening :
  0 <= percent <= 100 -> is_u64 opening ->
  floor_units percent opening = (opening * percent + 99) / 100.
Proof.
  intros Hp Ho. pose proof (scaled_bounds _ _ Hp Ho).
  unfold is_u64, floor_units, u64_max in *. rewrite bool_decide_false by lia.
  apply Z.mod_small. split; [apply Z.div_pos; lia|].
  apply Z.div_lt_upper_bound; lia.
Qed.

(** The floor is the least number of units that is at least the percentage. *)
Lemma floor_units_bounds percent opening :
  0 <= percent <= 100 -> is_u64 opening ->
  let f := floor_units percent opening in
  0 <= f <= opening /\ opening * percent <= 100 * f < opening * percent + 100.
Proof.
  intros Hp Ho. simpl. rewrite floor_units_exact by done.
  pose proof (scaled_bounds _ _ Hp Ho).
  pose proof (Z.div_mod (opening * percent + 99) 100).
  pose proof (Z.mod_pos_bound (opening * percent + 99) 100). lia.
Qed.

Lemma floor_units_mono p q opening :
  0 <= p <= q -> q <= 100 -> is_u64 opening -> floor_units p opening <= floor_units q opening.
Proof.
  intros Hp Hq Ho. rewrite !floor_units_exact by (done || lia). apply Z.div_le_mono; [lia|].
  destruct Ho as [Ho _]. apply Z.add_le_mono_r, Z.mul_le_mono_nonneg_l; lia.
Qed.

(** ** Admission of a snapshot *)

Definition floor_rule (rules : list ReserveClassFloor) (c : ReserveClass) (f : Z) : Prop :=
  MkReserveClassFloor c f ∈ rules.

(** The floors the rule loop has collected: what was there, then one entry
    per rule, and a class never twice. *)
Lemma collect_floors_Ok rules floors floors' :
  collect_floors rules floors = Ok floors' <->
  Forall (fun r => ReserveClassFloor_floor_percent r <= 100) rules /\
  NoDup (ReserveClassFloor_class <$> rules) /\
  (forall r, r ∈ rules -> floors !!! class_index (ReserveClassFloor_class r) = None) /\
  floors' = foldl (fun fl r => vinsert (class_index (ReserveClassFloor_class r))
                       (Some (ReserveClassFloor_floor_percent r mod 2 ^ 8)) fl) floors rules.
Proof.
  revert floors. induction rules as [|r rules IH]; intros floors; simpl.
  { split.
    - intros [= ->]. repeat split; try constructor. intros r Hr. by apply elem_of_nil in Hr.
    - by intros (_ & _ & _ & ->). }
  split.
  - intros H. case_bool_decide; [done|]. case_bool_decide as Hp; [done|].
    apply IH in H as (Hr & Hnd & Hfree & ->). apply eq_None_not_Some in Hp.
    assert (ReserveClassFloor_class r ∉ ReserveClassFloor_class <$> rules) as Hfresh.
    { intros (r' & Hcl & Hin)%list_elem_of_fmap. specialize (Hfree r' Hin).
      rewrite <- Hcl, vlookup_insert in Hfree. done. }
    split; [constructor; [lia|done]|]. split; [by constructor|]. split; [|done].
    intros r' [->|Hin]%elem_of_cons; [done|]. specialize (Hfree r' Hin).
    rewrite vlookup_insert_ne in Hfree; [done|].
    intros Heq%(inj class_index). apply Hfresh. rewrite Heq. by apply list_elem_of_fmap_2.
  - intros (Hall & Hnd & Hfree & ->). apply Forall_cons in Hall as [Hr Hall].
    apply NoDup_cons in Hnd as [Hfresh Hnd].
    rewrite bool_decide_false by lia. rewrite bool_decide_false.
    2:{ rewrite Hfree by (by left). by intros [? ?]. }
    apply IH. split; [done|]. split; [done|]. split; [|done].
    intros r' Hin. rewrite vlookup_insert_ne; [apply Hfree; by right|].
    intros Heq%(inj class_index). apply Hfresh. rewrite Heq. by apply list_elem_of_fmap_2.
Qed.

Definition collected (rules : list ReserveClassFloor) (floors : vec (option Z) 8)
  : vec (option Z) 8 :=
  foldl (fun fl r => vinsert (class_index (ReserveClassFloor_class r))
           (Some (ReserveClassFloor_floor_percent r mod 2 ^ 8)) fl) floors rules.

Lemma collected_other rules floors c :
  c ∉ ReserveClassFloor_class <$> rules ->
  collected rules floors !!! class_index c = floors !!! class_index c.
Proof.
  revert floors. induction rules as [|r rules IH]; intros floors Hc; simpl; [done|].
  apply not_elem_of_cons in Hc as [Hne Hc]. rewrite IH by done.
  apply vlookup_insert_ne. intros Heq%(inj class_index). congruence.
Qed.

Lemma collected_rule rules floors r :
  NoDup (ReserveClassFloor_class <$> rules) -> r ∈ rules ->
  collected rules floors !!! class_index (ReserveClassFloor_class r)
  = Some (ReserveClassFloor_floor_percent r mod 2 ^ 8).
Proof.
  revert floors. induction rules as [|r' rules IH]; intros floors Hnd Hin.
  { by apply elem_of_nil in Hin. }
  cbn in Hnd. apply NoDup_cons in Hnd as [Hfresh Hnd].
  apply elem_of_cons in Hin as [->|Hin]; simpl.
  - rewrite collected_other by done. by rewrite vlookup_insert.
  - by apply IH.
Qed.

Lemma complete_floors_Ok classes floors values out :
  complete_floors classes floors values = Ok out ->
  (forall c, c ∈ classes -> floors !!! class_index c = Some (out !!! class_index c)) /\
  (forall c, c ∉ classes -> out !!! class_index c = values !!! class_index c).
Proof.
  revert values. induction classes as [|c classes IH]; intros values; simpl.
  { intros [= ->]. split; [intros c Hc; by apply elem_of_nil in Hc|done]. }
  intros H. case_result. apply IH in H as [Hin Hout]. split.
  - intros c' [->|Hc']%elem_of_cons; [|by apply Hin].
    destruct (decide (c ∈ classes)) as [Hc|Hc]; [by apply Hin|].
    rewrite Hout by done. by rewrite vlookup_insert.
  - intros c' [Hne Hc']%not_elem_of_cons. rewrite Hout by done.
    apply vlookup_insert_ne. intros Heq%(inj class_index). congruence.
Qed.

Lemma complete_floors_total classes floors values :
  (forall c, c ∈ classes -> is_Some (floors !!! class_index c)) ->
  exists out, complete_floors classes floors values = Ok out.
Proof.
  revert values. induction classes as [|c classes IH]; intros values H; simpl; [by eexists|].
  destruct (H c) as [v Hv]; [by left|]. rewrite Hv. simpl.
  apply IH. intros c' Hc'. apply H. by right.
Qed.

Lemma check_monotone_Ok values u :
  check_monotone LADDER values = Ok u <->
  forall c1 c2, outranks c1 c2 = true ->
    values !!! class_index c1 < values !!! class_index c2.
Proof.
  unfold outranks, ReserveClass_rank. split.
  - cbn [check_monotone LADDER]. intros H.
    repeat (case_bool_decide; [discriminate|]).
    intros c1 c2 Hr%bool_decide_eq_true.
    destruct c1, c2; simpl in Hr; lia.
  - intros H. destruct u. unfold LADDER. cbn [check_monotone].
    repeat (rewrite bool_decide_false; [|apply Z.nle_gt, H; reflexivity]). done.
Qed.

(** The declared requirements on a policy: printable provenance, a safe
    generation, exactly one floor per class, every floor a percentage, and
    strictly larger floors for lower-priority classes. *)
Record policy_admissible (provenance : string) (generation : Z)
  (rules : list ReserveClassFloor) : Prop := {
  adm_provenance : 1 <= str_len provenance <= 256 /\
    string_all is_ascii_graphic provenance = true;
  adm_generation : 1 <= generation <= MAX_SAFE_INTEGER;
  adm_unique : NoDup (ReserveClassFloor_class <$> rules);
  adm_complete c : exists f, MkReserveClassFloor c f ∈ rules;
  adm_range r : r ∈ rules -> ReserveClassFloor_floor_percent r <= 100;
  adm_monotone r1 r2 : r1 ∈ rules -> r2 ∈ rules ->
    outranks (ReserveClassFloor_class r1) (ReserveClassFloor_class r2) = true ->
    ReserveClassFloor_floor_percent r1 < ReserveClassFloor_floor_percent r2
}.

Lemma is_empty_str_len s : is_empty s = false <-> 1 <= str_len s.
Proof. unfold str_len. destruct s; simpl; [split; [done|lia]|split; [lia|done]]. Qed.

(** Once the three loops have passed, the array holds the supplied floors. *)
Lemma values_of_rules rules floors values :
  (forall r, r ∈ rules -> 0 <= ReserveClassFloor_floor_percent r <= 100) ->
  NoDup (ReserveClassFloor_class <$> rules) ->
  complete_floors LADDER (collected rules floors) (vreplicate 8 0) = Ok values ->
  forall r, r ∈ rules ->
    values !!! class_index (ReserveClassFloor_class r) = ReserveClassFloor_floor_percent r.
Proof.
  intros Hrange Hnd Hc r Hr. apply complete_floors_Ok in Hc as [Hc _].
  specialize (Hc _ (class_in_ladder (ReserveClassFloor_class r))).
  rewrite collected_rule in Hc by done. injection Hc as <-.
  apply Z.mod_small. specialize (Hrange r Hr). lia.
Qed.

Section TryNew.
Context (provenance : string) (generation : Z) (rules : list ReserveClassFloor).
Hypothesis Hgen : is_u64 generation.
Hypothesis Hfloors : forall r, r ∈ rules -> 0 <= ReserveClassFloor_floor_percent r < 2 ^ 16.

Lemma try_new_Ok_admissible p :
  BudgetPolicySnapshot_try_new provenance generation rules = Ok p ->
  policy_admissible provenance generation rules /\
  (forall r, r ∈ rules -> floor_percent p (ReserveClassFloor_class r)
                         = ReserveClassFloor_floor_percent r) /\
  BudgetPolicySubject_generation (BudgetPolicySnapshot_subject p) = generation /\
  BudgetPolicySubject_provenance (BudgetPolicySnapshot_subject p) = provenance.
Proof using Hgen Hfloors.
  unfold BudgetPolicySnapshot_try_new. intros H. case_result.
  match goal with
  | Hcol : collect_floors _ _ = Ok _, Hcom : complete_floors _ _ _ = Ok ?v |- _ =>
      rename v into values; rename Hcol into Hcollect; rename Hcom into Hcomplete
  end.
  apply collect_floors_Ok in Hcollect as (Hmax & Hnd & _ & ->).
  rewrite Forall_forall in Hmax.
  assert (Hval : forall r, r ∈ rules ->
    values !!! class_index (ReserveClassFloor_class r) = ReserveClassFloor_floor_percent r).
  { apply (values_of_rules _ (vreplicate 8 None)); [|done..].
    intros r Hr. split; [by apply Hfloors|by apply Hmax]. }
  match goal with Hm : check_monotone _ _ = Ok _ |- _ =>
    rewrite check_monotone_Ok in Hm; rename Hm into Hmono end.
  match goal with He : is_empty _ = false |- _ => apply is_empty_str_len in He end.
  split; [|by split; [exact Hval|]]. split; try done.
  - unfold MAX_PROVENANCE_BYTES in *. split; [lia|done].
  - destruct Hgen. lia.
  - intros c. apply complete_floors_Ok in Hcomplete as [Hin _].
    specialize (Hin c (class_in_ladder c)).
    destruct (decide (c ∈ ReserveClassFloor_class <$> rules)) as [Hc|Hc].
    + apply list_elem_of_fmap in Hc as ([c' f] & -> & Hr). by exists f.
    + change (collected rules (vreplicate 8 None) !!! class_index c = Some (values !!! class_index c)) in Hin.
      rewrite collected_other, vlookup_replicate in Hin; done.
  - intros r1 r2 Hr1 Hr2 Hout. specialize (Hmono _ _ Hout). rewrite !Hval in Hmono by done. done.
Qed.

Lemma admissible_try_new :
  policy_admissible provenance generation rules ->
  exists p, BudgetPolicySnapshot_try_new provenance generation rules = Ok p.
Proof using Hfloors.
  intros [[Hp Hg] Hgn Hu Hc Hr Hm].
  assert (Hrange : forall r, r ∈ rules -> 0 <= ReserveClassFloor_floor_percent r <= 100).
  { intros r Hin. split; [by apply Hfloors|by apply Hr]. }
  assert (collect_floors rules (vreplicate 8 None)
          = Ok (collected rules (vreplicate 8 None))) as Hcol.
  { apply collect_floors_Ok. split; [by apply Forall_forall|]. split; [done|].
    split; [|done]. intros. by rewrite vlookup_replicate. }
  destruct (complete_floors_total LADDER (collected rules (vreplicate 8 None))
              (vreplicate 8 0)) as [values Hvals].
  { intros c _. destruct (Hc c) as [f Hf].
    pose proof (collected_rule rules (vreplicate 8 None) _ Hu Hf) as Hl. by eexists. }
  pose proof (values_of_rules _ _ _ Hrange Hu Hvals) as Hval.
  assert (check_monotone LADDER values = Ok tt) as Hmono.
  { apply check_monotone_Ok. intros c1 c2 Hout.
    destruct (Hc c1) as [f1 H1], (Hc c2) as [f2 H2].
    pose proof (Hval _ H1) as V1. pose proof (Hval _ H2) as V2. simpl in V1, V2.
    rewrite V1, V2. exact (Hm _ _ H1 H2 Hout). }
  unfold BudgetPolicySnapshot_try_new, MAX_PROVENANCE_BYTES.
  assert (is_empty provenance = false) as -> by (apply is_empty_str_len; lia).
  rewrite Hg, !bool_decide_false by lia. cbn [orb negb].
  rewrite Hcol. unfold mbind, result_bind. rewrite Hvals, Hmono. by eexists.
Qed.
End TryNew.

(** a budget policy is admitted exactly when it is admissible. For rules
    whose floors are [u16] values, [try_new] succeeds if and only if the
    provenance is 1..=256 printable bytes, the generation is in
    1..=MAX_SAFE_INTEGER, every reserve class has exactly one floor, all are
    percentages and they grow strictly down the ladder; and the snapshot then
    carries for every rule the floor it supplied, with the generation and
    provenance given. *)
Theorem try_new_iff_admissible provenance generation rules :
  is_u64 generation ->
  (forall r, r ∈ rules -> 0 <= ReserveClassFloor_floor_percent r < 2 ^ 16) ->
  (policy_admissible provenance generation rules <->
   exists p, BudgetPolicySnapshot_try_new provenance generation rules = Ok p /\
     (forall r, r ∈ rules -> floor_percent p (ReserveClassFloor_class r)
                            = ReserveClassFloor_floor_percent r) /\
     BudgetPolicySubject_generation (BudgetPolicySnapshot_subject p) = generation /\
     BudgetPolicySubject_provenance (BudgetPolicySnapshot_subject p) = provenance).
Proof.
  intros Hg Hf. split.
  - intros Hadm. destruct (admissible_try_new _ _ _ Hf Hadm) as [p Hp].
    exists p. split; [done|]. by apply (try_new_Ok_admissible _ _ _ Hg Hf p Hp).
  - intros (p & Hp & _). by apply (try_new_Ok_admissible _ _ _ Hg Hf p Hp).
Qed.

(** The floors of the policy that the crate's own tests record. *)
Definition recorded_rules : list ReserveClassFloor :=
  zip_with MkReserveClassFloor LADDER [0; 2; 5; 10; 15; 20; 40; 50].

Lemma try_new_iff_admissible_witness :
  policy_admissible "test-only:recorded-proposal" 7 recorded_rules.
Proof.
  apply (try_new_iff_admissible "test-only:recorded-proposal" 7 recorded_rules).
  - by vm_compute.
  - intros r Hr. unfold recorded_rules in Hr. simpl in Hr.
    repeat (apply elem_of_cons in Hr as [->|Hr]; [by vm_compute|]).
    by apply elem_of_nil in Hr.
  - eexists. split; [vm_compute; reflexivity|]. split; [|by vm_compute].
    intros r Hr. unfold recorded_rules in Hr. simpl in Hr.
    repeat (apply elem_of_cons in Hr as [->|Hr]; [by vm_compute|]).
    by apply elem_of_nil in Hr.
Defined.

(** ** Identity of a snapshot *)

Lemma join_strings_inj sep (l l' : list string) :
  Forall (fun s => no_char sep s = true) l ->
  Forall (fun s => no_char sep s = true) l' ->
  length l = length l' ->
  join_strings (String sep EmptyString) l = join_strings (String sep EmptyString) l' -> l = l'.
Proof.
  intros Hl. revert l'. induction Hl as [|s l Hs Hl IH]; intros l' Hl' Hlen Heq.
  { destruct l'; done. }
  destruct Hl' as [|s' l' Hs' Hl']; [done|]. injection Hlen as Hlen.
  destruct Hl as [|t l Ht Hl], Hl' as [|t' l' Ht' Hl']; try done.
  { simpl in Heq. by subst. }
  change (s +:+ String sep (join_strings (String sep EmptyString) (t :: l))
        = s' +:+ String sep (join_strings (String sep EmptyString) (t' :: l'))) in Heq.
  apply string_sep_inj in Heq as [-> Heq]; [|done..].
  f_equal. apply IH; [by constructor|done|done].
Qed.

Definition comma : Ascii.ascii := Ascii.ascii_of_nat 44.
Definition colon : Ascii.ascii := Ascii.ascii_of_nat 58.

(** the derived policy identity binds the whole policy. Two policies whose
    floors are percentages have the same [policy_id] only if they have the
    same provenance and the same floor for every class: the length prefix and
    the separators of the identity leave no ambiguity. *)
Theorem derive_policy_id_inj prov prov' floors floors' :
  Forall (fun f => 0 <= f) (vec_to_list floors) ->
  Forall (fun f => 0 <= f) (vec_to_list floors') ->
  derive_policy_id prov floors = derive_policy_id prov' floors' ->
  prov = prov' /\ floors = floors'.
Proof.
  intros Hf Hf' Heq. unfold derive_policy_id in Heq.
  apply (inj (String.append _)) in Heq.
  apply (string_sep_inj colon) in Heq as [Hlen Heq];
    [|apply digits_no_char; [done|apply pretty_N_digits]..].
  apply (inj pretty) in Hlen.
  apply string_app_inj_len in Heq as [-> Heq]; [|done]. split; [done|].
  apply (inj (String.append _)) in Heq.
  assert (forall l : list Z, Forall (fun f => 0 <= f) l ->
            Forall (fun s => no_char comma s = true) (pretty <$> l)) as Hdig.
  { intros l Hl. apply Forall_fmap. eapply Forall_impl; [exact Hl|].
    intros z Hz. apply digits_no_char; [done|]. by apply pretty_Z_digits. }
  apply (join_strings_inj comma) in Heq; [|by apply Hdig..|].
  - apply vec_to_list_inj2. by apply (inj (fmap pretty)) in Heq.
  - by rewrite !length_fmap, !length_vec_to_list.
Qed.

Lemma derive_policy_id_inj_witness :
  "a" = "a" /\ vreplicate 8 3 = vreplicate 8 3.
Proof.
  apply (derive_policy_id_inj "a" "a" (vreplicate 8 3) (vreplicate 8 3)).
  - by repeat constructor.
  - by repeat constructor.
  - reflexivity.
Defined.

(** floors round up and never exceed the pot. For a percentage and a
    64-bit opening capacity, [floor_units] is the least number of units that
    is at least that percentage of the opening, it is at most the opening (the
    final narrowing cast loses nothing), it is positive whenever the percentage
    and the opening are, and a larger percentage never gives a lower floor. *)
Theorem floor_units_is_ceiling percent opening :
  0 <= percent <= 100 -> is_u64 opening ->
  let f := floor_units percent opening in
  0 <= f <= opening /\
  opening * percent <= 100 * f < opening * percent + 100 /\
  (0 < percent -> 0 < opening -> 0 < f) /\
  (forall q, percent <= q <= 100 -> f <= floor_units q opening).
Proof.
  intros Hp Ho f. destruct (floor_units_bounds percent opening Hp Ho) as [Hb He].
  fold f in Hb, He. split; [done|]. split; [done|]. split.
  - intros Hp0 Ho0. assert (0 < opening * percent) by by apply Z.mul_pos_pos. lia.
  - intros q Hq. apply floor_units_mono; [lia|lia|done].
Qed.

Lemma floor_units_is_ceiling_witness : 0 < floor_units 20 3 <= 3.
Proof.
  destruct (floor_units_is_ceiling 20 3) as (Hb & _ & Hpos & _).
  - lia.
  - by vm_compute.
  - split; [apply Hpos; lia|lia].
Defined.
