(* ===== verification/VectorLedger.v ===== *)
(** * The multi-dimension budget ledger

    Models crates/budgets/src/dimensions.rs and [VectorLedger] of lib.rs. The source works on a
    copy [next] of the pots and stores it only at the end; an operation here
    returns the ledger it leaves behind with its outcome, and [commit] is the
    final store. *)

From S2P Require Import Prelude BudgetPolicy.
From stdpp Require Import vector.
From stdpp Require Import options.

Local Open Scope Z_scope.

(** ** Budget dimensions, reservation vectors and settlement records

    Models crates/budgets/src/dimensions.rs. The per-dimension arrays are
    [vec _ 18], indexed through [dim_index]. *)

(** crates/budgets/src/dimensions.rs:20-61 (Dimension) *)
Inductive Dimension : Type :=
| DimToken
| DimCost
| DimCall
| DimWallTime
| DimConcurrency
| DimProviderQuota
| DimInvocation
| DimCpu
| DimMemory
| DimPids
| DimDisk
| DimEgress
| DimOutput
| DimArtifact
| DimVerifierBacklog
| DimEffect
| DimProbe
| DimCasLiability.

Global Instance Dimension_eq_dec : EqDecision Dimension.
Proof. solve_decision. Defined.

(** crates/budgets/src/dimensions.rs:64-85 (Dimension::ALL) *)
Definition Dimension_ALL : list Dimension :=
  [DimToken; DimCost; DimCall; DimWallTime; DimConcurrency; DimProviderQuota; DimInvocation; DimCpu; DimMemory; DimPids; DimDisk; DimEgress; DimOutput; DimArtifact; DimVerifierBacklog; DimEffect; DimProbe; DimCasLiability].

(** crates/budgets/src/dimensions.rs:87-110 (Dimension::name) *)
Definition Dimension_name (d : Dimension) : string :=
  match d with
  | DimToken => "token"
  | DimCost => "cost"
  | DimCall => "call"
  | DimWallTime => "wall-time"
  | DimConcurrency => "concurrency"
  | DimProviderQuota => "provider-quota"
  | DimInvocation => "invocation"
  | DimCpu => "cpu"
  | DimMemory => "memory"
  | DimPids => "pids"
  | DimDisk => "disk"
  | DimEgress => "egress"
  | DimOutput => "output"
  | DimArtifact => "artifact"
  | DimVerifierBacklog => "verifier-backlog"
  | DimEffect => "effect"
  | DimProbe => "probe"
  | DimCasLiability => "cas-liability"
  end.

(** crates/budgets/src/dimensions.rs:112-116 (Dimension::index) *)
Definition dim_index (d : Dimension) : fin 18 :=
  match d with
  | DimToken => 0
  | DimCost => 1
  | DimCall => 2
  | DimWallTime => 3
  | DimConcurrency => 4
  | DimProviderQuota => 5
  | DimInvocation => 6
  | DimCpu => 7
  | DimMemory => 8
  | DimPids => 9
  | DimDisk => 10
  | DimEgress => 11
  | DimOutput => 12
  | DimArtifact => 13
  | DimVerifierBacklog => 14
  | DimEffect => 15
  | DimProbe => 16
  | DimCasLiability => 17
  end%fin.

(** An array with one cell per dimension. *)
Abbreviation dim_array A := (vec A 18).

Definition dim_get {A} (v : dim_array A) (d : Dimension) : A := v !!! dim_index d.
Definition dim_set {A} (v : dim_array A) (d : Dimension) (x : A) : dim_array A :=
  vinsert (dim_index d) x v.

(** crates/budgets/src/dimensions.rs:125-129 (ReservationVector) *)
Record ReservationVector : Type := MkReservationVector {
  ReservationVector_units : dim_array Z
}.

(** crates/budgets/src/dimensions.rs:132-135 (ReservationVector::ZERO) *)
Definition ReservationVector_ZERO : ReservationVector := MkReservationVector (vreplicate 18 0).

(** crates/budgets/src/dimensions.rs:137-142 (ReservationVector::with) *)
Definition ReservationVector_with (v : ReservationVector) (d : Dimension) (units : Z)
  : ReservationVector := MkReservationVector (dim_set (ReservationVector_units v) d units).

(** crates/budgets/src/dimensions.rs:144-151 (ReservationVector::from_fn) *)
Definition ReservationVector_from_fn (f : Dimension -> Z) : ReservationVector :=
  foldl (fun v d => ReservationVector_with v d (f d)) ReservationVector_ZERO Dimension_ALL.

(** crates/budgets/src/dimensions.rs:153-157 (ReservationVector::get) *)
Definition ReservationVector_get (v : ReservationVector) (d : Dimension) : Z :=
  dim_get (ReservationVector_units v) d.

(** crates/budgets/src/dimensions.rs:164-168 (ReservationVector::is_zero) *)
Definition ReservationVector_is_zero (v : ReservationVector) : bool :=
  forallb (fun units => bool_decide (units = 0)) (ReservationVector_units v).

(** crates/budgets/src/dimensions.rs:170-175 (ReservationVector::iter) *)
Definition ReservationVector_iter (v : ReservationVector) : list (Dimension * Z) :=
  (fun d => (d, ReservationVector_get v d)) <$> Dimension_ALL.

(** crates/budgets/src/dimensions.rs:177-180 (ReservationVector::nonzero) *)
Definition ReservationVector_nonzero (v : ReservationVector) : list (Dimension * Z) :=
  filter (fun p => 0 < p.2) (ReservationVector_iter v).

(** crates/budgets/src/dimensions.rs:183-193 (Usage) *)
Inductive Usage : Type := UsageUnknown | UsageKnown (units : Z).

(** crates/budgets/src/dimensions.rs:195-199 (UsageVector) *)
Record UsageVector : Type := MkUsageVector { UsageVector_usage : dim_array Usage }.

(** crates/budgets/src/dimensions.rs:202-205 (UsageVector::UNKNOWN) *)
Definition UsageVector_UNKNOWN : UsageVector := MkUsageVector (vreplicate 18 UsageUnknown).

(** crates/budgets/src/dimensions.rs:217-222 (UsageVector::with_known) *)
Definition UsageVector_with_known (u : UsageVector) (d : Dimension) (units : Z) : UsageVector :=
  MkUsageVector (dim_set (UsageVector_usage u) d (UsageKnown units)).

(** crates/budgets/src/dimensions.rs:224-229 (UsageVector::with_unknown) *)
Definition UsageVector_with_unknown (u : UsageVector) (d : Dimension) : UsageVector :=
  MkUsageVector (dim_set (UsageVector_usage u) d UsageUnknown).

(** crates/budgets/src/dimensions.rs:207-215 (UsageVector::known) *)
Definition UsageVector_known (v : ReservationVector) : UsageVector :=
  foldl (fun u p => UsageVector_with_known u p.1 p.2) UsageVector_UNKNOWN
    (ReservationVector_iter v).

(** crates/budgets/src/dimensions.rs:231-235 (UsageVector::get) *)
Definition UsageVector_get (u : UsageVector) (d : Dimension) : Usage :=
  dim_get (UsageVector_usage u) d.

(** crates/budgets/src/dimensions.rs:238-268 (ForecastOutcome) *)
Inductive ForecastOutcome : Type :=
| OutcomeExact
| OutcomeUnder (residual : Z)
| OutcomeOver (overrun : Z)
| OutcomeUnknown (retained : Z)
| OutcomeUnforecastOverrun (overrun : Z)
| OutcomeUnforecastUnknown.

(** crates/budgets/src/dimensions.rs:271-282 (ForecastOutcome::is_liability) *)
Definition is_liability (o : ForecastOutcome) : bool :=
  match o with
  | OutcomeOver _ | OutcomeUnknown _ | OutcomeUnforecastOverrun _
  | OutcomeUnforecastUnknown => true
  | _ => false
  end.

(** crates/budgets/src/dimensions.rs:285-297 (ForecastError) *)
Record ForecastError : Type := MkForecastError {
  ForecastError_dimension : Dimension;
  ForecastError_forecast : Z;
  ForecastError_usage : Usage;
  ForecastError_outcome : ForecastOutcome
}.

(** crates/budgets/src/dimensions.rs:299-315 (SettlementRecord) *)
Record SettlementRecord : Type := MkSettlementRecord {
  SettlementRecord_id : string;
  SettlementRecord_class : ReserveClass;
  SettlementRecord_policy : BudgetPolicySubject;
  SettlementRecord_forecast : ReservationVector;
  SettlementRecord_usage : UsageVector;
  SettlementRecord_errors : list ForecastError
}.

(** crates/budgets/src/dimensions.rs:318-322 (SettlementRecord::is_forecast_error_event) *)
Definition is_forecast_error_event (r : SettlementRecord) : bool :=
  existsb (fun row => is_liability (ForecastError_outcome row)) (SettlementRecord_errors r).

(** crates/budgets/src/dimensions.rs:324-328 (SettlementRecord::row) *)
Definition SettlementRecord_row (r : SettlementRecord) (d : Dimension) : option ForecastError :=
  List.find (fun row => bool_decide (ForecastError_dimension row = d))
    (SettlementRecord_errors r).

(** crates/budgets/src/dimensions.rs:340-361 (DimensionState) *)
Record DimensionState : Type := MkDimensionState {
  pot_opening : Z;
  pot_remaining : Z;
  pot_reserved : Z;
  pot_retained : Z;
  pot_settled : Z;
  pot_overrun : Z;
  pot_unknown_events : Z
}.

(** crates/budgets/src/dimensions.rs:364-372 (DimensionState::conserved) *)
Definition pot_conserved (p : DimensionState) : bool :=
  bool_decide (
    (sum ← u64_checked_add (pot_remaining p) (pot_reserved p);
     sum ← u64_checked_add sum (pot_retained p);
     u64_checked_add sum (pot_settled p)) = Some (pot_opening p)).

(** crates/budgets/src/dimensions.rs:374-378 (DimensionState::unknown_liability) *)
Definition pot_unknown_liability (p : DimensionState) : option Z :=
  u64_checked_add (pot_retained p) (pot_overrun p).

(** crates/budgets/src/dimensions.rs:380-384 (DimensionState::has_unknown_liability) *)
Definition pot_has_unknown_liability (p : DimensionState) : bool :=
  bool_decide (0 < pot_retained p) || bool_decide (0 < pot_overrun p)
  || bool_decide (0 < pot_unknown_events p).

(** crates/budgets/src/dimensions.rs:387-398 (VectorReservation) *)
Record VectorReservation : Type := MkVectorReservation {
  VectorReservation_id : string;
  VectorReservation_class : ReserveClass;
  VectorReservation_policy : BudgetPolicySubject;
  VectorReservation_forecast : ReservationVector
}.

(** crates/budgets/src/dimensions.rs:400-452 (DimensionError) *)
Inductive DimensionError : Type :=
| DimPolicy (e : BudgetPolicyError)
| DimInvalid (why : string)
| DimDuplicate (id : string)
| DimExhausted (dimension : Dimension) (requested remaining : Z)
| DimBelowFloor (dimension : Dimension) (class : ReserveClass)
    (floor remaining requested : Z)
| DimNotFound
| DimConservation (dimension : Dimension)
| DimArithmeticOverflow (dimension : Dimension)
| DimUnknownIsNotHeadroom (dimension : Dimension).

(** crates/budgets/src/dimensions.rs:455-469 (DimensionError::reason_code) *)
Definition DimensionError_reason_code (e : DimensionError) : string :=
  match e with
  | DimPolicy e => BudgetPolicyError_reason_code e
  | DimInvalid _ => "BUDGET_RESERVATION_INVALID"
  | DimDuplicate _ => "BUDGET_RESERVATION_DUPLICATE"
  | DimExhausted _ _ _ => "BUDGET_DIMENSION_EXHAUSTED"
  | DimBelowFloor _ _ _ _ _ => "BUDGET_CLASS_FLOOR"
  | DimNotFound => "BUDGET_RESERVATION_NOT_FOUND"
  | DimConservation _ => "BUDGET_CONSERVATION"
  | DimArithmeticOverflow _ => "BUDGET_ARITHMETIC_OVERFLOW"
  | DimUnknownIsNotHeadroom _ => "BUDGET_UNKNOWN_NOT_HEADROOM"
  end.

(** crates/budgets/src/dimensions.rs:471-483 (DimensionError::dimension) *)
Definition DimensionError_dimension (e : DimensionError) : option Dimension :=
  match e with
  | DimExhausted d _ _ | DimBelowFloor d _ _ _ _ => Some d
  | DimConservation d | DimArithmeticOverflow d | DimUnknownIsNotHeadroom d => Some d
  | DimPolicy _ | DimInvalid _ | DimDuplicate _ | DimNotFound => None
  end.

(** ** Lemmas *)

Global Instance dim_index_inj : Inj (=) (=) dim_index.
Proof. intros [] []; simpl; congruence. Qed.

Lemma dim_in_all d : d ∈ Dimension_ALL.
Proof. destruct d; repeat (apply elem_of_cons; (by left) || right). Qed.

Lemma Dimension_ALL_NoDup : NoDup Dimension_ALL.
Proof. apply (bool_decide_unpack _). by vm_compute. Qed.

Lemma dim_get_set {A} (v : dim_array A) d x : dim_get (dim_set v d x) d = x.
Proof. apply vlookup_insert. Qed.

Lemma dim_get_set_ne {A} (v : dim_array A) d d' x :
  d <> d' -> dim_get (dim_set v d x) d' = dim_get v d'.
Proof. intros Hne. apply vlookup_insert_ne. intros ?%(inj dim_index). done. Qed.

Lemma dim_index_surj i : exists d, dim_index d = i.
Proof.
  exists (nth (fin_to_nat i) Dimension_ALL DimToken).
  repeat (inv_fin i; [reflexivity|intros i]). inv_fin i.
Qed.

Lemma dim_array_forall {A} (P : A -> Prop) (v : dim_array A) :
  Forall P (vec_to_list v) <-> forall d, P (dim_get v d).
Proof.
  rewrite Forall_vlookup. split; [intros H d; apply H|].
  intros H i. destruct (dim_index_surj i) as [d <-]. apply H.
Qed.

Lemma dim_array_eq {A} (v w : dim_array A) :
  (forall d, dim_get v d = dim_get w d) -> v = w.
Proof.
  intros H. apply vec_eq. intros i. destruct (dim_index_surj i) as [d <-]. apply H.
Qed.

Lemma ReservationVector_is_zero_spec v :
  ReservationVector_is_zero v = true <-> forall d, ReservationVector_get v d = 0.
Proof.
  unfold ReservationVector_is_zero, ReservationVector_get.
  rewrite <- (dim_array_forall (fun x => x = 0)), <- Is_true_true, forallb_True.
  apply Forall_iff. intros x. by rewrite bool_decide_spec.
Qed.

Lemma elem_of_ReservationVector_iter v d n :
  (d, n) ∈ ReservationVector_iter v <-> n = ReservationVector_get v d.
Proof.
  unfold ReservationVector_iter. rewrite list_elem_of_fmap. split.
  - intros (d' & [= -> ->] & _). done.
  - intros ->. exists d. split; [done|apply dim_in_all].
Qed.

Lemma elem_of_ReservationVector_nonzero v d n :
  (d, n) ∈ ReservationVector_nonzero v <-> n = ReservationVector_get v d /\ 0 < n.
Proof.
  unfold ReservationVector_nonzero. rewrite list_elem_of_filter.
  rewrite elem_of_ReservationVector_iter. naive_solver.
Qed.

Lemma ReservationVector_iter_NoDup v : NoDup (ReservationVector_iter v).*1.
Proof.
  assert ((ReservationVector_iter v).*1 = Dimension_ALL) as -> by reflexivity.
  apply Dimension_ALL_NoDup.
Qed.

Lemma ReservationVector_nonzero_NoDup v : NoDup (ReservationVector_nonzero v).*1.
Proof.
  unfold ReservationVector_nonzero.
  eapply sublist_NoDup; [apply ReservationVector_iter_NoDup|].
  apply fmap_sublist, sublist_filter.
Qed.

(** In range, conservation is the identity between the four shares and the
    opening capacity. *)
Definition pot_in_range (p : DimensionState) : Prop :=
  is_u64 (pot_opening p) /\ is_u64 (pot_remaining p) /\ is_u64 (pot_reserved p) /\
  is_u64 (pot_retained p) /\ is_u64 (pot_settled p) /\ is_u64 (pot_overrun p) /\
  is_u64 (pot_unknown_events p).

Lemma pot_conserved_spec p :
  pot_in_range p ->
  (pot_conserved p = true <->
   pot_remaining p + pot_reserved p + pot_retained p + pot_settled p = pot_opening p).
Proof.
  unfold pot_in_range, pot_conserved. intros H. rewrite bool_decide_eq_true.
  unfold u64_checked_add, to_u64. split.
  - intros Hs. repeat (case_decide; simpl in Hs; [|done]). by injection Hs.
  - intros Hs. rewrite decide_True by int_lia. simpl.
    rewrite decide_True by int_lia. simpl. rewrite decide_True by int_lia. by f_equal.
Qed.

(** ** The ledger *)

(** crates/budgets/src/lib.rs:228-236 (VectorLedger) *)
Record VectorLedger : Type := MkVectorLedger {
  vl_policy : BudgetPolicySnapshot;
  vl_pots : dim_array DimensionState;
  vl_open : gmap string VectorReservation;
  vl_issued : gset string
}.

(** crates/budgets/src/lib.rs:238-241 (add) *)
Definition dim_add (d : Dimension) (l r : Z) : result DimensionError Z :=
  ok_or (u64_checked_add l r) (DimArithmeticOverflow d).

(** crates/budgets/src/lib.rs:243-246 (sub) *)
Definition dim_sub (d : Dimension) (l r : Z) : result DimensionError Z :=
  ok_or (u64_checked_sub l r) (DimConservation d).

(** crates/budgets/src/lib.rs:248-254 (check) *)
Definition dim_check (d : Dimension) (pot : DimensionState) : result DimensionError unit :=
  if pot_conserved pot then Ok tt else Err (DimConservation d).

(** crates/budgets/src/lib.rs:257-280 (VectorLedger::new) *)
Definition VectorLedger_new (opening unknown : ReservationVector)
  (policy : BudgetPolicySnapshot) : VectorLedger :=
  let pots := foldl (fun pots p =>
      dim_set pots p.1
        (MkDimensionState p.2 p.2 0 0 0 (ReservationVector_get unknown p.1) 0))
    (vreplicate 18 (MkDimensionState 0 0 0 0 0 0 0)) (ReservationVector_iter opening) in
  MkVectorLedger policy pots ∅ ∅.

(** crates/budgets/src/lib.rs:288-292 (VectorLedger::state) *)
Definition vl_state (l : VectorLedger) (d : Dimension) : DimensionState :=
  dim_get (vl_pots l) d.

(** crates/budgets/src/lib.rs:294-298 (VectorLedger::headroom) *)
Definition vl_headroom (l : VectorLedger) : ReservationVector :=
  ReservationVector_from_fn (fun d => pot_remaining (vl_state l d)).

(** crates/budgets/src/lib.rs:300-304 (VectorLedger::conserved) *)
Definition vl_conserved (l : VectorLedger) : bool :=
  forallb pot_conserved (vl_pots l).

(** crates/budgets/src/lib.rs:311-323 (VectorLedger::unknown_as_headroom) *)
Definition vl_unknown_as_headroom (l : VectorLedger) (d : Dimension)
  : result DimensionError Z :=
  if pot_has_unknown_liability (vl_state l d) then Err (DimUnknownIsNotHeadroom d)
  else Ok 0.

(** A loop over [(dimension, units)] pairs that rewrites one pot per pair and
    may push one row; the first error ends it. *)
Fixpoint for_pots {R} (f : Dimension -> Z -> DimensionState ->
    result DimensionError (DimensionState * option R))
  (pairs : list (Dimension * Z)) (pots : dim_array DimensionState)
  : result DimensionError (dim_array DimensionState * list R) :=
  match pairs with
  | [] => Ok (pots, [])
  | (d, n) :: rest =>
      out ← f d n (dim_get pots d);
      tail ← for_pots f rest (dim_set pots d out.1);
      mret (tail.1, option_list out.2 ++ tail.2)
  end.

(** The body of the reserve loop, on one pot. *)
(** crates/budgets/src/lib.rs:351-376 (VectorLedger::reserve loop body) *)
Definition reserve_pot (policy : BudgetPolicySnapshot) (class : ReserveClass)
  (d : Dimension) (requested : Z) (pot : DimensionState)
  : result DimensionError (DimensionState * option unit) :=
  let remaining := pot_remaining pot in
  if bool_decide (remaining < requested) then Err (DimExhausted d requested remaining)
  else
    let after := remaining - requested in
    let floor := policy_floor_units policy class (pot_opening pot) in
    if bool_decide (after < floor)
    then Err (DimBelowFloor d class floor remaining requested)
    else
      reserved ← dim_add d (pot_reserved pot) requested;
      let pot' := MkDimensionState (pot_opening pot) after reserved (pot_retained pot)
                    (pot_settled pot) (pot_overrun pot) (pot_unknown_events pot) in
      _ ← dim_check d pot';
      mret (pot', None).

(** The body of the settle loop, on one pot; no row when nothing was forecast
    and nothing was used. *)
(** crates/budgets/src/lib.rs:410-454 (VectorLedger::settle loop body) *)
Definition settle_pot (usage : UsageVector) (d : Dimension) (forecast : Z)
  (pot : DimensionState) : result DimensionError (DimensionState * option ForecastError) :=
  let observed := UsageVector_get usage d in
  let finish (pot : DimensionState) (outcome : ForecastOutcome) :=
    reserved ← dim_sub d (pot_reserved pot) forecast;
    let pot' := MkDimensionState (pot_opening pot) (pot_remaining pot) reserved
                  (pot_retained pot) (pot_settled pot) (pot_overrun pot)
                  (pot_unknown_events pot) in
    _ ← dim_check d pot';
    mret (pot', Some (MkForecastError d forecast observed outcome)) in
  match observed with
  | UsageKnown actual =>
      if bool_decide (forecast = 0) then
        if bool_decide (actual = 0) then mret (pot, None)
        else
          overrun ← dim_add d (pot_overrun pot) actual;
          finish (MkDimensionState (pot_opening pot) (pot_remaining pot) (pot_reserved pot)
                    (pot_retained pot) (pot_settled pot) overrun (pot_unknown_events pot))
                 (OutcomeUnforecastOverrun actual)
      else
        let used := Z.min actual forecast in
        let residual := forecast - used in
        let overrun := actual - used in
        settled ← dim_add d (pot_settled pot) used;
        remaining ← dim_add d (pot_remaining pot) residual;
        overrun' ← dim_add d (pot_overrun pot) overrun;
        finish (MkDimensionState (pot_opening pot) remaining (pot_reserved pot)
                  (pot_retained pot) settled overrun' (pot_unknown_events pot))
               (if bool_decide (0 < overrun) then OutcomeOver overrun
                else if bool_decide (0 < residual) then OutcomeUnder residual
                else OutcomeExact)
  | UsageUnknown =>
      if bool_decide (forecast = 0) then
        events ← dim_add d (pot_unknown_events pot) 1;
        finish (MkDimensionState (pot_opening pot) (pot_remaining pot) (pot_reserved pot)
                  (pot_retained pot) (pot_settled pot) (pot_overrun pot) events)
               OutcomeUnforecastUnknown
      else
        retained ← dim_add d (pot_retained pot) forecast;
        finish (MkDimensionState (pot_opening pot) (pot_remaining pot) (pot_reserved pot)
                  retained (pot_settled pot) (pot_overrun pot) (pot_unknown_events pot))
               (OutcomeUnknown forecast)
  end.

(** The body of the release loop, on one pot. *)
(** crates/budgets/src/lib.rs:472-477 (VectorLedger::release loop body) *)
Definition release_pot (d : Dimension) (forecast : Z) (pot : DimensionState)
  : result DimensionError (DimensionState * option unit) :=
  reserved ← dim_sub d (pot_reserved pot) forecast;
  remaining ← dim_add d (pot_remaining pot) forecast;
  let pot' := MkDimensionState (pot_opening pot) remaining reserved (pot_retained pot)
                (pot_settled pot) (pot_overrun pot) (pot_unknown_events pot) in
  _ ← dim_check d pot';
  mret (pot', None).

(** The ledger changes only when the whole operation succeeds. *)
Definition commit {A} (l : VectorLedger) (r : result DimensionError (VectorLedger * A))
  : VectorLedger * result DimensionError A :=
  match r with
  | Ok (l', a) => (l', Ok a)
  | Err e => (l, Err e)
  | Panic => (l, Panic)
  end.

(** crates/budgets/src/lib.rs:325-387 (VectorLedger::reserve) *)
Definition vl_reserve (id : string) (class : ReserveClass) (forecast : ReservationVector)
  (policy : option BudgetPolicySnapshot) (l : VectorLedger)
  : VectorLedger * result DimensionError VectorReservation :=
  commit l (
    _ ← map_err DimPolicy (require_exact (vl_policy l) policy);
    if is_empty id || ReservationVector_is_zero forecast then
      Err (DimInvalid "id must be non-empty and at least one dimension must be positive")
    else if bool_decide (id ∈ vl_issued l) then Err (DimDuplicate id)
    else
      next ← for_pots (reserve_pot (vl_policy l) class)
               (ReservationVector_nonzero forecast) (vl_pots l);
      let row := MkVectorReservation id class
                   (BudgetPolicySnapshot_subject (vl_policy l)) forecast in
      mret (MkVectorLedger (vl_policy l) next.1 (<[id := row]> (vl_open l))
              ({[id]} ∪ vl_issued l), row)).

(** crates/budgets/src/lib.rs:389-461 (VectorLedger::settle) *)
Definition vl_settle (id : string) (usage : UsageVector)
  (policy : option BudgetPolicySnapshot) (l : VectorLedger)
  : VectorLedger * result DimensionError SettlementRecord :=
  commit l (
    _ ← map_err DimPolicy (require_exact (vl_policy l) policy);
    row ← ok_or (vl_open l !! id) DimNotFound;
    next ← for_pots (settle_pot usage)
             (ReservationVector_iter (VectorReservation_forecast row)) (vl_pots l);
    mret (MkVectorLedger (vl_policy l) next.1 (delete id (vl_open l)) (vl_issued l),
          MkSettlementRecord (VectorReservation_id row) (VectorReservation_class row)
            (VectorReservation_policy row) (VectorReservation_forecast row) usage next.2)).

(** crates/budgets/src/lib.rs:463-481 (VectorLedger::release) *)
Definition vl_release (id : string) (l : VectorLedger)
  : VectorLedger * result DimensionError ReservationVector :=
  commit l (
    row ← ok_or (vl_open l !! id) DimNotFound;
    next ← for_pots release_pot
             (ReservationVector_nonzero (VectorReservation_forecast row)) (vl_pots l);
    mret (MkVectorLedger (vl_policy l) next.1 (delete id (vl_open l)) (vl_issued l),
          VectorReservation_forecast row)).

(** ** Loops over pots *)

Section ForPots.
Context {R : Type}.
Variable f : Dimension -> Z -> DimensionState ->
  result DimensionError (DimensionState * option R).

(** Each pot is rewritten from its own old value. *)
Lemma for_pots_Ok pairs pots pots' rows :
  NoDup pairs.*1 ->
  for_pots f pairs pots = Ok (pots', rows) ->
  (forall d n, (d, n) ∈ pairs ->
     exists r, f d n (dim_get pots d) = Ok (dim_get pots' d, r)) /\
  (forall d, d ∉ pairs.*1 -> dim_get pots' d = dim_get pots d).
Proof.
  revert pots rows. induction pairs as [|[d n] pairs IH]; intros pots rows Hnd H; simpl in *.
  { case_result. split; [|done]. intros d n Hin. by apply elem_of_nil in Hin. }
  apply NoDup_cons in Hnd as [Hfresh Hnd]. inv_result.
  match goal with H : for_pots f pairs _ = Ok ?x |- _ =>
    destruct x as [pots2 rows2]; apply IH in H as [Hin Hout]; [|done] end.
  simpl in *. simplify_eq. destruct x as [pot r]; simpl in *. split.
  - intros d' n' [[= -> ->]|Hd']%elem_of_cons.
    + exists r. rewrite Hout by done. by rewrite dim_get_set.
    + destruct (Hin d' n' Hd') as [r' Hr']. exists r'.
      rewrite dim_get_set_ne in Hr'; [done|].
      intros ->. apply Hfresh. by apply (list_elem_of_fmap_2 fst _ (d', n')).
  - intros d' [Hne Hd']%not_elem_of_cons. rewrite Hout by done. by apply dim_get_set_ne.
Qed.

Lemma for_pots_total pairs pots :
  NoDup pairs.*1 ->
  (forall d n, (d, n) ∈ pairs -> exists out, f d n (dim_get pots d) = Ok out) ->
  exists out, for_pots f pairs pots = Ok out.
Proof.
  revert pots. induction pairs as [|[d n] pairs IH]; intros pots Hnd H; simpl; [by eexists|].
  apply NoDup_cons in Hnd as [Hfresh Hnd].
  destruct (H d n) as [[pot r] Hr]; [by left|]. rewrite Hr. simpl.
  destruct (IH (dim_set pots d pot)) as [out Hout]; [done| |rewrite Hout; by eexists].
  intros d' n' Hin. rewrite dim_get_set_ne; [apply H; by right|].
  intros ->. apply Hfresh. by apply (list_elem_of_fmap_2 fst _ (d', n')).
Qed.

(** The error of a loop is the error of the first pair that fails. *)
Lemma for_pots_Err pairs pots e :
  NoDup pairs.*1 ->
  for_pots f pairs pots = Err e ->
  exists before d n after, pairs = before ++ (d, n) :: after /\
    f d n (dim_get pots d) = Err e /\
    forall d' n', (d', n') ∈ before -> is_ok (f d' n' (dim_get pots d')) = true.
Proof.
  revert pots. induction pairs as [|[d n] pairs IH]; intros pots Hnd H; simpl in *; [done|].
  apply NoDup_cons in Hnd as [Hfresh Hnd].
  apply bind_Err in H as [H|([pot r] & Hok & H)].
  { exists [], d, n, pairs. split; [done|]. split; [done|].
    intros d' n' Hin. by apply elem_of_nil in Hin. }
  apply bind_Err in H as [H|(? & _ & H)]; [|done].
  apply IH in H as (before & d1 & n1 & after & -> & He & Hb); [|done].
  rewrite fmap_app, fmap_cons in Hfresh. simpl in Hfresh.
  apply not_elem_of_app in Hfresh as [Hfb [Hd1 _]%not_elem_of_cons].
  exists ((d, n) :: before), d1, n1, after. split; [done|].
  simpl in *. rewrite dim_get_set_ne in He by done. split; [done|].
  intros d' n' [[= -> ->]|Hin]%elem_of_cons; [by rewrite Hok|].
  specialize (Hb d' n' Hin). rewrite dim_get_set_ne in Hb; [done|].
  intros ->. apply Hfb. by apply (list_elem_of_fmap_2 fst _ (d', n')).
Qed.
End ForPots.
Global Arguments for_pots : simpl never.

(** ** The invariant *)

Definition vector_ok (v : ReservationVector) : Prop :=
  forall d, is_u64 (ReservationVector_get v d).
Definition usage_ok (u : UsageVector) : Prop :=
  forall d n, UsageVector_get u d = UsageKnown n -> is_u64 n.

(** Units of [d] held by the open reservations. *)
Definition held (open : gmap string VectorReservation) (d : Dimension) : Z :=
  map_fold (fun _ row acc => ReservationVector_get (VectorReservation_forecast row) d + acc)
    0 open.

Record pot_inv (held : Z) (p : DimensionState) : Prop := {
  pi_range : pot_in_range p;
  pi_sum : pot_remaining p + pot_reserved p + pot_retained p + pot_settled p = pot_opening p;
  pi_held : pot_reserved p = held
}.

Record vl_inv (l : VectorLedger) : Prop := {
  vi_pots d : pot_inv (held (vl_open l) d) (vl_state l d);
  vi_rows id row : vl_open l !! id = Some row ->
    VectorReservation_id row = id /\ id ∈ vl_issued l /\
    VectorReservation_policy row = BudgetPolicySnapshot_subject (vl_policy l) /\
    vector_ok (VectorReservation_forecast row);
  vi_floors c : 0 <= floor_percent (vl_policy l) c <= 100
}.

Lemma held_insert open id row d :
  open !! id = None ->
  held (<[id := row]> open) d
  = ReservationVector_get (VectorReservation_forecast row) d + held open d.
Proof. intros Hid. unfold held. rewrite map_fold_insert_L; [done|lia|done]. Qed.

Lemma held_delete open id row d :
  open !! id = Some row ->
  held open d
  = ReservationVector_get (VectorReservation_forecast row) d + held (delete id open) d.
Proof.
  intros Hid. rewrite <- (held_insert (delete id open) id) by (by simplify_map_eq).
  by rewrite insert_delete_id.
Qed.

Lemma held_nonneg open d :
  (forall id row, open !! id = Some row -> vector_ok (VectorReservation_forecast row)) ->
  0 <= held open d.
Proof.
  induction open as [|id row open Hid IH] using map_ind; intros H; [done|].
  rewrite held_insert by done.
  assert (0 <= held open d).
  { apply IH. intros i r Hi. apply (H i). rewrite lookup_insert_ne; [done|congruence]. }
  pose proof (H id row) as Hv. rewrite lookup_insert_eq in Hv.
  destruct (Hv eq_refl d). lia.
Qed.

(** ** One pot at a time

    Each loop body, run on a pot that satisfies the invariant, either refuses
    for a stated reason or returns a pot that satisfies the invariant with the
    open total moved by the forecast. *)

Ltac pot_cases :=
  unfold dim_add, dim_sub, dim_check in *; case_result; repeat inv_int_step.

Ltac pot_solve :=
  match goal with
  | |- pot_inv _ _ => split; [unfold pot_in_range|..]; simpl; int_lia
  | _ => int_lia
  end.

Lemma reserve_pot_Ok policy class h d n pot pot' r :
  pot_inv h pot -> is_u64 n ->
  reserve_pot policy class d n pot = Ok (pot', r) ->
  pot_inv (n + h) pot' /\ pot_remaining pot' = pot_remaining pot - n /\
  pot_opening pot' = pot_opening pot /\
  policy_floor_units policy class (pot_opening pot) <= pot_remaining pot'.
Proof.
  intros [(? & ? & ? & ? & ? & ? & ?) Hsum Hheld] Hn Hrun. unfold reserve_pot in Hrun.
  pot_cases. simpl. split; [pot_solve|]. repeat split; int_lia.
Qed.

Lemma reserve_pot_total policy class h d n pot :
  pot_inv h pot -> 0 <= n <= pot_remaining pot ->
  policy_floor_units policy class (pot_opening pot) <= pot_remaining pot - n ->
  exists out, reserve_pot policy class d n pot = Ok out.
Proof.
  intros [(? & ? & ? & ? & ? & ? & ?) Hsum Hheld] Hn Hf. unfold reserve_pot.
  rewrite !bool_decide_false by lia. unfold dim_add, u64_checked_add, to_u64.
  rewrite decide_True by int_lia. simpl. unfold dim_check.
  assert (pot_conserved (MkDimensionState (pot_opening pot) (pot_remaining pot - n)
    (pot_reserved pot + n) (pot_retained pot) (pot_settled pot) (pot_overrun pot)
    (pot_unknown_events pot)) = true) as ->; [|by eexists].
  apply pot_conserved_spec; [unfold pot_in_range|]; simpl; int_lia.
Qed.

Lemma release_pot_Ok h d n pot pot' r :
  pot_inv (n + h) pot -> 0 <= h -> is_u64 n ->
  release_pot d n pot = Ok (pot', r) ->
  pot_inv h pot' /\ pot_remaining pot' = pot_remaining pot + n /\
  pot_opening pot' = pot_opening pot.
Proof.
  intros [(? & ? & ? & ? & ? & ? & ?) Hsum Hheld] Hh Hn Hrun. unfold release_pot in Hrun.
  pot_cases. simpl. split; [pot_solve|]. done.
Qed.

Lemma release_pot_total h d n pot :
  pot_inv (n + h) pot -> 0 <= h -> is_u64 n -> exists out, release_pot d n pot = Ok out.
Proof.
  intros [(? & ? & ? & ? & ? & ? & ?) Hsum Hheld] Hh Hn. unfold release_pot.
  unfold dim_sub, dim_add, u64_checked_sub, u64_checked_add, to_u64.
  rewrite decide_True by int_lia. simpl. rewrite decide_True by int_lia. simpl.
  unfold dim_check.
  assert (pot_conserved (MkDimensionState (pot_opening pot) (pot_remaining pot + n)
    (pot_reserved pot - n) (pot_retained pot) (pot_settled pot) (pot_overrun pot)
    (pot_unknown_events pot)) = true) as ->; [|by eexists].
  apply pot_conserved_spec; [unfold pot_in_range|]; simpl; int_lia.
Qed.

(** What settlement returns to the headroom of one pot: the unused part of a
    forecast whose usage was observed, and nothing otherwise. *)
Definition returned (usage : Usage) (forecast : Z) : Z :=
  match usage with
  | UsageKnown actual => forecast - Z.min actual forecast
  | UsageUnknown => 0
  end.

Lemma settle_pot_Ok usage h d n pot pot' r :
  pot_inv (n + h) pot -> 0 <= h -> is_u64 n -> usage_ok usage ->
  settle_pot usage d n pot = Ok (pot', r) ->
  pot_inv h pot' /\ pot_opening pot' = pot_opening pot /\
  pot_remaining pot' = pot_remaining pot + returned (UsageVector_get usage d) n.
Proof.
  intros [(? & ? & ? & ? & ? & ? & ?) Hsum Hheld] Hh Hn Hu Hrun. specialize (Hu d).
  unfold settle_pot, returned in *.
  destruct (UsageVector_get usage d) as [|actual].
  - pot_cases; simpl; (split; [pot_solve|]); split; int_lia.
  - specialize (Hu _ eq_refl).
    pot_cases; simpl; (split; [pot_solve|]); split; int_lia.
Qed.

(** The liabilities of a pot can still take [usage] without overflow. *)
Definition liability_room (usage : Usage) (forecast : Z) (pot : DimensionState) : Prop :=
  match usage with
  | UsageKnown actual => is_u64 (pot_overrun pot + (actual - Z.min actual forecast))
  | UsageUnknown => forecast = 0 -> is_u64 (pot_unknown_events pot + 1)
  end.

Lemma settle_finish_total d n pot (outcome : ForecastOutcome) observed :
  pot_in_range pot ->
  pot_remaining pot + (pot_reserved pot - n) + pot_retained pot + pot_settled pot
    = pot_opening pot ->
  0 <= n <= pot_reserved pot ->
  exists out : DimensionState * option ForecastError,
   (reserved ← dim_sub d (pot_reserved pot) n;
    let pot' := MkDimensionState (pot_opening pot) (pot_remaining pot) reserved
                  (pot_retained pot) (pot_settled pot) (pot_overrun pot)
                  (pot_unknown_events pot) in
    _ ← dim_check d pot';
    mret (pot', Some (MkForecastError d n observed outcome))) = Ok out.
Proof.
  intros (? & ? & ? & ? & ? & ? & ?) Hsum Hn.
  unfold dim_sub, u64_checked_sub, to_u64. rewrite decide_True by int_lia. simpl.
  unfold dim_check.
  assert (pot_conserved (MkDimensionState (pot_opening pot) (pot_remaining pot)
    (pot_reserved pot - n) (pot_retained pot) (pot_settled pot) (pot_overrun pot)
    (pot_unknown_events pot)) = true) as ->; [|by eexists].
  apply pot_conserved_spec; [unfold pot_in_range|]; simpl; int_lia.
Qed.

Lemma settle_pot_total usage h d n pot :
  pot_inv (n + h) pot -> 0 <= h -> is_u64 n -> usage_ok usage ->
  liability_room (UsageVector_get usage d) n pot ->
  exists out, settle_pot usage d n pot = Ok out.
Proof.
  intros [(? & ? & ? & ? & ? & ? & ?) Hsum Hheld] Hh Hn Hu Hroom. specialize (Hu d).
  unfold settle_pot, liability_room in *.
  unfold dim_add, u64_checked_add, to_u64.
  destruct (UsageVector_get usage d) as [|actual]; case_bool_decide as Hz.
  - rewrite decide_True by (specialize (Hroom Hz); int_lia).
    apply settle_finish_total; [unfold pot_in_range|..]; simpl; try specialize (Hroom Hz); int_lia.
  - rewrite decide_True by int_lia.
    apply settle_finish_total; [unfold pot_in_range|..]; simpl; int_lia.
  - specialize (Hu _ eq_refl). case_bool_decide; [by eexists|].
    rewrite decide_True by int_lia.
    apply settle_finish_total; [unfold pot_in_range|..]; simpl; int_lia.
  - specialize (Hu _ eq_refl).
    rewrite decide_True by int_lia. cbn [ok_or mbind result_bind].
    rewrite decide_True by int_lia. cbn [ok_or mbind result_bind].
    rewrite decide_True by int_lia. cbn [ok_or mbind result_bind].
    apply settle_finish_total; [unfold pot_in_range|..]; simpl; int_lia.
Qed.

(** ** Whole operations *)

Lemma vl_new_state opening unknown policy d :
  vl_state (VectorLedger_new opening unknown policy) d =
  MkDimensionState (ReservationVector_get opening d) (ReservationVector_get opening d)
    0 0 0 (ReservationVector_get unknown d) 0.
Proof. by destruct d. Qed.

Lemma vl_new_inv opening unknown policy :
  vector_ok opening -> vector_ok unknown ->
  (forall c, 0 <= floor_percent policy c <= 100) ->
  vl_inv (VectorLedger_new opening unknown policy).
Proof.
  intros Ho Hu Hp. split; [|done|done].
  intros d. rewrite vl_new_state. specialize (Ho d). specialize (Hu d).
  split; simpl; [unfold pot_in_range; simpl; int_lia|lia|done].
Qed.

Lemma vl_conserved_spec l : vl_inv l -> vl_conserved l = true.
Proof.
  intros Hl. unfold vl_conserved. rewrite <- Is_true_true, forallb_True.
  apply (dim_array_forall (fun p => Is_true (pot_conserved p))). intros d.
  destruct (vi_pots _ Hl d) as [Hr Hs _]. by apply Is_true_true, pot_conserved_spec.
Qed.

(** Inversion of a committed operation. *)
Lemma commit_Ok {A} (l l' : VectorLedger) r (a : A) :
  commit l r = (l', Ok a) <-> r = Ok (l', a).
Proof. destruct r as [[]| |]; simpl; naive_solver. Qed.

Lemma commit_not_Ok {A} (l l' : VectorLedger) r (o : result DimensionError A) :
  commit l r = (l', o) -> is_ok o = false -> l' = l.
Proof. destruct r as [[]| |]; simpl; naive_solver. Qed.

(** The pots after a loop over a whole vector or its non-zero entries. *)
Lemma for_nonzero_pots {R} f v pots pots' (rows : list R) d :
  vector_ok v ->
  for_pots f (ReservationVector_nonzero v) pots = Ok (pots', rows) ->
  (ReservationVector_get v d = 0 /\ dim_get pots' d = dim_get pots d) \/
  (0 < ReservationVector_get v d /\
   exists r, f d (ReservationVector_get v d) (dim_get pots d) = Ok (dim_get pots' d, r)).
Proof.
  intros Hv H. apply for_pots_Ok in H as [Hin Hout]; [|apply ReservationVector_nonzero_NoDup].
  destruct (Hv d) as [Hpos _].
  destruct (decide (ReservationVector_get v d = 0)) as [Hz|Hz].
  - left. split; [done|]. apply Hout. intros ([d' n] & -> & Hn)%list_elem_of_fmap.
    apply elem_of_ReservationVector_nonzero in Hn as [-> ?]. simpl in Hz. lia.
  - right. split; [lia|]. apply Hin, elem_of_ReservationVector_nonzero. split; [done|lia].
Qed.

Lemma for_all_pots {R} f v pots pots' (rows : list R) d :
  for_pots f (ReservationVector_iter v) pots = Ok (pots', rows) ->
  exists r, f d (ReservationVector_get v d) (dim_get pots d) = Ok (dim_get pots' d, r).
Proof.
  intros H. apply for_pots_Ok in H as [Hin _]; [|apply ReservationVector_iter_NoDup].
  by apply Hin, elem_of_ReservationVector_iter.
Qed.

(** What every operation preserves of the ledger it found. *)
Definition vl_extends (l l' : VectorLedger) : Prop :=
  vl_policy l' = vl_policy l /\ vl_issued l ⊆ vl_issued l' /\
  forall d, pot_opening (vl_state l' d) = pot_opening (vl_state l d).

Global Instance vl_extends_preorder : PreOrder vl_extends.
Proof.
  split; [done|]. intros l1 l2 l3 (P1 & I1 & O1) (P2 & I2 & O2).
  split; [congruence|]. split; [set_solver|]. intros d. by rewrite O2.
Qed.

Lemma vl_reserve_Ok id class forecast policy l l' row :
  vl_inv l -> vector_ok forecast ->
  vl_reserve id class forecast policy l = (l', Ok row) ->
  vl_inv l' /\ vl_extends l l' /\
  vl_open l' = <[id := row]> (vl_open l) /\ vl_open l !! id = None /\
  (forall d, pot_remaining (vl_state l' d)
    = pot_remaining (vl_state l d) - ReservationVector_get forecast d) /\
  (forall d, 0 < ReservationVector_get forecast d ->
    policy_floor_units (vl_policy l) class (pot_opening (vl_state l d))
    <= pot_remaining (vl_state l' d)).
Proof.
  intros Hl Hf H. unfold vl_reserve in H. apply commit_Ok in H. case_result.
  destruct x0 as [pots' rows]. simpl.
  match goal with H : for_pots _ _ _ = Ok _ |- _ => rename H into Hloop end.
  match goal with H : id ∉ _ |- _ => rename H into Hfresh end.
  assert (vl_open l !! id = None) as Hnone.
  { apply eq_None_not_Some. intros [row Hrow]. apply Hfresh.
    by destruct (vi_rows _ Hl _ _ Hrow) as (_ & ? & _). }
  assert (Hpot : forall d,
    pot_inv (ReservationVector_get forecast d + held (vl_open l) d) (dim_get pots' d) /\
    pot_remaining (dim_get pots' d)
      = pot_remaining (vl_state l d) - ReservationVector_get forecast d /\
    pot_opening (dim_get pots' d) = pot_opening (vl_state l d) /\
    (0 < ReservationVector_get forecast d ->
      policy_floor_units (vl_policy l) class (pot_opening (vl_state l d))
      <= pot_remaining (dim_get pots' d))).
  { intros d. destruct (for_nonzero_pots _ _ _ _ _ d Hf Hloop) as [[Hz Heq]|[Hpos [r Hr]]].
    - rewrite Heq, Hz. fold (vl_state l d). pose proof (vi_pots _ Hl d).
      split; [done|]. split; [lia|]. split; [done|lia].
    - pose proof (reserve_pot_Ok _ _ _ _ _ _ _ _ (vi_pots _ Hl d) (Hf d) Hr)
        as (? & ? & ? & ?). done. }
  split; [split; simpl|].
  - intros d. rewrite held_insert by done. apply Hpot.
  - intros i r. rewrite lookup_insert_Some. intros [[<- <-]|[Hne Hi]].
    + simpl. split; [done|]. split; [set_solver|done].
    + destruct (vi_rows _ Hl _ _ Hi) as (? & ? & ? & ?). split; [done|]. split; [set_solver|done].
  - apply (vi_floors _ Hl).
  - split; [split; [done|]; split; [simpl; set_solver|apply Hpot]|].
    split; [done|]. split; [done|]. split; apply Hpot.
Qed.

(** Closing a reservation with a loop that hands each pot back its forecast. *)
Lemma vl_close_inv l id row pots' :
  vl_inv l -> vl_open l !! id = Some row ->
  (forall d, pot_inv (held (delete id (vl_open l)) d) (dim_get pots' d) /\
             pot_opening (dim_get pots' d) = pot_opening (vl_state l d)) ->
  let l' := MkVectorLedger (vl_policy l) pots' (delete id (vl_open l)) (vl_issued l) in
  vl_inv l' /\ vl_extends l l'.
Proof.
  intros Hl Hrow Hpot l'. split; [split; simpl|].
  - intros d. apply Hpot.
  - intros i r [_ Hi]%lookup_delete_Some. by apply (vi_rows _ Hl).
  - apply (vi_floors _ Hl).
  - split; [done|]. split; [done|]. intros d. apply Hpot.
Qed.

Lemma vl_open_pot l id row d :
  vl_inv l -> vl_open l !! id = Some row ->
  let n := ReservationVector_get (VectorReservation_forecast row) d in
  let h := held (delete id (vl_open l)) d in
  pot_inv (n + h) (vl_state l d) /\ 0 <= h /\ is_u64 n.
Proof.
  intros Hl Hrow n h. pose proof (vi_rows _ Hl _ _ Hrow) as (_ & _ & _ & Hv).
  split; [|split; [|apply Hv]].
  - subst n h. rewrite <- held_delete by done. apply (vi_pots _ Hl).
  - apply held_nonneg. intros i r [_ Hi]%lookup_delete_Some.
    by destruct (vi_rows _ Hl _ _ Hi) as (_ & _ & _ & ?).
Qed.

Lemma vl_settle_Ok id usage policy l l' rec :
  vl_inv l -> usage_ok usage ->
  vl_settle id usage policy l = (l', Ok rec) ->
  vl_inv l' /\ vl_extends l l' /\
  exists row, vl_open l !! id = Some row /\ vl_open l' = delete id (vl_open l) /\
    forall d, pot_remaining (vl_state l' d) = pot_remaining (vl_state l d)
      + returned (UsageVector_get usage d)
                 (ReservationVector_get (VectorReservation_forecast row) d).
Proof.
  intros Hl Hu H. unfold vl_settle in H. apply commit_Ok in H. inv_result.
  match goal with
  | Hrow : vl_open l !! id = Some ?r, Hloop : for_pots _ _ _ = Ok ?x |- _ =>
      rename r into row; destruct x as [pots' rows]; rename Hrow into Hrow0;
      rename Hloop into Hloop0
  end.
  assert (Hpot : forall d,
    pot_inv (held (delete id (vl_open l)) d) (dim_get pots' d) /\
    pot_opening (dim_get pots' d) = pot_opening (vl_state l d) /\
    pot_remaining (dim_get pots' d) = pot_remaining (vl_state l d)
      + returned (UsageVector_get usage d)
                 (ReservationVector_get (VectorReservation_forecast row) d)).
  { intros d. destruct (for_all_pots _ _ _ _ _ d Hloop0) as [r Hr].
    destruct (vl_open_pot l id row d Hl Hrow0) as (Hp & Hh & Hn).
    by apply (settle_pot_Ok _ _ _ _ _ _ _ Hp Hh Hn Hu Hr). }
  destruct (vl_close_inv l id row pots' Hl Hrow0) as [Hinv Hext].
  { intros d. by destruct (Hpot d) as (? & ? & _). }
  split; [done|]. split; [done|]. exists row. split; [done|]. split; [done|].
  intros d. by destruct (Hpot d) as (_ & _ & ?).
Qed.

Lemma vl_release_Ok id l l' v :
  vl_inv l -> vl_release id l = (l', Ok v) ->
  vl_inv l' /\ vl_extends l l' /\
  exists row, vl_open l !! id = Some row /\ vl_open l' = delete id (vl_open l) /\
    v = VectorReservation_forecast row /\
    forall d, pot_remaining (vl_state l' d)
      = pot_remaining (vl_state l d) + ReservationVector_get v d.
Proof.
  intros Hl H. unfold vl_release in H. apply commit_Ok in H. inv_result.
  match goal with
  | Hrow : vl_open l !! id = Some ?r, Hloop : for_pots _ _ _ = Ok ?x |- _ =>
      rename r into row; destruct x as [pots' rows]; rename Hrow into Hrow0;
      rename Hloop into Hloop0
  end.
  pose proof (vi_rows _ Hl _ _ Hrow0) as (_ & _ & _ & Hv).
  assert (Hpot : forall d,
    pot_inv (held (delete id (vl_open l)) d) (dim_get pots' d) /\
    pot_opening (dim_get pots' d) = pot_opening (vl_state l d) /\
    pot_remaining (dim_get pots' d) = pot_remaining (vl_state l d)
      + ReservationVector_get (VectorReservation_forecast row) d).
  { intros d. destruct (vl_open_pot l id row d Hl Hrow0) as (Hp & Hh & Hn).
    destruct (for_nonzero_pots _ _ _ _ _ d Hv Hloop0) as [[Hz Heq]|[Hpos [r Hr]]].
    - rewrite Hz in Hp |- *. rewrite Heq. fold (vl_state l d). split; [done|]. split; [done|lia].
    - apply (release_pot_Ok _ _ _ _ _ _ Hp Hh Hn) in Hr as (? & ? & ?). done. }
  destruct (vl_close_inv l id row pots' Hl Hrow0) as [Hinv Hext].
  { intros d. by destruct (Hpot d) as (? & ? & _). }
  split; [done|]. split; [done|]. exists row. split; [done|]. split; [done|].
  split; [done|]. intros d. by destruct (Hpot d) as (_ & _ & ?).
Qed.

(** ** Runs of the ledger *)

Inductive VlOp : Type :=
| VlReserve (id : string) (class : ReserveClass) (forecast : ReservationVector)
    (policy : option BudgetPolicySnapshot)
| VlSettle (id : string) (usage : UsageVector) (policy : option BudgetPolicySnapshot)
| VlRelease (id : string).

Definition vl_step (op : VlOp) (l : VectorLedger) : VectorLedger :=
  match op with
  | VlReserve id class forecast policy => (vl_reserve id class forecast policy l).1
  | VlSettle id usage policy => (vl_settle id usage policy l).1
  | VlRelease id => (vl_release id l).1
  end.

Definition vl_run (ops : list VlOp) (l : VectorLedger) : VectorLedger :=
  foldl (fun l op => vl_step op l) l ops.

(** The units an operation carries are 64-bit. *)
Definition op_ok (op : VlOp) : Prop :=
  match op with
  | VlReserve _ _ forecast _ => vector_ok forecast
  | VlSettle _ usage _ => usage_ok usage
  | VlRelease _ => True
  end.

Lemma vl_step_inv op l :
  vl_inv l -> op_ok op -> vl_inv (vl_step op l) /\ vl_extends l (vl_step op l).
Proof.
  intros Hl Hop.
  destruct op as [id class forecast policy|id usage policy|id]; simpl in *.
  - destruct (vl_reserve id class forecast policy l) as [l' [row| |]] eqn:E; simpl.
    + by apply vl_reserve_Ok in E as (? & ? & _).
    + by apply commit_not_Ok in E as ->.
    + by apply commit_not_Ok in E as ->.
  - destruct (vl_settle id usage policy l) as [l' [row| |]] eqn:E; simpl.
    + by apply vl_settle_Ok in E as (? & ? & _).
    + by apply commit_not_Ok in E as ->.
    + by apply commit_not_Ok in E as ->.
  - destruct (vl_release id l) as [l' [row| |]] eqn:E; simpl.
    + by apply vl_release_Ok in E as (? & ? & _).
    + by apply commit_not_Ok in E as ->.
    + by apply commit_not_Ok in E as ->.
Qed.

Lemma vl_run_inv ops l :
  vl_inv l -> Forall op_ok ops -> vl_inv (vl_run ops l) /\ vl_extends l (vl_run ops l).
Proof.
  intros Hl Hops. revert l Hl. induction Hops as [|op ops Hop _ IH]; intros l Hl; simpl.
  { by split. }
  destruct (vl_step_inv op l Hl Hop) as [Hl' Hext].
  destruct (IH _ Hl') as [Hr Hext']. split; [done|]. by etrans.
Qed.

(** Reserving and releasing the same units leaves the pot as it was. *)
Lemma release_reserve_pot policy class h d n pot pot' r :
  pot_inv h pot -> 0 <= h -> is_u64 n ->
  reserve_pot policy class d n pot = Ok (pot', r) -> release_pot d n pot' = Ok (pot, None).
Proof.
  intros Hp Hh Hn Hr.
  destruct (reserve_pot_Ok _ _ _ _ _ _ _ _ Hp Hn Hr) as (Hp' & _).
  destruct (release_pot_total h d n pot' Hp' Hh Hn) as [[pot2 r2] Hrel].
  rewrite Hrel. unfold reserve_pot in Hr. unfold release_pot in Hrel.
  destruct Hp as [(? & ? & ? & ? & ? & ? & ?) Hsum Hheld].
  pot_cases. destruct pot; simpl in *. repeat f_equal; lia.
Qed.

Lemma policy_floor_range provenance generation rules policy c :
  is_u64 generation ->
  (forall r, r ∈ rules -> 0 <= ReserveClassFloor_floor_percent r < 2 ^ 16) ->
  BudgetPolicySnapshot_try_new provenance generation rules = Ok policy ->
  0 <= floor_percent policy c <= 100.
Proof.
  intros Hg Hf Hp.
  destruct (try_new_Ok_admissible _ _ _ Hg Hf _ Hp) as (Hadm & Hval & _).
  destruct (adm_complete _ _ _ Hadm c) as [f Hin].
  pose proof (Hval _ Hin) as Hc. simpl in Hc. rewrite Hc.
  split; [apply (Hf _ Hin)|apply (adm_range _ _ _ Hadm _ Hin)].
Qed.

(** C11: the vector ledger conserves every dimension. After any sequence of
    reservations, settlements and releases, accepted or refused, from a new
    ledger under an admitted policy, in each of the 18 dimensions the opening
    capacity has not changed and equals the schedulable remainder, plus what
    the open reservations hold (exactly the sum of their forecasts), plus what
    is retained for unobserved usage, plus what is settled; no share is
    negative, and the runtime conservation check holds. *)
Theorem vector_ledger_conserves provenance generation rules policy opening unknown ops d :
  is_u64 generation ->
  (forall r, r ∈ rules -> 0 <= ReserveClassFloor_floor_percent r < 2 ^ 16) ->
  BudgetPolicySnapshot_try_new provenance generation rules = Ok policy ->
  vector_ok opening -> vector_ok unknown -> Forall op_ok ops ->
  let l := vl_run ops (VectorLedger_new opening unknown policy) in
  let p := vl_state l d in
  vl_conserved l = true /\
  pot_remaining p + held (vl_open l) d + pot_retained p + pot_settled p
    = ReservationVector_get opening d /\
  pot_reserved p = held (vl_open l) d /\
  0 <= pot_remaining p /\ 0 <= held (vl_open l) d /\ 0 <= pot_retained p /\
  0 <= pot_settled p.
Proof.
  intros Hg Hf Hp Ho Hu Hops l p.
  assert (vl_inv (VectorLedger_new opening unknown policy)) as Hnew.
  { apply vl_new_inv; [done..|]. intros c. by apply (policy_floor_range _ _ _ _ _ Hg Hf Hp). }
  destruct (vl_run_inv ops _ Hnew Hops) as [Hl (_ & _ & Hopen)]. fold l in Hl, Hopen.
  split; [by apply vl_conserved_spec|].
  destruct (vi_pots _ Hl d) as [Hr Hs Hh]. fold p in Hr, Hs, Hh.
  specialize (Hopen d). fold p in Hopen. rewrite vl_new_state in Hopen. simpl in Hopen.
  destruct Hr as (_ & [? _] & [? _] & [? _] & [? _] & _). lia.
Qed.

(** Witness values: one token pot of 100 units under the recorded floors. *)
Definition demo_policy : BudgetPolicySnapshot :=
  match BudgetPolicySnapshot_try_new "test-only:recorded-proposal" 7 recorded_rules with
  | Ok p => p
  | _ => MkBudgetPolicySnapshot (MkBudgetPolicySubject "none" "none" 1) (vreplicate 8 0)
  end.
Definition demo_opening : ReservationVector :=
  ReservationVector_with ReservationVector_ZERO DimToken 100.
Definition demo_forecast : ReservationVector :=
  ReservationVector_with ReservationVector_ZERO DimToken 60.
Definition demo_usage : UsageVector :=
  UsageVector_with_known (UsageVector_known ReservationVector_ZERO) DimToken 75.
Definition demo_ledger : VectorLedger :=
  VectorLedger_new demo_opening ReservationVector_ZERO demo_policy.
Definition demo_reserved : VectorLedger :=
  (vl_reserve "res-1" Normal demo_forecast (Some demo_policy) demo_ledger).1.

Lemma recorded_rules_range r :
  r ∈ recorded_rules -> 0 <= ReserveClassFloor_floor_percent r < 2 ^ 16.
Proof.
  intros Hr. unfold recorded_rules in Hr. simpl in Hr.
  repeat (apply elem_of_cons in Hr as [->|Hr]; [by vm_compute|]).
  by apply elem_of_nil in Hr.
Qed.

Lemma demo_vectors_ok :
  vector_ok demo_opening /\ vector_ok demo_forecast /\ vector_ok ReservationVector_ZERO /\
  usage_ok demo_usage.
Proof.
  assert (Hv : forall v, forallb (fun n => bool_decide (is_u64 n)) (ReservationVector_units v)
                 = true -> vector_ok v).
  { intros v Hv. apply Is_true_true, forallb_True in Hv.
    intros d. apply (dim_array_forall is_u64). eapply Forall_impl; [exact Hv|].
    intros n. apply bool_decide_unpack. }
  split; [by apply Hv|]. split; [by apply Hv|]. split; [by apply Hv|].
  intros d n Hd. destruct d; vm_compute in Hd; injection Hd as <-;
    apply (bool_decide_unpack _); reflexivity.
Qed.

Definition demo_ops : list VlOp :=
  [VlReserve "res-1" Normal demo_forecast (Some demo_policy);
   VlSettle "res-1" demo_usage (Some demo_policy)].

Lemma vector_ledger_conserves_witness :
  let l := vl_run demo_ops demo_ledger in
  vl_conserved l = true /\ pot_settled (vl_state l DimToken) = 60.
Proof.
  split; [|by vm_compute].
  apply (vector_ledger_conserves "test-only:recorded-proposal" 7 recorded_rules demo_policy
           demo_opening ReservationVector_ZERO demo_ops DimToken).
  - by vm_compute.
  - exact recorded_rules_range.
  - by vm_compute.
  - apply demo_vectors_ok.
  - apply demo_vectors_ok.
  - apply Forall_cons. split; [apply demo_vectors_ok|].
    apply Forall_cons. split; [apply demo_vectors_ok|constructor].
Defined.

Lemma demo_ledger_inv : vl_inv demo_ledger.
Proof.
  apply vl_new_inv; [apply demo_vectors_ok..|].
  intros c. apply (policy_floor_range "test-only:recorded-proposal" 7 recorded_rules);
    [by vm_compute|exact recorded_rules_range|by vm_compute].
Qed.

Lemma demo_reserved_inv : vl_inv demo_reserved.
Proof.
  apply (vl_step_inv (VlReserve "res-1" Normal demo_forecast (Some demo_policy)));
    [apply demo_ledger_inv|apply demo_vectors_ok].
Qed.

(** The conditions under which a reservation is admitted. *)
Definition reservable (l : VectorLedger) (id : string) (class : ReserveClass)
  (forecast : ReservationVector) (policy : option BudgetPolicySnapshot) : Prop :=
  policy = Some (vl_policy l) /\ id <> EmptyString /\ (id ∉ vl_issued l) /\
  (exists d, ReservationVector_get forecast d <> 0) /\
  forall d, 0 < ReservationVector_get forecast d ->
    ReservationVector_get forecast d <= pot_remaining (vl_state l d) /\
    policy_floor_units (vl_policy l) class (pot_opening (vl_state l d))
      <= pot_remaining (vl_state l d) - ReservationVector_get forecast d.

Lemma vl_reserve_total id class forecast policy l :
  vl_inv l -> vector_ok forecast -> reservable l id class forecast policy ->
  exists l' row, vl_reserve id class forecast policy l = (l', Ok row).
Proof.
  intros Hl Hf (-> & Hid & Hfresh & [d0 Hd0] & Hcap). unfold vl_reserve.
  assert (require_exact (vl_policy l) (Some (vl_policy l)) = Ok tt) as ->
    by by apply require_exact_Ok.
  assert (is_empty id = false) as -> by by destruct id.
  assert (ReservationVector_is_zero forecast = false) as ->.
  { apply not_true_is_false. intros Hz. by apply Hd0, ReservationVector_is_zero_spec. }
  simpl. rewrite bool_decide_false by done.
  destruct (for_pots_total (reserve_pot (vl_policy l) class)
              (ReservationVector_nonzero forecast) (vl_pots l)) as [out Hout];
    [apply ReservationVector_nonzero_NoDup| |].
  { intros d n [-> Hn]%elem_of_ReservationVector_nonzero.
    destruct (Hcap d Hn) as [Hr Hfl].
    apply (reserve_pot_total _ _ _ _ _ _ (vi_pots _ Hl d)); [split; [lia|done]|done]. }
  rewrite Hout. simpl. by eexists _, _.
Qed.

(** admission is exact and all-or-nothing. From any ledger that satisfies
    the invariant, a reservation is admitted if and only if the exact pinned
    policy is supplied, the identity is non-empty and was never issued, the
    vector asks for something, and in every requested dimension the headroom
    covers the request and leaves at least the floor of the class; an admitted
    reservation takes exactly the requested units from each dimension, and a
    refused one leaves the ledger as it was. *)
Theorem reserve_iff_reservable l id class forecast policy :
  vl_inv l -> vector_ok forecast ->
  let l' := (vl_reserve id class forecast policy l).1 in
  let outcome := (vl_reserve id class forecast policy l).2 in
  (is_ok outcome = true <-> reservable l id class forecast policy) /\
  (is_ok outcome = true -> forall d,
     pot_remaining (vl_state l' d)
     = pot_remaining (vl_state l d) - ReservationVector_get forecast d) /\
  (is_ok outcome = false -> l' = l).
Proof.
  intros Hl Hf. destruct (vl_reserve id class forecast policy l) as [l' o] eqn:E.
  simpl. split; [split|split].
  - intros Ho. destruct o as [row| |]; try done.
    pose proof (vl_reserve_Ok _ _ _ _ _ _ _ Hl Hf E) as (Hl' & _ & _ & _ & Hrem & Hfl).
    unfold vl_reserve in E. apply commit_Ok in E. case_result.
    match goal with H : require_exact _ _ = Ok _ |- _ => apply require_exact_Ok in H end.
    split; [done|]. split; [by intros ->|]. split; [done|]. split.
    + destruct (existsb (fun d => bool_decide (ReservationVector_get forecast d <> 0))
                  Dimension_ALL) eqn:Hex.
      * apply existsb_exists in Hex as (d & _ & Hd%bool_decide_eq_true). by exists d.
      * exfalso. enough (ReservationVector_is_zero forecast = true) by congruence.
        apply ReservationVector_is_zero_spec. intros d.
        destruct (decide (ReservationVector_get forecast d = 0)) as [|Hne]; [done|].
        exfalso. apply not_true_iff_false in Hex. apply Hex, existsb_exists.
        exists d. split; [apply list_elem_of_In, dim_in_all|by apply bool_decide_eq_true].
    + intros d Hd. specialize (Hrem d). specialize (Hfl d Hd).
      destruct (vi_pots _ Hl' d) as [(_ & [? _] & _) _ _]. simpl in *. lia.
  - intros Hres. destruct (vl_reserve_total _ _ _ _ _ Hl Hf Hres) as (? & ? & Ht).
    rewrite E in Ht. by injection Ht as _ ->.
  - intros Ho. destruct o as [row| |]; try done.
    by apply (vl_reserve_Ok _ _ _ _ _ _ _ Hl Hf E).
  - intros Ho. by apply commit_not_Ok in E.
Qed.

Lemma reserve_iff_reservable_witness :
  reservable demo_ledger "res-1" Normal demo_forecast (Some demo_policy) /\
  ~ reservable demo_ledger "res-1" Speculative demo_forecast (Some demo_policy).
Proof.
  split.
  - apply (reserve_iff_reservable demo_ledger "res-1" Normal demo_forecast (Some demo_policy)).
    + exact demo_ledger_inv.
    + apply demo_vectors_ok.
    + by vm_compute.
  - intros H%(reserve_iff_reservable demo_ledger "res-1" Speculative demo_forecast
                (Some demo_policy)).
    + by vm_compute in H.
    + exact demo_ledger_inv.
    + apply demo_vectors_ok.
Defined.

(** an open reservation can always be settled, and unobserved usage is
    never headroom. With the pinned policy and an open identity, settlement
    succeeds whenever the two liability counters have room for the usage
    (conservation can not fail); the reservation is closed, each dimension
    gets back exactly the unused part of a forecast whose usage was observed,
    and a dimension with unknown usage gets back nothing. *)
Theorem settle_returns_only_observed_residual l id row usage :
  vl_inv l -> usage_ok usage -> vl_open l !! id = Some row ->
  (forall d, liability_room (UsageVector_get usage d)
     (ReservationVector_get (VectorReservation_forecast row) d) (vl_state l d)) ->
  exists l' rec, vl_settle id usage (Some (vl_policy l)) l = (l', Ok rec) /\
    vl_inv l' /\ vl_open l' = delete id (vl_open l) /\
    (forall d, UsageVector_get usage d = UsageUnknown ->
       pot_remaining (vl_state l' d) = pot_remaining (vl_state l d)) /\
    (forall d actual, UsageVector_get usage d = UsageKnown actual ->
       pot_remaining (vl_state l' d) = pot_remaining (vl_state l d)
         + Z.max 0 (ReservationVector_get (VectorReservation_forecast row) d - actual)).
Proof.
  intros Hl Hu Hrow Hroom.
  assert (exists l' rec, vl_settle id usage (Some (vl_policy l)) l = (l', Ok rec))
    as (l' & rec & Hs).
  { unfold vl_settle.
    assert (require_exact (vl_policy l) (Some (vl_policy l)) = Ok tt) as ->
      by by apply require_exact_Ok.
    simpl. rewrite Hrow. simpl.
    destruct (for_pots_total (settle_pot usage)
      (ReservationVector_iter (VectorReservation_forecast row)) (vl_pots l)) as [out Hout];
      [apply ReservationVector_iter_NoDup| |rewrite Hout; simpl; by eexists _, _].
    intros d n ->%elem_of_ReservationVector_iter.
    destruct (vl_open_pot l id row d Hl Hrow) as (Hp & Hh & Hn).
    by apply (settle_pot_total _ _ _ _ _ Hp Hh Hn Hu (Hroom d)). }
  exists l', rec. split; [done|].
  destruct (vl_settle_Ok _ _ _ _ _ _ Hl Hu Hs) as (Hl' & _ & row' & Hrow' & Hopen & Hrem).
  rewrite Hrow in Hrow'. injection Hrow' as <-.
  split; [done|]. split; [done|]. split.
  - intros d Hd. rewrite Hrem, Hd. simpl. lia.
  - intros d actual Hd. rewrite Hrem, Hd. simpl. lia.
Qed.

Lemma settle_returns_only_observed_residual_witness :
  exists l' rec, vl_settle "res-1" UsageVector_UNKNOWN (Some (vl_policy demo_reserved))
                   demo_reserved = (l', Ok rec) /\
    pot_remaining (vl_state l' DimToken) = 40.
Proof.
  destruct (settle_returns_only_observed_residual demo_reserved "res-1"
    (MkVectorReservation "res-1" Normal (BudgetPolicySnapshot_subject demo_policy)
       demo_forecast) UsageVector_UNKNOWN) as (l' & rec & Hs & _ & _ & Hunk & _).
  - exact demo_reserved_inv.
  - intros d n H. by destruct d.
  - by vm_compute.
  - intros d. destruct d; intros _; apply (bool_decide_unpack _); by vm_compute.
  - exists l', rec. split; [done|]. rewrite Hunk; by vm_compute.
Defined.

(** An identity is issued once. *)
Lemma vl_reserve_issued id class forecast policy l :
  id ∈ vl_issued l -> is_ok (vl_reserve id class forecast policy l).2 = false.
Proof.
  intros Hid. destruct (vl_reserve id class forecast policy l) as [l' [row| |]] eqn:E;
    [|done|done].
  unfold vl_reserve in E. apply commit_Ok in E. by case_result.
Qed.

(** release undoes reserve. Releasing a reservation right after it was
    admitted succeeds, hands back exactly the forecast and restores every pot
    and every other open reservation; only the identity stays issued, so it can
    never be reserved again. *)
Theorem release_undoes_reserve l id class forecast policy l1 row :
  vl_inv l -> vector_ok forecast ->
  vl_reserve id class forecast policy l = (l1, Ok row) ->
  vl_release id l1 = (MkVectorLedger (vl_policy l) (vl_pots l) (vl_open l)
                        ({[id]} ∪ vl_issued l), Ok forecast) /\
  forall class' forecast' policy', is_ok (vl_reserve id class' forecast' policy'
    (vl_release id l1).1).2 = false.
Proof.
  intros Hl Hf Hres.
  pose proof (vl_reserve_Ok _ _ _ _ _ _ _ Hl Hf Hres) as (_ & _ & _ & Hnone & _).
  unfold vl_reserve in Hres. apply commit_Ok in Hres. case_result.
  destruct x0 as [pots1 rows]. simpl.
  match goal with H : for_pots _ _ _ = Ok _ |- _ => rename H into Hloop end.
  assert (Hrel : forall d n, (d, n) ∈ ReservationVector_nonzero forecast ->
            release_pot d n (dim_get pots1 d) = Ok (vl_state l d, None)).
  { intros d n Hdn.
    pose proof Hloop as [Hin _]%for_pots_Ok; [|apply ReservationVector_nonzero_NoDup].
    destruct (Hin d n Hdn) as [r Hr].
    apply elem_of_ReservationVector_nonzero in Hdn as [-> _].
    eapply release_reserve_pot; [apply (vi_pots _ Hl d)| |apply Hf|exact Hr].
    apply held_nonneg. intros i rr Hi. by destruct (vi_rows _ Hl _ _ Hi) as (_ & _ & _ & ?). }
  assert (exists rows2, for_pots release_pot (ReservationVector_nonzero forecast) pots1
                   = Ok (vl_pots l, rows2)) as [rows2 Hback].
  { destruct (for_pots_total release_pot (ReservationVector_nonzero forecast) pots1)
      as [[pots2 rows2] Hout]; [apply ReservationVector_nonzero_NoDup|by eauto|].
    exists rows2. rewrite Hout. repeat f_equal. apply dim_array_eq. intros d.
    destruct (for_nonzero_pots _ _ _ _ _ d Hf Hout) as [[Hz Heq]|[Hpos [r Hr]]].
    - rewrite Heq. destruct (for_nonzero_pots _ _ _ _ _ d Hf Hloop) as [[_ Heq1]|[? _]];
        [done|lia].
    - rewrite Hrel in Hr; [by injection Hr|].
      apply elem_of_ReservationVector_nonzero. split; [done|lia]. }
  assert (vl_release id (MkVectorLedger (vl_policy l) pots1
            (<[id := MkVectorReservation id class (BudgetPolicySnapshot_subject (vl_policy l))
                       forecast]> (vl_open l)) ({[id]} ∪ vl_issued l))
          = (MkVectorLedger (vl_policy l) (vl_pots l) (vl_open l)
               ({[id]} ∪ vl_issued l), Ok forecast)) as Hfin.
  { unfold vl_release. simpl. rewrite lookup_insert_eq. simpl. rewrite Hback. simpl.
    by rewrite delete_insert_id. }
  split; [exact Hfin|]. intros class' forecast' policy'. rewrite Hfin. simpl.
  apply vl_reserve_issued. simpl. set_solver.
Qed.

Lemma release_undoes_reserve_witness :
  (vl_release "res-1" demo_reserved).2 = Ok demo_forecast /\
  vl_pots (vl_release "res-1" demo_reserved).1 = vl_pots demo_ledger.
Proof.
  destruct (release_undoes_reserve demo_ledger "res-1" Normal demo_forecast
    (Some demo_policy) demo_reserved
    (MkVectorReservation "res-1" Normal (BudgetPolicySnapshot_subject demo_policy)
       demo_forecast)) as [Hrel _].
  - exact demo_ledger_inv.
  - apply demo_vectors_ok.
  - by vm_compute.
  - rewrite Hrel. split; reflexivity.
Defined.
