(* ===== verification/BudgetLedger.v ===== *)
(** * The single-dimension budget ledger

    Models [BudgetLedger] of crates/budgets/src/lib.rs, and relates it to an
    abstract account of what was reserved, spent and returned. *)

From S2P Require Import Prelude.
From stdpp Require Import options.

Local Open Scope Z_scope.

(** crates/budgets/src/lib.rs:31-55 (BudgetError) *)
Inductive BudgetError : Type :=
| BudgetInvalid (why : string)
| BudgetDuplicate (id : string)
| BudgetInsufficient
| BudgetNotFound
| BudgetConservation
| BudgetArithmeticOverflow
| BudgetUnknownIsNotHeadroom.

(** crates/budgets/src/lib.rs:58-70 (BudgetError::reason_code) *)
Definition BudgetError_reason_code (e : BudgetError) : string :=
  match e with
  | BudgetInvalid _ => "BUDGET_RESERVATION_INVALID"
  | BudgetDuplicate _ => "BUDGET_RESERVATION_DUPLICATE"
  | BudgetInsufficient => "BUDGET_INSUFFICIENT"
  | BudgetNotFound => "BUDGET_RESERVATION_NOT_FOUND"
  | BudgetConservation => "BUDGET_CONSERVATION"
  | BudgetArithmeticOverflow => "BUDGET_ARITHMETIC_OVERFLOW"
  | BudgetUnknownIsNotHeadroom => "BUDGET_UNKNOWN_NOT_HEADROOM"
  end.

(** crates/budgets/src/lib.rs:73-80 (Reservation) *)
Record Reservation : Type := MkReservation {
  Reservation_id : string;
  Reservation_amount : Z
}.

(** crates/budgets/src/lib.rs:82-93 (BudgetLedger) *)
Record BudgetLedger : Type := MkBudgetLedger {
  bl_opening_known : Z;
  bl_remaining : Z;
  bl_reserved : Z;
  bl_settled : Z;
  bl_unknown_liability : Z;
  bl_open : list Reservation;
  bl_issued_ids : gset string
}.

(** crates/budgets/src/lib.rs:96-105 (BudgetLedger::new) *)
Definition BudgetLedger_new (remaining unknown_liability : Z) : BudgetLedger :=
  MkBudgetLedger remaining remaining 0 0 unknown_liability [] ∅.

(** crates/budgets/src/lib.rs:125-132 (BudgetLedger::conserved) *)
Definition bl_conserved (l : BudgetLedger) : bool :=
  bool_decide (
    (value ← u64_checked_add (bl_remaining l) (bl_reserved l);
     u64_checked_add value (bl_settled l)) = Some (bl_opening_known l)).

(** crates/budgets/src/lib.rs:134-170 (BudgetLedger::reserve) *)
Definition bl_reserve (id : string) (amount : Z) (l : BudgetLedger)
  : BudgetLedger * result BudgetError Reservation :=
  if is_empty id || bool_decide (amount = 0) then
    (l, Err (BudgetInvalid "id must be non-empty and amount must be positive"))
  else if bool_decide (id ∈ bl_issued_ids l) then (l, Err (BudgetDuplicate id))
  else if bool_decide (bl_remaining l < amount) then (l, Err BudgetInsufficient)
  else
    match u64_checked_add (bl_reserved l) amount with
    | None => (l, Err BudgetArithmeticOverflow)
    | Some next_reserved =>
        match u64_checked_sub (bl_remaining l) amount with
        | None => (l, Err BudgetConservation)
        | Some next_remaining =>
            let row := MkReservation id amount in
            (MkBudgetLedger (bl_opening_known l) next_remaining next_reserved (bl_settled l)
               (bl_unknown_liability l) (bl_open l ++ [row]) ({[id]} ∪ bl_issued_ids l),
             Ok row)
        end
    end.

(** crates/budgets/src/lib.rs:172-212 (BudgetLedger::settle) *)
Definition bl_settle (id : string) (actual : Z) (l : BudgetLedger)
  : BudgetLedger * result BudgetError unit :=
  match list_find (fun row => Reservation_id row = id) (bl_open l) with
  | None => (l, Err BudgetNotFound)
  | Some (index, row) =>
      let used := Z.min actual (Reservation_amount row) in
      let returned := Reservation_amount row - used in
      let overspend := actual - used in
      match u64_checked_sub (bl_reserved l) (Reservation_amount row) with
      | None => (l, Err BudgetConservation)
      | Some next_reserved =>
      match u64_checked_add (bl_settled l) used with
      | None => (l, Err BudgetArithmeticOverflow)
      | Some next_settled =>
      match u64_checked_add (bl_remaining l) returned with
      | None => (l, Err BudgetArithmeticOverflow)
      | Some next_remaining =>
      match u64_checked_add (bl_unknown_liability l) overspend with
      | None => (l, Err BudgetArithmeticOverflow)
      | Some next_unknown =>
          (MkBudgetLedger (bl_opening_known l) next_remaining next_reserved next_settled
             next_unknown (delete index (bl_open l)) (bl_issued_ids l), Ok tt)
      end end end end
  end.

(** crates/budgets/src/lib.rs:214-225 (BudgetLedger::unknown_as_headroom) *)
Definition bl_unknown_as_headroom (l : BudgetLedger) : result BudgetError Z :=
  if bool_decide (0 < bl_unknown_liability l) then Err BudgetUnknownIsNotHeadroom else Ok 0.

(** ** The abstract account

    What the ledger promises, without arithmetic limits: a pot, the set of open
    reservations by identity, what was spent within reservations and what was
    spent beyond them. The remainder is derived, not stored. *)
Record Account : Type := MkAccount {
  ac_pot : Z;
  ac_open : gmap string Z;
  ac_spent : Z;
  ac_overspent : Z;
  ac_used_ids : gset string
}.

Definition sum_open (m : gmap string Z) : Z := map_fold (fun _ n acc => n + acc) 0 m.
Definition ac_available (a : Account) : Z := ac_pot a - sum_open (ac_open a) - ac_spent a.

(** One step of the account: a reservation of available units under a fresh
    name, or the settlement of an open one. *)
Inductive account_step : Account -> Account -> Prop :=
| step_reserve a id n :
    id <> EmptyString -> (id ∉ ac_used_ids a) -> 0 < n <= ac_available a ->
    account_step a (MkAccount (ac_pot a) (<[id := n]> (ac_open a)) (ac_spent a)
                      (ac_overspent a) ({[id]} ∪ ac_used_ids a))
| step_settle a id n actual :
    ac_open a !! id = Some n -> 0 <= actual ->
    account_step a (MkAccount (ac_pot a) (delete id (ac_open a))
                      (ac_spent a + Z.min actual n)
                      (ac_overspent a + (actual - Z.min actual n)) (ac_used_ids a)).

Definition open_map (rows : list Reservation) : gmap string Z :=
  list_to_map ((fun r => (Reservation_id r, Reservation_amount r)) <$> rows).

(** The account a ledger stands for. *)
Definition abstract (l : BudgetLedger) : Account :=
  MkAccount (bl_opening_known l) (open_map (bl_open l)) (bl_settled l)
    (bl_unknown_liability l) (bl_issued_ids l).

Record bl_inv (l : BudgetLedger) : Prop := {
  bi_range : is_u64 (bl_opening_known l) /\ is_u64 (bl_remaining l) /\
    is_u64 (bl_reserved l) /\ is_u64 (bl_settled l) /\ is_u64 (bl_unknown_liability l);
  bi_sum : bl_remaining l + bl_reserved l + bl_settled l = bl_opening_known l;
  bi_ids : NoDup (Reservation_id <$> bl_open l);
  bi_rows row : row ∈ bl_open l ->
    Reservation_id row ∈ bl_issued_ids l /\ 0 < Reservation_amount row;
  bi_reserved : bl_reserved l = sum_open (open_map (bl_open l))
}.

Lemma sum_open_insert m id n : m !! id = None -> sum_open (<[id := n]> m) = n + sum_open m.
Proof. intros H. unfold sum_open. rewrite map_fold_insert_L; [done|lia|done]. Qed.

Lemma sum_open_delete m id n : m !! id = Some n -> sum_open m = n + sum_open (delete id m).
Proof.
  intros H. rewrite <- (sum_open_insert (delete id m) id) by (by simplify_map_eq).
  by rewrite insert_delete_id.
Qed.

Lemma sum_open_nonneg m : map_Forall (fun _ n => 0 <= n) m -> 0 <= sum_open m.
Proof.
  induction m as [|id n m Hid IH] using map_ind; intros H; [done|].
  rewrite sum_open_insert by done. apply map_Forall_insert in H as [Hn Hm]; [|done].
  specialize (IH Hm). lia.
Qed.

Lemma open_map_lookup rows row :
  NoDup (Reservation_id <$> rows) -> row ∈ rows ->
  open_map rows !! Reservation_id row = Some (Reservation_amount row).
Proof.
  intros Hnd Hin. unfold open_map. apply elem_of_list_to_map.
  - by rewrite <- list_fmap_compose.
  - apply list_elem_of_fmap. by exists row.
Qed.

Lemma open_map_None rows id :
  id ∉ Reservation_id <$> rows -> open_map rows !! id = None.
Proof.
  intros Hid. apply not_elem_of_list_to_map_1. by rewrite <- list_fmap_compose.
Qed.

Lemma open_map_snoc rows row :
  NoDup (Reservation_id <$> (rows ++ [row])) ->
  open_map (rows ++ [row])
  = <[Reservation_id row := Reservation_amount row]> (open_map rows).
Proof.
  intros Hnd. unfold open_map. rewrite fmap_app. simpl.
  rewrite fmap_app in Hnd. apply NoDup_app in Hnd as (_ & Hdis & _).
  rewrite list_to_map_app. simpl.
  rewrite <- insert_union_r, (right_id_L ∅ (∪)); [done|].
  apply not_elem_of_list_to_map_1. rewrite <- list_fmap_compose. intros Hin.
  apply (Hdis _ Hin). by left.
Qed.

Lemma open_map_delete rows i row :
  NoDup (Reservation_id <$> rows) -> rows !! i = Some row ->
  open_map (delete i rows) = delete (Reservation_id row) (open_map rows).
Proof.
  revert i. induction rows as [|r rows IH]; intros [|i] Hnd Hi; simplify_eq/=.
  - apply NoDup_cons in Hnd as [Hf Hnd]. unfold open_map. simpl.
    rewrite delete_insert_id; [done|]. by apply open_map_None.
  - apply NoDup_cons in Hnd as [Hf Hnd]. change (delete (S i) (r :: rows)) with (r :: delete i rows).
    unfold open_map in *. simpl. rewrite IH by done.
    rewrite delete_insert_ne; [done|]. intros Heq. apply Hf. rewrite <- Heq.
    apply list_elem_of_fmap_2. by eapply list_elem_of_lookup_2.
Qed.

Lemma bl_new_inv remaining unknown :
  is_u64 remaining -> is_u64 unknown -> bl_inv (BudgetLedger_new remaining unknown).
Proof.
  intros Hr Hu. split; simpl; [int_lia|lia|constructor| |done].
  intros row Hrow. by apply elem_of_nil in Hrow.
Qed.

Lemma bl_conserved_spec l : bl_inv l -> bl_conserved l = true.
Proof.
  intros [(? & ? & ? & ? & ?) Hsum _ _ _]. unfold bl_conserved.
  apply bool_decide_eq_true. unfold u64_checked_add, to_u64.
  rewrite decide_True by int_lia. simpl. rewrite decide_True by int_lia. by f_equal.
Qed.

Lemma bl_open_reserved l row :
  bl_inv l -> row ∈ bl_open l -> 0 < Reservation_amount row <= bl_reserved l.
Proof.
  intros [_ _ Hnd Hrows Hres] Hin. rewrite Hres.
  rewrite (sum_open_delete _ _ _ (open_map_lookup _ _ Hnd Hin)).
  assert (0 <= sum_open (delete (Reservation_id row) (open_map (bl_open l)))).
  { apply sum_open_nonneg. intros id n [_ Hl]%lookup_delete_Some.
    unfold open_map in Hl. apply elem_of_list_to_map_2, list_elem_of_fmap in Hl
      as (r & [= -> ->] & Hr). destruct (Hrows r Hr). lia. }
  destruct (Hrows row Hin). lia.
Qed.

Section Steps.
Variable l : BudgetLedger.
Hypothesis Hl : bl_inv l.

Lemma bl_available : ac_available (abstract l) = bl_remaining l.
Proof using Hl.
  destruct Hl as [_ Hsum _ _ Hres]. unfold ac_available. simpl. lia.
Qed.

(** An admitted reservation is a step of the account and keeps the invariant. *)
Lemma bl_reserve_Ok id amount l' row :
  0 <= amount ->
  bl_reserve id amount l = (l', Ok row) ->
  bl_inv l' /\ account_step (abstract l) (abstract l') /\ row = MkReservation id amount.
Proof using Hl.
  intros Ha H. pose proof bl_available as Hav.
  destruct Hl as [(? & ? & ? & ? & ?) Hsum Hnd Hrows Hres].
  unfold bl_reserve in H.
  destruct (is_empty id) eqn:Hempty; simpl in H; [done|].
  repeat (case_bool_decide; [done|]).
  destruct (u64_checked_add _ _) as [nr|] eqn:Hadd; [|done].
  destruct (u64_checked_sub _ _) as [nm|] eqn:Hsub; [|done]. simplify_eq.
  repeat inv_int_step.
  assert (id ∉ Reservation_id <$> bl_open l) as Hfresh.
  { intros (r & -> & Hr)%list_elem_of_fmap. by destruct (Hrows r Hr). }
  assert (NoDup (Reservation_id <$> (bl_open l ++ [MkReservation id amount]))) as Hnd'.
  { rewrite fmap_app. apply NoDup_app. split; [done|]. split; [|apply NoDup_singleton].
    intros x Hx ->%list_elem_of_singleton. done. }
  split; [split; simpl|split; [|done]].
  - int_lia.
  - lia.
  - done.
  - intros r [Hr| ->%list_elem_of_singleton]%elem_of_app; simpl.
    + destruct (Hrows r Hr). split; [set_solver|done].
    + split; [set_solver|lia].
  - rewrite open_map_snoc by done. simpl.
    rewrite sum_open_insert by (by apply open_map_None). lia.
  - unfold abstract at 2. simpl. rewrite open_map_snoc by done. simpl.
    apply (step_reserve (abstract l)); simpl; [by destruct id|done|lia].
Qed.

(** Settling an open identity succeeds when the liability fits in 64 bits,
    and is a step of the account. *)
Lemma bl_settle_open id n actual :
  open_map (bl_open l) !! id = Some n -> is_u64 actual ->
  is_u64 (bl_unknown_liability l + (actual - Z.min actual n)) ->
  exists l', bl_settle id actual l = (l', Ok tt) /\ bl_inv l' /\
    account_step (abstract l) (abstract l') /\
    bl_remaining l' = bl_remaining l + Z.max 0 (n - actual).
Proof using Hl.
  intros Hopen Hact Hroom. pose proof Hl as [(? & ? & ? & ? & ?) Hsum Hnd Hrows Hres].
  pose proof Hopen as Hin. unfold open_map in Hin.
  apply elem_of_list_to_map_2, list_elem_of_fmap in Hin as (row & [= -> ->] & Hrow).
  pose proof (bl_open_reserved _ _ Hl Hrow) as Hbound. unfold bl_settle.
  destruct (list_find _ (bl_open l)) as [[i row']|] eqn:Hfind.
  2:{ apply list_find_None in Hfind. rewrite Forall_forall in Hfind. by destruct (Hfind row). }
  apply list_find_Some in Hfind as (Hi & Hid & _).
  assert (row' = row) as ->.
  { pose proof (list_elem_of_lookup_2 _ _ _ Hi) as Hrow'.
    pose proof (open_map_lookup _ _ Hnd Hrow') as E1.
    rewrite Hid, Hopen in E1. destruct row, row'; simpl in *. congruence. }
  unfold u64_checked_sub, u64_checked_add, to_u64.
  rewrite !decide_True by int_lia. eexists. split; [done|]. split; [split; simpl|split].
  - int_lia.
  - lia.
  - rewrite list_fmap_delete. eapply sublist_NoDup; [exact Hnd|apply sublist_delete].
  - intros r Hr. apply Hrows. by eapply list_elem_of_delete_inv.
  - rewrite (open_map_delete _ _ row) by done.
    rewrite Hres, (sum_open_delete _ _ _ Hopen). lia.
  - unfold abstract at 2. simpl. rewrite (open_map_delete _ _ row) by done.
    apply (step_settle (abstract l) _ (Reservation_amount row)); simpl; [done|int_lia].
  - simpl. lia.
Qed.
End Steps.

Inductive BlOp : Type :=
| BlReserve (id : string) (amount : Z)
| BlSettle (id : string) (actual : Z).

Definition bl_step (op : BlOp) (l : BudgetLedger) : BudgetLedger :=
  match op with
  | BlReserve id amount => (bl_reserve id amount l).1
  | BlSettle id actual => (bl_settle id actual l).1
  end.

Definition bl_run (ops : list BlOp) (l : BudgetLedger) : BudgetLedger :=
  foldl (fun l op => bl_step op l) l ops.

Definition bl_op_ok (op : BlOp) : Prop :=
  match op with BlReserve _ n | BlSettle _ n => is_u64 n end.

Lemma bl_reserve_refused id amount l l' o :
  bl_reserve id amount l = (l', o) -> is_ok o = false -> l' = l.
Proof. unfold bl_reserve. intros H ?. repeat (case_match; simplify_eq/=; try done). Qed.

Lemma bl_settle_refused id actual l l' o :
  bl_settle id actual l = (l', o) -> is_ok o = false -> l' = l.
Proof. unfold bl_settle. intros H ?. repeat (case_match; simplify_eq/=; try done). Qed.

Lemma bl_settle_Ok_open id actual l l' u :
  bl_inv l -> bl_settle id actual l = (l', Ok u) ->
  exists n, open_map (bl_open l) !! id = Some n /\
    is_u64 (bl_unknown_liability l + (actual - Z.min actual n)).
Proof.
  intros Hl H. unfold bl_settle in H.
  destruct (list_find _ (bl_open l)) as [[i row]|] eqn:Hfind; [|done].
  apply list_find_Some in Hfind as (Hi & <- & _).
  exists (Reservation_amount row). split.
  - apply open_map_lookup; [apply (bi_ids _ Hl)|by eapply list_elem_of_lookup_2].
  - repeat (case_match; simplify_eq/=; try done). repeat inv_int_step. done.
Qed.

Lemma bl_step_refines op l :
  bl_inv l -> bl_op_ok op ->
  bl_inv (bl_step op l) /\
  (bl_step op l = l \/ account_step (abstract l) (abstract (bl_step op l))).
Proof.
  intros Hl Hop. destruct op as [id n|id n]; simpl in *.
  - destruct (bl_reserve id n l) as [l' [row| |]] eqn:E; simpl.
    + apply bl_reserve_Ok in E as (? & ? & _); [auto|done|apply Hop].
    + apply bl_reserve_refused in E as ->; auto.
    + apply bl_reserve_refused in E as ->; auto.
  - destruct (bl_settle id n l) as [l' [u| |]] eqn:E; simpl.
    + destruct (bl_settle_Ok_open _ _ _ _ _ Hl E) as (m & Hm & Hroom).
      destruct (bl_settle_open l Hl id m n Hm Hop Hroom) as (l2 & E2 & ? & ? & _).
      rewrite E2 in E. simplify_eq. auto.
    + apply bl_settle_refused in E as ->; auto.
    + apply bl_settle_refused in E as ->; auto.
Qed.

Lemma bl_run_refines ops l :
  bl_inv l -> Forall bl_op_ok ops ->
  bl_inv (bl_run ops l) /\ rtc account_step (abstract l) (abstract (bl_run ops l)).
Proof.
  intros Hl Hops. revert l Hl. induction Hops as [|op ops Hop _ IH]; intros l Hl; simpl.
  { by split. }
  destruct (bl_step_refines op l Hl Hop) as [Hl' Hstep].
  destruct (IH _ Hl') as [Hr Hrtc]. split; [done|].
  destruct Hstep as [Heq|Hstep]; [by rewrite Heq in Hrtc |- *|by eapply rtc_l].
Qed.

(** the single-dimension ledger implements the abstract account. Whatever
    sequence of 64-bit operations it is given, the account it stands for moves
    only by legal account steps (fresh names, never more than what is
    available, overspending kept apart from the pot); its remaining counter is
    at all times what the account has available; its conservation check
    holds; and a request is refused only when the account could not grant it. *)
Theorem budget_ledger_refines_account remaining unknown ops id amount :
  is_u64 remaining -> is_u64 unknown -> Forall bl_op_ok ops -> is_u64 amount ->
  let l0 := BudgetLedger_new remaining unknown in
  let l := bl_run ops l0 in
  rtc account_step (abstract l0) (abstract l) /\
  bl_remaining l = ac_available (abstract l) /\
  bl_conserved l = true /\
  (is_ok (bl_reserve id amount l).2 = true <->
   id <> EmptyString /\ (id ∉ ac_used_ids (abstract l)) /\
   0 < amount <= ac_available (abstract l)).
Proof.
  intros Hr Hu Hops Ha l0 l.
  destruct (bl_run_refines ops l0 (bl_new_inv _ _ Hr Hu) Hops) as [Hl Hrtc]. fold l in Hl, Hrtc.
  split; [done|]. rewrite (bl_available l Hl). split; [done|].
  split; [by apply bl_conserved_spec|].
  destruct (bl_reserve id amount l) as [l' o] eqn:E. simpl. split.
  - intros Ho. destruct o as [row| |]; try done.
    destruct (bl_reserve_Ok l Hl id amount l' row) as (_ & Hstep & _); [apply Ha|done|].
    unfold bl_reserve in E. destruct (is_empty id) eqn:Hempty; simpl in E; [done|].
    repeat (case_bool_decide; [done|]). destruct Ha.
    split; [by intros ->|]. split; [done|lia].
  - intros (Hid & Hfresh & Hn). destruct o as [row| |]; [done|exfalso..].
    all: unfold bl_reserve in E; assert (is_empty id = false) as He by (by destruct id);
      rewrite He in E; simpl in E; rewrite !bool_decide_false in E by (done || lia);
      pose proof (bi_range _ Hl) as (? & ? & ? & ? & ?); pose proof (bi_sum _ Hl);
      unfold u64_checked_add, u64_checked_sub, to_u64 in E;
      rewrite !decide_True in E by int_lia; done.
Qed.

Lemma budget_ledger_refines_account_witness :
  let l := bl_run [BlReserve "a" 6; BlSettle "a" 9; BlReserve "b" 5] (BudgetLedger_new 10 0) in
  bl_conserved l = true /\ bl_unknown_liability l = 3 /\ bl_remaining l = 4.
Proof.
  destruct (budget_ledger_refines_account 10 0
    [BlReserve "a" 6; BlSettle "a" 9; BlReserve "b" 5] "c" 1) as (_ & _ & Hc & _).
  - by vm_compute.
  - by vm_compute.
  - repeat (apply Forall_cons; split; [by vm_compute|]). constructor.
  - by vm_compute.
  - split; [exact Hc|by vm_compute].
Defined.
