(* ===== verification/Framing.v ===== *)
(** * Length-prefixed framing

    Models the byte framing that the kernel hashes: [frame] and [frame_text]
    of crates/application/src/audit_batch/merkle.rs. Fixed-width little-endian
    integers and length prefixes make every framed record decode in one way. *)

From S2P Require Import Prelude External Ids.
From stdpp Require Import options.

Local Open Scope Z_scope.

Definition byte_of (z : Z) : Ascii.ascii := Ascii.ascii_of_N (Z.to_N z).

(** The [n] low bytes of [z], least significant first. *)
Fixpoint le_bytes (n : nat) (z : Z) : bytes :=
  match n with
  | O => EmptyString
  | S n => String (byte_of (z mod 256)) (le_bytes n (z / 256))
  end.

(** [u64::to_le_bytes]. *)
Definition u64_to_le_bytes (z : Z) : bytes := le_bytes 8 z.

(** crates/application/src/audit_batch/merkle.rs:238-241 (frame) *)
Definition frame (b : bytes) : bytes :=
  u64_to_le_bytes (str_len b mod 2 ^ 64) +:+ b.

(** crates/application/src/audit_batch/merkle.rs:243-253 (frame_text) *)
Definition frame_text (text : option string) : bytes :=
  match text with
  | None => String (byte_of 0) EmptyString
  | Some text => String (byte_of 1) (frame text)
  end.

Global Arguments frame : simpl never.
Global Arguments u64_to_le_bytes : simpl never.

(** A buffer of the address space: its length is a [u64]. *)
Definition fits (b : bytes) : Prop := str_len b < 2 ^ 64.
Global Instance fits_dec b : Decision (fits b).
Proof. unfold fits. apply _. Defined.

Definition text_fits (t : option string) : Prop :=
  match t with None => True | Some s => fits s end.

Lemma byte_of_inj x y : 0 <= x < 256 -> 0 <= y < 256 -> byte_of x = byte_of y -> x = y.
Proof.
  intros Hx Hy H. unfold byte_of in H.
  apply (f_equal Ascii.N_of_ascii) in H. rewrite !Ascii.N_ascii_embedding in H by lia. lia.
Qed.

Lemma le_bytes_length n z : String.length (le_bytes n z) = n.
Proof. revert z. induction n as [|n IH]; intros z; simpl; [done|]. by rewrite IH. Qed.

Lemma le_bytes_inj n x y :
  0 <= x < 256 ^ Z.of_nat n -> 0 <= y < 256 ^ Z.of_nat n ->
  le_bytes n x = le_bytes n y -> x = y.
Proof.
  revert x y. induction n as [|n IH]; intros x y Hx Hy H; simpl in *; [lia|].
  injection H as Hb Hr.
  rewrite Nat2Z.inj_succ, Z.pow_succ_r in Hx, Hy by lia.
  apply byte_of_inj in Hb; [|apply Z.mod_pos_bound; lia..].
  apply IH in Hr; [|split; [apply Z.div_pos; lia|apply Z.div_lt_upper_bound; lia]..].
  rewrite (Z.div_mod x 256), (Z.div_mod y 256) by lia. lia.
Qed.

Lemma u64_le_inj x y :
  is_u64 x -> is_u64 y -> u64_to_le_bytes x = u64_to_le_bytes y -> x = y.
Proof. unfold is_u64, u64_max. intros Hx Hy. apply le_bytes_inj; simpl; lia. Qed.

Lemma frame_length b : String.length (frame b) = (8 + String.length b)%nat.
Proof. unfold frame, u64_to_le_bytes. by rewrite string_app_length, le_bytes_length. Qed.

Lemma str_len_nonneg s : 0 <= str_len s.
Proof. unfold str_len. lia. Qed.

(** A frame ends where its length prefix says. *)
Lemma frame_app_inj a b x y :
  fits a -> fits b -> frame a +:+ x = frame b +:+ y -> a = b /\ x = y.
Proof.
  unfold frame, fits. intros Ha Hb H. rewrite !string_app_assoc in H.
  pose proof (str_len_nonneg a). pose proof (str_len_nonneg b).
  apply string_app_inj_len in H as [Hl H]; [|unfold u64_to_le_bytes; by rewrite !le_bytes_length].
  apply u64_le_inj in Hl; [|rewrite Z.mod_small by lia; unfold is_u64, u64_max; lia..].
  rewrite !Z.mod_small in Hl by lia. unfold str_len in Hl.
  apply string_app_inj_len in H; [done|lia].
Qed.

Lemma frame_inj a b : fits a -> fits b -> frame a = frame b -> a = b.
Proof.
  intros Ha Hb H. apply (frame_app_inj a b EmptyString EmptyString); [done..|].
  by rewrite !string_app_nil_r.
Qed.

(** Absent, empty and present texts never share an encoding. *)
Lemma frame_text_app_inj t u x y :
  text_fits t -> text_fits u ->
  frame_text t +:+ x = frame_text u +:+ y -> t = u /\ x = y.
Proof.
  destruct t as [t|], u as [u|]; unfold frame_text; autorewrite with kernel;
    intros Ht Hu H; try discriminate.
  - assert (frame t +:+ x = frame u +:+ y) as [-> ->]%frame_app_inj by congruence; done.
  - split; [done|congruence].
Qed.
