(* ===== verification/Toy.v ===== *)
(** * Concrete instances of the external interfaces

    A small polynomial hash and a hexadecimal codec that satisfy the laws of
    [External]; examples instantiate the interfaces with them. They stand for
    no code of the repository. *)

From S2P Require Import Prelude External Ids Framing.
From stdpp Require Import options.

Local Open Scope Z_scope.

Fixpoint toy_fold (b : bytes) (h : Z) : Z :=
  match b with
  | EmptyString => h
  | String a rest => toy_fold rest ((h * 65599 + byte_val a + 1) mod 2 ^ 256)
  end.

Lemma toy_len z : bool_decide (String.length (le_bytes 32 z) = 32%nat) = true.
Proof. apply bool_decide_true. apply le_bytes_length. Qed.

Definition toy_blake3 : Blake3 := fun b => MkArray32 (le_bytes 32 (toy_fold b 7)) (toy_len _).

Fixpoint string_repeat (n : nat) (a : Ascii.ascii) : string :=
  match n with O => EmptyString | S n => String a (string_repeat n a) end.

Lemma string_repeat_32 a : bool_decide (String.length (string_repeat 32 a) = 32%nat) = true.
Proof. reflexivity. Qed.

(** 32 equal bytes. *)
Definition fill (a : Ascii.ascii) : array32 :=
  MkArray32 (string_repeat 32 a) (string_repeat_32 a).

(** A hash that is cheap to evaluate; no law of the interface excludes it. *)
Definition fixed_blake3 : Blake3 := fun _ => fill (byte_of 97).

Definition hex_digit (z : Z) : Ascii.ascii :=
  if bool_decide (z < 10) then byte_of (48 + z) else byte_of (87 + z).

Fixpoint toy_encode (b : bytes) : string :=
  match b with
  | EmptyString => EmptyString
  | String a rest =>
      String (hex_digit (byte_val a / 16)) (String (hex_digit (byte_val a mod 16))
        (toy_encode rest))
  end.

Definition hex_value (a : Ascii.ascii) : option Z :=
  let b := byte_val a in
  if bool_decide (48 <= b <= 57) then Some (b - 48)
  else if bool_decide (97 <= b <= 102) then Some (b - 87)
  else if bool_decide (65 <= b <= 70) then Some (b - 55)
  else None.

Fixpoint toy_decode (s : string) : result string bytes :=
  match s with
  | EmptyString => Ok EmptyString
  | String _ EmptyString => Err "odd number of digits"
  | String x (String y rest) =>
      hi ← ok_or (hex_value x) "invalid character";
      lo ← ok_or (hex_value y) "invalid character";
      tail ← toy_decode rest;
      mret (String (byte_of (16 * hi + lo)) tail)
  end.

Definition toy_hex : Hex := {| hex_encode := toy_encode; hex_decode := toy_decode |}.

Lemma byte_val_range a : 0 <= byte_val a < 256.
Proof. unfold byte_val. pose proof (Ascii.N_ascii_bounded a). lia. Qed.

Lemma byte_of_val a : byte_of (byte_val a) = a.
Proof. unfold byte_of, byte_val. rewrite N2Z.id. apply Ascii.ascii_N_embedding. Qed.

Lemma byte_val_of z : 0 <= z < 256 -> byte_val (byte_of z) = z.
Proof.
  intros H. unfold byte_val, byte_of. rewrite Ascii.N_ascii_embedding by lia. lia.
Qed.

Lemma hex_digit_val z :
  0 <= z < 16 -> byte_val (hex_digit z) = if decide (z < 10) then 48 + z else 87 + z.
Proof.
  intros H. unfold hex_digit. case_decide.
  - rewrite bool_decide_true by done. apply byte_val_of. lia.
  - rewrite bool_decide_false by done. apply byte_val_of. lia.
Qed.

Lemma hex_digit_lower z : 0 <= z < 16 -> is_lower_hex (hex_digit z) = true.
Proof.
  intros H. unfold is_lower_hex. rewrite hex_digit_val by done. case_decide.
  - by rewrite bool_decide_true by lia.
  - apply orb_true_iff. right. apply bool_decide_true. lia.
Qed.

Lemma hex_value_digit z : 0 <= z < 16 -> hex_value (hex_digit z) = Some z.
Proof.
  intros H. unfold hex_value. rewrite hex_digit_val by done. case_decide.
  - rewrite bool_decide_true by lia. f_equal; lia.
  - rewrite bool_decide_false, bool_decide_true by lia. f_equal; lia.
Qed.

Lemma toy_hex_laws : @HexLaws toy_hex.
Proof.
  split; simpl.
  - induction b as [|a b IH]; simpl; [done|]. rewrite IH. lia.
  - induction b as [|a b IH]; simpl; [done|].
    pose proof (byte_val_range a).
    rewrite !hex_digit_lower; [done|..];
      [apply Z.mod_pos_bound; lia|split; [apply Z.div_pos|apply Z.div_lt_upper_bound]; lia].
  - induction b as [|a b IH]; simpl; [done|]. pose proof (byte_val_range a).
    rewrite !hex_value_digit; [|split; [apply Z.div_pos|apply Z.div_lt_upper_bound]; lia
      |apply Z.mod_pos_bound; lia].
    simpl. rewrite IH. simpl. do 2 f_equal.
    rewrite <- Z.div_mod by lia. apply byte_of_val.
Qed.

(** The canonical form of a seeded mission identifier, with the instances of
    this file. *)
Lemma id_from_seed_canonical_witness :
  @id_parse "mis" (id_as_str (@id_from_seed toy_blake3 toy_hex "mis" "seed"))
  = Ok (@id_from_seed toy_blake3 toy_hex "mis" "seed").
Proof.
  exact (proj1 (@id_from_seed_canonical toy_blake3 toy_hex toy_hex_laws "mis" "seed" "other")).
Defined.
