(* ===== verification/Merkle.v ===== *)
(** * Merkle trees over ordered leaf digests

    Models crates/application/src/audit_batch/merkle.rs. The two `while` loops
    take fuel: a level of [n] nodes needs at most [n] rounds, since each round
    halves it (rounding up) while more than one node is left. *)

From S2P Require Import Prelude External Ids Framing Toy.
From stdpp Require Import options.

(** crates/application/src/audit_batch/merkle.rs:19-19 (LEAF_DOMAIN) *)
Definition LEAF_DOMAIN : bytes := "bullet-kernel.audit-merkle.leaf.v1".
Definition NODE_DOMAIN : bytes := "bullet-kernel.audit-merkle.node.v1".

(** crates/application/src/audit_batch/merkle.rs:22-47 (MerkleError) *)
Inductive MerkleError : Type :=
| MerkleEmpty
| MerkleIndexOutOfRange (index leaf_count : Z)
| MerkleProofShape (expected found : nat)
| MerkleRootMismatch.

(** crates/application/src/audit_batch/merkle.rs:50-59 (MerkleError::reason_code) *)
Definition MerkleError_reason_code (e : MerkleError) : string :=
  match e with
  | MerkleEmpty => "MERKLE_EMPTY"
  | MerkleIndexOutOfRange _ _ => "MERKLE_INDEX_OUT_OF_RANGE"
  | MerkleProofShape _ _ => "MERKLE_PROOF_SHAPE"
  | MerkleRootMismatch => "MERKLE_ROOT_MISMATCH"
  end.

(** crates/application/src/audit_batch/merkle.rs:81-93 (InclusionProof) *)
Record InclusionProof : Type := MkInclusionProof {
  proof_leaf_index : Z;
  proof_leaf_count : Z;
  proof_siblings : list Digest
}.

(** crates/application/src/audit_batch/merkle.rs:95-100 (MerkleTree) *)
Record MerkleTree : Type := MkMerkleTree { tree_levels : list (list Digest) }.

(** [height]'s loop. *)
Fixpoint height_loop (fuel : nat) (width : Z) (levels : nat) : option nat :=
  match fuel with
  | O => None
  | S fuel =>
      if bool_decide (1 < width)%Z then height_loop fuel ((width + 1) / 2) (S levels)
      else Some levels
  end.

(** A [u64] halves to one in at most 64 rounds. *)
(** crates/application/src/audit_batch/merkle.rs:227-236 (height) *)
Definition height (leaf_count : Z) : option nat := height_loop 65 leaf_count 0.

Section Merkle.
Context `{Blake3}.

(** crates/application/src/audit_batch/merkle.rs:62-69 (leaf_hash) *)
Definition leaf_hash (payload : bytes) : Digest :=
  Digest_of (frame LEAF_DOMAIN +:+ frame payload).

(** crates/application/src/audit_batch/merkle.rs:71-79 (node_hash) *)
Definition node_hash (left right : Digest) : Digest :=
  Digest_of (frame NODE_DOMAIN +:+ array32_bytes (as_bytes left)
             +:+ array32_bytes (as_bytes right)).

(** One round: nodes are paired left to right, an odd last node with itself. *)
(** crates/application/src/audit_batch/merkle.rs:114-120 (MerkleTree::from_leaves loop body) *)
Fixpoint level_up (below : list Digest) : list Digest :=
  match below with
  | [] => []
  | [a] => [node_hash a a]
  | a :: b :: rest => node_hash a b :: level_up rest
  end.

Fixpoint build_levels (fuel : nat) (last : list Digest) : option (list (list Digest)) :=
  if bool_decide (1 < length last) then
    match fuel with
    | O => None
    | S fuel => levels ← build_levels fuel (level_up last); Some (last :: levels)
    end
  else Some [last].

(** crates/application/src/audit_batch/merkle.rs:103-123 (MerkleTree::from_leaves) *)
Definition from_leaves (leaves : list Digest) : result MerkleError MerkleTree :=
  if bool_decide (leaves = []) then Err MerkleEmpty
  else
    levels ← expect (build_levels (length leaves) leaves);
    mret (MkMerkleTree levels).

(** crates/application/src/audit_batch/merkle.rs:134-142 (MerkleTree::root) *)
Definition tree_root {E} (t : MerkleTree) : result E Digest :=
  expect (level ← last (tree_levels t); head level).

(** crates/application/src/audit_batch/merkle.rs:125-132 (MerkleTree::root_of) *)
Definition root_of (leaves : list Digest) : result MerkleError Digest :=
  tree ← from_leaves leaves; tree_root tree.

(** crates/application/src/audit_batch/merkle.rs:144-148 (MerkleTree::leaf_count) *)
Definition leaf_count (t : MerkleTree) : nat :=
  match tree_levels t with [] => 0 | level :: _ => length level end.

(** The sibling of a position; indexing past the end would panic. *)
(** crates/application/src/audit_batch/merkle.rs:166-170 (MerkleTree::prove sibling) *)
Definition sibling_at (level : list Digest) (position : nat) : option Digest :=
  if Nat.even position then
    match level !! S position with
    | Some s => Some s
    | None => level !! position
    end
  else level !! (position - 1).

Fixpoint prove_loop (levels : list (list Digest)) (position : nat) : option (list Digest) :=
  match levels with
  | [] => Some []
  | level :: rest =>
      s ← sibling_at level position;
      tail ← prove_loop rest (Nat.div2 position);
      Some (s :: tail)
  end.

(** crates/application/src/audit_batch/merkle.rs:150-179 (MerkleTree::prove) *)
Definition tree_prove (t : MerkleTree) (index : nat) : result MerkleError InclusionProof :=
  if bool_decide (leaf_count t <= index) then
    Err (MerkleIndexOutOfRange (Z.of_nat index) (Z.of_nat (leaf_count t)))
  else
    siblings ← expect (prove_loop (take (length (tree_levels t) - 1) (tree_levels t)) index);
    mret (MkInclusionProof (Z.of_nat index) (Z.of_nat (leaf_count t)) siblings).

(** The climb of [verify_inclusion]. *)
(** crates/application/src/audit_batch/merkle.rs:210-219 (verify_inclusion loop) *)
Fixpoint climb (siblings : list Digest) (position : Z) (current : Digest) : Digest :=
  match siblings with
  | [] => current
  | s :: rest =>
      climb rest (position / 2)%Z
        (if bool_decide (position mod 2 = 0)%Z then node_hash current s
         else node_hash s current)
  end.

(** crates/application/src/audit_batch/merkle.rs:182-225 (verify_inclusion) *)
Definition verify_inclusion (root leaf : Digest) (proof : InclusionProof)
  : result MerkleError unit :=
  if bool_decide (proof_leaf_count proof = 0%Z) then Err MerkleEmpty
  else if bool_decide (proof_leaf_count proof <= proof_leaf_index proof)%Z then
    Err (MerkleIndexOutOfRange (proof_leaf_index proof) (proof_leaf_count proof))
  else
    expected ← expect (height (proof_leaf_count proof));
    if negb (bool_decide (length (proof_siblings proof) = expected)) then
      Err (MerkleProofShape expected (length (proof_siblings proof)))
    else if bool_decide (climb (proof_siblings proof) (proof_leaf_index proof) leaf = root)
    then Ok tt
    else Err MerkleRootMismatch.

(** ** Collisions

    A statement of soundness names the byte strings that the two runs in
    question hash: the listed pairs are computed from the inputs, and the
    statement fails only if one of these very pairs collides. *)

(** One of the listed pairs is two different byte strings with one digest. *)
Definition collides (pairs : list (bytes * bytes)) : Prop :=
  Exists (fun p => p.1 <> p.2 /\ blake3_hash p.1 = blake3_hash p.2) pairs.

Global Instance collides_dec pairs : Decision (collides pairs).
Proof. unfold collides. apply _. Defined.

Lemma collides_app_l xs ys : collides xs -> collides (xs ++ ys).
Proof. unfold collides. rewrite Exists_app. by left. Qed.
Lemma collides_app_r xs ys : collides ys -> collides (xs ++ ys).
Proof. unfold collides. rewrite Exists_app. by right. Qed.

Lemma Digest_of_inj x y : Digest_of x = Digest_of y -> x = y \/ collides [(x, y)].
Proof.
  intros [= Heq]. destruct (decide (x = y)) as [|Hne]; [by left|right].
  by constructor.
Qed.

(** What [leaf_hash] and [node_hash] hash. *)
Definition leaf_preimage (payload : bytes) : bytes := frame LEAF_DOMAIN +:+ frame payload.
Definition node_preimage (left right : Digest) : bytes :=
  frame NODE_DOMAIN +:+ array32_bytes (as_bytes left) +:+ array32_bytes (as_bytes right).

(** The sides of a pair do not matter. *)
Lemma collides_sym x y : collides [(x, y)] -> collides [(y, x)].
Proof. unfold collides. rewrite !Exists_cons, !Exists_nil. naive_solver. Qed.

Lemma node_hash_inj a b c d :
  node_hash a b = node_hash c d ->
  (a = c /\ b = d) \/ collides [(node_preimage a b, node_preimage c d)].
Proof.
  intros [Heq|]%Digest_of_inj; [left|by right].
  apply (inj (String.append _)) in Heq.
  apply string_app_inj_len in Heq as [Hl Hr]; [|by rewrite !array32_length].
  split; [destruct a, c|destruct b, d]; f_equal; by apply array32_eq.
Qed.

Lemma leaf_hash_inj p q :
  fits p -> fits q -> leaf_hash p = leaf_hash q ->
  p = q \/ collides [(leaf_preimage p, leaf_preimage q)].
Proof.
  intros Hp Hq [Heq|]%Digest_of_inj; [left|by right].
  apply (inj (String.append _)) in Heq. by apply frame_inj in Heq.
Qed.

(** A leaf never passes for a node. *)
Lemma leaf_node_separate p a b :
  leaf_hash p = node_hash a b -> collides [(leaf_preimage p, node_preimage a b)].
Proof.
  intros [Heq|]%Digest_of_inj; [exfalso|done].
  apply frame_app_inj in Heq as [Heq _]; [done|by vm_compute..].
Qed.

(** What one round of the tree hashes, what its whole construction hashes, what
    is hashed above one position, and what the verifier's climb hashes. *)
Fixpoint level_preimages (below : list Digest) : list bytes :=
  match below with
  | [] => []
  | [a] => [node_preimage a a]
  | a :: b :: rest => node_preimage a b :: level_preimages rest
  end.

Fixpoint tree_preimages (levels : list (list Digest)) : list bytes :=
  match levels with
  | level :: (_ :: _) as rest => level_preimages level ++ tree_preimages rest
  | _ => []
  end.

Fixpoint path_preimages (levels : list (list Digest)) (position : nat) : list bytes :=
  match levels with
  | level :: (_ :: _) as rest =>
      match level !! position, sibling_at level position with
      | Some x, Some s =>
          (if Nat.even position then node_preimage x s else node_preimage s x)
          :: path_preimages rest (Nat.div2 position)
      | _, _ => []
      end
  | _ => []
  end.

Fixpoint climb_preimages (siblings : list Digest) (position : Z) (current : Digest) : list bytes :=
  match siblings with
  | [] => []
  | s :: rest =>
      let even := bool_decide (position mod 2 = 0)%Z in
      (if even then node_preimage current s else node_preimage s current)
      :: climb_preimages rest (position / 2)%Z (if even then node_hash current s else node_hash s current)
  end.

(** The verifier's climb beside the path of the tree over [leaves]. *)
Definition inclusion_pairs (leaves : list Digest) (leaf : Digest) (proof : InclusionProof)
  : list (bytes * bytes) :=
  match from_leaves leaves with
  | Ok t => zip (climb_preimages (proof_siblings proof) (proof_leaf_index proof) leaf)
              (path_preimages (tree_levels t) (Z.to_nat (proof_leaf_index proof)))
  | _ => []
  end.

(** The constructions of two trees. *)
Definition root_pairs (leaves1 leaves2 : list Digest) : list (bytes * bytes) :=
  match from_leaves leaves1, from_leaves leaves2 with
  | Ok t1, Ok t2 => zip (tree_preimages (tree_levels t1)) (tree_preimages (tree_levels t2))
  | _, _ => []
  end.

(** ** Levels of a tree *)

(** [levels_of l ls]: [ls] are the levels of the tree over [l]. *)
Inductive levels_of : list Digest -> list (list Digest) -> Prop :=
| levels_done l : length l = 1 -> levels_of l [l]
| levels_up l ls : 1 < length l -> levels_of (level_up l) ls -> levels_of l (l :: ls).

Lemma pair_ind (P : list Digest -> Prop) :
  P [] -> (forall a, P [a]) -> (forall a b l, P l -> P (a :: b :: l)) -> forall l, P l.
Proof.
  intros H0 H1 H2. fix IH 1. intros [|a [|b l]]; [exact H0|exact (H1 a)|].
  exact (H2 a b l (IH l)).
Qed.

Lemma level_up_length l : length (level_up l) = Nat.div2 (S (length l)).
Proof. induction l as [|a|a b l IH] using pair_ind; simpl; [done|done|by rewrite IH]. Qed.

Lemma level_up_shrinks l : 1 < length l -> 1 <= length (level_up l) < length l.
Proof.
  intros Hl. rewrite level_up_length.
  pose proof (Nat.div2_odd (S (length l))). destruct (Nat.odd (S (length l))); simpl in *; lia.
Qed.

(** The parent of position [i] hashes the node at [i] with its sibling, on the
    side the parity of [i] says. *)
Lemma level_up_lookup l i x :
  l !! i = Some x ->
  exists s, sibling_at l i = Some s /\
    level_up l !! Nat.div2 i
    = Some (if Nat.even i then node_hash x s else node_hash s x).
Proof.
  revert i. induction l as [|a|a b l IH] using pair_ind; intros i Hi.
  - by rewrite lookup_nil in Hi.
  - destruct i as [|i]; simplify_eq/=. by exists x.
  - destruct i as [|[|i]]; simplify_eq/=; [by exists b|by exists a|].
    destruct (IH i Hi) as (s & Hs & Hup). exists s. split; [|done].
    unfold sibling_at in *. simpl in *. destruct (Nat.even i) eqn:Heven; [done|].
    destruct i as [|i]; [done|]. simpl in *. by rewrite ?Nat.sub_0_r in *.
Qed.

Lemma level_up_inj l1 l2 :
  length l1 = length l2 -> level_up l1 = level_up l2 ->
  l1 = l2 \/ collides (zip (level_preimages l1) (level_preimages l2)).
Proof.
  revert l2. induction l1 as [|a|a b l IH] using pair_ind; intros l2 Hlen Heq.
  - left. by destruct l2.
  - destruct l2 as [|c [|]]; try done. simpl in Heq.
    assert (node_hash a a = node_hash c c) as [[-> _]|]%node_hash_inj by congruence; auto.
  - destruct l2 as [|c [|d l2]]; try done. simpl in *.
    assert (node_hash a b = node_hash c d) as Hn by congruence.
    assert (level_up l = level_up l2) as Ht by congruence.
    apply node_hash_inj in Hn as [[-> ->]|Hc]; [|right; by apply (collides_app_l [_])].
    destruct (IH l2) as [->|Hc]; [lia|done|by left|right; by constructor].
Qed.

Lemma level_preimages_length l1 l2 :
  length l1 = length l2 -> length (level_preimages l1) = length (level_preimages l2).
Proof.
  revert l2. induction l1 as [|a|a b l IH] using pair_ind; intros [|c [|d l2]] Hlen; try done.
  simpl in *. f_equal. apply IH. lia.
Qed.

Lemma build_levels_of fuel l ls :
  l <> [] -> build_levels fuel l = Some ls -> levels_of l ls.
Proof.
  revert l ls. induction fuel as [|fuel IH]; intros l ls Hl Hb; simpl in Hb.
  - case_bool_decide; simplify_eq. constructor. destruct l; simpl in *; [done|lia].
  - case_bool_decide as Hlen.
    + apply bind_Some in Hb as (ls' & Hls & [= <-]). apply levels_up; [done|].
      apply IH; [|done]. pose proof (level_up_shrinks _ Hlen) as Hs.
      intros Hnil. rewrite Hnil in Hs. simpl in Hs. lia.
    + simplify_eq. constructor. destruct l; simpl in *; [done|lia].
Qed.

Lemma build_levels_total fuel l :
  length l <= S fuel -> exists ls, build_levels fuel l = Some ls.
Proof.
  revert l. induction fuel as [|fuel IH]; intros l Hl; simpl.
  - rewrite bool_decide_false by lia. by eexists.
  - case_bool_decide as Hlen; [|by eexists].
    pose proof (level_up_shrinks _ Hlen).
    destruct (IH (level_up l)) as [ls ->]; [lia|]. by eexists.
Qed.

Lemma from_leaves_Ok leaves :
  leaves <> [] ->
  exists t, from_leaves leaves = Ok t /\ levels_of leaves (tree_levels t).
Proof.
  intros Hl. unfold from_leaves. rewrite bool_decide_false by done.
  destruct (build_levels_total (length leaves) leaves) as [ls Hls]; [lia|].
  rewrite Hls. simpl. eexists. split; [done|]. by eapply build_levels_of.
Qed.

Definition levels_root (ls : list (list Digest)) : option Digest :=
  level ← last ls; head level.

Lemma levels_root_up l ls l' :
  levels_of l' ls -> levels_root (l :: ls) = levels_root ls.
Proof. unfold levels_root. by destruct 1. Qed.

Lemma levels_root_Some l ls : levels_of l ls -> exists r, levels_root ls = Some r.
Proof.
  induction 1 as [l Hl|l ls Hl Hls IH].
  - destruct l as [|x l]; simpl in *; [lia|]. by exists x.
  - by rewrite (levels_root_up _ _ _ Hls).
Qed.

Lemma levels_of_head l ls : levels_of l ls -> head ls = Some l.
Proof. by destruct 1. Qed.

(** ** Completeness and soundness of inclusion proofs *)

Lemma even_mod2 i : bool_decide (Z.of_nat i mod 2 = 0)%Z = Nat.even i.
Proof.
  destruct (Nat.even i) eqn:He.
  - apply bool_decide_true. apply Nat.even_spec in He as [k ->].
    rewrite Nat2Z.inj_mul, Z.mul_comm. apply Z.mod_mul. lia.
  - apply bool_decide_false.
    assert (Nat.odd i = true) as [k ->]%Nat.odd_spec by (by rewrite <- Nat.negb_even, He).
    rewrite Nat2Z.inj_add, Nat2Z.inj_mul, Z.add_comm, Z.mul_comm, Z_mod_plus_full. done.
Qed.

Lemma div2_Z i : (Z.of_nat i / 2)%Z = Z.of_nat (Nat.div2 i).
Proof. by rewrite Nat.div2_div, Nat2Z.inj_div. Qed.

Lemma climb_proof l ls i x r :
  levels_of l ls -> l !! i = Some x -> levels_root ls = Some r ->
  exists sibs, prove_loop (take (length ls - 1) ls) i = Some sibs /\
    length sibs = length ls - 1 /\ climb sibs (Z.of_nat i) x = r.
Proof.
  intros Hls. revert i x. induction Hls as [l Hl|l ls Hl Hls IH]; intros i x Hi Hr.
  - exists []. simpl. split; [done|]. split; [done|].
    apply lookup_lt_Some in Hi as Hlt. destruct i; [|lia]. destruct l; simplify_eq/=.
    unfold levels_root in Hr. simpl in Hr. congruence.
  - destruct (level_up_lookup _ _ _ Hi) as (s & Hs & Hup).
    rewrite (levels_root_up _ _ _ Hls) in Hr.
    destruct (IH _ _ Hup Hr) as (sibs & Hp & Hlen & Hc).
    exists (s :: sibs). destruct ls as [|l1 ls]; [by inversion Hls|].
    simpl in *. rewrite Nat.sub_0_r in *. rewrite Hs. simpl. rewrite Hp. simpl.
    split; [done|]. split; [by rewrite Hlen|]. rewrite <- Hc. f_equal.
    + by rewrite div2_Z.
    + by rewrite even_mod2.
Qed.

Lemma climb_sound l ls i x r sibs :
  levels_of l ls -> levels_root ls = Some r -> i < length l ->
  length sibs = length ls - 1 -> climb sibs (Z.of_nat i) x = r ->
  l !! i = Some x \/ collides (zip (climb_preimages sibs (Z.of_nat i) x) (path_preimages ls i)).
Proof.
  intros Hls. revert i x sibs. induction Hls as [l Hl|l ls Hl Hls IH]; intros i x sibs Hr Hi Hlen Hc.
  - destruct sibs; [|done]. simpl in Hc. subst. left.
    destruct i; [|lia]. destruct l; simplify_eq/=. unfold levels_root in Hr. simpl in Hr. congruence.
  - rewrite (levels_root_up _ _ _ Hls) in Hr.
    destruct ls as [|l1 ls]; [by inversion Hls|].
    destruct sibs as [|s sibs]; [done|]. simpl in *. rewrite ?Nat.sub_0_r in *.
    destruct (lookup_lt_is_Some_2 l i Hi) as [y Hy].
    destruct (level_up_lookup _ _ _ Hy) as (s' & Hs & Hup).
    rewrite div2_Z, even_mod2 in *. rewrite Hy, Hs. cbn [zip_with zip].
    apply IH in Hc as [Hc|Hc]; [|right; by constructor|done|by eapply lookup_lt_Some|lia].
    rewrite Hup in Hc. apply (inj Some) in Hc.
    destruct (Nat.even i); apply node_hash_inj in Hc as [[-> ->]|Hc]; [by left| |by left|];
      right; by apply (collides_app_l [_]), collides_sym.
Qed.

(** ** Height *)

Lemma levels_of_nonempty l ls : levels_of l ls -> 1 <= length l /\ 1 <= length ls.
Proof. destruct 1; simpl; lia. Qed.

Lemma levels_of_length l ls n :
  levels_of l ls -> (Z.of_nat (length l) <= 2 ^ Z.of_nat n)%Z -> length ls <= S n.
Proof.
  intros Hls. revert n. induction Hls as [l Hl|l ls Hl Hls IH]; intros n Hn; simpl; [lia|].
  destruct n as [|n]; [simpl in Hn; lia|].
  apply le_n_S, IH. rewrite level_up_length.
  rewrite Nat2Z.inj_succ, Z.pow_succ_r in Hn by lia.
  pose proof (Nat.div2_odd (S (length l))).
  destruct (Nat.odd (S (length l))); simpl in *; lia.
Qed.

Lemma height_loop_levels l ls fuel k :
  levels_of l ls -> length ls <= fuel ->
  height_loop fuel (Z.of_nat (length l)) k = Some (k + (length ls - 1)).
Proof.
  intros Hls. revert fuel k. induction Hls as [l Hl|l ls Hl Hls IH]; intros fuel k Hf.
  - destruct fuel; simpl in *; [lia|]. rewrite bool_decide_false by lia. f_equal. lia.
  - destruct (levels_of_nonempty _ _ Hls) as [_ Hne].
    destruct fuel; simpl in *; [lia|]. rewrite bool_decide_true by lia.
    assert ((Z.of_nat (length l) + 1) / 2 = Z.of_nat (length (level_up l)))%Z as ->.
    { rewrite level_up_length, <- div2_Z. f_equal. lia. }
    rewrite IH by lia. f_equal. lia.
Qed.

Lemma height_levels l ls :
  levels_of l ls -> (Z.of_nat (length l) <= u64_max)%Z ->
  height (Z.of_nat (length l)) = Some (length ls - 1).
Proof.
  intros Hls Hl. unfold height. rewrite (height_loop_levels _ _ _ _ Hls); [done|].
  apply (levels_of_length _ _ 64 Hls). unfold u64_max in Hl. lia.
Qed.

Lemma levels_of_unique l ls ls' : levels_of l ls -> levels_of l ls' -> ls = ls'.
Proof.
  intros Hls. revert ls'. induction Hls as [l Hl|l ls Hl Hls IH]; intros ls' Hls';
    inversion Hls'; subst; try lia; [done|]. f_equal. by apply IH.
Qed.

Lemma from_leaves_levels leaves ls :
  levels_of leaves ls -> from_leaves leaves = Ok (MkMerkleTree ls).
Proof.
  intros Hls. destruct (from_leaves_Ok leaves) as ([ls'] & -> & Hls').
  { intros ->. destruct (levels_of_nonempty _ _ Hls) as [Hl _]. simpl in Hl. lia. }
  by rewrite (levels_of_unique _ _ _ Hls Hls').
Qed.

Lemma root_of_levels leaves r :
  root_of leaves = Ok r <-> exists ls, levels_of leaves ls /\ levels_root ls = Some r.
Proof.
  unfold root_of, tree_root. split.
  - intros Hr. apply bind_Ok in Hr as (t & Ht & Hr). apply expect_Ok in Hr.
    destruct (decide (leaves = [])) as [->|Hne]; [done|].
    destruct (from_leaves_Ok _ Hne) as (t' & Ht' & Hls). rewrite Ht in Ht'.
    injection Ht' as <-. by exists (tree_levels t).
  - intros (ls & Hls & Hr).
    rewrite (from_leaves_levels _ _ Hls). simpl. by apply expect_Ok.
Qed.

(** A tree proves each of its leaves. *)
Lemma leaf_provable leaves i leaf :
  (Z.of_nat (length leaves) <= u64_max)%Z -> leaves !! i = Some leaf ->
  exists tree root proof,
    from_leaves leaves = Ok tree /\ root_of leaves = Ok root /\
    tree_prove tree i = Ok proof /\
    proof_leaf_index proof = Z.of_nat i /\
    proof_leaf_count proof = Z.of_nat (length leaves) /\
    verify_inclusion root leaf proof = Ok tt.
Proof.
  intros Hmax Hi. assert (leaves <> []) as Hne by (by intros ->).
  destruct (from_leaves_Ok _ Hne) as (t & Ht & Hls).
  destruct (levels_root_Some _ _ Hls) as [r Hr].
  destruct (climb_proof _ _ _ _ _ Hls Hi Hr) as (sibs & Hp & Hlen & Hc).
  assert (leaf_count t = length leaves) as Hcount.
  { unfold leaf_count. apply levels_of_head in Hls. destruct (tree_levels t); by simplify_eq/=. }
  apply lookup_lt_Some in Hi.
  exists t, r, (MkInclusionProof (Z.of_nat i) (Z.of_nat (length leaves)) sibs).
  split; [done|]. split; [apply root_of_levels; by eauto|].
  split; [|split; [done|]; split; [done|]].
  - unfold tree_prove. rewrite Hcount, bool_decide_false, Hp by lia. done.
  - unfold verify_inclusion. simpl. rewrite !bool_decide_false by lia.
    rewrite (height_levels _ _ Hls Hmax). simpl.
    rewrite bool_decide_true by done. simpl. by rewrite bool_decide_true.
Qed.

(** every leaf is provable. For any non-empty list of leaves whose length
    is a 64-bit number, the tree builds (the level loop terminates and nothing
    panics), every position yields an inclusion proof, and the verifier accepts
    that proof for exactly that leaf against the root of the tree. *)
Theorem every_leaf_is_provable leaves i leaf :
  (Z.of_nat (length leaves) <= u64_max)%Z -> leaves !! i = Some leaf ->
  exists tree root proof,
    from_leaves leaves = Ok tree /\ root_of leaves = Ok root /\
    tree_prove tree i = Ok proof /\
    proof_leaf_index proof = Z.of_nat i /\
    proof_leaf_count proof = Z.of_nat (length leaves) /\
    verify_inclusion root leaf proof = Ok tt.
Proof. apply leaf_provable. Qed.

(** C22: Inclusion proofs are sound. A proof that the verifier accepts against
    the root of a list of leaves, for its leaf count, shows that the claimed
    digest is the leaf at the claimed position. The only exception is a BLAKE3
    collision within this very run: at some level the verifier's climb and the
    path of the tree over the leaves ([inclusion_pairs], computed from the
    leaves and the proof) hashed two different byte strings to one digest. *)
Theorem inclusion_proof_sound leaves root leaf proof :
  root_of leaves = Ok root ->
  is_u64 (proof_leaf_count proof) -> is_u64 (proof_leaf_index proof) ->
  proof_leaf_count proof = Z.of_nat (length leaves) ->
  verify_inclusion root leaf proof = Ok tt ->
  leaves !! Z.to_nat (proof_leaf_index proof) = Some leaf
  \/ collides (inclusion_pairs leaves leaf proof).
Proof.
  intros Hroot [_ Hmax] [Hidx _] Hcount Hv.
  apply root_of_levels in Hroot as (ls & Hls & Hr).
  unfold verify_inclusion in Hv. rewrite Hcount in Hv, Hmax.
  rewrite (height_levels _ _ Hls Hmax) in Hv. simpl in Hv. case_result.
  unfold inclusion_pairs. rewrite (from_leaves_levels _ _ Hls). cbn [tree_levels].
  pose proof (climb_sound leaves ls (Z.to_nat (proof_leaf_index proof)) leaf _
    (proof_siblings proof) Hls Hr) as Hs.
  rewrite Z2Nat.id in Hs by lia. apply Hs; [lia|done|done].
Qed.

(** Equal roots over equally many leaves. *)
Lemma root_of_inj leaves1 leaves2 root :
  root_of leaves1 = Ok root -> root_of leaves2 = Ok root ->
  length leaves1 = length leaves2 ->
  leaves1 = leaves2 \/ collides (root_pairs leaves1 leaves2).
Proof.
  intros (ls1 & Hls1 & Hr1)%root_of_levels (ls2 & Hls2 & Hr2)%root_of_levels.
  intros Hlen. unfold root_pairs.
  rewrite (from_leaves_levels _ _ Hls1), (from_leaves_levels _ _ Hls2). cbn [tree_levels].
  revert leaves2 ls2 Hls2 Hr2 Hlen.
  induction Hls1 as [l1 Hl1|l1 ls1 Hl1 Hls1 IH]; intros l2 ls2 Hls2 Hr2 Hlen.
  - inversion Hls2; subst; [|lia]. left.
    destruct l1 as [|x [|]], l2 as [|y [|]]; simplify_eq/=. unfold levels_root in *.
    simpl in *. congruence.
  - inversion Hls2 as [|l2' ls2' Hl2 Hls2']; subst; [lia|].
    rewrite (levels_root_up _ _ _ Hls1) in Hr1. rewrite (levels_root_up _ _ _ Hls2') in Hr2.
    destruct ls1 as [|k1 ls1]; [by inversion Hls1|]. destruct ls2' as [|k2 ls2']; [by inversion Hls2'|].
    cbn [tree_preimages]. rewrite zip_with_app by by apply level_preimages_length.
    destruct (IH Hr1 _ _ Hls2' Hr2) as [Heq|]; [by rewrite !level_up_length, Hlen| |right; by apply collides_app_r].
    apply level_up_inj in Heq as [->|]; [by left|right; by apply collides_app_l|done].
Qed.

(** The root commits the leaves. Two lists of leaves of the same length with
    the same root are the same list, unless the constructions of the two trees
    themselves collide. (The count has to be committed apart from the root, as
    the batch record does.) *)
Theorem root_commits_leaves leaves1 leaves2 root :
  root_of leaves1 = Ok root -> root_of leaves2 = Ok root ->
  length leaves1 = length leaves2 ->
  leaves1 = leaves2 \/ collides (root_pairs leaves1 leaves2).
Proof. apply root_of_inj. Qed.
End Merkle.

(** Witnesses: five leaves under the toy hash. *)
Definition demo_leaves : list Digest :=
  (fun s => @leaf_hash toy_blake3 s) <$> ["leaf-0"; "leaf-1"; "leaf-2"; "leaf-3"; "leaf-4"].

Definition demo_root : Digest :=
  match @root_of toy_blake3 demo_leaves with
  | Ok r => r | _ => @leaf_hash toy_blake3 "none" end.

Definition demo_proof : InclusionProof :=
  match @from_leaves toy_blake3 demo_leaves with
  | Ok t => match tree_prove t 4 with Ok p => p | _ => MkInclusionProof 0 0 [] end
  | _ => MkInclusionProof 0 0 []
  end.

Lemma every_leaf_is_provable_witness :
  exists tree root proof,
    @from_leaves toy_blake3 demo_leaves = Ok tree /\
    @root_of toy_blake3 demo_leaves = Ok root /\ tree_prove tree 4 = Ok proof /\
    @verify_inclusion toy_blake3 root (@leaf_hash toy_blake3 "leaf-4") proof = Ok tt.
Proof.
  destruct (@every_leaf_is_provable toy_blake3 demo_leaves 4
              (@leaf_hash toy_blake3 "leaf-4")) as (t & r & p & H1 & H2 & H3 & _ & _ & H4).
  - by vm_compute.
  - reflexivity.
  - by exists t, r, p.
Defined.

(** The verifier's climb does not collide with the tree, so the leaf is there. *)
Lemma inclusion_proof_sound_witness :
  ~ @collides toy_blake3 (@inclusion_pairs toy_blake3 demo_leaves (@leaf_hash toy_blake3 "leaf-4") demo_proof)
  /\ demo_leaves !! 4 = Some (@leaf_hash toy_blake3 "leaf-4").
Proof.
  assert (~ @collides toy_blake3
    (@inclusion_pairs toy_blake3 demo_leaves (@leaf_hash toy_blake3 "leaf-4") demo_proof)) as Hc.
  { apply (bool_decide_eq_false_1 _). vm_compute. reflexivity. }
  split; [exact Hc|].
  destruct (@inclusion_proof_sound toy_blake3 demo_leaves demo_root
    (@leaf_hash toy_blake3 "leaf-4") demo_proof) as [Hl|Hl]; [| | | | |exact Hl|contradiction].
  all: vm_compute; first [reflexivity | split; discriminate].
Defined.

Lemma root_commits_leaves_witness :
  demo_leaves = demo_leaves \/ @collides toy_blake3 (@root_pairs toy_blake3 demo_leaves demo_leaves).
Proof.
  refine (@root_commits_leaves toy_blake3 demo_leaves demo_leaves demo_root _ _ _).
  all: vm_compute; reflexivity.
Defined.
