(* ===== verification/Records.v ===== *)
(** * Durable record shapes

    Models crates/application/src/records.rs. Timestamps are RFC 3339 strings,
    64-bit numbers are [Z]. *)

From S2P Require Import Prelude External Ids States Entities.
From stdpp Require Import options.

Local Open Scope Z_scope.

Definition MAX_LEASE_TTL_SECONDS : Z := 15.

(** crates/application/src/records.rs:12-23 (StoredGraph) *)
Record StoredGraph : Type := MkStoredGraph {
  StoredGraph_mission : Mission;
  StoredGraph_plan : PlanRevision;
  StoredGraph_packages : list WorkPackage;
  StoredGraph_variants : list Variant
}.

(** crates/application/src/records.rs:25-48 (LedgerEvent) *)
Record LedgerEvent : Type := MkLedgerEvent {
  LedgerEvent_seq : Z;
  LedgerEvent_at : string;
  LedgerEvent_kind : string;
  LedgerEvent_body : string;
  LedgerEvent_event_id : option string;
  LedgerEvent_stream_id : option string;
  LedgerEvent_sequence : option Z;
  LedgerEvent_causation_id : option string;
  LedgerEvent_correlation_id : option string;
  LedgerEvent_authority_token_hash : option string
}.

(** crates/application/src/records.rs:50-57 (ReadyRow) *)
Record ReadyRow : Type := MkReadyRow {
  ReadyRow_work_package_id : WorkPackageId;
  ReadyRow_enqueued_at : string
}.

(** crates/application/src/records.rs:59-79 (OutboxItem) *)
Record OutboxItem : Type := MkOutboxItem {
  OutboxItem_seq : Z;
  OutboxItem_command_id : option CommandId;
  OutboxItem_kind : string;
  OutboxItem_payload : string;
  OutboxItem_phase : CommandPhase;
  OutboxItem_delivered_at : option string;
  OutboxItem_acked_at : option string
}.

(** crates/application/src/records.rs:81-102 (ActiveLease) *)
Record ActiveLease : Type := MkActiveLease {
  ActiveLease_variant_id : VariantId;
  ActiveLease_attempt_id : AttemptId;
  ActiveLease_fence : Z;
  ActiveLease_runner_id : RunnerId;
  ActiveLease_runner_epoch : Z;
  ActiveLease_workspace_nonce : array32;
  ActiveLease_heartbeat_at : string;
  ActiveLease_expires_at : string;
  ActiveLease_ttl_seconds : Z
}.

(** crates/application/src/records.rs:104-129 (LeaseRequest) *)
Record LeaseRequest : Type := MkLeaseRequest {
  LeaseRequest_idempotency_key : string;
  LeaseRequest_mission_id : MissionId;
  LeaseRequest_variant_id : VariantId;
  LeaseRequest_attempt_seed : string;
  LeaseRequest_runner_id : RunnerId;
  LeaseRequest_runner_epoch : Z;
  LeaseRequest_workspace_id : WorkspaceId;
  LeaseRequest_workspace_nonce : array32;
  LeaseRequest_scope_revision : Z;
  LeaseRequest_context_revision : Z;
  LeaseRequest_ttl_seconds : Z
}.

(** crates/application/src/records.rs:166-173 (LeaseGrant) *)
Record LeaseGrant : Type := MkLeaseGrant {
  LeaseGrant_attempt : Attempt;
  LeaseGrant_lease : ActiveLease
}.

(** crates/application/src/records.rs:175-192 (HeartbeatRequest) *)
Record HeartbeatRequest : Type := MkHeartbeatRequest {
  HeartbeatRequest_variant_id : VariantId;
  HeartbeatRequest_attempt_id : AttemptId;
  HeartbeatRequest_fence : Z;
  HeartbeatRequest_runner_id : RunnerId;
  HeartbeatRequest_runner_epoch : Z;
  HeartbeatRequest_workspace_nonce : array32;
  HeartbeatRequest_ttl_seconds : Z
}.

(** crates/application/src/records.rs:205-216 (ReleaseRequest) *)
Record ReleaseRequest : Type := MkReleaseRequest {
  ReleaseRequest_variant_id : VariantId;
  ReleaseRequest_attempt_id : AttemptId;
  ReleaseRequest_final_state : AttemptState;
  ReleaseRequest_requeue : bool
}.

(** crates/application/src/records.rs:231-242 (ExpiredLease) *)
Record ExpiredLease : Type := MkExpiredLease {
  ExpiredLease_variant_id : VariantId;
  ExpiredLease_attempt_id : AttemptId;
  ExpiredLease_work_package_id : WorkPackageId;
  ExpiredLease_fence : Z
}.

Global Instance StoredGraph_eq_dec : EqDecision StoredGraph.
Proof. solve_decision. Defined.
Global Instance LedgerEvent_eq_dec : EqDecision LedgerEvent.
Proof. solve_decision. Defined.
Global Instance OutboxItem_eq_dec : EqDecision OutboxItem.
Proof. solve_decision. Defined.
Global Instance ActiveLease_eq_dec : EqDecision ActiveLease.
Proof. solve_decision. Defined.
Global Instance LeaseGrant_eq_dec : EqDecision LeaseGrant.
Proof. solve_decision. Defined.

(** crates/application/src/records.rs:218-229 (validate_lease_ttl) *)
Definition validate_lease_ttl (ttl_seconds : Z) : result DomainError Z :=
  if bool_decide (1 <= ttl_seconds <= MAX_LEASE_TTL_SECONDS) then Ok ttl_seconds
  else Err (InvalidLeaseTtl ttl_seconds).

(** crates/application/src/records.rs:132-139 (LeaseRequest::validated_ttl) *)
Definition LeaseRequest_validated_ttl (r : LeaseRequest) : result DomainError Z :=
  validate_lease_ttl (LeaseRequest_ttl_seconds r).

(** crates/application/src/records.rs:195-202 (HeartbeatRequest::validated_ttl) *)
Definition HeartbeatRequest_validated_ttl (r : HeartbeatRequest) : result DomainError Z :=
  validate_lease_ttl (HeartbeatRequest_ttl_seconds r).

(** The members of the JSON object that [stable_payload] encodes. *)
Record LeasePayload : Type := MkLeasePayload {
  lp_mission_id : string;
  lp_variant_id : string;
  lp_attempt_seed : string;
  lp_runner_id : string;
  lp_runner_epoch : Z;
  lp_workspace_id : string;
  lp_workspace_nonce : bytes;
  lp_scope_revision : Z;
  lp_context_revision : Z;
  lp_ttl_seconds : Z
}.

(** crates/application/src/records.rs:149-160 (LeaseRequest::stable_payload json) *)
Definition lease_payload (r : LeaseRequest) : LeasePayload := {|
  lp_mission_id := id_as_str (LeaseRequest_mission_id r);
  lp_variant_id := id_as_str (LeaseRequest_variant_id r);
  lp_attempt_seed := LeaseRequest_attempt_seed r;
  lp_runner_id := id_as_str (LeaseRequest_runner_id r);
  lp_runner_epoch := LeaseRequest_runner_epoch r;
  lp_workspace_id := id_as_str (LeaseRequest_workspace_id r);
  lp_workspace_nonce := array32_bytes (LeaseRequest_workspace_nonce r);
  lp_scope_revision := LeaseRequest_scope_revision r;
  lp_context_revision := LeaseRequest_context_revision r;
  lp_ttl_seconds := LeaseRequest_ttl_seconds r
|}.

(** crates/application/src/records.rs:141-163 (LeaseRequest::stable_payload) *)
Definition stable_payload `{Json LeasePayload} (r : LeaseRequest)
  : result DomainError string :=
  _ ← LeaseRequest_validated_ttl r;
  map_err EncodingError (to_json (lease_payload r)).

Lemma validate_lease_ttl_Ok t r :
  validate_lease_ttl t = Ok r <-> r = t /\ 1 <= t <= 15.
Proof.
  unfold validate_lease_ttl, MAX_LEASE_TTL_SECONDS. case_bool_decide; naive_solver.
Qed.

(** Two requests with the same stable payload differ in their key at most. *)
Lemma stable_payload_inj `{JsonLaws LeasePayload} r1 r2 p :
  stable_payload r1 = Ok p -> stable_payload r2 = Ok p ->
  LeaseRequest_idempotency_key r1 = LeaseRequest_idempotency_key r2 -> r1 = r2.
Proof.
  unfold stable_payload. intros H1 H2 Hk. case_result.
  match goal with
  | A : to_json (lease_payload r1) = Ok p, B : to_json (lease_payload r2) = Ok p |- _ =>
      apply of_json_to_json in A; apply of_json_to_json in B; rewrite A in B
  end.
  inv_result. unfold lease_payload in *. destruct r1, r2; simpl in *. simplify_eq.
  f_equal; try by apply Id_eq. by apply array32_eq.
Qed.
