(* ===== verification/AuditBatch.v ===== *)
(** * Audit batches and their chain

    Models crates/application/src/audit_batch.rs: contiguous runs of ledger
    events committed to Merkle roots that chain through [previous_root]. The
    signer slot of the source is an empty enum; a builder therefore always
    writes the unsigned marker. Plain `+` and `-` on [u64] wrap. *)

From S2P Require Import Prelude External Ids Records Framing Toy Merkle.
From stdpp Require Import options.

Local Open Scope Z_scope.

(** crates/application/src/audit_batch.rs:21-34 (constants) *)
Definition AUDIT_BATCH_SCHEMA_VERSION : string := "v1alpha1".
Definition AUDIT_BATCH_ID_PREFIX : string := "audit-batch".
Definition GENESIS_PREVIOUS_ROOT : string :=
  "0000000000000000000000000000000000000000000000000000000000000000".
Definition UNSIGNED_SIGNER : string := "unsigned".
Definition UNANCHORED_RECEIPT : string := "unanchored".
Definition EVENT_LEAF_DOMAIN : bytes := "bullet-kernel.audit-batch.ledger-event.v1".
Definition BATCH_ID_DOMAIN : bytes := "bullet-kernel.audit-batch.id.v1".

(** The wire record of a batch. *)
(** crates/application/src/audit_batch.rs:180-189 (AuditBatchV1) *)
Record AuditBatchV1 : Type := MkAuditBatchV1 {
  ab_schema_version : string;
  ab_audit_batch_id : string;
  ab_first_sequence : Z;
  ab_last_sequence : Z;
  ab_previous_root : string;
  ab_merkle_root : string;
  ab_signer : string;
  ab_external_anchor_receipt : string
}.

(** crates/application/src/audit_batch.rs:41-102 (AuditBatchError) *)
Inductive AuditBatchError : Type :=
| AuditEmpty
| AuditLeafOrder (index : nat) (previous found : Z)
| AuditSequenceGap (expected found : Z)
| AuditTruncated (expected found : Z)
| AuditRangeMismatch (first last leaf_first leaf_last : Z)
| AuditRangeInvalid (first last : Z)
| AuditSchemaVersion (v : string)
| AuditSignerUnsupported (s : string)
| AuditAnchorUnsupported (r : string)
| AuditMalformedRoot (field : string)
| AuditRootMismatch (committed computed : string)
| AuditIdMismatch (committed computed : string)
| AuditPreviousRootMismatch (index : nat) (expected found : string)
| AuditChainShape (batches leaf_sets : nat)
| AuditMerkle (e : MerkleError).

(** crates/application/src/audit_batch.rs:105-125 (AuditBatchError::reason_code) *)
Definition AuditBatchError_reason_code (e : AuditBatchError) : string :=
  match e with
  | AuditEmpty => "AUDIT_BATCH_EMPTY"
  | AuditLeafOrder _ _ _ => "AUDIT_LEAF_ORDER"
  | AuditSequenceGap _ _ => "AUDIT_SEQUENCE_GAP"
  | AuditTruncated _ _ => "AUDIT_BATCH_TRUNCATED"
  | AuditRangeMismatch _ _ _ _ => "AUDIT_RANGE_MISMATCH"
  | AuditRangeInvalid _ _ => "AUDIT_RANGE_INVALID"
  | AuditSchemaVersion _ => "AUDIT_SCHEMA_VERSION"
  | AuditSignerUnsupported _ => "AUDIT_SIGNER_UNSUPPORTED"
  | AuditAnchorUnsupported _ => "AUDIT_ANCHOR_UNSUPPORTED"
  | AuditMalformedRoot _ => "AUDIT_ROOT_MALFORMED"
  | AuditRootMismatch _ _ => "AUDIT_ROOT_MISMATCH"
  | AuditIdMismatch _ _ => "AUDIT_BATCH_ID_MISMATCH"
  | AuditPreviousRootMismatch _ _ _ => "AUDIT_PREVIOUS_ROOT_MISMATCH"
  | AuditChainShape _ _ => "AUDIT_CHAIN_SHAPE"
  | AuditMerkle inner => MerkleError_reason_code inner
  end.

(** crates/application/src/audit_batch.rs:128-134 (AuditBatchBuilder) *)
Record AuditBatchBuilder : Type := MkAuditBatchBuilder { builder_previous_root : string }.

(** crates/application/src/audit_batch.rs:193-202 (AuditChainHead) *)
Record AuditChainHead : Type := MkAuditChainHead {
  head_batch_count : nat;
  head_head_root : string;
  head_last_sequence : Z
}.

(** Order violations anywhere take precedence over gaps. *)
(** crates/application/src/audit_batch.rs:424-432 (contiguous_range order loop) *)
Fixpoint check_leaf_order (index : nat) (events : list LedgerEvent)
  : result AuditBatchError unit :=
  match events with
  | e0 :: ((e1 :: _) as rest) =>
      if bool_decide (LedgerEvent_seq e1 <= LedgerEvent_seq e0) then
        Err (AuditLeafOrder (S index) (LedgerEvent_seq e0) (LedgerEvent_seq e1))
      else check_leaf_order (S index) rest
  | _ => Ok tt
  end.

(** crates/application/src/audit_batch.rs:433-440 (contiguous_range gap loop) *)
Fixpoint check_leaf_gap (events : list LedgerEvent) : result AuditBatchError unit :=
  match events with
  | e0 :: ((e1 :: _) as rest) =>
      let expected := u64_wrapping_add (LedgerEvent_seq e0) 1 in
      if negb (bool_decide (LedgerEvent_seq e1 = expected)) then
        Err (AuditSequenceGap expected (LedgerEvent_seq e1))
      else check_leaf_gap rest
  | _ => Ok tt
  end.

(** crates/application/src/audit_batch.rs:418-442 (contiguous_range) *)
Definition contiguous_range (events : list LedgerEvent) : result AuditBatchError (Z * Z) :=
  first ← ok_or (head events) AuditEmpty;
  last ← ok_or (last events) AuditEmpty;
  _ ← check_leaf_order 0 events;
  _ ← check_leaf_gap events;
  mret (LedgerEvent_seq first, LedgerEvent_seq last).

(** crates/application/src/audit_batch.rs:444-459 (position) *)
Definition batch_position (b : AuditBatchV1) (seq : Z) : result AuditBatchError nat :=
  if bool_decide (seq < ab_first_sequence b) || bool_decide (ab_last_sequence b < seq) then
    Err (AuditRangeMismatch (ab_first_sequence b) (ab_last_sequence b) seq seq)
  else Ok (Z.to_nat (seq - ab_first_sequence b)).

Section Audit.
Context `{Blake3} `{Hex}.

(** The bytes that are hashed for one event. *)
(** crates/application/src/audit_batch.rs:208-219 (event_leaf buffer) *)
Definition event_preimage (e : LedgerEvent) : bytes :=
  frame EVENT_LEAF_DOMAIN
  +:+ frame (u64_to_le_bytes (LedgerEvent_seq e))
  +:+ frame (LedgerEvent_at e)
  +:+ frame (LedgerEvent_kind e)
  +:+ frame (LedgerEvent_body e)
  +:+ frame_text (LedgerEvent_event_id e)
  +:+ frame_text (LedgerEvent_stream_id e)
  +:+ frame_text (pretty <$> LedgerEvent_sequence e)
  +:+ frame_text (LedgerEvent_causation_id e)
  +:+ frame_text (LedgerEvent_correlation_id e)
  +:+ frame_text (LedgerEvent_authority_token_hash e).

(** crates/application/src/audit_batch.rs:204-221 (event_leaf) *)
Definition event_leaf (e : LedgerEvent) : Digest := leaf_hash (event_preimage e).

(** crates/application/src/audit_batch.rs:461-463 (event_leaves) *)
Definition event_leaves (events : list LedgerEvent) : list Digest := event_leaf <$> events.

(** crates/application/src/audit_batch.rs:465-473 (batch_id) *)
Definition batch_id (previous_root merkle_root : string) (first last : Z) : string :=
  AUDIT_BATCH_ID_PREFIX +:+ "_" +:+ to_hex (Digest_of (
    frame BATCH_ID_DOMAIN +:+ frame previous_root +:+ frame merkle_root
    +:+ frame (u64_to_le_bytes first) +:+ frame (u64_to_le_bytes last))).

(** crates/application/src/audit_batch.rs:407-416 (validate_root) *)
Definition validate_root (field value : string) : result AuditBatchError Digest :=
  let lowercase_hex :=
    bool_decide (str_len value = 64) && string_all is_lower_hex value in
  if negb lowercase_hex then Err (AuditMalformedRoot field)
  else map_err (fun _ => AuditMalformedRoot field) (from_hex value).

(** crates/application/src/audit_batch.rs:384-405 (validate_record) *)
Definition validate_record (b : AuditBatchV1) : result AuditBatchError unit :=
  if negb (bool_decide (ab_schema_version b = AUDIT_BATCH_SCHEMA_VERSION)) then
    Err (AuditSchemaVersion (ab_schema_version b))
  else if negb (bool_decide (ab_signer b = UNSIGNED_SIGNER)) then
    Err (AuditSignerUnsupported (ab_signer b))
  else if negb (bool_decide (ab_external_anchor_receipt b = UNANCHORED_RECEIPT)) then
    Err (AuditAnchorUnsupported (ab_external_anchor_receipt b))
  else
    _ ← validate_root "previous_root" (ab_previous_root b);
    _ ← validate_root "merkle_root" (ab_merkle_root b);
    if bool_decide (ab_last_sequence b < ab_first_sequence b) then
      Err (AuditRangeInvalid (ab_first_sequence b) (ab_last_sequence b))
    else Ok tt.

(** crates/application/src/audit_batch.rs:137-144 (AuditBatchBuilder::genesis) *)
Definition builder_genesis : AuditBatchBuilder := MkAuditBatchBuilder GENESIS_PREVIOUS_ROOT.

(** crates/application/src/audit_batch.rs:155-166 (AuditBatchBuilder::with_previous_root) *)
Definition with_previous_root (previous_root : string)
  : result AuditBatchError AuditBatchBuilder :=
  _ ← validate_root "previous_root" previous_root;
  mret (MkAuditBatchBuilder previous_root).

(** crates/application/src/audit_batch.rs:146-153 (AuditBatchBuilder::after) *)
Definition builder_after (previous : AuditBatchV1)
  : result AuditBatchError AuditBatchBuilder := with_previous_root (ab_merkle_root previous).

(** crates/application/src/audit_batch.rs:168-190 (AuditBatchBuilder::build) *)
Definition batch_build (builder : AuditBatchBuilder) (events : list LedgerEvent)
  : result AuditBatchError AuditBatchV1 :=
  range ← contiguous_range events;
  root ← map_err AuditMerkle (root_of (event_leaves events));
  let root := to_hex root in
  mret {|
    ab_schema_version := AUDIT_BATCH_SCHEMA_VERSION;
    ab_audit_batch_id := batch_id (builder_previous_root builder) root range.1 range.2;
    ab_first_sequence := range.1;
    ab_last_sequence := range.2;
    ab_previous_root := builder_previous_root builder;
    ab_merkle_root := root;
    ab_signer := UNSIGNED_SIGNER;
    ab_external_anchor_receipt := UNANCHORED_RECEIPT
  |}.

(** crates/application/src/audit_batch.rs:223-267 (verify_batch) *)
Definition verify_batch (b : AuditBatchV1) (events : list LedgerEvent)
  : result AuditBatchError unit :=
  _ ← validate_record b;
  range ← contiguous_range events;
  let leaf_first := range.1 in
  let leaf_last := range.2 in
  let expected :=
    u64_wrapping_add (u64_wrapping_sub (ab_last_sequence b) (ab_first_sequence b)) 1 in
  let found := Z.of_nat (length events) in
  if bool_decide (leaf_first = ab_first_sequence b) && bool_decide (found < expected) then
    Err (AuditTruncated expected found)
  else if negb (bool_decide (leaf_first = ab_first_sequence b))
       || negb (bool_decide (leaf_last = ab_last_sequence b)) then
    Err (AuditRangeMismatch (ab_first_sequence b) (ab_last_sequence b) leaf_first leaf_last)
  else
    root ← map_err AuditMerkle (root_of (event_leaves events));
    let computed := to_hex root in
    if negb (bool_decide (computed = ab_merkle_root b)) then
      Err (AuditRootMismatch (ab_merkle_root b) computed)
    else
      let id := batch_id (ab_previous_root b) (ab_merkle_root b)
                  (ab_first_sequence b) (ab_last_sequence b) in
      if negb (bool_decide (id = ab_audit_batch_id b)) then
        Err (AuditIdMismatch (ab_audit_batch_id b) id)
      else Ok tt.

(** The loop of [verify_chain_from] over the zipped batches and leaf sets. *)
(** crates/application/src/audit_batch.rs:303-329 (verify_chain_from loop) *)
Fixpoint verify_chain_loop (index : nat) (expected_root : string)
  (next_sequence : option Z) (pairs : list (AuditBatchV1 * list LedgerEvent))
  : result AuditBatchError unit :=
  match pairs with
  | [] => Ok tt
  | (b, leaves) :: rest =>
      _ ← verify_batch b leaves;
      if negb (bool_decide (ab_previous_root b = expected_root)) then
        Err (AuditPreviousRootMismatch index expected_root (ab_previous_root b))
      else
        _ ← match next_sequence with
            | None => Ok tt
            | Some expected =>
                if bool_decide (ab_first_sequence b < expected) then
                  Err (AuditLeafOrder index (u64_wrapping_sub expected 1)
                         (ab_first_sequence b))
                else if bool_decide (expected < ab_first_sequence b) then
                  Err (AuditSequenceGap expected (ab_first_sequence b))
                else Ok tt
            end;
        verify_chain_loop (S index) (ab_merkle_root b)
          (Some (u64_wrapping_add (ab_last_sequence b) 1)) rest
  end.

(** crates/application/src/audit_batch.rs:284-336 (verify_chain_from) *)
Definition verify_chain_from (head_root : string) (batches : list AuditBatchV1)
  (leaves_by_batch : list (list LedgerEvent)) : result AuditBatchError AuditChainHead :=
  _ ← validate_root "head_root" head_root;
  if negb (bool_decide (length batches = length leaves_by_batch)) then
    Err (AuditChainShape (length batches) (length leaves_by_batch))
  else
    _ ← verify_chain_loop 0 head_root None (zip batches leaves_by_batch);
    last ← ok_or (last batches) AuditEmpty;
    mret (MkAuditChainHead (length batches) (ab_merkle_root last) (ab_last_sequence last)).

(** crates/application/src/audit_batch.rs:269-282 (verify_chain) *)
Definition verify_chain (batches : list AuditBatchV1)
  (leaves_by_batch : list (list LedgerEvent)) : result AuditBatchError AuditChainHead :=
  verify_chain_from GENESIS_PREVIOUS_ROOT batches leaves_by_batch.

(** crates/application/src/audit_batch.rs:338-354 (prove_event) *)
Definition prove_event (b : AuditBatchV1) (events : list LedgerEvent) (seq : Z)
  : result AuditBatchError InclusionProof :=
  _ ← verify_batch b events;
  index ← batch_position b seq;
  tree ← map_err AuditMerkle (from_leaves (event_leaves events));
  map_err AuditMerkle (tree_prove tree index).

(** crates/application/src/audit_batch.rs:356-382 (verify_event_inclusion) *)
Definition verify_event_inclusion (b : AuditBatchV1) (e : LedgerEvent)
  (proof : InclusionProof) : result AuditBatchError unit :=
  _ ← validate_record b;
  index ← batch_position b (LedgerEvent_seq e);
  let leaf_count :=
    u64_wrapping_add (u64_wrapping_sub (ab_last_sequence b) (ab_first_sequence b)) 1 in
  if negb (bool_decide (proof_leaf_index proof = Z.of_nat index))
     || negb (bool_decide (proof_leaf_count proof = leaf_count)) then
    Err (AuditRangeMismatch (ab_first_sequence b) (ab_last_sequence b)
           (u64_wrapping_add (ab_first_sequence b) (proof_leaf_index proof))
           (u64_wrapping_add (ab_first_sequence b)
              (u64_saturating_sub (proof_leaf_count proof) 1)))
  else
    root ← validate_root "merkle_root" (ab_merkle_root b);
    map_err AuditMerkle (verify_inclusion root (event_leaf e) proof).

Arguments batch_id : simpl never.
Arguments event_leaves : simpl never.
Arguments event_leaf : simpl never.

(** ** Contiguous runs *)

Definition seqs (events : list LedgerEvent) : list Z := LedgerEvent_seq <$> events.

Lemma check_leaf_contiguous i events u v :
  Forall (fun e => is_u64 (LedgerEvent_seq e)) events ->
  check_leaf_order i events = Ok u -> check_leaf_gap events = Ok v ->
  forall e0 rest, events = e0 :: rest ->
  seqs events = seqZ (LedgerEvent_seq e0) (Z.of_nat (length events)).
Proof.
  revert i. induction events as [|e events IH]; intros i Hr Ho Hg e0 rest Heq; simplify_eq.
  apply Forall_cons in Hr as [He Hr].
  unfold seqs. rewrite fmap_cons, length_cons, seqZ_cons by lia. f_equal.
  destruct rest as [|e1 rest]; [done|].
  change (check_leaf_order i (e0 :: e1 :: rest)) with
    (if bool_decide (LedgerEvent_seq e1 <= LedgerEvent_seq e0)
     then Err (AuditLeafOrder (S i) (LedgerEvent_seq e0) (LedgerEvent_seq e1))
     else check_leaf_order (S i) (e1 :: rest)) in Ho.
  change (check_leaf_gap (e0 :: e1 :: rest)) with
    (if negb (bool_decide (LedgerEvent_seq e1 = u64_wrapping_add (LedgerEvent_seq e0) 1))
     then Err (AuditSequenceGap (u64_wrapping_add (LedgerEvent_seq e0) 1) (LedgerEvent_seq e1))
     else check_leaf_gap (e1 :: rest)) in Hg.
  repeat case_bool_decide; try done. simpl in Hg.
  apply Forall_cons in Hr as Hr1. destruct Hr1 as [He1 _].
  pose proof (IH (S i) Hr Ho Hg e1 rest eq_refl) as Hs. unfold seqs in Hs. rewrite Hs.
  assert (LedgerEvent_seq e1 = LedgerEvent_seq e0 + 1) as ->.
  { unfold u64_wrapping_add, is_u64, u64_max in *.
    destruct (decide (LedgerEvent_seq e0 + 1 = 2 ^ 64)) as [Heq|Hne].
    - rewrite Heq, Z.mod_same in * by lia. lia.
    - rewrite Z.mod_small in * by lia. lia. }
  rewrite length_cons. f_equal; lia.
Qed.

Lemma contiguous_range_Ok events first lst :
  Forall (fun e => is_u64 (LedgerEvent_seq e)) events ->
  contiguous_range events = Ok (first, lst) ->
  seqs events = seqZ first (Z.of_nat (length events)) /\
  lst = first + Z.of_nat (length events) - 1 /\ (0 < length events)%nat.
Proof.
  intros Hr Hc. unfold contiguous_range in Hc. inv_result.
  destruct events as [|e0 rest]; [done|].
  match goal with Hh : head _ = Some _ |- _ => injection Hh as <- end.
  match goal with
  | Ho : check_leaf_order _ _ = Ok _, Hg : check_leaf_gap _ = Ok _ |- _ =>
      pose proof (check_leaf_contiguous _ _ _ _ Hr Ho Hg e0 rest eq_refl) as Hs
  end.
  split; [exact Hs|]. split; [|simpl; lia].
  match goal with Hl : last _ = Some ?e |- _ =>
    rewrite last_lookup in Hl; simpl in Hl;
    assert (seqs (e0 :: rest) !! length rest = Some (LedgerEvent_seq e)) as Hlast
      by (unfold seqs; rewrite list_lookup_fmap; by rewrite Hl)
  end.
  rewrite Hs in Hlast. apply lookup_seqZ in Hlast as [-> _]. simpl length. lia.
Qed.

(** ** Identity of events *)

(** A stored event: its numbers are [u64] and its buffer is addressable. *)
Record event_ok (e : LedgerEvent) : Prop := {
  eo_seq : is_u64 (LedgerEvent_seq e);
  eo_sequence s : LedgerEvent_sequence e = Some s -> is_u64 s;
  eo_fits : fits (event_preimage e)
}.

Lemma text_fits_le t (n : nat) :
  (String.length (frame_text t) <= n)%nat -> Z.of_nat n < 2 ^ 64 -> text_fits t.
Proof.
  destruct t as [s|]; [|done]. unfold frame_text, text_fits.
  cbn [String.length]. rewrite frame_length. unfold fits, str_len. lia.
Qed.

Lemma fits_u64 z : fits (u64_to_le_bytes z).
Proof. unfold fits, str_len, u64_to_le_bytes. rewrite le_bytes_length. lia. Qed.

Lemma event_parts_fit e :
  fits (event_preimage e) ->
  fits (LedgerEvent_at e) /\ fits (LedgerEvent_kind e) /\ fits (LedgerEvent_body e) /\
  text_fits (LedgerEvent_event_id e) /\ text_fits (LedgerEvent_stream_id e) /\
  text_fits (pretty <$> LedgerEvent_sequence e) /\ text_fits (LedgerEvent_causation_id e) /\
  text_fits (LedgerEvent_correlation_id e) /\
  text_fits (LedgerEvent_authority_token_hash e).
Proof.
  unfold fits, str_len, event_preimage. rewrite !string_app_length, !frame_length.
  intros Hf. repeat split; try lia; (eapply text_fits_le; [reflexivity|lia]).
Qed.

Lemma event_preimage_inj e1 e2 :
  event_ok e1 -> event_ok e2 -> event_preimage e1 = event_preimage e2 -> e1 = e2.
Proof.
  intros [Hs1 _ Hf1] [Hs2 _ Hf2] Heq.
  apply event_parts_fit in Hf1 as (? & ? & ? & ? & ? & ? & ? & ? & ?).
  apply event_parts_fit in Hf2 as (? & ? & ? & ? & ? & ? & ? & ? & ?).
  unfold event_preimage in Heq. apply (inj (String.append _)) in Heq.
  apply frame_app_inj in Heq as [Eseq Heq]; [|apply fits_u64..].
  apply u64_le_inj in Eseq; [|done..].
  do 3 (apply frame_app_inj in Heq as [? Heq]; [|done..]).
  do 5 (apply frame_text_app_inj in Heq as [? Heq]; [|done..]).
  rewrite <- (string_app_nil_r (frame_text (LedgerEvent_authority_token_hash e1))),
    <- (string_app_nil_r (frame_text (LedgerEvent_authority_token_hash e2))) in Heq.
  apply frame_text_app_inj in Heq as [? _]; [|done..].
  assert (LedgerEvent_sequence e1 = LedgerEvent_sequence e2) by by apply (inj (fmap pretty)).
  destruct e1, e2; simpl in *. congruence.
Qed.

Lemma event_leaf_inj e1 e2 :
  event_ok e1 -> event_ok e2 -> event_leaf e1 = event_leaf e2 ->
  e1 = e2 \/ collides [(leaf_preimage (event_preimage e1), leaf_preimage (event_preimage e2))].
Proof.
  intros H1 H2 [Heq|]%leaf_hash_inj; [left|by right|apply H1|apply H2].
  by apply event_preimage_inj.
Qed.

(** What the leaves of two lists of events hash. *)
Definition event_pairs (l1 l2 : list LedgerEvent) : list (bytes * bytes) :=
  zip (leaf_preimage ∘ event_preimage <$> l1) (leaf_preimage ∘ event_preimage <$> l2).

Lemma event_leaves_inj l1 l2 :
  Forall event_ok l1 -> Forall event_ok l2 -> event_leaves l1 = event_leaves l2 ->
  l1 = l2 \/ collides (event_pairs l1 l2).
Proof.
  intros H1. revert l2. induction H1 as [|e1 l1 He1 _ IH]; intros l2 H2 Heq.
  - left. symmetry in Heq. by apply fmap_nil_inv in Heq.
  - destruct H2 as [|e2 l2 He2 H2]; [done|].
    unfold event_leaves in *. rewrite !fmap_cons in Heq.
    assert (event_leaf e1 = event_leaf e2) as [->|]%event_leaf_inj by congruence;
      [|right; by apply (collides_app_l [_])|done|done].
    destruct (IH l2 H2) as [->|]; [congruence|by left|right; by constructor].
Qed.

(** ** Batches *)

Lemma verify_batch_Ok b events u :
  verify_batch b events = Ok u ->
  Forall (fun e => is_u64 (LedgerEvent_seq e)) events ->
  validate_record b = Ok tt /\
  seqs events = seqZ (ab_first_sequence b) (Z.of_nat (length events)) /\
  ab_last_sequence b = ab_first_sequence b + Z.of_nat (length events) - 1 /\
  (0 < length events)%nat /\
  exists root, root_of (event_leaves events) = Ok root /\ to_hex root = ab_merkle_root b.
Proof.
  intros Hv Hr. unfold verify_batch in Hv. inv_result.
  match goal with Hc : contiguous_range _ = Ok ?x |- _ =>
    destruct x as [f l]; apply contiguous_range_Ok in Hc as (Hs & Hl & Hn); [|done] end.
  match goal with Hx : validate_record b = Ok ?x |- _ => destruct x end.
  simpl in *. case_result. subst. split; [done|]. split; [congruence|]. split; [congruence|].
  split; [done|]. eexists. split; [eassumption|done].
Qed.

Lemma validate_root_hex `{!HexLaws} field d : validate_root field (to_hex d) = Ok d.
Proof.
  unfold validate_root, str_len. rewrite to_hex_length, to_hex_lower. simpl.
  by rewrite from_hex_to_hex.
Qed.

Lemma wrapping_range first n :
  is_u64 first -> (0 < n)%nat -> is_u64 (first + Z.of_nat n - 1) ->
  Z.of_nat n <= u64_max ->
  u64_wrapping_add (u64_wrapping_sub (first + Z.of_nat n - 1) first) 1 = Z.of_nat n.
Proof.
  unfold is_u64, u64_max, u64_wrapping_add, u64_wrapping_sub. intros.
  rewrite (Z.mod_small (first + Z.of_nat n - 1 - first)) by lia.
  rewrite Z.mod_small by lia. lia.
Qed.

Lemma seqs_lookup events first i e :
  seqs events = seqZ first (Z.of_nat (length events)) -> events !! i = Some e ->
  LedgerEvent_seq e = first + Z.of_nat i.
Proof.
  intros Hs Hi. assert (seqs events !! i = Some (LedgerEvent_seq e)) as Hl
    by (unfold seqs; by rewrite list_lookup_fmap, Hi).
  rewrite Hs in Hl. by apply lookup_seqZ in Hl as [-> _].
Qed.

Section Built.
Context `{!HexLaws}.
Context (previous_root : string) (builder : AuditBatchBuilder)
  (events : list LedgerEvent) (b : AuditBatchV1).
Hypothesis Hbuilder : with_previous_root previous_root = Ok builder.
Hypothesis Hseqs : Forall (fun e => is_u64 (LedgerEvent_seq e)) events.
Hypothesis Hlen : Z.of_nat (length events) <= u64_max.
Hypothesis Hbuild : batch_build builder events = Ok b.

Lemma built_record : validate_record b = Ok tt /\ verify_batch b events = Ok tt.
Proof using All.
  unfold batch_build in Hbuild. inv_result.
  match goal with Hc : contiguous_range _ = Ok ?x |- _ =>
    destruct x as [first lst]; pose proof (contiguous_range_Ok _ _ _ Hseqs Hc) as (Hs & Hl & Hn);
    subst lst; rename Hc into Hrange end.
  set (lst := first + Z.of_nat (length events) - 1) in *.
  match goal with Hr : root_of _ = Ok _ |- _ => rename Hr into Hroot end.
  unfold with_previous_root in Hbuilder. inv_result.
  cbn [builder_previous_root fst snd].
  assert (is_u64 first /\ is_u64 lst) as [Hf Hlst].
  { assert (Hin : forall i, (i < length events)%nat -> is_u64 (first + Z.of_nat i)).
    { intros i Hi. destruct (lookup_lt_is_Some_2 _ _ Hi) as [e He].
      rewrite <- (seqs_lookup _ _ _ _ Hs He). rewrite Forall_forall in Hseqs.
      apply Hseqs. by eapply list_elem_of_lookup_2. }
    pose proof (Hin 0%nat Hn) as H0'. pose proof (Hin (length events - 1)%nat ltac:(lia)) as H1'.
    split; [by rewrite Z.add_0_r in H0'|]. unfold lst.
    replace (first + Z.of_nat (length events) - 1)
      with (first + Z.of_nat (length events - 1)) by lia. done. }
  assert (Hrec : validate_record {| ab_schema_version := AUDIT_BATCH_SCHEMA_VERSION;
    ab_audit_batch_id := batch_id previous_root (to_hex x0) first lst;
    ab_first_sequence := first; ab_last_sequence := lst; ab_previous_root := previous_root;
    ab_merkle_root := to_hex x0; ab_signer := UNSIGNED_SIGNER;
    ab_external_anchor_receipt := UNANCHORED_RECEIPT |} = Ok tt).
  { unfold validate_record.
    cbn [ab_schema_version ab_signer ab_external_anchor_receipt ab_previous_root
         ab_merkle_root ab_first_sequence ab_last_sequence].
    rewrite !(bool_decide_true (_ = _)) by done. run_result.
    match goal with Hv : validate_root _ previous_root = Ok _ |- _ => rewrite Hv end.
    run_result. rewrite validate_root_hex. run_result. by rewrite bool_decide_false by lia. }
  split; [exact Hrec|]. unfold verify_batch. rewrite Hrec. run_result. rewrite Hrange.
  run_result. cbn [ab_audit_batch_id ab_previous_root ab_merkle_root ab_first_sequence
                   ab_last_sequence].
  unfold lst in *. rewrite wrapping_range by done.
  rewrite bool_decide_true, (bool_decide_false (Z.of_nat _ < _)) by lia. run_result.
  rewrite bool_decide_true by done. run_result. rewrite Hroot. run_result.
  rewrite bool_decide_true by done. run_result. by rewrite bool_decide_true.
Qed.
End Built.

(** what the builder commits, the verifier accepts. A batch built over a
    contiguous run of events on a well-formed previous root passes
    [verify_batch] on those events, and for every event of the run
    [prove_event] issues an inclusion proof that [verify_event_inclusion]
    accepts for that event. *)
Theorem built_batch_verifies `{!HexLaws} previous_root builder events b :
  with_previous_root previous_root = Ok builder ->
  Forall (fun e => is_u64 (LedgerEvent_seq e)) events ->
  Z.of_nat (length events) <= u64_max ->
  batch_build builder events = Ok b ->
  verify_batch b events = Ok tt /\
  forall e, e ∈ events -> exists proof,
    prove_event b events (LedgerEvent_seq e) = Ok proof /\
    verify_event_inclusion b e proof = Ok tt.
Proof.
  intros Hb Hs Hl Hbuild.
  destruct (built_record _ _ _ _ Hb Hs Hl Hbuild) as [Hrec Hv]. split; [done|].
  intros e He. apply list_elem_of_lookup_1 in He as [i Hi].
  destruct (verify_batch_Ok _ _ _ Hv Hs) as (_ & Hseq & Hlast & Hn & root & Hroot & Hhex).
  pose proof (seqs_lookup _ _ _ _ Hseq Hi) as Hei.
  pose proof (lookup_lt_Some _ _ _ Hi) as Hlt.
  assert (is_u64 (ab_first_sequence b) /\ is_u64 (ab_last_sequence b)) as [Hf Hla].
  { rewrite Forall_forall in Hs. rewrite Hlast.
    assert (Hin : forall j, (j < length events)%nat -> is_u64 (ab_first_sequence b + Z.of_nat j)).
    { intros j Hj. destruct (lookup_lt_is_Some_2 _ _ Hj) as [e' He'].
      rewrite <- (seqs_lookup _ _ _ _ Hseq He'). apply Hs. by eapply list_elem_of_lookup_2. }
    pose proof (Hin 0%nat Hn) as Ha. pose proof (Hin (length events - 1)%nat ltac:(lia)) as Hz.
    split; unfold is_u64 in *; lia. }
  assert (batch_position b (LedgerEvent_seq e) = Ok i) as Hpos.
  { unfold batch_position. rewrite !bool_decide_false by lia. run_result. f_equal. lia. }
  destruct (leaf_provable (event_leaves events) i (event_leaf e))
    as (tree & root' & proof & Ht & Hr' & Hp & Hpi & Hpc & Hincl).
  { unfold event_leaves. by rewrite length_fmap. }
  { unfold event_leaves. by rewrite list_lookup_fmap, Hi. }
  rewrite Hroot in Hr'. injection Hr' as <-.
  exists proof. split.
  - unfold prove_event. rewrite Hv. run_result. rewrite Hpos. run_result. rewrite Ht. run_result. by rewrite Hp.
  - unfold verify_event_inclusion. rewrite Hrec. run_result. rewrite Hpos. run_result.
    unfold event_leaves in Hpc. rewrite length_fmap in Hpc.
    rewrite Hlast in *. rewrite wrapping_range by done.
    rewrite !bool_decide_true by done. run_result.
    rewrite <- Hhex, validate_root_hex. run_result. by rewrite Hincl.
Qed.

(** A batch record commits its events. If the same record verifies against two
    lists of stored events, the lists are equal: no event can be altered,
    dropped, reordered or replaced, unless the leaves or the tree nodes of the
    two verifications themselves collide. *)
Theorem verified_batch_commits_events `{!HexLaws} b events1 events2 :
  Forall event_ok events1 -> Forall event_ok events2 ->
  verify_batch b events1 = Ok tt -> verify_batch b events2 = Ok tt ->
  events1 = events2
  \/ collides (event_pairs events1 events2 ++ root_pairs (event_leaves events1) (event_leaves events2)).
Proof.
  intros Hok1 Hok2 V1 V2.
  assert (Hu : forall l, Forall event_ok l -> Forall (fun e => is_u64 (LedgerEvent_seq e)) l)
    by (intros l Hl; eapply Forall_impl; [exact Hl|]; by intros e []).
  destruct (verify_batch_Ok _ _ _ V1 (Hu _ Hok1)) as (_ & _ & L1 & _ & r1 & R1 & X1).
  destruct (verify_batch_Ok _ _ _ V2 (Hu _ Hok2)) as (_ & _ & L2 & _ & r2 & R2 & X2).
  rewrite <- X1 in X2. apply to_hex_inj in X2 as ->.
  destruct (root_of_inj _ _ _ R1 R2) as [Heq|]; [| |right; by apply collides_app_r].
  { unfold event_leaves. rewrite !length_fmap. lia. }
  apply event_leaves_inj in Heq as [->|]; [by left|right; by apply collides_app_l|done..].
Qed.

(** ** Chains *)

Lemma verify_chain_loop_Ok i root next pairs u :
  verify_chain_loop i root next pairs = Ok u ->
  Forall (fun p => Forall (fun e => is_u64 (LedgerEvent_seq e)) p.2 /\
                   is_u64 (ab_last_sequence p.1 + 1)) pairs ->
  Forall (fun p => verify_batch p.1 p.2 = Ok tt) pairs /\
  (pairs <> [] -> exists first, (forall n, next = Some n -> first = n) /\
    seqs (concat pairs.*2) = seqZ first (Z.of_nat (length (concat pairs.*2))) /\
    (forall p, last pairs = Some p ->
       ab_last_sequence p.1 = first + Z.of_nat (length (concat pairs.*2)) - 1)).
Proof.
  intros Hv Hall. revert i root next Hv.
  induction Hall as [|[b events] pairs [Hs Hmax] _ IH]; intros i root next Hv; [by split|].
  cbn [verify_chain_loop] in Hv. inv_result.
  match goal with Hx : verify_batch b events = Ok ?x |- _ => destruct x; rename Hx into Hb end.
  destruct (bool_decide (ab_previous_root b = root)) eqn:Eroot; [|done].
  simpl in Hv. inv_result. simpl in Hs, Hmax.
  match goal with Hn : match next with _ => _ end = Ok _ |- _ => rename Hn into Hnext end.
  destruct (IH _ _ _ Hv) as [Hok Hrest].
  split; [by constructor|]. intros _.
  destruct (verify_batch_Ok _ _ _ Hb Hs) as (_ & Hseq & Hlast & Hn & _).
  exists (ab_first_sequence b). split.
  { intros n ->. repeat case_bool_decide; try done. lia. }
  destruct pairs as [|p pairs].
  { simpl. rewrite app_nil_r. split; [done|]. by intros p [= <-]. }
  destruct (Hrest ltac:(done)) as (first & Hf & Hseq' & Hlast').
  specialize (Hf _ eq_refl). rewrite u64_wrapping_add_small in Hf
    by (unfold is_u64 in Hmax; lia).
  rewrite fmap_cons. cbn [concat]. rewrite length_app. split.
  - unfold seqs in *. rewrite fmap_app, Nat2Z.inj_add, seqZ_app by lia.
    f_equal; [done|]. etrans; [exact Hseq'|]. f_equal. simpl. lia.
  - intros q Hq. rewrite last_cons_cons in Hq. specialize (Hlast' q Hq). simpl in *. lia.
Qed.

(** C23: a verified chain is one contiguous history. If [verify_chain] accepts
    batches with their events (with 64-bit sequence numbers short of the
    maximum), then every batch verifies and the concatenation of all events
    carries consecutive sequence numbers, with no gap, repetition or overlap
    inside a batch or between batches, ending at the reported head. *)
Theorem verified_chain_contiguous batches leaves chain_head :
  verify_chain batches leaves = Ok chain_head ->
  Forall (Forall (fun e => is_u64 (LedgerEvent_seq e))) leaves ->
  Forall (fun b => is_u64 (ab_last_sequence b + 1)) batches ->
  Forall2 (fun b events => verify_batch b events = Ok tt) batches leaves /\
  exists first,
    seqs (concat leaves) = seqZ first (Z.of_nat (length (concat leaves))) /\
    head_last_sequence chain_head = first + Z.of_nat (length (concat leaves)) - 1.
Proof.
  unfold verify_chain, verify_chain_from. intros Hv Hl Hb. inv_result.
  destruct (bool_decide (length batches = length leaves)) eqn:Elen; [|done].
  simpl in Hv. inv_result.
  match goal with Hx : verify_chain_loop _ _ _ _ = Ok _ |- _ => rename Hx into Hloop end.
  match goal with Hx : last batches = Some _ |- _ => rename Hx into Hlastb end.
  assert (Hzip : Forall (fun p => Forall (fun e => is_u64 (LedgerEvent_seq e)) p.2 /\
                   is_u64 (ab_last_sequence p.1 + 1)) (zip batches leaves)).
  { apply Forall_forall. intros [b ev] Hin.
    apply list_elem_of_lookup_1 in Hin as [i Hi]. apply lookup_zip_with_Some in Hi
      as (b' & ev' & [= -> ->] & Hi1 & Hi2). run_result.
    split; [exact (proj1 (Forall_lookup _ _) Hl _ _ Hi2)
           |exact (proj1 (Forall_lookup _ _) Hb _ _ Hi1)]. }
  destruct (verify_chain_loop_Ok _ _ _ _ _ Hloop Hzip) as [Hok Hseq].
  assert ((zip batches leaves).*2 = leaves /\ (zip batches leaves).*1 = batches) as [Hz2 Hz1]
    by (split; [apply snd_zip|apply fst_zip]; lia).
  split.
  - apply Forall2_same_length_lookup. split; [done|]. intros i b ev Hbi Hei.
    apply (proj1 (Forall_lookup _ _) Hok i (b, ev)).
    apply lookup_zip_with_Some. by exists b, ev.
  - destruct Hseq as (first & _ & Hs & Hlst).
    { intros Hnil. rewrite Hnil in Hz1. by subst batches. }
    rewrite Hz2 in *. exists first. split; [done|]. run_result.
    apply (f_equal last) in Hz1. rewrite fmap_last, Hlastb in Hz1.
    apply fmap_Some in Hz1 as (p & Hp & ->). by apply Hlst.
Qed.
End Audit.

(** ** Witnesses: two chained batches under the toy hash and codec *)

Definition demo_event (seq : Z) (body : string) : LedgerEvent :=
  MkLedgerEvent seq "2026-01-01T00:00:00.000Z" "demo" body None (Some "stream")
    (Some seq) None None None.
Definition demo_events1 : list LedgerEvent := [demo_event 1 "a"; demo_event 2 "b"].
Definition demo_events2 : list LedgerEvent := [demo_event 3 "c"].

Definition demo_build (previous : string) (events : list LedgerEvent) : AuditBatchV1 :=
  match @batch_build toy_blake3 toy_hex (MkAuditBatchBuilder previous) events with
  | Ok b => b
  | _ => MkAuditBatchV1 "none" "none" 0 0 "none" "none" "none" "none"
  end.
Definition demo_batch1 : AuditBatchV1 := demo_build GENESIS_PREVIOUS_ROOT demo_events1.
Definition demo_batch2 : AuditBatchV1 := demo_build (ab_merkle_root demo_batch1) demo_events2.

Lemma demo_events_ok : Forall event_ok demo_events1.
Proof.
  assert (forall seq body, is_u64 seq -> fits (event_preimage (demo_event seq body)) ->
            event_ok (demo_event seq body)) as Hok.
  { intros seq body Hs Hf. split; [done| |done]. by intros s [= <-]. }
  forall_by (apply Hok; by vm_compute).
Qed.

Lemma built_batch_verifies_witness :
  @verify_batch toy_blake3 toy_hex demo_batch1 demo_events1 = Ok tt.
Proof.
  refine (proj1 (@built_batch_verifies toy_blake3 toy_hex toy_hex_laws GENESIS_PREVIOUS_ROOT
    (MkAuditBatchBuilder GENESIS_PREVIOUS_ROOT) demo_events1 demo_batch1 _ _ _ _)).
  - vm_compute. reflexivity.
  - forall_by (by vm_compute).
  - by vm_compute.
  - vm_compute. reflexivity.
Defined.

Lemma verified_batch_commits_events_witness :
  demo_events1 = demo_events1
  \/ @collides toy_blake3 (event_pairs demo_events1 demo_events1
       ++ @root_pairs toy_blake3 (@event_leaves toy_blake3 demo_events1) (@event_leaves toy_blake3 demo_events1)).
Proof.
  refine (@verified_batch_commits_events toy_blake3 toy_hex toy_hex_laws demo_batch1
            demo_events1 demo_events1 demo_events_ok demo_events_ok _ _).
  all: vm_compute; reflexivity.
Defined.

Lemma verified_chain_contiguous_witness :
  exists first, seqs (demo_events1 ++ demo_events2) = seqZ first 3 /\ 3 = first + 3 - 1.
Proof.
  destruct (@verified_chain_contiguous toy_blake3 toy_hex [demo_batch1; demo_batch2]
    [demo_events1; demo_events2]
    (MkAuditChainHead 2 (ab_merkle_root demo_batch2) 3)) as (_ & first & Hs & Hl).
  - vm_compute. reflexivity.
  - forall_by (forall_by (by vm_compute)).
  - forall_by (by vm_compute).
  - exists first. split; [exact Hs|exact Hl].
Defined.
