(* ===== verification/Text.v ===== *)
(** * Text predicates

    The parts of [str] and [char] that the validators of the repository use,
    on strings that are sequences of UTF-8 bytes, and the shared validators of
    crates/application/src/run_coding.rs and commands.rs. *)

From S2P Require Import Prelude External Ids.
From stdpp Require Import options.

Local Open Scope Z_scope.

(** [char::is_control]: category Cc, that is U+0000..U+001F, U+007F and
    U+0080..U+009F; the last range is encoded as C2 80..C2 9F. *)
Fixpoint str_has_control (except : Z -> bool) (s : string) : bool :=
  match s with
  | EmptyString => false
  | String a rest =>
      let b := byte_val a in
      ((bool_decide (b < 32) && negb (except b)) || bool_decide (b = 127)
       || (bool_decide (b = 194) &&
           match rest with
           | String a2 _ => bool_decide (128 <= byte_val a2 <= 159)
           | EmptyString => false
           end))
      || str_has_control except rest
  end.

(** `value.chars().any(char::is_control)`. *)
Definition any_control (s : string) : bool := str_has_control (fun _ => false) s.

(** The same, with line feed and tab admitted. *)
Definition any_control_multiline (s : string) : bool :=
  str_has_control (fun b => bool_decide (b = 10) || bool_decide (b = 9)) s.

(** `value.trim().is_empty()`: every character has the Unicode property
    White_Space. *)
Fixpoint str_is_blank (s : string) : bool :=
  match s with
  | EmptyString => true
  | String a r =>
      let b := byte_val a in
      if bool_decide (9 <= b <= 13) || bool_decide (b = 32) then str_is_blank r
      else match r with
      | String a2 r2 =>
          let b2 := byte_val a2 in
          if bool_decide (b = 194) then
            if bool_decide (b2 = 133) || bool_decide (b2 = 160) then str_is_blank r2 else false
          else match r2 with
          | String a3 r3 =>
              let b3 := byte_val a3 in
              if (bool_decide (b = 225) && bool_decide (b2 = 154) && bool_decide (b3 = 128))
                 || (bool_decide (b = 226) && bool_decide (b2 = 128) &&
                     (bool_decide (128 <= b3 <= 138) || bool_decide (b3 = 168)
                      || bool_decide (b3 = 169) || bool_decide (b3 = 175)))
                 || (bool_decide (b = 226) && bool_decide (b2 = 129) && bool_decide (b3 = 159))
                 || (bool_decide (b = 227) && bool_decide (b2 = 128) && bool_decide (b3 = 128))
              then str_is_blank r3 else false
          | EmptyString => false
          end
      | EmptyString => false
      end
  end.

(** One NUL byte. *)
Definition nul : string := String (Ascii.ascii_of_nat 0) EmptyString.

(** `value.split(c)`: the parts between separators, at least one. *)
Fixpoint str_split (c : Ascii.ascii) (s : string) : list string :=
  match s with
  | EmptyString => [EmptyString]
  | String a rest =>
      if Ascii.eqb a c then EmptyString :: str_split c rest
      else match str_split c rest with
           | p :: ps => String a p :: ps
           | [] => [String a EmptyString]
           end
  end.

(** `value.contains(c)`. *)
Definition str_contains_char (c : Ascii.ascii) (s : string) : bool :=
  string_any (fun a => Ascii.eqb a c) s.

Definition ascii_lower (a : Ascii.ascii) : Ascii.ascii :=
  let b := byte_val a in
  if bool_decide (65 <= b <= 90) then Ascii.ascii_of_N (Z.to_N (b + 32)) else a.

Fixpoint str_ascii_lower (s : string) : string :=
  match s with
  | EmptyString => EmptyString
  | String a rest => String (ascii_lower a) (str_ascii_lower rest)
  end.

(** [str::eq_ignore_ascii_case]. *)
Definition eq_ignore_ascii_case (a b : string) : bool :=
  bool_decide (str_ascii_lower a = str_ascii_lower b).

Definition is_ascii_lowercase (a : Ascii.ascii) : bool :=
  bool_decide (97 <= byte_val a <= 122).

(** A lowercase ASCII token with the extra bytes given. *)
Definition token_byte (extra : string) (a : Ascii.ascii) : bool :=
  is_ascii_lowercase a || is_ascii_digit a || str_contains_char a extra.

(** `value.len() == 64` and every byte a lowercase hexadecimal digit. *)
Definition is_hex_64 (s : string) : bool :=
  bool_decide (str_len s = 64) && string_all is_lower_hex s.

(** The message and shape of the two text validators. *)
Definition non_control_message (field : string) (maximum : Z) : string :=
  field +:+ " must contain 1..=" +:+ pretty maximum +:+ " non-control bytes".

Definition bounded_text (value : string) (maximum : Z) : bool :=
  negb (is_empty value || bool_decide (maximum < str_len value) || any_control value).

(** crates/application/src/run_coding.rs:239-254 (validate_token) *)
Definition validate_token (field value : string) (maximum : Z) : result DomainError unit :=
  if negb (bounded_text value maximum) then
    Err (EncodingError (non_control_message field maximum))
  else if negb (string_all (token_byte "_-./") value) then
    Err (EncodingError (field +:+ " must be a lowercase ASCII token"))
  else Ok tt.

(** crates/application/src/commands.rs:264-280 (validate_text) *)
Definition validate_text (field value : string) (maximum : Z) (token : bool)
  : result DomainError unit :=
  if negb (bounded_text value maximum) then
    Err (EncodingError (non_control_message field maximum))
  else if token && negb (string_all (token_byte "_-") value) then
    Err (EncodingError (field +:+ " must be a lowercase ASCII token"))
  else Ok tt.

(** crates/application/src/run_coding.rs:256-267 (validate_hex_64) *)
Definition validate_hex_64 (field value : string) : result DomainError unit :=
  if is_hex_64 value then Ok tt
  else Err (EncodingError (field +:+ " must contain 64 lowercase hexadecimal characters")).

(** crates/application/src/run_coding.rs:269-274 (validate_reservation_id) *)
Definition validate_reservation_id (value : string) : result DomainError unit :=
  match strip_prefix "rsv_" value with
  | None => Err (InvalidId value)
  | Some body => validate_hex_64 "quota_reservation" body
  end.

(** ** Lemmas *)

Lemma is_hex_64_spec s :
  is_hex_64 s = true <-> String.length s = 64%nat /\ string_all is_lower_hex s = true.
Proof.
  unfold is_hex_64, str_len. rewrite andb_true_iff, bool_decide_eq_true.
  split; intros [? ?]; (split; [lia|done]).
Qed.

Lemma validate_hex_64_Ok field v u : validate_hex_64 field v = Ok u <-> is_hex_64 v = true.
Proof. unfold validate_hex_64. destruct u, (is_hex_64 v); naive_solver. Qed.

Lemma validate_reservation_id_Ok v u :
  validate_reservation_id v = Ok u <-> id_wire_form "rsv" v.
Proof.
  unfold validate_reservation_id, id_wire_form.
  destruct (strip_prefix "rsv_" v) as [b|] eqn:Hs.
  - apply strip_prefix_Some in Hs as ->. rewrite validate_hex_64_Ok, is_hex_64_spec.
    split.
    + intros [? ?]. by exists b.
    + intros (b' & Heq & Hb).
      change ("rsv" +:+ "_" +:+ b') with ("rsv_" +:+ b') in Heq.
      by apply (inj (String.append _)) in Heq as ->.
  - split; [done|]. intros (b & -> & _).
    change ("rsv" +:+ "_" +:+ b) with ("rsv_" +:+ b) in Hs.
    by rewrite strip_prefix_app in Hs.
Qed.

Lemma str_split_join c s :
  exists p ps, str_split c s = p :: ps /\
    s = p +:+ foldr (fun q acc => String c (q +:+ acc)) EmptyString ps /\
    Forall (fun q => no_char c q = true) (p :: ps).
Proof.
  unfold no_char. induction s as [|a s (p & ps & Hs & Heq & Hall)]; simpl.
  { eexists _, []. split; [done|]. split; [done|]. by repeat constructor. }
  destruct (Ascii.eqb_spec a c) as [->|Hne].
  - eexists _, _. split; [done|]. rewrite Hs. split; [|by constructor].
    rewrite string_app_nil_l. simpl. by rewrite Heq at 1.
  - rewrite Hs. eexists _, _. split; [done|]. split.
    + autorewrite with kernel. by rewrite Heq at 1.
    + apply Forall_cons in Hall as [Hp Hps]. constructor; [|done].
      simpl. rewrite Hp. apply Ascii.eqb_neq in Hne. by rewrite Hne.
Qed.
