(* ===== verification/Store.v ===== *)
(** * Ledger errors

    Models the error type of crates/application/src/store.rs and the refusal
    catalogues of coding_tasks/refusal.rs and conversations/refusal.rs. *)

From S2P Require Import Prelude Ids.
From stdpp Require Import options.

(** crates/application/src/coding_tasks/refusal.rs:3-15 (CodingTaskRefusal) *)
Inductive CodingTaskRefusal : Type :=
| DeadlineExpired | DependencyNotAccepted | InvocationLimit | TaskOperatorIngressRequired.

(** crates/application/src/coding_tasks/refusal.rs:18-27 (CodingTaskRefusal::reason_code) *)
Definition CodingTaskRefusal_reason_code (r : CodingTaskRefusal) : string :=
  match r with
  | DeadlineExpired => "CODING_TASK_DEADLINE_EXPIRED"
  | DependencyNotAccepted => "CODING_DEPENDENCY_NOT_ACCEPTED"
  | InvocationLimit => "CODING_TASK_INVOCATION_LIMIT"
  | TaskOperatorIngressRequired => "CODING_OPERATOR_INGRESS_REQUIRED"
  end.

(** crates/application/src/conversations/refusal.rs:3-15 (ConversationRefusal) *)
Inductive ConversationRefusal : Type :=
| ConvNotFound | CursorConflict | SequenceExhausted | ConvOperatorIngressRequired.

(** crates/application/src/conversations/refusal.rs:18-27 (ConversationRefusal::reason_code) *)
Definition ConversationRefusal_reason_code (r : ConversationRefusal) : string :=
  match r with
  | ConvNotFound => "CONVERSATION_NOT_FOUND"
  | CursorConflict => "CONVERSATION_CURSOR_CONFLICT"
  | SequenceExhausted => "CONVERSATION_SEQUENCE_EXHAUSTED"
  | ConvOperatorIngressRequired => "CONVERSATION_OPERATOR_INGRESS_REQUIRED"
  end.

(** crates/application/src/store.rs:30-53 (LedgerError) *)
Inductive LedgerError : Type :=
| LedgerStore (msg : string)
| LedgerUnsupportedSchema (detail : string)
| LedgerDomain (e : DomainError)
| LedgerCodingTask (r : CodingTaskRefusal)
| LedgerConversation (r : ConversationRefusal).

Global Instance CodingTaskRefusal_eq_dec : EqDecision CodingTaskRefusal.
Proof. solve_decision. Defined.
Global Instance ConversationRefusal_eq_dec : EqDecision ConversationRefusal.
Proof. solve_decision. Defined.
Global Instance LedgerError_eq_dec : EqDecision LedgerError.
Proof. solve_decision. Defined.

(** crates/application/src/store.rs:56-66 (LedgerError::reason_code) *)
Definition LedgerError_reason_code (e : LedgerError) : string :=
  match e with
  | LedgerStore _ => "STORE_FAILURE"
  | LedgerUnsupportedSchema _ => "UNSUPPORTED_SCHEMA"
  | LedgerDomain e => DomainError_reason_code e
  | LedgerCodingTask r => CodingTaskRefusal_reason_code r
  | LedgerConversation r => ConversationRefusal_reason_code r
  end.

(** crates/application/src/store.rs:31-53 (Display for LedgerError) *)
Definition LedgerError_display (e : LedgerError) : string :=
  match e with
  | LedgerStore msg => "ledger: " +:+ msg
  | LedgerUnsupportedSchema detail =>
      "unsupported schema: " +:+ detail +:+ ". Preserve the database and use a qualified supervised upgrade or verified backup/restore procedure; startup never rewrites an unsupported schema"
  | LedgerDomain e => DomainError_display e
  | LedgerCodingTask r => CodingTaskRefusal_reason_code r
  | LedgerConversation r => ConversationRefusal_reason_code r
  end.

(** `?` on a domain result inside a ledger function. *)
Abbreviation lift_domain := (map_err LedgerDomain).

(** `.map_err(|e| LedgerError::Store(e.to_string()))`. *)
Abbreviation lift_store := (map_err LedgerStore).
