(* ===== verification/HarnessErrors.v ===== *)
(** * Errors of the provider harness

    Models crates/harness-core/src/error.rs. *)

From S2P Require Import Prelude.
From stdpp Require Import options.

(** crates/harness-core/src/error.rs:5-272 (HarnessError) *)
Inductive HarnessError : Type :=
| HeUnsupported (provider : string) (method : string)
| HeProfileMismatch (expected : string) (actual : string)
| HeProfileUnverified (provider : string) (reason : string)
| HeWorktreeFlagDenied (token : string)
| HeKillSwitch
| HeLiveAdmissionUnavailable (provider : string)
| HeRuntimeProbeUnavailable (provider : string)
| HeAdmissionRefused (reason : string)
| HeAdmissionBlocked (blocker : string)
| HeSecretCanaryExposure (surface : string)
| HeInvocationBudgetExhausted (max : Z)
| HeCapabilityUnknown (capability : string)
| HeCapabilityUnsupported (capability : string)
| HeSpawn (program : string) (reason : string)
| HeTimeout (seconds : Z)
| HeProtocol (provider : string) (reason : string)
| HeProposalParse (reason : string)
| HeIllegalTransition (from : string) (to : string)
| HeSessionUnknown (session : string)
| HeIo (context : string) (reason : string)
| HeProviderFailure (provider : string) (exit : option Z) (reason : string)
| HeAuthRequired (provider : string) (reason : string)
| HeLaunchGrantInvalid (reason : string)
| HeLaunchGrantExpired (expires_at_unix_ms : Z)
| HeLaunchGrantNotYetValid (not_before_unix_ms : Z)
| HeLaunchGrantTtlExceeded (ttl_ms : Z)
| HeLaunchGrantKeyUnknown (issuer : string) (key_id : string) (reason : string)
| HeLaunchGrantAudienceMismatch (audience : string)
| HeLaunchGrantSubjectMismatch (field : string)
| HeLaunchGrantReplayed (grant_id : string)
| HeCandidatePreparationInvalid (reason : string)
| HeCandidatePreparationKeyUnknown (issuer : string) (key_id : string)
| HeCandidatePreparationSubjectMismatch
| HeCandidatePreparationNotYetValid (not_before_unix_ms : Z)
| HeCandidatePreparationExpired (expires_at_unix_ms : Z)
| HeCandidatePreparationReplayed (grant_id : string)
| HePolicyUnavailable (reason : string)
| HePolicyInvalid (reason : string)
| HePolicyLiveAdmissionDisabled (generation : Z) (field : string)
| HeMutationPermitRefused (code : string) (reason : string).

Global Instance HarnessError_eq_dec : EqDecision HarnessError.
Proof. solve_decision. Defined.

(** [{:?}] of an optional exit code. *)
Definition debug_exit (e : option Z) : string :=
  match e with Some z => "Some(" +:+ pretty z +:+ ")" | None => "None" end.

(** crates/harness-core/src/error.rs:8-272 (HarnessError Display) *)
Definition HarnessError_display (e : HarnessError) : string :=
  match e with
  | HeUnsupported provider method => provider +:+ " does not support " +:+ method
  | HeProfileMismatch expected actual =>
      "profile mismatch: expected " +:+ expected +:+ ", probed " +:+ actual
  | HeProfileUnverified provider reason =>
      "profile unverified for " +:+ provider +:+ ": " +:+ reason
  | HeWorktreeFlagDenied token => "denied argv token: " +:+ token
  | HeKillSwitch => "provider kill switch active"
  | HeLiveAdmissionUnavailable provider =>
      "live provider admission is unavailable for " +:+ provider
  | HeRuntimeProbeUnavailable provider => "runtime probe unavailable for " +:+ provider
  | HeAdmissionRefused reason => "provider admission refused: " +:+ reason
  | HeAdmissionBlocked blocker => "provider admission blocked: " +:+ blocker
  | HeSecretCanaryExposure surface => "secret canary detected on " +:+ surface
  | HeInvocationBudgetExhausted max => "invocation budget exhausted: max " +:+ pretty max
  | HeCapabilityUnknown capability =>
      "capability " +:+ capability +:+ " is unknown; dispatch refused"
  | HeCapabilityUnsupported capability =>
      "capability " +:+ capability +:+ " is unsupported; dispatch refused"
  | HeSpawn program reason => "spawn failed for " +:+ program +:+ ": " +:+ reason
  | HeTimeout seconds => "wall clock timeout after " +:+ pretty seconds +:+ "s"
  | HeProtocol provider reason => "protocol error from " +:+ provider +:+ ": " +:+ reason
  | HeProposalParse reason => "proposal parse failed: " +:+ reason
  | HeIllegalTransition from to => "illegal session transition: " +:+ from +:+ " -> " +:+ to
  | HeSessionUnknown session => "unknown session: " +:+ session
  | HeIo context reason => "io failure in " +:+ context +:+ ": " +:+ reason
  | HeProviderFailure provider exit reason =>
      "provider " +:+ provider +:+ " failed (exit " +:+ debug_exit exit +:+ "): " +:+ reason
  | HeAuthRequired provider reason => "auth required for " +:+ provider +:+ ": " +:+ reason
  | HeLaunchGrantInvalid reason => "launch grant invalid: " +:+ reason
  | HeLaunchGrantExpired expires_at_unix_ms =>
      "launch grant expired at " +:+ pretty expires_at_unix_ms
  | HeLaunchGrantNotYetValid not_before_unix_ms =>
      "launch grant not valid before " +:+ pretty not_before_unix_ms
  | HeLaunchGrantTtlExceeded ttl_ms =>
      "launch grant ttl " +:+ pretty ttl_ms +:+ " ms exceeds the 15000 ms maximum"
  | HeLaunchGrantKeyUnknown issuer key_id reason =>
      "launch grant key unknown: " +:+ issuer +:+ "/" +:+ key_id +:+ ": " +:+ reason
  | HeLaunchGrantAudienceMismatch audience => "launch grant audience mismatch: " +:+ audience
  | HeLaunchGrantSubjectMismatch field => "launch grant subject mismatch on " +:+ field
  | HeLaunchGrantReplayed grant_id => "launch grant " +:+ grant_id +:+ " replayed"
  | HeCandidatePreparationInvalid reason => "candidate preparation grant invalid: " +:+ reason
  | HeCandidatePreparationKeyUnknown issuer key_id =>
      "candidate preparation key unknown: " +:+ issuer +:+ "/" +:+ key_id
  | HeCandidatePreparationSubjectMismatch => "candidate preparation subject mismatch"
  | HeCandidatePreparationNotYetValid not_before_unix_ms =>
      "candidate preparation grant not valid before " +:+ pretty not_before_unix_ms
  | HeCandidatePreparationExpired expires_at_unix_ms =>
      "candidate preparation grant expired at " +:+ pretty expires_at_unix_ms
  | HeCandidatePreparationReplayed grant_id =>
      "candidate preparation grant " +:+ grant_id +:+ " replayed"
  | HePolicyUnavailable reason => "policy unavailable: " +:+ reason
  | HePolicyInvalid reason => "policy invalid: " +:+ reason
  | HePolicyLiveAdmissionDisabled generation field =>
      "policy generation " +:+ pretty generation +:+ " keeps " +:+ field
        +:+ " = false; live admission refused"
  | HeMutationPermitRefused _ reason => "mutation permit refused: " +:+ reason
  end.

(** crates/harness-core/src/error.rs:275-320 (HarnessError::reason_code) *)
Definition HarnessError_reason_code (e : HarnessError) : string :=
  match e with
  | HeUnsupported _ _ => "UNSUPPORTED"
  | HeProfileMismatch _ _ => "PROFILE_MISMATCH"
  | HeProfileUnverified _ _ => "PROFILE_UNVERIFIED"
  | HeWorktreeFlagDenied _ => "WORKTREE_FLAG_DENIED"
  | HeKillSwitch => "PROVIDER_KILL_ACTIVE"
  | HeLiveAdmissionUnavailable _ => "LIVE_ADMISSION_UNAVAILABLE"
  | HeRuntimeProbeUnavailable _ => "RUNTIME_PROBE_UNAVAILABLE"
  | HeAdmissionRefused _ => "ADMISSION_REFUSED"
  | HeAdmissionBlocked _ => "PROVIDER_ADMISSION_BLOCKED"
  | HeSecretCanaryExposure _ => "SECRET_CANARY_EXPOSURE"
  | HeInvocationBudgetExhausted _ => "INVOCATION_BUDGET_EXHAUSTED"
  | HeCapabilityUnknown _ => "CAPABILITY_UNKNOWN"
  | HeCapabilityUnsupported _ => "CAPABILITY_UNSUPPORTED"
  | HeSpawn _ _ => "SPAWN_FAILED"
  | HeTimeout _ => "WALL_CLOCK_TIMEOUT"
  | HeProtocol _ _ => "PROTOCOL_ERROR"
  | HeProposalParse _ => "PROPOSAL_PARSE_FAILED"
  | HeIllegalTransition _ _ => "ILLEGAL_STATE_EDGE"
  | HeSessionUnknown _ => "SESSION_UNKNOWN"
  | HeIo _ _ => "IO_FAILED"
  | HeProviderFailure _ _ _ => "PROVIDER_FAILURE"
  | HeAuthRequired _ _ => "AUTH_REQUIRED"
  | HeLaunchGrantInvalid _ => "LAUNCH_GRANT_INVALID"
  | HeLaunchGrantExpired _ => "LAUNCH_GRANT_EXPIRED"
  | HeLaunchGrantNotYetValid _ => "LAUNCH_GRANT_NOT_YET_VALID"
  | HeLaunchGrantTtlExceeded _ => "LAUNCH_GRANT_TTL_EXCEEDED"
  | HeLaunchGrantKeyUnknown _ _ _ => "LAUNCH_GRANT_KEY_UNKNOWN"
  | HeLaunchGrantAudienceMismatch _ => "LAUNCH_GRANT_AUDIENCE_MISMATCH"
  | HeLaunchGrantSubjectMismatch _ => "LAUNCH_GRANT_SUBJECT_MISMATCH"
  | HeLaunchGrantReplayed _ => "LAUNCH_GRANT_REPLAYED"
  | HeCandidatePreparationInvalid _ => "CANDIDATE_PREPARATION_GRANT_INVALID"
  | HeCandidatePreparationKeyUnknown _ _ => "CANDIDATE_PREPARATION_KEY_UNKNOWN"
  | HeCandidatePreparationSubjectMismatch => "CANDIDATE_PREPARATION_SUBJECT_MISMATCH"
  | HeCandidatePreparationNotYetValid _ => "CANDIDATE_PREPARATION_NOT_YET_VALID"
  | HeCandidatePreparationExpired _ => "CANDIDATE_PREPARATION_EXPIRED"
  | HeCandidatePreparationReplayed _ => "CANDIDATE_PREPARATION_REPLAYED"
  | HePolicyUnavailable _ => "POLICY_UNAVAILABLE"
  | HePolicyInvalid _ => "POLICY_INVALID"
  | HePolicyLiveAdmissionDisabled _ _ => "POLICY_LIVE_ADMISSION_DISABLED"
  | HeMutationPermitRefused code _ => code
  end.
