(* ===== verification/Session.v ===== *)
(** * Agent sessions

    Models crates/harness-core/src/session.rs: the life cycle of one provider
    session, with sixteen main states and ten exception states. The `allow!`
    table is a match on the pair of the current and the requested state, in
    the order of the source, after the rule that lets a fault strike. *)

From S2P Require Import Prelude HarnessErrors.
From stdpp Require Import options.

(** crates/harness-core/src/session.rs:8-64 (SessionState) *)
Inductive SessionState : Type :=
| SsCreated
| SsStarting
| SsIdentityProbing
| SsContextLoading
| SsReady
| SsRunning
| SsWaitingTool
| SsWaitingLocalPlan
| SsWaitingPermission
| SsPaused
| SsCheckpointing
| SsContextTransition
| SsResuming
| SsCompleting
| SsTerminating
| SsTerminated
| SsAuthRequired
| SsThrottled
| SsContextAtRisk
| SsUnresponsive
| SsProtocolError
| SsScreenUnknown
| SsProcessUnknown
| SsPolicyBlocked
| SsQuarantined
| SsCrashed.

Global Instance SessionState_eq_dec : EqDecision SessionState.
Proof. solve_decision. Defined.

(** crates/harness-core/src/session.rs:9-9 (SessionState Debug) *)
Definition SessionState_debug (s : SessionState) : string :=
  match s with
  | SsCreated => "Created"
  | SsStarting => "Starting"
  | SsIdentityProbing => "IdentityProbing"
  | SsContextLoading => "ContextLoading"
  | SsReady => "Ready"
  | SsRunning => "Running"
  | SsWaitingTool => "WaitingTool"
  | SsWaitingLocalPlan => "WaitingLocalPlan"
  | SsWaitingPermission => "WaitingPermission"
  | SsPaused => "Paused"
  | SsCheckpointing => "Checkpointing"
  | SsContextTransition => "ContextTransition"
  | SsResuming => "Resuming"
  | SsCompleting => "Completing"
  | SsTerminating => "Terminating"
  | SsTerminated => "Terminated"
  | SsAuthRequired => "AuthRequired"
  | SsThrottled => "Throttled"
  | SsContextAtRisk => "ContextAtRisk"
  | SsUnresponsive => "Unresponsive"
  | SsProtocolError => "ProtocolError"
  | SsScreenUnknown => "ScreenUnknown"
  | SsProcessUnknown => "ProcessUnknown"
  | SsPolicyBlocked => "PolicyBlocked"
  | SsQuarantined => "Quarantined"
  | SsCrashed => "Crashed"
  end.

(** crates/harness-core/src/session.rs:10-10 (SessionState Serialize) *)
Definition SessionState_name (s : SessionState) : string :=
  match s with
  | SsCreated => "created"
  | SsStarting => "starting"
  | SsIdentityProbing => "identity_probing"
  | SsContextLoading => "context_loading"
  | SsReady => "ready"
  | SsRunning => "running"
  | SsWaitingTool => "waiting_tool"
  | SsWaitingLocalPlan => "waiting_local_plan"
  | SsWaitingPermission => "waiting_permission"
  | SsPaused => "paused"
  | SsCheckpointing => "checkpointing"
  | SsContextTransition => "context_transition"
  | SsResuming => "resuming"
  | SsCompleting => "completing"
  | SsTerminating => "terminating"
  | SsTerminated => "terminated"
  | SsAuthRequired => "auth_required"
  | SsThrottled => "throttled"
  | SsContextAtRisk => "context_at_risk"
  | SsUnresponsive => "unresponsive"
  | SsProtocolError => "protocol_error"
  | SsScreenUnknown => "screen_unknown"
  | SsProcessUnknown => "process_unknown"
  | SsPolicyBlocked => "policy_blocked"
  | SsQuarantined => "quarantined"
  | SsCrashed => "crashed"
  end.

(** crates/harness-core/src/session.rs:79-97 (SessionState::MAIN) *)
Definition MAIN : list SessionState :=
  [ SsCreated; SsStarting; SsIdentityProbing; SsContextLoading; SsReady; SsRunning
    ; SsWaitingTool; SsWaitingLocalPlan; SsWaitingPermission; SsPaused
    ; SsCheckpointing; SsContextTransition; SsResuming; SsCompleting; SsTerminating
    ; SsTerminated ].

(** crates/harness-core/src/session.rs:99-111 (SessionState::EXCEPTIONS) *)
Definition EXCEPTIONS : list SessionState :=
  [ SsAuthRequired; SsThrottled; SsContextAtRisk; SsUnresponsive; SsProtocolError
    ; SsScreenUnknown; SsProcessUnknown; SsPolicyBlocked; SsQuarantined; SsCrashed ].

(** crates/harness-core/src/session.rs:113-117 (SessionState::is_exception) *)
Definition is_exception (s : SessionState) : bool := bool_decide (s ∈ EXCEPTIONS).

(** crates/harness-core/src/session.rs:119-123 (SessionState::is_terminal) *)
Definition session_is_terminal (s : SessionState) : bool := bool_decide (s = SsTerminated).

(** crates/harness-core/src/session.rs:66-191 (SessionState::transition) *)
Definition SessionState_transition (from to : SessionState)
  : result HarnessError SessionState :=
  if is_exception to && negb (is_exception from) && negb (session_is_terminal from)
  then Ok to
  else
    match from, to with
    | SsCreated, SsStarting => Ok SsStarting
    | SsCreated, SsResuming => Ok SsResuming
    | SsStarting, SsIdentityProbing => Ok SsIdentityProbing
    | SsIdentityProbing, SsContextLoading => Ok SsContextLoading
    | SsContextLoading, SsReady => Ok SsReady
    | SsResuming, SsIdentityProbing => Ok SsIdentityProbing
    | SsResuming, SsReady => Ok SsReady
    | SsReady, SsRunning => Ok SsRunning
    | SsRunning, SsWaitingTool => Ok SsWaitingTool
    | SsWaitingTool, SsRunning => Ok SsRunning
    | SsRunning, SsWaitingLocalPlan => Ok SsWaitingLocalPlan
    | SsWaitingLocalPlan, SsRunning => Ok SsRunning
    | SsRunning, SsWaitingPermission => Ok SsWaitingPermission
    | SsWaitingPermission, SsRunning => Ok SsRunning
    | SsRunning, SsPaused => Ok SsPaused
    | SsPaused, SsRunning => Ok SsRunning
    | SsRunning, SsCheckpointing => Ok SsCheckpointing
    | SsCheckpointing, SsRunning => Ok SsRunning
    | SsRunning, SsContextTransition => Ok SsContextTransition
    | SsContextTransition, SsRunning => Ok SsRunning
    | SsContextTransition, SsReady => Ok SsReady
    | SsRunning, SsReady => Ok SsReady
    | SsRunning, SsCompleting => Ok SsCompleting
    | SsCompleting, SsTerminating => Ok SsTerminating
    | (SsCreated | SsStarting | SsIdentityProbing | SsContextLoading | SsReady
        | SsRunning | SsWaitingTool | SsWaitingLocalPlan | SsWaitingPermission
        | SsPaused | SsCheckpointing | SsContextTransition | SsResuming),
        SsTerminating => Ok SsTerminating
    | SsTerminating, SsTerminated => Ok SsTerminated
    | SsAuthRequired, SsStarting => Ok SsStarting
    | SsThrottled, SsReady => Ok SsReady
    | SsThrottled, SsRunning => Ok SsRunning
    | SsContextAtRisk, SsContextTransition => Ok SsContextTransition
    | SsUnresponsive, SsRunning => Ok SsRunning
    | SsUnresponsive, SsProcessUnknown => Ok SsProcessUnknown
    | SsUnresponsive, SsCrashed => Ok SsCrashed
    | SsScreenUnknown, SsRunning => Ok SsRunning
    | SsScreenUnknown, SsCrashed => Ok SsCrashed
    | SsProcessUnknown, SsCrashed => Ok SsCrashed
    | SsProtocolError, SsQuarantined => Ok SsQuarantined
    | SsPolicyBlocked, SsQuarantined => Ok SsQuarantined
    | SsCrashed, SsResuming => Ok SsResuming
    | (SsAuthRequired | SsThrottled | SsContextAtRisk | SsUnresponsive
        | SsProtocolError | SsScreenUnknown | SsProcessUnknown | SsPolicyBlocked
        | SsQuarantined | SsCrashed),
        SsTerminating => Ok SsTerminating
    | _, _ =>
        Err (HeIllegalTransition (SessionState_debug from) (SessionState_debug to))
    end.

(** ** Runs of a session *)

(** A session driven through requested states, one call of [transition] each;
    it stops at the first refusal. *)
Fixpoint session_run (s : SessionState) (requests : list SessionState)
  : result HarnessError SessionState :=
  match requests with
  | [] => Ok s
  | to :: rest => s' ← SessionState_transition s to; session_run s' rest
  end.

(** ** The enumeration of states *)

Lemma session_states_complete s : s ∈ MAIN ++ EXCEPTIONS.
Proof. destruct s; vm_compute; repeat constructor. Qed.

Lemma session_states_NoDup : NoDup (MAIN ++ EXCEPTIONS).
Proof. apply (bool_decide_unpack _). vm_compute. exact I. Qed.

Lemma session_name_inj : Inj (=) (=) SessionState_name.
Proof. intros s t. destruct s, t; vm_compute; congruence. Qed.

Lemma session_debug_inj : Inj (=) (=) SessionState_debug.
Proof. intros s t. destruct s, t; vm_compute; congruence. Qed.

(** ** Edges *)

(** A legal edge goes to the requested state; an illegal one names both ends. *)
Lemma session_transition_cases s to :
  SessionState_transition s to = Ok to
  \/ SessionState_transition s to
     = Err (HeIllegalTransition (SessionState_debug s) (SessionState_debug to)).
Proof. destruct s, to; vm_compute; auto. Qed.

Lemma session_transition_Ok s to r : SessionState_transition s to = Ok r -> r = to.
Proof. destruct (session_transition_cases s to) as [-> | ->]; congruence. Qed.

Lemma session_run_cons s to rest t :
  session_run s (to :: rest) = Ok t <->
  SessionState_transition s to = Ok to /\ session_run to rest = Ok t.
Proof.
  simpl. split.
  - intros (r & Hr & H)%bind_Ok. pose proof (session_transition_Ok _ _ _ Hr) as ->. auto.
  - intros [-> H]. exact H.
Qed.

Lemma session_run_app s p q t :
  session_run s (p ++ q) = Ok t <->
  exists m, session_run s p = Ok m /\ session_run m q = Ok t.
Proof.
  revert s. induction p as [|to p IH]; intros s.
  - simpl. naive_solver.
  - rewrite <-app_comm_cons, session_run_cons, IH. setoid_rewrite session_run_cons. naive_solver.
Qed.

(** A set of states closed under the edges that avoid [bad] is never left by a
    run that avoids [bad]. *)
Lemma session_run_closed (inside bad : SessionState -> bool) :
  (forall s to, inside s = true -> bad to = false ->
     SessionState_transition s to = Ok to -> inside to = true) ->
  forall path s t, inside s = true -> Forall (fun x => bad x = false) path ->
  session_run s path = Ok t -> inside t = true.
Proof.
  intros Hclosed path. induction path as [|to path IH]; intros s t Hs Hp Hrun.
  - by injection Hrun as <-.
  - apply session_run_cons in Hrun as [Hto Hrun]. inversion Hp; subst. eauto.
Qed.

(** The shortest way to stop a session. *)
Definition shutdown_path (s : SessionState) : list SessionState :=
  match s with
  | SsTerminated => []
  | SsTerminating => [SsTerminated]
  | _ => [SsTerminating; SsTerminated]
  end.

(** Every session can be stopped and a stopped session stays stopped: from
    each of the 26 states at most two legal edges lead to [Terminated]; from
    [Terminated] every request is refused with [IllegalTransition] naming both
    states, and every other state has a legal edge. *)
Theorem session_lifecycle_ends s :
  session_run s (shutdown_path s) = Ok SsTerminated
  /\ length (shutdown_path s) <= 2
  /\ ((forall to, SessionState_transition s to
         = Err (HeIllegalTransition (SessionState_debug s) (SessionState_debug to)))
      <-> session_is_terminal s = true).
Proof.
  split_and!; [by destruct s | destruct s; simpl; lia |]. split.
  - intros H. specialize (H (hd SsTerminated (shutdown_path s))). by destruct s.
  - intros H to. destruct s; try done. by destruct to.
Qed.

(** States a session is in before its identity is probed or a prior session is
    resumed, when no fault struck. *)
Definition before_probe (s : SessionState) : bool :=
  match s with SsCreated | SsStarting | SsTerminating | SsTerminated => true | _ => false end.

(** States that follow a shutdown request when no fault strikes. *)
Definition shutting_down (s : SessionState) : bool :=
  match s with SsTerminating | SsTerminated => true | _ => false end.

Lemma before_probe_closed s to :
  before_probe s = true ->
  is_exception to || bool_decide (to = SsIdentityProbing) || bool_decide (to = SsResuming) = false ->
  SessionState_transition s to = Ok to -> before_probe to = true.
Proof. destruct s; try done; destruct to; done. Qed.

Lemma shutting_down_closed s to :
  shutting_down s = true -> is_exception to = false ->
  SessionState_transition s to = Ok to -> shutting_down to = true.
Proof. destruct s; try done; destruct to; done. Qed.

(** A session in which no fault struck (it entered no exception state)
    executes a turn only after its account identity was probed or a prior
    native session was resumed, and never leaves shutdown once it has started:
    a run of [transition] from [Created] that ends in [Running] goes through
    [IdentityProbing] or [Resuming] and never through [Terminating]. *)
Theorem faultless_session_probes_identity path :
  session_run SsCreated path = Ok SsRunning ->
  Forall (fun s => is_exception s = false) path ->
  (SsIdentityProbing ∈ path \/ SsResuming ∈ path) /\ SsTerminating ∉ path.
Proof.
  intros Hrun Hfree. split.
  - destruct (decide (SsIdentityProbing ∈ path)) as [|Hi]; [by left|].
    destruct (decide (SsResuming ∈ path)) as [|Hr]; [by right|].
    pose proof (session_run_closed before_probe _ before_probe_closed path
      SsCreated SsRunning eq_refl) as H. discriminate H; [|done].
    rewrite Forall_forall in Hfree |- *. intros x Hx. rewrite (Hfree x Hx).
    rewrite !bool_decide_eq_false_2; naive_solver.
  - intros (p & q & ->)%list_elem_of_split.
    apply session_run_app in Hrun as (m & _ & [_ Hq]%session_run_cons).
    apply Forall_app in Hfree as [_ Hfree]. inversion Hfree; subst.
    pose proof (session_run_closed shutting_down _ shutting_down_closed q
      SsTerminating SsRunning eq_refl) as H. by discriminate H.
Qed.

Lemma faultless_session_probes_identity_witness :
  (SsIdentityProbing
     ∈ [SsStarting; SsIdentityProbing; SsContextLoading; SsReady; SsRunning]
   \/ SsResuming ∈ [SsStarting; SsIdentityProbing; SsContextLoading; SsReady; SsRunning])
  /\ SsTerminating ∉ [SsStarting; SsIdentityProbing; SsContextLoading; SsReady; SsRunning].
Proof.
  apply faultless_session_probes_identity; [reflexivity|]. repeat constructor.
Defined.

(** The hypothesis that no fault struck cannot be dropped: the fault rule also
    applies to a session that is shutting down, and some exception states
    recover straight into [Running]; a quarantined session can be running
    again after three edges, and a new one without any identity probe. *)
Lemma faults_bypass_shutdown :
  session_run SsQuarantined [SsTerminating; SsThrottled; SsRunning] = Ok SsRunning
  /\ session_run SsCreated [SsThrottled; SsRunning] = Ok SsRunning.
Proof. split; reflexivity. Qed.

(** A quarantined session has no edge but shutdown. *)
Lemma quarantine_edges to :
  is_ok (SessionState_transition SsQuarantined to) = true <-> to = SsTerminating.
Proof. destruct to; vm_compute; naive_solver. Qed.
