(* ===== verification/InvocationBudget.v ===== *)
(** * The invocation budget of an adapter

    Models the [InvocationBudget] of crates/harness-core/src/argv.rs. The
    counter is an [AtomicU32] shared by the callers of one adapter, so a call
    of [try_acquire] is not one step: it is a [fetch_add], a comparison of the
    caller's own copy and, when the budget is spent, a [fetch_sub]. A caller is
    a program counter over these steps and the steps of all callers interleave
    freely; sequentially consistent atomics make each access one step. *)

From S2P Require Import Prelude HarnessErrors.
From stdpp Require Import options.

Local Open Scope Z_scope.

Definition u32_wrapping_sub (a b : Z) : Z := (a - b) mod 2 ^ 32.

(** Where one caller is inside [try_acquire]. *)
Inductive caller : Type :=
| Outside
| Comparing (prior : Z)
| Undoing.

(** crates/harness-core/src/argv.rs:73-78 (InvocationBudget) *)
Record InvocationBudget : Type := MkInvocationBudget {
  ib_max : Z;
  ib_used : Z;
  ib_callers : list caller
}.

(** crates/harness-core/src/argv.rs:81-88 (InvocationBudget::new) *)
Definition InvocationBudget_new (max : Z) (callers : nat) : InvocationBudget :=
  MkInvocationBudget max 0 (replicate callers Outside).

(** crates/harness-core/src/argv.rs:104-108 (InvocationBudget::used) *)
Definition InvocationBudget_used (b : InvocationBudget) : Z := ib_used b.

(** What one step shows: the value a [fetch_add] read, and what a call
    returned. *)
Inductive budget_event : Type :=
| Fetched (prior : Z)
| Returned (r : result HarnessError Z)
| Silent.

Definition with_caller (i : nat) (c : caller) (used : Z) (b : InvocationBudget)
  : InvocationBudget :=
  MkInvocationBudget (ib_max b) used (<[i := c]> (ib_callers b)).

(** crates/harness-core/src/argv.rs:90-102 (InvocationBudget::try_acquire) *)
Definition try_acquire_step (i : nat) (b : InvocationBudget)
  : option (InvocationBudget * budget_event) :=
  match ib_callers b !! i with
  | Some Outside =>
      let prior := ib_used b in
      Some (with_caller i (Comparing prior) (u32_wrapping_add (ib_used b) 1) b, Fetched prior)
  | Some (Comparing prior) =>
      if bool_decide (ib_max b <= prior)
      then Some (with_caller i Undoing (ib_used b) b, Silent)
      else Some (with_caller i Outside (ib_used b) b, Returned (Ok (prior + 1)))
  | Some Undoing =>
      Some (with_caller i Outside (u32_wrapping_sub (ib_used b) 1) b,
            Returned (Err (HeInvocationBudgetExhausted (ib_max b))))
  | None => None
  end.

(** Every schedule is a list of callers, one step each. *)
Inductive budget_run (b : InvocationBudget) : list budget_event -> InvocationBudget -> Prop :=
| budget_run_refl : budget_run b [] b
| budget_run_step tr b1 i b2 ev :
    budget_run b tr b1 -> try_acquire_step i b1 = Some (b2, ev) ->
    budget_run b (tr ++ [ev]) b2.

(** The outcome of a call, decided by the value it fetched. *)
Definition outcome (max prior : Z) : result HarnessError Z :=
  if bool_decide (max <= prior) then Err (HeInvocationBudgetExhausted max)
  else Ok (prior + 1).

(** The outcomes decided in a trace, in the order of the [fetch_add]s. *)
Definition decided (max : Z) (tr : list budget_event) : list (result HarnessError Z) :=
  omap (fun ev => match ev with Fetched p => Some (outcome max p) | _ => None end) tr.

(** The outcomes returned in a trace. *)
Definition returned (tr : list budget_event) : list (result HarnessError Z) :=
  omap (fun ev => match ev with Returned r => Some r | _ => None end) tr.

(** ** The reference: one caller, one counter *)

(** [calls] calls made one after the other on a counter that never exceeds
    the budget. *)
Fixpoint sequential (max taken : Z) (calls : nat) : list (result HarnessError Z) :=
  match calls with
  | O => []
  | S n =>
      if bool_decide (max <= taken)
      then Err (HeInvocationBudgetExhausted max) :: sequential max taken n
      else Ok (taken + 1) :: sequential max (taken + 1) n
  end.

Lemma sequential_app max t n :
  t <= max ->
  sequential max t (n + 1)
  = sequential max t n ++ [outcome max (Z.min max (t + Z.of_nat n))].
Proof.
  revert t. induction n as [|n IH]; intros t Ht; cbn [Nat.add sequential app].
  - replace (Z.min max (t + Z.of_nat 0)) with t by lia. unfold outcome.
    by destruct (bool_decide (max <= t)).
  - destruct (bool_decide_reflect (max <= t)); rewrite IH by lia; cbn [app].
    + by replace (Z.min max (t + Z.of_nat (S n))) with (Z.min max (t + Z.of_nat n)) by lia.
    + by replace (Z.min max (t + Z.of_nat (S n))) with (Z.min max (t + 1 + Z.of_nat n)) by lia.
Qed.

(** ** The invariant of the interleaving *)

(** Callers that hold an increment which will be taken back. *)
Definition losing (max : Z) (c : caller) : bool :=
  match c with Outside => false | Comparing p => bool_decide (max <= p) | Undoing => true end.

Definition losers (b : InvocationBudget) : nat :=
  length (filter (fun c => losing (ib_max b) c = true) (ib_callers b)).

(** Outcomes already decided for callers still inside their call. *)
Definition pending_outcome (max : Z) (c : caller) : list (result HarnessError Z) :=
  match c with
  | Outside => []
  | Comparing p => [outcome max p]
  | Undoing => [Err (HeInvocationBudgetExhausted max)]
  end.

Definition pending (b : InvocationBudget) : list (result HarnessError Z) :=
  mjoin (pending_outcome (ib_max b) <$> ib_callers b).

(** The counter holds the granted invocations and the increments to be taken
    back, and there are none of these until the budget is spent. *)
Record budget_inv (b : InvocationBudget) (tr : list budget_event) : Prop := {
  bi_used : ib_used b
    = Z.min (ib_max b) (Z.of_nat (length (decided (ib_max b) tr))) + Z.of_nat (losers b);
  bi_losers : losers b = 0%nat \/ ib_max b <= Z.of_nat (length (decided (ib_max b) tr));
  bi_decided : decided (ib_max b) tr
    = sequential (ib_max b) 0 (length (decided (ib_max b) tr));
  bi_returned : returned tr ++ pending b ≡ₚ decided (ib_max b) tr
}.

Lemma losers_le b : (losers b <= length (ib_callers b))%nat.
Proof. apply length_filter. Qed.

Lemma decided_snoc max tr ev : decided max (tr ++ [ev]) = decided max tr ++ decided max [ev].
Proof. apply omap_app. Qed.
Lemma returned_snoc tr ev : returned (tr ++ [ev]) = returned tr ++ returned [ev].
Proof. apply omap_app. Qed.

(** ** Every step keeps the invariant *)

Section steps.
Variables (b b' : InvocationBudget) (tr : list budget_event) (i : nat) (ev : budget_event).
Hypothesis inv : budget_inv b tr.
Hypothesis room : ib_max b + Z.of_nat (length (ib_callers b)) < 2 ^ 32.
Hypothesis max_nonneg : 0 <= ib_max b.

(** The callers inside their call leave room for one more increment. *)
Lemma losers_room c :
  ib_callers b !! i = Some c -> losing (ib_max b) c = false ->
  ib_max b + Z.of_nat (losers b) + 1 < 2 ^ 32.
Proof using room.
  intros Hi Hc.
  assert (losers b < length (ib_callers b))%nat; [|lia].
  pose proof (filter_insert_count (losing (ib_max b)) _ i c Undoing Hi) as H.
  rewrite Hc in H. cbn [losing] in H. unfold losers.
  pose proof (length_filter (fun x => losing (ib_max b) x = true)
                (<[i:=Undoing]> (ib_callers b))) as Hl.
  rewrite length_insert in Hl. lia.
Qed.

Lemma step_fetch :
  ib_callers b !! i = Some Outside ->
  budget_inv (with_caller i (Comparing (ib_used b)) (u32_wrapping_add (ib_used b) 1) b)
    (tr ++ [Fetched (ib_used b)]).
Proof using inv room max_nonneg.
  intros Hi. destruct inv as [Hu Hl Hd Hr].
  set (n := length (decided (ib_max b) tr)) in *.
  pose proof (filter_insert_count (losing (ib_max b)) _ i Outside
                (Comparing (ib_used b)) Hi) as Hcount.
  pose proof (losers_room Outside Hi eq_refl) as Hroom.
  assert (Hlen : length (decided (ib_max b) (tr ++ [Fetched (ib_used b)])) = (n + 1)%nat).
  { by rewrite decided_snoc, length_app. }
  assert (Hout : outcome (ib_max b) (ib_used b)
                 = outcome (ib_max b) (Z.min (ib_max b) (0 + Z.of_nat n))).
  { unfold outcome. destruct Hl as [Hl|Hl].
    - rewrite Hl in Hu. by replace (ib_used b) with (Z.min (ib_max b) (0 + Z.of_nat n)) by lia.
    - by rewrite !bool_decide_eq_true_2 by lia. }
  constructor; unfold losers in *; cbn [with_caller ib_max ib_used ib_callers] in *;
    rewrite ?Hlen.
  - unfold u32_wrapping_add. rewrite Z.mod_small by lia.
    cbn [losing] in Hcount. destruct (bool_decide_reflect (ib_max b <= ib_used b)); lia.
  - cbn [losing] in Hcount. destruct (bool_decide_reflect (ib_max b <= ib_used b)); lia.
  - rewrite decided_snoc, sequential_app by lia. rewrite <-Hd. f_equal.
    cbn. by rewrite Hout.
  - rewrite returned_snoc, decided_snoc. unfold pending.
    cbn [with_caller ib_max ib_used ib_callers returned omap list_omap].
    rewrite app_nil_r.
    pose proof (mjoin_insert_perm (pending_outcome (ib_max b)) _ i Outside
                  (Comparing (ib_used b)) Hi) as Hp.
    cbn [pending_outcome] in Hp. rewrite app_nil_r in Hp. rewrite Hp, app_assoc.
    unfold pending in Hr. by rewrite Hr.
Qed.

(** A step after the [fetch_add] decides nothing; the counter moves with the
    number of losers and the outcome pending is kept or returned. *)
Lemma step_quiet c d used ev' :
  ib_callers b !! i = Some c ->
  decided (ib_max b) [ev'] = [] ->
  used = ib_used b + (if losing (ib_max b) d then 1 else 0)
         - (if losing (ib_max b) c then 1 else 0) ->
  (losing (ib_max b) d = true -> losing (ib_max b) c = true) ->
  returned [ev'] ++ pending_outcome (ib_max b) d = pending_outcome (ib_max b) c ->
  budget_inv (with_caller i d used b) (tr ++ [ev']).
Proof using inv.
  intros Hi Hev Hused Hlose Hpend. destruct inv as [Hu Hl Hd Hr].
  pose proof (filter_insert_count (losing (ib_max b)) _ i c d Hi) as Hcount.
  assert (Hdec : decided (ib_max b) (tr ++ [ev']) = decided (ib_max b) tr).
  { by rewrite decided_snoc, Hev, app_nil_r. }
  constructor; unfold losers in *; cbn [with_caller ib_max ib_used ib_callers] in *;
    rewrite ?Hdec; [| |done|].
  - subst used. destruct (losing (ib_max b) c), (losing (ib_max b) d); lia.
  - destruct Hl as [Hl|Hl]; [left|by right].
    destruct (losing (ib_max b) c), (losing (ib_max b) d); lia.
  - rewrite returned_snoc, <-Hr, <-app_assoc. apply Permutation_app; [done|].
    pose proof (mjoin_insert_perm (pending_outcome (ib_max b)) _ i c d Hi) as Hp.
    unfold pending. cbn [with_caller ib_max ib_callers].
    apply (Permutation_app_inv_r (pending_outcome (ib_max b) d)).
    rewrite <-Hp, <-Hpend, app_assoc. by rewrite (Permutation_app_comm (returned _)).
Qed.

Lemma step_keeps_inv :
  try_acquire_step i b = Some (b', ev) -> budget_inv b' (tr ++ [ev]).
Proof using inv room max_nonneg.
  unfold try_acquire_step. intros Hstep.
  destruct (ib_callers b !! i) as [[|p|]|] eqn:Hi; [| | |done].
  - injection Hstep as <- <-. by apply step_fetch.
  - destruct (bool_decide_reflect (ib_max b <= p)) as [Hp|Hp]; injection Hstep as <- <-;
      apply (step_quiet (Comparing p)); cbn; unfold outcome; try done;
      rewrite ?(bool_decide_eq_true_2 _ Hp), ?(bool_decide_eq_false_2 _ Hp); try done; lia.
  - injection Hstep as <- <-. apply (step_quiet Undoing); try done.
    cbn [losing]. unfold u32_wrapping_sub. destruct inv as [Hu Hl _ _].
    pose proof (filter_insert_count (losing (ib_max b)) _ i Undoing Outside Hi) as Hcount.
    cbn [losing] in Hcount. pose proof (losers_le b). unfold losers in *.
    rewrite Z.mod_small; lia.
Qed.
End steps.

Lemma step_keeps_shape b i b' ev :
  try_acquire_step i b = Some (b', ev) ->
  ib_max b' = ib_max b /\ length (ib_callers b') = length (ib_callers b).
Proof.
  unfold try_acquire_step. intros Hstep.
  destruct (ib_callers b !! i) as [[|p|]|]; [| | |done];
    [|destruct (bool_decide (ib_max b <= p))|]; simplify_eq; cbn;
    by rewrite length_insert.
Qed.

Lemma new_idle max callers :
  losers (InvocationBudget_new max callers) = 0%nat
  /\ pending (InvocationBudget_new max callers) = [].
Proof.
  unfold losers, pending. cbn. induction callers as [|n [IHl IHp]]; [done|].
  cbn [replicate]. by rewrite filter_cons.
Qed.

Lemma budget_run_inv max callers tr b :
  0 <= max -> max + Z.of_nat callers < 2 ^ 32 ->
  budget_run (InvocationBudget_new max callers) tr b ->
  ib_max b = max /\ length (ib_callers b) = callers /\ budget_inv b tr.
Proof.
  intros Hmax Hroom Hrun. induction Hrun as [|tr b1 i b2 ev Hrun (Hm & Hl & Hinv) Hstep].
  - destruct (new_idle max callers) as [Hlosers Hpending].
    split_and!; [done|cbn; by rewrite length_replicate|]. constructor.
    + rewrite Hlosers. cbn. lia.
    + by left.
    + done.
    + by rewrite Hpending.
  - destruct (step_keeps_shape _ _ _ _ Hstep) as [Hm' Hl'].
    rewrite Hm', Hl'. split_and!; [done..|].
    apply (step_keeps_inv b1 b2 tr i ev); [done|rewrite Hm, Hl; done|by rewrite Hm|done].
Qed.

(** ** What callers see *)

(** C21: The invocation budget is linearizable although [try_acquire] adds first
    and takes back later: under every interleaving of the callers' atomic
    steps, the outcomes decided by the [fetch_add]s are, in their order, those
    of a single caller on a counter that stops at [max]; every value returned
    is one of them, and each decided outcome is returned once or still pending
    in one caller. No increment wraps as long as [max] and the number of
    concurrent callers stay below 2^32 together. *)
Theorem invocation_budget_linearizes max callers tr b :
  0 <= max -> max + Z.of_nat callers < 2 ^ 32 ->
  budget_run (InvocationBudget_new max callers) tr b ->
  decided max tr = sequential max 0 (length (decided max tr))
  /\ returned tr ++ pending b ≡ₚ decided max tr
  /\ is_u32 (InvocationBudget_used b).
Proof.
  intros Hmax Hroom Hrun.
  destruct (budget_run_inv _ _ _ _ Hmax Hroom Hrun) as (<- & <- & [Hu _ Hd Hr]).
  split_and!; [done..|]. pose proof (losers_le b). unfold InvocationBudget_used.
  unfold is_u32, u32_max. lia.
Qed.

(** The ordinals handed out, in order. *)
Definition ordinals (rs : list (result HarnessError Z)) : list Z :=
  omap (fun r => match r with Ok k => Some k | _ => None end) rs.

Lemma sequential_ordinals max t n :
  0 <= t <= max ->
  NoDup (ordinals (sequential max t n))
  /\ Forall (fun k => t < k <= max) (ordinals (sequential max t n)).
Proof.
  revert t. induction n as [|n IH]; intros t Ht; cbn; [by split; constructor|].
  destruct (bool_decide_reflect (max <= t)); cbn; [by apply IH|].
  destruct (IH (t + 1)) as [Hn Hf]; [lia|]. split; constructor; try done; [|lia|].
  - rewrite Forall_forall in Hf. intros Hin. specialize (Hf _ Hin). lia.
  - eapply Forall_impl; [exact Hf|]. cbn. lia.
Qed.

Lemma sequential_refused max t n :
  0 <= t <= max -> Err (HeInvocationBudgetExhausted max) ∈ sequential max t n ->
  max <= t + Z.of_nat (length (ordinals (sequential max t n))).
Proof.
  revert t. induction n as [|n IH]; intros t Ht Hr; [by apply not_elem_of_nil in Hr|].
  cbn [sequential] in *. destruct (bool_decide_reflect (max <= t)); [lia|].
  apply elem_of_cons in Hr as [|Hr]; [done|]. specialize (IH (t + 1) ltac:(lia) Hr).
  change (ordinals (Ok (t + 1) :: ?l)) with (t + 1 :: ordinals l). cbn [length]. lia.
Qed.

(** An adapter never spawns more than its budget allows: the ordinals that
    concurrent calls of [try_acquire] return are distinct and between 1 and
    [max], so at most [max] calls ever succeed, and a refusal is only returned
    once [max] invocations were granted. *)
Theorem invocation_budget_never_exceeded max callers tr b :
  0 <= max -> max + Z.of_nat callers < 2 ^ 32 ->
  budget_run (InvocationBudget_new max callers) tr b ->
  NoDup (ordinals (returned tr))
  /\ Forall (fun k => 1 <= k <= max) (ordinals (returned tr))
  /\ (Err (HeInvocationBudgetExhausted max) ∈ returned tr ->
      max <= Z.of_nat (length (ordinals (decided max tr)))).
Proof.
  intros Hmax Hroom Hrun.
  destruct (budget_run_inv _ _ _ _ Hmax Hroom Hrun) as (<- & <- & [_ _ Hd Hr]).
  destruct (sequential_ordinals (ib_max b) 0 (length (decided (ib_max b) tr)))
    as [Hnd Hall]; [lia|]. rewrite <-Hd in Hnd, Hall.
  assert (Hsub : ordinals (returned tr) ++ ordinals (pending b) ≡ₚ ordinals (decided (ib_max b) tr)).
  { unfold ordinals. rewrite <-omap_app. by rewrite Hr. }
  rewrite <-Hsub in Hnd, Hall. apply NoDup_app in Hnd as [Hnd _].
  apply Forall_app in Hall as [Hall _].
  split_and!; [done|eapply Forall_impl; [exact Hall|cbn; lia]|].
  intros Herr. assert (Hin : Err (HeInvocationBudgetExhausted (ib_max b)) ∈ decided (ib_max b) tr).
  { rewrite <-Hr. apply elem_of_app. by left. }
  rewrite Hd in Hin |- *. by apply (sequential_refused _ 0) in Hin; [|lia].
Qed.

(** Two callers racing for one invocation: both add, the second takes its
    increment back after the first has returned. *)
Definition race_trace : list budget_event :=
  [Fetched 0; Fetched 1; Returned (Ok 1); Silent;
   Returned (Err (HeInvocationBudgetExhausted 1))].

Definition race_end : InvocationBudget := MkInvocationBudget 1 1 [Outside; Outside].

Lemma race_runs : budget_run (InvocationBudget_new 1 2) race_trace race_end.
Proof.
  unfold race_trace.
  change (budget_run (InvocationBudget_new 1 2)
    (((((([] ++ [Fetched 0]) ++ [Fetched 1]) ++ [Returned (Ok 1)]) ++ [Silent])
      ++ [Returned (Err (HeInvocationBudgetExhausted 1))])) race_end).
  eapply (budget_run_step _ _ _ 1%nat).
  { eapply (budget_run_step _ _ _ 1%nat).
    { eapply (budget_run_step _ _ _ 0%nat).
      { eapply (budget_run_step _ _ _ 1%nat).
        { eapply (budget_run_step _ _ _ 0%nat); [constructor|reflexivity]. }
        reflexivity. }
      reflexivity. }
    reflexivity. }
  reflexivity.
Qed.

Lemma invocation_budget_linearizes_witness :
  decided 1 race_trace = sequential 1 0 2
  /\ returned race_trace ++ pending race_end ≡ₚ decided 1 race_trace
  /\ is_u32 (InvocationBudget_used race_end).
Proof. apply (invocation_budget_linearizes 1 2); [lia|lia|exact race_runs]. Defined.

Lemma invocation_budget_never_exceeded_witness :
  NoDup (ordinals (returned race_trace))
  /\ Forall (fun k => 1 <= k <= 1) (ordinals (returned race_trace))
  /\ (Err (HeInvocationBudgetExhausted 1) ∈ returned race_trace ->
      1 <= Z.of_nat (length (ordinals (decided 1 race_trace)))).
Proof.
  apply (invocation_budget_never_exceeded 1 2 race_trace race_end); [lia|lia|exact race_runs].
Defined.

(** The bound on the number of callers is needed: with the largest budget one
    refused caller wraps the counter to zero, and the next one is admitted. *)
Lemma invocation_budget_wraps :
  let b := MkInvocationBudget u32_max u32_max [Outside; Outside] in
  exists b1 b2 b3,
    try_acquire_step 0 b = Some (b1, Fetched u32_max)
    /\ try_acquire_step 1 b1 = Some (b2, Fetched 0)
    /\ try_acquire_step 1 b2 = Some (b3, Returned (Ok 1)).
Proof. eexists _, _, _. repeat split; reflexivity. Qed.
