(* ===== verification/Paths.v ===== *)
(** * Paths and files

    The parts of [std::path] and [std::fs] that the provider harness calls, on
    Unix. A path is its text and its meaning is its list of components; a file
    system is an abstract state with one operation per call, so nothing is
    assumed of what other processes do between two calls. *)

From S2P Require Import Prelude External Ids Text.
From stdpp Require Import options.

Local Open Scope Z_scope.

Definition slash : Ascii.ascii := Ascii.ascii_of_nat 47.

(** ** [std::path] *)

Inductive Component : Type :=
| RootDir
| CurDir
| ParentDir
| Normal (segment : string).

Global Instance Component_eq_dec : EqDecision Component.
Proof. solve_decision. Defined.

(** A segment after the first: empty segments and [.] vanish. *)
Definition segment_component (s : string) : option Component :=
  if is_empty s || bool_decide (s = ".") then None
  else if bool_decide (s = "..") then Some ParentDir
  else Some (Normal s).

(** [Path::components]: repeated and trailing separators are ignored, and a
    [.] counts only as the first segment of a relative path. *)
Definition path_components (p : string) : list Component :=
  if starts_with "/" p then RootDir :: omap segment_component (str_split slash p)
  else match str_split slash p with
  | first :: rest =>
      (if bool_decide (first = ".") then [CurDir] else omap segment_component [first])
      ++ omap segment_component rest
  | [] => []
  end.

(** [Path] equality compares components. *)
Definition path_eq (p q : string) : bool :=
  bool_decide (path_components p = path_components q).

(** [Path::is_absolute]. *)
Definition path_is_absolute (p : string) : bool := starts_with "/" p.

(** [Path::file_name] of a path that is text. *)
Definition path_file_name (p : string) : option string :=
  match last (path_components p) with Some (Normal s) => Some s | _ => None end.

(** The components of [Path::parent]. *)
Definition path_parent_components (p : string) : option (list Component) :=
  match last (path_components p) with
  | None | Some RootDir => None
  | Some _ => Some (take (length (path_components p) - 1) (path_components p))
  end.

(** A path with given components. *)
Definition component_text (c : Component) : string :=
  match c with RootDir => EmptyString | CurDir => "." | ParentDir => ".." | Normal s => s end.
Definition join_components (cs : list Component) : string :=
  match cs with
  | [RootDir] => "/"
  | _ => String.concat "/" (component_text <$> cs)
  end.

(** [Path::parent], up to path equality. *)
Definition path_parent (p : string) : option string :=
  join_components <$> path_parent_components p.

(** [Path::join]. *)
Definition path_join (base rel : string) : string :=
  if path_is_absolute rel then rel
  else if is_empty base || bool_decide (String.get (String.length base - 1) base = Some slash)
  then base +:+ rel
  else base +:+ "/" +:+ rel.

(** ** [str] operations on byte positions *)

(** [str::find] of a non-empty pattern: the first position. *)
Definition str_find (needle hay : string) : option nat := String.index 0 needle hay.

(** [haystack.windows(needle.len()).any(|w| w == needle)] on bytes. *)
Fixpoint has_window (needle hay : string) : bool :=
  starts_with needle hay
  || match hay with EmptyString => false | String _ rest => has_window needle rest end.

(** [str::trim_start]. *)
Fixpoint trim_start (s : string) : string :=
  match s with
  | EmptyString => EmptyString
  | String a r =>
      let b := byte_val a in
      if bool_decide (9 <= b <= 13) || bool_decide (b = 32) then trim_start r
      else match r with
      | String a2 r2 =>
          if str_is_blank (String a (String a2 EmptyString)) then trim_start r2
          else match r2 with
          | String a3 r3 =>
              if str_is_blank (String a (String a2 (String a3 EmptyString)))
              then trim_start r3 else s
          | EmptyString => s
          end
      | EmptyString => s
      end
  end.

(** [str::trim_end]: the longest blank end is dropped. *)
Fixpoint trim_end (s : string) : string :=
  if str_is_blank s then EmptyString
  else match s with EmptyString => EmptyString | String a r => String a (trim_end r) end.

(** [str::trim]. *)
Definition str_trim (s : string) : string := trim_end (trim_start s).

(** The bytes from a position on, and up to one. *)
Definition str_drop (n : nat) (s : string) : string :=
  String.substring n (String.length s - n) s.
Definition str_take (n : nat) (s : string) : string := String.substring 0 n s.

(** [str::ends_with], of a byte and of a text. *)
Definition ends_with_char (c : Ascii.ascii) (s : string) : bool :=
  bool_decide (String.get (String.length s - 1) s = Some c).

Definition ends_with (suffix s : string) : bool :=
  bool_decide (String.length suffix <= String.length s)%nat
  && bool_decide (str_drop (String.length s - String.length suffix) s = suffix).

(** Last position of a byte. *)
Fixpoint str_rfind_char (c : Ascii.ascii) (s : string) : option nat :=
  match s with
  | EmptyString => None
  | String a r =>
      match str_rfind_char c r with
      | Some n => Some (S n)
      | None => if Ascii.eqb a c then Some O else None
      end
  end.

(** ** [std::fs] *)

Inductive file_kind : Type := IsFile | IsDir | IsSymlink | IsOther.

Global Instance file_kind_eq_dec : EqDecision file_kind.
Proof. solve_decision. Defined.

(** What [Metadata] says of a file. *)
Record Metadata : Type := MkMetadata {
  md_kind : file_kind;
  md_len : Z;
  md_dev : Z;
  md_ino : Z;
  md_mode : Z
}.

(** One operation per system call the harness makes; an error carries the
    text of the [io::Error]. The state holds what other processes see, and
    any operation may change it. *)
Class Files (S : Type) := {
  fs_handle : Type;
  fs_symlink_metadata : string -> stateful S string Metadata;
  fs_canonicalize : string -> stateful S string string;
  fs_is_dir : string -> S -> S * bool;
  fs_exists : string -> S -> S * bool;
  fs_read : string -> stateful S string bytes;
  fs_open : string -> stateful S string fs_handle;
  fs_handle_metadata : fs_handle -> stateful S string Metadata;
  fs_read_to_end : fs_handle -> stateful S string bytes;
  fs_read_limited : fs_handle -> Z -> stateful S string bytes;
  fs_create_dir : string -> stateful S string unit;
  fs_create_new : string -> stateful S string fs_handle;
  fs_write_all : fs_handle -> bytes -> stateful S string unit;
  fs_sync_all : fs_handle -> stateful S string unit;
  fs_set_mode : string -> Z -> stateful S string unit;
  fs_remove_file : string -> stateful S string unit;
  fs_remove_dir : string -> stateful S string unit
}.

(** A question that cannot fail. *)
Definition asks {S E} (q : S -> S * bool) : stateful S E bool :=
  fun s => let '(t, b) := q s in (t, Ok b).

(** `let _ = call`: the outcome is dropped. *)
Definition ignore {S E F A} (m : stateful S E A) : stateful S F unit := fun s => ((m s).1, Ok tt).

(** A value owned by a block is dropped when the block fails. *)
Definition drop_on_err {S E A} (drop : stateful S E unit) (m : stateful S E A) : stateful S E A :=
  fun s => match m s with
           | (t, Ok a) => (t, Ok a)
           | (t, Err e) => ((drop t).1, Err e)
           | (t, Panic) => ((drop t).1, Panic)
           end.

(** ** Lemmas *)

Lemma drop_on_err_Ok {S E A} (drop : stateful S E unit) (m : stateful S E A) s t a :
  drop_on_err drop m s = (t, Ok a) <-> m s = (t, Ok a).
Proof. unfold drop_on_err. destruct (m s) as [? []]; naive_solver. Qed.

Lemma has_window_spec needle hay :
  has_window needle hay = true <-> exists a b, hay = a +:+ needle +:+ b.
Proof.
  induction hay as [|c hay IH]; cbn [has_window].
  - rewrite orb_false_r, starts_with_spec. split.
    + intros [r Hr]. exists EmptyString, r. exact Hr.
    + intros (a & b & Hab). destruct a; [|done]. by exists b.
  - rewrite orb_true_iff, starts_with_spec, IH. split.
    + intros [[r Hr]|(a & b & ->)]; [by exists EmptyString, r|by exists (String c a), b].
    + intros (a & b & Hab). destruct a as [|x a]; [left; by exists b|right].
      rewrite string_app_cons in Hab. injection Hab as _ ->. by exists a, b.
Qed.

Lemma path_eq_spec p q : path_eq p q = true <-> path_components p = path_components q.
Proof. apply bool_decide_eq_true. Qed.

Global Instance path_eq_equivalence : Equivalence (fun p q => path_eq p q = true).
Proof.
  split; [intros p|intros p q|intros p q r]; cbn; rewrite !path_eq_spec; congruence.
Qed.

(** Equal paths name the same file. *)
Lemma path_eq_file_name p q : path_eq p q = true -> path_file_name p = path_file_name q.
Proof. intros H%path_eq_spec. unfold path_file_name. by rewrite H. Qed.

Example path_components_example :
  path_components "/opt//bin/./codex/" = [RootDir; Normal "opt"; Normal "bin"; Normal "codex"]
  /\ path_components "./a/../b" = [CurDir; Normal "a"; ParentDir; Normal "b"]
  /\ path_file_name "/usr/bin/agy" = Some "agy" /\ path_file_name "/usr/.." = None
  /\ path_file_name "." = None /\ path_file_name EmptyString = None.
Proof. by vm_compute. Qed.

Example path_parent_example :
  path_parent "/home/x/.claude/oauth.json" = Some "/home/x/.claude"
  /\ path_parent "oauth.json" = Some EmptyString /\ path_parent "/" = None
  /\ path_join "/home/x" "tmp" = "/home/x/tmp".
Proof. by vm_compute. Qed.

Example str_trim_example : str_trim "  a b " = "a b" /\ str_trim "   " = EmptyString.
Proof. by vm_compute. Qed.
