(* ===== verification/Argv.v ===== *)
(** * Guarded provider invocations

    Models crates/harness-core/src/argv.rs, except the budget counter and the
    admission-gated constructor: the denied tokens, the environment a child
    inherits, the kill switch, and the two constructors of an invocation. The
    environment of the process is an argument; it holds each name once or more,
    and a lookup finds the first. *)

From S2P Require Import Prelude External Ids Text HarnessErrors Paths.
From stdpp Require Import options.

Local Open Scope Z_scope.

(** crates/harness-core/src/argv.rs:12-13 (KILL_SWITCH_VAR) *)
Definition KILL_SWITCH_VAR : string := "BULLET_PROVIDER_KILL".
(** crates/harness-core/src/argv.rs:15-15 (DENIED_EXACT) *)
Definition DENIED_EXACT : list string := ["-w"].
(** crates/harness-core/src/argv.rs:16-16 (DENIED_PREFIXES) *)
Definition DENIED_PREFIXES : list string := ["--worktree"; "--worktree-base"; "--tmux"].
(** crates/harness-core/src/argv.rs:17-25 (INHERITED_ENV_ALLOWLIST) *)
Definition INHERITED_ENV_ALLOWLIST : list string :=
  ["COLORTERM"; "LANG"; "LC_ALL"; "LC_CTYPE"; "NO_COLOR"; "TERM"; "TZ"].

(** crates/harness-core/src/argv.rs:27-37 (denied_token) *)
Definition denied_token (arg : string) : option string :=
  if bool_decide (arg ∈ DENIED_EXACT) then Some "-w"
  else List.find (fun prefix => bool_decide (arg = prefix) || starts_with (prefix +:+ "=") arg)
         DENIED_PREFIXES.

(** A list of pairs collected into a [BTreeMap]: the last value of a name
    wins. *)
Definition collect_map (vars : list (string * string)) : gmap string string :=
  foldl (fun m '(k, v) => <[k := v]> m) ∅ vars.

(** crates/harness-core/src/argv.rs:39-55 (filter_env) *)
Definition filter_env (vars : list (string * string)) : list (string * string) :=
  iter_map (collect_map (filter (fun kv => kv.1 ∈ INHERITED_ENV_ALLOWLIST) vars)).

(** crates/harness-core/src/argv.rs:57-61 (kill_switch_active) *)
Definition kill_switch_active (value : option string) : bool :=
  bool_decide (value = Some "1").

(** crates/harness-core/src/argv.rs:63-71 (live_provider_program) *)
Definition live_provider_program (program : string) : option string :=
  name ← path_file_name program;
  if bool_decide (name ∈ ["claude"; "codex"; "cursor-agent"; "agy"]) then Some name else None.

(** [std::env::var]. *)
Definition env_var (environ : list (string * string)) (name : string) : option string :=
  snd <$> List.find (fun kv => bool_decide (kv.1 = name)) environ.

(** crates/harness-core/src/argv.rs:111-118 (ArgvBuilder) *)
Record ArgvBuilder : Type := MkArgvBuilder {
  ab_program : string;
  ab_args : list string;
  ab_cwd : string;
  ab_timeout_ns : Z
}.

(** crates/harness-core/src/argv.rs:121-130 (ArgvBuilder::new) *)
Definition ArgvBuilder_new (program cwd : string) : ArgvBuilder :=
  MkArgvBuilder program [] cwd (180 * 1000000000).

(** crates/harness-core/src/argv.rs:132-148 (ArgvBuilder::arg, args) *)
Definition builder_args (b : ArgvBuilder) (args : list string) : ArgvBuilder :=
  MkArgvBuilder (ab_program b) (ab_args b ++ args) (ab_cwd b) (ab_timeout_ns b).

(** crates/harness-core/src/argv.rs:150-155 (ArgvBuilder::timeout) *)
Definition builder_timeout (b : ArgvBuilder) (timeout_ns : Z) : ArgvBuilder :=
  MkArgvBuilder (ab_program b) (ab_args b) (ab_cwd b) timeout_ns.

(** crates/harness-core/src/argv.rs:271-284 (PreparedInvocation) *)
Record PreparedInvocation : Type := MkPreparedInvocation {
  inv_program : string;
  inv_args : list string;
  inv_cwd : string;
  inv_timeout_ns : Z;
  inv_env : list (string * string)
}.

(** crates/harness-core/src/argv.rs:258-268 (ArgvBuilder::validate_common) *)
Definition validate_common (environ : list (string * string)) (b : ArgvBuilder)
  : result HarnessError unit :=
  _ ← refuse_if (kill_switch_active (env_var environ KILL_SWITCH_VAR)) HeKillSwitch;
  for_each (fun arg => refuse_if (bool_decide (is_Some (denied_token arg)))
                         (HeWorktreeFlagDenied arg)) (ab_args b).

(** crates/harness-core/src/argv.rs:157-179 (ArgvBuilder::build) *)
Definition builder_build (environ : list (string * string)) (b : ArgvBuilder)
  : result HarnessError PreparedInvocation :=
  _ ← validate_common environ b;
  match live_provider_program (ab_program b) with
  | Some provider => Err (HeLiveAdmissionUnavailable provider)
  | None =>
      let env := filter_env environ in
      Ok (MkPreparedInvocation (ab_program b) (ab_args b) (ab_cwd b) (ab_timeout_ns b) env)
  end.

Section Dogfood.
Context `{Blake3} `{Hex} {S : Type} `{!Files S}.

Definition file_digest (content : bytes) : string := hex_encode (array32_bytes (blake3_hash content)).

(** crates/harness-core/src/argv.rs:210-256 (ArgvBuilder::build_enrolled_dogfood) *)
Definition build_enrolled_dogfood (environ : list (string * string)) (b : ArgvBuilder)
  (enrolled_executable enrolled_blake3 : string) : stateful S HarnessError PreparedInvocation :=
  _ ← pure_step (validate_common environ b);
  _ ← pure_step (refuse_if (negb (path_eq (ab_program b) enrolled_executable))
        (HeAdmissionRefused "dogfood argv executable differs from the enrolled path"));
  content ← st_map_err
        (fun error => HeAdmissionRefused ("enrolled executable is unreadable: " +:+ error))
        (fs_read enrolled_executable);
  let observed := file_digest content in
  _ ← pure_step (refuse_if (negb (bool_decide (observed = enrolled_blake3)))
        (HeAdmissionRefused "enrolled executable content digest drifted since enrollment"));
  let env := filter_env environ in
  mret (MkPreparedInvocation (ab_program b) (ab_args b) (ab_cwd b) (ab_timeout_ns b) env).
End Dogfood.

(** ** Lemmas *)

Lemma collect_map_app vars k v :
  collect_map (vars ++ [(k, v)]) = <[k := v]> (collect_map vars).
Proof. unfold collect_map. by rewrite foldl_app. Qed.

(** The collected map holds, for each name, its last value. *)
Lemma collect_map_lookup vars k v :
  collect_map vars !! k = Some v <->
  exists before after, vars = before ++ (k, v) :: after /\ Forall (fun kv => kv.1 <> k) after.
Proof.
  induction vars as [|[k' v'] vars IH] using rev_ind.
  - split; [done|]. intros (b & a & Hba & _). by destruct b.
  - rewrite collect_map_app. destruct (decide (k' = k)) as [->|Hne].
    + rewrite lookup_insert_eq. split.
      * intros [= ->]. exists vars, []. by split.
      * intros (b & a & Hba & Ha). destruct a as [|x a _] using rev_ind.
        { apply app_inj_tail in Hba as [_ [= ->]]. done. }
        rewrite app_comm_cons, app_assoc in Hba. apply app_inj_tail in Hba as [_ <-].
        apply Forall_app in Ha as [_ Ha]. by inversion Ha.
    + rewrite lookup_insert_ne by done. rewrite IH. split.
      * intros (b & a & -> & Ha). exists b, (a ++ [(k', v')]).
        split; [by rewrite <-app_assoc|]. apply Forall_app; split; [done|by repeat constructor].
      * intros (b & a & Hba & Ha). destruct a as [|x a _] using rev_ind.
        { apply app_inj_tail in Hba as [_ [= -> ->]]. done. }
        rewrite app_comm_cons, app_assoc in Hba. apply app_inj_tail in Hba as [-> <-].
        apply Forall_app in Ha as [Ha _]. by exists b, a.
Qed.

Lemma iter_map_keys_NoDup {V} (m : gmap string V) : NoDup (iter_map m).*1.
Proof. rewrite iter_map_perm. apply NoDup_fst_map_to_list. Qed.

Lemma filter_env_elem vars k v :
  (k, v) ∈ filter_env vars <->
  k ∈ INHERITED_ENV_ALLOWLIST
  /\ collect_map (filter (fun kv => kv.1 ∈ INHERITED_ENV_ALLOWLIST) vars) !! k = Some v.
Proof.
  unfold filter_env. rewrite elem_of_iter_map. split; [|by intros []].
  intros H. split; [|done]. apply collect_map_lookup in H as (b & a & Hba & _).
  assert (Hin : (k, v) ∈ filter (fun kv => kv.1 ∈ INHERITED_ENV_ALLOWLIST) vars).
  { rewrite Hba. apply elem_of_app. right. constructor. }
  by apply list_elem_of_filter in Hin as [Hin _].
Qed.

(** Collecting a sorted listing of a map gives the map back. *)
Lemma collect_iter_map (m : gmap string string) : collect_map (iter_map m) = m.
Proof.
  apply map_eq. intros k. apply option_eq. intros v. rewrite collect_map_lookup. split.
  - intros (b & a & Hba & _). apply elem_of_iter_map. rewrite Hba. set_solver.
  - intros Hk. apply elem_of_iter_map, list_elem_of_split in Hk as (b & a & Hba).
    exists b, a. split; [done|]. apply Forall_forall. intros [k' v'] Hin Heq. cbn in Heq; subst k'.
    pose proof (iter_map_keys_NoDup m) as Hnd. rewrite Hba, fmap_app, fmap_cons in Hnd.
    apply NoDup_app in Hnd as (_ & _ & Hnd). apply NoDup_cons in Hnd as [Hnd _]. apply Hnd.
    apply list_elem_of_fmap. by exists (k, v').
Qed.

Lemma validate_common_Ok environ b u :
  validate_common environ b = Ok u <->
  env_var environ KILL_SWITCH_VAR <> Some "1"
  /\ Forall (fun arg => denied_token arg = None) (ab_args b).
Proof.
  unfold validate_common. rewrite bind_Ok. setoid_rewrite for_each_Ok.
  setoid_rewrite refuse_if_Ok. unfold kill_switch_active.
  setoid_rewrite bool_decide_eq_false. setoid_rewrite eq_None_not_Some. naive_solver.
Qed.

(** A token is denied exactly when it is [-w], or one of the three options,
    alone or with a value attached. *)
Lemma denied_token_spec arg :
  is_Some (denied_token arg) <->
  arg = "-w" \/ exists p, p ∈ DENIED_PREFIXES /\ (arg = p \/ exists v, arg = p +:+ "=" +:+ v).
Proof.
  unfold denied_token. case_bool_decide as Hw.
  - apply list_elem_of_singleton in Hw as ->. split; [by left|by eexists].
  - assert (arg <> "-w") by (intros ->; apply Hw; constructor).
    rewrite <-not_eq_None_Some. split.
    + intros Hf. destruct (List.find _ _) as [p|] eqn:Hp; [|done].
      apply List.find_some in Hp as [Hin Hp]. right. exists p.
      split; [by apply list_elem_of_In|].
      apply orb_true_iff in Hp as [Hp|Hp]; [left; by apply bool_decide_eq_true in Hp|right].
      apply starts_with_spec in Hp as [v ->]. exists v. by rewrite string_app_assoc.
    + intros [?|(p & Hin & Hp)] Hnone; [done|].
      apply list_elem_of_In in Hin. pose proof (List.find_none _ _ Hnone p Hin) as Hb.
      apply orb_false_iff in Hb as [Hb1 Hb2]. apply bool_decide_eq_false in Hb1.
      destruct Hp as [?|[v ->]]; [done|].
      assert (starts_with (p +:+ "=") (p +:+ "=" +:+ v) = true); [|congruence].
      apply starts_with_spec. exists v. by rewrite string_app_assoc.
Qed.

(** C37: A plain invocation never runs a provider, never carries a worktree or
    tmux option and inherits no authority: when [build] succeeds the kill
    switch is off, no argument is denied, the program's file name is none of
    the live providers, and the child environment lists names of the allowlist
    only, each once and in increasing order, with the last value the process
    environment gave it. *)
Theorem built_invocation_contained environ b inv :
  builder_build environ b = Ok inv ->
  env_var environ KILL_SWITCH_VAR <> Some "1"
  /\ Forall (fun arg => ~ is_Some (denied_token arg)) (inv_args inv)
  /\ live_provider_program (inv_program inv) = None
  /\ Forall (fun kv => kv.1 ∈ INHERITED_ENV_ALLOWLIST) (inv_env inv)
  /\ NoDup (inv_env inv).*1 /\ Sorted entry_le (inv_env inv)
  /\ (forall k v, (k, v) ∈ inv_env inv -> exists before after,
        filter (fun kv => kv.1 ∈ INHERITED_ENV_ALLOWLIST) environ = before ++ (k, v) :: after
        /\ Forall (fun kv => kv.1 <> k) after).
Proof.
  unfold builder_build. intros H. apply bind_Ok in H as (u & Hc & H).
  apply validate_common_Ok in Hc as [Hkill Hargs].
  destruct (live_provider_program (ab_program b)) eqn:Hlive; [done|].
  injection H as <-. cbn. split_and!; [done| |done| | | |].
  - eapply Forall_impl; [exact Hargs|]. cbn. intros x ->. by intros [].
  - apply Forall_forall. intros [k v] Hin. by apply filter_env_elem in Hin as [Hin _].
  - apply iter_map_keys_NoDup.
  - apply iter_map_sorted.
  - intros k v [_ Hkv]%filter_env_elem. by apply collect_map_lookup in Hkv.
Qed.

Lemma built_invocation_contained_witness :
  let environ := [("HOME", "/home/u"); ("TZ", "UTC"); ("GH_TOKEN", "x"); ("LANG", "C")] in
  exists inv,
    builder_build environ (builder_args (ArgvBuilder_new "printf" "/tmp") ["%s"; "-v"]) = Ok inv
    /\ inv_env inv = [("LANG", "C"); ("TZ", "UTC")]
    /\ Forall (fun kv => kv.1 ∈ INHERITED_ENV_ALLOWLIST) (inv_env inv)
    /\ live_provider_program (inv_program inv) = None.
Proof.
  cbv zeta. eexists. split; [vm_compute; reflexivity|]. split; [reflexivity|].
  match goal with |- Forall _ (inv_env ?i) /\ _ =>
    destruct (built_invocation_contained
      [("HOME", "/home/u"); ("TZ", "UTC"); ("GH_TOKEN", "x"); ("LANG", "C")]
      (builder_args (ArgvBuilder_new "printf" "/tmp") ["%s"; "-v"]) i)
      as (_ & _ & Hl & He & _); [vm_compute; reflexivity|split; [exact He|exact Hl]]
  end.
Defined.

Section Dogfood_lemmas.
Context `{Blake3} `{Hex} {S : Type} `{!Files S}.

(** The dogfood constructor runs only the enrolled file, with the enrolled
    content read at build time. *)
Lemma build_enrolled_dogfood_Ok environ b exe digest (s t : S) inv :
  build_enrolled_dogfood environ b exe digest s = (t, Ok inv) ->
  exists content, fs_read exe s = (t, Ok content) /\ file_digest content = digest
    /\ path_eq (inv_program inv) exe = true /\ inv_env inv = filter_env environ
    /\ Forall (fun arg => denied_token arg = None) (inv_args inv).
Proof.
  unfold build_enrolled_dogfood. intros Hb. inv_st.
  match goal with Hr : st_map_err _ _ _ = _ |- _ => apply st_map_err_Ok in Hr end.
  match goal with Hv : validate_common _ _ = Ok _ |- _ => apply validate_common_Ok in Hv as [_ ?] end.
  eexists. split_and!; try done.
Qed.
End Dogfood_lemmas.
