(* ===== verification/Proposal.v ===== *)
(** * Patch proposals

    Models crates/harness-core/src/proposal.rs: the only structured output the
    kernel accepts from a provider turn. Unicode normalization and case mapping
    are the unicode-normalization crate's and the standard library's tables, and
    JSON decoding is serde_json's; both are parameters. *)

From S2P Require Import Prelude External Ids Text Gates HarnessErrors Paths.
From stdpp Require Import options.

Local Open Scope Z_scope.

(** [str.nfc()] and [flat_map(char::to_lowercase)], collected into a text. *)
Class Unicode := {
  nfc : string -> string;
  to_lowercase : string -> string
}.

(** crates/harness-core/src/proposal.rs:12-13 (PATCH_PROPOSAL_SCHEMA_VERSION) *)
Definition PATCH_PROPOSAL_SCHEMA_VERSION : Z := 1.
(** crates/harness-core/src/proposal.rs:14-15 (MAX_OPERATIONS) *)
Definition MAX_OPERATIONS : Z := 128.
(** crates/harness-core/src/proposal.rs:16-17 (MAX_CONTENT_BYTES) *)
Definition MAX_CONTENT_BYTES : Z := 1048576.
(** crates/harness-core/src/proposal.rs:18-19 (MAX_GATE_IDS) *)
Definition MAX_PROPOSAL_GATE_IDS : Z := 16.

(** crates/harness-core/src/proposal.rs:21-29 (Preimage) *)
Inductive Preimage : Type :=
| PreAbsent
| PreDigest (digest : string).

(** crates/harness-core/src/proposal.rs:31-39 (PatchMutation) *)
Inductive PatchMutation : Type :=
| MutWrite (content_utf8 : string)
| MutDelete.

(** crates/harness-core/src/proposal.rs:41-51 (PatchOperation) *)
Record PatchOperation : Type := MkPatchOperation {
  po_path : string;
  po_preimage : Preimage;
  po_mutation : PatchMutation
}.

(** The seven fields that bear authority, the shape of the serialized value:
    the four narrative fields are [skip_serializing]. *)
Record PatchProposalWire : Type := MkPatchProposalWire {
  pp_schema_version : Z;
  pp_proposal_id : string;
  pp_producing_attempt_id : string;
  pp_base_checkpoint_id : string;
  pp_base_checkpoint_digest : string;
  pp_operations : list PatchOperation;
  pp_gate_ids : list string
}.

(** crates/harness-core/src/proposal.rs:53-85 (PatchProposal) *)
Record PatchProposal : Type := MkPatchProposal {
  pp_wire : PatchProposalWire;
  pp_intent_summary : string;
  pp_claims : list string;
  pp_uncertainties : list string;
  pp_done : bool
}.

Definition invalid {A} (reason : string) : result HarnessError A := Err (HeProposalParse reason).

(** crates/harness-core/src/proposal.rs:311-320 (validate_lower_hex) *)
Definition validate_lower_hex (raw : string) : result HarnessError unit :=
  if is_hex_64 raw then Ok tt else invalid "expected 64 lowercase hexadecimal characters".

(** crates/harness-core/src/proposal.rs:300-305 (validate_prefixed_id) *)
Definition validate_prefixed_id (raw prefix : string) : result HarnessError unit :=
  body ← ok_or (strip_prefix prefix raw)
           (HeProposalParse ("identifier must start with " +:+ prefix));
  validate_lower_hex body.

(** `pairs.windows(2).any(|pair| pair[0] == pair[1])`. *)
Fixpoint adjacent_equal (l : list string) : bool :=
  match l with
  | x :: rest =>
      match rest with
      | y :: _ => bool_decide (x = y) || adjacent_equal rest
      | [] => false
      end
  | [] => false
  end.

(** crates/harness-core/src/proposal.rs:152-168 (validate_gate_ids) *)
Definition proposal_validate_gate_ids (gate_ids : list string) : result HarnessError unit :=
  _ ← refuse_if (bool_decide (gate_ids = [])
                 || bool_decide (MAX_PROPOSAL_GATE_IDS < Z.of_nat (length gate_ids)))
        (HeProposalParse ("gate_ids must contain 1..=" +:+ pretty MAX_PROPOSAL_GATE_IDS +:+ " entries"));
  _ ← for_each (fun gate => validate_prefixed_id gate "gat_") gate_ids;
  let sorted := merge_sort str_le gate_ids in
  refuse_if (adjacent_equal sorted) (HeProposalParse "duplicate gate_id").

(** crates/harness-core/src/proposal.rs:283-298 (validate_metadata) *)
Definition validate_metadata (p : PatchProposal) : result HarnessError unit :=
  refuse_if
    (bool_decide (4096 < str_len (pp_intent_summary p))
     || bool_decide (128 < Z.of_nat (length (pp_claims p)))
     || bool_decide (128 < Z.of_nat (length (pp_uncertainties p)))
     || existsb (fun item => bool_decide (4096 < str_len item))
          (pp_claims p ++ pp_uncertainties p))
    (HeProposalParse "model metadata exceeds bounded limits").

(** crates/harness-core/src/proposal.rs:322-326 (contains_path) *)
Definition contains_path (parent child : string) : bool :=
  match strip_prefix parent child with
  | Some suffix => starts_with "/" suffix
  | None => false
  end.

Section Validate.
Context `{Unicode}.

(** The checks of one segment. *)
Definition validate_segment (path segment : string) : result HarnessError unit :=
  _ ← refuse_if (is_empty segment || bool_decide (segment = ".") || bool_decide (segment = ".."))
        (HeProposalParse ("invalid path segment in " +:+ str_debug path));
  _ ← refuse_if (eq_ignore_ascii_case segment ".git")
        (HeProposalParse (".git is outside authority: " +:+ str_debug path));
  refuse_if (str_contains_char (Ascii.ascii_of_nat 58) segment
             || ends_with_char (Ascii.ascii_of_nat 46) segment
             || ends_with_char (Ascii.ascii_of_nat 32) segment
             || any_control segment)
    (HeProposalParse ("platform-unsafe path: " +:+ str_debug path)).

(** crates/harness-core/src/proposal.rs:258-281 (validate_repo_path) *)
Definition validate_repo_path (path : string) : result HarnessError unit :=
  _ ← refuse_if (is_empty path || bool_decide (4096 < str_len path) || starts_with "/" path
                 || str_contains_char (Ascii.ascii_of_nat 92) path)
        (HeProposalParse ("invalid repository path: " +:+ str_debug path));
  _ ← refuse_if (negb (bool_decide (nfc path = path)))
        (HeProposalParse ("path is not NFC normalized: " +:+ str_debug path));
  for_each (validate_segment path) (str_split slash path).

(** The key under which two paths are the same file on a case-insensitive or
    normalizing file system. *)
Definition collision_key (path : string) : string := to_lowercase (nfc path).

(** crates/harness-core/src/proposal.rs:214-232 (validate_operations, one operation) *)
Definition validate_operation (o : PatchOperation) : result HarnessError unit :=
  _ ← validate_repo_path (po_path o);
  _ ← match po_preimage o, po_mutation o with
      | PreAbsent, MutDelete => invalid ("delete " +:+ po_path o +:+ " requires a digest preimage")
      | PreDigest digest, _ => validate_lower_hex digest
      | PreAbsent, MutWrite _ => Ok tt
      end;
  match po_mutation o with
  | MutWrite content_utf8 =>
      refuse_if (bool_decide (MAX_CONTENT_BYTES < str_len content_utf8))
        (HeProposalParse (po_path o +:+ " exceeds " +:+ pretty MAX_CONTENT_BYTES
                          +:+ " content bytes"))
  | MutDelete => Ok tt
  end.

(** crates/harness-core/src/proposal.rs:213-244 (validate_operations, paths) *)
Fixpoint collect_paths (operations : list PatchOperation) (paths : gmap string string)
  : result HarnessError (gmap string string) :=
  match operations with
  | [] => Ok paths
  | o :: rest =>
      _ ← validate_operation o;
      let key := collision_key (po_path o) in
      match paths !! key with
      | Some existing =>
          invalid ("path collision: " +:+ po_path o +:+ " conflicts with " +:+ existing)
      | None => collect_paths rest (<[key := po_path o]> paths)
      end
  end.

(** crates/harness-core/src/proposal.rs:245-254 (validate_operations, containment) *)
Fixpoint check_containment (entries : list (string * string)) : result HarnessError unit :=
  match entries with
  | [] => Ok tt
  | (left_key, left_path) :: rest =>
      _ ← for_each (fun '(right_key, right_path) =>
            refuse_if (contains_path left_key right_key || contains_path right_key left_key)
              (HeProposalParse ("path conflict: " +:+ left_path +:+ " conflicts with " +:+ right_path)))
          rest;
      check_containment rest
  end.

(** crates/harness-core/src/proposal.rs:206-256 (validate_operations) *)
Definition validate_operations (operations : list PatchOperation) : result HarnessError unit :=
  _ ← refuse_if (bool_decide (length operations = 0%nat)
                 || bool_decide (MAX_OPERATIONS < Z.of_nat (length operations)))
        (HeProposalParse ("operations must contain 1..=" +:+ pretty MAX_OPERATIONS
                          +:+ " entries"));
  paths ← collect_paths operations ∅;
  check_containment (iter_map paths).

(** crates/harness-core/src/proposal.rs:134-149 (PatchProposal::validate) *)
Definition PatchProposal_validate (p : PatchProposal) : result HarnessError unit :=
  let w := pp_wire p in
  _ ← refuse_if (negb (bool_decide (pp_schema_version w = PATCH_PROPOSAL_SCHEMA_VERSION)))
        (HeProposalParse ("unsupported schema_version " +:+ pretty (pp_schema_version w)
                          +:+ "; expected " +:+ pretty PATCH_PROPOSAL_SCHEMA_VERSION));
  _ ← validate_prefixed_id (pp_proposal_id w) "cnt_";
  _ ← validate_prefixed_id (pp_producing_attempt_id w) "atm_";
  _ ← validate_prefixed_id (pp_base_checkpoint_id w) "ckp_";
  _ ← validate_lower_hex (pp_base_checkpoint_digest w);
  _ ← proposal_validate_gate_ids (pp_gate_ids w);
  _ ← validate_metadata p;
  validate_operations (pp_operations w).

(** crates/harness-core/src/proposal.rs:128-132 (PatchProposal::authoritative_value) *)
Definition authoritative_value (p : PatchProposal) : result HarnessError PatchProposalWire :=
  _ ← PatchProposal_validate p;
  Ok (pp_wire p).

Section Parse.
Context `{!Json PatchProposal}.

(** crates/harness-core/src/proposal.rs:88-96 (PatchProposal::parse_json) *)
Definition parse_json (text : string) : result HarnessError PatchProposal :=
  proposal ← map_err HeProposalParse (of_json (A:=PatchProposal) text);
  _ ← PatchProposal_validate proposal;
  mret proposal.

Definition fence : string :=
  String.concat EmptyString (replicate 3 (String (Ascii.ascii_of_nat 96) EmptyString)).

(** crates/harness-core/src/proposal.rs:328-333 (fenced_block) *)
Definition fenced_block (text opening : string) : option string :=
  found ← str_find opening text;
  let rest := str_drop (found + String.length opening) text in
  stop ← str_find fence rest;
  Some (str_trim (str_take stop rest)).

(** The first of a list of candidate texts that parses. *)
Fixpoint first_parsed (candidates : list string) : option PatchProposal :=
  match candidates with
  | [] => None
  | text :: rest =>
      match parse_json text with Ok proposal => Some proposal | _ => first_parsed rest end
  end.

(** The texts tried, in order: the whole text, a fenced block, the span from
    the first brace to the last. *)
Definition json_candidates (text : string) : list string :=
  [str_trim text]
  ++ option_list (fenced_block text (fence +:+ "json"))
  ++ match str_find "{" text, str_rfind_char (Ascii.ascii_of_nat 125) text with
     | Some start, Some stop =>
         if bool_decide (start < stop)%nat
         then [String.substring start (stop + 1 - start) text] else []
     | _, _ => []
     end.

(** crates/harness-core/src/proposal.rs:108-126 (PatchProposal::extract_from_text) *)
Definition extract_from_text (text : string) : result HarnessError PatchProposal :=
  ok_or (first_parsed (json_candidates text))
    (HeProposalParse "no JSON candidate parsed as a PatchProposal").
End Parse.
End Validate.

(** ** Gate identifiers: the sorted scan against the plain definition *)

Lemma adjacent_equal_spec l :
  Sorted str_le l -> adjacent_equal l = false <-> NoDup l.
Proof.
  intros Hs. apply (Sorted_StronglySorted _) in Hs. induction Hs as [|x l Hl IH Hx].
  { split; [constructor|done]. }
  cbn [adjacent_equal]. destruct l as [|y l].
  { split; [intros _; apply NoDup_singleton|done]. }
  rewrite orb_false_iff, IH, bool_decide_eq_false, (NoDup_cons x). split.
  - intros [Hne Hnd]. split; [|done]. intros Hin. apply Hne.
    apply elem_of_cons in Hin as [->|Hin]; [done|].
    inversion Hl as [|? ? ? Hy]; subst. inversion Hx; subst.
    rewrite Forall_forall in Hy. apply (anti_symm str_le); [done|by apply Hy].
  - intros [Hin Hnd]. split; [|done]. intros ->. apply Hin. constructor.
Qed.

Lemma validate_lower_hex_Ok s u : validate_lower_hex s = Ok u <-> is_hex_64 s = true.
Proof. unfold validate_lower_hex. destruct u, (is_hex_64 s); naive_solver. Qed.

(** A gate, checkpoint, attempt or proposal identifier. *)
Definition prefixed_id (prefix raw : string) : Prop :=
  exists body, raw = prefix +:+ body /\ is_hex_64 body = true.

Lemma validate_prefixed_id_Ok raw prefix u :
  validate_prefixed_id raw prefix = Ok u <-> prefixed_id prefix raw.
Proof.
  unfold validate_prefixed_id, prefixed_id. rewrite bind_Ok.
  setoid_rewrite ok_or_Ok. setoid_rewrite validate_lower_hex_Ok.
  setoid_rewrite strip_prefix_Some. done.
Qed.

(** [validate_gate_ids] finds duplicates by sorting and comparing
    neighbours, and that is equivalent to the plain statement: it accepts
    exactly the lists of 1 to 16 distinct identifiers, each `gat_` followed by
    64 lowercase hexadecimal digits, in whatever order they come. *)
Theorem validate_gate_ids_equiv gate_ids :
  proposal_validate_gate_ids gate_ids = Ok tt <->
  (1 <= Z.of_nat (length gate_ids) <= MAX_PROPOSAL_GATE_IDS)
  /\ Forall (prefixed_id "gat_") gate_ids /\ NoDup gate_ids.
Proof.
  unfold proposal_validate_gate_ids.
  assert (Hperm : NoDup gate_ids <-> NoDup (merge_sort str_le gate_ids)).
  { by rewrite (merge_sort_Permutation str_le gate_ids). }
  rewrite Hperm, <-(adjacent_equal_spec (merge_sort str_le gate_ids))
    by apply (Sorted_merge_sort _).
  assert (Hlen : bool_decide (gate_ids = [])
                 || bool_decide (MAX_PROPOSAL_GATE_IDS < Z.of_nat (length gate_ids)) = false
                 <-> 1 <= Z.of_nat (length gate_ids) <= MAX_PROPOSAL_GATE_IDS).
  { rewrite orb_false_iff, !bool_decide_eq_false. destruct gate_ids; cbn [length]; naive_solver lia. }
  rewrite <-Hlen, bind_Ok. setoid_rewrite bind_Ok. setoid_rewrite for_each_Ok.
  setoid_rewrite refuse_if_Ok. setoid_rewrite validate_prefixed_id_Ok. naive_solver.
Qed.

(** ** What an admitted proposal can touch *)

Section AdmittedProposals.
Context `{Unicode}.

(** A segment that names an entry below the repository root, outside [.git],
    on every supported platform. *)
Definition safe_segment (s : string) : Prop :=
  s <> EmptyString /\ s <> "." /\ s <> ".." /\ str_ascii_lower s <> ".git"
  /\ any_control s = false /\ str_contains_char (Ascii.ascii_of_nat 58) s = false.

Definition safe_repo_path (path : string) : Prop :=
  nfc path = path /\ 1 <= str_len path <= 4096 /\ starts_with "/" path = false
  /\ Forall safe_segment (str_split slash path).

Lemma is_empty_spec s : is_empty s = false <-> s <> EmptyString.
Proof. by destruct s. Qed.

Lemma validate_segment_Ok path s u : validate_segment path s = Ok u -> safe_segment s.
Proof.
  unfold validate_segment, safe_segment, eq_ignore_ascii_case. intros Hv. inv_result.
  split_and!; try done. by apply is_empty_spec.
Qed.

Lemma validate_repo_path_Ok path u : validate_repo_path path = Ok u -> safe_repo_path path.
Proof.
  unfold validate_repo_path, safe_repo_path. intros Hv. inv_result.
  split_and!; try done.
  - destruct path; [done|]. unfold str_len. cbn [String.length]. lia.
  - lia.
  - apply for_each_Ok in Hv. eapply Forall_impl; [exact Hv|]. intros s. apply validate_segment_Ok.
Qed.

(** What one operation may ask for. *)
Definition safe_operation (o : PatchOperation) : Prop :=
  safe_repo_path (po_path o)
  /\ (po_preimage o = PreAbsent -> po_mutation o <> MutDelete)
  /\ (forall d, po_preimage o = PreDigest d -> is_hex_64 d = true)
  /\ (forall c, po_mutation o = MutWrite c -> str_len c <= MAX_CONTENT_BYTES).

Lemma validate_operation_Ok o u : validate_operation o = Ok u -> safe_operation o.
Proof.
  unfold validate_operation, safe_operation. intros Hv. inv_result.
  split; [by eapply validate_repo_path_Ok|].
  destruct (po_preimage o) as [|d], (po_mutation o) as [c|]; inv_result;
    repeat match goal with Hx : validate_lower_hex _ = Ok _ |- _ =>
             apply validate_lower_hex_Ok in Hx end;
    split_and!; intros; simplify_eq; try done; lia.
Qed.

Definition operation_key (o : PatchOperation) : string := collision_key (po_path o).

Lemma collect_paths_Ok ops m m' :
  collect_paths ops m = Ok m' ->
  Forall safe_operation ops /\ NoDup (operation_key <$> ops)
  /\ (forall k, k ∈ operation_key <$> ops -> m !! k = None)
  /\ (forall k, is_Some (m' !! k) <-> is_Some (m !! k) \/ k ∈ operation_key <$> ops).
Proof.
  revert m. induction ops as [|o ops IH]; intros m Hc.
  - injection Hc as <-. split_and!; [constructor|constructor|set_solver|set_solver].
  - cbn [collect_paths] in Hc. apply bind_Ok in Hc as (u & Ho%validate_operation_Ok & Hc).
    fold (operation_key o) in Hc. destruct (m !! operation_key o) eqn:Hkey; [done|].
    destruct (IH _ Hc) as (Hs & Hnd & Hfresh & Hdom).
    assert (Hnew : operation_key o ∉ operation_key <$> ops).
    { intros Hin%Hfresh. by rewrite lookup_insert_eq in Hin. }
    split_and!; [by constructor|by constructor| |].
    + intros k [->|Hk]%elem_of_cons; [done|]. specialize (Hfresh k Hk).
      by apply lookup_insert_None in Hfresh as [? _].
    + intros k. rewrite Hdom, fmap_cons, elem_of_cons. destruct (decide (k = operation_key o)) as [->|Hk].
      * rewrite lookup_insert_eq. naive_solver.
      * rewrite lookup_insert_ne by done. naive_solver.
Qed.

Lemma check_containment_Ok entries u :
  check_containment entries = Ok u ->
  ForallOrdPairs (fun x y => contains_path x.1 y.1 = false /\ contains_path y.1 x.1 = false) entries.
Proof.
  induction entries as [|[k v] rest IH]; intros Hc; [constructor|].
  cbn [check_containment] in Hc. apply bind_Ok in Hc as ([] & Hh & Hc).
  constructor; [|by apply IH]. apply for_each_Ok in Hh.
  eapply Forall_impl; [exact Hh|]. intros [k' v'] Hr%refuse_if_Ok. by apply orb_false_iff in Hr.
Qed.

Lemma contains_path_irrefl k : contains_path k k = false.
Proof.
  unfold contains_path. rewrite <-(string_app_nil_r k) at 2. by rewrite strip_prefix_app.
Qed.

Lemma check_containment_keys (m : gmap string string) u k1 k2 :
  check_containment (iter_map m) = Ok u ->
  is_Some (m !! k1) -> is_Some (m !! k2) -> contains_path k1 k2 = false.
Proof.
  intros Hc%check_containment_Ok [v1 H1] [v2 H2].
  apply elem_of_iter_map, list_elem_of_In in H1, H2.
  destruct (ForallOrdPairs_In Hc _ _ H1 H2) as [[= ->]|[[? _]|[_ ?]]]; try done.
  apply contains_path_irrefl.
Qed.

(** C36: A proposal that passes [validate] can only touch what it names, and
    names nothing twice: it has 1 to 128 operations; every path is relative,
    normalized, and made of segments that are not empty, [.], [..] or [.git]
    in any case; a file is deleted only against a digest and a write is at
    most one MiB; and the paths of two different operations, compared after
    normalization and lowercasing, are different and neither lies below the
    other. *)
Theorem admitted_proposal_touches_named_paths p :
  PatchProposal_validate p = Ok tt ->
  let ops := pp_operations (pp_wire p) in
  1 <= Z.of_nat (length ops) <= MAX_OPERATIONS
  /\ Forall safe_operation ops
  /\ (forall i j a b, ops !! i = Some a -> ops !! j = Some b -> i <> j ->
        operation_key a <> operation_key b
        /\ contains_path (operation_key a) (operation_key b) = false).
Proof.
  intros Hv ops. unfold PatchProposal_validate in Hv. inv_result.
  unfold validate_operations in Hv. fold ops in Hv. inv_result. rename x into paths.
  match goal with Hc : collect_paths _ _ = Ok _ |- _ =>
    destruct (collect_paths_Ok _ _ _ Hc) as (Hs & Hnd & _ & Hdom) end.
  split_and!; [lia|lia|done|]. intros i j a b Ha Hb Hij. split.
  - intros Heq. apply Hij. apply (NoDup_lookup (operation_key <$> ops) i j (operation_key a)).
    + done.
    + by rewrite list_lookup_fmap, Ha.
    + by rewrite list_lookup_fmap, Hb, Heq.
  - eapply check_containment_keys; [done|apply Hdom; right..];
      apply list_elem_of_fmap_2; by eapply list_elem_of_lookup_2.
Qed.

(** What does not bear authority does not reach the writer: two proposals with
    the same wire fields that both validate serialize to the same value. *)
Lemma authoritative_value_ignores_narrative p q w :
  authoritative_value p = Ok w -> is_ok (PatchProposal_validate q) = true ->
  pp_wire q = pp_wire p -> authoritative_value q = Ok w.
Proof.
  unfold authoritative_value. intros Hp Hq Heq. inv_result.
  destruct (PatchProposal_validate q) as [[]| |]; try done. cbn. by rewrite Heq.
Qed.

Section Extract.
Context `{!Json PatchProposal}.

Lemma parse_json_valid text p :
  parse_json text = Ok p -> PatchProposal_validate p = Ok tt /\ of_json text = Ok p.
Proof. unfold parse_json. intros Hp. inv_result. destruct x0. done. Qed.

(** Whatever text a provider returns, an extracted proposal was decoded from
    a part of it and passed validation. *)
Lemma extract_from_text_valid text p :
  extract_from_text text = Ok p ->
  PatchProposal_validate p = Ok tt
  /\ exists c, c ∈ json_candidates text /\ of_json c = Ok p.
Proof.
  unfold extract_from_text. intros Hp%ok_or_Ok.
  induction (json_candidates text) as [|c cs IH]; [done|]. cbn in Hp.
  destruct (parse_json c) as [q| |] eqn:Hc.
  - injection Hp as ->. apply parse_json_valid in Hc as [? ?].
    split; [done|]. exists c. split; [constructor|done].
  - destruct (IH Hp) as (? & c' & ? & ?). split; [done|]. exists c'. split; [by constructor|done].
  - destruct (IH Hp) as (? & c' & ? & ?). split; [done|]. exists c'. split; [by constructor|done].
Qed.
End Extract.
End AdmittedProposals.

(** ** A concrete proposal *)

(** ASCII text: normalization does nothing and lowercasing is on letters. *)
Definition ascii_unicode : Unicode := {| nfc := fun s => s; to_lowercase := str_ascii_lower |}.

Definition sample_id (prefix : string) (digit : string) : string :=
  prefix +:+ String.concat EmptyString (replicate 64 digit).

Definition sample_wire : PatchProposalWire := {|
  pp_schema_version := 1;
  pp_proposal_id := sample_id "cnt_" "1";
  pp_producing_attempt_id := sample_id "atm_" "2";
  pp_base_checkpoint_id := sample_id "ckp_" "3";
  pp_base_checkpoint_digest := sample_id EmptyString "4";
  pp_operations :=
    [MkPatchOperation "src/main.rs" (PreDigest (sample_id EmptyString "5")) (MutWrite "fn main() {}");
     MkPatchOperation "docs/Old.md" (PreDigest (sample_id EmptyString "6")) MutDelete;
     MkPatchOperation "PONG.txt" PreAbsent (MutWrite "PONG")];
  pp_gate_ids := [sample_id "gat_" "8"; sample_id "gat_" "7"]
|}.

Definition sample_proposal : PatchProposal := MkPatchProposal sample_wire "create" ["done"] [] true.

Lemma admitted_proposal_touches_named_paths_witness :
  @PatchProposal_validate ascii_unicode sample_proposal = Ok tt
  /\ Forall (@safe_operation ascii_unicode) (pp_operations sample_wire).
Proof.
  assert (Hv : @PatchProposal_validate ascii_unicode sample_proposal = Ok tt)
    by (vm_compute; reflexivity).
  split; [exact Hv|].
  destruct (@admitted_proposal_touches_named_paths ascii_unicode sample_proposal Hv)
    as (_ & Hs & _). exact Hs.
Defined.

(** A directory and a file below it, equal up to case: refused. *)
Example proposal_path_conflict :
  @validate_operations ascii_unicode
    [MkPatchOperation "Src" PreAbsent (MutWrite "x");
     MkPatchOperation "src/main.rs" PreAbsent (MutWrite "y")]
  = Err (HeProposalParse "path conflict: Src conflicts with src/main.rs").
Proof. vm_compute. reflexivity. Qed.
