(* ===== verification/Events.v ===== *)
(** * Agent events

    Models crates/harness-core/src/event.rs, the uuid synthesis of ids.rs and
    the check of an invocation's event log in admission/receipt.rs. JSON values
    are serde_json's and are a parameter with the constructors the code uses;
    the fresh identifier and the clock reading of an envelope are arguments. *)

From S2P Require Import Prelude External HarnessErrors.
From stdpp Require Import options.

Local Open Scope Z_scope.

(** [serde_json::Value], with what the [json!] literals of the normalizer need. *)
Class JsonValue (V : Type) := {
  json_string : string -> V;
  json_u64 : Z -> V;
  json_object : list (string * V) -> V
}.

(** crates/harness-core/src/event.rs:32-87 (AgentEventKind) *)
Inductive AgentEventKind : Type :=
| EkSessionStarted | EkSessionReady | EkSessionIdentity | EkTurnStarted | EkTurnDelta
| EkTurnCompleted | EkTurnFailed | EkThinkingDelta | EkToolRequested
| EkToolStarted | EkToolCompleted | EkToolFailed | EkPermissionRequested
| EkPlanProposed | EkPlanWaiting | EkUsageReported | EkQuotaReported
| EkContextReported | EkAuthRequired | EkRateLimited | EkSteeringAcknowledged
| EkInterruptAcknowledged | EkCheckpointCompleted | EkSessionCompacted
| EkSessionTerminated | EkProtocolError.

Global Instance AgentEventKind_eq_dec : EqDecision AgentEventKind.
Proof. solve_decision. Defined.

(** crates/harness-core/src/event.rs:90-118 (AgentEventKind::ALL) *)
Definition AgentEventKind_ALL : list AgentEventKind :=
  [ EkSessionStarted; EkSessionReady; EkSessionIdentity; EkTurnStarted; EkTurnDelta
    ; EkTurnCompleted; EkTurnFailed; EkThinkingDelta; EkToolRequested; EkToolStarted
    ; EkToolCompleted; EkToolFailed; EkPermissionRequested; EkPlanProposed
    ; EkPlanWaiting; EkUsageReported; EkQuotaReported; EkContextReported
    ; EkAuthRequired; EkRateLimited; EkSteeringAcknowledged; EkInterruptAcknowledged
    ; EkCheckpointCompleted; EkSessionCompacted; EkSessionTerminated
    ; EkProtocolError ].

(** crates/harness-core/src/event.rs:120-151 (AgentEventKind::as_str) *)
Definition AgentEventKind_as_str (k : AgentEventKind) : string :=
  match k with
  | EkSessionStarted => "session.started"
  | EkSessionReady => "session.ready"
  | EkSessionIdentity => "session.identity"
  | EkTurnStarted => "turn.started"
  | EkTurnDelta => "turn.delta"
  | EkTurnCompleted => "turn.completed"
  | EkTurnFailed => "turn.failed"
  | EkThinkingDelta => "thinking.delta"
  | EkToolRequested => "tool.requested"
  | EkToolStarted => "tool.started"
  | EkToolCompleted => "tool.completed"
  | EkToolFailed => "tool.failed"
  | EkPermissionRequested => "permission.requested"
  | EkPlanProposed => "plan.proposed"
  | EkPlanWaiting => "plan.waiting"
  | EkUsageReported => "usage.reported"
  | EkQuotaReported => "quota.reported"
  | EkContextReported => "context.reported"
  | EkAuthRequired => "auth.required"
  | EkRateLimited => "rate_limited"
  | EkSteeringAcknowledged => "steering.acknowledged"
  | EkInterruptAcknowledged => "interrupt.acknowledged"
  | EkCheckpointCompleted => "checkpoint.completed"
  | EkSessionCompacted => "session.compacted"
  | EkSessionTerminated => "session.terminated"
  | EkProtocolError => "protocol.error"
  end.

(** crates/harness-core/src/event.rs:154-182 (AgentEvent) *)
Record AgentEvent (V : Type) : Type := MkAgentEvent {
  ae_event_id : string;
  ae_session_id : string;
  ae_invocation_id : option string;
  ae_native_session_id : option string;
  ae_provider : string;
  ae_model : option string;
  ae_kind : AgentEventKind;
  ae_timestamp : Z;
  ae_sequence : Z;
  ae_causation_id : option string;
  ae_payload : V;
  ae_raw_artifact : option string
}.
Arguments MkAgentEvent {V}.
Arguments ae_event_id {V}. Arguments ae_provider {V}. Arguments ae_kind {V}.
Arguments ae_sequence {V}. Arguments ae_payload {V}.

(** crates/harness-core/src/event.rs:184-191 (NativeMeta) *)
Record NativeMeta : Type := MkNativeMeta {
  nm_event_id : option string;
  nm_sequence : option Z
}.

(** crates/harness-core/src/event.rs:201-214 (EventNormalizer) *)
Record EventNormalizer : Type := MkEventNormalizer {
  en_session_id : string;
  en_provider : string;
  en_invocation_id : option string;
  en_native_session_id : option string;
  en_model : option string;
  en_raw_artifact : option string;
  en_next_sequence : Z;
  en_seen_native : gset string;
  en_last_native_sequence : option Z;
  en_turn_closed : bool
}.

(** crates/harness-core/src/event.rs:217-232 (EventNormalizer::new) *)
Definition EventNormalizer_new (session_id provider : string) : EventNormalizer := {|
  en_session_id := session_id;
  en_provider := provider;
  en_invocation_id := None;
  en_native_session_id := None;
  en_model := None;
  en_raw_artifact := None;
  en_next_sequence := 0;
  en_seen_native := ∅;
  en_last_native_sequence := None;
  en_turn_closed := false
|}.

(** crates/harness-core/src/event.rs:234-237 (EventNormalizer::set_invocation) *)
Definition set_invocation (invocation : string) (n : EventNormalizer) : EventNormalizer :=
  MkEventNormalizer (en_session_id n) (en_provider n) (Some invocation)
    (en_native_session_id n) (en_model n) (en_raw_artifact n)
    (en_next_sequence n) (en_seen_native n) (en_last_native_sequence n) (en_turn_closed n).

(** crates/harness-core/src/event.rs:239-242 (EventNormalizer::set_native_session) *)
Definition set_native_session (native : string) (n : EventNormalizer) : EventNormalizer :=
  MkEventNormalizer (en_session_id n) (en_provider n) (en_invocation_id n)
    (Some native) (en_model n) (en_raw_artifact n)
    (en_next_sequence n) (en_seen_native n) (en_last_native_sequence n) (en_turn_closed n).

(** crates/harness-core/src/event.rs:244-247 (EventNormalizer::set_model) *)
Definition set_model (model : string) (n : EventNormalizer) : EventNormalizer :=
  MkEventNormalizer (en_session_id n) (en_provider n) (en_invocation_id n)
    (en_native_session_id n) (Some model) (en_raw_artifact n)
    (en_next_sequence n) (en_seen_native n) (en_last_native_sequence n) (en_turn_closed n).

(** crates/harness-core/src/event.rs:249-252 (EventNormalizer::set_raw_artifact) *)
Definition set_raw_artifact (artifact : string) (n : EventNormalizer) : EventNormalizer :=
  MkEventNormalizer (en_session_id n) (en_provider n) (en_invocation_id n)
    (en_native_session_id n) (en_model n) (Some artifact)
    (en_next_sequence n) (en_seen_native n) (en_last_native_sequence n) (en_turn_closed n).

(** Assignments of one field. *)
Definition set_next_sequence (z : Z) (n : EventNormalizer) : EventNormalizer :=
  MkEventNormalizer (en_session_id n) (en_provider n) (en_invocation_id n)
    (en_native_session_id n) (en_model n) (en_raw_artifact n) z
    (en_seen_native n) (en_last_native_sequence n) (en_turn_closed n).
Definition set_seen_native (x : gset string) (n : EventNormalizer) : EventNormalizer :=
  MkEventNormalizer (en_session_id n) (en_provider n) (en_invocation_id n)
    (en_native_session_id n) (en_model n) (en_raw_artifact n) (en_next_sequence n)
    x (en_last_native_sequence n) (en_turn_closed n).
Definition set_last_native (o : option Z) (n : EventNormalizer) : EventNormalizer :=
  MkEventNormalizer (en_session_id n) (en_provider n) (en_invocation_id n)
    (en_native_session_id n) (en_model n) (en_raw_artifact n) (en_next_sequence n)
    (en_seen_native n) o (en_turn_closed n).
Definition set_turn_closed (b : bool) (n : EventNormalizer) : EventNormalizer :=
  MkEventNormalizer (en_session_id n) (en_provider n) (en_invocation_id n)
    (en_native_session_id n) (en_model n) (en_raw_artifact n) (en_next_sequence n)
    (en_seen_native n) (en_last_native_sequence n) b.

(** Kinds that close a turn, and kinds that are stale once it is closed. *)
Definition closes_turn (k : AgentEventKind) : bool :=
  match k with EkTurnCompleted | EkTurnFailed => true | _ => false end.
Definition stream_delta (k : AgentEventKind) : bool :=
  match k with EkTurnDelta | EkThinkingDelta => true | _ => false end.

Section Normalizer.
Context {V : Type} `{!JsonValue V}.

(** crates/harness-core/src/event.rs:254-271 (EventNormalizer::envelope) *)
Definition envelope (event_id : string) (now : Z) (kind : AgentEventKind) (payload : V)
  (n : EventNormalizer) : EventNormalizer * AgentEvent V :=
  let sequence := en_next_sequence n in
  let n := set_next_sequence (u64_wrapping_add sequence 1) n in
  (n, MkAgentEvent event_id (en_session_id n) (en_invocation_id n) (en_native_session_id n)
        (en_provider n) (en_model n) kind now sequence None payload (en_raw_artifact n)).

(** crates/harness-core/src/event.rs:322-328 (EventNormalizer::anomaly) *)
Definition anomaly (event_id : string) (now : Z) (reason_code : string) (detail : V)
  (n : EventNormalizer) : EventNormalizer * AgentEvent V :=
  envelope event_id now EkProtocolError
    (json_object [("reason_code", json_string reason_code); ("detail", detail)]) n.

(** crates/harness-core/src/event.rs:317-320 (EventNormalizer::malformed) *)
Definition malformed (event_id : string) (now : Z) (raw_line : string) (n : EventNormalizer)
  : EventNormalizer * AgentEvent V :=
  anomaly event_id now "MALFORMED_EVENT" (json_object [("raw", json_string raw_line)]) n.

(** crates/harness-core/src/event.rs:273-315 (EventNormalizer::accept) *)
Definition accept (event_id : string) (now : Z) (kind : AgentEventKind) (payload : V)
  (native : NativeMeta) (n : EventNormalizer) : EventNormalizer * AgentEvent V :=
  let duplicate :=
    match nm_event_id native with
    | Some id => if bool_decide (id ∈ en_seen_native n) then Some id else None
    | None => None
    end in
  match duplicate with
  | Some native_id =>
      anomaly event_id now "DUPLICATE_EVENT"
        (json_object [("native_event_id", json_string native_id)]) n
  | None =>
      let n := match nm_event_id native with
               | Some id => set_seen_native ({[id]} ∪ en_seen_native n) n
               | None => n
               end in
      let late :=
        match nm_sequence native, en_last_native_sequence n with
        | Some seq, Some last => if bool_decide (seq <= last) then Some seq else None
        | _, _ => None
        end in
      match late with
      | Some native_seq =>
          anomaly event_id now "OUT_OF_ORDER_EVENT"
            (json_object [("native_sequence", json_u64 native_seq);
                          ("dropped_kind", json_string (AgentEventKind_as_str kind))]) n
      | None =>
          let n := match nm_sequence native with
                   | Some seq => set_last_native (Some seq) n
                   | None => n
                   end in
          if bool_decide (kind = EkTurnStarted) then
            envelope event_id now kind payload (set_turn_closed false n)
          else if en_turn_closed n && stream_delta kind then
            anomaly event_id now "STALE_EVENT"
              (json_object [("dropped_kind", json_string (AgentEventKind_as_str kind))]) n
          else
            let n := if closes_turn kind then set_turn_closed true n else n in
            envelope event_id now kind payload n
      end
  end.

(** One line of a provider stream as the adapters hand it over. *)
Inductive stream_input : Type :=
| Parsed (kind : AgentEventKind) (payload : V) (native : NativeMeta)
| Garbage (raw_line : string).

Definition normalize_one (event_id : string) (now : Z) (input : stream_input)
  (n : EventNormalizer) : EventNormalizer * AgentEvent V :=
  match input with
  | Parsed kind payload native => accept event_id now kind payload native n
  | Garbage raw_line => malformed event_id now raw_line n
  end.

(** The envelopes of a stream, with the identifier and clock reading of each. *)
Fixpoint normalize (inputs : list (string * Z * stream_input)) (n : EventNormalizer)
  : EventNormalizer * list (AgentEvent V) :=
  match inputs with
  | [] => (n, [])
  | (event_id, now, input) :: rest =>
      let '(n, ev) := normalize_one event_id now input n in
      let '(n, evs) := normalize rest n in
      (n, ev :: evs)
  end.
End Normalizer.

(** ** The log of one invocation *)

(** The locals of the loop; the three counters are [u8] and saturate. *)
Record log_scan : Type := MkLogScan {
  ls_ids : gset string;
  ls_last_sequence : option Z;
  ls_started : Z;
  ls_completed : Z;
  ls_failed : Z;
  ls_closed : bool
}.

Definition u8_saturating_inc (z : Z) : Z := Z.min 255 (z + 1).

Definition refuses_after_close (k : AgentEventKind) : bool :=
  match k with
  | EkTurnDelta | EkThinkingDelta | EkToolRequested | EkToolStarted | EkToolCompleted
  | EkToolFailed => true
  | _ => false
  end.

Section Log.
Context {V : Type}.
Variable provider : string.

Definition protocol_error {A} (reason : string) : result HarnessError A :=
  Err (HeProtocol provider reason).

(** crates/harness-core/src/admission/receipt.rs:319-369 (validate_invocation_events, loop body) *)
Definition scan_event (s : log_scan) (event : AgentEvent V) : result HarnessError log_scan :=
  _ ← refuse_if
        (negb (bool_decide (ae_provider event = provider))
         || bool_decide (ae_event_id event ∈ ls_ids s)
         || match ls_last_sequence s with
            | Some sequence => bool_decide (ae_sequence event <= sequence)
            | None => false
            end)
        (HeProtocol provider "duplicate or out-of-order envelope");
  _ ← refuse_if (bool_decide (ae_kind event = EkProtocolError))
        (HeProtocol provider "provider stream contains protocol.error");
  _ ← refuse_if (bool_decide (ae_kind event = EkTurnStarted) && ls_closed s)
        (HeProtocol provider "delayed turn started after terminal event");
  _ ← refuse_if (ls_closed s && refuses_after_close (ae_kind event))
        (HeProtocol provider "delayed event arrived after turn terminal");
  mret (MkLogScan ({[ae_event_id event]} ∪ ls_ids s) (Some (ae_sequence event))
    (if bool_decide (ae_kind event = EkTurnStarted)
     then u8_saturating_inc (ls_started s) else ls_started s)
    (if bool_decide (ae_kind event = EkTurnCompleted)
     then u8_saturating_inc (ls_completed s) else ls_completed s)
    (if bool_decide (ae_kind event = EkTurnFailed)
     then u8_saturating_inc (ls_failed s) else ls_failed s)
    (closes_turn (ae_kind event) || ls_closed s)).

Fixpoint scan_events (s : log_scan) (events : list (AgentEvent V))
  : result HarnessError log_scan :=
  match events with
  | [] => Ok s
  | event :: rest => s ← scan_event s event; scan_events s rest
  end.

(** crates/harness-core/src/admission/receipt.rs:312-377 (validate_invocation_events) *)
Definition validate_invocation_events (events : list (AgentEvent V)) : result HarnessError unit :=
  s ← scan_events (MkLogScan ∅ None 0 0 0 false) events;
  refuse_if (negb (bool_decide (ls_started s = 1)) || negb (bool_decide (ls_completed s = 1))
             || negb (bool_decide (ls_failed s = 0)))
    (HeProtocol provider
       "invocation must contain exactly one turn start and successful terminal").
End Log.

(** ** Identifiers *)

Section Uuid.
Context `{Blake3} `{Hex}.

(** crates/harness-core/src/ids.rs:42-64 (synthetic_uuid) *)
Definition synthetic_uuid (seed : string) (nanos pid count : Z) : string :=
  let material := seed +:+ ":" +:+ pretty nanos +:+ ":" +:+ pretty pid +:+ ":" +:+ pretty count in
  let h := hex_encode (array32_bytes (blake3_hash material)) in
  String.substring 0 8 h +:+ "-" +:+ String.substring 8 4 h +:+ "-4"
  +:+ String.substring 13 3 h +:+ "-8" +:+ String.substring 17 3 h +:+ "-"
  +:+ String.substring 20 12 h.

Lemma substring_length n m s :
  (n + m <= String.length s)%nat -> String.length (String.substring n m s) = m.
Proof.
  revert n m. induction s as [|a s IH]; intros [|n] [|m]; cbn; intros; try lia; auto.
  - f_equal. apply IH. lia.
  - apply IH. lia.
  - apply IH. lia.
Qed.

(** The text has the 36 characters of a version 4 uuid. *)
Lemma synthetic_uuid_length `{!HexLaws} seed nanos pid count :
  String.length (synthetic_uuid seed nanos pid count) = 36%nat.
Proof.
  unfold synthetic_uuid. rewrite !string_app_length.
  assert (String.length (hex_encode (array32_bytes (blake3_hash
    (seed +:+ ":" +:+ pretty nanos +:+ ":" +:+ pretty pid +:+ ":" +:+ pretty count)))) = 64%nat).
  { by rewrite hex_encode_length, array32_length. }
  rewrite !substring_length by lia. done.
Qed.
End Uuid.

(** ** The log scan against its plain statement *)

Section LogSpec.
Context {V : Type}.
Implicit Types (e : AgentEvent V) (es : list (AgentEvent V)) (s : log_scan).
Variable provider : string.

(** No event that belongs inside a turn follows the event that closed it. *)
Definition quiet_event e : Prop :=
  ae_kind e <> EkTurnStarted /\ refuses_after_close (ae_kind e) = false.

Fixpoint quiet_after_close (closed : bool) es : Prop :=
  match es with
  | [] => True
  | e :: rest =>
      (closed = true -> quiet_event e) /\ quiet_after_close (closes_turn (ae_kind e) || closed) rest
  end.

Definition count_kind (k : AgentEventKind) es : Z :=
  Z.of_nat (length (filter (fun e => ae_kind e = k) es)).

(** What the log of one successful invocation looks like. *)
Record wellformed_log (es : list (AgentEvent V)) : Prop := {
  wl_provider : Forall (fun e => ae_provider e = provider) es;
  wl_ids : NoDup (ae_event_id <$> es);
  wl_sequences : StronglySorted Z.lt (ae_sequence <$> es);
  wl_no_error : Forall (fun e => ae_kind e <> EkProtocolError) es;
  wl_started : count_kind EkTurnStarted es = 1;
  wl_completed : count_kind EkTurnCompleted es = 1;
  wl_failed : count_kind EkTurnFailed es = 0;
  wl_quiet : forall before e after, es = before ++ e :: after ->
    closes_turn (ae_kind e) = true -> Forall quiet_event after
}.

Definition event_ok s e : Prop :=
  ae_provider e = provider /\ (ae_event_id e ∉ ls_ids s)
  /\ (forall last, ls_last_sequence s = Some last -> last < ae_sequence e)
  /\ ae_kind e <> EkProtocolError /\ (ls_closed s = true -> quiet_event e).

Definition advance s e : log_scan :=
  MkLogScan ({[ae_event_id e]} ∪ ls_ids s) (Some (ae_sequence e))
    (if bool_decide (ae_kind e = EkTurnStarted)
     then u8_saturating_inc (ls_started s) else ls_started s)
    (if bool_decide (ae_kind e = EkTurnCompleted)
     then u8_saturating_inc (ls_completed s) else ls_completed s)
    (if bool_decide (ae_kind e = EkTurnFailed)
     then u8_saturating_inc (ls_failed s) else ls_failed s)
    (closes_turn (ae_kind e) || ls_closed s).

Lemma scan_event_Ok s e s' : scan_event provider s e = Ok s' <-> event_ok s e /\ s' = advance s e.
Proof.
  unfold scan_event, event_ok, quiet_event, advance. split.
  - intros Hs. inv_result. split; [|done]. split_and!; try done.
    + intros last Hl. rewrite Hl in *. inv_result. lia.
    + intros Hc. rewrite Hc in *. rewrite andb_true_r in *. rewrite andb_true_l in *. by inv_result.
  - intros [(Hp & Hid & Hseq & Hk & Hq) ->].
    rewrite (bool_decide_true _ Hp), (bool_decide_false _ Hid), (bool_decide_false _ Hk).
    assert (match ls_last_sequence s with
            | Some sequence => bool_decide (ae_sequence e <= sequence)
            | None => false end = false) as ->.
    { destruct (ls_last_sequence s) as [last|]; [|done].
      apply bool_decide_eq_false. specialize (Hseq last eq_refl). lia. }
    destruct (ls_closed s) eqn:Hc; cbn; rewrite ?andb_false_r; [|done].
    destruct (Hq eq_refl) as [Hk' ->]. by rewrite (bool_decide_false _ Hk').
Qed.

Fixpoint events_ok s es : Prop :=
  match es with [] => True | e :: rest => event_ok s e /\ events_ok (advance s e) rest end.

Lemma scan_events_Ok s es s' :
  scan_events provider s es = Ok s' <-> events_ok s es /\ s' = foldl advance s es.
Proof.
  revert s. induction es as [|e es IH]; intros s; cbn; [naive_solver|].
  rewrite bind_Ok. setoid_rewrite scan_event_Ok. setoid_rewrite IH. naive_solver.
Qed.

Lemma events_ok_spec s es :
  events_ok s es <->
  Forall (fun e => ae_provider e = provider) es
  /\ (NoDup (ae_event_id <$> es) /\ Forall (fun e => ae_event_id e ∉ ls_ids s) es)
  /\ (StronglySorted Z.lt (ae_sequence <$> es)
      /\ forall last, ls_last_sequence s = Some last -> Forall (Z.lt last) (ae_sequence <$> es))
  /\ Forall (fun e => ae_kind e <> EkProtocolError) es
  /\ quiet_after_close (ls_closed s) es.
Proof.
  revert s. induction es as [|e es IH]; intros s.
  { cbn. split; [|done]. intros _. split_and!; try constructor; constructor. }
  cbn [events_ok quiet_after_close]. rewrite IH, !fmap_cons, NoDup_cons, !Forall_cons.
  assert (Hids : Forall (fun x => ae_event_id x ∉ ls_ids (advance s e)) es
                 <-> (ae_event_id e ∉ (ae_event_id <$> es)) /\ Forall (fun x => ae_event_id x ∉ ls_ids s) es).
  { rewrite list_elem_of_fmap, !Forall_forall. cbn. set_solver. }
  assert (Hseq : (forall last, ls_last_sequence (advance s e) = Some last ->
                    Forall (Z.lt last) (ae_sequence <$> es))
                 <-> Forall (Z.lt (ae_sequence e)) (ae_sequence <$> es)).
  { cbn. naive_solver. }
  rewrite Hids, Hseq. unfold event_ok.
  assert (Hs : StronglySorted Z.lt (ae_sequence e :: (ae_sequence <$> es)) <->
               StronglySorted Z.lt (ae_sequence <$> es)
               /\ Forall (Z.lt (ae_sequence e)) (ae_sequence <$> es)).
  { split; [by inversion 1|]. intros []. by constructor. }
  rewrite Hs. cbn [ls_closed advance].
  assert (Htrans : forall last, last < ae_sequence e ->
    Forall (Z.lt (ae_sequence e)) (ae_sequence <$> es) -> Forall (Z.lt last) (ae_sequence <$> es)).
  { intros last Hl Hall. eapply Forall_impl; [exact Hall|]. cbn. lia. }
  setoid_rewrite Forall_cons. naive_solver.
Qed.

Lemma quiet_true es : quiet_after_close true es <-> Forall quiet_event es.
Proof.
  induction es as [|e es IH]; cbn; [split; [constructor|done]|].
  rewrite orb_true_r, IH, Forall_cons. naive_solver.
Qed.

Lemma quiet_false es :
  quiet_after_close false es <->
  forall before e after, es = before ++ e :: after ->
    closes_turn (ae_kind e) = true -> Forall quiet_event after.
Proof.
  induction es as [|e es IH]; cbn.
  { split; [|done]. intros _ [] ? ? ?; done. }
  rewrite orb_false_r. split.
  - intros [_ Hq] before x after Heq Hx. destruct before as [|y before]; cbn in Heq; simplify_eq.
    + rewrite Hx in Hq. by apply quiet_true.
    + destruct (closes_turn (ae_kind y)).
      * apply quiet_true in Hq. apply Forall_app in Hq as [_ Hq]. by inversion Hq.
      * by eapply (proj1 IH).
  - intros Hall. split; [done|]. destruct (closes_turn (ae_kind e)) eqn:Hc.
    + apply quiet_true. by apply (Hall [] e es).
    + apply IH. intros before x after -> Hx. by apply (Hall (e :: before) x after).
Qed.

(** A saturating counter of the events of one kind. *)
Lemma scan_counts (f : log_scan -> Z) (k : AgentEventKind) es s :
  (forall s e, f (advance s e)
     = if bool_decide (ae_kind e = k) then u8_saturating_inc (f s) else f s) ->
  0 <= f s <= 255 -> f (foldl advance s es) = Z.min 255 (f s + count_kind k es).
Proof.
  intros Hf. revert s. induction es as [|e es IH]; intros s Hs; cbn [foldl].
  { unfold count_kind. cbn. lia. }
  assert (Hcount : count_kind k (e :: es)
                   = (if bool_decide (ae_kind e = k) then 1 else 0) + count_kind k es).
  { unfold count_kind. rewrite filter_cons.
    destruct (decide (ae_kind e = k)); [rewrite bool_decide_true|rewrite bool_decide_false];
      try done; cbn [length]; lia. }
  assert (0 <= count_kind k es) by (unfold count_kind; lia).
  rewrite IH by (rewrite Hf; unfold u8_saturating_inc; case_bool_decide; lia).
  rewrite Hcount, Hf. unfold u8_saturating_inc. case_bool_decide; lia.
Qed.

Lemma invocation_log_accepted es :
  validate_invocation_events provider es = Ok tt <-> wellformed_log es.
Proof.
  unfold validate_invocation_events. set (s0 := MkLogScan ∅ None 0 0 0 false).
  rewrite bind_Ok. setoid_rewrite scan_events_Ok. setoid_rewrite refuse_if_Ok.
  setoid_rewrite events_ok_spec.
  pose proof (scan_counts ls_started EkTurnStarted es s0 (fun _ _ => eq_refl) ltac:(cbn; lia)) as H1.
  pose proof (scan_counts ls_completed EkTurnCompleted es s0 (fun _ _ => eq_refl) ltac:(cbn; lia)) as H2.
  pose proof (scan_counts ls_failed EkTurnFailed es s0 (fun _ _ => eq_refl) ltac:(cbn; lia)) as H3.
  cbn [s0 ls_started ls_completed ls_failed ls_closed ls_ids ls_last_sequence] in *.
  setoid_rewrite quiet_false. split.
  - intros (s & [(Hp & [Hid _] & [Hseq _] & Hk & Hq) ->] & Hc). inv_result.
    constructor; try done; unfold count_kind in *; lia.
  - intros [Hp Hid Hseq Hk Hs Hc Hf Hq]. eexists. split; [split; [|done]|].
    + split_and!; try done. apply Forall_forall. set_solver.
    + rewrite H1, H2, H3, Hs, Hc, Hf. done.
Qed.

(** C39: The event log of an invocation is accepted exactly when it is
    well-formed: every envelope is the provider's, identifiers are distinct
    and sequence numbers increase, there is no `protocol.error`, exactly one
    turn starts and exactly one completes, none fails, and no turn, delta or
    tool event follows the event that closed the turn. The single pass with
    saturating byte counters decides this plain statement. *)
Theorem invocation_log_accepted_iff es :
  validate_invocation_events provider es = Ok tt <-> wellformed_log es.
Proof. apply invocation_log_accepted. Qed.
End LogSpec.

(** ** What the normalizer guarantees *)

Section NormalizerSpec.
Context {V : Type} `{!JsonValue V}.
Implicit Types (e : AgentEvent V) (es : list (AgentEvent V)) (n : EventNormalizer).

Definition input_native (i : @stream_input V) : option string :=
  match i with Parsed _ _ native => nm_event_id native | Garbage _ => None end.

Definition input_kind (i : @stream_input V) : AgentEventKind :=
  match i with Parsed kind _ _ => kind | Garbage _ => EkProtocolError end.

Definition closed_after (k : AgentEventKind) (closed : bool) : bool :=
  if bool_decide (k = EkTurnStarted) then false else closes_turn k || closed.

(** One step: the envelope takes the next sequence number, keeps the kind or
    is an anomaly, and the flags follow the kind that was emitted. *)
Record one_step (event_id : string) (i : @stream_input V) (n n' : EventNormalizer) e : Prop := {
  os_sequence : ae_sequence e = en_next_sequence n;
  os_next : en_next_sequence n' = u64_wrapping_add (en_next_sequence n) 1;
  os_provider : ae_provider e = en_provider n /\ en_provider n' = en_provider n;
  os_id : ae_event_id e = event_id;
  os_kind : ae_kind e = input_kind i \/ ae_kind e = EkProtocolError;
  os_seen : en_seen_native n ⊆ en_seen_native n';
  os_native : forall id, input_native i = Some id ->
    id ∈ en_seen_native n' /\ (id ∈ en_seen_native n -> ae_kind e = EkProtocolError);
  os_closed : en_turn_closed n' = closed_after (ae_kind e) (en_turn_closed n);
  os_delta : en_turn_closed n = true -> stream_delta (ae_kind e) = false
}.

(** The state an envelope is made from, and its kind. *)
Record prepared (i : @stream_input V) (n m : EventNormalizer) (k : AgentEventKind) : Prop := {
  pr_counter : en_next_sequence m = en_next_sequence n /\ en_provider m = en_provider n;
  pr_kind : k = input_kind i \/ k = EkProtocolError;
  pr_seen : en_seen_native n ⊆ en_seen_native m;
  pr_native : forall id, input_native i = Some id ->
    id ∈ en_seen_native m /\ (id ∈ en_seen_native n -> k = EkProtocolError);
  pr_closed : en_turn_closed m = closed_after k (en_turn_closed n);
  pr_delta : en_turn_closed n = true -> stream_delta k = false
}.

Lemma prepared_step i n m k event_id now payload n' e :
  prepared i n m k -> envelope event_id now k payload m = (n', e) -> one_step event_id i n n' e.
Proof. intros [[Hs Hp] ???? ?] [= <- <-]. split; cbn; rewrite ?Hs, ?Hp; auto. Qed.

(** Recording a native identifier and a native sequence. *)
Definition recorded (native : NativeMeta) n : EventNormalizer :=
  match nm_event_id native with
  | Some id => set_seen_native ({[id]} ∪ en_seen_native n) n
  | None => n
  end.

Lemma recorded_prepared kind payload native n m k :
  let i := Parsed kind payload native in
  (forall id, nm_event_id native = Some id -> id ∉ en_seen_native n) ->
  en_next_sequence m = en_next_sequence n -> en_provider m = en_provider n ->
  en_seen_native m = en_seen_native (recorded native n) ->
  k = kind \/ k = EkProtocolError ->
  en_turn_closed m = closed_after k (en_turn_closed n) ->
  (en_turn_closed n = true -> stream_delta k = false) -> prepared i n m k.
Proof.
  intros i Hfresh Hs Hp Hseen Hk Hc Hd. split; try done.
  - rewrite Hseen. unfold recorded. destruct (nm_event_id native); cbn; set_solver.
  - cbn. intros id Hid. rewrite Hseen. unfold recorded. rewrite Hid. cbn.
    specialize (Hfresh id Hid). set_solver.
Qed.

Lemma accept_prepared event_id now kind payload native n :
  exists m k p, prepared (Parsed kind payload native) n m k
    /\ accept event_id now kind payload native n = envelope event_id now k p m.
Proof.
  assert (Hcase : (exists id, nm_event_id native = Some id /\ id ∈ en_seen_native n)
                  \/ forall id, nm_event_id native = Some id -> id ∉ en_seen_native n).
  { destruct (nm_event_id native) as [id|]; [|by right].
    destruct (decide (id ∈ en_seen_native n)); [left; by exists id|right; by intros ? [= <-]]. }
  destruct Hcase as [(id & Hid & Hin)|Hnew].
  { unfold accept, anomaly. rewrite Hid, (bool_decide_true _ Hin).
    eexists n, EkProtocolError, _. split; [|reflexivity]. split; cbn; try done; [by right|].
    rewrite Hid. intros ? [= <-]. done. }
  assert (Hdup : match nm_event_id native with
                 | Some id => if bool_decide (id ∈ en_seen_native n) then Some id else None
                 | None => None end = None).
  { destruct (nm_event_id native) as [id|] eqn:Hid; [|done].
    by rewrite bool_decide_false by (by apply Hnew). }
  unfold accept, anomaly. rewrite Hdup. fold (recorded native n). cbv zeta.
  assert (Hrec : en_next_sequence (recorded native n) = en_next_sequence n
                 /\ en_provider (recorded native n) = en_provider n
                 /\ en_turn_closed (recorded native n) = en_turn_closed n).
  { unfold recorded. by destruct (nm_event_id native). }
  destruct Hrec as (Hr1 & Hr2 & Hr3).
  destruct (match nm_sequence native with Some seq => _ | None => None end) as [late|].
  { eexists _, EkProtocolError, _. split; [|reflexivity].
    apply recorded_prepared; try done. by right. }
  set (m := match nm_sequence native with
            | Some seq => set_last_native (Some seq) (recorded native n)
            | None => recorded native n end).
  assert (Hm : en_next_sequence m = en_next_sequence n /\ en_provider m = en_provider n
               /\ en_turn_closed m = en_turn_closed n
               /\ en_seen_native m = en_seen_native (recorded native n)).
  { unfold m. by destruct (nm_sequence native). }
  destruct Hm as (Hm1 & Hm2 & Hm3 & Hm4).
  destruct (bool_decide_reflect (kind = EkTurnStarted)) as [->|Hk].
  { eexists _, EkTurnStarted, _. split; [|reflexivity]. apply recorded_prepared; try done. by left. }
  destruct (en_turn_closed m && stream_delta kind) eqn:Hstale.
  { eexists _, EkProtocolError, _. split; [|reflexivity]. apply recorded_prepared; try done; by right. }
  eexists _, kind, _. split; [|reflexivity].
  apply recorded_prepared; try done; try (by destruct (closes_turn kind)); [by left| |].
  - unfold closed_after. rewrite bool_decide_false by done. destruct (closes_turn kind); [done|].
    by rewrite Hm3.
  - intros Hc. by rewrite Hm3, Hc in Hstale.
Qed.

Lemma normalize_one_step event_id now i n n' e :
  normalize_one event_id now i n = (n', e) -> one_step event_id i n n' e.
Proof.
  destruct i as [kind payload native|raw]; cbn.
  - destruct (accept_prepared event_id now kind payload native n) as (m & k & p & Hm & ->).
    by apply prepared_step.
  - apply (prepared_step _ n n EkProtocolError). split; cbn; try done. by left.
Qed.

(** ** Whole streams *)

Lemma normalize_cons event_id now i rest n n' es :
  normalize ((event_id, now, i) :: rest) n = (n', es) ->
  exists n1 e es', es = e :: es' /\ one_step event_id i n n1 e /\ normalize rest n1 = (n', es').
Proof.
  cbn. destruct (normalize_one event_id now i n) as [n1 e] eqn:Hone.
  destruct (normalize rest n1) as [n2 es2] eqn:Hrest. intros [= <- <-].
  exists n1, e, es2. split_and!; [done|by eapply normalize_one_step|done].
Qed.

(** A sequence of numbers starting at [z]. *)
Lemma normalize_sequences inputs n n' es :
  normalize inputs n = (n', es) -> is_u64 (en_next_sequence n) ->
  en_next_sequence n + Z.of_nat (length inputs) <= u64_max ->
  ae_sequence <$> es = seqZ (en_next_sequence n) (Z.of_nat (length inputs)).
Proof.
  revert n es. induction inputs as [|[[id now] i] rest IH]; intros n es Hn Hu Hlen.
  - cbn in Hn. simplify_eq. done.
  - apply normalize_cons in Hn as (n1 & e & es' & -> & Hs & Hrest).
    cbn [length] in *. rewrite seqZ_cons by lia. rewrite fmap_cons, (os_sequence _ _ _ _ _ Hs).
    f_equal. pose proof (os_next _ _ _ _ _ Hs) as Hnext.
    unfold is_u64, u64_max in *.
    rewrite u64_wrapping_add_small in Hnext by (unfold is_u64, u64_max; lia).
    rewrite (IH n1 es' Hrest) by lia. rewrite Hnext. f_equal; lia.
Qed.

(** While the turn is closed no delta is emitted before a turn starts. *)
Lemma normalize_closed inputs n n' mid d after :
  normalize inputs n = (n', mid ++ d :: after) -> en_turn_closed n = true ->
  Forall (fun e => ae_kind e <> EkTurnStarted) mid -> stream_delta (ae_kind d) = false.
Proof.
  revert inputs n. induction mid as [|e mid IH]; intros inputs n Hn Hc Hmid;
    (destruct inputs as [|[[id now] i] rest]; [by cbn in Hn; simplify_eq|]);
    apply normalize_cons in Hn as (n1 & e' & es' & Heq & Hs & Hrest);
    cbn in Heq; simplify_eq.
  - by apply (os_delta _ _ _ _ _ Hs).
  - inversion Hmid; subst. apply (IH rest n1); [done| |done].
    rewrite (os_closed _ _ _ _ _ Hs). unfold closed_after.
    rewrite bool_decide_false by done. by rewrite Hc, orb_true_r.
Qed.

Lemma normalize_split inputs n n' before e after :
  normalize inputs n = (n', before ++ e :: after) -> closes_turn (ae_kind e) = true ->
  exists rest m, normalize rest m = (n', after) /\ en_turn_closed m = true.
Proof.
  revert inputs n. induction before as [|x before IH]; intros inputs n Hn He;
    (destruct inputs as [|[[id now] i] rest]; [by cbn in Hn; simplify_eq|]);
    apply normalize_cons in Hn as (n1 & e' & es' & Heq & Hs & Hrest);
    cbn in Heq; simplify_eq.
  - exists rest, n1. split; [done|]. rewrite (os_closed _ _ _ _ _ Hs). unfold closed_after.
    rewrite He. rewrite bool_decide_false; [done|]. by intros Hk; rewrite Hk in He.
  - by eapply IH.
Qed.

(** A native identifier seen before gives an anomaly. *)
Lemma normalize_seen inputs n n' es j id i e :
  normalize inputs n = (n', es) -> id ∈ en_seen_native n ->
  inputs.*2 !! j = Some i -> input_native i = Some id -> es !! j = Some e ->
  ae_kind e = EkProtocolError.
Proof.
  revert n es j. induction inputs as [|[[eid now] x] rest IH]; intros n es j Hn Hseen Hi Hid He; [done|].
  apply normalize_cons in Hn as (n1 & e1 & es' & -> & Hs & Hrest).
  destruct j as [|j]; cbn in Hi, He; simplify_eq.
  - destruct (os_native _ _ _ _ _ Hs id Hid) as [_ Hk]. by apply Hk.
  - apply (IH n1 es' j Hrest); try done. pose proof (os_seen _ _ _ _ _ Hs). set_solver.
Qed.

Lemma normalize_duplicates inputs n n' es j k id a b e :
  normalize inputs n = (n', es) -> (j < k)%nat ->
  inputs.*2 !! j = Some a -> inputs.*2 !! k = Some b ->
  input_native a = Some id -> input_native b = Some id ->
  es !! k = Some e -> ae_kind e = EkProtocolError.
Proof.
  revert n es j k. induction inputs as [|[[eid now] x] rest IH];
    intros n es j k Hn Hjk Ha Hb Hia Hib He; [done|].
  apply normalize_cons in Hn as (n1 & e1 & es' & -> & Hs & Hrest).
  destruct k as [|k]; [lia|]. destruct j as [|j]; cbn in Ha, Hb, He; simplify_eq.
  - destruct (os_native _ _ _ _ _ Hs id Hia) as [Hin _].
    by apply (normalize_seen rest n1 n' es' k id b e).
  - apply (IH n1 es' j k); try done. lia.
Qed.

(** A normalized provider stream cannot corrupt its own order: from a new
    normalizer the envelopes are numbered 0, 1, 2, ... without gap; a line
    whose native identifier was seen before becomes `protocol.error`; and no
    text or thinking delta is emitted after a turn closed until another turn
    starts. *)
Theorem normalized_stream_ordered session provider inputs n es :
  normalize inputs (EventNormalizer_new session provider) = (n, es) ->
  Z.of_nat (length inputs) <= u64_max ->
  ae_sequence <$> es = seqZ 0 (Z.of_nat (length inputs))
  /\ (forall j k id a b e, (j < k)%nat -> inputs.*2 !! j = Some a -> inputs.*2 !! k = Some b ->
        input_native a = Some id -> input_native b = Some id -> es !! k = Some e ->
        ae_kind e = EkProtocolError)
  /\ (forall before c mid d after, es = before ++ c :: mid ++ d :: after ->
        closes_turn (ae_kind c) = true -> Forall (fun e => ae_kind e <> EkTurnStarted) mid ->
        stream_delta (ae_kind d) = false).
Proof.
  intros Hn Hlen. split_and!.
  - by apply (normalize_sequences _ _ _ _ Hn).
  - intros j k id a b e. by apply (normalize_duplicates _ _ _ _ _ _ _ _ _ _ Hn).
  - intros before c mid d after -> Hc Hmid.
    apply normalize_split in Hn as (rest & m & Hrest & Hm); [|done].
    by apply (normalize_closed _ _ _ _ _ _ Hrest Hm).
Qed.
End NormalizerSpec.

(** ** A concrete stream *)

(** JSON values reduced to their text. *)
Definition text_values : JsonValue string := {|
  json_string := fun s => s;
  json_u64 := fun z => pretty z;
  json_object := fun fields => String.concat ", " ((fun '(k, v) => k +:+ ": " +:+ v) <$> fields)
|}.

Definition sample_stream : list (string * Z * @stream_input string) :=
  [("e0", 0, Parsed EkTurnStarted "start" (MkNativeMeta (Some "n0") (Some 1)));
   ("e1", 1, Parsed EkTurnDelta "text" (MkNativeMeta (Some "n1") (Some 2)));
   ("e2", 2, Parsed EkTurnCompleted "end" (MkNativeMeta (Some "n2") (Some 3)));
   ("e3", 3, Parsed EkTurnDelta "late" (MkNativeMeta (Some "n3") (Some 4)));
   ("e4", 4, Parsed EkUsageReported "again" (MkNativeMeta (Some "n1") (Some 5)));
   ("e5", 5, Garbage "not json")].

Definition sample_envelopes : list (AgentEvent string) :=
  (@normalize string text_values sample_stream (EventNormalizer_new "s" "claude")).2.

Example sample_kinds :
  ae_kind <$> sample_envelopes =
  [EkTurnStarted; EkTurnDelta; EkTurnCompleted; EkProtocolError; EkProtocolError; EkProtocolError].
Proof. vm_compute. reflexivity. Qed.

Lemma normalized_stream_ordered_witness :
  ae_sequence <$> sample_envelopes = seqZ 0 6.
Proof.
  refine (proj1 (@normalized_stream_ordered string text_values "s" "claude" sample_stream
    (@normalize string text_values sample_stream (EventNormalizer_new "s" "claude")).1
    sample_envelopes _ _)); [vm_compute; reflexivity|cbn; unfold u64_max; lia].
Defined.

(** The log up to the end of the turn is accepted. *)
Example sample_log_accepted :
  validate_invocation_events "claude" (take 3 sample_envelopes) = Ok tt
  /\ validate_invocation_events "claude" sample_envelopes
     = Err (HeProtocol "claude" "provider stream contains protocol.error").
Proof. split; vm_compute; reflexivity. Qed.
