(* ===== verification/Credentials.v ===== *)
(** * Staging provider credentials

    Models crates/harness-core/src/admission/credentials.rs on Unix: the unique
    provider HOME, the positive child environment, and the copy of individually
    admitted files. The home under construction and the file system are one
    state, because a failing step leaves both as they are and the home is then
    dropped. The uuid in the name of the home is an argument. *)

From S2P Require Import Prelude External Ids Text HarnessErrors Paths Argv.
From stdpp Require Import options.

Local Open Scope Z_scope.

(** crates/harness-core/src/admission/credentials.rs:13-13 (MAX_CREDENTIAL_FILES) *)
Definition MAX_CREDENTIAL_FILES : Z := 4.
(** crates/harness-core/src/admission/credentials.rs:14-14 (MAX_CREDENTIAL_BYTES) *)
Definition MAX_CREDENTIAL_BYTES : Z := 1024 * 1024.

(** crates/harness-core/src/admission/credentials.rs:16-25 (CredentialGrant) *)
Record CredentialGrant : Type := MkCredentialGrant {
  cg_source : string;
  cg_target : string;
  cg_expected_blake3 : string
}.

(** crates/harness-core/src/admission/credentials.rs:27-34 (CredentialReceipt) *)
Record CredentialReceipt : Type := MkCredentialReceipt {
  cr_target : string;
  cr_blake3 : string
}.

(** crates/harness-core/src/admission/credentials.rs:36-44 (PreparedProviderHome) *)
Record PreparedProviderHome : Type := MkPreparedProviderHome {
  ph_home : string;
  ph_env : list (string * string);
  ph_credentials : list CredentialReceipt;
  ph_files : list string;
  ph_directories : list string
}.

Definition refused {A} (reason : string) : result HarnessError A := Err (HeAdmissionRefused reason).

(** crates/harness-core/src/admission/credentials.rs:226-237 (positive_env) *)
Definition positive_env (vars : list (string * string)) (home : string)
  : list (string * string) :=
  let env := collect_map (filter_env vars) in
  iter_map
    (<["XDG_CONFIG_HOME" := home +:+ "/.config"]>
      (<["XDG_CACHE_HOME" := home +:+ "/.cache"]>
        (<["TMPDIR" := home +:+ "/tmp"]> (<["HOME" := home]> env)))).

(** crates/harness-core/src/admission/credentials.rs:252-264 (validate_relative) *)
Definition validate_relative (path : string) : result HarnessError unit :=
  if is_empty path || path_is_absolute path
     || existsb (fun c => match c with Normal _ => false | _ => true end) (path_components path)
  then refused "credential target must contain only normal relative components"
  else Ok tt.

(** crates/harness-core/src/admission/credentials.rs:291-302 (validate_digest) *)
Definition validate_credential_digest (value : string) : result HarnessError unit :=
  if is_hex_64 value then Ok tt
  else refused "credential digest must be 64 lowercase hex characters".

(** crates/harness-core/src/admission/credentials.rs:277-287 (validate_grants, loop) *)
Fixpoint check_grants (allowed seen : list (list Component)) (grants : list CredentialGrant)
  : result HarnessError unit :=
  match grants with
  | [] => Ok tt
  | grant :: rest =>
      let target := path_components (cg_target grant) in
      _ ← validate_relative (cg_target grant);
      _ ← refuse_if (negb (bool_decide (target ∈ allowed)))
            (HeAdmissionRefused "credential target is outside its exact allowlist");
      _ ← refuse_if (bool_decide (target ∈ seen)) (HeAdmissionRefused "duplicate credential target");
      _ ← validate_credential_digest (cg_expected_blake3 grant);
      check_grants allowed (target :: seen) rest
  end.

(** crates/harness-core/src/admission/credentials.rs:266-289 (validate_grants) *)
Definition validate_grants (allowed_targets : list string) (grants : list CredentialGrant)
  : result HarnessError unit :=
  let allowed := path_components <$> allowed_targets in
  _ ← refuse_if (negb (bool_decide (NoDup allowed)))
        (HeAdmissionRefused "duplicate credential allowlist target");
  _ ← for_each validate_relative allowed_targets;
  check_grants allowed [] grants.

(** crates/harness-core/src/admission/credentials.rs:315-323 (same_file) *)
Definition same_file (before opened : Metadata) : bool :=
  bool_decide (md_kind before = IsFile) && bool_decide (md_kind opened = IsFile)
  && bool_decide (md_dev before = md_dev opened) && bool_decide (md_ino before = md_ino opened)
  && bool_decide (md_len before = md_len opened).

Section Stage.
Context `{Blake3} `{Hex} {S : Type} `{!Files S}.

(** A system call whose failure is reported with its context. *)
Definition io {A} (context : string) (m : stateful S string A) : stateful S HarnessError A :=
  st_map_err (HeIo context) m.

(** The file system and the home being staged. *)
Definition staging : Type := S * PreparedProviderHome.

Definition on_files {A} (m : stateful S HarnessError A) : stateful staging HarnessError A :=
  fun '(s, home) => let '(t, r) := m s in ((t, home), r).

Definition on_home (f : PreparedProviderHome -> PreparedProviderHome)
  : stateful staging HarnessError unit :=
  fun '(s, home) => ((s, f home), Ok tt).

(** crates/harness-core/src/admission/credentials.rs:325-330 (set_mode) *)
Definition set_mode (path : string) (mode : Z) : stateful S HarnessError unit :=
  io "set staged permission" (fs_set_mode path mode).

(** crates/harness-core/src/admission/credentials.rs:332-336 (sync_directory) *)
Definition sync_directory (path : string) : stateful S HarnessError unit :=
  io "sync provider directory" (file ← fs_open path; fs_sync_all file).

(** crates/harness-core/src/admission/credentials.rs:239-250 (canonical_directory) *)
Definition canonical_directory (path label : string) : stateful S HarnessError string :=
  _ ← pure_step (refuse_if (negb (path_is_absolute path))
        (HeAdmissionRefused (label +:+ " must be absolute")));
  canonical ← io ("canonicalize " +:+ label) (fs_canonicalize path);
  is_dir ← (if path_eq canonical path then asks (fs_is_dir canonical) else mret false);
  _ ← pure_step (refuse_if (negb is_dir)
        (HeAdmissionRefused (label +:+ " must be a canonical directory")));
  mret canonical.

(** crates/harness-core/src/admission/credentials.rs:304-313 (read_bounded) *)
Definition read_bounded (file : fs_handle) : stateful S HarnessError bytes :=
  content ← io "read credential" (fs_read_limited file (MAX_CREDENTIAL_BYTES + 1));
  _ ← pure_step (refuse_if (bool_decide (MAX_CREDENTIAL_BYTES < str_len content))
        (HeAdmissionRefused "credential file exceeds the one MiB limit"));
  mret content.

Definition add_directory (d : string) (p : PreparedProviderHome) : PreparedProviderHome :=
  MkPreparedProviderHome (ph_home p) (ph_env p) (ph_credentials p) (ph_files p)
    (ph_directories p ++ [d]).

Definition add_credential (file : string) (r : CredentialReceipt) (p : PreparedProviderHome)
  : PreparedProviderHome :=
  MkPreparedProviderHome (ph_home p) (ph_env p) (ph_credentials p ++ [r])
    (ph_files p ++ [file]) (ph_directories p).

(** crates/harness-core/src/admission/credentials.rs:184-200 (PreparedProviderHome::create_target_parents, loop) *)
Fixpoint create_parents (current : string) (components : list Component)
  : stateful staging HarnessError unit :=
  match components with
  | [] => mret tt
  | Normal segment :: rest =>
      let current := path_join current segment in
      present ← on_files (asks (fs_exists current));
      _ ← (if present : bool then mret tt
           else _ ← on_files (io "create credential directory" (fs_create_dir current));
                _ ← on_files (set_mode current 448);
                on_home (add_directory current));
      metadata ← on_files (io "credential directory metadata" (fs_symlink_metadata current));
      _ ← pure_step (refuse_if (negb (bool_decide (md_kind metadata = IsDir)))
            (HeAdmissionRefused "credential target parent is not a directory"));
      create_parents current rest
  | _ :: _ => pure_step (refused "credential target has a non-normal component")
  end.

(** crates/harness-core/src/admission/credentials.rs:178-202 (PreparedProviderHome::create_target_parents) *)
Definition create_target_parents (target : string) : stateful staging HarnessError unit :=
  home ← reading (fun s : staging => Ok (ph_home s.2));
  match path_parent_components target with
  | None => mret tt
  | Some parent => create_parents home parent
  end.

(** crates/harness-core/src/admission/credentials.rs:123-151 (PreparedProviderHome::copy_one, source) *)
Definition read_credential (grant : CredentialGrant) : stateful S HarnessError (bytes * string) :=
  metadata ← io "credential metadata" (fs_symlink_metadata (cg_source grant));
  _ ← pure_step (refuse_if (negb (path_is_absolute (cg_source grant))
                            || negb (bool_decide (md_kind metadata = IsFile)))
        (HeAdmissionRefused "credential source must be an absolute regular file"));
  _ ← pure_step (refuse_if (bool_decide (MAX_CREDENTIAL_BYTES < md_len metadata))
        (HeAdmissionRefused "credential file exceeds the one MiB limit"));
  canonical ← io "canonicalize credential" (fs_canonicalize (cg_source grant));
  _ ← pure_step (refuse_if (negb (path_eq canonical (cg_source grant)))
        (HeAdmissionRefused "credential source is not canonical"));
  input ← io "open credential" (fs_open canonical);
  opened ← io "opened credential metadata" (fs_handle_metadata input);
  _ ← pure_step (refuse_if (negb (same_file metadata opened))
        (HeAdmissionRefused "credential identity changed while opening"));
  content ← read_bounded input;
  let digest := file_digest content in
  _ ← pure_step (refuse_if (negb (bool_decide (digest = cg_expected_blake3 grant)))
        (HeAdmissionRefused "credential digest mismatch"));
  mret (content, digest).

(** crates/harness-core/src/admission/credentials.rs:121-176 (PreparedProviderHome::copy_one) *)
Definition copy_one (grant : CredentialGrant) : stateful staging HarnessError unit :=
  '(content, digest) ← on_files (read_credential grant);
  home ← reading (fun s : staging => Ok (ph_home s.2));
  let target := path_join home (cg_target grant) in
  _ ← create_target_parents (cg_target grant);
  output ← on_files (io "create staged credential" (fs_create_new target));
  _ ← on_files (io "write staged credential"
        (_ ← fs_write_all output content; fs_sync_all output));
  _ ← on_files (set_mode target 256);
  _ ← on_files (io "sync staged credential mode" (fs_sync_all output));
  _ ← match path_parent target with
      | Some parent => on_files (sync_directory parent)
      | None => mret tt
      end;
  on_home (add_credential target (MkCredentialReceipt (cg_target grant) digest)).

(** `for x in xs { step(x)?; }` on a mutable receiver. *)
Fixpoint st_for_each {T E A} (f : A -> stateful T E unit) (xs : list A) : stateful T E unit :=
  match xs with
  | [] => mret tt
  | x :: rest => _ ← f x; st_for_each f rest
  end.

(** crates/harness-core/src/admission/credentials.rs:206-223 (PreparedProviderHome::drop) *)
Definition drop_home (home : PreparedProviderHome) : stateful S HarnessError unit :=
  let remove kind (rm : string -> stateful S string unit) path : stateful S HarnessError unit :=
    fun s => match fs_symlink_metadata path s with
             | (t, Ok metadata) =>
                 if bool_decide (md_kind metadata = kind) then ignore (rm path) t else (t, Ok tt)
             | (t, _) => (t, Ok tt)
             end in
  _ ← st_for_each (remove IsFile fs_remove_file) (rev (ph_files home));
  st_for_each (remove IsDir fs_remove_dir) (rev (ph_directories home)).

Definition receipt_le : relation CredentialReceipt := fun x y => str_le (cr_target x) (cr_target y).
Global Instance receipt_le_dec : RelDecision receipt_le.
Proof. intros x y. unfold receipt_le. apply _. Defined.

Global Instance receipt_le_total : Total receipt_le.
Proof. intros x y. apply (total str_le). Qed.

Definition sort_credentials (p : PreparedProviderHome) : PreparedProviderHome :=
  MkPreparedProviderHome (ph_home p) (ph_env p) (merge_sort receipt_le (ph_credentials p))
    (ph_files p) (ph_directories p).

(** crates/harness-core/src/admission/credentials.rs:84-97 (PreparedProviderHome::stage, filling) *)
Definition fill_home (grants : list CredentialGrant) : stateful staging HarnessError unit :=
  home ← reading (fun s : staging => Ok (ph_home s.2));
  _ ← st_for_each (fun relative =>
        let directory := path_join home relative in
        _ ← on_files (io "create provider HOME directory" (fs_create_dir directory));
        _ ← on_files (set_mode directory 448);
        on_home (add_directory directory)) ["tmp"; ".cache"; ".config"];
  _ ← st_for_each copy_one grants;
  _ ← on_home sort_credentials;
  on_files (sync_directory home).

(** The home is dropped when filling it fails. *)
Definition fill_or_drop (grants : list CredentialGrant) (staged : PreparedProviderHome)
  : stateful S HarnessError PreparedProviderHome :=
  fun s =>
    match fill_home grants (s, staged) with
    | ((t, staged), Ok _) => (t, Ok staged)
    | ((t, staged), Err e) => ((drop_home staged t).1, Err e)
    | ((t, staged), Panic) => ((drop_home staged t).1, Panic)
    end.

(** crates/harness-core/src/admission/credentials.rs:47-100 (PreparedProviderHome::stage) *)
Definition stage (uuid runtime_root : string) (allowed_targets : list string)
  (grants : list CredentialGrant) (inherited_env : list (string * string))
  : stateful S HarnessError PreparedProviderHome :=
  _ ← pure_step (refuse_if (bool_decide (MAX_CREDENTIAL_FILES < Z.of_nat (length grants)))
        (HeAdmissionRefused "too many credential files"));
  _ ← pure_step (validate_grants allowed_targets grants);
  canonical_root ← canonical_directory runtime_root "runtime root";
  let home := path_join canonical_root ("provider-home-" +:+ uuid) in
  _ ← io "create provider HOME" (fs_create_dir home);
  _ ← set_mode home 448;
  _ ← sync_directory canonical_root;
  fill_or_drop grants
    (MkPreparedProviderHome home (positive_env inherited_env home) [] [] [home]).
End Stage.

(** ** The child environment *)

Definition HOME_VARS : list string := ["HOME"; "TMPDIR"; "XDG_CACHE_HOME"; "XDG_CONFIG_HOME"].

(** The names a staged child sees, and where its home directories are. *)
Lemma positive_env_elem vars home k v :
  (k, v) ∈ positive_env vars home ->
  k ∈ INHERITED_ENV_ALLOWLIST \/ (k ∈ HOME_VARS /\ starts_with home v = true).
Proof.
  unfold positive_env. rewrite elem_of_iter_map. intros Hk.
  repeat (apply lookup_insert_Some in Hk as [[<- <-]|[_ Hk]];
    [right; split; [apply (bool_decide_unpack _); vm_compute; exact I|];
     apply starts_with_spec; first [by eexists | exists EmptyString; by rewrite string_app_nil_r]|]).
  left. apply collect_map_lookup in Hk as (b & a & Hba & _).
  assert (Hin : (k, v) ∈ filter_env vars) by (rewrite Hba; set_solver).
  by apply filter_env_elem in Hin as [Hin _].
Qed.

Lemma positive_env_keys vars home : NoDup (positive_env vars home).*1.
Proof. apply iter_map_keys_NoDup. Qed.

Lemma positive_env_home vars home : ("HOME", home) ∈ positive_env vars home.
Proof. unfold positive_env. rewrite elem_of_iter_map. by repeat (rewrite lookup_insert_ne by done); rewrite lookup_insert_eq. Qed.

(** ** Grants *)

Lemma check_grants_Ok allowed seen grants u :
  check_grants allowed seen grants = Ok u ->
  Forall (fun g => path_components (cg_target g) ∈ allowed
                   /\ is_hex_64 (cg_expected_blake3 g) = true) grants
  /\ NoDup ((fun g => path_components (cg_target g)) <$> grants)
  /\ Forall (fun g => path_components (cg_target g) ∉ seen) grants.
Proof.
  revert seen. induction grants as [|g grants IH]; intros seen Hc.
  { split_and!; constructor. }
  cbn [check_grants] in Hc. inv_result. apply IH in Hc as (Hall & Hnd & Hseen).
  unfold validate_credential_digest in *. case_result.
  split_and!; [by constructor| |constructor; [done|]].
  - rewrite fmap_cons. constructor; [|done]. intros Hin.
    apply list_elem_of_fmap in Hin as (g' & Heq & Hg'). rewrite Forall_forall in Hseen.
    specialize (Hseen g' Hg'). set_solver.
  - eapply Forall_impl; [exact Hseen|]. cbn. set_solver.
Qed.

(** ** What staging copies *)

Section StageSpec.
Context `{Blake3} `{Hex} {S : Type} `{!Files S}.

(** Steps that only add directories leave the rest of the home alone. *)
Definition same_home (s t : staging (S:=S)) : Prop :=
  ph_home t.2 = ph_home s.2 /\ ph_env t.2 = ph_env s.2 /\ ph_credentials t.2 = ph_credentials s.2.

Global Instance same_home_preorder : PreOrder same_home.
Proof. split; unfold same_home; [done|]. intros s t u (?&?&?) (?&?&?). split_and!; congruence. Qed.

Lemma on_files_Ok {A} (m : stateful S HarnessError A) (s t : staging (S:=S)) a :
  on_files m s = (t, Ok a) <-> m s.1 = (t.1, Ok a) /\ t.2 = s.2.
Proof.
  destruct s as [s h], t as [t h']. cbn. destruct (m s) as [t' r]. split.
  - by intros [= <- <- ->].
  - by intros [[= -> ->] ->].
Qed.

Lemma moves_on_files {A} (m : stateful S HarnessError A) : moves same_home (on_files m).
Proof. intros [s h]. cbn. by destruct (m s) as [t []]. Qed.

Lemma moves_add_directory d : moves same_home (on_home (S:=S) (add_directory d)).
Proof. by intros [s h]. Qed.

Lemma moves_for_each {A} (f : A -> stateful (staging (S:=S)) HarnessError unit) xs :
  (forall x, moves same_home (f x)) -> moves same_home (st_for_each f xs).
Proof.
  intros Hf. induction xs as [|x xs IH]; [apply moves_ret, _|].
  apply moves_bind; [apply _|apply Hf|]. intros _. exact IH.
Qed.

(** The directories of a target. *)
Lemma moves_create_parents current components :
  moves same_home (create_parents (S:=S) current components).
Proof.
  revert current. induction components as [|c rest IH]; intros current; [apply moves_ret, _|].
  destruct c; try (apply moves_pure, _). cbn [create_parents].
  repeat first [apply moves_bind; [apply _| |intros ?] | apply moves_on_files
               | apply moves_pure, _ | apply IH ].
  match goal with |- moves _ (if ?b then _ else _) => destruct b end; [apply moves_ret, _|].
  repeat first [apply moves_bind; [apply _| |intros ?] | apply moves_on_files].
  apply moves_add_directory.
Qed.

Lemma moves_Ok {A} (m : stateful (staging (S:=S)) HarnessError A) s t a :
  moves same_home m -> m s = (t, Ok a) -> same_home s t.
Proof. intros Hm Hs. specialize (Hm s). by rewrite Hs in Hm. Qed.

(** The receipt a grant must leave. *)
Definition grant_receipt (g : CredentialGrant) : CredentialReceipt :=
  MkCredentialReceipt (cg_target g) (cg_expected_blake3 g).

Lemma read_credential_Ok g (s t : S) content digest :
  read_credential g s = (t, Ok (content, digest)) ->
  digest = cg_expected_blake3 g /\ digest = file_digest content
  /\ str_len content <= MAX_CREDENTIAL_BYTES.
Proof.
  unfold read_credential, read_bounded, io. intros Hr. inv_st. split_and!; [done|done|lia].
Qed.

Lemma copy_one_Ok g (s t : staging (S:=S)) u :
  copy_one g s = (t, Ok u) ->
  ph_home t.2 = ph_home s.2 /\ ph_env t.2 = ph_env s.2
  /\ ph_credentials t.2 = ph_credentials s.2 ++ [grant_receipt g].
Proof.
  unfold copy_one. intros Hc. apply st_bind_Ok in Hc as (s1 & [content digest] & Hread & Hc).
  apply on_files_Ok in Hread as [Hread H1]. apply read_credential_Ok in Hread as (-> & _ & _).
  apply st_bind_Ok in Hc as (s2 & home & Hh & Hc). apply st_reading_Ok in Hh as [-> _].
  apply st_bind_Ok in Hc as (s3 & u3 & Hp & Hc).
  assert (H3 : same_home s1 s3).
  { apply (moves_Ok _ _ _ _) in Hp; [done|]. unfold create_target_parents.
    apply moves_bind; [apply _|apply moves_reading, _|]. intros hm.
    destruct (path_parent_components _); [apply moves_create_parents|apply moves_ret, _]. }
  inv_st. repeat match goal with Hx : on_files _ _ = (_, Ok _) |- _ =>
                   apply on_files_Ok in Hx as [? Hx] end.
  match goal with Hx : match path_parent ?p with _ => _ end _ = (?y, Ok _) |- _ =>
    assert (Hpar : y.2 = s3.2); [destruct (path_parent p)|] end.
  { match goal with Hx : on_files (sync_directory _) _ = _ |- _ =>
      apply on_files_Ok in Hx as [_ Hx] end. congruence. }
  { inv_st. congruence. }
  destruct H3 as (Ha & Hb & Hd).
  match goal with Hx : on_home _ ?y = (t, Ok u) |- _ =>
    destruct y as [yf yh]; cbn in Hx; injection Hx as <- end.
  cbn in *. subst yh. rewrite Ha, Hb, Hd, H1. done.
Qed.

Lemma copy_all_Ok grants (s t : staging (S:=S)) u :
  st_for_each copy_one grants s = (t, Ok u) ->
  ph_home t.2 = ph_home s.2 /\ ph_env t.2 = ph_env s.2
  /\ ph_credentials t.2 = ph_credentials s.2 ++ (grant_receipt <$> grants).
Proof.
  revert s. induction grants as [|g grants IH]; intros s Hc; cbn [st_for_each] in Hc.
  { inv_st. by rewrite app_nil_r. }
  apply st_bind_Ok in Hc as (s1 & [] & Hg & Hc). apply copy_one_Ok in Hg as (Ha & Hb & Hd).
  apply IH in Hc as (-> & -> & ->). rewrite Ha, Hb, Hd. split_and!; [done..|].
  by rewrite <-app_assoc.
Qed.

(** What a successful run reports: the receipts, the environment, the home. *)
Lemma stage_Ok uuid root allowed grants vars (s t : S) home :
  stage uuid root allowed grants vars s = (t, Ok home) ->
  ph_credentials home ≡ₚ grant_receipt <$> grants
  /\ Sorted receipt_le (ph_credentials home)
  /\ Z.of_nat (length grants) <= MAX_CREDENTIAL_FILES
  /\ NoDup ((fun g => path_components (cg_target g)) <$> grants)
  /\ Forall (fun g => path_components (cg_target g) ∈ path_components <$> allowed) grants
  /\ NoDup (ph_env home).*1
  /\ (forall k v, (k, v) ∈ ph_env home ->
        k ∈ INHERITED_ENV_ALLOWLIST \/ (k ∈ HOME_VARS /\ starts_with (ph_home home) v = true))
  /\ exists canonical, path_eq canonical root = true
       /\ ph_home home = path_join canonical ("provider-home-" +:+ uuid).
Proof.
  unfold stage. intros Hs. inv_st.
  match goal with Hv : validate_grants _ _ = Ok _ |- _ => unfold validate_grants in Hv end.
  inv_result.
  match goal with Hv : check_grants _ _ _ = Ok _ |- _ =>
    apply check_grants_Ok in Hv as (Hall & Hnd & _) end.
  match goal with Hv : canonical_directory _ _ _ = (_, Ok ?c) |- _ =>
    rename c into canonical; unfold canonical_directory in Hv end. inv_st.
  match goal with Hq : (if path_eq ?c root then _ else _) _ = (_, Ok _) |- _ =>
    destruct (path_eq c root) eqn:Heq; [|by inv_st] end.
  match goal with Hf : fill_or_drop _ ?h ?x = _ |- _ =>
    unfold fill_or_drop in Hf;
    destruct (fill_home grants (x, h)) as [[t' home'] [[]| |]] eqn:Hfill; simplify_eq end.
  unfold fill_home in Hfill. inv_st.
  match goal with Hd : st_for_each _ ["tmp"; _; _] _ = _ |- _ =>
    apply moves_Ok in Hd; [destruct Hd as (Ha & Hb & Hc)|apply moves_for_each] end.
  2: { intros dir. repeat first [apply moves_bind; [apply _| |intros ?] | apply moves_on_files].
       apply moves_add_directory. }
  match goal with Hg : st_for_each copy_one _ _ = _ |- _ =>
    apply copy_all_Ok in Hg as (Hg1 & Hg2 & Hg3) end.
  match goal with Hh : on_home sort_credentials ?y = _ |- _ =>
    destruct y as [yf yh]; cbn in Hh; injection Hh as <- end.
  match goal with Hh : on_files (sync_directory _) _ = _ |- _ =>
    apply on_files_Ok in Hh as [_ Hh]; cbn in Hh; subst home end.
  cbn in *. rewrite Hg1, Ha, Hg2, Hb, Hg3, Hc. cbn [app].
  split_and!.
  - apply merge_sort_Permutation.
  - apply (Sorted_merge_sort _).
  - lia.
  - done.
  - eapply Forall_impl; [exact Hall|]. by intros g [].
  - apply positive_env_keys.
  - apply positive_env_elem.
  - by exists canonical.
Qed.
End StageSpec.

(** ** What staging does to the file system

    [recorded_files] is any file system beside the list of the calls that read
    or change a file, with what they were given and what they returned; the
    questions (metadata, existence, canonical names) and [sync_all] are not
    listed. *)

Section Recorded.
Context `{Blake3} `{Hex} {S : Type} `{!Files S}.

Inductive file_event : Type :=
| EvOpened (path : string) (h : fs_handle)
| EvRead (h : fs_handle) (content : bytes)
| EvReadPath (path : string) (content : bytes)
| EvMadeDir (path : string)
| EvCreated (path : string) (h : fs_handle)
| EvWrote (h : fs_handle) (content : bytes)
| EvMode (path : string) (mode : Z)
| EvRemoved (path : string)
| EvFailed.

Definition recording : Type := S * list file_event.

Definition quietly {A} (m : stateful S string A) : stateful recording string A :=
  fun '(s, log) => let '(t, r) := m s in ((t, log), r).
Definition question (q : S -> S * bool) : recording -> recording * bool :=
  fun '(s, log) => let '(t, b) := q s in ((t, log), b).
Definition record {A} (ev : A -> file_event) (m : stateful S string A) : stateful recording string A :=
  fun '(s, log) => match m s with
                   | (t, Ok a) => ((t, log ++ [ev a]), Ok a)
                   | (t, r) => ((t, log ++ [EvFailed]), r)
                   end.

Definition recorded_files : Files recording := {|
  fs_handle := fs_handle;
  fs_symlink_metadata path := quietly (fs_symlink_metadata path);
  fs_canonicalize path := quietly (fs_canonicalize path);
  fs_is_dir path := question (fs_is_dir path);
  fs_exists path := question (fs_exists path);
  fs_read path := record (EvReadPath path) (fs_read path);
  fs_open path := record (EvOpened path) (fs_open path);
  fs_handle_metadata h := quietly (fs_handle_metadata h);
  fs_read_to_end h := record (EvRead h) (fs_read_to_end h);
  fs_read_limited h n := record (EvRead h) (fs_read_limited h n);
  fs_create_dir path := record (fun _ => EvMadeDir path) (fs_create_dir path);
  fs_create_new path := record (EvCreated path) (fs_create_new path);
  fs_write_all h content := record (fun _ => EvWrote h content) (fs_write_all h content);
  fs_sync_all h := quietly (fs_sync_all h);
  fs_set_mode path mode := record (fun _ => EvMode path mode) (fs_set_mode path mode);
  fs_remove_file path := record (fun _ => EvRemoved path) (fs_remove_file path);
  fs_remove_dir path := record (fun _ => EvRemoved path) (fs_remove_dir path)
|}.

#[local] Existing Instance recorded_files.
Implicit Types (s t : recording) (x y z : staging (S:=recording)).

Lemma record_Ok {A} ev (m : stateful S string A) s t a :
  record ev m s = (t, Ok a) -> t.2 = s.2 ++ [ev a].
Proof. destruct s as [s log]. unfold record. destruct (m s) as [s' [v|e|]]; by intros [= <- <-]. Qed.

Lemma quietly_Ok {A} (m : stateful S string A) s t a : quietly m s = (t, Ok a) -> t.2 = s.2.
Proof. destruct s as [s log]. unfold quietly. destruct (m s) as [s' r]. by intros [= <- _]. Qed.

Lemma asks_Ok q s t b : asks (E:=HarnessError) (question q) s = (t, Ok b) -> t.2 = s.2.
Proof. destruct s as [s log]. unfold asks, question. destruct (q s) as [s' r]. by intros [= <- _]. Qed.

(** ** Logs of the steps *)

(** Directories made for the home alone. *)
Definition made (dirs : list string) : list file_event := dirs ≫= fun d => [EvMadeDir d; EvMode d 448].

Fixpoint parent_paths (current : string) (components : list Component) : list string :=
  match components with
  | Normal segment :: rest =>
      let current := path_join current segment in current :: parent_paths current rest
  | _ => []
  end.

(** The directories above a target, inside the home. *)
Definition target_parents (home target : string) : list string :=
  match path_parent_components target with
  | Some parent => parent_paths home parent
  | None => []
  end.

(** A directory that is opened to be synced. *)
Definition synced (path : string) (h : fs_handle) : list file_event :=
  match path_parent path with Some parent => [EvOpened parent h] | None => [] end.

(** One grant: its source is opened and read, the missing directories above
    its target are made, the target is created, the bytes read are written to
    it, and it is made read-only for its owner. *)
Definition grant_log (home : string) (g : CredentialGrant) (log : list file_event) : Prop :=
  exists source input content dirs output h,
    path_eq source (cg_source g) = true
    /\ file_digest content = cg_expected_blake3 g /\ str_len content <= MAX_CREDENTIAL_BYTES
    /\ dirs `sublist_of` target_parents home (cg_target g)
    /\ log = [EvOpened source input; EvRead input content] ++ made dirs
             ++ [EvCreated (path_join home (cg_target g)) output; EvWrote output content;
                 EvMode (path_join home (cg_target g)) 256]
             ++ synced (path_join home (cg_target g)) h.

Definition made_dir (ev : file_event) : option string :=
  match ev with EvMadeDir d => Some d | _ => None end.
Definition created_file (ev : file_event) : option string :=
  match ev with EvCreated p _ => Some p | _ => None end.

Lemma made_dirs dirs : omap made_dir (made dirs) = dirs /\ omap created_file (made dirs) = [].
Proof. induction dirs as [|d dirs [IH1 IH2]]; [done|]. cbn. split; [by f_equal|done]. Qed.

(** From [x] to [y] the log grows by [log], and the home by exactly the files
    and the directories made there. *)
Definition logged x y (log : list file_event) : Prop :=
  y.1.2 = x.1.2 ++ log /\ ph_home y.2 = ph_home x.2
  /\ ph_directories y.2 = ph_directories x.2 ++ omap made_dir log
  /\ ph_files y.2 = ph_files x.2 ++ omap created_file log.

Lemma logged_trans x y z log1 log2 : logged x y log1 -> logged y z log2 -> logged x z (log1 ++ log2).
Proof.
  unfold logged. intros (-> & -> & -> & ->) (-> & -> & -> & ->). by rewrite !omap_app, !app_assoc.
Qed.

(** A step that only asks, and one that only makes calls. *)
Lemma logged_quiet x y : y.1.2 = x.1.2 -> y.2 = x.2 -> logged x y [].
Proof. unfold logged. intros -> ->. by rewrite !app_nil_r. Qed.

Lemma logged_refl x : logged x x [].
Proof. by apply logged_quiet. Qed.

Lemma logged_calls x y log :
  y.1.2 = x.1.2 ++ log -> y.2 = x.2 -> omap made_dir log = [] -> omap created_file log = [] -> logged x y log.
Proof. unfold logged. intros -> -> -> ->. by rewrite !app_nil_r. Qed.
End Recorded.

(** The log of a step of the file system. *)
Ltac file_log :=
  repeat match goal with
  | Hx : on_files _ _ = (_, Ok _) |- _ => apply on_files_Ok in Hx as [Hx ?]
  | Hx : io _ _ _ = (_, Ok _) |- _ => unfold io in Hx; rewrite st_map_err_Ok in Hx
  | Hx : set_mode _ _ _ = (_, Ok _) |- _ => unfold set_mode in Hx
  | Hx : asks (fs_exists _) _ = (_, Ok _) |- _ => apply asks_Ok in Hx
  | Hx : asks (fs_is_dir _) _ = (_, Ok _) |- _ => apply asks_Ok in Hx
  | Hx : fs_symlink_metadata _ _ = (_, Ok _) |- _ => apply quietly_Ok in Hx
  | Hx : fs_canonicalize _ _ = (_, Ok _) |- _ => apply quietly_Ok in Hx
  | Hx : fs_handle_metadata _ _ = (_, Ok _) |- _ => apply quietly_Ok in Hx
  | Hx : fs_sync_all _ _ = (_, Ok _) |- _ => apply quietly_Ok in Hx
  | Hx : fs_open _ _ = (_, Ok _) |- _ => apply record_Ok in Hx
  | Hx : fs_read_limited _ _ _ = (_, Ok _) |- _ => apply record_Ok in Hx
  | Hx : fs_create_dir _ _ = (_, Ok _) |- _ => apply record_Ok in Hx
  | Hx : fs_create_new _ _ = (_, Ok _) |- _ => apply record_Ok in Hx
  | Hx : fs_write_all _ _ _ = (_, Ok _) |- _ => apply record_Ok in Hx
  | Hx : fs_set_mode _ _ _ = (_, Ok _) |- _ => apply record_Ok in Hx
  end.

Section RecordedStage.
Context `{Blake3} `{Hex} {S : Type} `{!Files S}.
Abbreviation R := (recording (S:=S)).
#[local] Existing Instance recorded_files.
Implicit Types (s t : R) (x y : staging (S:=R)).

(** A new directory of the home. *)
Lemma make_directory_logged context d x y u :
  (_ ← on_files (io context (fs_create_dir d)); _ ← on_files (set_mode d 448);
   on_home (S:=R) (add_directory d)) x = (y, Ok u) -> logged x y (made [d]).
Proof.
  intros Hm. inv_st. file_log.
  match goal with Hx : on_home _ ?z = (y, Ok _) |- _ => destruct z as [zs zh]; cbn in Hx; injection Hx as <- end.
  unfold logged. cbn in *. subst. destruct x as [xs xh]. cbn in *. simplify_eq/=.
  rewrite app_nil_r. repeat match goal with Hx : _.2 = _ ++ _ |- _ => rewrite Hx; clear Hx end.
  by rewrite <-app_assoc.
Qed.

Lemma create_parents_logged components : forall current x y u,
  create_parents (S:=R) current components x = (y, Ok u) ->
  exists dirs, dirs `sublist_of` parent_paths current components /\ logged x y (made dirs).
Proof.
  induction components as [|c rest IH]; intros current x y u Hc; cbn [create_parents] in Hc.
  { inv_st. exists []. split; [done|apply logged_refl]. }
  destruct c; try by inv_st. cbn [parent_paths]. cbv zeta in Hc |- *.
  set (path := path_join current segment) in *.
  apply st_bind_Ok in Hc as (x1 & present & H1 & Hc).
  apply st_bind_Ok in Hc as (x2 & u2 & H2 & Hc).
  apply st_bind_Ok in Hc as (x3 & md & H3 & Hc). apply st_bind_Ok in Hc as (x4 & u4 & H4 & Hc).
  assert (logged x x1 []) as Hx1 by (inv_st; file_log; by apply logged_quiet).
  assert (logged x2 x4 []) as Hx3 by (inv_st; file_log; by apply logged_quiet).
  apply IH in Hc as (dirs & Hsub & Hlog). pose proof (logged_trans _ _ _ _ _ Hx3 Hlog) as Hrest.
  cbn [app] in Hrest. destruct present.
  - inv_st. exists dirs. split; [by apply sublist_cons|]. exact (logged_trans _ _ _ _ _ Hx1 Hrest).
  - apply make_directory_logged in H2. exists (path :: dirs). split; [by apply sublist_skip|].
    exact (logged_trans _ _ _ _ _ Hx1 (logged_trans _ _ _ _ _ H2 Hrest)).
Qed.

Lemma create_target_parents_logged target x y u :
  create_target_parents (S:=R) target x = (y, Ok u) ->
  exists dirs, dirs `sublist_of` target_parents (ph_home x.2) target /\ logged x y (made dirs).
Proof.
  unfold create_target_parents, target_parents. intros Hc.
  apply st_bind_Ok in Hc as (x1 & home & Hh & Hc). apply st_reading_Ok in Hh as [-> [= <-]].
  destruct (path_parent_components target); [by eapply create_parents_logged|].
  inv_st. exists []. split; [done|apply logged_refl].
Qed.

Lemma read_credential_log g s t content digest :
  read_credential (S:=R) g s = (t, Ok (content, digest)) ->
  exists source input, path_eq source (cg_source g) = true
    /\ t.2 = s.2 ++ [EvOpened source input; EvRead input content].
Proof.
  unfold read_credential, read_bounded. intros Hr. inv_st. file_log.
  do 2 eexists. split; [done|].
  repeat match goal with Hx : _.2 = _ |- _ => rewrite Hx; clear Hx end. by rewrite <-app_assoc.
Qed.

Lemma sync_directory_log path s t u :
  sync_directory (S:=R) path s = (t, Ok u) -> exists h, t.2 = s.2 ++ [EvOpened path h].
Proof.
  unfold sync_directory. intros Hs. file_log. inv_st. file_log. eexists.
  repeat match goal with Hx : _.2 = _ |- _ => rewrite Hx; clear Hx end. done.
Qed.

(** The writing half of a copy. *)
Lemma write_target_logged target content r x y u :
  (output ← on_files (io "create staged credential" (fs_create_new target));
   _ ← on_files (io "write staged credential" (_ ← fs_write_all output content; fs_sync_all output));
   _ ← on_files (set_mode target 256);
   _ ← on_files (io "sync staged credential mode" (fs_sync_all output));
   _ ← match path_parent target with
       | Some parent => on_files (sync_directory parent)
       | None => mret tt
       end;
   on_home (S:=R) (add_credential target r)) x = (y, Ok u) ->
  exists output h, logged x y ([EvCreated target output; EvWrote output content; EvMode target 256]
                               ++ synced target h).
Proof.
  intros Hw. apply st_bind_Ok in Hw as (x1 & output & Hc & Hw). inv_st. file_log. exists output.
  match goal with Hx : match path_parent target with _ => _ end ?z = (?z', Ok _) |- _ =>
    assert (exists h, z'.1.2 = z.1.2 ++ synced target h /\ z'.2 = z.2) as (h & Hh & Hz) end.
  { unfold synced. destruct (path_parent target).
    - file_log. match goal with Hx : sync_directory _ _ = _ |- _ => apply sync_directory_log in Hx as [h Hx] end.
      by exists h.
    - inv_st. exists output. by rewrite app_nil_r. }
  exists h. match goal with Hx : on_home _ ?z = (y, Ok _) |- _ => destruct z as [zs zh]; cbn in Hx; injection Hx as <- end.
  inv_st. file_log. cbn in *. subst zh.
  assert (omap made_dir (synced target h) = [] /\ omap created_file (synced target h) = []) as [Hd Hf]
    by (unfold synced; by destruct (path_parent target)).
  unfold logged. cbn. rewrite ?omap_app, Hd, Hf, app_nil_r.
  split_and!; [|congruence..]. rewrite Hh.
  repeat match goal with Hx : _.1.2 = _ |- _ => rewrite Hx; clear Hx end.
  match goal with Hx : _.2 = x1.1.2 ++ _ |- _ => rewrite Hx end. rewrite Hc, <-!app_assoc. done.
Qed.

Lemma copy_one_logged g x y u :
  copy_one (S:=R) g x = (y, Ok u) -> exists log, grant_log (ph_home x.2) g log /\ logged x y log.
Proof.
  unfold copy_one. intros Hc. apply st_bind_Ok in Hc as (x1 & [content digest] & Hread & Hc).
  apply on_files_Ok in Hread as [Hread H1]. pose proof (read_credential_Ok _ _ _ _ _ Hread) as (Hdig & Hfd & Hlen).
  apply read_credential_log in Hread as (source & input & Hsrc & Hlog).
  apply st_bind_Ok in Hc as (x2 & home & Hh & Hc). apply st_reading_Ok in Hh as [-> [= <-]].
  apply st_bind_Ok in Hc as (x3 & u3 & Hp & Hc). cbv zeta in Hc.
  apply create_target_parents_logged in Hp as (dirs & Hsub & Hp).
  apply write_target_logged in Hc as (output & h & Hw). rewrite H1 in *.
  eexists. split; [|exact (logged_trans _ _ _ _ _
    (logged_calls x x1 _ Hlog H1 eq_refl eq_refl) (logged_trans _ _ _ _ _ Hp Hw))].
  exists source, input, content, dirs, output, h. split_and!; [done|congruence|done|done|done].
Qed.

Lemma copy_all_logged grants : forall x y u,
  st_for_each (copy_one (S:=R)) grants x = (y, Ok u) ->
  exists logs, Forall2 (grant_log (ph_home x.2)) grants logs /\ logged x y (concat logs).
Proof.
  induction grants as [|g grants IH]; intros x y u Hc; cbn [st_for_each] in Hc.
  { inv_st. exists []. split; [constructor|apply logged_refl]. }
  apply st_bind_Ok in Hc as (x1 & u1 & Hg & Hc). apply copy_one_logged in Hg as (log & Hg & Hl).
  apply IH in Hc as (logs & Hall & Hls). destruct Hl as (Ha & Hh & Hd & Hf). rewrite Hh in Hall.
  exists (log :: logs). split; [by constructor|]. eapply logged_trans; [|exact Hls]. by split_and!.
Qed.

(** The home before any credential. *)
Lemma base_directories_logged home x y u :
  st_for_each (fun relative =>
    let directory := path_join home relative in
    _ ← on_files (io "create provider HOME directory" (fs_create_dir directory));
    _ ← on_files (set_mode directory 448);
    on_home (S:=R) (add_directory directory)) ["tmp"; ".cache"; ".config"] x = (y, Ok u) ->
  logged x y (made (path_join home <$> ["tmp"; ".cache"; ".config"])).
Proof.
  cbn [st_for_each]. cbv zeta. intros Hb.
  apply st_bind_Ok in Hb as (x1 & u1 & H1 & Hb). apply st_bind_Ok in Hb as (x2 & u2 & H2 & Hb).
  apply st_bind_Ok in Hb as (x3 & u3 & H3 & Hb). apply st_ret_Ok in Hb as [-> _].
  apply make_directory_logged in H1, H2, H3.
  exact (logged_trans _ _ _ _ _ H1 (logged_trans _ _ _ _ _ H2 H3)).
Qed.

Lemma fill_home_logged grants x y u :
  fill_home (S:=R) grants x = (y, Ok u) ->
  exists logs h, Forall2 (grant_log (ph_home x.2)) grants logs
    /\ logged x y (made (path_join (ph_home x.2) <$> ["tmp"; ".cache"; ".config"])
                   ++ concat logs ++ [EvOpened (ph_home x.2) h]).
Proof.
  unfold fill_home. intros Hf. apply st_bind_Ok in Hf as (x1 & home & Hh & Hf).
  apply st_reading_Ok in Hh as [-> [= <-]].
  apply st_bind_Ok in Hf as (x2 & u2 & Hb & Hf). apply base_directories_logged in Hb.
  apply st_bind_Ok in Hf as (x3 & u3 & Hg & Hf). apply copy_all_logged in Hg as (logs & Hall & Hg).
  apply st_bind_Ok in Hf as (x4 & u4 & Hs & Hf). apply on_files_Ok in Hf as [Hf Hy].
  apply sync_directory_log in Hf as [h Hf]. destruct Hb as (Hb1 & Hb2 & Hb3). rewrite Hb2 in Hall.
  exists logs, h. split; [done|]. eapply logged_trans; [by split|]. eapply logged_trans; [exact Hg|].
  destruct x3 as [zs zh]. cbn in Hs. injection Hs as <- _.
  unfold logged. rewrite Hf, Hy. cbn. by rewrite !app_nil_r.
Qed.

Lemma stage_logged uuid root allowed grants vars s t home :
  stage (S:=R) uuid root allowed grants vars s = (t, Ok home) ->
  exists canonical h0 h1 logs, path_eq canonical root = true
    /\ ph_home home = path_join canonical ("provider-home-" +:+ uuid)
    /\ Forall2 (grant_log (ph_home home)) grants logs
    /\ let log := [EvMadeDir (ph_home home); EvMode (ph_home home) 448; EvOpened canonical h0]
                  ++ made (path_join (ph_home home) <$> ["tmp"; ".cache"; ".config"])
                  ++ concat logs ++ [EvOpened (ph_home home) h1] in
       t.2 = s.2 ++ log /\ ph_directories home = omap made_dir log
       /\ ph_files home = omap created_file log.
Proof.
  unfold stage. intros Hs.
  apply st_bind_Ok in Hs as (s1 & u1 & [-> _]%st_pure_Ok & Hs).
  apply st_bind_Ok in Hs as (s2 & u2 & [-> _]%st_pure_Ok & Hs).
  apply st_bind_Ok in Hs as (s3 & canonical & Hc & Hs). cbv zeta in Hs.
  set (path := path_join canonical _) in *.
  assert (s3.2 = s.2 /\ path_eq canonical root = true) as [Hq Heq].
  { unfold canonical_directory in Hc. inv_st.
    match goal with Hq : (if path_eq ?c root then _ else _) _ = (_, Ok _) |- _ =>
      destruct (path_eq c root) eqn:Heq; [|by inv_st] end.
    file_log. split; [congruence|done]. }
  apply st_bind_Ok in Hs as (s4 & u4 & Hd & Hs). apply st_bind_Ok in Hs as (s5 & u5 & Hm & Hs).
  apply st_bind_Ok in Hs as (s6 & u6 & Hy & Hs). apply sync_directory_log in Hy as [h0 Hy]. file_log.
  unfold fill_or_drop in Hs.
  match type of Hs with match fill_home _ (_, ?h) with _ => _ end = _ =>
    destruct (fill_home grants (s6, h)) as [[t' home'] [[]| |]] eqn:Hfill; simplify_eq end.
  apply fill_home_logged in Hfill as (logs & h1 & Hall & Hl1 & Hl2 & Hl3 & Hl4).
  cbn [ph_home ph_directories ph_files fst snd] in *. rewrite Hl2.
  exists canonical, h0, h1, logs. do 3 (split; [done|]).
  cbv zeta. rewrite !omap_app in *. rewrite Hl1, Hy, Hm, Hd, Hq, Hl3, Hl4. cbn. by rewrite <-!app_assoc.
Qed.

(** C40: A staged provider HOME gets the admitted credentials and nothing else.
    Over any file system, the calls of a successful staging that read or change
    a file are exactly these, in this order: the home is made below the
    canonical runtime root and closed to others, and so are its three fixed
    directories; then, per grant, the granted source is opened and read,
    directories above the target are made where they are missing, the target is
    created, the bytes just read, whose digest is the granted one, are written
    to it, and it is made read-only. The home remembers exactly the files and
    the directories that were made. There are at most four grants, with distinct
    targets on the policy's allowlist; the receipts are, sorted by target, the
    granted targets with the granted digests. The child environment has distinct
    names, each from the inherited allowlist or one of the four home variables,
    whose value lies in the home. *)
Theorem staged_home_holds_only_grants uuid root allowed grants vars s t home :
  stage uuid root allowed grants vars s = (t, Ok home) ->
  (exists canonical h0 h1 logs, path_eq canonical root = true
    /\ ph_home home = path_join canonical ("provider-home-" +:+ uuid)
    /\ Forall2 (grant_log (ph_home home)) grants logs
    /\ let log := [EvMadeDir (ph_home home); EvMode (ph_home home) 448; EvOpened canonical h0]
                  ++ made (path_join (ph_home home) <$> ["tmp"; ".cache"; ".config"])
                  ++ concat logs ++ [EvOpened (ph_home home) h1] in
       t.2 = s.2 ++ log /\ ph_directories home = omap made_dir log
       /\ ph_files home = omap created_file log)
  /\ ph_credentials home ≡ₚ grant_receipt <$> grants
  /\ Sorted receipt_le (ph_credentials home)
  /\ Z.of_nat (length grants) <= MAX_CREDENTIAL_FILES
  /\ NoDup ((fun g => path_components (cg_target g)) <$> grants)
  /\ Forall (fun g => path_components (cg_target g) ∈ path_components <$> allowed) grants
  /\ NoDup (ph_env home).*1
  /\ (forall k v, (k, v) ∈ ph_env home ->
        k ∈ INHERITED_ENV_ALLOWLIST \/ (k ∈ HOME_VARS /\ starts_with (ph_home home) v = true)).
Proof.
  intros Hs. split; [by eapply stage_logged|].
  apply stage_Ok in Hs as (? & ? & ? & ? & ? & ? & ? & _). by split_and!.
Qed.
End RecordedStage.
