(* ===== verification/Routing.v ===== *)
(** * Behaviour catalogue, router, fusion and projections

    Models crates/behavior and the offline scaffolds crates/router/src/lib.rs,
    crates/fusion/src/lib.rs and crates/projections/src/lib.rs: none of their
    outputs is authority. *)

From S2P Require Import Prelude External Ids Entities Text Paths.
From stdpp Require Import options.

(** ** Behaviour catalogue

    Models crates/behavior/src/catalog.rs and detect.rs: the planned policy
    table and the detectors that propose evidence for some of its rows. A
    lookup that fails in [push] panics, as [expect] does. *)

(** crates/behavior/src/catalog.rs:6-17 (CatalogRow) *)
Record CatalogRow : Type := row {
  row_id : string;
  row_category : string;
  row_title : string;
  row_action : Enforcement
}.

(** crates/behavior/src/catalog.rs:19-106 (SPEC_ROWS) *)
Definition SPEC_ROWS : list CatalogRow := [
  row "FS001" "workspace" "Writes outside assigned workspace" EnfBlock;
  row "FS002" "workspace" "Creates a second repository copy inside the workspace" EnfPause;
  row "FS003" "workspace" "Creates ad hoc copy directories" EnfPause;
  row "FS004" "workspace"
    "Writes runtime/provider configuration into product repository" EnfQuarantine;
  row "FS005" "workspace"
    "Leaves unclassified untracked files at Candidate preparation" EnfBlock;
  row "FS006" "workspace" "Uses system temp paths for durable work without checkpoint" EnfPause;
  row "FS007" "workspace" "Writes large binary or archive unexpectedly" EnfPause;
  row "FS008" "workspace" "Creates recursive directory copies or symlink cycles" EnfBlock;
  row "FS009" "workspace" "Changes file ownership or broad permissions" EnfBlock;
  row "FS010" "workspace" "Deletes repository files outside granted scope" EnfPause;
  row "GT001" "git" "Uses Git worktree for writable task" EnfBlock;
  row "GT002" "git" "Modifies .git internals directly" EnfBlock;
  row "GT003" "git" "Runs unauthorized destructive git command" EnfBlock;
  row "GT004" "git" "Force pushes or deletes remote refs" EnfBlock;
  row "GT005" "git" "Pushes directly from agent sandbox" EnfBlock;
  row "GT006" "git" "Changes remote URL or credential helper" EnfBlock;
  row "GT007" "git" "Adds provider hook or runtime files to Candidate" EnfQuarantine;
  row "GT008" "git" "Leaves detached-head commits without preservation" EnfPause;
  row "GT009" "git" "Claims clean state using commits-ahead" EnfBlock;
  row "GT010" "git" "Rebases or merges target without coordinator" EnfBlock;
  row "SC001" "scope" "Writes outside granted Change Intent" EnfPause;
  row "SC002" "scope" "Requests repeated broad scope expansions" EnfPause;
  row "SC003" "scope" "Touches protected paths without risk upgrade" EnfBlock;
  row "SC004" "scope" "Modifies lockfiles without declared dependency intent" EnfPause;
  row "SC005" "scope" "Modifies generated files without generator evidence" EnfBlock;
  row "SC006" "scope" "Changes CI/security/auth files while low risk" EnfPause;
  row "TL001" "tools" "Runs sudo, su, package manager, or Docker socket" EnfBlock;
  row "TL002" "tools" "Downloads or executes unpinned binary" EnfBlock;
  row "TL003" "tools" "Uses curl | shell remote execution" EnfBlock;
  row "TL004" "tools" "Spawns unbounded background process" EnfTerminate;
  row "TL005" "tools" "Starts unmanaged server or listener" EnfPause;
  row "TL006" "tools" "Repeats identical command beyond threshold" EnfPause;
  row "TL007" "tools" "Runs broad repository scan repeatedly" EnfPause;
  row "TL008" "tools" "Ignores timeout/cancellation" EnfTerminate;
  row "TL009" "tools" "Attempts unsupported MCP/tool without grant" EnfBlock;
  row "TL010" "tools" "Uses shell to bypass typed operation" EnfBlock;
  row "NW001" "network" "Connects to undeclared host" EnfBlock;
  row "NW002" "network" "Attempts cloud metadata or local discovery" EnfBlock;
  row "NW003" "network" "Exfiltrates repository content" EnfQuarantine;
  row "NW004" "network" "Runs a tunnel, proxy, reverse shell, or port-forward" EnfTerminate;
  row "NW005" "network" "Uses personal SCM credential or SSH agent" EnfBlock;
  row "SE001" "secrets" "Reads secret outside explicit grant" EnfBlock;
  row "SE002" "secrets" "Writes secret or high-entropy credential to repository" EnfQuarantine;
  row "SE003" "secrets" "Prints secret into model context or logs" EnfPause;
  row "SE004" "secrets" "Attempts to enumerate credential stores" EnfTerminate;
  row "CD001" "code" "Deletes or weakens tests to make suite pass" EnfQuarantine;
  row "CD002" "code" "Adds skip/ignore/only/focus markers without intent" EnfBlock;
  row "CD003" "code" "Swallows errors or broadens catch to hide failure" EnfPause;
  row "CD004" "code" "Returns hardcoded success in production path" EnfQuarantine;
  row "CD005" "code" "Adds unfinished-work markers in acceptance-critical path" EnfBlock;
  row "CD006" "code" "Duplicates large code or vendors source" EnfPause;
  row "CD007" "code" "Introduces unnecessary dependency" EnfPause;
  row "CD008" "code" "Changes public API without compatibility evidence" EnfBlock;
  row "CD009" "code" "Changes schema without migration/rollback evidence" EnfBlock;
  row "CD010" "code" "Introduces nondeterministic test or sleep sync" EnfPause;
  row "TS001" "testing" "Claims test pass without captured command Evidence" EnfBlock;
  row "TS002" "testing" "Runs only a narrower test after broader surface change" EnfBlock;
  row "TS003" "testing" "Treats flaky/timed-out/infra-error as pass" EnfBlock;
  row "TS004" "testing" "Modifies expected output instead of fixing behavior" EnfPause;
  row "TS005" "testing" "Skips required browser/accessibility/security test" EnfBlock;
  row "CP001" "completion" "Emits done with dirty workspace" EnfBlock;
  row "CP002" "completion" "Emits done without exact Candidate" EnfBlock;
  row "CP003" "completion" "Emits done with uncovered acceptance requirement" EnfBlock;
  row "CP004" "completion" "Closes task while external effect is unknown" EnfBlock;
  row "CP005" "completion" "Reports workflow step audit without executing steps" EnfTerminate;
  row "CP006" "completion" "Restarts onto a closed/already-integrated target" EnfBlock;
  row "CX001" "context" "Exceeds context transition threshold without checkpoint" EnfPause;
  row "CX002" "context" "Repeatedly compresses or hands off without progress" EnfPause;
  row "CX003" "context" "Drops unresolved decision from capsule" EnfBlock;
  row "CX004" "context" "Uses provider-native history as sole durable record" EnfBlock;
  row "AG001" "agent" "Repeatedly states confidence without evidence" EnfPause;
  row "AG002" "agent" "Fabricates source reference, test, or tool result" EnfTerminate;
  row "AG003" "agent" "Ignores explicit interruption or cancellation" EnfTerminate;
  row "AG004" "agent" "Oscillates between plans without new evidence" EnfPause;
  row "AG005" "agent" "Performs report-only activity instead of required steps" EnfTerminate;
  row "AG006" "agent" "Attempts to lower risk or waive checks in prose" EnfPause;
  row "AG007" "agent" "Edits runtime status or audit files" EnfBlock;
  row "EF001" "effects" "Attempts direct GitHub/cloud/package/deploy mutation" EnfBlock;
  row "EF002" "effects" "Retries ambiguous external effect blindly" EnfBlock;
  row "EF003" "effects" "Uses stale fence for external mutation" EnfBlock;
  row "CL001" "cleanup" "Deletes workspace before verified preservation" EnfBlock;
  row "CL002" "cleanup" "Treats failed observation as empty/clean" EnfBlock;
  row "CL003" "cleanup" "Cleanup targets resources by shared task ID" EnfBlock;
  row "CL004" "cleanup" "Reuses name/path before tombstoned cleanup completes" EnfBlock
].

(** crates/behavior/src/catalog.rs:122-126 (row_by_id) *)
Definition row_by_id (id : string) : option CatalogRow :=
  List.find (fun row => bool_decide (row_id row = id)) SPEC_ROWS.

(** crates/behavior/src/detect.rs:7-11 (DETECTOR_SCAFFOLD_IDS) *)
Definition DETECTOR_SCAFFOLD_IDS : list string :=
  ["CL001"; "CL002"; "CP001"; "CP002"; "FS004"; "GT001"; "GT002"; "GT005"; "TS001"; "TS003"].

(** crates/behavior/src/detect.rs:13-38 (ObservedAction) *)
Record ObservedAction : Type := MkObservedAction {
  oa_path : option string;
  oa_is_worktree : option bool;
  oa_has_preservation_receipt : option bool;
  oa_candidate_id : option string;
  oa_done : bool;
  oa_dirty_workspace : option bool;
  oa_observation_kind : option string;
  oa_command : option string;
  oa_cleanup : bool;
  oa_writer_only_evidence : bool;
  oa_gate_result : option string
}.

(** crates/behavior/src/detect.rs:40-51 (BehaviorEvent) *)
Record BehaviorEvent : Type := MkBehaviorEvent {
  be_rule_id : string;
  be_detector : string;
  be_observed_action : string;
  be_enforcement_action : string
}.

(** `format!("{:?}", action).to_ascii_lowercase()`. *)
Definition enforcement_label (e : Enforcement) : string :=
  match e with
  | EnfBlock => "block" | EnfPause => "pause" | EnfQuarantine => "quarantine"
  | EnfTerminate => "terminate"
  end.

(** crates/behavior/src/detect.rs:143-151 (push) *)
Definition push (hits : list BehaviorEvent) (id detector observed : string)
  : result unit (list BehaviorEvent) :=
  row ← expect (row_by_id id);
  mret (hits ++ [MkBehaviorEvent id detector observed (enforcement_label (row_action row))]).

(** crates/behavior/src/detect.rs:153-155 (is_worktree_cmd) *)
Definition is_worktree_cmd (command : string) : bool :=
  has_window "git worktree" command || has_window "--worktree" command.

(** crates/behavior/src/detect.rs:157-164 (is_runtime_artifact) *)
Definition is_runtime_artifact (path : string) : bool :=
  let name := default path (last (str_split slash path)) in
  bool_decide (name ∈ [".claude"; ".codex"; ".cursor"; "CLAUDE.md"; "agent-transcript.jsonl"])
  || has_window "/.claude/" path || has_window "/.codex/" path.

(** [Option::is_some_and]. *)
Definition is_some_and {A} (o : option A) (f : A -> bool) : bool :=
  match o with Some a => f a | None => false end.

(** `if fires { push(..) }`. *)
Definition push_if (fires : bool) (hits : list BehaviorEvent) (id detector observed : string)
  : result unit (list BehaviorEvent) :=
  if fires then push hits id detector observed else Ok hits.

(** crates/behavior/src/detect.rs:53-141 (detect) *)
Definition detect (a : ObservedAction) : result unit (list BehaviorEvent) :=
  hits ← push_if (bool_decide (oa_is_worktree a = Some true)
                  || is_some_and (oa_command a) is_worktree_cmd)
           [] "GT001" "worktree_guard" "writable worktree";
  hits ← push_if (oa_cleanup a && negb (bool_decide (oa_has_preservation_receipt a = Some true)))
           hits "CL001" "cleanup_service" "delete without receipt";
  hits ← push_if (is_some_and (oa_observation_kind a)
                    (fun kind => bool_decide (kind = "unknown") || bool_decide (kind = "contradictory"))
                  && oa_cleanup a)
           hits "CL002" "observation_guard" "unknown treated as clean";
  hits ← push_if (oa_done a && negb (bool_decide (oa_dirty_workspace a = Some false)))
           hits "CP001" "git_reconciler" "done with dirty workspace";
  hits ← push_if (oa_done a && is_empty (default EmptyString (oa_candidate_id a)))
           hits "CP002" "candidate_service" "done without candidate";
  hits ← push_if (is_some_and (oa_path a)
                    (fun path => has_window ".git/" path || ends_with ".git" path))
           hits "GT002" "filesystem_boundary" "direct .git write";
  hits ← push_if (is_some_and (oa_command a)
                    (fun cmd => has_window "git push" cmd || has_window "git push --force" cmd))
           hits "GT005" "sandbox_egress" "push from sandbox";
  hits ← push_if (is_some_and (oa_gate_result a)
                    (fun r => bool_decide (r ∈ ["FLAKY"; "TIMED_OUT"; "INFRA_ERROR"; "UNKNOWN"]))
                  && oa_done a)
           hits "TS003" "typed_gate" "non-pass treated as pass";
  hits ← push_if (oa_writer_only_evidence a && oa_done a)
           hits "TS001" "completion_evaluator" "writer claim without independent evidence";
  push_if (is_some_and (oa_path a) is_runtime_artifact)
    hits "FS004" "artifact_manifest" "runtime file in product repo".

(** ** Properties *)

Lemma spec_rows_unique : NoDup (row_id <$> SPEC_ROWS).
Proof. apply (bool_decide_unpack _). vm_compute. exact I. Qed.

Lemma spec_rows_count : length SPEC_ROWS = 84.
Proof. reflexivity. Qed.

(** Every row is found under its identifier. *)
Lemma row_by_id_complete r : r ∈ SPEC_ROWS -> row_by_id (row_id r) = Some r.
Proof.
  assert (H : forall rows, NoDup (row_id <$> rows) -> r ∈ rows ->
    List.find (fun x => bool_decide (row_id x = row_id r)) rows = Some r).
  { intros rows. induction rows as [|x rows IH]; intros Hnd Hin; [by apply not_elem_of_nil in Hin|].
    rewrite fmap_cons in Hnd. apply NoDup_cons in Hnd as [Hx Hnd].
    apply elem_of_cons in Hin as [->|Hin]; cbn; [by rewrite bool_decide_true|].
    rewrite bool_decide_false; [by apply IH|].
    intros Heq. apply Hx. rewrite Heq. by apply list_elem_of_fmap_2. }
  intros Hin. apply H; [apply spec_rows_unique|done].
Qed.

(** The detectors refer to planned rows only, so [push] never panics on them. *)
Lemma detectors_planned id :
  id ∈ DETECTOR_SCAFFOLD_IDS -> exists r, row_by_id id = Some r /\ row_action r <> EnfPause.
Proof.
  intros Hin. repeat (apply elem_of_cons in Hin as [->|Hin]; [eexists; split; [reflexivity|done]|]).
  by apply not_elem_of_nil in Hin.
Qed.

Lemma push_if_Ok fires hits id detector observed :
  id ∈ DETECTOR_SCAFFOLD_IDS ->
  exists hits', push_if fires hits id detector observed = Ok hits'
    /\ be_rule_id <$> hits' = (be_rule_id <$> hits) ++ (if fires then [id] else []).
Proof.
  intros Hin. destruct (detectors_planned id Hin) as (r & Hr & _). unfold push_if, push.
  destruct fires; [|exists hits; by rewrite app_nil_r].
  rewrite Hr. eexists. split; [reflexivity|]. by rewrite fmap_app.
Qed.

(** The rules whose condition holds of an action, in the order of the code. *)
Definition fired (a : ObservedAction) : list string :=
  (if bool_decide (oa_is_worktree a = Some true) || is_some_and (oa_command a) is_worktree_cmd
   then ["GT001"] else [])
  ++ (if oa_cleanup a && negb (bool_decide (oa_has_preservation_receipt a = Some true))
      then ["CL001"] else [])
  ++ (if is_some_and (oa_observation_kind a)
           (fun kind => bool_decide (kind = "unknown") || bool_decide (kind = "contradictory"))
         && oa_cleanup a then ["CL002"] else [])
  ++ (if oa_done a && negb (bool_decide (oa_dirty_workspace a = Some false))
      then ["CP001"] else [])
  ++ (if oa_done a && is_empty (default EmptyString (oa_candidate_id a)) then ["CP002"] else [])
  ++ (if is_some_and (oa_path a) (fun path => has_window ".git/" path || ends_with ".git" path)
      then ["GT002"] else [])
  ++ (if is_some_and (oa_command a)
           (fun cmd => has_window "git push" cmd || has_window "git push --force" cmd)
      then ["GT005"] else [])
  ++ (if is_some_and (oa_gate_result a)
           (fun r => bool_decide (r ∈ ["FLAKY"; "TIMED_OUT"; "INFRA_ERROR"; "UNKNOWN"]))
         && oa_done a then ["TS003"] else [])
  ++ (if oa_writer_only_evidence a && oa_done a then ["TS001"] else [])
  ++ (if is_some_and (oa_path a) is_runtime_artifact then ["FS004"] else []).

(** The detectors never panic, and the rules they report are those that fire. *)
Lemma detect_total a : exists hits, detect a = Ok hits /\ be_rule_id <$> hits = fired a.
Proof.
  unfold detect, fired.
  repeat match goal with |- context [push_if ?f ?h ?i ?d ?o ≫= _] =>
    let h' := fresh "h" in let E := fresh "E" in let R := fresh "R" in
    destruct (push_if_Ok f h i d o) as (h' & E & R);
      [apply (bool_decide_unpack _); vm_compute; exact I|];
    rewrite E; cbn [mbind result_bind]; clear E
  end.
  match goal with |- context [push_if ?f ?h ?i ?d ?o] =>
    destruct (push_if_Ok f h i d o) as (h' & E & Rlast);
      [apply (bool_decide_unpack _); vm_compute; exact I|] end.
  exists h'. split; [exact E|]. rewrite Rlast.
  repeat match goal with R : be_rule_id <$> ?h = _ |- context [be_rule_id <$> ?h] => rewrite R; clear R end.
  rewrite fmap_nil. by rewrite <-!app_assoc.
Qed.

(** A cleanup without a receipt that is known to exist, and a completion
    whose workspace is not known to be clean or that names no candidate, are
    always reported. *)
Lemma detect_fails_closed a hits :
  detect a = Ok hits ->
  (oa_cleanup a = true -> oa_has_preservation_receipt a <> Some true ->
     "CL001" ∈ be_rule_id <$> hits)
  /\ (oa_done a = true -> oa_dirty_workspace a <> Some false -> "CP001" ∈ be_rule_id <$> hits)
  /\ (oa_done a = true -> default EmptyString (oa_candidate_id a) = EmptyString ->
     "CP002" ∈ be_rule_id <$> hits).
Proof.
  destruct (detect_total a) as (hits' & Hd & Hf). intros [= <-]%(eq_trans (eq_sym Hd)).
  rewrite Hf. unfold fired. split_and!.
  - intros -> Hr. rewrite (bool_decide_false _ Hr). cbn [negb andb]. set_solver.
  - intros -> Hr. rewrite (bool_decide_false _ Hr). cbn [negb andb]. set_solver.
  - intros -> ->. cbn [is_empty andb]. set_solver.
Qed.

(** An unknown worktree state is not reported, although the kernel's own rule
    rejects it. *)
Lemma detect_unknown_worktree_passes :
  let a := MkObservedAction None None None None false None None None false false None in
  detect a = Ok [] /\ reject_worktree (oa_is_worktree a) = true.
Proof. split; reflexivity. Qed.

(** The first-slice rules agree with the catalogue on their enforcement. *)
Lemma default_catalog_agrees :
  Forall (fun rule => row_action <$> row_by_id (BehaviorRule_id rule)
                      = Some (BehaviorRule_action rule)) default_catalog.
Proof. repeat constructor. Qed.

(** ** Router, fusion and projections *)

Local Open Scope Z_scope.

(** ** Router *)

(** crates/router/src/lib.rs:8-17 (CognitiveTask) *)
Record CognitiveTask : Type := MkCognitiveTask {
  ct_id : string;
  ct_class : TaskClass;
  ct_prompt_digest : string
}.

(** crates/router/src/lib.rs:19-24 (Quota) *)
Record Quota : Type := MkQuota { quota_remaining : Z }.

(** crates/router/src/lib.rs:26-43 (DispatchDecision) *)
Record DispatchDecision : Type := MkDispatchDecision {
  dd_task_id : string;
  dd_provider : string;
  dd_model : string;
  dd_tier : ModelTier;
  dd_reason : string;
  dd_seed : Z;
  dd_transaction_gate_eligible : bool
}.

(** crates/router/src/lib.rs:45-62 (RouterError) *)
Inductive RouterError : Type :=
| QuotaUnknown (observation_source reason : string)
| QuotaEmpty
| QuotaContradictory (reason : string).

(** The derived [Debug] names. *)
Definition TaskClass_debug (c : TaskClass) : string :=
  match c with
  | DeterministicTransform => "DeterministicTransform" | ExtractStructured => "ExtractStructured"
  | ClassifyRoute => "ClassifyRoute" | SummarizeLocal => "SummarizeLocal"
  | CompressContext => "CompressContext" | MechanicalCodeEdit => "MechanicalCodeEdit"
  | BoundedBugFix => "BoundedBugFix" | FeatureImplementation => "FeatureImplementation"
  | BroadRefactor => "BroadRefactor" | ArchitectureDesign => "ArchitectureDesign"
  | SecurityAnalysis => "SecurityAnalysis" | MigrationDesign => "MigrationDesign"
  | CodeReview => "CodeReview" | FusionRank => "FusionRank"
  | FusionSynthesize => "FusionSynthesize" | CompletionAssessment => "CompletionAssessment"
  end.
Definition ModelTier_debug (t : ModelTier) : string :=
  match t with
  | TierD0 => "D0" | TierM1 => "M1" | TierM2 => "M2" | TierM3 => "M3" | TierM4 => "M4"
  end.

(** crates/router/src/lib.rs:82-86 (lane_for) *)
Definition lane_for (tier : ModelTier) : string * string := ("sim", "d0").

(** crates/router/src/lib.rs:76-80 (classify) *)
Definition classify (class : TaskClass) (risk : string) : TaskClassification :=
  TaskClassification_declared class risk.

(** crates/router/src/lib.rs:88-131 (dispatch) *)
Definition router_dispatch (task : CognitiveTask) (quota : Observation Quota) (seed : Z)
  : result RouterError DispatchDecision :=
  _ ← match quota with
      | ObsEmpty => Err QuotaEmpty
      | ObsContradictory _ reason => Err (QuotaContradictory reason)
      | ObsUnknown source reason => Err (QuotaUnknown source reason)
      | ObsValue value => refuse_if (bool_decide (quota_remaining value = 0)) QuotaEmpty
      end;
  let classification := classify (ct_class task) "R1" in
  let requested_tier := TaskClassification_quality_floor classification in
  let tier := TierD0 in
  let '(provider, model) := lane_for requested_tier in
  let reason := "class=" +:+ TaskClass_debug (ct_class task)
    +:+ " requested_tier=" +:+ ModelTier_debug requested_tier
    +:+ " fallback=" +:+ ModelTier_debug tier
    +:+ " digest=" +:+ ct_prompt_digest task +:+ " seed=" +:+ pretty seed in
  mret (MkDispatchDecision (ct_id task) provider model tier reason seed false).

(** crates/router/src/lib.rs:133-140 (ShadowRecord) *)
Record ShadowRecord : Type := MkShadowRecord {
  sr_decision : DispatchDecision;
  sr_shadow_provider : string
}.

(** crates/router/src/lib.rs:142-150 (shadow) *)
Definition shadow (decision : DispatchDecision) : ShadowRecord :=
  MkShadowRecord decision "quarantined".

(** ** Fusion *)

(** crates/fusion/src/lib.rs:7-14 (Artifact) *)
Record Artifact : Type := MkArtifact {
  art_provider : string;
  art_digest : string
}.

Global Instance Artifact_eq_dec : EqDecision Artifact.
Proof. solve_decision. Defined.

(** crates/fusion/src/lib.rs:16-25 (Progress) *)
Record Progress : Type := MkProgress {
  pg_failures : Z;
  pg_unique_hashes : Z;
  pg_stalled_turns : Z
}.

(** crates/fusion/src/lib.rs:27-38 (Escalation) *)
Record Escalation : Type := MkEscalation {
  esc_from_provider : string;
  esc_to_provider : string;
  esc_score : Z;
  esc_transaction_gate_eligible : bool
}.

(** crates/fusion/src/lib.rs:40-51 (FusionResult) *)
Record FusionResult : Type := MkFusionResult {
  fr_protocol : string;
  fr_selected : Artifact;
  fr_new_variant_id : string;
  fr_transaction_gate_eligible : bool
}.

Definition u32_saturating_sub (a b : Z) : Z := Z.max 0 (a - b).

(** crates/fusion/src/lib.rs:53-61 (struggle_score) *)
Definition struggle_score (p : Progress) : Z :=
  let repeat := u32_saturating_sub (pg_failures p) (pg_unique_hashes p) in
  let raw := u32_wrapping_add
    (u32_wrapping_add (u32_saturating_mul (pg_failures p) 12)
       (u32_saturating_mul (pg_stalled_turns p) 8))
    (u32_saturating_mul repeat 16) in
  Z.min raw 100.

(** crates/fusion/src/lib.rs:63-84 (escalate) *)
Definition escalate (p : Progress) (from_provider : string) (already : Z) : option Escalation :=
  if bool_decide (3 <= already) then None
  else
    let score := struggle_score p in
    if bool_decide (score < 40) then None
    else
      let to_provider :=
        if bool_decide (from_provider = "t0") then "offline-challenger-a"
        else if bool_decide (from_provider = "offline-challenger-a") then "offline-challenger-b"
        else "t0" in
      Some (MkEscalation from_provider to_provider score false).

(** The order of the keys `(&digest, &provider)`. *)
Definition artifact_le (a b : Artifact) : Prop :=
  str_lt (art_digest a) (art_digest b)
  \/ art_digest a = art_digest b /\ str_le (art_provider a) (art_provider b).
Global Instance artifact_le_dec : RelDecision artifact_le.
Proof. intros a b. unfold artifact_le. apply _. Defined.

(** [Iterator::min_by_key]: the first of the least elements. *)
Fixpoint min_artifact (artifacts : list Artifact) : option Artifact :=
  match artifacts with
  | [] => None
  | a :: rest =>
      match min_artifact rest with
      | Some b => if decide (artifact_le a b) then Some a else Some b
      | None => Some a
      end
  end.

Section Fusion.
Context `{Blake3} `{Hex}.

(** crates/router/src/lib.rs:65-73 (CognitiveTask::from_objective) *)
Definition task_from_objective (id : string) (class : TaskClass) (objective : string)
  : CognitiveTask := MkCognitiveTask id class (to_hex (Digest_of objective)).

(** crates/fusion/src/lib.rs:86-103 (fuse) *)
Definition fuse (artifacts : list Artifact) (attempt_seed : string) : option FusionResult :=
  selected ← min_artifact artifacts;
  let new_variant_id :=
    str_take 16 (to_hex (Digest_of ("fuse:" +:+ attempt_seed +:+ ":" +:+ art_digest selected))) in
  Some (MkFusionResult "offline-digest-order-scaffold" selected new_variant_id false).

(** crates/fusion/src/lib.rs:105-112 (artifact) *)
Definition artifact (provider body : string) : Artifact :=
  MkArtifact provider (to_hex (Digest_of body)).
End Fusion.

(** ** Projections *)

(** crates/projections/src/lib.rs:6-22 (View) *)
Inductive View (T : Type) : Type :=
| ViewValue (value : T) (as_of_sequence : Z)
| ViewUnknown (reason : string).
Arguments ViewValue {T}. Arguments ViewUnknown {T}.

(** crates/projections/src/lib.rs:24-58 (Surface) *)
Inductive Surface : Type :=
| ControlTower | MissionGraph | CognitiveRouter | FusionLab | Fleet | LiveAttempt
| SessionSupervisor | ContextLineage | QuotaCapacity | StruggleCockpit | BehaviorCenter
| WorkspaceHygiene | MergeRail | QualityLab | IncidentsAudit.

Global Instance Surface_eq_dec : EqDecision Surface.
Proof. solve_decision. Defined.

(** crates/projections/src/lib.rs:60-80 (surfaces) *)
Definition surfaces : list Surface :=
  [ControlTower; MissionGraph; CognitiveRouter; FusionLab; Fleet; LiveAttempt;
   SessionSupervisor; ContextLineage; QuotaCapacity; StruggleCockpit; BehaviorCenter;
   WorkspaceHygiene; MergeRail; QualityLab; IncidentsAudit].

Definition Surface_debug (s : Surface) : string :=
  match s with
  | ControlTower => "ControlTower" | MissionGraph => "MissionGraph"
  | CognitiveRouter => "CognitiveRouter" | FusionLab => "FusionLab" | Fleet => "Fleet"
  | LiveAttempt => "LiveAttempt" | SessionSupervisor => "SessionSupervisor"
  | ContextLineage => "ContextLineage" | QuotaCapacity => "QuotaCapacity"
  | StruggleCockpit => "StruggleCockpit" | BehaviorCenter => "BehaviorCenter"
  | WorkspaceHygiene => "WorkspaceHygiene" | MergeRail => "MergeRail"
  | QualityLab => "QualityLab" | IncidentsAudit => "IncidentsAudit"
  end.

(** crates/projections/src/lib.rs:82-88 (unavailable) *)
Definition unavailable (s : Surface) : View unit :=
  ViewUnknown (Surface_debug s +:+ ": control plane has not published this projection").

(** ** Properties *)

(** The router decides only on verified, nonzero capacity, and then always for
    the simulator, which no gate accepts. *)
Lemma router_dispatch_Ok task quota seed d :
  router_dispatch task quota seed = Ok d ->
  (exists q, quota = ObsValue q /\ quota_remaining q <> 0)
  /\ dd_provider d = "sim" /\ dd_model d = "d0" /\ dd_tier d = TierD0
  /\ dd_transaction_gate_eligible d = false /\ dd_task_id d = ct_id task /\ dd_seed d = seed.
Proof.
  unfold router_dispatch. intros Hd. destruct quota as [q| | |]; [|done..].
  apply bind_Ok in Hd as (u & Hq & Hd). injection Hd as <-. inv_result.
  split_and!; try done. by exists q.
Qed.

Lemma router_dispatch_total task q seed :
  quota_remaining q <> 0 -> is_ok (router_dispatch task (ObsValue q) seed) = true.
Proof. intros Hq. unfold router_dispatch. by rewrite bool_decide_false. Qed.

(** As long as no product and no sum leaves 32 bits, the score is the bounded
    weighted sum, and more failures or stalled turns never lower it. *)
Lemma struggle_score_small p :
  0 <= pg_failures p -> 0 <= pg_unique_hashes p -> 0 <= pg_stalled_turns p ->
  28 * pg_failures p + 8 * pg_stalled_turns p <= u32_max ->
  struggle_score p
  = Z.min 100 (12 * pg_failures p + 8 * pg_stalled_turns p
               + 16 * Z.max 0 (pg_failures p - pg_unique_hashes p)).
Proof.
  destruct p as [f u s]. cbn. unfold struggle_score, u32_wrapping_add, u32_saturating_mul,
    u32_saturating_sub, u32_max. cbn. intros Hf Hu Hs Hsum.
  rewrite !(Z.min_r (2 ^ 32 - 1)) by lia.
  rewrite (Z.mod_small (f * 12 + s * 8)) by lia. rewrite Z.mod_small by lia. lia.
Qed.

(** Beyond that the additions wrap: 357,913,941 failures with one stalled turn
    score 4 and do not escalate. *)
Lemma struggle_score_wraps :
  let p := MkProgress 357913941 357913941 1 in
  is_u32 (pg_failures p) /\ struggle_score p = 4 /\ escalate p "t0" 0 = None.
Proof. vm_compute. repeat split; discriminate. Qed.

Lemma escalate_Some p from already e :
  escalate p from already = Some e ->
  already < 3 /\ 40 <= esc_score e <= 100 /\ esc_from_provider e = from
  /\ esc_to_provider e <> from /\ esc_transaction_gate_eligible e = false.
Proof.
  unfold escalate. repeat case_bool_decide; intros; simplify_eq/=; split_and!; try done;
    try lia; try congruence; unfold struggle_score in *; lia.
Qed.

Lemma str_compare_refl a : String.compare a a = Eq.
Proof. pose proof (str_compare_antisym a a). by destruct (String.compare a a). Qed.

Lemma str_le_lt a b : str_le a b <-> str_lt a b \/ a = b.
Proof.
  unfold str_le, str_lt, String.leb, String.ltb. destruct (String.compare a b) eqn:Hc.
  - apply String.compare_eq_iff in Hc as ->. naive_solver.
  - naive_solver.
  - split; [done|]. intros [Hf|Hf]; [done|subst b].
    rewrite str_compare_refl in Hc. congruence.
Qed.

Global Instance artifact_le_total : Total artifact_le.
Proof.
  intros a b. unfold artifact_le.
  destruct (total str_le (art_digest a) (art_digest b)) as [H|H]; apply str_le_lt in H;
    destruct H as [H|H]; auto;
    destruct (total str_le (art_provider a) (art_provider b)); rewrite H; auto.
Qed.

Global Instance artifact_le_trans : Transitive artifact_le.
Proof.
  assert (Hlt : forall x y z, str_lt x y -> str_le y z -> str_lt x z).
  { intros x y z Hxy Hyz. assert (Hxz : str_le x z) by (etrans; [apply str_le_lt; by left|done]).
    apply str_le_lt in Hxz as [?|Heq]; [done|subst x].
    assert (z = y) as -> by (apply (anti_symm str_le); [apply str_le_lt; by left|done]).
    unfold str_lt, String.ltb in Hxy.
    by rewrite str_compare_refl in Hxy. }
  intros a b c [Hab|[Hab Hab']] [Hbc|[Hbc Hbc']]; unfold artifact_le.
  - left. eapply Hlt; [exact Hab|]. apply str_le_lt. by left.
  - left. by rewrite <-Hbc.
  - left. by rewrite Hab.
  - right. split; [congruence|by etrans].
Qed.

(** Fusion selects one of the artifacts, no other is before it, and the choice
    depends on the set and not on the order of the list. *)
Lemma min_artifact_Some l a :
  min_artifact l = Some a -> a ∈ l /\ Forall (artifact_le a) l.
Proof.
  revert a. induction l as [|x l IH]; intros a Ha; [done|]. cbn in Ha.
  assert (Hrefl : forall y, artifact_le y y) by (intros y; by destruct (total artifact_le y y)).
  destruct (min_artifact l) as [b|] eqn:Hb.
  - destruct (IH b eq_refl) as [Hin Hall]. case_decide as Hle; simplify_eq.
    + split; [constructor|]. constructor; [done|]. eapply Forall_impl; [exact Hall|].
      intros y Hy. by etrans.
    + split; [by constructor|]. constructor; [|done]. by destruct (total artifact_le x a).
  - injection Ha as <-. destruct l as [|y l]; [|cbn in Hb; by destruct (min_artifact l); [case_decide|]].
    split; [constructor|]. constructor; [apply Hrefl|constructor].
Qed.

Lemma artifact_le_antisym a b : artifact_le a b -> artifact_le b a -> a = b.
Proof.
  intros Hab Hba.
  assert (Hd : art_digest a = art_digest b).
  { apply (anti_symm str_le); apply str_le_lt; [destruct Hab as [|[]]|destruct Hba as [|[]]]; auto. }
  assert (Hirr : ~ str_lt (art_digest a) (art_digest a)).
  { unfold str_lt, String.ltb. by rewrite str_compare_refl. }
  destruct Hab as [Hab|[_ Hab]]; [by rewrite <-Hd in Hab|].
  destruct Hba as [Hba|[_ Hba]]; [by rewrite <-Hd in Hba|].
  destruct a, b. cbn in *. f_equal; [by apply (anti_symm str_le)|done].
Qed.

Lemma fuse_order_irrelevant `{Blake3} `{Hex} l l' seed :
  l ≡ₚ l' -> fuse l seed = fuse l' seed.
Proof.
  intros Hp. unfold fuse.
  assert (min_artifact l = min_artifact l') as ->; [|done].
  destruct (min_artifact l) as [a|] eqn:Ha, (min_artifact l') as [b|] eqn:Hb; [|..|done].
  - apply min_artifact_Some in Ha as [Ha1 Ha2], Hb as [Hb1 Hb2].
    rewrite <-Hp in Hb1. rewrite Hp in Ha1. rewrite Forall_forall in Ha2, Hb2.
    f_equal. apply artifact_le_antisym; auto.
  - destruct l' as [|y l']; [apply Permutation_nil_r in Hp; by subst l|].
    cbn in Hb. by destruct (min_artifact l'); [case_decide|].
  - destruct l as [|y l]; [apply Permutation_nil_l in Hp; by subst l'|].
    cbn in Ha. by destruct (min_artifact l); [case_decide|].
Qed.

Lemma surfaces_complete s : s ∈ surfaces.
Proof. destruct s; vm_compute; repeat constructor. Qed.

(** A surface without a route reads as unknown, never as a value. *)
Lemma unavailable_unknown s : exists reason, unavailable s = ViewUnknown reason.
Proof. by eexists. Qed.
