(* ===== verification/EgressRequest.v ===== *)
(** * CONNECT requests of the egress proxy

    Models crates/harness-egress/src/request.rs and the head reader of
    tunnel.rs: the authority of a CONNECT request, its normalization, and the
    bounded reading of a request head from a connection. *)

From S2P Require Import Prelude External Ids Text Paths.
From stdpp Require Import options.

Local Open Scope Z_scope.

(** crates/harness-egress/src/request.rs:10-11 (MAX_REQUEST_LINE) *)
Definition MAX_REQUEST_LINE : Z := 4096.
(** crates/harness-egress/src/request.rs:12-13 (MAX_HEAD_BYTES) *)
Definition MAX_HEAD_BYTES : Z := 16 * 1024.
(** crates/harness-egress/src/request.rs:14-15 (MAX_HEADER_LINES) *)
Definition MAX_HEADER_LINES : Z := 64.
(** crates/harness-egress/src/request.rs:16-17 (MAX_HOST_LEN) *)
Definition MAX_HOST_LEN : Z := 253.
(** crates/harness-egress/src/request.rs:18-19 (MAX_LABEL_LEN) *)
Definition MAX_LABEL_LEN : Z := 63.

Definition dot : Ascii.ascii := Ascii.ascii_of_nat 46.
Definition colon : Ascii.ascii := Ascii.ascii_of_nat 58.
Definition hyphen : Ascii.ascii := Ascii.ascii_of_nat 45.
Definition lf : Ascii.ascii := Ascii.ascii_of_nat 10.
Definition cr : Ascii.ascii := Ascii.ascii_of_nat 13.

(** crates/harness-egress/src/request.rs:21-28 (ConnectTarget) *)
Record ConnectTarget : Type := MkConnectTarget {
  tgt_host : string;
  tgt_port : Z
}.

(** crates/harness-egress/src/request.rs:30-34 (ConnectTarget Display) *)
Definition ConnectTarget_display (t : ConnectTarget) : string :=
  tgt_host t +:+ ":" +:+ pretty (tgt_port t).

(** crates/harness-egress/src/request.rs:36-47 (RequestError) *)
Inductive RequestError : Type :=
| MethodNotAllowed (method : string)
| Oversized (what : string)
| MalformedHead (what : string)
| RequestIo (what : string).

(** crates/harness-egress/src/request.rs:50-58 (RequestError::status) *)
Definition RequestError_status (e : RequestError) : Z :=
  match e with
  | MethodNotAllowed _ => 405
  | Oversized _ => 431
  | MalformedHead _ | RequestIo _ => 400
  end.

(** crates/harness-egress/src/request.rs:60-69 (RequestError::reason) *)
Definition RequestError_reason (e : RequestError) : string :=
  match e with
  | MethodNotAllowed method => "method-not-allowed:" +:+ method
  | Oversized what => "oversized:" +:+ what
  | MalformedHead what => "malformed:" +:+ what
  | RequestIo what => "io:" +:+ what
  end.

(** [str::is_ascii]. *)
Definition is_ascii (s : string) : bool := string_all (fun a => bool_decide (byte_val a < 128)) s.

(** The checks of one label. *)
Definition check_label (label : string) : result string unit :=
  _ ← refuse_if (is_empty label) "empty-label";
  _ ← refuse_if (bool_decide (MAX_LABEL_LEN < str_len label)) "label-too-long";
  _ ← refuse_if (negb (string_all (token_byte "-") label)) "host-charset";
  refuse_if (starts_with "-" label || ends_with_char hyphen label) "label-hyphen".

(** crates/harness-egress/src/request.rs:131-179 (normalize_host) *)
Definition normalize_host (raw : string) : result string string :=
  _ ← refuse_if (is_empty raw) "host-empty";
  _ ← refuse_if (bool_decide (MAX_HOST_LEN < str_len raw)) "host-too-long";
  _ ← refuse_if (negb (is_ascii raw)) "non-ascii";
  _ ← refuse_if (ends_with_char dot raw) "trailing-dot";
  _ ← refuse_if (starts_with "." raw) "leading-dot";
  let host := str_ascii_lower raw in
  let labels := str_split dot host in
  _ ← for_each check_label labels;
  _ ← refuse_if (match last labels with
                 | Some l => string_all is_ascii_digit l
                 | None => false
                 end) "ipv4-literal";
  mret host.

(** The value of decimal digits after [acc]. *)
Fixpoint digits_value (acc : Z) (s : string) : Z :=
  match s with
  | EmptyString => acc
  | String a rest => digits_value (10 * acc + (byte_val a - 48)) rest
  end.

(** crates/harness-egress/src/request.rs:113-129 (parse_port) *)
Definition parse_port (port : string) : result string Z :=
  _ ← refuse_if (is_empty port) "port-empty";
  _ ← refuse_if (negb (string_all is_ascii_digit port)) "port-charset";
  _ ← refuse_if (bool_decide (1 < str_len port) && starts_with "0" port) "port-leading-zero";
  let value := digits_value 0 port in
  _ ← refuse_if (bool_decide (u32_max < value)) "port-range";
  if bool_decide (65535 < value) then Err "port-range"
  else if bool_decide (value = 0) then Err "port-zero"
  else Ok value.

Fixpoint count_char (c : Ascii.ascii) (s : string) : nat :=
  match s with
  | EmptyString => 0
  | String a rest => ((if Ascii.eqb a c then 1 else 0) + count_char c rest)%nat
  end.

(** [str::split_once]. *)
Fixpoint split_once (c : Ascii.ascii) (s : string) : option (string * string) :=
  match s with
  | EmptyString => None
  | String a rest =>
      if Ascii.eqb a c then Some (EmptyString, rest)
      else (fun '(l, r) => (String a l, r)) <$> split_once c rest
  end.

Definition contains_any (chars s : string) : bool :=
  string_any (fun a => str_contains_char a chars) s.

(** crates/harness-egress/src/request.rs:72-111 (parse_connect_target) *)
Definition parse_connect_target (raw : string) : result string ConnectTarget :=
  _ ← refuse_if (is_empty raw) "empty";
  _ ← refuse_if (bool_decide (MAX_HOST_LEN + 6 < str_len raw)) "oversized";
  _ ← refuse_if (negb (is_ascii raw)) "non-ascii";
  _ ← refuse_if (string_any (fun a => bool_decide (byte_val a <= 32) || bool_decide (byte_val a = 127)) raw)
        "whitespace-or-control";
  _ ← refuse_if (contains_any "@" raw) "userinfo";
  _ ← refuse_if (contains_any "/?#" raw) "not-authority-form";
  _ ← refuse_if (contains_any "[]" raw) "ipv6-literal";
  _ ← refuse_if (contains_any "%" raw) "percent-encoding";
  '(host, port) ← match count_char colon raw with
                  | O => Err "port-missing"
                  | S O => Ok (default (raw, EmptyString) (split_once colon raw))
                  | _ => Err "multiple-colons"
                  end;
  port ← parse_port port;
  host ← normalize_host host;
  mret (MkConnectTarget host port).

(** ** Request heads *)

(** crates/harness-egress/src/tunnel.rs:103-114 (RequestHead) *)
Record RequestHead : Type := MkRequestHead {
  head_method : string;
  head_target : string;
  head_version : string;
  head_header_lines : Z
}.

Definition strip_cr (line : string) : string :=
  if ends_with_char cr line then str_take (String.length line - 1) line else line.

(** The header lines are counted as they are checked. *)
Fixpoint check_headers (count : Z) (lines : list string) : result RequestError Z :=
  match lines with
  | [] => Ok count
  | line :: rest =>
      let count := count + 1 in
      _ ← refuse_if (bool_decide (MAX_HEADER_LINES < count)) (Oversized "headers");
      _ ← refuse_if (string_any (fun a => bool_decide (byte_val a < 32)
                                          && negb (bool_decide (byte_val a = 9))) line)
            (MalformedHead "header-control-char");
      check_headers count rest
  end.

(** crates/harness-egress/src/tunnel.rs:157-210 (parse_head) *)
Definition parse_head (raw : bytes) : result RequestError RequestHead :=
  _ ← refuse_if (string_any (fun a => bool_decide (byte_val a = 0) || bool_decide (128 <= byte_val a)) raw)
        (MalformedHead "non-ascii-or-nul");
  let lines := strip_cr <$> str_split lf raw in
  let request_line := default EmptyString (head lines) in
  _ ← refuse_if (bool_decide (MAX_REQUEST_LINE < str_len request_line)) (Oversized "request-line");
  header_lines ← check_headers 0 (tail lines);
  _ ← refuse_if (string_any (fun a => bool_decide (byte_val a < 32) || bool_decide (byte_val a = 127))
                   request_line)
        (MalformedHead "request-line-control-char");
  match str_split (Ascii.ascii_of_nat 32) request_line with
  | [method; target; version] =>
      _ ← refuse_if (is_empty method || is_empty target) (MalformedHead "request-line-shape");
      _ ← refuse_if (negb (bool_decide (version = "HTTP/1.1")) && negb (bool_decide (version = "HTTP/1.0")))
            (MalformedHead "http-version");
      _ ← refuse_if (negb (bool_decide (method = "CONNECT"))) (MethodNotAllowed (str_take 16 method));
      mret (MkRequestHead method target version header_lines)
  | _ => Err (MalformedHead "request-line-shape")
  end.

Definition crlf_crlf : bytes := String cr (String lf (String cr (String lf EmptyString))).
Definition lf_lf : bytes := String lf (String lf EmptyString).

(** crates/harness-egress/src/tunnel.rs:146-155 (find_terminator) *)
Definition find_terminator (buf : bytes) : option (nat * nat) :=
  match str_find crlf_crlf buf, str_find lf_lf buf with
  | Some a, Some b => if bool_decide (b + 1 < a)%nat then Some (b, b + 2)%nat else Some (a, a + 4)%nat
  | Some a, None => Some (a, a + 4)%nat
  | None, Some b => Some (b, b + 2)%nat
  | None, None => None
  end.

(** A reader gives the outcome of its n-th [read]: bytes, at most 1024 of
    them and none at the end of the stream, or the kind of an [io::Error]. *)
Definition reader : Type := nat -> result string bytes.

(** crates/harness-egress/src/tunnel.rs:116-144 (read_head) *)
Fixpoint read_head_from (fuel : nat) (r : reader) (n : nat) (buf : bytes)
  : option (result RequestError (RequestHead * bytes)) :=
  match find_terminator buf with
  | Some (head_end, body_start) =>
      Some (h ← parse_head (str_take head_end buf); mret (h, str_drop body_start buf))
  | None =>
      if bool_decide (MAX_HEAD_BYTES <= str_len buf) then Some (Err (Oversized "head"))
      else if negb (str_contains_char lf buf) && bool_decide (MAX_REQUEST_LINE < str_len buf)
      then Some (Err (Oversized "request-line"))
      else match fuel with
      | O => None
      | S fuel =>
          match r n with
          | Err kind => Some (Err (RequestIo kind))
          | Panic => Some Panic
          | Ok chunk =>
              if is_empty chunk then Some (Err (MalformedHead "eof-before-head"))
              else read_head_from fuel r (S n) (buf +:+ chunk)
          end
      end
  end.

(** Enough rounds for a head of [MAX_HEAD_BYTES] that arrives byte by byte. *)
Definition HEAD_READS : nat := Z.to_nat MAX_HEAD_BYTES.

Definition read_head (r : reader) : option (result RequestError (RequestHead * bytes)) :=
  read_head_from HEAD_READS r 0 EmptyString.

(** The bytes of the first [n] reads. *)
Fixpoint bytes_read (r : reader) (n : nat) : bytes :=
  match n with
  | O => EmptyString
  | S n => bytes_read r n +:+ match r n with Ok chunk => chunk | _ => EmptyString end
  end.

(** ** Positions and decimal numbers *)

Lemma substring_0_length n s : (String.length (String.substring 0 n s) <= n)%nat.
Proof. revert n; induction s as [|a s IH]; intros [|n]; simpl; try lia. specialize (IH n). lia. Qed.

Lemma str_take_all s : String.substring 0 (String.length s) s = s.
Proof. induction s as [|a s IH]; simpl; congruence. Qed.

Lemma substring_prefix p s :
  String.substring 0 (String.length p) s = p ->
  s = p +:+ str_drop (String.length p) s.
Proof.
  unfold str_drop. revert s; induction p as [|a p IH]; intros s.
  { intros _. autorewrite with kernel. cbn [String.length]. by rewrite Nat.sub_0_r, str_take_all. }
  destruct s as [|b s]; [done|]. cbn [String.length String.substring].
  intros [= -> H]. autorewrite with kernel. f_equal. exact (IH s H).
Qed.

Lemma substring_split m p s :
  p <> EmptyString ->
  String.substring m (String.length p) s = p ->
  s = str_take m s +:+ p +:+ str_drop (m + String.length p) s.
Proof.
  intros Hp. revert m; induction s as [|b s IH]; intros [|m] Hm.
  - destruct p; done.
  - destruct p; done.
  - unfold str_take. cbn [String.substring]. autorewrite with kernel.
    by apply substring_prefix.
  - cbn [String.substring] in Hm. apply IH in Hm. unfold str_take, str_drop in *.
    cbn [String.substring Nat.add String.length Nat.sub]. autorewrite with kernel.
    f_equal. exact Hm.
Qed.

Lemma str_find_split needle hay m :
  needle <> EmptyString ->
  str_find needle hay = Some m ->
  hay = str_take m hay +:+ needle +:+ str_drop (m + String.length needle) hay.
Proof. intros Hn Hf. apply substring_split; [done|]. exact (String.index_correct1 _ _ _ _ Hf). Qed.

(** Where the terminator of a head is found, the buffer is the head, a blank
    line and the bytes after it. *)
Lemma find_terminator_split buf e b :
  find_terminator buf = Some (e, b) ->
  exists term, term ∈ [crlf_crlf; lf_lf] /\ buf = str_take e buf +:+ term +:+ str_drop b buf.
Proof.
  unfold find_terminator. intros H.
  destruct (str_find crlf_crlf buf) as [x|] eqn:Hx, (str_find lf_lf buf) as [y|] eqn:Hy;
    [case_bool_decide| | |]; simplify_eq;
    first [exists crlf_crlf; split; [set_solver|exact (str_find_split crlf_crlf _ _ ltac:(done) Hx)]
          |exists lf_lf; split; [set_solver|exact (str_find_split lf_lf _ _ ltac:(done) Hy)]].
Qed.

Lemma digits_value_app acc a b : digits_value acc (a +:+ b) = digits_value (digits_value acc a) b.
Proof. revert acc; induction a as [|x a IH]; intros acc; autorewrite with kernel; simpl; auto. Qed.

Lemma pretty_N_char_val n : (n < 10)%N -> byte_val (pretty_N_char n) = 48 + Z.of_N n.
Proof. destruct n as [|p]; [done|]. do 4 (destruct p; try done). Qed.

Lemma digits_value_pretty_go n s :
  digits_value 0 (pretty_N_go n s) = digits_value (Z.of_N n) s.
Proof.
  revert s. induction (N.lt_wf_0 n) as [n _ IH]. intros s.
  destruct (decide (n = 0%N)) as [->|Hn]; [by rewrite pretty_N_go_0|].
  rewrite pretty_N_go_step by lia. rewrite IH by (apply N.div_lt; lia). simpl.
  rewrite pretty_N_char_val by (apply N.mod_lt; lia). f_equal.
  rewrite N2Z.inj_div, N2Z.inj_mod. pose proof (Z.div_mod (Z.of_N n) 10 ltac:(lia)). lia.
Qed.

Lemma pretty_go_leading n s :
  (0 < n)%N ->
  exists d rest, pretty_N_go n s = String d rest /\ is_ascii_digit d = true /\ byte_val d <> 48.
Proof.
  revert s. induction (N.lt_wf_0 n) as [n _ IH]. intros s Hn.
  rewrite pretty_N_go_step by lia.
  destruct (decide (n `div` 10 = 0)%N) as [Hz|Hz].
  - rewrite Hz, pretty_N_go_0. do 2 eexists. split; [done|]. split; [apply pretty_N_char_digit|].
    apply N.div_small_iff in Hz; [|lia]. rewrite N.mod_small by done.
    rewrite pretty_N_char_val by done. lia.
  - apply IH; [apply N.div_lt; lia|]. by apply N.neq_0_lt_0.
Qed.

Lemma digits_value_lower acc s :
  0 <= acc -> string_all is_ascii_digit s = true ->
  acc * 10 ^ str_len s <= digits_value acc s.
Proof.
  revert acc; induction s as [|a s IH]; intros acc Hacc; cbn [string_all digits_value].
  { intros _. unfold str_len. simpl. lia. }
  intros [Ha Hs]%andb_true_iff. unfold is_ascii_digit in Ha. apply bool_decide_eq_true in Ha.
  specialize (IH (10 * acc + (byte_val a - 48)) ltac:(lia) Hs).
  unfold str_len in *. cbn [String.length]. rewrite Nat2Z.inj_succ, Z.pow_succ_r by lia. nia.
Qed.

Lemma pretty_pos p : pretty (Z.pos p) = pretty_N_go (N.pos p) EmptyString.
Proof. reflexivity. Qed.

(** A decimal number is read back, has no leading zero, and is as long as its
    digits. *)
Lemma parse_port_pretty (z : Z) : 0 < z <= 65535 -> parse_port (pretty z) = Ok z.
Proof.
  intros Hz. destruct z as [|p|p]; [lia| |lia].
  pose proof (pretty_Z_digits (Z.pos p) ltac:(lia)) as Hd.
  rewrite pretty_pos in *.
  pose proof (digits_value_pretty_go (N.pos p) EmptyString) as Hv.
  destruct (pretty_go_leading (N.pos p) EmptyString ltac:(lia)) as (d & rest & Hgo & Hdig & Hne).
  rewrite Hgo in *. unfold parse_port. cbn [is_empty]. rewrite Hd.
  assert (starts_with "0" (String d rest) = false) as ->.
  { apply not_true_iff_false. rewrite starts_with_spec. intros [r Hr].
    rewrite string_app_cons in Hr. injection Hr as -> _. by apply Hne. }
  rewrite andb_false_r. cbv zeta. rewrite Hv. cbn [digits_value]. change (Z.of_N (N.pos p)) with (Z.pos p).
  assert (u32_max = 4294967295) as Hu by reflexivity.
  rewrite !bool_decide_false by lia. reflexivity.
Qed.

Lemma port_length (z : Z) : 0 < z <= 65535 -> str_len (pretty z) <= 5.
Proof.
  intros Hz. destruct z as [|p|p]; [lia| |lia].
  pose proof (pretty_Z_digits (Z.pos p) ltac:(lia)) as Hd.
  rewrite pretty_pos in *.
  pose proof (digits_value_pretty_go (N.pos p) EmptyString) as Hv.
  destruct (pretty_go_leading (N.pos p) EmptyString ltac:(lia)) as (d & rest & Hgo & Hdig & Hne).
  rewrite Hgo in *. unfold str_len. cbn [String.length].
  cbn [string_all] in Hd. apply andb_true_iff in Hd as [_ Hd]. cbn [digits_value] in Hv.
  unfold is_ascii_digit in Hdig. apply bool_decide_eq_true in Hdig.
  pose proof (digits_value_lower (10 * 0 + (byte_val d - 48)) rest ltac:(lia) Hd) as Hl.
  destruct (decide (Z.of_nat (String.length rest) <= 4)) as [|Hlong]; [lia|].
  assert (10 ^ 5 <= 10 ^ str_len rest) by (apply Z.pow_le_mono_r; unfold str_len; lia). nia.
Qed.

(** ** Hosts *)

(** The bytes of a normalized host. *)
Definition host_byte (a : Ascii.ascii) : bool := token_byte "-" a || Ascii.eqb a dot.

Lemma str_split_all f c s :
  Forall (fun part => string_all f part = true) (str_split c s) ->
  string_all (fun a => f a || Ascii.eqb a c) s = true.
Proof.
  induction s as [|a s IH]; cbn [str_split string_all]; [done|].
  destruct (Ascii.eqb a c) eqn:Ha.
  - intros [_ H]%Forall_cons. by rewrite orb_true_r, IH.
  - destruct (str_split c s) as [|p ps] eqn:Hs.
    + intros [Hf _]%Forall_cons. simpl in Hf. apply andb_true_iff in Hf as [-> _]. simpl. by apply IH.
    + intros [Hf Hps]%Forall_cons. simpl in Hf. apply andb_true_iff in Hf as [-> Hp]. simpl.
      apply IH. by constructor.
Qed.

Lemma ascii_lower_host a : host_byte a = true -> ascii_lower a = a.
Proof. destruct a as [[] [] [] [] [] [] [] []]; vm_compute; done. Qed.

Lemma host_byte_ascii a :
  host_byte a = true ->
  bool_decide (byte_val a < 128) = true
  /\ bool_decide (byte_val a <= 32) || bool_decide (byte_val a = 127) = false
  /\ Ascii.eqb a colon = false.
Proof. destruct a as [[] [] [] [] [] [] [] []]; vm_compute; done. Qed.

Lemma str_ascii_lower_host s : string_all host_byte s = true -> str_ascii_lower s = s.
Proof.
  induction s as [|a s IH]; cbn; [done|]. intros [Ha Hs]%andb_true_iff.
  by rewrite ascii_lower_host, IH.
Qed.

Lemma str_ascii_lower_length s : String.length (str_ascii_lower s) = String.length s.
Proof. induction s; simpl; congruence. Qed.

Lemma str_ascii_lower_get n s : String.get n (str_ascii_lower s) = ascii_lower <$> String.get n s.
Proof. revert n; induction s as [|a s IH]; intros [|n]; simpl; auto. Qed.

Lemma ascii_lower_dot a : ascii_lower a = dot -> a = dot.
Proof. destruct a as [[] [] [] [] [] [] [] []]; vm_compute; congruence. Qed.

Lemma ends_with_lower_dot s : ends_with_char dot s = false -> ends_with_char dot (str_ascii_lower s) = false.
Proof.
  unfold ends_with_char. rewrite !bool_decide_eq_false, str_ascii_lower_length, str_ascii_lower_get.
  intros H. destruct (String.get _ s) as [a|]; [|done]. simpl.
  intros [= E%ascii_lower_dot]. congruence.
Qed.

Lemma starts_with_lower_dot s : starts_with "." s = false -> starts_with "." (str_ascii_lower s) = false.
Proof.
  rewrite <-!not_true_iff_false, !starts_with_spec. intros H [r Hr].
  destruct s as [|a s]; [done|]. rewrite string_app_cons in Hr. cbn [str_ascii_lower] in Hr.
  injection Hr as Ha _. apply ascii_lower_dot in Ha as ->. apply H. by exists s.
Qed.

(** What a normalized host is: short, of host bytes only, and a fixpoint. *)
Lemma normalize_host_Ok raw host :
  normalize_host raw = Ok host ->
  0 < str_len host <= MAX_HOST_LEN /\ string_all host_byte host = true /\ normalize_host host = Ok host.
Proof.
  unfold normalize_host. intros H. inv_result.
  match goal with Hl : for_each _ _ = Ok ?u |- _ => rename Hl into Hlab; destruct u end.
  set (host := str_ascii_lower raw) in *.
  assert (string_all host_byte host = true) as Hb.
  { apply str_split_all. apply for_each_Ok in Hlab. eapply Forall_impl; [exact Hlab|].
    intros l Hl. unfold check_label in Hl. by inv_result. }
  assert (str_len host = str_len raw) as Hlen by (unfold str_len, host; by rewrite str_ascii_lower_length).
  assert (is_empty host = false) as -> by (by destruct raw).
  assert (is_ascii host = true) as ->.
  { revert Hb. apply string_all_impl. intros a Ha. by apply host_byte_ascii in Ha as [-> _]. }
  assert (ends_with_char dot host = false) as -> by by apply ends_with_lower_dot.
  assert (starts_with "." host = false) as -> by by apply starts_with_lower_dot.
  rewrite Hlen, bool_decide_false by done. rewrite str_ascii_lower_host, Hlab by done. run_result.
  split; [|split; [done|]].
  - split; [|lia]. destruct raw; [done|]. unfold str_len. simpl. lia.
  - match goal with Hl : match last _ with _ => _ end = _ |- _ => by rewrite Hl end.
Qed.

Lemma parse_connect_target_Ok raw t :
  parse_connect_target raw = Ok t ->
  normalize_host (tgt_host t) = Ok (tgt_host t) /\ 0 < tgt_port t <= 65535.
Proof.
  unfold parse_connect_target. intros H. inv_result.
  match goal with x : string * string |- _ => destruct x as [h p] end.
  inv_result. cbn [tgt_host tgt_port]. split.
  - match goal with Hn : normalize_host _ = _ |- _ => by apply normalize_host_Ok in Hn as (_ & _ & ?) end.
  - match goal with Hp : parse_port p = Ok ?z |- _ =>
      unfold parse_port in Hp; inv_result; case_result;
      pose proof (digits_value_lower 0 p ltac:(lia) ltac:(done)); lia end.
Qed.

Lemma count_char_app c a b : count_char c (a +:+ b) = (count_char c a + count_char c b)%nat.
Proof. induction a as [|x a IH]; autorewrite with kernel; simpl; lia. Qed.

Lemma count_char_no c s : no_char c s = true -> count_char c s = 0%nat.
Proof.
  unfold no_char. induction s as [|a s IH]; simpl; [done|].
  intros [Ha Hs]%andb_true_iff. rewrite IH by done. by destruct (Ascii.eqb a c).
Qed.

Lemma split_once_app c a b : no_char c a = true -> split_once c (a +:+ String c b) = Some (a, b).
Proof.
  unfold no_char. induction a as [|x a IH]; autorewrite with kernel; cbn [split_once string_all].
  - by rewrite Ascii.eqb_refl.
  - intros [Hx Ha]%andb_true_iff. apply negb_true_iff in Hx. by rewrite Hx, IH.
Qed.

Lemma string_any_all f s : string_any f s = negb (string_all (fun a => negb (f a)) s).
Proof. induction s as [|a s IH]; simpl; [done|]. rewrite IH. by destruct (f a). Qed.

Lemma string_all_any f s : string_all f s = negb (string_any (fun a => negb (f a)) s).
Proof. induction s as [|a s IH]; simpl; [done|]. rewrite IH. by destruct (f a). Qed.

(** Decides a property of one byte by running through the 256. *)
Ltac byte_cases :=
  intros [[] [] [] [] [] [] [] []]; vm_compute; (intros; split; congruence) || done.

Lemma display_not_any f t :
  (forall a, f a = true -> host_byte a = false /\ Ascii.eqb a colon = false) ->
  string_all host_byte (tgt_host t) = true -> 0 < tgt_port t ->
  string_any f (ConnectTarget_display t) = false.
Proof.
  intros Hf Hh Hp. rewrite string_any_all, negb_false_iff. unfold ConnectTarget_display.
  assert (forall a, host_byte a = true \/ a = colon -> negb (f a) = true) as Hg.
  { intros a [Ha| ->]; apply negb_true_iff, not_true_iff_false; intros Hfa;
      apply Hf in Hfa as [? ?]; [congruence|]. by rewrite Ascii.eqb_refl in *. }
  rewrite !string_all_app, !andb_true_iff. split; [|split].
  - revert Hh. apply string_all_impl. eauto.
  - cbn [string_all]. rewrite andb_true_r. apply Hg. by right.
  - eapply string_all_impl; [|apply pretty_Z_digits; lia]. intros a Ha. apply Hg. left.
    unfold host_byte, token_byte. by rewrite Ha, orb_true_r.
Qed.

(** Printing a CONNECT target that was accepted gives an authority that
    is accepted as the same target: the host is already in normal form, the
    port has no second spelling, and the length bound holds of the printed
    form. What the decision log shows of a target is the target itself. *)
Theorem connect_target_roundtrip raw t :
  parse_connect_target raw = Ok t ->
  parse_connect_target (ConnectTarget_display t) = Ok t.
Proof.
  intros [Hn Hp]%parse_connect_target_Ok.
  destruct (normalize_host_Ok _ _ Hn) as (Hlen & Hb & _).
  pose proof (port_length _ Hp) as Hpl.
  assert (no_char colon (tgt_host t) = true) as Hc.
  { revert Hb. apply string_all_impl. intros a Ha. apply host_byte_ascii in Ha as (_ & _ & ->). done. }
  unfold parse_connect_target.
  assert (is_empty (ConnectTarget_display t) = false) as ->.
  { unfold ConnectTarget_display. by destruct (tgt_host t). }
  assert (str_len (ConnectTarget_display t) = str_len (tgt_host t) + 1 + str_len (pretty (tgt_port t))) as ->.
  { unfold ConnectTarget_display, str_len. rewrite !string_app_length. simpl. lia. }
  unfold MAX_HOST_LEN in *. rewrite bool_decide_false by lia.
  unfold is_ascii, contains_any. rewrite string_all_any.
  rewrite !display_not_any by first [done|lia|by byte_cases]. run_result.
  unfold ConnectTarget_display. rewrite !count_char_app, (count_char_no _ _ Hc).
  rewrite (count_char_no colon (pretty _)) by (apply digits_no_char; [done|apply pretty_Z_digits; lia]).
  change (":" +:+ ?s) with (String colon s). rewrite split_once_app by done.
  simpl count_char. cbn [Nat.add default from_option id]. run_result.
  rewrite parse_port_pretty by done. run_result. rewrite Hn. by destruct t.
Qed.

Lemma connect_target_roundtrip_witness :
  parse_connect_target "API.Anthropic.com:443" = Ok (MkConnectTarget "api.anthropic.com" 443)
  /\ parse_connect_target (ConnectTarget_display (MkConnectTarget "api.anthropic.com" 443))
     = Ok (MkConnectTarget "api.anthropic.com" 443).
Proof.
  split; [vm_compute; reflexivity|].
  apply (connect_target_roundtrip "API.Anthropic.com:443"). vm_compute. reflexivity.
Defined.

(** ** Reading a head *)

(** Only a CONNECT request passes. *)
Lemma parse_head_method raw h : parse_head raw = Ok h -> head_method h = "CONNECT".
Proof.
  unfold parse_head. intros H. inv_result.
  destruct (str_split (Ascii.ascii_of_nat 32) _) as [|method [|target [|version []]]]; inv_result. done.
Qed.

(** While the loop goes on, every read adds at least one byte and the buffer
    stays below [MAX_HEAD_BYTES]; so it ends, and the buffer it ends with is
    what was read. *)
Lemma read_head_from_returns r fuel n buf :
  MAX_HEAD_BYTES <= str_len buf + Z.of_nat fuel ->
  buf = bytes_read r n ->
  exists out, read_head_from fuel r n buf = Some out
    /\ (forall h rest, out = Ok (h, rest) ->
         exists m raw term, bytes_read r m = raw +:+ term +:+ rest
           /\ term ∈ [crlf_crlf; lf_lf] /\ parse_head raw = Ok h
           /\ (m = n \/ exists k, m = S k /\ str_len (bytes_read r k) < MAX_HEAD_BYTES)).
Proof.
  revert n buf. induction fuel as [|fuel IH]; intros n buf Hfuel Hbuf;
    cbn [read_head_from]; destruct (find_terminator buf) as [[e b]|] eqn:Hterm.
  1, 3: (eexists; split; [done|]; intros h rest Hout; apply bind_Ok in Hout as (h' & Hp & [= <- <-]);
    apply find_terminator_split in Hterm as (term & Hin & Hsplit);
    exists n, (str_take e buf), term; rewrite <-Hbuf; auto).
  all: (case_bool_decide; [by eexists|]).
  { lia. }
  destruct (negb _ && _); [by eexists|].
  destruct (r n) as [chunk|kind|] eqn:Hr; [|by eexists|by eexists].
  destruct chunk as [|c chunk]; cbn [is_empty]; [by eexists|].
  destruct (IH (S n) (buf +:+ String c chunk)) as (out & Hrun & Hout).
  - unfold str_len in *. rewrite string_app_length. cbn [String.length]. lia.
  - cbn [bytes_read]. by rewrite Hr, Hbuf.
  - exists out. split; [done|]. intros h rest (m & raw & term & ? & ? & ? & Hm)%Hout.
    exists m, raw, term. do 3 (split; [done|]). right. destruct Hm as [->|?]; [|done].
    exists n. split; [done|]. rewrite <-Hbuf. lia.
Qed.

Lemma read_head_ok (r : reader) :
  exists out, read_head r = Some out
    /\ forall h rest, out = Ok (h, rest) ->
       exists m raw term, bytes_read r m = raw +:+ term +:+ rest
         /\ term ∈ [crlf_crlf; lf_lf] /\ parse_head raw = Ok h
         /\ (m = 0%nat \/ exists k, m = S k /\ str_len (bytes_read r k) < MAX_HEAD_BYTES).
Proof. by apply read_head_from_returns. Qed.

(** Reading a request head always returns, after at most
    [MAX_HEAD_BYTES] reads, whatever the peer sends and however slowly: each
    round ends the loop or adds a byte to a buffer that may not reach the
    bound. An accepted head is exactly the bytes before the first blank line
    the code looks for, and the bytes after that line are handed on as they
    arrived, none lost and none invented; when reads give at most 1024 bytes
    those are fewer than [MAX_HEAD_BYTES] + 1024. *)
Theorem read_head_returns (r : reader) :
  exists out, read_head r = Some out
    /\ forall h rest, out = Ok (h, rest) ->
       exists m raw term, bytes_read r m = raw +:+ term +:+ rest
         /\ term ∈ [crlf_crlf; lf_lf]
         /\ parse_head raw = Ok h
         /\ head_method h = "CONNECT"
         /\ ((forall k chunk, r k = Ok chunk -> str_len chunk <= 1024) ->
             str_len (bytes_read r m) < MAX_HEAD_BYTES + 1024).
Proof.
  destruct (read_head_ok r) as (out & Hrun & Hout).
  exists out. split; [exact Hrun|]. intros h rest (m & raw & term & Hb & Ht & Hp & Hm)%Hout.
  exists m, raw, term. do 3 (split; [done|]). split; [by apply parse_head_method in Hp|].
  intros Hchunk. destruct Hm as [->|(k & -> & Hk)]; [done|].
  cbn [bytes_read]. unfold str_len in *. rewrite string_app_length.
  destruct (r k) as [chunk| |] eqn:Hr; cbn [String.length]; [apply Hchunk in Hr| |]; lia.
Qed.
