(* ===== verification/EgressProxy.v ===== *)
(** * Egress policies and the CONNECT proxy

    Models [Shared], [arm], [shutdown], [accept_loop] and [serve] of
    crates/harness-egress/src/proxy.rs with [TunnelGuard], [connect_upstream]
    and [respond] of tunnel.rs. The proxy runs one thread per connection; the
    threads share the armed flag, the tunnel counter (both sequentially
    consistent atomics) and the decision log (under a mutex). A thread is a
    program counter: its steps between two accesses of shared state are one
    step, and the steps of all threads, of the acceptor and of the owner that
    arms the proxy interleave freely. What the network does (the bytes a client
    sends, the outcome of a resolution or of a write) is chosen by the step. *)

From S2P Require Import Prelude External Ids Gates Text Paths EgressRequest.
From stdpp Require Import options.

Local Open Scope Z_scope.

(** ** Egress policies and the decision log

    Models crates/harness-egress/src/error.rs, allowlist.rs and decisions.rs:
    the reviewed host tables, the policy built from one of them or from an
    explicit list, the decision on one target, and the bounded tail of the
    decision log. A [BTreeSet] is the list of its members in order. *)

(** crates/harness-egress/src/error.rs:6-29 (EgressCode) *)
Inductive EgressCode : Type :=
| ToolMissing | NamespaceFailed | UplinkFailed | RulesetFailed | ProxyFailed
| IsolationUnproven | AllowlistDenied | FilesystemDenied | FilesystemChanged | EgressIoFailed.

Global Instance EgressCode_eq_dec : EqDecision EgressCode.
Proof. solve_decision. Defined.

(** crates/harness-egress/src/error.rs:32-47 (EgressCode::as_str) *)
Definition EgressCode_as_str (c : EgressCode) : string :=
  match c with
  | ToolMissing => "EGRESS_TOOL_MISSING"
  | NamespaceFailed => "EGRESS_NAMESPACE_FAILED"
  | UplinkFailed => "EGRESS_UPLINK_FAILED"
  | RulesetFailed => "EGRESS_RULESET_FAILED"
  | ProxyFailed => "EGRESS_PROXY_FAILED"
  | IsolationUnproven => "EGRESS_ISOLATION_UNPROVEN"
  | AllowlistDenied => "EGRESS_ALLOWLIST_DENIED"
  | FilesystemDenied => "EGRESS_FILESYSTEM_DENIED"
  | FilesystemChanged => "EGRESS_FILESYSTEM_CHANGED"
  | EgressIoFailed => "EGRESS_IO_FAILED"
  end.

(** crates/harness-egress/src/error.rs:56-64 (EgressError) *)
Record EgressError : Type := MkEgressError {
  ee_code : EgressCode;
  ee_detail : string
}.

(** crates/harness-egress/src/error.rs:75-78 (EgressError::io) *)
Definition EgressError_io (context err : string) : EgressError :=
  MkEgressError EgressIoFailed (context +:+ ": " +:+ err).

(** ** The reviewed tables *)

(** crates/harness-egress/src/allowlist.rs:15-23 (AllowlistMode) *)
Inductive AllowlistMode : Type := Strict | Extended.

Global Instance AllowlistMode_eq_dec : EqDecision AllowlistMode.
Proof. solve_decision. Defined.

(** crates/harness-egress/src/allowlist.rs:25-34 (AllowlistEntry) *)
Record AllowlistEntry : Type := entry {
  ae_host : string;
  ae_strict : bool;
  ae_rationale : string
}.

(** crates/harness-egress/src/allowlist.rs:44-67 (CLAUDE) *)
Definition CLAUDE : list AllowlistEntry :=
  [entry "api.anthropic.com" true
     "Anthropic Messages API; the only host needed for model calls with an API key.";
   entry "claude.ai" false
     "Claude.ai OAuth login and subscription-session flow; only interactive login needs it.";
   entry "console.anthropic.com" false
     "Console OAuth authorization/token exchange used by `claude login`.";
   entry "statsig.anthropic.com" false
     "Feature-flag and usage telemetry; not needed to complete a task, so strict mode blocks it."].

(** crates/harness-egress/src/allowlist.rs:69-86 (CODEX) *)
Definition CODEX : list AllowlistEntry :=
  [entry "api.openai.com" true
     "OpenAI Responses/Chat API used by the Codex CLI with an API key.";
   entry "chatgpt.com" false
     "ChatGPT-backed session endpoint and OAuth callback used by `codex login`.";
   entry "auth.openai.com" false
     "OpenAI OAuth authorization server used by `codex login`."].

(** crates/harness-egress/src/allowlist.rs:88-116 (CURSOR) *)
Definition CURSOR : list AllowlistEntry :=
  [entry "api2.cursor.sh" true
     "Primary Cursor API gateway used for agent and model calls.";
   entry "api3.cursor.sh" true
     "Secondary Cursor API gateway (streaming/agent traffic).";
   entry "repo42.cursor.sh" false
     "Codebase-indexing upload endpoint; not required for a local task.";
   entry "authenticator.cursor.sh" false
     "Cursor login/OAuth service used by `cursor-agent login`.";
   entry "cursor.com" false
     "Login callback and account pages used during interactive login."].

(** crates/harness-egress/src/allowlist.rs:118-141 (ANTIGRAVITY) *)
Definition ANTIGRAVITY : list AllowlistEntry :=
  [entry "generativelanguage.googleapis.com" true
     "Gemini API used with an API key.";
   entry "cloudcode-pa.googleapis.com" true
     "Gemini Code Assist backend used by Google agent CLIs with OAuth credentials.";
   entry "oauth2.googleapis.com" false
     "Google OAuth token exchange/refresh used by interactive login.";
   entry "accounts.google.com" false
     "Google account sign-in used by interactive login."].

(** crates/harness-egress/src/allowlist.rs:143-149 (PROVIDERS) *)
Definition PROVIDERS : list (string * list AllowlistEntry) :=
  [("claude", CLAUDE); ("codex", CODEX); ("cursor", CURSOR); ("antigravity", ANTIGRAVITY)].

(** ** Policies *)

(** crates/harness-egress/src/allowlist.rs:151-158 (Decision) *)
Inductive PolicyDecision : Type :=
| PolicyAllow
| PolicyDeny (reason : string).

(** crates/harness-egress/src/allowlist.rs:160-167 (EgressPolicy) *)
Record EgressPolicy : Type := MkEgressPolicy {
  pol_provider : string;
  pol_mode : AllowlistMode;
  pol_hosts : list string;
  pol_ports : list Z
}.

Definition host_set (hosts : list string) : list string := remove_dups (merge_sort str_le hosts).
Definition port_set (ports : list Z) : list Z := remove_dups (merge_sort Z.le ports).

(** crates/harness-egress/src/allowlist.rs:179-206 (EgressPolicy::for_provider_with) *)
Definition for_provider_with (provider : string) (mode : AllowlistMode) : result EgressError EgressPolicy :=
  table ← ok_or (snd <$> find (fun '(name, _) => bool_decide (name = provider)) PROVIDERS)
            (MkEgressError AllowlistDenied
               ("unknown provider " +:+ str_debug provider +:+ "; no allowlist table"));
  let hosts := ae_host <$> base.filter (fun e => ae_strict e = true \/ mode = Extended) table in
  mret (MkEgressPolicy provider mode (host_set hosts) [443]).

(** crates/harness-egress/src/allowlist.rs:170-177 (EgressPolicy::for_provider) *)
Definition for_provider (provider : string) : result EgressError EgressPolicy :=
  for_provider_with provider Strict.

(** The hosts of an explicit policy, normalized one by one. *)
Fixpoint normalize_hosts (hosts : list string) : result EgressError (list string) :=
  match hosts with
  | [] => mret []
  | host :: rest =>
      normalized ← map_err (fun reason => MkEgressError AllowlistDenied
                              ("invalid allowlist host " +:+ str_debug host +:+ ": " +:+ reason))
                     (normalize_host host);
      others ← normalize_hosts rest;
      mret (normalized :: others)
  end.

(** crates/harness-egress/src/allowlist.rs:208-255 (EgressPolicy::custom) *)
Definition custom (label : string) (hosts : list string) (ports : list Z)
  : result EgressError EgressPolicy :=
  let label_ok := negb (is_empty label) && bool_decide (str_len label <= 64)
                  && string_all (token_byte "-") label in
  _ ← refuse_if (negb label_ok)
        (MkEgressError AllowlistDenied "custom policy label must be 1..=64 lowercase LDH characters");
  hosts ← normalize_hosts hosts;
  let hosts := host_set hosts in
  let ports := port_set ports in
  _ ← refuse_if (bool_decide (hosts = []) || bool_decide (ports = []) || bool_decide (0 ∈ ports))
        (MkEgressError AllowlistDenied "custom policy needs at least one host and one non-zero port");
  mret (MkEgressPolicy ("custom:" +:+ label) Strict hosts ports).

(** crates/harness-egress/src/allowlist.rs:292-302 (EgressPolicy::decide) *)
Definition decide_target (p : EgressPolicy) (t : ConnectTarget) : PolicyDecision :=
  if negb (bool_decide (tgt_host t ∈ pol_hosts p)) then PolicyDeny "host-not-allowlisted"
  else if negb (bool_decide (tgt_port t ∈ pol_ports p)) then PolicyDeny "port-not-allowed"
  else PolicyAllow.

(** ** The decision log *)

(** crates/harness-egress/src/decisions.rs:12-12 (RECENT_CAPACITY) *)
Definition RECENT_CAPACITY : nat := 256.
(** crates/harness-egress/src/decisions.rs:13-13 (MAX_TARGET_CHARS) *)
Definition MAX_TARGET_CHARS : nat := 256.

(** crates/harness-egress/src/decisions.rs:15-27 (Decision) *)
Inductive LogDecision : Type := LogAllow | LogDeny | LogMalformed | LogLimit.

Global Instance LogDecision_eq_dec : EqDecision LogDecision.
Proof. solve_decision. Defined.

(** crates/harness-egress/src/decisions.rs:29-44 (DecisionRecord) *)
Record DecisionRecord : Type := MkDecisionRecord {
  dr_ts : string;
  dr_provider : string;
  dr_target : string;
  dr_decision : LogDecision;
  dr_reason : string;
  dr_status : Z
}.

(** The lines handed to the log file, and the tail kept in memory. Writing a
    line may fail, and the failure is dropped. *)
(** crates/harness-egress/src/decisions.rs:51-56 (DecisionLog) *)
Record DecisionLog : Type := MkDecisionLog {
  dl_provider : string;
  dl_written : list DecisionRecord;
  dl_recent : list DecisionRecord
}.

(** crates/harness-egress/src/decisions.rs:59-78 (DecisionLog::open) *)
Definition DecisionLog_open (provider : string) : DecisionLog := MkDecisionLog provider [] [].

Fixpoint string_filter (f : Ascii.ascii -> bool) (s : string) : string :=
  match s with
  | EmptyString => EmptyString
  | String a rest => if f a then String a (string_filter f rest) else string_filter f rest
  end.

(** crates/harness-egress/src/decisions.rs:137-143 (sanitize_target) *)
Definition sanitize_target (target : string) : string :=
  str_take MAX_TARGET_CHARS (string_filter (fun a => bool_decide (33 <= byte_val a <= 126)) target).

(** crates/harness-egress/src/decisions.rs:86-108 (DecisionLog::record) *)
Definition record (ts target : string) (decision : LogDecision) (reason : string) (status : Z)
    (log : DecisionLog) : DecisionLog :=
  let r := MkDecisionRecord ts (dl_provider log) (sanitize_target target) decision reason status in
  let recent := if bool_decide (length (dl_recent log) = RECENT_CAPACITY)
                then tail (dl_recent log) else dl_recent log in
  MkDecisionLog (dl_provider log) (dl_written log ++ [r]) (recent ++ [r]).

(** crates/harness-egress/src/decisions.rs:110-117 (DecisionLog::recent) *)
Definition recent (log : DecisionLog) : list DecisionRecord := dl_recent log.

(** ** Lemmas *)

Lemma host_set_spec x hosts : x ∈ host_set hosts <-> x ∈ hosts.
Proof. unfold host_set. by rewrite elem_of_remove_dups, merge_sort_Permutation. Qed.

Lemma port_set_spec x ports : x ∈ port_set ports <-> x ∈ ports.
Proof. unfold port_set. by rewrite elem_of_remove_dups, merge_sort_Permutation. Qed.

Lemma decide_target_Allow p t :
  decide_target p t = PolicyAllow <-> tgt_host t ∈ pol_hosts p /\ tgt_port t ∈ pol_ports p.
Proof. unfold decide_target. repeat case_bool_decide; naive_solver. Qed.

(** A policy of a provider admits the reviewed hosts of its mode, at port 443
    and nothing else. *)
Lemma for_provider_with_decide provider mode p t :
  for_provider_with provider mode = Ok p ->
  decide_target p t = PolicyAllow ->
  exists table e, (provider, table) ∈ PROVIDERS /\ e ∈ table
    /\ tgt_host t = ae_host e /\ (ae_strict e = true \/ mode = Extended) /\ tgt_port t = 443.
Proof.
  unfold for_provider_with. intros Hp. inv_result. rewrite decide_target_Allow. cbn [pol_hosts pol_ports].
  rewrite host_set_spec, list_elem_of_fmap, list_elem_of_singleton. intros [(e & He & Hin) Hport].
  apply list_elem_of_filter in Hin as [Hmode Hin].
  match goal with Hf : _ <$> find _ _ = Some _ |- _ =>
    apply fmap_Some in Hf as ([name tab] & [Hfind Hname]%find_some & Htab) end.
  simplify_eq/=. apply bool_decide_eq_true in Hname as ->.
  exists tab, e. by rewrite list_elem_of_In.
Qed.

(** Every host of a custom policy is in normal form and its ports are not 0,
    so a target is compared with what it would itself be normalized to. *)
Lemma normalize_hosts_Ok hosts out :
  normalize_hosts hosts = Ok out -> Forall (fun h => normalize_host h = Ok h) out.
Proof.
  revert out. induction hosts as [|h hosts IH]; intros out H; cbn [normalize_hosts] in H; inv_result.
  - constructor.
  - constructor; [|by apply IH].
    match goal with Hn : normalize_host h = _ |- _ => by apply normalize_host_Ok in Hn as (_ & _ & ?) end.
Qed.

Lemma custom_normal label hosts ports p :
  custom label hosts ports = Ok p ->
  Forall (fun h => normalize_host h = Ok h) (pol_hosts p) /\ Forall (fun q => q <> 0) (pol_ports p).
Proof.
  unfold custom. intros H. inv_result. cbn [pol_hosts pol_ports].
  match goal with Hn : normalize_hosts _ = _ |- _ => apply normalize_hosts_Ok in Hn as Hall end.
  split; apply Forall_forall; intros h Hx.
  - rewrite Forall_forall in Hall. by apply Hall, host_set_spec.
  - by intros ->.
Qed.

(** The tail in memory is the end of what was written, up to the capacity. *)
Definition log_wf (log : DecisionLog) : Prop :=
  dl_recent log = drop (length (dl_written log) - RECENT_CAPACITY) (dl_written log).

Lemma record_wf ts target d reason status log :
  log_wf log -> log_wf (record ts target d reason status log).
Proof.
  unfold log_wf, record. cbn [dl_recent dl_written]. intros ->.
  rewrite length_app. cbn [length]. set (w := dl_written log).
  rewrite length_drop, drop_app_le by (unfold RECENT_CAPACITY; lia). f_equal.
  unfold RECENT_CAPACITY. case_bool_decide as Hc.
  - destruct (drop (length w - 256) w) as [|x l] eqn:Hd.
    { apply (f_equal length) in Hd. rewrite length_drop in Hd. simpl in Hd. lia. }
    replace (length w + 1 - 256)%nat with (S (length w - 256)) by lia.
    cbn [tail]. rewrite <-Nat.add_1_r, <-drop_drop, Hd. done.
  - f_equal. lia.
Qed.

Lemma recent_bounded log : log_wf log -> (length (recent log) <= RECENT_CAPACITY)%nat.
Proof. unfold log_wf, recent. intros ->. rewrite length_drop. lia. Qed.

(** ** The proxy *)

(** Where the thread of one connection is inside [serve]. *)
Inductive connection : Type :=
| Connected (r : reader)
| Allowed (t : ConnectTarget) (leftover : bytes)
| Acquiring (t : ConnectTarget) (leftover : bytes)
| OverLimit (t : ConnectTarget)
| Limited (t : ConnectTarget)
| Dialing (t : ConnectTarget) (leftover : bytes)
| Tunnelling (t : ConnectTarget)
| Releasing (status : Z)
| Served (status : Z).

(** What left the host, in order: a dial of a target, and the bytes sent on
    before the relay starts. *)
Inductive upstream_event : Type :=
| Dialed (t : ConnectTarget)
| Forwarded (t : ConnectTarget) (b : bytes).

(** crates/harness-egress/src/proxy.rs:46-54 (Shared) *)
Record Shared : Type := MkShared {
  sh_policy : EgressPolicy;
  sh_log : DecisionLog;
  sh_max_tunnels : Z;
  sh_armed : bool;
  sh_shutdown : bool;
  sh_tunnels : Z;
  sh_connections : list connection;
  sh_responses : list (nat * string);
  sh_upstream : list upstream_event
}.

(** crates/harness-egress/src/proxy.rs:64-97 (Proxy::start) *)
Definition Proxy_start (policy : EgressPolicy) (log : DecisionLog) (max_tunnels : Z) : Shared :=
  MkShared policy log max_tunnels false false 0 [] [] [].

Definition with_log (f : DecisionLog -> DecisionLog) (s : Shared) : Shared :=
  MkShared (sh_policy s) (f (sh_log s)) (sh_max_tunnels s) (sh_armed s) (sh_shutdown s)
    (sh_tunnels s) (sh_connections s) (sh_responses s) (sh_upstream s).
Definition with_tunnels (n : Z) (s : Shared) : Shared :=
  MkShared (sh_policy s) (sh_log s) (sh_max_tunnels s) (sh_armed s) (sh_shutdown s)
    n (sh_connections s) (sh_responses s) (sh_upstream s).
Definition with_connections (cs : list connection) (s : Shared) : Shared :=
  MkShared (sh_policy s) (sh_log s) (sh_max_tunnels s) (sh_armed s) (sh_shutdown s)
    (sh_tunnels s) cs (sh_responses s) (sh_upstream s).
Definition with_response (i : nat) (text : string) (s : Shared) : Shared :=
  MkShared (sh_policy s) (sh_log s) (sh_max_tunnels s) (sh_armed s) (sh_shutdown s)
    (sh_tunnels s) (sh_connections s) (sh_responses s ++ [(i, text)]) (sh_upstream s).
Definition with_upstream (evs : list upstream_event) (s : Shared) : Shared :=
  MkShared (sh_policy s) (sh_log s) (sh_max_tunnels s) (sh_armed s) (sh_shutdown s)
    (sh_tunnels s) (sh_connections s) (sh_responses s) (sh_upstream s ++ evs).

Definition become (i : nat) (c : connection) (s : Shared) : Shared :=
  with_connections (<[i := c]> (sh_connections s)) s.

(** crates/harness-egress/src/proxy.rs:111-114 (Proxy::arm) *)
Definition arm (s : Shared) : Shared :=
  MkShared (sh_policy s) (sh_log s) (sh_max_tunnels s) true (sh_shutdown s)
    (sh_tunnels s) (sh_connections s) (sh_responses s) (sh_upstream s).

(** crates/harness-egress/src/proxy.rs:128-135 (Proxy::shutdown) *)
Definition shutdown (s : Shared) : Shared :=
  MkShared (sh_policy s) (sh_log s) (sh_max_tunnels s) (sh_armed s) true
    (sh_tunnels s) (sh_connections s) (sh_responses s) (sh_upstream s).

(** The acceptor starts a thread for a connection; one whose thread cannot be
    spawned is dropped. *)
(** crates/harness-egress/src/proxy.rs:144-159 (accept_loop) *)
Definition accept_connection (r : reader) (spawned : bool) (s : Shared) : Shared :=
  if sh_shutdown s then s
  else if spawned then with_connections (sh_connections s ++ [Connected r]) s
  else s.

Definition crlf : string := String cr (String lf EmptyString).

(** crates/harness-egress/src/tunnel.rs:54-68 (respond) *)
Definition response_head (status : Z) (extra_headers : string) : string :=
  let reason :=
    if bool_decide (status = 400) then "Bad Request"
    else if bool_decide (status = 403) then "Forbidden"
    else if bool_decide (status = 405) then "Method Not Allowed"
    else if bool_decide (status = 431) then "Request Header Fields Too Large"
    else if bool_decide (status = 502) then "Bad Gateway"
    else if bool_decide (status = 503) then "Service Unavailable"
    else "Refused" in
  "HTTP/1.1 " +:+ pretty status +:+ " " +:+ reason +:+ crlf +:+ extra_headers
  +:+ "Connection: close" +:+ crlf +:+ "Content-Length: 0" +:+ crlf +:+ crlf.

(** What the network answers to one step: the time of a log line, the
    addresses a name resolves to with the outcome of connecting to each (or
    the error kind of the resolution), and whether a write succeeds. *)
Record network : Type := MkNetwork {
  net_ts : string;
  net_resolved : result string (list (result string unit));
  net_client_ok : bool
}.

(** crates/harness-egress/src/tunnel.rs:36-52 (connect_upstream) *)
Definition connect_upstream (resolved : result string (list (result string unit)))
  : result string unit :=
  addrs ← map_err (fun kind => "upstream-resolve:" +:+ kind) resolved;
  (fix try_each (last : string) (addrs : list (result string unit)) : result string unit :=
     match addrs with
     | [] => Err last
     | Ok _ :: _ => Ok tt
     | Panic :: _ => Panic
     | Err kind :: rest => try_each ("upstream-connect:" +:+ kind) rest
     end) "upstream-resolve:empty" addrs.

(** A refusal is logged, answered, and ends the thread. *)
Definition refuse (i : nat) (ts target : string) (d : LogDecision) (reason : string)
    (status : Z) (extra : string) (s : Shared) : Shared :=
  become i (Served status) (with_response i (response_head status extra)
    (with_log (record ts target d reason status) s)).

(** crates/harness-egress/src/tunnel.rs:20-27 (TunnelGuard::acquire) *)
Definition fetch_add_tunnel (i : nat) (t : ConnectTarget) (leftover : bytes) (s : Shared) : Shared :=
  let previous := sh_tunnels s in
  let s := with_tunnels (u64_wrapping_add previous 1) s in
  if bool_decide (sh_max_tunnels s <= previous) then become i (OverLimit t) s
  else become i (Dialing t leftover) s.

(** crates/harness-egress/src/tunnel.rs:31-33 (TunnelGuard::drop) *)
Definition fetch_sub_tunnel (s : Shared) : Shared :=
  with_tunnels (u64_wrapping_sub (sh_tunnels s) 1) s.

(** The part of [serve] before its first access of shared state that another
    thread may change: the head is read and decided against the policy, which
    never changes. [None] would be a head that is read forever. *)
(** crates/harness-egress/src/proxy.rs:161-200 (serve) *)
Definition serve_request (i : nat) (r : reader) (net : network) (s : Shared) : option Shared :=
  match read_head r with
  | None => None
  | Some (Err err) =>
      let status := RequestError_status err in
      let allow := match err with MethodNotAllowed _ => true | _ => false end in
      Some (refuse i (net_ts net) EmptyString LogMalformed (RequestError_reason err) status
              (if allow then "Allow: CONNECT" +:+ crlf else EmptyString) s)
  | Some Panic => None
  | Some (Ok (h, leftover)) =>
      match parse_connect_target (head_target h) with
      | Err reason =>
          Some (refuse i (net_ts net) (head_target h) LogDeny ("target:" +:+ reason) 403 EmptyString s)
      | Panic => None
      | Ok target =>
          match decide_target (sh_policy s) target with
          | PolicyDeny reason =>
              Some (refuse i (net_ts net) (ConnectTarget_display target) LogDeny reason 403 EmptyString s)
          | PolicyAllow => Some (become i (Allowed target leftover) s)
          end
      end
  end.

(** crates/harness-egress/src/proxy.rs:201-241 (serve) *)
Definition serve_step (i : nat) (net : network) (s : Shared) : option Shared :=
  match sh_connections s !! i with
  | Some (Connected r) => serve_request i r net s
  | Some (Allowed t leftover) =>
      if negb (sh_armed s)
      then Some (refuse i (net_ts net) (ConnectTarget_display t) LogAllow "disarmed" 503
                   ("X-Bullet-Egress: allowlist-accepted; upstream-disarmed" +:+ crlf) s)
      else Some (become i (Acquiring t leftover) s)
  | Some (Acquiring t leftover) => Some (fetch_add_tunnel i t leftover s)
  | Some (OverLimit t) => Some (become i (Limited t) (fetch_sub_tunnel s))
  | Some (Limited t) =>
      Some (refuse i (net_ts net) (ConnectTarget_display t) LogLimit "tunnel-limit" 503
              ("X-Bullet-Egress: tunnel-limit" +:+ crlf) s)
  | Some (Dialing t leftover) =>
      let s := with_upstream [Dialed t] s in
      match connect_upstream (net_resolved net) with
      | Err reason =>
          Some (become i (Releasing 502) (with_response i (response_head 502 EmptyString)
                  (with_log (record (net_ts net) (ConnectTarget_display t) LogAllow reason 502) s)))
      | Panic => None
      | Ok _ =>
          let s := with_log (record (net_ts net) (ConnectTarget_display t) LogAllow "tunnel" 200) s in
          if negb (net_client_ok net) then Some (become i (Releasing 200) s)
          else
            let s := with_response i ("HTTP/1.1 200 Connection established" +:+ crlf +:+ crlf) s in
            Some (become i (Tunnelling t)
                    (if is_empty leftover then s else with_upstream [Forwarded t leftover] s))
      end
  | Some (Tunnelling _) => Some (become i (Releasing 200) s)
  | Some (Releasing status) => Some (become i (Served status) (fetch_sub_tunnel s))
  | Some (Served _) | None => None
  end.

(** ** Runs *)

Inductive action : Type :=
| Arm
| Shutdown
| Accept (r : reader) (spawned : bool)
| Thread (i : nat) (net : network).

Definition act (a : action) (s : Shared) : option Shared :=
  match a with
  | Arm => Some (arm s)
  | Shutdown => Some (shutdown s)
  | Accept r spawned => Some (accept_connection r spawned s)
  | Thread i net => serve_step i net s
  end.

(** Every schedule of the owner, the acceptor and the connection threads. *)
Inductive proxy_run (s0 : Shared) : Shared -> Prop :=
| proxy_run_refl : proxy_run s0 s0
| proxy_run_step s a s' : proxy_run s0 s -> act a s = Some s' -> proxy_run s0 s'.

(** Only CONNECT heads are read. *)
Lemma read_head_method r h leftover :
  read_head r = Some (Ok (h, leftover)) -> head_method h = "CONNECT".
Proof.
  intros H. destruct (read_head_ok r) as (out & Hrun & Hout).
  assert (out = Ok (h, leftover)) as -> by congruence.
  destruct (Hout h leftover eq_refl) as (_ & raw & _ & _ & _ & Hp & _).
  by apply parse_head_method in Hp.
Qed.

(** ** The invariant of the interleaving *)

(** Threads that hold an increment of the counter, and those of them whose
    guard was granted. *)
Definition counted (c : connection) : bool :=
  match c with OverLimit _ | Dialing _ _ | Tunnelling _ | Releasing _ => true | _ => false end.
Definition granted (c : connection) : bool :=
  match c with Dialing _ _ | Tunnelling _ | Releasing _ => true | _ => false end.

Definition count (f : connection -> bool) (s : Shared) : nat :=
  length (filter (fun c => f c = true) (sh_connections s)).

Definition open_tunnels (s : Shared) : Z := Z.of_nat (count granted s).

(** The target a thread has been allowed, and whether it found the proxy
    armed. *)
Definition allowed_target (c : connection) : option ConnectTarget :=
  match c with
  | Allowed t _ | Acquiring t _ | OverLimit t | Limited t | Dialing t _ | Tunnelling t => Some t
  | _ => None
  end.
Definition saw_armed (c : connection) : bool :=
  match c with Acquiring _ _ | OverLimit _ | Limited _ | Dialing _ _ | Tunnelling _ => true | _ => false end.

(** The status a thread has logged. *)
Definition logged_status (c : connection) : list Z :=
  match c with Tunnelling _ => [200] | Releasing st | Served st => [st] | _ => [] end.

Definition logged (s : Shared) : list Z := mjoin (logged_status <$> sh_connections s).

(** A target that some client asked for in a CONNECT head and that the policy
    admits. *)
Definition requested (policy : EgressPolicy) (t : ConnectTarget) : Prop :=
  decide_target policy t = PolicyAllow
  /\ exists r h leftover, read_head r = Some (Ok (h, leftover))
       /\ head_method h = "CONNECT" /\ parse_connect_target (head_target h) = Ok t.

Definition event_target (ev : upstream_event) : ConnectTarget :=
  match ev with Dialed t | Forwarded t _ => t end.

Definition connection_ok (s : Shared) (c : connection) : Prop :=
  (forall t, allowed_target c = Some t -> requested (sh_policy s) t)
  /\ (saw_armed c = true -> sh_armed s = true).

Record proxy_inv (s : Shared) : Prop := {
  pi_counted : Z.of_nat (length (sh_connections s)) <= u64_max ->
    sh_tunnels s = Z.of_nat (count counted s);
  pi_granted : Z.of_nat (length (sh_connections s)) <= u64_max ->
    open_tunnels s <= sh_max_tunnels s;
  pi_conns : Forall (connection_ok s) (sh_connections s);
  pi_upstream : Forall (fun ev => requested (sh_policy s) (event_target ev) /\ sh_armed s = true)
                  (sh_upstream s);
  pi_log : dr_status <$> dl_written (sh_log s) ≡ₚ logged s
}.

Lemma count_granted_le s : (count granted s <= count counted s)%nat.
Proof.
  unfold count. induction (sh_connections s) as [|c cs IH]; [done|].
  rewrite !filter_cons. destruct c; simpl; lia.
Qed.

Lemma count_insert f s s' i c c' :
  sh_connections s !! i = Some c -> sh_connections s' = <[i := c']> (sh_connections s) ->
  (count f s' + (if f c then 1 else 0) = count f s + (if f c' then 1 else 0))%nat.
Proof. intros Hi Hs. unfold count. rewrite Hs. by apply filter_insert_count. Qed.

Lemma count_bound f s : (count f s <= length (sh_connections s))%nat.
Proof. apply length_filter. Qed.

(** How the counter of a step follows the thread that makes it. *)
Definition counter_follows (c c' : connection) (before after : Z) : Prop :=
  match counted c, counted c' with
  | false, true => after = u64_wrapping_add before 1
  | true, false => after = u64_wrapping_sub before 1
  | _, _ => after = before
  end.

Lemma counter_follows_count s s' i c c' :
  sh_connections s !! i = Some c -> sh_connections s' = <[i := c']> (sh_connections s) ->
  counter_follows c c' (sh_tunnels s) (sh_tunnels s') ->
  Z.of_nat (length (sh_connections s)) <= u64_max ->
  sh_tunnels s = Z.of_nat (count counted s) -> sh_tunnels s' = Z.of_nat (count counted s').
Proof.
  intros Hi Hs Hf Hlen Ht. pose proof (count_insert counted s s' i c c' Hi Hs) as Hc.
  pose proof (count_bound counted s'). rewrite Hs, length_insert in *.
  unfold counter_follows, u64_max, u64_wrapping_add, u64_wrapping_sub in *.
  destruct (counted c), (counted c'); rewrite Hf, Ht; try (rewrite Z.mod_small); lia.
Qed.

(** One step of thread [i] from [c] to [c'], whatever else it does to the
    counter, the log and the network. *)
Section thread_step.
Variables (s s' : Shared) (i : nat) (c c' : connection).
Variables (evs : list upstream_event) (new : list Z).
Hypothesis inv : proxy_inv s.
Hypothesis at_i : sh_connections s !! i = Some c.
Hypothesis conns' : sh_connections s' = <[i := c']> (sh_connections s).
Hypothesis policy' : sh_policy s' = sh_policy s.
Hypothesis max' : sh_max_tunnels s' = sh_max_tunnels s.
Hypothesis armed' : sh_armed s' = sh_armed s.
Hypothesis counter' : counter_follows c c' (sh_tunnels s) (sh_tunnels s').
Hypothesis grant' : granted c = false -> granted c' = true -> sh_tunnels s < sh_max_tunnels s.
Hypothesis ok' : connection_ok s c'.
Hypothesis upstream' : sh_upstream s' = sh_upstream s ++ evs.
Hypothesis evs_ok : Forall (fun ev => requested (sh_policy s) (event_target ev) /\ sh_armed s = true) evs.
Hypothesis log' : dr_status <$> dl_written (sh_log s') = (dr_status <$> dl_written (sh_log s)) ++ new.
Hypothesis status' : logged_status c' = logged_status c ++ new.

Lemma thread_step_inv : proxy_inv s'.
Proof using All.
  destruct inv as [Hcount Hgrant Hconns Hup Hlog].
  assert (length (sh_connections s') = length (sh_connections s)) as Hlen by (by rewrite conns', length_insert).
  split.
  - intros Hl. rewrite Hlen in Hl. eapply counter_follows_count; eauto.
  - intros Hl. rewrite Hlen in Hl. specialize (Hcount Hl). specialize (Hgrant Hl).
    pose proof (count_insert granted s s' i c c' at_i conns') as Hc.
    pose proof (count_granted_le s). unfold open_tunnels in *. rewrite max'.
    destruct (granted c), (granted c'); try specialize (grant' eq_refl eq_refl); lia.
  - rewrite conns'. unfold connection_ok in *. rewrite policy', armed'. by apply Forall_insert.
  - rewrite upstream', policy', armed'. apply Forall_app. done.
  - rewrite log', Hlog. unfold logged. rewrite conns'.
    pose proof (mjoin_insert_perm logged_status _ i c c' at_i) as Hp.
    apply (Permutation_app_inv_r (logged_status c)). rewrite Hp, status'. solve_Permutation.
Qed.
End thread_step.

Lemma record_statuses ts target d reason status log :
  dr_status <$> dl_written (record ts target d reason status log)
  = (dr_status <$> dl_written log) ++ [status].
Proof. unfold record. cbn [dl_written]. by rewrite fmap_app. Qed.

(** Closes what the shape of a step determines. *)
Ltac step_shape :=
  try solve [done | reflexivity | constructor | by split | by rewrite app_nil_r | apply record_statuses].

Lemma refuse_inv s i c ts target d reason status extra :
  proxy_inv s -> sh_connections s !! i = Some c -> counted c = false -> logged_status c = [] ->
  proxy_inv (refuse i ts target d reason status extra s).
Proof.
  intros Hinv Hi Hc Hl.
  eapply (thread_step_inv s _ i c (Served status) [] [status]); step_shape.
  - unfold counter_follows. by rewrite Hc.
  - by rewrite Hl.
Qed.

(** A step that only moves a thread on. *)
Lemma become_inv s i c c' :
  proxy_inv s -> sh_connections s !! i = Some c ->
  counted c = counted c' -> granted c = granted c' -> logged_status c' = logged_status c ->
  connection_ok s c' -> proxy_inv (become i c' s).
Proof.
  intros Hinv Hi Hc Hg Hl Hok.
  eapply (thread_step_inv s _ i c c' [] []); step_shape.
  - unfold counter_follows. rewrite Hc. by destruct (counted c').
  - congruence.
Qed.

Lemma release_inv s i c c' :
  proxy_inv s -> sh_connections s !! i = Some c ->
  counted c = true -> counted c' = false -> granted c' = false ->
  logged_status c' = logged_status c -> connection_ok s c' ->
  proxy_inv (become i c' (fetch_sub_tunnel s)).
Proof.
  intros Hinv Hi Hc Hc' Hg Hl Hok.
  eapply (thread_step_inv s _ i c c' [] []); step_shape.
  - unfold counter_follows. by rewrite Hc, Hc'.
  - congruence.
Qed.

Lemma connection_at s i c : proxy_inv s -> sh_connections s !! i = Some c -> connection_ok s c.
Proof. intros Hinv Hi. by eapply (Forall_lookup_1 _ _ _ _ (pi_conns s Hinv)). Qed.

Lemma serve_request_inv i r net s s' :
  proxy_inv s -> sh_connections s !! i = Some (Connected r) ->
  serve_request i r net s = Some s' -> proxy_inv s'.
Proof.
  unfold serve_request. intros Hinv Hi H.
  destruct (read_head r) as [[[h leftover]|err|]|] eqn:Hread; simplify_eq; [|by eapply refuse_inv].
  destruct (parse_connect_target (head_target h)) as [t|reason|] eqn:Hparse; simplify_eq;
    [|by eapply refuse_inv].
  destruct (decide_target (sh_policy s) t) as [|reason] eqn:Hdec; simplify_eq; [|by eapply refuse_inv].
  eapply become_inv; [done..|]. split; [|done]. intros t' [= <-]. split; [done|].
  exists r, h, leftover. split_and!; [done| |done]. by apply read_head_method in Hread.
Qed.

Lemma fetch_add_inv s i t leftover :
  proxy_inv s -> sh_connections s !! i = Some (Acquiring t leftover) ->
  proxy_inv (fetch_add_tunnel i t leftover s).
Proof.
  intros Hinv Hi. pose proof (connection_at _ _ _ Hinv Hi) as [Hreq Harm].
  unfold fetch_add_tunnel. case_bool_decide as Hmax; cbn [sh_max_tunnels with_tunnels] in Hmax.
  - eapply (thread_step_inv s _ i _ _ [] []); step_shape.
  - eapply (thread_step_inv s _ i _ _ [] []); step_shape. intros. lia.
Qed.

Lemma dial_inv s s' i t leftover net :
  proxy_inv s -> sh_connections s !! i = Some (Dialing t leftover) ->
  serve_step i net s = Some s' -> proxy_inv s'.
Proof.
  intros Hinv Hi. pose proof (connection_at _ _ _ Hinv Hi) as [Hreq Harm].
  assert (requested (sh_policy s) t /\ sh_armed s = true) as Hok by (split; [by apply Hreq|by apply Harm]).
  unfold serve_step. rewrite Hi. cbv zeta. intros H.
  destruct (connect_upstream _) as [u|reason|]; simplify_eq.
  - destruct (net_client_ok net); cbn [negb] in H; simplify_eq; [destruct leftover as [|b rest]; cbn [is_empty]|].
    + eapply (thread_step_inv s _ i _ _ [Dialed t] [200]); step_shape. by apply Forall_singleton.
    + eapply (thread_step_inv s _ i _ _ [Dialed t; Forwarded t (String b rest)] [200]); step_shape.
      * cbn. by rewrite <-app_assoc.
      * repeat constructor; apply Hok.
    + eapply (thread_step_inv s _ i _ _ [Dialed t] [200]); step_shape. by apply Forall_singleton.
  - eapply (thread_step_inv s _ i _ _ [Dialed t] [502]); step_shape. by apply Forall_singleton.
Qed.

Lemma serve_step_inv i net s s' :
  proxy_inv s -> serve_step i net s = Some s' -> proxy_inv s'.
Proof.
  intros Hinv H. destruct (sh_connections s !! i) as [c|] eqn:Hi;
    [|by unfold serve_step in H; rewrite Hi in H].
  pose proof (connection_at _ _ _ Hinv Hi) as [Hreq Harm].
  destruct c; [| | | | |by eapply dial_inv| | |]; unfold serve_step in H; rewrite Hi in H.
  - by eapply serve_request_inv.
  - destruct (sh_armed s) eqn:Ha; cbn [negb] in H; simplify_eq; [|by eapply refuse_inv].
    by eapply become_inv.
  - simplify_eq. by apply fetch_add_inv.
  - simplify_eq. by eapply release_inv.
  - simplify_eq. by eapply refuse_inv.
  - simplify_eq. by eapply become_inv; step_shape.
  - simplify_eq. by eapply release_inv; step_shape.
  - done.
Qed.

Lemma arm_inv s : proxy_inv s -> proxy_inv (arm s).
Proof.
  intros [Hc Hg Hconns Hup Hlog]. split; [done..| | |done].
  - eapply Forall_impl; [exact Hconns|]. intros c [? ?]. by split.
  - eapply Forall_impl; [exact Hup|]. intros ev [? ?]. by split.
Qed.

Lemma accept_inv r spawned s : proxy_inv s -> proxy_inv (accept_connection r spawned s).
Proof.
  intros Hinv. unfold accept_connection. destruct (sh_shutdown s); [done|]. destruct spawned; [|done].
  destruct Hinv as [Hc Hg Hconns Hup Hlog].
  assert (forall f, f (Connected r) = false ->
            count f (with_connections (sh_connections s ++ [Connected r]) s) = count f s) as Hcount.
  { intros f Hf. unfold count. cbn [sh_connections with_connections].
    rewrite filter_app, filter_cons, Hf. simpl. by rewrite app_nil_r. }
  split; unfold open_tunnels; rewrite ?Hcount by done; cbn [sh_connections with_connections].
  - rewrite length_app. intros. apply Hc. simpl in *. lia.
  - rewrite length_app. intros. apply Hg. simpl in *. lia.
  - apply Forall_app. split; [exact Hconns|]. by apply Forall_singleton.
  - exact Hup.
  - unfold logged. cbn [sh_connections with_connections]. rewrite fmap_app, join_app. simpl.
    by rewrite app_nil_r.
Qed.

Lemma proxy_run_inv policy max s :
  0 <= max ->
  proxy_run (Proxy_start policy (DecisionLog_open (pol_provider policy)) max) s -> proxy_inv s.
Proof.
  intros Hmax Hrun. induction Hrun as [|s a s' _ IH Ha].
  - split; try constructor; try done.
  - destruct a; cbn [act] in Ha; simplify_eq.
    + by apply arm_inv.
    + destruct IH. by split.
    + by apply accept_inv.
    + by eapply serve_step_inv.
Qed.

Lemma serve_request_fixed i r net s s' :
  serve_request i r net s = Some s' ->
  sh_policy s' = sh_policy s /\ sh_max_tunnels s' = sh_max_tunnels s.
Proof.
  unfold serve_request. generalize (read_head r) as out. intros out H.
  destruct out as [[[h leftover]|err|]|]; simplify_eq; try done.
  destruct (parse_connect_target _); simplify_eq; try done.
  destruct (decide_target _ _); simplify_eq; done.
Qed.

Lemma proxy_run_fixed s0 s :
  proxy_run s0 s -> sh_policy s = sh_policy s0 /\ sh_max_tunnels s = sh_max_tunnels s0.
Proof.
  induction 1 as [|s a s' _ [IHp IHm] Ha]; [done|]. rewrite <-IHp, <-IHm.
  destruct a; cbn [act] in Ha; simplify_eq; try done.
  - unfold accept_connection. by repeat case_match.
  - unfold serve_step in Ha. destruct (sh_connections s !! _) as [[]|]; simplify_eq; try done.
    + by apply serve_request_fixed in Ha.
    + destruct (negb _); simplify_eq; done.
    + unfold fetch_add_tunnel. by case_bool_decide.
    + destruct (connect_upstream _); simplify_eq; try done.
      destruct (negb _); simplify_eq; [done|]. by destruct (is_empty _).
Qed.

Lemma count_none f s : Forall (fun c => f c = false) (sh_connections s) -> count f s = 0%nat.
Proof.
  unfold count. induction 1 as [|c cs Hc _ IH]; [done|].
  rewrite filter_cons, Hc, decide_False by done. exact IH.
Qed.

(** Schedules run as lists of actions. *)
Fixpoint act_all (acts : list action) (s : Shared) : option Shared :=
  match acts with
  | [] => Some s
  | a :: rest => s' ← act a s; act_all rest s'
  end.

Lemma act_all_run s0 acts s s' : proxy_run s0 s -> act_all acts s = Some s' -> proxy_run s0 s'.
Proof.
  revert s. induction acts as [|a acts IH]; intros s Hs H; [by simplify_eq/=|].
  apply bind_Some in H as (s1 & Ha & H). by eapply IH, H; econstructor.
Qed.

(** ** Guarantees *)

(** C19: Whatever the clients send and however the threads interleave, the
    proxy opens upstream connections, and forwards the bytes it read behind a
    head, only once it has been armed, and only to a target that parses from a
    well-formed CONNECT head and that the provider's reviewed table lists: a
    host of the table (one marked strict, unless the policy is extended) at
    port 443. What the two ends of a tunnel exchange afterwards stays on a
    connection that was opened this way. *)
Theorem upstream_only_reviewed_hosts provider mode policy max s ev :
  for_provider_with provider mode = Ok policy ->
  0 <= max ->
  proxy_run (Proxy_start policy (DecisionLog_open (pol_provider policy)) max) s ->
  ev ∈ sh_upstream s ->
  sh_armed s = true
  /\ (exists r h leftover, read_head r = Some (Ok (h, leftover)) /\ head_method h = "CONNECT"
        /\ parse_connect_target (head_target h) = Ok (event_target ev))
  /\ tgt_port (event_target ev) = 443
  /\ exists table e, (provider, table) ∈ PROVIDERS /\ e ∈ table
       /\ tgt_host (event_target ev) = ae_host e /\ (ae_strict e = true \/ mode = Extended).
Proof.
  intros Hpol Hmax Hrun Hev. pose proof (proxy_run_inv _ _ _ Hmax Hrun) as Hinv.
  pose proof (pi_upstream s Hinv) as Hup. rewrite Forall_forall in Hup.
  destruct (Hup ev Hev) as [[Hdec Hreq] Harm]. apply proxy_run_fixed in Hrun as [Hp _].
  rewrite Hp in Hdec. destruct (for_provider_with_decide _ _ _ _ Hpol Hdec)
    as (table & e & Ht & He & Hh & Hs & Hport).
  split_and!; [done|exact Hreq|done|]. by exists table, e.
Qed.

(** C20: Under every interleaving of the connection threads the number of
    granted tunnels never exceeds the limit, although a thread that is refused
    raises the shared counter before it lowers it again; and the counter is
    exact, so no slot is lost: it is zero once no thread is between its
    increment and its decrement. *)
Theorem tunnels_never_exceed_limit policy max s :
  0 <= max ->
  proxy_run (Proxy_start policy (DecisionLog_open (pol_provider policy)) max) s ->
  Z.of_nat (length (sh_connections s)) <= u64_max ->
  open_tunnels s <= max
  /\ (Forall (fun c => counted c = false) (sh_connections s) -> sh_tunnels s = 0).
Proof.
  intros Hmax Hrun Hlen. pose proof (proxy_run_inv _ _ _ Hmax Hrun) as Hinv.
  apply proxy_run_fixed in Hrun as [_ Hm]. split.
  - rewrite <-(Hm : sh_max_tunnels s = max). by apply pi_granted.
  - intros Hall. rewrite (pi_counted s Hinv Hlen). by rewrite count_none.
Qed.

(** Every connection that was answered left exactly one line in the
    decision log, with the status of its answer; a connection that was not yet
    answered left none. The lines and the answered connections match one to
    one, in whatever order the threads ran. *)
Theorem connections_logged_once policy max s :
  0 <= max ->
  proxy_run (Proxy_start policy (DecisionLog_open (pol_provider policy)) max) s ->
  dr_status <$> dl_written (sh_log s) ≡ₚ mjoin (logged_status <$> sh_connections s).
Proof. intros Hmax Hrun. apply (pi_log s), (proxy_run_inv _ _ _ Hmax Hrun). Qed.

(** ** A run with two clients and one tunnel *)

Definition toy_client : reader := fun n =>
  match n with
  | O => Ok ("CONNECT Api.Anthropic.com:443 HTTP/1.1" +:+ crlf +:+ "Host: x" +:+ crlf +:+ crlf +:+ "hello")
  | _ => Ok EmptyString
  end.

Definition toy_network : network := MkNetwork "2026-01-01T00:00:00.000Z" (Ok [Err "refused"; Ok tt]) true.

Definition toy_policy : EgressPolicy := MkEgressPolicy "claude" Strict ["api.anthropic.com"] [443].

Definition toy_start : Shared := Proxy_start toy_policy (DecisionLog_open "claude") 1.

Definition toy_schedule : list action :=
  let step i := Thread i toy_network in
  [Accept toy_client true; step 0%nat; Arm; Accept toy_client true; step 1%nat; step 0%nat; step 0%nat;
   step 1%nat; step 1%nat; step 0%nat; step 1%nat; step 1%nat].

Definition toy_proxy : Shared := default toy_start (act_all toy_schedule toy_start).

Lemma toy_proxy_reached : act_all toy_schedule toy_start = Some toy_proxy.
Proof. vm_compute. reflexivity. Qed.

Lemma toy_proxy_run : proxy_run toy_start toy_proxy.
Proof. apply (act_all_run _ toy_schedule toy_start); [constructor|exact toy_proxy_reached]. Qed.

(** The first client has its tunnel, the second met the limit. *)
Example toy_proxy_state :
  sh_connections toy_proxy = [Tunnelling (MkConnectTarget "api.anthropic.com" 443); Served 503]
  /\ sh_upstream toy_proxy = [Dialed (MkConnectTarget "api.anthropic.com" 443);
                              Forwarded (MkConnectTarget "api.anthropic.com" 443) "hello"]
  /\ (dr_reason <$> dl_written (sh_log toy_proxy)) = ["tunnel"; "tunnel-limit"].
Proof. vm_compute. done. Qed.

Lemma upstream_only_reviewed_hosts_witness :
  for_provider "claude" = Ok toy_policy
  /\ sh_armed toy_proxy = true /\ tgt_port (MkConnectTarget "api.anthropic.com" 443) = 443.
Proof.
  split; [vm_compute; reflexivity|].
  destruct (upstream_only_reviewed_hosts "claude" Strict toy_policy 1 toy_proxy
              (Dialed (MkConnectTarget "api.anthropic.com" 443))) as (Ha & _ & Hp & _).
  - vm_compute. reflexivity.
  - lia.
  - exact toy_proxy_run.
  - rewrite (proj1 (proj2 toy_proxy_state)). left.
  - split; [exact Ha|exact Hp].
Defined.

Lemma tunnels_never_exceed_limit_witness : open_tunnels toy_proxy = 1 /\ open_tunnels toy_proxy <= 1.
Proof.
  split; [vm_compute; reflexivity|].
  apply (tunnels_never_exceed_limit toy_policy 1 toy_proxy); [lia|exact toy_proxy_run|].
  rewrite (proj1 toy_proxy_state). vm_compute. discriminate.
Defined.

Lemma connections_logged_once_witness :
  dr_status <$> dl_written (sh_log toy_proxy) ≡ₚ [200; 503].
Proof.
  pose proof (connections_logged_once toy_policy 1 toy_proxy ltac:(lia) toy_proxy_run) as H.
  rewrite (proj1 toy_proxy_state) in H. exact H.
Defined.
