(* ===== verification/Forge.v ===== *)
(** * Forges: the port external effects go through

    Models crates/effects/src/error.rs, forge.rs, phase.rs, lost.rs,
    integration.rs, attest.rs and the refuse-all adapters github.rs, gitlab.rs
    and jeryu.rs. The trait [ForgeEffects] is the class [ForgeEffects]; a
    read-back may itself change the world, since other writers of the remote
    move meanwhile. *)

From S2P Require Import Prelude External Ids Text Store Paths.
From stdpp Require Import options.

Local Open Scope Z_scope.

(** crates/effects/src/error.rs:6-87 (EffectsError) *)
Inductive EffectsError : Type :=
| EeRefDenied (detail : string)
| EeBadOid (detail : string)
| EeForgeUnauthenticated (detail : string)
| EeCapabilityUnprobed (detail : string)
| EeLiveAdmissionUnavailable (detail : string)
| EePushRejected (ref_name : string) (observed : option string)
| EeResponseLost (detail : string)
| EeGitFailed (detail : string)
| EeIo (detail : string)
| EeDurableQueueInvalid (detail : string)
| EeIllegalPhase (found wanted : string)
| EeRetryWithoutReconcile (id : string)
| EeLedger (e : LedgerError)
| EeUnsupportedByAdapter (detail : string)
| EeProtectionMismatch (detail : string)
| EeCheckSubjectMismatch (detail : string)
| EeIntegrationSubjectAmbiguous (detail : string)
| EeIntegrationSubjectMismatch (detail : string)
| EeIntegrationPreconditionFailed (detail : string)
| EeOrphanedRemote (detail : string)
| EeMergeGroupOpaque (detail : string)
| EeTargetReadbackUnavailable (detail : string).

(** crates/effects/src/error.rs:90-117 (EffectsError::reason_code) *)
Definition EffectsError_reason_code (e : EffectsError) : string :=
  match e with
  | EeRefDenied _ => "REF_DENIED"
  | EeBadOid _ => "BAD_OID"
  | EeForgeUnauthenticated _ => "FORGE_UNAUTHENTICATED"
  | EeCapabilityUnprobed _ => "CAPABILITY_UNPROBED"
  | EeLiveAdmissionUnavailable _ => "LIVE_ADMISSION_UNAVAILABLE"
  | EePushRejected _ _ => "PUSH_REJECTED"
  | EeResponseLost _ => "RESPONSE_LOST"
  | EeGitFailed _ => "GIT_FAILED"
  | EeIo _ => "IO_FAILED"
  | EeDurableQueueInvalid _ => "DURABLE_QUEUE_INVALID"
  | EeIllegalPhase _ _ => "ILLEGAL_EFFECT_PHASE"
  | EeRetryWithoutReconcile _ => "RETRY_WITHOUT_RECONCILE"
  | EeLedger err => LedgerError_reason_code err
  | EeUnsupportedByAdapter _ => "UNSUPPORTED_BY_ADAPTER"
  | EeProtectionMismatch _ => "PROTECTION_MISMATCH"
  | EeCheckSubjectMismatch _ => "CHECK_SUBJECT_MISMATCH"
  | EeIntegrationSubjectAmbiguous _ => "INTEGRATION_SUBJECT_AMBIGUOUS"
  | EeIntegrationSubjectMismatch _ => "INTEGRATION_SUBJECT_MISMATCH"
  | EeIntegrationPreconditionFailed _ => "INTEGRATION_PRECONDITION_FAILED"
  | EeOrphanedRemote _ => "ORPHANED_REMOTE"
  | EeMergeGroupOpaque _ => "MERGE_GROUP_OPAQUE"
  | EeTargetReadbackUnavailable _ => "TARGET_READBACK_UNAVAILABLE"
  end.

(** ** The port *)

(** crates/effects/src/forge.rs:9-10 (CANDIDATE_REF_PREFIX) *)
Definition CANDIDATE_REF_PREFIX : string := "refs/heads/bullet/candidate/".

(** crates/application/src/effects.rs:12-14 (ZERO_OID) *)
Definition ZERO_OID : string := "0000000000000000000000000000000000000000".

(** crates/effects/src/forge.rs:12-24 (PushRequest) *)
Record PushRequest : Type := MkPushRequest {
  push_workspace_repo : string;
  push_ref_name : string;
  push_expected_old_oid : string;
  push_new_oid : string
}.

Global Instance PushRequest_eq_dec : EqDecision PushRequest.
Proof. solve_decision. Defined.

(** crates/effects/src/forge.rs:26-37 (ForgeDescriptor) *)
Record ForgeDescriptor : Type := MkForgeDescriptor {
  fd_provider : string;
  fd_authenticated : bool;
  fd_can_push_candidate_ref : bool;
  fd_notes : string
}.

(** crates/effects/src/forge.rs:39-59 (ForgeEffects) *)
Class ForgeEffects (F : Type) := {
  descriptor : F -> ForgeDescriptor;
  push_candidate_ref : PushRequest -> stateful F EffectsError unit;
  read_ref : string -> stateful F EffectsError (option string)
}.

Definition forward_slash : Ascii.ascii := Ascii.ascii_of_nat 47.
Definition backslash : Ascii.ascii := Ascii.ascii_of_nat 92.

(** One component of a candidate ref that is not admitted. *)
Definition denied_component (part : string) : bool :=
  is_empty part || bool_decide (part = ".") || bool_decide (part = "..")
  || bool_decide (part = "HEAD") || str_contains_char backslash part.

(** crates/effects/src/forge.rs:61-81 (require_candidate_ref) *)
Definition require_candidate_ref (ref_name : string) : result EffectsError unit :=
  let suffix := default EmptyString (strip_prefix CANDIDATE_REF_PREFIX ref_name) in
  refuse_if (is_empty suffix || existsb denied_component (str_split forward_slash suffix))
    (EeRefDenied (ref_name +:+ " is outside " +:+ CANDIDATE_REF_PREFIX)).

(** crates/effects/src/forge.rs:83-100 (require_oid) *)
Definition require_oid (name value : string) : result EffectsError unit :=
  let valid := bool_decide (str_len value = 40) && string_all is_lower_hex value in
  refuse_if (negb valid) (EeBadOid (name +:+ " must be 40 lowercase hex characters")).

(** crates/effects/src/forge.rs:102-106 (is_create) *)
Definition is_create (expected_old_oid : string) : bool := bool_decide (expected_old_oid = ZERO_OID).

(** ** Phases *)

(** crates/effects/src/phase.rs:3-32 (EffectPhase) *)
Inductive EffectPhase : Type :=
| EpProposed | EpAuthorized | EpDispatching | EpReceiptPending | EpVerified | EpCommitted
| EpOutcomeUnknown | EpQuarantined | EpFailed | EpCompensationPending | EpCompensating
| EpCompensated | EpOrphanedRemote.

(** crates/effects/src/phase.rs:35-53 (EffectPhase::as_str) *)
Definition EffectPhase_as_str (p : EffectPhase) : string :=
  match p with
  | EpProposed => "PROPOSED"
  | EpAuthorized => "AUTHORIZED"
  | EpDispatching => "DISPATCHING"
  | EpReceiptPending => "RECEIPT_PENDING"
  | EpVerified => "VERIFIED"
  | EpCommitted => "COMMITTED"
  | EpOutcomeUnknown => "OUTCOME_UNKNOWN"
  | EpQuarantined => "QUARANTINED"
  | EpFailed => "FAILED"
  | EpCompensationPending => "COMPENSATION_PENDING"
  | EpCompensating => "COMPENSATING"
  | EpCompensated => "COMPENSATED"
  | EpOrphanedRemote => "ORPHANED_REMOTE"
  end.

(** crates/effects/src/phase.rs:55-62 (EffectPhase::after_timeout) *)
Definition after_timeout (p : EffectPhase) : EffectPhase :=
  match p with
  | EpDispatching | EpReceiptPending => EpOutcomeUnknown
  | other => other
  end.

(** crates/effects/src/phase.rs:64-68 (EffectPhase::is_verified) *)
Definition EffectPhase_is_verified (p : EffectPhase) : bool :=
  match p with EpVerified | EpCommitted => true | _ => false end.

(** ** Lost responses *)

(** crates/effects/src/lost.rs:8-15 (LossMode) *)
Inductive LossMode : Type := AfterPush | BeforePush.

(** crates/effects/src/lost.rs:17-21 (LostResponseForge) *)
Record LostResponseForge (F : Type) : Type := MkLostResponseForge {
  lf_inner : F;
  lf_lose_next : option LossMode
}.
Arguments MkLostResponseForge {F} _ _.
Arguments lf_inner {F} _.
Arguments lf_lose_next {F} _.

(** crates/effects/src/lost.rs:32-35 (LostResponseForge::lose_next) *)
Definition lose_next {F} (mode : LossMode) (f : LostResponseForge F) : LostResponseForge F :=
  MkLostResponseForge (lf_inner f) (Some mode).

(** crates/effects/src/lost.rs:42-56 (LostResponseForge::into_inner) *)
Definition into_inner {F} (f : LostResponseForge F) : result EffectsError F :=
  match lf_lose_next f with
  | Some _ => Err (EeDurableQueueInvalid "cannot discard an armed lost-response fault")
  | None => Ok (lf_inner f)
  end.

(** A call of the wrapped forge. *)
Definition on_inner {F A} (loss : option LossMode) (m : stateful F EffectsError A)
  : stateful (LostResponseForge F) EffectsError A :=
  fun f => let '(inner, r) := m (lf_inner f) in (MkLostResponseForge inner loss, r).

(** crates/effects/src/lost.rs:64-77 (LostResponseForge::push_candidate_ref) *)
Definition lost_push {F} `{!ForgeEffects F} (request : PushRequest)
  : stateful (LostResponseForge F) EffectsError unit :=
  fun f => match lf_lose_next f with
  | None => on_inner None (push_candidate_ref request) f
  | Some AfterPush =>
      on_inner None (_ ← push_candidate_ref request;
                     pure_step (Err (EeResponseLost "push executed; response dropped"))) f
  | Some BeforePush =>
      (MkLostResponseForge (lf_inner f) None,
       Err (EeResponseLost "push never dispatched; response dropped"))
  end.

(** crates/effects/src/lost.rs:59-82 (ForgeEffects for LostResponseForge) *)
Global Instance LostResponseForge_effects F `{!ForgeEffects F} : ForgeEffects (LostResponseForge F) := {|
  descriptor f := descriptor (lf_inner f);
  push_candidate_ref := lost_push;
  read_ref ref_name f := on_inner (lf_lose_next f) (read_ref ref_name) f
|}.

(** ** Integration authority *)

(** crates/effects/src/integration.rs:8-19 (Capability) *)
Inductive ForgeCapability : Type :=
| CapSupported
| CapSupportedWithLimitations (note : string)
| CapUnsupported
| CapUnprobed.

(** crates/effects/src/integration.rs:22-26 (Capability::authorizes) *)
Definition authorizes (c : ForgeCapability) : bool :=
  match c with CapSupported | CapSupportedWithLimitations _ => true | _ => false end.

(** crates/effects/src/integration.rs:29-44 (IntegrationDescriptor) *)
Record IntegrationDescriptor : Type := MkIntegrationDescriptor {
  id_exact_oid_cas : ForgeCapability;
  id_protected_refs : ForgeCapability;
  id_check_runs : ForgeCapability;
  id_merge_group : ForgeCapability;
  id_exact_oid_readback : ForgeCapability;
  id_third_party_credential : ForgeCapability
}.

(** crates/effects/src/integration.rs:47-58 (IntegrationDescriptor::unprobed) *)
Definition unprobed : IntegrationDescriptor :=
  MkIntegrationDescriptor CapUnprobed CapUnprobed CapUnprobed CapUnprobed CapUnprobed CapUnprobed.

(** crates/effects/src/integration.rs:61-71 (ProtectionState) *)
Record ProtectionState : Type := MkProtectionState {
  ps_target : string;
  ps_protected : bool;
  ps_required_proof_root : option string
}.

(** crates/effects/src/integration.rs:73-83 (CheckPublication) *)
Record CheckPublication : Type := MkCheckPublication {
  cp_sha : string;
  cp_name : string;
  cp_proof_root : string
}.

(** crates/effects/src/integration.rs:85-95 (CheckReceipt) *)
Record CheckReceipt : Type := MkCheckReceipt {
  cr_sha : string;
  cr_name : string;
  cr_proof_root : string
}.

(** crates/effects/src/integration.rs:97-107 (IntegrationSubjectRequest) *)
Record IntegrationSubjectRequest : Type := MkIntegrationSubjectRequest {
  isr_base : string;
  isr_head : string;
  isr_target : string
}.

(** crates/effects/src/integration.rs:109-121 (IntegrationSubject) *)
Record IntegrationSubject : Type := MkIntegrationSubject {
  is_id : string;
  is_base : string;
  is_head : string;
  is_target : string
}.

(** crates/effects/src/integration.rs:123-134 (ProtectedIntegrationRequest) *)
Record ProtectedIntegrationRequest : Type := MkProtectedIntegrationRequest {
  pir_subject : IntegrationSubject;
  pir_expected_old_oid : string;
  pir_check_name : string;
  pir_proof_root : string
}.

(** crates/effects/src/integration.rs:136-150 (IntegrationReceipt) *)
Record IntegrationReceipt : Type := MkIntegrationReceipt {
  ir_subject_id : string;
  ir_target : string;
  ir_previous_oid : string;
  ir_integrated_oid : string;
  ir_check : CheckReceipt
}.

(** crates/effects/src/integration.rs:152-157 (MergeGroupSubject) *)
Record MergeGroupSubject : Type := MkMergeGroupSubject { mg_sha : string }.

Global Instance ProtectionState_eq_dec : EqDecision ProtectionState.
Proof. solve_decision. Defined.
Global Instance CheckReceipt_eq_dec : EqDecision CheckReceipt.
Proof. solve_decision. Defined.
Global Instance IntegrationSubject_eq_dec : EqDecision IntegrationSubject.
Proof. solve_decision. Defined.
Global Instance IntegrationReceipt_eq_dec : EqDecision IntegrationReceipt.
Proof. solve_decision. Defined.

(** crates/effects/src/integration.rs:159-223 (ForgeIntegration) *)
Class ForgeIntegration (F : Type) `{!ForgeEffects F} := {
  integration_descriptor : F -> IntegrationDescriptor;
  read_protection : string -> stateful F EffectsError ProtectionState;
  publish_check : CheckPublication -> stateful F EffectsError CheckReceipt;
  read_check : string -> string -> stateful F EffectsError (option CheckReceipt);
  ensure_integration_subject : IntegrationSubjectRequest -> stateful F EffectsError IntegrationSubject;
  integrate_protected : ProtectedIntegrationRequest -> stateful F EffectsError IntegrationReceipt;
  merge_group_subject : IntegrationSubject -> stateful F EffectsError (option MergeGroupSubject);
  read_target : string -> stateful F EffectsError (option string)
}.

(** crates/effects/src/integration.rs:225-241 (require_probed) *)
Definition require_probed (capability : ForgeCapability) (operation : string)
  : result EffectsError unit :=
  match capability with
  | CapSupported | CapSupportedWithLimitations _ => Ok tt
  | CapUnprobed => Err (EeCapabilityUnprobed (operation +:+ " is unprobed"))
  | CapUnsupported => Err (EeUnsupportedByAdapter (operation +:+ " is unsupported"))
  end.

(** ** Adapters that refuse every operation *)

(** A refusal that leaves the adapter as it was. *)
Definition refused {F A} (e : EffectsError) : stateful F EffectsError A := pure_step (Err e).

(** crates/effects/src/github.rs:14-16 (GitHubForge) *)
Inductive GitHubForge : Type := GitHubQuarantined.

(** crates/effects/src/github.rs:25-29 (GitHubForge::refuse) *)
Definition github_refuse (method : string) : EffectsError :=
  EeLiveAdmissionUnavailable (method +:+ " against GitHub is quarantined until a ratified App test repository exists").

(** crates/effects/src/github.rs:32-51 (ForgeEffects for GitHubForge) *)
Global Instance GitHubForge_effects : ForgeEffects GitHubForge := {|
  descriptor _ := MkForgeDescriptor "github" false false
    "github-adapter-v1: App credentials and live effect are operator-blocked";
  push_candidate_ref request :=
    _ ← pure_step (require_candidate_ref (push_ref_name request));
    refused (github_refuse "push_candidate_ref");
  read_ref ref_name :=
    _ ← pure_step (require_candidate_ref ref_name); refused (github_refuse "read_ref")
|}.

(** crates/effects/src/github.rs:53-96 (ForgeIntegration for GitHubForge) *)
Global Instance GitHubForge_integration : ForgeIntegration GitHubForge := {|
  integration_descriptor _ := unprobed;
  read_protection _ := refused (github_refuse "read_protection");
  publish_check _ := refused (github_refuse "publish_check");
  read_check _ _ := refused (github_refuse "read_check");
  ensure_integration_subject _ := refused (github_refuse "ensure_integration_subject");
  integrate_protected _ := refused (github_refuse "integrate_protected");
  merge_group_subject _ :=
    refused (EeMergeGroupOpaque "GitHub merge queue does not disclose the composed SHA");
  read_target _ := refused (github_refuse "read_target")
|}.

(** crates/effects/src/gitlab.rs:14-21 (GitLabProfile) *)
Inductive GitLabProfile : Type := GitlabCom | SelfManaged.

(** crates/effects/src/gitlab.rs:23-27 (GitLabForge) *)
Record GitLabForge : Type := MkGitLabForge { gl_profile : GitLabProfile }.

(** crates/effects/src/gitlab.rs:64-72 (GitLabForge::refuse) *)
Definition gitlab_refuse (f : GitLabForge) (method : string) : EffectsError :=
  let profile := match gl_profile f with
                 | GitlabCom => "gitlab-adapter-v1"
                 | SelfManaged => "gitlab-self-managed-v1"
                 end in
  EeUnsupportedByAdapter (method +:+ ": " +:+ profile +:+ " has no supported operations").

Definition gitlab_refused {A} (method : string) : stateful GitLabForge EffectsError A :=
  fun f => (f, Err (gitlab_refuse f method)).

(** crates/effects/src/gitlab.rs:75-102 (ForgeEffects for GitLabForge) *)
Global Instance GitLabForge_effects : ForgeEffects GitLabForge := {|
  descriptor f := MkForgeDescriptor "gitlab" false false
    match gl_profile f with
    | GitlabCom => "gitlab-adapter-v1: typed refusal; GitLab.com only; no adapter exists"
    | SelfManaged => "gitlab-self-managed-v1: typed refusal; self-managed only; no adapter exists"
    end;
  push_candidate_ref request :=
    _ ← pure_step (require_candidate_ref (push_ref_name request)); gitlab_refused "push_candidate_ref";
  read_ref ref_name := _ ← pure_step (require_candidate_ref ref_name); gitlab_refused "read_ref"
|}.

(** crates/effects/src/gitlab.rs:104-152 (ForgeIntegration for GitLabForge) *)
Global Instance GitLabForge_integration : ForgeIntegration GitLabForge := {|
  integration_descriptor _ :=
    MkIntegrationDescriptor CapUnsupported CapUnsupported CapUnsupported CapUnsupported
      CapUnsupported CapUnsupported;
  read_protection _ := gitlab_refused "read_protection";
  publish_check _ := gitlab_refused "publish_check";
  read_check _ _ := gitlab_refused "read_check";
  ensure_integration_subject _ := gitlab_refused "ensure_integration_subject";
  integrate_protected _ := gitlab_refused "integrate_protected";
  merge_group_subject _ := gitlab_refused "merge_group_subject";
  read_target _ := gitlab_refused "read_target"
|}.

(** crates/effects/src/jeryu.rs:16-20 (JeryuForge) *)
Record JeryuForge : Type := MkJeryuForge { jf_base_url : string }.

(** crates/effects/src/jeryu.rs:32-37 (JeryuForge::refuse) *)
Definition jeryu_refuse (f : JeryuForge) (method : string) : EffectsError :=
  EeLiveAdmissionUnavailable (method +:+ " against " +:+ jf_base_url f
    +:+ " is quarantined until signed admission is implemented").

Definition jeryu_refused {A} (method : string) : stateful JeryuForge EffectsError A :=
  fun f => (f, Err (jeryu_refuse f method)).

(** crates/effects/src/jeryu.rs:40-59 (ForgeEffects for JeryuForge) *)
Global Instance JeryuForge_effects : ForgeEffects JeryuForge := {|
  descriptor _ := MkForgeDescriptor "jeryu" false false
    "Wave-0 quarantine: credential and network access unavailable";
  push_candidate_ref request :=
    _ ← pure_step (require_candidate_ref (push_ref_name request)); jeryu_refused "push_candidate_ref";
  read_ref ref_name := _ ← pure_step (require_candidate_ref ref_name); jeryu_refused "read_ref"
|}.

(** crates/effects/src/jeryu.rs:61-107 (ForgeIntegration for JeryuForge) *)
Global Instance JeryuForge_integration : ForgeIntegration JeryuForge := {|
  integration_descriptor _ :=
    MkIntegrationDescriptor CapUnprobed CapUnprobed CapUnprobed CapUnsupported CapUnprobed CapUnsupported;
  read_protection _ := jeryu_refused "read_protection";
  publish_check _ := jeryu_refused "publish_check";
  read_check _ _ := jeryu_refused "read_check";
  ensure_integration_subject _ := jeryu_refused "ensure_integration_subject";
  integrate_protected _ := jeryu_refused "integrate_protected";
  merge_group_subject _ := refused (EeUnsupportedByAdapter "Jeryu has no merge queue today");
  read_target _ := jeryu_refused "read_target"
|}.
