(* ===== verification/Canonical.v ===== *)
(** * Canonical documents and framed digests of the harness

    Models crates/harness-core/src/launch_grant/canonical.rs and the label
    rule of launch_grant/claims.rs. The RFC 8785 encoder (serde_jcs) and the
    JSON decoder (serde_json) are interfaces. *)

From S2P Require Import Prelude External Ids Text Framing HarnessErrors.
From stdpp Require Import options.

Local Open Scope Z_scope.

(** [serde_jcs::to_vec] and [serde_json::from_str] at one type. *)
Class Canon (A : Type) := {
  to_jcs : A -> result string bytes;
  from_json_str : bytes -> result string A
}.


Definition MAX_CANONICAL_BYTES : Z := 64 * 1024.

Definition launch_invalid {A} (reason : string) : result HarnessError A :=
  Err (HeLaunchGrantInvalid reason).

(** ** UTF-8 *)

(** A continuation byte. *)
Definition utf8_cont (a : Ascii.ascii) : bool := bool_decide (128 <= byte_val a <= 191).

(** The well-formed sequences: two to four bytes, shortest form, no
    surrogate, at most U+10FFFF. *)
Definition utf8_three (b b2 : Z) : bool :=
  (bool_decide (b = 224) && bool_decide (160 <= b2 <= 191))
  || (bool_decide (225 <= b <= 236) && bool_decide (128 <= b2 <= 191))
  || (bool_decide (b = 237) && bool_decide (128 <= b2 <= 159))
  || (bool_decide (238 <= b <= 239) && bool_decide (128 <= b2 <= 191)).

Definition utf8_four (b b2 : Z) : bool :=
  (bool_decide (b = 240) && bool_decide (144 <= b2 <= 191))
  || (bool_decide (241 <= b <= 243) && bool_decide (128 <= b2 <= 191))
  || (bool_decide (b = 244) && bool_decide (128 <= b2 <= 143)).

(** [std::str::from_utf8(..).is_ok()]. *)
Fixpoint utf8_valid (s : bytes) : bool :=
  match s with
  | EmptyString => true
  | String a r =>
      let b := byte_val a in
      if bool_decide (b < 128) then utf8_valid r
      else match r with
      | EmptyString => false
      | String a2 r2 =>
          if bool_decide (194 <= b <= 223) then utf8_cont a2 && utf8_valid r2
          else match r2 with
          | EmptyString => false
          | String a3 r3 =>
              if bool_decide (224 <= b <= 239) then
                utf8_three b (byte_val a2) && utf8_cont a3 && utf8_valid r3
              else match r3 with
              | EmptyString => false
              | String a4 r4 =>
                  utf8_four b (byte_val a2) && utf8_cont a3 && utf8_cont a4 && utf8_valid r4
              end
          end
      end
  end.

(** The byte-order mark U+FEFF. *)
Definition byte_order_mark : bytes :=
  String (byte_of 239) (String (byte_of 187) (String (byte_of 191) EmptyString)).

(** The encoder writes a UTF-8 JSON object that decodes to the value. *)
Class CanonLaws (A : Type) `{Canon A} : Prop := {
  from_to_jcs (a : A) b : to_jcs a = Ok b -> from_json_str b = Ok a;
  to_jcs_object (a : A) b : to_jcs a = Ok b -> starts_with "{" b = true;
  to_jcs_utf8 (a : A) b : to_jcs a = Ok b -> utf8_valid b = true
}.

(** The text of a UTF-8 error is the standard library's. *)
Class Utf8Error := utf8_error : bytes -> string.

Section Canonical.
Context {A : Type} `{Canon A} `{Utf8Error}.

(** crates/harness-core/src/launch_grant/canonical.rs:15-24 (canonical_json) *)
Definition canonical_json (value : A) : result HarnessError bytes :=
  map_err (fun e => HeLaunchGrantInvalid ("RFC 8785 encoding failed: " +:+ e)) (to_jcs value).

(** crates/harness-core/src/launch_grant/canonical.rs:26-55 (decode_canonical) *)
Definition decode_canonical (b : bytes) : result HarnessError A :=
  if is_empty b || bool_decide (MAX_CANONICAL_BYTES < str_len b) then
    launch_invalid "canonical document is empty or exceeds 64 KiB"
  else if negb (utf8_valid b) then
    launch_invalid ("document is not strict UTF-8: " +:+ utf8_error b)
  else if starts_with byte_order_mark b then
    launch_invalid "canonical documents do not carry a UTF-8 byte-order mark"
  else
    value ← map_err (fun e => HeLaunchGrantInvalid
              ("document does not match its strict type: " +:+ e)) (from_json_str b);
    encoded ← canonical_json value;
    _ ← refuse_if (negb (bool_decide (encoded = b)))
          (HeLaunchGrantInvalid "document is not RFC 8785 canonical JSON");
    mret value.

(** One document has one canonical text. *)
Lemma decode_canonical_Ok b a :
  decode_canonical b = Ok a -> from_json_str b = Ok a /\ to_jcs a = Ok b.
Proof.
  unfold decode_canonical, canonical_json. intros Hd. case_result. done.
Qed.

Lemma decode_canonical_inj b1 b2 a :
  decode_canonical b1 = Ok a -> decode_canonical b2 = Ok a -> b1 = b2.
Proof. intros [_ H1]%decode_canonical_Ok [_ H2]%decode_canonical_Ok. congruence. Qed.

Lemma decode_encoded `{!CanonLaws A} a b :
  to_jcs a = Ok b -> str_len b <= MAX_CANONICAL_BYTES -> decode_canonical b = Ok a.
Proof.
  intros Hj Hl. pose proof (to_jcs_utf8 _ _ Hj) as Hu. unfold decode_canonical, canonical_json.
  pose proof (to_jcs_object _ _ Hj) as Ho. apply starts_with_spec in Ho as [r Hr].
  rewrite (bool_decide_false (MAX_CANONICAL_BYTES < str_len b)) by lia.
  replace (is_empty b) with false by (by subst b). rewrite Hu. simpl.
  assert (starts_with byte_order_mark b = false) as ->.
  { apply not_true_iff_false. intros [r' Hr']%starts_with_spec. subst b. discriminate Hr'. }
  rewrite (from_to_jcs _ _ Hj). simpl. rewrite Hj. simpl. by rewrite bool_decide_true.
Qed.
End Canonical.

(** ** Digests and labels *)

Definition FRAMED_DOMAIN_PREFIX : bytes := "bullet-wire.v1" +:+ String (byte_of 0) EmptyString.

Definition domain_byte (a : Ascii.ascii) : bool :=
  is_ascii_lowercase a || str_contains_char a ".-_0123456789".

(** crates/harness-core/src/launch_grant/canonical.rs:92-101 (validate_domain) *)
Definition validate_domain (domain : string) : result HarnessError unit :=
  if is_empty domain || negb (string_all domain_byte domain) then
    launch_invalid "hash domain must use lowercase ASCII labels"
  else Ok tt.

Section FramedDigest.
Context `{Blake3} `{Hex}.

(** crates/harness-core/src/launch_grant/canonical.rs:57-70 (hash_framed_bytes) *)
Definition hash_framed_bytes (domain : string) (b : bytes) : result HarnessError string :=
  _ ← validate_domain domain;
  mret (to_hex (Digest_of (FRAMED_DOMAIN_PREFIX +:+ frame domain +:+ frame b))).

(** crates/harness-core/src/launch_grant/canonical.rs:72-81 (hash_canonical) *)
Definition hash_canonical {A} `{Canon A} (domain : string) (value : A)
  : result HarnessError string :=
  _ ← validate_domain domain;
  b ← canonical_json value;
  hash_framed_bytes domain b.
End FramedDigest.

Definition is_ascii_alphanumeric (a : Ascii.ascii) : bool :=
  is_ascii_lowercase a || is_ascii_digit a || bool_decide (65 <= byte_val a <= 90).

Definition label_byte (a : Ascii.ascii) : bool :=
  is_ascii_alphanumeric a || str_contains_char a "._:/-".

(** crates/harness-core/src/launch_grant/claims.rs:405-422 (validate_label) *)
Definition validate_label (name value : string) : result HarnessError unit :=
  if is_empty value || bool_decide (128 < str_len value) || negb (string_all label_byte value)
  then launch_invalid (name +:+ " must be bounded printable identifier text")
  else Ok tt.

(** crates/harness-core/src/launch_grant/claims.rs:424-426 (prefixed_hex) *)
Definition prefixed_hex (prefix value : string) : bool :=
  match strip_prefix prefix value with Some rest => is_hex_64 rest | None => false end.

Definition starts_inside (s : string) : bool :=
  match s with String a _ => utf8_cont a | EmptyString => false end.

(** [str::chars]: a character starts at every byte that is no continuation. *)
Fixpoint str_chars (s : string) : list string :=
  match s with
  | EmptyString => []
  | String a r =>
      match starts_inside r, str_chars r with
      | true, c :: cs => String a c :: cs
      | _, cs => String a EmptyString :: cs
      end
  end.

(** crates/harness-core/src/launch_grant/claims.rs:428-434 (printable) *)
Definition printable (value : string) : string :=
  foldr (fun c acc => c +:+ acc) EmptyString
    (take 64 (filter (fun c => any_control c = false) (str_chars value))).

(** ** Lemmas *)

Lemma validate_label_Ok name v u :
  validate_label name v = Ok u <->
  0 < str_len v <= 128 /\ string_all label_byte v = true.
Proof.
  unfold validate_label. destruct u. pose proof (str_len_nonneg v).
  assert (is_empty v = true <-> str_len v = 0) as He.
  { unfold is_empty, str_len. destruct v; simpl; split; try done; lia. }
  destruct (is_empty v) eqn:Hv; simpl.
  { split; [done|]. intros [? _]. destruct He as [He _]. specialize (He eq_refl). lia. }
  assert (str_len v <> 0) by (intros ?%He; done).
  case_bool_decide; simpl; [split; [done|lia]|].
  destruct (string_all label_byte v); simpl; [|split; [done|by intros []]].
  split; [|done]. intros _. split; [lia|done].
Qed.

Lemma prefixed_hex_spec p v : prefixed_hex (p +:+ "_") v = true <-> id_wire_form p v.
Proof.
  unfold prefixed_hex, id_wire_form. split.
  - destruct (strip_prefix _ v) as [r|] eqn:Hs; [|done]. intros Hr%is_hex_64_spec.
    apply strip_prefix_Some in Hs as ->. exists r. by rewrite string_app_assoc.
  - intros (r & -> & Hr). rewrite <- string_app_assoc, strip_prefix_app. by apply is_hex_64_spec.
Qed.
