(* ===== verification/LocalForge.v ===== *)
(** * The local bare forge

    Models crates/effects/src/git_env.rs, local.rs, local_state.rs and
    local_integration.rs: candidate pushes with an exact lease, read-backs, the
    immutable control records kept beside the bare repository, and the
    compare-and-swap that integrates a checked subject into a protected target.
    Running git is one operation of the world (class [GitProcess]); the world
    is otherwise the file system of [Paths]. Then what the forge does to refs,
    and the attestor principal of attest.rs. *)

From S2P Require Import Prelude External Ids BudgetPolicy Framing Toy Text Store Paths.
From S2P Require Import EgressRequest Forge Canonical.
From stdpp Require Import options.

Local Open Scope Z_scope.

(** ** [std] on process output *)

(** U+FFFD. *)
Definition replacement_char : bytes :=
  String (byte_of 239) (String (byte_of 191) (String (byte_of 189) EmptyString)).

(** [String::from_utf8_lossy]: every maximal ill-formed part becomes U+FFFD. *)
Fixpoint from_utf8_lossy (s : bytes) : string :=
  match s with
  | EmptyString => EmptyString
  | String a r =>
      let b := byte_val a in
      if bool_decide (b < 128) then String a (from_utf8_lossy r)
      else match r with
      | EmptyString => replacement_char
      | String a2 r2 =>
          if bool_decide (194 <= b <= 223) && utf8_cont a2
          then String a (String a2 (from_utf8_lossy r2))
          else if utf8_three b (byte_val a2) then
            match r2 with
            | String a3 r3 =>
                if utf8_cont a3 then String a (String a2 (String a3 (from_utf8_lossy r3)))
                else replacement_char +:+ from_utf8_lossy r2
            | EmptyString => replacement_char
            end
          else if utf8_four b (byte_val a2) then
            match r2 with
            | String a3 r3 =>
                if utf8_cont a3 then
                  match r3 with
                  | String a4 r4 =>
                      if utf8_cont a4
                      then String a (String a2 (String a3 (String a4 (from_utf8_lossy r4))))
                      else replacement_char +:+ from_utf8_lossy r3
                  | EmptyString => replacement_char
                  end
                else replacement_char +:+ from_utf8_lossy r2
            | EmptyString => replacement_char
            end
          else replacement_char +:+ from_utf8_lossy r
      end
  end.

(** [str::lines]: a final empty part is no line, and a carriage return is part
    of a line ending only before a line feed. *)
Fixpoint str_lines_of (parts : list string) : list string :=
  match parts with
  | [] => []
  | [final] => if is_empty final then [] else [final]
  | part :: rest => strip_cr part :: str_lines_of rest
  end.

Definition str_lines (s : string) : list string := str_lines_of (str_split lf s).

(** `split_whitespace().next()`. *)
Definition starts_blank (s : string) : bool :=
  bool_decide (String.length (trim_start s) < String.length s)%nat.

Fixpoint take_word (s : string) : string :=
  match s with
  | EmptyString => EmptyString
  | String a r => if starts_blank s then EmptyString else String a (take_word r)
  end.

Definition first_word (s : string) : option string :=
  let t := trim_start s in if is_empty t then None else Some (take_word t).

(** [str::contains] of a text. *)
Definition str_contains (needle hay : string) : bool := has_window needle hay.

(** ** Hardened git *)

Record GitCommand : Type := MkGitCommand {
  gc_env : list (string * string);
  gc_args : list string
}.

(** Running `git` with this environment and these arguments: the exit code
    (none when a signal ended it), standard output and standard error, or the
    text of the error of the spawn. *)
Class GitProcess (W : Type) := {
  git_output : GitCommand -> stateful W string (option Z * bytes * bytes);
  git_path : option string
}.

Section LocalForge.
Context {W : Type} `{!GitProcess W} `{!Files W} `{Blake3} `{Hex}.
Context `{!Json ProtectionState} `{!Json CheckReceipt} `{!Json IntegrationSubject} `{!Json IntegrationReceipt}.

Abbreviation G := (stateful W EffectsError).

(** crates/effects/src/git_env.rs:14-36 (hardened_git) *)
Definition hardened_git (repo : option string) (args : list string) : GitCommand :=
  MkGitCommand
    ((match git_path with Some p => [("PATH", p)] | None => [] end)
     ++ [("GIT_CONFIG_NOSYSTEM", "1"); ("GIT_CONFIG_GLOBAL", "/dev/null");
         ("GIT_TERMINAL_PROMPT", "0"); ("GIT_ASKPASS", "/bin/false");
         ("GIT_SSH_COMMAND", "false"); ("LC_ALL", "C")])
    (["-c"; "core.hooksPath=/dev/null"; "-c"; "credential.helper="]
     ++ (match repo with Some r => ["-C"; r] | None => [] end) ++ args).

(** crates/effects/src/git_env.rs:38-54 (run_git) *)
Definition run_git (repo : option string) (args : list string) : G (Z * string * string) :=
  '(code, out, err) ← st_map_err (fun e => EeIo ("spawn git: " +:+ e))
                        (git_output (hardened_git repo args));
  mret (default (-1) code, str_trim (from_utf8_lossy out), str_trim (from_utf8_lossy err)).

(** ** Control records *)

(** The texts of the two error kinds that are told apart, as the standard
    library writes them on Linux. *)
Definition is_not_found (e : string) : bool := bool_decide (e = "No such file or directory (os error 2)").
Definition is_already_exists (e : string) : bool := bool_decide (e = "File exists (os error 17)").

(** crates/effects/src/local_state.rs:196-198 (io_error) *)
Definition state_io_error (operation path error : string) : EffectsError :=
  EeIo (operation +:+ " " +:+ path +:+ ": " +:+ error).

(** crates/effects/src/local_state.rs:14-17 (LocalState) *)
Record LocalState : Type := MkLocalState { ls_root : string }.

(** crates/effects/src/local_state.rs:175-194 (ensure_directory) *)
Definition ensure_directory (path : string) : G unit :=
  _ ← (fun s => match fs_create_dir path s with
                | (t, Err e) => if is_already_exists e then (t, Ok tt)
                                else (t, Err (state_io_error "create state directory" path e))
                | (t, Ok _) => (t, Ok tt)
                | (t, Panic) => (t, Panic)
                end);
  metadata ← st_map_err (state_io_error "inspect state directory" path) (fs_symlink_metadata path);
  pure_step (refuse_if (negb (bool_decide (md_kind metadata = IsDir)))
    (EeDurableQueueInvalid ("local forge state is not a directory: " +:+ path))).

Fixpoint for_each_st {A} (f : A -> G unit) (xs : list A) : G unit :=
  match xs with [] => mret tt | x :: rest => _ ← f x; for_each_st f rest end.

(** crates/effects/src/local_state.rs:20-27 (LocalState::open) *)
Definition LocalState_open (bare : string) : G LocalState :=
  let root := path_join bare "bullet-effects-v1" in
  _ ← ensure_directory root;
  _ ← for_each_st (fun name => ensure_directory (path_join root name))
        ["protections"; "checks"; "subjects"; "integrations"];
  mret (MkLocalState root).

Fixpoint be_bytes (n : nat) (z : Z) : bytes :=
  match n with
  | O => EmptyString
  | S n => String (byte_of ((z / 256 ^ Z.of_nat n) mod 256)) (be_bytes n z)
  end.

Definition key_part (part : string) : bytes := be_bytes 8 (str_len part) +:+ part.

(** crates/effects/src/local_state.rs:165-173 (key) *)
Definition state_key (domain : string) (parts : list string) : string :=
  hex_encode (array32_bytes (blake3_hash (domain +:+ String.concat EmptyString (key_part <$> parts)))).

(** crates/effects/src/local_state.rs:29-31 (LocalState::protection_key) *)
Definition protection_key (target : string) : string := state_key "bullet-local-protection-v1" [target].
(** crates/effects/src/local_state.rs:33-35 (LocalState::check_key) *)
Definition check_key (sha name : string) : string := state_key "bullet-local-check-v1" [sha; name].
(** crates/effects/src/local_state.rs:37-42 (LocalState::subject_id) *)
Definition subject_id (base head target : string) : string :=
  "ins_" +:+ state_key "bullet-local-integration-subject-v1" [base; head; target].

(** crates/effects/src/local_state.rs:89-91 (LocalState::path) *)
Definition state_path (st : LocalState) (category key : string) : string :=
  path_join (path_join (ls_root st) category) (key +:+ ".json").

Section Records.
Context {T : Type} `{!EqDecision T} `{!Json T}.

(** crates/effects/src/local_state.rs:93-127 (LocalState::read) *)
Definition state_read (st : LocalState) (category key : string) : G (option T) :=
  let path := state_path st category key in
  found ← (fun s => match fs_symlink_metadata path s with
                    | (t, Ok m) => (t, Ok (Some m))
                    | (t, Err e) => if is_not_found e then (t, Ok None)
                                    else (t, Err (state_io_error "inspect state" path e))
                    | (t, Panic) => (t, Panic)
                    end);
  match found with
  | None => mret None
  | Some metadata =>
      _ ← pure_step (refuse_if (negb (bool_decide (md_kind metadata = IsFile)))
            (EeDurableQueueInvalid ("local forge state is not a regular file: " +:+ path)));
      content ← st_map_err (state_io_error "read state" path) (fs_read path);
      value ← pure_step (map_err (fun e => EeDurableQueueInvalid
                ("invalid local forge state " +:+ path +:+ ": " +:+ e)) (of_json content));
      canonical ← pure_step (map_err (fun e => EeDurableQueueInvalid
                ("serialize local forge state: " +:+ e)) (to_json value));
      _ ← pure_step (refuse_if (negb (bool_decide (canonical = content)))
            (EeDurableQueueInvalid ("non-canonical local forge state: " +:+ path)));
      mret (Some value)
  end.

(** crates/effects/src/local_state.rs:129-162 (LocalState::put) *)
Definition state_put (st : LocalState) (category key : string) (value : T) : G bool :=
  existing ← state_read st category key;
  match existing with
  | Some existing => mret (bool_decide (existing = value))
  | None =>
      let path := state_path st category key in
      content ← pure_step (map_err (fun e => EeDurableQueueInvalid
                  ("serialize local forge state: " +:+ e)) (to_json value));
      created ← (fun s => match fs_create_new path s with
                          | (t, Ok file) => (t, Ok (Some file))
                          | (t, Err e) => if is_already_exists e then (t, Ok None)
                                          else (t, Err (state_io_error "create state" path e))
                          | (t, Panic) => (t, Panic)
                          end);
      match created with
      | None =>
          now ← state_read st category key;
          mret (bool_decide (now = Some value))
      | Some file =>
          _ ← st_map_err (state_io_error "write state" path) (fs_write_all file content);
          _ ← st_map_err (state_io_error "sync state" path) (fs_sync_all file);
          _ ← st_map_err (state_io_error "sync state directory" path)
                (dir ← fs_open (path_join (ls_root st) category); fs_sync_all dir);
          mret true
      end
  end.
End Records.

(** ** The forge *)

(** crates/effects/src/local.rs:17-22 (LocalBareForge) *)
Record LocalBareForge : Type := MkLocalBareForge {
  lb_bare : string;
  lb_state : LocalState
}.

(** crates/effects/src/local.rs:25-39 (LocalBareForge::init) *)
Definition LocalBareForge_init (path : string) : G LocalBareForge :=
  '(code, _, err) ← run_git None ["init"; "--bare"; "-q"; path];
  _ ← pure_step (refuse_if (negb (bool_decide (code = 0))) (EeGitFailed ("init --bare: " +:+ err)));
  state ← LocalState_open path;
  mret (MkLocalBareForge path state).

(** crates/effects/src/local.rs:41-57 (LocalBareForge::open) *)
Definition LocalBareForge_open (path : string) : G LocalBareForge :=
  '(code, out, err) ← run_git (Some path) ["rev-parse"; "--is-bare-repository"];
  _ ← pure_step (refuse_if (negb (bool_decide (code = 0)) || negb (bool_decide (out = "true")))
        (EeGitFailed (path +:+ " is not a bare repository: " +:+ err)));
  state ← LocalState_open path;
  mret (MkLocalBareForge path state).

(** crates/effects/src/local.rs:110-122 (LocalBareForge::read_ref) *)
Definition local_read_ref (f : LocalBareForge) (ref_name : string) : G (option string) :=
  _ ← pure_step (require_candidate_ref ref_name);
  '(code, out, err) ← run_git None ["ls-remote"; lb_bare f; ref_name];
  _ ← pure_step (refuse_if (negb (bool_decide (code = 0))) (EeGitFailed ("ls-remote: " +:+ err)));
  mret (line ← head (str_lines out); first_word line).

(** crates/effects/src/local.rs:76-108 (LocalBareForge::push_candidate_ref) *)
Definition local_push (f : LocalBareForge) (request : PushRequest) : G unit :=
  _ ← pure_step (require_candidate_ref (push_ref_name request));
  _ ← pure_step (require_oid "new_oid" (push_new_oid request));
  _ ← pure_step (require_oid "expected_old_oid" (push_expected_old_oid request));
  let expect := if bool_decide (push_expected_old_oid request = ZERO_OID) then EmptyString
                else push_expected_old_oid request in
  let lease := "--force-with-lease=" +:+ push_ref_name request +:+ ":" +:+ expect in
  let refspec := push_new_oid request +:+ ":" +:+ push_ref_name request in
  '(code, _, err) ← run_git (Some (push_workspace_repo request))
                      ["push"; "-q"; lease; lb_bare f; refspec];
  if bool_decide (code = 0) then mret tt
  else if str_contains "stale info" err || str_contains "[rejected]" err
          || str_contains "[remote rejected]" err then
    observed ← local_read_ref f (push_ref_name request);
    pure_step (Err (EePushRejected (push_ref_name request) observed))
  else pure_step (Err (EeGitFailed ("push: " +:+ err))).

(** ** Integration *)

(** crates/effects/src/local_integration.rs:14-14 (MAX_CHECK_NAME_BYTES) *)
Definition MAX_CHECK_NAME_BYTES : Z := 128.
(** crates/effects/src/local_integration.rs:15-15 (MAX_PROOF_ROOT_BYTES) *)
Definition MAX_PROOF_ROOT_BYTES : Z := 256.

(** crates/effects/src/local_integration.rs:359-370 (require_text) *)
Definition require_text (field value : string) (max_bytes : Z) : result EffectsError unit :=
  refuse_if (is_empty value || bool_decide (max_bytes < str_len value) || any_control value
             || negb (bool_decide (str_trim value = value)))
    (EeCheckSubjectMismatch (field +:+ " must be 1..=" +:+ pretty max_bytes
       +:+ " trimmed non-control bytes")).

(** crates/effects/src/local_integration.rs:53-67 (LocalBareForge::require_target_ref) *)
Definition require_target_ref (target : string) : G unit :=
  let suffix := default EmptyString (strip_prefix "refs/heads/" target) in
  _ ← pure_step (refuse_if (is_empty suffix || starts_with "refs/heads/bullet/candidate/" target)
        (EeRefDenied (target +:+ " is not an integration target")));
  '(code, _, error) ← run_git None ["check-ref-format"; target];
  pure_step (refuse_if (negb (bool_decide (code = 0)))
    (EeRefDenied ("invalid integration target " +:+ target +:+ ": " +:+ error))).

(** crates/effects/src/local_integration.rs:69-79 (LocalBareForge::require_commit) *)
Definition require_commit (f : LocalBareForge) (oid : string) : G unit :=
  _ ← pure_step (require_oid "commit" oid);
  '(code, _, error) ← run_git (Some (lb_bare f)) ["cat-file"; "-e"; oid +:+ "^{commit}"];
  pure_step (refuse_if (negb (bool_decide (code = 0)))
    (EeIntegrationSubjectMismatch ("commit " +:+ oid +:+ " is absent from local forge: " +:+ error))).

(** crates/effects/src/local_integration.rs:81-102 (LocalBareForge::read_exact_ref) *)
Definition read_exact_ref (f : LocalBareForge) (target : string) : G (option string) :=
  _ ← require_target_ref target;
  '(code, output, error) ← run_git (Some (lb_bare f)) ["rev-parse"; "--verify"; "--quiet"; target];
  if bool_decide (code = 1) && is_empty output && is_empty error then mret None
  else
    _ ← pure_step (refuse_if (negb (bool_decide (code = 0)))
          (EeTargetReadbackUnavailable ("read " +:+ target +:+ ": " +:+ error)));
    _ ← pure_step (refuse_if (negb (bool_decide (length (str_lines output) = 1%nat)))
          (EeTargetReadbackUnavailable ("read " +:+ target +:+ " returned a non-singleton value")));
    _ ← pure_step (require_oid "target_oid" output);
    mret (Some output).

(** crates/effects/src/local_integration.rs:104-116 (LocalBareForge::validate_subject) *)
Definition validate_subject (f : LocalBareForge) (subject : IntegrationSubject) : G unit :=
  _ ← require_commit f (is_base subject);
  _ ← require_commit f (is_head subject);
  _ ← require_target_ref (is_target subject);
  let expected := subject_id (is_base subject) (is_head subject) (is_target subject) in
  pure_step (refuse_if (negb (bool_decide (is_id subject = expected)))
    (EeIntegrationSubjectMismatch ("subject id " +:+ is_id subject +:+ " does not match exact tuple"))).

(** crates/effects/src/local_integration.rs:118-132 (LocalBareForge::require_ancestry) *)
Definition require_ancestry (f : LocalBareForge) (base head : string) : G unit :=
  '(code, _, error) ← run_git (Some (lb_bare f)) ["merge-base"; "--is-ancestor"; base; head];
  if bool_decide (code = 0) then mret tt
  else if bool_decide (code = 1) then
    pure_step (Err (EeIntegrationSubjectMismatch
      ("head " +:+ head +:+ " does not descend from base " +:+ base)))
  else pure_step (Err (EeGitFailed ("merge-base " +:+ base +:+ " " +:+ head +:+ ": " +:+ error))).

(** crates/effects/src/local_integration.rs:134-137 (LocalBareForge::require_check_request) *)
Definition require_check_request (sha name : string) : result EffectsError unit :=
  _ ← require_oid "check_sha" sha;
  require_text "check_name" name MAX_CHECK_NAME_BYTES.

(** crates/effects/src/local_integration.rs:18-51 (LocalBareForge::protect_target) *)
Definition protect_target (f : LocalBareForge) (target required_proof_root : string) : G ProtectionState :=
  _ ← require_target_ref target;
  _ ← pure_step (require_text "required_proof_root" required_proof_root MAX_PROOF_ROOT_BYTES);
  current ← read_exact_ref f target;
  _ ← pure_step (refuse_if (bool_decide (current = None))
        (EeProtectionMismatch ("target " +:+ target +:+ " is absent")));
  let state := MkProtectionState target true (Some required_proof_root) in
  stored ← state_put (lb_state f) "protections" (protection_key target) state;
  _ ← pure_step (refuse_if (negb stored)
        (EeProtectionMismatch ("target " +:+ target +:+ " protection is already bound differently")));
  mret state.

(** crates/effects/src/local_integration.rs:156-166 (LocalBareForge::read_protection) *)
Definition local_read_protection (f : LocalBareForge) (target : string) : G ProtectionState :=
  _ ← require_target_ref target;
  stored ← state_read (lb_state f) "protections" (protection_key target);
  mret (default (MkProtectionState target false None) stored).

(** crates/effects/src/local_integration.rs:168-184 (LocalBareForge::publish_check) *)
Definition local_publish_check (f : LocalBareForge) (req : CheckPublication) : G CheckReceipt :=
  _ ← pure_step (require_check_request (cp_sha req) (cp_name req));
  _ ← require_commit f (cp_sha req);
  _ ← pure_step (require_text "proof_root" (cp_proof_root req) MAX_PROOF_ROOT_BYTES);
  let receipt := MkCheckReceipt (cp_sha req) (cp_name req) (cp_proof_root req) in
  stored ← state_put (lb_state f) "checks" (check_key (cr_sha receipt) (cr_name receipt)) receipt;
  _ ← pure_step (refuse_if (negb stored)
        (EeCheckSubjectMismatch ("check (" +:+ cp_sha req +:+ ", " +:+ cp_name req
           +:+ ") is already bound to another proof root")));
  mret receipt.

(** crates/effects/src/local_integration.rs:186-198 (LocalBareForge::read_check) *)
Definition local_read_check (f : LocalBareForge) (sha name : string) : G (option CheckReceipt) :=
  _ ← pure_step (require_check_request sha name);
  receipt ← state_read (T:=CheckReceipt) (lb_state f) "checks" (check_key sha name);
  _ ← pure_step (refuse_if
        (match receipt with
         | Some value => negb (bool_decide (cr_sha value = sha)) || negb (bool_decide (cr_name value = name))
         | None => false
         end)
        (EeCheckSubjectMismatch ("stored check differs from (" +:+ sha +:+ ", " +:+ name +:+ ")")));
  mret receipt.

(** crates/effects/src/local_integration.rs:200-237 (LocalBareForge::ensure_integration_subject) *)
Definition local_ensure_subject (f : LocalBareForge) (req : IntegrationSubjectRequest)
  : G IntegrationSubject :=
  _ ← require_commit f (isr_base req);
  _ ← require_commit f (isr_head req);
  _ ← require_target_ref (isr_target req);
  _ ← require_ancestry f (isr_base req) (isr_head req);
  let subject := MkIntegrationSubject (subject_id (isr_base req) (isr_head req) (isr_target req))
                   (isr_base req) (isr_head req) (isr_target req) in
  existing ← state_read (lb_state f) "subjects" (is_id subject);
  match existing with
  | Some existing =>
      if bool_decide (existing = subject) then mret existing
      else pure_step (Err (EeIntegrationSubjectMismatch ("subject " +:+ is_id subject +:+ " is rebound")))
  | None =>
      current ← read_exact_ref f (isr_target req);
      _ ← pure_step (refuse_if (negb (bool_decide (current = Some (isr_base req))))
            (EeIntegrationPreconditionFailed ("target " +:+ isr_target req
               +:+ " does not equal subject base " +:+ isr_base req)));
      stored ← state_put (lb_state f) "subjects" (is_id subject) subject;
      _ ← pure_step (refuse_if (negb stored)
            (EeIntegrationSubjectMismatch ("subject " +:+ is_id subject
               +:+ " raced with a different value")));
      mret subject
  end.

(** crates/effects/src/local_integration.rs:239-280 (LocalBareForge::integrate_protected guards) *)
Definition integration_evidence (f : LocalBareForge) (req : ProtectedIntegrationRequest)
  : G CheckReceipt :=
  let subject := pir_subject req in
  _ ← validate_subject f subject;
  _ ← pure_step (require_oid "expected_old_oid" (pir_expected_old_oid req));
  _ ← pure_step (require_text "check_name" (pir_check_name req) MAX_CHECK_NAME_BYTES);
  _ ← pure_step (require_text "proof_root" (pir_proof_root req) MAX_PROOF_ROOT_BYTES);
  _ ← pure_step (refuse_if (negb (bool_decide (pir_expected_old_oid req = is_base subject)))
        (EeIntegrationSubjectMismatch "expected old OID differs from subject base"));
  stored ← state_read (lb_state f) "subjects" (is_id subject);
  _ ← pure_step (refuse_if (negb (bool_decide (stored = Some subject)))
        (EeIntegrationSubjectMismatch ("subject " +:+ is_id subject
           +:+ " is absent or differs from durable state")));
  protection ← local_read_protection f (is_target subject);
  _ ← pure_step (refuse_if
        (negb (ps_protected protection)
         || negb (bool_decide (ps_required_proof_root protection = Some (pir_proof_root req))))
        (EeProtectionMismatch ("target " +:+ is_target subject +:+ " does not require proof root "
           +:+ pir_proof_root req)));
  check ← local_read_check f (is_head subject) (pir_check_name req);
  check ← pure_step (ok_or check (EeCheckSubjectMismatch
            ("check (" +:+ is_head subject +:+ ", " +:+ pir_check_name req +:+ ") is absent")));
  _ ← pure_step (refuse_if (negb (bool_decide (cr_proof_root check = pir_proof_root req)))
        (EeCheckSubjectMismatch ("check proof root " +:+ cr_proof_root check
           +:+ " differs from required " +:+ pir_proof_root req)));
  mret check.

(** The derived [Debug] text of an optional object id. *)
Definition debug_oid (o : option string) : string :=
  match o with
  | Some oid => "Some(" +:+ String (Ascii.ascii_of_nat 34) (oid +:+ String (Ascii.ascii_of_nat 34) ")")
  | None => "None"
  end.

Definition update_ref_args (req : ProtectedIntegrationRequest) : list string :=
  ["update-ref"; "--no-deref"; is_target (pir_subject req); is_head (pir_subject req);
   pir_expected_old_oid req].

(** crates/effects/src/local_integration.rs:300-344 (LocalBareForge::integrate_protected swap) *)
Definition integration_swap (f : LocalBareForge) (req : ProtectedIntegrationRequest)
    (receipt : IntegrationReceipt) : G IntegrationReceipt :=
  let subject := pir_subject req in
  observed ← read_exact_ref f (is_target subject);
  _ ← pure_step (refuse_if (negb (bool_decide (observed = Some (pir_expected_old_oid req))))
        (if bool_decide (observed = Some (is_head subject))
         then EeOrphanedRemote ("target " +:+ is_target subject +:+ " moved without a durable receipt")
         else EeIntegrationPreconditionFailed ("target " +:+ is_target subject +:+ " expected "
                +:+ pir_expected_old_oid req +:+ " observed " +:+ debug_oid observed)));
  '(code, _, error) ← run_git (Some (lb_bare f)) (update_ref_args req);
  if negb (bool_decide (code = 0)) then
    observed ← read_exact_ref f (is_target subject);
    pure_step (Err (EeIntegrationPreconditionFailed ("target " +:+ is_target subject
      +:+ " compare-and-swap failed; observed " +:+ debug_oid observed +:+ ": " +:+ error)))
  else
    read_back ← read_exact_ref f (is_target subject);
    _ ← pure_step (refuse_if (negb (bool_decide (read_back = Some (is_head subject))))
          (EeOrphanedRemote ("target " +:+ is_target subject
             +:+ " did not read back exact integrated head")));
    stored ← state_put (lb_state f) "integrations" (ir_subject_id receipt) receipt;
    _ ← pure_step (refuse_if (negb stored)
          (EeOrphanedRemote ("integration " +:+ is_id subject
             +:+ " receipt conflicts after target mutation")));
    mret receipt.

(** crates/effects/src/local_integration.rs:281-299 (LocalBareForge::integrate_protected) *)
Definition local_integrate_protected (f : LocalBareForge) (req : ProtectedIntegrationRequest)
  : G IntegrationReceipt :=
  let subject := pir_subject req in
  check ← integration_evidence f req;
  let receipt := MkIntegrationReceipt (is_id subject) (is_target subject) (pir_expected_old_oid req)
                   (is_head subject) check in
  existing ← state_read (T:=IntegrationReceipt) (lb_state f) "integrations" (is_id subject);
  match existing with
  | Some existing =>
      moved ← (if negb (bool_decide (existing = receipt)) then mret true
               else current ← read_exact_ref f (is_target subject);
                    mret (negb (bool_decide (current = Some (is_head subject)))));
      if (moved : bool) then
        pure_step (Err (EeOrphanedRemote ("integration " +:+ is_id subject
          +:+ " no longer matches target or receipt")))
      else mret existing
  | None => integration_swap f req receipt
  end.
End LocalForge.

(** The forge with the world it runs in. *)
(** crates/effects/src/local.rs:66-74 (ForgeEffects for LocalBareForge) *)
Global Instance LocalBareForge_effects W `{!GitProcess W} : ForgeEffects (LocalBareForge * W) := {|
  descriptor '(f, _) := MkForgeDescriptor "local-bare" true true
    ("local bare repository at " +:+ lb_bare f);
  push_candidate_ref request '(f, w) := let '(w', r) := local_push f request w in ((f, w'), r);
  read_ref ref_name '(f, w) := let '(w', r) := local_read_ref f ref_name w in ((f, w'), r)
|}.

(** ** What the local forge does to refs

    The git commands of a run are recorded beside any world; the theorems say
    which commands that move a ref can be issued, and after what was read. *)

(** ** Worlds that remember the commands they ran *)

Definition traced (W : Type) : Type := W * list GitCommand.

Definition keep_trace {W E A} (m : stateful W E A) : stateful (traced W) E A :=
  fun '(w, t) => let '(w', r) := m w in ((w', t), r).

Global Instance traced_git W `{!GitProcess W} : GitProcess (traced W) := {|
  git_output cmd '(w, t) := let '(w', r) := git_output cmd w in ((w', t ++ [cmd]), r);
  git_path := git_path
|}.

Global Instance traced_files W `{!Files W} : Files (traced W) := {|
  fs_handle := fs_handle;
  fs_symlink_metadata p := keep_trace (fs_symlink_metadata p);
  fs_canonicalize p := keep_trace (fs_canonicalize p);
  fs_is_dir p := fun '(w, t) => let '(w', b) := fs_is_dir p w in ((w', t), b);
  fs_exists p := fun '(w, t) => let '(w', b) := fs_exists p w in ((w', t), b);
  fs_read p := keep_trace (fs_read p);
  fs_open p := keep_trace (fs_open p);
  fs_handle_metadata h := keep_trace (fs_handle_metadata h);
  fs_read_to_end h := keep_trace (fs_read_to_end h);
  fs_read_limited h n := keep_trace (fs_read_limited h n);
  fs_create_dir p := keep_trace (fs_create_dir p);
  fs_create_new p := keep_trace (fs_create_new p);
  fs_write_all h b := keep_trace (fs_write_all h b);
  fs_sync_all h := keep_trace (fs_sync_all h);
  fs_set_mode p m := keep_trace (fs_set_mode p m);
  fs_remove_file p := keep_trace (fs_remove_file p);
  fs_remove_dir p := keep_trace (fs_remove_dir p)
|}.

(** The subcommand of a hardened invocation, past its fixed options. *)
Definition subcommand (cmd : GitCommand) : option string :=
  match drop 4 (gc_args cmd) with
  | "-C" :: _ :: sub :: _ => Some sub
  | sub :: _ => Some sub
  | [] => None
  end.

(** The commands that write a repository. *)
Definition writes_refs (cmd : GitCommand) : bool :=
  match subcommand cmd with
  | Some sub => bool_decide (sub ∈ ["push"; "update-ref"; "init"])
  | None => true
  end.

Definition ref_writes {W} (s : traced W) : list GitCommand := filter (fun c => writes_refs c = true) s.2.

Section Safety.
Context {W : Type} `{!GitProcess W} `{!Files W} `{Blake3} `{Hex}.
Context `{!Json ProtectionState} `{!Json CheckReceipt} `{!Json IntegrationSubject} `{!Json IntegrationReceipt}.

Abbreviation T := (traced W).
Abbreviation G := (stateful T EffectsError).

(** A method that writes no ref. *)
Definition same_refs : relation T := fun s s' => ref_writes s' = ref_writes s.
Global Instance same_refs_preorder : PreOrder same_refs.
Proof. unfold same_refs. split; [done|]. intros a b c ? ?. congruence. Qed.

Abbreviation quiet := (moves same_refs).

Lemma quiet_keep {E A} (m : stateful W E A) : quiet (keep_trace m).
Proof using All. intros [w t]. unfold keep_trace. by destruct (m w) as [w' []]. Qed.

Lemma quiet_map_err {E F A} (g : E -> F) (m : stateful T E A) : quiet m -> quiet (st_map_err g m).
Proof using All. intros Hm s. specialize (Hm s). unfold st_map_err. by destruct (m s) as [s' []]. Qed.

Lemma quiet_run_git repo args :
  writes_refs (hardened_git repo args) = false -> quiet (run_git repo args : G _).
Proof using All.
  intros Hq. unfold run_git. apply moves_bind; [apply _| |].
  - apply quiet_map_err. intros [w t]. cbn. destruct (git_output _ w) as [w' [x|e|]]; [..|done].
    all: unfold same_refs, ref_writes; cbn; rewrite filter_app, filter_cons.
    all: rewrite decide_False; [by rewrite filter_nil, app_nil_r|].
    all: intros Hc; pose proof (eq_trans (eq_sym Hc) Hq); done.
  - intros [[code out] err]. apply moves_ret, _.
Qed.

Ltac quiet_step :=
  match goal with
  | |- moves _ (mret _) => apply moves_ret, _
  | |- moves _ (pure_step _) => apply moves_pure, _
  | |- moves _ (_ ≫= _) => apply moves_bind; [apply _| |intros ?]
  | |- moves _ (st_map_err _ _) => apply quiet_map_err
  | |- moves _ (run_git _ _) => apply quiet_run_git; reflexivity
  | |- moves _ (if ?b then _ else _) => destruct b
  | |- moves _ (match ?x with _ => _ end) => destruct x
  | |- moves _ _ => apply quiet_keep
  end.
Ltac quiet_tac := repeat quiet_step.

Lemma quiet_state_read {R} `{!Json R} st category key : quiet (state_read (T:=R) st category key : G _).
Proof using All.
  unfold state_read. apply moves_bind; [apply _| |intros found; quiet_tac].
  intros [w t]. cbn. destruct (fs_symlink_metadata _ w) as [w' [a|e|]]; [done| |done].
  by destruct (is_not_found e).
Qed.

Lemma quiet_state_put {R} `{!EqDecision R} `{!Json R} st category key (value : R) :
  quiet (state_put st category key value : G _).
Proof using All.
  unfold state_put. apply moves_bind; [apply _|apply quiet_state_read|]. intros [x|]; [quiet_tac|].
  apply moves_bind; [apply _|quiet_tac|]. intros content.
  apply moves_bind; [apply _| |].
  - intros [w t]. cbn. destruct (fs_create_new _ w) as [w' [a|e|]]; [done| |done].
    by destruct (is_already_exists e).
  - intros [file|]; [quiet_tac|]. apply moves_bind; [apply _|apply quiet_state_read|]. intros now. quiet_tac.
Qed.

Lemma quiet_require_target_ref target : quiet (require_target_ref target : G _).
Proof using All. unfold require_target_ref. quiet_tac. Qed.

Lemma quiet_require_commit f oid : quiet (require_commit f oid : G _).
Proof using All. unfold require_commit. quiet_tac. Qed.

Lemma quiet_read_exact_ref f target : quiet (read_exact_ref f target : G _).
Proof using All.
  unfold read_exact_ref. apply moves_bind; [apply _|apply quiet_require_target_ref|]. intros u. quiet_tac.
Qed.

Lemma quiet_validate_subject f subject : quiet (validate_subject f subject : G _).
Proof using All.
  unfold validate_subject.
  apply moves_bind; [apply _|apply quiet_require_commit|]. intros u.
  apply moves_bind; [apply _|apply quiet_require_commit|]. intros v.
  apply moves_bind; [apply _|apply quiet_require_target_ref|]. intros x. quiet_tac.
Qed.

Lemma quiet_read_protection f target : quiet (local_read_protection f target : G _).
Proof using All.
  unfold local_read_protection. apply moves_bind; [apply _|apply quiet_require_target_ref|]. intros u.
  apply moves_bind; [apply _|apply quiet_state_read|]. intros x. quiet_tac.
Qed.

Lemma quiet_read_check f sha name : quiet (local_read_check f sha name : G _).
Proof using All.
  unfold local_read_check. apply moves_bind; [apply _|quiet_tac|]. intros u.
  apply moves_bind; [apply _|apply quiet_state_read|]. intros x. quiet_tac.
Qed.

(** A quiet step either ends the method, or hands on a state with the same ref
    writes. *)
Lemma after_quiet {A B} (m : G A) (g : A -> G B) s s' r :
  quiet m -> (m ≫= g) s = (s', r) -> r <> Panic ->
  ref_writes s' = ref_writes s
  \/ exists s1 a, m s = (s1, Ok a) /\ ref_writes s1 = ref_writes s /\ g a s1 = (s', r).
Proof using All.
  intros Hm Hrun Hr. specialize (Hm s). unfold mbind, stateful_bind in Hrun.
  destruct (m s) as [s1 [a|e|]]; [right; by exists s1, a|left; by simplify_eq|by simplify_eq].
Qed.

(** Peels one quiet step off a run, or closes the goal on its left branch. *)
Ltac peel lem H :=
  apply after_quiet in H; [|apply lem|done];
  destruct H as [H|(? & ? & ? & ? & H)]; [left; congruence|].
Ltac peel_pure H :=
  apply after_quiet in H; [|apply moves_pure, _|done];
  destruct H as [H|(? & ? & ? & ? & H)]; [left; congruence|];
  match goal with E : pure_step _ _ = (_, Ok _) |- _ => apply st_pure_Ok in E as [-> E]; inv_result end.

(** What the guards of an integration have read when they pass. *)
Record integration_proven (f : LocalBareForge) (req : ProtectedIntegrationRequest)
    (check : CheckReceipt) : Prop := {
  ip_old : pir_expected_old_oid req = is_base (pir_subject req);
  ip_id : is_id (pir_subject req)
    = subject_id (is_base (pir_subject req)) (is_head (pir_subject req)) (is_target (pir_subject req));
  ip_subject : exists s s' : T, state_read (lb_state f) "subjects" (is_id (pir_subject req)) s
    = (s', Ok (Some (pir_subject req)));
  ip_protection : exists (s s' : T) p,
    local_read_protection f (is_target (pir_subject req)) s = (s', Ok p)
    /\ ps_protected p = true /\ ps_required_proof_root p = Some (pir_proof_root req);
  ip_check : exists s s' : T,
    local_read_check f (is_head (pir_subject req)) (pir_check_name req) s = (s', Ok (Some check));
  ip_check_head : cr_sha check = is_head (pir_subject req);
  ip_check_root : cr_proof_root check = pir_proof_root req
}.

Lemma validate_subject_id f subject (s s' : T) u :
  validate_subject f subject s = (s', Ok u) ->
  is_id subject = subject_id (is_base subject) (is_head subject) (is_target subject).
Proof using All. unfold validate_subject. intros Hv. inv_st. done. Qed.

Lemma local_read_check_sha f sha name (s s' : T) check :
  local_read_check f sha name s = (s', Ok (Some check)) -> cr_sha check = sha.
Proof using All. unfold local_read_check. intros Hv. inv_st. by inv_result. Qed.

Lemma quiet_integration_evidence f req : quiet (integration_evidence f req : G _).
Proof using All.
  unfold integration_evidence.
  repeat first
    [ apply moves_bind; [apply _|first [apply quiet_validate_subject|apply quiet_state_read
        |apply quiet_read_protection|apply quiet_read_check|apply moves_pure, _]|intros ?]
    | apply moves_ret, _ ].
Qed.

Lemma integration_evidence_Ok f req (s s' : T) check :
  integration_evidence f req s = (s', Ok check) -> integration_proven f req check.
Proof using All.
  unfold integration_evidence. intros Hv. inv_st. inv_result.
  match goal with Hc : local_read_check _ _ _ _ = _ |- _ => pose proof (local_read_check_sha _ _ _ _ _ _ Hc) end.
  match goal with Hc : validate_subject _ _ _ = _ |- _ => pose proof (validate_subject_id _ _ _ _ _ Hc) end.
  split; try done; eauto 6.
Qed.

Lemma run_git_writes repo args (s : T) :
  writes_refs (hardened_git repo args) = true ->
  ref_writes (run_git repo args s).1 = ref_writes s ++ [hardened_git repo args].
Proof using All.
  intros Hw. destruct s as [w t]. unfold run_git, mbind, stateful_bind, st_map_err. cbn.
  assert (forall w', ref_writes (W:=W) (w', t ++ [hardened_git repo args])
                     = ref_writes (w, t) ++ [hardened_git repo args]) as Hall.
  { intros w'. unfold ref_writes. cbn. rewrite filter_app, filter_cons, decide_True by done. done. }
  destruct (git_output _ w) as [w' [[[code out] err]|e|]]; exact (Hall w').
Qed.

(** A step whose continuation is quiet settles the ref writes. *)
Lemma then_quiet {A B} (m : G A) (g : A -> G B) s s' r :
  (m ≫= g) s = (s', r) -> r <> Panic -> (forall a, quiet (g a)) ->
  ref_writes s' = ref_writes (m s).1 /\ (m s).2 <> Panic.
Proof using All.
  unfold mbind, stateful_bind. intros Hrun Hr Hg. destruct (m s) as [s1 [a|e|]]; [|by simplify_eq..].
  specialize (Hg a s1). rewrite Hrun in Hg. by destruct r.
Qed.

Lemma integration_swap_writes f req receipt (s s' : T) r :
  integration_swap f req receipt s = (s', r) -> r <> Panic ->
  ref_writes s' = ref_writes s
  \/ ref_writes s' = ref_writes s ++ [hardened_git (Some (lb_bare f)) (update_ref_args req)]
     /\ exists s1 s2 : T, read_exact_ref f (is_target (pir_subject req)) s1
           = (s2, Ok (Some (pir_expected_old_oid req))) /\ ref_writes s2 = ref_writes s.
Proof using All.
  unfold integration_swap. intros Hrun Hr.
  peel (quiet_read_exact_ref f (is_target (pir_subject req))) Hrun.
  peel_pure Hrun. right. split; [|eauto].
  apply then_quiet in Hrun as [Hrun Hm]; [|done|].
  - rewrite Hrun, run_git_writes by done. congruence.
  - intros [[code out] err]. destruct (negb _).
    + apply moves_bind; [apply _|apply quiet_read_exact_ref|]. intros o. quiet_tac.
    + apply moves_bind; [apply _|apply quiet_read_exact_ref|]. intros o.
      apply moves_bind; [apply _|quiet_tac|]. intros u.
      apply moves_bind; [apply _|apply quiet_state_put|]. intros stored. quiet_tac.
Qed.

(** C14: A protected target moves only with proof. Whatever git and the files
    do, integrating a subject writes no ref, or runs exactly one command that
    does: an `update-ref` of the subject's own target to the subject's head
    under the expected old object id. It does so only after the subject's
    stored record was read back as the one given (its id that of the exact
    base, head and target, its base the expected old id), the target was read
    as protected under the given proof root, a check on that very head was read
    with the same proof root, and a read of the target itself showed the
    expected old id before any ref was written. *)
Theorem protected_target_moves_with_proof (f : LocalBareForge) req (s s' : T) r :
  local_integrate_protected f req s = (s', r) -> r <> Panic ->
  ref_writes s' = ref_writes s
  \/ ref_writes s' = ref_writes s ++ [hardened_git (Some (lb_bare f)) (update_ref_args req)]
     /\ (exists check, integration_proven f req check)
     /\ exists s1 s2 : T, read_exact_ref f (is_target (pir_subject req)) s1
           = (s2, Ok (Some (pir_expected_old_oid req))) /\ ref_writes s2 = ref_writes s.
Proof using All.
  unfold local_integrate_protected. intros Hrun Hr.
  peel (quiet_integration_evidence f req) Hrun.
  match goal with Hc : integration_evidence _ _ _ = _ |- _ => apply integration_evidence_Ok in Hc end.
  peel (quiet_state_read (R:=IntegrationReceipt) (lb_state f) "integrations" (is_id (pir_subject req))) Hrun.
  match type of Hrun with context [match ?x with Some _ => _ | None => _ end] => destruct x as [existing|] end.
  - left. apply then_quiet in Hrun as [Hrun Hm]; [|done|intros b; quiet_tac].
    rewrite Hrun. destruct (negb _) in *; [cbn; congruence|].
    assert (quiet (current ← read_exact_ref f (is_target (pir_subject req));
                   mret (negb (bool_decide (current = Some (is_head (pir_subject req))))) : G _)) as Hq.
    { apply moves_bind; [apply _|apply quiet_read_exact_ref|]. intros o. quiet_tac. }
    match goal with |- ref_writes (?m ?s).1 = _ => specialize (Hq s); destruct (m s) as [s2 [b|e|]] end;
      cbn in *; unfold same_refs in Hq; congruence.
  - destruct (integration_swap_writes _ _ _ _ _ _ Hrun Hr) as [Hw|(Hw & s1 & s2 & Hread & Hw2)];
      [left; congruence|right].
    split; [congruence|]. split; [by eexists|]. exists s1, s2. split; [done|congruence].
Qed.
End Safety.

(** ** One integration *)

(** A repository whose only ref holds the world's text, and control records
    that all decode to the ones of one subject. *)
Definition toy_base : string := "1111111111111111111111111111111111111111".
Definition toy_head : string := "2222222222222222222222222222222222222222".
Definition toy_target : string := "refs/heads/main".

#[local] Instance toy_git : GitProcess string := {|
  git_output cmd current :=
    match subcommand cmd with
    | Some "rev-parse" => (current, Ok (Some 0, current, EmptyString))
    | Some "update-ref" => (toy_head, Ok (Some 0, EmptyString, EmptyString))
    | _ => (current, Ok (Some 0, EmptyString, EmptyString))
    end;
  git_path := None
|}.

Definition plain {W A} (r : result string A) : stateful W string A := fun s => (s, r).

Global Instance toy_records : Files string := {|
  fs_handle := unit;
  fs_symlink_metadata p := plain (if str_contains "integrations" p
    then Err "No such file or directory (os error 2)" else Ok (MkMetadata IsFile 1 0 0 0));
  fs_canonicalize p := plain (Ok p);
  fs_is_dir _ s := (s, true);
  fs_exists _ s := (s, true);
  fs_read _ := plain (Ok "x");
  fs_open _ := plain (Ok tt);
  fs_handle_metadata _ := plain (Ok (MkMetadata IsFile 1 0 0 0));
  fs_read_to_end _ := plain (Ok "x");
  fs_read_limited _ _ := plain (Ok "x");
  fs_create_dir _ := plain (Ok tt);
  fs_create_new _ := plain (Ok tt);
  fs_write_all _ _ := plain (Ok tt);
  fs_sync_all _ := plain (Ok tt);
  fs_set_mode _ _ := plain (Ok tt);
  fs_remove_file _ := plain (Ok tt);
  fs_remove_dir _ := plain (Ok tt)
|}.

Definition one_record {A} (a : A) : Json A := {| to_json _ := Ok "x"; of_json _ := Ok a |}.

Section ToyIntegration.
Context (b3 : Blake3) (hx : Hex).

Definition toy_subject : IntegrationSubject :=
  MkIntegrationSubject (@subject_id b3 hx toy_base toy_head toy_target) toy_base toy_head toy_target.

Definition toy_integrate : stateful (traced string) EffectsError IntegrationReceipt :=
  @local_integrate_protected (traced string) _ _ b3 hx
    (one_record (MkProtectionState toy_target true (Some "root")))
    (one_record (MkCheckReceipt toy_head "ci" "root"))
    (one_record toy_subject)
    (one_record (MkIntegrationReceipt EmptyString EmptyString EmptyString EmptyString
                   (MkCheckReceipt EmptyString EmptyString EmptyString)))
    (MkLocalBareForge "/bare" (MkLocalState "/bare/bullet-effects-v1"))
    (MkProtectedIntegrationRequest toy_subject toy_base "ci" "root").
End ToyIntegration.

Lemma protected_target_moves_with_proof_witness :
  let b3 : Blake3 := fixed_blake3 in
  let out := toy_integrate b3 toy_hex (toy_base, []) in
  out.1.1 = toy_head
  /\ ref_writes out.1 = [hardened_git (W:=string) (Some "/bare")
       ["update-ref"; "--no-deref"; toy_target; toy_head; toy_base]].
Proof.
  intros b3 out. split; [vm_compute; reflexivity|].
  destruct (@protected_target_moves_with_proof string _ _ b3 toy_hex _ _ _ _ _ _ (toy_base, [])
              out.1 out.2 (surjective_pairing out)) as [Hw|(Hw & _ & _)].
  - vm_compute. discriminate.
  - exfalso. vm_compute in Hw. discriminate.
  - exact Hw.
Defined.

(** ** The attestor principal

    Models crates/effects/src/attest.rs on Unix: loading the attestor's
    credential, validating a check request for one exact commit, and the two
    structural refusals that keep the attestor and the broker apart. *)

(** crates/effects/src/attest.rs:18-24 (AttestorCredential) *)
Record AttestorCredential : Type := MkAttestorCredential { at_key_id : string }.

(** The octal digits of a mode. *)
Definition octal (mode : Z) : string :=
  let digits := pretty (mode mod 8) in
  if bool_decide (mode < 8) then digits
  else if bool_decide (mode < 64) then pretty (mode / 8) +:+ digits
  else pretty (mode / 64) +:+ pretty (mode / 8 mod 8) +:+ digits.

Definition key_id_byte (a : Ascii.ascii) : bool :=
  is_ascii_alphanumeric a || str_contains_char a "._:-".

Section Attest.
Context {S : Type} `{!Files S}.

Definition attestor_io {A} (m : stateful S string A) : stateful S EffectsError A :=
  st_map_err (fun e => EeForgeUnauthenticated ("attestor credential: " +:+ e)) m.

(** [Read::read_to_string]. *)
Definition read_to_string (file : fs_handle) : stateful S EffectsError string :=
  raw ← attestor_io (fs_read_to_end file);
  _ ← pure_step (refuse_if (negb (utf8_valid raw))
        (EeForgeUnauthenticated "attestor credential: stream did not contain valid UTF-8"));
  mret raw.

(** crates/effects/src/attest.rs:54-105 (AttestorCredential::load_unix) *)
Definition attestor_load (path : string) : stateful S EffectsError AttestorCredential :=
  path_metadata ← attestor_io (fs_symlink_metadata path);
  _ ← pure_step (refuse_if (negb (bool_decide (md_kind path_metadata = IsFile)))
        (EeForgeUnauthenticated "attestor credential must be a non-symlink regular file"));
  let mode := Z.land (md_mode path_metadata) 511 in
  _ ← pure_step (refuse_if (negb (bool_decide (mode = 384)))
        (EeForgeUnauthenticated ("attestor credential mode " +:+ octal mode +:+ " is not 0600")));
  _ ← pure_step (refuse_if (bool_decide (md_len path_metadata = 0) || bool_decide (4096 < md_len path_metadata))
        (EeForgeUnauthenticated "attestor credential size is outside 1..=4096 bytes"));
  file ← attestor_io (fs_open path);
  opened ← attestor_io (fs_handle_metadata file);
  _ ← pure_step (refuse_if (negb (bool_decide (md_dev opened = md_dev path_metadata))
                            || negb (bool_decide (md_ino opened = md_ino path_metadata)))
        (EeForgeUnauthenticated "attestor credential identity changed while opening"));
  raw ← read_to_string file;
  let key_id := str_trim (default EmptyString (head (str_lines raw))) in
  _ ← pure_step (refuse_if (is_empty key_id || bool_decide (128 < str_len key_id)
                            || negb (string_all key_id_byte key_id))
        (EeForgeUnauthenticated "attestor key id must use 1..=128 ASCII letters, digits, dot, underscore, colon, or hyphen"));
  mret (MkAttestorCredential key_id).

(** A credential that loads came from a private regular file of at most 4096
    bytes and names a key in a closed alphabet. *)
Lemma attestor_load_Ok path s t c :
  attestor_load path s = (t, Ok c) ->
  (exists s1 metadata, fs_symlink_metadata path s = (s1, Ok metadata) /\ md_kind metadata = IsFile
     /\ Z.land (md_mode metadata) 511 = 384 /\ md_len metadata <> 0 /\ md_len metadata <= 4096)
  /\ at_key_id c <> EmptyString /\ str_len (at_key_id c) <= 128
  /\ string_all key_id_byte (at_key_id c) = true.
Proof.
  unfold attestor_load. intros Hl. inv_st. inv_result.
  match goal with Hm : attestor_io (fs_symlink_metadata path) s = (?s1, Ok ?m) |- _ =>
    apply st_map_err_Ok in Hm; split; [exists s1, m; split_and!; done || lia|] end.
  cbn [at_key_id]. split_and!; [|lia|done].
  intros He. rewrite He in *. done.
Qed.
End Attest.

(** crates/effects/src/attest.rs:108-138 (validate_attestation_request) *)
Definition validate_attestation_request (credential : AttestorCredential) (req : CheckPublication)
    (expected_sha : string) : result EffectsError unit :=
  _ ← refuse_if (is_empty (at_key_id credential))
        (EeForgeUnauthenticated "attestor credential identity is empty");
  _ ← require_oid "sha" (cp_sha req);
  _ ← require_oid "expected_sha" expected_sha;
  _ ← refuse_if (negb (bool_decide (cp_sha req = expected_sha)))
        (EeCheckSubjectMismatch ("check names " +:+ cp_sha req +:+ " but subject is " +:+ expected_sha));
  refuse_if (is_empty (cp_name req) || is_empty (cp_proof_root req))
    (EeCheckSubjectMismatch "check name and proof root are required").

(** crates/effects/src/attest.rs:140-149 (attestor_push) *)
Definition attestor_push : result EffectsError unit := Err (EeUnsupportedByAdapter "attestor cannot push").

(** crates/effects/src/attest.rs:151-160 (broker_attest) *)
Definition broker_attest : result EffectsError CheckReceipt :=
  Err (EeUnsupportedByAdapter "broker cannot attest").

(** A validated request names exactly the expected commit. *)
Lemma validate_attestation_request_Ok credential req expected_sha u :
  validate_attestation_request credential req expected_sha = Ok u ->
  cp_sha req = expected_sha /\ cp_name req <> EmptyString /\ cp_proof_root req <> EmptyString.
Proof.
  unfold validate_attestation_request. intros Hv. inv_result.
  split_and!; [done|..]; intros He; rewrite He in *; done.
Qed.
