(* ===== verification/LaunchClaims.v ===== *)
(** * Launch-grant claims and what they must bind

    Models crates/harness-core/src/launch_grant/claims.rs, expectation.rs and
    the protocol labels of admission/protocol.rs: the shape of a signed claim
    set, and the exact subject that it is compared with. *)

From S2P Require Import Prelude External Ids Text Framing HarnessErrors Canonical.
From stdpp Require Import options.

Local Open Scope Z_scope.

Definition LAUNCH_GRANT_SCHEMA_VERSION : string := "v1alpha1".
Definition LAUNCH_GRANT_AUDIENCE : string := "provider-runner".
Definition LAUNCH_GRANT_OPERATION : string := "launch-provider".
Definition LAUNCH_GRANT_KEY_PURPOSE : string := "launch-grant-signing".
Definition LAUNCH_GRANT_IMPLICIT_ASSERTION : bytes := "bullet-farm.launch-grant.v1alpha1".
Definition LAUNCH_GRANT_ENVELOPE_DOMAIN : string := "authority.launch-grant-envelope.v1alpha1".
Definition LAUNCH_GRANT_CLAIMS_DOMAIN : string := "authority.launch-grant-claims.v1alpha1".
Definition WORKSPACE_NONCE_DOMAIN : string := "launch-grant.workspace-nonce.v1alpha1".
Definition ENVIRONMENT_DOMAIN : string := "launch-grant.environment.v1alpha1".
Definition POLICY_SNAPSHOT_DOMAIN : string := "policy.snapshot".
Definition MAX_LAUNCH_GRANT_TTL_MS : Z := 15000.
Definition MAX_GRANT_GATE_IDS : nat := 16.
Definition MAX_SAFE_U64 : Z := 9007199254740991.
Definition MAX_TOKEN_BYTES : Z := 32768.
Definition MAX_EXECUTABLE_PATH_BYTES : Z := 4096.
Definition LAUNCH_PROVIDERS : list string := ["claude"; "codex"; "cursor"; "agy"].

(** ** Protocols *)

(** crates/harness-core/src/admission/protocol.rs:8-26 (ProviderProtocol) *)
Inductive ProviderProtocol : Type :=
| ClaudeStreamJson | CodexExecJson | CodexAppServerJsonl | CursorStreamJson | CursorAcp
| AntigravityHeadlessText | AntigravityHeadlessStructured.

Global Instance ProviderProtocol_eq_dec : EqDecision ProviderProtocol.
Proof. solve_decision. Defined.

(** crates/harness-core/src/admission/protocol.rs:29-41 (ProviderProtocol::as_str) *)
Definition ProviderProtocol_as_str (p : ProviderProtocol) : string :=
  match p with
  | ClaudeStreamJson => "claude_stream_json"
  | CodexExecJson => "codex_exec_json"
  | CodexAppServerJsonl => "codex_app_server_jsonl"
  | CursorStreamJson => "cursor_stream_json"
  | CursorAcp => "cursor_acp"
  | AntigravityHeadlessText => "antigravity_headless_text"
  | AntigravityHeadlessStructured => "antigravity_headless_structured"
  end.

Definition all_protocols : list ProviderProtocol :=
  [ClaudeStreamJson; CodexExecJson; CodexAppServerJsonl; CursorStreamJson; CursorAcp;
   AntigravityHeadlessText; AntigravityHeadlessStructured].

(** The derived decoder of a unit-variant enum admits exactly its labels. *)
(** crates/harness-core/src/launch_grant/claims.rs:399-403 (protocol_of) *)
Definition protocol_of (label : string) : option ProviderProtocol :=
  List.find (fun p => bool_decide (ProviderProtocol_as_str p = label)) all_protocols.

(** ** Claims *)

(** crates/harness-core/src/launch_grant/claims.rs:45-133 (LaunchGrantClaims) *)
Record LaunchGrantClaims : Type := MkLaunchGrantClaims {
  lg_schema_version : string;
  lg_grant_id : string;
  lg_audience : string;
  lg_operation : string;
  lg_issuer : string;
  lg_key_id : string;
  lg_issued_at_unix_ms : Z;
  lg_not_before_unix_ms : Z;
  lg_expires_at_unix_ms : Z;
  lg_grant_nonce : string;
  lg_mission_id : string;
  lg_repository_id : string;
  lg_graph_revision_id : string;
  lg_work_package_id : string;
  lg_variant_id : string;
  lg_attempt_id : string;
  lg_attempt_fence : Z;
  lg_runner_id : string;
  lg_runner_epoch : Z;
  lg_workspace_id : string;
  lg_workspace_nonce_digest : string;
  lg_authority_epoch : Z;
  lg_freeze_generation : Z;
  lg_provider : string;
  lg_adapter : string;
  lg_provider_profile_id : string;
  lg_model : string;
  lg_credential_generation : Z;
  lg_protocol : string;
  lg_executable_path : string;
  lg_executable_digest : string;
  lg_descriptor_digest : string;
  lg_capability_digest : string;
  lg_policy_snapshot_digest : string;
  lg_policy_generation : Z;
  lg_sandbox_manifest_digest : string;
  lg_environment_digest : string;
  lg_gate_ids : list string;
  lg_budget_reservation_id : string;
  lg_max_invocations : Z;
  lg_max_wall_clock_ms : Z;
  lg_max_cost_micro_usd : Z
}.

Section Shape.
Variable c : LaunchGrantClaims.

(** crates/harness-core/src/launch_grant/claims.rs:186-199 (LaunchGrantClaims::digest_fields) *)
Definition digest_fields : list (string * string) :=
  [("grant_id", lg_grant_id c);
   ("grant_nonce", lg_grant_nonce c);
   ("workspace_nonce_digest", lg_workspace_nonce_digest c);
   ("executable_digest", lg_executable_digest c);
   ("descriptor_digest", lg_descriptor_digest c);
   ("capability_digest", lg_capability_digest c);
   ("policy_snapshot_digest", lg_policy_snapshot_digest c);
   ("sandbox_manifest_digest", lg_sandbox_manifest_digest c);
   ("environment_digest", lg_environment_digest c);
   ("budget_reservation_id", lg_budget_reservation_id c)].

Definition parses (prefix raw : string) : bool := is_ok (id_parse (p:=prefix) raw).

(** crates/harness-core/src/launch_grant/claims.rs:201-233 (LaunchGrantClaims::validate_identities) *)
Definition validate_identities : result HarnessError unit :=
  _ ← for_each (fun '(name, ok) =>
        refuse_if (negb ok) (HeLaunchGrantInvalid (name +:+ " is not a frozen typed id")))
      [("mission_id", parses "mis" (lg_mission_id c));
       ("repository_id", parses "rep" (lg_repository_id c));
       ("graph_revision_id", prefixed_hex "grf_" (lg_graph_revision_id c));
       ("work_package_id", parses "wpk" (lg_work_package_id c));
       ("variant_id", parses "var" (lg_variant_id c));
       ("attempt_id", parses "atm" (lg_attempt_id c));
       ("runner_id", parses "run" (lg_runner_id c));
       ("workspace_id", parses "wsp" (lg_workspace_id c))];
  refuse_if (negb (parses "prf" (lg_provider_profile_id c)))
    (HeLaunchGrantInvalid "provider_profile_id is not a frozen typed id").

Definition executable_path_ok (path : string) : bool :=
  negb (is_empty path
        || bool_decide (MAX_EXECUTABLE_PATH_BYTES < str_len path)
        || negb (starts_with "/" path)
        || any_control path
        || existsb (fun segment => is_empty segment || bool_decide (segment = ".")
                                   || bool_decide (segment = ".."))
             (tail (str_split (Ascii.ascii_of_nat 47) path))).

(** crates/harness-core/src/launch_grant/claims.rs:235-260 (LaunchGrantClaims::validate_provider) *)
Definition validate_provider : result HarnessError unit :=
  _ ← refuse_if (negb (bool_decide (lg_provider c ∈ LAUNCH_PROVIDERS)))
        (HeLaunchGrantInvalid "provider is not in the frozen provider set");
  _ ← validate_label "adapter" (lg_adapter c);
  _ ← validate_label "model" (lg_model c);
  _ ← refuse_if (bool_decide (protocol_of (lg_protocol c) = None))
        (HeLaunchGrantInvalid "protocol is not a frozen ProviderProtocol label");
  refuse_if (negb (executable_path_ok (lg_executable_path c)))
    (HeLaunchGrantInvalid
       "executable_path must be a bounded, normalized, absolute, control-free path").

(** crates/harness-core/src/launch_grant/claims.rs:262-295 (LaunchGrantClaims::validate_integers) *)
Definition validate_integers : result HarnessError unit :=
  _ ← for_each (fun '(name, value) => refuse_if (bool_decide (MAX_SAFE_U64 < value))
        (HeLaunchGrantInvalid (name +:+ " exceeds the interoperable integer range")))
      [("attempt_fence", lg_attempt_fence c); ("runner_epoch", lg_runner_epoch c);
       ("authority_epoch", lg_authority_epoch c); ("freeze_generation", lg_freeze_generation c);
       ("credential_generation", lg_credential_generation c);
       ("policy_generation", lg_policy_generation c);
       ("max_invocations", lg_max_invocations c);
       ("max_wall_clock_ms", lg_max_wall_clock_ms c);
       ("max_cost_micro_usd", lg_max_cost_micro_usd c);
       ("issued_at_unix_ms", lg_issued_at_unix_ms c);
       ("not_before_unix_ms", lg_not_before_unix_ms c);
       ("expires_at_unix_ms", lg_expires_at_unix_ms c)];
  for_each (fun '(name, value) => refuse_if (bool_decide (value = 0))
      (HeLaunchGrantInvalid (name +:+ " must be at least 1")))
    [("attempt_fence", lg_attempt_fence c); ("policy_generation", lg_policy_generation c);
     ("max_invocations", lg_max_invocations c); ("max_wall_clock_ms", lg_max_wall_clock_ms c)].

(** crates/harness-core/src/launch_grant/claims.rs:297-308 (LaunchGrantClaims::validate_gates) *)
Definition validate_gates : result HarnessError unit :=
  _ ← refuse_if (bool_decide (lg_gate_ids c = [])
                 || bool_decide (MAX_GRANT_GATE_IDS < length (lg_gate_ids c))%nat)
        (HeLaunchGrantInvalid "gate_ids must contain 1..=16 entries");
  refuse_if (negb (bool_decide (NoDup (lg_gate_ids c)))
             || existsb (fun gate => negb (prefixed_hex "gat_" gate)) (lg_gate_ids c))
    (HeLaunchGrantInvalid "gate_ids must be unique gat_ identifiers").

(** crates/harness-core/src/launch_grant/claims.rs:310-324 (LaunchGrantClaims::validate_window) *)
Definition validate_window : result HarnessError unit :=
  _ ← refuse_if (bool_decide (lg_not_before_unix_ms c < lg_issued_at_unix_ms c)
                 || bool_decide (lg_expires_at_unix_ms c <= lg_not_before_unix_ms c))
        (HeLaunchGrantInvalid "window requires issued_at <= not_before < expires_at");
  let ttl_ms := lg_expires_at_unix_ms c - lg_not_before_unix_ms c in
  refuse_if (bool_decide (MAX_LAUNCH_GRANT_TTL_MS < ttl_ms)) (HeLaunchGrantTtlExceeded ttl_ms).

(** crates/harness-core/src/launch_grant/claims.rs:136-168 (LaunchGrantClaims::validate_shape) *)
Definition validate_shape : result HarnessError unit :=
  _ ← refuse_if (negb (bool_decide (lg_schema_version c = LAUNCH_GRANT_SCHEMA_VERSION)))
        (HeLaunchGrantInvalid "schema_version must be v1alpha1");
  _ ← refuse_if (negb (bool_decide (lg_audience c = LAUNCH_GRANT_AUDIENCE)))
        (HeLaunchGrantAudienceMismatch (printable (lg_audience c)));
  _ ← refuse_if (negb (bool_decide (lg_operation c = LAUNCH_GRANT_OPERATION)))
        (HeLaunchGrantInvalid "operation must be launch-provider");
  _ ← validate_label "issuer" (lg_issuer c);
  _ ← validate_label "key_id" (lg_key_id c);
  _ ← for_each (fun '(name, value) => refuse_if (negb (is_hex_64 value))
        (HeLaunchGrantInvalid (name +:+ " must be 64 lowercase hex characters"))) digest_fields;
  _ ← validate_identities;
  _ ← validate_provider;
  _ ← validate_integers;
  _ ← validate_gates;
  validate_window.
End Shape.

(** crates/harness-core/src/launch_grant/claims.rs:170-174 (LaunchGrantClaims::window) *)
Definition grant_window (c : LaunchGrantClaims) : Z * Z :=
  (lg_not_before_unix_ms c, lg_expires_at_unix_ms c).

(** ** Expectation *)

(** crates/harness-core/src/launch_grant/expectation.rs:13-42 (LeaseBinding) *)
Record LeaseBinding : Type := MkLeaseBinding {
  lb_mission_id : string;
  lb_repository_id : string;
  lb_graph_revision_id : string;
  lb_work_package_id : string;
  lb_variant_id : string;
  lb_attempt_id : string;
  lb_attempt_fence : Z;
  lb_runner_id : string;
  lb_runner_epoch : Z;
  lb_workspace_id : string;
  lb_workspace_nonce_digest : string;
  lb_authority_epoch : Z;
  lb_freeze_generation : Z
}.

(** crates/harness-core/src/launch_grant/expectation.rs:44-71 (ProviderBinding) *)
Record ProviderBinding : Type := MkProviderBinding {
  pb_provider : string;
  pb_adapter : string;
  pb_provider_profile_id : string;
  pb_model : string;
  pb_credential_generation : Z;
  pb_protocol : ProviderProtocol;
  pb_executable_path : string;
  pb_executable_digest : string;
  pb_descriptor_digest : string;
  pb_capability_digest : string;
  pb_sandbox_manifest_digest : string;
  pb_environment_digest : string
}.

(** crates/harness-core/src/launch_grant/expectation.rs:73-82 (PolicyBinding) *)
Record PolicyBinding : Type := MkPolicyBinding {
  pob_policy_snapshot_digest : string;
  pob_policy_generation : Z;
  pob_live_admission_enabled : bool
}.

(** crates/harness-core/src/launch_grant/expectation.rs:84-95 (LaunchGrantExpectation) *)
Record LaunchGrantExpectation : Type := MkLaunchGrantExpectation {
  le_now_unix_ms : Z;
  le_lease : LeaseBinding;
  le_provider : ProviderBinding;
  le_policy : PolicyBinding
}.

(** The first pair that differs is named. *)
Definition no_mismatch {A} `{EqDecision A} (rows : list (string * A * A))
  : result HarnessError unit :=
  for_each (fun '(field, actual, expected) =>
    refuse_if (negb (bool_decide (actual = expected))) (HeLaunchGrantSubjectMismatch field)) rows.

(** crates/harness-core/src/launch_grant/expectation.rs:98-205 (LaunchGrantExpectation::check_subject) *)
Definition check_subject (e : LaunchGrantExpectation) (claims : LaunchGrantClaims)
  : result HarnessError unit :=
  let lease := le_lease e in
  let provider := le_provider e in
  let policy := le_policy e in
  _ ← no_mismatch [
   ("mission_id", lg_mission_id claims, lb_mission_id lease);
   ("repository_id", lg_repository_id claims, lb_repository_id lease);
   ("graph_revision_id", lg_graph_revision_id claims, lb_graph_revision_id lease);
   ("work_package_id", lg_work_package_id claims, lb_work_package_id lease);
   ("variant_id", lg_variant_id claims, lb_variant_id lease);
   ("attempt_id", lg_attempt_id claims, lb_attempt_id lease);
   ("runner_id", lg_runner_id claims, lb_runner_id lease);
   ("workspace_id", lg_workspace_id claims, lb_workspace_id lease);
   ("workspace_nonce_digest", lg_workspace_nonce_digest claims,
    lb_workspace_nonce_digest lease);
   ("provider", lg_provider claims, pb_provider provider);
   ("adapter", lg_adapter claims, pb_adapter provider);
   ("provider_profile_id", lg_provider_profile_id claims, pb_provider_profile_id provider);
   ("model", lg_model claims, pb_model provider);
   ("protocol", lg_protocol claims, ProviderProtocol_as_str (pb_protocol provider));
   ("executable_path", lg_executable_path claims, pb_executable_path provider);
   ("executable_digest", lg_executable_digest claims, pb_executable_digest provider);
   ("descriptor_digest", lg_descriptor_digest claims, pb_descriptor_digest provider);
   ("capability_digest", lg_capability_digest claims, pb_capability_digest provider);
   ("sandbox_manifest_digest", lg_sandbox_manifest_digest claims,
    pb_sandbox_manifest_digest provider);
   ("environment_digest", lg_environment_digest claims, pb_environment_digest provider);
   ("policy_snapshot_digest", lg_policy_snapshot_digest claims,
    pob_policy_snapshot_digest policy)];
  no_mismatch [
   ("attempt_fence", lg_attempt_fence claims, lb_attempt_fence lease);
   ("runner_epoch", lg_runner_epoch claims, lb_runner_epoch lease);
   ("authority_epoch", lg_authority_epoch claims, lb_authority_epoch lease);
   ("freeze_generation", lg_freeze_generation claims, lb_freeze_generation lease);
   ("credential_generation", lg_credential_generation claims, pb_credential_generation provider);
   ("policy_generation", lg_policy_generation claims, pob_policy_generation policy)].

Section BindingDigests.
Context `{Blake3} `{Hex}.

(** crates/harness-core/src/launch_grant/expectation.rs:208-220 (workspace_nonce_digest) *)
Definition workspace_nonce_digest (nonce : array32) : result HarnessError string :=
  if string_all (fun a => bool_decide (byte_val a = 0)) (array32_bytes nonce) then
    launch_invalid "workspace nonce must not be all zero"
  else hash_framed_bytes WORKSPACE_NONCE_DOMAIN (array32_bytes nonce).

Definition environment_entry_bad (name value : string) : bool :=
  is_empty name || bool_decide (256 < str_len name) || bool_decide (32768 < str_len value)
  || string_any (fun a => bool_decide (byte_val a = 61) || bool_decide (byte_val a = 0)) name
  || string_any (fun a => bool_decide (byte_val a = 0)) value.

Fixpoint sort_environment (env : list (string * string)) (sorted : gmap string string)
  : result HarnessError (gmap string string) :=
  match env with
  | [] => Ok sorted
  | (name, value) :: rest =>
      if environment_entry_bad name value || bool_decide (is_Some (sorted !! name)) then
        launch_invalid
          "child environment names must be unique, bounded, and free of '=' and NUL"
      else sort_environment rest (<[name := value]> sorted)
  end.

(** crates/harness-core/src/launch_grant/expectation.rs:222-246 (environment_digest) *)
Definition environment_digest `{Canon (gmap string string)} (env : list (string * string))
  : result HarnessError string :=
  sorted ← sort_environment env ∅;
  hash_canonical ENVIRONMENT_DOMAIN sorted.

(** crates/harness-core/src/launch_grant/expectation.rs:248-261 (policy_snapshot_digest) *)
Definition policy_snapshot_digest (canonical_policy : bytes) : result HarnessError string :=
  if is_empty canonical_policy then launch_invalid "policy snapshot bytes are empty"
  else hash_framed_bytes POLICY_SNAPSHOT_DOMAIN canonical_policy.
End BindingDigests.

(** ** Lemmas *)

Lemma no_mismatch_Ok {A} `{EqDecision A} (rows : list (string * A * A)) u :
  no_mismatch rows = Ok u <-> Forall (fun r => r.1.2 = r.2) rows.
Proof.
  unfold no_mismatch. rewrite for_each_Ok, !Forall_forall.
  split; intros H [[f a] e] Hin; specialize (H _ Hin); simpl in *.
  - apply refuse_if_Ok, negb_false_iff, bool_decide_eq_true in H. done.
  - apply refuse_if_Ok. by rewrite bool_decide_true.
Qed.

(** What the lease half of a claim set says. *)
Definition claims_lease (c : LaunchGrantClaims) : LeaseBinding :=
  MkLeaseBinding (lg_mission_id c) (lg_repository_id c) (lg_graph_revision_id c)
    (lg_work_package_id c) (lg_variant_id c) (lg_attempt_id c) (lg_attempt_fence c)
    (lg_runner_id c) (lg_runner_epoch c) (lg_workspace_id c) (lg_workspace_nonce_digest c)
    (lg_authority_epoch c) (lg_freeze_generation c).

(** A subject check that passes pins every bound claim. *)
Lemma check_subject_Ok e c u :
  check_subject e c = Ok u <->
  claims_lease c = le_lease e /\
  lg_provider c = pb_provider (le_provider e) /\
  lg_adapter c = pb_adapter (le_provider e) /\
  lg_provider_profile_id c = pb_provider_profile_id (le_provider e) /\
  lg_model c = pb_model (le_provider e) /\
  lg_credential_generation c = pb_credential_generation (le_provider e) /\
  lg_protocol c = ProviderProtocol_as_str (pb_protocol (le_provider e)) /\
  lg_executable_path c = pb_executable_path (le_provider e) /\
  lg_executable_digest c = pb_executable_digest (le_provider e) /\
  lg_descriptor_digest c = pb_descriptor_digest (le_provider e) /\
  lg_capability_digest c = pb_capability_digest (le_provider e) /\
  lg_sandbox_manifest_digest c = pb_sandbox_manifest_digest (le_provider e) /\
  lg_environment_digest c = pb_environment_digest (le_provider e) /\
  lg_policy_snapshot_digest c = pob_policy_snapshot_digest (le_policy e) /\
  lg_policy_generation c = pob_policy_generation (le_policy e).
Proof.
  unfold check_subject. cbv zeta. rewrite bind_Ok. split.
  - intros (_ & Hs%no_mismatch_Ok & Hi%no_mismatch_Ok). rewrite !Forall_cons in Hs. rewrite !Forall_cons in Hi. cbn in Hs, Hi. destruct_and!.
    split; [|split_and!; assumption].
    unfold claims_lease. destruct (le_lease e); cbn in *. f_equal; assumption.
  - intros (<- & Hrest). destruct_and!. exists tt.
    split; apply no_mismatch_Ok; rewrite !Forall_cons; cbn; split_and!; first [reflexivity|assumption|constructor].
Qed.
