(* ===== verification/Capability.v ===== *)
(** * Capabilities, protocols and probes

    Models crates/harness-core/src/capability.rs, admission/protocol.rs and
    probe.rs: what a provider build is known to support, the frozen protocol
    of each provider, and the verification of the account identity. *)

From S2P Require Import Prelude External Ids Entities Gates HarnessErrors Canonical LaunchClaims.
From stdpp Require Import options.

(** ** Capabilities *)

(** crates/harness-core/src/capability.rs:8-60 (Capability) *)
Inductive Capability : Type :=
| CapStructuredEvents | CapStructuredOutputSchema | CapNativeResume | CapNativeFork
| CapSessionExport | CapSessionImport | CapTurnInterrupt | CapMidTurnSteering
| CapToolApprovals | CapPlanModeControl | CapUsageEvents | CapQuotaSource
| CapAuthChallenge | CapModelSelection | CapReasoningEffort | CapBrowserControl
| CapImageInput | CapMcp | CapFileReferences | CapContextUsage
| CapNativeCompaction | CapHeadlessMode | CapPtyRequired | CapMultilinePrompt.

Global Instance Capability_eq_dec : EqDecision Capability.
Proof. solve_decision. Defined.

(** crates/harness-core/src/capability.rs:63-89 (Capability::ALL) *)
Definition Capability_ALL : list Capability :=
  [ CapStructuredEvents; CapStructuredOutputSchema; CapNativeResume; CapNativeFork
    ; CapSessionExport; CapSessionImport; CapTurnInterrupt; CapMidTurnSteering
    ; CapToolApprovals; CapPlanModeControl; CapUsageEvents; CapQuotaSource
    ; CapAuthChallenge; CapModelSelection; CapReasoningEffort; CapBrowserControl
    ; CapImageInput; CapMcp; CapFileReferences; CapContextUsage; CapNativeCompaction
    ; CapHeadlessMode; CapPtyRequired; CapMultilinePrompt ].

(** crates/harness-core/src/capability.rs:91-120 (Capability::as_str) *)
Definition Capability_as_str (c : Capability) : string :=
  match c with
  | CapStructuredEvents => "structured_events"
  | CapStructuredOutputSchema => "structured_output_schema"
  | CapNativeResume => "native_resume"
  | CapNativeFork => "native_fork"
  | CapSessionExport => "session_export"
  | CapSessionImport => "session_import"
  | CapTurnInterrupt => "turn_interrupt"
  | CapMidTurnSteering => "mid_turn_steering"
  | CapToolApprovals => "tool_approvals"
  | CapPlanModeControl => "plan_mode_control"
  | CapUsageEvents => "usage_events"
  | CapQuotaSource => "quota_source"
  | CapAuthChallenge => "auth_challenge"
  | CapModelSelection => "model_selection"
  | CapReasoningEffort => "reasoning_effort"
  | CapBrowserControl => "browser_control"
  | CapImageInput => "image_input"
  | CapMcp => "mcp"
  | CapFileReferences => "file_references"
  | CapContextUsage => "context_usage"
  | CapNativeCompaction => "native_compaction"
  | CapHeadlessMode => "headless_mode"
  | CapPtyRequired => "pty_required"
  | CapMultilinePrompt => "multiline_prompt"
  end.

(** crates/harness-core/src/capability.rs:123-137 (CapabilityState) *)
Inductive CapabilityState : Type :=
| CapSupported | CapSupportedWithLimitations | CapExperimental | CapUnsupported | CapUnknown.

Global Instance CapabilityState_eq_dec : EqDecision CapabilityState.
Proof. solve_decision. Defined.

Definition Capability_of_str (s : string) : option Capability :=
  List.find (fun c => bool_decide (Capability_as_str c = s)) Capability_ALL.

Lemma Capability_of_as_str c : Capability_of_str (Capability_as_str c) = Some c.
Proof. by destruct c; vm_compute. Qed.

Global Instance Capability_countable : Countable Capability.
Proof. exact (inj_countable Capability_as_str Capability_of_str Capability_of_as_str). Defined.

(** crates/harness-core/src/capability.rs:139-143 (CapabilityMatrix) *)
Record CapabilityMatrix : Type := MkCapabilityMatrix {
  cm_entries : gmap Capability CapabilityState
}.

(** crates/harness-core/src/capability.rs:146-152 (CapabilityMatrix::default) *)
Definition CapabilityMatrix_new : CapabilityMatrix :=
  MkCapabilityMatrix (list_to_map ((fun cap => (cap, CapUnsupported)) <$> Capability_ALL)).

(** crates/harness-core/src/capability.rs:162-172 (CapabilityMatrix::with, set) *)
Definition matrix_with (m : CapabilityMatrix) (c : Capability) (s : CapabilityState)
  : CapabilityMatrix := MkCapabilityMatrix (<[c := s]> (cm_entries m)).

(** crates/harness-core/src/capability.rs:174-181 (CapabilityMatrix::state) *)
Definition matrix_state (m : CapabilityMatrix) (c : Capability) : CapabilityState :=
  default CapUnknown (cm_entries m !! c).

(** crates/harness-core/src/capability.rs:183-189 (CapabilityMatrix::is_complete) *)
Definition matrix_is_complete (m : CapabilityMatrix) : bool :=
  forallb (fun cap => bool_decide (is_Some (cm_entries m !! cap))) Capability_ALL.

(** crates/harness-core/src/capability.rs:191-216 (CapabilityMatrix::dispatch_allowed) *)
Definition dispatch_allowed (m : CapabilityMatrix) (required : list Capability)
  : result HarnessError unit :=
  for_each (fun capability =>
    match matrix_state m capability with
    | CapUnknown => Err (HeCapabilityUnknown (Capability_as_str capability))
    | CapUnsupported => Err (HeCapabilityUnsupported (Capability_as_str capability))
    | CapSupported | CapSupportedWithLimitations | CapExperimental => Ok tt
    end) required.

(** crates/harness-core/src/capability.rs:224-240 (PromotionStage) *)
Inductive PromotionStage : Type :=
| StDevelopment | StContractPass | StSyntheticCanary | StInternalCanary | StLimited | StGeneral.

Global Instance PromotionStage_eq_dec : EqDecision PromotionStage.
Proof. solve_decision. Defined.

(** crates/harness-core/src/capability.rs:243-254 (PromotionStage::as_str) *)
Definition PromotionStage_as_str (s : PromotionStage) : string :=
  match s with
  | StDevelopment => "DEVELOPMENT"
  | StContractPass => "CONTRACT_PASS"
  | StSyntheticCanary => "SYNTHETIC_CANARY"
  | StInternalCanary => "INTERNAL_CANARY"
  | StLimited => "LIMITED"
  | StGeneral => "GENERAL"
  end.

(** The derived order: the order of declaration. *)
Definition stage_rank (s : PromotionStage) : nat :=
  match s with
  | StDevelopment => 0 | StContractPass => 1 | StSyntheticCanary => 2
  | StInternalCanary => 3 | StLimited => 4 | StGeneral => 5
  end.

(** ** Frozen protocols *)

(** crates/harness-core/src/admission/protocol.rs:120-128 (frozen_provider) *)
Definition frozen_provider (provider : string) : option (string * ProviderProtocol) :=
  if bool_decide (provider = "claude") then Some ("claude", ClaudeStreamJson)
  else if bool_decide (provider = "codex") then Some ("codex", CodexAppServerJsonl)
  else if bool_decide (provider = "cursor") then Some ("cursor", CursorAcp)
  else if bool_decide (provider = "agy") then Some ("agy", AntigravityHeadlessStructured)
  else None.

(** crates/harness-core/src/admission/protocol.rs:130-134 (unknown_provider) *)
Definition unknown_provider (provider : string) : HarnessError :=
  HeAdmissionRefused ("provider " +:+ str_debug provider +:+ " has no frozen V1 protocol").

(** crates/harness-core/src/admission/protocol.rs:43-54 (ProviderProtocol::required_for_wire_provider) *)
Definition required_for_wire_provider (provider : string)
  : result HarnessError ProviderProtocol :=
  ok_or (snd <$> frozen_provider provider) (unknown_provider provider).

(** crates/harness-core/src/admission/protocol.rs:56-73 (ProviderProtocol::wire_provider_from_cli) *)
Definition wire_provider_from_cli (provider : string) : result HarnessError string :=
  let provider := if bool_decide (provider = "antigravity") then "agy" else provider in
  ok_or (fst <$> frozen_provider provider) (unknown_provider provider).

(** crates/harness-core/src/admission/protocol.rs:76-85 (ProtocolRequirement) *)
Record ProtocolRequirement : Type := MkProtocolRequirement {
  pr_provider : string;
  pr_protocol : ProviderProtocol;
  pr_capabilities : list Capability
}.

(** crates/harness-core/src/admission/protocol.rs:87-92 (STRUCTURED) *)
Definition STRUCTURED : list Capability :=
  [CapStructuredEvents; CapStructuredOutputSchema; CapHeadlessMode; CapMultilinePrompt].

(** crates/harness-core/src/admission/protocol.rs:94-98 (STRUCTURED_HEADLESS) *)
Definition STRUCTURED_HEADLESS : list Capability :=
  [CapStructuredOutputSchema; CapHeadlessMode; CapMultilinePrompt].

(** crates/harness-core/src/admission/protocol.rs:100-118 (requirement) *)
Definition requirement (provider : string) : result HarnessError ProtocolRequirement :=
  '(provider, protocol) ← ok_or (frozen_provider provider) (unknown_provider provider);
  let capabilities :=
    if bool_decide (provider = "agy") then STRUCTURED_HEADLESS else STRUCTURED in
  mret (MkProtocolRequirement provider protocol capabilities).

(** ** Probes *)

(** crates/harness-core/src/probe.rs:8-21 (ProfileIdentity) *)
Record ProfileIdentity : Type := MkProfileIdentity {
  pi_provider : string;
  pi_email : option string;
  pi_account_id : option string;
  pi_subscription : option string;
  pi_auth_method : option string
}.

(** crates/harness-core/src/probe.rs:23-30 (ExpectedProfile) *)
Record ExpectedProfile : Type := MkExpectedProfile {
  ep_email : option string;
  ep_account_id_prefix : option string
}.

(** crates/harness-core/src/probe.rs:32-39 (ProfileRef) *)
Record ProfileRef : Type := MkProfileRef {
  pref_profile_id : ProfileId;
  pref_expected : ExpectedProfile
}.

(** crates/harness-core/src/probe.rs:41-48 (ProbeResult) *)
Record ProbeResult : Type := MkProbeResult {
  prb_profile : Observation ProfileIdentity;
  prb_version : string
}.

(** `{:?}` of an optional text. *)
Definition debug_opt_str (o : option string) : string :=
  match o with Some s => "Some(" +:+ str_debug s +:+ ")" | None => "None" end.

(** crates/harness-core/src/probe.rs:51-99 (ProbeResult::verify) *)
Definition ProbeResult_verify (p : ProbeResult) (provider : string) (expected : ExpectedProfile)
  : result HarnessError ProfileIdentity :=
  identity ← match prb_profile p with
             | ObsValue value => Ok value
             | other => Err (HeProfileUnverified provider
                               ("identity observation is " +:+ kind_name other))
             end;
  _ ← refuse_if (bool_decide (ep_email expected = None)
                 && bool_decide (ep_account_id_prefix expected = None))
        (HeProfileUnverified provider "empty expectation; refusing to auto-pass");
  _ ← match ep_email expected with
      | Some email =>
          refuse_if (negb (bool_decide (pi_email identity = Some email)))
            (HeProfileMismatch ("email=" +:+ email)
               ("email=" +:+ debug_opt_str (pi_email identity)))
      | None => Ok tt
      end;
  _ ← match ep_account_id_prefix expected with
      | Some prefix =>
          let matched := match pi_account_id identity with
                         | Some id => starts_with prefix id
                         | None => false
                         end in
          refuse_if (negb matched)
            (HeProfileMismatch ("account_id starts with " +:+ prefix)
               ("account_id=" +:+ debug_opt_str (pi_account_id identity)))
      | None => Ok tt
      end;
  mret identity.

(** ** Properties *)

(** The states a required capability may be in when a turn is dispatched. *)
Definition capability_usable (s : CapabilityState) : bool :=
  match s with
  | CapSupported | CapSupportedWithLimitations | CapExperimental => true
  | CapUnsupported | CapUnknown => false
  end.

Lemma dispatch_allowed_Ok m required u :
  dispatch_allowed m required = Ok u <->
  Forall (fun c => exists s, cm_entries m !! c = Some s /\ capability_usable s = true) required.
Proof.
  unfold dispatch_allowed. rewrite for_each_Ok. apply Forall_proper; [|done]. intros c.
  unfold matrix_state. destruct (cm_entries m !! c) as [[]|] eqn:Hc; cbn; naive_solver.
Qed.

Lemma matrix_new_unsupported c : matrix_state CapabilityMatrix_new c = CapUnsupported.
Proof. by destruct c; vm_compute. Qed.

Lemma matrix_new_complete : matrix_is_complete CapabilityMatrix_new = true.
Proof. by vm_compute. Qed.

(** A new matrix dispatches nothing that requires a capability. *)
Lemma matrix_new_refuses c required :
  dispatch_allowed CapabilityMatrix_new (c :: required)
  = Err (HeCapabilityUnsupported (Capability_as_str c)).
Proof. unfold dispatch_allowed. cbn [for_each]. by rewrite matrix_new_unsupported. Qed.

Lemma matrix_with_state m c s c' :
  matrix_state (matrix_with m c s) c' = if decide (c = c') then s else matrix_state m c'.
Proof.
  unfold matrix_state. cbn. destruct (decide (c = c')) as [->|Hne].
  - by rewrite lookup_insert_eq.
  - by rewrite lookup_insert_ne.
Qed.

(** Every frozen provider is its own wire name, and they have distinct
    protocols. *)
Lemma frozen_provider_Some p w q : frozen_provider p = Some (w, q) -> w = p /\ p ∈ LAUNCH_PROVIDERS.
Proof.
  unfold frozen_provider. repeat case_bool_decide; intros; simplify_eq; split; try done;
    apply (bool_decide_unpack _); vm_compute; exact I.
Qed.

Lemma requirement_Ok p r :
  requirement p = Ok r ->
  pr_provider r = p /\ frozen_provider p = Some (p, pr_protocol r)
  /\ CapStructuredOutputSchema ∈ pr_capabilities r.
Proof.
  unfold requirement. intros H. inv_result. destruct x as [w q]. inv_result.
  match goal with Hf : frozen_provider p = Some _ |- _ =>
    destruct (frozen_provider_Some _ _ _ Hf) as [-> _] end.
  split_and!; cbn; [done|done|]. by case_bool_decide; repeat constructor.
Qed.

(** A verified identity matches every criterion of an expectation that has
    at least one. *)
Lemma ProbeResult_verify_Ok p provider e i :
  ProbeResult_verify p provider e = Ok i <->
  prb_profile p = ObsValue i
  /\ (is_Some (ep_email e) \/ is_Some (ep_account_id_prefix e))
  /\ (forall m, ep_email e = Some m -> pi_email i = Some m)
  /\ (forall x, ep_account_id_prefix e = Some x ->
        exists id, pi_account_id i = Some id /\ starts_with x id = true).
Proof.
  unfold ProbeResult_verify. split.
  - intros H. destruct (prb_profile p) as [i'| | |]; [|done..].
    destruct e as [[m|] [x|]]; cbn [ep_email ep_account_id_prefix] in *; case_result;
      try destruct (pi_account_id i); naive_solver.
  - intros (-> & Hsome & Hm & Hx). destruct e as [[m|] [x|]]; cbn in *;
      try destruct (Hx x eq_refl) as (id & -> & ->); try rewrite (Hm m eq_refl);
      rewrite ?bool_decide_true; cbn; try done. destruct Hsome as [[]|[]]; done.
Qed.
