(* ===== verification/Submissions.v ===== *)
(** * Command payloads

    Models the payloads that a command may carry: the historical coding
    request of crates/application/src/run_coding.rs, the task request of
    coding_tasks.rs and coding_tasks/validation.rs, and the human message of
    conversations.rs. Decoding is [serde_json]'s, through [Json]; the
    validation that follows it is the repository's. *)

From S2P Require Import Prelude External Ids States Entities Gates Text.
From stdpp Require Import options.

Local Open Scope Z_scope.

(** [serde_json::Value]: parsing, and lookup of a member. *)
Class JsonValue := {
  Value : Type;
  value_from_str : string -> result string Value;
  value_get : Value -> string -> option Value
}.

Definition MAX_CODING_QUOTA_UNITS : Z := 1000000.
Definition MAX_CODING_SAFE_INTEGER : Z := 9007199254740991.
Definition MAX_MESSAGE_SEQUENCE : Z := 9007199254740991.
Definition MAX_MESSAGE_BYTES : Z := 32768.
Definition RUN_CODING_KIND : string := "run_coding".
Definition RUN_DEMO_KIND : string := "run_demo".
Definition RUN_CODING_TASK_SCHEMA : string := "bullet.run-coding.v2".
Definition CONVERSATION_MESSAGE_KIND : string := "conversation_message".
Definition CONVERSATION_MESSAGE_SCHEMA : string := "bullet.conversation-message.v1".

(** ** Historical coding requests *)

(** crates/application/src/run_coding.rs:19-31 (CodingProvider) *)
Inductive CodingProvider : Type := Claude | Codex | Cursor | Antigravity.

(** crates/application/src/run_coding.rs:34-43 (CodingProvider::as_str) *)
Definition CodingProvider_as_str (p : CodingProvider) : string :=
  match p with
  | Claude => "claude"
  | Codex => "codex"
  | Cursor => "cursor"
  | Antigravity => "antigravity"
  end.

(** crates/application/src/run_coding.rs:46-69 (RunCodingPayload) *)
Record RunCodingPayload : Type := MkRunCodingPayload {
  rc_account_id : string;
  rc_provider : CodingProvider;
  rc_model : string;
  rc_effort : option string;
  rc_expected_revision : Z;
  rc_launch_nonce : string;
  rc_quota_reservation : string;
  rc_quota_units : Z;
  rc_allocated_run : string
}.

Definition validate_effort (effort : option string) : result DomainError unit :=
  match effort with
  | Some effort => validate_token "effort" effort 32
  | None => Ok tt
  end.

(** crates/application/src/run_coding.rs:84-109 (RunCodingPayload::validate) *)
Definition RunCodingPayload_validate (p : RunCodingPayload) : result DomainError unit :=
  _ ← validate_token "account_id" (rc_account_id p) 64;
  _ ← validate_token "model" (rc_model p) 128;
  _ ← validate_effort (rc_effort p);
  _ ← refuse_if (bool_decide (rc_expected_revision p = 0))
        (EncodingError "expected_revision must be a positive authority epoch");
  _ ← validate_hex_64 "launch_nonce" (rc_launch_nonce p);
  _ ← validate_reservation_id (rc_quota_reservation p);
  _ ← refuse_if (bool_decide (rc_quota_units p = 0)
                 || bool_decide (MAX_CODING_QUOTA_UNITS < rc_quota_units p))
        (EncodingError ("quota_units must be 1..=" +:+ pretty MAX_CODING_QUOTA_UNITS));
  _ ← id_parse (p:="run") (rc_allocated_run p);
  mret tt.

Section Parse.
Context `{Json RunCodingPayload}.

(** crates/application/src/run_coding.rs:72-82 (RunCodingPayload::parse) *)
Definition RunCodingPayload_parse (payload : string) : result DomainError RunCodingPayload :=
  value ← map_err (fun e => EncodingError ("run_coding payload: " +:+ e)) (of_json payload);
  _ ← RunCodingPayload_validate value;
  mret value.
End Parse.

(** ** Task requests *)

(** crates/application/src/coding_tasks.rs:19-27 (CodingTaskBudget) *)
Record CodingTaskBudget : Type := MkCodingTaskBudget {
  ctb_max_invocations : Z;
  ctb_max_cost_microusd : Z
}.

(** crates/application/src/coding_tasks.rs:29-53 (CodingTaskContract) *)
Record CodingTaskContract : Type := MkCodingTaskContract {
  ct_title : string;
  ct_objective : string;
  ct_repository_id : string;
  ct_base_commit : string;
  ct_scope_paths : list string;
  ct_acceptance_criteria : list string;
  ct_gate_ids : list string;
  ct_dependencies : list string;
  ct_budget : CodingTaskBudget;
  ct_deadline_unix_ms : Z
}.

(** crates/application/src/coding_tasks.rs:55-68 (CodingRuntimeSelection) *)
Record CodingRuntimeSelection : Type := MkCodingRuntimeSelection {
  cs_account_id : string;
  cs_provider : CodingProvider;
  cs_model : string;
  cs_effort : option string
}.

(** crates/application/src/coding_tasks.rs:70-80 (RunCodingTaskPayload) *)
Record RunCodingTaskPayload : Type := MkRunCodingTaskPayload {
  rct_schema_version : string;
  rct_task : CodingTaskContract;
  rct_selection : CodingRuntimeSelection
}.

(** crates/application/src/coding_tasks.rs:239-241 (encoding) *)
Definition task_encoding (error : string) : DomainError :=
  EncodingError ("CODING_TASK_INVALID: " +:+ error).

(** crates/application/src/coding_tasks.rs:169-183 (validate_coding_subject) *)
Definition validate_coding_subject (value prefix : string) : result DomainError unit :=
  if match strip_prefix prefix value with Some body => is_hex_64 body | None => false end
  then Ok tt
  else Err (InvalidId ("expected a complete " +:+ prefix +:+ " subject")).

(** crates/application/src/coding_tasks/validation.rs:70-82 (text) *)
Definition task_text (field value : string) (maximum : Z) (multiline : bool)
  : result DomainError unit :=
  if str_is_blank value || bool_decide (maximum < str_len value)
     || (if multiline then any_control_multiline value else any_control value)
  then Err (task_encoding
    (field +:+ " must contain 1..=" +:+ pretty maximum +:+ " admitted UTF-8 bytes"))
  else Ok tt.

(** crates/application/src/coding_tasks/validation.rs:84-98 (strings) *)
Definition task_strings (field : string) (values : list string) (minimum maximum : Z)
  : result DomainError unit :=
  if negb (bool_decide (minimum <= Z.of_nat (length values) <= maximum))
     || negb (bool_decide (NoDup values))
  then Err (task_encoding
    (field +:+ " must contain " +:+ pretty minimum +:+ "..=" +:+ pretty maximum
     +:+ " unique entries"))
  else Ok tt.

Definition slash : Ascii.ascii := Ascii.ascii_of_nat 47.
Definition backslash : Ascii.ascii := Ascii.ascii_of_nat 92.

(** A part of a path that may not appear in a scope. *)
Definition forbidden_part (part : string) : bool :=
  is_empty part || bool_decide (part = ".") || bool_decide (part = "..")
  || eq_ignore_ascii_case part ".git".

(** crates/application/src/coding_tasks/validation.rs:34-46 (task scope_paths loop) *)
Definition validate_scope_path (path : string) : result DomainError unit :=
  _ ← task_text "scope path" path 512 false;
  refuse_if (starts_with "/" path || str_contains_char backslash path
             || existsb forbidden_part (str_split slash path))
    (task_encoding "scope paths must be normalized and repository-relative").

(** crates/application/src/coding_tasks/validation.rs:19-68 (task) *)
Definition validate_task (t : CodingTaskContract) : result DomainError unit :=
  _ ← task_text "title" (ct_title t) 240 false;
  _ ← task_text "objective" (ct_objective t) 8192 true;
  _ ← id_parse (p:="rep") (ct_repository_id t);
  _ ← refuse_if (negb (bool_decide (str_len (ct_base_commit t) = 40)
                       || bool_decide (str_len (ct_base_commit t) = 64))
                 || negb (string_all is_lower_hex (ct_base_commit t)))
        (task_encoding "base_commit must be an exact lowercase Git object id");
  _ ← task_strings "scope_paths" (ct_scope_paths t) 1 128;
  _ ← for_each validate_scope_path (ct_scope_paths t);
  _ ← task_strings "acceptance_criteria" (ct_acceptance_criteria t) 1 32;
  _ ← for_each (fun c => task_text "acceptance criterion" c 1024 true)
        (ct_acceptance_criteria t);
  _ ← task_strings "gate_ids" (ct_gate_ids t) 1 16;
  _ ← for_each (fun g => _ ← GateId_parse g; mret tt) (ct_gate_ids t);
  _ ← task_strings "dependencies" (ct_dependencies t) 0 64;
  _ ← for_each (fun d => validate_coding_subject d "ctr_") (ct_dependencies t);
  refuse_if (negb (bool_decide (1 <= ctb_max_invocations (ct_budget t) <= 16))
             || negb (bool_decide (1 <= ctb_max_cost_microusd (ct_budget t) <= 1000000000))
             || negb (bool_decide (1 <= ct_deadline_unix_ms t <= MAX_CODING_SAFE_INTEGER)))
    (task_encoding "budget or deadline is outside the supported range").

(** crates/application/src/coding_tasks/validation.rs:5-17 (payload) *)
Definition validate_task_payload (v : RunCodingTaskPayload) : result DomainError unit :=
  _ ← refuse_if (negb (bool_decide (rct_schema_version v = RUN_CODING_TASK_SCHEMA)))
        (task_encoding "unsupported task schema version");
  _ ← validate_task (rct_task v);
  _ ← validate_token "account_id" (cs_account_id (rct_selection v)) 64;
  _ ← validate_token "model" (cs_model (rct_selection v)) 128;
  validate_effort (cs_effort (rct_selection v)).

(** crates/application/src/coding_tasks.rs:96-103 (CodingSubmission) *)
Inductive CodingSubmission : Type :=
| LegacySubmission (p : RunCodingPayload)
| TaskSubmission (p : RunCodingTaskPayload).

Section TaskParse.
Context `{JsonValue} `{Json RunCodingPayload} `{Json RunCodingTaskPayload}
  `{Json CodingTaskContract} `{Blake3} `{Hex}.

(** crates/application/src/coding_tasks.rs:83-88 (RunCodingTaskPayload::parse) *)
Definition RunCodingTaskPayload_parse (payload : string)
  : result DomainError RunCodingTaskPayload :=
  value ← map_err task_encoding (of_json payload);
  _ ← validate_task_payload value;
  mret value.

(** crates/application/src/coding_tasks.rs:106-114 (CodingSubmission::parse) *)
Definition CodingSubmission_parse (payload : string) : result DomainError CodingSubmission :=
  shape ← map_err task_encoding (value_from_str payload);
  if bool_decide (is_Some (value_get shape "schema_version")) then
    p ← RunCodingTaskPayload_parse payload; mret (TaskSubmission p)
  else
    p ← RunCodingPayload_parse payload; mret (LegacySubmission p).


(** crates/application/src/coding_tasks.rs:118-122 (CodingTaskContract::canonical_json) *)
Definition task_canonical_json (t : CodingTaskContract) : result DomainError string :=
  _ ← validate_task t;
  map_err task_encoding (to_json t).

(** crates/application/src/coding_tasks.rs:124-130 (CodingTaskContract::revision_id) *)
Definition task_revision_id (t : CodingTaskContract) (operator : string)
  : result DomainError string :=
  _ ← validate_coding_subject operator "opr_";
  body ← task_canonical_json t;
  let seed := "bullet.coding-task-revision.v1" +:+ nul +:+ operator +:+ nul +:+ body in
  mret ("ctr_" +:+ to_hex (Digest_of seed)).

(** crates/application/src/coding_tasks.rs:133-138 (coding_run_id) *)
Definition coding_run_id (command : CommandId) : string :=
  let seed := "bullet.coding-run.v1" +:+ nul +:+ id_as_str command in
  "crn_" +:+ to_hex (Digest_of seed).
End TaskParse.

(** ** Human messages *)

(** crates/application/src/conversations.rs:28-38 (ConversationCursor) *)
Record ConversationCursor : Type := MkConversationCursor {
  cur_conversation_id : string;
  cur_message_id : string;
  cur_sequence : Z
}.

(** crates/application/src/conversations.rs:52-63 (ConversationMessagePayload) *)
Record ConversationMessagePayload : Type := MkConversationMessagePayload {
  cmp_schema_version : string;
  cmp_cursor : option ConversationCursor;
  cmp_content : string
}.

(** crates/application/src/conversations.rs:126-128 (invalid) *)
Definition conv_invalid (error : string) : DomainError :=
  EncodingError ("CONVERSATION_MESSAGE_INVALID: " +:+ error).

(** crates/application/src/conversations.rs:41-49 (ConversationCursor::validate) *)
Definition ConversationCursor_validate (c : ConversationCursor) : result DomainError unit :=
  _ ← validate_coding_subject (cur_conversation_id c) "cnv_";
  _ ← validate_coding_subject (cur_message_id c) "msg_";
  refuse_if (negb (bool_decide (1 <= cur_sequence c <= MAX_MESSAGE_SEQUENCE)))
    (conv_invalid "cursor sequence is outside the supported range").

(** crates/application/src/conversations.rs:92-105 (validate_content) *)
Definition validate_content (content : string) : result DomainError unit :=
  refuse_if (str_is_blank content || bool_decide (MAX_MESSAGE_BYTES < str_len content)
             || any_control_multiline content)
    (conv_invalid "content must contain 1..=32768 UTF-8 bytes with only LF/TAB controls").

(** crates/application/src/conversations.rs:73-83 (ConversationMessagePayload::validate) *)
Definition ConversationMessagePayload_validate (p : ConversationMessagePayload)
  : result DomainError unit :=
  _ ← refuse_if (negb (bool_decide (cmp_schema_version p = CONVERSATION_MESSAGE_SCHEMA)))
        (conv_invalid "unsupported conversation message schema");
  _ ← validate_content (cmp_content p);
  match cmp_cursor p with
  | Some cursor => ConversationCursor_validate cursor
  | None => Ok tt
  end.

Section ConversationParse.
Context `{Json ConversationMessagePayload} `{Blake3} `{Hex}.

(** crates/application/src/conversations.rs:66-71 (ConversationMessagePayload::parse) *)
Definition ConversationMessagePayload_parse (payload : string)
  : result DomainError ConversationMessagePayload :=
  value ← map_err conv_invalid (of_json payload);
  _ ← ConversationMessagePayload_validate value;
  mret value.

(** crates/application/src/conversations.rs:85-89 (ConversationMessagePayload::canonical_json) *)
Definition conversation_canonical_json (p : ConversationMessagePayload)
  : result DomainError string :=
  _ ← ConversationMessagePayload_validate p;
  map_err conv_invalid (to_json p).

(** crates/application/src/conversations.rs:107-112 (conversation_id) *)
Definition conversation_id (operator : string) (command : CommandId)
  : result DomainError string :=
  _ ← validate_coding_subject operator "opr_";
  let seed := "bullet.conversation.v1" +:+ nul +:+ operator +:+ nul +:+ id_as_str command in
  mret ("cnv_" +:+ to_hex (Digest_of seed)).

(** crates/application/src/conversations.rs:114-119 (message_id) *)
Definition message_id (command : CommandId) : string :=
  let seed := "bullet.conversation-message.v1" +:+ nul +:+ id_as_str command in
  "msg_" +:+ to_hex (Digest_of seed).
End ConversationParse.

(** ** What an admitted task guarantees *)

(** A path inside the repository: its parts name no parent, no empty
    directory, nothing under `.git`, and it has no backslash. *)
Definition repository_relative (path : string) : Prop :=
  Forall (fun part => forbidden_part part = false) (str_split slash path) /\
  no_char backslash path = true.

Lemma str_contains_char_no_char c s : str_contains_char c s = false <-> no_char c s = true.
Proof.
  unfold str_contains_char, no_char. induction s as [|a s IH]; simpl; [done|].
  rewrite orb_false_iff, andb_true_iff, negb_true_iff, IH. done.
Qed.

Lemma existsb_Forall_false {A} (f : A -> bool) l :
  existsb f l = false <-> Forall (fun x => f x = false) l.
Proof.
  induction l as [|x l IH]; simpl; [by split; [constructor|]|].
  by rewrite orb_false_iff, Forall_cons, IH.
Qed.

Lemma validate_scope_path_Ok path :
  validate_scope_path path = Ok tt -> repository_relative path.
Proof.
  unfold validate_scope_path, repository_relative. intros H. inv_result.
  split; [by apply existsb_Forall_false|by apply str_contains_char_no_char].
Qed.

Lemma RunCodingPayload_validate_Ok p u :
  RunCodingPayload_validate p = Ok u ->
  rc_expected_revision p <> 0 /\ is_hex_64 (rc_launch_nonce p) = true /\
  id_wire_form "rsv" (rc_quota_reservation p) /\
  rc_quota_units p <> 0 /\ rc_quota_units p <= MAX_CODING_QUOTA_UNITS /\
  id_wire_form "run" (rc_allocated_run p).
Proof.
  unfold RunCodingPayload_validate. intros H. inv_result.
  repeat match goal with
  | Hx : validate_hex_64 _ _ = Ok _ |- _ => apply validate_hex_64_Ok in Hx
  | Hx : validate_reservation_id _ = Ok _ |- _ => apply validate_reservation_id_Ok in Hx
  | Hx : id_parse _ = Ok _ |- _ => apply id_parse_Ok in Hx as [? Hx]
  end.
  repeat (split; [done||lia|]). done.
Qed.
