(* ===== verification/Commands.v ===== *)
(** * Durable commands

    Models crates/application/src/commands.rs: requests, their identity and
    digest, stored records, exact replay, and the only disposition that the
    offline worker may give to a command. *)

From S2P Require Import Prelude External Ids States Entities Framing Text Submissions.
From stdpp Require Import options.

Local Open Scope Z_scope.

Definition COMMAND_DIGEST_DOMAIN : string := "bullet-kernel.command-request.v1".
Definition MAX_COMMAND_KEY_BYTES : Z := 256.
Definition MAX_COMMAND_KIND_BYTES : Z := 64.
Definition MAX_COMMAND_JSON_BYTES : Z := 1024 * 1024.
Definition COMMAND_RECONCILED_EVENT : string := "command_reconciled".

(** crates/application/src/commands.rs:16-26 (CommandRequest) *)
Record CommandRequest : Type := MkCommandRequest {
  CommandRequest_idempotency_key : string;
  CommandRequest_kind : string;
  CommandRequest_payload : string
}.

(** crates/application/src/commands.rs:28-46 (CommandRecord) *)
Record CommandRecord : Type := MkCommandRecord {
  CommandRecord_id : CommandId;
  CommandRecord_idempotency_key : string;
  CommandRecord_kind : string;
  CommandRecord_payload : string;
  CommandRecord_payload_digest : Digest;
  CommandRecord_phase : CommandPhase;
  CommandRecord_response : option string
}.

(** crates/application/src/commands.rs:48-55 (OfflineCommandResolution) *)
Record OfflineCommandResolution : Type := MkOfflineCommandResolution {
  resolution_phase : CommandPhase;
  resolution_response : string
}.

(** The members of the JSON object of a resolution. *)
Record ResolutionBody : Type := MkResolutionBody {
  rb_command_id : CommandId;
  rb_payload_digest : string;
  rb_code : string;
  rb_detail : string;
  rb_repair : string
}.

Global Instance CommandRequest_eq_dec : EqDecision CommandRequest.
Proof. solve_decision. Defined.
Global Instance CommandRecord_eq_dec : EqDecision CommandRecord.
Proof. solve_decision. Defined.

(** What the commands use of other crates. *)
Class CommandExt := {
  cx_blake3 :: Blake3;
  cx_hex :: Hex;
  cx_value :: JsonValue;
  cx_run_coding :: Json RunCodingPayload;
  cx_task :: Json RunCodingTaskPayload;
  cx_message :: Json ConversationMessagePayload;
  cx_request :: Json CommandRequest;
  cx_resolution :: Json ResolutionBody
}.

(** crates/application/src/run_coding.rs:134-138 (is_supported_dispatch_kind) *)
Definition is_supported_dispatch_kind (kind : string) : bool :=
  bool_decide (kind = RUN_DEMO_KIND) || bool_decide (kind = RUN_CODING_KIND).

Section Commands.
Context `{CommandExt}.

(** crates/application/src/commands.rs:282-291 (validate_json) *)
Definition validate_json (field value : string) : result DomainError unit :=
  if is_empty value || bool_decide (MAX_COMMAND_JSON_BYTES < str_len value) then
    Err (EncodingError (field +:+ " must contain 1..=" +:+ pretty MAX_COMMAND_JSON_BYTES
                        +:+ " bytes"))
  else
    _ ← map_err (fun e => EncodingError (field +:+ ": " +:+ e)) (value_from_str value);
    mret tt.

(** crates/application/src/commands.rs:147-169 (CommandRequest::validate) *)
Definition CommandRequest_validate (r : CommandRequest) : result DomainError unit :=
  _ ← validate_text "idempotency key" (CommandRequest_idempotency_key r)
        MAX_COMMAND_KEY_BYTES false;
  _ ← validate_text "command kind" (CommandRequest_kind r) MAX_COMMAND_KIND_BYTES true;
  _ ← validate_json "command payload" (CommandRequest_payload r);
  _ ← (if bool_decide (CommandRequest_kind r = RUN_CODING_KIND) then
         _ ← CodingSubmission_parse (CommandRequest_payload r); mret tt
       else mret tt);
  (if bool_decide (CommandRequest_kind r = CONVERSATION_MESSAGE_KIND) then
     _ ← ConversationMessagePayload_parse (CommandRequest_payload r); mret tt
   else mret tt).

(** crates/application/src/commands.rs:73-90 (CommandRequest::from_json) *)
Definition CommandRequest_from_json (key kind payload : string)
  : result DomainError CommandRequest :=
  let request := MkCommandRequest key kind payload in
  _ ← CommandRequest_validate request;
  mret request.

(** crates/application/src/commands.rs:58-71 (CommandRequest::new) *)
Definition CommandRequest_new {A} `{Json A} (key kind : string) (payload : A)
  : result DomainError CommandRequest :=
  payload ← map_err EncodingError (to_json payload);
  CommandRequest_from_json key kind payload.

(** The three frames that the digest hashes; [frame] of commands.rs writes
    the same bytes as [Framing.frame]. *)
Definition command_preimage (r : CommandRequest) : bytes :=
  frame COMMAND_DIGEST_DOMAIN +:+ frame (CommandRequest_kind r)
  +:+ frame (CommandRequest_payload r).

(** crates/application/src/commands.rs:92-102 (CommandRequest::digest) *)
Definition CommandRequest_digest (r : CommandRequest) : Digest :=
  Digest_of (command_preimage r).

(** crates/application/src/commands.rs:104-109 (CommandRequest::id) *)
Definition CommandRequest_id (r : CommandRequest) : CommandId :=
  id_from_seed (CommandRequest_idempotency_key r).

Definition record_request (r : CommandRecord) : CommandRequest :=
  MkCommandRequest (CommandRecord_idempotency_key r) (CommandRecord_kind r)
    (CommandRecord_payload r).

(** crates/application/src/commands.rs:237-254 (CommandRecord::validate result shape) *)
Definition validate_result_shape (phase : CommandPhase) (response : option string)
  : result DomainError unit :=
  match phase, response with
  | PhasePending, Some _ => Err (EncodingError "pending command has a stored result")
  | (PhaseApplied | PhaseVerified | PhaseFailed), None =>
      Err (EncodingError (CommandPhase_as_str phase +:+ " command has no stored result"))
  | _, Some response => validate_json "command result" response
  | _, None => Ok tt
  end.

(** crates/application/src/commands.rs:218-256 (CommandRecord::validate) *)
Definition CommandRecord_validate (r : CommandRecord) : result DomainError unit :=
  let request := record_request r in
  _ ← CommandRequest_validate request;
  _ ← refuse_if (negb (bool_decide (CommandRecord_id r = CommandRequest_id request)))
        (EncodingError "command id does not match its idempotency key");
  _ ← refuse_if (negb (bool_decide (CommandRecord_payload_digest r
                                    = CommandRequest_digest request)))
        (EncodingError "command request digest does not match its kind and payload");
  validate_result_shape (CommandRecord_phase r) (CommandRecord_response r).

(** crates/application/src/commands.rs:171-188 (CommandRequest::matches) *)
Definition CommandRequest_matches (r : CommandRequest) (record : CommandRecord)
  : result DomainError unit :=
  _ ← CommandRequest_validate r;
  _ ← CommandRecord_validate record;
  refuse_if
    (negb (bool_decide (CommandRecord_id record = CommandRequest_id r))
     || negb (bool_decide (CommandRecord_idempotency_key record
                           = CommandRequest_idempotency_key r))
     || negb (bool_decide (CommandRecord_kind record = CommandRequest_kind r))
     || negb (bool_decide (CommandRecord_payload record = CommandRequest_payload r))
     || negb (bool_decide (CommandRecord_payload_digest record = CommandRequest_digest r)))
    (IdempotencyError (CommandRequest_idempotency_key r)).

(** crates/application/src/commands.rs:111-145 (CommandRequest::offline_worker_resolution) *)
Definition offline_worker_resolution (r : CommandRequest)
  : result DomainError OfflineCommandResolution :=
  _ ← CommandRequest_validate r;
  let '(phase, code, detail, repair) :=
    if is_supported_dispatch_kind (CommandRequest_kind r) then
      (PhaseUnknown, "EXECUTION_ADAPTER_UNAVAILABLE",
       "No admitted execution and read-back adapter is connected to this worker.",
       "Configure the authenticated runner, verifier, and effect adapter, then submit a new command key.")
    else
      (PhaseFailed, "UNSUPPORTED_COMMAND_KIND",
       "The internal worker has no admitted handler for this command kind.",
       "Use a command kind published by the running Kernel contract.") in
  response ← map_err EncodingError (to_json
    (MkResolutionBody (CommandRequest_id r) (to_hex (CommandRequest_digest r))
       code detail repair));
  mret (MkOfflineCommandResolution phase response).

(** crates/application/src/commands.rs:204-214 (OfflineCommandResolution::resolved_record) *)
Definition resolved_record (s : OfflineCommandResolution) (r : CommandRecord)
  : result DomainError CommandRecord :=
  let r := MkCommandRecord (CommandRecord_id r) (CommandRecord_idempotency_key r)
             (CommandRecord_kind r) (CommandRecord_payload r)
             (CommandRecord_payload_digest r) (resolution_phase s)
             (Some (resolution_response s)) in
  _ ← CommandRecord_validate r;
  mret r.

(** ** Lemmas *)

Lemma validate_text_length field v m t u :
  validate_text field v m t = Ok u -> v <> EmptyString /\ str_len v <= m.
Proof.
  unfold validate_text, bounded_text. intros Hv. case_result.
  split; [by intros ->|lia].
Qed.

Lemma validate_json_length field v u :
  validate_json field v = Ok u -> str_len v <= MAX_COMMAND_JSON_BYTES.
Proof. unfold validate_json. intros Hv. case_result. lia. Qed.

Lemma validate_json_Ok field v u :
  validate_json field v = Ok u ->
  v <> EmptyString /\ str_len v <= MAX_COMMAND_JSON_BYTES /\ is_ok (value_from_str v) = true.
Proof.
  unfold validate_json. intros Hv. case_result.
  match goal with Hx : value_from_str v = Ok _ |- _ => rewrite Hx end.
  split; [by intros ->|]. split; [lia|done].
Qed.

Lemma CommandRequest_validate_bounds r u :
  CommandRequest_validate r = Ok u ->
  str_len (CommandRequest_idempotency_key r) <= 256 /\
  str_len (CommandRequest_kind r) <= 64 /\
  str_len (CommandRequest_payload r) <= 1048576.
Proof.
  unfold CommandRequest_validate. intros Hr. inv_result.
  repeat match goal with
  | Hx : validate_text _ _ _ _ = Ok _ |- _ => apply validate_text_length in Hx as [_ ?]
  | Hx : validate_json _ _ = Ok _ |- _ => apply validate_json_length in Hx
  end.
  unfold MAX_COMMAND_KEY_BYTES, MAX_COMMAND_KIND_BYTES, MAX_COMMAND_JSON_BYTES in *. lia.
Qed.

Lemma CommandRequest_matches_Ok r record u :
  CommandRequest_matches r record = Ok u ->
  CommandRecord_validate record = Ok tt /\ record_request record = r.
Proof.
  unfold CommandRequest_matches. intros Hm. inv_result.
  split; [by match goal with x : unit |- _ => destruct x end|].
  destruct r; unfold record_request; simpl in *. congruence.
Qed.

(** A valid record of a request always matches that request again. *)
Lemma CommandRecord_validate_matches record u :
  CommandRecord_validate record = Ok u ->
  CommandRequest_matches (record_request record) record = Ok tt.
Proof.
  intros Hv. unfold CommandRequest_matches. rewrite Hv.
  unfold CommandRecord_validate in Hv. inv_result.
  match goal with Hx : CommandRequest_validate _ = Ok _ |- _ => rewrite Hx end.
  unfold record_request in *. run_result. simpl.
  rewrite !bool_decide_true by done. done.
Qed.

Lemma command_digest_inj r1 r2 :
  fits (CommandRequest_kind r1) -> fits (CommandRequest_kind r2) ->
  fits (CommandRequest_payload r1) -> fits (CommandRequest_payload r2) ->
  CommandRequest_digest r1 = CommandRequest_digest r2 ->
  (CommandRequest_kind r1 = CommandRequest_kind r2 /\
   CommandRequest_payload r1 = CommandRequest_payload r2) \/
  exists x y, x <> y /\ blake3_hash x = blake3_hash y.
Proof.
  intros Hk1 Hk2 Hp1 Hp2 Hd. unfold CommandRequest_digest, Digest_of in Hd.
  injection Hd as Hd.
  destruct (decide (command_preimage r1 = command_preimage r2)) as [Heq|Hne];
    [left|right; eauto].
  unfold command_preimage in Heq.
  apply (inj (String.append _)) in Heq.
  apply frame_app_inj in Heq as [-> Heq]; [|done|done].
  apply frame_inj in Heq; done.
Qed.
End Commands.
