(* ===== verification/NonceLedger.v ===== *)
(** * Single-use nonces

    Models crates/application/src/nonce_ledger.rs: the port that keeps
    issuing and consuming apart, as a class, and the process-local
    implementation, as an instance of it. *)

From S2P Require Import Prelude External Ids Text.
From stdpp Require Import options.

(** crates/application/src/nonce_ledger.rs:10-17 (IssuedNonce) *)
Record IssuedNonce : Type := MkIssuedNonce {
  IssuedNonce_key : string;
  IssuedNonce_digest : string
}.

(** crates/application/src/nonce_ledger.rs:45-53 (NonceState) *)
Inductive NonceState : Type := NonceIssued | NonceConsumed.

(** crates/application/src/nonce_ledger.rs:55-79 (NonceError) *)
Inductive NonceError : Type :=
| NonceInvalid (msg : string)
| NonceAlreadyIssued (key : string)
| NonceNotFound (key : string)
| NonceAlreadyConsumed (key : string)
| NonceSubjectMismatch (key : string)
| NonceCorrupt (msg : string)
| NonceStoreFailure (msg : string).

Global Instance IssuedNonce_eq_dec : EqDecision IssuedNonce.
Proof. solve_decision. Defined.
Global Instance NonceState_eq_dec : EqDecision NonceState.
Proof. solve_decision. Defined.
Global Instance NonceError_eq_dec : EqDecision NonceError.
Proof. solve_decision. Defined.

(** crates/application/src/nonce_ledger.rs:82-94 (NonceError::reason_code) *)
Definition NonceError_reason_code (e : NonceError) : string :=
  match e with
  | NonceInvalid _ => "NONCE_INVALID"
  | NonceAlreadyIssued _ => "NONCE_ALREADY_ISSUED"
  | NonceNotFound _ => "NONCE_NOT_FOUND"
  | NonceAlreadyConsumed _ => "NONCE_CONSUMED"
  | NonceSubjectMismatch _ => "NONCE_SUBJECT_MISMATCH"
  | NonceCorrupt _ => "NONCE_CORRUPT"
  | NonceStoreFailure _ => "NONCE_STORE_FAILURE"
  end.

(** crates/application/src/nonce_ledger.rs:177-188 (validate_hex_64) *)
Definition nonce_hex_64 (value name : string) : result NonceError unit :=
  if is_hex_64 value then Ok tt
  else Err (NonceInvalid (name +:+ " must contain 64 lowercase hexadecimal characters")).

(** crates/application/src/nonce_ledger.rs:20-33 (IssuedNonce::validated) *)
Definition IssuedNonce_validated (key digest : string) : result NonceError IssuedNonce :=
  _ ← nonce_hex_64 key "nonce key";
  _ ← nonce_hex_64 digest "nonce digest";
  mret (MkIssuedNonce key digest).

(** The port: a state type, and operations that return the next state with
    their result; a refusal leaves the state as it was. *)
(** crates/application/src/nonce_ledger.rs:97-122 (NonceLedger) *)
Class NonceLedger (S : Type) := {
  nonce_issue : S -> string -> string -> S * result NonceError IssuedNonce;
  nonce_consume : S -> string -> string -> S * result NonceError unit;
  nonce_state : S -> string -> result NonceError (option NonceState)
}.

(** crates/application/src/nonce_ledger.rs:124-128 (MemoryNonceLedger) *)
Record MemoryNonceLedger : Type := MkMemoryNonceLedger {
  nonce_rows : gmap string (IssuedNonce * NonceState)
}.

(** crates/application/src/nonce_ledger.rs:139-153 (MemoryNonceLedger::issue) *)
Definition mem_nonce_issue (l : MemoryNonceLedger) (key digest : string)
  : MemoryNonceLedger * result NonceError IssuedNonce :=
  match IssuedNonce_validated key digest with
  | Ok issued =>
      match nonce_rows l !! key with
      | Some (existing, state) =>
          (l, if bool_decide (state = NonceConsumed) then Err (NonceAlreadyConsumed key)
              else if bool_decide (IssuedNonce_digest existing = digest)
              then Err (NonceAlreadyIssued key)
              else Err (NonceSubjectMismatch key))
      | None =>
          (MkMemoryNonceLedger (<[key := (issued, NonceIssued)]> (nonce_rows l)), Ok issued)
      end
  | Err e => (l, Err e)
  | Panic => (l, Panic)
  end.

(** crates/application/src/nonce_ledger.rs:155-169 (MemoryNonceLedger::consume) *)
Definition mem_nonce_consume (l : MemoryNonceLedger) (key digest : string)
  : MemoryNonceLedger * result NonceError unit :=
  match IssuedNonce_validated key digest with
  | Ok requested =>
      match nonce_rows l !! key with
      | None => (l, Err (NonceNotFound key))
      | Some (issued, state) =>
          if bool_decide (state = NonceConsumed) then (l, Err (NonceAlreadyConsumed key))
          else if negb (bool_decide (IssuedNonce_digest issued = IssuedNonce_digest requested))
          then (l, Err (NonceSubjectMismatch key))
          else (MkMemoryNonceLedger (<[key := (issued, NonceConsumed)]> (nonce_rows l)), Ok tt)
      end
  | Err e => (l, Err e)
  | Panic => (l, Panic)
  end.

(** crates/application/src/nonce_ledger.rs:171-174 (MemoryNonceLedger::state) *)
Definition mem_nonce_state (l : MemoryNonceLedger) (key : string)
  : result NonceError (option NonceState) :=
  _ ← nonce_hex_64 key "nonce key";
  mret (snd <$> nonce_rows l !! key).

Global Instance memory_nonce_ledger : NonceLedger MemoryNonceLedger := {|
  nonce_issue := mem_nonce_issue;
  nonce_consume := mem_nonce_consume;
  nonce_state := mem_nonce_state
|}.

(** ** The contract of the port

    An operation of the port, and a run of operations from a state. *)
Inductive nonce_op : Type :=
| OpIssue (key digest : string)
| OpConsume (key digest : string).

Section Contract.
Context {S : Type} `{!NonceLedger S}.

Definition nonce_step (s : S) (op : nonce_op) : S :=
  match op with
  | OpIssue k d => fst (nonce_issue s k d)
  | OpConsume k d => fst (nonce_consume s k d)
  end.

(** Whether the operation is a consumption of [key] that succeeds in [s]. *)
Definition spends (key : string) (s : S) (op : nonce_op) : bool :=
  match op with
  | OpIssue _ _ => false
  | OpConsume k d => bool_decide (k = key) && is_ok (snd (nonce_consume s k d))
  end.

Fixpoint spend_count (key : string) (s : S) (ops : list nonce_op) : nat :=
  match ops with
  | [] => 0
  | op :: rest => (if spends key s op then 1 else 0) + spend_count key (nonce_step s op) rest
  end.

Definition nonce_run (s : S) (ops : list nonce_op) : S := foldl nonce_step s ops.

(** What an implementation promises. [nonce_subject] observes the digest a
    key was issued for. *)
Class NonceLedgerLaws (nonce_subject : S -> string -> option (string * NonceState)) := {
  issue_law s k d s' i :
    nonce_issue s k d = (s', Ok i) <->
    is_hex_64 k = true /\ is_hex_64 d = true /\ nonce_subject s k = None /\
    i = MkIssuedNonce k d /\ s' = fst (nonce_issue s k d);
  issue_frame s k d k' :
    nonce_subject (fst (nonce_issue s k d)) k' =
      if bool_decide (k' = k) && is_ok (snd (nonce_issue s k d))
      then Some (d, NonceIssued) else nonce_subject s k';
  consume_law s k d :
    is_ok (snd (nonce_consume s k d)) = true <->
    is_hex_64 k = true /\ is_hex_64 d = true /\ nonce_subject s k = Some (d, NonceIssued);
  consume_frame s k d k' :
    nonce_subject (fst (nonce_consume s k d)) k' =
      if bool_decide (k' = k) && is_ok (snd (nonce_consume s k d))
      then Some (d, NonceConsumed) else nonce_subject s k'
}.

Context (subject : S -> string -> option (string * NonceState)) `{!NonceLedgerLaws subject}.

Lemma consumed_stays s op key d :
  subject s key = Some (d, NonceConsumed) -> subject (nonce_step s op) key = Some (d, NonceConsumed).
Proof using All.
  intros Hs. destruct op as [k d'|k d']; simpl.
  - rewrite issue_frame. case_bool_decide as Hk; [|done]. subst k.
    destruct (nonce_issue s key d') as [s' [i| |]] eqn:Hi; [|done|done].
    apply issue_law in Hi as (_ & _ & Hn & _). congruence.
  - rewrite consume_frame. case_bool_decide as Hk; [|done]. subst k.
    destruct (is_ok _) eqn:Hok; [|done].
    apply consume_law in Hok as (_ & _ & Hn). congruence.
Qed.

Lemma consumed_never_spent s ops key d :
  subject s key = Some (d, NonceConsumed) -> spend_count key s ops = 0.
Proof using All.
  revert s. induction ops as [|op ops IH]; intros s Hs; simpl; [done|].
  rewrite (IH _ (consumed_stays _ op _ _ Hs)).
  destruct op as [k d'|k d']; simpl; [done|].
  case_bool_decide as Hk; [|done]. subst k. simpl.
  destruct (is_ok _) eqn:Hok; [|done].
  apply consume_law in Hok as (_ & _ & Hn). congruence.
Qed.

Lemma spent_at_most_once s ops key : spend_count key s ops <= 1.
Proof using All.
  revert s. induction ops as [|op ops IH]; intros s; simpl; [lia|].
  destruct (spends key s op) eqn:Hsp; [|apply IH].
  destruct op as [k d|k d]; simpl in *; [done|].
  apply andb_true_iff in Hsp as [->%bool_decide_eq_true Hok].
  rewrite (consumed_never_spent _ ops key d); [lia|].
  by rewrite consume_frame, Hok, bool_decide_true.
Qed.
End Contract.

(** The digest and state recorded for a key by the process-local ledger. *)
Definition mem_nonce_subject (l : MemoryNonceLedger) (key : string)
  : option (string * NonceState) :=
  (fun r => (IssuedNonce_digest r.1, r.2)) <$> nonce_rows l !! key.

Lemma nonce_hex_64_Ok v name u : nonce_hex_64 v name = Ok u <-> is_hex_64 v = true.
Proof. unfold nonce_hex_64. destruct u, (is_hex_64 v); naive_solver. Qed.

Lemma IssuedNonce_validated_Ok k d i :
  IssuedNonce_validated k d = Ok i <->
  is_hex_64 k = true /\ is_hex_64 d = true /\ i = MkIssuedNonce k d.
Proof.
  unfold IssuedNonce_validated. split.
  - intros H. inv_result. rewrite <- (nonce_hex_64_Ok k), <- (nonce_hex_64_Ok d). eauto.
  - intros (Hk & Hd & ->). apply (nonce_hex_64_Ok k "nonce key" tt) in Hk as ->.
    by apply (nonce_hex_64_Ok d "nonce digest" tt) in Hd as ->.
Qed.

Lemma IssuedNonce_validated_no_panic k d : IssuedNonce_validated k d <> Panic.
Proof. unfold IssuedNonce_validated, nonce_hex_64. by destruct (is_hex_64 k), (is_hex_64 d). Qed.

(** The process-local ledger keeps the contract of the port. *)
Global Instance memory_nonce_ledger_laws : NonceLedgerLaws mem_nonce_subject.
Proof.
  split.
  - intros s k d s' i. simpl. unfold mem_nonce_issue, mem_nonce_subject.
    destruct (IssuedNonce_validated k d) as [j|e|] eqn:Hv.
    + apply IssuedNonce_validated_Ok in Hv as (Hk & Hd & ->). rewrite Hk, Hd.
      destruct (nonce_rows s !! k) as [[ex st]|]; simpl; [|naive_solver].
      repeat case_bool_decide; naive_solver.
    + split; [done|]. intros (Hk & Hd & _).
      assert (IssuedNonce_validated k d = Ok (MkIssuedNonce k d)) as Hok
        by by apply IssuedNonce_validated_Ok. congruence.
    + by apply IssuedNonce_validated_no_panic in Hv.
  - intros s k d k'. simpl. unfold mem_nonce_issue, mem_nonce_subject.
    destruct (IssuedNonce_validated k d) as [j|e|] eqn:Hv; simpl;
      [|by rewrite andb_false_r..].
    apply IssuedNonce_validated_Ok in Hv as (Hk & Hd & ->).
    destruct (nonce_rows s !! k) as [[ex st]|] eqn:Hs; simpl.
    + by repeat case_bool_decide.
    + case_bool_decide as Hkk; simpl; [subst; by rewrite lookup_insert_eq|].
      by rewrite lookup_insert_ne by done.
  - intros s k d. simpl. unfold mem_nonce_consume, mem_nonce_subject.
    destruct (IssuedNonce_validated k d) as [j|e|] eqn:Hv.
    + apply IssuedNonce_validated_Ok in Hv as (Hk & Hd & ->).
      destruct (nonce_rows s !! k) as [[ex st]|]; simpl; [|naive_solver].
      repeat case_bool_decide; destruct st; naive_solver.
    + split; [done|]. intros (Hk & Hd & _).
      assert (IssuedNonce_validated k d = Ok (MkIssuedNonce k d)) as Hok
        by by apply IssuedNonce_validated_Ok. congruence.
    + by apply IssuedNonce_validated_no_panic in Hv.
  - intros s k d k'. simpl. unfold mem_nonce_consume, mem_nonce_subject.
    destruct (IssuedNonce_validated k d) as [j|e|] eqn:Hv; simpl;
      [|by rewrite andb_false_r..].
    apply IssuedNonce_validated_Ok in Hv as (Hk & Hd & ->).
    destruct (nonce_rows s !! k) as [[ex st]|] eqn:Hs; simpl; [|by rewrite andb_false_r].
    case_bool_decide; simpl; [by rewrite andb_false_r|].
    case_bool_decide as Hdig; simpl; [|by rewrite andb_false_r].
    case_bool_decide as Hkk; simpl; [subst; by rewrite lookup_insert_eq|].
    by rewrite lookup_insert_ne by done.
Qed.

(** ** Properties *)

(** Whatever sequence of issues and consumptions runs on a nonce ledger
    that keeps the contract of the port, a nonce is consumed successfully at
    most once, and only for the digest it was issued for; once consumed it
    can neither be consumed nor issued again. The process-local ledger keeps
    that contract. *)
Theorem nonce_is_single_use {S} `{!NonceLedger S}
  (subject : S -> string -> option (string * NonceState)) `{!NonceLedgerLaws subject}
  (s : S) (ops : list nonce_op) (key digest : string) :
  spend_count key s ops <= 1 /\
  (is_ok (snd (nonce_consume s key digest)) = true ->
   subject s key = Some (digest, NonceIssued) /\
   forall later d, is_ok (snd (nonce_issue
     (nonce_run (fst (nonce_consume s key digest)) later) key d)) = false).
Proof.
  split; [by apply (spent_at_most_once subject)|].
  intros Hok. pose proof Hok as (_ & _ & Hs)%consume_law. split; [done|].
  intros later d.
  assert (Hc : subject (fst (nonce_consume s key digest)) key = Some (digest, NonceConsumed))
    by by rewrite consume_frame, Hok, bool_decide_true.
  assert (Hrun : forall t, subject t key = Some (digest, NonceConsumed) ->
    subject (nonce_run t later) key = Some (digest, NonceConsumed)).
  { unfold nonce_run. clear Hc. induction later as [|op later IH]; intros t Ht; simpl; [done|].
    by apply IH, (consumed_stays subject). }
  apply Hrun in Hc.
  destruct (nonce_issue _ key d) as [s' [i| |]] eqn:Hi; [|done|done].
  apply issue_law in Hi as (_ & _ & Hn & _). congruence.
Qed.

Definition sample_hex (c : string) : string := String.concat EmptyString (replicate 64 c).

(** One issue and two consumptions: the second is a replay. *)
Lemma nonce_is_single_use_witness :
  spend_count (sample_hex "a") (MkMemoryNonceLedger empty)
    [OpIssue (sample_hex "a") (sample_hex "b"); OpConsume (sample_hex "a") (sample_hex "b");
     OpConsume (sample_hex "a") (sample_hex "b")] = 1 /\
  spend_count (sample_hex "a") (MkMemoryNonceLedger empty)
    [OpIssue (sample_hex "a") (sample_hex "b"); OpConsume (sample_hex "a") (sample_hex "b");
     OpConsume (sample_hex "a") (sample_hex "b")] <= 1.
Proof.
  split; [vm_compute; reflexivity|].
  exact (proj1 (nonce_is_single_use mem_nonce_subject (MkMemoryNonceLedger empty) _
                  (sample_hex "a") (sample_hex "b"))).
Defined.
