(* ===== verification/RunCoding.v ===== *)
(** * Admission of coding requests

    Models the admission plan of crates/application/src/run_coding.rs: which
    rows a first submission writes, and which rows a replay must find. *)

From S2P Require Import Prelude External Ids States Text Submissions Commands NonceLedger.
From stdpp Require Import options.

Local Open Scope Z_scope.

(** crates/application/src/run_coding.rs:112-123 (CodingAdmissionView) *)
Record CodingAdmissionView : Type := MkCodingAdmissionView {
  view_authority_epoch : Z;
  view_used_quota : Z;
  view_existing_reservation : option (string * Z);
  view_nonce : option (string * NonceState)
}.

(** crates/application/src/run_coding.rs:125-132 (CodingAdmissionPlan) *)
Record CodingAdmissionPlan : Type := MkCodingAdmissionPlan {
  plan_consume_nonce : string;
  plan_reservation : string * Z
}.

Section Admission.
Context `{CommandExt}.

(** crates/application/src/run_coding.rs:140-172 (validate_run_coding_replay) *)
Definition validate_run_coding_replay (request : CommandRequest)
  (reservation : option (string * Z)) (nonce : option (string * NonceState))
  : result DomainError unit :=
  if negb (bool_decide (CommandRequest_kind request = RUN_CODING_KIND)) then Ok tt
  else
  payload ← RunCodingPayload_parse (CommandRequest_payload request);
  let digest := to_hex (CommandRequest_digest request) in
  _ ← refuse_if (negb (bool_decide (reservation
           = Some (rc_quota_reservation payload, rc_quota_units payload))))
        (EncodingError "run_coding replay is missing its exact quota reservation");
  refuse_if (negb (bool_decide (nonce = Some (digest, NonceConsumed))))
    (EncodingError "run_coding replay is missing its consumed launch nonce").

(** crates/application/src/run_coding.rs:174-237 (plan_run_coding_admission) *)
Definition plan_run_coding_admission (request : CommandRequest) (existed : bool)
  (view : CodingAdmissionView) : result DomainError (option CodingAdmissionPlan) :=
  if negb (bool_decide (CommandRequest_kind request = RUN_CODING_KIND)) then Ok None
  else
  payload ← RunCodingPayload_parse (CommandRequest_payload request);
  if existed then
    _ ← validate_run_coding_replay request (view_existing_reservation view) (view_nonce view);
    mret None
  else
  _ ← refuse_if (negb (bool_decide (rc_expected_revision payload = view_authority_epoch view)))
        (StaleAuthority ("run_coding expected revision "
           +:+ pretty (rc_expected_revision payload)
           +:+ " but authority epoch is " +:+ pretty (view_authority_epoch view)));
  let digest := to_hex (CommandRequest_digest request) in
  _ ← refuse_if (bool_decide (is_Some (view_existing_reservation view)))
        (ConflictError "quota reservation is already bound to another subject");
  let remaining := u64_saturating_sub MAX_CODING_QUOTA_UNITS (view_used_quota view) in
  _ ← refuse_if (bool_decide (remaining < rc_quota_units payload))
        (EncodingError ("coding quota exhausted: requested "
           +:+ pretty (rc_quota_units payload) +:+ " remaining " +:+ pretty remaining));
  _ ← match view_nonce view with
      | Some (stored, NonceIssued) =>
          refuse_if (negb (bool_decide (stored = digest)))
            (EncodingError "run_coding launch nonce does not match this request digest")
      | Some (_, NonceConsumed) =>
          Err (EncodingError "run_coding launch nonce is already consumed")
      | None => Err (EncodingError "run_coding launch nonce has not been issued")
      end;
  mret (Some (MkCodingAdmissionPlan (rc_launch_nonce payload)
                (rc_quota_reservation payload, rc_quota_units payload))).

Lemma RunCodingPayload_parse_Ok s p :
  RunCodingPayload_parse s = Ok p ->
  of_json s = Ok p /\ RunCodingPayload_validate p = Ok tt.
Proof.
  unfold RunCodingPayload_parse. intros Hp. inv_result.
  match goal with x : unit |- _ => by destruct x end.
Qed.

Lemma plan_run_coding_admission_fresh request view plan :
  plan_run_coding_admission request false view = Ok (Some plan) ->
  CommandRequest_kind request = RUN_CODING_KIND /\
  exists payload,
    RunCodingPayload_parse (CommandRequest_payload request) = Ok payload /\
    rc_expected_revision payload = view_authority_epoch view /\
    view_existing_reservation view = None /\
    rc_quota_units payload <= u64_saturating_sub MAX_CODING_QUOTA_UNITS (view_used_quota view) /\
    view_nonce view = Some (to_hex (CommandRequest_digest request), NonceIssued) /\
    plan = MkCodingAdmissionPlan (rc_launch_nonce payload)
             (rc_quota_reservation payload, rc_quota_units payload).
Proof.
  unfold plan_run_coding_admission. intros Hp.
  destruct (bool_decide (CommandRequest_kind request = RUN_CODING_KIND)) eqn:Hk; [|done].
  apply bool_decide_eq_true in Hk. cbn [negb] in Hp.
  apply bind_Ok in Hp as (payload & Hpay & Hp). cbv beta zeta iota in Hp.
  apply bind_Ok in Hp as (u1 & H1 & Hp). apply bind_Ok in Hp as (u2 & H2 & Hp).
  apply bind_Ok in Hp as (u3 & H3 & Hp). apply bind_Ok in Hp as (u4 & H4 & Hp).
  destruct (view_nonce view) as [[stored []]|]; inv_result.
  split; [done|]. exists payload. split; [done|]. split; [done|].
  split; [by apply eq_None_not_Some|]. split; [lia|done].
Qed.

Lemma plan_run_coding_admission_no_plan request existed view :
  plan_run_coding_admission request existed view = Ok None ->
  CommandRequest_kind request = RUN_CODING_KIND -> existed = true.
Proof.
  unfold plan_run_coding_admission. intros Hp Hk.
  rewrite bool_decide_true in Hp by done. cbn [negb] in Hp.
  destruct existed; [done|]. by inv_result.
Qed.
End Admission.
