(* ===== verification/Effects.v ===== *)
(** * External effects: state machine, intents and receipts

    Models crates/application/src/effect_state.rs and effects.rs. *)

From S2P Require Import Prelude External Ids States.
From stdpp Require Import options.

Local Open Scope Z_scope.

(** crates/application/src/effect_state.rs:8-38 (EffectState) *)
Inductive EffectState : Type :=
| EfProposed
| EfAuthorized
| EfDispatching
| EfReceiptPending
| EfVerified
| EfCommitted
| EfOutcomeUnknown
| EfQuarantined
| EfFailed
| EfCompensationPending
| EfCompensating
| EfCompensated
| EfOrphanedRemote.

Global Instance EffectState_eq_dec : EqDecision EffectState.
Proof. solve_decision. Defined.

(** The derived [Debug] name. *)
Definition EffectState_debug (s : EffectState) : string :=
  match s with
  | EfProposed => "Proposed"
  | EfAuthorized => "Authorized"
  | EfDispatching => "Dispatching"
  | EfReceiptPending => "ReceiptPending"
  | EfVerified => "Verified"
  | EfCommitted => "Committed"
  | EfOutcomeUnknown => "OutcomeUnknown"
  | EfQuarantined => "Quarantined"
  | EfFailed => "Failed"
  | EfCompensationPending => "CompensationPending"
  | EfCompensating => "Compensating"
  | EfCompensated => "Compensated"
  | EfOrphanedRemote => "OrphanedRemote"
  end.

(** crates/application/src/effect_state.rs:53-81 (EffectState::transition) *)
Definition EffectState_transition (from to : EffectState) : result DomainError EffectState :=
  match from, to with
  | EfProposed, EfAuthorized => Ok EfAuthorized
  | (EfProposed | EfAuthorized), EfFailed => Ok EfFailed
  | EfAuthorized, EfDispatching => Ok EfDispatching
  | EfDispatching, EfReceiptPending => Ok EfReceiptPending
  | (EfDispatching | EfReceiptPending), EfOutcomeUnknown => Ok EfOutcomeUnknown
  | EfReceiptPending, EfVerified => Ok EfVerified
  | EfOutcomeUnknown, EfVerified => Ok EfVerified
  | EfOutcomeUnknown, EfDispatching => Ok EfDispatching
  | EfOutcomeUnknown, EfOrphanedRemote => Ok EfOrphanedRemote
  | EfVerified, EfCommitted => Ok EfCommitted
  | (EfDispatching | EfReceiptPending | EfOutcomeUnknown), EfQuarantined => Ok EfQuarantined
  | EfQuarantined, EfCompensationPending => Ok EfCompensationPending
  | EfCompensationPending, EfCompensating => Ok EfCompensating
  | EfCompensating, EfCompensated => Ok EfCompensated
  | _, _ => Err (InvalidTransition (EffectState_debug from) (EffectState_debug to))
  end.

(** crates/application/src/effect_state.rs:83-87 (EffectState::needs_reconcile) *)
Definition needs_reconcile (s : EffectState) : bool :=
  match s with EfOutcomeUnknown => true | _ => false end.

(** crates/application/src/effect_state.rs:89-97 (EffectState::is_unresolved) *)
Definition is_unresolved (s : EffectState) : bool :=
  match s with EfDispatching | EfReceiptPending | EfOutcomeUnknown => true | _ => false end.

(** crates/application/src/effect_state.rs:122-140 (EffectState::as_str) *)
Definition EffectState_as_str (s : EffectState) : string :=
  match s with
  | EfProposed => "PROPOSED"
  | EfAuthorized => "AUTHORIZED"
  | EfDispatching => "DISPATCHING"
  | EfReceiptPending => "RECEIPT_PENDING"
  | EfVerified => "VERIFIED"
  | EfCommitted => "COMMITTED"
  | EfOutcomeUnknown => "OUTCOME_UNKNOWN"
  | EfQuarantined => "QUARANTINED"
  | EfFailed => "FAILED"
  | EfCompensationPending => "COMPENSATION_PENDING"
  | EfCompensating => "COMPENSATING"
  | EfCompensated => "COMPENSATED"
  | EfOrphanedRemote => "ORPHANED_REMOTE"
  end.

(** crates/application/src/effect_state.rs:99-111 (EffectState::normalize_unresolved_for_recovery) *)
Definition normalize_unresolved_for_recovery (s : EffectState)
  : result DomainError EffectState :=
  match s with
  | EfDispatching | EfReceiptPending | EfOutcomeUnknown => Ok EfOutcomeUnknown
  | other => Err (InvalidTransition (EffectState_as_str other)
                    (EffectState_as_str EfOutcomeUnknown))
  end.

(** crates/application/src/effect_state.rs:113-120 (EffectState::is_terminal) *)
Definition EffectState_is_terminal (s : EffectState) : bool :=
  match s with EfCommitted | EfFailed | EfCompensated | EfOrphanedRemote => true | _ => false end.

(** crates/application/src/effect_state.rs:142-164 (EffectState::parse) *)
Definition EffectState_parse (name : string) : result DomainError EffectState :=
  if bool_decide (name = "PROPOSED") then Ok EfProposed
  else if bool_decide (name = "AUTHORIZED") then Ok EfAuthorized
  else if bool_decide (name = "DISPATCHING") then Ok EfDispatching
  else if bool_decide (name = "RECEIPT_PENDING") then Ok EfReceiptPending
  else if bool_decide (name = "VERIFIED") then Ok EfVerified
  else if bool_decide (name = "COMMITTED") then Ok EfCommitted
  else if bool_decide (name = "OUTCOME_UNKNOWN") then Ok EfOutcomeUnknown
  else if bool_decide (name = "QUARANTINED") then Ok EfQuarantined
  else if bool_decide (name = "FAILED") then Ok EfFailed
  else if bool_decide (name = "COMPENSATION_PENDING") then Ok EfCompensationPending
  else if bool_decide (name = "COMPENSATING") then Ok EfCompensating
  else if bool_decide (name = "COMPENSATED") then Ok EfCompensated
  else if bool_decide (name = "ORPHANED_REMOTE") then Ok EfOrphanedRemote
  else Err (UnknownState ("effect state " +:+ name)).

(** ** Intents and receipts *)

(** crates/application/src/effects.rs:16-48 (EffectIntentRecord) *)
Record EffectIntentRecord : Type := MkEffectIntentRecord {
  ei_id : EffectId;
  ei_logical_effect_key : string;
  ei_provider : string;
  ei_target_identity : string;
  ei_desired_state_hash : string;
  ei_expected_old_oid : string;
  ei_attempt_id : AttemptId;
  ei_fence : Z;
  ei_policy_version : string;
  ei_payload_hash : string;
  ei_provider_idempotency_key : option string;
  ei_state : EffectState;
  ei_unknown_retries : Z;
  ei_created_at : string
}.

(** The members of the JSON object that [stable_payload] encodes. *)
Record EffectPayload : Type := MkEffectPayload {
  ep_logical_effect_key : string;
  ep_provider : string;
  ep_target_identity : string;
  ep_desired_state_hash : string;
  ep_expected_old_oid : string;
  ep_attempt_id : string;
  ep_fence : Z;
  ep_policy_version : string;
  ep_provider_idempotency_key : option string
}.

Global Instance EffectIntentRecord_eq_dec : EqDecision EffectIntentRecord.
Proof. solve_decision. Defined.
Global Instance EffectPayload_eq_dec : EqDecision EffectPayload.
Proof. solve_decision. Defined.

(** crates/application/src/effects.rs:60-70 (EffectIntentRecord::stable_payload json) *)
Definition effect_payload (r : EffectIntentRecord) : EffectPayload := {|
  ep_logical_effect_key := ei_logical_effect_key r;
  ep_provider := ei_provider r;
  ep_target_identity := ei_target_identity r;
  ep_desired_state_hash := ei_desired_state_hash r;
  ep_expected_old_oid := ei_expected_old_oid r;
  ep_attempt_id := id_as_str (ei_attempt_id r);
  ep_fence := ei_fence r;
  ep_policy_version := ei_policy_version r;
  ep_provider_idempotency_key := ei_provider_idempotency_key r
|}.

Section IntentPayload.
Context `{Json EffectPayload} `{Blake3} `{Hex}.

(** crates/application/src/effects.rs:51-72 (EffectIntentRecord::stable_payload) *)
Definition effect_stable_payload (r : EffectIntentRecord) : result DomainError string :=
  map_err EncodingError (to_json (effect_payload r)).

(** crates/application/src/effects.rs:83-86 (EffectIntentRecord::stable_payload_digest) *)
Definition effect_stable_payload_digest (r : EffectIntentRecord)
  : result DomainError Digest :=
  p ← effect_stable_payload r; mret (Digest_of p).

(** crates/application/src/effects.rs:74-81 (EffectIntentRecord::payload_digest) *)
Definition effect_payload_digest (r : EffectIntentRecord) : result DomainError string :=
  d ← effect_stable_payload_digest r; mret (to_hex d).

(** Equal digests bind equal requested mutations, up to a collision. *)
Lemma effect_payload_digest_inj `{!HexLaws} `{!JsonLaws EffectPayload} r1 r2 h :
  effect_payload_digest r1 = Ok h -> effect_payload_digest r2 = Ok h ->
  effect_payload r1 = effect_payload r2 \/
  exists x y, x <> y /\ blake3_hash x = blake3_hash y.
Proof.
  unfold effect_payload_digest, effect_stable_payload_digest, effect_stable_payload.
  intros H1' H2'. inv_result.
  match goal with
  | A : to_json (effect_payload r1) = Ok ?x, B : to_json (effect_payload r2) = Ok ?y |- _ =>
      destruct (decide (x = y)) as [->|Hne];
      [left; apply of_json_to_json in A; apply of_json_to_json in B;
       congruence|right]
  end.
  repeat match goal with
  | A : to_hex _ = to_hex _ |- _ => apply to_hex_inj in A; injection A as A
  end.
  eauto.
Qed.
End IntentPayload.

(** crates/application/src/effects.rs:89-99 (ReceiptVerdict) *)
Inductive ReceiptVerdict : Type := VerdictMatch | VerdictMismatch | VerdictAbsent.

(** crates/application/src/effects.rs:102-110 (ReceiptVerdict::as_str) *)
Definition ReceiptVerdict_as_str (v : ReceiptVerdict) : string :=
  match v with
  | VerdictMatch => "MATCH"
  | VerdictMismatch => "MISMATCH"
  | VerdictAbsent => "ABSENT"
  end.

(** crates/application/src/effects.rs:112-126 (ReceiptVerdict::parse) *)
Definition ReceiptVerdict_parse (name : string) : result DomainError ReceiptVerdict :=
  if bool_decide (name = "MATCH") then Ok VerdictMatch
  else if bool_decide (name = "MISMATCH") then Ok VerdictMismatch
  else if bool_decide (name = "ABSENT") then Ok VerdictAbsent
  else Err (UnknownState ("receipt verdict " +:+ name)).

(** crates/application/src/effects.rs:129-149 (EffectReceiptRecord) *)
Record EffectReceiptRecord : Type := MkEffectReceiptRecord {
  er_id : EffectReceiptId;
  er_effect_intent_id : EffectId;
  er_observed_remote_identity : string;
  er_observed_state_hash : option string;
  er_verification_method : string;
  er_verification_result : ReceiptVerdict;
  er_adopted_after_unknown : bool;
  er_recorded_at : string
}.

Global Instance ReceiptVerdict_eq_dec : EqDecision ReceiptVerdict.
Proof. solve_decision. Defined.
Global Instance EffectReceiptRecord_eq_dec : EqDecision EffectReceiptRecord.
Proof. solve_decision. Defined.

(** ** Paths of the machine *)

Definition ef_edge (s t : EffectState) : Prop := EffectState_transition s t = Ok t.
Global Instance ef_edge_dec : RelDecision ef_edge.
Proof. intros s t. unfold ef_edge. apply _. Defined.

Inductive ef_path : EffectState -> list EffectState -> EffectState -> Prop :=
| ef_path_nil s : ef_path s [] s
| ef_path_cons s t l u : ef_edge s t -> ef_path t l u -> ef_path s (t :: l) u.

(** What an effect in state [s] still has to pass before it is committed;
    [None] when it can no longer be. *)
Definition commit_left (s : EffectState) : option (list EffectState) :=
  match s with
  | EfProposed => Some [EfAuthorized; EfDispatching; EfVerified; EfCommitted]
  | EfAuthorized => Some [EfDispatching; EfVerified; EfCommitted]
  | EfDispatching | EfReceiptPending | EfOutcomeUnknown => Some [EfVerified; EfCommitted]
  | EfVerified => Some [EfCommitted]
  | EfCommitted => Some []
  | _ => None
  end.

Lemma ef_edge_left s t :
  ef_edge s t ->
  match commit_left t with
  | None => True
  | Some lt => commit_left s = Some lt \/ commit_left s = Some (t :: lt)
  end.
Proof. destruct s, t; intros [=]; simpl; auto. Qed.

Lemma ef_path_commit s l :
  ef_path s l EfCommitted -> exists ls, commit_left s = Some ls /\ ls `sublist_of` l.
Proof.
  remember EfCommitted as u eqn:Hu. induction 1 as [s|s t l u Hst Hp IH]; subst.
  { exists []. split; [done|constructor]. }
  destruct IH as (lt & Hlt & Hsub); [done|].
  pose proof (ef_edge_left _ _ Hst) as Hs. rewrite Hlt in Hs.
  destruct Hs as [Hs|Hs]; (eexists; split; [exact Hs|]); by constructor.
Qed.

Lemma ef_terminal_iff_absorbing s :
  EffectState_is_terminal s = true <-> forall t, ~ ef_edge s t.
Proof.
  unfold ef_edge. split.
  - destruct s; intros [=] []; intros [=].
  - intros Ht. destruct s; try done.
    + by destruct (Ht EfAuthorized).
    + by destruct (Ht EfDispatching).
    + by destruct (Ht EfReceiptPending).
    + by destruct (Ht EfVerified).
    + by destruct (Ht EfCommitted).
    + by destruct (Ht EfVerified).
    + by destruct (Ht EfCompensationPending).
    + by destruct (Ht EfCompensating).
    + by destruct (Ht EfCompensated).
Qed.

Lemma EffectState_transition_target s t u :
  EffectState_transition s t = Ok u -> u = t /\ ef_edge s t.
Proof. unfold ef_edge. destruct s, t; intros [=]; subst; done. Qed.

Lemma EffectState_parse_as_str s : EffectState_parse (EffectState_as_str s) = Ok s.
Proof. by destruct s. Qed.

Lemma EffectState_parse_Ok name s :
  EffectState_parse name = Ok s -> name = EffectState_as_str s.
Proof. unfold EffectState_parse. intros. repeat case_bool_decide; by simplify_eq. Qed.

(** ** Properties *)

(** Nothing is committed unseen: on every path of the effect machine from
    a proposed intent to committed, the intent was authorised, dispatched and
    read back as verified, in that order; and the terminal states are exactly
    those with no exit. *)
Theorem commit_requires_verified_readback (l : list EffectState) :
  ef_path EfProposed l EfCommitted ->
  [EfAuthorized; EfDispatching; EfVerified; EfCommitted] `sublist_of` l /\
  (forall s, EffectState_is_terminal s = true <-> forall t, ~ ef_edge s t).
Proof.
  intros Hp. split; [|apply ef_terminal_iff_absorbing].
  destruct (ef_path_commit _ _ Hp) as (ls & Hls & Hsub). by injection Hls as <-.
Qed.

(** A lost dispatch that was proven not to have run, retried and committed. *)
Lemma commit_requires_verified_readback_witness :
  [EfAuthorized; EfDispatching; EfVerified; EfCommitted] `sublist_of`
  [EfAuthorized; EfDispatching; EfOutcomeUnknown; EfDispatching; EfReceiptPending;
   EfVerified; EfCommitted].
Proof.
  refine (proj1 (commit_requires_verified_readback _ _)).
  repeat (eapply ef_path_cons; [reflexivity|]). apply ef_path_nil.
Defined.
