(* ===== verification/GraphDelta.v ===== *)
(** * Graph deltas

    Models crates/application/src/graph_delta.rs: content-addressed mutations
    of a stored graph, evaluated all-or-nothing, and the durable form of their
    outcome. *)

From S2P Require Import Prelude External Ids States Entities Store Records.
From stdpp Require Import options.

Local Open Scope Z_scope.

(** crates/application/src/graph_delta.rs:25-59 (GraphDeltaFailure) *)
Inductive GraphDeltaFailure : Type :=
| FailConversation (reason : ConversationRefusal)
| FailCodingTask (reason : CodingTaskRefusal)
| FailStore (message : string)
| FailUnsupportedSchema (detail : string)
| FailInvalidId (message : string)
| FailInvalidTransition (from to : string)
| FailInvalidLeaseTtl (ttl_seconds : Z)
| FailStaleAuthority (message : string)
| FailFence (message : string)
| FailIdempotency (message : string)
| FailEncoding (message : string)
| FailConflict (message : string)
| FailUnknownState (message : string).

(** crates/application/src/graph_delta.rs:9-23 (GraphDeltaCommandResult) *)
Inductive GraphDeltaCommandResult : Type :=
| DeltaApplied (graph : StoredGraph)
| DeltaFailed (error : GraphDeltaFailure).

(** crates/application/src/graph_delta.rs:62-105 (GraphDeltaFailure::from_error) *)
Definition GraphDeltaFailure_from_error (error : LedgerError) : GraphDeltaFailure :=
  match error with
  | LedgerConversation reason => FailConversation reason
  | LedgerCodingTask reason => FailCodingTask reason
  | LedgerStore message => FailStore message
  | LedgerUnsupportedSchema detail => FailUnsupportedSchema detail
  | LedgerDomain error =>
      match error with
      | InvalidId message => FailInvalidId message
      | InvalidTransition from to => FailInvalidTransition from to
      | InvalidLeaseTtl ttl_seconds => FailInvalidLeaseTtl ttl_seconds
      | StaleAuthority message => FailStaleAuthority message
      | FenceError message => FailFence message
      | IdempotencyError message => FailIdempotency message
      | EncodingError message => FailEncoding message
      | ConflictError message => FailConflict message
      | UnknownState message => FailUnknownState message
      end
  end.

(** crates/application/src/graph_delta.rs:107-129 (GraphDeltaFailure::into_error) *)
Definition GraphDeltaFailure_into_error (f : GraphDeltaFailure) : LedgerError :=
  match f with
  | FailConversation reason => LedgerConversation reason
  | FailCodingTask reason => LedgerCodingTask reason
  | FailStore message => LedgerStore message
  | FailUnsupportedSchema detail => LedgerUnsupportedSchema detail
  | FailInvalidId message => LedgerDomain (InvalidId message)
  | FailInvalidTransition from to => LedgerDomain (InvalidTransition from to)
  | FailInvalidLeaseTtl ttl_seconds => LedgerDomain (InvalidLeaseTtl ttl_seconds)
  | FailStaleAuthority message => LedgerDomain (StaleAuthority message)
  | FailFence message => LedgerDomain (FenceError message)
  | FailIdempotency message => LedgerDomain (IdempotencyError message)
  | FailEncoding message => LedgerDomain (EncodingError message)
  | FailConflict message => LedgerDomain (ConflictError message)
  | FailUnknownState message => LedgerDomain (UnknownState message)
  end.

(** crates/application/src/graph_delta.rs:164-186 (GraphOp) *)
Inductive GraphOp : Type :=
| SetPackageState (id : WorkPackageId) (from to : WorkPackageState)
| BumpFence (variant_id : VariantId) (from to : Z).

(** crates/application/src/graph_delta.rs:188-195 (GraphDelta) *)
Record GraphDelta : Type := MkGraphDelta {
  GraphDelta_parent : Digest;
  GraphDelta_ops : list GraphOp
}.

Section DeltaJson.
Context `{Json GraphDeltaCommandResult} `{Json GraphDelta} `{Blake3}.

(** crates/application/src/graph_delta.rs:133-142 (GraphDeltaCommandResult::applied) *)
Definition GraphDeltaCommandResult_applied (graph : StoredGraph) : result LedgerError string :=
  lift_store (to_json (DeltaApplied graph)).

(** crates/application/src/graph_delta.rs:144-153 (GraphDeltaCommandResult::failed) *)
Definition GraphDeltaCommandResult_failed (error : LedgerError) : result LedgerError string :=
  lift_store (to_json (DeltaFailed (GraphDeltaFailure_from_error error))).

(** crates/application/src/graph_delta.rs:155-161 (GraphDeltaCommandResult::decode) *)
Definition GraphDeltaCommandResult_decode (value : string)
  : result LedgerError GraphDeltaCommandResult :=
  lift_store (of_json value).

(** crates/application/src/graph_delta.rs:198-205 (GraphDelta::digest) *)
Definition GraphDelta_digest (delta : GraphDelta) : result DomainError Digest :=
  Digest_of_json delta.
End DeltaJson.

Definition newline : string := String (Ascii.ascii_of_nat 10) EmptyString.

(** The buffer that [graph_digest] hashes. *)
Definition graph_preimage `{Hex} (graph : StoredGraph) : bytes :=
  id_as_str (Mission_id (StoredGraph_mission graph)) +:+ newline
  +:+ to_hex (PlanRevision_canonical_hash (StoredGraph_plan graph)) +:+ newline
  +:+ foldr (fun pkg acc =>
        id_as_str (WorkPackage_id pkg) +:+ ":" +:+ WorkPackageState_debug (WorkPackage_state pkg)
        +:+ newline +:+ acc)
      (foldr (fun v acc =>
         id_as_str (Variant_id v) +:+ ":" +:+ pretty (Variant_fence_counter v)
         +:+ newline +:+ acc) EmptyString (StoredGraph_variants graph))
      (StoredGraph_packages graph).

(** crates/application/src/graph_delta.rs:208-223 (graph_digest) *)
Definition graph_digest `{Blake3} `{Hex} (graph : StoredGraph) : Digest :=
  Digest_of (graph_preimage graph).

(** `iter_mut().find(sel).ok_or(missing)` followed by an update of the found
    element. *)
Fixpoint modify_first {E A} (sel : A -> bool) (missing : E) (f : A -> result E A)
  (l : list A) : result E (list A) :=
  match l with
  | [] => Err missing
  | x :: rest =>
      if sel x then y ← f x; mret (y :: rest)
      else rest' ← modify_first sel missing f rest; mret (x :: rest')
  end.

Definition set_StoredGraph_packages (g : StoredGraph) (ps : list WorkPackage) : StoredGraph :=
  MkStoredGraph (StoredGraph_mission g) (StoredGraph_plan g) ps (StoredGraph_variants g).
Definition set_StoredGraph_variants (g : StoredGraph) (vs : list Variant) : StoredGraph :=
  MkStoredGraph (StoredGraph_mission g) (StoredGraph_plan g) (StoredGraph_packages g) vs.

Definition set_package_state_op (id : WorkPackageId) (from to : WorkPackageState)
  (pkg : WorkPackage) : result LedgerError WorkPackage :=
  _ ← refuse_if (negb (bool_decide (WorkPackage_state pkg = from)))
        (LedgerDomain (ConflictError ("package " +:+ id_as_str id +:+ " is "
           +:+ WorkPackageState_debug (WorkPackage_state pkg) +:+ " not "
           +:+ WorkPackageState_debug from)));
  s ← lift_domain (WorkPackageState_transition (WorkPackage_state pkg) to);
  mret (set_WorkPackage_state pkg s).

Definition bump_fence_op (from to : Z) (v : Variant) : result LedgerError Variant :=
  _ ← refuse_if (negb (bool_decide (Variant_fence_counter v = from)))
        (LedgerDomain (FenceError ("variant fence is " +:+ pretty (Variant_fence_counter v)
           +:+ " not " +:+ pretty from)));
  mret (set_Variant_fence_counter v to).

(** crates/application/src/graph_delta.rs:263-304 (apply_op) *)
Definition apply_op (graph : StoredGraph) (op : GraphOp) : result LedgerError StoredGraph :=
  match op with
  | SetPackageState id from to =>
      ps ← modify_first (fun p => bool_decide (WorkPackage_id p = id))
             (LedgerStore "package missing") (set_package_state_op id from to)
             (StoredGraph_packages graph);
      mret (set_StoredGraph_packages graph ps)
  | BumpFence variant_id from to =>
      _ ← refuse_if (negb (bool_decide (to = u64_saturating_add from 1)))
            (LedgerDomain (FenceError (pretty from +:+ " -> " +:+ pretty to)));
      vs ← modify_first (fun v => bool_decide (Variant_id v = variant_id))
             (LedgerStore "variant missing") (bump_fence_op from to)
             (StoredGraph_variants graph);
      mret (set_StoredGraph_variants graph vs)
  end.

Definition op_applied (graph : StoredGraph) (op : GraphOp) : bool :=
  match op with
  | SetPackageState id _ to =>
      existsb (fun pkg => bool_decide (WorkPackage_id pkg = id)
                          && bool_decide (WorkPackage_state pkg = to))
        (StoredGraph_packages graph)
  | BumpFence variant_id _ to =>
      existsb (fun v => bool_decide (Variant_id v = variant_id)
                        && bool_decide (Variant_fence_counter v = to))
        (StoredGraph_variants graph)
  end.

(** crates/application/src/graph_delta.rs:306-317 (already_applied) *)
Definition already_applied (graph : StoredGraph) (delta : GraphDelta) : bool :=
  forallb (op_applied graph) (GraphDelta_ops delta).

Fixpoint apply_ops (graph : StoredGraph) (ops : list GraphOp) : result LedgerError StoredGraph :=
  match ops with
  | [] => Ok graph
  | op :: rest => next ← apply_op graph op; apply_ops next rest
  end.

(** crates/application/src/graph_delta.rs:241-261 (evaluate_graph_delta) *)
Definition evaluate_graph_delta `{Blake3} `{Hex} (graph : StoredGraph) (delta : GraphDelta)
  : result LedgerError StoredGraph :=
  if already_applied graph delta then Ok graph
  else if negb (bool_decide (graph_digest graph = GraphDelta_parent delta)) then
    Err (LedgerDomain (ConflictError "parent digest mismatch"))
  else apply_ops graph (GraphDelta_ops delta).

(** ** Lemmas *)

Lemma modify_first_Ok {E A} (sel : A -> bool) (missing : E) f l l' :
  modify_first sel missing f l = Ok l' ->
  exists pre x y post, l = pre ++ x :: post /\ l' = pre ++ y :: post /\
    Forall (fun z => sel z = false) pre /\ sel x = true /\ f x = Ok y.
Proof.
  revert l'. induction l as [|z l IH]; intros l' H; simpl in H; [done|].
  destruct (sel z) eqn:Hz.
  - inv_result. eexists [], z, _, l. split; [done|]. split; [done|].
    split; [constructor|done].
  - inv_result. destruct (IH _ ltac:(eassumption)) as (pre & x' & y' & post & -> & -> & Hp & Hx & Hf).
    exists (z :: pre), x', y', post. split; [done|]. split; [done|].
    split; [by constructor|done].
Qed.

(** One operation moves one package along one edge, or raises one fence, and
    changes nothing else of the graph. *)
Definition package_step (p q : WorkPackage) : Prop :=
  q = p \/ (q = set_WorkPackage_state p (WorkPackage_state q) /\
            wp_edge (WorkPackage_state p) (WorkPackage_state q)).

Definition variant_step (v w : Variant) : Prop :=
  w = v \/ (w = set_Variant_fence_counter v (Variant_fence_counter w) /\
            Variant_fence_counter w = u64_saturating_add (Variant_fence_counter v) 1).

(** Packages keep their identity and move along paths of the machine;
    fences never go back. *)
Definition package_le (p q : WorkPackage) : Prop :=
  q = set_WorkPackage_state p (WorkPackage_state q) /\
  exists l, wp_path (WorkPackage_state p) l (WorkPackage_state q).

Definition variant_le (v w : Variant) : Prop :=
  w = set_Variant_fence_counter v (Variant_fence_counter w) /\
  (is_u64 (Variant_fence_counter v) ->
   is_u64 (Variant_fence_counter w) /\ Variant_fence_counter v <= Variant_fence_counter w).

Definition graph_le (g h : StoredGraph) : Prop :=
  StoredGraph_mission h = StoredGraph_mission g /\ StoredGraph_plan h = StoredGraph_plan g /\
  Forall2 package_le (StoredGraph_packages g) (StoredGraph_packages h) /\
  Forall2 variant_le (StoredGraph_variants g) (StoredGraph_variants h).

Lemma wp_path_app s l t l' u : wp_path s l t -> wp_path t l' u -> wp_path s (l ++ l') u.
Proof. induction 1; intros; simpl; [done|]. econstructor; eauto. Qed.

Global Instance package_le_refl : Reflexive package_le.
Proof. intros []. split; [done|]. exists []. constructor. Qed.
Global Instance package_le_trans : Transitive package_le.
Proof.
  intros p q r [Hq [l Hl]] [Hr [l' Hl']]. split.
  - rewrite Hr, Hq. by destruct p.
  - exists (l ++ l'). eapply wp_path_app; eauto.
Qed.
Global Instance variant_le_refl : Reflexive variant_le.
Proof. intros []. split; [done|]. simpl. intros. split; [done|lia]. Qed.
Global Instance variant_le_trans : Transitive variant_le.
Proof.
  intros v w x [Hw Hle] [Hx Hle']. split.
  - rewrite Hx, Hw. by destruct v.
  - intros Hv. destruct (Hle Hv) as [Hw' ?]. destruct (Hle' Hw'). split; [done|lia].
Qed.
Global Instance graph_le_refl : Reflexive graph_le.
Proof. intros g. split; [done|]. split; [done|]. by split. Qed.
Global Instance graph_le_trans : Transitive graph_le.
Proof.
  intros g h k (? & ? & Hp & Hv) (? & ? & Hp' & Hv').
  split; [congruence|]. split; [congruence|]. split; by etrans.
Qed.

Lemma Forall2_replace {A} (R : relation A) `{!Reflexive R} (pre post : list A) x y :
  R x y -> Forall2 R (pre ++ x :: post) (pre ++ y :: post).
Proof. intros. apply Forall2_app; [done|]. by constructor. Qed.

Lemma apply_op_le g op h : apply_op g op = Ok h -> graph_le g h.
Proof.
  destruct op as [id from to|vid from to]; simpl; intros H.
  - inv_result. destruct (modify_first_Ok _ _ _ _ _ ltac:(eassumption))
      as (pre & p & q & post & Hl & -> & _ & _ & Hf).
    unfold set_package_state_op in Hf. inv_result.
    match goal with Ht : WorkPackageState_transition _ _ = Ok _ |- _ =>
      apply WorkPackageState_transition_target in Ht as [-> He] end.
    split; [done|]. split; [done|]. split; [|done]. simpl. rewrite Hl.
    apply Forall2_replace; [apply _|]. split; [done|].
    eexists [to]. econstructor; [done|constructor].
  - inv_result. destruct (modify_first_Ok _ _ _ _ _ ltac:(eassumption))
      as (pre & p & q & post & Hl & -> & _ & _ & Hf).
    unfold bump_fence_op in Hf. inv_result.
    split; [done|]. split; [done|]. split; [done|]. simpl. rewrite Hl.
    apply Forall2_replace; [apply _|]. split; [done|]. simpl.
    unfold is_u64, u64_saturating_add, u64_max in *. lia.
Qed.

Lemma apply_ops_le g ops h : apply_ops g ops = Ok h -> graph_le g h.
Proof.
  revert g. induction ops as [|op ops IH]; intros g H; simpl in H.
  { by inv_result. }
  inv_result. etrans; [by eapply apply_op_le|by apply IH].
Qed.

(** The package or variant that an operation is about. *)
Definition op_subject (op : GraphOp) : WorkPackageId + VariantId :=
  match op with
  | SetPackageState id _ _ => inl id
  | BumpFence v _ _ => inr v
  end.

Lemma existsb_true_iff {A} (f : A -> bool) l :
  existsb f l = true <-> exists x, x ∈ l /\ f x = true.
Proof.
  rewrite existsb_exists. split; intros (x & Hx & Hf); exists x;
    (split; [by apply list_elem_of_In|done]).
Qed.

Lemma apply_op_applied g op h : apply_op g op = Ok h -> op_applied h op = true.
Proof.
  destruct op as [id from to|vid from to]; simpl; intros H; inv_result;
    destruct (modify_first_Ok _ _ _ _ _ ltac:(eassumption))
      as (pre & p & q & post & Hl & -> & _ & Hsel & Hf);
    apply bool_decide_eq_true in Hsel.
  - unfold set_package_state_op in Hf. inv_result.
    match goal with Ht : WorkPackageState_transition _ _ = Ok _ |- _ =>
      apply WorkPackageState_transition_target in Ht as [-> He] end.
    apply existsb_true_iff. eexists. split; [simpl; apply elem_of_app; right; left|].
    simpl. by rewrite !bool_decide_true.
  - unfold bump_fence_op in Hf. inv_result.
    apply existsb_true_iff. eexists. split; [simpl; apply elem_of_app; right; left|].
    simpl. by rewrite !bool_decide_true.
Qed.

(** Operations on other subjects keep an operation applied. *)
Lemma apply_op_frame g op h op' :
  apply_op g op = Ok h -> op_subject op <> op_subject op' ->
  op_applied g op' = true -> op_applied h op' = true.
Proof.
  assert (Hmid : forall {A} (pre post : list A) x y (f : A -> bool),
    f x = false -> existsb f (pre ++ x :: post) = true -> existsb f (pre ++ y :: post) = true).
  { intros A pre post x y f Hx. rewrite !existsb_true_iff.
    intros (z & Hz & Hf). exists z. split; [|done].
    apply elem_of_app in Hz as [Hz|Hz]; [by apply elem_of_app; left|].
    apply elem_of_cons in Hz as [->|Hz]; [congruence|].
    apply elem_of_app. right. by right. }
  destruct op as [id from to|vid from to]; simpl; intros H Hs Happ; inv_result;
    destruct (modify_first_Ok _ _ _ _ _ ltac:(eassumption))
      as (pre & p & q & post & Hl & -> & _ & Hsel & Hf);
    apply bool_decide_eq_true in Hsel; destruct op' as [id' f' t'|v' f' t'];
    simpl in *; try done; rewrite Hl in Happ; eapply Hmid; try exact Happ;
    rewrite bool_decide_false; [done| |done|]; congruence.
Qed.

Lemma apply_ops_applied g ops h :
  NoDup (op_subject <$> ops) -> apply_ops g ops = Ok h ->
  forallb (op_applied h) ops = true.
Proof.
  assert (Hkeep : forall ops g h op, op_subject op ∉ op_subject <$> ops ->
    apply_ops g ops = Ok h -> op_applied g op = true -> op_applied h op = true).
  { clear. induction ops as [|o ops IH]; intros g h op Hn H Ha; simpl in H.
    { by inv_result. }
    inv_result. rewrite fmap_cons, not_elem_of_cons in Hn. destruct Hn as [Hne Hn].
    eapply IH; [done|done|]. by eapply apply_op_frame. }
  revert g. induction ops as [|o ops IH]; intros g Hnd H; simpl in *; [done|].
  inv_result. apply NoDup_cons in Hnd as [Hn Hnd].
  apply andb_true_iff. split; [|by eapply IH].
  eapply Hkeep; [done|done|]. by eapply apply_op_applied.
Qed.

(** ** Properties *)

(** A graph delta that is accepted keeps the mission, the plan and every
    package and variant identity; each package moves only along edges of the
    work-package machine and no fence counter ever decreases. A delta whose
    operations concern distinct subjects is idempotent: evaluating it again
    on its own result returns that result unchanged. *)
Theorem graph_delta_monotone_and_idempotent `{Blake3} `{Hex} g delta h :
  evaluate_graph_delta g delta = Ok h ->
  graph_le g h /\
  (NoDup (op_subject <$> GraphDelta_ops delta) -> evaluate_graph_delta h delta = Ok h).
Proof.
  unfold evaluate_graph_delta. intros Hev.
  destruct (already_applied g delta) eqn:Ha.
  { inv_result. rewrite Ha. done. }
  case_bool_decide as Hd; [|done]. cbn [negb] in Hev.
  split; [by eapply apply_ops_le|].
  intros Hnd. unfold already_applied. by rewrite (apply_ops_applied g _ h).
Qed.

Definition sample_mission : Mission :=
  MkMission (MkId "m") (MkId "o") (MkId "r") "title" "objective" (MkId "acc") MissionActive.
Definition sample_graph (s : WorkPackageState) (fence : Z) : StoredGraph :=
  MkStoredGraph sample_mission (MkPlanRevision (MkId "p") (MkId "m") (MkDigest zero_array32))
    [MkWorkPackage (MkId "w") (MkId "m") (MkId "p") CodeReview "package" s]
    [MkVariant (MkId "v") (MkId "g") (MkId "w") fence].

(** A ready package is leased and its fence raised in one delta. *)
Lemma graph_delta_monotone_and_idempotent_witness :
  let b3 : Blake3 := fun _ => zero_array32 in
  let hx : Hex := {| hex_encode := fun b => b; hex_decode := fun s => Ok s |} in
  let delta := MkGraphDelta (MkDigest zero_array32)
    [SetPackageState (MkId "w") WpReady WpLeased; BumpFence (MkId "v") 3 4] in
  graph_le (sample_graph WpReady 3) (sample_graph WpLeased 4) /\
  evaluate_graph_delta (sample_graph WpLeased 4) delta = Ok (sample_graph WpLeased 4).
Proof.
  intros b3 hx delta.
  edestruct (@graph_delta_monotone_and_idempotent b3 hx (sample_graph WpReady 3) delta
               (sample_graph WpLeased 4)) as [Hle Hidem].
  { vm_compute; reflexivity. }
  split; [exact Hle|]. apply Hidem. apply NoDup_cons.
  split; [|apply NoDup_singleton]. intros [=]%list_elem_of_singleton.
Defined.

(** The durable form of a refused delta loses nothing: decoding the
    failure that was stored for an error gives back the same typed error, so
    a replay returns what the first evaluation returned. *)
Theorem delta_failure_roundtrip `{JsonLaws GraphDeltaCommandResult} (e : LedgerError) body :
  GraphDeltaCommandResult_failed e = Ok body ->
  exists f, GraphDeltaCommandResult_decode body = Ok (DeltaFailed f) /\
    GraphDeltaFailure_into_error f = e.
Proof.
  unfold GraphDeltaCommandResult_failed, GraphDeltaCommandResult_decode.
  intros Hf. inv_result. exists (GraphDeltaFailure_from_error e). split.
  - apply map_err_Ok. by apply of_json_to_json.
  - by destruct e as [| |[]| |].
Qed.

(** With a codec that writes one byte for every value it knows. *)
Lemma delta_failure_roundtrip_witness :
  let e := LedgerDomain (FenceError "3 -> 5") in
  let jx : Json GraphDeltaCommandResult :=
    {| to_json := fun a =>
         match a with
         | DeltaFailed (FailFence m) => Ok m
         | _ => Err "unsupported"
         end;
       of_json := fun s => Ok (DeltaFailed (FailFence s)) |} in
  exists f, GraphDeltaCommandResult_decode "3 -> 5" = Ok (DeltaFailed f) /\
    GraphDeltaFailure_into_error f = e.
Proof.
  intros e jx.
  refine (@delta_failure_roundtrip jx _ e "3 -> 5" eq_refl).
  intros a b. destruct a as [|[]]; intros [=]. by subst.
Defined.
