(* ===== verification/Authority.v ===== *)
(** * Lease observations, authority counters and launch nonces

    Models crates/application/src/authority.rs, authority_revision.rs and the
    pure part of launch_grant/nonce.rs. *)

From S2P Require Import Prelude External Ids States Entities Text Store Records.
From stdpp Require Import options.

Local Open Scope Z_scope.

(** ** The active lease check *)

(** crates/application/src/authority.rs:11-34 (ActiveLeaseSubject) *)
Record ActiveLeaseSubject : Type := MkActiveLeaseSubject {
  als_variant_id : VariantId;
  als_attempt_id : AttemptId;
  als_work_package_id : WorkPackageId;
  als_fence : Z;
  als_runner_id : RunnerId;
  als_runner_epoch : Z;
  als_workspace_id : WorkspaceId;
  als_workspace_nonce : array32;
  als_scope_revision : Z;
  als_context_revision : Z
}.

Global Instance ActiveLeaseSubject_eq_dec : EqDecision ActiveLeaseSubject.
Proof. solve_decision. Defined.

(** crates/application/src/authority.rs:37-52 (ActiveLeaseSubject::from_attempt) *)
Definition ActiveLeaseSubject_from_attempt (a : Attempt) : ActiveLeaseSubject := {|
  als_variant_id := Attempt_variant_id a;
  als_attempt_id := Attempt_id a;
  als_work_package_id := Attempt_work_package_id a;
  als_fence := Attempt_fence a;
  als_runner_id := Attempt_runner_id a;
  als_runner_epoch := Attempt_runner_epoch a;
  als_workspace_id := Attempt_workspace_id a;
  als_workspace_nonce := Attempt_workspace_nonce a;
  als_scope_revision := Attempt_scope_revision a;
  als_context_revision := Attempt_context_revision a
|}.

(** crates/application/src/authority.rs:55-104 (check_active_lease_snapshot) *)
Definition check_active_lease_snapshot `{Chrono} (lease : ActiveLease) (attempt : Attempt)
  (subject : ActiveLeaseSubject) (authoritative_now : string) : result LedgerError unit :=
  heartbeat ← ok_or (parse_rfc3339 (ActiveLease_heartbeat_at lease))
                (LedgerStore "corrupt active lease heartbeat");
  expires ← ok_or (parse_rfc3339 (ActiveLease_expires_at lease))
              (LedgerStore "corrupt active lease expiry");
  now ← ok_or (parse_rfc3339 authoritative_now) (LedgerStore "invalid authority-store time");
  _ ← refuse_if (bool_decide (now < heartbeat) || bool_decide (expires <= heartbeat))
        (LedgerStore "corrupt active lease time window");
  refuse_if
    (bool_decide (expires <= now)
     || negb (permits_online_lease_check (Attempt_state attempt))
     || negb (bool_decide (ActiveLease_variant_id lease = als_variant_id subject))
     || negb (bool_decide (ActiveLease_attempt_id lease = als_attempt_id subject))
     || negb (bool_decide (ActiveLease_fence lease = als_fence subject))
     || negb (bool_decide (ActiveLease_runner_id lease = als_runner_id subject))
     || negb (bool_decide (ActiveLease_runner_epoch lease = als_runner_epoch subject))
     || negb (bool_decide (ActiveLease_workspace_nonce lease = als_workspace_nonce subject))
     || negb (bool_decide (Attempt_variant_id attempt = als_variant_id subject))
     || negb (bool_decide (Attempt_id attempt = als_attempt_id subject))
     || negb (bool_decide (Attempt_work_package_id attempt = als_work_package_id subject))
     || negb (bool_decide (Attempt_fence attempt = als_fence subject))
     || negb (bool_decide (Attempt_runner_id attempt = als_runner_id subject))
     || negb (bool_decide (Attempt_runner_epoch attempt = als_runner_epoch subject))
     || negb (bool_decide (Attempt_workspace_id attempt = als_workspace_id subject))
     || negb (bool_decide (Attempt_workspace_nonce attempt = als_workspace_nonce subject))
     || negb (bool_decide (Attempt_scope_revision attempt = als_scope_revision subject))
     || negb (bool_decide (Attempt_context_revision attempt = als_context_revision subject)))
    (LedgerDomain (StaleAuthority ("active lease does not match Attempt "
       +:+ id_as_str (als_attempt_id subject) +:+ " fence " +:+ pretty (als_fence subject)))).

(** The lease carries the identity of the attempt. *)
Definition lease_of_attempt (l : ActiveLease) (a : Attempt) : Prop :=
  ActiveLease_variant_id l = Attempt_variant_id a /\
  ActiveLease_attempt_id l = Attempt_id a /\
  ActiveLease_fence l = Attempt_fence a /\
  ActiveLease_runner_id l = Attempt_runner_id a /\
  ActiveLease_runner_epoch l = Attempt_runner_epoch a /\
  ActiveLease_workspace_nonce l = Attempt_workspace_nonce a.

Lemma check_active_lease_snapshot_Ok `{Chrono} lease attempt subject now u :
  check_active_lease_snapshot lease attempt subject now = Ok u <->
  exists h e n,
    parse_rfc3339 (ActiveLease_heartbeat_at lease) = Some h /\
    parse_rfc3339 (ActiveLease_expires_at lease) = Some e /\
    parse_rfc3339 now = Some n /\ h <= n < e /\
    permits_online_lease_check (Attempt_state attempt) = true /\
    subject = ActiveLeaseSubject_from_attempt attempt /\
    lease_of_attempt lease attempt.
Proof.
  unfold check_active_lease_snapshot, lease_of_attempt, ActiveLeaseSubject_from_attempt. split.
  - intros Hc. inv_result. eexists _, _, _. do 3 (split; [eassumption|]).
    split; [lia|]. split; [done|]. split; [destruct subject; simpl in *; congruence|].
    split_and!; congruence.
  - intros (h & e & n & -> & -> & -> & Hw & Hst & -> & Hl & ? & ? & ? & ? & ?).
    run_result. rewrite (bool_decide_false (n < h)), (bool_decide_false (e <= h)),
      (bool_decide_false (e <= n)) by lia. run_result. simpl.
    rewrite Hst, !bool_decide_true by done. by destruct u.
Qed.

(** ** Authority counters *)

Definition MAX_SQLITE_INTEGER : Z := i64_max.

(** crates/application/src/authority_revision.rs:10-16 (AuthorityRevisionError) *)
Inductive AuthorityRevisionError : Type := AuthorityInvalid (msg : string).

(** crates/application/src/authority_revision.rs:28-45 (NormalizedAuthority) *)
Record NormalizedAuthority : Type := MkNormalizedAuthority {
  na_graph_revision : Z;
  na_workspace_generation : Z;
  na_scope_digest : string;
  na_policy_generation : Z;
  na_routing_generation : Z;
  na_authority_epoch : Z;
  na_freeze_generation : Z
}.

(** crates/application/src/authority_revision.rs:79-137 (NormalizedAuthority::new) *)
Definition NormalizedAuthority_new (graph_revision workspace_generation : Z)
  (scope_digest : string)
  (policy_generation routing_generation authority_epoch freeze_generation : Z)
  : result AuthorityRevisionError NormalizedAuthority :=
  let counters := [graph_revision; workspace_generation; policy_generation;
                   routing_generation; authority_epoch; freeze_generation] in
  _ ← refuse_if (bool_decide (graph_revision = 0) || bool_decide (workspace_generation = 0)
                 || bool_decide (policy_generation = 0) || bool_decide (routing_generation = 0)
                 || bool_decide (authority_epoch = 0))
        (AuthorityInvalid "authority counters cannot be zero");
  _ ← refuse_if (existsb (fun value => bool_decide (MAX_SQLITE_INTEGER < value)) counters)
        (AuthorityInvalid ("authority counters cannot exceed " +:+ pretty MAX_SQLITE_INTEGER));
  _ ← refuse_if (negb (is_hex_64 scope_digest))
        (AuthorityInvalid "scope digest must be 64 lowercase hex characters");
  mret (MkNormalizedAuthority graph_revision workspace_generation scope_digest
          policy_generation routing_generation authority_epoch freeze_generation).

(** crates/application/src/authority_revision.rs:181-189 (NormalizedAuthority::genesis) *)
Definition NormalizedAuthority_genesis : NormalizedAuthority :=
  MkNormalizedAuthority 1 1 (String.concat EmptyString (replicate 64 "0")) 1 1 1 0.

(** [genesis] calls [new] and its `expect` never panics. *)
Lemma genesis_new :
  NormalizedAuthority_new 1 1 (String.concat EmptyString (replicate 64 "0")) 1 1 1 0
  = Ok NormalizedAuthority_genesis.
Proof. reflexivity. Qed.

(** ** Launch nonces *)

(** crates/harness-core/src/launch_grant/nonce.rs:8-19 (NonceConsumption) *)
Inductive NonceConsumption : Type :=
| ConsumedOutcome | ReplayedOutcome | UnknownOutcome | ExpiredOutcome.

Global Instance NonceConsumption_eq_dec : EqDecision NonceConsumption.
Proof. solve_decision. Defined.

(** crates/application/src/launch_grant/nonce.rs:12-27 (LaunchGrantNonceRecord) *)
Record LaunchGrantNonceRecord : Type := MkLaunchGrantNonceRecord {
  lgn_grant_nonce : string;
  lgn_grant_id : string;
  lgn_attempt_id : AttemptId;
  lgn_attempt_fence : Z;
  lgn_expires_at_unix_ms : Z;
  lgn_issued_at : string
}.

(** crates/application/src/launch_grant/nonce.rs:50-57 (StoredLaunchGrantNonce) *)
Record StoredLaunchGrantNonce : Type := MkStoredLaunchGrantNonce {
  sln_record : LaunchGrantNonceRecord;
  sln_consumed_at : option string
}.

(** crates/application/src/launch_grant/nonce.rs:30-47 (LaunchGrantNonceRecord::validate) *)
Definition LaunchGrantNonceRecord_validate (r : LaunchGrantNonceRecord)
  : result LedgerError unit :=
  refuse_if (negb (is_hex_64 (lgn_grant_nonce r)) || negb (is_hex_64 (lgn_grant_id r))
             || bool_decide (lgn_attempt_fence r = 0)
             || bool_decide (lgn_expires_at_unix_ms r = 0)
             || is_empty (lgn_issued_at r))
    (LedgerStore "launch grant nonce record is malformed").

(** crates/application/src/launch_grant/nonce.rs:116-132 (classify_stored_nonce) *)
Definition classify_stored_nonce (stored : option StoredLaunchGrantNonce)
  (attempt_id : AttemptId) (now_unix_ms : Z) : NonceConsumption :=
  match stored with
  | None => UnknownOutcome
  | Some stored =>
      if negb (bool_decide (lgn_attempt_id (sln_record stored) = attempt_id))
      then UnknownOutcome
      else if bool_decide (is_Some (sln_consumed_at stored)) then ReplayedOutcome
      else if bool_decide (lgn_expires_at_unix_ms (sln_record stored) <= now_unix_ms)
      then ExpiredOutcome
      else ConsumedOutcome
  end.

Lemma classify_consumed stored attempt now :
  classify_stored_nonce stored attempt now = ConsumedOutcome <->
  exists r, stored = Some (MkStoredLaunchGrantNonce r None) /\
    lgn_attempt_id r = attempt /\ now < lgn_expires_at_unix_ms r.
Proof.
  unfold classify_stored_nonce. split.
  - destruct stored as [[r c]|]; [|done]. simpl. repeat case_bool_decide; simpl; try done.
    destruct c as [c|]; [exfalso; eauto|]. intros _. exists r. split; [done|]. split; [done|lia].
  - intros (r & -> & Ha & Hn). simpl. rewrite (bool_decide_true _ Ha). simpl. by rewrite bool_decide_false by lia.
Qed.
