(* ===== verification/LaunchGrants.v ===== *)
(** * Signed launch grants and their single use

    Models crates/harness-core/src/launch_grant/keys.rs, verify.rs, nonce.rs
    and the envelope of claims.rs. The PASETO v4.public tokens of pasetors are
    an interface. *)

From S2P Require Import Prelude External Ids Text Framing HarnessErrors Canonical LaunchClaims.
From S2P Require Import Store Records Authority.
From stdpp Require Import options.

Local Open Scope Z_scope.

(** ** Tokens *)

(** pasetors: keys from raw bytes, the public half of a secret, and signing
    and verification with a footer and an implicit assertion. Verification
    gives the payload of the token. *)
Class Paseto := {
  SecretKey : Type;
  PublicKey : Type;
  UntrustedToken : Type;
  secret_from : bytes -> option SecretKey;
  secret_as_bytes : SecretKey -> bytes;
  public_of_secret : SecretKey -> option PublicKey;
  public_from : bytes -> option PublicKey;
  public_as_bytes : PublicKey -> bytes;
  token_sign : SecretKey -> bytes -> bytes -> bytes -> option string;
  token_from : string -> option UntrustedToken;
  token_verify : PublicKey -> UntrustedToken -> bytes -> bytes -> option bytes
}.

Definition TOKEN_PREFIX : string := "v4.public.".

Definition token_byte_ok (a : Ascii.ascii) : bool :=
  is_ascii_alphanumeric a || str_contains_char a ".-_".

(** A signed token is framed, carries its payload, and verifies with the
    public half of its key, its footer and its assertion. *)
Class PasetoLaws `{Paseto} : Prop := {
  sign_verifies sk pk payload footer assertion token :
    public_of_secret sk = Some pk ->
    token_sign sk payload footer assertion = Some token ->
    exists u, token_from token = Some u /\ token_verify pk u footer assertion = Some payload;
  sign_framed sk payload footer assertion token :
    token_sign sk payload footer assertion = Some token ->
    starts_with TOKEN_PREFIX token = true /\ string_all token_byte_ok token = true /\
    str_len payload <= str_len token;
  public_bytes_from pk : public_from (public_as_bytes pk) = Some pk;
  secret_bytes_from sk : secret_from (secret_as_bytes sk) = Some sk
}.

Definition SIGNING_KEY_BYTES : Z := 64.
Definition VERIFICATION_KEY_BYTES : Z := 32.

Definition all_zero (b : bytes) : bool := string_all (fun a => bool_decide (byte_val a = 0)) b.

(** crates/harness-core/src/launch_grant/claims.rs:327-339 (SignedLaunchGrant) *)
Record SignedLaunchGrant : Type := MkSignedLaunchGrant {
  sg_schema_version : string;
  sg_issuer : string;
  sg_key_id : string;
  sg_paseto : string
}.

(** crates/harness-core/src/launch_grant/claims.rs:342-365 (SignedLaunchGrant::validate_envelope) *)
Definition validate_envelope (g : SignedLaunchGrant) : result HarnessError unit :=
  _ ← refuse_if (negb (bool_decide (sg_schema_version g = LAUNCH_GRANT_SCHEMA_VERSION)))
        (HeLaunchGrantInvalid "envelope schema_version must be v1alpha1");
  _ ← validate_label "issuer" (sg_issuer g);
  _ ← validate_label "key_id" (sg_key_id g);
  refuse_if (negb (starts_with TOKEN_PREFIX (sg_paseto g))
             || bool_decide (MAX_TOKEN_BYTES < str_len (sg_paseto g))
             || negb (string_all token_byte_ok (sg_paseto g)))
    (HeLaunchGrantInvalid "launch grant must be a bounded compact PASETO v4.public token").

(** crates/harness-core/src/launch_grant/claims.rs:378-386 (LaunchGrantFooter) *)
Record LaunchGrantFooter : Type := MkLaunchGrantFooter {
  lf_schema_version : string;
  lf_issuer : string;
  lf_key_id : string;
  lf_purpose : string
}.

(** crates/harness-core/src/launch_grant/claims.rs:389-396 (LaunchGrantFooter::new) *)
Definition LaunchGrantFooter_new (issuer key_id : string) : LaunchGrantFooter :=
  MkLaunchGrantFooter LAUNCH_GRANT_SCHEMA_VERSION issuer key_id LAUNCH_GRANT_KEY_PURPOSE.

(** The external code that grants rest on. *)
Class GrantExt := {
  gx_paseto :: Paseto;
  gx_utf8 :: Utf8Error;
  gx_claims :: Canon LaunchGrantClaims;
  gx_footer :: Canon LaunchGrantFooter
}.

(** The keys, for a type of secrets and one of public halves. *)
(** crates/harness-core/src/launch_grant/keys.rs:21-27 (LaunchGrantSigningKey) *)
Record SigningKeyOf (Secret : Type) : Type := MkLaunchGrantSigningKey {
  sk_issuer : string;
  sk_key_id : string;
  sk_secret : Secret;
  sk_public_hex : string
}.
Arguments MkLaunchGrantSigningKey {Secret} _ _ _ _.
Arguments sk_issuer {Secret} _.
Arguments sk_key_id {Secret} _.
Arguments sk_secret {Secret} _.
Arguments sk_public_hex {Secret} _.

(** crates/harness-core/src/launch_grant/keys.rs:139-146 (LaunchGrantVerificationKey) *)
Record VerificationKeyOf (Public : Type) : Type := MkLaunchGrantVerificationKey {
  vk_issuer : string;
  vk_key_id : string;
  vk_public : Public;
  vk_public_hex : string
}.
Arguments MkLaunchGrantVerificationKey {Public} _ _ _ _.
Arguments vk_issuer {Public} _.
Arguments vk_key_id {Public} _.
Arguments vk_public {Public} _.
Arguments vk_public_hex {Public} _.

Abbreviation LaunchGrantSigningKey := (SigningKeyOf SecretKey).
Abbreviation LaunchGrantVerificationKey := (VerificationKeyOf PublicKey).

Section Keys.
Context `{Blake3} `{Hex} `{GrantExt}.

(** crates/harness-core/src/launch_grant/claims.rs:367-375 (SignedLaunchGrant::envelope_digest) *)
Definition envelope_digest (g : SignedLaunchGrant) : result HarnessError string :=
  _ ← validate_envelope g;
  hash_framed_bytes LAUNCH_GRANT_ENVELOPE_DOMAIN (sg_paseto g).

(** crates/harness-core/src/launch_grant/claims.rs:176-184 (LaunchGrantClaims::digest) *)
Definition claims_digest (c : LaunchGrantClaims) : result HarnessError string :=
  _ ← validate_shape c;
  hash_canonical LAUNCH_GRANT_CLAIMS_DOMAIN c.

(** The operating system's answer to one request for 32 random bytes. *)
(** crates/harness-core/src/launch_grant/mod.rs:53-72 (fill_random, random_hex_64) *)
Definition random_hex_64 (drawn : result string array32) : result HarnessError string :=
  b ← map_err (fun e => HeLaunchGrantInvalid ("operating-system entropy unavailable: " +:+ e)) drawn;
  mret (hex_encode (array32_bytes b)).

(** crates/harness-core/src/launch_grant/keys.rs:54-75 (LaunchGrantSigningKey::from_bytes) *)
Definition signing_key_from_bytes (issuer key_id : string) (b : bytes)
  : result HarnessError LaunchGrantSigningKey :=
  _ ← validate_label "issuer" issuer;
  _ ← validate_label "key_id" key_id;
  _ ← refuse_if (negb (bool_decide (str_len b = SIGNING_KEY_BYTES)) || all_zero b)
        (HeLaunchGrantInvalid "PASETO v4.public secret keys are 64 nonzero bytes");
  secret ← ok_or (secret_from b) (HeLaunchGrantInvalid "invalid signing key");
  public ← ok_or (public_of_secret secret)
             (HeLaunchGrantInvalid "signing key has no derivable public half");
  mret (MkLaunchGrantSigningKey issuer key_id secret (hex_encode (public_as_bytes public))).

(** [AsymmetricKeyPair::generate] draws a pair from the operating system; the
    drawn secret is an argument. *)
(** crates/harness-core/src/launch_grant/keys.rs:41-52 (LaunchGrantSigningKey::generate) *)
Definition signing_key_generate (entropy : option SecretKey) (issuer key_id : string)
  : result HarnessError LaunchGrantSigningKey :=
  _ ← validate_label "issuer" issuer;
  _ ← validate_label "key_id" key_id;
  secret ← ok_or entropy
    (HeLaunchGrantInvalid "operating-system entropy unavailable for key generation");
  signing_key_from_bytes issuer key_id (secret_as_bytes secret).

(** crates/harness-core/src/launch_grant/keys.rs:164-183 (LaunchGrantVerificationKey::from_bytes) *)
Definition verification_key_from_bytes (issuer key_id : string) (b : bytes)
  : result HarnessError LaunchGrantVerificationKey :=
  _ ← validate_label "issuer" issuer;
  _ ← validate_label "key_id" key_id;
  _ ← refuse_if (negb (bool_decide (str_len b = VERIFICATION_KEY_BYTES)) || all_zero b)
        (HeLaunchGrantInvalid "PASETO v4.public public keys are 32 nonzero bytes");
  public ← ok_or (public_from b) (HeLaunchGrantInvalid "invalid verification key");
  mret (MkLaunchGrantVerificationKey issuer key_id public (hex_encode b)).

(** crates/harness-core/src/launch_grant/keys.rs:149-162 (LaunchGrantVerificationKey::from_hex) *)
Definition verification_key_from_hex (issuer key_id public_hex : string)
  : result HarnessError LaunchGrantVerificationKey :=
  _ ← refuse_if (negb (is_hex_64 public_hex))
        (HeLaunchGrantInvalid "verification key must be 64 lowercase hex characters");
  b ← map_err (fun _ => HeLaunchGrantInvalid "verification key hex") (hex_decode public_hex);
  verification_key_from_bytes issuer key_id b.

(** crates/harness-core/src/launch_grant/keys.rs:101-108 (LaunchGrantSigningKey::verification_key) *)
Definition verification_key (k : LaunchGrantSigningKey)
  : result HarnessError LaunchGrantVerificationKey :=
  verification_key_from_hex (sk_issuer k) (sk_key_id k) (sk_public_hex k).

(** crates/harness-core/src/launch_grant/keys.rs:110-136 (LaunchGrantSigningKey::sign) *)
Definition sign_grant (k : LaunchGrantSigningKey) (claims : LaunchGrantClaims)
  : result HarnessError SignedLaunchGrant :=
  _ ← validate_shape claims;
  _ ← refuse_if (negb (bool_decide (lg_issuer claims = sk_issuer k))
                 || negb (bool_decide (lg_key_id claims = sk_key_id k)))
        (HeLaunchGrantInvalid "claims issuer/key_id do not match the signing key");
  payload ← canonical_json claims;
  footer ← canonical_json (LaunchGrantFooter_new (sk_issuer k) (sk_key_id k));
  paseto ← ok_or (token_sign (sk_secret k) payload footer LAUNCH_GRANT_IMPLICIT_ASSERTION)
             (HeLaunchGrantInvalid "PASETO signing failed");
  mret (MkSignedLaunchGrant LAUNCH_GRANT_SCHEMA_VERSION (sk_issuer k) (sk_key_id k) paseto).

(** crates/harness-core/src/launch_grant/keys.rs:203-237 (LaunchGrantVerificationKey::authenticate) *)
Definition authenticate_grant (k : LaunchGrantVerificationKey) (g : SignedLaunchGrant)
  : result HarnessError LaunchGrantClaims :=
  _ ← validate_envelope g;
  _ ← refuse_if (negb (bool_decide (sg_issuer g = vk_issuer k))
                 || negb (bool_decide (sg_key_id g = vk_key_id k)))
        (HeLaunchGrantKeyUnknown (sg_issuer g) (sg_key_id g)
           "envelope names a different key than the one selected from policy");
  footer ← canonical_json (LaunchGrantFooter_new (vk_issuer k) (vk_key_id k));
  untrusted ← ok_or (token_from (sg_paseto g)) (HeLaunchGrantInvalid "invalid PASETO framing");
  payload ← ok_or (token_verify (vk_public k) untrusted footer LAUNCH_GRANT_IMPLICIT_ASSERTION)
              (HeLaunchGrantInvalid "PASETO signature, footer, or implicit assertion is invalid");
  claims ← decode_canonical payload;
  _ ← validate_shape claims;
  _ ← refuse_if (negb (bool_decide (lg_issuer claims = vk_issuer k))
                 || negb (bool_decide (lg_key_id claims = vk_key_id k)))
        (HeLaunchGrantInvalid "signed claims issuer/key_id do not match the footer");
  mret claims.
End Keys.

(** ** The nonce port and verification *)

(** crates/harness-core/src/launch_grant/nonce.rs:21-34 (LaunchGrantNonceLedger) *)
Class LaunchGrantNonceLedger (S : Type) :=
  consume_nonce : string -> string -> Z -> stateful S HarnessError NonceConsumption.

(** crates/harness-core/src/launch_grant/verify.rs:12-19 (VerifiedLaunchGrant) *)
Record VerifiedLaunchGrant : Type := MkVerifiedLaunchGrant {
  vg_claims : LaunchGrantClaims;
  vg_envelope_digest : string
}.

Section Verify.
Context `{Blake3} `{Hex} `{GrantExt} {S : Type} `{!LaunchGrantNonceLedger S}.

(** crates/harness-core/src/launch_grant/verify.rs:51-71 (verify_launch_grant, checks) *)
Definition check_launch_grant (grant : SignedLaunchGrant) (key : LaunchGrantVerificationKey)
  (e : LaunchGrantExpectation) : result HarnessError VerifiedLaunchGrant :=
  digest ← envelope_digest grant;
  claims ← authenticate_grant key grant;
  _ ← check_subject e claims;
  let '(not_before, expires_at) := grant_window claims in
  _ ← refuse_if (bool_decide (le_now_unix_ms e < not_before))
        (HeLaunchGrantNotYetValid not_before);
  _ ← refuse_if (bool_decide (expires_at <= le_now_unix_ms e))
        (HeLaunchGrantExpired expires_at);
  _ ← refuse_if (negb (pob_live_admission_enabled (le_policy e)))
        (HePolicyLiveAdmissionDisabled (pob_policy_generation (le_policy e))
           "sandbox_policy.live_admission_enabled");
  mret (MkVerifiedLaunchGrant claims digest).

(** crates/harness-core/src/launch_grant/verify.rs:35-89 (verify_launch_grant) *)
Definition verify_launch_grant (grant : SignedLaunchGrant) (key : LaunchGrantVerificationKey)
  (e : LaunchGrantExpectation) : stateful S HarnessError VerifiedLaunchGrant :=
  verified ← pure_step (check_launch_grant grant key e);
  let claims := vg_claims verified in
  outcome ← consume_nonce (lg_grant_nonce claims) (lg_attempt_id claims) (le_now_unix_ms e);
  pure_step (match outcome with
  | ConsumedOutcome => Ok verified
  | ReplayedOutcome => Err (HeLaunchGrantReplayed (lg_grant_id claims))
  | ExpiredOutcome => Err (HeLaunchGrantExpired (lg_expires_at_unix_ms claims))
  | UnknownOutcome =>
      Err (HeLaunchGrantInvalid "grant nonce was never registered for this Attempt")
  end).
End Verify.

(** ** The harness's own nonce ledger *)

(** crates/harness-core/src/launch_grant/nonce.rs:36-41 (MemoryNonceRecord) *)
Record GrantNonceRecord : Type := MkGrantNonceRecord {
  gnr_attempt_id : string;
  gnr_expires_at_unix_ms : Z;
  gnr_consumed : bool
}.

(** crates/harness-core/src/launch_grant/nonce.rs:43-47 (MemoryNonceLedger) *)
Record GrantNonceLedger : Type := MkGrantNonceLedger {
  gnl_records : gmap string GrantNonceRecord
}.

(** crates/harness-core/src/launch_grant/nonce.rs:56-70 (MemoryNonceLedger::register) *)
Definition register_grant_nonce (nonce attempt_id : string) (expires_at_unix_ms : Z)
  (l : GrantNonceLedger) : GrantNonceLedger * bool :=
  if bool_decide (is_Some (gnl_records l !! nonce)) then (l, false)
  else (MkGrantNonceLedger (<[nonce := MkGrantNonceRecord attempt_id expires_at_unix_ms false]>
          (gnl_records l)), true).

(** crates/harness-core/src/launch_grant/nonce.rs:72-78 (MemoryNonceLedger::is_consumed) *)
Definition grant_nonce_consumed (l : GrantNonceLedger) (nonce : string) : bool :=
  match gnl_records l !! nonce with Some record => gnr_consumed record | None => false end.

(** crates/harness-core/src/launch_grant/nonce.rs:82-102 (MemoryNonceLedger::consume_nonce) *)
Definition consume_grant_nonce (nonce attempt_id : string) (now_unix_ms : Z)
  : stateful GrantNonceLedger HarnessError NonceConsumption := fun l =>
  match gnl_records l !! nonce with
  | None => (l, Ok UnknownOutcome)
  | Some record =>
      if negb (bool_decide (gnr_attempt_id record = attempt_id)) then (l, Ok UnknownOutcome)
      else if gnr_consumed record then (l, Ok ReplayedOutcome)
      else if bool_decide (gnr_expires_at_unix_ms record <= now_unix_ms) then
        (l, Ok ExpiredOutcome)
      else (MkGrantNonceLedger (<[nonce := MkGrantNonceRecord (gnr_attempt_id record)
              (gnr_expires_at_unix_ms record) true]> (gnl_records l)), Ok ConsumedOutcome)
  end.

Global Instance grant_nonce_ledger : LaunchGrantNonceLedger GrantNonceLedger :=
  consume_grant_nonce.

(** ** What verification promises *)

(** A nonce store spends a nonce at most once, and whatever else happens to
    the store leaves a spent nonce spent. *)
Class SingleUseStore (S : Type) `{!LaunchGrantNonceLedger S}
  (other : relation S) (spent : S -> string -> Prop) : Prop := {
  consume_spends s nonce attempt now s' :
    consume_nonce nonce attempt now s = (s', Ok ConsumedOutcome) ->
    ~ spent s nonce /\ spent s' nonce;
  consume_keeps_spent s nonce attempt now s' outcome n :
    consume_nonce nonce attempt now s = (s', outcome) -> outcome <> Panic ->
    spent s n -> spent s' n;
  other_keeps_spent s s' n : other s s' -> spent s n -> spent s' n
}.

Definition registration : relation GrantNonceLedger := fun l l' =>
  exists nonce attempt expires, l' = (register_grant_nonce nonce attempt expires l).1.

Lemma consume_grant_nonce_cases nonce attempt now l :
  (exists record, gnl_records l !! nonce = Some record /\ gnr_consumed record = false /\
     consume_grant_nonce nonce attempt now l =
       (MkGrantNonceLedger (<[nonce := MkGrantNonceRecord (gnr_attempt_id record)
          (gnr_expires_at_unix_ms record) true]> (gnl_records l)), Ok ConsumedOutcome)) \/
  exists o, consume_grant_nonce nonce attempt now l = (l, Ok o) /\ o <> ConsumedOutcome.
Proof.
  unfold consume_grant_nonce. destruct (gnl_records l !! nonce) as [r|]; [|by right; eexists].
  destruct (negb _); [by right; eexists|]. destruct (gnr_consumed r) eqn:?; [by right; eexists|].
  case_bool_decide; [by right; eexists|]. left. by exists r.
Qed.

Lemma consumed_insert nonce r l n :
  gnr_consumed r = true ->
  grant_nonce_consumed (MkGrantNonceLedger (<[nonce := r]> (gnl_records l))) n = true <->
  n = nonce \/ grant_nonce_consumed l n = true.
Proof.
  intros Hr. unfold grant_nonce_consumed. cbn. destruct (decide (n = nonce)) as [->|Hn].
  - rewrite lookup_insert_eq. naive_solver.
  - rewrite lookup_insert_ne by done. naive_solver.
Qed.

(** The harness's ledger is a single-use store under registrations. *)
Global Instance grant_nonce_single_use :
  SingleUseStore GrantNonceLedger registration (fun l n => grant_nonce_consumed l n = true).
Proof.
  split.
  - intros l nonce attempt now l'. change (consume_nonce nonce attempt now l)
      with (consume_grant_nonce nonce attempt now l).
    destruct (consume_grant_nonce_cases nonce attempt now l) as [(r & Hr & Hc & ->)|(o & -> & Ho)].
    + intros [= <-]. split; [unfold grant_nonce_consumed; by rewrite Hr, Hc|].
      apply consumed_insert; auto.
    + intros [= -> ->]. done.
  - intros l nonce attempt now l' outcome n. change (consume_nonce nonce attempt now l)
      with (consume_grant_nonce nonce attempt now l).
    destruct (consume_grant_nonce_cases nonce attempt now l) as [(r & Hr & Hc & ->)|(o & -> & Ho)].
    + intros [= <- <-] _ Hs. apply consumed_insert; auto.
    + by intros [= -> <-] _.
  - intros l l' n (nonce & attempt & expires & ->). unfold register_grant_nonce.
    case_bool_decide as Hk; [done|]. unfold grant_nonce_consumed. cbn.
    destruct (decide (n = nonce)) as [->|Hn]; [|by rewrite lookup_insert_ne].
    apply eq_None_not_Some in Hk. by rewrite Hk.
Qed.

Section Admissions.
Context `{Blake3} `{Hex} `{GrantExt} {S : Type} `{!LaunchGrantNonceLedger S}.
Context (other : relation S) (spent : S -> string -> Prop) `{!SingleUseStore S other spent}.

(** The admitted grants of a run: verifications, with whatever grant, key and
    expectation, interleaved with other steps of the store. *)
Inductive admissions : S -> list (LaunchGrantExpectation * VerifiedLaunchGrant) -> S -> Prop :=
| admit_done s : admissions s [] s
| admit_other s s1 vs s2 : other s s1 -> admissions s1 vs s2 -> admissions s vs s2
| admit_refused grant key e s s1 err vs s2 :
    verify_launch_grant grant key e s = (s1, Err err) ->
    admissions s1 vs s2 -> admissions s vs s2
| admit_verified grant key e s s1 v vs s2 :
    verify_launch_grant grant key e s = (s1, Ok v) ->
    admissions s1 vs s2 -> admissions s ((e, v) :: vs) s2.

Definition admitted_nonce (v : LaunchGrantExpectation * VerifiedLaunchGrant) : string :=
  lg_grant_nonce (vg_claims v.2).

Lemma verify_Ok grant key e s s' v :
  verify_launch_grant grant key e s = (s', Ok v) <->
  check_launch_grant grant key e = Ok v /\
  consume_nonce (lg_grant_nonce (vg_claims v)) (lg_attempt_id (vg_claims v)) (le_now_unix_ms e) s
    = (s', Ok ConsumedOutcome).
Proof.
  unfold verify_launch_grant. rewrite st_bind_Ok. split.
  - intros (s1 & v1 & [-> Hc]%st_pure_Ok & Hv).
    apply st_bind_Ok in Hv as (s2 & o & Ho & [-> Hv]%st_pure_Ok).
    destruct o; try done. by injection Hv as ->.
  - intros [-> Hc]. exists s, v. split; [done|]. apply st_bind_Ok. by exists s', ConsumedOutcome.
Qed.

Lemma verify_keeps_spent grant key e s s' out n :
  verify_launch_grant grant key e s = (s', out) -> out <> Panic -> spent s n -> spent s' n.
Proof using All.
  unfold verify_launch_grant, mbind, stateful_bind, pure_step.
  destruct (check_launch_grant grant key e) as [v|err|]; [|by intros [= <- <-]|by intros [= <- <-]].
  destruct (consume_nonce _ _ _ s) as [s1 [o|err|]] eqn:Hc.
  - intros [= <- <-] _. by eapply consume_keeps_spent.
  - intros [= <- <-] _. by eapply consume_keeps_spent.
  - by intros [= <- <-].
Qed.

Lemma admissions_spent s vs s' :
  admissions s vs s' ->
  (forall n, spent s n -> spent s' n /\ n ∉ admitted_nonce <$> vs).
Proof using All.
  induction 1 as [s|s s1 vs s2 Ho Ha IH|grant key e s s1 err vs s2 Hv Ha IH
                 |grant key e s s1 v vs s2 Hv Ha IH]; intros n Hn.
  - split; [done|]. apply not_elem_of_nil.
  - apply IH. by eapply other_keeps_spent.
  - apply IH. by eapply verify_keeps_spent.
  - assert (spent s1 n) as Hn1 by by eapply verify_keeps_spent.
    destruct (IH n Hn1) as [Hs Hin]. split; [done|]. cbn. apply not_elem_of_cons. split; [|done].
    intros ->. apply verify_Ok in Hv as [_ Hc]. by apply consume_spends in Hc as [Hns _].
Qed.

(** What the checks of verification establish. *)
Lemma check_launch_grant_Ok grant key e v :
  check_launch_grant grant key e = Ok v ->
  authenticate_grant key grant = Ok (vg_claims v) /\
  envelope_digest grant = Ok (vg_envelope_digest v) /\
  check_subject e (vg_claims v) = Ok tt /\
  lg_not_before_unix_ms (vg_claims v) <= le_now_unix_ms e < lg_expires_at_unix_ms (vg_claims v) /\
  pob_live_admission_enabled (le_policy e) = true.
Proof.
  unfold check_launch_grant, grant_window. intros Hc. inv_result.
  repeat match goal with x : unit |- _ => destruct x end. cbn. split_and!; (done || lia).
Qed.

Lemma authenticate_grant_Ok key grant c :
  authenticate_grant key grant = Ok c ->
  exists footer u payload,
    to_jcs (LaunchGrantFooter_new (vk_issuer key) (vk_key_id key)) = Ok footer /\
    token_from (sg_paseto grant) = Some u /\
    token_verify (vk_public key) u footer LAUNCH_GRANT_IMPLICIT_ASSERTION = Some payload /\
    to_jcs c = Ok payload /\ validate_shape c = Ok tt /\
    lg_issuer c = vk_issuer key /\ lg_key_id c = vk_key_id key.
Proof.
  unfold authenticate_grant, canonical_json. intros Ha. inv_result.
  repeat match goal with x : unit |- _ => destruct x end.
  match goal with Hd : decode_canonical _ = _ |- _ => apply decode_canonical_Ok in Hd as [_ Hd] end.
  eexists _, _, _. split_and!; eauto; congruence.
Qed.

Lemma authenticate_labels key grant c :
  authenticate_grant key grant = Ok c ->
  sg_issuer grant = vk_issuer key /\ sg_key_id grant = vk_key_id key.
Proof. unfold authenticate_grant. intros Ha. inv_result. done. Qed.

Lemma validate_shape_attempt c u :
  validate_shape c = Ok u -> id_wire_form "atm" (lg_attempt_id c).
Proof.
  unfold validate_shape, validate_identities. intros Hs.
  do 6 (apply bind_Ok in Hs as (? & _ & Hs)). apply bind_Ok in Hs as (? & Hi & _).
  apply bind_Ok in Hi as (? & Hi & _). apply for_each_Ok in Hi.
  do 5 (apply Forall_cons in Hi as [_ Hi]). apply Forall_cons in Hi as [Hi _].
  apply refuse_if_Ok, negb_false_iff in Hi. unfold parses in Hi.
  destruct (id_parse _) as [i| |] eqn:Hp; [|done|done]. by apply id_parse_Ok in Hp as [_ ?].
Qed.

Lemma validate_window_Ok c u :
  validate_window c = Ok u ->
  lg_issued_at_unix_ms c <= lg_not_before_unix_ms c < lg_expires_at_unix_ms c /\
  lg_expires_at_unix_ms c <= lg_not_before_unix_ms c + MAX_LAUNCH_GRANT_TTL_MS.
Proof. unfold validate_window. intros Hw. inv_result. lia. Qed.

Lemma validate_shape_window c u :
  validate_shape c = Ok u -> validate_window c = Ok u.
Proof. unfold validate_shape. intros Hs. by inv_result. Qed.

Lemma admissions_nodup s vs s' : admissions s vs s' -> NoDup (admitted_nonce <$> vs).
Proof using All.
  induction 1 as [s|s s1 vs s2 Ho Ha IH|grant key e s s1 err vs s2 Hv Ha IH
                 |grant key e s s1 v vs s2 Hv Ha IH]; [by apply NoDup_nil|done|done|].
  cbn. apply NoDup_cons. split; [|done].
  apply verify_Ok in Hv as [_ Hc]. apply consume_spends in Hc as [_ Hs].
  by apply (admissions_spent _ _ _ Ha).
Qed.

(** An admitted grant is authentic and binds exactly what was expected. *)
Definition admission_bound (p : LaunchGrantExpectation * VerifiedLaunchGrant) : Prop :=
  let '(e, v) := p in
  let c := vg_claims v in
  (exists grant key, authenticate_grant key grant = Ok c /\
     envelope_digest grant = Ok (vg_envelope_digest v)) /\
  check_subject e c = Ok tt /\
  lg_not_before_unix_ms c <= le_now_unix_ms e < lg_expires_at_unix_ms c /\
  lg_expires_at_unix_ms c <= lg_not_before_unix_ms c + MAX_LAUNCH_GRANT_TTL_MS /\
  pob_live_admission_enabled (le_policy e) = true.

Lemma admissions_bound s vs s' : admissions s vs s' -> Forall admission_bound vs.
Proof using Type.
  induction 1 as [s|s s1 vs s2 Ho Ha IH|grant key e s s1 err vs s2 Hv Ha IH
                 |grant key e s s1 v vs s2 Hv Ha IH]; [by apply Forall_nil|done|done|].
  apply Forall_cons. split; [|done].
  apply verify_Ok in Hv as [(Hauth & Hd & Hsub & Hw & Hp)%check_launch_grant_Ok _].
  pose proof Hauth as (_ & _ & _ & _ & _ & _ & _ & Hshape & _)%authenticate_grant_Ok.
  apply validate_shape_window, validate_window_Ok in Hshape.
  split; [by exists grant, key|]. split_and!; (done || lia).
Qed.

(** C18: A launch grant admits once. In any run of a single-use nonce store, in
    which verifications of arbitrary grants against arbitrary keys and
    expectations are interleaved with other steps of the store, no nonce is
    admitted twice; and every admission had an authentic token whose claims
    name exactly the expected lease, fence, epochs and policy generation, at
    an instant inside a window of at most fifteen seconds, with live admission
    switched on. *)
Theorem launch_grant_admits_once s vs s' :
  admissions s vs s' ->
  NoDup (admitted_nonce <$> vs) /\
  Forall (fun p => admission_bound p /\
    claims_lease (vg_claims p.2) = le_lease p.1 /\
    lg_policy_generation (vg_claims p.2) = pob_policy_generation (le_policy p.1)) vs.
Proof using All.
  intros Ha. split; [by eapply admissions_nodup|].
  eapply Forall_impl; [by eapply admissions_bound|]. intros [e v] Hb. split; [done|].
  destruct Hb as (_ & Hsub & _). apply check_subject_Ok in Hsub. cbn. by destruct_and!.
Qed.
End Admissions.

Section RoundTrip.
Context `{Blake3} `{Hex} `{GrantExt} `{!HexLaws} `{!PasetoLaws} `{!CanonLaws LaunchGrantClaims}.

Lemma verification_key_of_secret issuer key_id raw sk vk :
  signing_key_from_bytes issuer key_id raw = Ok sk -> verification_key sk = Ok vk ->
  vk_issuer vk = sk_issuer sk /\ vk_key_id vk = sk_key_id sk /\
  public_of_secret (sk_secret sk) = Some (vk_public vk) /\
  validate_label "issuer" (vk_issuer vk) = Ok tt /\ validate_label "key_id" (vk_key_id vk) = Ok tt.
Proof using All.
  unfold signing_key_from_bytes, verification_key, verification_key_from_hex,
    verification_key_from_bytes. intros Hs Hv. inv_result.
  repeat match goal with x : unit |- _ => destruct x end. cbn in *.
  match goal with Hx : hex_decode _ = Ok _ |- _ => rewrite hex_decode_encode in Hx end.
  simplify_eq.
  match goal with Hx : public_from _ = Some _ |- _ => rewrite public_bytes_from in Hx end.
  simplify_eq. done.
Qed.

Lemma sign_authenticate issuer key_id raw sk vk claims g :
  signing_key_from_bytes issuer key_id raw = Ok sk -> verification_key sk = Ok vk ->
  sign_grant sk claims = Ok g -> str_len (sg_paseto g) <= MAX_TOKEN_BYTES ->
  authenticate_grant vk g = Ok claims /\ sg_issuer g = issuer /\ sg_key_id g = key_id.
Proof using All.
  intros Hs Hv Hg Hlen.
  pose proof (verification_key_of_secret _ _ _ _ _ Hs Hv) as (Hi & Hk & Hp & Hli & Hlk).
  assert (sk_issuer sk = issuer /\ sk_key_id sk = key_id) as [Ei Ek].
  { unfold signing_key_from_bytes in Hs. by inv_result. }
  unfold sign_grant, canonical_json in Hg. inv_result.
  repeat match goal with x : unit |- _ => destruct x end. cbn in *.
  match goal with Hx : token_sign _ _ _ _ = Some _ |- _ =>
    pose proof (sign_framed _ _ _ _ _ Hx) as (Hpre & Hby & Hpl);
    destruct (sign_verifies _ _ _ _ _ _ Hp Hx) as (u & Hu & Hver) end.
  split; [|by subst].
  unfold authenticate_grant, validate_envelope, canonical_json. cbn.
  rewrite Hi in Hli. rewrite Hk in Hlk. rewrite !bool_decide_true by done. cbn.
  rewrite Hli. cbn. rewrite Hlk. cbn. rewrite Hpre, Hby. cbn.
  rewrite bool_decide_false by lia. cbn. rewrite Hi, Hk, !bool_decide_true by done. cbn.
  match goal with Hx : to_jcs (LaunchGrantFooter_new _ _) = Ok _ |- _ => rewrite Hx end. cbn.
  rewrite Hu. cbn. rewrite Hver. cbn.
  erewrite decode_encoded; [|done|unfold MAX_TOKEN_BYTES, MAX_CANONICAL_BYTES in *; lia]. cbn.
  match goal with Hx : validate_shape claims = Ok _ |- _ => rewrite Hx end. cbn.
  by rewrite !bool_decide_true.
Qed.
(** What the operator key signs, the published key authenticates: a grant
    signed with a loaded key, whose token keeps the envelope bound, is
    accepted by the verification key derived from it, and the authenticated
    claims are the signed ones; an envelope with another issuer or key label is
    refused by that key, whatever token it carries. *)
Theorem signed_grant_authenticates issuer key_id raw sk vk claims g :
  signing_key_from_bytes issuer key_id raw = Ok sk -> verification_key sk = Ok vk ->
  sign_grant sk claims = Ok g -> str_len (sg_paseto g) <= MAX_TOKEN_BYTES ->
  authenticate_grant vk g = Ok claims /\
  (forall g', is_ok (authenticate_grant vk g') = true ->
     sg_issuer g' = issuer /\ sg_key_id g' = key_id).
Proof using All.
  intros Hs Hv Hg Hlen.
  destruct (sign_authenticate _ _ _ _ _ _ _ Hs Hv Hg Hlen) as (Ha & <- & <-).
  split; [done|]. intros g' Hg'.
  destruct (authenticate_grant vk g') as [c| |] eqn:Hc; [|done|done].
  pose proof (authenticate_labels _ _ _ Hc) as [-> ->].
  by destruct (authenticate_labels _ _ _ Ha) as [-> ->].
Qed.
End RoundTrip.
