(* ===== verification/Recovery.v ===== *)
(** * Restart recovery of external effects: claims and transitions

    Models crates/application/src/effect_recovery.rs, its validation.rs, and
    the receipt identity of effects.rs: which unresolved intents may be
    recovered, who may own a recovery, and which transition a claim admits on
    which observation. *)

From S2P Require Import Prelude External Ids States Entities BudgetPolicy Text Store Effects Forge.
From S2P Require Import Canonical LaunchClaims LaunchGrants.
From stdpp Require Import options.

Local Open Scope Z_scope.

Definition EFFECT_RECOVERY_AUTHORITY_SCHEMA : string := "bullet.effect-recovery-authority.v1".
Definition EFFECT_RECOVERY_CLAIM_SCHEMA : string := "bullet.effect-recovery-claim.v1".
Definition EFFECT_RECOVERY_TRANSITION_SCHEMA : string := "bullet.effect-recovery-transition.v1".
(** crates/application/src/effect_recovery.rs:21-22 (LOCAL_BARE_RECOVERY_PROVIDER) *)
Definition LOCAL_BARE_RECOVERY_PROVIDER : string := "local-bare".
(** crates/application/src/effect_recovery.rs:25-26 (MAX_CREATE_RECOVERY_RETRIES) *)
Definition MAX_CREATE_RECOVERY_RETRIES : Z := 1.
Definition RECOVERY_RECEIPT_DOMAIN : string := "bullet.effect-recovery-receipt.v1".

(** crates/application/src/effect_recovery.rs:28-48 (EffectRecoveryDisposition) *)
Inductive EffectRecoveryDisposition : Type :=
| RdUnresolved | RdClaimed | RdRetryReserved | RdReadbackUnknown
| RdAdopted | RdOrphaned | RdQuarantined | RdInvalidated.

(** crates/application/src/effect_recovery.rs:50-58 (EffectRecoveryContainmentReason) *)
Inductive EffectRecoveryContainmentReason : Type := RetrySpentAfterAbsence | ReadbackUnavailable.

Global Instance EffectRecoveryDisposition_eq_dec : EqDecision EffectRecoveryDisposition.
Proof. solve_decision. Defined.
Global Instance EffectRecoveryContainmentReason_eq_dec : EqDecision EffectRecoveryContainmentReason.
Proof. solve_decision. Defined.

(** crates/application/src/effect_recovery.rs:363-405 (EffectRecoveryError) *)
Inductive EffectRecoveryError : Type :=
| RecStore (detail : string)
| RecInvalidClaim (detail : string)
| RecInvalidAuthority (detail : string)
| RecSubjectMismatch (detail : string)
| RecUnsupportedIntent (detail : string)
| RecStaleAuthority (detail : string)
| RecFingerprintMismatch
| RecClaimConflict (detail : string)
| RecUnknownClaim
| RecRetryBudgetExhausted
| RecInvalidTransition (from to : string)
| RecInvalidObservation (detail : string)
| RecEncoding (detail : string).

(** crates/application/src/effect_recovery.rs:408-426 (EffectRecoveryError::reason_code) *)
Definition EffectRecoveryError_reason_code (e : EffectRecoveryError) : string :=
  match e with
  | RecStore _ => "EFFECT_RECOVERY_STORE_FAILURE"
  | RecInvalidClaim _ => "EFFECT_RECOVERY_CLAIM_INVALID"
  | RecInvalidAuthority _ => "EFFECT_RECOVERY_AUTHORITY_INVALID"
  | RecSubjectMismatch _ => "EFFECT_RECOVERY_SUBJECT_MISMATCH"
  | RecUnsupportedIntent _ => "EFFECT_RECOVERY_INTENT_UNSUPPORTED"
  | RecStaleAuthority _ => "EFFECT_RECOVERY_AUTHORITY_STALE"
  | RecFingerprintMismatch => "EFFECT_RECOVERY_FINGERPRINT_MISMATCH"
  | RecClaimConflict _ => "EFFECT_RECOVERY_CLAIM_CONFLICT"
  | RecUnknownClaim => "EFFECT_RECOVERY_CLAIM_UNKNOWN"
  | RecRetryBudgetExhausted => "EFFECT_RECOVERY_RETRY_BUDGET_EXHAUSTED"
  | RecInvalidTransition _ _ => "EFFECT_RECOVERY_TRANSITION_INVALID"
  | RecInvalidObservation _ => "EFFECT_RECOVERY_OBSERVATION_INVALID"
  | RecEncoding _ => "EFFECT_RECOVERY_ENCODING_FAILURE"
  end.

(** crates/application/src/effect_recovery.rs:91-104 (EffectRecoveryDisposition::as_str) *)
Definition EffectRecoveryDisposition_as_str (d : EffectRecoveryDisposition) : string :=
  match d with
  | RdUnresolved => "UNRESOLVED"
  | RdClaimed => "CLAIMED"
  | RdRetryReserved => "RETRY_RESERVED"
  | RdReadbackUnknown => "READBACK_UNKNOWN"
  | RdAdopted => "ADOPTED"
  | RdOrphaned => "ORPHANED"
  | RdQuarantined => "QUARANTINED"
  | RdInvalidated => "INVALIDATED"
  end.

(** crates/application/src/effect_recovery.rs:61-80 (EffectRecoveryDisposition::transition) *)
Definition EffectRecoveryDisposition_transition (from to : EffectRecoveryDisposition)
  : result EffectRecoveryError EffectRecoveryDisposition :=
  match from, to with
  | RdUnresolved, RdClaimed
  | (RdClaimed | RdRetryReserved | RdReadbackUnknown),
    (RdAdopted | RdOrphaned | RdQuarantined | RdInvalidated)
  | (RdClaimed | RdRetryReserved), RdReadbackUnknown
  | (RdClaimed | RdReadbackUnknown), RdRetryReserved => Ok to
  | _, _ => Err (RecInvalidTransition (EffectRecoveryDisposition_as_str from)
                   (EffectRecoveryDisposition_as_str to))
  end.

(** crates/application/src/effect_recovery.rs:82-89 (EffectRecoveryDisposition::is_active) *)
Definition EffectRecoveryDisposition_is_active (d : EffectRecoveryDisposition) : bool :=
  match d with RdClaimed | RdRetryReserved | RdReadbackUnknown => true | _ => false end.

(** crates/application/src/effect_recovery.rs:122-150 (EffectRecoveryAuthority) *)
Record EffectRecoveryAuthority : Type := MkEffectRecoveryAuthority {
  ra_schema_version : string;
  ra_successor_authority_digest : Digest;
  ra_runner_id : RunnerId;
  ra_runner_epoch : Z;
  ra_attempt_id : AttemptId;
  ra_attempt_fence : Z;
  ra_variant_id : VariantId;
  ra_workspace_id : WorkspaceId;
  ra_workspace_nonce : array32;
  ra_authority_epoch : Z;
  ra_freeze_generation : Z;
  ra_restore_epoch : Z
}.

(** crates/application/src/effect_recovery.rs:152-204 (EffectRecoveryClaim) *)
Record EffectRecoveryClaim : Type := MkEffectRecoveryClaim {
  rl_schema_version : string;
  rl_claim_id : string;
  rl_intent : EffectIntentRecord;
  rl_intent_payload_digest : Digest;
  rl_original_attempt_id : AttemptId;
  rl_original_fence : Z;
  rl_successor_authority_digest : Digest;
  rl_successor_authority_fingerprint : Digest;
  rl_recovery_runner_id : RunnerId;
  rl_recovery_runner_epoch : Z;
  rl_recovery_attempt_id : AttemptId;
  rl_recovery_attempt_fence : Z;
  rl_recovery_variant_id : VariantId;
  rl_recovery_workspace_id : WorkspaceId;
  rl_recovery_workspace_nonce : array32;
  rl_authority_epoch : Z;
  rl_freeze_generation : Z;
  rl_restore_epoch : Z;
  rl_claim_generation : Z;
  rl_outbox_sequence : Z;
  rl_disposition : EffectRecoveryDisposition;
  rl_invalidated_from : option EffectRecoveryDisposition;
  rl_claimed_at : string;
  rl_updated_at : string
}.

(** crates/application/src/effect_recovery.rs:277-291 (EffectRecoveryObservation) *)
Record EffectRecoveryObservation : Type := MkEffectRecoveryObservation {
  ro_provider : string;
  ro_remote_identity : string;
  ro_observed_state_hash : option string;
  ro_verification_method : string;
  ro_verdict : ReceiptVerdict
}.

(** crates/application/src/effect_recovery.rs:293-315 (EffectRecoveryTransition) *)
Record EffectRecoveryTransition : Type := MkEffectRecoveryTransition {
  rt_schema_version : string;
  rt_claim_id : string;
  rt_claim_generation : Z;
  rt_authority_fingerprint : Digest;
  rt_from : EffectRecoveryDisposition;
  rt_to : EffectRecoveryDisposition;
  rt_observation : option EffectRecoveryObservation;
  rt_containment_reason : option EffectRecoveryContainmentReason;
  rt_receipt_id : option EffectReceiptId
}.

(** The document whose digest names a recovery receipt. *)
Record RecoveryReceiptSubject : Type := MkRecoveryReceiptSubject {
  rs_schema_version : string;
  rs_effect_intent_id : EffectId;
  rs_intent_payload_digest : Digest;
  rs_observed_remote_identity : string;
  rs_observed_state_hash : option string;
  rs_verification_method : string;
  rs_verification_result : ReceiptVerdict
}.

(** [DateTime::parse_from_rfc3339]: the instant, in nanoseconds since the Unix
    epoch, and the offset in seconds, or the text of the error. *)
Class Rfc3339 := rfc3339_parse : string -> result string (Z * Z).

(** crates/application/src/effect_recovery/validation.rs:488-490 (invalid_claim) *)
Definition invalid_claim (reason : string) : EffectRecoveryError := RecInvalidClaim reason.
(** crates/application/src/effect_recovery/validation.rs:492-494 (invalid_observation) *)
Definition invalid_observation (reason : string) : EffectRecoveryError := RecInvalidObservation reason.

(** crates/application/src/effect_recovery/validation.rs:472-477 (safe) *)
Definition safe (name : string) (value : Z) : result EffectRecoveryError unit :=
  refuse_if (bool_decide (MAX_SAFE_INTEGER < value)) (invalid_claim (name +:+ " exceeds MAX_SAFE_INTEGER")).

(** crates/application/src/effect_recovery/validation.rs:465-470 (positive_safe) *)
Definition positive_safe (name : string) (value : Z) : result EffectRecoveryError unit :=
  _ ← refuse_if (bool_decide (value = 0)) (invalid_claim (name +:+ " must be positive"));
  safe name value.

(** crates/application/src/effect_recovery/validation.rs:496-498 (digest_is_zero) *)
Definition digest_is_zero (d : Digest) : bool := all_zero (array32_bytes (as_bytes d)).

(** crates/application/src/effect_recovery/validation.rs:451-463 (validate_claim_id) *)
Definition validate_claim_id (value : string) : result EffectRecoveryError unit :=
  let body := default EmptyString (strip_prefix "ecl_" value) in
  refuse_if (negb (bool_decide (str_len body = 64)) || negb (string_all is_lower_hex body))
    (invalid_claim "claim id must be ecl_ plus 64 lowercase hex characters").

(** crates/application/src/effect_recovery/validation.rs:438-449 (validate_oid) *)
Definition validate_recovery_oid (name value : string) : result EffectRecoveryError unit :=
  refuse_if (negb (bool_decide (str_len value = 40)) || negb (string_all is_lower_hex value))
    (invalid_observation (name +:+ " must be 40 lowercase hex characters")).

(** crates/application/src/effect_recovery/validation.rs:428-436 (validate_candidate_ref) *)
Definition validate_candidate_ref (value : string) : result EffectRecoveryError unit :=
  let suffix := default EmptyString (strip_prefix CANDIDATE_REF_PREFIX value) in
  match id_parse suffix : result DomainError CandidateId with
  | Ok _ => Ok tt
  | _ => Err (RecUnsupportedIntent "target is outside the Candidate-ref namespace")
  end.

(** crates/application/src/effect_recovery/validation.rs:406-426 (validate_recovery_scope) *)
Definition validate_recovery_scope (intent : EffectIntentRecord) : result EffectRecoveryError unit :=
  _ ← refuse_if (negb (bool_decide (ei_provider intent = LOCAL_BARE_RECOVERY_PROVIDER))
                 || negb (bool_decide (ei_expected_old_oid intent = ZERO_OID))
                 || bool_decide (is_Some (ei_provider_idempotency_key intent)))
        (RecUnsupportedIntent "only local-bare create-only intents are recoverable");
  _ ← validate_candidate_ref (ei_target_identity intent);
  _ ← validate_recovery_oid "desired OID" (ei_desired_state_hash intent);
  _ ← refuse_if (bool_decide (ei_desired_state_hash intent = ZERO_OID)
                 || bool_decide (ei_fence intent = 0))
        (RecUnsupportedIntent "intent desired OID and original fence must be nonzero");
  refuse_if (bool_decide (MAX_CREATE_RECOVERY_RETRIES < ei_unknown_retries intent))
    RecRetryBudgetExhausted.

(** Whether an intent fits an active phase. *)
Definition active_matches (intent : EffectIntentRecord) (phase : EffectRecoveryDisposition) : bool :=
  match phase with
  | RdClaimed => bool_decide (ei_state intent = EfOutcomeUnknown)
                 && bool_decide (ei_unknown_retries intent = 0)
  | RdRetryReserved =>
      (bool_decide (ei_state intent = EfDispatching) || bool_decide (ei_state intent = EfOutcomeUnknown))
      && bool_decide (ei_unknown_retries intent = MAX_CREATE_RECOVERY_RETRIES)
  | RdReadbackUnknown =>
      bool_decide (ei_state intent = EfOutcomeUnknown)
      && bool_decide (ei_unknown_retries intent <= MAX_CREATE_RECOVERY_RETRIES)
  | _ => false
  end.

(** crates/application/src/effect_recovery.rs:242-274 (EffectRecoveryClaim::disposition_state_is_valid) *)
Definition disposition_state_is_valid (c : EffectRecoveryClaim) : bool :=
  let none := bool_decide (rl_invalidated_from c = None) in
  let state s := bool_decide (ei_state (rl_intent c) = s) in
  match rl_disposition c with
  | RdClaimed | RdRetryReserved | RdReadbackUnknown =>
      none && active_matches (rl_intent c) (rl_disposition c)
  | RdInvalidated =>
      match rl_invalidated_from c with
      | Some phase => active_matches (rl_intent c) phase
      | None => false
      end
  | RdAdopted => none && state EfCommitted
  | RdOrphaned => none && state EfOrphanedRemote
  | RdQuarantined => none && state EfQuarantined
  | RdUnresolved => false
  end.

(** crates/application/src/effect_recovery/validation.rs:215-230 (EffectRecoveryClaim::authority_projection) *)
Definition authority_projection (c : EffectRecoveryClaim) : EffectRecoveryAuthority :=
  MkEffectRecoveryAuthority EFFECT_RECOVERY_AUTHORITY_SCHEMA (rl_successor_authority_digest c)
    (rl_recovery_runner_id c) (rl_recovery_runner_epoch c) (rl_recovery_attempt_id c)
    (rl_recovery_attempt_fence c) (rl_recovery_variant_id c) (rl_recovery_workspace_id c)
    (rl_recovery_workspace_nonce c) (rl_authority_epoch c) (rl_freeze_generation c)
    (rl_restore_epoch c).

(** crates/application/src/effect_recovery/validation.rs:36-51 (EffectRecoveryAuthority::validate) *)
Definition EffectRecoveryAuthority_validate (a : EffectRecoveryAuthority)
  : result EffectRecoveryError unit :=
  _ ← refuse_if (negb (bool_decide (ra_schema_version a = EFFECT_RECOVERY_AUTHORITY_SCHEMA))
                 || digest_is_zero (ra_successor_authority_digest a)
                 || all_zero (array32_bytes (ra_workspace_nonce a)))
        (RecInvalidAuthority "recovery authority subject is not admitted");
  _ ← positive_safe "runner epoch" (ra_runner_epoch a);
  _ ← positive_safe "attempt fence" (ra_attempt_fence a);
  _ ← positive_safe "authority epoch" (ra_authority_epoch a);
  _ ← safe "freeze generation" (ra_freeze_generation a);
  safe "restore epoch" (ra_restore_epoch a).

Definition RECOVERY_METHOD : string := "local-bare-read-ref-v1".

(** crates/application/src/effect_recovery/validation.rs:237-267 (EffectRecoveryObservation::validate_for) *)
Definition observation_validate_for (o : EffectRecoveryObservation) (intent : EffectIntentRecord)
  : result EffectRecoveryError unit :=
  _ ← validate_recovery_scope intent;
  _ ← refuse_if (negb (bool_decide (ro_provider o = LOCAL_BARE_RECOVERY_PROVIDER))
                 || negb (bool_decide (ro_remote_identity o = ei_target_identity intent))
                 || negb (bool_decide (ro_verification_method o = RECOVERY_METHOD)))
        (invalid_observation "readback subject or method differs from the intent");
  _ ← match ro_observed_state_hash o with
      | Some oid => validate_recovery_oid "observed OID" oid
      | None => Ok tt
      end;
  let coherent := match ro_verdict o with
    | VerdictMatch => bool_decide (ro_observed_state_hash o = Some (ei_desired_state_hash intent))
    | VerdictAbsent => bool_decide (ro_observed_state_hash o = None)
    | VerdictMismatch => match ro_observed_state_hash o with
                         | Some oid => negb (bool_decide (oid = ei_desired_state_hash intent))
                         | None => false
                         end
    end in
  refuse_if (negb coherent) (invalid_observation "readback value contradicts its verdict").

Section Recovery.
Context `{Blake3} `{Hex} `{Rfc3339}.
Context `{!Json EffectPayload} `{!Json AuthorityToken} `{!Json EffectRecoveryAuthority} `{!Json RecoveryReceiptSubject}.

Definition encoded {A} (r : result DomainError A) : result EffectRecoveryError A :=
  map_err (fun e => RecEncoding (DomainError_display e)) r.

(** crates/application/src/effect_recovery/validation.rs:74-78 (EffectRecoveryAuthority::fingerprint) *)
Definition fingerprint (a : EffectRecoveryAuthority) : result EffectRecoveryError Digest :=
  _ ← EffectRecoveryAuthority_validate a;
  encoded (Digest_of_json a).

(** crates/application/src/effect_recovery/validation.rs:9-34 (EffectRecoveryAuthority::from_token) *)
Definition EffectRecoveryAuthority_from_token (token : AuthorityToken)
    (authority_epoch freeze_generation restore_epoch : Z)
  : result EffectRecoveryError EffectRecoveryAuthority :=
  digest ← encoded (Digest_of_json token);
  let authority := MkEffectRecoveryAuthority EFFECT_RECOVERY_AUTHORITY_SCHEMA digest
    (AuthorityToken_runner_id token) (AuthorityToken_runner_epoch token)
    (AuthorityToken_attempt_id token) (AuthorityToken_attempt_fence token)
    (AuthorityToken_variant_id token) (AuthorityToken_workspace_id token)
    (AuthorityToken_workspace_nonce token) authority_epoch freeze_generation restore_epoch in
  _ ← EffectRecoveryAuthority_validate authority;
  mret authority.

(** crates/application/src/effect_recovery/validation.rs:53-72 (EffectRecoveryAuthority::validate_token) *)
Definition validate_token_binding (a : EffectRecoveryAuthority) (token : AuthorityToken)
  : result EffectRecoveryError unit :=
  digest ← encoded (Digest_of_json token);
  refuse_if (negb (bool_decide (digest = ra_successor_authority_digest a))
             || negb (bool_decide (AuthorityToken_runner_id token = ra_runner_id a))
             || negb (bool_decide (AuthorityToken_runner_epoch token = ra_runner_epoch a))
             || negb (bool_decide (AuthorityToken_attempt_id token = ra_attempt_id a))
             || negb (bool_decide (AuthorityToken_attempt_fence token = ra_attempt_fence a))
             || negb (bool_decide (AuthorityToken_variant_id token = ra_variant_id a))
             || negb (bool_decide (AuthorityToken_workspace_id token = ra_workspace_id a))
             || negb (bool_decide (AuthorityToken_workspace_nonce token = ra_workspace_nonce a)))
    (RecStaleAuthority "successor token differs from its recovery projection").

(** crates/application/src/effect_recovery/validation.rs:479-486 (utc_time) *)
Definition utc_time (name value : string) : result EffectRecoveryError Z :=
  '(instant, offset) ← map_err (fun e => invalid_claim (name +:+ ": " +:+ e)) (rfc3339_parse value);
  _ ← refuse_if (negb (bool_decide (offset = 0))) (invalid_claim (name +:+ " must use UTC"));
  mret instant.

(** crates/application/src/effect_recovery/validation.rs:82-128 (EffectRecoveryClaim::validate) *)
Definition EffectRecoveryClaim_validate (c : EffectRecoveryClaim) : result EffectRecoveryError unit :=
  _ ← refuse_if (negb (bool_decide (rl_schema_version c = EFFECT_RECOVERY_CLAIM_SCHEMA)))
        (invalid_claim "recovery claim schema is not admitted");
  _ ← validate_claim_id (rl_claim_id c);
  _ ← validate_recovery_scope (rl_intent c);
  stable ← encoded (effect_stable_payload_digest (rl_intent c));
  _ ← refuse_if (negb (bool_decide (stable = rl_intent_payload_digest c))
                 || negb (bool_decide (ei_payload_hash (rl_intent c) = to_hex stable))
                 || negb (bool_decide (rl_original_attempt_id c = ei_attempt_id (rl_intent c)))
                 || negb (bool_decide (rl_original_fence c = ei_fence (rl_intent c))))
        (RecSubjectMismatch "claim differs from its immutable intent");
  let authority := authority_projection c in
  _ ← EffectRecoveryAuthority_validate authority;
  fp ← fingerprint authority;
  _ ← refuse_if (negb (bool_decide (fp = rl_successor_authority_fingerprint c))) RecFingerprintMismatch;
  _ ← refuse_if (bool_decide (rl_recovery_attempt_id c = rl_original_attempt_id c)
                 || bool_decide (rl_recovery_attempt_fence c <= rl_original_fence c))
        (invalid_claim "recovery authority is not a successor");
  _ ← positive_safe "claim generation" (rl_claim_generation c);
  _ ← positive_safe "outbox sequence" (rl_outbox_sequence c);
  _ ← refuse_if (bool_decide (rl_disposition c = RdUnresolved))
        (invalid_claim "an unclaimed disposition cannot carry a claim identity");
  _ ← refuse_if (negb (disposition_state_is_valid c))
        (invalid_claim "recovery disposition contradicts intent state or invalidation lineage");
  updated ← utc_time "updated_at" (rl_updated_at c);
  claimed ← utc_time "claimed_at" (rl_claimed_at c);
  refuse_if (bool_decide (updated < claimed)) (invalid_claim "updated_at precedes claimed_at").

(** crates/application/src/effect_recovery/validation.rs:183-213 (EffectRecoveryClaim::validate_owner) *)
Definition validate_owner (c : EffectRecoveryClaim) (a : EffectRecoveryAuthority)
  : result EffectRecoveryError unit :=
  _ ← EffectRecoveryAuthority_validate a;
  _ ← refuse_if (negb (bool_decide (rl_recovery_runner_id c = ra_runner_id a))
                 || negb (bool_decide (rl_recovery_runner_epoch c = ra_runner_epoch a))
                 || negb (bool_decide (rl_recovery_attempt_id c = ra_attempt_id a))
                 || negb (bool_decide (rl_recovery_attempt_fence c = ra_attempt_fence a))
                 || negb (bool_decide (rl_recovery_variant_id c = ra_variant_id a))
                 || negb (bool_decide (rl_recovery_workspace_id c = ra_workspace_id a))
                 || negb (bool_decide (rl_recovery_workspace_nonce c = ra_workspace_nonce a)))
        (RecClaimConflict "active recovery claim belongs to another incarnation");
  _ ← refuse_if (negb (bool_decide (rl_successor_authority_digest c = ra_successor_authority_digest a))
                 || negb (bool_decide (rl_authority_epoch c = ra_authority_epoch a))
                 || negb (bool_decide (rl_freeze_generation c = ra_freeze_generation a))
                 || negb (bool_decide (rl_restore_epoch c = ra_restore_epoch a)))
        (RecStaleAuthority "recovery authority or database epoch moved");
  fp ← fingerprint a;
  refuse_if (negb (bool_decide (rl_successor_authority_fingerprint c = fp))) RecFingerprintMismatch.

(** crates/application/src/effect_recovery/validation.rs:130-146 (EffectRecoveryClaim::validate_readback) *)
Definition validate_readback (c : EffectRecoveryClaim) (intent_id : EffectId)
    (a : EffectRecoveryAuthority) : result EffectRecoveryError unit :=
  _ ← EffectRecoveryClaim_validate c;
  _ ← refuse_if (negb (bool_decide (ei_id (rl_intent c) = intent_id)))
        (RecSubjectMismatch "readback names another effect intent");
  _ ← refuse_if (negb (EffectRecoveryDisposition_is_active (rl_disposition c))) RecUnknownClaim;
  validate_owner c a.

(** crates/application/src/effect_recovery.rs:207-219 (EffectRecoveryClaim::validate_persisted_intent) *)
Definition validate_persisted_intent (c : EffectRecoveryClaim) (persisted : EffectIntentRecord)
  : result EffectRecoveryError unit :=
  _ ← EffectRecoveryClaim_validate c;
  refuse_if (negb (bool_decide (rl_intent c = persisted)))
    (RecSubjectMismatch "claim intent differs from current durable intent").

(** crates/application/src/effect_recovery.rs:221-240 (EffectRecoveryClaim::validate_reserved_retry) *)
Definition validate_reserved_retry (c : EffectRecoveryClaim) (a : EffectRecoveryAuthority)
    (o : EffectRecoveryObservation) : result EffectRecoveryError unit :=
  _ ← validate_readback c (ei_id (rl_intent c)) a;
  _ ← observation_validate_for o (rl_intent c);
  refuse_if (negb (bool_decide (rl_disposition c = RdRetryReserved))
             || negb (bool_decide (ei_unknown_retries (rl_intent c) = MAX_CREATE_RECOVERY_RETRIES))
             || negb (bool_decide (ro_verdict o = VerdictAbsent)))
    (RecInvalidTransition (EffectRecoveryDisposition_as_str (rl_disposition c))
       (EffectRecoveryDisposition_as_str RdRetryReserved)).

(** crates/application/src/effect_recovery/validation.rs:148-181 (EffectRecoveryClaim::validate_generation_after) *)
Definition validate_generation_after (c : EffectRecoveryClaim) (previous : option EffectRecoveryClaim)
  : result EffectRecoveryError unit :=
  _ ← EffectRecoveryClaim_validate c;
  _ ← match previous with Some prior => EffectRecoveryClaim_validate prior | None => Ok tt end;
  match previous with
  | None =>
      if bool_decide (rl_claim_generation c = 1)
         && ((bool_decide (rl_disposition c = RdClaimed)
              && bool_decide (ei_unknown_retries (rl_intent c) = 0))
             || (bool_decide (rl_disposition c = RdReadbackUnknown)
                 && bool_decide (ei_unknown_retries (rl_intent c) = 1)))
      then Ok tt
      else Err (invalid_claim "first claim generation must be one")
  | Some prior =>
      if bool_decide (rl_disposition prior = RdInvalidated)
         && bool_decide (rl_invalidated_from prior = Some (rl_disposition c))
         && bool_decide (ei_id (rl_intent prior) = ei_id (rl_intent c))
         && negb (bool_decide (rl_claim_id prior = rl_claim_id c))
         && bool_decide (u64_checked_add (rl_claim_generation prior) 1 = Some (rl_claim_generation c))
      then Ok tt
      else Err (RecClaimConflict "claim generation is not the next terminal successor")
  end.

(** crates/application/src/effects.rs:157-191 (recovery_receipt_id) *)
Definition recovery_receipt_id (intent : EffectIntentRecord) (observed_remote_identity : string)
    (observed_state_hash : option string) (verification_method : string) (verdict : ReceiptVerdict)
  : result DomainError EffectReceiptId :=
  payload ← effect_stable_payload_digest intent;
  digest ← Digest_of_json (MkRecoveryReceiptSubject RECOVERY_RECEIPT_DOMAIN (ei_id intent) payload
             observed_remote_identity observed_state_hash verification_method verdict);
  mret (id_from_seed (RECOVERY_RECEIPT_DOMAIN +:+ ":" +:+ to_hex digest)).

(** crates/application/src/effect_recovery/validation.rs:269-283 (EffectRecoveryObservation::receipt_id) *)
Definition observation_receipt_id (o : EffectRecoveryObservation) (intent : EffectIntentRecord)
  : result EffectRecoveryError EffectReceiptId :=
  _ ← observation_validate_for o intent;
  encoded (recovery_receipt_id intent (ro_remote_identity o) (ro_observed_state_hash o)
             (ro_verification_method o) (ro_verdict o)).

(** `option.map(f).transpose()?`. *)
Definition receipt_of (o : option EffectRecoveryObservation) (intent : EffectIntentRecord)
  : result EffectRecoveryError (option EffectReceiptId) :=
  match o with
  | Some value => id ← observation_receipt_id value intent; mret (Some id)
  | None => Ok None
  end.

(** The verdict and reason each target disposition admits. *)
Definition check_target (t : EffectRecoveryTransition) (c : EffectRecoveryClaim)
  : result EffectRecoveryError unit :=
  let verdict := ro_verdict <$> rt_observation t in
  match rt_to t with
  | RdRetryReserved =>
      _ ← refuse_if (bool_decide (MAX_CREATE_RECOVERY_RETRIES <= ei_unknown_retries (rl_intent c)))
            RecRetryBudgetExhausted;
      refuse_if (negb (bool_decide (verdict = Some VerdictAbsent)))
        (invalid_observation "retry requires authoritative absence")
  | RdReadbackUnknown | RdInvalidated =>
      refuse_if (negb (bool_decide (verdict = None)) || negb (bool_decide (rt_containment_reason t = None)))
        (invalid_observation "unknown or invalidated recovery cannot carry a verdict")
  | RdAdopted =>
      _ ← refuse_if (negb (bool_decide (verdict = Some VerdictMatch)))
            (invalid_observation "adoption requires an exact desired-state match");
      refuse_if (negb (bool_decide (rt_containment_reason t = None)))
        (invalid_observation "terminal verdict cannot carry a containment reason")
  | RdOrphaned =>
      _ ← refuse_if (negb (bool_decide (verdict = Some VerdictMismatch)))
            (invalid_observation "orphaning requires a conflicting remote OID");
      refuse_if (negb (bool_decide (rt_containment_reason t = None)))
        (invalid_observation "terminal verdict cannot carry a containment reason")
  | RdQuarantined =>
      let spent_absence := bool_decide (rt_from t = RdReadbackUnknown)
        && bool_decide (ei_unknown_retries (rl_intent c) = MAX_CREATE_RECOVERY_RETRIES)
        && bool_decide (verdict = Some VerdictAbsent)
        && bool_decide (rt_containment_reason t = Some RetrySpentAfterAbsence) in
      let unavailable := bool_decide (verdict = None) && bool_decide (rt_from t = RdReadbackUnknown)
        && bool_decide (rt_containment_reason t = Some ReadbackUnavailable) in
      refuse_if (negb spent_absence && negb unavailable)
        (invalid_observation "quarantine lacks an admitted containment predicate")
  | RdUnresolved | RdClaimed =>
      Err (RecInvalidTransition (EffectRecoveryDisposition_as_str (rt_from t))
             (EffectRecoveryDisposition_as_str (rt_to t)))
  end.

(** crates/application/src/effect_recovery/validation.rs:314-403 (EffectRecoveryTransition::validate_for) *)
Definition transition_validate_for (t : EffectRecoveryTransition) (c : EffectRecoveryClaim)
    (a : EffectRecoveryAuthority) : result EffectRecoveryError unit :=
  _ ← refuse_if (negb (bool_decide (rt_schema_version t = EFFECT_RECOVERY_TRANSITION_SCHEMA))
                 || negb (bool_decide (rt_claim_id t = rl_claim_id c))
                 || negb (bool_decide (rt_claim_generation t = rl_claim_generation c))
                 || negb (bool_decide (rt_authority_fingerprint t = rl_successor_authority_fingerprint c))
                 || negb (bool_decide (rt_from t = rl_disposition c)))
        (RecSubjectMismatch "transition differs from its claim");
  _ ← validate_readback c (ei_id (rl_intent c)) a;
  _ ← EffectRecoveryDisposition_transition (rt_from t) (rt_to t);
  _ ← match rt_observation t with
      | Some o => observation_validate_for o (rl_intent c)
      | None => Ok tt
      end;
  _ ← check_target t c;
  expected_receipt ← receipt_of (rt_observation t) (rl_intent c);
  refuse_if (negb (bool_decide (rt_receipt_id t = expected_receipt)))
    (RecSubjectMismatch "transition receipt identity is not canonical").

(** crates/application/src/effect_recovery/validation.rs:287-312 (EffectRecoveryTransition::new) *)
Definition EffectRecoveryTransition_new (c : EffectRecoveryClaim) (a : EffectRecoveryAuthority)
    (to : EffectRecoveryDisposition) (observation : option EffectRecoveryObservation)
    (containment_reason : option EffectRecoveryContainmentReason)
  : result EffectRecoveryError EffectRecoveryTransition :=
  receipt_id ← receipt_of observation (rl_intent c);
  fp ← fingerprint a;
  let request := MkEffectRecoveryTransition EFFECT_RECOVERY_TRANSITION_SCHEMA (rl_claim_id c)
                   (rl_claim_generation c) fp (rl_disposition c) to observation containment_reason
                   receipt_id in
  _ ← transition_validate_for request c a;
  mret request.

(** ** Properties *)

(** What an admitted observation says of the remote. *)
Lemma observation_validate_for_Ok o intent u :
  observation_validate_for o intent = Ok u ->
  validate_recovery_scope intent = Ok tt /\ ro_remote_identity o = ei_target_identity intent
  /\ match ro_verdict o with
     | VerdictMatch => ro_observed_state_hash o = Some (ei_desired_state_hash intent)
     | VerdictAbsent => ro_observed_state_hash o = None
     | VerdictMismatch => exists v, ro_observed_state_hash o = Some v /\ v <> ei_desired_state_hash intent
     end.
Proof.
  unfold observation_validate_for. intros Ho. inv_result.
  repeat match goal with x : unit |- _ => destruct x end. split; [done|].
  split; [done|]. destruct (ro_verdict o); inv_result; try done.
  destruct (ro_observed_state_hash o) as [v|]; [|done]. exists v. by inv_result.
Qed.

Lemma validate_recovery_scope_Ok intent u :
  validate_recovery_scope intent = Ok u ->
  ei_provider intent = "local-bare" /\ ei_expected_old_oid intent = ZERO_OID
  /\ ei_unknown_retries intent <= 1
  /\ exists candidate : CandidateId,
       ei_target_identity intent = CANDIDATE_REF_PREFIX +:+ id_as_str candidate
       /\ id_wire_form "can" (id_as_str candidate).
Proof.
  unfold validate_recovery_scope, validate_candidate_ref. intros Hs. inv_result.
  unfold MAX_CREATE_RECOVERY_RETRIES in *.
  split_and!; [done..|lia|].
  destruct (strip_prefix CANDIDATE_REF_PREFIX (ei_target_identity intent)) as [suffix|] eqn:Hp;
    [|done]. apply strip_prefix_Some in Hp. cbn [default from_option id] in *.
  destruct (id_parse (p:="can") suffix) as [i| |] eqn:Hi; [|done|done].
  apply id_parse_Ok in Hi as [Hi Hw]. exists i. subst suffix. done.
Qed.

Lemma validate_readback_Ok c id a u :
  validate_readback c id a = Ok u ->
  EffectRecoveryClaim_validate c = Ok tt /\ ei_id (rl_intent c) = id
  /\ EffectRecoveryDisposition_is_active (rl_disposition c) = true
  /\ validate_owner c a = Ok tt.
Proof.
  unfold validate_readback. intros Hv. inv_result.
  repeat match goal with x : unit |- _ => destruct x end. by split_and!.
Qed.

Lemma EffectRecoveryClaim_validate_Ok c u :
  EffectRecoveryClaim_validate c = Ok u ->
  validate_recovery_scope (rl_intent c) = Ok tt
  /\ rl_recovery_attempt_id c <> rl_original_attempt_id c
  /\ ei_attempt_id (rl_intent c) = rl_original_attempt_id c
  /\ ei_fence (rl_intent c) < rl_recovery_attempt_fence c
  /\ disposition_state_is_valid c = true.
Proof.
  unfold EffectRecoveryClaim_validate. intros Hv. inv_result.
  repeat match goal with x : unit |- _ => destruct x end.
  split_and!; try done; lia.
Qed.

(** The recovery's owner is a later incarnation than the intent's author. *)
Definition is_successor (c : EffectRecoveryClaim) (a : EffectRecoveryAuthority) : Prop :=
  ra_attempt_id a = rl_recovery_attempt_id c /\ ra_attempt_id a <> ei_attempt_id (rl_intent c)
  /\ ei_fence (rl_intent c) < ra_attempt_fence a.

Lemma validate_readback_successor c id a u : validate_readback c id a = Ok u -> is_successor c a.
Proof.
  intros (Hc & _ & _ & Ho)%validate_readback_Ok.
  apply EffectRecoveryClaim_validate_Ok in Hc as (_ & Hne & Hatt & Hf & _).
  unfold validate_owner in Ho. inv_result. unfold is_successor. split_and!; congruence || lia.
Qed.

(** What a transition to each disposition rests on. *)
Definition transition_grounds (c : EffectRecoveryClaim) (to : EffectRecoveryDisposition)
    (observation : option EffectRecoveryObservation) : Prop :=
  match to with
  | RdAdopted => exists o, observation = Some o
      /\ ro_observed_state_hash o = Some (ei_desired_state_hash (rl_intent c))
  | RdOrphaned => exists o v, observation = Some o /\ ro_observed_state_hash o = Some v
      /\ v <> ei_desired_state_hash (rl_intent c)
  | RdRetryReserved => ei_unknown_retries (rl_intent c) = 0
      /\ exists o, observation = Some o /\ ro_observed_state_hash o = None
  | RdQuarantined => rl_disposition c = RdReadbackUnknown
      /\ (observation = None
          \/ exists o, observation = Some o /\ ro_observed_state_hash o = None
             /\ ei_unknown_retries (rl_intent c) = 1)
  | RdReadbackUnknown | RdInvalidated => observation = None
  | RdUnresolved | RdClaimed => False
  end.

Lemma check_target_grounds t c v u :
  0 <= ei_unknown_retries (rl_intent c) <= 1 -> rt_from t = rl_disposition c ->
  match rt_observation t with
  | Some o => observation_validate_for o (rl_intent c)
  | None => Ok tt
  end = Ok v ->
  check_target t c = Ok u -> transition_grounds c (rt_to t) (rt_observation t).
Proof.
  intros [Hr Hr1] Hfrom Hobs Hct. unfold check_target, MAX_CREATE_RECOVERY_RETRIES in Hct. unfold transition_grounds.
  rewrite Hfrom in Hct.
  destruct (rt_observation t) as [o|] eqn:Eo.
  - apply observation_validate_for_Ok in Hobs as (_ & _ & Hv).
    destruct (rt_to t); cbn [fmap option_fmap option_map] in Hct; inv_result;
      try apply andb_false_iff in Hct as [Hct|Hct]; inv_result; simplify_eq;
      try match goal with Hx : ro_verdict _ = _ |- _ => rewrite Hx in Hv end;
      unfold MAX_CREATE_RECOVERY_RETRIES in *; naive_solver lia.
  - destruct (rt_to t); cbn [fmap option_fmap option_map] in Hct; inv_result;
      try apply andb_false_iff in Hct as [Hct|Hct]; inv_result; naive_solver.
Qed.

(** C31: A recovery transition that can be built at all rests on the remote. Its
    claim is active and owned by the given authority, a successor of the
    intent's author with a higher fence; its intent is a create-only push of a
    candidate ref to the local forge that used at most one retry; its edge is
    one of the recovery machine. An adoption carries an observation of exactly
    the desired object id, an orphaning one of another object id, the single
    retry one of absence with no retry spent, and a quarantine comes only from
    an unknown read-back, with no observation or with absence after the retry
    was spent. *)
Theorem recovery_transition_sound c a to observation reason request :
  0 <= ei_unknown_retries (rl_intent c) ->
  EffectRecoveryTransition_new c a to observation reason = Ok request ->
  rt_from request = rl_disposition c /\ rt_to request = to
  /\ EffectRecoveryDisposition_is_active (rl_disposition c) = true
  /\ EffectRecoveryDisposition_transition (rl_disposition c) to = Ok to
  /\ is_successor c a
  /\ ei_provider (rl_intent c) = "local-bare" /\ ei_expected_old_oid (rl_intent c) = ZERO_OID
  /\ ei_unknown_retries (rl_intent c) <= 1
  /\ (exists candidate : CandidateId,
        ei_target_identity (rl_intent c) = CANDIDATE_REF_PREFIX +:+ id_as_str candidate
        /\ id_wire_form "can" (id_as_str candidate))
  /\ (forall o, observation = Some o -> ro_remote_identity o = ei_target_identity (rl_intent c))
  /\ transition_grounds c to observation.
Proof.
  intros Hnn Hnew. unfold EffectRecoveryTransition_new, transition_validate_for in Hnew. inv_result.
  cbn [rt_from rt_to rt_observation rt_claim_id rt_authority_fingerprint] in *.
  match goal with Hr : validate_readback _ _ _ = Ok _ |- _ =>
    pose proof (validate_readback_successor _ _ _ _ Hr) as Hsucc;
    apply validate_readback_Ok in Hr as (Hc & _ & Hact & _) end.
  apply EffectRecoveryClaim_validate_Ok in Hc as (Hscope & _).
  apply validate_recovery_scope_Ok in Hscope as (Hprov & Hold & Hle & Hcand).
  assert (EffectRecoveryDisposition_transition (rl_disposition c) to = Ok to) as Hedge.
  { match goal with He : EffectRecoveryDisposition_transition _ _ = Ok _ |- _ => revert He end.
    by destruct (rl_disposition c), to; intros [=]. }
  split_and!; try done.
  - intros o ->. by match goal with Ho : observation_validate_for _ _ = Ok _ |- _ =>
      apply observation_validate_for_Ok in Ho as (_ & ? & _) end.
  - match goal with Ho : match observation with _ => _ end = Ok _, Ht : check_target ?t c = Ok _ |- _ =>
      exact (check_target_grounds t c _ _ (conj Hnn Hle) eq_refl Ho Ht) end.
Qed.

End Recovery.
