(* ===== verification/Dispatch.v ===== *)
(** * Command dispatch, operator projections and scope admission

    Models crates/application/src/command_dispatch.rs, operator_commands.rs
    with projection.rs, and authority_scope/: the claim of a runner on a
    public command and its component completion, the check that the durable
    rows of a command tell one story, and the admission of a scope grant. *)

From S2P Require Import Prelude External Ids States Entities Framing Merkle BudgetPolicy Records Text Store.
From S2P Require Import HarnessErrors Paths Proposal Canonical Submissions Commands Recovery.
From stdpp Require Import options.

Local Open Scope Z_scope.

(** crates/application/src/command_dispatch.rs:13-14 (COMMAND_DISPATCH_CLAIM_SCHEMA) *)
Definition COMMAND_DISPATCH_CLAIM_SCHEMA : string := "bullet.command-dispatch-claim.v1".
(** crates/application/src/command_dispatch.rs:15-16 (COMPONENT_COMMAND_COMPLETION_SCHEMA) *)
Definition COMPONENT_COMMAND_COMPLETION_SCHEMA : string := "bullet.component-command-completion.v1".
Definition COMPONENT_EVIDENCE_CLASS : string := "COMPONENT_PROOF".
Definition COMPONENT_SIGNING_TRUST : string := "UNSIGNED_FIXTURE".
Definition COMPLETION_DIGEST_DOMAIN : bytes := "bullet-kernel.component-command-completion.v1".

(** ** Claims *)

(** crates/application/src/command_dispatch.rs:277-298 (CommandDispatchError) *)
Inductive CommandDispatchError : Type :=
| CdStore (reason : string)
| CdInvalidClaim (reason : string)
| CdInvalidCompletion (reason : string)
| CdSubjectMismatch (reason : string)
| CdStaleAuthority (reason : string)
| CdUnknownClaim.

(** crates/application/src/command_dispatch.rs:301-312 (CommandDispatchError::reason_code) *)
Definition CommandDispatchError_reason_code (e : CommandDispatchError) : string :=
  match e with
  | CdStore _ => "STORE_FAILURE"
  | CdInvalidClaim _ => "COMMAND_DISPATCH_CLAIM_INVALID"
  | CdInvalidCompletion _ => "COMMAND_COMPLETION_INVALID"
  | CdSubjectMismatch _ => "COMMAND_DISPATCH_SUBJECT_MISMATCH"
  | CdStaleAuthority _ => "COMMAND_DISPATCH_AUTHORITY_STALE"
  | CdUnknownClaim => "COMMAND_DISPATCH_CLAIM_UNKNOWN"
  end.

Definition CommandDispatchError_display (e : CommandDispatchError) : string :=
  match e with
  | CdStore r => "command dispatch store: " +:+ r
  | CdInvalidClaim r => "invalid command dispatch claim: " +:+ r
  | CdInvalidCompletion r => "invalid command completion: " +:+ r
  | CdSubjectMismatch r => "command dispatch subject mismatch: " +:+ r
  | CdStaleAuthority r => "command dispatch authority is stale: " +:+ r
  | CdUnknownClaim => "unknown command dispatch claim"
  end.

(** crates/application/src/command_dispatch.rs:24-36 (CommandDispatchDisposition) *)
Inductive CommandDispatchDisposition : Type :=
| DispatchClaimed | DispatchUnknown | DispatchFailed | DispatchInvalidated.
Global Instance CommandDispatchDisposition_eq_dec : EqDecision CommandDispatchDisposition.
Proof. solve_decision. Defined.

(** crates/application/src/command_dispatch.rs:39-48 (CommandDispatchDisposition::as_str) *)
Definition disposition_as_str (d : CommandDispatchDisposition) : string :=
  match d with
  | DispatchClaimed => "CLAIMED"
  | DispatchUnknown => "UNKNOWN"
  | DispatchFailed => "FAILED"
  | DispatchInvalidated => "INVALIDATED"
  end.

(** crates/application/src/command_dispatch.rs:50-61 (CommandDispatchDisposition::parse) *)
Definition disposition_parse (value : string) : result CommandDispatchError CommandDispatchDisposition :=
  if bool_decide (value = "CLAIMED") then Ok DispatchClaimed
  else if bool_decide (value = "UNKNOWN") then Ok DispatchUnknown
  else if bool_decide (value = "FAILED") then Ok DispatchFailed
  else if bool_decide (value = "INVALIDATED") then Ok DispatchInvalidated
  else Err (CdInvalidClaim ("unknown command dispatch disposition " +:+ value)).

(** crates/application/src/command_dispatch.rs:64-98 (CommandDispatchClaim) *)
Record CommandDispatchClaim : Type := MkDispatchClaim {
  dc_schema_version : string;
  dc_claim_id : string;
  dc_command_id : CommandId;
  dc_outbox_sequence : Z;
  dc_request : CommandRequest;
  dc_request_digest : Digest;
  dc_runner_id : RunnerId;
  dc_runner_epoch : Z;
  dc_authority_epoch : Z;
  dc_freeze_generation : Z;
  dc_restore_epoch : Z;
  dc_disposition : CommandDispatchDisposition;
  dc_completion_digest : option Digest;
  dc_claimed_at : string;
  dc_updated_at : string
}.

(** crates/application/src/command_dispatch.rs:145-165 (ComponentCommandCompletionV1) *)
Record ComponentCommandCompletion : Type := MkComponentCompletion {
  co_schema_version : string;
  co_command_id : CommandId;
  co_request_digest : Digest;
  co_receipt_digest : Digest;
  co_evidence_class : string;
  co_signing_trust : string;
  co_transaction_gate_eligible : bool;
  co_independent_evidence_eligible : bool
}.

(** crates/application/src/command_dispatch.rs:315-329 (validate_claim_id) *)
Definition validate_dispatch_claim_id (value : string) : result CommandDispatchError unit :=
  body ← ok_or (strip_prefix "dcl_" value) (CdInvalidClaim "claim id must use the dcl_ prefix");
  refuse_if (negb (is_hex_64 body)) (CdInvalidClaim "claim id must contain 64 lowercase hex characters").

(** crates/application/src/command_dispatch.rs:340-347 (validate_safe) *)
Definition validate_safe (name : string) (value : Z) : result CommandDispatchError unit :=
  refuse_if (bool_decide (MAX_SAFE_INTEGER < value)) (CdInvalidClaim (name +:+ " exceeds MAX_SAFE_INTEGER")).

(** crates/application/src/command_dispatch.rs:331-338 (validate_positive_safe) *)
Definition validate_positive_safe (name : string) (value : Z) : result CommandDispatchError unit :=
  _ ← refuse_if (bool_decide (value = 0)) (CdInvalidClaim (name +:+ " must be positive"));
  validate_safe name value.

Section Claims.
Context `{CommandExt} `{Rfc3339} `{!Canon ComponentCommandCompletion}.

(** crates/application/src/command_dispatch.rs:349-358 (validate_time) *)
Definition validate_claim_time (name value : string) : result CommandDispatchError unit :=
  '(_, offset) ← map_err (fun e => CdInvalidClaim (name +:+ ": " +:+ e)) (rfc3339_parse value);
  refuse_if (negb (bool_decide (offset = 0))) (CdInvalidClaim (name +:+ " must use UTC")).

(** crates/application/src/command_dispatch.rs:101-142 (CommandDispatchClaim::validate) *)
Definition dispatch_claim_validate (c : CommandDispatchClaim) : result CommandDispatchError unit :=
  _ ← refuse_if (negb (bool_decide (dc_schema_version c = COMMAND_DISPATCH_CLAIM_SCHEMA)))
        (CdInvalidClaim "claim schema is not admitted");
  _ ← validate_dispatch_claim_id (dc_claim_id c);
  _ ← map_err (fun e => CdInvalidClaim (DomainError_display e)) (CommandRequest_validate (dc_request c));
  _ ← refuse_if (negb (bool_decide (CommandRequest_id (dc_request c) = dc_command_id c))
                 || negb (bool_decide (CommandRequest_digest (dc_request c) = dc_request_digest c)))
        (CdSubjectMismatch "claim request does not match its command subject");
  _ ← for_each (fun '(name, value) => validate_positive_safe name value)
        [("outbox sequence", dc_outbox_sequence c); ("runner epoch", dc_runner_epoch c);
         ("authority epoch", dc_authority_epoch c)];
  _ ← validate_safe "freeze generation" (dc_freeze_generation c);
  _ ← validate_safe "restore epoch" (dc_restore_epoch c);
  _ ← validate_claim_time "claimed_at" (dc_claimed_at c);
  _ ← validate_claim_time "updated_at" (dc_updated_at c);
  match dc_disposition c, dc_completion_digest c with
  | (DispatchClaimed | DispatchInvalidated), None => Ok tt
  | (DispatchUnknown | DispatchFailed), Some _ => Ok tt
  | _, _ => Err (CdInvalidClaim "claim completion digest contradicts its disposition")
  end.

(** crates/application/src/command_dispatch.rs:168-189 (ComponentCommandCompletionV1::new) *)
Definition completion_new (claim : CommandDispatchClaim) (receipt_digest : Digest)
  : result CommandDispatchError ComponentCommandCompletion :=
  _ ← dispatch_claim_validate claim;
  _ ← refuse_if (negb (bool_decide (dc_disposition claim = DispatchClaimed)))
        (CdInvalidCompletion "only a claimed dispatch accepts component completion");
  mret (MkComponentCompletion COMPONENT_COMMAND_COMPLETION_SCHEMA (dc_command_id claim)
    (dc_request_digest claim) receipt_digest COMPONENT_EVIDENCE_CLASS COMPONENT_SIGNING_TRUST false false).

(** crates/application/src/command_dispatch.rs:191-209 (ComponentCommandCompletionV1::validate_for) *)
Definition completion_validate_for (c : ComponentCommandCompletion) (claim : CommandDispatchClaim)
  : result CommandDispatchError unit :=
  _ ← refuse_if (negb (bool_decide (co_command_id c = dc_command_id claim))
                 || negb (bool_decide (co_request_digest c = dc_request_digest claim)))
        (CdSubjectMismatch "component completion is bound to another command");
  refuse_if (negb (bool_decide (co_schema_version c = COMPONENT_COMMAND_COMPLETION_SCHEMA))
             || negb (bool_decide (co_evidence_class c = COMPONENT_EVIDENCE_CLASS))
             || negb (bool_decide (co_signing_trust c = COMPONENT_SIGNING_TRUST))
             || co_transaction_gate_eligible c || co_independent_evidence_eligible c)
    (CdInvalidCompletion "component completion classification is not admitted").

(** crates/application/src/command_dispatch.rs:211-219 (ComponentCommandCompletionV1::digest) *)
Definition completion_digest (c : ComponentCommandCompletion) : result CommandDispatchError Digest :=
  canonical ← map_err (fun e => CdInvalidCompletion (HarnessError_display e)) (canonical_json c);
  mret (Digest_of (frame COMPLETION_DIGEST_DOMAIN +:+ frame canonical)).

(** ** The projection of a command *)

(** crates/application/src/operator_commands.rs:29-40 (OperatorCommandError) *)
Inductive OperatorCommandError : Type :=
| OcInvalidRequest | OcOwnershipConflict | OcObsoleteCodingShape | OcStore (e : LedgerError).

(** crates/application/src/operator_commands.rs:42-50 (OperatorCommandError::reason_code) *)
Definition OperatorCommandError_reason_code (e : OperatorCommandError) : string :=
  match e with
  | OcInvalidRequest => "OPERATOR_COMMAND_REQUEST_INVALID"
  | OcOwnershipConflict => "COMMAND_OWNERSHIP_CONFLICT"
  | OcObsoleteCodingShape => "RUN_CODING_LEGACY_AUTHORITY_SHAPE_RETIRED"
  | OcStore e => LedgerError_reason_code e
  end.

(** The events of one kind that name the command in their stream or
    correlation. *)
Definition events_naming (kind id : string) (events : list LedgerEvent) : list LedgerEvent :=
  filter (fun e => LedgerEvent_kind e = kind
                   /\ (LedgerEvent_stream_id e = Some id \/ LedgerEvent_correlation_id e = Some id)) events.

(** The only event of a list, bound to the command in both places, with a
    given body. *)
Definition exactly_one (id body : string) (events : list LedgerEvent) : bool :=
  match events with
  | [e] => bool_decide (LedgerEvent_body e = body) && bool_decide (LedgerEvent_stream_id e = Some id)
           && bool_decide (LedgerEvent_correlation_id e = Some id)
  | _ => false
  end.

(** Whether the rows of a command that is not settled agree. *)
Definition pending_truth (id : string) (claim : option CommandDispatchClaim) (row : OutboxItem)
  (claimed reconciled : list LedgerEvent) : bool :=
  match claim with
  | None =>
      bool_decide (OutboxItem_phase row = PhasePending) && bool_decide (OutboxItem_delivered_at row = None)
      && bool_decide (OutboxItem_acked_at row = None) && bool_decide (length claimed = 0%nat)
      && bool_decide (length reconciled = 0%nat)
  | Some value =>
      (bool_decide (dc_disposition value = DispatchClaimed)
       || bool_decide (dc_disposition value = DispatchInvalidated))
      && bool_decide (OutboxItem_phase row = PhaseApplied) && bool_decide (is_Some (OutboxItem_delivered_at row))
      && bool_decide (OutboxItem_acked_at row = None) && exactly_one id (dc_claim_id value) claimed
      && bool_decide (length reconciled = 0%nat)
  end.

(** Whether the claim of a settled command agrees with its phase. *)
Definition terminal_truth (id : string) (phase : CommandPhase) (claim : option CommandDispatchClaim)
  (row : OutboxItem) (claimed : list LedgerEvent) : bool :=
  match phase, claim with
  | PhaseUnknown, Some value =>
      bool_decide (dc_disposition value = DispatchUnknown)
      && bool_decide (is_Some (OutboxItem_delivered_at row)) && exactly_one id (dc_claim_id value) claimed
  | PhaseFailed, Some value =>
      bool_decide (dc_disposition value = DispatchFailed)
      && bool_decide (OutboxItem_delivered_at row = None) && bool_decide (length claimed = 0%nat)
  | _, _ => false
  end.

(** crates/application/src/operator_commands/projection.rs:9-139 (validate_projection) *)
Definition validate_projection (record : CommandRecord) (dispatch : string)
  (claim : option CommandDispatchClaim) (outbox : list OutboxItem) (events : list LedgerEvent)
  : result LedgerError unit :=
  let id := id_as_str (CommandRecord_id record) in
  match outbox with
  | [row] =>
      _ ← refuse_if (negb (bool_decide (OutboxItem_command_id row = Some (CommandRecord_id record)))
                     || negb (bool_decide (OutboxItem_kind row = "command_dispatch"))
                     || negb (bool_decide (OutboxItem_payload row = dispatch)))
            (LedgerStore "command has incomplete or conflicting dispatch truth");
      _ ← refuse_if (negb (exactly_one id id (events_naming "command_submitted" id events)))
            (LedgerStore "command has incomplete or conflicting submitted audit truth");
      let reconciled := events_naming COMMAND_RECONCILED_EVENT id events in
      let claimed := events_naming "command_dispatch_claimed" id events in
      _ ← (match claim with
           | Some claim =>
               _ ← map_err (fun e => LedgerStore (CommandDispatchError_display e)) (dispatch_claim_validate claim);
               refuse_if (negb (bool_decide (dc_command_id claim = CommandRecord_id record))
                          || negb (bool_decide (dc_outbox_sequence claim = OutboxItem_seq row))
                          || negb (bool_decide (dc_request_digest claim = CommandRecord_payload_digest record)))
                 (LedgerStore "command dispatch claim is bound to another subject")
           | None => mret tt
           end);
      if bool_decide (CommandRecord_phase record = PhasePending) then
        refuse_if (negb (pending_truth id claim row claimed reconciled))
          (LedgerStore "pending command has conflicting projection truth")
      else
        response ← ok_or (CommandRecord_response record)
          (LedgerStore "settled command has no exact result truth");
        refuse_if (negb (terminal_truth id (CommandRecord_phase record) claim row claimed)
                   || negb (bool_decide (OutboxItem_phase row = CommandRecord_phase record))
                   || bool_decide (OutboxItem_acked_at row = None)
                   || negb (exactly_one id response reconciled))
          (LedgerStore "settled command has incomplete or conflicting projection truth")
  | _ => Err (LedgerStore "command has incomplete or conflicting dispatch truth")
  end.
End Claims.

(** ** What an accepted projection says *)

Section Story.
Context `{CommandExt} `{Rfc3339}.

Definition names_once (id body : string) (events : list LedgerEvent) : Prop :=
  exists e, events = [e] /\ LedgerEvent_body e = body /\ LedgerEvent_stream_id e = Some id
            /\ LedgerEvent_correlation_id e = Some id.

(** The four stories that the rows of a command can tell, from its phase and
    response, its claim, its outbox row and the audit events of its claim and
    of its settlement. *)
Inductive story (id : string) : CommandPhase -> option string -> option CommandDispatchClaim ->
  OutboxItem -> list LedgerEvent -> list LedgerEvent -> Prop :=
| story_waiting response row :
    OutboxItem_phase row = PhasePending -> OutboxItem_delivered_at row = None -> OutboxItem_acked_at row = None ->
    story id PhasePending response None row [] []
| story_claimed response claim row claimed :
    dc_disposition claim = DispatchClaimed \/ dc_disposition claim = DispatchInvalidated ->
    OutboxItem_phase row = PhaseApplied -> is_Some (OutboxItem_delivered_at row) ->
    OutboxItem_acked_at row = None -> names_once id (dc_claim_id claim) claimed ->
    story id PhasePending response (Some claim) row claimed []
| story_unknown response claim row claimed reconciled :
    dc_disposition claim = DispatchUnknown -> OutboxItem_phase row = PhaseUnknown ->
    is_Some (OutboxItem_delivered_at row) -> is_Some (OutboxItem_acked_at row) ->
    names_once id (dc_claim_id claim) claimed -> names_once id response reconciled ->
    story id PhaseUnknown (Some response) (Some claim) row claimed reconciled
| story_refused response claim row reconciled :
    dc_disposition claim = DispatchFailed -> OutboxItem_phase row = PhaseFailed ->
    OutboxItem_delivered_at row = None -> is_Some (OutboxItem_acked_at row) ->
    names_once id response reconciled ->
    story id PhaseFailed (Some response) (Some claim) row [] reconciled.

(** The claim is a valid claim on this command and this outbox row. *)
Definition claim_bound (record : CommandRecord) (row : OutboxItem) (claim : option CommandDispatchClaim) : Prop :=
  forall c, claim = Some c -> dispatch_claim_validate c = Ok tt /\ dc_command_id c = CommandRecord_id record
    /\ dc_outbox_sequence c = OutboxItem_seq row /\ dc_request_digest c = CommandRecord_payload_digest record.

Lemma exactly_one_spec id body events : exactly_one id body events = true <-> names_once id body events.
Proof.
  unfold exactly_one, names_once. destruct events as [|e [|? ?]]; [by split; [|intros (? & ? & _)]| |
    by split; [|intros (? & ? & _)]].
  rewrite !andb_true_iff, !bool_decide_eq_true. naive_solver.
Qed.

Lemma pending_truth_spec id response claim row claimed reconciled :
  pending_truth id claim row claimed reconciled = true <->
  story id PhasePending response claim row claimed reconciled.
Proof.
  unfold pending_truth. destruct claim as [c|].
  - rewrite !andb_true_iff, orb_true_iff, !bool_decide_eq_true, exactly_one_spec, length_zero_iff_nil. split.
    + intros (((((? & ?) & ?) & ?) & ?) & ->). by constructor.
    + intros Hs. inversion Hs; naive_solver.
  - rewrite !andb_true_iff, !bool_decide_eq_true, !length_zero_iff_nil. split.
    + intros ((((? & ?) & ?) & ->) & ->). by constructor.
    + intros Hs. inversion Hs; naive_solver.
Qed.

Lemma settled_truth_spec id phase response claim row claimed reconciled :
  phase <> PhasePending ->
  (terminal_truth id phase claim row claimed = true /\ OutboxItem_phase row = phase
   /\ is_Some (OutboxItem_acked_at row) /\ exactly_one id response reconciled = true) <->
  story id phase (Some response) claim row claimed reconciled.
Proof.
  intros Hp. unfold terminal_truth. rewrite exactly_one_spec. destruct phase; try done; destruct claim as [c|];
    rewrite ?andb_true_iff, ?bool_decide_eq_true, ?exactly_one_spec, ?length_zero_iff_nil.
  all: split; [intros (Ht & Hr & Ha & Hn)|intros Hs; inversion Hs; naive_solver]; try done.
  - destruct Ht as [[? ?] ->]. by constructor.
  - destruct Ht as [[? ?] ?]. by constructor.
Qed.

(** C38: An accepted projection tells one of four stories, and every one of
    them is accepted. The check of an operator's command succeeds exactly
    when there is one dispatch row of this command and payload, one submission
    event, a claim that is valid and bound to this command, row and request if
    there is one, and the rows agree: waiting, in the hands of a runner,
    settled as UNKNOWN with the receipt that was audited, or refused before
    dispatch. No projection shows an applied or verified command. *)
Theorem projection_accepted_iff record dispatch claim outbox events :
  validate_projection record dispatch claim outbox events = Ok tt <->
  let id := id_as_str (CommandRecord_id record) in
  exists row, outbox = [row]
  /\ OutboxItem_command_id row = Some (CommandRecord_id record)
  /\ OutboxItem_kind row = "command_dispatch" /\ OutboxItem_payload row = dispatch
  /\ names_once id id (events_naming "command_submitted" id events)
  /\ claim_bound record row claim
  /\ story id (CommandRecord_phase record) (CommandRecord_response record) claim row
       (events_naming "command_dispatch_claimed" id events) (events_naming COMMAND_RECONCILED_EVENT id events).
Proof.
  intros. unfold validate_projection. cbv zeta.
  destruct outbox as [|row [|row2 rest]]; [by split; [|intros (? & ? & _)]| |by split; [|intros (? & ? & _)]].
  set (claimed := events_naming "command_dispatch_claimed" _ events).
  set (reconciled := events_naming COMMAND_RECONCILED_EVENT _ events).
  set (cl := match claim with Some _ => _ | None => _ end).
  assert (cl = Ok tt <-> claim_bound record row claim) as Hcl.
  { unfold cl, claim_bound. destruct claim as [c|]; [|naive_solver]. split.
    - intros Hc c' [= <-]. apply bind_Ok in Hc as ([] & Hd%map_err_Ok & Hc%refuse_if_Ok).
      rewrite !orb_false_iff, !negb_false_iff, !bool_decide_eq_true in Hc. naive_solver.
    - intros Hc. destruct (Hc c eq_refl) as (-> & -> & -> & ->). cbn [map_err mbind result_bind].
      by rewrite !bool_decide_true. }
  set (last := if bool_decide _ then _ else _).
  assert (last = Ok tt <-> story (id_as_str (CommandRecord_id record)) (CommandRecord_phase record)
    (CommandRecord_response record) claim row claimed reconciled) as Hlast.
  { unfold last. case_bool_decide as Hp.
    - rewrite Hp, <-pending_truth_spec, <-negb_false_iff. apply refuse_if_Ok.
    - destruct (CommandRecord_response record) as [response|]; cbn [ok_or mbind result_bind].
      2:{ split; [done|]. intros Hs. inversion Hs; congruence. }
      rewrite <-settled_truth_spec by done. rewrite refuse_if_Ok, !orb_false_iff, !negb_false_iff.
      rewrite bool_decide_eq_true, bool_decide_eq_false, not_eq_None_Some. tauto. }
  split.
  - intros Hv. apply bind_Ok in Hv as (u1 & H1%refuse_if_Ok & Hv). apply bind_Ok in Hv as (u2 & H2%refuse_if_Ok & Hv).
    apply bind_Ok in Hv as ([] & H3%Hcl & H4%Hlast). exists row.
    rewrite !orb_false_iff, !negb_false_iff, !bool_decide_eq_true in H1.
    apply negb_false_iff, exactly_one_spec in H2. naive_solver.
  - intros (row' & [= <-] & Hid & Hk & Hp & Hs%exactly_one_spec & Hb%Hcl & Hst%Hlast).
    rewrite Hid, Hk, Hp, !bool_decide_true by done. simpl. rewrite Hs. simpl. by rewrite Hb.
Qed.
End Story.

(** ** Completions *)

Section Completions.
Context `{CommandExt} `{Rfc3339} `{!Canon ComponentCommandCompletion}.

Lemma disposition_parse_as_str d : disposition_parse (disposition_as_str d) = Ok d.
Proof. by destruct d. Qed.

(** What a completion is made for accepts it, and it is never eligible. *)
Lemma completion_new_valid claim receipt c :
  completion_new claim receipt = Ok c ->
  dc_disposition claim = DispatchClaimed /\ completion_validate_for c claim = Ok tt
  /\ co_transaction_gate_eligible c = false /\ co_independent_evidence_eligible c = false.
Proof.
  unfold completion_new, completion_validate_for. intros Hn. inv_result. split; [done|].
  split; [|done]. by rewrite !bool_decide_true.
Qed.

(** What the digest of a completion hashes, given its canonical text. *)
Definition completion_preimage (text : bytes) : bytes := frame COMPLETION_DIGEST_DOMAIN +:+ frame text.

(** Two completions with one digest have one canonical text, unless their own
    preimages collide. *)
Lemma completion_digest_inj c1 c2 d t1 t2 :
  to_jcs c1 = Ok t1 -> to_jcs c2 = Ok t2 ->
  completion_digest c1 = Ok d -> completion_digest c2 = Ok d ->
  t1 = t2 \/ collides [(completion_preimage t1, completion_preimage t2)].
Proof.
  unfold completion_digest, canonical_json. intros -> -> H1 H2. simpl in *. injection H1 as <-. injection H2 as Heq.
  symmetry in Heq. apply (f_equal MkDigest) in Heq. apply Digest_of_inj in Heq as [Heq|Hc]; [left|by right].
  apply (inj (String.append _)) in Heq. unfold frame in Heq.
  apply string_app_inj_len in Heq as [_ ->]; [done|]. unfold u64_to_le_bytes. by rewrite !le_bytes_length.
Qed.
End Completions.

(** ** Scope grants *)

(** crates/application/src/authority_scope/mod.rs:12-35 (AuthorityScopeError) *)
Inductive AuthorityScopeError : Type :=
| AsInvalid (reason : string)
| AsConflict (reason : string)
| AsStaleAuthority (expected current : Z)
| AsFrozen (generation : Z)
| AsLedger (e : LedgerError).

(** crates/application/src/authority_scope/mod.rs:38-48 (AuthorityScopeError::reason_code) *)
Definition AuthorityScopeError_reason_code (e : AuthorityScopeError) : string :=
  match e with
  | AsInvalid _ => "AUTHORITY_SCOPE_INVALID"
  | AsConflict _ => "IDEMPOTENCY_CONFLICT"
  | AsStaleAuthority _ _ => "STALE_AUTHORITY"
  | AsFrozen _ => "AUTHORITY_FROZEN"
  | AsLedger e => LedgerError_reason_code e
  end.

(** generated/schema_bundle.rs:1579-1588 (ScopeGrantV1) *)
Record ScopeGrant : Type := MkScopeGrant {
  sc_schema_version : string;
  sc_scope_grant_id : string;
  sc_scope_revision : Z;
  sc_normalized_paths : list string;
  sc_protected_resources : list string;
  sc_envelope_class : string
}.

(** crates/application/src/authority_scope/validation.rs:18-24 (CommandPayload) *)
Record ScopeCommandPayload : Type := MkScopeCommandPayload {
  sp_schema_version : string;
  sp_scope_grant : ScopeGrant;
  sp_expected_authority_epoch : Z;
  sp_admitted_at : string
}.

(** crates/application/src/authority_scope/mod.rs:51-60 (PreparedAuthorityScopeAdmission) *)
Record PreparedScopeAdmission : Type := MkPreparedScope {
  ps_grant : ScopeGrant;
  ps_command : CommandRequest;
  ps_grant_bytes : bytes;
  ps_scope_paths_digest : string;
  ps_expected_authority_epoch : Z;
  ps_admitted_at : string
}.

Definition AUTHORITY_SCOPE_ENVELOPE_CLASS : string := "write-in-variant".
Definition ADMIT_SCOPE_KIND : string := "admit_scope_grant".
Definition MAX_SCOPE_PATHS : nat := 128.
Definition SCOPE_PATHS_DOMAIN : string := "candidate-preparation.scope-paths.v1alpha1".

Section Scopes.
Context `{CommandExt} `{Rfc3339} `{Unicode} `{!Canon ScopeGrant} `{!Canon (list string)} `{!Json ScopeCommandPayload}.

(** crates/application/src/authority_scope/validation.rs:153-155 (invalid) *)
Definition scope_invalid {A} (reason : string) : result AuthorityScopeError A := Err (AsInvalid reason).

(** crates/harness-core/src/candidate_preparation/canonical.rs:37-60 (hash_canonical) *)
Definition candidate_hash_canonical {A} `{Canon A} (domain : string) (value : A) : result HarnessError string :=
  _ ← refuse_if (is_empty domain || negb (string_all domain_byte domain))
        (HeCandidatePreparationInvalid "hash domain is outside the frozen ASCII set");
  b ← map_err (fun e => HeCandidatePreparationInvalid ("RFC 8785 encoding failed: " +:+ e)) (to_jcs value);
  mret (to_hex (Digest_of (FRAMED_DOMAIN_PREFIX +:+ frame domain +:+ frame b))).

(** crates/harness-core/src/candidate_preparation/scope.rs:6-9 (candidate_preparation_scope_paths_digest) *)
Definition scope_paths_digest (paths : list string) : result HarnessError string :=
  candidate_hash_canonical SCOPE_PATHS_DOMAIN paths.

(** The checks of one path. *)
Definition validate_scope_path (path : string) : result AuthorityScopeError unit :=
  _ ← refuse_if (is_empty path || bool_decide (4096 < str_len path) || starts_with "/" path
                 || str_contains_char (Ascii.ascii_of_nat 92) path || negb (bool_decide (nfc path = path)))
        (AsInvalid "scope path is not a bounded normalized relative path");
  for_each (fun segment =>
    refuse_if (is_empty segment || bool_decide (segment = ".") || bool_decide (segment = "..")
               || eq_ignore_ascii_case segment ".git" || str_contains_char (Ascii.ascii_of_nat 58) segment
               || ends_with_char (Ascii.ascii_of_nat 46) segment
               || ends_with_char (Ascii.ascii_of_nat 32) segment || any_control segment)
      (AsInvalid "scope path contains a forbidden component")) (str_split slash path).

Fixpoint validate_paths_loop (paths : list string) (seen : gset string) : result AuthorityScopeError unit :=
  match paths with
  | [] => Ok tt
  | path :: rest =>
      _ ← validate_scope_path path;
      let key := to_lowercase (nfc path) in
      if bool_decide (key ∈ seen) then scope_invalid "scope paths contain a duplicate or case collision"
      else validate_paths_loop rest ({[key]} ∪ seen)
  end.

(** crates/application/src/authority_scope/validation.rs:79-113 (validate_paths) *)
Definition validate_scope_paths (paths : list string) : result AuthorityScopeError unit :=
  if bool_decide (length paths = 0%nat) || bool_decide (MAX_SCOPE_PATHS < length paths)%nat then
    scope_invalid "normalized_paths must contain 1..=128 entries"
  else validate_paths_loop paths ∅.

(** crates/application/src/authority_scope/validation.rs:57-77 (validate_grant) *)
Definition validate_scope_grant (grant : ScopeGrant) : result AuthorityScopeError unit :=
  _ ← refuse_if (negb (bool_decide (sc_schema_version grant = "v1alpha1")))
        (AsInvalid "scope grant schema must be v1alpha1");
  _ ← refuse_if (negb (prefixed_hex "sgr_" (sc_scope_grant_id grant)))
        (AsInvalid "scope_grant_id must be sgr_ plus 64 lowercase hex");
  _ ← refuse_if (negb (bool_decide (sc_scope_revision grant = 1)))
        (AsInvalid "initial scope admission requires scope_revision exactly 1");
  _ ← validate_scope_paths (sc_normalized_paths grant);
  _ ← refuse_if (negb (bool_decide (length (sc_protected_resources grant) = 0%nat)))
        (AsInvalid "protected resources are unsupported until their guard is durable");
  refuse_if (negb (bool_decide (sc_envelope_class grant = AUTHORITY_SCOPE_ENVELOPE_CLASS)))
    (AsInvalid "unsupported scope envelope class").

(** crates/application/src/authority_scope/validation.rs:138-151 (validate_timestamp) *)
Definition validate_timestamp (value : string) : result AuthorityScopeError unit :=
  let bounded := AsInvalid "admission timestamp must be bounded RFC 3339 UTC" in
  let outside := AsInvalid "admission timestamp is outside the safe UTC range" in
  _ ← refuse_if (is_empty value || bool_decide (64 < str_len value)
                 || negb (ends_with_char (Ascii.ascii_of_nat 90) value)) bounded;
  '(instant, offset) ← map_err (fun _ => bounded) (rfc3339_parse value);
  millis ← ok_or (to_u64 (instant / 1000000)) outside;
  refuse_if (negb (bool_decide (offset = 0)) || bool_decide (MAX_SAFE_INTEGER < millis)) outside.

(** crates/application/src/authority_scope/validation.rs:26-55 (prepare_authority_scope_admission) *)
Definition prepare_authority_scope_admission (grant : ScopeGrant) (expected_authority_epoch : Z)
  (idempotency_key now : string) : result AuthorityScopeError PreparedScopeAdmission :=
  _ ← validate_scope_grant grant;
  _ ← refuse_if (negb (bool_decide (1 <= expected_authority_epoch <= MAX_SAFE_INTEGER)))
        (AsInvalid "expected_authority_epoch must be within 1..=MAX_SAFE_INTEGER");
  _ ← validate_timestamp now;
  digest ← map_err (fun e => AsInvalid (HarnessError_display e)) (scope_paths_digest (sc_normalized_paths grant));
  grant_bytes ← map_err (fun e => AsInvalid (HarnessError_display e)) (canonical_json grant);
  command ← map_err (fun e => AsInvalid (DomainError_display e))
    (CommandRequest_new idempotency_key ADMIT_SCOPE_KIND
       (MkScopeCommandPayload "v1alpha1" grant expected_authority_epoch now));
  mret (MkPreparedScope grant command grant_bytes digest expected_authority_epoch now).

(** Admitted scope paths are safe repository paths, no two of which are one
    file on a case-insensitive or normalizing file system. *)
Lemma validate_paths_loop_Ok paths seen u :
  validate_paths_loop paths seen = Ok u ->
  Forall safe_repo_path paths /\ NoDup (collision_key <$> paths)
  /\ Forall (fun p => collision_key p ∉ seen) paths.
Proof.
  revert seen. induction paths as [|p paths IH]; intros seen Hv; cbn [validate_paths_loop] in Hv.
  { split_and!; [constructor|apply NoDup_nil_2|constructor]. }
  apply bind_Ok in Hv as (u1 & Hp & Hv). cbv zeta in Hv. fold (collision_key p) in Hv.
  case_bool_decide as Hseen; [done|]. destruct (IH _ Hv) as (Hs & Hnd & Hfresh).
  split_and!.
  - constructor; [|done]. unfold validate_scope_path in Hp. inv_result.
    match goal with Hf : for_each _ _ = Ok _ |- _ => apply for_each_Ok in Hf as Hsegs end.
    unfold safe_repo_path. split_and!; try done.
    + destruct p; [done|]. unfold str_len. cbn [String.length]. lia.
    + lia.
    + eapply Forall_impl; [exact Hsegs|]. intros s Hx. unfold safe_segment. cbv beta in Hx.
      unfold eq_ignore_ascii_case in Hx. inv_result. split_and!; try done. by apply is_empty_spec.
  - cbn [fmap list_fmap]. apply NoDup_cons. split; [|done]. intros (q & Hq & Hin)%list_elem_of_fmap.
    rewrite Forall_forall in Hfresh. apply (Hfresh q Hin). set_solver.
  - constructor; [done|]. eapply Forall_impl; [exact Hfresh|]. set_solver.
Qed.
End Scopes.
