(* ===== verification/Admission.v ===== *)
(** * Provider admission

    Models crates/harness-core/src/admission.rs with admission/receipt.rs and
    admission/signed.rs: the local evaluation of a provider build, the receipt
    it leaves, and the two kinds of evidence that clear its blockers. Serde's
    JSON texts are a parameter; instants are nanoseconds since the Unix epoch,
    inside chrono's range. A [BTreeSet] of blockers is the list of its members
    in declaration order. Then what live dispatch requires. *)

From S2P Require Import Prelude External Ids Entities Text HarnessErrors Paths Argv Proposal Events.
From S2P Require Import Credentials Canonical LaunchClaims Capability LaunchGrants.
From stdpp Require Import options.

Local Open Scope Z_scope.

(** crates/harness-core/src/admission.rs:41-41 (MAX_EXECUTABLE_BYTES) *)
Definition MAX_EXECUTABLE_BYTES : Z := 256 * 1024 * 1024.

(** crates/harness-core/src/adapter.rs:25-38 (HarnessDescriptor) *)
Record HarnessDescriptor : Type := MkHarnessDescriptor {
  hd_provider : string;
  hd_binary : string;
  hd_version : Observation string;
  hd_stage : PromotionStage;
  hd_capabilities : CapabilityMatrix
}.

(** crates/harness-core/src/admission.rs:43-58 (RuntimeProbeSnapshot) *)
Record RuntimeProbeSnapshot : Type := MkRuntimeProbeSnapshot {
  rp_descriptor : HarnessDescriptor;
  rp_executable : string;
  rp_executable_blake3 : string;
  rp_protocol : ProviderProtocol;
  rp_identity : ProbeResult;
  rp_observed_at : Z
}.

(** crates/harness-core/src/admission.rs:60-85 (ProviderAdmissionPolicy) *)
Record ProviderAdmissionPolicy : Type := MkProviderAdmissionPolicy {
  pap_provider : string;
  pap_executable : string;
  pap_executable_blake3 : string;
  pap_version : string;
  pap_descriptor_blake3 : string;
  pap_profile : ProfileRef;
  pap_required_protocol : ProviderProtocol;
  pap_max_probe_age_seconds : Z;
  pap_runtime_root : string;
  pap_credential_targets : list string;
  pap_credentials : list CredentialGrant
}.

(** crates/harness-core/src/admission/receipt.rs:13-25 (AdmissionBlocker) *)
Inductive AdmissionBlocker : Type :=
| SignedAuthorityUnavailable
| EgressIsolationUnavailable
| ProtocolNonconformant
| CapabilityNonconformant.

Global Instance AdmissionBlocker_eq_dec : EqDecision AdmissionBlocker.
Proof. solve_decision. Defined.

(** crates/harness-core/src/admission/receipt.rs:28-37 (AdmissionBlocker::as_str) *)
Definition AdmissionBlocker_as_str (b : AdmissionBlocker) : string :=
  match b with
  | SignedAuthorityUnavailable => "SIGNED_ADMISSION_UNAVAILABLE"
  | EgressIsolationUnavailable => "EGRESS_ISOLATION_UNAVAILABLE"
  | ProtocolNonconformant => "PROTOCOL_NONCONFORMANT"
  | CapabilityNonconformant => "CAPABILITY_NONCONFORMANT"
  end.

(** ** Canaries *)

(** crates/harness-core/src/admission/receipt.rs:40-42 (CanarySecrets) *)
Record CanarySecrets : Type := MkCanarySecrets { canary_values : list string }.

(** crates/harness-core/src/admission/receipt.rs:45-62 (CanarySecrets::new) *)
Definition CanarySecrets_new (values : list string) : result HarnessError CanarySecrets :=
  if bool_decide (values = []) || bool_decide (8 < Z.of_nat (length values))
     || negb (bool_decide (NoDup values))
     || existsb (fun value => bool_decide (str_len value < 16)) values
  then refused "canaries must be 1..=8 unique values of at least 16 bytes"
  else Ok (MkCanarySecrets values).

(** crates/harness-core/src/admission/receipt.rs:386-391 (contains) *)
Definition contains_bytes (haystack needle : bytes) : bool :=
  negb (is_empty needle) && has_window needle haystack.

(** crates/harness-core/src/admission/receipt.rs:64-73 (CanarySecrets::inspect) *)
Definition inspect (c : CanarySecrets) (surface : string) (b : bytes) : result HarnessError unit :=
  refuse_if (existsb (fun secret => contains_bytes b secret) (canary_values c))
    (HeSecretCanaryExposure surface).

(** crates/harness-core/src/admission/receipt.rs:75-81 (CanarySecrets::inspect_env) *)
Definition inspect_env (c : CanarySecrets) (env : list (string * string))
  : result HarnessError unit :=
  for_each (fun '(key, value) =>
    _ ← inspect c "environment" key; inspect c "environment" value) env.

(** ** Receipts *)

(** crates/harness-core/src/admission/signed.rs:18-32 (SignedAuthorityRecord) *)
Record SignedAuthorityRecord : Type := MkSignedAuthorityRecord {
  sa_grant_id : string;
  sa_key_id : string;
  sa_issuer : string;
  sa_envelope_digest : string;
  sa_expires_at_unix_ms : Z
}.

(** crates/harness-core/src/admission/signed.rs:34-47 (EgressProbeOutcome) *)
Inductive EgressProbeOutcome : Type :=
| EgressRefused | EgressUnreachable | EgressReached | EgressUnknown.

(** The derived [Debug] name. *)
Definition EgressProbeOutcome_debug (o : EgressProbeOutcome) : string :=
  match o with
  | EgressRefused => "Refused"
  | EgressUnreachable => "Unreachable"
  | EgressReached => "Reached"
  | EgressUnknown => "Unknown"
  end.

(** crates/harness-core/src/admission/signed.rs:49-57 (EgressProbe) *)
Record EgressProbe : Type := MkEgressProbe {
  eg_name : string;
  eg_outcome : EgressProbeOutcome
}.

(** crates/harness-core/src/admission/signed.rs:59-71 (EgressIsolationEvidence) *)
Record EgressIsolationEvidence : Type := MkEgressIsolationEvidence {
  ei_receipt_digest : string;
  ei_ruleset_digest : string;
  ei_allowlist_digest : string;
  ei_probes : list EgressProbe
}.

(** crates/harness-core/src/admission/signed.rs:73-85 (EgressIsolationRecord) *)
Record EgressIsolationRecord : Type := MkEgressIsolationRecord {
  er_receipt_digest : string;
  er_ruleset_digest : string;
  er_allowlist_digest : string;
  er_probes : list EgressProbe
}.

(** crates/harness-core/src/admission/receipt.rs:132-183 (ProviderConformanceReceipt) *)
Record ProviderConformanceReceipt : Type := MkProviderConformanceReceipt {
  rc_receipt_id : string;
  rc_provider : string;
  rc_executable : string;
  rc_executable_blake3 : string;
  rc_version : string;
  rc_capability_blake3 : string;
  rc_descriptor_blake3 : string;
  rc_profile_id : string;
  rc_profile_blake3 : string;
  rc_environment_blake3 : string;
  rc_current_protocol : ProviderProtocol;
  rc_required_protocol : ProviderProtocol;
  rc_probed_at : Z;
  rc_evaluated_at : Z;
  rc_credentials : list CredentialReceipt;
  rc_proposal_blake3 : string;
  rc_stdout_blake3 : string;
  rc_stderr_blake3 : string;
  rc_events_blake3 : string;
  rc_canary_surfaces : list string;
  rc_blockers : list AdmissionBlocker;
  rc_signed_authority : option SignedAuthorityRecord;
  rc_egress_isolation : option EgressIsolationRecord
}.

(** The four fields that change after a receipt is built. *)
Definition reseal_fields (r : ProviderConformanceReceipt) (id : string)
  (blockers : list AdmissionBlocker) (signed : option SignedAuthorityRecord)
  (egress : option EgressIsolationRecord) : ProviderConformanceReceipt :=
  MkProviderConformanceReceipt id (rc_provider r) (rc_executable r) (rc_executable_blake3 r)
    (rc_version r) (rc_capability_blake3 r) (rc_descriptor_blake3 r) (rc_profile_id r)
    (rc_profile_blake3 r) (rc_environment_blake3 r) (rc_current_protocol r)
    (rc_required_protocol r) (rc_probed_at r) (rc_evaluated_at r) (rc_credentials r)
    (rc_proposal_blake3 r) (rc_stdout_blake3 r) (rc_stderr_blake3 r) (rc_events_blake3 r)
    (rc_canary_surfaces r) blockers signed egress.

Definition with_receipt_id (id : string) (r : ProviderConformanceReceipt)
  : ProviderConformanceReceipt :=
  reseal_fields r id (rc_blockers r) (rc_signed_authority r) (rc_egress_isolation r).

(** crates/harness-core/src/admission/receipt.rs:84-94 (ConformanceEvidence) *)
Record ConformanceEvidence (V : Type) : Type := MkConformanceEvidence {
  ce_stdout : bytes;
  ce_stderr : bytes;
  ce_events : list (AgentEvent V);
  ce_proposal : PatchProposal
}.
Arguments MkConformanceEvidence {V}. Arguments ce_stdout {V}. Arguments ce_stderr {V}.
Arguments ce_events {V}. Arguments ce_proposal {V}.

(** crates/harness-core/src/admission/receipt.rs:125-130 (EvidenceCommitments) *)
Record EvidenceCommitments : Type := MkEvidenceCommitments {
  ec_stdout_blake3 : string;
  ec_stderr_blake3 : string;
  ec_events_blake3 : string;
  ec_proposal_blake3 : string
}.

(** crates/harness-core/src/admission.rs:87-102 (ProviderAdmission) *)
Record ProviderAdmission : Type := MkProviderAdmission {
  pa_policy : ProviderAdmissionPolicy;
  pa_probe : RuntimeProbeSnapshot;
  pa_capability_blake3 : string;
  pa_descriptor_blake3 : string;
  pa_profile_blake3 : string;
  pa_environment_blake3 : string;
  pa_home : PreparedProviderHome;
  pa_canaries : CanarySecrets;
  pa_blockers : list AdmissionBlocker;
  pa_evaluated_at : Z
}.

(** crates/harness-core/src/admission.rs:104-110 (EvaluatedAdmission) *)
Record EvaluatedAdmission : Type := MkEvaluatedAdmission {
  ea_receipt : ProviderConformanceReceipt;
  ea_executable : string;
  ea_home : PreparedProviderHome
}.

(** crates/harness-core/src/admission.rs:397-408 (validate_digest) *)
Definition validate_digest_label (value label : string) : result HarnessError unit :=
  if is_hex_64 value then Ok tt
  else refused (label +:+ " digest must be 64 lowercase hex characters").

(** crates/harness-core/src/admission.rs:383-395 (validate_probe_time) *)
Definition validate_probe_time (probe : RuntimeProbeSnapshot) (now max_age_seconds : Z)
  : result HarnessError unit :=
  if bool_decide (max_age_seconds <= 0)
     || bool_decide (now + 5 * 1000000000 < rp_observed_at probe)
  then refused "runtime probe is stale or from the future"
  else if bool_decide (i64_max / 1000 < max_age_seconds) then Panic
  else if bool_decide (max_age_seconds * 1000000000 < now - rp_observed_at probe)
  then refused "runtime probe is stale or from the future"
  else Ok tt.

(** ** Digests of admitted facts *)

Section Digests.
Context `{Blake3} `{Hex}.

(** A BLAKE3 hasher fed with several slices. *)
Definition hash_parts (parts : list bytes) : string :=
  hex_encode (array32_bytes (blake3_hash (String.concat EmptyString parts))).

(** crates/harness-core/src/admission.rs:410-419 (serialized_digest) *)
Definition serialized_digest {T} `{!Json T} (domain : bytes) (value : T)
  : result HarnessError string :=
  b ← map_err (fun error => HeAdmissionRefused ("admission serialization failed: " +:+ error))
        (to_json value);
  mret (hash_parts ["bullet-provider-admission-v1"; nul; domain; nul; b]).

(** crates/harness-core/src/admission.rs:294-306 (capability_digest) *)
Definition capability_digest `{!Json CapabilityMatrix} (matrix : CapabilityMatrix)
  : result HarnessError string :=
  b ← map_err (fun error =>
          HeAdmissionRefused ("capability matrix serialization failed: " +:+ error))
        (to_json matrix);
  mret (hash_parts ["bullet-provider-capabilities-v1"; nul; b]).

(** crates/harness-core/src/admission.rs:308-315 (descriptor_digest) *)
Definition descriptor_digest `{!Json HarnessDescriptor} (descriptor : HarnessDescriptor)
  : result HarnessError string := serialized_digest "descriptor" descriptor.

(** crates/harness-core/src/admission/receipt.rs:393-400 (artifact_digest) *)
Definition artifact_digest (domain b : bytes) : string :=
  hash_parts ["bullet-provider-conformance-artifact-v1"; nul; domain; nul; b].

(** crates/harness-core/src/admission.rs:317-381 (executable_digest) *)
Definition executable_digest {S} `{!Files S} (path : string) : stateful S HarnessError string :=
  _ ← pure_step (refuse_if (negb (path_is_absolute path))
        (HeAdmissionRefused "provider executable must be absolute"));
  metadata ← io "provider executable metadata" (fs_symlink_metadata path);
  _ ← pure_step (refuse_if (negb (bool_decide (md_kind metadata = IsFile))
                            || bool_decide (MAX_EXECUTABLE_BYTES < md_len metadata))
        (HeAdmissionRefused "provider executable must be a bounded regular file"));
  canonical ← io "canonicalize provider executable" (fs_canonicalize path);
  _ ← pure_step (refuse_if (negb (path_eq canonical path))
        (HeAdmissionRefused "provider executable path is not canonical"));
  _ ← pure_step (refuse_if (bool_decide (Z.land (md_mode metadata) 73 = 0))
        (HeAdmissionRefused "provider executable has no execute bit"));
  file ← io "open provider executable" (fs_open path);
  opened ← io "opened provider executable metadata" (fs_handle_metadata file);
  _ ← pure_step (refuse_if (negb (bool_decide (md_dev metadata = md_dev opened))
                            || negb (bool_decide (md_ino metadata = md_ino opened))
                            || negb (bool_decide (md_len metadata = md_len opened))
                            || negb (bool_decide (md_kind opened = IsFile)))
        (HeAdmissionRefused "provider executable identity changed while opening"));
  content ← io "read provider executable" (fs_read_to_end file);
  mret (file_digest content).
End Digests.

(** ** Receipt operations *)

Section Receipt.
Context `{Blake3} `{Hex} `{!Json ProviderConformanceReceipt}.

(** crates/harness-core/src/admission/receipt.rs:298-309 (ProviderConformanceReceipt::seal_digest) *)
Definition seal_digest (r : ProviderConformanceReceipt) : result HarnessError string :=
  let unsigned := with_receipt_id EmptyString r in
  b ← map_err (fun error => HeAdmissionRefused ("receipt serialization failed: " +:+ error))
        (to_json unsigned);
  mret (hash_parts ["bullet-provider-conformance-receipt-v1"; nul; b]).

(** crates/harness-core/src/admission/receipt.rs:271-283 (ProviderConformanceReceipt::verify) *)
Definition receipt_verify (r : ProviderConformanceReceipt) : result HarnessError unit :=
  sealed ← seal_digest r;
  refuse_if (negb (bool_decide (rc_receipt_id r = sealed)))
    (HeAdmissionRefused "provider conformance receipt digest mismatch").

(** crates/harness-core/src/admission/receipt.rs:262-269 (ProviderConformanceReceipt::first_blocker) *)
Definition first_blocker (r : ProviderConformanceReceipt) : string :=
  match rc_blockers r with b :: _ => AdmissionBlocker_as_str b | [] => "UNSIGNED_RECEIPT" end.

(** crates/harness-core/src/admission/receipt.rs:247-260 (ProviderConformanceReceipt::require_dispatch) *)
Definition receipt_require_dispatch (r : ProviderConformanceReceipt) : result HarnessError unit :=
  _ ← receipt_verify r;
  Err (HeAdmissionBlocked (first_blocker r)).

(** The list without its first occurrence of a blocker. *)
Fixpoint remove_blocker (b : AdmissionBlocker) (l : list AdmissionBlocker)
  : option (list AdmissionBlocker) :=
  match l with
  | [] => None
  | x :: rest => if decide (x = b) then Some rest else (cons x) <$> remove_blocker b rest
  end.

(** crates/harness-core/src/admission/receipt.rs:285-296 (ProviderConformanceReceipt::clear_blocker) *)
Definition clear_blocker (b : AdmissionBlocker) (r : ProviderConformanceReceipt)
  : result HarnessError ProviderConformanceReceipt :=
  remaining ← ok_or (remove_blocker b (rc_blockers r))
    (HeAdmissionRefused ("blocker " +:+ AdmissionBlocker_as_str b +:+ " is not present"));
  let r := reseal_fields r (rc_receipt_id r) remaining (rc_signed_authority r)
             (rc_egress_isolation r) in
  id ← seal_digest r;
  mret (with_receipt_id id r).

(** crates/harness-core/src/admission.rs:275-291 (EvaluatedAdmission::require_dispatch) *)
Definition require_dispatch (a : EvaluatedAdmission) : result HarnessError unit :=
  _ ← receipt_verify (ea_receipt a);
  if bool_decide (rc_blockers (ea_receipt a) = []) then Ok tt
  else Err (HeAdmissionBlocked (first_blocker (ea_receipt a))).

(** crates/harness-core/src/admission/signed.rs:13-15 (REQUIRED_EGRESS_PROBES) *)
Definition REQUIRED_EGRESS_PROBES : list string := ["direct-internet"; "host-jeryu"].
(** crates/harness-core/src/admission/signed.rs:16-16 (MAX_EGRESS_PROBES) *)
Definition MAX_EGRESS_PROBES : Z := 32.

(** crates/harness-core/src/admission/signed.rs:88-137 (EgressIsolationEvidence::validate) *)
Definition egress_validate (e : EgressIsolationEvidence) : result HarnessError unit :=
  _ ← for_each (fun '(name, value) =>
        refuse_if (negb (is_hex_64 value))
          (HeAdmissionRefused ("egress " +:+ name +:+ " must be 64 lowercase hex characters")))
      [("receipt_digest", ei_receipt_digest e); ("ruleset_digest", ei_ruleset_digest e);
       ("allowlist_digest", ei_allowlist_digest e)];
  _ ← refuse_if (bool_decide (length (ei_probes e) = 0%nat)
                 || bool_decide (MAX_EGRESS_PROBES < Z.of_nat (length (ei_probes e))))
        (HeAdmissionRefused "egress evidence must contain 1..=32 probes");
  _ ← refuse_if (negb (bool_decide (NoDup (eg_name <$> ei_probes e))))
        (HeAdmissionRefused "egress probe names must be unique");
  _ ← for_each (fun required =>
        refuse_if (negb (bool_decide (required ∈ eg_name <$> ei_probes e)))
          (HeAdmissionRefused ("egress evidence lacks probe " +:+ required)))
      REQUIRED_EGRESS_PROBES;
  for_each (fun probe =>
    _ ← refuse_if (is_empty (eg_name probe) || bool_decide (64 < str_len (eg_name probe))
                   || negb (string_all (token_byte "-") (eg_name probe)))
          (HeAdmissionRefused "egress probe names must be lowercase labels");
    match eg_outcome probe with
    | EgressRefused | EgressUnreachable => Ok tt
    | other => refused ("egress probe " +:+ eg_name probe +:+ " observed "
                        +:+ EgressProbeOutcome_debug other +:+ "; containment is not proven")
    end) (ei_probes e).

(** crates/harness-core/src/admission/signed.rs:212-234 (EvaluatedAdmission::admit_egress) *)
Definition admit_egress (a : EvaluatedAdmission) (e : EgressIsolationEvidence)
  : result HarnessError EvaluatedAdmission :=
  _ ← egress_validate e;
  let r := ea_receipt a in
  _ ← receipt_verify r;
  _ ← refuse_if (bool_decide (is_Some (rc_egress_isolation r)))
        (HeAdmissionRefused "egress isolation was already admitted");
  let record := MkEgressIsolationRecord (ei_receipt_digest e) (ei_ruleset_digest e)
                  (ei_allowlist_digest e) (ei_probes e) in
  r ← clear_blocker EgressIsolationUnavailable
        (reseal_fields r (rc_receipt_id r) (rc_blockers r) (rc_signed_authority r) (Some record));
  mret (MkEvaluatedAdmission r (ea_executable a) (ea_home a)).

Section Signed.
Context `{!Canon (gmap string string)}.

(** crates/harness-core/src/admission/signed.rs:154-187 (EvaluatedAdmission::admit_signed, facts) *)
Definition admission_facts (a : EvaluatedAdmission) (claims : LaunchGrantClaims)
  (environment : string) : list (string * string * string) :=
  let receipt := ea_receipt a in
  [("provider", lg_provider claims, rc_provider receipt);
   ("executable_path", lg_executable_path claims, ea_executable a);
   ("executable_digest", lg_executable_digest claims, rc_executable_blake3 receipt);
   ("descriptor_digest", lg_descriptor_digest claims, rc_descriptor_blake3 receipt);
   ("capability_digest", lg_capability_digest claims, rc_capability_blake3 receipt);
   ("provider_profile_id", lg_provider_profile_id claims, rc_profile_id receipt);
   ("protocol", lg_protocol claims, ProviderProtocol_as_str (rc_current_protocol receipt));
   ("environment_digest", lg_environment_digest claims, environment)].

(** crates/harness-core/src/admission/signed.rs:141-210 (EvaluatedAdmission::admit_signed) *)
Definition admit_signed (a : EvaluatedAdmission) (grant : VerifiedLaunchGrant)
  : result HarnessError EvaluatedAdmission :=
  let claims := vg_claims grant in
  let r := ea_receipt a in
  environment ← environment_digest (ph_env (ea_home a));
  _ ← no_mismatch (admission_facts a claims environment);
  _ ← receipt_verify r;
  _ ← refuse_if (bool_decide (is_Some (rc_signed_authority r)))
        (HeAdmissionRefused "signed authority was already admitted");
  let record := MkSignedAuthorityRecord (lg_grant_id claims) (lg_key_id claims)
                  (lg_issuer claims) (vg_envelope_digest grant) (lg_expires_at_unix_ms claims) in
  r ← clear_blocker SignedAuthorityUnavailable
        (reseal_fields r (rc_receipt_id r) (rc_blockers r) (Some record) (rc_egress_isolation r));
  mret (MkEvaluatedAdmission r (ea_executable a) (ea_home a)).
End Signed.

(** crates/harness-core/src/argv.rs:181-208 (ArgvBuilder::build_with_admission) *)
Definition build_with_admission (environ : list (string * string)) (b : ArgvBuilder)
  (admission : EvaluatedAdmission) : result HarnessError PreparedInvocation :=
  _ ← validate_common environ b;
  _ ← refuse_if (negb (path_eq (ab_program b) (ea_executable admission)))
        (HeAdmissionRefused "argv executable differs from the evaluated admission");
  _ ← require_dispatch admission;
  mret (MkPreparedInvocation (ea_executable admission) (ab_args b) (ab_cwd b)
          (ab_timeout_ns b) (ph_env (ea_home admission))).
End Receipt.

(** ** Evaluation *)

Section Evaluate.
Context `{Blake3} `{Hex} `{Unicode} {V : Type}.
Context `{!Json CapabilityMatrix} `{!Json HarnessDescriptor} `{!Json ProbeResult}.
Context `{!Json (list (string * string))} `{!Json (list (AgentEvent V))}.
Context `{!Json PatchProposalWire} `{!Json ProviderConformanceReceipt}.

(** crates/harness-core/src/admission/receipt.rs:97-122 (ConformanceEvidence::validate) *)
Definition evidence_validate (e : ConformanceEvidence V) (provider : string)
  (canaries : CanarySecrets) : result HarnessError EvidenceCommitments :=
  _ ← inspect canaries "stdout" (ce_stdout e);
  _ ← inspect canaries "stderr" (ce_stderr e);
  event_bytes ← map_err (fun error =>
      HeAdmissionRefused ("event serialization failed: " +:+ error)) (to_json (ce_events e));
  _ ← inspect canaries "event_log" event_bytes;
  _ ← validate_invocation_events provider (ce_events e);
  _ ← PatchProposal_validate (ce_proposal e);
  proposal ← map_err (fun error =>
      HeAdmissionRefused ("proposal serialization failed: " +:+ error))
    (to_json (pp_wire (ce_proposal e)));
  _ ← inspect canaries "accepted_patch" proposal;
  mret (MkEvidenceCommitments (artifact_digest "stdout" (ce_stdout e))
    (artifact_digest "stderr" (ce_stderr e)) (artifact_digest "events" event_bytes)
    (artifact_digest "proposal" proposal)).

(** crates/harness-core/src/admission/receipt.rs:206-245 (ProviderConformanceReceipt::from_input) *)
Definition receipt_from_input (a : ProviderAdmission) (commitments : EvidenceCommitments)
  : result HarnessError ProviderConformanceReceipt :=
  let policy := pa_policy a in
  let receipt := {|
    rc_receipt_id := EmptyString;
    rc_provider := pap_provider policy;
    rc_executable := pap_executable policy;
    rc_executable_blake3 := pap_executable_blake3 policy;
    rc_version := pap_version policy;
    rc_capability_blake3 := pa_capability_blake3 a;
    rc_descriptor_blake3 := pa_descriptor_blake3 a;
    rc_profile_id := id_as_str (pref_profile_id (pap_profile policy));
    rc_profile_blake3 := pa_profile_blake3 a;
    rc_environment_blake3 := pa_environment_blake3 a;
    rc_current_protocol := rp_protocol (pa_probe a);
    rc_required_protocol := pap_required_protocol policy;
    rc_probed_at := rp_observed_at (pa_probe a);
    rc_evaluated_at := pa_evaluated_at a;
    rc_credentials := ph_credentials (pa_home a);
    rc_proposal_blake3 := ec_proposal_blake3 commitments;
    rc_stdout_blake3 := ec_stdout_blake3 commitments;
    rc_stderr_blake3 := ec_stderr_blake3 commitments;
    rc_events_blake3 := ec_events_blake3 commitments;
    rc_canary_surfaces := ["environment"; "stdout"; "stderr"; "event_log"; "accepted_patch"];
    rc_blockers := pa_blockers a;
    rc_signed_authority := None;
    rc_egress_isolation := None
  |} in
  id ← seal_digest receipt;
  mret (with_receipt_id id receipt).

(** crates/harness-core/src/admission.rs:217-253 (ProviderAdmission::finalize) *)
Definition finalize (a : ProviderAdmission) (e : ConformanceEvidence V)
  : result HarnessError EvaluatedAdmission :=
  commitments ← evidence_validate e (pap_provider (pa_policy a)) (pa_canaries a);
  receipt ← receipt_from_input a commitments;
  mret (MkEvaluatedAdmission receipt (pap_executable (pa_policy a)) (pa_home a)).

(** The states of a required capability that are conformant. *)
Definition capability_conformant (s : CapabilityState) : bool :=
  match s with CapSupported | CapSupportedWithLimitations => true | _ => false end.

(** crates/harness-core/src/admission.rs:179-193 (ProviderAdmission::prepare, blockers) *)
Definition initial_blockers (required : ProtocolRequirement) (probe : RuntimeProbeSnapshot)
  : list AdmissionBlocker :=
  [SignedAuthorityUnavailable; EgressIsolationUnavailable]
  ++ (if bool_decide (rp_protocol probe = pr_protocol required) then [] else [ProtocolNonconformant])
  ++ (if existsb (fun c => negb (capability_conformant
                                   (matrix_state (hd_capabilities (rp_descriptor probe)) c)))
           (pr_capabilities required)
      then [CapabilityNonconformant] else []).

(** crates/harness-core/src/admission.rs:130-177 (ProviderAdmission::prepare, checks) *)
Definition check_probe {S} `{!Files S} (policy : ProviderAdmissionPolicy)
  (probe : RuntimeProbeSnapshot) (evaluated_at : Z)
  : stateful S HarnessError (ProtocolRequirement * string * string) :=
  required ← pure_step (requirement (pap_provider policy));
  _ ← pure_step (refuse_if (negb (bool_decide (pap_required_protocol policy = pr_protocol required)))
        (HeAdmissionRefused "policy weakens the frozen provider protocol"));
  _ ← pure_step (validate_digest_label (pap_executable_blake3 policy) "executable");
  _ ← pure_step (validate_digest_label (pap_descriptor_blake3 policy) "descriptor");
  executable_blake3 ← executable_digest (pap_executable policy);
  _ ← pure_step (refuse_if
        (negb (bool_decide (executable_blake3 = pap_executable_blake3 policy))
         || negb (bool_decide (rp_executable_blake3 probe = pap_executable_blake3 policy))
         || negb (path_eq (rp_executable probe) (pap_executable policy)))
        (HeAdmissionRefused "runtime executable identity mismatch"));
  let descriptor := rp_descriptor probe in
  observed_version ← pure_step (match hd_version descriptor with
    | ObsValue value => Ok value
    | _ => refused "runtime descriptor version is not verified"
    end);
  _ ← pure_step (refuse_if
        (negb (bool_decide (hd_provider descriptor = pap_provider policy))
         || negb (bool_decide (observed_version = pap_version policy))
         || negb (bool_decide (prb_version (rp_identity probe) = pap_version policy)))
        (HeAdmissionRefused "runtime provider/version mismatch"));
  executable_name ← pure_step (ok_or (path_file_name (pap_executable policy))
        (HeAdmissionRefused "provider executable has no UTF-8 file name"));
  _ ← pure_step (refuse_if
        (negb (bool_decide (hd_binary descriptor = executable_name))
         || negb (bool_decide (length (path_components (hd_binary descriptor)) = 1%nat)))
        (HeAdmissionRefused "runtime descriptor binary identity mismatch"));
  _ ← pure_step (refuse_if
        (bool_decide (stage_rank (hd_stage descriptor) < stage_rank StContractPass)%nat)
        (HeAdmissionRefused "adapter has not reached contract-pass stage"));
  identity ← pure_step (ProbeResult_verify (rp_identity probe) (pap_provider policy)
        (pref_expected (pap_profile policy)));
  _ ← pure_step (refuse_if (negb (bool_decide (pi_provider identity = pap_provider policy)))
        (HeAdmissionRefused "runtime identity names a different provider"));
  _ ← pure_step (validate_probe_time probe evaluated_at (pap_max_probe_age_seconds policy));
  descriptor_blake3 ← pure_step (descriptor_digest descriptor);
  _ ← pure_step (refuse_if (negb (bool_decide (descriptor_blake3 = pap_descriptor_blake3 policy)))
        (HeAdmissionRefused "runtime descriptor mismatch"));
  capability_blake3 ← pure_step (capability_digest (hd_capabilities descriptor));
  mret (required, descriptor_blake3, capability_blake3).

(** crates/harness-core/src/admission.rs:113-215 (ProviderAdmission::prepare) *)
Definition prepare {S} `{!Files S} (uuid : string) (policy : ProviderAdmissionPolicy)
  (probe : RuntimeProbeSnapshot) (inherited_env : list (string * string))
  (canaries : CanarySecrets) (evaluated_at : Z) : stateful S HarnessError ProviderAdmission :=
  '(required, descriptor_blake3, capability_blake3) ← check_probe policy probe evaluated_at;
  let blockers := initial_blockers required probe in
  home ← stage uuid (pap_runtime_root policy) (pap_credential_targets policy)
           (pap_credentials policy) inherited_env;
  drop_on_err (drop_home home)
    (pure_step
      (_ ← inspect_env canaries (ph_env home);
       profile_blake3 ← serialized_digest "profile" (rp_identity probe);
       environment_blake3 ← serialized_digest "environment" (ph_env home);
       mret (MkProviderAdmission policy probe capability_blake3 descriptor_blake3 profile_blake3
               environment_blake3 home canaries blockers evaluated_at))).
End Evaluate.

(** ** What live dispatch requires

    Theorems about [Admission]: an evaluated admission dispatches only after
    both kinds of evidence cleared its two standing blockers, and only when the
    probe was conformant to begin with. *)

(** One piece of evidence handed to an admission. *)
Inductive clearance : Type :=
| ClearedSigned (grant : VerifiedLaunchGrant)
| ClearedEgress (evidence : EgressIsolationEvidence).

(** The blocker a piece of evidence is for. *)
Definition clears (c : clearance) : AdmissionBlocker :=
  match c with
  | ClearedSigned _ => SignedAuthorityUnavailable
  | ClearedEgress _ => EgressIsolationUnavailable
  end.

(** Containment as the probes saw it: both required destinations were tried,
    and nothing that was tried answered. *)
Definition contained (e : EgressIsolationEvidence) : Prop :=
  Forall (fun required => required ∈ eg_name <$> ei_probes e) REQUIRED_EGRESS_PROBES
  /\ Forall (fun p => eg_outcome p = EgressRefused \/ eg_outcome p = EgressUnreachable) (ei_probes e).

Lemma egress_validate_Ok e u : egress_validate e = Ok u -> contained e.
Proof.
  unfold egress_validate, contained. intros Hv. inv_result.
  repeat match goal with Hf : for_each _ _ = Ok _ |- _ => apply for_each_Ok in Hf end.
  split.
  - eapply Forall_impl; [eassumption|]. cbn. intros r Hr. by inv_result.
  - eapply Forall_impl; [eassumption|]. cbn. intros p Hp. inv_result.
    destruct (eg_outcome p); auto; done.
Qed.

Lemma remove_blocker_perm b l l' : remove_blocker b l = Some l' -> l ≡ₚ b :: l'.
Proof.
  revert l'. induction l as [|x l IH]; intros l' Hr; cbn in Hr; [done|].
  destruct (decide (x = b)) as [->|]; simplify_eq; [done|].
  apply fmap_Some in Hr as (l1 & H1 & ->). rewrite (IH l1 H1). constructor.
Qed.

(** Everything of a receipt but its identifier, blockers and two records. *)
Definition same_facts (r r' : ProviderConformanceReceipt) : Prop :=
  r' = reseal_fields r (rc_receipt_id r') (rc_blockers r') (rc_signed_authority r')
         (rc_egress_isolation r').

Global Instance same_facts_preorder : PreOrder same_facts.
Proof.
  split; [by intros []|]. unfold same_facts. intros x y z Hxy Hyz.
  rewrite Hyz, Hxy. by destruct x.
Qed.

Section Clear.
Context `{Blake3} `{Hex} `{!Json ProviderConformanceReceipt} `{!Canon (gmap string string)}.

(** One piece of evidence after the other; the first refusal drops the
    admission. *)
Fixpoint clear_all (a : EvaluatedAdmission) (cs : list clearance)
  : result HarnessError EvaluatedAdmission :=
  match cs with
  | [] => Ok a
  | c :: rest =>
      a ← match c with
          | ClearedSigned grant => admit_signed a grant
          | ClearedEgress evidence => admit_egress a evidence
          end;
      clear_all a rest
  end.

Lemma clear_blocker_Ok b r r' :
  clear_blocker b r = Ok r' ->
  rc_blockers r ≡ₚ b :: rc_blockers r' /\ same_facts r r'
  /\ rc_signed_authority r' = rc_signed_authority r
  /\ rc_egress_isolation r' = rc_egress_isolation r /\ receipt_verify r' = Ok tt.
Proof.
  unfold clear_blocker. intros Hc. inv_result. split_and!; cbn; try done.
  - by apply remove_blocker_perm.
  - unfold receipt_verify.
    match goal with Hs : seal_digest ?r1 = Ok ?id |- _ =>
      assert (Hs' : seal_digest (with_receipt_id id r1) = Ok id) by exact Hs end.
    rewrite Hs'. cbn. by rewrite bool_decide_true.
Qed.

(** What the evidence says about the admission that accepted it. *)
Definition evidence_binds (a : EvaluatedAdmission) (c : clearance) : Prop :=
  match c with
  | ClearedSigned grant =>
      exists environment, environment_digest (ph_env (ea_home a)) = Ok environment
        /\ Forall (fun row => row.1.2 = row.2) (admission_facts a (vg_claims grant) environment)
  | ClearedEgress evidence => contained evidence
  end.

(** The same admission up to blockers and evidence records. *)
Definition same_admission (a a' : EvaluatedAdmission) : Prop :=
  same_facts (ea_receipt a) (ea_receipt a') /\ ea_executable a' = ea_executable a
  /\ ea_home a' = ea_home a.

Lemma same_admission_facts a a' claims environment :
  same_admission a a' -> admission_facts a' claims environment = admission_facts a claims environment.
Proof.
  destruct a as [r ? ?], a' as [r' ? ?]. intros (Hf & He & Hh). cbn in *. subst.
  unfold same_facts in Hf. unfold admission_facts. cbn. by rewrite Hf.
Qed.

Lemma clear_one a c a' :
  match c with
  | ClearedSigned grant => admit_signed a grant
  | ClearedEgress evidence => admit_egress a evidence
  end = Ok a' ->
  rc_blockers (ea_receipt a) ≡ₚ clears c :: rc_blockers (ea_receipt a')
  /\ same_admission a a' /\ evidence_binds a c.
Proof.
  destruct c as [grant|evidence]; unfold admit_signed, admit_egress; intros Hc; inv_result;
    match goal with Hb : clear_blocker _ _ = Ok _ |- _ =>
      apply clear_blocker_Ok in Hb as (Hp & Hf & _) end;
    (split; [exact Hp|split; [split; [exact Hf|done]|]]).
  - cbn. eexists. split; [eassumption|].
    match goal with Hm : no_mismatch _ = Ok _ |- _ => by apply no_mismatch_Ok in Hm end.
  - by eapply egress_validate_Ok.
Qed.

Lemma clear_all_Ok a cs a' :
  clear_all a cs = Ok a' ->
  rc_blockers (ea_receipt a) ≡ₚ (clears <$> cs) ++ rc_blockers (ea_receipt a')
  /\ same_admission a a' /\ Forall (evidence_binds a) cs.
Proof.
  revert a. induction cs as [|c cs IH]; intros a Hc; cbn [clear_all] in Hc.
  { injection Hc as <-. split_and!; [done|by split|constructor]. }
  apply bind_Ok in Hc as (a1 & Hone & Hrest). apply clear_one in Hone as (Hp & Hs & He).
  apply IH in Hrest as (Hp' & Hs' & He'). split_and!.
  - rewrite Hp, fmap_cons. cbn. by rewrite Hp'.
  - destruct Hs as (? & ? & ?), Hs' as (? & ? & ?). split_and!; [by etrans|congruence|congruence].
  - constructor; [done|]. eapply Forall_impl; [exact He'|]. intros [g|e] Hb; [|done].
    destruct Hb as (environment & Henv & Hrows). exists environment.
    rewrite (same_admission_facts _ _ _ _ Hs) in Hrows.
    destruct Hs as (_ & _ & Hh). by rewrite Hh in Henv.
Qed.

Lemma require_dispatch_Ok a u :
  require_dispatch a = Ok u <->
  receipt_verify (ea_receipt a) = Ok tt /\ rc_blockers (ea_receipt a) = [].
Proof.
  unfold require_dispatch. destruct u. rewrite bind_Ok. split.
  - intros ([] & Hv & Hb). case_bool_decide; done.
  - intros [Hv Hb]. exists tt. by rewrite Hb.
Qed.

(** A serialized receipt never dispatches, whatever it says. *)
Lemma receipt_never_dispatches r u : receipt_require_dispatch r <> Ok u.
Proof. unfold receipt_require_dispatch. intros Hr. by inv_result. Qed.
End Clear.

(** Two cleared blockers that are the standing ones, in some order. *)
Lemma cleared_pair cs rest :
  SignedAuthorityUnavailable :: EgressIsolationUnavailable :: rest ≡ₚ clears <$> cs ->
  (forall b, b ∈ rest -> b <> SignedAuthorityUnavailable /\ b <> EgressIsolationUnavailable) ->
  rest = [] /\ exists g e, cs = [ClearedSigned g; ClearedEgress e]
                           \/ cs = [ClearedEgress e; ClearedSigned g].
Proof.
  intros Hp Hrest.
  assert (rest = []) as ->.
  { destruct rest as [|b rest]; [done|]. exfalso.
    assert (Hb : b ∈ clears <$> cs) by (rewrite <-Hp; set_solver).
    apply list_elem_of_fmap in Hb as (c & -> & _).
    destruct (Hrest (clears c)) as [H1 H2]; [constructor|]. by destruct c. }
  split; [done|]. pose proof (Permutation_length Hp) as Hl. rewrite length_fmap in Hl.
  destruct cs as [|c1 [|c2 [|]]]; try done.
  assert (H1 : SignedAuthorityUnavailable ∈ clears <$> [c1; c2]) by (rewrite <-Hp; set_solver).
  assert (H2 : EgressIsolationUnavailable ∈ clears <$> [c1; c2]) by (rewrite <-Hp; set_solver).
  destruct c1 as [g|e], c2 as [g'|e']; cbn in *; set_solver.
Qed.

Section Dispatch.
Context `{Blake3} `{Hex} `{Unicode} {V S : Type} `{!Files S}.
Context `{!Json CapabilityMatrix} `{!Json HarnessDescriptor} `{!Json ProbeResult}.
Context `{!Json (list (string * string))} `{!Json (list (AgentEvent V))}.
Context `{!Json PatchProposalWire} `{!Json ProviderConformanceReceipt}.
Context `{!Canon (gmap string string)}.

(** What a successful local evaluation established. *)
Record evaluated (policy : ProviderAdmissionPolicy) (probe : RuntimeProbeSnapshot) (now : Z)
  (a : EvaluatedAdmission) (required : ProtocolRequirement) : Prop := {
  ev_required : requirement (pap_provider policy) = Ok required;
  ev_blockers : rc_blockers (ea_receipt a) = initial_blockers required probe;
  ev_executable : ea_executable a = pap_executable policy;
  ev_facts : rc_provider (ea_receipt a) = pap_provider policy
    /\ rc_executable_blake3 (ea_receipt a) = pap_executable_blake3 policy
    /\ rc_descriptor_blake3 (ea_receipt a) = pap_descriptor_blake3 policy
    /\ rc_profile_id (ea_receipt a) = id_as_str (pref_profile_id (pap_profile policy))
    /\ rc_current_protocol (ea_receipt a) = rp_protocol probe;
  ev_fresh : now - rp_observed_at probe <= pap_max_probe_age_seconds policy * 1000000000
}.

Lemma validate_probe_time_Ok probe now age u :
  validate_probe_time probe now age = Ok u -> now - rp_observed_at probe <= age * 1000000000.
Proof. unfold validate_probe_time. intros Hv. case_result. lia. Qed.

Lemma prepare_finalize uuid policy probe env canaries now (s t : S) adm ev a :
  prepare uuid policy probe env canaries now s = (t, Ok adm) ->
  finalize (V:=V) adm ev = Ok a ->
  (exists required, evaluated policy probe now a required)
  /\ wellformed_log (pap_provider policy) (ce_events ev)
  /\ PatchProposal_validate (ce_proposal ev) = Ok tt
  /\ (exists t', stage uuid (pap_runtime_root policy) (pap_credential_targets policy)
        (pap_credentials policy) env t' = (t, Ok (ea_home a))).
Proof.
  unfold prepare. intros Hp Hf.
  apply st_bind_Ok in Hp as (s1 & [[required descriptor] capability] & Hcheck & Hp).
  apply st_bind_Ok in Hp as (s2 & home & Hstage & Hp).
  apply drop_on_err_Ok, st_pure_Ok in Hp as [-> Hp]. inv_result.
  unfold finalize, receipt_from_input, evidence_validate in Hf. inv_result. cbn.
  unfold check_probe in Hcheck. inv_st.
  split_and!.
  - exists required. split; cbn; try done. by eapply validate_probe_time_Ok.
  - apply invocation_log_accepted.
    match goal with Hv : validate_invocation_events _ _ = Ok ?u |- _ => by destruct u end.
  - match goal with Hv : PatchProposal_validate _ = Ok ?u |- _ => by destruct u end.
  - by eexists.
Qed.

(** C13: A live provider is dispatched only with every piece of evidence: when
    an admission that was prepared and finalized dispatches, the probe was
    fresh and spoke the provider's frozen protocol, each required capability
    was supported (not unknown or experimental), the invocation's event log
    was well-formed and its proposal valid, and exactly one launch grant and
    one containment report were handed in after that, in either order. The
    grant names this provider, executable path, executable and descriptor
    digest, profile, protocol and the digest of the staged environment, and
    every probe of the report, the two required ones among them, was refused
    or found no route. *)
Theorem live_dispatch_needs_all_evidence uuid policy probe env canaries now (s t : S) adm ev a cs a' :
  prepare uuid policy probe env canaries now s = (t, Ok adm) ->
  finalize (V:=V) adm ev = Ok a ->
  clear_all a cs = Ok a' ->
  require_dispatch a' = Ok tt ->
  exists required g e environment,
    requirement (pap_provider policy) = Ok required
    /\ rp_protocol probe = pr_protocol required
    /\ Forall (fun c => capability_conformant
                 (matrix_state (hd_capabilities (rp_descriptor probe)) c) = true)
         (pr_capabilities required)
    /\ now - rp_observed_at probe <= pap_max_probe_age_seconds policy * 1000000000
    /\ wellformed_log (pap_provider policy) (ce_events ev)
    /\ PatchProposal_validate (ce_proposal ev) = Ok tt
    /\ (cs = [ClearedSigned g; ClearedEgress e] \/ cs = [ClearedEgress e; ClearedSigned g])
    /\ contained e
    /\ environment_digest (ph_env (ea_home a)) = Ok environment
    /\ lg_provider (vg_claims g) = pap_provider policy
    /\ lg_executable_path (vg_claims g) = pap_executable policy
    /\ lg_executable_digest (vg_claims g) = pap_executable_blake3 policy
    /\ lg_descriptor_digest (vg_claims g) = pap_descriptor_blake3 policy
    /\ lg_provider_profile_id (vg_claims g) = id_as_str (pref_profile_id (pap_profile policy))
    /\ lg_protocol (vg_claims g) = ProviderProtocol_as_str (rp_protocol probe)
    /\ lg_environment_digest (vg_claims g) = environment.
Proof.
  intros Hp Hf Hc Hd.
  destruct (prepare_finalize _ _ _ _ _ _ _ _ _ _ _ Hp Hf) as ((required & Hev) & Hlog & Hprop & _).
  destruct Hev as [Hreq Hb Hexe (F1 & F2 & F3 & F4 & F5) Hfresh].
  apply clear_all_Ok in Hc as (Hperm & _ & Hbinds).
  apply require_dispatch_Ok in Hd as [_ Hempty]. rewrite Hempty, app_nil_r, Hb in Hperm.
  unfold initial_blockers in Hperm. cbn [app] in Hperm.
  apply cleared_pair in Hperm as [Hrest (g & e & Hcs)].
  2: { intros b Hin. repeat case_bool_decide; destruct (existsb _ _); set_solver. }
  apply app_eq_nil in Hrest as [Hproto Hcaps].
  assert (Hg : evidence_binds a (ClearedSigned g)).
  { rewrite Forall_forall in Hbinds. apply Hbinds. destruct Hcs as [-> | ->]; set_solver. }
  assert (He : contained e).
  { rewrite Forall_forall in Hbinds. apply (Hbinds (ClearedEgress e)).
    destruct Hcs as [-> | ->]; set_solver. }
  destruct Hg as (environment & Henv & Hrows). unfold admission_facts in Hrows.
  rewrite Hexe, F1, F2, F3, F4, F5 in Hrows.
  repeat match goal with Hr : Forall _ (_ :: _) |- _ => apply Forall_cons in Hr as [? Hr] end.
  exists required, g, e, environment. cbn in *.
  split_and!; try done.
  - by destruct (bool_decide_reflect (rp_protocol probe = pr_protocol required)).
  - destruct (existsb _ _) eqn:Hex; [done|]. apply Forall_forall. intros c Hin%list_elem_of_In.
    destruct (capability_conformant _) eqn:Hcap; [done|]. rewrite <-not_true_iff_false in Hex.
    exfalso. apply Hex, existsb_exists. exists c. split; [done|]. by rewrite Hcap.
Qed.
End Dispatch.
