(* ===== verification/Context.v ===== *)
(** * Initial context capsules

    Models crates/application/src/context.rs: the immutable context bound to
    each package of a materialised plan, and the check that a stored set is
    exactly the set of one graph. *)

From S2P Require Import Prelude External Ids States Entities Store Records.
From stdpp Require Import options.

Local Open Scope Z_scope.

Definition INITIAL_CONTEXT_CAPSULE_SCHEMA : string := "bullet.context-capsule.initial.v1".

(** crates/application/src/context.rs:14-38 (ContextCapsule) *)
Record ContextCapsule : Type := MkContextCapsule {
  cc_id : ContextCapsuleId;
  cc_mission_id : MissionId;
  cc_work_package_id : WorkPackageId;
  cc_plan_revision_id : PlanRevisionId;
  cc_revision : Z;
  cc_task_class : TaskClass;
  cc_objective : string;
  cc_package_title : string;
  cc_content_digest : Digest;
  cc_recorded_at : string
}.

(** crates/application/src/context.rs:40-50 (InitialContent) *)
Record InitialContent : Type := MkInitialContent {
  ic_schema_version : string;
  ic_mission_id : MissionId;
  ic_work_package_id : WorkPackageId;
  ic_plan_revision_id : PlanRevisionId;
  ic_revision : Z;
  ic_task_class : TaskClass;
  ic_objective : string;
  ic_package_title : string
}.

Global Instance ContextCapsule_eq_dec : EqDecision ContextCapsule.
Proof. solve_decision. Defined.

Section Context.
Context `{Blake3} `{Hex} `{Chrono} `{Json InitialContent}.

(** crates/application/src/context.rs:222-226 (validate_time) *)
Definition validate_time (recorded_at : string) : result LedgerError unit :=
  _ ← ok_or (parse_rfc3339 recorded_at)
        (LedgerStore "context capsule record time is not RFC 3339");
  mret tt.

(** crates/application/src/context.rs:201-220 (content_digest) *)
Definition content_digest (mission : MissionId) (package : WorkPackageId)
  (plan : PlanRevisionId) (class : TaskClass) (objective title : string)
  : result LedgerError Digest :=
  lift_domain (Digest_of_json
    (MkInitialContent INITIAL_CONTEXT_CAPSULE_SCHEMA mission package plan 1 class
       objective title)).

(** crates/application/src/context.rs:53-92 (ContextCapsule::initial) *)
Definition ContextCapsule_initial (graph : StoredGraph) (package : WorkPackage)
  (recorded_at : string) : result LedgerError ContextCapsule :=
  _ ← refuse_if
        (negb (bool_decide (WorkPackage_mission_id package
                            = Mission_id (StoredGraph_mission graph)))
         || negb (bool_decide (WorkPackage_plan_revision_id package
                               = PlanRevision_id (StoredGraph_plan graph)))
         || negb (existsb (fun item => bool_decide (WorkPackage_id item
                                                    = WorkPackage_id package))
                    (StoredGraph_packages graph)))
        (LedgerStore "context capsule package is not owned by the exact graph");
  _ ← validate_time recorded_at;
  digest ← content_digest (Mission_id (StoredGraph_mission graph)) (WorkPackage_id package)
             (PlanRevision_id (StoredGraph_plan graph)) (WorkPackage_task_class package)
             (Mission_objective (StoredGraph_mission graph)) (WorkPackage_title package);
  mret {|
    cc_id := id_from_seed (to_hex digest);
    cc_mission_id := Mission_id (StoredGraph_mission graph);
    cc_work_package_id := WorkPackage_id package;
    cc_plan_revision_id := PlanRevision_id (StoredGraph_plan graph);
    cc_revision := 1;
    cc_task_class := WorkPackage_task_class package;
    cc_objective := Mission_objective (StoredGraph_mission graph);
    cc_package_title := WorkPackage_title package;
    cc_content_digest := digest;
    cc_recorded_at := recorded_at
  |}.

(** crates/application/src/context.rs:94-122 (ContextCapsule::validate) *)
Definition ContextCapsule_validate (c : ContextCapsule) : result LedgerError unit :=
  _ ← validate_time (cc_recorded_at c);
  _ ← refuse_if (negb (bool_decide (cc_revision c = 1)))
        (LedgerStore "unsupported context capsule revision");
  expected ← content_digest (cc_mission_id c) (cc_work_package_id c) (cc_plan_revision_id c)
               (cc_task_class c) (cc_objective c) (cc_package_title c);
  refuse_if (negb (bool_decide (cc_content_digest c = expected))
             || negb (bool_decide (cc_id c = id_from_seed (to_hex expected))))
    (LedgerStore "context capsule identity or content digest is corrupt").

(** crates/application/src/context.rs:124-134 (ContextCapsule::same_subject) *)
Definition same_subject (a b : ContextCapsule) : bool :=
  bool_decide (cc_id a = cc_id b) && bool_decide (cc_mission_id a = cc_mission_id b)
  && bool_decide (cc_work_package_id a = cc_work_package_id b)
  && bool_decide (cc_plan_revision_id a = cc_plan_revision_id b)
  && bool_decide (cc_revision a = cc_revision b)
  && bool_decide (cc_task_class a = cc_task_class b)
  && bool_decide (cc_objective a = cc_objective b)
  && bool_decide (cc_package_title a = cc_package_title b)
  && bool_decide (cc_content_digest a = cc_content_digest b).

Fixpoint initial_capsules_loop (graph : StoredGraph) (recorded_at : string)
  (packages : list WorkPackage) (seen : gset string) : result LedgerError (list ContextCapsule) :=
  match packages with
  | [] => Ok []
  | package :: rest =>
      _ ← refuse_if (bool_decide (id_as_str (WorkPackage_id package) ∈ seen))
            (LedgerStore "graph repeats a context capsule work package");
      capsule ← ContextCapsule_initial graph package recorded_at;
      capsules ← initial_capsules_loop graph recorded_at rest
                   ({[id_as_str (WorkPackage_id package)]} ∪ seen);
      mret (capsule :: capsules)
  end.

(** crates/application/src/context.rs:137-157 (initial_context_capsules) *)
Definition initial_context_capsules (graph : StoredGraph) (recorded_at : string)
  : result LedgerError (list ContextCapsule) :=
  initial_capsules_loop graph recorded_at (StoredGraph_packages graph) ∅.

Fixpoint index_capsules (capsules : list ContextCapsule) (actual : gmap string ContextCapsule)
  : result LedgerError (gmap string ContextCapsule) :=
  match capsules with
  | [] => Ok actual
  | capsule :: rest =>
      _ ← ContextCapsule_validate capsule;
      let key := id_as_str (cc_work_package_id capsule) in
      _ ← refuse_if (bool_decide (is_Some (actual !! key)))
            (LedgerStore "context capsule set repeats a work package");
      index_capsules rest (<[key := capsule]> actual)
  end.

Definition check_package_capsule (graph : StoredGraph) (actual : gmap string ContextCapsule)
  (package : WorkPackage) : result LedgerError unit :=
  stored ← ok_or (actual !! id_as_str (WorkPackage_id package))
             (LedgerStore ("context capsule missing for "
                           +:+ id_as_str (WorkPackage_id package)));
  expected ← ContextCapsule_initial graph package (cc_recorded_at stored);
  refuse_if (negb (same_subject stored expected))
    (LedgerStore ("context capsule subject differs for "
                  +:+ id_as_str (WorkPackage_id package))).

(** crates/application/src/context.rs:159-199 (validate_initial_context_set) *)
Definition validate_initial_context_set (graph : StoredGraph) (capsules : list ContextCapsule)
  : result LedgerError unit :=
  actual ← index_capsules capsules ∅;
  _ ← refuse_if (negb (bool_decide (size actual = length (StoredGraph_packages graph))))
        (LedgerStore "context capsule set is incomplete or contains foreign rows");
  for_each (check_package_capsule graph actual) (StoredGraph_packages graph).

(** ** Lemmas *)

Lemma ContextCapsule_initial_fields g p t c :
  ContextCapsule_initial g p t = Ok c ->
  cc_work_package_id c = WorkPackage_id p /\
  cc_mission_id c = Mission_id (StoredGraph_mission g) /\ cc_revision c = 1 /\
  cc_recorded_at c = t /\ ContextCapsule_validate c = Ok tt.
Proof.
  unfold ContextCapsule_initial. intros Hc.
  apply bind_Ok in Hc as (u & Hu & Hc). apply bind_Ok in Hc as ([] & Ht & Hc).
  apply bind_Ok in Hc as (d & Hd & Hc). inv_result.
  do 4 (split; [done|]). unfold ContextCapsule_validate. simpl.
  rewrite Ht. run_result. rewrite Hd. run_result. by rewrite !bool_decide_true.
Qed.

Lemma same_subject_refl c : same_subject c c = true.
Proof. unfold same_subject. by rewrite !bool_decide_true. Qed.

Lemma initial_capsules_loop_Ok g t ps seen cs :
  initial_capsules_loop g t ps seen = Ok cs ->
  Forall2 (fun p c => ContextCapsule_initial g p t = Ok c) ps cs /\
  NoDup ((fun p => id_as_str (WorkPackage_id p)) <$> ps) /\
  Forall (fun p => id_as_str (WorkPackage_id p) ∉ seen) ps.
Proof.
  revert seen cs. induction ps as [|p ps IH]; intros seen cs Hc; simpl in Hc.
  { inv_result. split; [constructor|]. split; constructor. }
  inv_result.
  match goal with Hl : initial_capsules_loop _ _ _ _ = Ok _ |- _ =>
    apply IH in Hl as (Hall & Hnd & Hseen) end.
  split; [by constructor|]. split.
  - rewrite fmap_cons. apply NoDup_cons. split; [|done].
    intros (q & Hq & Hin)%list_elem_of_fmap. rewrite Forall_forall in Hseen.
    apply (Hseen q); [done|]. set_solver.
  - constructor; [done|]. eapply Forall_impl; [exact Hseen|]. simpl. set_solver.
Qed.

Lemma index_capsules_Ok cs actual out :
  index_capsules cs actual = Ok out ->
  Forall (fun c => ContextCapsule_validate c = Ok tt) cs /\
  (forall k c, out !! k = Some c <->
     actual !! k = Some c \/ (c ∈ cs /\ k = id_as_str (cc_work_package_id c))) /\
  size out = (size actual + length cs)%nat.
Proof.
  revert actual. induction cs as [|c cs IH]; intros actual Hi; simpl in Hi.
  { inv_result. split; [constructor|]. split; [|simpl; lia].
    intros k d. split; [auto|]. intros [?|[Hd _]]; [done|]. by apply elem_of_nil in Hd. }
  inv_result.
  match goal with
  | Hx : ~ is_Some (actual !! _) |- _ => apply eq_None_not_Some in Hx; rename Hx into Hn
  end.
  match goal with Hl : index_capsules _ _ = Ok _ |- _ =>
    apply IH in Hl as (Hall & Hlook & Hsz) end.
  split. { constructor; [|done]. match goal with Hx : ContextCapsule_validate c = Ok ?x |- _ => by destruct x end. }
  split.
  - intros k d. rewrite Hlook. destruct (decide (k = id_as_str (cc_work_package_id c))) as [->|Hk].
    + rewrite lookup_insert_eq, Hn, elem_of_cons. naive_solver.
    + rewrite lookup_insert_ne, elem_of_cons by done. naive_solver.
  - rewrite Hsz, map_size_insert_None by done. simpl. lia.
Qed.

(** Indexing succeeds on valid capsules with distinct packages. *)
Lemma index_capsules_fresh cs actual :
  Forall (fun c => ContextCapsule_validate c = Ok tt) cs ->
  NoDup ((fun c => id_as_str (cc_work_package_id c)) <$> cs) ->
  Forall (fun c => actual !! id_as_str (cc_work_package_id c) = None) cs ->
  is_ok (index_capsules cs actual) = true.
Proof.
  revert actual. induction cs as [|c cs IH]; intros actual Hv Hnd Hf; [done|].
  apply Forall_cons in Hv as [Hc Hv]. rewrite fmap_cons in Hnd.
  apply NoDup_cons in Hnd as [Hn Hnd]. apply Forall_cons in Hf as [Hc0 Hf].
  cbn [index_capsules]. rewrite Hc. run_result. rewrite Hc0.
  rewrite bool_decide_false by (by intros [? ?]). run_result.
  apply IH; [done|done|]. apply Forall_forall. intros d Hd.
  rewrite Forall_forall in Hf.
  rewrite lookup_insert_ne; [by apply Hf|]. intros Heq. apply Hn.
  rewrite Heq. apply list_elem_of_fmap. eauto.
Qed.

(** The set derived from a graph passes the check for that graph. *)
Lemma initial_contexts_valid g t cs :
  initial_context_capsules g t = Ok cs -> validate_initial_context_set g cs = Ok tt.
Proof.
  unfold initial_context_capsules, validate_initial_context_set.
  intros (Hall & Hnd & _)%initial_capsules_loop_Ok.
  assert (Hids : (fun c => id_as_str (cc_work_package_id c)) <$> cs
                 = (fun p => id_as_str (WorkPackage_id p)) <$> StoredGraph_packages g).
  { clear Hnd. induction Hall as [|p c ps cs' Hpc _ IH]; [done|].
    apply ContextCapsule_initial_fields in Hpc as (Hw & _).
    rewrite !fmap_cons. by rewrite Hw, IH. }
  destruct (index_capsules cs ∅) as [actual|e|] eqn:Hi.
  - pose proof Hi as (_ & Hlook & Hsz)%index_capsules_Ok. run_result.
    rewrite bool_decide_true; [|rewrite Hsz, map_size_empty; by rewrite (Forall2_length _ _ _ Hall)].
    run_result. apply for_each_Ok, Forall_forall. intros p Hp.
    apply list_elem_of_lookup in Hp as [i Hp].
    destruct (Forall2_lookup_l _ _ _ _ _ Hall Hp) as (c & Hc & Hpc).
    pose proof (ContextCapsule_initial_fields _ _ _ _ Hpc) as (Hw & _ & _ & Ht & _).
    unfold check_package_capsule.
    assert (actual !! id_as_str (WorkPackage_id p) = Some c) as ->.
    { apply Hlook. right. split; [by eapply list_elem_of_lookup_2|congruence]. }
    run_result. rewrite Ht, Hpc. run_result. by rewrite same_subject_refl.
  - assert (is_ok (index_capsules cs ∅) = true) as Hok; [|by rewrite Hi in Hok].
    apply index_capsules_fresh; [|by rewrite Hids|by apply Forall_true].
    clear -Hall. induction Hall as [|p c ps cs' Hpc _ IH]; constructor; [|done].
    by apply ContextCapsule_initial_fields in Hpc as (_ & _ & _ & _ & ?).
  - assert (is_ok (index_capsules cs ∅) = true) as Hok; [|by rewrite Hi in Hok].
    apply index_capsules_fresh; [|by rewrite Hids|by apply Forall_true].
    clear -Hall. induction Hall as [|p c ps cs' Hpc _ IH]; constructor; [|done].
    by apply ContextCapsule_initial_fields in Hpc as (_ & _ & _ & _ & ?).
Qed.

(** A stored set that passes the check holds, for each package of the graph,
    the capsule derived from that package, whatever its record time. *)
Lemma validated_contexts_exact g cs p :
  validate_initial_context_set g cs = Ok tt -> p ∈ StoredGraph_packages g ->
  exists stored expected, stored ∈ cs /\
    ContextCapsule_initial g p (cc_recorded_at stored) = Ok expected /\
    same_subject stored expected = true.
Proof.
  unfold validate_initial_context_set. intros Hv Hp. inv_result.
  match goal with Hi : index_capsules _ _ = Ok _ |- _ =>
    apply index_capsules_Ok in Hi as (_ & Hlook & _) end.
  match goal with Hf : for_each _ _ = Ok _ |- _ =>
    apply for_each_Ok in Hf; rewrite Forall_forall in Hf; specialize (Hf p Hp);
    unfold check_package_capsule in Hf end.
  inv_result.
  match goal with Hs : _ !! id_as_str _ = Some ?c |- _ =>
    apply Hlook in Hs as [Hs|[Hs _]]; [done|]; exists c end.
  eauto.
Qed.
End Context.
