(* ===== verification/Memory.v ===== *)
(** * The in-process ledger: state and primitives

    Models crates/application/src/memory/mod.rs, support.rs and clock.rs: the
    tables of the ledger, its failpoint and its clock, the append-only tables,
    the event log and the outbox. A method on `&mut self` is a [stateful]
    function on [MemoryLedger]. *)

From S2P Require Import Prelude External Ids States Entities Text Store Records Submissions.
From S2P Require Import Commands NonceLedger RunCoding Effects GraphDelta Authority Context.
From stdpp Require Import options.

Local Open Scope Z_scope.

(** crates/application/src/memory/mod.rs:62-67 (MemoryTransportNonce) *)
Record MemoryTransportNonce : Type := MkMemoryTransportNonce {
  mtn_binding : string;
  mtn_expires_at_unix_ms : Z;
  mtn_consumed : bool
}.

(** crates/application/src/memory/mod.rs:33-60 (MemoryLedger) *)
Record MemoryLedger : Type := MkMemoryLedger {
  ml_commands : gmap string CommandRecord;
  ml_context_capsules : gmap string ContextCapsule;
  ml_graphs : gmap string StoredGraph;
  ml_attempts : gmap string Attempt;
  ml_candidates : gmap string Candidate;
  ml_evidence : gmap string Evidence;
  ml_effects : gmap string Effect;
  ml_events : list LedgerEvent;
  ml_leases : gmap string ActiveLease;
  ml_fences : gmap string Z;
  ml_ready : gmap string string;
  ml_outbox : list OutboxItem;
  ml_effect_intents : gmap string EffectIntentRecord;
  ml_effect_keys : gmap string string;
  ml_effect_receipts : list EffectReceiptRecord;
  ml_launch_grant_nonces : gmap string StoredLaunchGrantNonce;
  ml_lease_transport_grants : gmap string string;
  ml_lease_transport_settlements : gmap string string;
  ml_lease_transport_nonces : gmap string MemoryTransportNonce;
  ml_authority_nonces : gmap string (string * bool);
  ml_budget_reservations : gmap string Z;
  ml_authority : option NormalizedAuthority;
  ml_fail_after_writes : option Z;
  ml_simulation_clock_millis : Z
}.

(** Assignment to one field. *)
Definition set_commands (l : MemoryLedger) (x : gmap string CommandRecord) : MemoryLedger :=
    MkMemoryLedger x (ml_context_capsules l) (ml_graphs l) (ml_attempts l) (ml_candidates l)
    (ml_evidence l) (ml_effects l) (ml_events l) (ml_leases l) (ml_fences l) (ml_ready l)
    (ml_outbox l) (ml_effect_intents l) (ml_effect_keys l) (ml_effect_receipts l)
    (ml_launch_grant_nonces l) (ml_lease_transport_grants l) (ml_lease_transport_settlements
    l) (ml_lease_transport_nonces l) (ml_authority_nonces l) (ml_budget_reservations l)
    (ml_authority l) (ml_fail_after_writes l) (ml_simulation_clock_millis l).
Definition set_context_capsules (l : MemoryLedger) (x : gmap string ContextCapsule) : MemoryLedger :=
    MkMemoryLedger (ml_commands l) x (ml_graphs l) (ml_attempts l) (ml_candidates l)
    (ml_evidence l) (ml_effects l) (ml_events l) (ml_leases l) (ml_fences l) (ml_ready l)
    (ml_outbox l) (ml_effect_intents l) (ml_effect_keys l) (ml_effect_receipts l)
    (ml_launch_grant_nonces l) (ml_lease_transport_grants l) (ml_lease_transport_settlements
    l) (ml_lease_transport_nonces l) (ml_authority_nonces l) (ml_budget_reservations l)
    (ml_authority l) (ml_fail_after_writes l) (ml_simulation_clock_millis l).
Definition set_graphs (l : MemoryLedger) (x : gmap string StoredGraph) : MemoryLedger :=
    MkMemoryLedger (ml_commands l) (ml_context_capsules l) x (ml_attempts l) (ml_candidates
    l) (ml_evidence l) (ml_effects l) (ml_events l) (ml_leases l) (ml_fences l) (ml_ready l)
    (ml_outbox l) (ml_effect_intents l) (ml_effect_keys l) (ml_effect_receipts l)
    (ml_launch_grant_nonces l) (ml_lease_transport_grants l) (ml_lease_transport_settlements
    l) (ml_lease_transport_nonces l) (ml_authority_nonces l) (ml_budget_reservations l)
    (ml_authority l) (ml_fail_after_writes l) (ml_simulation_clock_millis l).
Definition set_attempts (l : MemoryLedger) (x : gmap string Attempt) : MemoryLedger :=
    MkMemoryLedger (ml_commands l) (ml_context_capsules l) (ml_graphs l) x (ml_candidates l)
    (ml_evidence l) (ml_effects l) (ml_events l) (ml_leases l) (ml_fences l) (ml_ready l)
    (ml_outbox l) (ml_effect_intents l) (ml_effect_keys l) (ml_effect_receipts l)
    (ml_launch_grant_nonces l) (ml_lease_transport_grants l) (ml_lease_transport_settlements
    l) (ml_lease_transport_nonces l) (ml_authority_nonces l) (ml_budget_reservations l)
    (ml_authority l) (ml_fail_after_writes l) (ml_simulation_clock_millis l).
Definition set_candidates (l : MemoryLedger) (x : gmap string Candidate) : MemoryLedger :=
    MkMemoryLedger (ml_commands l) (ml_context_capsules l) (ml_graphs l) (ml_attempts l) x
    (ml_evidence l) (ml_effects l) (ml_events l) (ml_leases l) (ml_fences l) (ml_ready l)
    (ml_outbox l) (ml_effect_intents l) (ml_effect_keys l) (ml_effect_receipts l)
    (ml_launch_grant_nonces l) (ml_lease_transport_grants l) (ml_lease_transport_settlements
    l) (ml_lease_transport_nonces l) (ml_authority_nonces l) (ml_budget_reservations l)
    (ml_authority l) (ml_fail_after_writes l) (ml_simulation_clock_millis l).
Definition set_evidence (l : MemoryLedger) (x : gmap string Evidence) : MemoryLedger :=
    MkMemoryLedger (ml_commands l) (ml_context_capsules l) (ml_graphs l) (ml_attempts l)
    (ml_candidates l) x (ml_effects l) (ml_events l) (ml_leases l) (ml_fences l) (ml_ready
    l) (ml_outbox l) (ml_effect_intents l) (ml_effect_keys l) (ml_effect_receipts l)
    (ml_launch_grant_nonces l) (ml_lease_transport_grants l) (ml_lease_transport_settlements
    l) (ml_lease_transport_nonces l) (ml_authority_nonces l) (ml_budget_reservations l)
    (ml_authority l) (ml_fail_after_writes l) (ml_simulation_clock_millis l).
Definition set_effects (l : MemoryLedger) (x : gmap string Effect) : MemoryLedger :=
    MkMemoryLedger (ml_commands l) (ml_context_capsules l) (ml_graphs l) (ml_attempts l)
    (ml_candidates l) (ml_evidence l) x (ml_events l) (ml_leases l) (ml_fences l) (ml_ready
    l) (ml_outbox l) (ml_effect_intents l) (ml_effect_keys l) (ml_effect_receipts l)
    (ml_launch_grant_nonces l) (ml_lease_transport_grants l) (ml_lease_transport_settlements
    l) (ml_lease_transport_nonces l) (ml_authority_nonces l) (ml_budget_reservations l)
    (ml_authority l) (ml_fail_after_writes l) (ml_simulation_clock_millis l).
Definition set_events (l : MemoryLedger) (x : list LedgerEvent) : MemoryLedger :=
    MkMemoryLedger (ml_commands l) (ml_context_capsules l) (ml_graphs l) (ml_attempts l)
    (ml_candidates l) (ml_evidence l) (ml_effects l) x (ml_leases l) (ml_fences l) (ml_ready
    l) (ml_outbox l) (ml_effect_intents l) (ml_effect_keys l) (ml_effect_receipts l)
    (ml_launch_grant_nonces l) (ml_lease_transport_grants l) (ml_lease_transport_settlements
    l) (ml_lease_transport_nonces l) (ml_authority_nonces l) (ml_budget_reservations l)
    (ml_authority l) (ml_fail_after_writes l) (ml_simulation_clock_millis l).
Definition set_leases (l : MemoryLedger) (x : gmap string ActiveLease) : MemoryLedger :=
    MkMemoryLedger (ml_commands l) (ml_context_capsules l) (ml_graphs l) (ml_attempts l)
    (ml_candidates l) (ml_evidence l) (ml_effects l) (ml_events l) x (ml_fences l) (ml_ready
    l) (ml_outbox l) (ml_effect_intents l) (ml_effect_keys l) (ml_effect_receipts l)
    (ml_launch_grant_nonces l) (ml_lease_transport_grants l) (ml_lease_transport_settlements
    l) (ml_lease_transport_nonces l) (ml_authority_nonces l) (ml_budget_reservations l)
    (ml_authority l) (ml_fail_after_writes l) (ml_simulation_clock_millis l).
Definition set_fences (l : MemoryLedger) (x : gmap string Z) : MemoryLedger :=
    MkMemoryLedger (ml_commands l) (ml_context_capsules l) (ml_graphs l) (ml_attempts l)
    (ml_candidates l) (ml_evidence l) (ml_effects l) (ml_events l) (ml_leases l) x (ml_ready
    l) (ml_outbox l) (ml_effect_intents l) (ml_effect_keys l) (ml_effect_receipts l)
    (ml_launch_grant_nonces l) (ml_lease_transport_grants l) (ml_lease_transport_settlements
    l) (ml_lease_transport_nonces l) (ml_authority_nonces l) (ml_budget_reservations l)
    (ml_authority l) (ml_fail_after_writes l) (ml_simulation_clock_millis l).
Definition set_ready (l : MemoryLedger) (x : gmap string string) : MemoryLedger :=
    MkMemoryLedger (ml_commands l) (ml_context_capsules l) (ml_graphs l) (ml_attempts l)
    (ml_candidates l) (ml_evidence l) (ml_effects l) (ml_events l) (ml_leases l) (ml_fences
    l) x (ml_outbox l) (ml_effect_intents l) (ml_effect_keys l) (ml_effect_receipts l)
    (ml_launch_grant_nonces l) (ml_lease_transport_grants l) (ml_lease_transport_settlements
    l) (ml_lease_transport_nonces l) (ml_authority_nonces l) (ml_budget_reservations l)
    (ml_authority l) (ml_fail_after_writes l) (ml_simulation_clock_millis l).
Definition set_outbox (l : MemoryLedger) (x : list OutboxItem) : MemoryLedger :=
    MkMemoryLedger (ml_commands l) (ml_context_capsules l) (ml_graphs l) (ml_attempts l)
    (ml_candidates l) (ml_evidence l) (ml_effects l) (ml_events l) (ml_leases l) (ml_fences
    l) (ml_ready l) x (ml_effect_intents l) (ml_effect_keys l) (ml_effect_receipts l)
    (ml_launch_grant_nonces l) (ml_lease_transport_grants l) (ml_lease_transport_settlements
    l) (ml_lease_transport_nonces l) (ml_authority_nonces l) (ml_budget_reservations l)
    (ml_authority l) (ml_fail_after_writes l) (ml_simulation_clock_millis l).
Definition set_effect_intents (l : MemoryLedger) (x : gmap string EffectIntentRecord) : MemoryLedger :=
    MkMemoryLedger (ml_commands l) (ml_context_capsules l) (ml_graphs l) (ml_attempts l)
    (ml_candidates l) (ml_evidence l) (ml_effects l) (ml_events l) (ml_leases l) (ml_fences
    l) (ml_ready l) (ml_outbox l) x (ml_effect_keys l) (ml_effect_receipts l)
    (ml_launch_grant_nonces l) (ml_lease_transport_grants l) (ml_lease_transport_settlements
    l) (ml_lease_transport_nonces l) (ml_authority_nonces l) (ml_budget_reservations l)
    (ml_authority l) (ml_fail_after_writes l) (ml_simulation_clock_millis l).
Definition set_effect_keys (l : MemoryLedger) (x : gmap string string) : MemoryLedger :=
    MkMemoryLedger (ml_commands l) (ml_context_capsules l) (ml_graphs l) (ml_attempts l)
    (ml_candidates l) (ml_evidence l) (ml_effects l) (ml_events l) (ml_leases l) (ml_fences
    l) (ml_ready l) (ml_outbox l) (ml_effect_intents l) x (ml_effect_receipts l)
    (ml_launch_grant_nonces l) (ml_lease_transport_grants l) (ml_lease_transport_settlements
    l) (ml_lease_transport_nonces l) (ml_authority_nonces l) (ml_budget_reservations l)
    (ml_authority l) (ml_fail_after_writes l) (ml_simulation_clock_millis l).
Definition set_effect_receipts (l : MemoryLedger) (x : list EffectReceiptRecord) : MemoryLedger :=
    MkMemoryLedger (ml_commands l) (ml_context_capsules l) (ml_graphs l) (ml_attempts l)
    (ml_candidates l) (ml_evidence l) (ml_effects l) (ml_events l) (ml_leases l) (ml_fences
    l) (ml_ready l) (ml_outbox l) (ml_effect_intents l) (ml_effect_keys l) x
    (ml_launch_grant_nonces l) (ml_lease_transport_grants l) (ml_lease_transport_settlements
    l) (ml_lease_transport_nonces l) (ml_authority_nonces l) (ml_budget_reservations l)
    (ml_authority l) (ml_fail_after_writes l) (ml_simulation_clock_millis l).
Definition set_launch_grant_nonces (l : MemoryLedger) (x : gmap string StoredLaunchGrantNonce) : MemoryLedger :=
    MkMemoryLedger (ml_commands l) (ml_context_capsules l) (ml_graphs l) (ml_attempts l)
    (ml_candidates l) (ml_evidence l) (ml_effects l) (ml_events l) (ml_leases l) (ml_fences
    l) (ml_ready l) (ml_outbox l) (ml_effect_intents l) (ml_effect_keys l)
    (ml_effect_receipts l) x (ml_lease_transport_grants l) (ml_lease_transport_settlements
    l) (ml_lease_transport_nonces l) (ml_authority_nonces l) (ml_budget_reservations l)
    (ml_authority l) (ml_fail_after_writes l) (ml_simulation_clock_millis l).
Definition set_lease_transport_grants (l : MemoryLedger) (x : gmap string string) : MemoryLedger :=
    MkMemoryLedger (ml_commands l) (ml_context_capsules l) (ml_graphs l) (ml_attempts l)
    (ml_candidates l) (ml_evidence l) (ml_effects l) (ml_events l) (ml_leases l) (ml_fences
    l) (ml_ready l) (ml_outbox l) (ml_effect_intents l) (ml_effect_keys l)
    (ml_effect_receipts l) (ml_launch_grant_nonces l) x (ml_lease_transport_settlements l)
    (ml_lease_transport_nonces l) (ml_authority_nonces l) (ml_budget_reservations l)
    (ml_authority l) (ml_fail_after_writes l) (ml_simulation_clock_millis l).
Definition set_lease_transport_settlements (l : MemoryLedger) (x : gmap string string) : MemoryLedger :=
    MkMemoryLedger (ml_commands l) (ml_context_capsules l) (ml_graphs l) (ml_attempts l)
    (ml_candidates l) (ml_evidence l) (ml_effects l) (ml_events l) (ml_leases l) (ml_fences
    l) (ml_ready l) (ml_outbox l) (ml_effect_intents l) (ml_effect_keys l)
    (ml_effect_receipts l) (ml_launch_grant_nonces l) (ml_lease_transport_grants l) x
    (ml_lease_transport_nonces l) (ml_authority_nonces l) (ml_budget_reservations l)
    (ml_authority l) (ml_fail_after_writes l) (ml_simulation_clock_millis l).
Definition set_lease_transport_nonces (l : MemoryLedger) (x : gmap string MemoryTransportNonce) : MemoryLedger :=
    MkMemoryLedger (ml_commands l) (ml_context_capsules l) (ml_graphs l) (ml_attempts l)
    (ml_candidates l) (ml_evidence l) (ml_effects l) (ml_events l) (ml_leases l) (ml_fences
    l) (ml_ready l) (ml_outbox l) (ml_effect_intents l) (ml_effect_keys l)
    (ml_effect_receipts l) (ml_launch_grant_nonces l) (ml_lease_transport_grants l)
    (ml_lease_transport_settlements l) x (ml_authority_nonces l) (ml_budget_reservations l)
    (ml_authority l) (ml_fail_after_writes l) (ml_simulation_clock_millis l).
Definition set_authority_nonces (l : MemoryLedger) (x : gmap string (string * bool)) : MemoryLedger :=
    MkMemoryLedger (ml_commands l) (ml_context_capsules l) (ml_graphs l) (ml_attempts l)
    (ml_candidates l) (ml_evidence l) (ml_effects l) (ml_events l) (ml_leases l) (ml_fences
    l) (ml_ready l) (ml_outbox l) (ml_effect_intents l) (ml_effect_keys l)
    (ml_effect_receipts l) (ml_launch_grant_nonces l) (ml_lease_transport_grants l)
    (ml_lease_transport_settlements l) (ml_lease_transport_nonces l) x
    (ml_budget_reservations l) (ml_authority l) (ml_fail_after_writes l)
    (ml_simulation_clock_millis l).
Definition set_budget_reservations (l : MemoryLedger) (x : gmap string Z) : MemoryLedger :=
    MkMemoryLedger (ml_commands l) (ml_context_capsules l) (ml_graphs l) (ml_attempts l)
    (ml_candidates l) (ml_evidence l) (ml_effects l) (ml_events l) (ml_leases l) (ml_fences
    l) (ml_ready l) (ml_outbox l) (ml_effect_intents l) (ml_effect_keys l)
    (ml_effect_receipts l) (ml_launch_grant_nonces l) (ml_lease_transport_grants l)
    (ml_lease_transport_settlements l) (ml_lease_transport_nonces l) (ml_authority_nonces l)
    x (ml_authority l) (ml_fail_after_writes l) (ml_simulation_clock_millis l).
Definition set_authority (l : MemoryLedger) (x : option NormalizedAuthority) : MemoryLedger :=
    MkMemoryLedger (ml_commands l) (ml_context_capsules l) (ml_graphs l) (ml_attempts l)
    (ml_candidates l) (ml_evidence l) (ml_effects l) (ml_events l) (ml_leases l) (ml_fences
    l) (ml_ready l) (ml_outbox l) (ml_effect_intents l) (ml_effect_keys l)
    (ml_effect_receipts l) (ml_launch_grant_nonces l) (ml_lease_transport_grants l)
    (ml_lease_transport_settlements l) (ml_lease_transport_nonces l) (ml_authority_nonces l)
    (ml_budget_reservations l) x (ml_fail_after_writes l) (ml_simulation_clock_millis l).
Definition set_fail_after_writes (l : MemoryLedger) (x : option Z) : MemoryLedger :=
    MkMemoryLedger (ml_commands l) (ml_context_capsules l) (ml_graphs l) (ml_attempts l)
    (ml_candidates l) (ml_evidence l) (ml_effects l) (ml_events l) (ml_leases l) (ml_fences
    l) (ml_ready l) (ml_outbox l) (ml_effect_intents l) (ml_effect_keys l)
    (ml_effect_receipts l) (ml_launch_grant_nonces l) (ml_lease_transport_grants l)
    (ml_lease_transport_settlements l) (ml_lease_transport_nonces l) (ml_authority_nonces l)
    (ml_budget_reservations l) (ml_authority l) x (ml_simulation_clock_millis l).
Definition set_simulation_clock_millis (l : MemoryLedger) (x : Z) : MemoryLedger :=
    MkMemoryLedger (ml_commands l) (ml_context_capsules l) (ml_graphs l) (ml_attempts l)
    (ml_candidates l) (ml_evidence l) (ml_effects l) (ml_events l) (ml_leases l) (ml_fences
    l) (ml_ready l) (ml_outbox l) (ml_effect_intents l) (ml_effect_keys l)
    (ml_effect_receipts l) (ml_launch_grant_nonces l) (ml_lease_transport_grants l)
    (ml_lease_transport_settlements l) (ml_lease_transport_nonces l) (ml_authority_nonces l)
    (ml_budget_reservations l) (ml_authority l) (ml_fail_after_writes l) x.

(** crates/application/src/memory/support.rs:2-6 (MemoryLedger::new) *)
Definition MemoryLedger_new : MemoryLedger :=
  MkMemoryLedger ∅ ∅ ∅ ∅ ∅ ∅ ∅ [] ∅ ∅ ∅ [] ∅ ∅ [] ∅ ∅ ∅ ∅ ∅ ∅ None None 0.

(** What the ledger uses of other crates. *)
Class LedgerExt := {
  lx_command :: CommandExt;
  lx_chrono :: Chrono;
  lx_content :: Json InitialContent;
  lx_lease_payload :: Json LeasePayload;
  lx_grant :: Json LeaseGrant;
  lx_expired :: Json ExpiredLease;
  lx_effect :: Json EffectPayload
}.

Abbreviation M := (stateful MemoryLedger LedgerError).

Definition domain_refusal {A} (e : DomainError) : M A := pure_step (Err (LedgerDomain e)).
Definition store_failure {A} (msg : string) : M A := pure_step (Err (LedgerStore msg)).

(** crates/application/src/memory/support.rs:8-12 (MemoryLedger::set_failpoint) *)
Definition set_failpoint (allowed : Z) : M unit :=
  assign (fun l => set_fail_after_writes l (Some allowed)).

(** crates/application/src/memory/support.rs:14-26 (MemoryLedger::tick) *)
Definition tick : M unit := fun l =>
  match ml_fail_after_writes l with
  | Some n =>
      if bool_decide (n = 0) then
        (set_fail_after_writes l None, Err (LedgerStore "injected failpoint"))
      else (set_fail_after_writes l (Some (n - 1)), Ok tt)
  | None => (l, Ok tt)
  end.

(** A transaction of the ledger: on an error the tables are restored from the
    snapshot, and only the failpoint counter keeps what the body did to it. *)
Definition transaction {A} (body : M A) : M A := fun before =>
  match body before with
  | (after, Ok a) => (after, Ok a)
  | (after, Err e) => (set_fail_after_writes before (ml_fail_after_writes after), Err e)
  | (after, Panic) => (after, Panic)
  end.

(** `BTreeMap::entry(key).or_insert(value)`. *)
Definition or_insert {V} (m : gmap string V) (key : string) (value : V) : gmap string V :=
  match m !! key with Some _ => m | None => <[key := value]> m end.

Section Ledger.
Context `{LedgerExt}.

(** crates/application/src/memory/support.rs:29-31 (json) *)
Definition json {A} `{Json A} (value : A) : result LedgerError string :=
  lift_store (to_json value).

(** ** Clock *)

(** crates/application/src/memory/clock.rs:39-43 (MemoryLedger::format_simulation_time) *)
Definition format_simulation_time (millis : Z) : result LedgerError string :=
  expect (format_millis millis).

(** crates/application/src/memory/clock.rs:7-11 (MemoryLedger::simulation_time) *)
Definition simulation_time (l : MemoryLedger) : result LedgerError string :=
  format_simulation_time (ml_simulation_clock_millis l).

(** [i64::checked_mul]. *)
Definition i64_checked_mul (a b : Z) : option Z := to_i64 (a * b).

(** crates/application/src/memory/clock.rs:13-29 (MemoryLedger::advance_simulation_time) *)
Definition advance_simulation_time (seconds : Z) : M unit :=
  millis ← reading (fun l =>
    ok_or (s ← to_i64 seconds;
           ms ← i64_checked_mul s 1000;
           i64_checked_add (ml_simulation_clock_millis l) ms)
      (LedgerStore "simulation clock overflow"));
  if bool_decide (format_millis millis = None)
  then store_failure "simulation clock out of range"
  else assign (fun l => set_simulation_clock_millis l millis).

(** crates/application/src/memory/clock.rs:31-37 (MemoryLedger::lease_window) *)
Definition lease_window (ttl_seconds : Z) (l : MemoryLedger)
  : result LedgerError (string * string) :=
  expiry ← ok_or (ms ← i64_checked_mul ttl_seconds 1000;
                  i64_checked_add (ml_simulation_clock_millis l) ms)
             (LedgerStore "lease expiry overflow");
  now ← simulation_time l;
  expires ← format_simulation_time expiry;
  mret (now, expires).

(** ** Append-only tables *)

(** crates/application/src/memory/support.rs:33-49 (append_only) *)
Definition append_only {T} `{EqDecision T} (get : MemoryLedger -> gmap string T)
  (set : MemoryLedger -> gmap string T -> MemoryLedger) (key : string) (value : T)
  (what : string) : M bool := fun l =>
  match get l !! key with
  | Some existing =>
      if bool_decide (existing = value) then (l, Ok false)
      else (l, Err (LedgerDomain (ConflictError
                      (what +:+ " " +:+ key +:+ " differs from the stored row"))))
  | None => (set l (<[key := value]> (get l)), Ok true)
  end.

(** crates/application/src/memory/mod.rs:289-297 (Ledger::put_candidate) *)
Definition put_candidate (c : Candidate) : M bool :=
  _ ← tick;
  append_only ml_candidates set_candidates (id_as_str (Candidate_id c)) c "candidate".

(** crates/application/src/memory/mod.rs:303-311 (Ledger::put_evidence) *)
Definition put_evidence (e : Evidence) : M bool :=
  _ ← tick;
  append_only ml_evidence set_evidence (id_as_str (Evidence_id e)) e "evidence".

(** crates/application/src/memory/mod.rs:317-320 (Ledger::put_effect) *)
Definition put_effect (e : Effect) : M bool :=
  _ ← tick;
  append_only ml_effects set_effects (id_as_str (Effect_id e)) e "effect".

(** ** Events and outbox *)

Definition colon : string := ":".

(** crates/application/src/memory/authority.rs:39-61 (MemoryLedger::push_event) *)
Definition push_event (kind body : string)
  (stream_id correlation_id authority_token_hash : option string) : M unit := fun l =>
  let seq := Z.of_nat (length (ml_events l)) + 1 in
  let event_id := to_hex (Digest_of
    ("evt:" +:+ pretty seq +:+ colon +:+ kind +:+ colon +:+ body)) in
  match simulation_time l with
  | Ok at_ =>
      (set_events l (ml_events l ++ [
         MkLedgerEvent seq at_ kind body (Some event_id) stream_id (Some seq) None
           correlation_id authority_token_hash]), Ok tt)
  | Err e => (l, Err e)
  | Panic => (l, Panic)
  end.

(** crates/application/src/memory/mod.rs:326-330 (Ledger::append_event) *)
Definition append_event (kind body : string) : M unit :=
  _ ← tick;
  push_event kind body None None None.

(** crates/application/src/memory/mod.rs:336-344 (Ledger::list_events_after) *)
Definition list_events_after (l : MemoryLedger) (after : Z) (limit : nat) : list LedgerEvent :=
  take limit (filter (fun e => after < LedgerEvent_seq e) (ml_events l)).

(** crates/application/src/memory/mod.rs:346-348 (Ledger::latest_event_sequence) *)
Definition latest_event_sequence (l : MemoryLedger) : Z :=
  match last (ml_events l) with Some e => LedgerEvent_seq e | None => 0 end.

(** crates/application/src/memory/mod.rs:361-367 (Ledger::enqueue_ready) *)
Definition enqueue_ready (package : WorkPackageId) (now : string) : M unit :=
  _ ← tick;
  assign (fun l => set_ready l (or_insert (ml_ready l) (id_as_str package) now)).

(** `u64::try_from(self.outbox.len())?.checked_add(1)?`. *)
Definition next_outbox_seq (l : MemoryLedger) : result LedgerError Z :=
  ok_or (u64_checked_add (Z.of_nat (length (ml_outbox l))) 1)
    (LedgerStore "outbox sequence overflow").

Definition push_outbox (item : OutboxItem) : M unit :=
  assign (fun l => set_outbox l (ml_outbox l ++ [item])).

(** crates/application/src/memory/mod.rs:373-380 (Ledger::outbox_pending) *)
Definition outbox_pending (l : MemoryLedger) : list OutboxItem :=
  filter (fun i => OutboxItem_phase i = PhasePending \/ OutboxItem_phase i = PhaseApplied)
    (ml_outbox l).

(** crates/application/src/memory/mod.rs:386-393 (Ledger::outbox_for_command) *)
Definition outbox_for_command (l : MemoryLedger) (command : CommandId) : list OutboxItem :=
  filter (fun i => OutboxItem_command_id i = Some command) (ml_outbox l).

Definition mark_item (phase : CommandPhase) (now : string) (i : OutboxItem) : OutboxItem :=
  MkOutboxItem (OutboxItem_seq i) (OutboxItem_command_id i) (OutboxItem_kind i)
    (OutboxItem_payload i) phase
    (match phase with PhaseApplied => Some now | _ => OutboxItem_delivered_at i end)
    (match phase with
     | PhaseVerified | PhaseFailed | PhaseUnknown => Some now
     | _ => OutboxItem_acked_at i
     end).

(** crates/application/src/memory/mod.rs:395-411 (Ledger::outbox_mark) *)
Definition outbox_mark (seq : Z) (phase : CommandPhase) (now : string) : M unit :=
  _ ← tick;
  rows ← reading (fun l => modify_first (fun i => bool_decide (OutboxItem_seq i = seq))
           (LedgerStore ("unknown outbox seq " +:+ pretty seq))
           (fun i => Ok (mark_item phase now i)) (ml_outbox l));
  assign (fun l => set_outbox l rows).

(** ** Graphs *)

(** crates/application/src/memory/mod.rs:118-128 (Ledger::put_graph) *)
Definition put_graph (graph : StoredGraph) : M unit :=
  _ ← tick;
  let key := id_as_str (Mission_id (StoredGraph_mission graph)) in
  stored ← reading (fun l => Ok (ml_graphs l !! key));
  match stored with
  | None => store_failure ("graph " +:+ key +:+ " was never materialized")
  | Some _ => assign (fun l => set_graphs l (<[key := graph]> (ml_graphs l)))
  end.

(** crates/application/src/memory/mod.rs:130-132 (Ledger::get_graph) *)
Definition get_graph (l : MemoryLedger) (mission : MissionId) : option StoredGraph :=
  ml_graphs l !! id_as_str mission.

(** crates/application/src/memory/mod.rs:225-227 (Ledger::list_missions) *)
Definition list_missions (l : MemoryLedger) : list Mission :=
  StoredGraph_mission <$> map_values (ml_graphs l).

(** crates/application/src/memory/mod.rs:454-459 (Ledger::current_authority) *)
Definition current_authority (l : MemoryLedger) : NormalizedAuthority :=
  default NormalizedAuthority_genesis (ml_authority l).
End Ledger.
