(* ===== verification/MemoryLeases.v ===== *)
(** * Leases of the in-process ledger

    Models crates/application/src/memory/authority.rs,
    memory/authority/reclaim.rs and memory/context.rs: acquisition, heartbeat,
    expiry, release, attempt updates and the active-lease check. *)

From S2P Require Import Prelude External Ids States Entities Text Store Records Submissions.
From S2P Require Import Commands GraphDelta Authority Context Memory.
From stdpp Require Import options.

Local Open Scope Z_scope.

Definition RECLAIM_OUTBOX_KIND : string := "lease_reclaimed".

Section Leases.
Context `{LedgerExt}.

(** ** Context capsules *)

(** crates/application/src/memory/context.rs:79-85 (MemoryLedger::contexts_for_mission) *)
Definition contexts_for_mission (l : MemoryLedger) (mission : string) : list ContextCapsule :=
  filter (fun c => id_as_str (cc_mission_id c) = mission) (map_values (ml_context_capsules l)).

(** crates/application/src/memory/context.rs:31-34 (MemoryLedger::require_initial_contexts) *)
Definition require_initial_contexts (l : MemoryLedger) (graph : StoredGraph)
  : result LedgerError unit :=
  validate_initial_context_set graph
    (contexts_for_mission l (id_as_str (Mission_id (StoredGraph_mission graph)))).

(** crates/application/src/memory/context.rs:52-77 (MemoryLedger::require_context_revision) *)
Definition require_context_revision (l : MemoryLedger) (graph : StoredGraph)
  (package : WorkPackageId) (revision : Z) : result LedgerError unit :=
  _ ← require_initial_contexts l graph;
  _ ← refuse_if (negb (existsb (fun c => bool_decide (WorkPackage_id c = package))
                         (StoredGraph_packages graph)))
        (LedgerDomain (StaleAuthority ("context package " +:+ id_as_str package
           +:+ " is not owned by graph "
           +:+ id_as_str (Mission_id (StoredGraph_mission graph)))));
  refuse_if (negb (bool_decide (revision = 1)))
    (LedgerDomain (StaleAuthority ("context revision " +:+ pretty revision
       +:+ " is not the current revision 1 for " +:+ id_as_str package))).

Fixpoint insert_capsules (capsules : list ContextCapsule) : M unit :=
  match capsules with
  | [] => mret tt
  | capsule :: rest =>
      previous ← reading (fun l => Ok
        (ml_context_capsules l !! id_as_str (cc_work_package_id capsule)));
      _ ← assign (fun l => set_context_capsules l
            (<[id_as_str (cc_work_package_id capsule) := capsule]> (ml_context_capsules l)));
      match previous with
      | Some _ => store_failure "context capsule already exists for work package"
      | None => insert_capsules rest
      end
  end.

(** crates/application/src/memory/context.rs:11-29 (MemoryLedger::insert_initial_contexts) *)
Definition insert_initial_contexts (graph : StoredGraph) (recorded_at : string) : M unit :=
  capsules ← pure_step (initial_context_capsules graph recorded_at);
  insert_capsules capsules.

(** ** Materialisation of a graph *)

Definition insert_all_capsules (cs : list ContextCapsule) (m : gmap string ContextCapsule)
  : gmap string ContextCapsule :=
  foldl (fun m c => <[id_as_str (cc_work_package_id c) := c]> m) m cs.

Definition seed_fences (vs : list Variant) (m : gmap string Z) : gmap string Z :=
  foldl (fun m v => or_insert m (id_as_str (Variant_id v)) 0) m vs.

Definition seed_ready (ps : list WorkPackage) (now : string) (m : gmap string string)
  : gmap string string :=
  foldl (fun m p => if bool_decide (WorkPackage_state p = WpReady)
                    then or_insert m (id_as_str (WorkPackage_id p)) now else m) m ps.

(** crates/application/src/memory/authority.rs:63-105 (MemoryLedger::materialize_graph_impl) *)
Definition materialize_graph (graph : StoredGraph) (now : string) : M unit :=
  _ ← tick;
  let key := id_as_str (Mission_id (StoredGraph_mission graph)) in
  _ ← reading (fun l => refuse_if (bool_decide (is_Some (ml_graphs l !! key)))
        (LedgerDomain (ConflictError ("graph " +:+ key +:+ " already materialized"))));
  capsules ← pure_step (initial_context_capsules graph now);
  _ ← reading (fun l => refuse_if
        (existsb (fun c => bool_decide
           (is_Some (ml_context_capsules l !! id_as_str (cc_work_package_id c)))) capsules)
        (LedgerStore "context capsule already exists for work package"));
  _ ← assign (fun l => set_graphs l (<[key := graph]> (ml_graphs l)));
  _ ← assign (fun l => set_context_capsules l
        (insert_all_capsules capsules (ml_context_capsules l)));
  _ ← assign (fun l => set_fences l (seed_fences (StoredGraph_variants graph) (ml_fences l)));
  _ ← assign (fun l => set_ready l
        (seed_ready (StoredGraph_packages graph) now (ml_ready l)));
  push_event "graph_materialized" key (Some key) None None.

(** ** Requeue, expiry and reclaim *)

(** The first graph, in key order, that holds the package, with its index. *)
Fixpoint find_package (graphs : list (string * StoredGraph)) (package : WorkPackageId)
  : option (string * StoredGraph * nat * WorkPackage) :=
  match graphs with
  | [] => None
  | (key, graph) :: rest =>
      match list_find (fun p => WorkPackage_id p = package) (StoredGraph_packages graph) with
      | Some (idx, p) => Some (key, graph, idx, p)
      | None => find_package rest package
      end
  end.

Definition set_package_at (graph : StoredGraph) (idx : nat) (p : WorkPackage)
  (s : WorkPackageState) : StoredGraph :=
  set_StoredGraph_packages graph
    (<[idx := set_WorkPackage_state p s]> (StoredGraph_packages graph)).

(** crates/application/src/memory/authority.rs:395-411 (MemoryLedger::requeue_package) *)
Definition requeue_package (package : WorkPackageId) (now : string) : M unit := fun l =>
  match find_package (iter_map (ml_graphs l)) package with
  | Some (key, graph, idx, p) =>
      match WorkPackageState_transition (WorkPackage_state p) WpReady with
      | Ok next =>
          let l := set_graphs l (<[key := set_package_at graph idx p next]> (ml_graphs l)) in
          (set_ready l (or_insert (ml_ready l) (id_as_str package) now), Ok tt)
      | _ => (l, Ok tt)
      end
  | None => (l, Err (LedgerStore ("package " +:+ id_as_str package +:+ " not in any graph")))
  end.

Definition lease_key_le : relation ActiveLease := fun a b =>
  str_le (id_as_str (ActiveLease_variant_id a)) (id_as_str (ActiveLease_variant_id b)).
Global Instance lease_key_le_dec : RelDecision lease_key_le.
Proof. intros a b. unfold lease_key_le. apply _. Defined.

(** crates/application/src/memory/authority/reclaim.rs:17-27 (MemoryLedger::due_leases) *)
Definition due_leases (l : MemoryLedger) (now : string) : list ActiveLease :=
  merge_sort lease_key_le
    (filter (fun lease => str_le (ActiveLease_expires_at lease) now)
       (map_values (ml_leases l))).

(** `if let Some(stored) = self.attempts.get_mut(key) { stored.state = s }`. *)
Definition set_stored_attempt_state (key : string) (s : AttemptState) : M unit :=
  assign (fun l => match ml_attempts l !! key with
                   | Some stored =>
                       set_attempts l (<[key := set_Attempt_state stored s]> (ml_attempts l))
                   | None => l
                   end).

Definition remove_lease (key : string) : M unit :=
  assign (fun l => set_leases l (delete key (ml_leases l))).

(** crates/application/src/memory/authority/reclaim.rs:29-82 (MemoryLedger::reclaim) *)
Definition reclaim (lease : ActiveLease) (now : string) : M ExpiredLease :=
  let attempt_key := id_as_str (ActiveLease_attempt_id lease) in
  attempt ← reading (fun l => ok_or (ml_attempts l !! attempt_key)
              (LedgerStore "lease without attempt"));
  _ ← pure_step (refuse_if (negb (permits_expiry_reclaim (Attempt_state attempt)))
        (LedgerStore ("active lease Attempt " +:+ id_as_str (Attempt_id attempt)
           +:+ " cannot expire from " +:+ AttemptState_debug (Attempt_state attempt))));
  next_state ← pure_step (lift_domain
                 (AttemptState_transition (Attempt_state attempt) AtCrashed));
  let expired := MkExpiredLease (ActiveLease_variant_id lease) (ActiveLease_attempt_id lease)
                   (Attempt_work_package_id attempt) (ActiveLease_fence lease) in
  payload ← pure_step (json expired);
  seq ← reading next_outbox_seq;
  _ ← set_stored_attempt_state attempt_key next_state;
  _ ← remove_lease (id_as_str (ActiveLease_variant_id lease));
  _ ← requeue_package (Attempt_work_package_id attempt) now;
  _ ← push_event "lease_expired" (id_as_str (ActiveLease_attempt_id lease))
        (Some (id_as_str (ActiveLease_variant_id lease))) None None;
  _ ← push_outbox (MkOutboxItem seq None RECLAIM_OUTBOX_KIND payload PhasePending None None);
  mret expired.

(** crates/application/src/memory/authority/reclaim.rs:84-98 (MemoryLedger::reclaim_expired_variant) *)
Definition reclaim_expired_variant (variant : VariantId) (now : string)
  : M (option ExpiredLease) :=
  held ← reading (fun l => Ok (ml_leases l !! id_as_str variant));
  match held with
  | None => mret None
  | Some lease =>
      if bool_decide (str_lt now (ActiveLease_expires_at lease)) then mret None
      else expired ← reclaim lease now; mret (Some expired)
  end.

Fixpoint reclaim_all (leases : list ActiveLease) (now : string) : M (list ExpiredLease) :=
  match leases with
  | [] => mret []
  | lease :: rest =>
      expired ← reclaim lease now;
      out ← reclaim_all rest now;
      mret (expired :: out)
  end.

(** crates/application/src/memory/authority.rs:304-312 (MemoryLedger::expire_leases_impl) *)
Definition expire_leases : M (list ExpiredLease) :=
  _ ← tick;
  now ← reading simulation_time;
  due ← reading (fun l => Ok (due_leases l now));
  reclaim_all due now.

(** ** Acquisition *)

(** crates/application/src/memory/authority.rs:115-133 (acquire_lease_impl replay) *)
Definition replay_grant (req : LeaseRequest) (request : CommandRequest)
  (existing : CommandRecord) (l : MemoryLedger) : result LedgerError LeaseGrant :=
  _ ← lift_domain (CommandRequest_matches request existing);
  response ← ok_or (CommandRecord_response existing)
               (LedgerStore "lease command has no stored result");
  grant ← lift_store (of_json response);
  graph ← ok_or (ml_graphs l !! id_as_str (LeaseRequest_mission_id req))
            (LedgerStore "lease replay graph missing");
  _ ← require_context_revision l graph (Attempt_work_package_id (LeaseGrant_attempt grant))
        (Attempt_context_revision (LeaseGrant_attempt grant));
  mret grant.

(** Everything that the acquisition commits. *)
Record Acquisition : Type := MkAcquisition {
  acq_grant : LeaseGrant;
  acq_grant_json : string;
  acq_graph : StoredGraph;
  acq_package : WorkPackageId;
  acq_command : CommandRecord;
  acq_outbox : OutboxItem
}.

(** crates/application/src/memory/authority.rs:140-241 (acquire_lease_impl construction) *)
Definition build_acquisition (req : LeaseRequest) (request : CommandRequest)
  (ttl_seconds : Z) (now expires_at : string) (l : MemoryLedger)
  : result LedgerError Acquisition :=
  graph ← ok_or (ml_graphs l !! id_as_str (LeaseRequest_mission_id req))
            (LedgerStore "graph missing");
  '(vidx, variant) ← ok_or (list_find (fun v => Variant_id v = LeaseRequest_variant_id req)
                              (StoredGraph_variants graph)) (LedgerStore "variant missing");
  '(pidx, package) ← ok_or (list_find (fun p => WorkPackage_id p
                                                = Variant_work_package_id variant)
                              (StoredGraph_packages graph)) (LedgerStore "package missing");
  _ ← require_context_revision l graph (WorkPackage_id package)
        (LeaseRequest_context_revision req);
  _ ← refuse_if (negb (bool_decide (WorkPackage_state package = WpReady)))
        (LedgerDomain (ConflictError ("package " +:+ id_as_str (WorkPackage_id package)
           +:+ " is " +:+ WorkPackageState_debug (WorkPackage_state package)
           +:+ ", not ready")));
  _ ← refuse_if (bool_decide (ml_ready l !! id_as_str (WorkPackage_id package) = None))
        (LedgerDomain (ConflictError ("package " +:+ id_as_str (WorkPackage_id package)
           +:+ " has no ready row")));
  _ ← match ml_leases l !! id_as_str (LeaseRequest_variant_id req) with
      | Some holder =>
          Err (LedgerDomain (FenceError ("variant " +:+ id_as_str (LeaseRequest_variant_id req)
            +:+ " already leased to " +:+ id_as_str (ActiveLease_attempt_id holder))))
      | None => Ok tt
      end;
  let fence := u64_wrapping_add
    (default 0 (ml_fences l !! id_as_str (LeaseRequest_variant_id req))) 1 in
  let attempt := MkAttempt (id_from_seed (LeaseRequest_attempt_seed req))
    (LeaseRequest_variant_id req) (WorkPackage_id package) fence (LeaseRequest_runner_id req)
    (LeaseRequest_runner_epoch req) (LeaseRequest_workspace_id req)
    (LeaseRequest_workspace_nonce req) (LeaseRequest_scope_revision req)
    (LeaseRequest_context_revision req) AtStarting in
  _ ← refuse_if (bool_decide (is_Some (ml_attempts l !! id_as_str (Attempt_id attempt))))
        (LedgerDomain (ConflictError ("attempt " +:+ id_as_str (Attempt_id attempt)
           +:+ " already exists")));
  let lease := MkActiveLease (LeaseRequest_variant_id req) (Attempt_id attempt) fence
    (LeaseRequest_runner_id req) (LeaseRequest_runner_epoch req)
    (LeaseRequest_workspace_nonce req) now expires_at ttl_seconds in
  leased ← lift_domain (WorkPackageState_transition (WorkPackage_state package) WpLeased);
  let next_graph := set_StoredGraph_variants (set_package_at graph pidx package leased)
    (<[vidx := set_Variant_fence_counter variant fence]> (StoredGraph_variants graph)) in
  let grant := MkLeaseGrant attempt lease in
  grant_json ← json grant;
  let command := MkCommandRecord (CommandRequest_id request)
    (CommandRequest_idempotency_key request) (CommandRequest_kind request)
    (CommandRequest_payload request) (CommandRequest_digest request) PhaseApplied
    (Some grant_json) in
  _ ← lift_domain (CommandRecord_validate command);
  seq ← next_outbox_seq l;
  mret (MkAcquisition grant grant_json next_graph (WorkPackage_id package) command
          (MkOutboxItem seq (Some (CommandRecord_id command)) "dispatch_attempt" grant_json
             PhasePending None None)).

(** crates/application/src/memory/authority.rs:242-261 (acquire_lease_impl commit) *)
Definition commit_acquisition (req : LeaseRequest) (acq : Acquisition) : M LeaseGrant :=
  let attempt := LeaseGrant_attempt (acq_grant acq) in
  let lease := LeaseGrant_lease (acq_grant acq) in
  let variant_key := id_as_str (LeaseRequest_variant_id req) in
  _ ← assign (fun l => set_fences l (<[variant_key := Attempt_fence attempt]> (ml_fences l)));
  _ ← assign (fun l => set_attempts l
        (<[id_as_str (Attempt_id attempt) := attempt]> (ml_attempts l)));
  _ ← assign (fun l => set_leases l (<[variant_key := lease]> (ml_leases l)));
  _ ← assign (fun l => set_ready l (delete (id_as_str (acq_package acq)) (ml_ready l)));
  _ ← assign (fun l => set_graphs l
        (<[id_as_str (Mission_id (StoredGraph_mission (acq_graph acq))) := acq_graph acq]>
           (ml_graphs l)));
  _ ← push_event "attempt_leased" (acq_grant_json acq) (Some variant_key)
        (Some (LeaseRequest_idempotency_key req))
        (Some (to_hex (Digest_of (acq_grant_json acq))));
  _ ← assign (fun l => set_commands l
        (<[LeaseRequest_idempotency_key req := acq_command acq]> (ml_commands l)));
  _ ← push_outbox (acq_outbox acq);
  mret (acq_grant acq).

(** crates/application/src/memory/authority.rs:107-262 (MemoryLedger::acquire_lease_impl) *)
Definition acquire_lease (req : LeaseRequest) : M LeaseGrant :=
  stable ← pure_step (lift_domain (stable_payload req));
  request ← pure_step (lift_domain (CommandRequest_from_json
              (LeaseRequest_idempotency_key req) "acquire_lease" stable));
  existing ← reading (fun l => Ok (ml_commands l !! LeaseRequest_idempotency_key req));
  match existing with
  | Some existing => reading (replay_grant req request existing)
  | None =>
      _ ← tick;
      ttl_seconds ← pure_step (lift_domain (LeaseRequest_validated_ttl req));
      '(now, expires_at) ← reading (lease_window ttl_seconds);
      _ ← reclaim_expired_variant (LeaseRequest_variant_id req) now;
      acq ← reading (build_acquisition req request ttl_seconds now expires_at);
      commit_acquisition req acq
  end.

(** ** Heartbeat, release, attempt updates, check *)

Definition heartbeat_matches (req : HeartbeatRequest) (ttl_seconds : Z) (now : string)
  (lease : ActiveLease) : bool :=
  bool_decide (ActiveLease_attempt_id lease = HeartbeatRequest_attempt_id req)
  && bool_decide (ActiveLease_fence lease = HeartbeatRequest_fence req)
  && bool_decide (ActiveLease_runner_id lease = HeartbeatRequest_runner_id req)
  && bool_decide (ActiveLease_runner_epoch lease = HeartbeatRequest_runner_epoch req)
  && bool_decide (ActiveLease_workspace_nonce lease = HeartbeatRequest_workspace_nonce req)
  && bool_decide (ActiveLease_ttl_seconds lease = ttl_seconds)
  && bool_decide (str_le (ActiveLease_heartbeat_at lease) now)
  && bool_decide (str_lt now (ActiveLease_expires_at lease)).

Definition renew (lease : ActiveLease) (now expires_at : string) : ActiveLease :=
  MkActiveLease (ActiveLease_variant_id lease) (ActiveLease_attempt_id lease)
    (ActiveLease_fence lease) (ActiveLease_runner_id lease) (ActiveLease_runner_epoch lease)
    (ActiveLease_workspace_nonce lease) now expires_at (ActiveLease_ttl_seconds lease).

(** crates/application/src/memory/authority.rs:264-302 (MemoryLedger::heartbeat_impl) *)
Definition heartbeat (req : HeartbeatRequest) : M unit :=
  ttl_seconds ← pure_step (lift_domain (HeartbeatRequest_validated_ttl req));
  _ ← tick;
  '(now, expires_at) ← reading (lease_window ttl_seconds);
  let variant_key := id_as_str (HeartbeatRequest_variant_id req) in
  let missed := domain_refusal (StaleAuthority ("heartbeat matched zero lease rows for "
                  +:+ id_as_str (HeartbeatRequest_attempt_id req))) in
  current ← reading (fun l => Ok (ml_leases l !! variant_key));
  match current with
  | Some current =>
      attempt ← reading (fun l => ok_or
                  (ml_attempts l !! id_as_str (ActiveLease_attempt_id current))
                  (LedgerStore "active lease has no Attempt"));
      _ ← pure_step (refuse_if (negb (permits_lease_heartbeat (Attempt_state attempt)))
            (LedgerDomain (StaleAuthority (id_as_str (Attempt_id attempt)
               +:+ " cannot heartbeat while "
               +:+ AttemptState_debug (Attempt_state attempt)))));
      if heartbeat_matches req ttl_seconds now current then
        assign (fun l => set_leases l
          (<[variant_key := renew current now expires_at]> (ml_leases l)))
      else missed
  | None => missed
  end.

(** crates/application/src/memory/authority.rs:314-363 (MemoryLedger::release_lease_impl) *)
Definition release_lease (req : ReleaseRequest) : M unit :=
  _ ← tick;
  _ ← pure_step (refuse_if (negb (is_terminal_release_target (ReleaseRequest_final_state req)))
        (LedgerDomain (InvalidTransition "release"
           (AttemptState_debug (ReleaseRequest_final_state req)))));
  let vkey := id_as_str (ReleaseRequest_variant_id req) in
  let attempt_key := id_as_str (ReleaseRequest_attempt_id req) in
  now ← reading simulation_time;
  held ← reading (fun l => Ok (ml_leases l !! vkey));
  match held with
  | Some lease =>
      if bool_decide (ActiveLease_attempt_id lease = ReleaseRequest_attempt_id req) then
        attempt ← reading (fun l => ok_or (ml_attempts l !! attempt_key)
                    (LedgerStore "lease without attempt"));
        next_state ← pure_step (lift_domain
          (AttemptState_transition (Attempt_state attempt) (ReleaseRequest_final_state req)));
        _ ← set_stored_attempt_state attempt_key next_state;
        _ ← remove_lease vkey;
        _ ← (if ReleaseRequest_requeue req
             then requeue_package (Attempt_work_package_id attempt) now else mret tt);
        push_event "lease_released" attempt_key (Some vkey) None None
      else domain_refusal (StaleAuthority ("lease held by "
             +:+ id_as_str (ActiveLease_attempt_id lease) +:+ ", not " +:+ attempt_key))
  | None =>
      stored ← reading (fun l => Ok (ml_attempts l !! attempt_key));
      match stored with
      | Some attempt =>
          if bool_decide (Attempt_state attempt = ReleaseRequest_final_state req) then mret tt
          else domain_refusal (StaleAuthority ("no active lease for " +:+ attempt_key))
      | None => domain_refusal (StaleAuthority ("no active lease for " +:+ attempt_key))
      end
  end.

Definition same_identity_columns (a b : Attempt) : bool :=
  bool_decide (Attempt_variant_id a = Attempt_variant_id b)
  && bool_decide (Attempt_work_package_id a = Attempt_work_package_id b)
  && bool_decide (Attempt_fence a = Attempt_fence b)
  && bool_decide (Attempt_runner_id a = Attempt_runner_id b)
  && bool_decide (Attempt_runner_epoch a = Attempt_runner_epoch b)
  && bool_decide (Attempt_workspace_id a = Attempt_workspace_id b)
  && bool_decide (Attempt_workspace_nonce a = Attempt_workspace_nonce b).

(** crates/application/src/memory/authority.rs:365-393 (MemoryLedger::put_attempt_impl) *)
Definition put_attempt (attempt : Attempt) : M unit :=
  _ ← tick;
  let key := id_as_str (Attempt_id attempt) in
  existing ← reading (fun l => ok_or (ml_attempts l !! key)
    (LedgerDomain (ConflictError ("attempt " +:+ key
       +:+ " does not exist; attempts are created by acquire_lease"))));
  _ ← pure_step (refuse_if (negb (same_identity_columns existing attempt))
        (LedgerDomain (ConflictError ("attempt " +:+ key
           +:+ " identity columns are immutable"))));
  _ ← (if bool_decide (Attempt_state existing = Attempt_state attempt) then mret tt
       else _ ← pure_step (lift_domain
              (AttemptState_transition (Attempt_state existing) (Attempt_state attempt)));
            mret tt);
  assign (fun l => set_attempts l (<[key := attempt]> (ml_attempts l))).

(** crates/application/src/memory/authority.rs:22-37 (MemoryLedger::check_active_lease_impl) *)
Definition check_active_lease (subject : ActiveLeaseSubject) (l : MemoryLedger)
  : result LedgerError unit :=
  lease ← ok_or (ml_leases l !! id_as_str (als_variant_id subject))
            (LedgerDomain (StaleAuthority ("no active lease for "
               +:+ id_as_str (als_attempt_id subject))));
  attempt ← ok_or (ml_attempts l !! id_as_str (ActiveLease_attempt_id lease))
              (LedgerStore "active lease has no Attempt");
  now ← simulation_time l;
  check_active_lease_snapshot lease attempt subject now.

(** crates/application/src/memory/mod.rs:261-270 (Ledger::active_attempt) *)
Definition active_attempt (l : MemoryLedger) (package : WorkPackageId) : option Attempt :=
  List.find (fun a => bool_decide (Attempt_work_package_id a = package)
                      && appears_in_active_attempt_projection (Attempt_state a))
    (map_values (ml_attempts l)).

(** crates/application/src/memory/mod.rs:272-287 (Ledger::list_attempts) *)
Definition list_attempts (l : MemoryLedger) (mission : MissionId) : list Attempt :=
  match ml_graphs l !! id_as_str mission with
  | None => []
  | Some graph =>
      filter (fun a => Exists (fun v => Variant_id v = Attempt_variant_id a)
                         (StoredGraph_variants graph))
        (map_values (ml_attempts l))
  end.
End Leases.
