(* ===== verification/MemoryCommands.v ===== *)
(** * Commands of the in-process ledger

    Models crates/application/src/memory/commands.rs: recording and exact
    replay of commands, submission with its dispatch row and audit event,
    offline reconciliation, and the admission of coding requests. *)

From S2P Require Import Prelude External Ids States Entities Text Store Records Submissions.
From S2P Require Import Commands NonceLedger RunCoding GraphDelta Authority Context Memory.
From stdpp Require Import options.

Local Open Scope Z_scope.

Section MemoryCommands.
Context `{LedgerExt}.

Definition record_of_request (request : CommandRequest) : CommandRecord :=
  MkCommandRecord (CommandRequest_id request) (CommandRequest_idempotency_key request)
    (CommandRequest_kind request) (CommandRequest_payload request)
    (CommandRequest_digest request) PhasePending None.

(** crates/application/src/memory/commands.rs:76-99 (MemoryLedger::record_command_impl) *)
Definition record_command (request : CommandRequest) : M CommandRecord :=
  _ ← pure_step (lift_domain (CommandRequest_validate request));
  _ ← tick;
  existing ← reading (fun l => Ok (ml_commands l !! CommandRequest_idempotency_key request));
  match existing with
  | Some existing =>
      _ ← pure_step (lift_domain (CommandRequest_matches request existing));
      mret existing
  | None =>
      let record := record_of_request request in
      _ ← pure_step (lift_domain (CommandRecord_validate record));
      _ ← assign (fun l => set_commands l
            (<[CommandRequest_idempotency_key request := record]> (ml_commands l)));
      mret record
  end.

(** crates/application/src/memory/commands.rs:235-250 (MemoryLedger::get_command_by_id_impl) *)
Definition get_command_by_id (l : MemoryLedger) (id : CommandId)
  : result LedgerError (option CommandRecord) :=
  match filter (fun r => CommandRecord_id r = id) (map_values (ml_commands l)) with
  | [] => Ok None
  | [record] => _ ← lift_domain (CommandRecord_validate record); mret (Some record)
  | _ :: _ :: _ =>
      Err (LedgerStore ("multiple commands have durable id " +:+ id_as_str id))
  end.

(** crates/application/src/memory/commands.rs:227-233 (MemoryLedger::get_command_impl) *)
Definition get_command (l : MemoryLedger) (key : string)
  : result LedgerError (option CommandRecord) :=
  match ml_commands l !! key with
  | Some record => _ ← lift_domain (CommandRecord_validate record); mret (Some record)
  | None => Ok None
  end.

(** crates/application/src/memory/commands.rs:252-281 (MemoryLedger::outbox_enqueue_impl) *)
Definition outbox_enqueue (command_id : option CommandId) (kind payload : string) : M Z :=
  _ ← reading (fun l =>
        match command_id with
        | None => Ok tt
        | Some command_id =>
            found ← get_command_by_id l command_id;
            match found with
            | Some _ => Ok tt
            | None => Err (LedgerDomain (ConflictError
                ("outbox command " +:+ id_as_str command_id +:+ " does not exist")))
            end
        end);
  _ ← tick;
  seq ← reading (fun l => Ok (Z.of_nat (length (ml_outbox l)) + 1));
  _ ← push_outbox (MkOutboxItem seq command_id kind payload PhasePending None None);
  mret seq.

(** crates/application/src/memory/commands.rs:206-225 (MemoryLedger::set_command_phase_impl) *)
Definition set_command_phase (key : string) (phase : CommandPhase) (response : option string)
  : M unit :=
  stored ← reading (fun l => ok_or (ml_commands l !! key)
             (LedgerStore ("unknown command key " +:+ key)));
  let next := MkCommandRecord (CommandRecord_id stored) (CommandRecord_idempotency_key stored)
    (CommandRecord_kind stored) (CommandRecord_payload stored)
    (CommandRecord_payload_digest stored) phase
    (match response with Some r => Some r | None => CommandRecord_response stored end) in
  _ ← pure_step (lift_domain (CommandRecord_validate next));
  _ ← tick;
  assign (fun l => set_commands l (<[key := next]> (ml_commands l))).

(** `values().copied().sum::<u64>()`: the additions wrap around. *)
Definition u64_sum (zs : list Z) : Z := foldl u64_wrapping_add 0 zs.

Definition nonce_view (row : string * bool) : string * NonceState :=
  (row.1, if row.2 then NonceConsumed else NonceIssued).

(** crates/application/src/memory/commands.rs:283-342 (MemoryLedger::admit_run_coding_impl) *)
Definition admit_run_coding (request : CommandRequest) (existed : bool) : M unit :=
  if negb (bool_decide (CommandRequest_kind request = RUN_CODING_KIND)) then mret tt
  else
  payload ← pure_step (lift_domain (RunCodingPayload_parse (CommandRequest_payload request)));
  authority_epoch ← reading (fun l => Ok
    (match ml_authority l with Some a => na_authority_epoch a | None => 1 end));
  used_quota ← reading (fun l => Ok (u64_sum (map_values (ml_budget_reservations l))));
  existing_reservation ← reading (fun l => Ok
    ((fun amount => (rc_quota_reservation payload, amount)) <$>
       ml_budget_reservations l !! rc_quota_reservation payload));
  let digest := to_hex (CommandRequest_digest request) in
  _ ← assign (fun l =>
        if negb existed && bool_decide (ml_authority_nonces l !! rc_launch_nonce payload = None)
        then set_authority_nonces l
               (<[rc_launch_nonce payload := (digest, false)]> (ml_authority_nonces l))
        else l);
  nonce ← reading (fun l => Ok (nonce_view <$> ml_authority_nonces l !! rc_launch_nonce payload));
  let view := MkCodingAdmissionView authority_epoch used_quota existing_reservation nonce in
  plan ← pure_step (lift_domain (plan_run_coding_admission request existed view));
  match plan with
  | None => mret tt
  | Some plan =>
      row ← reading (fun l => ok_or (ml_authority_nonces l !! plan_consume_nonce plan)
              (LedgerStore "run_coding launch nonce is absent"));
      _ ← pure_step (refuse_if (negb (bool_decide (row.1 = digest)) || row.2)
            (LedgerStore "run_coding launch nonce is not issued for this request"));
      _ ← assign (fun l => set_authority_nonces l
            (<[plan_consume_nonce plan := (row.1, true)]> (ml_authority_nonces l)));
      assign (fun l => set_budget_reservations l
        (<[(plan_reservation plan).1 := (plan_reservation plan).2]>
           (ml_budget_reservations l)))
  end.

(** crates/application/src/memory/commands.rs:344-352 (MemoryLedger::issue_coding_nonce) *)
Definition issue_coding_nonce (key digest : string) : M unit :=
  _ ← reading (fun l => refuse_if (bool_decide (is_Some (ml_authority_nonces l !! key)))
        (LedgerStore "nonce already issued"));
  assign (fun l => set_authority_nonces l
    (<[key := (digest, false)]> (ml_authority_nonces l))).

(** The audit events of a command. *)
Definition is_submitted_event (id : CommandId) (e : LedgerEvent) : Prop :=
  LedgerEvent_kind e = "command_submitted" /\ LedgerEvent_body e = id_as_str id /\
  LedgerEvent_correlation_id e = Some (id_as_str id).
Global Instance is_submitted_event_dec id e : Decision (is_submitted_event id e).
Proof. unfold is_submitted_event. apply _. Defined.

Definition is_reconciled_event (id : CommandId) (e : LedgerEvent) : Prop :=
  LedgerEvent_kind e = COMMAND_RECONCILED_EVENT /\
  LedgerEvent_correlation_id e = Some (id_as_str id).
Global Instance is_reconciled_event_dec id e : Decision (is_reconciled_event id e).
Proof. unfold is_reconciled_event. apply _. Defined.

(** The one dispatch row of a command with its index, if the outbox holds
    exactly one row for the command and it carries this dispatch. *)
Definition dispatch_row (l : MemoryLedger) (id : CommandId) (dispatch : string)
  : option (nat * OutboxItem) :=
  match outbox_for_command l id with
  | [row] =>
      if bool_decide (OutboxItem_kind row = "command_dispatch")
         && bool_decide (OutboxItem_payload row = dispatch)
      then list_find (fun i => OutboxItem_command_id i = Some id) (ml_outbox l) else None
  | _ => None
  end.

(** crates/application/src/memory/commands.rs:17-62 (submit_command_impl body) *)
Definition submit_body (request : CommandRequest) : M CommandRecord :=
  existed ← reading (fun l => Ok (bool_decide
    (is_Some (ml_commands l !! CommandRequest_idempotency_key request))));
  record ← record_command request;
  dispatch ← pure_step (lift_store (to_json request));
  let id := CommandRecord_id record in
  _ ← (if (existed : bool) then
         _ ← reading (fun l => refuse_if (bool_decide (dispatch_row l id dispatch = None))
               (LedgerStore "public command has incomplete or conflicting outbox truth"));
         reading (fun l => refuse_if
           (negb (bool_decide (length (filter (is_submitted_event id) (ml_events l)) = 1%nat)))
           (LedgerStore "public command has incomplete or conflicting event truth"))
       else
         _ ← outbox_enqueue (Some id) "command_dispatch" dispatch;
         _ ← tick;
         push_event "command_submitted" (id_as_str id) (Some (id_as_str id))
           (Some (id_as_str id)) None);
  _ ← admit_run_coding request existed;
  mret record.

(** crates/application/src/memory/commands.rs:13-74 (MemoryLedger::submit_command_impl) *)
Definition submit_command (request : CommandRequest) : M CommandRecord :=
  transaction (submit_body request).

Definition resolve_row (phase : CommandPhase) (now : string) (i : OutboxItem) : OutboxItem :=
  MkOutboxItem (OutboxItem_seq i) (OutboxItem_command_id i) (OutboxItem_kind i)
    (OutboxItem_payload i) phase (OutboxItem_delivered_at i) (Some now).

(** crates/application/src/memory/commands.rs:155-171 (reconcile_offline_command_impl settled) *)
Definition check_reconciled (record expected : CommandRecord) (row : OutboxItem)
  (resolution : OfflineCommandResolution) (reconciled : list LedgerEvent) : bool :=
  bool_decide (record = expected)
  && bool_decide (OutboxItem_phase row = resolution_phase resolution)
  && bool_decide (OutboxItem_delivered_at row = None)
  && bool_decide (is_Some (OutboxItem_acked_at row))
  && match reconciled with
     | [e] => bool_decide (LedgerEvent_body e = resolution_response resolution)
     | _ => false
     end.

(** crates/application/src/memory/commands.rs:107-193 (reconcile_offline_command_impl body) *)
Definition reconcile_body (id : CommandId) (now : string) : M CommandRecord :=
  found ← reading (fun l => get_command_by_id l id);
  record ← pure_step (ok_or found (LedgerStore ("unknown command " +:+ id_as_str id)));
  request ← pure_step (lift_domain (CommandRequest_from_json
              (CommandRecord_idempotency_key record) (CommandRecord_kind record)
              (CommandRecord_payload record)));
  _ ← pure_step (lift_domain (CommandRequest_matches request record));
  dispatch ← pure_step (lift_store (to_json request));
  '(outbox_index, row) ← reading (fun l => ok_or (dispatch_row l id dispatch)
          (LedgerStore "command has incomplete or conflicting dispatch truth"));
  _ ← reading (fun l => refuse_if
        (negb (bool_decide (length (filter (is_submitted_event id) (ml_events l)) = 1%nat)))
        (LedgerStore "command has incomplete or conflicting submitted audit truth"));
  resolution ← pure_step (lift_domain (offline_worker_resolution request));
  expected ← pure_step (lift_domain (resolved_record resolution record));
  reconciled ← reading (fun l => Ok (filter (is_reconciled_event id) (ml_events l)));
  if negb (bool_decide (CommandRecord_phase record = PhasePending)) then
    if check_reconciled record expected row resolution reconciled then mret record
    else store_failure "command has conflicting reconciled truth"
  else if negb (bool_decide (OutboxItem_phase row = PhasePending))
          || bool_decide (is_Some (OutboxItem_delivered_at row))
          || bool_decide (is_Some (OutboxItem_acked_at row))
          || negb (bool_decide (reconciled = []))
  then store_failure "pending command has conflicting worker truth"
  else
    _ ← tick;
    _ ← assign (fun l => set_commands l
          (<[CommandRecord_idempotency_key record := expected]> (ml_commands l)));
    _ ← tick;
    _ ← assign (fun l => set_outbox l
          (<[outbox_index := resolve_row (resolution_phase resolution) now row]>
             (ml_outbox l)));
    _ ← tick;
    _ ← push_event COMMAND_RECONCILED_EVENT (resolution_response resolution)
          (Some (id_as_str id)) (Some (id_as_str id)) None;
    mret expected.

(** crates/application/src/memory/commands.rs:101-204 (MemoryLedger::reconcile_offline_command_impl) *)
Definition reconcile_offline_command (id : CommandId) (now : string) : M CommandRecord :=
  transaction (reconcile_body id now).
End MemoryCommands.
