(* ===== verification/MemoryEffects.v ===== *)
(** * Effects and launch nonces of the in-process ledger

    Models crates/application/src/memory/effects.rs, memory/launch_grant.rs
    and the nonce part of memory/lease_transport.rs. *)

From S2P Require Import Prelude External Ids States Entities Text Store Records Submissions.
From S2P Require Import Commands Effects GraphDelta Authority Context Memory.
From stdpp Require Import options.

Local Open Scope Z_scope.

Section MemoryEffects.
Context `{LedgerExt}.

(** The separator of an effect key, U+001F. *)
Definition unit_separator : string := String (Ascii.ascii_of_nat 31) EmptyString.

Definition effect_key (provider logical_key : string) : string :=
  provider +:+ unit_separator +:+ logical_key.

Definition normalize_intent (i : EffectIntentRecord) (payload_hash : string)
  : EffectIntentRecord :=
  MkEffectIntentRecord (ei_id i) (ei_logical_effect_key i) (ei_provider i)
    (ei_target_identity i) (ei_desired_state_hash i) (ei_expected_old_oid i) (ei_attempt_id i)
    (ei_fence i) (ei_policy_version i) payload_hash (ei_provider_idempotency_key i)
    (ei_state i) 0 (ei_created_at i).

Definition set_intent_state (i : EffectIntentRecord) (s : EffectState) (retries : Z)
  : EffectIntentRecord :=
  MkEffectIntentRecord (ei_id i) (ei_logical_effect_key i) (ei_provider i)
    (ei_target_identity i) (ei_desired_state_hash i) (ei_expected_old_oid i) (ei_attempt_id i)
    (ei_fence i) (ei_policy_version i) (ei_payload_hash i) (ei_provider_idempotency_key i)
    s retries (ei_created_at i).

(** crates/application/src/memory/effects.rs:12-62 (MemoryLedger::record_effect_intent_impl) *)
Definition record_effect_intent (intent : EffectIntentRecord)
  : M (EffectIntentRecord * bool) :=
  _ ← tick;
  _ ← pure_step (refuse_if (negb (bool_decide (ei_state intent = EfProposed)))
        (LedgerDomain (ConflictError ("effect intent " +:+ id_as_str (ei_id intent)
           +:+ " must be recorded as PROPOSED, not "
           +:+ EffectState_as_str (ei_state intent)))));
  payload_hash ← pure_step (lift_domain (effect_payload_digest intent));
  let normalized := normalize_intent intent payload_hash in
  let key := effect_key (ei_provider intent) (ei_logical_effect_key intent) in
  known ← reading (fun l => Ok (ml_effect_keys l !! key));
  match known with
  | Some id =>
      existing ← reading (fun l => ok_or (ml_effect_intents l !! id)
                   (LedgerStore ("effect key " +:+ key +:+ " has no row")));
      if negb (bool_decide (ei_payload_hash existing = ei_payload_hash normalized)) then
        domain_refusal (IdempotencyError ("effect " +:+ ei_provider intent +:+ ":"
          +:+ ei_logical_effect_key intent +:+ " exists with a different identity"))
      else mret (existing, false)
  | None =>
      _ ← reading (fun l => refuse_if
            (bool_decide (is_Some (ml_effect_intents l !! id_as_str (ei_id intent))))
            (LedgerDomain (ConflictError ("effect intent id " +:+ id_as_str (ei_id intent)
               +:+ " already used by another logical key"))));
      _ ← assign (fun l => set_effect_keys l
            (<[key := id_as_str (ei_id intent)]> (ml_effect_keys l)));
      _ ← assign (fun l => set_effect_intents l
            (<[id_as_str (ei_id intent) := normalized]> (ml_effect_intents l)));
      _ ← push_event "effect_intent_recorded" (id_as_str (ei_id normalized))
            (Some (id_as_str (ei_attempt_id normalized))) None None;
      mret (normalized, true)
  end.

(** crates/application/src/memory/effects.rs:64-74 (MemoryLedger::get_effect_intent_impl) *)
Definition get_effect_intent (l : MemoryLedger) (provider logical_key : string)
  : option EffectIntentRecord :=
  id ← ml_effect_keys l !! effect_key provider logical_key;
  ml_effect_intents l !! id.

(** crates/application/src/memory/effects.rs:76-102 (MemoryLedger::transition_effect_impl) *)
Definition transition_effect (id : EffectId) (to : EffectState) : M EffectIntentRecord :=
  _ ← tick;
  existing ← reading (fun l => ok_or (ml_effect_intents l !! id_as_str id)
               (LedgerStore ("unknown effect intent " +:+ id_as_str id)));
  next ← pure_step (lift_domain (EffectState_transition (ei_state existing) to));
  let retries :=
    if bool_decide (ei_state existing = EfOutcomeUnknown) && bool_decide (next = EfDispatching)
    then u32_wrapping_add (ei_unknown_retries existing) 1 else ei_unknown_retries existing in
  let updated := set_intent_state existing next retries in
  _ ← assign (fun l => set_effect_intents l
        (<[id_as_str id := updated]> (ml_effect_intents l)));
  _ ← push_event "effect_transition"
        (id_as_str id +:+ ":" +:+ EffectState_as_str (ei_state existing) +:+ "->"
         +:+ EffectState_as_str next)
        (Some (id_as_str (ei_attempt_id updated))) None None;
  mret updated.

(** crates/application/src/memory/effects.rs:104-128 (MemoryLedger::record_effect_receipt_impl) *)
Definition record_effect_receipt (receipt : EffectReceiptRecord) : M bool :=
  _ ← tick;
  known ← reading (fun l => Ok (List.find (fun row => bool_decide (er_id row = er_id receipt))
                                  (ml_effect_receipts l)));
  match known with
  | Some existing =>
      if bool_decide (existing = receipt) then mret false
      else domain_refusal (ConflictError ("effect receipt " +:+ id_as_str (er_id receipt)
             +:+ " differs from the stored row"))
  | None =>
      _ ← assign (fun l => set_effect_receipts l (ml_effect_receipts l ++ [receipt]));
      _ ← push_event "effect_receipt_recorded" (id_as_str (er_id receipt))
            (Some (id_as_str (er_effect_intent_id receipt))) None None;
      mret true
  end.

(** crates/application/src/memory/effects.rs:130-140 (MemoryLedger::effect_receipts_impl) *)
Definition effect_receipts (l : MemoryLedger) (intent : EffectId) : list EffectReceiptRecord :=
  filter (fun row => er_effect_intent_id row = intent) (ml_effect_receipts l).

Definition intent_order : relation EffectIntentRecord := fun a b =>
  str_lt (ei_created_at a) (ei_created_at b) \/
  (ei_created_at a = ei_created_at b /\ str_le (id_as_str (ei_id a)) (id_as_str (ei_id b))).
Global Instance intent_order_dec : RelDecision intent_order.
Proof. intros a b. unfold intent_order. apply _. Defined.

(** crates/application/src/memory/effects.rs:142-153 (MemoryLedger::unresolved_effects_impl) *)
Definition unresolved_effects (l : MemoryLedger) : list EffectIntentRecord :=
  merge_sort intent_order
    (filter (fun row => is_unresolved (ei_state row) = true) (map_values (ml_effect_intents l))).

(** ** Launch nonces *)

(** crates/application/src/memory/launch_grant.rs:13-39 (MemoryLedger::record_launch_grant_nonce) *)
Definition record_launch_grant_nonce (record : LaunchGrantNonceRecord) : M unit :=
  _ ← pure_step (LaunchGrantNonceRecord_validate record);
  _ ← tick;
  _ ← reading (fun l => refuse_if
        (bool_decide (is_Some (ml_launch_grant_nonces l !! lgn_grant_nonce record))
         || existsb (fun stored => bool_decide (lgn_grant_id (sln_record stored)
                                                = lgn_grant_id record))
              (map_values (ml_launch_grant_nonces l)))
        (LedgerDomain (ConflictError ("launch grant " +:+ lgn_grant_id record
           +:+ " nonce already persisted"))));
  assign (fun l => set_launch_grant_nonces l
    (<[lgn_grant_nonce record := MkStoredLaunchGrantNonce record None]>
       (ml_launch_grant_nonces l))).

(** crates/application/src/memory/launch_grant.rs:41-58 (MemoryLedger::consume_launch_grant_nonce) *)
Definition consume_launch_grant_nonce (nonce : string) (attempt_id : AttemptId)
  : M NonceConsumption :=
  _ ← tick;
  now_unix_ms ← reading (fun l => ok_or (to_u64 (ml_simulation_clock_millis l))
                  (LedgerStore "simulation clock precedes the epoch"));
  outcome ← reading (fun l => Ok (classify_stored_nonce (ml_launch_grant_nonces l !! nonce)
                                    attempt_id now_unix_ms));
  if bool_decide (outcome = ConsumedOutcome) then
    consumed_at ← reading simulation_time;
    _ ← assign (fun l => set_launch_grant_nonces l
          (alter (fun stored => MkStoredLaunchGrantNonce (sln_record stored) (Some consumed_at))
             nonce (ml_launch_grant_nonces l)));
    mret outcome
  else mret outcome.

(** ** Transport nonces *)

(** crates/application/src/memory/lease_transport.rs:4-24 (MemoryLedger::reserve_transport_nonce) *)
Definition reserve_transport_nonce (nonce binding : string) (expires_at_unix_ms : Z) : M unit :=
  _ ← reading (fun l => refuse_if (bool_decide (is_Some (ml_lease_transport_nonces l !! nonce)))
        (LedgerStore "lease-transport nonce already reserved"));
  assign (fun l => set_lease_transport_nonces l
    (<[nonce := MkMemoryTransportNonce binding expires_at_unix_ms false]>
       (ml_lease_transport_nonces l))).

(** crates/application/src/memory/lease_transport.rs:26-46 (MemoryLedger::consume_transport_nonce) *)
Definition consume_transport_nonce (nonce binding : string) (now_unix_ms : Z)
  : M NonceConsumption :=
  known ← reading (fun l => Ok (ml_lease_transport_nonces l !! nonce));
  match known with
  | None => mret UnknownOutcome
  | Some record =>
      if negb (bool_decide (mtn_binding record = binding)) then mret UnknownOutcome
      else if mtn_consumed record then mret ReplayedOutcome
      else if bool_decide (mtn_expires_at_unix_ms record <= now_unix_ms) then mret ExpiredOutcome
      else
        _ ← assign (fun l => set_lease_transport_nonces l
              (<[nonce := MkMemoryTransportNonce (mtn_binding record)
                            (mtn_expires_at_unix_ms record) true]>
                 (ml_lease_transport_nonces l)));
        mret ConsumedOutcome
  end.
End MemoryEffects.
