(* ===== verification/MemoryGraphs.v ===== *)
(** * Graph commands of the in-process ledger

    Models crates/application/src/materializer.rs,
    memory/materialization.rs and [apply_graph_delta_command] of
    memory/mod.rs: plans become graphs, and deltas change them, each in one
    transaction whose result is stored for replay. *)

From S2P Require Import Prelude External Ids States Entities Text Store Records Submissions.
From S2P Require Import Commands GraphDelta Authority Context Memory MemoryLeases.
From S2P Require Import MemoryCommands.
From stdpp Require Import options.

Local Open Scope Z_scope.

(** ** Plans *)

(** crates/application/src/materializer.rs:18-27 (PlanInput) *)
Record PlanInput : Type := MkPlanInput {
  PlanInput_title : string;
  PlanInput_objective : string;
  PlanInput_packages : list (string * TaskClass)
}.

(** crates/application/src/materializer.rs:29-37 (CanonicalPlan) *)
Record CanonicalPlan : Type := MkCanonicalPlan {
  cp_seed : string;
  cp_title : string;
  cp_objective : string;
  cp_packages : list (string * TaskClass)
}.

(** crates/application/src/materializer.rs:45-54 (MaterializeCommandResult) *)
Inductive MaterializeCommandResult : Type := MaterializeApplied (graph : StoredGraph).

(** crates/application/src/materializer.rs:106-120 (canonical) *)
Definition canonical (seed : string) (input : PlanInput) : CanonicalPlan :=
  MkCanonicalPlan seed (PlanInput_title input) (PlanInput_objective input)
    (PlanInput_packages input).

Section Materializer.
Context `{Blake3} `{Hex} `{Json MaterializeCommandResult} `{Json StoredGraph}.

(** crates/application/src/materializer.rs:57-66 (MaterializeCommandResult::applied) *)
Definition MaterializeCommandResult_applied (graph : StoredGraph) : result LedgerError string :=
  lift_store (to_json (MaterializeApplied graph)).

(** crates/application/src/materializer.rs:68-84 (MaterializeCommandResult::decode) *)
Definition MaterializeCommandResult_decode (value : string)
  : result LedgerError MaterializeCommandResult :=
  decoded ← lift_store (of_json value);
  again ← lift_store (to_json (A:=MaterializeCommandResult) decoded);
  _ ← refuse_if (negb (bool_decide (again = value)))
        (LedgerStore "materialization result is not canonical");
  mret decoded.

(** crates/application/src/materializer.rs:86-103 (MaterializeCommandResult::graph_for) *)
Definition graph_for (r : MaterializeCommandResult) (expected : StoredGraph)
  : result LedgerError StoredGraph :=
  let 'MaterializeApplied graph := r in
  stored ← lift_store (to_json graph);
  expected ← lift_store (to_json expected);
  _ ← refuse_if (negb (bool_decide (stored = expected)))
        (LedgerStore "materialization result does not match command graph");
  mret graph.

Definition build_package (seed : string) (mission : MissionId) (plan : PlanRevisionId)
  (idx : nat) (entry : string * TaskClass) : WorkPackage * Variant :=
  let pkg_seed := seed +:+ ":wp:" +:+ pretty idx in
  let package := MkWorkPackage (id_from_seed pkg_seed) mission plan entry.2 entry.1 WpReady in
  (package, MkVariant (id_from_seed pkg_seed) (id_from_seed pkg_seed)
              (WorkPackage_id package) 0).

(** crates/application/src/materializer.rs:141-185 (build_graph) *)
Definition build_graph (seed : string) (input : PlanInput) (canonical_hash : Digest)
  : StoredGraph :=
  let mission_id : MissionId := id_from_seed seed in
  let plan_id : PlanRevisionId := id_from_seed seed in
  let mission := MkMission mission_id (id_from_seed seed) (id_from_seed seed)
    (PlanInput_title input) (PlanInput_objective input) (id_from_seed seed) MissionActive in
  let rows := imap (build_package seed mission_id plan_id) (PlanInput_packages input) in
  MkStoredGraph mission (MkPlanRevision plan_id mission_id canonical_hash) rows.*1 rows.*2.
End Materializer.

Section MemoryGraphs.
Context `{LedgerExt} `{Json MaterializeCommandResult} `{Json StoredGraph}
  `{Json CanonicalPlan} `{Json GraphDeltaCommandResult} `{Json GraphDelta}.

Fixpoint tick_fences (vs : list Variant) : M unit :=
  match vs with
  | [] => mret tt
  | v :: rest =>
      _ ← tick;
      _ ← assign (fun l => set_fences l (or_insert (ml_fences l) (id_as_str (Variant_id v)) 0));
      tick_fences rest
  end.

Fixpoint tick_ready (ps : list WorkPackage) (now : string) : M unit :=
  match ps with
  | [] => mret tt
  | p :: rest =>
      _ ← (if bool_decide (WorkPackage_state p = WpReady) then
             _ ← tick;
             assign (fun l => set_ready l
               (or_insert (ml_ready l) (id_as_str (WorkPackage_id p)) now))
           else mret tt);
      tick_ready rest now
  end.

(** `commands.get_mut(key)`, then both assignments. *)
Definition settle_command (key missing : string) (phase : CommandPhase) (response : string)
  : M unit :=
  command ← reading (fun l => ok_or (ml_commands l !! key) (LedgerStore missing));
  assign (fun l => set_commands l (<[key := MkCommandRecord (CommandRecord_id command)
    (CommandRecord_idempotency_key command) (CommandRecord_kind command)
    (CommandRecord_payload command) (CommandRecord_payload_digest command)
    phase (Some response)]> (ml_commands l))).

(** crates/application/src/memory/materialization.rs:45-86 (materialize_plan_command_impl writes) *)
Definition materialize_fresh (request : CommandRequest) (graph : StoredGraph) (now : string)
  : M StoredGraph :=
  let key := id_as_str (Mission_id (StoredGraph_mission graph)) in
  _ ← reading (fun l => refuse_if (bool_decide (is_Some (ml_graphs l !! key)))
        (LedgerDomain (ConflictError ("graph " +:+ key +:+ " already materialized"))));
  response ← pure_step (MaterializeCommandResult_applied graph);
  _ ← tick;
  _ ← assign (fun l => set_graphs l (<[key := graph]> (ml_graphs l)));
  _ ← tick;
  _ ← insert_initial_contexts graph now;
  _ ← tick_fences (StoredGraph_variants graph);
  _ ← tick_ready (StoredGraph_packages graph) now;
  _ ← tick;
  _ ← push_event "graph_materialized" key (Some key)
        (Some (CommandRequest_idempotency_key request)) None;
  _ ← tick;
  _ ← settle_command (CommandRequest_idempotency_key request)
        "materialization command missing" PhaseApplied response;
  _ ← tick;
  mret graph.

(** crates/application/src/memory/materialization.rs:18-87 (materialize_plan_command_impl body) *)
Definition materialize_body (request : CommandRequest) (graph : StoredGraph) (now : string)
  : M StoredGraph :=
  record ← record_command request;
  match CommandRecord_phase record with
  | PhaseApplied | PhaseVerified =>
      response ← pure_step (ok_or (CommandRecord_response record)
        (LedgerStore "applied materialization command has no stored result"));
      decoded ← pure_step (MaterializeCommandResult_decode response);
      stored ← pure_step (graph_for decoded graph);
      _ ← reading (fun l => require_initial_contexts l stored);
      mret stored
  | PhaseFailed | PhaseUnknown =>
      store_failure ("materialization command is "
                     +:+ CommandPhase_as_str (CommandRecord_phase record))
  | PhasePending =>
      match CommandRecord_response record with
      | Some _ => store_failure "pending materialization command has a stored result"
      | None => materialize_fresh request graph now
      end
  end.

(** crates/application/src/memory/materialization.rs:11-100 (MemoryLedger::materialize_plan_command_impl) *)
Definition materialize_plan_command (request : CommandRequest) (graph : StoredGraph)
  (now : string) : M StoredGraph :=
  outcome ← transaction (materialize_body request graph now);
  _ ← tick;
  mret outcome.

(** crates/application/src/materializer.rs:122-139 (materialize_plan) *)
Definition materialize_plan (seed : string) (input : PlanInput) (now : string)
  : M StoredGraph :=
  let key := "materialize:" +:+ seed in
  request ← pure_step (lift_domain
    (CommandRequest_new key "materialize_plan" (canonical seed input)));
  let graph := build_graph seed input (Digest_of (CommandRequest_payload request)) in
  materialize_plan_command request graph now.

(** ** Deltas *)

(** crates/application/src/memory/mod.rs:143-170 (apply_graph_delta_command replay) *)
Definition replay_delta (mission : MissionId) (record : CommandRecord)
  : result LedgerError (result LedgerError StoredGraph) :=
  match CommandRecord_phase record with
  | PhaseApplied | PhaseVerified =>
      response ← ok_or (CommandRecord_response record)
        (LedgerStore "applied delta command has no stored result");
      decoded ← GraphDeltaCommandResult_decode response;
      match decoded with
      | DeltaApplied graph =>
          if bool_decide (Mission_id (StoredGraph_mission graph) = mission) then Ok (Ok graph)
          else Err (LedgerStore "applied delta result belongs to another mission")
      | DeltaFailed _ => Err (LedgerStore "applied delta command stores a failed result")
      end
  | _ =>
      response ← ok_or (CommandRecord_response record)
        (LedgerStore "failed delta command has no stored result");
      decoded ← GraphDeltaCommandResult_decode response;
      match decoded with
      | DeltaFailed error => Ok (Err (GraphDeltaFailure_into_error error))
      | DeltaApplied _ => Err (LedgerStore "failed delta command stores an applied result")
      end
  end.

(** crates/application/src/memory/mod.rs:172-209 (apply_graph_delta_command evaluation) *)
Definition evaluate_fresh (request : CommandRequest) (mission : MissionId)
  (delta : GraphDelta) : M (result LedgerError StoredGraph) :=
  let missing := "delta command missing" in
  evaluated ← reading (fun l => Ok
    (graph ← ok_or (get_graph l mission) (LedgerStore "graph missing");
     evaluate_graph_delta graph delta));
  match evaluated with
  | Err error =>
      response ← pure_step (GraphDeltaCommandResult_failed error);
      _ ← tick;
      _ ← settle_command (CommandRequest_idempotency_key request) missing PhaseFailed response;
      _ ← tick;
      mret (Err error)
  | Panic => pure_step Panic
  | Ok next =>
      response ← pure_step (GraphDeltaCommandResult_applied next);
      event_body ← pure_step (d ← lift_domain (GraphDelta_digest delta); mret (to_hex d));
      _ ← tick;
      _ ← assign (fun l => set_graphs l (<[id_as_str mission := next]> (ml_graphs l)));
      _ ← tick;
      _ ← push_event "graph_delta" event_body None None None;
      _ ← tick;
      _ ← settle_command (CommandRequest_idempotency_key request) missing PhaseApplied response;
      _ ← tick;
      mret (Ok next)
  end.

(** crates/application/src/memory/mod.rs:141-210 (apply_graph_delta_command body) *)
Definition delta_body (request : CommandRequest) (mission : MissionId) (delta : GraphDelta)
  : M (result LedgerError StoredGraph) :=
  record ← record_command request;
  match CommandRecord_phase record with
  | PhaseApplied | PhaseVerified | PhaseFailed => pure_step (replay_delta mission record)
  | PhasePending | PhaseUnknown => evaluate_fresh request mission delta
  end.

(** crates/application/src/memory/mod.rs:134-223 (Ledger::apply_graph_delta_command) *)
Definition apply_graph_delta_command (request : CommandRequest) (mission : MissionId)
  (delta : GraphDelta) : M StoredGraph :=
  outcome ← transaction (delta_body request mission delta);
  _ ← tick;
  pure_step outcome.

(** crates/application/src/graph_delta.rs:225-239 (apply_graph_delta) *)
Definition apply_graph_delta (mission : MissionId) (delta : GraphDelta) : M StoredGraph :=
  digest ← pure_step (lift_domain (GraphDelta_digest delta));
  request ← pure_step (lift_domain (CommandRequest_new ("delta:" +:+ to_hex digest)
              "apply_graph_delta" delta));
  apply_graph_delta_command request mission delta.
End MemoryGraphs.
