(* ===== verification/Broker.v ===== *)
(** * The effect broker

    Models crates/effects/src/broker.rs. The broker runs over any ledger and
    any forge: the part of the [Ledger] trait it calls is the class
    [EffectLedger], what it relies on of it is [EffectLedgerLaws], and the
    in-process ledger discharges both at the end of the file. The world of a
    run also records every call of the forge, so that statements can speak of
    what was pushed and what was read. *)

From S2P Require Import Prelude External Ids States Entities Text Store Records Submissions.
From S2P Require Import Commands Effects GraphDelta Authority Context Forge.
From S2P Require Import Memory MemoryLeases MemoryCommands MemoryEffects.
From stdpp Require Import options.

Local Open Scope Z_scope.

(** crates/effects/src/broker.rs:16-17 (READ_BACK_METHOD) *)
Definition READ_BACK_METHOD : string := "git-ls-remote-read-back".

(** crates/effects/src/broker.rs:19-40 (IntentInput) *)
Record IntentInput : Type := MkIntentInput {
  in_provider : string;
  in_logical_effect_key : string;
  in_target_ref : string;
  in_new_oid : string;
  in_expected_old_oid : string;
  in_attempt_id : AttemptId;
  in_fence : Z;
  in_policy_version : string;
  in_provider_idempotency_key : option string
}.

(** crates/effects/src/broker.rs:42-52 (ReconcileOutcome) *)
Inductive ReconcileOutcome : Type :=
| ReAdopted
| ReRetried (state : EffectState)
| ReQuarantined.

(** What the broker calls of the [Ledger] trait. *)
(** crates/application/src/store.rs:356-413 (Ledger) *)
Class EffectLedger (L : Type) := {
  el_intent : L -> EffectId -> result LedgerError (option EffectIntentRecord);
  el_lease : L -> VariantId -> result LedgerError (option ActiveLease);
  el_record_intent : EffectIntentRecord -> stateful L LedgerError (EffectIntentRecord * bool);
  el_transition : EffectId -> EffectState -> stateful L LedgerError EffectIntentRecord;
  el_record_receipt : EffectReceiptRecord -> stateful L LedgerError bool;
  el_enqueue : string -> string -> stateful L LedgerError Z;
  el_mark : Z -> CommandPhase -> string -> stateful L LedgerError unit
}.

(** A call of the forge, with its answer. *)
Inductive forge_event : Type :=
| FPush (intent : EffectId) (request : PushRequest)
| FRead (ref_name : string) (answer : result EffectsError (option string)).

Record world (L F : Type) : Type := MkWorld {
  w_ledger : L;
  w_forge : F;
  w_trace : list forge_event
}.
Arguments MkWorld {L F} _ _ _.
Arguments w_ledger {L F} _.
Arguments w_forge {L F} _.
Arguments w_trace {L F} _.

Section Broker.
Context `{Blake3} `{Hex} `{Json EffectIntentRecord}.
Context {L F : Type} `{!EffectLedger L} `{!ForgeEffects F}.

Definition B : Type -> Type := stateful (world L F) EffectsError.

(** A call of the ledger, of the forge's push and of its read-back. *)
Definition on_ledger {A} (m : stateful L LedgerError A) : B A := fun w =>
  let '(l, r) := m (w_ledger w) in (MkWorld l (w_forge w) (w_trace w), map_err EeLedger r).
Definition ask_ledger {A} (f : L -> result LedgerError A) : B A :=
  reading (fun w => map_err EeLedger (f (w_ledger w))).
Definition forge_push (id : EffectId) (request : PushRequest) : stateful (world L F) EffectsError (result EffectsError unit) :=
  fun w => let '(f, r) := push_candidate_ref request (w_forge w) in
           (MkWorld (w_ledger w) f (w_trace w ++ [FPush id request]), Ok r).
Definition forge_read (ref_name : string) : B (option string) := fun w =>
  let '(f, r) := read_ref ref_name (w_forge w) in
  (MkWorld (w_ledger w) f (w_trace w ++ [FRead ref_name r]), r).

(** crates/effects/src/broker.rs:54-60 (load) *)
Definition load (id : EffectId) : B EffectIntentRecord :=
  row ← ask_ledger (fun l => el_intent l id);
  pure_step (ok_or row (EeLedger (LedgerStore ("unknown effect intent " +:+ id_as_str id)))).

(** crates/effects/src/broker.rs:62-72 (mark) *)
Definition mark (seq : option Z) (phase : CommandPhase) (now : string) : B unit :=
  match seq with
  | Some seq => on_ledger (el_mark seq phase now)
  | None => mret tt
  end.

(** crates/effects/src/broker.rs:88-103 (propose record) *)
Definition proposed_record (input : IntentInput) (now : string) : EffectIntentRecord := {|
  ei_id := id_from_seed (in_provider input +:+ ":" +:+ in_logical_effect_key input);
  ei_logical_effect_key := in_logical_effect_key input;
  ei_provider := in_provider input;
  ei_target_identity := in_target_ref input;
  ei_desired_state_hash := in_new_oid input;
  ei_expected_old_oid := in_expected_old_oid input;
  ei_attempt_id := in_attempt_id input;
  ei_fence := in_fence input;
  ei_policy_version := in_policy_version input;
  ei_payload_hash := EmptyString;
  ei_provider_idempotency_key := in_provider_idempotency_key input;
  ei_state := EfProposed;
  ei_unknown_retries := 0;
  ei_created_at := now
|}.

(** crates/effects/src/broker.rs:74-105 (propose) *)
Definition propose (input : IntentInput) (now : string) : B (EffectIntentRecord * bool) :=
  _ ← pure_step (require_candidate_ref (in_target_ref input));
  _ ← pure_step (require_oid "new_oid" (in_new_oid input));
  _ ← pure_step (require_oid "expected_old_oid" (in_expected_old_oid input));
  on_ledger (el_record_intent (proposed_record input now)).

(** crates/effects/src/broker.rs:107-149 (authorize) *)
Definition authorize (id : EffectId) (token : AuthorityToken) (now : string)
  : B (EffectIntentRecord * Z) :=
  row ← load id;
  _ ← pure_step (map_err (fun e => EeLedger (LedgerDomain e))
                   (AuthorityToken_verify token (ei_attempt_id row) (ei_fence row)));
  lease ← ask_ledger (fun l => el_lease l (AuthorityToken_variant_id token));
  lease ← pure_step (ok_or lease (EeLedger (LedgerDomain (StaleAuthority
            ("no active lease for variant " +:+ id_as_str (AuthorityToken_variant_id token))))));
  _ ← pure_step (refuse_if
        (negb (bool_decide (ActiveLease_attempt_id lease = AuthorityToken_attempt_id token))
         || negb (bool_decide (ActiveLease_fence lease = AuthorityToken_attempt_fence token)))
        (EeLedger (LedgerDomain (StaleAuthority
           ("lease held by " +:+ id_as_str (ActiveLease_attempt_id lease) +:+ " at fence "
            +:+ pretty (ActiveLease_fence lease) +:+ ", not "
            +:+ id_as_str (AuthorityToken_attempt_id token) +:+ " at fence "
            +:+ pretty (AuthorityToken_attempt_fence token))))));
  updated ← on_ledger (el_transition id EfAuthorized);
  payload ← pure_step (map_err (fun e => EeIo ("encode outbox payload: " +:+ e)) (to_json updated));
  seq ← on_ledger (el_enqueue "effect_dispatch" payload);
  mret (updated, seq).

Definition verdict_of (desired : string) (observed : option string) : ReceiptVerdict :=
  match observed with
  | Some value => if bool_decide (value = desired) then VerdictMatch else VerdictMismatch
  | None => VerdictAbsent
  end.

Definition bool_display (b : bool) : string := if b then "true" else "false".

(** crates/effects/src/broker.rs:159-178 (settle_read_back receipt) *)
Definition read_back_receipt (row : EffectIntentRecord) (observed : option string)
    (adopted_after_unknown : bool) (now : string) : EffectReceiptRecord :=
  let verdict := verdict_of (ei_desired_state_hash row) observed in {|
  er_id := id_from_seed (id_as_str (ei_id row) +:+ ":" +:+ ReceiptVerdict_as_str verdict
             +:+ ":" +:+ bool_display adopted_after_unknown +:+ ":" +:+ now);
  er_effect_intent_id := ei_id row;
  er_observed_remote_identity := ei_target_identity row;
  er_observed_state_hash := observed;
  er_verification_method := READ_BACK_METHOD;
  er_verification_result := verdict;
  er_adopted_after_unknown := adopted_after_unknown;
  er_recorded_at := now
|}.

(** crates/effects/src/broker.rs:151-190 (settle_read_back) *)
Definition settle_read_back (row : EffectIntentRecord) (observed : option string)
    (adopted_after_unknown : bool) (outbox_seq : option Z) (now : string) : B EffectState :=
  let receipt := read_back_receipt row observed adopted_after_unknown now in
  _ ← on_ledger (el_record_receipt receipt);
  if bool_decide (er_verification_result receipt = VerdictMatch) then
    _ ← on_ledger (el_transition (ei_id row) EfVerified);
    updated ← on_ledger (el_transition (ei_id row) EfCommitted);
    _ ← mark outbox_seq PhaseVerified now;
    mret (ei_state updated)
  else
    updated ← on_ledger (el_transition (ei_id row) EfQuarantined);
    _ ← mark outbox_seq PhaseUnknown now;
    mret (ei_state updated).

Definition push_request (row : EffectIntentRecord) (workspace_repo : string) : PushRequest :=
  MkPushRequest workspace_repo (ei_target_identity row) (ei_expected_old_oid row)
    (ei_desired_state_hash row).

(** crates/effects/src/broker.rs:218-231 (push_and_settle receipt) *)
Definition rejected_receipt (row : EffectIntentRecord) (observed : option string) (now : string)
  : EffectReceiptRecord := {|
  er_id := id_from_seed (id_as_str (ei_id row) +:+ ":rejected:" +:+ now);
  er_effect_intent_id := ei_id row;
  er_observed_remote_identity := ei_target_identity row;
  er_observed_state_hash := observed;
  er_verification_method := READ_BACK_METHOD;
  er_verification_result := match observed with Some _ => VerdictMismatch | None => VerdictAbsent end;
  er_adopted_after_unknown := false;
  er_recorded_at := now
|}.

(** crates/effects/src/broker.rs:192-239 (push_and_settle) *)
Definition push_and_settle (row : EffectIntentRecord) (workspace_repo : string)
    (outbox_seq : option Z) (now : string) : B EffectState :=
  answer ← forge_push (ei_id row) (push_request row workspace_repo);
  match answer with
  | Ok _ =>
      _ ← on_ledger (el_transition (ei_id row) EfReceiptPending);
      observed ← forge_read (ei_target_identity row);
      settle_read_back row observed false outbox_seq now
  | Err (EeResponseLost _) =>
      updated ← on_ledger (el_transition (ei_id row) EfOutcomeUnknown);
      _ ← mark outbox_seq PhaseUnknown now;
      mret (ei_state updated)
  | Err (EePushRejected _ observed) =>
      _ ← on_ledger (el_record_receipt (rejected_receipt row observed now));
      updated ← on_ledger (el_transition (ei_id row) EfQuarantined);
      _ ← mark outbox_seq PhaseUnknown now;
      mret (ei_state updated)
  | Err other => pure_step (Err other)
  | Panic => pure_step Panic
  end.

(** crates/effects/src/broker.rs:241-269 (dispatch) *)
Definition dispatch (id : EffectId) (workspace_repo : string) (outbox_seq : option Z) (now : string)
  : B EffectState :=
  row ← load id;
  if bool_decide (ei_state row = EfOutcomeUnknown) then
    pure_step (Err (EeRetryWithoutReconcile (id_as_str id)))
  else if negb (bool_decide (ei_state row = EfAuthorized)) then
    pure_step (Err (EeIllegalPhase (EffectState_as_str (ei_state row))
                      (EffectState_as_str EfAuthorized)))
  else
    row ← on_ledger (el_transition id EfDispatching);
    _ ← mark outbox_seq PhaseApplied now;
    push_and_settle row workspace_repo outbox_seq now.

Definition non_execution (row : EffectIntentRecord) (observed : option string) : bool :=
  if is_create (ei_expected_old_oid row) then bool_decide (observed = None)
  else bool_decide (observed = Some (ei_expected_old_oid row)).

(** crates/effects/src/broker.rs:271-312 (reconcile) *)
Definition reconcile (id : EffectId) (workspace_repo : string) (outbox_seq : option Z) (now : string)
  : B ReconcileOutcome :=
  row ← load id;
  if negb (bool_decide (ei_state row = EfOutcomeUnknown)) then
    pure_step (Err (EeIllegalPhase (EffectState_as_str (ei_state row))
                      (EffectState_as_str EfOutcomeUnknown)))
  else
    observed ← forge_read (ei_target_identity row);
    if bool_decide (observed = Some (ei_desired_state_hash row)) then
      _ ← settle_read_back row observed true outbox_seq now;
      mret ReAdopted
    else if non_execution row observed && bool_decide (ei_unknown_retries row = 0) then
      retried ← on_ledger (el_transition id EfDispatching);
      state ← push_and_settle retried workspace_repo outbox_seq now;
      mret (ReRetried state)
    else
      _ ← settle_read_back row observed false outbox_seq now;
      mret ReQuarantined.
End Broker.

(** ** What the broker relies on of a ledger *)

(** A row moved along one edge; leaving [EfOutcomeUnknown] for a second
    dispatch is counted. *)
Definition advance (row : EffectIntentRecord) (to : EffectState) : EffectIntentRecord :=
  set_intent_state row to
    (if bool_decide (ei_state row = EfOutcomeUnknown) && bool_decide (to = EfDispatching)
     then u32_wrapping_add (ei_unknown_retries row) 1 else ei_unknown_retries row).

(** Rows of one intent: what is asked of the forge does not change. *)
Definition same_request (a b : EffectIntentRecord) : Prop :=
  ei_id a = ei_id b /\ ei_target_identity a = ei_target_identity b
  /\ ei_desired_state_hash a = ei_desired_state_hash b
  /\ ei_expected_old_oid a = ei_expected_old_oid b.

Global Instance same_request_equivalence : Equivalence same_request.
Proof.
  unfold same_request. split; [done|..].
  - intros a b (? & ? & ? & ?). auto.
  - intros a b c (? & ? & ? & ?) (? & ? & ? & ?). split_and!; congruence.
Qed.

Class EffectLedgerLaws (L : Type) `{!EffectLedger L} := {
  el_intents : L -> gmap string EffectIntentRecord;
  el_receipts : L -> list EffectReceiptRecord;
  el_intent_law l id o : el_intent l id = Ok o -> o = el_intents l !! id_as_str id;
  el_record_law i l l' r :
    el_record_intent i l = (l', r) -> r <> Panic ->
    el_receipts l' = el_receipts l
    /\ (el_intents l' = el_intents l
        \/ el_intents l !! id_as_str (ei_id i) = None
           /\ exists row, el_intents l' = <[id_as_str (ei_id i) := row]> (el_intents l)
              /\ same_request row i /\ ei_state row = EfProposed /\ ei_unknown_retries row = 0);
  el_transition_law id to l l' r :
    el_transition id to l = (l', r) -> r <> Panic ->
    el_receipts l' = el_receipts l
    /\ (el_intents l' = el_intents l /\ (forall u, r <> Ok u)
        \/ exists row, el_intents l !! id_as_str id = Some row /\ ef_edge (ei_state row) to
           /\ el_intents l' = <[id_as_str id := advance row to]> (el_intents l)
           /\ forall u, r = Ok u -> u = advance row to);
  el_receipt_law rc l l' r :
    el_record_receipt rc l = (l', r) -> r <> Panic ->
    el_intents l' = el_intents l
    /\ (el_receipts l' = el_receipts l \/ el_receipts l' = el_receipts l ++ [rc])
    /\ (forall u, r = Ok u -> rc ∈ el_receipts l');
  el_enqueue_law kind payload l l' r :
    el_enqueue kind payload l = (l', r) -> r <> Panic ->
    el_intents l' = el_intents l /\ el_receipts l' = el_receipts l;
  el_mark_law seq phase now l l' r :
    el_mark seq phase now l = (l', r) -> r <> Panic ->
    el_intents l' = el_intents l /\ el_receipts l' = el_receipts l
}.

(** ** The invariant of a broker *)

Definition is_push (id : EffectId) (ev : forge_event) : bool :=
  match ev with FPush i _ => bool_decide (i = id) | FRead _ _ => false end.

Definition pushes (id : EffectId) (t : list forge_event) : nat :=
  length (filter (fun ev => is_push id ev = true) t).

(** The remote still holds what the request expects to replace. *)
Definition unexecuted (req : PushRequest) (observed : option string) : Prop :=
  if is_create (push_expected_old_oid req) then observed = None
  else observed = Some (push_expected_old_oid req).

Definition well_formed_push (req : PushRequest) : Prop :=
  require_candidate_ref (push_ref_name req) = Ok tt
  /\ require_oid "new_oid" (push_new_oid req) = Ok tt.

(** The read-back that verifies an intent, in the ledger and on the wire. *)
Definition observed_on_remote (rcs : list EffectReceiptRecord) (t : list forge_event)
    (row : EffectIntentRecord) : Prop :=
  FRead (ei_target_identity row) (Ok (Some (ei_desired_state_hash row))) ∈ t
  /\ exists rc, rc ∈ rcs /\ er_effect_intent_id rc = ei_id row
       /\ er_observed_remote_identity rc = ei_target_identity row
       /\ er_observed_state_hash rc = Some (ei_desired_state_hash row)
       /\ er_verification_result rc = VerdictMatch.

Record row_inv (rcs : list EffectReceiptRecord) (t : list forge_event)
    (row : EffectIntentRecord) : Prop := {
  ri_request : require_candidate_ref (ei_target_identity row) = Ok tt
    /\ require_oid "new_oid" (ei_desired_state_hash row) = Ok tt;
  ri_retries : 0 <= ei_unknown_retries row <= 1;
  ri_fresh : ei_state row = EfProposed \/ ei_state row = EfAuthorized ->
    pushes (ei_id row) t = 0%nat /\ ei_unknown_retries row = 0;
  ri_pushes : Z.of_nat (pushes (ei_id row) t) <= 1 + ei_unknown_retries row;
  ri_observed : ei_state row = EfVerified \/ ei_state row = EfCommitted ->
    observed_on_remote rcs t row
}.

(** Every push is of a well-formed request, and every further push of an
    intent comes right after a read that shows the earlier ones undone. *)
Definition trace_inv (t : list forge_event) : Prop :=
  forall t1 t2 id req, t = t1 ++ FPush id req :: t2 ->
    well_formed_push req
    /\ ((0 < pushes id t1)%nat ->
        exists t0 observed, t1 = t0 ++ [FRead (push_ref_name req) (Ok observed)]
          /\ unexecuted req observed).

Record broker_inv (m : gmap string EffectIntentRecord) (rcs : list EffectReceiptRecord)
    (t : list forge_event) : Prop := {
  bv_rows k row : m !! k = Some row -> k = id_as_str (ei_id row) /\ row_inv rcs t row;
  bv_unknown id : m !! id_as_str id = None -> pushes id t = 0%nat;
  bv_trace : trace_inv t
}.

Lemma pushes_app id a b : pushes id (a ++ b) = (pushes id a + pushes id b)%nat.
Proof. unfold pushes. by rewrite filter_app, length_app. Qed.

Lemma pushes_read id t ref_name r : pushes id (t ++ [FRead ref_name r]) = pushes id t.
Proof. rewrite pushes_app. unfold pushes at 2. rewrite filter_cons. simpl. lia. Qed.

Lemma pushes_push id t i req :
  pushes id (t ++ [FPush i req]) = (pushes id t + (if decide (i = id) then 1 else 0))%nat.
Proof.
  rewrite pushes_app. unfold pushes at 2. rewrite filter_cons. simpl.
  case_bool_decide; repeat case_decide; done.
Qed.

(** What a row needs of the receipts and the trace only grows. *)
Lemma observed_on_remote_mono rcs rcs' t t' row :
  rcs ⊆ rcs' -> t ⊆ t' -> observed_on_remote rcs t row -> observed_on_remote rcs' t' row.
Proof. intros Hr Ht [? (rc & ? & ?)]. split; [by apply Ht|]. exists rc. split; [by apply Hr|done]. Qed.

Lemma snoc_split {A} (t1 t2 : list A) (x : A) t y :
  t ++ [y] = t1 ++ x :: t2 -> (t2 = [] /\ t1 = t /\ x = y) \/ exists t3, t2 = t3 ++ [y] /\ t = t1 ++ x :: t3.
Proof.
  destruct t2 as [|z t2 _] using rev_ind; intros Heq.
  - left. apply app_inj_tail in Heq as [-> ->]. done.
  - right. exists t2. rewrite app_comm_cons, app_assoc in Heq.
    apply app_inj_tail in Heq as [-> ->]. done.
Qed.

Lemma broker_inv_read m rcs t ref_name r :
  broker_inv m rcs t -> broker_inv m rcs (t ++ [FRead ref_name r]).
Proof.
  intros [Hrows Hunk Htr]. split.
  - intros k row Hk. destruct (Hrows k row Hk) as [-> [? ? Hf ? Ho]]. split; [done|].
    split; rewrite ?pushes_read; try done.
    intros Hs. eapply observed_on_remote_mono; [done| |by apply Ho]. intros x Hx. apply elem_of_app. by left.
  - intros id Hid. rewrite pushes_read. by apply Hunk.
  - intros t1 t2 id req Heq. apply snoc_split in Heq as [(_ & _ & [=])|(t3 & -> & ->)].
    by apply (Htr t1 t3).
Qed.

Lemma broker_inv_receipt m rcs t rc : broker_inv m rcs t -> broker_inv m (rcs ++ [rc]) t.
Proof.
  intros [Hrows Hunk Htr]. split; [|done|done].
  intros k row Hk. destruct (Hrows k row Hk) as [-> [? ? Hf ? Ho]]. split; [done|].
  split; try done. intros Hs. eapply observed_on_remote_mono; [|done|by apply Ho]. intros x Hx. apply elem_of_app. by left.
Qed.

Lemma broker_inv_record m rcs t k row :
  broker_inv m rcs t -> m !! k = None -> k = id_as_str (ei_id row) ->
  require_candidate_ref (ei_target_identity row) = Ok tt ->
  require_oid "new_oid" (ei_desired_state_hash row) = Ok tt ->
  ei_state row = EfProposed -> ei_unknown_retries row = 0 ->
  broker_inv (<[k := row]> m) rcs t.
Proof.
  intros [Hrows Hunk Htr] Hnone -> Href Hoid Hst Hret.
  assert (pushes (ei_id row) t = 0%nat) as Hp by by apply Hunk.
  split; [| |done].
  - intros k' row' [[<- <-]|[Hne Hk]]%lookup_insert_Some; [|by apply Hrows].
    split; [done|]. split; rewrite ?Hp, ?Hret; try done; try lia.
    rewrite Hst. by intros [|].
  - intros id [Hid _]%lookup_insert_None. by apply Hunk.
Qed.

(** The conditions under which a row may take an edge. *)
Definition may_advance (rcs : list EffectReceiptRecord) (t : list forge_event)
    (row : EffectIntentRecord) (to : EffectState) : Prop :=
  (to = EfVerified \/ to = EfCommitted -> observed_on_remote rcs t row)
  /\ (to = EfDispatching -> ei_unknown_retries row = 0).

Lemma advance_retries row to :
  0 <= ei_unknown_retries row <= 1 -> (to = EfDispatching -> ei_unknown_retries row = 0) ->
  ei_unknown_retries row <= ei_unknown_retries (advance row to) <= 1
  /\ (ei_state row = EfOutcomeUnknown -> to = EfDispatching ->
      ei_unknown_retries (advance row to) = 1).
Proof.
  intros Hr Hto. unfold advance, u32_wrapping_add. cbn [ei_unknown_retries set_intent_state].
  destruct (bool_decide_reflect (ei_state row = EfOutcomeUnknown)),
    (bool_decide_reflect (to = EfDispatching)) as [Hd|]; cbn [andb]; try (split; [lia|done]).
  rewrite (Hto Hd), Z.mod_small by lia. lia.
Qed.

Lemma broker_inv_advance m rcs t k row to :
  broker_inv m rcs t -> m !! k = Some row -> ef_edge (ei_state row) to ->
  may_advance rcs t row to -> broker_inv (<[k := advance row to]> m) rcs t.
Proof.
  intros [Hrows Hunk Htr] Hk Hedge [Hobs Hdisp].
  destruct (Hrows k row Hk) as [-> [Hreq Hret Hf Hp Ho]].
  destruct (advance_retries row to Hret Hdisp) as [Hr' Hr1].
  split; [| |done].
  - intros k' row' [[<- <-]|[Hne Hk']]%lookup_insert_Some; [|by apply Hrows].
    split; [done|]. split; cbn [advance set_intent_state ei_id ei_state ei_target_identity ei_desired_state_hash] in *.
    + done.
    + lia.
    + intros Hs. assert (to = EfAuthorized) as ->.
      { unfold ef_edge in Hedge. destruct Hs as [-> | ->]; [|done]. by destruct (ei_state row). }
      assert (ei_state row = EfProposed) as Hst by (unfold ef_edge in Hedge; by destruct (ei_state row)).
      destruct (Hf (or_introl Hst)) as [Hf1 Hf2]. split; [exact Hf1|].
      unfold advance. cbn. by rewrite Hst.
    + lia.
    + intros Hs. exact (Hobs Hs).
  - intros id [Hid _]%lookup_insert_None. by apply Hunk.
Qed.

Lemma broker_inv_push m rcs t row ws :
  broker_inv m rcs t -> m !! id_as_str (ei_id row) = Some row -> ei_state row = EfDispatching ->
  Z.of_nat (pushes (ei_id row) t) <= ei_unknown_retries row ->
  ((0 < pushes (ei_id row) t)%nat ->
     exists t0 observed, t = t0 ++ [FRead (ei_target_identity row) (Ok observed)]
       /\ unexecuted (push_request row ws) observed) ->
  broker_inv m rcs (t ++ [FPush (ei_id row) (push_request row ws)]).
Proof.
  intros [Hrows Hunk Htr] Hrow Hst Hle Hproof. split.
  - intros k row' Hk. destruct (Hrows k row' Hk) as [-> [Hreq Hret Hf Hp Ho]]. split; [done|].
    assert (ei_id row = ei_id row' -> row' = row) as Hsame.
    { intros Heq. rewrite Heq in Hrow. congruence. }
    split; [done|done|..]; rewrite ?pushes_push.
    + case_decide as Hid; [|rewrite Nat.add_0_r; exact Hf].
      rewrite (Hsame Hid), Hst. by intros [|].
    + case_decide as Hid; [rewrite (Hsame Hid)|]; lia.
    + intros Hs. eapply observed_on_remote_mono; [done| |by apply Ho].
      intros x Hx. apply elem_of_app. by left.
  - intros id Hid. rewrite pushes_push. case_decide as Heq; [|rewrite Nat.add_0_r; by apply Hunk].
    rewrite <-Heq in Hid. congruence.
  - intros t1 t2 id req Heq.
    apply snoc_split in Heq as [(_ & -> & [= -> ->])|(t3 & -> & ->)]; [|by apply (Htr t1 t3)].
    destruct (Hrows _ _ Hrow) as [_ [[Href Hoid] _ _ _ _]]. done.
Qed.

(** ** Every operation keeps the invariant *)

Section BrokerSafety.
Context `{Blake3} `{Hex} `{Json EffectIntentRecord}.
Context {L F : Type} `{!EffectLedger L} `{!EffectLedgerLaws L} `{!ForgeEffects F}.
Abbreviation W := (world L F).
Implicit Types (w : W) (P : gmap string EffectIntentRecord -> list EffectReceiptRecord -> list forge_event -> Prop).

(** A predicate of what the ledger shows of effects and of the trace. *)
Definition sees P : W -> Prop :=
  fun w => P (el_intents (w_ledger w)) (el_receipts (w_ledger w)) (w_trace w).

Lemma ledger_triple P {A} (m : stateful L LedgerError A) (Q : A -> W -> Prop) (I : W -> Prop) :
  (forall l f t l' r, P (el_intents l) (el_receipts l) t -> m l = (l', r) ->
     match r with Ok a => Q a (MkWorld l' f t) | Err _ => I (MkWorld l' f t) | Panic => True end) ->
  triple (sees P) (on_ledger m) Q I.
Proof using All.
  intros Hm [l f t] Hw. unfold on_ledger. cbn [w_ledger w_forge w_trace].
  destruct (m l) as [l' r] eqn:E. specialize (Hm l f t l' r Hw E). by destruct r.
Qed.

Lemma load_triple P id :
  triple (sees P) (load id)
    (fun row w => sees P w /\ el_intents (w_ledger w) !! id_as_str id = Some row) (sees P).
Proof using All.
  intros w Hw. unfold load, mbind, stateful_bind, ask_ledger, reading, pure_step.
  destruct (el_intent (w_ledger w) id) as [o|e|] eqn:E; cbn [map_err]; [|done|done].
  apply el_intent_law in E as ->. by destruct (_ !! _).
Qed.

Lemma mark_triple P seq phase now : triple (sees P) (mark seq phase now) (fun _ => sees P) (sees P).
Proof using All.
  destruct seq as [seq|]; [|by intros w Hw]. apply ledger_triple. intros l f t l' r Hw E.
  destruct r as [u|e|]; [..|done]; unfold sees; cbn;
    destruct (el_mark_law _ _ _ _ _ _ E) as [-> ->]; done.
Qed.

Abbreviation inv := (sees broker_inv).

Lemma read_triple (X : gmap string EffectIntentRecord -> list forge_event -> Prop) ref_name :
  triple (sees (fun m rcs t => broker_inv m rcs t /\ X m t)) (forge_read ref_name)
    (fun o => sees (fun m rcs t => broker_inv m rcs t
       /\ exists t0, t = t0 ++ [FRead ref_name (Ok o)] /\ X m t0))
    inv.
Proof using All.
  intros [l f t] [Hinv HX]. unfold forge_read. cbn [w_ledger w_forge w_trace] in *.
  destruct (read_ref ref_name f) as [f' [o|e|]]; [..|done]; unfold sees; cbn.
  - split; [by apply broker_inv_read|]. by exists t.
  - by apply broker_inv_read.
Qed.

(** The ledger holds [row], up to its state, in a state of [Ps]. *)
Definition holds (row : EffectIntentRecord) (Ps : EffectIntentRecord -> Prop)
    (m : gmap string EffectIntentRecord) : Prop :=
  exists cur, m !! id_as_str (ei_id row) = Some cur /\ same_request cur row /\ Ps cur.

Lemma transition_triple (R : list EffectReceiptRecord -> list forge_event -> Prop) row Ps to :
  (forall m rcs t cur, broker_inv m rcs t -> R rcs t -> m !! id_as_str (ei_id row) = Some cur ->
     same_request cur row -> Ps cur -> may_advance rcs t cur to) ->
  triple (sees (fun m rcs t => broker_inv m rcs t /\ holds row Ps m /\ R rcs t))
    (on_ledger (el_transition (ei_id row) to))
    (fun upd => sees (fun m rcs t => broker_inv m rcs t /\ R rcs t
       /\ same_request upd row /\ ei_state upd = to
       /\ m !! id_as_str (ei_id row) = Some upd
       /\ exists cur, Ps cur /\ upd = advance cur to))
    inv.
Proof using All.
  intros Hmay. apply ledger_triple. intros l f t l' r (Hinv & (cur & Hcur & Hsame & HS) & HR) E.
  assert (r = Panic \/ r <> Panic) as [->|Hr] by (destruct r; auto); [done|].
  destruct (el_transition_law _ _ _ _ _ E Hr) as [Hrc [[Hm Hno]|(row0 & Hrow0 & Hedge & Hm & Hu)]].
  { destruct r as [u|e|]; [by destruct (Hno u)|unfold sees; cbn; by rewrite Hm, Hrc|done]. }
  assert (row0 = cur) as -> by congruence.
  assert (broker_inv (el_intents l') (el_receipts l') t) as Hinv'.
  { rewrite Hm, Hrc. eapply broker_inv_advance; eauto. }
  destruct r as [u|e|]; [|done|done]. unfold sees. cbn.
  specialize (Hu u eq_refl) as ->. rewrite Hm, Hrc in *. split_and!; try done.
  - by apply lookup_insert_eq.
  - by exists cur.
Qed.

Lemma receipt_triple (R : list EffectReceiptRecord -> list forge_event -> Prop) row Ps rc :
  (forall rcs t, R rcs t -> R (rcs ++ [rc]) t) ->
  triple (sees (fun m rcs t => broker_inv m rcs t /\ holds row Ps m /\ R rcs t))
    (on_ledger (el_record_receipt rc))
    (fun _ => sees (fun m rcs t => broker_inv m rcs t /\ holds row Ps m /\ R rcs t /\ rc ∈ rcs))
    inv.
Proof using All.
  intros Hmono. apply ledger_triple. intros l f t l' r (Hinv & Hh & HR) E.
  assert (r = Panic \/ r <> Panic) as [->|Hr] by (destruct r; auto); [done|].
  destruct (el_receipt_law _ _ _ _ E Hr) as (Hm & Hrc & Hin).
  assert (broker_inv (el_intents l') (el_receipts l') t /\ R (el_receipts l') t) as [Hinv' HR'].
  { rewrite Hm. destruct Hrc as [-> | ->]; [done|]. split; [by apply broker_inv_receipt|by apply Hmono]. }
  destruct r as [u|e|]; [|exact Hinv'|done]. unfold sees. cbn. rewrite Hm in *.
  split_and!; [done..|]. by apply (Hin u).
Qed.

(** After a transition, the rest of the step sees the row it left. *)
Lemma then_holds (R : list EffectReceiptRecord -> list forge_event -> Prop) row to upd
    (Ps : EffectIntentRecord -> Prop) w :
  sees (fun m rcs t => broker_inv m rcs t /\ R rcs t /\ same_request upd row /\ ei_state upd = to
          /\ m !! id_as_str (ei_id row) = Some upd /\ exists cur, Ps cur /\ upd = advance cur to) w ->
  sees (fun m rcs t => broker_inv m rcs t /\ holds row (fun _ => True) m /\ R rcs t) w.
Proof using All. intros (? & ? & ? & ? & ? & _). split_and!; [done| |done]. by exists upd. Qed.

Lemma mark_ret_triple {A} (a : A) P (Q : W -> Prop) seq phase now :
  (forall w, Q w -> sees P w) ->
  triple Q (_ ← mark seq phase now; mret a) (fun _ => sees P) (sees P).
Proof using All.
  intros HQ. eapply triple_conseq; [|exact HQ|intros ? ? Hs; exact Hs].
  eapply triple_bind; [apply mark_triple|]. intros u. by apply triple_ret.
Qed.

Lemma settle_triple row observed adopted seq now :
  triple (sees (fun m rcs t => broker_inv m rcs t /\ holds row (fun _ => True) m
                  /\ FRead (ei_target_identity row) (Ok observed) ∈ t))
    (settle_read_back row observed adopted seq now) (fun _ => inv) inv.
Proof using All.
  unfold settle_read_back. set (rc := read_back_receipt row observed adopted now).
  eapply triple_bind; [by apply (receipt_triple (fun _ t => FRead _ (Ok observed) ∈ t))|]. intros _u.
  destruct (bool_decide_reflect (er_verification_result rc = VerdictMatch)) as [Hv|Hv].
  - assert (observed = Some (ei_desired_state_hash row)) as ->.
    { unfold rc, read_back_receipt, verdict_of in Hv. cbn in Hv.
      destruct observed as [v|]; [|done]. by case_bool_decide; simplify_eq. }
    set (R := fun (rcs : list EffectReceiptRecord) (t : list forge_event) =>
                FRead (ei_target_identity row) (Ok (Some (ei_desired_state_hash row))) ∈ t /\ rc ∈ rcs).
    assert (forall to m rcs t cur, to <> EfDispatching -> broker_inv m rcs t -> R rcs t ->
              same_request cur row -> may_advance rcs t cur to) as Hmay.
    { intros to m rcs t cur Hto _ [Hread Hrc] (Hid & Htgt & Hdes & _). split; [|done]. intros _.
      unfold observed_on_remote. rewrite Hid, Htgt, Hdes. split; [done|]. by exists rc. }
    eapply triple_bind.
    { eapply triple_conseq; [apply (transition_triple R row (fun _ => True) EfVerified)| |done].
      - intros m rcs t cur ? ? ? ? _. by apply (Hmay _ m).
      - intros w (? & ? & ? & ?). by split_and!. }
    intros u. eapply triple_bind.
    { eapply triple_conseq; [apply (transition_triple R row (fun _ => True) EfCommitted)| |done].
      - intros m rcs t cur ? ? ? ? _. by apply (Hmay _ m).
      - intros w Hw. eapply then_holds. exact Hw. }
    intros upd. apply mark_ret_triple. by intros w [? _].
  - eapply triple_bind.
    { eapply triple_conseq; [apply (transition_triple (fun _ _ => True) row (fun _ => True) EfQuarantined)| |done].
      - intros. split; [by intros [|]|done].
      - intros w (? & ? & _). by split_and!. }
    intros upd. apply mark_ret_triple. by intros w [? _].
Qed.

(** A thread that may push: its row is dispatching, and either nothing was
    pushed for it yet or the last call read the remote as it was before. *)
Definition may_push (row : EffectIntentRecord) (ws : string) (t : list forge_event) : Prop :=
  Z.of_nat (pushes (ei_id row) t) <= ei_unknown_retries row
  /\ ((0 < pushes (ei_id row) t)%nat ->
      exists t0 observed, t = t0 ++ [FRead (ei_target_identity row) (Ok observed)]
        /\ unexecuted (push_request row ws) observed).

Lemma push_triple row ws :
  triple (sees (fun m rcs t => broker_inv m rcs t /\ m !! id_as_str (ei_id row) = Some row
                  /\ ei_state row = EfDispatching /\ may_push row ws t))
    (forge_push (ei_id row) (push_request row ws))
    (fun _ => sees (fun m rcs t => broker_inv m rcs t /\ holds row (fun _ => True) m)) inv.
Proof using All.
  intros [l f t] (Hinv & Hrow & Hst & Hle & Hproof). unfold forge_push. cbn [w_ledger w_forge w_trace] in *.
  destruct (push_candidate_ref _ f) as [f' r]. unfold sees. cbn. split; [by apply broker_inv_push|].
  by exists row.
Qed.

Lemma leave_triple row to seq phase now (a : EffectIntentRecord -> EffectState) :
  to <> EfVerified -> to <> EfCommitted -> to <> EfDispatching ->
  triple (sees (fun m rcs t => broker_inv m rcs t /\ holds row (fun _ => True) m))
    (updated ← on_ledger (el_transition (ei_id row) to); _ ← mark seq phase now; mret (a updated))
    (fun _ => inv) inv.
Proof using All.
  intros Hv Hc Hd. eapply triple_bind.
  { eapply triple_conseq; [apply (transition_triple (fun _ _ => True) row (fun _ => True) to)| |done].
    - intros. split; [by intros [|]|done].
    - intros w [? ?]. by split_and!. }
  intros upd. apply mark_ret_triple. by intros w [? _].
Qed.

Lemma push_and_settle_triple row ws seq now :
  triple (sees (fun m rcs t => broker_inv m rcs t /\ m !! id_as_str (ei_id row) = Some row
                  /\ ei_state row = EfDispatching /\ may_push row ws t))
    (push_and_settle row ws seq now) (fun _ => inv) inv.
Proof using All.
  unfold push_and_settle. eapply triple_bind; [apply push_triple|]. intros answer.
  assert (forall e, triple (sees (fun m rcs t => broker_inv m rcs t /\ holds row (fun _ => True) m))
            (pure_step (Err e) : B EffectState) (fun _ => inv) inv) as Herr.
  { intros e. apply triple_err. by intros w [? _]. }
  destruct answer as [u|e|]; [| |by intros w _].
  - eapply triple_bind.
    { eapply triple_conseq; [apply (transition_triple (fun _ _ => True) row (fun _ => True) EfReceiptPending)| |done].
      - intros. split; [by intros [|]|done].
      - intros w [? ?]. by split_and!. }
    intros upd. eapply triple_bind.
    { eapply triple_conseq; [apply (read_triple (fun m _ => holds row (fun _ => True) m))| |].
      - intros w (? & _ & ? & _ & ? & _). split; [done|]. by exists upd.
      - intros o w Hw. exact Hw. }
    intros observed. eapply triple_conseq; [apply settle_triple| |by intros ? ? Hw].
    intros w (Hinv & t0 & Ht & Hh). unfold sees. rewrite Ht in *. split_and!; [done|done|].
    apply elem_of_app. right. by apply list_elem_of_singleton.
  - destruct e; try apply Herr.
    + eapply triple_bind.
      { eapply triple_conseq; [apply (receipt_triple (fun _ _ => True) row (fun _ => True))| |].
        - done.
        - intros w [? ?]. by split_and!.
        - intros o w Hw. exact Hw. }
      intros v. eapply triple_conseq; [by apply (leave_triple row EfQuarantined seq PhaseUnknown now ei_state)| |].
      * intros w (? & ? & _). by split.
      * by intros ? ? Hw.
    + by apply (leave_triple row EfOutcomeUnknown seq PhaseUnknown now ei_state).
Qed.

Lemma triple_err_conseq {A} (P : W -> Prop) (m : B A) Q (I I' : W -> Prop) :
  triple P m Q I -> (forall w, I w -> I' w) -> triple P m Q I'.
Proof using All. intros Hm HI w Hw. specialize (Hm w Hw). destruct (m w) as [t []]; auto. Qed.

(** A fact that the precondition gives may be assumed. *)
Lemma triple_pure_pre {A} (phi : Prop) (P : W -> Prop) (m : B A) Q I :
  (forall w, P w -> phi) -> (phi -> triple P m Q I) -> triple P m Q I.
Proof using All. intros Hphi Hm w Hw. by apply Hm; [apply (Hphi w)|]. Qed.

Lemma row_id m rcs t id row :
  broker_inv m rcs t -> m !! id_as_str id = Some row -> ei_id row = id.
Proof using All.
  intros Hinv Hrow. destruct (bv_rows _ _ _ Hinv _ _ Hrow) as [Hid _].
  destruct id, (ei_id row). cbn in *. congruence.
Qed.

Lemma dispatch_triple id ws seq now : triple inv (dispatch id ws seq now) (fun _ => inv) inv.
Proof using All.
  unfold dispatch. eapply triple_bind; [apply load_triple|]. intros row.
  destruct (bool_decide_reflect (ei_state row = EfOutcomeUnknown)) as [|_].
  { apply triple_err. by intros w [? _]. }
  destruct (bool_decide_reflect (ei_state row = EfAuthorized)) as [Hst|]; cbn [negb];
    [|apply triple_err; by intros w [? _]].
  apply (triple_pure_pre (ei_id row = id)).
  { intros w [Hinv Hrow]. by eapply row_id. }
  intros <-. eapply triple_bind.
  { eapply triple_conseq; [apply (transition_triple
      (fun _ t => pushes (ei_id row) t = 0%nat /\ ei_unknown_retries row = 0) row (eq row) EfDispatching)| |].
    - intros m rcs t cur _ [_ Hr] _ _ <-. split; [by intros [|]|done].
    - intros w [Hinv Hrow]. split_and!; [done|by exists row|..].
      all: destruct (bv_rows _ _ _ Hinv _ _ Hrow) as [_ [_ _ Hf _ _]]; by apply Hf; right.
    - intros upd w Hw. exact Hw. }
  intros upd. eapply triple_bind; [eapply triple_err_conseq; [apply mark_triple|]|].
  { by intros w [? _]. }
  intros v. eapply triple_conseq; [apply push_and_settle_triple| |by intros ? ? Hw].
  intros w (Hinv & [Hp Hr] & (Hid & _) & Hst' & Hrow & cur & <- & ->). unfold sees, may_push.
  rewrite Hid in *. split_and!; [done..| |]; rewrite Hp; [|intros; lia].
  destruct (bv_rows _ _ _ Hinv _ _ Hrow) as [_ [_ Hret _ _ _]]. lia.
Qed.

Lemma reconcile_triple id ws seq now : triple inv (reconcile id ws seq now) (fun _ => inv) inv.
Proof using All.
  unfold reconcile. eapply triple_bind; [apply load_triple|]. intros row.
  destruct (bool_decide_reflect (ei_state row = EfOutcomeUnknown)) as [Hst|]; cbn [negb];
    [|apply triple_err; by intros w [? _]].
  apply (triple_pure_pre (ei_id row = id)).
  { intros w [Hinv Hrow]. by eapply row_id. }
  intros <-. eapply triple_bind.
  { eapply triple_conseq; [apply (read_triple (fun m _ => m !! id_as_str (ei_id row) = Some row))| |].
    - intros w Hw. exact Hw.
    - intros o w Hw. exact Hw. }
  intros observed.
  assert (forall adopted (out : ReconcileOutcome), triple (sees (fun m rcs t => broker_inv m rcs t
            /\ exists t0, t = t0 ++ [FRead (ei_target_identity row) (Ok observed)]
               /\ m !! id_as_str (ei_id row) = Some row))
            (_ ← settle_read_back row observed adopted seq now; mret out) (fun _ => inv) inv) as Hsettle.
  { intros adopted out. eapply triple_bind.
    - eapply triple_conseq; [apply settle_triple| |intros ? ? Hw; exact Hw].
      intros w (Hinv & t0 & Ht & Hrow). unfold sees. rewrite Ht in *. split_and!; [done|by exists row|].
      apply elem_of_app. right. by apply list_elem_of_singleton.
    - intros v. by apply triple_ret. }
  case_bool_decide as Hobs; [apply Hsettle|].
  destruct (non_execution row observed && bool_decide (ei_unknown_retries row = 0)) eqn:Hne; [|apply Hsettle].
  apply andb_true_iff in Hne as [Hne Hr%bool_decide_eq_true].
  eapply triple_bind.
  { eapply triple_conseq; [apply (transition_triple
      (fun _ t => (exists t0, t = t0 ++ [FRead (ei_target_identity row) (Ok observed)])
                  /\ (pushes (ei_id row) t <= 1)%nat) row (eq row) EfDispatching)| |].
    - intros m rcs t cur _ _ _ _ <-. split; [by intros [|]|done].
    - intros w (Hinv & t0 & Ht & Hrow). split_and!; [done|by exists row|by exists t0|].
      destruct (bv_rows _ _ _ Hinv _ _ Hrow) as [_ [_ _ _ Hp _]]. lia.
    - intros upd w Hw. exact Hw. }
  intros upd. apply (triple_bind _ _ _ (fun _ => inv)); [|intros st; by apply triple_ret].
  eapply triple_conseq; [apply push_and_settle_triple| |intros ? ? Hw; exact Hw].
  intros w (Hinv & [(t0 & Ht) Hp] & (Hid & Htgt & Hdes & Hold) & Hst' & Hrow & cur & <- & Hupd).
  split_and!; [done|by rewrite Hid|done|]. unfold may_push. rewrite Hid, Htgt.
  assert (ei_unknown_retries upd = 1) as ->.
  { rewrite Hupd. unfold advance. cbn. by rewrite Hst, Hr. }
  split; [lia|]. intros _. exists t0, observed. split; [done|].
  unfold unexecuted, push_request. cbn. rewrite Hold. unfold non_execution in Hne.
  by destruct (is_create _); apply bool_decide_eq_true in Hne.
Qed.

Lemma propose_triple input now : triple inv (propose input now) (fun _ => inv) inv.
Proof using All.
  unfold propose. eapply triple_bind; [by apply triple_pure|]. intros u.
  eapply triple_bind; [apply triple_pure; by intros w [? _]|]. intros v.
  eapply triple_bind; [apply triple_pure; by intros w [[? _] _]|]. intros x.
  intros w [[[Hw Href] Hnew] _]. revert w Hw. apply ledger_triple. intros l f t l' r Hinv E.
  assert (r = Panic \/ r <> Panic) as [->|Hr] by (destruct r; auto); [done|].
  assert (broker_inv (el_intents l') (el_receipts l') t) as Hinv'.
  { destruct (el_record_law _ _ _ _ E Hr) as [-> [->|(Hnone & row & -> & (Hid & Htgt & Hdes & _) & Hst & Hret)]];
      [done|].
    cbn [proposed_record ei_id ei_target_identity ei_desired_state_hash] in *. destruct u, v.
    apply broker_inv_record; try done; congruence. }
  by destruct r.
Qed.

Lemma authorize_triple id token now : triple inv (authorize id token now) (fun _ => inv) inv.
Proof using All.
  unfold authorize. eapply triple_bind; [apply load_triple|]. intros row.
  apply (triple_pure_pre (ei_id row = id)).
  { intros w [Hinv Hrow]. by eapply row_id. }
  intros <-. eapply triple_bind; [apply triple_pure; by intros w [? _]|]. intros u.
  eapply triple_bind; [unfold ask_ledger; apply triple_reading; by intros w [[? _] _]|]. intros lease.
  eapply triple_bind; [apply triple_pure; by intros w [[[? _] _] _]|]. intros lease'.
  eapply triple_bind; [apply triple_pure; by intros w [[[[? _] _] _] _]|]. intros v.
  eapply triple_bind.
  { eapply triple_conseq; [apply (transition_triple (fun _ _ => True) row (fun _ => True) EfAuthorized)| |].
    - intros. split; [by intros [|]|done].
    - intros w [[[[[Hinv Hrow] _] _] _] _]. split_and!; [done|by exists row|done].
    - intros upd w Hw. exact Hw. }
  intros upd. eapply triple_bind.
  { eapply triple_conseq; [apply (triple_pure inv)| |intros ? ? Hw; exact Hw]; [done|by intros w [? _]]. }
  intros payload. apply (triple_bind _ _ _ (fun _ => inv)); [|intros seq; by apply triple_ret].
  eapply triple_conseq; [|intros w [Hw _]; exact Hw|intros ? ? Hw; exact Hw].
  apply ledger_triple. intros l f t l' r Hinv E.
  destruct r as [s|e|]; [..|done]; unfold sees; cbn;
    destruct (el_enqueue_law _ _ _ _ _ E) as [-> ->]; done.
Qed.

(** ** Runs *)

Inductive broker_op : Type :=
| OpPropose (input : IntentInput) (now : string)
| OpAuthorize (id : EffectId) (token : AuthorityToken) (now : string)
| OpDispatch (id : EffectId) (workspace_repo : string) (outbox_seq : option Z) (now : string)
| OpReconcile (id : EffectId) (workspace_repo : string) (outbox_seq : option Z) (now : string).

(** The world after an operation, whether it succeeded or was refused; none
    when the process died. *)
Definition survive {A} (out : W * result EffectsError A) : option W :=
  match out with (w, Panic) => None | (w, _) => Some w end.

Definition broker_step (op : broker_op) (w : W) : option W :=
  match op with
  | OpPropose input now => survive (propose input now w)
  | OpAuthorize id token now => survive (authorize id token now w)
  | OpDispatch id ws seq now => survive (dispatch id ws seq now w)
  | OpReconcile id ws seq now => survive (reconcile id ws seq now w)
  end.

(** Between operations the remote may be moved by anyone, and the ledger may
    change in whatever does not touch effects. *)
Inductive broker_run (w0 : W) : W -> Prop :=
| broker_run_refl : broker_run w0 w0
| broker_run_op w op w' : broker_run w0 w -> broker_step op w = Some w' -> broker_run w0 w'
| broker_run_other w l f :
    broker_run w0 w -> el_intents l = el_intents (w_ledger w) ->
    el_receipts l = el_receipts (w_ledger w) -> broker_run w0 (MkWorld l f (w_trace w)).

Lemma survive_inv {A} (m : B A) w w' :
  triple inv m (fun _ => inv) inv -> inv w -> survive (m w) = Some w' -> inv w'.
Proof using All.
  intros Hm Hw. specialize (Hm w Hw). unfold survive.
  destruct (m w) as [t []]; intros; by simplify_eq.
Qed.

Lemma broker_run_inv l f w :
  el_intents l = ∅ -> broker_run (MkWorld l f []) w -> inv w.
Proof using All.
  intros Hl Hrun. induction Hrun as [|w op w' _ IH Hop|w l' f' _ IH Hi Hr].
  - split; cbn; rewrite ?Hl; [by intros ? ?|done|]. intros t1 t2 id req Heq. by destruct t1.
  - destruct op; cbn [broker_step] in Hop; eapply survive_inv; [|exact IH|exact Hop| |exact IH|exact Hop|
      |exact IH|exact Hop| |exact IH|exact Hop].
    + apply propose_triple.
    + apply authorize_triple.
    + apply dispatch_triple.
    + apply reconcile_triple.
  - unfold sees. cbn. by rewrite Hi, Hr.
Qed.

(** C3: Whatever order the broker's operations come in, whatever the forge
    answers, whichever ledger call fails, and however others move the remote
    in between: an intent that is verified or committed was read back. The
    forge answered a read of the intent's own ref with exactly the desired
    object id, and the ledger holds a matching receipt of that intent that
    says so. *)
Theorem committed_effects_were_observed l f w k row :
  el_intents l = ∅ -> broker_run (MkWorld l f []) w ->
  el_intents (w_ledger w) !! k = Some row ->
  ei_state row = EfVerified \/ ei_state row = EfCommitted ->
  FRead (ei_target_identity row) (Ok (Some (ei_desired_state_hash row))) ∈ w_trace w
  /\ exists rc, rc ∈ el_receipts (w_ledger w) /\ er_effect_intent_id rc = ei_id row
       /\ er_observed_remote_identity rc = ei_target_identity row
       /\ er_observed_state_hash rc = Some (ei_desired_state_hash row)
       /\ er_verification_result rc = VerdictMatch.
Proof using All.
  intros Hl Hrun Hrow Hst. pose proof (broker_run_inv _ _ _ Hl Hrun) as Hinv.
  destruct (bv_rows _ _ _ Hinv _ _ Hrow) as [_ [_ _ _ _ Ho]]. exact (Ho Hst).
Qed.

(** C4: No blind retry. In every run of the broker an intent is pushed at most
    twice; every push names a ref of the candidate namespace and a well-formed
    object id; and the second push of an intent comes immediately after a read
    of its ref that showed the remote still as it was before the first (absent
    for a creation, at the expected old object id otherwise). *)
Theorem retries_follow_proof_of_nonexecution l f w :
  el_intents l = ∅ -> broker_run (MkWorld l f []) w ->
  (forall id, pushes id (w_trace w) <= 2)%nat
  /\ forall t1 t2 id req, w_trace w = t1 ++ FPush id req :: t2 ->
       well_formed_push req
       /\ ((0 < pushes id t1)%nat ->
           exists t0 observed, t1 = t0 ++ [FRead (push_ref_name req) (Ok observed)]
             /\ unexecuted req observed).
Proof using All.
  intros Hl Hrun. pose proof (broker_run_inv _ _ _ Hl Hrun) as Hinv. split; [|apply (bv_trace _ _ _ Hinv)].
  intros id. destruct (el_intents (w_ledger w) !! id_as_str id) as [row|] eqn:Hrow.
  - pose proof (row_id _ _ _ _ _ Hinv Hrow) as <-.
    destruct (bv_rows _ _ _ Hinv _ _ Hrow) as [_ [_ Hret _ Hp _]]. lia.
  - rewrite (bv_unknown _ _ _ Hinv id Hrow). lia.
Qed.
End BrokerSafety.
