(* ===== verification/BrokerMemory.v ===== *)
(** * The in-process ledger under the effect broker

    The operations of [MemoryLedger] that the broker calls, and the proof that
    they keep what the broker relies on: a row moves only along an edge of the
    effect machine, also when a later part of the same call fails. *)

From S2P Require Import Prelude External Ids States Entities Text Store Records Submissions.
From S2P Require Import Commands Effects GraphDelta Authority Context Forge.
From S2P Require Import Memory MemoryLeases MemoryCommands MemoryEffects Broker.
From stdpp Require Import options.

Local Open Scope Z_scope.

Section BrokerMemory.
Context `{LedgerExt}.

(** crates/application/src/memory/mod.rs:428-433 (Ledger::get_effect_intent_by_id) *)
Definition get_effect_intent_by_id (l : MemoryLedger) (id : EffectId)
  : result LedgerError (option EffectIntentRecord) :=
  Ok (ml_effect_intents l !! id_as_str id).

(** crates/application/src/memory/mod.rs:245-247 (Ledger::get_lease) *)
Definition get_lease (l : MemoryLedger) (variant : VariantId)
  : result LedgerError (option ActiveLease) :=
  Ok (ml_leases l !! id_as_str variant).

Global Instance MemoryLedger_effects : EffectLedger MemoryLedger := {|
  el_intent := get_effect_intent_by_id;
  el_lease := get_lease;
  el_record_intent := record_effect_intent;
  el_transition := transition_effect;
  el_record_receipt := record_effect_receipt;
  el_enqueue := outbox_enqueue None;
  el_mark := outbox_mark
|}.

(** The effect tables are not touched. *)
Definition keeps_effects : relation MemoryLedger := fun l l' =>
  ml_effect_intents l' = ml_effect_intents l /\ ml_effect_receipts l' = ml_effect_receipts l.

Global Instance keeps_effects_preorder : PreOrder keeps_effects.
Proof. unfold keeps_effects. split; [done|]. intros a b c [? ?] [? ?]. split; congruence. Qed.

Lemma tick_keeps l l' r : tick l = (l', r) -> keeps_effects l l'.
Proof.
  unfold tick. intros Ht. destruct (ml_fail_after_writes l) as [n|]; [case_bool_decide|];
    by simplify_eq.
Qed.

Lemma push_event_keeps kind body a b c l l' r :
  push_event kind body a b c l = (l', r) -> keeps_effects l l'.
Proof. unfold push_event. intros Hp. by destruct (simulation_time l); simplify_eq. Qed.

(** A call that starts with [tick] either stops there or goes on. *)
Lemma after_tick {A} (m : unit -> M A) l l' r :
  (tick ≫= m) l = (l', r) ->
  exists l1, keeps_effects l l1 /\ (m tt l1 = (l', r) \/ l' = l1 /\ forall a, r <> Ok a).
Proof.
  unfold mbind, stateful_bind. destruct (tick l) as [l1 [[]|e|]] eqn:Ht; intros Hm;
    exists l1; (split; [by eapply tick_keeps|]); [by left|right|right]; by simplify_eq.
Qed.

(** A call that ends with an event leaves the tables as they were before it. *)
Lemma then_event {A} kind body a b c (v : A) l l' r :
  (push_event kind body a b c ≫= fun _ => mret v) l = (l', r) ->
  keeps_effects l l' /\ forall u, r = Ok u -> u = v.
Proof.
  unfold mbind, stateful_bind, mret, stateful_ret.
  destruct (push_event kind body a b c l) as [l1 [[]|e|]] eqn:Hp;
    intros Hm; simplify_eq; apply push_event_keeps in Hp; (split; [done|]);
    intros u Hu; by simplify_eq.
Qed.

Lemma memory_transition_law id to l l' r :
  transition_effect id to l = (l', r) ->
  ml_effect_receipts l' = ml_effect_receipts l
  /\ (ml_effect_intents l' = ml_effect_intents l /\ (forall u, r <> Ok u)
      \/ exists row, ml_effect_intents l !! id_as_str id = Some row /\ ef_edge (ei_state row) to
         /\ ml_effect_intents l' = <[id_as_str id := advance row to]> (ml_effect_intents l)
         /\ forall u, r = Ok u -> u = advance row to).
Proof.
  unfold transition_effect. intros Ht. apply after_tick in Ht as (l1 & [Hi Hr] & [Ht|[-> Ht]]);
    [|split; [done|by left]].
  rewrite <-Hi, <-Hr. clear Hi Hr l. unfold mbind at 1, stateful_bind at 1, reading in Ht.
  destruct (ml_effect_intents l1 !! id_as_str id) as [row|] eqn:Hrow; cbn [ok_or] in Ht;
    [|simplify_eq; split; [done|by left]].
  unfold mbind at 1, stateful_bind at 1, pure_step in Ht.
  destruct (EffectState_transition (ei_state row) to) as [next|e|] eqn:He; cbn [map_err] in Ht;
    [|simplify_eq; split; [done|by left]..].
  apply EffectState_transition_target in He as [-> He].
  unfold mbind at 1, stateful_bind at 1, assign in Ht.
  apply then_event in Ht as [[-> ->] Hu]. split; [done|]. right. by exists row.
Qed.

Lemma memory_record_law i l l' r :
  record_effect_intent i l = (l', r) ->
  ml_effect_receipts l' = ml_effect_receipts l
  /\ (ml_effect_intents l' = ml_effect_intents l
      \/ ml_effect_intents l !! id_as_str (ei_id i) = None
         /\ exists row, ml_effect_intents l' = <[id_as_str (ei_id i) := row]> (ml_effect_intents l)
            /\ same_request row i /\ ei_state row = EfProposed /\ ei_unknown_retries row = 0).
Proof.
  unfold record_effect_intent. intros Ht. apply after_tick in Ht as (l1 & [Hi Hr] & [Ht|[-> Ht]]);
    [|split; [done|by left]].
  rewrite <-Hi, <-Hr. clear Hi Hr l. unfold mbind at 1, stateful_bind at 1, pure_step at 1 in Ht.
  destruct (bool_decide_reflect (ei_state i = EfProposed)) as [Hst|]; cbn [negb refuse_if] in Ht;
    [|simplify_eq; split; [done|by left]].
  unfold mbind at 1, stateful_bind at 1, pure_step at 1 in Ht.
  destruct (lift_domain (effect_payload_digest i)) as [h|e|]; [|simplify_eq; split; [done|by left]..].
  unfold mbind at 1, stateful_bind at 1, reading at 1 in Ht.
  destruct (ml_effect_keys l1 !! _) as [known|].
  { unfold mbind at 1, stateful_bind at 1, reading at 1 in Ht.
    destruct (ml_effect_intents l1 !! known); cbn [ok_or] in Ht;
      [destruct (negb _); unfold domain_refusal, pure_step, mret, stateful_ret in Ht|]; simplify_eq; (split; [done|by left]). }
  unfold mbind at 1, stateful_bind at 1, reading at 1 in Ht.
  destruct (ml_effect_intents l1 !! id_as_str (ei_id i)) as [x|] eqn:Hnone.
  { rewrite bool_decide_true in Ht by eauto. cbn [refuse_if] in Ht. simplify_eq. split; [done|by left]. }
  rewrite bool_decide_false in Ht by (intros [? ?]; done). cbn [refuse_if] in Ht.
  do 2 (unfold mbind at 1, stateful_bind at 1, assign at 1 in Ht).
  apply then_event in Ht as [[-> ->] _]. split; [done|]. right. split; [done|].
  exists (normalize_intent i h). done.
Qed.

Lemma memory_receipt_law rc l l' r :
  record_effect_receipt rc l = (l', r) ->
  ml_effect_intents l' = ml_effect_intents l
  /\ (ml_effect_receipts l' = ml_effect_receipts l \/ ml_effect_receipts l' = ml_effect_receipts l ++ [rc])
  /\ (forall u, r = Ok u -> rc ∈ ml_effect_receipts l').
Proof.
  unfold record_effect_receipt. intros Ht. apply after_tick in Ht as (l1 & [Hi Hr] & [Ht|[-> Ht]]);
    [|split_and!; [done|by left|]; intros u ->; by destruct (Ht u)].
  rewrite <-Hi, <-Hr. clear Hi Hr l. unfold mbind at 1, stateful_bind at 1, reading in Ht.
  destruct (List.find _ _) as [x|] eqn:Hf.
  - apply find_some in Hf as [Hin _]. apply list_elem_of_In in Hin.
    case_bool_decide as Hx; unfold domain_refusal, pure_step, mret, stateful_ret in Ht;
      simplify_eq; split_and!; auto;
      intros u Hu; by simplify_eq.
  - unfold mbind at 1, stateful_bind at 1, assign at 1 in Ht.
    apply then_event in Ht as [[-> ->] _]. split_and!; [done|by right|]. intros u _.
    cbn. apply elem_of_app. right. by apply list_elem_of_singleton.
Qed.

Lemma memory_enqueue_law kind payload l l' r :
  outbox_enqueue None kind payload l = (l', r) -> keeps_effects l l'.
Proof.
  unfold outbox_enqueue. intros Ht. unfold mbind at 1, stateful_bind at 1, reading at 1 in Ht.
  apply after_tick in Ht as (l1 & Hk & [Ht|[-> _]]); [|done].
  unfold mbind, stateful_bind, reading, push_outbox, assign, mret, stateful_ret in Ht.
  simplify_eq. by etrans.
Qed.

Lemma memory_mark_law seq phase now l l' r :
  outbox_mark seq phase now l = (l', r) -> keeps_effects l l'.
Proof.
  unfold outbox_mark. intros Ht. apply after_tick in Ht as (l1 & Hk & [Ht|[-> _]]); [|done].
  unfold mbind, stateful_bind, reading, assign in Ht.
  destruct (modify_first _ _ _ _); simplify_eq; by etrans.
Qed.

Global Instance MemoryLedger_effect_laws : EffectLedgerLaws MemoryLedger.
Proof.
  refine {| el_intents := ml_effect_intents; el_receipts := ml_effect_receipts |}.
  - by intros l id o [= <-].
  - intros i l l' r Hr _. by apply memory_record_law in Hr.
  - intros id to l l' r Hr _. by apply memory_transition_law in Hr.
  - intros rc l l' r Hr _. by apply memory_receipt_law in Hr.
  - intros kind payload l l' r Hr _. by apply memory_enqueue_law in Hr.
  - intros seq phase now l l' r Hr _. by apply memory_mark_law in Hr.
Defined.

(** An intent that is left in [EfReceiptPending], as it is when the read-back
    after its push fails, or in [EfDispatching], as it is when the push fails
    in any other way than a loss or a rejection, is refused by both operations
    that could go on with it. *)
Lemma pending_intents_are_stranded {F} `{!ForgeEffects F} `{Blake3} `{Hex} (w : world MemoryLedger F)
    id row ws seq now :
  ml_effect_intents (w_ledger w) !! id_as_str id = Some row ->
  ei_state row = EfReceiptPending \/ ei_state row = EfDispatching ->
  (exists e, dispatch id ws seq now w = (w, Err e) /\ EffectsError_reason_code e = "ILLEGAL_EFFECT_PHASE")
  /\ (exists e, reconcile id ws seq now w = (w, Err e) /\ EffectsError_reason_code e = "ILLEGAL_EFFECT_PHASE").
Proof.
  intros Hrow Hst.
  assert (load id w = (w, Ok row)) as Hload.
  { unfold load, mbind, stateful_bind, ask_ledger, reading, pure_step. cbn. by rewrite Hrow. }
  unfold dispatch, reconcile. unfold mbind, stateful_bind. rewrite Hload.
  by destruct Hst as [-> | ->]; cbn; split; eexists.
Qed.

(** A lost read-back leaves the intent in [EfReceiptPending]. *)
Lemma failed_readback_stays_pending {F} `{!ForgeEffects F} `{Blake3} `{Hex} (w : world MemoryLedger F)
    row ws seq now f1 f2 e :
  push_candidate_ref (push_request row ws) (w_forge w) = (f1, Ok tt) ->
  read_ref (ei_target_identity row) f1 = (f2, Err e) ->
  (exists w', push_and_settle row ws seq now w = (w', Err e)
    /\ exists upd, el_transition (ei_id row) EfReceiptPending (w_ledger w) = (w_ledger w', Ok upd))
  \/ (forall u l, el_transition (ei_id row) EfReceiptPending (w_ledger w) <> (l, Ok u)).
Proof.
  intros Hpush Hread. destruct (el_transition (ei_id row) EfReceiptPending (w_ledger w)) as [l [upd|e'|]] eqn:Ht.
  - left. unfold push_and_settle, mbind, stateful_bind, forge_push. rewrite Hpush.
    unfold on_ledger. cbn [w_ledger w_forge w_trace]. rewrite Ht. cbn [map_err].
    unfold forge_read. cbn [w_ledger w_forge w_trace]. rewrite Hread.
    eexists. split; [done|]. by exists upd.
  - right. by intros u l' [= _].
  - right. by intros u l' [= _].
Qed.

(** A receipt says [VerdictMismatch] of a remote that still holds the expected
    old object id. *)
Lemma mismatch_of_an_unmoved_remote :
  exists row observed, ei_expected_old_oid row = observed /\ observed <> ei_desired_state_hash row
    /\ verdict_of (ei_desired_state_hash row) (Some observed) = VerdictMismatch.
Proof.
  exists (MkEffectIntentRecord (MkId "e") "k" "local-bare" "refs/heads/bullet/candidate/c" "b" "a"
            (MkId "t") 1 "p" "h" None EfOutcomeUnknown 1 "t0"), "a".
  done.
Qed.
End BrokerMemory.
