(* ===== verification/RestartRecovery.v ===== *)
(** * Reconciliation of one effect after a restart

    Models crates/effects/src/recovery.rs: one pass of
    [reconcile_local_bare_restart] over a claim store and a forge. The store
    is the trait of crates/application/src/effect_recovery.rs as the class
    [EffectRecoveryStore]; what the pass relies on of it, as the trait
    documents it, is [EffectRecoveryStoreLaws]; the theorems hold for every
    store that keeps these laws, and the SQL of the SQLite store that implements
    the trait is not modelled. The three functions that call
    each other take fuel and what a call without fuel does ([stop]); two rounds
    are shown to be enough, whatever [stop] is. *)

From S2P Require Import Prelude External Ids States Entities Text Store Effects Forge.
From S2P Require Import Canonical LaunchClaims LaunchGrants Broker Recovery.
From stdpp Require Import options.

Local Open Scope Z_scope.

(** crates/effects/src/recovery.rs:17-30 (RestartReconcileOutcome) *)
Inductive RestartReconcileOutcome : Type :=
| RrNoWork | RrAdopted | RrOrphanedRemote | RrReadbackUnknown | RrQuarantined.

(** crates/effects/src/recovery.rs:32-41 (RestartRecoveryError) *)
Inductive RestartRecoveryError : Type :=
| RreRecovery (error : EffectRecoveryError)
| RreUnsupportedForge (notes : string).

(** crates/effects/src/recovery.rs:44-51 (RestartRecoveryError::reason_code) *)
Definition RestartRecoveryError_reason_code (e : RestartRecoveryError) : string :=
  match e with
  | RreRecovery error => EffectRecoveryError_reason_code error
  | RreUnsupportedForge _ => "RECOVERY_FORGE_UNSUPPORTED"
  end.

(** crates/application/src/effect_recovery.rs:317-361 (EffectRecoveryStore) *)
Class EffectRecoveryStore (S : Type) := {
  claim_effect_recovery : EffectId -> EffectRecoveryAuthority ->
    stateful S EffectRecoveryError (option EffectRecoveryClaim);
  readback_effect_recovery : EffectId -> EffectRecoveryAuthority -> S ->
    result EffectRecoveryError (option EffectRecoveryClaim);
  apply_effect_recovery : EffectRecoveryTransition -> EffectRecoveryAuthority ->
    stateful S EffectRecoveryError EffectRecoveryClaim
}.

(** What the trait documents: the store keeps claims by their identity, hands
    out the claims it keeps, and applies an edge to the claim the request
    names, which counts a retry exactly on entering the reserved state and
    leaves what is asked of the forge alone. *)
Class EffectRecoveryStoreLaws (S : Type) `{!EffectRecoveryStore S} := {
  rs_claims : S -> gmap string EffectRecoveryClaim;
  rs_claim_law id a s s' c :
    claim_effect_recovery id a s = (s', Ok (Some c)) -> rs_claims s' !! rl_claim_id c = Some c;
  rs_readback_law id a s c :
    readback_effect_recovery id a s = Ok (Some c) -> rs_claims s !! rl_claim_id c = Some c;
  rs_apply_law req a s s' c :
    apply_effect_recovery req a s = (s', Ok c) ->
    exists prior, rs_claims s !! rt_claim_id req = Some prior
      /\ rs_claims s' = <[rt_claim_id req := c]> (rs_claims s)
      /\ rl_claim_id c = rt_claim_id req
      /\ rl_disposition c = rt_to req
      /\ same_request (rl_intent c) (rl_intent prior)
      /\ ei_unknown_retries (rl_intent c)
         = ei_unknown_retries (rl_intent prior)
           + (if bool_decide (rt_to req = RdRetryReserved) then 1 else 0)
}.

Section RestartRecovery.
Context `{Blake3} `{Hex} `{Rfc3339}.
Context `{!Json EffectPayload} `{!Json AuthorityToken} `{!Json EffectRecoveryAuthority} `{!Json RecoveryReceiptSubject}.
Context {S F : Type} `{!EffectRecoveryStore S} `{!ForgeEffects F}.

Definition RR : Type -> Type := stateful (world S F) RestartRecoveryError.

(** A call of the store, a refusal of the contract, and the two calls of the
    forge, whose errors are answers. *)
Definition on_store {A} (m : stateful S EffectRecoveryError A) : RR A := fun w =>
  let '(s, r) := m (w_ledger w) in (MkWorld s (w_forge w) (w_trace w), map_err RreRecovery r).
Definition contract {A} (r : result EffectRecoveryError A) : RR A := pure_step (map_err RreRecovery r).
Definition answer {A} (r : result EffectsError A) : result RestartRecoveryError (option A) :=
  match r with Ok a => Ok (Some a) | Err _ => Ok None | Panic => Panic end.
Definition try_read (ref_name : string) : RR (option (option string)) := fun w =>
  let '(f, r) := read_ref ref_name (w_forge w) in
  (MkWorld (w_ledger w) f (w_trace w ++ [FRead ref_name r]), answer r).
Definition try_push (id : EffectId) (request : PushRequest) : RR (option unit) := fun w =>
  let '(f, r) := push_candidate_ref request (w_forge w) in
  (MkWorld (w_ledger w) f (w_trace w ++ [FPush id request]), answer r).

(** crates/effects/src/recovery.rs:207-216 (require_local_bare_forge) *)
Definition require_local_bare_forge : RR unit := reading (fun w =>
  let d := descriptor (w_forge w) in
  refuse_if (negb (bool_decide (fd_provider d = LOCAL_BARE_RECOVERY_PROVIDER))
             || negb (fd_authenticated d) || negb (fd_can_push_candidate_ref d))
    (RreUnsupportedForge (fd_notes d))).

(** crates/effects/src/recovery.rs:327-340 (observation) *)
Definition restart_observation (claim : EffectRecoveryClaim) (observed : option string)
  : EffectRecoveryObservation :=
  MkEffectRecoveryObservation LOCAL_BARE_RECOVERY_PROVIDER (ei_target_identity (rl_intent claim))
    observed RECOVERY_METHOD
    (match observed with
     | Some oid => if bool_decide (oid = ei_desired_state_hash (rl_intent claim))
                   then VerdictMatch else VerdictMismatch
     | None => VerdictAbsent
     end).

(** crates/effects/src/recovery.rs:311-325 (transition) *)
Definition restart_transition (claim : EffectRecoveryClaim) (authority : EffectRecoveryAuthority)
    (disposition : EffectRecoveryDisposition) (observation : option EffectRecoveryObservation)
    (reason : option EffectRecoveryContainmentReason) : RR EffectRecoveryClaim :=
  request ← contract (EffectRecoveryTransition_new claim authority disposition observation reason);
  on_store (apply_effect_recovery request authority).

(** crates/effects/src/recovery.rs:289-309 (settle_quarantine) *)
Definition settle_quarantine (claim : EffectRecoveryClaim) (authority : EffectRecoveryAuthority)
    (observation : option EffectRecoveryObservation) (reason : EffectRecoveryContainmentReason)
  : RR RestartReconcileOutcome :=
  terminal ← restart_transition claim authority RdQuarantined observation (Some reason);
  _ ← contract (EffectRecoveryClaim_validate terminal);
  mret RrQuarantined.

(** crates/effects/src/recovery.rs:270-287 (record_unknown) *)
Definition record_unknown (claim : EffectRecoveryClaim) (authority : EffectRecoveryAuthority)
  : RR RestartReconcileOutcome :=
  _ ← restart_transition claim authority RdReadbackUnknown None None;
  mret RrReadbackUnknown.

(** crates/effects/src/recovery.rs:250-268 (record_unavailable_readback) *)
Definition record_unavailable_readback (claim : EffectRecoveryClaim)
    (authority : EffectRecoveryAuthority) : RR RestartReconcileOutcome :=
  if bool_decide (rl_disposition claim = RdReadbackUnknown)
  then settle_quarantine claim authority None ReadbackUnavailable
  else record_unknown claim authority.

(** crates/effects/src/recovery.rs:218-248 (settle_observed) *)
Definition settle_observed (claim : EffectRecoveryClaim) (authority : EffectRecoveryAuthority)
    (observed : option string) : RR RestartReconcileOutcome :=
  let observation := restart_observation claim observed in
  outcome ← pure_step (match ro_verdict observation with
                       | VerdictMatch => Ok RrAdopted
                       | VerdictMismatch => Ok RrOrphanedRemote
                       | VerdictAbsent => Panic
                       end);
  disposition ← pure_step (match outcome with
                           | RrAdopted => Ok RdAdopted
                           | RrOrphanedRemote => Ok RdOrphaned
                           | _ => Panic
                           end);
  terminal ← restart_transition claim authority disposition (Some observation) None;
  _ ← contract (EffectRecoveryClaim_validate terminal);
  mret outcome.

(** The reservation, read back from the store and checked again. *)
(** crates/effects/src/recovery.rs:165-178 (execute_reserved_retry) *)
Definition current_reservation (authority : EffectRecoveryAuthority) (reserved : EffectRecoveryClaim)
  : RR EffectRecoveryClaim :=
  let absent := restart_observation reserved None in
  _ ← contract (validate_reserved_retry reserved authority absent);
  row ← reading (fun w => map_err RreRecovery
          (readback_effect_recovery (ei_id (rl_intent reserved)) authority (w_ledger w)));
  current ← contract (ok_or row RecUnknownClaim);
  _ ← contract (refuse_if (negb (bool_decide (rl_claim_id current = rl_claim_id reserved))
                 || negb (bool_decide (rl_claim_generation current = rl_claim_generation reserved)))
        (RecClaimConflict "recovery claim changed before reserved retry"));
  _ ← contract (validate_reserved_retry current authority absent);
  mret current.

(** The executor of a reserved retry, given what resolves its read-back. *)
(** crates/effects/src/recovery.rs:154-205 (execute_reserved_retry) *)
Definition execute_reserved_retry
    (resolve_readback : EffectRecoveryClaim -> option string -> RR RestartReconcileOutcome)
    (authority : EffectRecoveryAuthority) (workspace_repo : string) (reserved : EffectRecoveryClaim)
  : RR RestartReconcileOutcome :=
  current ← current_reservation authority reserved;
  _ ← require_local_bare_forge;
  let request := push_request (rl_intent current) workspace_repo in
  pushed ← try_push (ei_id (rl_intent current)) request;
  match pushed with
  | None => record_unknown current authority
  | Some _ =>
      unknown ← restart_transition current authority RdReadbackUnknown None None;
      read ← try_read (push_ref_name request);
      match read with
      | Some observed => resolve_readback unknown observed
      | None => record_unavailable_readback unknown authority
      end
  end.

(** What an absent ref leads to, given the executor of the retry. *)
(** crates/effects/src/recovery.rs:99-152 (resolve_absence) *)
Definition resolve_absence
    (execute : EffectRecoveryClaim -> RR RestartReconcileOutcome)
    (authority : EffectRecoveryAuthority) (claim : EffectRecoveryClaim)
  : RR RestartReconcileOutcome :=
  match rl_disposition claim with
  | RdClaimed =>
      reserved ← restart_transition claim authority RdRetryReserved
                   (Some (restart_observation claim None)) None;
      execute reserved
  | RdRetryReserved => execute claim
  | RdReadbackUnknown =>
      if bool_decide (ei_unknown_retries (rl_intent claim) = 0) then
        reserved ← restart_transition claim authority RdRetryReserved
                     (Some (restart_observation claim None)) None;
        execute reserved
      else
        settle_quarantine claim authority (Some (restart_observation claim None)) RetrySpentAfterAbsence
  | disposition => contract (Err (RecInvalidClaim
      ("active recovery readback has unsupported disposition "
       +:+ EffectRecoveryDisposition_as_str disposition)))
  end.

(** crates/effects/src/recovery.rs:81-97 (resolve_readback) *)
Fixpoint resolve_readback (stop : RR RestartReconcileOutcome) (fuel : nat) (authority : EffectRecoveryAuthority) (workspace_repo : string)
    (claim : EffectRecoveryClaim) (observed : option string) : RR RestartReconcileOutcome :=
  match fuel with
  | O => stop
  | Datatypes.S n =>
      match observed with
      | Some oid => settle_observed claim authority (Some oid)
      | None => resolve_absence
                  (execute_reserved_retry (resolve_readback stop n authority workspace_repo)
                     authority workspace_repo)
                  authority claim
      end
  end.

(** crates/effects/src/recovery.rs:54-79 (reconcile_local_bare_restart) *)
Definition reconcile_local_bare_restart (stop : RR RestartReconcileOutcome) (fuel : nat)
    (intent_id : EffectId) (authority : EffectRecoveryAuthority) (workspace_repo : string) : RR RestartReconcileOutcome :=
  row ← on_store (claim_effect_recovery intent_id authority);
  match row with
  | None => mret RrNoWork
  | Some claim =>
      _ ← contract (validate_readback claim intent_id authority);
      _ ← require_local_bare_forge;
      read ← try_read (ei_target_identity (rl_intent claim));
      match read with
      | Some observed => resolve_readback stop fuel authority workspace_repo claim observed
      | None => record_unavailable_readback claim authority
      end
  end.
End RestartRecovery.

(** ** What a pass asks of the forge *)

(** The calls of the forge that a pass may make for a claim: one read, and
    after a read of absence one push, read back at most once. *)
Inductive pass_events (c : EffectRecoveryClaim) (workspace_repo : string) : list forge_event -> Prop :=
| pe_none : pass_events c workspace_repo []
| pe_read r : pass_events c workspace_repo [FRead (ei_target_identity (rl_intent c)) r]
| pe_push :
    pass_events c workspace_repo
      [FRead (ei_target_identity (rl_intent c)) (Ok None);
       FPush (ei_id (rl_intent c)) (push_request (rl_intent c) workspace_repo)]
| pe_push_read r :
    pass_events c workspace_repo
      [FRead (ei_target_identity (rl_intent c)) (Ok None);
       FPush (ei_id (rl_intent c)) (push_request (rl_intent c) workspace_repo);
       FRead (ei_target_identity (rl_intent c)) r].

(** What the last call showed when the pass reports an outcome. *)
Definition outcome_grounds (i : EffectIntentRecord) (o : RestartReconcileOutcome)
    (t : list forge_event) : Prop :=
  match o with
  | RrNoWork => t = []
  | RrAdopted => last t = Some (FRead (ei_target_identity i) (Ok (Some (ei_desired_state_hash i))))
  | RrOrphanedRemote => exists v, v <> ei_desired_state_hash i
      /\ last t = Some (FRead (ei_target_identity i) (Ok (Some v)))
  | RrReadbackUnknown => (exists e, last t = Some (FRead (ei_target_identity i) (Err e)))
      \/ exists req, last t = Some (FPush (ei_id i) req)
  | RrQuarantined => last t = Some (FRead (ei_target_identity i) (Ok None))
      \/ exists e, last t = Some (FRead (ei_target_identity i) (Err e))
  end.

Section RestartSafety.
Context `{Blake3} `{Hex} `{Rfc3339}.
Context `{!Json EffectPayload} `{!Json AuthorityToken} `{!Json EffectRecoveryAuthority} `{!Json RecoveryReceiptSubject}.
Context {S F : Type} `{!EffectRecoveryStore S} `{!EffectRecoveryStoreLaws S} `{!ForgeEffects F}.
Abbreviation W := (world S F).
Implicit Types (w : W) (c : EffectRecoveryClaim) (T : list forge_event).

(** Like [triple], with a panic held to the same condition as an error. *)
Definition ensures {A} (P : W -> Prop) (m : RR A) (Q : A -> W -> Prop) (I : W -> Prop) : Prop :=
  forall w, P w -> match m w with (t, Ok a) => Q a t | (t, _) => I t end.

Lemma ensures_bind {A B} (P : W -> Prop) (m : RR A) (f : A -> RR B) Q1 Q I :
  ensures P m Q1 I -> (forall a, ensures (Q1 a) (f a) Q I) -> ensures P (m ≫= f) Q I.
Proof using.
  intros Hm Hf w Hw. specialize (Hm w Hw). unfold mbind, stateful_bind.
  destruct (m w) as [t [a|e|]]; [|done|done]. by apply Hf.
Qed.

Lemma ensures_weaken {A} (P P' : W -> Prop) (m : RR A) (Q Q' : A -> W -> Prop) (I I' : W -> Prop) :
  ensures P m Q I -> (forall w, P' w -> P w) -> (forall a w, Q a w -> Q' a w) ->
  (forall w, I w -> I' w) -> ensures P' m Q' I'.
Proof using.
  intros Hm HP HQ HI w Hw. specialize (Hm w (HP w Hw)). destruct (m w) as [t [a|e|]]; auto.
Qed.

Lemma ensures_contract {A} P (r : result EffectRecoveryError A) (I : W -> Prop) :
  (forall w, P w -> I w) -> ensures P (contract r) (fun a w => P w /\ r = Ok a) I.
Proof using. intros HI w Hw. unfold contract, pure_step. destruct r; cbn [map_err]; auto. Qed.

Lemma ensures_ret {A} P (a : A) (Q : A -> W -> Prop) (I : W -> Prop) :
  (forall w, P w -> Q a w) -> ensures P (mret (M:=RR) a) Q I.
Proof using. intros HQ w Hw. simpl. auto. Qed.

Lemma ensures_forge P (I : W -> Prop) :
  (forall w, P w -> I w) -> ensures P require_local_bare_forge (fun _ => P) I.
Proof using.
  intros HI w Hw. unfold require_local_bare_forge, reading. destruct (refuse_if _ _); auto.
Qed.

(** The trace so far, and with it a claim the store keeps. *)
Definition traced T w : Prop := w_trace w = T.
Definition holds c T w : Prop := w_trace w = T /\ rs_claims (w_ledger w) !! rl_claim_id c = Some c.

Lemma restart_transition_ensures c a to o reason T :
  ensures (holds c T) (restart_transition c a to o reason)
    (fun c' w => holds c' T w /\ rl_disposition c' = to
       /\ same_request (rl_intent c') (rl_intent c)
       /\ ei_unknown_retries (rl_intent c')
          = ei_unknown_retries (rl_intent c) + (if bool_decide (to = RdRetryReserved) then 1 else 0))
    (traced T).
Proof using All.
  unfold restart_transition. eapply ensures_bind; [apply ensures_contract; by intros w []|].
  intros req w [[Htr Hc] Hnew]. unfold on_store.
  destruct (apply_effect_recovery req a (w_ledger w)) as [s' [c'|e|]] eqn:E; cbn [map_err]; [|done|done].
  apply rs_apply_law in E as (prior & Hp & Hs & Hid & Hd & Hsame & Hret).
  assert (rt_claim_id req = rl_claim_id c /\ rt_to req = to) as [Hrid Hto].
  { unfold EffectRecoveryTransition_new in Hnew. inv_result. done. }
  rewrite Hrid in Hp, Hs, Hid. rewrite Hto in Hd, Hret. assert (prior = c) as -> by congruence.
  split; [|done]. split; [done|]. cbn [w_ledger]. by rewrite Hs, Hid, lookup_insert_eq.
Qed.

(** The settlements leave the forge alone. *)
Lemma settle_terminal_ensures c a to o reason (out : RestartReconcileOutcome) T :
  ensures (holds c T)
    (terminal ← restart_transition c a to o reason;
     _ ← contract (EffectRecoveryClaim_validate terminal); mret out)
    (fun out' w => traced T w /\ out' = out) (traced T).
Proof using All.
  eapply ensures_bind; [apply restart_transition_ensures|intros c'].
  eapply ensures_bind; [apply ensures_contract; by intros w [[] _]|intros u].
  apply ensures_ret. by intros w [[[] _] _].
Qed.

Lemma settle_quarantine_ensures c a o reason T :
  ensures (holds c T) (settle_quarantine c a o reason)
    (fun out w => traced T w /\ out = RrQuarantined) (traced T).
Proof using All. apply settle_terminal_ensures. Qed.

Lemma record_unknown_ensures c a T :
  ensures (holds c T) (record_unknown c a)
    (fun out w => traced T w /\ out = RrReadbackUnknown) (traced T).
Proof using All.
  unfold record_unknown. eapply ensures_bind; [apply restart_transition_ensures|intros c'].
  apply ensures_ret. by intros w [[] _].
Qed.

Lemma record_unavailable_readback_ensures c a T :
  ensures (holds c T) (record_unavailable_readback c a)
    (fun out w => traced T w /\ (out = RrQuarantined \/ out = RrReadbackUnknown)) (traced T).
Proof using All.
  unfold record_unavailable_readback. case_bool_decide.
  - eapply ensures_weaken; [apply settle_quarantine_ensures|done|intros out w [? ->]; auto|done].
  - eapply ensures_weaken; [apply record_unknown_ensures|done|intros out w [? ->]; auto|done].
Qed.

Lemma settle_observed_ensures c a oid T :
  ensures (holds c T) (settle_observed c a (Some oid))
    (fun out w => traced T w
       /\ out = if bool_decide (oid = ei_desired_state_hash (rl_intent c)) then RrAdopted
                else RrOrphanedRemote)
    (traced T).
Proof using All.
  unfold settle_observed, restart_observation. cbn [ro_verdict].
  destruct (bool_decide _); intros w Hw;
    unfold mbind at 1, stateful_bind at 1; cbn [pure_step];
    unfold mbind at 1, stateful_bind at 1; cbn [pure_step];
    by apply (settle_terminal_ensures c a _ _ _ _ T).
Qed.

(** A read-back of a spent retry is settled without another push, and with the
    outcome that the read shows. *)
Definition spent c : Prop :=
  rl_disposition c = RdReadbackUnknown /\ ei_unknown_retries (rl_intent c) = 1.

Definition read_grounds (i : EffectIntentRecord) (observed : option string)
    (out : RestartReconcileOutcome) : Prop :=
  match observed with
  | Some v => out = (if bool_decide (v = ei_desired_state_hash i) then RrAdopted else RrOrphanedRemote)
  | None => out = RrQuarantined
  end.

Lemma resolve_spent stop n a ws c observed T :
  spent c ->
  ensures (holds c T) (resolve_readback stop (Datatypes.S n) a ws c observed)
    (fun out w => traced T w /\ read_grounds (rl_intent c) observed out) (traced T).
Proof using All.
  intros [Hd Hr]. cbn [resolve_readback]. destruct observed as [oid|]; [apply settle_observed_ensures|].
  unfold resolve_absence. rewrite Hd, bool_decide_eq_false_2 by lia. apply settle_quarantine_ensures.
Qed.

Lemma resolve_spent_fuel stop stop' n a ws c observed w :
  spent c -> resolve_readback stop (Datatypes.S n) a ws c observed w = resolve_readback stop' 1 a ws c observed w.
Proof using.
  intros [Hd Hr]. cbn [resolve_readback]. destruct observed; [done|].
  unfold resolve_absence. by rewrite Hd, Hr.
Qed.

Lemma validate_reserved_retry_Ok c a o u :
  validate_reserved_retry c a o = Ok u ->
  rl_disposition c = RdRetryReserved /\ ei_unknown_retries (rl_intent c) = 1.
Proof using. unfold validate_reserved_retry. intros Hv. by inv_result. Qed.

(** The guards before the push: what is pushed is a claim that the store keeps
    under the identity that was reserved, with its retry counted. *)
Lemma current_reservation_ensures P c a T :
  ensures (fun w => traced T w /\ P w) (current_reservation a c)
    (fun current w => (holds current T w /\ P w)
       /\ rl_claim_id current = rl_claim_id c /\ ei_unknown_retries (rl_intent current) = 1)
    (traced T).
Proof using All.
  unfold current_reservation.
  eapply ensures_bind; [apply ensures_contract; by intros w []|intros u].
  intros w [[Htr HP] _]. unfold mbind, stateful_bind, reading, contract, pure_step.
  destruct (readback_effect_recovery _ a (w_ledger w)) as [[cur|]|e|] eqn:Hb; cbn [map_err ok_or]; try done.
  apply rs_readback_law in Hb.
  destruct (refuse_if _ _) as [u'|e|] eqn:Hg; cbn [map_err]; [|done|done]. inv_result.
  destruct (validate_reserved_retry cur a _) as [v|e|] eqn:Hv; cbn [map_err]; [|done|done].
  by apply validate_reserved_retry_Ok in Hv as [_ Hv].
Qed.

Lemma reserved_guard c a T :
  ensures (holds c T) (current_reservation a c)
    (fun current w => holds c T w /\ current = c /\ ei_unknown_retries (rl_intent c) = 1)
    (traced T).
Proof using All.
  eapply ensures_weaken; [apply (current_reservation_ensures (holds c T))| | |done].
  - intros w Hw. by split; [apply Hw|].
  - intros cur w ([Hcur Hw] & Hid & Hr). split; [done|].
    destruct Hcur as [_ Hcur], Hw as [_ Hc]. rewrite Hid in Hcur. assert (cur = c) as -> by congruence. done.
Qed.

Lemma ensures_given {A} (phi : Prop) P (m : RR A) Q (I : W -> Prop) :
  (phi -> ensures P m Q I) -> ensures (fun w => P w /\ phi) m Q I.
Proof using. intros Hm w [Hw Hphi]. by apply Hm. Qed.

Lemma ensures_exists {A B} (P : B -> W -> Prop) (m : RR A) Q (I : W -> Prop) :
  (forall b, ensures (P b) m Q I) -> ensures (fun w => exists b, P b w) m Q I.
Proof using. intros Hm w [b Hw]. by apply (Hm b). Qed.

Lemma try_push_ensures c id req T :
  ensures (holds c T) (try_push id req)
    (fun _ => holds c (T ++ [FPush id req])) (traced (T ++ [FPush id req])).
Proof using All.
  intros w [Htr Hc]. unfold try_push. destruct (push_candidate_ref req (w_forge w)) as [f [v|e|]];
    cbn [answer]; unfold holds, traced; cbn [w_trace w_ledger]; rewrite Htr; done.
Qed.

Lemma try_read_ensures c ref_name T :
  ensures (holds c T) (try_read ref_name)
    (fun o w => exists r, holds c (T ++ [FRead ref_name r]) w /\ answer r = Ok o)
    (fun w => exists r, traced (T ++ [FRead ref_name r]) w).
Proof using All.
  intros w [Htr Hc]. unfold try_read. destruct (read_ref ref_name (w_forge w)) as [f r].
  destruct (answer r) eqn:Hr; exists r; unfold holds, traced; cbn [w_trace w_ledger]; rewrite Htr; done.
Qed.

(** An answer of the forge, and what its absence means for a claim. *)
Definition read_outcome (i : EffectIntentRecord) (r : result EffectsError (option string))
    (out : RestartReconcileOutcome) : Prop :=
  match r with
  | Ok observed => read_grounds i observed out
  | Err _ => out = RrQuarantined \/ out = RrReadbackUnknown
  | Panic => False
  end.

Definition read_from T c (w : W) : Prop :=
  exists r, traced (T ++ [FRead (ei_target_identity (rl_intent c)) r]) w.

Lemma read_spent stop n a ws c ref_name T :
  spent c -> ref_name = ei_target_identity (rl_intent c) ->
  ensures (holds c T)
    (read ← try_read ref_name;
     match read with
     | Some observed => resolve_readback stop (Datatypes.S n) a ws c observed
     | None => record_unavailable_readback c a
     end)
    (fun out w => exists r, traced (T ++ [FRead ref_name r]) w /\ read_outcome (rl_intent c) r out)
    (read_from T c).
Proof using All.
  intros Hs ->. unfold read_from.
  eapply ensures_bind; [apply try_read_ensures|intros o]. apply ensures_exists; intros r.
  apply ensures_given; intros Hr. destruct r as [observed|e|]; simplify_eq/=.
  - eapply ensures_weaken; [by apply resolve_spent|done|..].
    + intros out w Hw. by exists (Ok observed).
    + intros w Hw. by exists (Ok observed).
  - eapply ensures_weaken; [apply record_unavailable_readback_ensures|done|..].
    + intros out w Hw. by exists (Err e).
    + intros w Hw. by exists (Err e).
Qed.

(** ** One reserved retry *)

Definition push_event c ws : forge_event :=
  FPush (ei_id (rl_intent c)) (push_request (rl_intent c) ws).

Definition retry_outcome T c ws (out : RestartReconcileOutcome) (w : W) : Prop :=
  (traced (T ++ [push_event c ws]) w /\ out = RrReadbackUnknown)
  \/ exists r, traced (T ++ [push_event c ws; FRead (ei_target_identity (rl_intent c)) r]) w
       /\ read_outcome (rl_intent c) r out.

Definition retry_events T c ws (w : W) : Prop :=
  traced T w \/ traced (T ++ [push_event c ws]) w
  \/ exists r, traced (T ++ [push_event c ws; FRead (ei_target_identity (rl_intent c)) r]) w.

Lemma read_outcome_same i j r out : same_request i j -> read_outcome i r out -> read_outcome j r out.
Proof using.
  intros (_ & _ & Hd & _). unfold read_outcome, read_grounds. by rewrite Hd.
Qed.

Lemma execute_reserved_retry_ensures stop n a ws c T :
  ensures (holds c T) (execute_reserved_retry (resolve_readback stop (Datatypes.S n) a ws) a ws c)
    (retry_outcome T c ws) (retry_events T c ws).
Proof using All.
  unfold execute_reserved_retry.
  eapply ensures_bind; [eapply ensures_weaken; [apply reserved_guard|done|done|by left]|intros cur].
  eapply ensures_bind; [apply ensures_forge; intros w [[] _]; by left|intros u].
  apply ensures_given; intros [-> Hr].
  eapply ensures_bind;
    [eapply ensures_weaken; [apply try_push_ensures|done|done|intros w Hw; right; left; exact Hw]|intros [v|]].
  - eapply ensures_bind;
      [eapply ensures_weaken; [apply restart_transition_ensures|done|done|intros w Hw; right; left; exact Hw]|intros c'].
    apply ensures_given; intros (Hd & Hsame & Hr'). rewrite bool_decide_eq_false_2, Hr in Hr' by done.
    pose proof Hsame as (_ & Htgt & _ & _).
    eapply ensures_weaken; [apply (read_spent stop n a ws c')|done|..].
    + split; [done|lia].
    + cbn [push_ref_name push_request]. congruence.
    + intros out w (r & Hw & Ho). right. exists r. rewrite <-app_assoc in Hw. cbn in Hw.
      split; [exact Hw|]. by eapply read_outcome_same.
    + intros w (r & Hw). right; right. exists r. rewrite <-app_assoc in Hw. cbn in Hw. by rewrite <-Htgt.
  - eapply ensures_weaken; [apply record_unknown_ensures|done| |intros w Hw; right; left; exact Hw].
    intros out w Hw. by left.
Qed.

(** ** The whole pass *)

Definition passed T c ws (w : W) : Prop := exists t, w_trace w = T ++ t /\ pass_events c ws t.
Definition passed_with T c ws (out : RestartReconcileOutcome) (w : W) : Prop :=
  exists t, w_trace w = T ++ t /\ pass_events c ws t /\ outcome_grounds (rl_intent c) out t.

Lemma read_outcome_grounds i r out t :
  read_outcome i r out -> last t = Some (FRead (ei_target_identity i) r) -> outcome_grounds i out t.
Proof using.
  intros Hr Ht. destruct r as [[v|]|e|]; cbn in Hr; [|by subst; left| |done].
  - revert Hr. case_bool_decide; intros ->; cbn; [by subst|]. by exists v.
  - destruct Hr as [-> | ->]; [right|left]; by exists e.
Qed.

Lemma execute_passed stop n a ws c c' T :
  same_request (rl_intent c') (rl_intent c) ->
  ensures (holds c' (T ++ [FRead (ei_target_identity (rl_intent c)) (Ok None)]))
    (execute_reserved_retry (resolve_readback stop (Datatypes.S n) a ws) a ws c')
    (passed_with T c ws) (passed T c ws).
Proof using All.
  intros Hsame.
  assert (push_event c' ws = push_event c ws
    /\ ei_target_identity (rl_intent c') = ei_target_identity (rl_intent c)) as [Hp Ht].
  { destruct Hsame as (Hid & Htgt & Hdes & Hold). unfold push_event, push_request.
    by rewrite Hid, Htgt, Hdes, Hold. }
  eapply ensures_weaken; [apply execute_reserved_retry_ensures|done|..].
  all: unfold retry_outcome, retry_events, traced; setoid_rewrite <-app_assoc; rewrite Hp, Ht.
  - intros out w [[Hw ->]|(r & Hw & Ho)]; (eexists; split; [exact Hw|split; [constructor|]]).
    + right. by eexists.
    + eapply read_outcome_grounds; [by eapply read_outcome_same|done].
  - intros w [Hw|[Hw|(r & Hw)]]; (eexists; split; [exact Hw|constructor]).
Qed.

Lemma resolve_readback_ensures stop n a ws c T observed :
  ensures (holds c (T ++ [FRead (ei_target_identity (rl_intent c)) (Ok observed)]))
    (resolve_readback stop (Datatypes.S (Datatypes.S n)) a ws c observed)
    (passed_with T c ws) (passed T c ws).
Proof using All.
  change (resolve_readback stop (Datatypes.S (Datatypes.S n)) a ws c observed) with
    (match observed with
     | Some oid => settle_observed c a (Some oid)
     | None => resolve_absence
         (execute_reserved_retry (resolve_readback stop (Datatypes.S n) a ws) a ws) a c
     end).
  set (ev := FRead _ _).
  assert (forall w, traced (T ++ [ev]) w -> passed T c ws w) as Hquiet.
  { intros w Hw. eexists. split; [exact Hw|constructor]. }
  destruct observed as [oid|].
  { eapply ensures_weaken; [apply settle_observed_ensures|done| |exact Hquiet].
    intros out w [Hw ->]. exists [ev]. split_and!; [done|constructor|].
    eapply (read_outcome_grounds _ (Ok (Some oid))); done. }
  assert (forall o reason, ensures (holds c (T ++ [ev]))
    (reserved ← restart_transition c a RdRetryReserved o reason;
     execute_reserved_retry (resolve_readback stop (Datatypes.S n) a ws) a ws reserved)
    (passed_with T c ws) (passed T c ws)) as Hreserve.
  { intros o reason.
    eapply ensures_bind; [eapply ensures_weaken; [apply restart_transition_ensures|done|done|exact Hquiet]|].
    intros c'. apply ensures_given; intros (_ & Hsame & _). by apply execute_passed. }
  unfold resolve_absence. destruct (rl_disposition c); try apply Hreserve.
  all: try (intros w [Hw _]; by apply Hquiet).
  - by apply execute_passed.
  - case_bool_decide; [apply Hreserve|].
    eapply ensures_weaken; [apply settle_quarantine_ensures|done| |exact Hquiet].
    intros out w [Hw ->]. exists [ev]. split_and!; [done|constructor|by left].
Qed.

Lemma reconcile_ensures stop n id a ws s c w :
  claim_effect_recovery id a (w_ledger w) = (s, Ok (Some c)) ->
  ensures (holds c (w_trace w))
    (_ ← contract (validate_readback c id a);
     _ ← require_local_bare_forge;
     read ← try_read (ei_target_identity (rl_intent c));
     match read with
     | Some observed => resolve_readback stop (Datatypes.S (Datatypes.S n)) a ws c observed
     | None => record_unavailable_readback c a
     end)
    (fun out w' => passed_with (w_trace w) c ws out w' /\ validate_readback c id a = Ok tt)
    (passed (w_trace w) c ws).
Proof using All.
  intros Hclaim.
  assert (forall w', traced (w_trace w) w' -> passed (w_trace w) c ws w') as Hquiet.
  { intros w' Hw. exists []. rewrite app_nil_r. by split; [|constructor]. }
  eapply ensures_bind; [apply ensures_contract; intros w' []; by apply Hquiet|intros []].
  apply ensures_given; intros Hv.
  eapply ensures_bind; [apply ensures_forge; intros w' []; by apply Hquiet|intros u].
  eapply ensures_bind; [eapply ensures_weaken; [apply try_read_ensures|done|done|]|].
  { intros w' [r Hr]. eexists. split; [exact Hr|constructor]. }
  intros o. apply ensures_exists; intros r. apply ensures_given; intros Hr.
  destruct r as [observed|e|]; simplify_eq/=.
  - eapply ensures_weaken; [apply resolve_readback_ensures|done|done|done].
  - eapply ensures_weaken; [apply record_unavailable_readback_ensures|done|..].
    + intros out w' [Hw Ho]. split; [|done]. eexists. split_and!; [exact Hw|constructor|].
      by eapply (read_outcome_grounds _ (Err e)).
    + intros w' Hw. eexists. split; [exact Hw|constructor].
Qed.

(** C15: One restart pass asks the forge for almost nothing, whatever the forge
    answers and also when a call fails, over every store that keeps the
    contract which its trait documents ([EffectRecoveryStoreLaws]: a claim that
    is handed out or read back is the one kept under its identity; an applied
    edge replaces exactly the claim it names, enters the requested disposition,
    leaves the request to the forge alone and counts a retry exactly on
    entering the reserved state). A store that broke this contract could make
    it push again; the SQL statements of the SQLite store, which implement the
    contract, are outside the model. Without a claim the pass makes no call. With one it reads the candidate ref once; only when that read proves
    the ref absent does it push, once, the create-only request of the claimed
    intent, and reads that back at most once. What it reports is what the last
    call showed: adoption the desired object id, an orphan another one,
    quarantine an absent or unreadable ref, and an unknown read-back an
    unreadable ref or a push without an answer. *)
Theorem restart_pass_contained stop n id a ws w w' r :
  reconcile_local_bare_restart stop (2 + n) id a ws w = (w', r) ->
  exists t, w_trace w' = w_trace w ++ t
  /\ ((t = [] /\ forall o, r = Ok o -> o = RrNoWork)
      \/ exists s c, claim_effect_recovery id a (w_ledger w) = (s, Ok (Some c))
         /\ pass_events c ws t
         /\ forall o, r = Ok o -> outcome_grounds (rl_intent c) o t
              /\ ei_id (rl_intent c) = id /\ ei_expected_old_oid (rl_intent c) = ZERO_OID).
Proof using All.
  unfold reconcile_local_bare_restart, mbind at 1, stateful_bind at 1, on_store.
  destruct (claim_effect_recovery id a (w_ledger w)) as [s [[c|]|e|]] eqn:Hclaim; cbn [map_err].
  2-4: intros [= <- <-]; exists []; rewrite app_nil_r; split; [done|left; naive_solver].
  intros Hrun.
  pose proof (reconcile_ensures stop n id a ws s c w Hclaim (MkWorld s (w_forge w) (w_trace w))) as Hspec.
  unfold holds in Hspec. cbn [w_trace w_ledger] in Hspec.
  specialize (Hspec (conj eq_refl (rs_claim_law _ _ _ _ _ Hclaim))).
  change (Datatypes.S (Datatypes.S n)) with (2 + n)%nat in Hspec. rewrite Hrun in Hspec.
  destruct r as [out|e|].
  - destruct Hspec as [(t & Ht & Hev & Hout) Hv]. exists t. split; [done|]. right. exists s, c.
    split_and!; [done|done|]. intros o [= <-]. split; [done|].
    apply validate_readback_Ok in Hv as (Hc & Hid & _). split; [done|].
    apply EffectRecoveryClaim_validate_Ok in Hc as (Hs & _). by apply validate_recovery_scope_Ok in Hs as (_ & ? & _).
  - destruct Hspec as (t & Ht & Hev). exists t. split; [done|]. right. by exists s, c.
  - destruct Hspec as (t & Ht & Hev). exists t. split; [done|]. right. by exists s, c.
Qed.

(** ** Two rounds are enough *)

Lemma bind_ext {A B} (P : W -> Prop) (m : RR A) (f g : A -> RR B) Q I w :
  ensures P m Q I -> P w -> (forall a w, Q a w -> f a w = g a w) -> (m ≫= f) w = (m ≫= g) w.
Proof using.
  intros Hm Hw Hfg. specialize (Hm w Hw). unfold mbind, stateful_bind.
  destruct (m w) as [t [a|e|]]; [by apply Hfg|done|done].
Qed.

Lemma execute_reserved_retry_fuel stop stop' n a ws c w :
  execute_reserved_retry (resolve_readback stop (Datatypes.S n) a ws) a ws c w
  = execute_reserved_retry (resolve_readback stop' 1 a ws) a ws c w.
Proof using All.
  unfold execute_reserved_retry.
  eapply bind_ext; [apply (current_reservation_ensures (fun _ => True) c a (w_trace w))|done|].
  intros cur w1 ([Hcur _] & _ & Hr).
  eapply bind_ext; [apply (ensures_forge (holds cur (w_trace w)) (fun _ => True)); done|done|intros u w2 Hw2].
  eapply bind_ext; [apply try_push_ensures|exact Hw2|intros [v|] w3 Hw3; [|done]].
  eapply bind_ext; [apply restart_transition_ensures|exact Hw3|intros c' w4 (Hw4 & Hd & _ & Hr')].
  rewrite bool_decide_eq_false_2, Hr in Hr' by done.
  eapply bind_ext; [apply try_read_ensures|exact Hw4|intros [o|] w5 _; [|done]].
  apply resolve_spent_fuel. split; [done|lia].
Qed.

Lemma resolve_absence_ext e1 e2 a c w :
  (forall c w, e1 c w = e2 c w) -> resolve_absence e1 a c w = resolve_absence (F:=F) e2 a c w.
Proof using.
  intros He. unfold resolve_absence, mbind, stateful_bind.
  destruct (rl_disposition c); try done; try case_bool_decide; try done;
    destruct (restart_transition _ _ _ _ _ w) as [t []]; done.
Qed.

(** C32: A restart pass terminates: its three mutually recursive functions call
    each other for at most two rounds, so that with fuel for two or more the
    outcome does not depend on what a call without fuel would do. A push is
    followed by the read-back of a claim whose only retry is spent, and such a
    read-back is settled without another push. *)
Theorem restart_pass_terminates stop stop' n id a ws w :
  reconcile_local_bare_restart stop (2 + n) id a ws w = reconcile_local_bare_restart stop' 2 id a ws w.
Proof using All.
  unfold reconcile_local_bare_restart, mbind, stateful_bind.
  destruct (on_store _ w) as [w1 [[c|]|e|]]; [|done..].
  destruct (contract _ w1) as [w2 [u|e|]]; [|done..].
  destruct (require_local_bare_forge w2) as [w3 [u'|e|]]; [|done..].
  destruct (try_read _ w3) as [w4 [[[oid|]|]|e|]]; [done| |done..].
  apply (resolve_absence_ext (execute_reserved_retry (resolve_readback stop (Datatypes.S n) a ws) a ws)).
  intros. apply execute_reserved_retry_fuel.
Qed.
End RestartSafety.
