(* ===== verification/LaunchIssuer.v ===== *)
(** * The launch-grant issuer and the durable nonce adapter

    Models crates/application/src/launch_grant/issuer.rs and the adapter of
    launch_grant/nonce.rs over the in-process ledger: every lease claim of a
    grant is read from the durable lease, and its nonce is recorded before
    the grant is signed. *)

From S2P Require Import Prelude External Ids States Entities Text Framing Store Records.
From S2P Require Import Submissions Commands NonceLedger RunCoding Effects GraphDelta Authority.
From S2P Require Import Context Memory MemoryLeases MemoryCommands MemoryEffects MemoryGraphs.
From S2P Require Import HarnessErrors Canonical LaunchClaims LaunchGrants.
From stdpp Require Import options.

Local Open Scope Z_scope.

Definition BUDGET_RESERVATION_DOMAIN : string := "launch-grant.budget-reservation.v1alpha1".

(** crates/application/src/launch_grant/issuer.rs:27-66 (LaunchGrantRequest) *)
Record LaunchGrantRequest : Type := MkLaunchGrantRequest {
  lr_attempt_id : AttemptId;
  lr_provider : string;
  lr_adapter : string;
  lr_provider_profile_id : string;
  lr_model : string;
  lr_credential_generation : Z;
  lr_protocol : string;
  lr_executable_path : string;
  lr_executable_digest : string;
  lr_descriptor_digest : string;
  lr_capability_digest : string;
  lr_sandbox_manifest_digest : string;
  lr_environment_digest : string;
  lr_gate_ids : list string;
  lr_max_invocations : Z;
  lr_max_wall_clock_ms : Z;
  lr_max_cost_micro_usd : Z;
  lr_ttl_ms : Z
}.

(** crates/application/src/launch_grant/issuer.rs:68-83 (LaunchGrantIssueError) *)
Inductive LaunchGrantIssueError : Type :=
| IssueLedger (e : LedgerError)
| IssueHarness (e : HarnessError)
| IssueRefused (reason : string).

(** crates/application/src/launch_grant/issuer.rs:86-94 (LaunchGrantIssueError::reason_code) *)
Definition LaunchGrantIssueError_reason_code (e : LaunchGrantIssueError) : string :=
  match e with
  | IssueLedger e => LedgerError_reason_code e
  | IssueHarness e => HarnessError_reason_code e
  | IssueRefused _ => "LAUNCH_GRANT_REFUSED"
  end.

Definition refuse {A} (reason : string) : result LaunchGrantIssueError A := Err (IssueRefused reason).

(** crates/application/src/launch_grant/issuer.rs:112-119 (DurableLeaseBinding) *)
Record DurableLeaseBinding : Type := MkDurableLeaseBinding {
  dl_binding : LeaseBinding;
  dl_lease_expires_at_unix_ms : Z
}.

(** crates/application/src/launch_grant/issuer.rs:286-294 (BudgetReservationSubject) *)
Record BudgetReservationSubject : Type := MkBudgetReservationSubject {
  br_grant_id : string;
  br_attempt_id : string;
  br_attempt_fence : Z;
  br_max_invocations : Z;
  br_max_wall_clock_ms : Z;
  br_max_cost_micro_usd : Z
}.

(** crates/application/src/launch_grant/issuer.rs:296-314 (validate_request) *)
Definition validate_launch_request (r : LaunchGrantRequest) : result LaunchGrantIssueError unit :=
  _ ← refuse_if (bool_decide (lr_ttl_ms r = 0)
                 || bool_decide (MAX_LAUNCH_GRANT_TTL_MS < lr_ttl_ms r))
        (IssueRefused "ttl_ms must be within 1..=15000");
  for_each (fun '(name, value) => refuse_if (negb (is_hex_64 value))
      (IssueRefused (name +:+ " must be 64 lowercase hex characters")))
    [("executable_digest", lr_executable_digest r);
     ("descriptor_digest", lr_descriptor_digest r);
     ("capability_digest", lr_capability_digest r);
     ("sandbox_manifest_digest", lr_sandbox_manifest_digest r);
     ("environment_digest", lr_environment_digest r)].

(** An instant is counted in nanoseconds. *)
(** crates/application/src/launch_grant/issuer.rs:327-334 (datetime_unix_ms) *)
Definition datetime_unix_ms (instant : Z) : result LaunchGrantIssueError Z :=
  ok_or (to_u64 (instant / 1000000)) (IssueRefused "instant precedes the epoch").

Section Issuer.
Context `{LedgerExt} `{GrantExt} `{Canon BudgetReservationSubject}.

(** crates/application/src/launch_grant/issuer.rs:316-325 (rfc3339_unix_ms) *)
Definition rfc3339_unix_ms (value : string) : result LaunchGrantIssueError Z :=
  instant ← ok_or (parse_rfc3339 value) (IssueRefused "active lease expiry is not RFC 3339");
  ok_or (to_u64 (instant / 1000000)) (IssueRefused "instant precedes the epoch").

(** The first durable graph, in the order of the missions, with the variant. *)
Definition graph_of_variant (l : MemoryLedger) (variant : VariantId) : option StoredGraph :=
  List.find (fun graph => existsb (fun v => bool_decide (Variant_id v = variant))
                            (StoredGraph_variants graph))
    (omap (fun mission => get_graph l (Mission_id mission)) (list_missions l)).

(** crates/application/src/launch_grant/issuer.rs:121-176 (durable_lease_binding) *)
Definition durable_lease_binding (attempt_id : AttemptId) (l : MemoryLedger)
  : result LaunchGrantIssueError DurableLeaseBinding :=
  attempt ← ok_or (ml_attempts l !! id_as_str attempt_id) (IssueRefused "attempt is not durable");
  lease ← ok_or (ml_leases l !! id_as_str (Attempt_variant_id attempt))
            (IssueRefused "attempt variant has no active lease");
  _ ← refuse_if (negb (bool_decide (ActiveLease_attempt_id lease = Attempt_id attempt))
                 || negb (bool_decide (ActiveLease_fence lease = Attempt_fence attempt)))
        (IssueRefused "active lease is held by another attempt incarnation (stale fence)");
  _ ← map_err IssueLedger (check_active_lease (ActiveLeaseSubject_from_attempt attempt) l);
  graph ← ok_or (graph_of_variant l (Attempt_variant_id attempt))
            (IssueRefused "attempt variant is not in any durable graph");
  expires ← rfc3339_unix_ms (ActiveLease_expires_at lease);
  let authority := current_authority l in
  nonce_digest ← map_err IssueHarness (workspace_nonce_digest (Attempt_workspace_nonce attempt));
  mret (MkDurableLeaseBinding
    (MkLeaseBinding
       (id_as_str (Mission_id (StoredGraph_mission graph)))
       (id_as_str (Mission_repository_id (StoredGraph_mission graph)))
       ("grf_" +:+ to_hex (graph_digest graph))
       (id_as_str (Attempt_work_package_id attempt))
       (id_as_str (Attempt_variant_id attempt))
       (id_as_str (Attempt_id attempt))
       (Attempt_fence attempt)
       (id_as_str (Attempt_runner_id attempt))
       (Attempt_runner_epoch attempt)
       (id_as_str (Attempt_workspace_id attempt))
       nonce_digest
       (na_authority_epoch authority)
       (na_freeze_generation authority))
    expires).

(** The claims that a mint binds: the lease half from the ledger, the rest
    from the request. *)
(** crates/application/src/launch_grant/issuer.rs:224-267 (LedgerLaunchGrantIssuer::mint, claims) *)
Definition minted_claims (key : LaunchGrantSigningKey) (policy : PolicyBinding)
  (request : LaunchGrantRequest) (lease : LeaseBinding)
  (grant_id grant_nonce budget_reservation_id : string) (now_unix_ms expires_at_unix_ms : Z)
  : LaunchGrantClaims := {|
  lg_schema_version := LAUNCH_GRANT_SCHEMA_VERSION;
  lg_grant_id := grant_id;
  lg_audience := LAUNCH_GRANT_AUDIENCE;
  lg_operation := LAUNCH_GRANT_OPERATION;
  lg_issuer := sk_issuer key;
  lg_key_id := sk_key_id key;
  lg_issued_at_unix_ms := now_unix_ms;
  lg_not_before_unix_ms := now_unix_ms;
  lg_expires_at_unix_ms := expires_at_unix_ms;
  lg_grant_nonce := grant_nonce;
  lg_mission_id := lb_mission_id lease;
  lg_repository_id := lb_repository_id lease;
  lg_graph_revision_id := lb_graph_revision_id lease;
  lg_work_package_id := lb_work_package_id lease;
  lg_variant_id := lb_variant_id lease;
  lg_attempt_id := lb_attempt_id lease;
  lg_attempt_fence := lb_attempt_fence lease;
  lg_runner_id := lb_runner_id lease;
  lg_runner_epoch := lb_runner_epoch lease;
  lg_workspace_id := lb_workspace_id lease;
  lg_workspace_nonce_digest := lb_workspace_nonce_digest lease;
  lg_authority_epoch := lb_authority_epoch lease;
  lg_freeze_generation := lb_freeze_generation lease;
  lg_provider := lr_provider request;
  lg_adapter := lr_adapter request;
  lg_provider_profile_id := lr_provider_profile_id request;
  lg_model := lr_model request;
  lg_credential_generation := lr_credential_generation request;
  lg_protocol := lr_protocol request;
  lg_executable_path := lr_executable_path request;
  lg_executable_digest := lr_executable_digest request;
  lg_descriptor_digest := lr_descriptor_digest request;
  lg_capability_digest := lr_capability_digest request;
  lg_policy_snapshot_digest := pob_policy_snapshot_digest policy;
  lg_policy_generation := pob_policy_generation policy;
  lg_sandbox_manifest_digest := lr_sandbox_manifest_digest request;
  lg_environment_digest := lr_environment_digest request;
  lg_gate_ids := lr_gate_ids request;
  lg_budget_reservation_id := budget_reservation_id;
  lg_max_invocations := lr_max_invocations request;
  lg_max_wall_clock_ms := lr_max_wall_clock_ms request;
  lg_max_cost_micro_usd := lr_max_cost_micro_usd request
|}.

(** What a mint decides before it writes: the claims and the nonce record.
    [LeaseService::rfc3339] writes the instant to the millisecond; every
    [DateTime<Utc>] can be written. *)
(** crates/application/src/launch_grant/issuer.rs:203-268 (LedgerLaunchGrantIssuer::mint, checks) *)
Definition prepare_mint (key : LaunchGrantSigningKey) (policy : PolicyBinding)
  (request : LaunchGrantRequest) (now : Z) (draw1 draw2 : result string array32)
  (l : MemoryLedger)
  : result LaunchGrantIssueError (LaunchGrantClaims * LaunchGrantNonceRecord) :=
  _ ← validate_launch_request request;
  now_unix_ms ← datetime_unix_ms now;
  durable ← durable_lease_binding (lr_attempt_id request) l;
  requested_expiry ← ok_or (to_u64 (now_unix_ms + lr_ttl_ms request))
                       (IssueRefused "grant expiry overflows");
  let expires_at_unix_ms := Z.min requested_expiry (dl_lease_expires_at_unix_ms durable) in
  _ ← refuse_if (bool_decide (expires_at_unix_ms <= now_unix_ms))
        (IssueRefused "active lease expires before the grant window would open");
  grant_id ← map_err IssueHarness (random_hex_64 draw1);
  grant_nonce ← map_err IssueHarness (random_hex_64 draw2);
  let lease := dl_binding durable in
  budget ← map_err IssueHarness (hash_canonical BUDGET_RESERVATION_DOMAIN
    (MkBudgetReservationSubject grant_id (lb_attempt_id lease) (lb_attempt_fence lease)
       (lr_max_invocations request) (lr_max_wall_clock_ms request)
       (lr_max_cost_micro_usd request)));
  let claims := minted_claims key policy request lease grant_id grant_nonce budget
                  now_unix_ms expires_at_unix_ms in
  _ ← map_err IssueHarness (validate_shape claims);
  issued_at ← expect (format_millis (now / 1000000));
  mret (claims, MkLaunchGrantNonceRecord grant_nonce grant_id (lr_attempt_id request)
          (lb_attempt_fence lease) expires_at_unix_ms issued_at).

(** crates/application/src/launch_grant/issuer.rs:197-283 (LedgerLaunchGrantIssuer::mint) *)
Definition mint (key : LaunchGrantSigningKey) (policy : PolicyBinding)
  (request : LaunchGrantRequest) (now : Z) (draw1 draw2 : result string array32)
  : stateful MemoryLedger LaunchGrantIssueError SignedLaunchGrant :=
  prepared ← reading (prepare_mint key policy request now draw1 draw2);
  _ ← st_map_err IssueLedger (record_launch_grant_nonce prepared.2);
  pure_step (map_err IssueHarness (sign_grant key prepared.1)).

(** crates/application/src/launch_grant/nonce.rs:97-113 (StoreNonceLedger::consume_nonce) *)
Definition store_consume_nonce (nonce attempt_id : string) (now_unix_ms : Z)
  : stateful MemoryLedger HarnessError NonceConsumption :=
  attempt_id ← pure_step (map_err
    (fun e => HeIo "launch grant nonce attempt id" (DomainError_display e))
    (id_parse (p:="atm") attempt_id));
  st_map_err (fun e => HeIo "launch grant nonce store" (LedgerError_display e))
    (consume_launch_grant_nonce nonce attempt_id).

Global Instance store_nonce_ledger : LaunchGrantNonceLedger MemoryLedger := store_consume_nonce.
End Issuer.
