(* ===== verification/MutationPermits.v ===== *)
(** * Mutation permits and their one-use reservations

    Models crates/harness-core/src/admission/mutation_permit.rs (the signed
    permit), crates/application/src/mutation_reservation.rs (the reservation
    rows behind a lease gate) and mutation_permit/mod.rs (minting and first
    use). *)

From S2P Require Import Prelude External Ids States Entities Text Framing Store Records Authority.
From S2P Require Import HarnessErrors Canonical LaunchClaims LaunchGrants LaunchIssuer.
From stdpp Require Import options.

Local Open Scope Z_scope.

Definition MUTATION_PERMIT_SCHEMA_VERSION : string := "v1alpha1".
Definition MUTATION_PERMIT_KEY_PURPOSE : string := "mutation-permit-signing".
Definition MUTATION_PERMIT_IMPLICIT_ASSERTION : bytes := "bullet-farm.mutation-permit.v1alpha1".
Definition MAX_MUTATION_PERMIT_TTL_MS : Z := 1000.

(** ** Claims *)

(** generated/schema_bundle.rs:20-26 (AuthorityAudienceV1) *)
Inductive AuthorityAudience : Type := BulletGitd | EffectBroker | ProviderRunner.

(** generated/schema_bundle.rs:28-40 (MutationOperationV1) *)
Inductive MutationOperation : Type :=
| CloneWorkspace | ReadWorkspace | ApplyPatch | Checkpoint | PrepareCandidate
| PreserveWorkspace | CleanupWorkspace | DispatchEffect | ReconcileEffect.

Global Instance AuthorityAudience_eq_dec : EqDecision AuthorityAudience.
Proof. solve_decision. Defined.
Global Instance MutationOperation_eq_dec : EqDecision MutationOperation.
Proof. solve_decision. Defined.

(** The derived kebab-case labels. *)
Definition MutationOperation_label (o : MutationOperation) : string :=
  match o with
  | CloneWorkspace => "clone-workspace"
  | ReadWorkspace => "read-workspace"
  | ApplyPatch => "apply-patch"
  | Checkpoint => "checkpoint"
  | PrepareCandidate => "prepare-candidate"
  | PreserveWorkspace => "preserve-workspace"
  | CleanupWorkspace => "cleanup-workspace"
  | DispatchEffect => "dispatch-effect"
  | ReconcileEffect => "reconcile-effect"
  end.

Definition all_mutation_operations : list MutationOperation :=
  [CloneWorkspace; ReadWorkspace; ApplyPatch; Checkpoint; PrepareCandidate; PreserveWorkspace;
   CleanupWorkspace; DispatchEffect; ReconcileEffect].

Definition permit_refused {A} (code reason : string) : result HarnessError A :=
  Err (HeMutationPermitRefused code reason).

Definition refuse_permit_if (b : bool) (code reason : string) : result HarnessError unit :=
  refuse_if b (HeMutationPermitRefused code reason).

(** `map_err(|error| refused(code, error.to_string()))`. *)
Definition permit_err {A} (code : string) (r : result HarnessError A) : result HarnessError A :=
  map_err (fun e => HeMutationPermitRefused code (HarnessError_display e)) r.

(** crates/harness-core/src/admission/mutation_permit.rs:34-46 (parse_mutation_operation) *)
Definition parse_mutation_operation (label : string) : result HarnessError MutationOperation :=
  ok_or (List.find (fun o => bool_decide (MutationOperation_label o = label))
           all_mutation_operations)
    (HeMutationPermitRefused "INVALID_MUTATION_PERMIT"
       "mutation operation is not a frozen contract label").

(** crates/harness-core/src/admission/mutation_permit.rs:48-63 (mutation_operation_audience) *)
Definition mutation_operation_audience (o : MutationOperation) : AuthorityAudience :=
  match o with
  | DispatchEffect | ReconcileEffect => EffectBroker
  | _ => BulletGitd
  end.

(** generated/schema_bundle.rs:1040-1063 (MutationPermitClaimsV1) *)
Record MutationPermitClaims : Type := MkMutationPermitClaims {
  mp_schema_version : string;
  mp_issuer : string;
  mp_audience : AuthorityAudience;
  mp_operation : MutationOperation;
  mp_authority_envelope_digest : string;
  mp_authority_token_nonce : string;
  mp_mutation_id : string;
  mp_reservation_id : string;
  mp_request_digest : string;
  mp_repository_id : string;
  mp_workspace_id : string;
  mp_workspace_generation : Z;
  mp_attempt_id : string;
  mp_attempt_fence : Z;
  mp_authority_epoch : Z;
  mp_freeze_generation : Z;
  mp_issued_at_unix_ms : Z;
  mp_not_before_unix_ms : Z;
  mp_expires_at_unix_ms : Z;
  mp_permit_nonce : string
}.

(** generated/schema_bundle.rs:1628-1635 (SignedMutationPermitV1) *)
Record SignedMutationPermit : Type := MkSignedMutationPermit {
  sp_schema_version : string;
  sp_issuer : string;
  sp_key_id : string;
  sp_paseto : string
}.

(** crates/harness-core/src/admission/mutation_permit.rs:65-150 (validate_claims) *)
Definition validate_permit_claims (c : MutationPermitClaims) : result HarnessError unit :=
  _ ← refuse_permit_if (negb (bool_decide (mp_schema_version c = MUTATION_PERMIT_SCHEMA_VERSION)))
        "UNSUPPORTED_MUTATION_PERMIT_SCHEMA" "mutation permit claims require schema v1alpha1";
  _ ← refuse_permit_if
        (negb (bool_decide (mp_audience c = mutation_operation_audience (mp_operation c))))
        "INVALID_MUTATION_PERMIT_AUDIENCE"
        "mutation permit operation is not valid for the selected gateway audience";
  _ ← permit_err "INVALID_MUTATION_PERMIT" (validate_label "issuer" (mp_issuer c));
  _ ← for_each (fun '(name, prefix, value) => refuse_permit_if (negb (prefixed_hex prefix value))
        "INVALID_MUTATION_PERMIT" (name +:+ " must be a frozen typed id"))
      [("mutation_id", "mut_", mp_mutation_id c); ("reservation_id", "rsv_", mp_reservation_id c)];
  _ ← refuse_permit_if (negb (parses "rep" (mp_repository_id c))
                        || negb (parses "wsp" (mp_workspace_id c))
                        || negb (parses "atm" (mp_attempt_id c)))
        "INVALID_MUTATION_PERMIT" "repository, workspace, or attempt id is not a frozen typed id";
  _ ← for_each (fun digest => refuse_permit_if (negb (is_hex_64 digest))
        "INVALID_MUTATION_PERMIT" "permit digest fields must be 64 lowercase hex characters")
      [mp_authority_envelope_digest c; mp_authority_token_nonce c; mp_request_digest c;
       mp_permit_nonce c];
  _ ← for_each (fun '(name, value) => refuse_permit_if
        (bool_decide (value = 0) || bool_decide (MAX_SAFE_U64 < value))
        "INVALID_MUTATION_PERMIT_GENERATION"
        (name +:+ " must be a positive interoperable integer"))
      [("workspace_generation", mp_workspace_generation c);
       ("attempt_fence", mp_attempt_fence c); ("authority_epoch", mp_authority_epoch c)];
  _ ← refuse_permit_if (bool_decide (MAX_SAFE_U64 < mp_freeze_generation c)
                        || bool_decide (MAX_SAFE_U64 < mp_issued_at_unix_ms c)
                        || bool_decide (MAX_SAFE_U64 < mp_not_before_unix_ms c)
                        || bool_decide (MAX_SAFE_U64 < mp_expires_at_unix_ms c))
        "INVALID_MUTATION_PERMIT_TIME"
        "permit time or freeze generation exceeds the interoperable integer range";
  refuse_permit_if (bool_decide (mp_not_before_unix_ms c < mp_issued_at_unix_ms c)
                    || bool_decide (mp_expires_at_unix_ms c <= mp_not_before_unix_ms c)
                    || bool_decide (MAX_MUTATION_PERMIT_TTL_MS
                                    < mp_expires_at_unix_ms c - mp_issued_at_unix_ms c))
    "INVALID_MUTATION_PERMIT_WINDOW"
    "permit requires issued_at <= not_before < expires_at and a TTL at most 1s".

(** crates/harness-core/src/admission/mutation_permit.rs:152-185 (MutationPermitExpectation) *)
Record MutationPermitExpectation : Type := MkMutationPermitExpectation {
  me_audience : AuthorityAudience;
  me_operation : MutationOperation;
  me_authority_envelope_digest : string;
  me_authority_token_nonce : string;
  me_mutation_id : string;
  me_reservation_id : string;
  me_request_digest : string;
  me_repository_id : string;
  me_workspace_id : string;
  me_workspace_generation : Z;
  me_attempt_id : string;
  me_attempt_fence : Z;
  me_authority_epoch : Z;
  me_freeze_generation : Z;
  me_now_unix_ms : Z
}.

(** crates/harness-core/src/admission/mutation_permit.rs:418-443 (verify_subject) *)
Definition verify_permit_subject (c : MutationPermitClaims) (e : MutationPermitExpectation)
  : result HarnessError unit :=
  refuse_permit_if
    (negb (bool_decide (mp_audience c = me_audience e))
     || negb (bool_decide (mp_operation c = me_operation e))
     || negb (bool_decide (mp_authority_envelope_digest c = me_authority_envelope_digest e))
     || negb (bool_decide (mp_authority_token_nonce c = me_authority_token_nonce e))
     || negb (bool_decide (mp_mutation_id c = me_mutation_id e))
     || negb (bool_decide (mp_reservation_id c = me_reservation_id e))
     || negb (bool_decide (mp_request_digest c = me_request_digest e))
     || negb (bool_decide (mp_repository_id c = me_repository_id e))
     || negb (bool_decide (mp_workspace_id c = me_workspace_id e))
     || negb (bool_decide (mp_workspace_generation c = me_workspace_generation e))
     || negb (bool_decide (mp_attempt_id c = me_attempt_id e))
     || negb (bool_decide (mp_attempt_fence c = me_attempt_fence e))
     || negb (bool_decide (mp_authority_epoch c = me_authority_epoch e))
     || negb (bool_decide (mp_freeze_generation c = me_freeze_generation e)))
    "MUTATION_PERMIT_SUBJECT_MISMATCH" "permit does not bind the exact reserved mutation subject".

(** crates/harness-core/src/admission/mutation_permit.rs:445-463 (validate_permit_envelope) *)
Definition validate_permit_envelope (p : SignedMutationPermit) : result HarnessError unit :=
  _ ← refuse_permit_if (negb (bool_decide (sp_schema_version p = MUTATION_PERMIT_SCHEMA_VERSION)))
        "UNSUPPORTED_MUTATION_PERMIT_SCHEMA" "mutation permit envelope requires schema v1alpha1";
  _ ← permit_err "INVALID_MUTATION_PERMIT" (validate_label "issuer" (sp_issuer p));
  _ ← permit_err "INVALID_MUTATION_PERMIT" (validate_label "key_id" (sp_key_id p));
  refuse_permit_if (negb (starts_with TOKEN_PREFIX (sp_paseto p))
                    || bool_decide (MAX_TOKEN_BYTES < str_len (sp_paseto p)))
    "INVALID_MUTATION_PERMIT"
    "mutation permit must be a bounded compact PASETO v4.public token".

(** crates/harness-core/src/admission/mutation_permit.rs:465-472 (PermitFooter) *)
Record PermitFooter : Type := MkPermitFooter {
  pf_schema_version : string;
  pf_issuer : string;
  pf_key_id : string;
  pf_purpose : string
}.

(** crates/harness-core/src/admission/mutation_permit.rs:474-481 (permit_footer) *)
Definition permit_footer (issuer key_id : string) : PermitFooter :=
  MkPermitFooter MUTATION_PERMIT_SCHEMA_VERSION issuer key_id MUTATION_PERMIT_KEY_PURPOSE.

(** ** Keys and tokens *)

Class PermitExt := {
  px_claims :: Canon MutationPermitClaims;
  px_footer :: Canon PermitFooter
}.

Section PermitTokens.
Context `{Blake3} `{Hex} `{GrantExt} `{PermitExt}.

(** Both key types hold a launch-grant key. *)
(** crates/harness-core/src/admission/mutation_permit.rs:194-210 (MutationPermitSigningKey::from_bytes) *)
Definition permit_signing_key_from_bytes (issuer key_id : string) (b : bytes)
  : result HarnessError LaunchGrantSigningKey :=
  _ ← refuse_permit_if (negb (bool_decide (str_len b = SIGNING_KEY_BYTES)))
        "INVALID_MUTATION_PERMIT" "PASETO v4.public secret keys are 64 bytes";
  permit_err "INVALID_MUTATION_PERMIT" (signing_key_from_bytes issuer key_id b).

(** crates/harness-core/src/admission/mutation_permit.rs:212-222 (MutationPermitSigningKey::generate) *)
Definition permit_signing_key_generate (entropy : option SecretKey) (issuer key_id : string)
  : result HarnessError LaunchGrantSigningKey :=
  permit_err "INVALID_MUTATION_PERMIT" (signing_key_generate entropy issuer key_id).

(** crates/harness-core/src/admission/mutation_permit.rs:299-309 (MutationPermitVerificationKey::from_hex) *)
Definition permit_verification_key_from_hex (issuer key_id public_hex : string)
  : result HarnessError LaunchGrantVerificationKey :=
  permit_err "INVALID_MUTATION_PERMIT" (verification_key_from_hex issuer key_id public_hex).

(** crates/harness-core/src/admission/mutation_permit.rs:236-247 (MutationPermitSigningKey::verification_key) *)
Definition permit_verification_key (k : LaunchGrantSigningKey)
  : result HarnessError LaunchGrantVerificationKey :=
  permit_verification_key_from_hex (sk_issuer k) (sk_key_id k) (sk_public_hex k).

(** crates/harness-core/src/admission/mutation_permit.rs:311-327 (MutationPermitVerificationKey::from_bytes) *)
Definition permit_verification_key_from_bytes (issuer key_id : string) (b : bytes)
  : result HarnessError LaunchGrantVerificationKey :=
  _ ← refuse_permit_if (negb (bool_decide (str_len b = VERIFICATION_KEY_BYTES)))
        "INVALID_MUTATION_PERMIT" "PASETO v4.public public keys are 32 bytes";
  permit_err "INVALID_MUTATION_PERMIT" (verification_key_from_bytes issuer key_id b).

(** crates/harness-core/src/admission/mutation_permit.rs:249-289 (MutationPermitSigningKey::sign) *)
Definition sign_permit (k : LaunchGrantSigningKey) (claims : MutationPermitClaims)
  : result HarnessError SignedMutationPermit :=
  let failed := "MUTATION_PERMIT_SIGNING_FAILED" in
  _ ← validate_permit_claims claims;
  _ ← refuse_permit_if (negb (bool_decide (mp_issuer claims = sk_issuer k)))
        "MUTATION_PERMIT_ISSUER_MISMATCH" "permit issuer does not match signing key issuer";
  payload ← permit_err failed (canonical_json claims);
  footer ← permit_err failed (canonical_json (permit_footer (sk_issuer k) (sk_key_id k)));
  secret ← ok_or (secret_from (secret_as_bytes (sk_secret k)))
             (HeMutationPermitRefused failed "signing key bytes are not a v4.public secret");
  paseto ← ok_or (token_sign secret payload footer MUTATION_PERMIT_IMPLICIT_ASSERTION)
             (HeMutationPermitRefused failed "PASETO signing failed");
  mret (MkSignedMutationPermit MUTATION_PERMIT_SCHEMA_VERSION (sk_issuer k) (sk_key_id k) paseto).

(** crates/harness-core/src/admission/mutation_permit.rs:365-416 (authenticate) *)
Definition authenticate_permit (k : LaunchGrantVerificationKey) (p : SignedMutationPermit)
  : result HarnessError MutationPermitClaims :=
  let invalid := "INVALID_MUTATION_PERMIT" in
  _ ← validate_permit_envelope p;
  _ ← refuse_permit_if (negb (bool_decide (sp_issuer p = vk_issuer k))
                        || negb (bool_decide (sp_key_id p = vk_key_id k)))
        "MUTATION_PERMIT_KEY_MISMATCH"
        "permit issuer or key does not match the selected verification key";
  footer ← permit_err invalid (canonical_json (permit_footer (vk_issuer k) (vk_key_id k)));
  b ← map_err (fun _ => HeMutationPermitRefused invalid "verification key hex is not decodable")
        (hex_decode (vk_public_hex k));
  public ← ok_or (public_from b)
    (HeMutationPermitRefused invalid "verification key bytes are not a v4.public public key");
  untrusted ← ok_or (token_from (sp_paseto p))
    (HeMutationPermitRefused invalid "invalid PASETO framing");
  payload ← ok_or (token_verify public untrusted footer MUTATION_PERMIT_IMPLICIT_ASSERTION)
    (HeMutationPermitRefused "INVALID_MUTATION_PERMIT_SIGNATURE"
       "permit signature, footer, or implicit assertion is invalid");
  claims ← permit_err invalid (decode_canonical payload);
  _ ← validate_permit_claims claims;
  _ ← refuse_permit_if (negb (bool_decide (mp_issuer claims = vk_issuer k)))
        "MUTATION_PERMIT_ISSUER_MISMATCH"
        "signed permit issuer does not match the selected key";
  mret claims.

(** crates/harness-core/src/admission/mutation_permit.rs:330-363 (require_signed_mutation_permit) *)
Definition require_signed_mutation_permit (permit : option SignedMutationPermit)
  (key : LaunchGrantVerificationKey) (expected : MutationPermitExpectation)
  : result HarnessError MutationPermitClaims :=
  permit ← ok_or permit (HeMutationPermitRefused "MUTATION_PERMIT_MISSING"
    "apply requires a signed mutation permit minted from the active lease");
  claims ← authenticate_permit key permit;
  _ ← verify_permit_subject claims expected;
  _ ← refuse_permit_if (bool_decide (me_now_unix_ms expected < mp_not_before_unix_ms claims))
        "MUTATION_PERMIT_NOT_YET_VALID" "mutation permit is not valid yet";
  _ ← refuse_permit_if (bool_decide (mp_expires_at_unix_ms claims <= me_now_unix_ms expected))
        "MUTATION_PERMIT_EXPIRED" "mutation permit has expired";
  mret claims.
End PermitTokens.

(** ** Reservations *)

(** crates/application/src/mutation_reservation.rs:15-23 (LeaseGate) *)
Class LeaseGate (G : Type) :=
  gate_check_active_lease : ActiveLeaseSubject -> stateful G LedgerError unit.

(** crates/application/src/mutation_reservation.rs:25-34 (MutationReserveRequest) *)
Record MutationReserveRequest : Type := MkMutationReserveRequest {
  mr_mutation_id : string;
  mr_operation : string;
  mr_request_digest : string
}.

(** crates/application/src/mutation_reservation.rs:36-47 (OneUsePermit) *)
Record OneUsePermit : Type := MkOneUsePermit {
  op_reservation_id : string;
  op_mutation_id : string;
  op_operation : string;
  op_request_digest : string
}.

Global Instance OneUsePermit_eq_dec : EqDecision OneUsePermit.
Proof. solve_decision. Defined.

(** crates/application/src/mutation_reservation.rs:49-57 (ReservationRow) *)
Record ReservationRow : Type := MkReservationRow {
  rr_permit : OneUsePermit;
  rr_attempt_id : string;
  rr_fence : Z;
  rr_spent : bool;
  rr_settled : bool
}.

(** crates/application/src/mutation_reservation.rs:59-74 (ReservationError) *)
Inductive ReservationError : Type :=
| LeaseRefused (msg : string)
| AlreadySpent (msg : string)
| ReservationNotFound (msg : string)
| ReservationSubjectMismatch (msg : string).

(** crates/application/src/mutation_reservation.rs:77-86 (ReservationError::reason_code) *)
Definition ReservationError_reason_code (e : ReservationError) : string :=
  match e with
  | LeaseRefused _ => "LEASE_GATE_REFUSED"
  | AlreadySpent _ => "PERMIT_ALREADY_SPENT"
  | ReservationNotFound _ => "RESERVATION_NOT_FOUND"
  | ReservationSubjectMismatch _ => "RESERVATION_SUBJECT_MISMATCH"
  end.

(** crates/application/src/mutation_reservation.rs:89-93 (From<LedgerError> for ReservationError) *)
Definition lease_refused (e : LedgerError) : ReservationError :=
  LeaseRefused (LedgerError_reason_code e +:+ ": " +:+ LedgerError_display e).

(** crates/application/src/mutation_reservation.rs:95-99 (MutationReservationStore) *)
Record MutationReservationStore (G : Type) : Type := MkMutationReservationStore {
  mrs_gate : G;
  mrs_rows : gmap string ReservationRow
}.
Arguments MkMutationReservationStore {G} _ _.
Arguments mrs_gate {G} _.
Arguments mrs_rows {G} _.

Section Reservations.
Context {G : Type} `{!LeaseGate G} `{Blake3} `{Hex}.
Local Abbreviation Store := (MutationReservationStore G).

(** `self.gate.check_active_lease(subject)?`. *)
Definition check_gate (subject : ActiveLeaseSubject) : stateful Store ReservationError unit :=
  fun s => let '(g, r) := gate_check_active_lease subject (mrs_gate s) in
    (MkMutationReservationStore g (mrs_rows s), map_err lease_refused r).

Definition set_row (id : string) (row : ReservationRow) : stateful Store ReservationError unit :=
  assign (fun s => MkMutationReservationStore (mrs_gate s) (<[id := row]> (mrs_rows s))).

(** crates/application/src/mutation_reservation.rs:110-154 (MutationReservationStore::reserve) *)
Definition reserve (subject : ActiveLeaseSubject) (request : MutationReserveRequest)
  : stateful Store ReservationError OneUsePermit :=
  _ ← reading (fun s => match mrs_rows s !! mr_mutation_id request with
      | Some existing =>
          if bool_decide (op_request_digest (rr_permit existing) = mr_request_digest request)
             && bool_decide (op_operation (rr_permit existing) = mr_operation request)
             && negb (rr_spent existing)
          then Err (AlreadySpent "exact mutation already reserved")
          else Err (ReservationSubjectMismatch "mutation_id reused with a different subject")
      | None => Ok tt
      end);
  _ ← check_gate subject;
  let permit := MkOneUsePermit ("rsv_" +:+ to_hex (Digest_of (mr_mutation_id request)))
                  (mr_mutation_id request) (mr_operation request) (mr_request_digest request) in
  _ ← set_row (mr_mutation_id request)
        (MkReservationRow permit (id_as_str (als_attempt_id subject)) (als_fence subject)
           false false);
  mret permit.

(** crates/application/src/mutation_reservation.rs:156-187 (MutationReservationStore::settle) *)
Definition settle (permit : OneUsePermit) (subject : ActiveLeaseSubject)
  : stateful Store ReservationError unit :=
  _ ← check_gate subject;
  row ← reading (fun s => ok_or (mrs_rows s !! op_mutation_id permit)
          (ReservationNotFound (op_mutation_id permit)));
  _ ← pure_step (refuse_if (negb (bool_decide (rr_permit row = permit))
                            || negb (bool_decide (rr_attempt_id row
                                                  = id_as_str (als_attempt_id subject)))
                            || negb (bool_decide (rr_fence row = als_fence subject)))
        (ReservationSubjectMismatch "settle does not bind the reserved subject"));
  _ ← pure_step (refuse_if (rr_spent row || rr_settled row)
        (AlreadySpent (op_reservation_id permit)));
  set_row (op_mutation_id permit)
    (MkReservationRow (rr_permit row) (rr_attempt_id row) (rr_fence row) true true).

(** crates/application/src/mutation_reservation.rs:189-193 (MutationReservationStore::is_settled) *)
Definition is_settled (s : Store) (mutation_id : string) : bool :=
  match mrs_rows s !! mutation_id with Some row => rr_settled row | None => false end.
End Reservations.

(** ** Minting and first use *)

(** crates/application/src/mutation_permit/mod.rs:18-33 (MutationPermitBinding) *)
Record MutationPermitBinding : Type := MkMutationPermitBinding {
  mb_repository_id : string;
  mb_workspace_generation : Z;
  mb_authority_epoch : Z;
  mb_freeze_generation : Z;
  mb_authority_envelope_digest : string;
  mb_authority_token_nonce : string
}.

(** crates/application/src/mutation_permit/mod.rs:35-44 (PermitError) *)
Inductive PermitError : Type :=
| PermitReservation (e : ReservationError)
| PermitSigned (e : HarnessError).

(** crates/application/src/mutation_permit/mod.rs:47-54 (PermitError::reason_code) *)
Definition PermitError_reason_code (e : PermitError) : string :=
  match e with
  | PermitReservation e => ReservationError_reason_code e
  | PermitSigned e => HarnessError_reason_code e
  end.

Section Permits.
Context {G : Type} `{!LeaseGate G} `{Blake3} `{Hex} `{GrantExt} `{PermitExt}.

(** crates/application/src/mutation_permit/mod.rs:63-99 (mint_signed_permit) *)
Definition mint_signed_permit (key : LaunchGrantSigningKey) (subject : ActiveLeaseSubject)
  (reservation : OneUsePermit) (binding : MutationPermitBinding) (now_unix_ms : Z)
  (drawn : result string array32) : result PermitError SignedMutationPermit :=
  operation ← map_err PermitSigned (parse_mutation_operation (op_operation reservation));
  permit_nonce ← map_err PermitSigned (random_hex_64 drawn);
  map_err PermitSigned (sign_permit key {|
    mp_schema_version := MUTATION_PERMIT_SCHEMA_VERSION;
    mp_issuer := sk_issuer key;
    mp_audience := mutation_operation_audience operation;
    mp_operation := operation;
    mp_authority_envelope_digest := mb_authority_envelope_digest binding;
    mp_authority_token_nonce := mb_authority_token_nonce binding;
    mp_mutation_id := op_mutation_id reservation;
    mp_reservation_id := op_reservation_id reservation;
    mp_request_digest := op_request_digest reservation;
    mp_repository_id := mb_repository_id binding;
    mp_workspace_id := id_as_str (als_workspace_id subject);
    mp_workspace_generation := mb_workspace_generation binding;
    mp_attempt_id := id_as_str (als_attempt_id subject);
    mp_attempt_fence := als_fence subject;
    mp_authority_epoch := mb_authority_epoch binding;
    mp_freeze_generation := mb_freeze_generation binding;
    mp_issued_at_unix_ms := now_unix_ms;
    mp_not_before_unix_ms := now_unix_ms;
    mp_expires_at_unix_ms := Z.min (now_unix_ms + MAX_MUTATION_PERMIT_TTL_MS) u64_max;
    mp_permit_nonce := permit_nonce
  |}).

Definition reserved_expectation (operation : MutationOperation) (subject : ActiveLeaseSubject)
  (reservation : OneUsePermit) (binding : MutationPermitBinding) (now_unix_ms : Z)
  : MutationPermitExpectation :=
  MkMutationPermitExpectation (mutation_operation_audience operation) operation
    (mb_authority_envelope_digest binding) (mb_authority_token_nonce binding)
    (op_mutation_id reservation) (op_reservation_id reservation) (op_request_digest reservation)
    (mb_repository_id binding) (id_as_str (als_workspace_id subject))
    (mb_workspace_generation binding) (id_as_str (als_attempt_id subject)) (als_fence subject)
    (mb_authority_epoch binding) (mb_freeze_generation binding) now_unix_ms.

(** crates/application/src/mutation_permit/mod.rs:101-136 (consume_signed_permit) *)
Definition consume_signed_permit (key : LaunchGrantVerificationKey)
  (permit : option SignedMutationPermit) (subject : ActiveLeaseSubject)
  (reservation : OneUsePermit) (binding : MutationPermitBinding) (now_unix_ms : Z)
  : stateful (MutationReservationStore G) PermitError MutationPermitClaims :=
  operation ← pure_step (map_err PermitSigned (parse_mutation_operation (op_operation reservation)));
  claims ← pure_step (map_err PermitSigned (require_signed_mutation_permit permit key
    (reserved_expectation operation subject reservation binding now_unix_ms)));
  _ ← st_map_err PermitReservation (settle reservation subject);
  mret claims.
End Permits.

(** ** Runs of the reservation store *)

Section PermitRuns.
Context {G : Type} `{!LeaseGate G} `{Blake3} `{Hex} `{GrantExt} `{PermitExt}.
Context (other : relation G) (gate0 : G).

(** A granted reservation, or a spent one with the gate that admitted it and
    the claims of the signed permit, if it came with one. *)
Inductive permit_event : Type :=
| EvReserved (subject : ActiveLeaseSubject) (permit : OneUsePermit)
| EvSpent (gate : G) (subject : ActiveLeaseSubject) (permit : OneUsePermit)
    (claims : option MutationPermitClaims).

(** The events of a run that starts with no rows: calls of the store, with
    whatever arguments, and other steps of the gate. *)
Inductive permit_run : list permit_event -> MutationReservationStore G -> Prop :=
| run_new : permit_run [] (MkMutationReservationStore gate0 ∅)
| run_gate evs s g :
    permit_run evs s -> other (mrs_gate s) g ->
    permit_run evs (MkMutationReservationStore g (mrs_rows s))
| run_reserved subject request evs s s1 p :
    permit_run evs s -> reserve subject request s = (s1, Ok p) ->
    permit_run (evs ++ [EvReserved subject p]) s1
| run_reserve_refused subject request evs s s1 e :
    permit_run evs s -> reserve subject request s = (s1, Err e) -> permit_run evs s1
| run_settled p subject evs s s1 :
    permit_run evs s -> settle p subject s = (s1, Ok tt) ->
    permit_run (evs ++ [EvSpent (mrs_gate s) subject p None]) s1
| run_settle_refused p subject evs s s1 e :
    permit_run evs s -> settle p subject s = (s1, Err e) -> permit_run evs s1
| run_consumed key signed subject p binding now evs s s1 c :
    permit_run evs s -> consume_signed_permit key signed subject p binding now s = (s1, Ok c) ->
    permit_run (evs ++ [EvSpent (mrs_gate s) subject p (Some c)]) s1
| run_consume_refused key signed subject p binding now evs s s1 e :
    permit_run evs s -> consume_signed_permit key signed subject p binding now s = (s1, Err e) ->
    permit_run evs s1.

Lemma check_gate_Ok subject s s1 (u : unit) :
  check_gate subject s = (s1, Ok u) ->
  exists g, gate_check_active_lease subject (mrs_gate s) = (g, Ok tt) /\
    s1 = MkMutationReservationStore g (mrs_rows s).
Proof.
  unfold check_gate. destruct (gate_check_active_lease _ _) as [g [[]|e|]]; intros [= <- Hr]; eauto.
Qed.

Lemma check_gate_rows subject s : mrs_rows (check_gate subject s).1 = mrs_rows s.
Proof. unfold check_gate. by destruct (gate_check_active_lease _ _). Qed.

Lemma reserve_Ok subject request s s1 p :
  reserve subject request s = (s1, Ok p) ->
  mrs_rows s !! op_mutation_id p = None /\
  mrs_rows s1 = <[op_mutation_id p := MkReservationRow p (id_as_str (als_attempt_id subject))
                    (als_fence subject) false false]> (mrs_rows s) /\
  exists g, gate_check_active_lease subject (mrs_gate s) = (g, Ok tt) /\ mrs_gate s1 = g.
Proof.
  unfold reserve. intros Hr. apply st_bind_Ok in Hr as (s0 & [] & Hx & Hr).
  apply st_reading_Ok in Hx as [-> Hx]. apply st_bind_Ok in Hr as (s2 & [] & Hg & Hr).
  apply check_gate_Ok in Hg as (g & Hg & ->). apply st_bind_Ok in Hr as (s3 & [] & Hs & Hr).
  apply st_assign_Ok in Hs as ->. apply st_ret_Ok in Hr as [-> <-]. cbn.
  destruct (mrs_rows s !! mr_mutation_id request); [by case_match|]. eauto.
Qed.

Lemma settle_Ok p subject s s1 u :
  settle p subject s = (s1, Ok u) ->
  exists g row, gate_check_active_lease subject (mrs_gate s) = (g, Ok tt) /\
    mrs_rows s !! op_mutation_id p = Some row /\ rr_permit row = p /\
    rr_attempt_id row = id_as_str (als_attempt_id subject) /\ rr_fence row = als_fence subject /\
    rr_spent row = false /\ rr_settled row = false /\
    s1 = MkMutationReservationStore g (<[op_mutation_id p :=
           MkReservationRow p (rr_attempt_id row) (rr_fence row) true true]> (mrs_rows s)).
Proof.
  unfold settle. intros Hr. apply st_bind_Ok in Hr as (s2 & [] & Hg & Hr).
  apply check_gate_Ok in Hg as (g & Hg & ->). apply st_bind_Ok in Hr as (s3 & row & Hrow & Hr).
  apply st_reading_Ok in Hrow as [-> Hrow]. apply ok_or_Ok in Hrow. cbn in Hrow.
  apply st_bind_Ok in Hr as (s4 & ? & Hm & Hr). apply st_pure_Ok in Hm as [-> Hm].
  apply st_bind_Ok in Hr as (s5 & ? & Hn & Hr). apply st_pure_Ok in Hn as [-> Hn].
  apply st_assign_Ok in Hr as ->. inv_result. exists g, row. by split_and!.
Qed.

(** A refusal writes no row. *)
Lemma reserve_Err_rows subject request s s1 e :
  reserve subject request s = (s1, Err e) -> mrs_rows s1 = mrs_rows s.
Proof.
  unfold reserve, mbind, stateful_bind, reading. intros Hr.
  destruct (match _ with Some _ => _ | None => _ end) as [?|?|]; [|by injection Hr as <- _|done].
  pose proof (check_gate_rows subject s) as Hg.
  destruct (check_gate subject s) as [s2 [?|?|]]; [done|by injection Hr as <- _|done].
Qed.

Lemma settle_Err_rows p subject s s1 e :
  settle p subject s = (s1, Err e) -> mrs_rows s1 = mrs_rows s.
Proof.
  unfold settle, mbind, stateful_bind, reading, pure_step. intros Hr.
  pose proof (check_gate_rows subject s) as Hg.
  destruct (check_gate subject s) as [s2 [?|?|]]; cbn in Hg, Hr; [|by injection Hr as <- _|done].
  destruct (ok_or _ _) as [row|?|]; [|by injection Hr as <- _|done].
  do 2 (destruct (refuse_if _ _) as [?|?|]; [|by injection Hr as <- _|done]). done.
Qed.

(** What a consumed permit was. *)
Definition permit_binds (c : MutationPermitClaims) (subject : ActiveLeaseSubject)
  (p : OneUsePermit) : Prop :=
  (exists key signed, authenticate_permit key signed = Ok c) /\
  mp_mutation_id c = op_mutation_id p /\ mp_reservation_id c = op_reservation_id p /\
  mp_request_digest c = op_request_digest p /\
  MutationOperation_label (mp_operation c) = op_operation p /\
  mp_attempt_id c = id_as_str (als_attempt_id subject) /\ mp_attempt_fence c = als_fence subject /\
  mp_workspace_id c = id_as_str (als_workspace_id subject) /\
  mp_expires_at_unix_ms c <= mp_issued_at_unix_ms c + MAX_MUTATION_PERMIT_TTL_MS.

Lemma parse_mutation_operation_Ok label o :
  parse_mutation_operation label = Ok o -> MutationOperation_label o = label.
Proof.
  unfold parse_mutation_operation. intros Hp%ok_or_Ok.
  apply List.find_some in Hp as [_ Hp]. by apply bool_decide_eq_true in Hp.
Qed.

Lemma authenticate_permit_claims key signed c :
  authenticate_permit key signed = Ok c -> validate_permit_claims c = Ok tt.
Proof.
  unfold authenticate_permit. intros Ha.
  do 8 (apply bind_Ok in Ha as (? & _ & Ha)). apply bind_Ok in Ha as ([] & Hv & Ha).
  apply bind_Ok in Ha as (? & _ & Ha). by injection Ha as <-.
Qed.

Lemma validate_permit_window c u :
  validate_permit_claims c = Ok u ->
  mp_expires_at_unix_ms c <= mp_issued_at_unix_ms c + MAX_MUTATION_PERMIT_TTL_MS.
Proof.
  unfold validate_permit_claims. intros Hv. do 8 (apply bind_Ok in Hv as (? & _ & Hv)).
  unfold refuse_permit_if in Hv. inv_result. lia.
Qed.

Lemma consume_Ok key signed subject p binding now s s1 c :
  consume_signed_permit key signed subject p binding now s = (s1, Ok c) ->
  settle p subject s = (s1, Ok tt) /\ permit_binds c subject p.
Proof.
  unfold consume_signed_permit. intros Hc. apply st_bind_Ok in Hc as (s0 & o & Ho & Hc).
  apply st_pure_Ok in Ho as [-> Ho%map_err_Ok]. apply parse_mutation_operation_Ok in Ho.
  apply st_bind_Ok in Hc as (s2 & c2 & Hr & Hc). apply st_pure_Ok in Hr as [-> Hr%map_err_Ok].
  apply st_bind_Ok in Hc as (s3 & [] & Hs & Hc). apply st_map_err_Ok in Hs.
  apply st_ret_Ok in Hc as [-> ->]. split; [done|].
  unfold require_signed_mutation_permit in Hr. apply bind_Ok in Hr as (sp & _ & Hr).
  apply bind_Ok in Hr as (c1 & Ha & Hr). apply bind_Ok in Hr as (? & Hv & Hr).
  unfold verify_permit_subject, refuse_permit_if in Hv, Hr. inv_result. cbn in *.
  split; [eauto|]. pose proof (validate_permit_window _ _ (authenticate_permit_claims _ _ _ Ha)).
  split_and!; congruence || done.
Qed.

(** A consumption is a settlement that also had a bound permit. *)
Definition spends_with (s s1 : MutationReservationStore G) (ev : permit_event) : Prop :=
  exists subject p c, ev = EvSpent (mrs_gate s) subject p c /\ settle p subject s = (s1, Ok tt) /\
    (forall claims, c = Some claims -> permit_binds claims subject p).

Definition spent_id (ev : permit_event) : option string :=
  match ev with EvReserved _ _ => None | EvSpent _ _ p _ => Some (op_mutation_id p) end.

(** Each row was reserved by the attempt and fence it names, and each spent
    reservation has its settled row. *)
Record permit_inv (evs : list permit_event) (s : MutationReservationStore G) : Prop := {
  inv_rows id row : mrs_rows s !! id = Some row ->
    id = op_mutation_id (rr_permit row) /\
    exists subject, EvReserved subject (rr_permit row) ∈ evs /\
      id_as_str (als_attempt_id subject) = rr_attempt_id row /\ als_fence subject = rr_fence row;
  inv_spent id : id ∈ omap spent_id evs ->
    exists row, mrs_rows s !! id = Some row /\ rr_settled row = true;
  inv_once : NoDup (omap spent_id evs)
}.

Lemma permit_inv_rows evs s s1 : mrs_rows s1 = mrs_rows s -> permit_inv evs s -> permit_inv evs s1.
Proof. intros Hr [Ha1 Hb2 Hc3]. split; [by rewrite Hr|by rewrite Hr|done]. Qed.

Lemma permit_inv_reserved evs s s1 subject p :
  mrs_rows s !! op_mutation_id p = None ->
  mrs_rows s1 = <[op_mutation_id p := MkReservationRow p (id_as_str (als_attempt_id subject))
                    (als_fence subject) false false]> (mrs_rows s) ->
  permit_inv evs s -> permit_inv (evs ++ [EvReserved subject p]) s1.
Proof.
  intros Hn Hr [Ha1 Hb2 Hc3]. split.
  - intros id row Hid. rewrite Hr in Hid. apply lookup_insert_Some in Hid as [[<- <-]|[_ Hid]].
    + split; [done|]. exists subject. split; [|done]. set_solver.
    + destruct (Ha1 _ _ Hid) as (? & sub & ? & ?). split; [done|]. exists sub. set_solver.
  - intros id Hid. rewrite omap_app, app_nil_r in Hid. destruct (Hb2 _ Hid) as (row & Hrow & Hs).
    exists row. split; [|done]. rewrite Hr, lookup_insert_ne; [done|]. intros <-. congruence.
  - by rewrite omap_app, app_nil_r.
Qed.

Lemma permit_inv_spent evs s s1 ev :
  spends_with s s1 ev -> permit_inv evs s -> permit_inv (evs ++ [ev]) s1.
Proof.
  intros (subject & p & c & -> & Hs & _) [Ha1 Hb2 Hc3].
  apply settle_Ok in Hs as (g & row & _ & Hrow & Hp & Ha & Hf & _ & Hset & ->).
  assert (op_mutation_id p ∉ omap spent_id evs) as Hnew.
  { intros Hin. apply Hb2 in Hin as (row' & Hrow' & Hset'). congruence. }
  split; cbn.
  - intros id r Hid. apply lookup_insert_Some in Hid as [[<- <-]|[_ Hid]]; cbn.
    + split; [done|]. destruct (Ha1 _ _ Hrow) as (_ & sub & Hin & Hsa & Hsf). exists sub.
      rewrite Hp in Hin. split; [set_solver|done].
    + destruct (Ha1 _ _ Hid) as (? & sub & ? & ?). split; [done|]. exists sub. set_solver.
  - intros id Hid. rewrite omap_app in Hid. cbn in Hid.
    destruct (decide (id = op_mutation_id p)) as [->|Hne].
    + eexists. by rewrite lookup_insert_eq.
    + destruct (Hb2 id) as (r & Hr & Hrs); [set_solver|]. exists r. by rewrite lookup_insert_ne.
  - rewrite omap_app. cbn. apply NoDup_app. split; [done|]. split; [set_solver|by apply NoDup_singleton].
Qed.

Lemma consume_Err_rows key signed subject p binding now s s1 e :
  consume_signed_permit key signed subject p binding now s = (s1, Err e) ->
  mrs_rows s1 = mrs_rows s.
Proof.
  unfold consume_signed_permit, mbind, stateful_bind, pure_step. intros Hc.
  destruct (map_err _ _) as [o|?|]; [|by injection Hc as <- _|done].
  destruct (map_err _ _) as [c|?|]; [|by injection Hc as <- _|done].
  unfold st_map_err in Hc. destruct (settle p subject s) as [s2 [?|?|]] eqn:Hs; cbn in Hc;
    [done| |done]. injection Hc as <- _. by eapply settle_Err_rows.
Qed.

Lemma permit_run_inv evs s : permit_run evs s -> permit_inv evs s.
Proof.
  induction 1; try (eapply permit_inv_rows; [|eassumption]);
    eauto using reserve_Err_rows, settle_Err_rows, consume_Err_rows.
  - split; cbn; [intros id row Hid; by rewrite lookup_empty in Hid|set_solver|by apply NoDup_nil].
  - match goal with Hr : reserve _ _ _ = _ |- _ => apply reserve_Ok in Hr as (? & ? & _) end.
    by eapply permit_inv_reserved.
  - eapply permit_inv_spent; [|done]. eexists _, _, _. by split.
  - match goal with Hc : consume_signed_permit _ _ _ _ _ _ _ = _ |- _ =>
      apply consume_Ok in Hc as [? ?] end.
    eapply permit_inv_spent; [|done]. eexists _, _, _. split; [done|]. split; [done|].
    by intros ? [= <-].
Qed.

(** What holds of an event, given the events before it. *)
Definition event_ok (good : G -> Prop) (pre : list permit_event) (ev : permit_event) : Prop :=
  match ev with
  | EvReserved _ _ => True
  | EvSpent g subject p c =>
      good g /\ (exists g', gate_check_active_lease subject g = (g', Ok tt)) /\
      (exists reserver, EvReserved reserver p ∈ pre /\
         als_attempt_id reserver = als_attempt_id subject /\
         als_fence reserver = als_fence subject) /\
      (forall claims, c = Some claims -> permit_binds claims subject p)
  end.

Lemma split_snoc {A} (Q : list A -> A -> Prop) xs x :
  (forall pre y post, xs = pre ++ y :: post -> Q pre y) -> Q xs x ->
  forall pre y post, xs ++ [x] = pre ++ y :: post -> Q pre y.
Proof.
  intros Hxs Hx pre y post. destruct post as [|z post _] using rev_ind; intros Heq.
  - apply app_inj_tail in Heq as [<- <-]. done.
  - rewrite app_comm_cons, app_assoc in Heq. apply app_inj_tail in Heq as [-> _]. by eapply Hxs.
Qed.

Lemma spend_event_ok good evs s s1 ev :
  permit_inv evs s -> good (mrs_gate s) -> spends_with s s1 ev -> event_ok good evs ev.
Proof.
  intros HI Hg (subject & p & c & -> & Hs & Hb).
  apply settle_Ok in Hs as (g & row & Hck & Hrow & Hp & Ha & Hf & _).
  destruct (inv_rows _ _ HI _ _ Hrow) as (_ & reserver & Hin & Hra & Hrf).
  cbn. split; [done|]. split; [by exists g|]. split; [|done].
  exists reserver. rewrite <- Hp. split; [done|]. split; [|congruence].
  destruct (als_attempt_id reserver), (als_attempt_id subject). cbn in *. congruence.
Qed.

Section GoodGate.
Context (good : G -> Prop).
Hypothesis good0 : good gate0.
Hypothesis other_good : forall g g', other g g' -> good g -> good g'.
Hypothesis check_good : forall subject g, good g -> good (gate_check_active_lease subject g).1.

Lemma check_gate_good subject s : good (mrs_gate s) -> good (mrs_gate (check_gate subject s).1).
Proof using check_good.
  intros Hg. unfold check_gate. specialize (check_good subject _ Hg).
  by destruct (gate_check_active_lease _ _).
Qed.

Lemma reserve_good subject request s :
  good (mrs_gate s) -> good (mrs_gate (reserve subject request s).1).
Proof using check_good.
  intros Hg. unfold reserve, mbind, stateful_bind, reading.
  destruct (match _ with Some _ => _ | None => _ end) as [?|?|]; [|done|done].
  pose proof (check_gate_good subject s Hg). by destruct (check_gate subject s) as [s2 [?|?|]].
Qed.

Lemma settle_good p subject s : good (mrs_gate s) -> good (mrs_gate (settle p subject s).1).
Proof using check_good.
  intros Hg. unfold settle, mbind, stateful_bind, reading, pure_step.
  pose proof (check_gate_good subject s Hg). destruct (check_gate subject s) as [s2 [?|?|]];
    [|done|done]. destruct (ok_or _ _) as [row|?|]; [|done|done].
  by do 2 (destruct (refuse_if _ _) as [?|?|]; [|done|done]).
Qed.

Lemma consume_good key signed subject p binding now s :
  good (mrs_gate s) -> good (mrs_gate (consume_signed_permit key signed subject p binding now s).1).
Proof using check_good.
  intros Hg. unfold consume_signed_permit, mbind, stateful_bind, pure_step.
  do 2 (destruct (map_err _ _) as [?|?|]; [|done|done]).
  pose proof (settle_good p subject s Hg). unfold st_map_err.
  by destruct (settle p subject s) as [s2 [?|?|]].
Qed.

Lemma permit_run_events evs s :
  permit_run evs s ->
  good (mrs_gate s) /\
  forall pre ev post, evs = pre ++ ev :: post -> event_ok good pre ev.
Proof using All.
  induction 1 as [|evs s g Hr [Hg He] Ho|subject request evs s s1 p Hr [Hg He] Hc
    |subject request evs s s1 e Hr [Hg He] Hc|p subject evs s s1 Hr [Hg He] Hc
    |p subject evs s s1 e Hr [Hg He] Hc|key signed subject p binding now evs s s1 c Hr [Hg He] Hc
    |key signed subject p binding now evs s s1 e Hr [Hg He] Hc].
  - split; [done|]. intros pre ev post Heq. by destruct pre.
  - split; [|done]. by eapply other_good.
  - split; [pose proof (reserve_good subject request s Hg) as Hx; by rewrite Hc in Hx|].
    by apply split_snoc.
  - split; [pose proof (reserve_good subject request s Hg) as Hx; by rewrite Hc in Hx|done].
  - split; [pose proof (settle_good p subject s Hg) as Hx; by rewrite Hc in Hx|].
    apply split_snoc; [done|]. eapply spend_event_ok; [by apply permit_run_inv|done|].
    eexists _, _, _. by split.
  - split; [pose proof (settle_good p subject s Hg) as Hx; by rewrite Hc in Hx|done].
  - split; [pose proof (consume_good key signed subject p binding now s Hg) as Hx;
            by rewrite Hc in Hx|].
    apply consume_Ok in Hc as [Hs Hb].
    apply split_snoc; [done|]. eapply spend_event_ok; [by apply permit_run_inv|done|].
    eexists _, _, _. split; [done|]. split; [done|]. by intros ? [= <-].
  - split; [pose proof (consume_good key signed subject p binding now s Hg) as Hx;
            by rewrite Hc in Hx|done].
Qed.
End GoodGate.
End PermitRuns.
