(* ===== verification/Policy.v ===== *)
(** * Policy snapshots

    Models crates/application/src/policy_snapshot.rs with keys.rs, live.rs,
    dogfood.rs and load.rs: which policies are accepted, which keys they
    admit at an instant, when they admit a live provider, and how the policy
    file is read; and its generation.rs and activation.rs: the ledger of
    configuration generations. *)

From S2P Require Import Prelude External Ids States Entities Gates BudgetPolicy Records Text Store.
From S2P Require Import HarnessErrors Paths Canonical LaunchClaims Submissions Commands NonceLedger.
From S2P Require Import Effects GraphDelta Authority LaunchGrants MutationPermits.
From stdpp Require Import options.

Local Open Scope Z_scope.

(** ** Configuration generations and their activation

    Models crates/application/src/policy_snapshot/generation.rs and
    activation.rs: content-addressed generation records, and the ledger that
    activates one of them at a time, collects the acknowledgements of the four
    critical components, and falls back to the last one that was active when
    an activation is aborted. *)

(** crates/application/src/policy_snapshot/generation.rs:12-13 (CONFIGURATION_GENERATION_DOMAIN) *)
Definition CONFIGURATION_GENERATION_DOMAIN : string := "bullet.configuration-generation.v1".
(** crates/application/src/policy_snapshot/generation.rs:14-15 (MAX_ACTIVATION_SUBJECT_BYTES) *)
Definition MAX_ACTIVATION_SUBJECT_BYTES : Z := 256.

(** crates/application/src/policy_snapshot/generation.rs:17-29 (Component) *)
Inductive Component : Type := CoKernel | CoRunner | CoVerifier | CoEffects.

Global Instance Component_eq_dec : EqDecision Component.
Proof. solve_decision. Defined.

(** crates/application/src/policy_snapshot/generation.rs:32-33 (Component::ALL) *)
Definition Component_ALL : list Component := [CoKernel; CoRunner; CoVerifier; CoEffects].

(** crates/application/src/policy_snapshot/generation.rs:35-44 (Component::name) *)
Definition Component_name (c : Component) : string :=
  match c with
  | CoKernel => "kernel" | CoRunner => "runner" | CoVerifier => "verifier" | CoEffects => "effects"
  end.

Definition component_index (c : Component) : nat :=
  match c with CoKernel => 0 | CoRunner => 1 | CoVerifier => 2 | CoEffects => 3 end.

Global Program Instance Component_countable : Countable Component :=
  inj_countable component_index (fun n => nth_error Component_ALL n) _.
Next Obligation. by intros []. Qed.

(** A [BTreeSet] of components is a [gset]; it is iterated in the order of
    [Component_ALL]. *)
Definition components (l : list Component) : gset Component := list_to_set l.

(** crates/application/src/policy_snapshot/generation.rs:47-62 (GenerationContent) *)
Record GenerationContent : Type := MkGenerationContent {
  gc_generation : Z;
  gc_policy_digest : string;
  gc_routing_digest : string;
  gc_activation_subject : string;
  gc_created_at_unix_ms : Z;
  gc_required_components : gset Component
}.

(** crates/application/src/policy_snapshot/generation.rs:64-73 (RecordedGeneration) *)
Record RecordedGeneration : Type := MkRecordedGeneration {
  rg_content : GenerationContent;
  rg_digest : string
}.

(** crates/application/src/policy_snapshot/generation.rs:75-81 (ConfigurationGeneration) *)
Record ConfigurationGeneration : Type := MkConfigurationGeneration {
  cg_content : GenerationContent;
  cg_digest : string
}.

(** crates/application/src/policy_snapshot/generation.rs:83-94 (GenerationBinding) *)
Record GenerationBinding : Type := MkGenerationBinding {
  gb_generation : Z;
  gb_generation_digest : string;
  gb_policy_digest : string;
  gb_routing_digest : string
}.

(** crates/application/src/policy_snapshot/generation.rs:223-286 (GenerationError) *)
Inductive GenerationError : Type :=
| GenContentInvalid (reason : string)
| GenDigestMismatch (generation : Z) (recorded computed : string)
| GenRegression (requested highest : Z)
| GenActivationInProgress (pending : Z) (missing : string)
| GenNoActivationPending
| GenAcknowledgementTargetMismatch (acknowledged activated : Z) (activated_digest : string)
| GenUnknownComponent (component : Component) (generation : Z)
| GenDuplicateAcknowledgement (component : Component) (generation : Z)
| GenNoActiveGeneration
| GenActivating (generation : Z) (missing : string).

(** crates/application/src/policy_snapshot/generation.rs:289-304 (GenerationError::reason_code) *)
Definition GenerationError_reason_code (e : GenerationError) : string :=
  match e with
  | GenContentInvalid _ => "GENERATION_CONTENT_INVALID"
  | GenDigestMismatch _ _ _ => "GENERATION_DIGEST_MISMATCH"
  | GenRegression _ _ => "GENERATION_REGRESSION"
  | GenActivationInProgress _ _ => "ACTIVATION_IN_PROGRESS"
  | GenNoActivationPending => "NO_ACTIVATION_PENDING"
  | GenAcknowledgementTargetMismatch _ _ _ => "ACKNOWLEDGEMENT_TARGET_MISMATCH"
  | GenUnknownComponent _ _ => "UNKNOWN_COMPONENT"
  | GenDuplicateAcknowledgement _ _ => "DUPLICATE_ACKNOWLEDGEMENT"
  | GenNoActiveGeneration => "NO_ACTIVE_GENERATION"
  | GenActivating _ _ => "GENERATION_ACTIVATING"
  end.

(** crates/application/src/policy_snapshot/generation.rs:185-192 (validate_instant) *)
Definition validate_instant (kind : string) (instant_unix_ms : Z) : result GenerationError unit :=
  refuse_if (bool_decide (MAX_SAFE_INTEGER < instant_unix_ms))
    (GenContentInvalid (kind +:+ " instant must not exceed MAX_SAFE_INTEGER")).

(** crates/application/src/policy_snapshot/generation.rs:167-183 (validate_subject_and_instant) *)
Definition validate_subject_and_instant (kind subject : string) (instant_unix_ms : Z)
  : result GenerationError unit :=
  _ ← refuse_if (is_empty subject || bool_decide (MAX_ACTIVATION_SUBJECT_BYTES < str_len subject)
                 || negb (string_all is_ascii_graphic subject))
        (GenContentInvalid (kind +:+ " subject must be 1..=256 printable ASCII bytes without spaces"));
  validate_instant kind instant_unix_ms.

(** crates/application/src/policy_snapshot/generation.rs:194-221 (validate_content) *)
Definition validate_generation_content (content : GenerationContent) : result GenerationError unit :=
  let checks :=
    [(bool_decide (gc_generation content = 0) || bool_decide (MAX_SAFE_INTEGER < gc_generation content),
      "generation number must be within 1..=MAX_SAFE_INTEGER");
     (negb (is_hex_64 (gc_policy_digest content)), "policy digest must be 64 lowercase hex characters");
     (negb (is_hex_64 (gc_routing_digest content)), "routing digest must be 64 lowercase hex characters");
     (negb (bool_decide (gc_required_components content = components Component_ALL)),
      "a generation requires exactly kernel, runner, verifier, and effects")] in
  match find (fun check => check.1) checks with
  | Some (_, reason) => Err (GenContentInvalid reason)
  | None => validate_subject_and_instant "activation" (gc_activation_subject content)
              (gc_created_at_unix_ms content)
  end.

(** crates/application/src/policy_snapshot/generation.rs:128-135 (ConfigurationGeneration::recorded) *)
Definition cg_recorded (g : ConfigurationGeneration) : RecordedGeneration :=
  MkRecordedGeneration (cg_content g) (cg_digest g).

(** crates/application/src/policy_snapshot/generation.rs:143-147 (ConfigurationGeneration::number) *)
Definition cg_number (g : ConfigurationGeneration) : Z := gc_generation (cg_content g).

(** crates/application/src/policy_snapshot/generation.rs:155-164 (ConfigurationGeneration::binding) *)
Definition cg_binding (g : ConfigurationGeneration) : GenerationBinding :=
  MkGenerationBinding (gc_generation (cg_content g)) (cg_digest g)
    (gc_policy_digest (cg_content g)) (gc_routing_digest (cg_content g)).

(** crates/application/src/policy_snapshot/activation.rs:17-24 (ActivationState) *)
Inductive ActivationState : Type := AcActivating | AcActive.

Global Instance ActivationState_eq_dec : EqDecision ActivationState.
Proof. solve_decision. Defined.

(** crates/application/src/policy_snapshot/activation.rs:26-39 (AbortRecord) *)
Record AbortRecord : Type := MkAbortRecord {
  ab_aborted_generation : Z;
  ab_aborted_digest : string;
  ab_acknowledged_components : gset Component;
  ab_subject : string;
  ab_aborted_at_unix_ms : Z
}.

(** crates/application/src/policy_snapshot/activation.rs:41-47 (Activation) *)
Record Activation : Type := MkActivation {
  ac_generation : ConfigurationGeneration;
  ac_activated_at_unix_ms : Z;
  ac_acknowledged : gset Component
}.

(** crates/application/src/policy_snapshot/activation.rs:50-57 (Activation::missing) *)
Definition ac_missing (a : Activation) : gset Component :=
  gc_required_components (cg_content (ac_generation a)) ∖ ac_acknowledged a.

(** crates/application/src/policy_snapshot/activation.rs:59-65 (Activation::missing_names) *)
Definition ac_missing_names (a : Activation) : string :=
  join_strings "," (Component_name <$> filter (fun c => c ∈ ac_missing a) Component_ALL).

(** crates/application/src/policy_snapshot/activation.rs:67-73 (Activation::state) *)
Definition ac_state (a : Activation) : ActivationState :=
  if bool_decide (ac_missing a = ∅) then AcActive else AcActivating.

(** crates/application/src/policy_snapshot/activation.rs:76-83 (ActivationLedger) *)
Record ActivationLedger : Type := MkActivationLedger {
  al_current : option Activation;
  al_last_known_good : option Activation;
  al_history : list AbortRecord;
  al_highest : Z
}.

Definition ActivationLedger_default : ActivationLedger := MkActivationLedger None None [] 0.

(** crates/application/src/policy_snapshot/activation.rs:284-288 (ActivationLedger::pending) *)
Definition al_pending (l : ActivationLedger) : option Activation :=
  match al_current l with
  | Some a => if bool_decide (ac_state a = AcActivating) then Some a else None
  | None => None
  end.

(** crates/application/src/policy_snapshot/activation.rs:256-263 (ActivationLedger::missing_components) *)
Definition al_missing_components (l : ActivationLedger) : gset Component :=
  match al_current l with Some a => ac_missing a | None => ∅ end.

(** crates/application/src/policy_snapshot/activation.rs:219-236 (ActivationLedger::generation_for_admission) *)
Definition generation_for_admission (l : ActivationLedger)
  : result GenerationError ConfigurationGeneration :=
  match al_current l with
  | None => Err GenNoActiveGeneration
  | Some a =>
      if bool_decide (ac_state a = AcActivating)
      then Err (GenActivating (cg_number (ac_generation a)) (ac_missing_names a))
      else Ok (ac_generation a)
  end.

Section Generations.
Context `{Blake3} `{Hex} `{!Canon GenerationContent}.

(** crates/application/src/policy_snapshot/generation.rs:97-108 (ConfigurationGeneration::seal) *)
Definition cg_seal (content : GenerationContent) : result GenerationError ConfigurationGeneration :=
  _ ← validate_generation_content content;
  digest ← map_err (fun e => GenContentInvalid (HarnessError_display e))
             (hash_canonical CONFIGURATION_GENERATION_DOMAIN content);
  mret (MkConfigurationGeneration content digest).

(** crates/application/src/policy_snapshot/generation.rs:110-126 (ConfigurationGeneration::from_recorded) *)
Definition cg_from_recorded (row : RecordedGeneration) : result GenerationError ConfigurationGeneration :=
  sealed ← cg_seal (rg_content row);
  _ ← refuse_if (negb (bool_decide (cg_digest sealed = rg_digest row)))
        (GenDigestMismatch (gc_generation (cg_content sealed)) (rg_digest row) (cg_digest sealed));
  mret sealed.

Abbreviation A := (stateful ActivationLedger GenerationError).

(** crates/application/src/policy_snapshot/activation.rs:86-141 (ActivationLedger::activate) *)
Definition activate (row : RecordedGeneration) (activated_at_unix_ms : Z) : A ActivationState :=
  generation ← pure_step (cg_from_recorded row);
  _ ← pure_step (validate_instant "activation" activated_at_unix_ms);
  _ ← pure_step (refuse_if
        (bool_decide (activated_at_unix_ms < gc_created_at_unix_ms (cg_content generation)))
        (GenContentInvalid "activation instant precedes generation creation"));
  _ ← reading (fun l => refuse_if
        (match al_current l with
         | Some current => bool_decide (activated_at_unix_ms < ac_activated_at_unix_ms current)
         | None => false
         end)
        (GenContentInvalid "activation instant precedes the current activation"));
  _ ← reading (fun l => match al_pending l with
        | Some pending => Err (GenActivationInProgress (cg_number (ac_generation pending))
                                 (ac_missing_names pending))
        | None => Ok tt
        end);
  _ ← reading (fun l => refuse_if (bool_decide (cg_number generation <= al_highest l))
        (GenRegression (cg_number generation) (al_highest l)));
  let activation := MkActivation generation activated_at_unix_ms ∅ in
  _ ← assign (fun l => MkActivationLedger (Some activation)
        (match al_current l with Some previous => Some previous | None => al_last_known_good l end)
        (al_history l) (cg_number generation));
  mret (ac_state activation).

(** crates/application/src/policy_snapshot/activation.rs:143-181 (ActivationLedger::acknowledge) *)
Definition acknowledge (component : Component) (number : Z) (digest : string) : A ActivationState :=
  current ← reading (fun l => ok_or (al_current l) GenNoActivationPending);
  let generation := cg_number (ac_generation current) in
  _ ← pure_step (refuse_if (negb (bool_decide (number = generation))
                            || negb (bool_decide (digest = cg_digest (ac_generation current))))
        (GenAcknowledgementTargetMismatch number generation (cg_digest (ac_generation current))));
  _ ← pure_step (refuse_if
        (negb (bool_decide (component ∈ gc_required_components (cg_content (ac_generation current)))))
        (GenUnknownComponent component generation));
  let updated := MkActivation (ac_generation current) (ac_activated_at_unix_ms current)
                   ({[component]} ∪ ac_acknowledged current) in
  _ ← assign (fun l => MkActivationLedger (Some updated) (al_last_known_good l) (al_history l)
                         (al_highest l));
  _ ← pure_step (refuse_if (bool_decide (component ∈ ac_acknowledged current))
        (GenDuplicateAcknowledgement component generation));
  mret (ac_state updated).

(** crates/application/src/policy_snapshot/activation.rs:183-217 (ActivationLedger::abort_activation) *)
Definition abort_activation (subject : string) (aborted_at_unix_ms : Z) : A AbortRecord :=
  _ ← pure_step (validate_subject_and_instant "abort" subject aborted_at_unix_ms);
  pending ← reading (fun l => ok_or (al_pending l) GenNoActivationPending);
  _ ← pure_step (refuse_if (bool_decide (aborted_at_unix_ms < ac_activated_at_unix_ms pending))
        (GenContentInvalid "abort instant precedes the pending activation"));
  aborted ← reading (fun l => ok_or (al_current l) GenNoActivationPending);
  let record := MkAbortRecord (cg_number (ac_generation aborted)) (cg_digest (ac_generation aborted))
                  (ac_acknowledged aborted) subject aborted_at_unix_ms in
  _ ← assign (fun l => MkActivationLedger (al_last_known_good l) None (al_history l ++ [record])
                         (al_highest l));
  mret record.
End Generations.

(** ** Runs of the ledger *)

(** What succeeded, in order. *)
Inductive activation_event : Type :=
| EvActivated (g : ConfigurationGeneration)
| EvAcknowledged (component : Component) (number : Z) (digest : string)
| EvAborted (number : Z).

Inductive activation_op : Type :=
| OpActivate (row : RecordedGeneration) (at_unix_ms : Z)
| OpAcknowledge (component : Component) (number : Z) (digest : string)
| OpAbort (subject : string) (at_unix_ms : Z).

(** The numbers that were activated, and those that were aborted. *)
Definition activated (evs : list activation_event) : list Z :=
  omap (fun ev => match ev with EvActivated g => Some (cg_number g) | _ => None end) evs.
Definition aborted (evs : list activation_event) : list Z :=
  omap (fun ev => match ev with EvAborted n => Some n | _ => None end) evs.

Section ActivationSafety.
Context `{Blake3} `{Hex} `{!Canon GenerationContent}.
Implicit Types (l : ActivationLedger) (a : Activation) (evs : list activation_event).

Definition perform (op : activation_op) (l : ActivationLedger)
  : ActivationLedger * list activation_event :=
  match op with
  | OpActivate row t =>
      match activate row t l with
      | (l', Ok _) => (l', [EvActivated (MkConfigurationGeneration (rg_content row) (rg_digest row))])
      | (l', _) => (l', [])
      end
  | OpAcknowledge c n d =>
      match acknowledge c n d l with
      | (l', Ok _) => (l', [EvAcknowledged c n d])
      | (l', _) => (l', [])
      end
  | OpAbort subject t =>
      match abort_activation subject t l with
      | (l', Ok record) => (l', [EvAborted (ab_aborted_generation record)])
      | (l', _) => (l', [])
      end
  end.

Inductive activation_run : list activation_event -> ActivationLedger -> Prop :=
| activation_start : activation_run [] ActivationLedger_default
| activation_step evs l op l' ev :
    activation_run evs l -> perform op l = (l', ev) -> activation_run (evs ++ ev) l'.

(** What is known of an activation that the ledger keeps. *)
Record tracked evs a : Prop := {
  tr_sealed : cg_seal (cg_content (ac_generation a)) = Ok (ac_generation a);
  tr_activated : EvActivated (ac_generation a) ∈ evs;
  tr_acknowledged c : c ∈ ac_acknowledged a ->
    EvAcknowledged c (cg_number (ac_generation a)) (cg_digest (ac_generation a)) ∈ evs;
  tr_kept : cg_number (ac_generation a) ∉ aborted evs
}.

(** Every generation activated, but one, that is newer than a bound is aborted. *)
Definition aborted_since evs (bound : option Z) (but : option Z) : Prop :=
  forall n, n ∈ activated evs -> match bound with Some b => b < n | None => True end ->
    Some n <> but -> n ∈ aborted evs.

Definition number_of (o : option Activation) : option Z := (fun a => cg_number (ac_generation a)) <$> o.

Record activation_inv evs l : Prop := {
  iv_sorted : StronglySorted Z.lt (activated evs);
  iv_activated : Forall (fun n => n <= al_highest l) (activated evs);
  iv_aborted : Forall (fun n => n <= al_highest l) (aborted evs);
  iv_tracked a : al_current l = Some a -> tracked evs a;
  iv_newer : aborted_since evs (number_of (al_current l)) None;
  iv_empty : al_current l = None -> al_last_known_good l = None;
  iv_pending a : al_pending l = Some a ->
    aborted_since evs (number_of (al_last_known_good l)) (Some (cg_number (ac_generation a)))
    /\ forall b, al_last_known_good l = Some b -> tracked evs b /\ ac_state b = AcActive
         /\ cg_number (ac_generation b) < cg_number (ac_generation a)
}.

Lemma component_critical c : c ∈ components Component_ALL.
Proof. apply elem_of_list_to_set, list_elem_of_In. destruct c; cbn; tauto. Qed.

Lemma activated_app evs ev : activated (evs ++ ev) = activated evs ++ activated ev.
Proof. apply omap_app. Qed.
Lemma aborted_app evs ev : aborted (evs ++ ev) = aborted evs ++ aborted ev.
Proof. apply omap_app. Qed.

Lemma elem_of_activated evs n : n ∈ activated evs <-> exists g, EvActivated g ∈ evs /\ cg_number g = n.
Proof.
  unfold activated. rewrite list_elem_of_omap. split.
  - intros ([g| |] & Hin & [= <-]). by exists g.
  - intros (g & Hin & <-). by exists (EvActivated g).
Qed.

Lemma tracked_mono evs ev a :
  tracked evs a -> cg_number (ac_generation a) ∉ aborted ev -> tracked (evs ++ ev) a.
Proof.
  intros [Hs Ha Hk Hn] Hev. split; [done|by apply elem_of_app; left| |].
  - intros c Hc. apply elem_of_app. left. by apply Hk.
  - rewrite aborted_app, elem_of_app. by intros [].
Qed.

Lemma al_pending_Some l a :
  al_pending l = Some a <-> al_current l = Some a /\ ac_state a = AcActivating.
Proof.
  unfold al_pending. destruct (al_current l) as [b|]; [|naive_solver].
  case_bool_decide; naive_solver.
Qed.

Lemma al_pending_None l a : al_pending l = None -> al_current l = Some a -> ac_state a = AcActive.
Proof.
  intros Hp Ha. destruct (ac_state a) eqn:Hs; [|done].
  assert (al_pending l = Some a) by by apply al_pending_Some. congruence.
Qed.

Lemma cg_seal_Ok content g :
  cg_seal content = Ok g ->
  cg_content g = content /\ gc_required_components content = components Component_ALL
  /\ hash_canonical CONFIGURATION_GENERATION_DOMAIN content = Ok (cg_digest g).
Proof.
  unfold cg_seal. intros Hs. inv_result. split_and!; [done| |done].
  match goal with Hv : validate_generation_content _ = Ok _ |- _ => unfold validate_generation_content in Hv; simpl in Hv end.
  repeat case_match; try done.
  by match goal with Hx : negb (bool_decide (gc_required_components _ = _)) = false |- _ =>
    apply negb_false_iff, bool_decide_eq_true in Hx end.
Qed.

Lemma cg_from_recorded_Ok row g :
  cg_from_recorded row = Ok g ->
  g = MkConfigurationGeneration (rg_content row) (rg_digest row) /\ cg_seal (cg_content g) = Ok g.
Proof.
  unfold cg_from_recorded. intros Hr. inv_result.
  match goal with Hs : cg_seal _ = Ok _ |- _ => pose proof (cg_seal_Ok _ _ Hs) as (Hc & _) end.
  rewrite Hc. split; [|done]. destruct g as [content digest]. cbn in *. by subst.
Qed.

(** ** Every operation keeps the invariant *)

Lemma activation_inv_activate evs l l' row t st :
  activation_inv evs l -> activate row t l = (l', Ok st) ->
  activation_inv (evs ++ [EvActivated (MkConfigurationGeneration (rg_content row) (rg_digest row))]) l'.
Proof.
  intros [Hsort Hact Hab Htr Hnew Hnone Hpend] Hrun. unfold activate in Hrun. inv_st. inv_result.
  match goal with Hr : cg_from_recorded _ = Ok ?g |- _ =>
    apply cg_from_recorded_Ok in Hr as [Hg Hseal]; rewrite <-Hg; clear Hg; rename g into gen end.
  assert (al_pending l = None) as Hno by by destruct (al_pending l).
  assert (al_highest l < cg_number gen) as Hlt by lia.
  rewrite Forall_forall in Hact, Hab.
  assert (cg_number gen ∉ aborted evs) as Hfresh by (intros Hin; specialize (Hab _ Hin); lia).
  assert (forall n, n ∈ activated (evs ++ [EvActivated gen]) <-> n ∈ activated evs \/ n = cg_number gen) as Hin.
  { intros n. rewrite activated_app, elem_of_app. cbn. by rewrite list_elem_of_singleton. }
  assert (aborted (evs ++ [EvActivated gen]) = aborted evs) as Hsame by (rewrite aborted_app; cbn; apply app_nil_r).
  assert (forall a, tracked evs a -> tracked (evs ++ [EvActivated gen]) a) as Hmono.
  { intros a Ha. apply tracked_mono; [done|]. cbn. apply not_elem_of_nil. }
  split; cbn [al_current al_last_known_good al_history al_highest].
  - rewrite activated_app. apply StronglySorted_app_2; [|done|repeat constructor].
    intros x y Hx Hy. cbn in Hy. apply list_elem_of_singleton in Hy as ->. specialize (Hact _ Hx). lia.
  - apply Forall_forall. intros n [Hn| ->]%Hin; [specialize (Hact _ Hn)|]; lia.
  - apply Forall_forall. rewrite Hsame. intros n Hn. specialize (Hab _ Hn). lia.
  - intros a [= <-]. split; cbn; [done|apply elem_of_app; right; by left|set_solver|by rewrite Hsame].
  - intros n [Hn| ->]%Hin; cbn; [specialize (Hact _ Hn)|]; lia.
  - done.
  - intros a [[= <-] _]%al_pending_Some. cbn [ac_generation]. split.
    + intros n [Hn| ->]%Hin Hb Hne; [|done]. rewrite Hsame. apply (Hnew n Hn); [|done].
      destruct (al_current l); [done|]. by rewrite Hnone in Hb.
    + intros b Hb. destruct (al_current l) as [c|] eqn:Hc; [|by rewrite Hnone in Hb].
      injection Hb as ->. split_and!; [by apply Hmono, Htr|by eapply al_pending_None|].
      assert (cg_number (ac_generation b) ∈ activated evs) as Hn.
      { apply elem_of_activated. exists (ac_generation b). by destruct (Htr b eq_refl). }
      specialize (Hact _ Hn). lia.
Qed.

Lemma activation_inv_acknowledge evs l l' c n d st :
  activation_inv evs l -> acknowledge c n d l = (l', Ok st) ->
  activation_inv (evs ++ [EvAcknowledged c n d]) l'.
Proof.
  intros [Hsort Hact Hab Htr Hnew Hnone Hpend] Hrun. unfold acknowledge in Hrun. inv_st. inv_result.
  match goal with Hc : al_current l = Some ?a |- _ => rename a into cur, Hc into Hcur end.
  match goal with |- activation_inv (evs ++ ?e) _ => set (ev := e) end.
  assert (activated (evs ++ ev) = activated evs /\ aborted (evs ++ ev) = aborted evs) as [Hs1 Hs2].
  { rewrite activated_app, aborted_app. cbn. by rewrite !app_nil_r. }
  assert (forall a, tracked evs a -> tracked (evs ++ ev) a) as Hmono.
  { intros a Ha. apply tracked_mono; [done|]. cbn. apply not_elem_of_nil. }
  assert (forall bound but, aborted_since evs bound but -> aborted_since (evs ++ ev) bound but) as Hkeep.
  { unfold aborted_since. by rewrite Hs1, Hs2. }
  split; cbn [al_current al_last_known_good al_history al_highest]; rewrite ?Hs1, ?Hs2; try done.
  - intros a [= <-]. destruct (Hmono _ (Htr cur Hcur)) as [Hseal Hev Hk Hn].
    split; cbn [ac_generation ac_acknowledged]; [done|done| |done].
    intros x [->%elem_of_singleton|Hx]%elem_of_union; [|by apply Hk].
    apply elem_of_app. right. by left.
  - rewrite Hcur in Hnew. by apply Hkeep.
  - intros a [Ha Hst]%al_pending_Some. injection Ha as <-. cbn [ac_generation].
    destruct (Hpend cur) as [Hsince Hgood].
    { apply al_pending_Some. split; [done|]. revert Hst. unfold ac_state, ac_missing. cbn.
      repeat case_bool_decide; try done. set_solver. }
    split; [by apply Hkeep|]. intros b Hb. destruct (Hgood b Hb) as (? & ? & ?). split_and!; auto.
Qed.

Lemma activation_inv_abort evs l l' subject t record :
  activation_inv evs l -> abort_activation subject t l = (l', Ok record) ->
  activation_inv (evs ++ [EvAborted (ab_aborted_generation record)]) l'.
Proof.
  intros [Hsort Hact Hab Htr Hnew Hnone Hpend] Hrun. unfold abort_activation in Hrun. inv_st. inv_result.
  match goal with Hp : al_pending l = Some ?a, Hc : al_current l = Some ?b |- _ =>
    pose proof (proj1 (al_pending_Some l a) Hp) as [Ha _]; assert (b = a) as -> by congruence;
    destruct (Hpend a Hp) as [Hsince Hgood]; rename a into cur end.
  cbn [ab_aborted_generation]. set (m := cg_number (ac_generation cur)) in *.
  assert (activated (evs ++ [EvAborted m]) = activated evs
          /\ aborted (evs ++ [EvAborted m]) = aborted evs ++ [m]) as [Hs1 Hs2].
  { rewrite activated_app, aborted_app. cbn. by rewrite app_nil_r. }
  assert (m ∈ activated evs) as Hm.
  { apply elem_of_activated. exists (ac_generation cur). by destruct (Htr cur Ha). }
  assert (aborted_since (evs ++ [EvAborted m]) (number_of (al_last_known_good l)) None) as Hall.
  { intros n Hn Hb _. rewrite Hs1 in Hn. rewrite Hs2. apply elem_of_app.
    destruct (decide (n = m)) as [->|Hne]; [right; by left|left]. apply (Hsince n Hn Hb). congruence. }
  split; cbn [al_current al_last_known_good al_history al_highest]; rewrite ?Hs1, ?Hs2; try done.
  - apply Forall_app. split; [done|]. repeat constructor. rewrite Forall_forall in Hact. by apply Hact.
  - intros b Hb. destruct (Hgood b Hb) as (Hbt & _ & Hlt). apply tracked_mono; [done|].
    cbn. rewrite list_elem_of_singleton. lia.
  - intros a [Hb Hst]%al_pending_Some. cbn [al_current] in Hb.
    destruct (Hgood a Hb) as (_ & Hact' & _). congruence.
Qed.

(** A refused operation leaves the ledger as it was; only an operation that
    is recorded changes it. *)
Lemma refused_activation_unchanged op l l' : perform op l = (l', []) -> l' = l.
Proof.
  destruct op as [row t|c n d|subject t]; cbn [perform].
  - unfold activate, mbind, stateful_bind, pure_step, reading, assign, mret, stateful_ret.
    repeat case_match; intros; simplify_eq; done.
  - unfold acknowledge, mbind, stateful_bind, pure_step, reading, assign, mret, stateful_ret.
    destruct (al_current l) as [cur|] eqn:Hcur; cbn [ok_or]; [|by intros [=]].
    destruct (refuse_if _ _); [|by intros [=]..].
    destruct (refuse_if (negb (bool_decide (c ∈ _))) _); [|by intros [=]..].
    case_bool_decide as Hc; cbn [refuse_if]; [|by intros [=]]. intros [= <-].
    replace ({[c]} ∪ ac_acknowledged cur) with (ac_acknowledged cur) by set_solver.
    destruct l as [current good history highest]; cbn in *; subst. by destruct cur.
  - unfold abort_activation, mbind, stateful_bind, pure_step, reading, assign, mret, stateful_ret.
    repeat case_match; intros; simplify_eq; done.
Qed.

Lemma activation_run_inv evs l : activation_run evs l -> activation_inv evs l.
Proof.
  induction 1 as [|evs l op l' ev _ IH Hop].
  { split; cbn; try done; [constructor..|]. intros n Hn. by apply elem_of_nil in Hn. }
  destruct ev as [|e ev].
  { apply refused_activation_unchanged in Hop as ->. by rewrite app_nil_r. }
  destruct op as [row t|c n d|subject t]; cbn [perform] in Hop.
  - destruct (activate row t l) as [l1 [st|e'|]] eqn:Hm; simplify_eq.
    by eapply activation_inv_activate.
  - destruct (acknowledge c n d l) as [l1 [st|e'|]] eqn:Hm; simplify_eq.
    by eapply activation_inv_acknowledge.
  - destruct (abort_activation subject t l) as [l1 [st|e'|]] eqn:Hm; simplify_eq.
    by eapply activation_inv_abort.
Qed.

(** C30: Attempts bind only a generation that every critical component runs.
    After any sequence of activations, acknowledgements and aborts, refused
    ones included, a generation is admitted only if its digest is the framed
    digest of its valid content, it was activated and each of the four
    components acknowledged exactly its number and digest, it was never
    aborted, and every generation activated with a higher number was aborted.
    Activated numbers strictly increase, so no number is used twice. *)
Theorem admission_binds_acknowledged_generation evs l g :
  activation_run evs l -> generation_for_admission l = Ok g ->
  hash_canonical CONFIGURATION_GENERATION_DOMAIN (cg_content g) = Ok (cg_digest g)
  /\ validate_generation_content (cg_content g) = Ok tt
  /\ EvActivated g ∈ evs
  /\ (forall c, EvAcknowledged c (cg_number g) (cg_digest g) ∈ evs)
  /\ (EvAborted (cg_number g) ∉ evs)
  /\ (forall g', EvActivated g' ∈ evs -> cg_number g < cg_number g' -> EvAborted (cg_number g') ∈ evs)
  /\ StronglySorted Z.lt (activated evs).
Proof.
  intros Hrun Hadm. apply activation_run_inv in Hrun as [Hsort _ _ Htr Hnew _ _].
  unfold generation_for_admission in Hadm. destruct (al_current l) as [a|] eqn:Ha; [|done].
  case_bool_decide as Hst; [done|]. injection Hadm as <-.
  destruct (Htr a eq_refl) as [Hseal Hev Hack Hkept].
  pose proof (cg_seal_Ok _ _ Hseal) as (_ & Hreq & Hdig).
  assert (forall n, n ∈ aborted evs <-> EvAborted n ∈ evs) as Hab.
  { intros n. unfold aborted. rewrite list_elem_of_omap. split; [|by intros ?; exists (EvAborted n)].
    by intros ([| |] & ? & [= ->]). }
  split_and!; [done| |done| | | |done].
  - unfold cg_seal in Hseal. inv_result. by match goal with x : unit |- _ => destruct x end.
  - intros c. apply Hack. unfold ac_state in Hst. case_bool_decide as Hm; [|done].
    unfold ac_missing in Hm. rewrite Hreq in Hm.
    destruct (decide (c ∈ ac_acknowledged a)) as [|Hc]; [done|]. exfalso.
    apply (not_elem_of_empty (C:=gset Component) c). rewrite <-Hm. apply elem_of_difference.
    split; [apply component_critical|done].
  - by rewrite <-Hab.
  - intros g' Hg' Hlt. apply Hab, (Hnew (cg_number g')); [|done|done].
    apply elem_of_activated. by exists g'.
Qed.
End ActivationSafety.

(** ** The policy snapshot *)

(** generated/schema_bundle.rs:173-178 (KeyPurposeV1) *)
Inductive KeyPurpose : Type := AuthoritySigning | ReleaseSigning.

(** generated/schema_bundle.rs:180-186 (KeyAlgorithmV1) *)
Inductive KeyAlgorithm : Type := PasetoV4Public | SshEd25519.

Global Instance KeyPurpose_eq_dec : EqDecision KeyPurpose.
Proof. solve_decision. Defined.
Global Instance KeyAlgorithm_eq_dec : EqDecision KeyAlgorithm.
Proof. solve_decision. Defined.

(** generated/schema_bundle.rs:964-978 (IssuerKeyV1) *)
Record IssuerKey : Type := MkIssuerKey {
  ik_schema_version : string;
  ik_issuer : string;
  ik_key_id : string;
  ik_key_purpose : KeyPurpose;
  ik_algorithm : KeyAlgorithm;
  ik_public_key : string;
  ik_audiences : list AuthorityAudience;
  ik_activates_at_unix_ms : Z;
  ik_expires_at_unix_ms : Z;
  ik_revoked_at_unix_ms : option Z;
  ik_retain_until_unix_ms : Z
}.

(** generated/schema_bundle.rs:1505-1511 (RiskPolicyV1) *)
Record RiskPolicy : Type := MkRiskPolicy {
  rk_schema_version : string;
  rk_automatic_integration_max_risk : string;
  rk_signed_human_approval_min_risk : string
}.

(** generated/schema_bundle.rs:737-744 (EvidencePolicyV1) *)
Record EvidencePolicy : Type := MkEvidencePolicy {
  ep2_schema_version : string;
  ep2_r2_requires_sealed_product_holdout : bool;
  ep2_author_evidence_is_independent : bool;
  ep2_unknown_satisfies_gate : bool
}.

(** generated/schema_bundle.rs:1558-1566 (SandboxPolicyV1) *)
Record SandboxPolicy : Type := MkSandboxPolicy {
  sp_schema_version : string;
  sp_production_reference : string;
  sp_arbitrary_shell_gates : bool;
  sp_network_default : string;
  sp_live_admission_enabled : bool
}.

(** generated/schema_bundle.rs:459-467 (BudgetPolicyV1) *)
Record BudgetPolicyDoc : Type := MkBudgetPolicyDoc {
  bp_schema_version : string;
  bp_maximum_lease_ttl_seconds : Z;
  bp_unknown_quota_is_headroom : bool;
  bp_maximum_changed_paths : Z;
  bp_maximum_attempt_seconds : Z
}.

(** generated/schema_bundle.rs:1528-1535 (RoutePolicyV1) *)
Record RoutePolicy : Type := MkRoutePolicy {
  rp2_schema_version : string;
  rp2_universal_incumbent : string;
  rp2_deterministic_abstention_target : string;
  rp2_evolutionary_authority : bool
}.

(** generated/schema_bundle.rs:1173-1188 (PolicySnapshotV1) *)
Record PolicySnapshot : Type := MkPolicySnapshot {
  sn_schema_version : string;
  sn_policy_generation : Z;
  sn_invariant_registry_hash : string;
  sn_schema_bundle_hash : string;
  sn_risk_policy : RiskPolicy;
  sn_evidence_policy : EvidencePolicy;
  sn_sandbox_policy : SandboxPolicy;
  sn_budget_policy : BudgetPolicyDoc;
  sn_route_policy : RoutePolicy;
  sn_issuer_keys : list IssuerKey;
  sn_activation_at_unix_ms : Z;
  sn_expires_at_unix_ms : Z
}.

Definition sn_live (p : PolicySnapshot) : bool := sp_live_admission_enabled (sn_sandbox_policy p).

(** crates/application/src/policy_snapshot.rs:52-54 (POLICY_SCHEMA_VERSION) *)
Definition POLICY_SCHEMA_VERSION : string := "v1alpha1".
(** crates/application/src/policy_snapshot/live.rs:18-19 (POLICY_SCHEMA_VERSION_V1ALPHA2) *)
Definition POLICY_SCHEMA_VERSION_V1ALPHA2 : string := "v1alpha2".
(** crates/application/src/policy_snapshot.rs:55-56 (LIVE_ADMISSION_FIELD) *)
Definition LIVE_ADMISSION_FIELD : string := "sandbox_policy.live_admission_enabled".
(** crates/application/src/policy_snapshot/live.rs:21-23 (LIVE_ADMISSION_MIN_GENERATION) *)
Definition LIVE_ADMISSION_MIN_GENERATION : Z := 2.
(** crates/application/src/policy_snapshot/keys.rs:12-12 (KEY_RETENTION_GRACE_MS) *)
Definition KEY_RETENTION_GRACE_MS : Z := 15000.
(** crates/application/src/policy_snapshot.rs:251-253 (STONITH_REASON) *)
Definition STONITH_REASON : string := "self-kill grace must be strictly less than lease TTL".

(** crates/application/src/policy_snapshot.rs:295-299 (invalid) *)
Definition policy_invalid (code message : string) : HarnessError :=
  HePolicyInvalid (code +:+ ": " +:+ message).

(** crates/application/src/policy_snapshot/live.rs:25-32 (PolicySchemaVersion) *)
Inductive PolicySchemaVersion : Type := V1Alpha1 | V1Alpha2.

Global Instance PolicySchemaVersion_eq_dec : EqDecision PolicySchemaVersion.
Proof. solve_decision. Defined.

(** crates/application/src/policy_snapshot/live.rs:52-59 (PolicySchemaVersion::as_str) *)
Definition PolicySchemaVersion_as_str (v : PolicySchemaVersion) : string :=
  match v with V1Alpha1 => POLICY_SCHEMA_VERSION | V1Alpha2 => POLICY_SCHEMA_VERSION_V1ALPHA2 end.

(** crates/application/src/policy_snapshot.rs:269-279 (unsafe_policy) *)
Definition unsafe_policy (schema : PolicySchemaVersion) : HarnessError :=
  policy_invalid "UNSAFE_POLICY"
    (match schema with
     | V1Alpha1 => "v1alpha1 Gate 0 policy must remain offline, conservative, and T0-anchored"
     | V1Alpha2 => "v1alpha2 policy must remain conservative, T0-anchored, and without evolutionary authority"
     end).

(** crates/application/src/policy_snapshot.rs:255-267 (self_kill_grace_precedes_expiry) *)
Definition self_kill_grace_precedes_expiry (maximum_lease_ttl_seconds : Z) : bool :=
  let ttl_ms := Z.min u64_max (maximum_lease_ttl_seconds * 1000) in
  let budget_ms := ttl_ms / 5 * 4 in
  let grace_ms := ttl_ms - budget_ms in
  bool_decide (budget_ms < ttl_ms) && bool_decide (grace_ms < ttl_ms).

(** crates/application/src/policy_snapshot/keys.rs:14-22 (audience_label) *)
Definition audience_label (a : AuthorityAudience) : string :=
  match a with
  | BulletGitd => "bullet-gitd"
  | EffectBroker => "effect-broker"
  | ProviderRunner => "provider-runner"
  end.

(** crates/application/src/policy_snapshot/live.rs:133-138 (qualifies_for_live_admission) *)
Definition qualifies_for_live_admission (k : IssuerKey) : bool :=
  bool_decide (ik_key_purpose k = AuthoritySigning)
  && bool_decide (ik_algorithm k = PasetoV4Public)
  && bool_decide (ProviderRunner ∈ ik_audiences k)
  && bool_decide (ik_revoked_at_unix_ms k = None).

(** crates/application/src/policy_snapshot/live.rs:140-143 (overlaps_policy_window) *)
Definition overlaps_policy_window (k : IssuerKey) (p : PolicySnapshot) : bool :=
  bool_decide (ik_activates_at_unix_ms k < sn_expires_at_unix_ms p)
  && bool_decide (sn_activation_at_unix_ms p < ik_expires_at_unix_ms k).

(** crates/application/src/policy_snapshot/live.rs:145-153 (key_active_at) *)
Definition key_active_at (k : IssuerKey) (now_unix_ms : Z) : bool :=
  bool_decide (ik_activates_at_unix_ms k <= now_unix_ms)
  && bool_decide (now_unix_ms < ik_expires_at_unix_ms k)
  && match ik_revoked_at_unix_ms k with
     | Some revoked => bool_decide (now_unix_ms < revoked)
     | None => true
     end.

(** crates/application/src/policy_snapshot/live.rs:102-131 (validate_live_admission) *)
Definition validate_live_admission (p : PolicySnapshot) : result HarnessError unit :=
  _ ← refuse_if (negb (sn_live p))
        (policy_invalid "LIVE_ADMISSION_DISABLED"
           "live admission cannot be satisfied by a dogfood-only or offline policy");
  _ ← refuse_if (bool_decide (sn_policy_generation p < LIVE_ADMISSION_MIN_GENERATION))
        (policy_invalid "LIVE_ADMISSION_REQUIRES_GENERATION"
           ("live admission requires policy generation " +:+ pretty LIVE_ADMISSION_MIN_GENERATION
            +:+ " or later; generation " +:+ pretty (sn_policy_generation p) +:+ " is refused"));
  refuse_if (negb (existsb (fun k => qualifies_for_live_admission k && overlaps_policy_window k p)
                     (sn_issuer_keys p)))
    (policy_invalid "LIVE_ADMISSION_REQUIRES_RUNNER_KEY"
       "live admission requires an unrevoked authority-signing PASETO key admitted for the provider-runner audience within the policy window").

(** crates/application/src/policy_snapshot/live.rs:76-100 (require_active_at) *)
Definition require_active_at (p : PolicySnapshot) (now_unix_ms : Z) : result HarnessError unit :=
  _ ← refuse_if (bool_decide (now_unix_ms < sn_activation_at_unix_ms p)
                 || bool_decide (sn_expires_at_unix_ms p <= now_unix_ms))
        (policy_invalid "POLICY_NOT_ACTIVE" "policy snapshot is not active at the validation instant");
  refuse_if (sn_live p
             && negb (existsb (fun k => qualifies_for_live_admission k && key_active_at k now_unix_ms)
                        (sn_issuer_keys p)))
    (policy_invalid "LIVE_ADMISSION_REQUIRES_RUNNER_KEY"
       "no provider-runner authority key is active at the validation instant").

(** crates/application/src/policy_snapshot/dogfood.rs:11-16 (DogfoodAudience) *)
Inductive DogfoodAudience : Type := DogfoodRunner.
(** crates/application/src/policy_snapshot/dogfood.rs:18-23 (DogfoodOperation) *)
Inductive DogfoodOperation : Type := ReadOnlyPropose.

Global Instance DogfoodAudience_eq_dec : EqDecision DogfoodAudience.
Proof. solve_decision. Defined.
Global Instance DogfoodOperation_eq_dec : EqDecision DogfoodOperation.
Proof. solve_decision. Defined.

(** crates/application/src/policy_snapshot/dogfood.rs:25-34 (DogfoodBinding) *)
Record DogfoodBinding : Type := MkDogfoodBinding {
  db_schema_version : string;
  db_audience : DogfoodAudience;
  db_operation : DogfoodOperation
}.

(** crates/application/src/policy_snapshot/dogfood.rs:37-45 (DogfoodBinding::read_only_propose) *)
Definition read_only_propose : DogfoodBinding := MkDogfoodBinding "v1alpha1" DogfoodRunner ReadOnlyPropose.

(** crates/application/src/policy_snapshot/dogfood.rs:105-121 (validate_binding) *)
Definition validate_binding (b : DogfoodBinding) : result HarnessError unit :=
  _ ← refuse_if (negb (bool_decide (db_schema_version b = "v1alpha1")))
        (policy_invalid "INVALID_DOGFOOD_BINDING" "dogfood binding requires schema v1alpha1");
  refuse_if (negb (bool_decide (db_audience b = DogfoodRunner))
             || negb (bool_decide (db_operation b = ReadOnlyPropose)))
    (policy_invalid "INVALID_DOGFOOD_BINDING"
       "dogfood binding must be dogfood-runner / read-only-propose").

(** crates/application/src/policy_snapshot/dogfood.rs:48-90 (validate_dogfood_admission) *)
Definition validate_dogfood_admission (p : PolicySnapshot) (b : DogfoodBinding)
  : result HarnessError unit :=
  _ ← refuse_if (sn_live p)
        (policy_invalid "DOGFOOD_REFUSES_LIVE_ADMISSION" "dogfood admission refuses a general live binding");
  _ ← refuse_if (negb (bool_decide (sn_schema_version p = POLICY_SCHEMA_VERSION_V1ALPHA2)))
        (policy_invalid "UNSUPPORTED_POLICY_SCHEMA" "dogfood admission requires policy schema v1alpha2");
  _ ← refuse_if (bool_decide (sn_policy_generation p < LIVE_ADMISSION_MIN_GENERATION))
        (policy_invalid "LIVE_ADMISSION_REQUIRES_GENERATION"
           ("dogfood admission requires policy generation " +:+ pretty LIVE_ADMISSION_MIN_GENERATION
            +:+ " or later; generation " +:+ pretty (sn_policy_generation p) +:+ " is refused"));
  _ ← validate_binding b;
  refuse_if (negb (existsb (fun k => qualifies_for_live_admission k && overlaps_policy_window k p)
                     (sn_issuer_keys p)))
    (policy_invalid "LIVE_ADMISSION_REQUIRES_RUNNER_KEY"
       "dogfood admission requires an unrevoked authority-signing PASETO key admitted for the provider-runner audience within the policy window").

(** crates/application/src/policy_snapshot/dogfood.rs:92-103 (refuse_dogfood_binding_as_live) *)
Definition refuse_dogfood_binding_as_live (b : DogfoodBinding) : result HarnessError unit :=
  _ ← validate_binding b;
  Err (policy_invalid "LIVE_ADMISSION_REFUSES_DOGFOOD_BINDING"
         "a dogfood audience/operation binding cannot satisfy live admission").

Section Policy.
Context `{Blake3} `{Hex} `{GrantExt}.

(** crates/application/src/policy_snapshot.rs:288-293 (unsupported_schema) *)
Definition unsupported_schema (actual kind : string) : HarnessError :=
  policy_invalid "UNSUPPORTED_POLICY_SCHEMA" (kind +:+ " schema " +:+ str_debug actual +:+ " is unsupported").

(** crates/application/src/policy_snapshot.rs:281-286 (require_v1alpha1) *)
Definition require_v1alpha1 (actual kind : string) : result HarnessError unit :=
  refuse_if (negb (bool_decide (actual = POLICY_SCHEMA_VERSION))) (unsupported_schema actual kind).

(** crates/application/src/policy_snapshot/live.rs:39-50 (PolicySchemaVersion::parse) *)
Definition PolicySchemaVersion_parse (actual : string) : result HarnessError PolicySchemaVersion :=
  if bool_decide (actual = POLICY_SCHEMA_VERSION) then Ok V1Alpha1
  else if bool_decide (actual = POLICY_SCHEMA_VERSION_V1ALPHA2) then Ok V1Alpha2
  else Err (unsupported_schema actual "PolicySnapshotV1").

(** One key of [validate_issuer_keys], with the identities seen before it. *)
Definition validate_issuer_key (seen : list (string * string)) (k : IssuerKey) : result HarnessError unit :=
  _ ← refuse_if (negb (bool_decide (ik_schema_version k = POLICY_SCHEMA_VERSION)))
        (policy_invalid "UNSUPPORTED_POLICY_SCHEMA" "IssuerKeyV1 schema is unsupported");
  let audiences := remove_dups (audience_label <$> ik_audiences k) in
  _ ← refuse_if (is_empty (ik_issuer k) || is_empty (ik_key_id k)
                 || bool_decide ((ik_issuer k, ik_key_id k) ∈ seen)
                 || bool_decide (ik_expires_at_unix_ms k <= ik_activates_at_unix_ms k)
                 || bool_decide (ik_retain_until_unix_ms k
                                 < u64_saturating_add (ik_expires_at_unix_ms k) KEY_RETENTION_GRACE_MS)
                 || match ik_revoked_at_unix_ms k with
                    | Some revoked => bool_decide (revoked < ik_activates_at_unix_ms k)
                                      || bool_decide (ik_retain_until_unix_ms k < revoked)
                    | None => false
                    end
                 || negb (bool_decide (length audiences = length (ik_audiences k))))
        (policy_invalid "INVALID_ISSUER_KEY_LIFECYCLE"
           "issuer keys require unique identities and ordered activation, expiry, revocation, and retention windows");
  match ik_key_purpose k, ik_algorithm k with
  | AuthoritySigning, PasetoV4Public =>
      _ ← refuse_if (bool_decide (ik_audiences k = []) || negb (is_hex_64 (ik_public_key k)))
            (policy_invalid "INVALID_AUTHORITY_PUBLIC_KEY"
               "authority keys require audiences and a raw 32-byte lowercase-hex public key");
      _ ← map_err (fun e => policy_invalid "INVALID_AUTHORITY_PUBLIC_KEY" (HarnessError_display e))
            (verification_key_from_hex (ik_issuer k) (ik_key_id k) (ik_public_key k));
      mret tt
  | ReleaseSigning, SshEd25519 =>
      refuse_if (negb (bool_decide (ik_audiences k = []))
                 || negb (starts_with "ssh-ed25519 " (ik_public_key k)))
        (policy_invalid "INVALID_RELEASE_PUBLIC_KEY"
           "release keys require SSH Ed25519 form and no runtime audience")
  | _, _ => Err (policy_invalid "INVALID_KEY_USE" "key purpose and algorithm are incompatible")
  end.

(** crates/application/src/policy_snapshot/keys.rs:24-84 (validate_issuer_keys) *)
Fixpoint validate_issuer_keys (seen : list (string * string)) (keys : list IssuerKey)
  : result HarnessError unit :=
  match keys with
  | [] => Ok tt
  | k :: rest =>
      _ ← validate_issuer_key seen k;
      validate_issuer_keys ((ik_issuer k, ik_key_id k) :: seen) rest
  end.

(** The set of rules no policy may weaken. *)
Definition weakens_conservatism (p : PolicySnapshot) : bool :=
  bool_decide (15 < bp_maximum_lease_ttl_seconds (sn_budget_policy p))
  || bp_unknown_quota_is_headroom (sn_budget_policy p)
  || sp_arbitrary_shell_gates (sn_sandbox_policy p)
  || ep2_author_evidence_is_independent (sn_evidence_policy p)
  || ep2_unknown_satisfies_gate (sn_evidence_policy p)
  || negb (ep2_r2_requires_sealed_product_holdout (sn_evidence_policy p))
  || negb (bool_decide (rp2_universal_incumbent (sn_route_policy p) = "T0"))
  || rp2_evolutionary_authority (sn_route_policy p).

(** crates/application/src/policy_snapshot.rs:181-249 (validate_policy) *)
Definition validate_policy (p : PolicySnapshot) : result HarnessError PolicySchemaVersion :=
  schema ← PolicySchemaVersion_parse (sn_schema_version p);
  _ ← refuse_if (bool_decide (sn_policy_generation p = 0)
                 || bool_decide (MAX_SAFE_INTEGER < sn_policy_generation p)
                 || bool_decide (sn_expires_at_unix_ms p <= sn_activation_at_unix_ms p)
                 || bool_decide (MAX_SAFE_INTEGER < sn_expires_at_unix_ms p)
                 || bool_decide (sn_issuer_keys p = []))
        (policy_invalid "INVALID_POLICY_WINDOW"
           "policy requires a generation, issuer key, and ordered validity window");
  _ ← refuse_if (negb (is_hex_64 (sn_schema_bundle_hash p)) || negb (is_hex_64 (sn_invariant_registry_hash p)))
        (policy_invalid "INVALID_POLICY_WINDOW"
           "policy bundle and registry hashes must be 64 lowercase hex characters");
  _ ← for_each (fun '(name, version) => require_v1alpha1 version name)
        [("risk_policy", rk_schema_version (sn_risk_policy p));
         ("evidence_policy", ep2_schema_version (sn_evidence_policy p));
         ("sandbox_policy", sp_schema_version (sn_sandbox_policy p));
         ("budget_policy", bp_schema_version (sn_budget_policy p));
         ("route_policy", rp2_schema_version (sn_route_policy p))];
  _ ← validate_issuer_keys [] (sn_issuer_keys p);
  _ ← refuse_if (weakens_conservatism p) (unsafe_policy schema);
  _ ← refuse_if (negb (self_kill_grace_precedes_expiry (bp_maximum_lease_ttl_seconds (sn_budget_policy p))))
        (policy_invalid "UNSAFE_POLICY" STONITH_REASON);
  if negb (sn_live p) then Ok schema
  else match schema with
       | V1Alpha1 => Err (unsafe_policy schema)
       | V1Alpha2 => _ ← validate_live_admission p; mret schema
       end.

(** crates/application/src/policy_snapshot/live.rs:62-74 (validate_policy_at) *)
Definition validate_policy_at (p : PolicySnapshot) (now_unix_ms : Z) : result HarnessError unit :=
  _ ← validate_policy p;
  require_active_at p now_unix_ms.

(** crates/application/src/policy_snapshot/keys.rs:142-148 (unknown) *)
Definition unknown_key (issuer key_id reason : string) : HarnessError :=
  HeLaunchGrantKeyUnknown issuer key_id reason.

(** crates/application/src/policy_snapshot/keys.rs:86-140 (authority_key_at) *)
Definition authority_key_at (p : PolicySnapshot) (issuer key_id audience : string) (now_unix_ms : Z)
  : result HarnessError LaunchGrantVerificationKey :=
  _ ← refuse_if (bool_decide (now_unix_ms < sn_activation_at_unix_ms p)
                 || bool_decide (sn_expires_at_unix_ms p <= now_unix_ms))
        (policy_invalid "POLICY_NOT_ACTIVE"
           ("policy generation " +:+ pretty (sn_policy_generation p) +:+ " is not active at "
            +:+ pretty now_unix_ms));
  key ← ok_or (find (fun k => bool_decide (ik_issuer k = issuer) && bool_decide (ik_key_id k = key_id))
                 (sn_issuer_keys p))
          (unknown_key issuer key_id "issuer and key id are not registered");
  _ ← refuse_if (negb (bool_decide (ik_key_purpose key = AuthoritySigning))
                 || negb (bool_decide (ik_algorithm key = PasetoV4Public)))
        (unknown_key issuer key_id "selected key is not an authority-signing PASETO key");
  _ ← refuse_if (negb (existsb (fun a => bool_decide (audience_label a = audience)) (ik_audiences key)))
        (unknown_key issuer key_id ("selected key is not admitted for audience " +:+ audience));
  _ ← refuse_if (bool_decide (now_unix_ms < ik_activates_at_unix_ms key)
                 || bool_decide (ik_expires_at_unix_ms key <= now_unix_ms)
                 || match ik_revoked_at_unix_ms key with
                    | Some revoked => bool_decide (revoked <= now_unix_ms)
                    | None => false
                    end)
        (unknown_key issuer key_id "selected key is not active at the verification instant");
  verification_key_from_hex (ik_issuer key) (ik_key_id key) (ik_public_key key).

(** crates/application/src/policy_snapshot.rs:58-64 (LoadedPolicy) *)
Record LoadedPolicy : Type := MkLoadedPolicy {
  lp_snapshot : PolicySnapshot;
  lp_schema : PolicySchemaVersion;
  lp_digest : string
}.

Section Loading.
Context `{!Canon PolicySnapshot}.

(** crates/application/src/policy_snapshot.rs:67-92 (LoadedPolicy::from_bytes) *)
Definition LoadedPolicy_from_bytes (b : bytes) : result HarnessError LoadedPolicy :=
  snapshot ← map_err (fun e => policy_invalid "NON_CANONICAL_POLICY"
               ("policy.json must be canonical RFC 8785 bytes: " +:+ HarnessError_display e))
               (decode_canonical b);
  schema ← validate_policy snapshot;
  digest ← map_err (fun e => policy_invalid "NON_CANONICAL_POLICY" (HarnessError_display e))
             (policy_snapshot_digest b);
  mret (MkLoadedPolicy snapshot schema digest).

(** crates/application/src/policy_snapshot/load.rs:10-11 (POLICY_PATH_ENV) *)
Definition POLICY_PATH_ENV : string := "BULLET_POLICY_PATH".
(** crates/application/src/policy_snapshot/load.rs:12-12 (MAX_POLICY_BYTES) *)
Definition MAX_POLICY_BYTES : Z := 256 * 1024.

(** crates/application/src/policy_snapshot/load.rs:14-18 (default_policy_path) *)
Definition default_policy_path (data_dir : string) : string :=
  path_join (path_join data_dir "policy") "policy.json".

(** crates/application/src/policy_snapshot/load.rs:120-124 (unavailable) *)
Definition policy_unavailable (reason : string) : HarnessError := HePolicyUnavailable reason.

(** crates/application/src/policy_snapshot/load.rs:106-113 (same_file) *)
Definition policy_same_file (before opened : Metadata) : bool :=
  bool_decide (md_kind opened = IsFile)
  && bool_decide (md_dev before = md_dev opened) && bool_decide (md_ino before = md_ino opened)
  && bool_decide (md_len before = md_len opened).

Definition policy_too_large (path : string) : HarnessError :=
  HePolicyInvalid ("policy " +:+ path +:+ " exceeds " +:+ pretty MAX_POLICY_BYTES +:+ " bytes").

Context {S : Type} `{!Files S}.

(** crates/application/src/policy_snapshot/load.rs:62-104 (read_regular_bounded) *)
Definition read_regular_bounded (path : string) : stateful S HarnessError bytes :=
  linkless ← st_map_err (fun e => policy_unavailable ("policy " +:+ path +:+ " is not readable: " +:+ e))
               (fs_symlink_metadata path);
  _ ← pure_step (refuse_if (bool_decide (md_kind linkless = IsSymlink))
        (policy_unavailable ("policy " +:+ path +:+ " must not be a symlink")));
  _ ← pure_step (refuse_if (negb (bool_decide (md_kind linkless = IsFile)))
        (policy_unavailable ("policy " +:+ path +:+ " is not a regular file")));
  _ ← pure_step (refuse_if (bool_decide (MAX_POLICY_BYTES < md_len linkless)) (policy_too_large path));
  file ← st_map_err (fun e => policy_unavailable ("open policy " +:+ path +:+ ": " +:+ e)) (fs_open path);
  opened ← st_map_err (fun e => policy_unavailable ("inspect policy " +:+ path +:+ ": " +:+ e))
             (fs_handle_metadata file);
  _ ← pure_step (refuse_if (negb (policy_same_file linkless opened))
        (policy_unavailable "policy identity changed while opening"));
  content ← st_map_err (fun e => policy_unavailable ("read policy " +:+ path +:+ ": " +:+ e))
              (fs_read_limited file (MAX_POLICY_BYTES + 1));
  _ ← pure_step (refuse_if (bool_decide (MAX_POLICY_BYTES < str_len content)) (policy_too_large path));
  mret content.

(** crates/application/src/policy_snapshot/load.rs:20-50 (load_policy) *)
Definition load_policy (data_dir : string) (override_path : option string)
  : stateful S HarnessError LoadedPolicy :=
  path ← pure_step (match override_path with
    | Some path =>
        _ ← refuse_if (negb (path_is_absolute path))
              (policy_unavailable (POLICY_PATH_ENV +:+ " must be absolute, got " +:+ path));
        mret path
    | None =>
        _ ← refuse_if (negb (path_is_absolute data_dir)) (policy_unavailable "data directory must be absolute");
        mret (default_policy_path data_dir)
    end);
  b ← read_regular_bounded path;
  pure_step (LoadedPolicy_from_bytes b).
End Loading.
End Policy.

(** crates/application/src/policy_snapshot.rs:124-132 (LoadedPolicy::binding) *)
Definition lp_binding (p : LoadedPolicy) : PolicyBinding :=
  MkPolicyBinding (lp_digest p) (sn_policy_generation (lp_snapshot p)) (sn_live (lp_snapshot p)).

(** crates/application/src/policy_snapshot.rs:134-147 (LoadedPolicy::require_live_admission) *)
Definition require_live_admission (p : LoadedPolicy) : result HarnessError unit :=
  if sn_live (lp_snapshot p) then Ok tt
  else Err (HePolicyLiveAdmissionDisabled (sn_policy_generation (lp_snapshot p)) LIVE_ADMISSION_FIELD).

(** ** Properties *)

(** The inequality holds for every maximum but zero. *)
Lemma self_kill_grace_iff ttl :
  0 <= ttl -> self_kill_grace_precedes_expiry ttl = true <-> 1 <= ttl.
Proof.
  intros Hnn. unfold self_kill_grace_precedes_expiry, u64_max.
  rewrite andb_true_iff, !bool_decide_eq_true.
  destruct (decide (ttl = 0)) as [->|Hne]; [vm_compute; naive_solver|].
  set (ms := Z.min _ _). assert (1000 <= ms) as Hms by lia.
  pose proof (Z.div_mod ms 5 ltac:(lia)) as Hd. pose proof (Z.mod_pos_bound ms 5 ltac:(lia)) as Hm. lia.
Qed.

Section PolicySafety.
Context `{Blake3} `{Hex} `{GrantExt}.
Implicit Types (p : PolicySnapshot) (k : IssuerKey).

Definition identity k : string * string := (ik_issuer k, ik_key_id k).

(** A key of the authority's purpose whose hexadecimal form is a key. *)
Definition resolvable k : Prop :=
  ik_key_purpose k = AuthoritySigning -> ik_algorithm k = PasetoV4Public ->
  exists key, verification_key_from_hex (ik_issuer k) (ik_key_id k) (ik_public_key k) = Ok key.

Lemma validate_issuer_key_Ok seen k u :
  validate_issuer_key seen k = Ok u -> (identity k ∉ seen) /\ resolvable k.
Proof.
  unfold validate_issuer_key. intros Hv. inv_result. split; [done|]. intros Hp Ha.
  rewrite Hp, Ha in Hv. inv_result. eauto.
Qed.

Lemma validate_issuer_keys_Ok seen keys u :
  validate_issuer_keys seen keys = Ok u ->
  NoDup (identity <$> keys) /\ Forall resolvable keys /\ Forall (fun k => identity k ∉ seen) keys.
Proof.
  revert seen. induction keys as [|k keys IH]; intros seen Hv; cbn in *.
  { split_and!; constructor. }
  inv_result. match goal with Hk : validate_issuer_key _ _ = Ok _ |- _ =>
    apply validate_issuer_key_Ok in Hk as [Hnew Hres] end.
  destruct (IH _ Hv) as (Hnd & Hall & Hfresh). rewrite Forall_forall in Hfresh.
  split_and!; constructor; try done.
  - intros (k' & Heq & Hin)%list_elem_of_fmap. apply (Hfresh k' Hin). rewrite <-Heq. left.
  - apply Forall_forall. intros k' Hin Hs. apply (Hfresh k' Hin). by right.
Qed.

(** With distinct identities, the key found for an identity is the key itself. *)
Lemma find_identity k keys :
  NoDup (identity <$> keys) -> k ∈ keys ->
  find (fun k' => bool_decide (ik_issuer k' = ik_issuer k) && bool_decide (ik_key_id k' = ik_key_id k)) keys
  = Some k.
Proof.
  induction keys as [|k' keys IH]; intros Hnd Hin; [by apply elem_of_nil in Hin|].
  cbn in Hnd. apply NoDup_cons in Hnd as [Hnew Hnd]. cbn [find].
  apply elem_of_cons in Hin as [->|Hin]; [by rewrite !bool_decide_eq_true_2|].
  destruct (bool_decide_reflect (ik_issuer k' = ik_issuer k)) as [Hi|];
    destruct (bool_decide_reflect (ik_key_id k' = ik_key_id k)) as [Hd|]; cbn [andb]; [|by apply IH..].
  exfalso. apply Hnew. apply list_elem_of_fmap. exists k. split; [|done]. unfold identity. congruence.
Qed.

(** The rules no accepted policy weakens. *)
Record conservative p : Prop := {
  co_ttl : 1 <= bp_maximum_lease_ttl_seconds (sn_budget_policy p) <= 15;
  co_quota : bp_unknown_quota_is_headroom (sn_budget_policy p) = false;
  co_shell : sp_arbitrary_shell_gates (sn_sandbox_policy p) = false;
  co_author : ep2_author_evidence_is_independent (sn_evidence_policy p) = false;
  co_unknown : ep2_unknown_satisfies_gate (sn_evidence_policy p) = false;
  co_holdout : ep2_r2_requires_sealed_product_holdout (sn_evidence_policy p) = true;
  co_incumbent : rp2_universal_incumbent (sn_route_policy p) = "T0";
  co_evolution : rp2_evolutionary_authority (sn_route_policy p) = false
}.

(** A key that lets a policy admit live providers. *)
Definition runner_key k : Prop :=
  ik_key_purpose k = AuthoritySigning /\ ik_algorithm k = PasetoV4Public
  /\ ProviderRunner ∈ ik_audiences k /\ ik_revoked_at_unix_ms k = None.

Lemma qualifies_spec k : qualifies_for_live_admission k = true <-> runner_key k.
Proof.
  unfold qualifies_for_live_admission, runner_key. rewrite !andb_true_iff, !bool_decide_eq_true. tauto.
Qed.

Lemma validate_policy_Ok p schema :
  0 <= bp_maximum_lease_ttl_seconds (sn_budget_policy p) ->
  validate_policy p = Ok schema ->
  conservative p /\ sn_schema_version p = PolicySchemaVersion_as_str schema
  /\ NoDup (identity <$> sn_issuer_keys p) /\ Forall resolvable (sn_issuer_keys p)
  /\ (sn_live p = true -> schema = V1Alpha2 /\ 2 <= sn_policy_generation p
        /\ exists k, k ∈ sn_issuer_keys p /\ runner_key k
             /\ ik_activates_at_unix_ms k < sn_expires_at_unix_ms p
             /\ sn_activation_at_unix_ms p < ik_expires_at_unix_ms k).
Proof.
  intros Hnn Hv. unfold validate_policy in Hv. inv_result.
  match goal with Hk : validate_issuer_keys _ _ = Ok _ |- _ =>
    apply validate_issuer_keys_Ok in Hk as (Hnd & Hres & _) end.
  match goal with Hw : weakens_conservatism p = false |- _ => unfold weakens_conservatism in Hw end.
  match goal with Hg : self_kill_grace_precedes_expiry _ = true |- _ =>
    apply self_kill_grace_iff in Hg; [|done] end.
  inv_result.
  match goal with Hx : PolicySchemaVersion_parse _ = Ok ?v |- _ =>
    assert (sn_schema_version p = PolicySchemaVersion_as_str v) as Hver
      by (unfold PolicySchemaVersion_parse in Hx; by repeat case_bool_decide; simplify_eq) end.
  assert (conservative p) as Hco by (split; done || lia).
  destruct (sn_live p) eqn:Hlive; cbn [negb] in Hv; [|by inv_result; split_and!].
  match type of Hv with match ?v with _ => _ end = _ => destruct v; [done|] end. inv_result.
  split_and!; [done..|]. intros _. split; [done|].
  match goal with Hl : validate_live_admission p = Ok _ |- _ => unfold validate_live_admission in Hl end.
  inv_result. unfold LIVE_ADMISSION_MIN_GENERATION in *. split; [lia|].
  match goal with He : existsb _ _ = true |- _ => apply existsb_exists in He as (k & Hin & Hk) end.
  apply andb_true_iff in Hk as [Hq Hw]. apply qualifies_spec in Hq.
  unfold overlaps_policy_window in Hw. inv_result. apply list_elem_of_In in Hin. by exists k.
Qed.

Section LoadedPolicies.
Context `{!Canon PolicySnapshot}.

(** C29: Every policy the kernel loads is conservative, and a live one carries
    the operator's key. Its bytes are the canonical encoding of the snapshot
    and the digest is of those bytes; the maximum lease lasts 1 to 15 seconds;
    unknown quota is no headroom, gates run no arbitrary shell, an author's
    evidence is not independent, unknown satisfies no gate, the sealed holdout
    is required, the incumbent is T0 and evolution has no authority; no two
    issuer keys share an identity. Live admission is enabled only under schema
    v1alpha2, from generation 2 on, with an unrevoked authority-signing PASETO
    key for the provider runner whose window meets the policy's, and such a
    policy never admits a dogfood binding. *)
Theorem loaded_policy_conservative b loaded :
  0 <= bp_maximum_lease_ttl_seconds (sn_budget_policy (lp_snapshot loaded)) ->
  LoadedPolicy_from_bytes b = Ok loaded ->
  let p := lp_snapshot loaded in
  to_jcs p = Ok b /\ policy_snapshot_digest b = Ok (lp_digest loaded)
  /\ conservative p /\ NoDup (identity <$> sn_issuer_keys p)
  /\ (require_live_admission loaded = Ok tt ->
        lp_schema loaded = V1Alpha2 /\ 2 <= sn_policy_generation p
        /\ (exists k, k ∈ sn_issuer_keys p /\ runner_key k
              /\ ik_activates_at_unix_ms k < sn_expires_at_unix_ms p
              /\ sn_activation_at_unix_ms p < ik_expires_at_unix_ms k)
        /\ forall binding, validate_dogfood_admission p binding <> Ok tt).
Proof.
  intros Hnn Hload p. unfold LoadedPolicy_from_bytes in Hload. inv_result. cbn [lp_snapshot] in *.
  match goal with Hd : decode_canonical b = Ok _ |- _ => apply decode_canonical_Ok in Hd as [_ Hd] end.
  match goal with Hv : validate_policy _ = Ok _ |- _ =>
    apply validate_policy_Ok in Hv as (Hco & _ & Hnd & _ & Hlive); [|done] end.
  split_and!; [done..|]. unfold require_live_admission. cbn [lp_snapshot lp_schema].
  destruct (sn_live _) eqn:Hl; [|done]. intros _. destruct (Hlive eq_refl) as (Hs & Hg & Hk).
  split_and!; [done..|]. intros binding Hdog. unfold validate_dogfood_admission in Hdog. inv_result.
  unfold p in *. cbn [lp_snapshot] in *. congruence.
Qed.
End LoadedPolicies.

(** A policy that passes validation at an instant with live admission
    enabled resolves a key at that instant: for some registered issuer and key
    id, [authority_key_at] yields a verification key for the provider-runner
    audience. The two instant rules, of the snapshot and of its keys, agree. *)
Theorem live_policy_resolves_runner_key p now :
  0 <= bp_maximum_lease_ttl_seconds (sn_budget_policy p) ->
  validate_policy_at p now = Ok tt -> sn_live p = true ->
  exists k key, k ∈ sn_issuer_keys p /\ runner_key k
    /\ authority_key_at p (ik_issuer k) (ik_key_id k) "provider-runner" now = Ok key.
Proof.
  intros Hnn Hv Hlive. unfold validate_policy_at in Hv. inv_result.
  match goal with Hp : validate_policy _ = Ok _ |- _ =>
    apply validate_policy_Ok in Hp as (_ & _ & Hnd & Hres & _); [|done] end.
  unfold require_active_at in Hv. inv_result. rewrite Hlive in Hv. cbn [andb] in Hv. inv_result.
  match goal with He : existsb _ _ = true |- _ => apply existsb_exists in He as (k & Hin & Hk) end.
  apply andb_true_iff in Hk as [Hq Ha]. pose proof (proj1 (qualifies_spec k) Hq) as (Hp & Halg & Haud & Hrev).
  unfold key_active_at in Ha. rewrite Hrev in Ha. inv_result. apply list_elem_of_In in Hin.
  rewrite Forall_forall in Hres. destruct (Hres k Hin Hp Halg) as [key Hkey].
  exists k, key. split_and!; [done|by apply qualifies_spec|].
  unfold authority_key_at. rewrite (find_identity k _ Hnd Hin), !bool_decide_eq_false_2 by lia. run_result.
  rewrite Hp, Halg, Hrev, !bool_decide_eq_false_2 by lia. run_result.
  rewrite (proj2 (existsb_exists _ _)) by (exists ProviderRunner; by rewrite <-list_elem_of_In).
  run_result. exact Hkey.
Qed.
End PolicySafety.
