(* ===== verification/Runner.v ===== *)
(** * The runner's errors, scope, gates and prompts

    Models crates/runner/src/error.rs, scope.rs, the sealed gate registry of
    gate.rs and the prompts of capsule.rs. A path is its text; the schema text
    that is compiled into the prompts is a parameter. *)

From S2P Require Import Prelude External Ids Gates BudgetPolicy Text HarnessErrors Paths Proposal Submissions.
From stdpp Require Import options.

Local Open Scope Z_scope.

(** ** Errors *)

(** crates/runner/src/error.rs:6-145 (RunnerError) *)
Inductive RunnerError : Type :=
| ReStaleAuthority (detail : string)
| ReSelfKill (elapsed_ms : Z)
| ReScopeDenied (path : string)
| ReGitd (method code message : string)
| ReAuthorityContractUnavailable (method message : string)
| ReGitdBinaryUnprovisioned (variable : string)
| ReGitdBinaryAdmission (reason : string)
| ReHarness (error : HarnessError)
| ReLease (code message : string)
| ReAcquireOutcomeUnknown (message : string)
| ReAdvanceOutcomeUnknown (message : string)
| ReReleaseOutcomeUnknown (message : string)
| ReGate (command reason : string)
| ReGateSelection (reason : string)
| ReCapsExhausted (rounds : Z)
| ReNoProposal (detail : string)
| ReIo (context reason : string)
| ReProtocol (detail : string)
| ReFinalizationUnresolved (stage attempt_id candidate_id receipt_digest destination : string)
    (primary : RunnerError) (recovery_journal_error : option string)
| ReShutdown (primary cleanup : RunnerError).

(** [{:?}] of an optional string. *)
Definition debug_opt_str (o : option string) : string :=
  match o with Some s => "Some(" +:+ str_debug s +:+ ")" | None => "None" end.

(** crates/runner/src/error.rs:6-145 (RunnerError Display) *)
Fixpoint RunnerError_display (e : RunnerError) : string :=
  match e with
  | ReStaleAuthority detail => "stale authority: " +:+ detail
  | ReSelfKill elapsed_ms => "self-kill deadline passed at " +:+ pretty elapsed_ms +:+ "ms"
  | ReScopeDenied path => "scope denied: " +:+ path +:+ " is outside the granted prefixes"
  | ReGitd method code message =>
      "gitd refused " +:+ method +:+ ": " +:+ code +:+ ": " +:+ message
  | ReAuthorityContractUnavailable method message =>
      "authority contract unavailable during gitd " +:+ method +:+ ": " +:+ message
  | ReGitdBinaryUnprovisioned variable =>
      "gitd binary is unprovisioned: " +:+ variable +:+ " is missing or empty"
  | ReGitdBinaryAdmission reason => "gitd binary admission refused: " +:+ reason
  | ReHarness error => HarnessError_display error
  | ReLease code message => "lease call refused: " +:+ code +:+ ": " +:+ message
  | ReAcquireOutcomeUnknown message => "lease acquire outcome unknown: " +:+ message
  | ReAdvanceOutcomeUnknown message => "lease advance outcome unknown: " +:+ message
  | ReReleaseOutcomeUnknown message => "lease release outcome unknown: " +:+ message
  | ReGate command reason => "gate `" +:+ command +:+ "` failed to run: " +:+ reason
  | ReGateSelection reason => "gate selection refused: " +:+ reason
  | ReCapsExhausted rounds => "caps exhausted after " +:+ pretty rounds +:+ " repair rounds"
  | ReNoProposal detail => "turn produced no patch proposal: " +:+ detail
  | ReIo context reason => "io failure in " +:+ context +:+ ": " +:+ reason
  | ReProtocol detail => "protocol violation: " +:+ detail
  | ReFinalizationUnresolved stage attempt_id candidate_id receipt_digest destination primary journal =>
      "finalization unresolved at " +:+ stage +:+ ": attempt " +:+ attempt_id
      +:+ ", candidate " +:+ candidate_id +:+ ", receipt " +:+ receipt_digest
      +:+ ", destination " +:+ str_debug destination +:+ "; cause: " +:+ RunnerError_display primary
      +:+ "; recovery journal failure: " +:+ debug_opt_str journal
  | ReShutdown primary cleanup =>
      RunnerError_display primary +:+ "; gitd shutdown also failed: " +:+ RunnerError_display cleanup
  end.

(** crates/runner/src/error.rs:148-173 (RunnerError::reason_code) *)
Fixpoint RunnerError_reason_code (e : RunnerError) : string :=
  match e with
  | ReStaleAuthority _ => "STALE_AUTHORITY"
  | ReSelfKill _ => "SELF_KILL_DEADLINE"
  | ReScopeDenied _ => "SCOPE_DENIED"
  | ReGitd _ _ _ => "GITD_REFUSED"
  | ReAuthorityContractUnavailable _ _ => "AUTHORITY_CONTRACT_UNAVAILABLE"
  | ReGitdBinaryUnprovisioned _ => "GITD_BINARY_UNPROVISIONED"
  | ReGitdBinaryAdmission _ => "GITD_BINARY_ADMISSION_REFUSED"
  | ReHarness err => HarnessError_reason_code err
  | ReLease _ _ => "LEASE_REFUSED"
  | ReAcquireOutcomeUnknown _ => "ACQUIRE_OUTCOME_UNKNOWN"
  | ReAdvanceOutcomeUnknown _ => "ADVANCE_OUTCOME_UNKNOWN"
  | ReReleaseOutcomeUnknown _ => "RELEASE_OUTCOME_UNKNOWN"
  | ReGate _ _ => "GATE_FAILED"
  | ReGateSelection _ => "GATE_SELECTION_REFUSED"
  | ReCapsExhausted _ => "CAPS_EXHAUSTED"
  | ReNoProposal _ => "NO_PROPOSAL"
  | ReIo _ _ => "IO_FAILED"
  | ReProtocol _ => "PROTOCOL_ERROR"
  | ReFinalizationUnresolved _ _ _ _ _ _ _ => "FINALIZATION_UNRESOLVED"
  | ReShutdown primary _ => RunnerError_reason_code primary
  end.

(** crates/runner/src/error.rs:175-182 (RunnerError::is_stale) *)
Fixpoint is_stale (e : RunnerError) : bool :=
  match e with
  | ReShutdown primary _ => is_stale primary
  | ReStaleAuthority _ => true
  | _ => false
  end.

(** crates/runner/src/error.rs:184-193 (RunnerError::path_absent_detail) *)
Fixpoint path_absent_detail (e : RunnerError) : option string :=
  match e with
  | ReGitd _ code message => if bool_decide (code = "PATH_ABSENT") then Some message else None
  | ReShutdown primary _ => path_absent_detail primary
  | _ => None
  end.

(** crates/runner/src/error.rs:195-202 (RunnerError::is_frozen) *)
Fixpoint is_frozen (e : RunnerError) : bool :=
  match e with
  | ReShutdown primary _ => is_frozen primary
  | ReStaleAuthority _ | ReSelfKill _ => true
  | _ => false
  end.

(** ** Scope *)

Definition backslash : Ascii.ascii := Ascii.ascii_of_nat 92.
Definition nul : Ascii.ascii := Ascii.ascii_of_nat 0.

(** The test on one segment. *)
Definition hostile_segment (segment : string) : bool :=
  is_empty segment || bool_decide (segment = ".") || bool_decide (segment = "..")
  || eq_ignore_ascii_case segment ".git".

(** crates/runner/src/scope.rs:39-54 (normalize) *)
Definition normalize (path : string) : option (list string) :=
  if is_empty path || starts_with "/" path || str_contains_char backslash path
     || str_contains_char nul path then None
  else
    let segments := str_split slash path in
    if existsb hostile_segment segments then None else Some segments.

(** crates/runner/src/scope.rs:24-37 (path_in_scope) *)
Definition path_in_scope (prefixes : list string) (path : string) : bool :=
  match normalize path with
  | None => false
  | Some segments =>
      existsb (fun prefix =>
        match normalize prefix with
        | None => false
        | Some granted =>
            negb (bool_decide (granted = []))
            && bool_decide (length granted <= length segments)%nat
            && bool_decide (take (length granted) segments = granted)
        end) prefixes
  end.

(** crates/runner/src/scope.rs:8-22 (validate_proposal) *)
Definition validate_proposal (prefixes : list string) (proposal : PatchProposal)
  : result RunnerError unit :=
  for_each (fun operation =>
    refuse_if (negb (path_in_scope prefixes (po_path operation)))
      (ReScopeDenied (po_path operation))) (pp_operations (pp_wire proposal)).

(** ** Gates *)

(** [{:?}] of a vector of strings. *)
Definition debug_strs (l : list string) : string :=
  "[" +:+ String.concat ", " (str_debug <$> l) +:+ "]".

Definition debug_gate_id (g : GateId) : string := "GateId(" +:+ str_debug (GateId_as_str g) +:+ ")".

Definition gate_refused {A} (r : result DomainError A) : result RunnerError A :=
  map_err (fun e => ReGateSelection (DomainError_display e)) r.

(** crates/runner/src/gate.rs:30-37 (GateRegistry::definition) *)
Definition registry_definition (gate_id : string) : result RunnerError GateDefinition :=
  gate ← gate_refused (GateId_parse gate_id);
  ok_or (gate_definition gate) (ReGateSelection ("unknown gate_id " +:+ debug_gate_id gate)).

(** crates/runner/src/gate.rs:39-58 (GateRegistry::validate_selection) *)
Definition validate_selection (gate_ids : list string) : result RunnerError unit :=
  parsed ← gate_refused (parse_gate_ids gate_ids);
  for_each (fun gate_id => refuse_if (negb (bool_decide (is_Some (gate_definition gate_id))))
    (ReGateSelection ("unknown gate_id " +:+ debug_gate_id gate_id))) parsed.

(** crates/runner/src/gate.rs:60-81 (GateRegistry::require_exact) *)
Definition require_exact_gates (admitted proposed : list string) : result RunnerError unit :=
  _ ← validate_selection admitted;
  _ ← validate_selection proposed;
  refuse_if (negb (bool_decide (admitted = proposed)))
    (ReGateSelection ("proposal gate_ids " +:+ debug_strs proposed
       +:+ " do not equal admitted gate_ids " +:+ debug_strs admitted)).

(** crates/runner/src/gate.rs:83-91 (GateRegistry::argv) *)
Definition registry_argv (gate_id : string) : result RunnerError (list string) :=
  gate ← registry_definition gate_id;
  mret (GateDefinition_argv gate).

(** crates/runner/src/gate.rs:137-152 (GateReport) *)
Record GateReport : Type := MkGateReport {
  gr_gate_id : string;
  gr_argv : list string;
  gr_exit_code : option Z;
  gr_timed_out : bool;
  gr_stdout : string;
  gr_stderr : string
}.

(** crates/runner/src/gate.rs:155-159 (GateReport::passed) *)
Definition gate_passed (report : GateReport) : bool :=
  negb (gr_timed_out report) && bool_decide (gr_exit_code report = Some 0).

(** ** Prompts *)

(** crates/runner/src/capsule.rs:7-24 (Capsule) *)
Record Capsule : Type := MkCapsule {
  cap_objective : string;
  cap_scope_prefixes : list string;
  cap_base_sha : string;
  cap_producing_attempt_id : string;
  cap_base_checkpoint_id : string;
  cap_base_checkpoint_digest : string;
  cap_admitted_gate_ids : list string
}.

Definition newline : string := String (Ascii.ascii_of_nat 10) EmptyString.
Definition debug_bool (b : bool) : string := if b then "true" else "false".

(** crates/runner/src/capsule.rs:27-29 (Capsule::scope_line) *)
Definition scope_line (c : Capsule) : string := String.concat ", " (cap_scope_prefixes c).

(** crates/runner/src/capsule.rs:31-36 (Capsule::binding_lines) *)
Definition binding_lines (c : Capsule) : string :=
  "Producing attempt ID: " +:+ cap_producing_attempt_id c +:+ newline
  +:+ "Base checkpoint ID: " +:+ cap_base_checkpoint_id c +:+ newline
  +:+ "Base checkpoint digest: " +:+ cap_base_checkpoint_digest c.

(** crates/runner/src/capsule.rs:38-41 (Capsule::advance_checkpoint) *)
Definition advance_checkpoint (c : Capsule) (id digest : string) : Capsule :=
  MkCapsule (cap_objective c) (cap_scope_prefixes c) (cap_base_sha c) (cap_producing_attempt_id c)
    id digest (cap_admitted_gate_ids c).

(** crates/runner/src/capsule.rs:43-65 (Capsule::initial_prompt) *)
Definition initial_prompt (schema_source : string) (c : Capsule) : string :=
  "You are executing one fenced Attempt for Bullet Farm." +:+ newline
  +:+ "Objective: " +:+ cap_objective c +:+ newline
  +:+ "Base commit: " +:+ cap_base_sha c +:+ newline
  +:+ binding_lines c +:+ newline
  +:+ "Writable scope (path prefixes; anything else is refused before apply): "
  +:+ scope_line c +:+ newline
  +:+ "Admitted gate IDs (echo this exact ordered list in gate_ids): "
  +:+ debug_strs (cap_admitted_gate_ids c) +:+ newline
  +:+ "The workspace is read-only for you; the kernel applies changes through its own writer."
  +:+ newline
  +:+ "Respond with exactly one PatchProposal JSON object matching this schema. Echo the exact Attempt/checkpoint/gate subjects. Every operation must carry an absent or BLAKE3 preimage and a tagged write/delete mutation:"
  +:+ newline +:+ schema_source.

(** crates/runner/src/capsule.rs:67-77 (Capsule::gate_selection_prompt) *)
Definition gate_selection_prompt (c : Capsule) (detail : string) : string :=
  "GATE_SELECTION_REFUSED: " +:+ detail +:+ newline
  +:+ "Nothing was applied; gate IDs are policy references, never commands." +:+ newline
  +:+ "Re-propose with exactly these admitted gate_ids in order: "
  +:+ debug_strs (cap_admitted_gate_ids c) +:+ newline +:+ binding_lines c.

(** crates/runner/src/capsule.rs:79-86 (Capsule::binding_refusal_prompt) *)
Definition binding_refusal_prompt (c : Capsule) (detail : string) : string :=
  "PROPOSAL_BINDING_REFUSED: " +:+ detail +:+ newline
  +:+ "Nothing was applied. Re-propose with these exact bindings:" +:+ newline +:+ binding_lines c.

(** crates/runner/src/capsule.rs:88-99 (Capsule::scope_denied_prompt) *)
Definition scope_denied_prompt (c : Capsule) (path : string) : string :=
  "SCOPE_DENIED: your previous proposal touched " +:+ dquote +:+ path +:+ dquote
  +:+ ", which is outside the granted scope. Nothing was applied; the workspace is unchanged."
  +:+ newline +:+ "Granted prefixes: " +:+ scope_line c +:+ newline
  +:+ "Re-propose a PatchProposal that only touches paths under the granted prefixes." +:+ newline
  +:+ binding_lines c.

(** crates/runner/src/capsule.rs:101-112 (Capsule::path_absent_prompt) *)
Definition path_absent_prompt (c : Capsule) (detail : string) : string :=
  "PATH_ABSENT: " +:+ detail +:+ newline
  +:+ "The whole proposal was refused; nothing was applied and the workspace is unchanged. Delete targets must be files that exist in the workspace."
  +:+ newline +:+ "Re-propose a complete PatchProposal without that delete." +:+ newline
  +:+ binding_lines c.

(** crates/runner/src/capsule.rs:114-130 (Capsule::gate_feedback_prompt) *)
Definition gate_feedback_prompt (c : Capsule) (report : GateReport) : string :=
  "GATE_RESULT: gate `" +:+ gr_gate_id report +:+ "` with fixed argv "
  +:+ debug_strs (gr_argv report) +:+ " did not pass." +:+ newline
  +:+ "exit_code: " +:+ debug_exit (gr_exit_code report) +:+ newline
  +:+ "timed_out: " +:+ debug_bool (gr_timed_out report) +:+ newline
  +:+ "stdout:" +:+ newline +:+ gr_stdout report +:+ newline
  +:+ "stderr:" +:+ newline +:+ gr_stderr report +:+ newline
  +:+ "Your patch was applied, then the gate ran in the workspace. Fix the failure and respond with a complete new PatchProposal bound to the new checkpoint:"
  +:+ newline +:+ binding_lines c.

(** ** Lemmas *)

(** A segment that names neither the directory itself, nor its parent, nor the
    repository's metadata. *)
Definition inner_segment (s : string) : Prop :=
  s <> EmptyString /\ s <> "." /\ s <> ".." /\ eq_ignore_ascii_case s ".git" = false.

Lemma hostile_segment_false s : hostile_segment s = false <-> inner_segment s.
Proof.
  unfold hostile_segment, inner_segment. rewrite <-is_empty_spec.
  destruct (is_empty s), (eq_ignore_ascii_case s ".git"); repeat case_bool_decide; naive_solver.
Qed.


Lemma normalize_Some path segments :
  normalize path = Some segments <->
  path <> EmptyString /\ starts_with "/" path = false
  /\ str_contains_char backslash path = false /\ str_contains_char nul path = false
  /\ segments = str_split slash path /\ Forall inner_segment segments.
Proof.
  unfold normalize. rewrite <-is_empty_spec.
  destruct (is_empty path), (starts_with "/" path), (str_contains_char backslash path),
    (str_contains_char nul path); simpl; try naive_solver.
  assert (existsb hostile_segment (str_split slash path) = false
          <-> Forall inner_segment (str_split slash path)) as Hbad.
  { rewrite existsb_Forall_false. apply Forall_iff. intros s. apply hostile_segment_false. }
  destruct (existsb _ _); naive_solver.
Qed.

(** A path of text [path] lies under one of the granted [prefixes], segment by
    segment, and no segment of it leaves the repository. *)
Definition within (prefixes : list string) (path : string) : Prop :=
  Forall inner_segment (str_split slash path) /\ starts_with "/" path = false
  /\ exists prefix rest, prefix ∈ prefixes /\ Forall inner_segment (str_split slash prefix)
     /\ str_split slash path = str_split slash prefix ++ rest.

(** The scope check accepts a path exactly when it lies under a granted
    prefix; a name that only starts with the letters of a prefix does not. *)
Lemma path_in_scope_within prefixes path : path_in_scope prefixes path = true -> within prefixes path.
Proof.
  unfold path_in_scope, within. destruct (normalize path) as [segments|] eqn:Hp; [|done].
  apply normalize_Some in Hp as (_ & Hroot & _ & _ & -> & Hin).
  rewrite existsb_exists. intros (prefix & Hpre & Hmatch). apply list_elem_of_In in Hpre.
  destruct (normalize prefix) as [granted|] eqn:Hg; [|done].
  apply normalize_Some in Hg as (_ & _ & _ & _ & -> & Hgin).
  rewrite !andb_true_iff, !bool_decide_eq_true in Hmatch. destruct Hmatch as [_ Htake].
  split_and!; [done|done|]. exists prefix, (drop (length (str_split slash prefix)) (str_split slash path)).
  split_and!; [done|done|]. by rewrite <-Htake at 1; rewrite take_drop.
Qed.

Lemma validate_proposal_Ok prefixes proposal u :
  validate_proposal prefixes proposal = Ok u ->
  Forall (fun o => within prefixes (po_path o)) (pp_operations (pp_wire proposal)).
Proof.
  unfold validate_proposal. intros Hv%for_each_Ok. eapply Forall_impl; [exact Hv|].
  intros o Ho%refuse_if_Ok. apply path_in_scope_within. by destruct (path_in_scope _ _).
Qed.

(** An accepted selection names registered gates only, so each has an argv
    that the registry fixed. *)
Lemma validate_selection_Ok gate_ids u :
  validate_selection gate_ids = Ok u ->
  gate_ids <> [] /\ NoDup gate_ids /\ Forall (fun g => exists argv, registry_argv g = Ok argv) gate_ids.
Proof.
  unfold validate_selection, gate_refused. intros Hv. apply bind_Ok in Hv as (parsed & Hp & Hv).
  apply map_err_Ok, parse_gate_ids_iff in Hp as (Hlen & Hform & Hnd & <-).
  assert (parsed <> []) by (intros ->; simpl in Hlen; lia).
  apply for_each_Ok in Hv. split_and!; [by intros ->%fmap_nil_inv|done|].
  apply Forall_forall. intros x (g & -> & Hg)%list_elem_of_fmap.
  rewrite Forall_forall in Hform. pose proof (Hform (GateId_as_str g) ltac:(by apply list_elem_of_fmap_2)) as Hf.
  rewrite Forall_forall in Hv. apply Hv in Hg.
  apply refuse_if_Ok, negb_false_iff, bool_decide_eq_true in Hg as [d Hd].
  unfold registry_argv, registry_definition, gate_refused. simpl in *.
  assert (GateId_parse (GateId_as_str g) = Ok g) as ->.
  { apply GateId_parse_Ok. split; [done|by apply gate_admitted_shape_spec]. }
  simpl. rewrite Hd. simpl. by eexists.
Qed.

Lemma require_exact_gates_Ok admitted proposed u :
  require_exact_gates admitted proposed = Ok u ->
  proposed = admitted /\ exists v, validate_selection admitted = Ok v.
Proof. unfold require_exact_gates. intros Hv. inv_result. naive_solver. Qed.

(** Only a clean zero exit passes. *)
Lemma gate_passed_spec r : gate_passed r = true <-> gr_timed_out r = false /\ gr_exit_code r = Some 0.
Proof.
  unfold gate_passed. rewrite andb_true_iff, negb_true_iff, bool_decide_eq_true. done.
Qed.
