(* ===== verification/Heartbeat.v ===== *)
(** * The runner's heartbeat supervisor

    Models crates/runner/src/clock.rs and heartbeat.rs. A [Duration] is a
    number of nanoseconds. The supervisor is an asynchronous task: what it
    waits for (the timer, the clock and the lease client under a timeout) is
    one [Beat] of input per turn of its loop, and the freeze it broadcasts is
    its result. When the timer and the timeout of the runtime fire is stated
    by [on_time]. *)

From S2P Require Import Prelude External Ids Records Store Text HarnessErrors Runner.
From stdpp Require Import options.

Local Open Scope Z_scope.

(** ** Durations *)

Definition NANOS : Z := 1000000000.
Definition DURATION_MAX : Z := u64_max * NANOS + (NANOS - 1).

(** [Duration + Duration] panics on overflow. *)
Definition duration_add {E} (a b : Z) : result E Z :=
  if bool_decide (a + b <= DURATION_MAX) then Ok (a + b) else Panic.

(** [Duration::as_millis] as a [u64]. *)
Definition as_millis_u64 (d : Z) : Z := (d / 1000000) mod (u64_max + 1).

(** ** The manual clock *)

(** crates/runner/src/clock.rs:42-46 (ManualClock) *)
Record ManualClock : Type := MkManualClock { mc_millis : Z }.

(** crates/runner/src/clock.rs:49-53 (ManualClock::new) *)
Definition ManualClock_new : ManualClock := MkManualClock 0.

(** crates/runner/src/clock.rs:55-58 (ManualClock::set_ms) *)
Definition set_ms (ms : Z) (c : ManualClock) : ManualClock := MkManualClock ms.

(** crates/runner/src/clock.rs:60-63 (ManualClock::advance_ms) *)
Definition advance_ms (ms : Z) (c : ManualClock) : ManualClock :=
  MkManualClock (u64_wrapping_add (mc_millis c) ms).

(** crates/runner/src/clock.rs:65-69 (Clock::now for ManualClock) *)
Definition manual_now (c : ManualClock) : Z := mc_millis c * 1000000.

(** ** The self-kill deadline *)

(** crates/runner/src/clock.rs:72-79 (SelfKillDeadline) *)
Record SelfKillDeadline : Type := MkSelfKillDeadline { sk_budget : Z; sk_deadline : Z }.

(** crates/runner/src/clock.rs:82-91 (SelfKillDeadline::new) *)
Definition SelfKillDeadline_new {E} (now ttl : Z) : result E SelfKillDeadline :=
  let budget := ttl / 5 * 4 in
  deadline ← duration_add now budget;
  mret (MkSelfKillDeadline budget deadline).

(** crates/runner/src/clock.rs:93-96 (SelfKillDeadline::renew) *)
Definition deadline_renew {E} (now : Z) (d : SelfKillDeadline) : result E SelfKillDeadline :=
  deadline ← duration_add now (sk_budget d);
  mret (MkSelfKillDeadline (sk_budget d) deadline).

(** crates/runner/src/clock.rs:98-102 (SelfKillDeadline::expired) *)
Definition deadline_expired (d : SelfKillDeadline) (now : Z) : bool :=
  bool_decide (sk_deadline d <= now).

(** ** The supervisor *)

(** crates/runner/src/heartbeat.rs:14-19 (HeartbeatConfig) *)
Record HeartbeatConfig : Type := MkHeartbeatConfig { hc_interval : Z }.

(** crates/runner/src/heartbeat.rs:22-26 (HeartbeatConfig::default) *)
Definition HeartbeatConfig_default : HeartbeatConfig := MkHeartbeatConfig (2 * NANOS).

(** crates/runner/src/heartbeat.rs:29-39 (FreezeReason) *)
Inductive FreezeReason : Type :=
| FrStaleAuthority (detail : string)
| FrSelfKill (elapsed_ms : Z).

(** crates/runner/src/heartbeat.rs:42-51 (FreezeReason::to_error) *)
Definition to_error (r : FreezeReason) : RunnerError :=
  match r with
  | FrStaleAuthority detail => ReStaleAuthority detail
  | FrSelfKill elapsed_ms => ReSelfKill elapsed_ms
  end.

(** What the task keeps between two turns of its loop. *)
Record Supervisor : Type := MkSupervisor { sv_deadline : SelfKillDeadline; sv_cadence : Z }.

(** The answer of the lease client, under the timeout. *)
Inductive Reply : Type :=
| Acknowledged
| Refused (error : RunnerError)
| TimedOut.

(** One turn: the clock when the timer fired, the answer, and the clock when
    the answer was there. *)
Record Beat : Type := MkBeat { bt_tick : Z; bt_reply : Reply; bt_done : Z }.

(** The checks of [start_heartbeat] before the task is spawned. *)
(** crates/runner/src/heartbeat.rs:79-98 (start_heartbeat) *)
Definition start_heartbeat (ttl_seconds : Z) (config : HeartbeatConfig) : result RunnerError unit :=
  _ ← map_err (fun e => ReLease (LedgerError_reason_code e) (LedgerError_display e))
        (lift_domain (validate_lease_ttl ttl_seconds));
  refuse_if (bool_decide (hc_interval config = 0))
    (ReProtocol "heartbeat interval must be greater than zero").

(** What the task sets up before its loop; [tokio::time::interval] panics on
    an empty period. *)
(** crates/runner/src/heartbeat.rs:100-113 (heartbeat_loop setup) *)
Definition heartbeat_setup (ttl_seconds : Z) (config : HeartbeatConfig) (now : Z)
  : result RunnerError Supervisor :=
  secs ← expect (if bool_decide (0 <= ttl_seconds) then Some ttl_seconds else None);
  deadline ← SelfKillDeadline_new now (secs * NANOS);
  let cadence := Z.min (hc_interval config) (sk_budget deadline / 2) in
  if bool_decide (cadence = 0) then Panic else mret (MkSupervisor deadline cadence).

(** One turn of the loop: it goes on or freezes. *)
(** crates/runner/src/heartbeat.rs:114-134 (heartbeat_loop body) *)
Definition heartbeat_turn (sv : Supervisor) (b : Beat) : result RunnerError (Supervisor + FreezeReason) :=
  if deadline_expired (sv_deadline sv) (bt_tick b) then
    mret (inr (FrSelfKill (as_millis_u64 (bt_tick b))))
  else match bt_reply b with
       | Acknowledged =>
           deadline ← deadline_renew (bt_done b) (sv_deadline sv);
           mret (inl (MkSupervisor deadline (sv_cadence sv)))
       | Refused err =>
           if is_stale err then mret (inr (FrStaleAuthority (RunnerError_display err)))
           else mret (inl sv)
       | TimedOut => mret (inl sv)
       end.

(** crates/runner/src/heartbeat.rs:100-135 (heartbeat_loop) *)
Fixpoint heartbeat_loop (sv : Supervisor) (beats : list Beat)
  : result RunnerError (Supervisor + FreezeReason) :=
  match beats with
  | [] => mret (inl sv)
  | b :: rest =>
      next ← heartbeat_turn sv b;
      match next with
      | inl sv => heartbeat_loop sv rest
      | inr reason => mret (inr reason)
      end
  end.

(** ** The runtime *)

(** The runtime is on time up to [late]: the timer fires at its instant or
    when the task is ready again, and the next instant is at most one cadence
    after the last firing ([MissedTickBehavior::Delay]); the timeout ends a
    call after one cadence. The clock does not go back. *)
Fixpoint on_time (cadence late ready instant : Z) (beats : list Beat) : Prop :=
  match beats with
  | [] => True
  | b :: rest =>
      ready <= bt_tick b <= Z.max instant ready + late
      /\ bt_tick b <= bt_done b <= bt_tick b + cadence + late
      /\ on_time cadence late (bt_done b) (bt_tick b + cadence) rest
  end.

(** The latest instant at which the next firing of the timer can come; until
    then a supervisor that has not frozen cannot freeze itself. *)
Fixpoint next_firing (cadence late ready instant : Z) (beats : list Beat) : Z :=
  match beats with
  | [] => Z.max instant ready + late
  | b :: rest => next_firing cadence late (bt_done b) (bt_tick b + cadence) rest
  end.

(** When the last acknowledgement was sent for and when it was received; the
    grant counts as the first. *)
Fixpoint last_ack (sent received : Z) (beats : list Beat) : Z * Z :=
  match beats with
  | [] => (sent, received)
  | b :: rest => match bt_reply b with
                 | Acknowledged => last_ack (bt_tick b) (bt_done b) rest
                 | _ => last_ack sent received rest
                 end
  end.

(** Some heartbeat was acknowledged. *)
Definition acknowledged (beats : list Beat) : Prop := Exists (fun b => bt_reply b = Acknowledged) beats.

(** ** Lemmas *)

Lemma duration_add_Ok {E} a b d : duration_add (E:=E) a b = Ok d <-> d = a + b /\ a + b <= DURATION_MAX.
Proof. unfold duration_add. case_bool_decide; naive_solver. Qed.

(** The budget is strictly shorter than the time to live. *)
Lemma budget_shorter ttl : 5 <= ttl -> 0 < ttl / 5 * 4 < ttl.
Proof. intros H. pose proof (Z.div_mod ttl 5). pose proof (Z.mod_pos_bound ttl 5). nia. Qed.

Lemma heartbeat_setup_Ok ttl config now sv :
  heartbeat_setup ttl config now = Ok sv ->
  0 <= ttl /\ sk_budget (sv_deadline sv) = ttl * NANOS / 5 * 4
  /\ sk_deadline (sv_deadline sv) = now + sk_budget (sv_deadline sv)
  /\ sv_cadence sv = Z.min (hc_interval config) (sk_budget (sv_deadline sv) / 2).
Proof.
  unfold heartbeat_setup, SelfKillDeadline_new. intros Hs. inv_result.
  repeat case_bool_decide; simplify_eq. inv_result.
  repeat match goal with Hd : duration_add _ _ = Ok _ |- _ => apply duration_add_Ok in Hd as [-> _] end.
  split_and!; done.
Qed.

(** A turn that does not freeze came before the deadline, and moved it only
    on an acknowledgement. *)
Lemma heartbeat_turn_continues sv b sv' :
  heartbeat_turn sv b = Ok (inl sv') ->
  bt_tick b < sk_deadline (sv_deadline sv) /\ sv_cadence sv' = sv_cadence sv
  /\ sk_budget (sv_deadline sv') = sk_budget (sv_deadline sv)
  /\ sk_deadline (sv_deadline sv')
     = match bt_reply b with
       | Acknowledged => bt_done b + sk_budget (sv_deadline sv)
       | _ => sk_deadline (sv_deadline sv)
       end.
Proof.
  unfold heartbeat_turn, deadline_expired, deadline_renew. case_bool_decide; [done|].
  destruct (bt_reply b) as [|e|]; intros Ht.
  - inv_result. match goal with Hd : duration_add _ _ = Ok _ |- _ => apply duration_add_Ok in Hd as [-> _] end.
    simpl. split_and!; [lia|done..].
  - destruct (is_stale e); [done|]. inv_result. split_and!; [lia|done..].
  - inv_result. split_and!; [lia|done..].
Qed.

(** The deadline of a supervisor that has not frozen is one budget after the
    last acknowledgement was received, whatever the runtime does. *)
Lemma running_deadline beats : forall sv sv' sent received,
  heartbeat_loop sv beats = Ok (inl sv') ->
  sk_deadline (sv_deadline sv) = received + sk_budget (sv_deadline sv) ->
  sk_deadline (sv_deadline sv') = (last_ack sent received beats).2 + sk_budget (sv_deadline sv).
Proof.
  induction beats as [|b beats IH]; intros sv sv' sent received Hloop Hd; [simpl in *; by inv_result|].
  simpl in Hloop. apply bind_Ok in Hloop as ([sv1|reason] & Hturn & Hloop); [|done].
  apply heartbeat_turn_continues in Hturn as (_ & _ & Hbud & Hdl). rewrite <-Hbud in *.
  simpl. destruct (bt_reply b); (eapply IH; [done|congruence]).
Qed.

(** Calls that hang until their timeout do not freeze it before its deadline. *)
Lemma hanging_calls_continue sv more :
  Forall (fun b => bt_reply b = TimedOut /\ bt_tick b < sk_deadline (sv_deadline sv)) more ->
  heartbeat_loop sv more = Ok (inl sv).
Proof.
  induction 1 as [|b more [Hr Ht] _ IH]; [done|]. simpl. unfold heartbeat_turn, deadline_expired.
  rewrite bool_decide_false by lia. rewrite Hr. exact IH.
Qed.

Lemma heartbeat_loop_app sv beats more sv' :
  heartbeat_loop sv beats = Ok (inl sv') -> heartbeat_loop sv (beats ++ more) = heartbeat_loop sv' more.
Proof.
  revert sv. induction beats as [|b beats IH]; intros sv Hloop; simpl in *; [by inv_result|].
  apply bind_Ok in Hloop as ([sv1|reason] & -> & Hloop); [|done]. by apply IH.
Qed.

(** With a runtime that is on time its timer fires before the deadline is one
    cadence old, and an acknowledged heartbeat took at most the timeout. *)
Lemma running_before_deadline late beats : forall sv sv' ready instant sent received,
  0 <= late -> 0 <= sv_cadence sv -> 0 < sk_budget (sv_deadline sv) ->
  heartbeat_loop sv beats = Ok (inl sv') ->
  on_time (sv_cadence sv) late ready instant beats ->
  sk_deadline (sv_deadline sv) = received + sk_budget (sv_deadline sv) ->
  received - sent <= sv_cadence sv + late \/ acknowledged beats ->
  Z.max instant ready + late < sk_deadline (sv_deadline sv) + sv_cadence sv + 2 * late ->
  let ack := last_ack sent received beats in
  ack.2 - ack.1 <= sv_cadence sv + late
  /\ next_firing (sv_cadence sv) late ready instant beats
     < ack.2 + sk_budget (sv_deadline sv) + sv_cadence sv + 2 * late.
Proof.
  induction beats as [|b beats IH]; intros sv sv' ready instant sent received Hl Hc Hb Hloop Hon Hd Hack Hnext.
  { simpl in *. destruct Hack as [Hack|Hack]; [|by apply Exists_nil in Hack]. split; lia. }
  simpl in Hloop, Hon. apply bind_Ok in Hloop as (next & Hturn & Hloop).
  destruct next as [sv1|reason]; [|done]. destruct Hon as (Htick & Hdone & Hon).
  apply heartbeat_turn_continues in Hturn as (Hbefore & Hcad & Hbud & Hdl).
  assert (bt_reply b = Acknowledged \/ received - sent <= sv_cadence sv + late \/ acknowledged beats) as Hack'.
  { destruct Hack as [|Hack]; [by right; left|]. apply Exists_cons in Hack as [|]; auto. }
  pose proof (IH sv1 sv') as IH'. rewrite Hcad, Hbud, Hdl in IH'. simpl.
  destruct (bt_reply b); (destruct Hack' as [Hack'|Hack']; [try done|]);
    (eapply IH'; try done; first [exact Hack'|left; lia|lia]).
Qed.

(** The bound for a supervisor that has had an acknowledged heartbeat. *)
Lemma running_until ttl config start late beats sv sv' :
  1 <= ttl <= 15 -> 0 <= hc_interval config -> 0 <= late ->
  heartbeat_setup ttl config start = Ok sv ->
  heartbeat_loop sv beats = Ok (inl sv') ->
  on_time (sv_cadence sv) late start start beats -> acknowledged beats ->
  next_firing (sv_cadence sv) late start start beats
  < (last_ack start start beats).1 + ttl * NANOS / 5 * 4 + 2 * sv_cadence sv + 3 * late.
Proof.
  intros Httl Hint Hl Hsetup Hloop Hon Hack.
  apply heartbeat_setup_Ok in Hsetup as (_ & Hbud & Hdl & Hcad).
  pose proof (budget_shorter (ttl * NANOS)) as Hshort. unfold NANOS in Hshort, Hbud |- *.
  assert (0 <= sv_cadence sv).
  { rewrite Hcad. apply Z.min_glb; [done|]. apply Z.div_pos; lia. }
  edestruct (running_before_deadline late beats sv sv' start start start start) as (Ha & Hn);
    [done|done|lia|done|done|done|by right|lia|]. rewrite Hbud in Hn. lia.
Qed.
