(* ===== verification/Workspace.v ===== *)
(** * Workspace generations

    Models crates/runner/src/gitd/records.rs and workspace_binding.rs: what the
    workspace daemon reports of a generation of the private clone, and how the
    runner checks it: the digests are recomputed and the directories must be
    exactly the admitted ones. *)

From S2P Require Import Prelude External Ids Entities Framing Merkle BudgetPolicy Text HarnessErrors Paths.
From S2P Require Import Submissions Proposal Runner.
From stdpp Require Import options.

Local Open Scope Z_scope.

Definition MANIFEST_DOMAIN : bytes := "bullet-git-generation-manifest-v1".
Definition POINTER_DOMAIN : bytes := "bullet-git-active-generation-v1".
Definition CHECKPOINT_DOMAIN : bytes := "bullet-git.checkpoint.v3".
Definition GENERATION_MAX_SAFE_INTEGER : Z := 9007199254740991.

(** ** Records *)

(** crates/runner/src/gitd/workspace_binding.rs:18-26 (GenerationParentBinding) *)
Record GenerationParentBinding : Type := MkGenerationParent {
  gp_generation : Z;
  gp_manifest_digest : string
}.

(** crates/runner/src/gitd/workspace_binding.rs:28-42 (GenerationCheckpointBinding) *)
Record GenerationCheckpointBinding : Type := MkGenerationCheckpoint {
  gk_id : string;
  gk_through_seq : Z;
  gk_tree : string;
  gk_git_tree : option string;
  gk_digest : string
}.

(** crates/runner/src/gitd/workspace_binding.rs:44-58 (ActiveGenerationBinding) *)
Record ActiveGenerationBinding : Type := MkActiveGeneration {
  gn_generation : Z;
  gn_parent : option GenerationParentBinding;
  gn_manifest_digest : string;
  gn_pointer_digest : string;
  gn_checkpoint : GenerationCheckpointBinding
}.

(** crates/runner/src/gitd/records.rs:28-36 (CheckpointBinding) *)
Record CheckpointBinding : Type := MkCheckpointBinding { cb_id : string; cb_digest : string }.

(** crates/runner/src/gitd/records.rs:8-26 (WorkspaceInfo) *)
Record WorkspaceInfo : Type := MkWorkspaceInfo {
  wi_repo_dir : string;
  wi_runtime_dir : string;
  wi_branch : string;
  wi_base_sha : string;
  wi_base_checkpoint_id : string;
  wi_base_checkpoint_digest : string;
  wi_active_generation : ActiveGenerationBinding
}.

(** crates/runner/src/gitd/records.rs:38-52 (ApplyProposalReceipt) *)
Record ApplyProposalReceipt : Type := MkApplyReceipt {
  ar_proposal_id : string;
  ar_applied : Z;
  ar_checkpoint : CheckpointBinding;
  ar_repo_dir : string;
  ar_active_generation : ActiveGenerationBinding
}.

(** crates/runner/src/gitd/records.rs:54-80 (CandidateReceipt) *)
Record CandidateReceipt : Type := MkCandidateReceipt {
  cr_id : string;
  cr_content_id : string;
  cr_base_commit : string;
  cr_head_commit : string;
  cr_tree_hash : string;
  cr_patch_hash : string;
  cr_actual_scope : list string;
  cr_prepared_at : string
}.

(** crates/runner/src/gitd/records.rs:148-160 (PreservationReceipt) *)
Record PreservationReceipt : Type := MkPreservationReceipt {
  pr_token : string;
  pr_digest : string;
  pr_artifact_digest : string;
  pr_destination : string
}.

(** ** Digests *)

Definition protocol {A} (reason : string) : result RunnerError A := Err (ReProtocol reason).

(** crates/runner/src/gitd/workspace_binding.rs:356-361 (is_lower_hex) *)
Definition lower_hex_text (value : string) (width : Z) : bool :=
  bool_decide (str_len value = width) && string_all is_lower_hex value.

Section Generation.
Context `{Blake3} `{Hex}.

(** crates/runner/src/gitd/workspace_binding.rs:363-370 (framed_digest) *)
Definition framed_digest (fields : list bytes) : Digest :=
  Digest_of (foldr (fun field acc => frame field +:+ acc) EmptyString fields).

(** crates/runner/src/gitd/workspace_binding.rs:330-341 (parse_digest) *)
Definition parse_generation_digest (text label : string) : result RunnerError Digest :=
  _ ← refuse_if (negb (lower_hex_text text 64))
        (ReProtocol (label +:+ " digest is not 64 lowercase hexadecimal characters"));
  map_err (fun e => ReProtocol ("parse " +:+ label +:+ " digest: " +:+ DomainError_display e))
    (from_hex text).

(** crates/runner/src/gitd/workspace_binding.rs:343-354 (validate_git_oid) *)
Definition validate_git_oid (value : string) : result RunnerError unit :=
  refuse_if (negb (match strip_prefix "sha1:" value with
                   | Some body => lower_hex_text body 40 | None => false end
                   || match strip_prefix "sha256:" value with
                      | Some body => lower_hex_text body 64 | None => false end))
    (ReProtocol "checkpoint Git tree is not a tagged Git OID").

(** crates/runner/src/gitd/workspace_binding.rs:247-272 (GenerationCheckpointBinding::validate) *)
Definition checkpoint_validate (c : GenerationCheckpointBinding) : result RunnerError Digest :=
  _ ← refuse_if (bool_decide (GENERATION_MAX_SAFE_INTEGER < gk_through_seq c))
        (ReProtocol "checkpoint sequence exceeds safe integer range");
  tree ← parse_generation_digest (gk_tree c) "checkpoint tree";
  git_tree ← ok_or (gk_git_tree c) (ReProtocol "generation checkpoint lacks an exact Git tree");
  _ ← validate_git_oid git_tree;
  let digest := framed_digest [CHECKPOINT_DOMAIN; u64_to_le_bytes (gk_through_seq c);
                  array32_bytes (as_bytes tree); git_tree] in
  _ ← refuse_if (negb (bool_decide (gk_digest c = to_hex digest)))
        (ReProtocol "checkpoint digest mismatch");
  let id_digest := Digest_of ("ckp:" +:+ to_hex digest) in
  _ ← refuse_if (negb (bool_decide (gk_id c = "ckp_" +:+ to_hex id_digest)))
        (ReProtocol "checkpoint identity mismatch");
  mret digest.

Definition parent_tag (parent : option GenerationParentBinding) : bytes :=
  match parent with Some _ => "parent" | None => "root" end.

(** The manifest of a generation, over its parent's number and digest. *)
Definition manifest_fields (authority : AuthorityToken) (generation : Z)
  (parent : option GenerationParentBinding) (parent_digest : array32) (checkpoint : Digest) : list bytes :=
  [MANIFEST_DOMAIN; id_as_str (AuthorityToken_attempt_id authority);
   hex_encode (array32_bytes (AuthorityToken_workspace_nonce authority));
   u64_to_le_bytes generation; parent_tag parent;
   u64_to_le_bytes (default 0 (gp_generation <$> parent)); array32_bytes parent_digest;
   array32_bytes (as_bytes checkpoint)].
Definition manifest_of (authority : AuthorityToken) (generation : Z)
  (parent : option GenerationParentBinding) (parent_digest : array32) (checkpoint : Digest) : Digest :=
  framed_digest (manifest_fields authority generation parent parent_digest checkpoint).

(** crates/runner/src/gitd/workspace_binding.rs:137-189 (ActiveGenerationBinding::validate) *)
Definition generation_validate (g : ActiveGenerationBinding) (authority : AuthorityToken)
  (expected_generation : Z) (expected_parent : option (Z * string))
  (expected_checkpoint : CheckpointBinding) : result RunnerError unit :=
  _ ← refuse_if (negb (bool_decide (gn_generation g = expected_generation))
                 || negb (bool_decide (gk_id (gn_checkpoint g) = cb_id expected_checkpoint))
                 || negb (bool_decide (gk_digest (gn_checkpoint g) = cb_digest expected_checkpoint)))
        (ReProtocol "active generation does not bind the expected generation/checkpoint");
  _ ← (match gn_parent g, expected_parent with
       | None, None => mret tt
       | Some actual, Some (generation, digest) =>
           if bool_decide (gp_generation actual = generation)
              && bool_decide (gp_manifest_digest actual = digest) then mret tt
           else protocol "active generation parent identity mismatch"
       | _, _ => protocol "active generation parent identity mismatch"
       end);
  checkpoint ← checkpoint_validate (gn_checkpoint g);
  parent_digest ← (match gn_parent g with
                   | Some value => d ← parse_generation_digest (gp_manifest_digest value) "parent manifest";
                                   mret (as_bytes d)
                   | None => mret zero_array32
                   end);
  let expected_manifest := manifest_of authority (gn_generation g) (gn_parent g) parent_digest checkpoint in
  _ ← refuse_if (negb (bool_decide (gn_manifest_digest g = to_hex expected_manifest)))
        (ReProtocol "active generation manifest digest mismatch");
  let expected_pointer := framed_digest [POINTER_DOMAIN; u64_to_le_bytes (gn_generation g);
                            array32_bytes (as_bytes expected_manifest)] in
  refuse_if (negb (bool_decide (gn_pointer_digest g = to_hex expected_pointer)))
    (ReProtocol "active generation pointer digest mismatch").

(** ** Directories *)

(** [{generation:020}]. *)
Definition pad20 (n : Z) : string :=
  let digits := pretty n in
  String.concat EmptyString (replicate (20 - String.length digits) "0") +:+ digits.

(** crates/runner/src/gitd/workspace_binding.rs:295-301 (generation_repo) *)
Definition generation_repo (root : string) (authority : AuthorityToken) (generation : Z) : string :=
  path_join (path_join (path_join (path_join (path_join root "work")
    (id_as_str (AuthorityToken_attempt_id authority))) "generations")
    ("generation-" +:+ pad20 generation)) "repo".

Section Directories.
Context {S : Type} `{!Files S}.
Definition Fs : Type -> Type := stateful S RunnerError.

(** crates/runner/src/gitd/workspace_binding.rs:312-328 (require_canonical_directory) *)
Definition require_canonical_directory (path label : string) : Fs unit :=
  _ ← pure_step (refuse_if (negb (path_is_absolute path)) (ReProtocol (label +:+ " is not absolute")));
  metadata ← st_map_err (fun e => ReProtocol ("inspect " +:+ label +:+ ": " +:+ e))
               (fs_symlink_metadata path);
  _ ← pure_step (refuse_if (negb (bool_decide (md_kind metadata = IsDir)))
        (ReProtocol (label +:+ " is not a no-symlink directory")));
  canonical ← st_map_err (fun e => ReProtocol ("canonicalize " +:+ label +:+ ": " +:+ e))
                (fs_canonicalize path);
  pure_step (refuse_if (negb (path_eq canonical path))
    (ReProtocol (label +:+ " is not already canonical"))).

(** crates/runner/src/gitd/workspace_binding.rs:303-310 (require_exact_directory) *)
Definition require_exact_directory (actual expected label : string) : Fs unit :=
  _ ← pure_step (refuse_if (negb (path_eq actual expected))
        (ReProtocol (label +:+ " is outside its admitted identity")));
  require_canonical_directory actual label.

(** crates/runner/src/gitd/workspace_binding.rs:61-86 (WorkspaceInfo::validate_initial) *)
Definition validate_initial (ws : WorkspaceInfo) (admitted_root admitted_base_sha : string)
  (authority : AuthorityToken) : Fs unit :=
  _ ← require_canonical_directory admitted_root "admitted workspace root";
  let expected_runtime := path_join (path_join admitted_root "runtime")
                            (id_as_str (AuthorityToken_attempt_id authority)) in
  _ ← require_exact_directory (wi_runtime_dir ws) expected_runtime "clone runtime";
  _ ← require_exact_directory (wi_repo_dir ws) (generation_repo admitted_root authority 0)
        "clone repository";
  _ ← pure_step (refuse_if (negb (bool_decide (wi_base_sha ws = admitted_base_sha)))
        (ReProtocol "clone base SHA differs from the admitted base"));
  pure_step (generation_validate (wi_active_generation ws) authority 0 None
    (MkCheckpointBinding (wi_base_checkpoint_id ws) (wi_base_checkpoint_digest ws))).

(** crates/runner/src/gitd/workspace_binding.rs:99-127 (WorkspaceInfo::validate_successor) *)
Definition validate_successor (ws : WorkspaceInfo) (receipt : ApplyProposalReceipt)
  (authority : AuthorityToken) : Fs Z :=
  let active := wi_active_generation ws in
  let generation := gn_generation (ar_active_generation receipt) in
  _ ← pure_step (refuse_if (bool_decide (generation <= gn_generation active))
        (ReProtocol "workspace generation did not advance"));
  _ ← pure_step (generation_validate (ar_active_generation receipt) authority generation
        (Some (gn_generation active, gn_manifest_digest active)) (ar_checkpoint receipt));
  generations ← pure_step (ok_or (path_parent (wi_repo_dir ws) ≫= path_parent)
                  (ReProtocol "active repository lacks its generations root"));
  let expected := path_join (path_join generations ("generation-" +:+ pad20 generation)) "repo" in
  _ ← require_exact_directory (ar_repo_dir receipt) expected "apply repository";
  mret generation.
End Directories.

(** crates/runner/src/gitd/workspace_binding.rs:129-133 (WorkspaceInfo::commit_successor) *)
Definition commit_successor (ws : WorkspaceInfo) (receipt : ApplyProposalReceipt) : WorkspaceInfo :=
  MkWorkspaceInfo (ar_repo_dir receipt) (wi_runtime_dir ws) (wi_branch ws) (wi_base_sha ws)
    (wi_base_checkpoint_id ws) (wi_base_checkpoint_digest ws) (ar_active_generation receipt).
End Generation.

(** ** What a pointer commits to *)

Section Commitment.
Context `{Blake3} `{HexLaws}.















End Commitment.
