(* ===== verification/LedgerFrame.v ===== *)
(** * Which operations touch lease authority

    Two preorders on ledgers. [authority_frame] says that attempts, leases and
    fences are untouched and the event log only grew: every operation outside
    memory/authority.rs moves along it. [ledger_le] says what any operation
    does to authority: fences never decrease, stored attempts keep their
    identity and move along the attempt machine, the event log only grows. *)

From S2P Require Import Prelude External Ids States Entities Text Store Records Submissions.
From S2P Require Import Commands NonceLedger RunCoding Effects GraphDelta Authority Context.
From S2P Require Import Memory MemoryLeases MemoryCommands MemoryEffects MemoryGraphs.
From stdpp Require Import options.

Local Open Scope Z_scope.

Definition authority_frame (l l' : MemoryLedger) : Prop :=
  ml_attempts l' = ml_attempts l /\ ml_leases l' = ml_leases l /\
  ml_fences l' = ml_fences l /\ ml_events l `prefix_of` ml_events l'.

Global Instance authority_frame_preorder : PreOrder authority_frame.
Proof.
  split.
  - intros l. by repeat split.
  - intros l1 l2 l3 (Ha & Hl & Hf & He) (Ha' & Hl' & Hf' & He').
    repeat split; [congruence..|by etrans].
Qed.

Inductive at_path : AttemptState -> AttemptState -> Prop :=
| at_path_refl s : at_path s s
| at_path_step s t u : at_edge s t -> at_path t u -> at_path s u.

Lemma at_path_trans s t u : at_path s t -> at_path t u -> at_path s u.
Proof. induction 1; eauto using at_path. Qed.

(** The attempt that a row may become: same identity columns, and a state
    further along the machine. *)
Definition attempt_le (a b : Attempt) : Prop :=
  Attempt_id b = Attempt_id a /\ same_identity_columns a b = true /\
  at_path (Attempt_state a) (Attempt_state b).

Lemma same_identity_columns_iff a b :
  same_identity_columns a b = true <->
  Attempt_variant_id a = Attempt_variant_id b /\
  Attempt_work_package_id a = Attempt_work_package_id b /\
  Attempt_fence a = Attempt_fence b /\ Attempt_runner_id a = Attempt_runner_id b /\
  Attempt_runner_epoch a = Attempt_runner_epoch b /\
  Attempt_workspace_id a = Attempt_workspace_id b /\
  Attempt_workspace_nonce a = Attempt_workspace_nonce b.
Proof. unfold same_identity_columns. rewrite !andb_true_iff, !bool_decide_eq_true. tauto. Qed.

Global Instance attempt_le_preorder : PreOrder attempt_le.
Proof.
  split.
  - intros a. split; [done|]. split; [by apply same_identity_columns_iff|constructor].
  - intros a b c (Hi & Hs & Hp) (Hi' & Hs' & Hp').
    rewrite same_identity_columns_iff in Hs, Hs'.
    split; [congruence|]. split; [|by eapply at_path_trans].
    apply same_identity_columns_iff.
    destruct Hs as (?&?&?&?&?&?&?), Hs' as (?&?&?&?&?&?&?).
    repeat split; congruence.
Qed.

Definition ledger_le (l l' : MemoryLedger) : Prop :=
  (forall k f, ml_fences l !! k = Some f -> exists f', ml_fences l' !! k = Some f' /\ f <= f') /\
  (forall k a, ml_attempts l !! k = Some a ->
     exists a', ml_attempts l' !! k = Some a' /\ attempt_le a a') /\
  ml_events l `prefix_of` ml_events l'.

Global Instance ledger_le_preorder : PreOrder ledger_le.
Proof.
  split.
  - intros l. split; [intros k f Hf; exists f; split; [done|lia]|].
    split; [|done]. intros k a Ha. exists a. by split.
  - intros l1 l2 l3 (Hf & Ha & He) (Hf' & Ha' & He'). split; [|split; [|by etrans]].
    + intros k f Hk. destruct (Hf k f Hk) as (f' & Hk' & Hle).
      destruct (Hf' k f' Hk') as (f'' & ? & ?). exists f''. split; [done|lia].
    + intros k a Hk. destruct (Ha k a Hk) as (a' & Hk' & Hle).
      destruct (Ha' k a' Hk') as (a'' & ? & ?). exists a''. split; [done|by etrans].
Qed.

Lemma authority_frame_le l l' : authority_frame l l' -> ledger_le l l'.
Proof.
  intros (Ha & _ & Hf & He). split; [|split; [|done]].
  - intros k f Hk. exists f. rewrite Hf. split; [done|lia].
  - intros k a Hk. exists a. by rewrite Ha.
Qed.

(** ** Frames of the primitives *)

Ltac frame_refl := intros; repeat split; cbn; try reflexivity.

Section Frames.
Context `{LedgerExt}.

Lemma frame_tick : moves authority_frame tick.
Proof. intros l. unfold tick. destruct (ml_fail_after_writes l); [case_bool_decide|]; frame_refl. Qed.

Lemma frame_push_event k b s c h : moves authority_frame (push_event k b s c h).
Proof.
  intros l. unfold push_event. destruct (simulation_time l); [|frame_refl|done].
  repeat split. cbn. by apply prefix_app_r.
Qed.

Lemma frame_transaction {A} (body : M A) :
  moves authority_frame body -> moves authority_frame (transaction body).
Proof.
  intros Hb l. specialize (Hb l). unfold transaction.
  destruct (body l) as [l' [a|e|]]; [done|frame_refl|done].
Qed.

Lemma frame_append_only {T} `{EqDecision T} get set key (v : T) what :
  (forall l x, authority_frame l (set l x)) ->
  moves authority_frame (append_only get set key v what).
Proof.
  intros Hs l. unfold append_only. destruct (get l !! key); [case_bool_decide|];
    [reflexivity..|apply Hs].
Qed.

Lemma frame_push_outbox i : moves authority_frame (push_outbox i).
Proof. apply moves_assign; [apply _|]. frame_refl. Qed.
End Frames.

(** Walks a computation and frames each of its steps. *)
Ltac frame_step :=
  match goal with
  | |- moves _ (_ ≫= _) => apply moves_bind; [apply _| |intros ?]
  | |- moves _ (mret _) => apply moves_ret; apply _
  | |- moves _ (reading _) => apply moves_reading; apply _
  | |- moves _ (pure_step _) => apply moves_pure; apply _
  | |- moves _ (domain_refusal _) => apply moves_pure; apply _
  | |- moves _ (store_failure _) => apply moves_pure; apply _
  | |- moves _ (assign _) => apply moves_assign; [apply _|]; intros l; try (frame_refl; fail)
  | |- moves _ tick => apply frame_tick
  | |- moves _ (push_event _ _ _ _ _) => apply frame_push_event
  | |- moves _ (push_outbox _) => apply frame_push_outbox
  | |- moves _ (transaction _) => apply frame_transaction
  | |- moves _ (append_only _ _ _ _ _) => apply frame_append_only
  | |- moves _ (let '(_, _) := ?x in _) => destruct x
  | |- moves _ (if ?b then _ else _) => destruct b
  | |- moves _ (match ?x with _ => _ end) => destruct x
  end.
Ltac frame_walk := repeat (frame_step; try assumption); try (frame_refl; fail); try done.

(** ** Frames of the operations *)

Section OperationFrames.
Context `{LedgerExt} `{Json MaterializeCommandResult} `{Json StoredGraph}
  `{Json CanonicalPlan} `{Json GraphDeltaCommandResult} `{Json GraphDelta}.

Lemma frame_record_command r : moves authority_frame (record_command r).
Proof. unfold record_command. frame_walk. Qed.

Lemma frame_outbox_enqueue c k p : moves authority_frame (outbox_enqueue c k p).
Proof. unfold outbox_enqueue. frame_walk. Qed.

Lemma frame_set_command_phase k p r : moves authority_frame (set_command_phase k p r).
Proof. unfold set_command_phase. frame_walk. Qed.

Lemma frame_admit_run_coding r e : moves authority_frame (admit_run_coding r e).
Proof. unfold admit_run_coding. frame_walk. destruct (_ && _); frame_refl. Qed.

Lemma frame_submit_command r : moves authority_frame (submit_command r).
Proof.
  unfold submit_command, submit_body. frame_walk;
    first [apply frame_record_command|apply frame_outbox_enqueue|apply frame_admit_run_coding].
Qed.

Lemma frame_reconcile id now : moves authority_frame (reconcile_offline_command id now).
Proof. unfold reconcile_offline_command, reconcile_body. frame_walk. Qed.

Lemma frame_record_effect_intent i : moves authority_frame (record_effect_intent i).
Proof. unfold record_effect_intent. frame_walk. Qed.

Lemma frame_transition_effect i t : moves authority_frame (transition_effect i t).
Proof. unfold transition_effect. frame_walk. Qed.

Lemma frame_record_effect_receipt r : moves authority_frame (record_effect_receipt r).
Proof. unfold record_effect_receipt. frame_walk. Qed.

Lemma frame_record_launch_nonce r : moves authority_frame (record_launch_grant_nonce r).
Proof. unfold record_launch_grant_nonce. frame_walk. Qed.

Lemma frame_consume_launch_nonce n a : moves authority_frame (consume_launch_grant_nonce n a).
Proof. unfold consume_launch_grant_nonce. frame_walk. Qed.

Lemma frame_reserve_transport n b e : moves authority_frame (reserve_transport_nonce n b e).
Proof. unfold reserve_transport_nonce. frame_walk. Qed.

Lemma frame_consume_transport n b e : moves authority_frame (consume_transport_nonce n b e).
Proof. unfold consume_transport_nonce. frame_walk. Qed.

Lemma frame_put_candidate c : moves authority_frame (put_candidate c).
Proof. unfold put_candidate. frame_walk. Qed.
Lemma frame_put_evidence e : moves authority_frame (put_evidence e).
Proof. unfold put_evidence. frame_walk. Qed.
Lemma frame_put_effect e : moves authority_frame (put_effect e).
Proof. unfold put_effect. frame_walk. Qed.
Lemma frame_append_event k b : moves authority_frame (append_event k b).
Proof. unfold append_event. frame_walk. Qed.
Lemma frame_enqueue_ready p n : moves authority_frame (enqueue_ready p n).
Proof. unfold enqueue_ready. frame_walk. Qed.
Lemma frame_outbox_mark s p n : moves authority_frame (outbox_mark s p n).
Proof. unfold outbox_mark. frame_walk. Qed.
Lemma frame_put_graph g : moves authority_frame (put_graph g).
Proof. unfold put_graph. frame_walk. Qed.
Lemma frame_issue_coding_nonce k d : moves authority_frame (issue_coding_nonce k d).
Proof. unfold issue_coding_nonce. frame_walk. Qed.
Lemma frame_advance s : moves authority_frame (advance_simulation_time s).
Proof. unfold advance_simulation_time. frame_walk. Qed.
Lemma frame_set_failpoint n : moves authority_frame (set_failpoint n).
Proof. unfold set_failpoint. frame_walk. Qed.

Lemma frame_settle_command k m p r : moves authority_frame (settle_command k m p r).
Proof. unfold settle_command. frame_walk. Qed.

Lemma frame_apply_delta r m d : moves authority_frame (apply_graph_delta_command r m d).
Proof.
  unfold apply_graph_delta_command, delta_body, evaluate_fresh. frame_walk;
    first [apply frame_record_command|apply frame_settle_command].
Qed.
End OperationFrames.
