(* ===== verification/LedgerInv.v ===== *)
(** * The authority invariant of the ledger

    What every reachable ledger satisfies about leases, attempts and fences,
    and that each operation of memory/authority.rs keeps it, refused or not. *)

From S2P Require Import Prelude External Ids States Entities Text Store Records Submissions.
From S2P Require Import Commands GraphDelta Authority Context Memory MemoryLeases LedgerFrame.
From stdpp Require Import options.

Local Open Scope Z_scope.

(** An attempt that may still write. *)
Definition live (a : Attempt) : bool := permits_expiry_reclaim (Attempt_state a).

Record authority_inv (l : MemoryLedger) : Prop := {
  (** A lease is filed under its variant, belongs to a stored attempt with the
      same identity, and carries the variant's current fence. *)
  inv_leases k lease : ml_leases l !! k = Some lease ->
    k = id_as_str (ActiveLease_variant_id lease) /\
    ml_fences l !! k = Some (ActiveLease_fence lease) /\
    exists a, ml_attempts l !! id_as_str (ActiveLease_attempt_id lease) = Some a /\
      lease_of_attempt lease a;
  (** An attempt is filed under its identity, with a fence that the variant's
      counter has reached; while it is live it holds the variant's lease. *)
  inv_attempts k a : ml_attempts l !! k = Some a ->
    k = id_as_str (Attempt_id a) /\
    (exists f, ml_fences l !! id_as_str (Attempt_variant_id a) = Some f /\
       1 <= Attempt_fence a <= f) /\
    (live a = true -> exists lease,
       ml_leases l !! id_as_str (Attempt_variant_id a) = Some lease /\
       ActiveLease_attempt_id lease = Attempt_id a);
  (** No two attempts of a variant share a fence. *)
  inv_distinct k1 k2 a1 a2 :
    ml_attempts l !! k1 = Some a1 -> ml_attempts l !! k2 = Some a2 ->
    Attempt_variant_id a1 = Attempt_variant_id a2 ->
    Attempt_fence a1 = Attempt_fence a2 -> k1 = k2;
  (** A counter counts grants, and each grant left an event. *)
  inv_fences k f : ml_fences l !! k = Some f -> 0 <= f <= Z.of_nat (length (ml_events l));
  (** Attempts are stored when they start. *)
  inv_started k a : ml_attempts l !! k = Some a -> Attempt_state a <> AtCreated
}.

Lemma authority_inv_new : authority_inv MemoryLedger_new.
Proof.
  split; cbn.
  - intros k lease Hk. by rewrite lookup_empty in Hk.
  - intros k a Hk. by rewrite lookup_empty in Hk.
  - intros k1 k2 a1 a2 Hk. by rewrite lookup_empty in Hk.
  - intros k f Hk. by rewrite lookup_empty in Hk.
  - intros k a Hk. by rewrite lookup_empty in Hk.
Qed.

Lemma authority_inv_frame l l' : authority_frame l l' -> authority_inv l -> authority_inv l'.
Proof.
  intros (Ha & Hl & Hf & He) [I1 I2 I3 I4 I5]. split; rewrite ?Ha, ?Hl, ?Hf; [done..| |done].
  intros k f Hk. specialize (I4 k f Hk). apply prefix_length in He. lia.
Qed.

(** The state after one attempt was ended and its lease dropped. *)
Definition retired (l : MemoryLedger) (vkey akey : string) (a : Attempt) (s : AttemptState)
  : MemoryLedger :=
  set_leases (set_attempts l (<[akey := set_Attempt_state a s]> (ml_attempts l)))
    (delete vkey (ml_leases l)).

Lemma authority_inv_retired l vkey lease a s :
  authority_inv l -> ml_leases l !! vkey = Some lease ->
  ml_attempts l !! id_as_str (ActiveLease_attempt_id lease) = Some a ->
  is_terminal_release_target s = true ->
  authority_inv (retired l vkey (id_as_str (ActiveLease_attempt_id lease)) a s).
Proof.
  intros HI Hl Ha Hterm. assert (Hs : permits_expiry_reclaim s = false) by by destruct s.
  destruct (inv_leases _ HI _ _ Hl) as (Hvk & Hfe & a' & Ha' & Hla).
  rewrite Ha in Ha'. injection Ha' as <-.
  destruct Hla as (Hv & Hid & Hla).
  assert (Hat : forall k b, <[id_as_str (ActiveLease_attempt_id lease) := set_Attempt_state a s]>
      (ml_attempts l) !! k = Some b ->
      exists b0, ml_attempts l !! k = Some b0 /\ Attempt_id b = Attempt_id b0 /\
        Attempt_variant_id b = Attempt_variant_id b0 /\ Attempt_fence b = Attempt_fence b0 /\
        (live b = true -> live b0 = true /\ k <> id_as_str (ActiveLease_attempt_id lease))).
  { intros k b Hk. apply lookup_insert_Some in Hk as [[<- <-]|[Hne Hk]].
    - exists a. repeat split; [done|..]; unfold live in *; simpl in *; congruence.
    - exists b. by repeat split. }
  split; unfold retired; cbn.
  - intros k le Hk. apply lookup_delete_Some in Hk as [Hne Hk].
    destruct (inv_leases _ HI _ _ Hk) as (Hk' & Hf & b & Hb & Hlb).
    split; [done|]. split; [done|]. exists b. split; [|done].
    rewrite lookup_insert_ne; [done|]. intros Heq. apply Hne.
    rewrite <- Heq, Ha in Hb. injection Hb as <-.
    destruct Hlb as (Hvb & _). rewrite Hvk, Hk'. congruence.
  - intros k b Hk. destruct (Hat k b Hk) as (b0 & Hb0 & Hi & Hvb & Hfb & Hlive).
    destruct (inv_attempts _ HI _ _ Hb0) as (Hkb & Hf & Hh).
    rewrite Hi, Hvb, Hfb. split; [done|]. split; [done|].
    intros (Hl0 & Hne)%Hlive. destruct (Hh Hl0) as (le & Hle & Hlea).
    exists le. split; [|done]. rewrite lookup_delete_ne; [done|].
    intros Heq. rewrite <- Heq, Hl in Hle. injection Hle as <-. apply Hne. congruence.
  - intros k1 k2 a1 a2 Hk1 Hk2 Hvv Hff.
    destruct (Hat k1 a1 Hk1) as (b1 & Hb1 & _ & Hv1 & Hf1 & _).
    destruct (Hat k2 a2 Hk2) as (b2 & Hb2 & _ & Hv2 & Hf2 & _).
    eapply (inv_distinct _ HI _ _ b1 b2); congruence.
  - apply (inv_fences _ HI).
  - intros k b Hk. apply lookup_insert_Some in Hk as [[_ <-]|[_ Hk]]; [by destruct s|].
    by eapply (inv_started _ HI).
Qed.

(** The authority tables after a grant. *)
Definition granted (l : MemoryLedger) (vkey : string) (g : LeaseGrant) : MemoryLedger :=
  set_leases (set_attempts
    (set_fences l (<[vkey := Attempt_fence (LeaseGrant_attempt g)]> (ml_fences l)))
    (<[id_as_str (Attempt_id (LeaseGrant_attempt g)) := LeaseGrant_attempt g]> (ml_attempts l)))
    (<[vkey := LeaseGrant_lease g]> (ml_leases l)).

Lemma authority_inv_granted l l' vkey g :
  authority_inv l ->
  vkey = id_as_str (Attempt_variant_id (LeaseGrant_attempt g)) ->
  ml_leases l !! vkey = None ->
  ml_attempts l !! id_as_str (Attempt_id (LeaseGrant_attempt g)) = None ->
  Attempt_fence (LeaseGrant_attempt g) = default 0 (ml_fences l !! vkey) + 1 ->
  lease_of_attempt (LeaseGrant_lease g) (LeaseGrant_attempt g) ->
  Attempt_state (LeaseGrant_attempt g) <> AtCreated ->
  ml_attempts l' = ml_attempts (granted l vkey g) ->
  ml_leases l' = ml_leases (granted l vkey g) ->
  ml_fences l' = ml_fences (granted l vkey g) ->
  (length (ml_events l) < length (ml_events l'))%nat ->
  authority_inv l'.
Proof.
  intros HI Hvk Hl Ha Hf Hla Hst Ea El Ef Ee. destruct g as [a lease]. cbn in *.
  destruct Hla as (Hv & Hid & Hfe & Hrest).
  assert (Hold : 0 <= default 0 (ml_fences l !! vkey) <= Z.of_nat (length (ml_events l))).
  { destruct (ml_fences l !! vkey) as [f|] eqn:Hfk; simpl; [by apply (inv_fences _ HI vkey)|lia]. }
  assert (Hnov : forall k b, ml_attempts l !! k = Some b ->
    Attempt_variant_id b = Attempt_variant_id a -> Attempt_fence b < Attempt_fence a /\ live b = false).
  { intros k b Hb Hbv. destruct (inv_attempts _ HI _ _ Hb) as (_ & (f & Hfb & Hle) & Hlive).
    rewrite Hbv, <- Hvk in Hfb, Hlive. rewrite Hfb in Hf. simpl in Hf. split; [lia|].
    destruct (live b); [|done]. destruct Hlive as (? & Hx & _); [done|]. congruence. }
  split; rewrite ?Ea, ?El, ?Ef.
  - intros k le Hk. apply lookup_insert_Some in Hk as [[<- <-]|[Hne Hk]].
    + split; [by rewrite Hvk, Hv|]. split; [rewrite lookup_insert_eq; congruence|].
      exists a. split; [by rewrite Hid, lookup_insert_eq|]. unfold lease_of_attempt. tauto.
    + destruct (inv_leases _ HI _ _ Hk) as (Hk' & Hfl & b & Hb & Hlb).
      split; [done|]. split; [by rewrite lookup_insert_ne|]. exists b. split; [|done].
      rewrite lookup_insert_ne; [done|]. intros Heq. rewrite <- Heq, Ha in Hb. done.
  - intros k b Hk. apply lookup_insert_Some in Hk as [[<- <-]|[Hne Hk]].
    + split; [done|]. rewrite <- Hvk. split.
      * exists (Attempt_fence a). rewrite lookup_insert_eq. split; [done|lia].
      * intros _. exists lease. by rewrite lookup_insert_eq.
    + destruct (inv_attempts _ HI _ _ Hk) as (Hk' & (f & Hfb & Hle) & Hlive).
      destruct (decide (Attempt_variant_id b = Attempt_variant_id a)) as [Hbv|Hbv].
      * destruct (Hnov _ _ Hk Hbv) as [Hlt Hdead]. split; [done|].
        rewrite Hbv, <- Hvk, lookup_insert_eq. split; [exists (Attempt_fence a); split; [done|lia]|].
        congruence.
      * assert (vkey <> id_as_str (Attempt_variant_id b)) as Hkk.
        { rewrite Hvk, Id_eq. congruence. }
        split; [done|]. split; [exists f; by rewrite lookup_insert_ne|].
        intros (le & Hle1 & Hle2)%Hlive. exists le. by rewrite lookup_insert_ne.
  - intros k1 k2 a1 a2 Hk1 Hk2 Hvv Hff.
    apply lookup_insert_Some in Hk1 as [[<- <-]|[Hne1 Hk1]];
      apply lookup_insert_Some in Hk2 as [[<- <-]|[Hne2 Hk2]]; [done|..].
    + destruct (Hnov _ _ Hk2 (eq_sym Hvv)). lia.
    + destruct (Hnov _ _ Hk1 Hvv). lia.
    + by eapply (inv_distinct _ HI).
  - intros k f Hk. apply lookup_insert_Some in Hk as [[_ <-]|[_ Hk]]; [lia|].
    apply (inv_fences _ HI) in Hk. lia.
  - intros k b Hk. apply lookup_insert_Some in Hk as [[_ <-]|[_ Hk]]; [done|].
    by eapply (inv_started _ HI).
Qed.

(** Replacing a row by one that is further along, with live attempts only
    where they were, keeps the invariant. *)
Lemma authority_inv_put l key existing attempt :
  authority_inv l -> ml_attempts l !! key = Some existing ->
  attempt_le existing attempt -> (live attempt = true -> live existing = true) ->
  Attempt_state attempt <> AtCreated ->
  authority_inv (set_attempts l (<[key := attempt]> (ml_attempts l))).
Proof.
  intros HI Hk (Hid & Hsame & _) Hlive Hst.
  apply same_identity_columns_iff in Hsame as (Hv & Hw & Hf & Hr & He & Hws & Hn).
  assert (Hat : forall k b, <[key := attempt]> (ml_attempts l) !! k = Some b ->
      exists b0, ml_attempts l !! k = Some b0 /\ Attempt_id b = Attempt_id b0 /\
        Attempt_variant_id b = Attempt_variant_id b0 /\ Attempt_fence b = Attempt_fence b0 /\
        (live b = true -> live b0 = true)).
  { intros k b Hb. apply lookup_insert_Some in Hb as [[<- <-]|[Hne Hb]]; [exists existing|exists b];
      repeat split; try done; congruence. }
  split; cbn.
  - intros k le Hle. destruct (inv_leases _ HI _ _ Hle) as (Hk' & Hfl & b & Hb & Hlb).
    split; [done|]. split; [done|].
    destruct (decide (key = id_as_str (ActiveLease_attempt_id le))) as [->|Hne].
    + exists attempt. rewrite lookup_insert_eq. split; [done|].
      rewrite Hk in Hb. injection Hb as <-. unfold lease_of_attempt in *.
      destruct Hlb as (?&?&?&?&?&?). repeat split; congruence.
    + exists b. by rewrite lookup_insert_ne.
  - intros k b Hb. destruct (Hat k b Hb) as (b0 & Hb0 & -> & -> & -> & Hl).
    destruct (inv_attempts _ HI _ _ Hb0) as (? & ? & Hh). split; [done|]. split; [done|]. auto.
  - intros k1 k2 a1 a2 Hk1 Hk2 Hvv Hff.
    destruct (Hat k1 a1 Hk1) as (b1 & Hb1 & _ & Hv1 & Hf1 & _).
    destruct (Hat k2 a2 Hk2) as (b2 & Hb2 & _ & Hv2 & Hf2 & _).
    eapply (inv_distinct _ HI _ _ b1 b2); congruence.
  - apply (inv_fences _ HI).
  - intros k b Hb. apply lookup_insert_Some in Hb as [[_ <-]|[_ Hb]]; [done|].
    by eapply (inv_started _ HI).
Qed.

(** Renewing a lease keeps its identity. *)
Lemma authority_inv_renew l vkey lease now expires :
  authority_inv l -> ml_leases l !! vkey = Some lease ->
  authority_inv (set_leases l (<[vkey := renew lease now expires]> (ml_leases l))).
Proof.
  intros HI Hl.
  assert (Hren : forall k le, <[vkey := renew lease now expires]> (ml_leases l) !! k = Some le ->
    exists le0, ml_leases l !! k = Some le0 /\ ActiveLease_variant_id le = ActiveLease_variant_id le0 /\
      ActiveLease_fence le = ActiveLease_fence le0 /\
      ActiveLease_attempt_id le = ActiveLease_attempt_id le0 /\
      (forall a, lease_of_attempt le0 a -> lease_of_attempt le a)).
  { intros k le Hk. apply lookup_insert_Some in Hk as [[<- <-]|[Hne Hk]]; [exists lease|exists le];
      do 4 (split; [done|]); auto. }
  split; cbn.
  - intros k le Hk. destruct (Hren k le Hk) as (le0 & Hle & -> & -> & -> & Hla).
    destruct (inv_leases _ HI _ _ Hle) as (? & ? & a & ? & ?). split; [done|]. split; [done|]. eauto.
  - intros k a Hk. destruct (inv_attempts _ HI _ _ Hk) as (? & ? & Hh).
    split; [done|]. split; [done|]. intros (le & Hle & Hid)%Hh.
    destruct (decide (vkey = id_as_str (Attempt_variant_id a))) as [->|Hne].
    + exists (renew lease now expires). rewrite lookup_insert_eq. split; [done|]. simpl. congruence.
    + exists le. by rewrite lookup_insert_ne.
  - apply (inv_distinct _ HI).
  - apply (inv_fences _ HI).
  - apply (inv_started _ HI).
Qed.

(** New counters start at zero. *)
Lemma authority_inv_seed l fs :
  authority_inv l ->
  (forall k f, ml_fences l !! k = Some f -> fs !! k = Some f) ->
  (forall k f, fs !! k = Some f -> ml_fences l !! k = Some f \/ f = 0) ->
  authority_inv (set_fences l fs).
Proof.
  intros HI Hold Hnew. split; cbn.
  - intros k le Hk. destruct (inv_leases _ HI _ _ Hk) as (? & ? & ?). auto.
  - intros k a Hk. destruct (inv_attempts _ HI _ _ Hk) as (? & (f & ? & ?) & ?).
    split; [done|]. split; [exists f; auto|done].
  - apply (inv_distinct _ HI).
  - intros k f [Hk| ->]%Hnew; [by apply (inv_fences _ HI) in Hk|lia].
  - apply (inv_started _ HI).
Qed.
