(* ===== verification/LedgerSafety.v ===== *)
(** * Every operation keeps the authority invariant

    The operations of the ledger as data, their runs, and the theorems about
    every ledger that a sequence of operations can reach. *)

From S2P Require Import Prelude External Ids States Entities Text Store Records Submissions.
From S2P Require Import Commands NonceLedger RunCoding Effects GraphDelta Authority Context.
From S2P Require Import Memory MemoryLeases MemoryCommands MemoryEffects MemoryGraphs.
From S2P Require Import LedgerFrame LedgerInv.
From stdpp Require Import options.

Local Open Scope Z_scope.

(** The invariant, and what happened to authority since the state [l0]. *)
Definition kept (l0 l : MemoryLedger) : Prop := authority_inv l /\ ledger_le l0 l.

Lemma kept_refl l : authority_inv l -> kept l l.
Proof. by split. Qed.

Lemma kept_frame l0 l l' : kept l0 l -> authority_frame l l' -> kept l0 l'.
Proof.
  intros [HI Hle] Hf. split; [by eapply authority_inv_frame|].
  etrans; [done|by apply authority_frame_le].
Qed.

(** A framed step keeps what is kept, and whatever depends on attempts,
    leases and fences only. *)
Lemma triple_frame {A} l0 (P : MemoryLedger -> Prop) (m : M A) :
  moves authority_frame m -> (forall l l', P l -> authority_frame l l' -> P l') ->
  triple (fun l => kept l0 l /\ P l) m (fun _ l => kept l0 l /\ P l) (kept l0).
Proof.
  intros Hm HP l [Hk HPl]. specialize (Hm l).
  destruct (m l) as [l' [a|e|]]; [|by eapply kept_frame|done].
  split; [by eapply kept_frame|by eapply HP].
Qed.

(** Facts about the leases alone. *)
Lemma frame_leases_stable (m0 : gmap string ActiveLease) l l' :
  ml_leases l = m0 -> authority_frame l l' -> ml_leases l' = m0.
Proof. by intros <- (_ & -> & _). Qed.

Ltac step_reading := eapply triple_bind; [apply triple_reading; tauto|intros ?; cbv beta].
Ltac step_pure := eapply triple_bind; [apply triple_pure; tauto|intros ?; cbv beta].

Section Safety.
Context `{LedgerExt}.

Lemma frame_requeue p now : moves authority_frame (requeue_package p now).
Proof.
  intros l. unfold requeue_package.
  destruct (find_package _ p) as [[[[k g] i] w]|]; [|frame_refl].
  destruct (WorkPackageState_transition _ _); frame_refl.
Qed.

(** ** Ending an attempt *)

Lemma ledger_le_retired l vkey akey a s :
  ml_attempts l !! akey = Some a -> at_edge (Attempt_state a) s ->
  ledger_le l (retired l vkey akey a s).
Proof.
  intros Ha He. split; [intros k f Hk; exists f; split; [done|lia]|]. split; [|done].
  intros k b Hb. unfold retired. cbn.
  destruct (decide (akey = k)) as [<-|Hne]; [|exists b; rewrite lookup_insert_ne by done; by split].
  exists (set_Attempt_state a s). rewrite lookup_insert_eq. split; [done|].
  rewrite Ha in Hb. injection Hb as <-.
  split; [done|]. split; [by apply same_identity_columns_iff|].
  eapply at_path_step; [done|constructor].
Qed.

(** Marking the stored attempt and removing its lease. *)
Lemma triple_retire l0 m0 lease a s vkey :
  is_terminal_release_target s = true -> at_edge (Attempt_state a) s ->
  triple
    (fun l => kept l0 l /\ ml_leases l = m0 /\ m0 !! vkey = Some lease /\
              ml_attempts l !! id_as_str (ActiveLease_attempt_id lease) = Some a)
    (_ ← set_stored_attempt_state (id_as_str (ActiveLease_attempt_id lease)) s;
     remove_lease vkey)
    (fun _ l => kept l0 l /\ ml_leases l = delete vkey m0) (kept l0).
Proof.
  intros Hs He l ([HI Hle] & Hl & Hm & Ha).
  unfold set_stored_attempt_state, remove_lease, assign, mbind, stateful_bind. rewrite Ha.
  change (kept l0 (retired l vkey (id_as_str (ActiveLease_attempt_id lease)) a s) /\
          delete vkey (ml_leases l) = delete vkey m0).
  split; [|by rewrite Hl]. rewrite <- Hl in Hm. split.
  - by apply authority_inv_retired.
  - etrans; [done|]. by apply ledger_le_retired.
Qed.

Lemma reclaim_safe l0 m0 lease now :
  triple
    (fun l => kept l0 l /\ ml_leases l = m0 /\
              m0 !! id_as_str (ActiveLease_variant_id lease) = Some lease)
    (reclaim lease now)
    (fun _ l => kept l0 l /\
       ml_leases l = delete (id_as_str (ActiveLease_variant_id lease)) m0) (kept l0).
Proof.
  unfold reclaim. cbv zeta.
  step_reading. rename a into attempt. step_pure. rename a into u.
  step_pure. rename a into next. step_pure. rename a into payload. step_reading. rename a into seq.
  (* the two writes, then framed steps *)
  intros l Hpre.
  assert (next = AtCrashed /\ at_edge (Attempt_state attempt) AtCrashed) as [-> He].
  { destruct Hpre as ((((((_ & _) & _) & _) & Hn) & _) & _).
    apply map_err_Ok, AttemptState_transition_target in Hn. done. }
  destruct Hpre as (((((Hpre & Ha) & _) & _) & _) & _).
  apply ok_or_Ok in Ha. destruct Hpre as (Hk & Hm & Hl).
  pose proof (triple_retire l0 m0 lease attempt AtCrashed
    (id_as_str (ActiveLease_variant_id lease)) eq_refl He l
    (conj Hk (conj Hm (conj Hl Ha)))) as Hret.
  revert Hret. unfold set_stored_attempt_state, remove_lease, assign, mbind, stateful_bind.
  intros Hret. cbn [fst snd] in *.
  match goal with |- context [requeue_package _ _ ?t] => set (l1 := t) in * end.
  pose proof (frame_requeue (Attempt_work_package_id attempt) now l1) as Hf1.
  destruct (requeue_package (Attempt_work_package_id attempt) now l1) as [l2 [u2|e2|]];
    [|by eapply kept_frame; [apply Hret|]|done].
  match goal with |- context [push_event ?k ?b ?s ?c ?h l2] =>
    pose proof (frame_push_event k b s c h l2) as Hf2;
    destruct (push_event k b s c h l2) as [l3 [u3|e3|]] end;
    [|eapply kept_frame; [apply Hret|by etrans]|done].
  destruct Hret as [Hk1 Hl1]. unfold push_outbox, assign, mret, stateful_ret. cbn [fst snd].
  assert (authority_frame l1 (set_outbox l3 (ml_outbox l3 ++
     [MkOutboxItem seq None RECLAIM_OUTBOX_KIND payload PhasePending None None]))) as Hf.
  { etrans; [exact Hf1|]. etrans; [exact Hf2|]. frame_refl. }
  split; [by eapply kept_frame|]. by eapply frame_leases_stable.
Qed.

(** The table without the rows of these leases. *)
Definition drop_leases (leases : list ActiveLease) (m : gmap string ActiveLease)
  : gmap string ActiveLease :=
  foldl (fun m x => delete (id_as_str (ActiveLease_variant_id x)) m) m leases.

Lemma lookup_drop_leases leases m k x :
  drop_leases leases m !! k = Some x <->
  m !! k = Some x /\ (k ∉ (fun y => id_as_str (ActiveLease_variant_id y)) <$> leases).
Proof.
  unfold drop_leases. revert m. induction leases as [|y leases IH]; intros m; simpl.
  { split; [|by intros []]. intros Hx. split; [done|]. apply not_elem_of_nil. }
  rewrite IH, lookup_delete_Some, not_elem_of_cons. naive_solver.
Qed.

(** Rows of other variants stay when one goes. *)
Lemma rows_after_delete (m0 : gmap string ActiveLease) x leases :
  (id_as_str (ActiveLease_variant_id x)
     ∉ (fun x => id_as_str (ActiveLease_variant_id x)) <$> leases) ->
  Forall (fun x => m0 !! id_as_str (ActiveLease_variant_id x) = Some x) leases ->
  Forall (fun y => delete (id_as_str (ActiveLease_variant_id x)) m0
                     !! id_as_str (ActiveLease_variant_id y) = Some y) leases.
Proof.
  intros Hx Hall. apply Forall_forall. intros y Hy. rewrite Forall_forall in Hall.
  rewrite lookup_delete_ne; [by apply Hall|]. intros Heq. apply Hx. rewrite Heq.
  apply list_elem_of_fmap. eauto.
Qed.

Lemma reclaim_all_safe l0 m0 leases now :
  NoDup ((fun x => id_as_str (ActiveLease_variant_id x)) <$> leases) ->
  Forall (fun x => m0 !! id_as_str (ActiveLease_variant_id x) = Some x) leases ->
  triple (fun l => kept l0 l /\ ml_leases l = m0) (reclaim_all leases now)
    (fun _ l => kept l0 l /\ ml_leases l = drop_leases leases m0) (kept l0).
Proof.
  revert m0. induction leases as [|x leases IH]; intros m0 Hnd Hall; cbn [reclaim_all].
  { apply triple_ret. tauto. }
  rewrite fmap_cons in Hnd. apply NoDup_cons in Hnd as [Hx Hnd].
  apply Forall_cons in Hall as [Hmx Hall].
  eapply triple_bind.
  { eapply triple_conseq; [apply (reclaim_safe l0 m0 x now)| |].
    - intros l [? ?]. done.
    - intros a l Hl. exact Hl. }
  intros expired. cbv beta. eapply triple_bind.
  { apply IH; [done|by apply rows_after_delete]. }
  intros out. cbv beta. by apply triple_ret.
Qed.

(** The due leases are rows of the table, each once. *)
Lemma due_leases_rows l now :
  authority_inv l ->
  NoDup ((fun x => id_as_str (ActiveLease_variant_id x)) <$> due_leases l now) /\
  Forall (fun x => ml_leases l !! id_as_str (ActiveLease_variant_id x) = Some x)
    (due_leases l now).
Proof.
  intros HI. unfold due_leases. split.
  - rewrite merge_sort_Permutation.
    assert (Hsub : forall xs : list (string * ActiveLease),
      NoDup xs.*1 -> Forall (fun kv => kv.1 = id_as_str (ActiveLease_variant_id kv.2)) xs ->
      NoDup ((fun x => id_as_str (ActiveLease_variant_id x)) <$>
             filter (fun x => str_le (ActiveLease_expires_at x) now) xs.*2)).
    { induction xs as [|[k x] xs IH]; intros Hnd Hk; [constructor|].
      rewrite !fmap_cons in *. cbn [fst snd] in *. apply NoDup_cons in Hnd as [Hn Hnd].
      apply Forall_cons in Hk as [Hk1 Hk]. cbn [fst snd] in Hk1. rewrite filter_cons.
      case_decide; [|by apply IH]. rewrite fmap_cons. apply NoDup_cons.
      split; [|by apply IH]. rewrite <- Hk1. intros Hin. apply Hn.
      apply list_elem_of_fmap in Hin as (y & -> & Hy).
      apply list_elem_of_filter in Hy as [_ Hy]. apply list_elem_of_fmap in Hy as ([k' y'] & -> & Hy).
      rewrite Forall_forall in Hk. specialize (Hk _ Hy). simpl in *. rewrite <- Hk.
      apply list_elem_of_fmap. by exists (k', y'). }
    unfold map_values. apply Hsub.
    + rewrite iter_map_perm. apply NoDup_fst_map_to_list.
    + apply Forall_forall. intros [k x] Hx. apply elem_of_iter_map in Hx.
      by destruct (inv_leases _ HI _ _ Hx).
  - rewrite merge_sort_Permutation. apply Forall_forall. intros x Hx.
    apply list_elem_of_filter in Hx as [_ Hx]. apply elem_of_map_values in Hx as [k Hk].
    destruct (inv_leases _ HI _ _ Hk) as (-> & _). done.
Qed.

(** What an operation must satisfy. *)
Definition safe {A} (m : M A) : Prop :=
  forall l0, triple (fun l => l = l0 /\ authority_inv l /\
                      Z.of_nat (length (ml_events l)) <= i64_max)
    m (fun _ => kept l0) (kept l0).

Lemma safe_frame {A} (m : M A) : moves authority_frame m -> safe m.
Proof.
  intros Hm l0 l (-> & HI & _). specialize (Hm l0).
  destruct (m l0) as [l' [a|e|]]; [eapply kept_frame..|done]; try done; by apply kept_refl.
Qed.

Lemma tick_kept l0 : triple (kept l0) tick (fun _ => kept l0) (kept l0).
Proof.
  eapply triple_conseq; [apply (triple_frame l0 (fun _ => True) tick frame_tick); done| |]; naive_solver.
Qed.

Lemma start_kept {A} (m : M A) :
  (forall l0, triple (kept l0) m (fun _ => kept l0) (kept l0)) -> safe m.
Proof.
  intros Hm l0. eapply triple_conseq; [apply (Hm l0)| |done].
  intros l (-> & HI & _). by apply kept_refl.
Qed.

Lemma expire_safe : safe expire_leases.
Proof.
  apply start_kept. intros l0. unfold expire_leases.
  eapply triple_bind; [apply tick_kept|intros u; cbv beta]. step_reading. rename a into now. step_reading. rename a into due.
  intros l ((Hk & _) & Hd). injection Hd as <-.
  destruct (due_leases_rows l now (proj1 Hk)) as [Hnd Hall].
  pose proof (reclaim_all_safe l0 (ml_leases l) (due_leases l now) now Hnd Hall l
    (conj Hk eq_refl)) as Hs.
  destruct (reclaim_all _ now l) as [l' [out|e|]]; [apply Hs|done|done].
Qed.

Lemma reclaim_variant_safe l0 v now :
  triple (kept l0) (reclaim_expired_variant v now) (fun _ => kept l0) (kept l0).
Proof.
  unfold reclaim_expired_variant. step_reading. rename a into held.
  destruct held as [lease|]; [|apply triple_ret; tauto].
  case_bool_decide; [apply triple_ret; tauto|].
  apply (triple_bind _ _ _ (fun _ => kept l0)); [|intros ?; by apply triple_ret].
  intros l [Hk Hh]. injection Hh as Hh.
  destruct (inv_leases _ (proj1 Hk) _ _ Hh) as (Hv & _). rewrite Hv in Hh.
  pose proof (reclaim_safe l0 (ml_leases l) lease now l (conj Hk (conj eq_refl Hh))) as Hr.
  destruct (reclaim lease now l) as [l' [x|e|]]; [apply Hr|done|done].
Qed.

(** [release_lease], [heartbeat] and [put_attempt]. *)
Lemma terminal_not_live s : is_terminal_release_target s = true -> permits_expiry_reclaim s = false.
Proof. by destruct s. Qed.

Lemma release_safe req : safe (release_lease req).
Proof.
  apply start_kept. intros l0. unfold release_lease.
  eapply triple_bind; [apply tick_kept|intros u; cbv beta]. step_pure. cbv zeta.
  step_reading. rename a0 into now. step_reading. rename a0 into held.
  destruct held as [lease|].
  - case_bool_decide as Hid; [|apply triple_err; tauto].
    step_reading. rename a0 into attempt. step_pure. rename a0 into next.
    intros l (((((Hk & Ht) & _) & Hh) & Ha) & Hn).
    injection Hh as Hh. apply ok_or_Ok in Ha. apply refuse_if_Ok in Ht.
    apply map_err_Ok, AttemptState_transition_target in Hn as [-> He].
    apply negb_false_iff in Ht. rewrite <- Hid in *.
    pose proof (triple_retire l0 (ml_leases l) lease attempt _ _ Ht He l
      (conj Hk (conj eq_refl (conj Hh Ha)))) as Hret.
    revert Hret. unfold set_stored_attempt_state, remove_lease, assign, mbind, stateful_bind.
    rewrite Ha. cbn [fst snd]. intros [Hk1 _].
    match goal with |- context [set_leases ?x ?y] => set (l1 := set_leases x y) in * end.
    match goal with |- match (match ?m l1 with _ => _ end) with _ => _ end =>
      assert (Hf1 : match m l1 with (t, (Ok _ | Err _)) => authority_frame l1 t
                                  | (_, Panic) => True end) end.
    { destruct (ReleaseRequest_requeue req); [apply frame_requeue|].
      unfold mret, stateful_ret. reflexivity. }
    match goal with |- match (match ?m l1 with _ => _ end) with _ => _ end =>
      destruct (m l1) as [l2 [u2|e2|]] end; [|by eapply kept_frame|done].
    match goal with |- context [push_event ?k ?b ?s ?c ?h l2] =>
      pose proof (frame_push_event k b s c h l2) as Hf2;
      destruct (push_event k b s c h l2) as [l3 [u3|e3|]] end; [..|done];
      (eapply kept_frame; [exact Hk1|by etrans]).
  - step_reading. rename a0 into stored. destruct stored as [attempt|]; [|apply triple_err; tauto].
    case_bool_decide; [apply triple_ret; tauto|apply triple_err; tauto].
Qed.

Lemma heartbeat_safe req : safe (heartbeat req).
Proof.
  apply start_kept. intros l0. unfold heartbeat. step_pure. rename a into ttl.
  eapply triple_bind; [eapply triple_conseq; [apply tick_kept|tauto|intros u l Hl; exact Hl]|].
  intros u. cbv beta. step_reading. destruct a as [now expires]. cbv zeta.
  step_reading. rename a into current. destruct current as [lease|]; [|apply triple_err; tauto].
  step_reading. rename a into attempt. step_pure. rename a into v.
  destruct (heartbeat_matches req ttl now lease); [|apply triple_err; tauto].
  apply triple_assign. intros l ((((Hk & _) & Hh) & _) & _). injection Hh as Hh.
  destruct Hk as [HI Hle]. split; [by apply authority_inv_renew|].
  etrans; [done|]. split; [intros k f Hf; exists f; split; [done|lia]|].
  split; [|done]. intros k b Hb. exists b. by split.
Qed.

Lemma edge_into_live s t :
  at_edge s t -> permits_expiry_reclaim t = true -> s <> AtCreated ->
  permits_expiry_reclaim s = true.
Proof. destruct s, t; intros [=]; done. Qed.

Lemma edge_not_created s t : at_edge s t -> t <> AtCreated.
Proof. destruct s, t; intros [=]; done. Qed.

Lemma put_attempt_safe attempt : safe (put_attempt attempt).
Proof.
  apply start_kept. intros l0. unfold put_attempt.
  eapply triple_bind; [apply tick_kept|intros u; cbv beta zeta]. step_reading.
  rename a into existing. step_pure. rename a into v.
  apply (triple_bind _ _ _ (fun _ l => kept l0 l /\
    ml_attempts l !! id_as_str (Attempt_id attempt) = Some existing /\
    same_identity_columns existing attempt = true /\
    (Attempt_state existing = Attempt_state attempt \/
     at_edge (Attempt_state existing) (Attempt_state attempt)))).
  { case_bool_decide as Hst.
    - apply triple_ret. intros l ((Hk & Ha) & Hv). inv_result. auto.
    - step_pure. apply triple_ret. intros l (((Hk & Ha) & Hv) & Ht). inv_result.
      match goal with Hx : AttemptState_transition _ _ = Ok _ |- _ =>
        apply AttemptState_transition_target in Hx as [-> ?] end. auto. }
  intros w. cbv beta. apply triple_assign. intros l ([HI Hle] & Ha & Hsame & Hst).
  pose proof (inv_attempts _ HI _ _ Ha) as (Hid & _). apply Id_eq in Hid.
  pose proof (inv_started _ HI _ _ Ha) as Hnc.
  assert (attempt_le existing attempt) as Hle2.
  { split; [done|]. split; [done|].
    destruct Hst as [->|He]; [constructor|]. eapply at_path_step; [done|constructor]. }
  split.
  - eapply authority_inv_put; [done|done|done|..]; unfold live.
    + destruct Hst as [->|He]; [done|]. intros Hl. by eapply edge_into_live.
    + destruct Hst as [Heq|He]; [congruence|by eapply edge_not_created].
  - etrans; [done|]. split; [intros k f Hf; exists f; split; [done|lia]|]. split; [|done].
    intros k b Hb. cbn. destruct (decide (id_as_str (Attempt_id attempt) = k)) as [<-|Hne].
    + exists attempt. rewrite lookup_insert_eq. rewrite Ha in Hb. by injection Hb as <-.
    + exists b. rewrite lookup_insert_ne by done. by split.
Qed.

(** ** Materialisation *)

Lemma or_insert_old {V} (m : gmap string V) k v k' x :
  m !! k' = Some x -> or_insert m k v !! k' = Some x.
Proof.
  intros Hx. unfold or_insert. destruct (m !! k) eqn:Hk; [done|].
  rewrite lookup_insert_ne; [done|]. congruence.
Qed.

Lemma or_insert_new {V} (m : gmap string V) k v k' x :
  or_insert m k v !! k' = Some x -> m !! k' = Some x \/ x = v.
Proof.
  unfold or_insert. destruct (m !! k); [auto|].
  intros [[_ ->]|[_ ?]]%lookup_insert_Some; auto.
Qed.

Lemma seed_fences_old vs m k f : m !! k = Some f -> seed_fences vs m !! k = Some f.
Proof.
  unfold seed_fences. revert m. induction vs as [|v vs IH]; intros m Hm; simpl; [done|].
  by apply IH, or_insert_old.
Qed.

Lemma seed_fences_new vs m k f :
  seed_fences vs m !! k = Some f -> m !! k = Some f \/ f = 0.
Proof.
  unfold seed_fences. revert m. induction vs as [|v vs IH]; intros m Hm; simpl in *; [auto|].
  apply IH in Hm as [Hm|]; [|auto]. by apply or_insert_new in Hm.
Qed.

(** Creating counters is a step of both the invariant and the preorder. *)
Lemma kept_seed l0 l fs :
  kept l0 l -> (forall k f, ml_fences l !! k = Some f -> fs !! k = Some f) ->
  (forall k f, fs !! k = Some f -> ml_fences l !! k = Some f \/ f = 0) ->
  kept l0 (set_fences l fs).
Proof.
  intros [HI Hle] Hold Hnew. split; [by apply authority_inv_seed|].
  etrans; [done|]. split; [|split; [|done]].
  - intros k f Hf. exists f. split; [by apply Hold|lia].
  - intros k a Ha. exists a. by split.
Qed.

Lemma kept_step {A} l0 (m : M A) :
  moves authority_frame m -> triple (kept l0) m (fun _ => kept l0) (kept l0).
Proof.
  intros Hm l Hk. specialize (Hm l).
  destruct (m l) as [l' [a|e|]]; [by eapply kept_frame..|done].
Qed.

Lemma materialize_graph_safe g now : safe (materialize_graph g now).
Proof.
  apply start_kept. intros l0. unfold materialize_graph.
  eapply triple_bind; [apply tick_kept|intros u; cbv beta zeta].
  step_reading. step_pure. rename a0 into capsules. step_reading.
  eapply triple_bind.
  { eapply triple_conseq; [apply (kept_step l0); apply moves_assign; [apply _|frame_refl]| |];
      [tauto|intros ? ? Hx; exact Hx]. }
  intros u2. cbv beta.
  eapply triple_bind; [apply (kept_step l0); apply moves_assign; [apply _|frame_refl]|].
  intros u3. cbv beta.
  eapply triple_bind.
  { apply (triple_assign _ _ (fun _ => kept l0)). intros l Hk. apply kept_seed; [done|..].
    - apply seed_fences_old.
    - apply seed_fences_new. }
  intros u4. cbv beta.
  eapply triple_bind; [apply (kept_step l0); apply moves_assign; [apply _|frame_refl]|].
  intros u5. cbv beta. apply kept_step, frame_push_event.
Qed.

Lemma frame_insert_capsules cs : moves authority_frame (insert_capsules cs).
Proof. induction cs as [|c cs IH]; cbn [insert_capsules]; frame_walk. Qed.

Lemma tick_fences_kept l0 vs : triple (kept l0) (tick_fences vs) (fun _ => kept l0) (kept l0).
Proof.
  induction vs as [|v vs IH]; cbn [tick_fences]; [by apply triple_ret|].
  eapply triple_bind; [apply tick_kept|intros u; cbv beta].
  eapply triple_bind; [|intros u2; cbv beta; exact IH].
  apply (triple_assign _ _ (fun _ => kept l0)). intros l Hk.
  apply kept_seed; [done|..]; intros k f; [apply or_insert_old|apply or_insert_new].
Qed.

Lemma frame_tick_ready ps now : moves authority_frame (tick_ready ps now).
Proof. induction ps as [|p ps IH]; cbn [tick_ready]; frame_walk. Qed.

(** A rolled back transaction leaves what was there. *)
Lemma transaction_safe {A} (m : M A) : safe m -> safe (transaction m).
Proof.
  intros Hm l0 l (-> & HI & Hn). specialize (Hm l0 l0 (conj eq_refl (conj HI Hn))).
  unfold transaction. destruct (m l0) as [l' [a|e|]]; [done| |done].
  eapply kept_frame; [by apply kept_refl|frame_refl].
Qed.

Section PlanSafety.
Context `{Json MaterializeCommandResult} `{Json StoredGraph} `{Json CanonicalPlan}.

Lemma materialize_plan_safe r g now : safe (materialize_plan_command r g now).
Proof.
  unfold materialize_plan_command. intros l0.
  eapply triple_bind; [|intros out; cbv beta; eapply triple_bind;
    [apply tick_kept|intros u; cbv beta; by apply triple_ret]].
  apply transaction_safe, start_kept. clear l0. intros l0. unfold materialize_body.
  eapply triple_bind; [apply kept_step, frame_record_command|]. intros record. cbv beta.
  assert (Hfresh : triple (kept l0) (materialize_fresh r g now) (fun _ => kept l0) (kept l0)).
  { unfold materialize_fresh. cbv zeta. step_reading. step_pure.
    eapply triple_bind; [eapply triple_conseq; [apply tick_kept|tauto|intros ? ? Hx; exact Hx]|].
    intros u1. cbv beta.
    eapply triple_bind; [apply (kept_step l0); apply moves_assign; [apply _|frame_refl]|].
    intros u2. cbv beta. eapply triple_bind; [apply tick_kept|]. intros u3. cbv beta.
    eapply triple_bind.
    { apply kept_step. unfold insert_initial_contexts. frame_walk. apply frame_insert_capsules. }
    intros u4. cbv beta. eapply triple_bind; [apply tick_fences_kept|]. intros u5. cbv beta.
    apply kept_step. frame_walk; [apply frame_tick_ready|apply frame_settle_command]. }
  destruct (CommandRecord_phase record);
    try (apply kept_step; frame_walk; fail).
  destruct (CommandRecord_response record); [apply triple_err; tauto|exact Hfresh].
Qed.
End PlanSafety.

(** ** Acquisition *)

(** What a successful construction guarantees. *)
Lemma build_acquisition_Ok req request ttl now expires l acq :
  build_acquisition req request ttl now expires l = Ok acq ->
  exists graph vidx variant pidx package,
    ml_graphs l !! id_as_str (LeaseRequest_mission_id req) = Some graph /\
    list_find (fun v => Variant_id v = LeaseRequest_variant_id req)
      (StoredGraph_variants graph) = Some (vidx, variant) /\
    list_find (fun p => WorkPackage_id p = Variant_work_package_id variant)
      (StoredGraph_packages graph) = Some (pidx, package) /\
    require_context_revision l graph (WorkPackage_id package)
      (LeaseRequest_context_revision req) = Ok tt /\
    WorkPackage_state package = WpReady /\
    is_Some (ml_ready l !! id_as_str (WorkPackage_id package)) /\
    ml_leases l !! id_as_str (LeaseRequest_variant_id req) = None /\
    let fence := u64_wrapping_add
      (default 0 (ml_fences l !! id_as_str (LeaseRequest_variant_id req))) 1 in
    let attempt := MkAttempt (id_from_seed (LeaseRequest_attempt_seed req))
      (LeaseRequest_variant_id req) (WorkPackage_id package) fence (LeaseRequest_runner_id req)
      (LeaseRequest_runner_epoch req) (LeaseRequest_workspace_id req)
      (LeaseRequest_workspace_nonce req) (LeaseRequest_scope_revision req)
      (LeaseRequest_context_revision req) AtStarting in
    let lease := MkActiveLease (LeaseRequest_variant_id req) (Attempt_id attempt) fence
      (LeaseRequest_runner_id req) (LeaseRequest_runner_epoch req)
      (LeaseRequest_workspace_nonce req) now expires ttl in
    ml_attempts l !! id_as_str (Attempt_id attempt) = None /\
    acq_grant acq = MkLeaseGrant attempt lease /\
    json (MkLeaseGrant attempt lease) = Ok (acq_grant_json acq) /\
    acq_package acq = WorkPackage_id package /\
    acq_graph acq = set_StoredGraph_variants (set_package_at graph pidx package WpLeased)
      (<[vidx := set_Variant_fence_counter variant fence]> (StoredGraph_variants graph)) /\
    acq_command acq = MkCommandRecord (CommandRequest_id request)
      (CommandRequest_idempotency_key request) (CommandRequest_kind request)
      (CommandRequest_payload request) (CommandRequest_digest request) PhaseApplied
      (Some (acq_grant_json acq)) /\
    CommandRecord_validate (acq_command acq) = Ok tt.
Proof.
  unfold build_acquisition. intros Hb.
  apply bind_Ok in Hb as (graph & Hg & Hb). apply ok_or_Ok in Hg.
  apply bind_Ok in Hb as ([vidx variant] & Hv & Hb). apply ok_or_Ok in Hv. cbv beta iota in Hb.
  apply bind_Ok in Hb as ([pidx package] & Hp & Hb). apply ok_or_Ok in Hp. cbv beta iota in Hb.
  apply bind_Ok in Hb as ([] & Hc & Hb). apply bind_Ok in Hb as (u1 & Hr & Hb).
  apply refuse_if_Ok, negb_false_iff, bool_decide_eq_true in Hr.
  apply bind_Ok in Hb as (u2 & Hrow & Hb).
  apply refuse_if_Ok, bool_decide_eq_false in Hrow.
  apply bind_Ok in Hb as (u3 & Hl & Hb). cbv zeta in Hb.
  destruct (ml_leases l !! _) as [holder|] eqn:Hlease; [done|].
  apply bind_Ok in Hb as (u4 & Ha & Hb).
  apply refuse_if_Ok, bool_decide_eq_false in Ha.
  rewrite Hr in Hb. cbn [WorkPackageState_transition] in Hb.
  apply bind_Ok in Hb as (leased & Hle & Hb). injection Hle as <-.
  apply bind_Ok in Hb as (gj & Hj & Hb). apply bind_Ok in Hb as ([] & Hcv & Hb).
  apply map_err_Ok in Hcv. apply bind_Ok in Hb as (seq & _ & Hb). injection Hb as <-.
  exists graph, vidx, variant, pidx, package. cbn [acq_grant acq_grant_json acq_graph
    acq_package acq_command].
  split; [done|]. split; [done|]. split; [done|]. split; [done|]. split; [done|].
  split; [by apply not_eq_None_Some|]. split; [done|]. cbv zeta.
  split; [by apply eq_None_not_Some|]. by repeat split.
Qed.

(** An event is appended, unless the clock cannot be written. *)
Lemma push_event_run k b st c h l l' out :
  push_event k b st c h l = (l', out) ->
  out = Panic \/ (out = Ok tt /\ exists e, l' = set_events l (ml_events l ++ [e])).
Proof.
  unfold push_event, simulation_time, format_simulation_time.
  destruct (format_millis _); simpl; intros [= <- <-]; [right|by left].
  split; [done|]. by eexists.
Qed.

(** The commit, table by table. *)
Lemma commit_acquisition_run req acq l l' out :
  commit_acquisition req acq l = (l', out) ->
  out = Panic \/
  (out = Ok (acq_grant acq) /\
   ml_attempts l' = ml_attempts (granted l (id_as_str (LeaseRequest_variant_id req)) (acq_grant acq)) /\
   ml_leases l' = ml_leases (granted l (id_as_str (LeaseRequest_variant_id req)) (acq_grant acq)) /\
   ml_fences l' = ml_fences (granted l (id_as_str (LeaseRequest_variant_id req)) (acq_grant acq)) /\
   (exists e, ml_events l' = ml_events l ++ [e]) /\
   ml_commands l' = <[LeaseRequest_idempotency_key req := acq_command acq]> (ml_commands l) /\
   ml_context_capsules l' = ml_context_capsules l /\
   ml_graphs l' = <[id_as_str (Mission_id (StoredGraph_mission (acq_graph acq)))
                    := acq_graph acq]> (ml_graphs l) /\
   ml_ready l' = delete (id_as_str (acq_package acq)) (ml_ready l) /\
   ml_outbox l' = ml_outbox l ++ [acq_outbox acq] /\
   ml_simulation_clock_millis l' = ml_simulation_clock_millis l).
Proof.
  unfold commit_acquisition, assign, mret, stateful_ret, mbind, stateful_bind, push_outbox.
  cbv zeta beta iota. intros Hc.
  match type of Hc with context [push_event ?k ?b ?s ?c ?h ?t] =>
    destruct (push_event k b s c h t) as [l2 out2] eqn:Hp end.
  apply push_event_run in Hp as [->|(-> & e & ->)]; apply pair_equal_spec in Hc as [<- <-];
    [by left|right].
  do 4 (split; [done|]). split; [by exists e|]. by repeat split.
Qed.

(** Reclaiming never touches a counter. *)
Definition same_fences (l l' : MemoryLedger) : Prop := ml_fences l' = ml_fences l.

Global Instance same_fences_preorder : PreOrder same_fences.
Proof. split; unfold same_fences; [intros ?; done|intros ??? -> ->; done]. Qed.

Lemma moves_impl {A} (R R' : relation MemoryLedger) (m : M A) :
  (forall l l', R l l' -> R' l l') -> moves R m -> moves R' m.
Proof.
  intros HR Hm l. specialize (Hm l). destruct (m l) as [l' [a|e|]]; auto.
Qed.

Lemma frame_same_fences {A} (m : M A) : moves authority_frame m -> moves same_fences m.
Proof. apply moves_impl. by intros l l' (_ & _ & ? & _). Qed.

(** Reclaiming writes attempts, leases, the queue, events and the outbox. *)
Lemma reclaim_variant_moves (R : relation MemoryLedger) `{!PreOrder R} v now :
  (forall l t, R l (set_attempts l t)) -> (forall l t, R l (set_leases l t)) ->
  (forall l t, R l (set_outbox l t)) -> (forall p, moves R (requeue_package p now)) ->
  (forall k b s c h, moves R (push_event k b s c h)) ->
  moves R (reclaim_expired_variant v now).
Proof.
  intros Ha Hl Ho Hq He.
  unfold reclaim_expired_variant, reclaim, set_stored_attempt_state, remove_lease, push_outbox.
  apply moves_bind; [done|apply moves_reading; done|intros held].
  destruct held as [lease|]; [|apply moves_ret; done].
  case_bool_decide; [apply moves_ret; done|].
  apply moves_bind; [done| |intros ?; apply moves_ret; done].
  repeat (apply moves_bind; [done| |intros ?]);
    try (apply moves_reading; done); try (apply moves_pure; done);
    try (apply moves_ret; done); try apply Hq; try apply He;
    (apply moves_assign; auto).
  intros l. by destruct (ml_attempts l !! _).
Qed.

Lemma reclaim_variant_fences v now : moves same_fences (reclaim_expired_variant v now).
Proof.
  apply reclaim_variant_moves; [apply _|done..| |].
  - intros p. apply frame_same_fences, frame_requeue.
  - intros. apply frame_same_fences, frame_push_event.
Qed.

Lemma triple_frame_fences {A} l0 (m : M A) :
  moves authority_frame m ->
  triple (fun l => kept l0 l /\ same_fences l0 l) m
    (fun _ l => kept l0 l /\ same_fences l0 l) (kept l0).
Proof.
  intros Hm. apply triple_frame; [done|]. unfold same_fences. by intros l l' <- (_ & _ & -> & _).
Qed.

Lemma acquire_fresh_safe req request l0 :
  (forall k f, ml_fences l0 !! k = Some f -> 0 <= f <= i64_max) ->
  triple (fun l => kept l0 l /\ same_fences l0 l)
    (_ ← tick;
     ttl_seconds ← pure_step (lift_domain (LeaseRequest_validated_ttl req));
     '(now, expires_at) ← reading (lease_window ttl_seconds);
     _ ← reclaim_expired_variant (LeaseRequest_variant_id req) now;
     acq ← reading (build_acquisition req request ttl_seconds now expires_at);
     commit_acquisition req acq)
    (fun _ => kept l0) (kept l0).
Proof.
  intros Hbound. eapply triple_bind; [apply triple_frame_fences, frame_tick|].
  intros u. cbv beta. eapply triple_bind; [apply triple_pure; tauto|]. intros ttl. cbv beta.
  eapply triple_bind; [apply triple_reading; tauto|]. intros [now expires]. cbv beta iota.
  apply (triple_bind _ _ _ (fun _ l => kept l0 l /\ same_fences l0 l)).
  { intros l (((Hk & Hf) & _) & _).
    pose proof (reclaim_variant_safe l0 (LeaseRequest_variant_id req) now l Hk) as H1.
    pose proof (reclaim_variant_fences (LeaseRequest_variant_id req) now l) as H2.
    destruct (reclaim_expired_variant _ now l) as [l' [r|e|]]; [|done|done].
    split; [done|]. by etrans. }
  intros r. cbv beta. eapply triple_bind; [apply triple_reading; tauto|].
  intros acq l [[[HI Hle] Hf] Hb].
  destruct (commit_acquisition req acq l) as [l' out] eqn:Hc.
  apply commit_acquisition_run in Hc as [->|(-> & Ea & El & Ef & (e & Ee) & _)]; [done|].
  apply build_acquisition_Ok in Hb
    as (graph & vidx & variant & pidx & package & _ & _ & _ & _ & _ & _ & Hl & Ha & Hg & _).
  cbv zeta in *.
  assert (Hd : 0 <= default 0 (ml_fences l !! id_as_str (LeaseRequest_variant_id req)) <= i64_max).
  { rewrite Hf. destruct (ml_fences l0 !! _) as [f|] eqn:Hfk; simpl; [by eapply Hbound|].
    unfold i64_max. lia. }
  assert (Hw : u64_wrapping_add (default 0 (ml_fences l !! id_as_str (LeaseRequest_variant_id req))) 1
               = default 0 (ml_fences l !! id_as_str (LeaseRequest_variant_id req)) + 1).
  { apply u64_wrapping_add_small. unfold u64_max, i64_max in *. lia. }
  rewrite Hg in Ea, El, Ef.
  assert (authority_inv l') as HI'.
  { match type of Ea with context [granted l ?v ?g] =>
      apply (authority_inv_granted l l' v g) end;
      [exact HI|reflexivity|exact Hl|exact Ha|exact Hw|by repeat split|done|exact Ea|exact El
      |exact Ef|]. rewrite Ee, length_app. simpl. lia. }
  split; [done|]. etrans; [done|]. split; [|split].
  - intros k f Hk. rewrite Ef. cbn.
    destruct (decide (id_as_str (LeaseRequest_variant_id req) = k)) as [<-|Hne].
    + rewrite lookup_insert_eq, Hw, Hk. eexists. split; [done|]. simpl. lia.
    + rewrite lookup_insert_ne by done. exists f. split; [done|lia].
  - intros k a Hk. rewrite Ea. cbn in Ha |- *. rewrite lookup_insert_ne by congruence.
    exists a. by split.
  - rewrite Ee. by apply prefix_app_r.
Qed.

Lemma acquire_safe req : safe (acquire_lease req).
Proof.
  intros l0. apply (triple_conseq (fun l => kept l0 l /\ same_fences l0 l /\
    forall k f, ml_fences l0 !! k = Some f -> 0 <= f <= i64_max) _ _ (fun _ => kept l0)).
  2: { intros l (-> & HI & Hn). split; [by apply kept_refl|]. split; [done|].
       intros k f Hk. apply (inv_fences _ HI) in Hk. lia. }
  2: done.
  unfold acquire_lease. step_pure. rename a into stable. step_pure. rename a into request.
  step_reading. rename a into existing. destruct existing as [existing|].
  - eapply triple_conseq; [apply triple_reading|..]; [|intros l Hl; exact Hl|]; cbv beta; tauto.
  - intros l Hl. apply acquire_fresh_safe; tauto.
Qed.
End Safety.

(** ** Operations and reachable ledgers *)

Inductive ledger_op : Type :=
| OpAcquireLease (req : LeaseRequest)
| OpHeartbeat (req : HeartbeatRequest)
| OpExpireLeases
| OpReleaseLease (req : ReleaseRequest)
| OpPutAttempt (attempt : Attempt)
| OpMaterializeGraph (graph : StoredGraph) (now : string)
| OpMaterializePlan (request : CommandRequest) (graph : StoredGraph) (now : string)
| OpPutGraph (graph : StoredGraph)
| OpGraphDelta (request : CommandRequest) (mission : MissionId) (delta : GraphDelta)
| OpRecordCommand (request : CommandRequest)
| OpSubmitCommand (request : CommandRequest)
| OpReconcileOffline (id : CommandId) (now : string)
| OpSetCommandPhase (key : string) (phase : CommandPhase) (response : option string)
| OpOutboxEnqueue (kind payload : string)
| OpOutboxMark (seq : Z) (phase : CommandPhase) (now : string)
| OpPutCandidate (candidate : Candidate)
| OpPutEvidence (evidence : Evidence)
| OpPutEffect (effect : Effect)
| OpAppendEvent (kind body : string)
| OpEnqueueReady (package : WorkPackageId) (now : string)
| OpRecordEffectIntent (intent : EffectIntentRecord)
| OpTransitionEffect (id : EffectId) (to : EffectState)
| OpRecordEffectReceipt (receipt : EffectReceiptRecord)
| OpRecordLaunchNonce (record : LaunchGrantNonceRecord)
| OpConsumeLaunchNonce (nonce : string) (attempt : AttemptId)
| OpReserveTransportNonce (nonce binding : string) (expires_at_unix_ms : Z)
| OpConsumeTransportNonce (nonce binding : string) (now_unix_ms : Z)
| OpIssueCodingNonce (key digest : string)
| OpAdvanceTime (seconds : Z)
| OpSetFailpoint (allowed : Z).

(** Arguments of machine types are in range. *)
Definition op_typed (op : ledger_op) : Prop :=
  match op with
  | OpAdvanceTime seconds => is_u64 seconds
  | OpSetFailpoint allowed => is_u32 allowed
  | _ => True
  end.
Global Instance op_typed_dec op : Decision (op_typed op).
Proof. destruct op; apply _. Defined.

Definition discard {A} (m : M A) : M unit := _ ← m; mret tt.

Section Reachable.
Context `{LedgerExt} `{Json MaterializeCommandResult} `{Json StoredGraph}
  `{Json CanonicalPlan} `{Json GraphDeltaCommandResult} `{Json GraphDelta}.

Definition run_op (op : ledger_op) : M unit :=
  match op with
  | OpAcquireLease req => discard (acquire_lease req)
  | OpHeartbeat req => heartbeat req
  | OpExpireLeases => discard expire_leases
  | OpReleaseLease req => release_lease req
  | OpPutAttempt attempt => put_attempt attempt
  | OpMaterializeGraph graph now => materialize_graph graph now
  | OpMaterializePlan request graph now => discard (materialize_plan_command request graph now)
  | OpPutGraph graph => put_graph graph
  | OpGraphDelta request mission delta =>
      discard (apply_graph_delta_command request mission delta)
  | OpRecordCommand request => discard (record_command request)
  | OpSubmitCommand request => discard (submit_command request)
  | OpReconcileOffline id now => discard (reconcile_offline_command id now)
  | OpSetCommandPhase key phase response => set_command_phase key phase response
  | OpOutboxEnqueue kind payload => discard (outbox_enqueue None kind payload)
  | OpOutboxMark seq phase now => outbox_mark seq phase now
  | OpPutCandidate c => discard (put_candidate c)
  | OpPutEvidence e => discard (put_evidence e)
  | OpPutEffect e => discard (put_effect e)
  | OpAppendEvent kind body => append_event kind body
  | OpEnqueueReady package now => enqueue_ready package now
  | OpRecordEffectIntent intent => discard (record_effect_intent intent)
  | OpTransitionEffect id to => discard (transition_effect id to)
  | OpRecordEffectReceipt receipt => discard (record_effect_receipt receipt)
  | OpRecordLaunchNonce record => record_launch_grant_nonce record
  | OpConsumeLaunchNonce nonce attempt => discard (consume_launch_grant_nonce nonce attempt)
  | OpReserveTransportNonce nonce binding e => reserve_transport_nonce nonce binding e
  | OpConsumeTransportNonce nonce binding now => discard (consume_transport_nonce nonce binding now)
  | OpIssueCodingNonce key digest => issue_coding_nonce key digest
  | OpAdvanceTime seconds => advance_simulation_time seconds
  | OpSetFailpoint allowed => set_failpoint allowed
  end.

(** One call, accepted or refused. A vector of the process never holds more
    than [isize::MAX] elements, and a panic ends the process. *)
Definition ledger_step (l l' : MemoryLedger) : Prop :=
  Z.of_nat (length (ml_events l)) <= i64_max /\
  exists op out, op_typed op /\ run_op op l = (l', out) /\ out <> Panic.

Definition reachable (l : MemoryLedger) : Prop := rtc ledger_step MemoryLedger_new l.

(** Runs a list of operations, unless one of them panics. *)
Fixpoint run_ops (l : MemoryLedger) (ops : list ledger_op) : option MemoryLedger :=
  match ops with
  | [] => Some l
  | op :: rest =>
      if bool_decide (Z.of_nat (length (ml_events l)) <= i64_max) && bool_decide (op_typed op) then
        match run_op op l with
        | (l', (Ok _ | Err _)) => run_ops l' rest
        | (_, Panic) => None
        end
      else None
  end.

Lemma run_ops_steps l ops l' : run_ops l ops = Some l' -> rtc ledger_step l l'.
Proof.
  revert l. induction ops as [|op ops IH]; intros l Hr; cbn [run_ops] in Hr.
  { injection Hr as <-. apply rtc_refl. }
  destruct (bool_decide _ && bool_decide _) eqn:Hn; [|done].
  apply andb_true_iff in Hn as [Hn%bool_decide_eq_true Ht%bool_decide_eq_true].
  destruct (run_op op l) as [l1 out] eqn:Hop. eapply (rtc_l _ _ l1).
  - split; [done|]. exists op, out. split; [done|]. split; [done|]. by destruct out.
  - destruct out; [by apply IH..|done].
Qed.

Lemma safe_discard {A} (m : M A) : safe m -> safe (discard m).
Proof.
  intros Hm l0. unfold discard. eapply triple_bind; [apply Hm|].
  intros a. cbv beta. by apply triple_ret.
Qed.

Lemma run_op_safe op : safe (run_op op).
Proof.
  destruct op; cbn [run_op]; try apply safe_discard;
    first [ apply acquire_safe | apply heartbeat_safe | apply expire_safe | apply release_safe
          | apply put_attempt_safe | apply materialize_graph_safe | apply materialize_plan_safe
          | apply safe_frame;
            first [ apply frame_put_graph | apply frame_apply_delta | apply frame_record_command
                  | apply frame_submit_command | apply frame_reconcile
                  | apply frame_set_command_phase | apply frame_outbox_enqueue
                  | apply frame_outbox_mark | apply frame_put_candidate | apply frame_put_evidence
                  | apply frame_put_effect | apply frame_append_event | apply frame_enqueue_ready
                  | apply frame_record_effect_intent | apply frame_transition_effect
                  | apply frame_record_effect_receipt | apply frame_record_launch_nonce
                  | apply frame_consume_launch_nonce | apply frame_reserve_transport
                  | apply frame_consume_transport | apply frame_issue_coding_nonce
                  | apply frame_advance | apply frame_set_failpoint ] ].
Qed.

Lemma ledger_step_kept l l' : authority_inv l -> ledger_step l l' -> kept l l'.
Proof.
  intros HI (Hn & op & out & _ & Hrun & Hout).
  pose proof (run_op_safe op l l (conj eq_refl (conj HI Hn))) as Hs. rewrite Hrun in Hs.
  by destruct out.
Qed.

Lemma reachable_kept l l' : authority_inv l -> rtc ledger_step l l' -> kept l l'.
Proof.
  intros HI. induction 1 as [l|l1 l2 l3 Hstep Hrest IH]; [by apply kept_refl|].
  destruct (ledger_step_kept _ _ HI Hstep) as [HI2 Hle2].
  destruct (IH HI2) as [HI3 Hle3]. split; [done|by etrans].
Qed.

Lemma reachable_inv l : reachable l -> authority_inv l.
Proof. intros Hr. by apply (reachable_kept _ _ authority_inv_new). Qed.

(** ** Properties *)

(** C1: Single writer. In every ledger that any sequence of operations can
    reach, accepted or refused, a live attempt holds its variant's lease, no
    other attempt of the variant is live, and its fence is the variant's
    counter, above the fence of every other attempt of the variant. *)
Theorem single_writer_per_variant l k a :
  reachable l ->
  ml_attempts l !! k = Some a -> permits_expiry_reclaim (Attempt_state a) = true ->
  (exists lease, ml_leases l !! id_as_str (Attempt_variant_id a) = Some lease /\
     lease_of_attempt lease a) /\
  ml_fences l !! id_as_str (Attempt_variant_id a) = Some (Attempt_fence a) /\
  forall k' b, ml_attempts l !! k' = Some b -> k' <> k ->
    Attempt_variant_id b = Attempt_variant_id a ->
    permits_expiry_reclaim (Attempt_state b) = false /\ Attempt_fence b < Attempt_fence a.
Proof.
  intros HI%reachable_inv Ha Hl.
  destruct (inv_attempts _ HI _ _ Ha) as (Hk & _ & Hhold).
  destruct (Hhold Hl) as (lease & Hlease & Hid).
  destruct (inv_leases _ HI _ _ Hlease) as (_ & Hfence & a' & Ha' & Hla).
  rewrite Hid, <- Hk, Ha in Ha'. injection Ha' as <-.
  assert (Hf : ActiveLease_fence lease = Attempt_fence a) by apply Hla.
  rewrite Hf in Hfence.
  split; [by exists lease|]. split; [done|]. intros k' b Hb Hne Hv.
  destruct (inv_attempts _ HI _ _ Hb) as (Hk' & (f & Hfb & Hle) & Hholdb).
  rewrite Hv, Hfence in Hfb. injection Hfb as <-. split.
  - destruct (permits_expiry_reclaim (Attempt_state b)) eqn:Hlb; [|done].
    destruct (Hholdb Hlb) as (lease' & Hlease' & Hid').
    rewrite Hv, Hlease in Hlease'. injection Hlease' as <-. congruence.
  - destruct (decide (Attempt_fence b = Attempt_fence a)) as [Heq|]; [|lia].
    exfalso. apply Hne. by eapply (inv_distinct _ HI).
Qed.

(** C2: Authority only moves forward. From a reachable ledger, whatever
    operations follow, no fence counter decreases or disappears, every stored
    attempt keeps its identity columns and only moves along the attempt
    machine, and the event log only grows at its end. *)
Theorem authority_only_moves_forward l l' :
  reachable l -> rtc ledger_step l l' ->
  (forall k f, ml_fences l !! k = Some f ->
     exists f', ml_fences l' !! k = Some f' /\ f <= f') /\
  (forall k a, ml_attempts l !! k = Some a ->
     exists a', ml_attempts l' !! k = Some a' /\ Attempt_id a' = Attempt_id a /\
       same_identity_columns a a' = true /\ at_path (Attempt_state a) (Attempt_state a')) /\
  ml_events l `prefix_of` ml_events l'.
Proof.
  intros HI%reachable_inv Hsteps.
  by destruct (reachable_kept _ _ HI Hsteps) as [_ (Hf & Ha & He)].
Qed.
End Reachable.
