(* ===== verification/LedgerWrites.v ===== *)
(** * Which tables each operation writes

    The tables of the ledger as data, the tables that each operation may
    write, and the operations that write nothing when they refuse. *)

From S2P Require Import Prelude External Ids States Entities Text Store Records Submissions.
From S2P Require Import Commands NonceLedger RunCoding Effects GraphDelta Authority Context.
From S2P Require Import Memory MemoryLeases MemoryCommands MemoryEffects MemoryGraphs.
From S2P Require Import LedgerFrame LedgerInv LedgerSafety.
From stdpp Require Import options.

Local Open Scope Z_scope.

Inductive table : Type :=
| TCommands | TCapsules | TGraphs | TAttempts | TCandidates | TEvidence | TEffects | TEvents
| TLeases | TFences | TReady | TOutbox | TIntents | TEffectKeys | TReceipts | TLaunchNonces
| TTransportGrants | TTransportSettlements | TTransportNonces | TAuthorityNonces | TBudget
| TAuthority | TFailpoint | TClock.

Global Instance table_eq_dec : EqDecision table.
Proof. solve_decision. Defined.

Definition same_table (t : table) (l l' : MemoryLedger) : Prop :=
  match t with
  | TCommands => ml_commands l' = ml_commands l
  | TCapsules => ml_context_capsules l' = ml_context_capsules l
  | TGraphs => ml_graphs l' = ml_graphs l
  | TAttempts => ml_attempts l' = ml_attempts l
  | TCandidates => ml_candidates l' = ml_candidates l
  | TEvidence => ml_evidence l' = ml_evidence l
  | TEffects => ml_effects l' = ml_effects l
  | TEvents => ml_events l' = ml_events l
  | TLeases => ml_leases l' = ml_leases l
  | TFences => ml_fences l' = ml_fences l
  | TReady => ml_ready l' = ml_ready l
  | TOutbox => ml_outbox l' = ml_outbox l
  | TIntents => ml_effect_intents l' = ml_effect_intents l
  | TEffectKeys => ml_effect_keys l' = ml_effect_keys l
  | TReceipts => ml_effect_receipts l' = ml_effect_receipts l
  | TLaunchNonces => ml_launch_grant_nonces l' = ml_launch_grant_nonces l
  | TTransportGrants => ml_lease_transport_grants l' = ml_lease_transport_grants l
  | TTransportSettlements => ml_lease_transport_settlements l' = ml_lease_transport_settlements l
  | TTransportNonces => ml_lease_transport_nonces l' = ml_lease_transport_nonces l
  | TAuthorityNonces => ml_authority_nonces l' = ml_authority_nonces l
  | TBudget => ml_budget_reservations l' = ml_budget_reservations l
  | TAuthority => ml_authority l' = ml_authority l
  | TFailpoint => ml_fail_after_writes l' = ml_fail_after_writes l
  | TClock => ml_simulation_clock_millis l' = ml_simulation_clock_millis l
  end.

Global Instance same_table_preorder t : PreOrder (same_table t).
Proof. by split; [intros l; destruct t|intros l1 l2 l3; destruct t; simpl; intros -> ->]. Qed.

(** At most these tables changed. *)
Definition changes (ts : list table) (l l' : MemoryLedger) : Prop :=
  forall t, bool_decide (t ∈ ts) = false -> same_table t l l'.

Global Instance changes_preorder ts : PreOrder (changes ts).
Proof.
  split; [intros l t _; reflexivity|].
  intros l1 l2 l3 H1 H2 t Ht. etrans; [by apply H1|by apply H2].
Qed.

Lemma changes_mono ts ts' l l' : ts ⊆ ts' -> changes ts l l' -> changes ts' l l'.
Proof.
  intros Hsub Hc t Ht. apply Hc. apply bool_decide_eq_false in Ht.
  apply bool_decide_eq_false. intros Hin. by apply Ht, Hsub.
Qed.

(** The empty change is the same ledger. *)
Lemma changes_nil l l' : changes [] l l' -> l' = l.
Proof.
  intros Hc. destruct l, l'.
  f_equal; first [exact (Hc TCommands eq_refl)|exact (Hc TCapsules eq_refl)
    |exact (Hc TGraphs eq_refl)|exact (Hc TAttempts eq_refl)|exact (Hc TCandidates eq_refl)
    |exact (Hc TEvidence eq_refl)|exact (Hc TEffects eq_refl)|exact (Hc TEvents eq_refl)
    |exact (Hc TLeases eq_refl)|exact (Hc TFences eq_refl)|exact (Hc TReady eq_refl)
    |exact (Hc TOutbox eq_refl)|exact (Hc TIntents eq_refl)|exact (Hc TEffectKeys eq_refl)
    |exact (Hc TReceipts eq_refl)|exact (Hc TLaunchNonces eq_refl)
    |exact (Hc TTransportGrants eq_refl)|exact (Hc TTransportSettlements eq_refl)
    |exact (Hc TTransportNonces eq_refl)|exact (Hc TAuthorityNonces eq_refl)
    |exact (Hc TBudget eq_refl)|exact (Hc TAuthority eq_refl)|exact (Hc TFailpoint eq_refl)
    |exact (Hc TClock eq_refl)].
Qed.

(** ** Writes of the primitives *)

Ltac writes_refl :=
  intros; let t := fresh "t" in let Ht := fresh "Ht" in
  intros t Ht; destruct t; first [reflexivity | discriminate Ht].

(** A write of one table: the goal is decided by which tables are allowed. *)
Section PrimitiveWrites.
Context `{LedgerExt}.

Lemma writes_tick ts : bool_decide (TFailpoint ∈ ts) = true -> moves (changes ts) tick.
Proof.
  intros Hts l. assert (forall x, changes ts l (set_fail_after_writes l x)) as Hs.
  { intros x t Ht. destruct t; try reflexivity. congruence. }
  unfold tick. destruct (ml_fail_after_writes l) as [n|]; [|reflexivity].
  destruct (bool_decide (n = 0)); apply Hs.
Qed.

Lemma writes_push_event ts k b s c h :
  bool_decide (TEvents ∈ ts) = true -> moves (changes ts) (push_event k b s c h).
Proof.
  intros Hts l. destruct (push_event k b s c h l) as [l' out] eqn:Hp.
  apply push_event_run in Hp as [->|(-> & e & ->)]; [done|].
  intros t Ht. destruct t; try reflexivity. congruence.
Qed.

Lemma writes_transaction {A} ts (body : M A) :
  bool_decide (TFailpoint ∈ ts) = true ->
  moves (changes ts) body -> moves (changes ts) (transaction body).
Proof.
  intros Hts Hb l. specialize (Hb l). unfold transaction.
  destruct (body l) as [l' [a|e|]]; [done| |done].
  intros t Ht. destruct t; try reflexivity. congruence.
Qed.

Lemma writes_append_only {T} `{EqDecision T} ts get set key (v : T) what :
  (forall l x, changes ts l (set l x)) ->
  moves (changes ts) (append_only get set key v what).
Proof.
  intros Hs l. unfold append_only. destruct (get l !! key); [case_bool_decide|];
    [reflexivity..|apply Hs].
Qed.
End PrimitiveWrites.

Ltac writes_step :=
  match goal with
  | |- moves _ (_ ≫= _) => apply moves_bind; [apply _| |intros ?]
  | |- moves _ (mret _) => apply moves_ret; apply _
  | |- moves _ (reading _) => apply moves_reading; apply _
  | |- moves _ (pure_step _) => apply moves_pure; apply _
  | |- moves _ (domain_refusal _) => apply moves_pure; apply _
  | |- moves _ (store_failure _) => apply moves_pure; apply _
  | |- moves _ (push_outbox _) => unfold push_outbox
  | |- moves _ (assign _) => apply moves_assign; [apply _|]; intros l; try (writes_refl; fail)
  | |- moves _ tick => apply writes_tick; reflexivity
  | |- moves _ (push_event _ _ _ _ _) => apply writes_push_event; reflexivity
  | |- moves _ (transaction _) => apply writes_transaction; [reflexivity|]
  | |- moves _ (append_only _ _ _ _ _) => apply writes_append_only
  | |- moves _ (let '(_, _) := ?x in _) => destruct x
  | |- moves _ (if ?b then _ else _) => destruct b
  | |- moves _ (match ?x with _ => _ end) => destruct x
  end.
Ltac writes_walk := repeat (writes_step; try assumption); try (writes_refl; fail).

(** ** Writes of the operations *)

Definition write_set (op : ledger_op) : list table :=
  match op with
  | OpAcquireLease _ => [TFailpoint; TAttempts; TLeases; TFences; TReady; TGraphs; TEvents;
                         TCommands; TOutbox]
  | OpHeartbeat _ => [TFailpoint; TLeases]
  | OpExpireLeases => [TFailpoint; TAttempts; TLeases; TReady; TGraphs; TEvents; TOutbox]
  | OpReleaseLease _ => [TFailpoint; TAttempts; TLeases; TReady; TGraphs; TEvents]
  | OpPutAttempt _ => [TFailpoint; TAttempts]
  | OpMaterializeGraph _ _ => [TFailpoint; TGraphs; TCapsules; TFences; TReady; TEvents]
  | OpMaterializePlan _ _ _ =>
      [TFailpoint; TCommands; TGraphs; TCapsules; TFences; TReady; TEvents]
  | OpPutGraph _ => [TFailpoint; TGraphs]
  | OpGraphDelta _ _ _ => [TFailpoint; TCommands; TGraphs; TEvents]
  | OpRecordCommand _ => [TFailpoint; TCommands]
  | OpSubmitCommand _ =>
      [TFailpoint; TCommands; TOutbox; TEvents; TAuthorityNonces; TBudget]
  | OpReconcileOffline _ _ => [TFailpoint; TCommands; TOutbox; TEvents]
  | OpSetCommandPhase _ _ _ => [TFailpoint; TCommands]
  | OpOutboxEnqueue _ _ => [TFailpoint; TOutbox]
  | OpOutboxMark _ _ _ => [TFailpoint; TOutbox]
  | OpPutCandidate _ => [TFailpoint; TCandidates]
  | OpPutEvidence _ => [TFailpoint; TEvidence]
  | OpPutEffect _ => [TFailpoint; TEffects]
  | OpAppendEvent _ _ => [TFailpoint; TEvents]
  | OpEnqueueReady _ _ => [TFailpoint; TReady]
  | OpRecordEffectIntent _ => [TFailpoint; TIntents; TEffectKeys; TEvents]
  | OpTransitionEffect _ _ => [TFailpoint; TIntents; TEvents]
  | OpRecordEffectReceipt _ => [TFailpoint; TReceipts; TEvents]
  | OpRecordLaunchNonce _ => [TFailpoint; TLaunchNonces]
  | OpConsumeLaunchNonce _ _ => [TFailpoint; TLaunchNonces]
  | OpReserveTransportNonce _ _ _ => [TTransportNonces]
  | OpConsumeTransportNonce _ _ _ => [TTransportNonces]
  | OpIssueCodingNonce _ _ => [TAuthorityNonces]
  | OpAdvanceTime _ => [TClock]
  | OpSetFailpoint _ => [TFailpoint]
  end.

Section OperationWrites.
Context `{LedgerExt} `{Json MaterializeCommandResult} `{Json StoredGraph}
  `{Json CanonicalPlan} `{Json GraphDeltaCommandResult} `{Json GraphDelta}.

Lemma writes_requeue ts p now :
  bool_decide (TGraphs ∈ ts) = true -> bool_decide (TReady ∈ ts) = true ->
  moves (changes ts) (requeue_package p now).
Proof.
  intros Hg Hr l. unfold requeue_package.
  destruct (find_package _ p) as [[[[k g] i] w]|]; [|reflexivity].
  destruct (WorkPackageState_transition _ _); [|reflexivity..].
  intros t Ht. destruct t; try reflexivity; congruence.
Qed.

Lemma writes_reclaim_all leases now :
  moves (changes (write_set OpExpireLeases)) (reclaim_all leases now).
Proof.
  induction leases as [|lease leases IH]; cbn [reclaim_all write_set] in *; [writes_walk|].
  unfold reclaim, set_stored_attempt_state, remove_lease. writes_walk.
  - by destruct (ml_attempts l !! _); [writes_refl|reflexivity].
  - by apply writes_requeue.
Qed.

Lemma writes_insert_capsules ts cs :
  bool_decide (TCapsules ∈ ts) = true -> moves (changes ts) (insert_capsules cs).
Proof.
  intros Hts. induction cs as [|c cs IH]; cbn [insert_capsules]; [writes_walk|].
  writes_walk. intros t Ht. destruct t; try reflexivity. congruence.
Qed.

Lemma writes_tick_fences ts vs :
  bool_decide (TFailpoint ∈ ts) = true -> bool_decide (TFences ∈ ts) = true ->
  moves (changes ts) (tick_fences vs).
Proof.
  intros Hp Hts. induction vs as [|v vs IH]; cbn [tick_fences]; [writes_walk|].
  apply moves_bind; [apply _|by apply writes_tick|intros ?]. writes_walk.
  intros t Ht. destruct t; try reflexivity. congruence.
Qed.

Lemma writes_tick_ready ts ps now :
  bool_decide (TFailpoint ∈ ts) = true -> bool_decide (TReady ∈ ts) = true ->
  moves (changes ts) (tick_ready ps now).
Proof.
  intros Hp Hts. induction ps as [|p ps IH]; cbn [tick_ready]; [writes_walk|].
  apply moves_bind; [apply _| |intros ?; exact IH].
  destruct (bool_decide (WorkPackage_state p = WpReady)); [|writes_walk].
  apply moves_bind; [apply _|by apply writes_tick|intros ?]. writes_walk.
  intros t Ht. destruct t; try reflexivity. congruence.
Qed.

Lemma writes_discard {A} ts (m : M A) : moves (changes ts) m -> moves (changes ts) (discard m).
Proof. intros Hm. unfold discard. writes_walk. Qed.

Lemma writes_acquire req : moves (changes (write_set (OpAcquireLease req))) (acquire_lease req).
Proof.
  unfold acquire_lease, commit_acquisition. cbn [write_set]. writes_walk.
  apply reclaim_variant_moves; [apply _|writes_refl..| |].
  - intros p. by apply writes_requeue.
  - intros. by apply writes_push_event.
Qed.

Lemma writes_release req : moves (changes (write_set (OpReleaseLease req))) (release_lease req).
Proof.
  unfold release_lease, set_stored_attempt_state, remove_lease. cbn [write_set]. writes_walk.
  - by destruct (ml_attempts l !! _); [writes_refl|reflexivity].
  - by apply writes_requeue.
Qed.

Lemma writes_record_command ts r :
  bool_decide (TFailpoint ∈ ts) = true -> bool_decide (TCommands ∈ ts) = true ->
  moves (changes ts) (record_command r).
Proof.
  intros Hp Hc. unfold record_command.
  apply moves_bind; [apply _|writes_walk|intros ?].
  apply moves_bind; [apply _|by apply writes_tick|intros ?]. writes_walk.
  intros t Ht. destruct t; try reflexivity. congruence.
Qed.

Lemma writes_submit r : moves (changes (write_set (OpSubmitCommand r))) (submit_command r).
Proof.
  unfold submit_command, submit_body, outbox_enqueue, admit_run_coding. cbn [write_set].
  writes_walk; try by apply writes_record_command.
  all: destruct (_ && _); [writes_refl|reflexivity].
Qed.

Lemma writes_materialize_plan r g n :
  moves (changes (write_set (OpMaterializePlan r g n))) (materialize_plan_command r g n).
Proof.
  unfold materialize_plan_command, materialize_body, materialize_fresh, insert_initial_contexts,
    settle_command.
  cbn [write_set]. writes_walk; first [by apply writes_record_command
    |by apply writes_insert_capsules|by apply writes_tick_fences|by apply writes_tick_ready].
Qed.

Lemma writes_delta r m d :
  moves (changes (write_set (OpGraphDelta r m d))) (apply_graph_delta_command r m d).
Proof.
  unfold apply_graph_delta_command, delta_body, evaluate_fresh, settle_command.
  cbn [write_set]. writes_walk; by apply writes_record_command.
Qed.

(** Every operation, accepted or refused, writes at most its tables. *)
Lemma run_op_writes op : moves (changes (write_set op)) (run_op op).
Proof.
  destruct op; cbn [run_op]; try apply writes_discard;
    first [ apply writes_acquire | apply writes_release | apply writes_submit
          | apply writes_materialize_plan | apply writes_delta
          | by apply writes_record_command
          | unfold expire_leases; writes_walk; apply writes_reclaim_all
          | unfold heartbeat, put_attempt, materialize_graph, put_graph, reconcile_offline_command,
              reconcile_body, set_command_phase, outbox_enqueue, outbox_mark, put_candidate,
              put_evidence, put_effect, append_event, enqueue_ready, record_effect_intent,
              transition_effect, record_effect_receipt, record_launch_grant_nonce,
              consume_launch_grant_nonce, reserve_transport_nonce, consume_transport_nonce,
              issue_coding_nonce, advance_simulation_time, set_failpoint;
            cbn [write_set]; writes_walk ].
Qed.
End OperationWrites.

(** ** Refusals that write nothing *)

(** Does not return an error. *)
Definition infallible {A} (m : M A) : Prop :=
  forall l, match m l with (_, Err _) => False | _ => True end.

(** An error leaves every table but the failpoint counter as it was. *)
Definition clean {A} (m : M A) : Prop :=
  forall l, match m l with (l', Err _) => changes [TFailpoint] l l' | _ => True end.

Lemma clean_quiet {A} (m : M A) : moves (changes [TFailpoint]) m -> clean m.
Proof. intros Hm l. specialize (Hm l). by destruct (m l) as [l' []]. Qed.

Lemma clean_infallible {A} (m : M A) : infallible m -> clean m.
Proof. intros Hm l. specialize (Hm l). by destruct (m l) as [l' []]. Qed.

(** Checks first: a step that writes nothing, then a clean rest. *)
Lemma clean_bind_quiet {A B} (m : M A) (f : A -> M B) :
  moves (changes [TFailpoint]) m -> (forall a, clean (f a)) -> clean (m ≫= f).
Proof.
  intros Hm Hf l. specialize (Hm l). unfold mbind, stateful_bind.
  destruct (m l) as [l1 [a|e|]]; [|done|done].
  specialize (Hf a l1). destruct (f a l1) as [l2 [b|e|]]; [done| |done]. by etrans.
Qed.

(** Then the writes, none of which can fail. *)
Lemma clean_bind_infallible {A B} (m : M A) (f : A -> M B) :
  clean m -> (forall a, infallible (f a)) -> clean (m ≫= f).
Proof.
  intros Hm Hf l. specialize (Hm l). unfold mbind, stateful_bind.
  destruct (m l) as [l1 [a|e|]]; [|done|done].
  specialize (Hf a l1). by destruct (f a l1) as [l2 []].
Qed.

Lemma infallible_bind {A B} (m : M A) (f : A -> M B) :
  infallible m -> (forall a, infallible (f a)) -> infallible (m ≫= f).
Proof.
  intros Hm Hf l. specialize (Hm l). unfold mbind, stateful_bind.
  destruct (m l) as [l1 [a|e|]]; [|done|done].
  specialize (Hf a l1). by destruct (f a l1) as [l2 []].
Qed.

Lemma infallible_ret {A} (a : A) : infallible (mret a).
Proof. by intros l. Qed.
Lemma infallible_assign (f : MemoryLedger -> MemoryLedger) : infallible (assign f).
Proof. by intros l. Qed.

Lemma clean_transaction {A} (body : M A) : clean (transaction body).
Proof.
  intros l. unfold transaction. destruct (body l) as [l' [a|e|]]; [done| |done]. writes_refl.
Qed.

Lemma clean_discard {A} (m : M A) : clean m -> clean (discard m).
Proof. intros Hm. apply clean_bind_infallible; [done|]. intros a. apply infallible_ret. Qed.

Section RefusalLemmas.
Context `{LedgerExt}.

Lemma infallible_push_event k b s c h : infallible (push_event k b s c h).
Proof.
  intros l. destruct (push_event k b s c h l) as [l' out] eqn:Hp.
  by apply push_event_run in Hp as [->|(-> & _)].
Qed.

Lemma clean_append_only {T} `{EqDecision T} get set key (v : T) what :
  clean (append_only get set key v what).
Proof.
  intros l. unfold append_only. destruct (get l !! key); [|done].
  case_bool_decide; [done|reflexivity].
Qed.
End RefusalLemmas.

Ltac infallible_walk :=
  repeat first [ apply infallible_bind; [|intros ?] | apply infallible_ret
               | apply infallible_assign | apply infallible_push_event
               | match goal with |- infallible (push_outbox _) => unfold push_outbox end ].

Ltac clean_step :=
  match goal with
  | |- clean (let '(_, _) := ?x in _) => destruct x
  | |- clean (if ?b then _ else _) => destruct b
  | |- clean (match ?x with _ => _ end) => destruct x
  | |- clean (append_only _ _ _ _ _) => apply clean_append_only
  | |- clean (transaction _) => apply clean_transaction
  | |- clean _ => apply clean_quiet; solve [writes_walk]
  | |- clean (_ ≫= _) => apply clean_bind_quiet; [solve [writes_walk]|intros ?]
  | |- clean _ => apply clean_infallible; solve [infallible_walk]
  end.
Ltac clean_walk := cbv zeta; repeat (clean_step; cbv zeta).

(** The operations that decide before they write. The others can refuse after
    a write: [acquire_lease] after it reclaimed the expired lease of its
    variant, [expire_leases] after earlier leases of the batch,
    [release_lease] when the package to requeue is missing, and the two graph
    commands when the failpoint strikes after the commit. *)
Definition decides_first (op : ledger_op) : bool :=
  match op with
  | OpAcquireLease _ | OpExpireLeases | OpReleaseLease _
  | OpMaterializePlan _ _ _ | OpGraphDelta _ _ _ => false
  | _ => true
  end.

Section Refusals.
Context `{LedgerExt} `{Json MaterializeCommandResult} `{Json StoredGraph}
  `{Json CanonicalPlan} `{Json GraphDeltaCommandResult} `{Json GraphDelta}.

Lemma run_op_clean op : decides_first op = true -> clean (run_op op).
Proof.
  destruct op; intros Hd; try discriminate Hd; cbn [run_op]; try apply clean_discard;
    unfold submit_command, record_command, heartbeat, put_attempt, materialize_graph, put_graph,
      reconcile_offline_command,
      set_command_phase, outbox_enqueue, outbox_mark, put_candidate,
      put_evidence, put_effect, append_event, enqueue_ready, record_effect_intent,
      transition_effect, record_effect_receipt, record_launch_grant_nonce,
      consume_launch_grant_nonce, reserve_transport_nonce, consume_transport_nonce,
      issue_coding_nonce, advance_simulation_time, set_failpoint;
    clean_walk.
Qed.

(** C28: Every operation of the ledger, accepted or refused, writes at most the
    tables listed for it; and an operation that decides before it writes
    (all but five) leaves every table as it was when it refuses, only the
    failpoint counter of the test harness may move. *)
Theorem operations_write_only_their_tables op l l' out :
  run_op op l = (l', out) -> out <> Panic ->
  changes (write_set op) l l' /\
  (decides_first op = true -> is_err out = true -> changes [TFailpoint] l l').
Proof.
  intros Hrun Hp. split.
  - pose proof (run_op_writes op l) as Hw. rewrite Hrun in Hw. by destruct out.
  - intros Hd He. pose proof (run_op_clean op Hd l) as Hc. rewrite Hrun in Hc. by destruct out.
Qed.
End Refusals.
