(* ===== verification/LedgerLeases.v ===== *)
(** * What the lease operations do to a reachable ledger

    The functional behaviour of acquisition, heartbeat, expiry and the
    active-lease check, on the ledgers that operations can reach. *)

From S2P Require Import Prelude External Ids States Entities Text Store Records Submissions.
From S2P Require Import Commands NonceLedger RunCoding Effects GraphDelta Authority Context.
From S2P Require Import Memory MemoryLeases MemoryCommands MemoryEffects MemoryGraphs.
From S2P Require Import LedgerFrame LedgerInv LedgerSafety.
From stdpp Require Import options.

Local Open Scope Z_scope.

(** ** The clock *)

Definition same_clock (l l' : MemoryLedger) : Prop :=
  ml_simulation_clock_millis l' = ml_simulation_clock_millis l.

Global Instance same_clock_preorder : PreOrder same_clock.
Proof. split; unfold same_clock; [intros ?; done|intros ??? -> ->; done]. Qed.

Section Clock.
Context `{LedgerExt}.

Lemma clock_tick : moves same_clock tick.
Proof.
  intros l. unfold tick. destruct (ml_fail_after_writes l) as [n|]; [|done].
  by case_bool_decide.
Qed.

Lemma clock_push_event k b s c h : moves same_clock (push_event k b s c h).
Proof.
  intros l. destruct (push_event k b s c h l) as [l' out] eqn:Hp.
  by apply push_event_run in Hp as [->|(-> & e & ->)].
Qed.

Lemma clock_requeue p now : moves same_clock (requeue_package p now).
Proof.
  intros l. unfold requeue_package.
  destruct (find_package _ p) as [[[[k g] i] w]|]; [|done].
  by destruct (WorkPackageState_transition _ _).
Qed.

Lemma clock_reclaim_variant v now : moves same_clock (reclaim_expired_variant v now).
Proof.
  apply reclaim_variant_moves; [apply _|done..|intros p; apply clock_requeue|].
  intros. apply clock_push_event.
Qed.

Lemma moves_run {A} (R : relation MemoryLedger) (m : M A) l l' a :
  moves R m -> m l = (l', Ok a) -> R l l'.
Proof. intros Hm Hr. specialize (Hm l). by rewrite Hr in Hm. Qed.

(** The window starts now and has the requested length. *)
Lemma lease_window_Ok ttl l now expires :
  lease_window ttl l = Ok (now, expires) ->
  format_millis (ml_simulation_clock_millis l) = Some now /\
  format_millis (ml_simulation_clock_millis l + ttl * 1000) = Some expires.
Proof.
  unfold lease_window, simulation_time, format_simulation_time, i64_checked_mul, i64_checked_add.
  intros Hw. apply bind_Ok in Hw as (expiry & He & Hw). apply ok_or_Ok in He.
  apply bind_Some in He as (ms & [-> _]%to_i64_Some & [-> _]%to_i64_Some).
  inv_result. done.
Qed.
End Clock.

(** ** Acquisition *)

Section Acquire.
Context `{LedgerExt}.

(** After the reclaim step the variant is free, or nothing was due. *)
Lemma reclaim_variant_Ok v now l l' out :
  authority_inv l -> reclaim_expired_variant v now l = (l', Ok out) ->
  authority_inv l' /\ same_fences l l' /\ same_clock l l' /\
  (ml_leases l' = ml_leases l \/ ml_leases l' = delete (id_as_str v) (ml_leases l)).
Proof.
  intros HI Hr.
  split; [pose proof (reclaim_variant_safe l v now l (kept_refl _ HI)) as Hs;
          rewrite Hr in Hs; apply Hs|].
  split; [exact (moves_run _ _ _ _ _ (reclaim_variant_fences v now) Hr)|].
  split; [exact (moves_run _ _ _ _ _ (clock_reclaim_variant v now) Hr)|].
  unfold reclaim_expired_variant in Hr. apply st_bind_Ok in Hr as (l1 & held & Hh & Hr).
  apply st_reading_Ok in Hh as [-> Hh]. injection Hh as Hh. destruct held as [lease|].
  2: { apply st_ret_Ok in Hr as [-> _]. by left. }
  case_bool_decide; [apply st_ret_Ok in Hr as [-> _]; by left|right].
  apply st_bind_Ok in Hr as (l2 & x & Hc & Hr). apply st_ret_Ok in Hr as [-> _].
  destruct (inv_leases _ HI _ _ Hh) as (Hv & _). rewrite Hv in Hh |- *.
  pose proof (reclaim_safe l (ml_leases l) lease now l
    (conj (kept_refl _ HI) (conj eq_refl Hh))) as Hs.
  rewrite Hc in Hs. apply Hs.
Qed.

(** The next fence never wraps on a ledger with the invariant. *)
Lemma next_fence l v :
  authority_inv l -> Z.of_nat (length (ml_events l)) <= i64_max ->
  u64_wrapping_add (default 0 (ml_fences l !! v)) 1 = default 0 (ml_fences l !! v) + 1.
Proof.
  intros HI Hn. apply u64_wrapping_add_small. unfold u64_max, i64_max in *.
  destruct (ml_fences l !! v) as [f|] eqn:Hf; simpl; [|lia].
  apply (inv_fences _ HI) in Hf. lia.
Qed.

(** A first acquisition that succeeds: the ledger it was built on, and what
    was committed. *)
Lemma acquire_fresh_Ok req l l' g :
  authority_inv l -> ml_commands l !! LeaseRequest_idempotency_key req = None ->
  acquire_lease req l = (l', Ok g) ->
  exists l1 request ttl now expires acq,
    authority_inv l1 /\ same_fences l l1 /\ same_clock l l1 /\
    (ml_leases l1 = ml_leases l \/
     ml_leases l1 = delete (id_as_str (LeaseRequest_variant_id req)) (ml_leases l)) /\
    1 <= ttl <= 15 /\ lease_window ttl l1 = Ok (now, expires) /\
    build_acquisition req request ttl now expires l1 = Ok acq /\
    commit_acquisition req acq l1 = (l', Ok g).
Proof.
  intros HI Hnone Hacq. unfold acquire_lease in Hacq.
  apply st_bind_Ok in Hacq as (s1 & stable & H1 & Hacq). apply st_pure_Ok in H1 as [-> _].
  apply st_bind_Ok in Hacq as (s2 & request & H2 & Hacq). apply st_pure_Ok in H2 as [-> _].
  apply st_bind_Ok in Hacq as (s3 & existing & H3 & Hacq). apply st_reading_Ok in H3 as [-> H3].
  injection H3 as H3. rewrite Hnone in H3. subst existing.
  apply st_bind_Ok in Hacq as (s4 & u & Htick & Hacq).
  apply st_bind_Ok in Hacq as (s5 & ttl & Httl & Hacq). apply st_pure_Ok in Httl as [-> Httl].
  apply map_err_Ok, validate_lease_ttl_Ok in Httl as [-> Httl].
  apply st_bind_Ok in Hacq as (s6 & [now expires] & Hw & Hacq).
  apply st_reading_Ok in Hw as [-> Hw]. cbv beta iota in Hacq.
  apply st_bind_Ok in Hacq as (s7 & r & Hr & Hacq).
  apply st_bind_Ok in Hacq as (s8 & acq & Hb & Hacq). apply st_reading_Ok in Hb as [-> Hb].
  pose proof (moves_run _ _ _ _ _ frame_tick Htick) as Hfr.
  pose proof (moves_run _ _ _ _ _ clock_tick Htick) as Hck.
  destruct Hfr as (Hfa & Hfl & Hff & Hfe).
  apply reclaim_variant_Ok in Hr as (HI' & Hf & Hc & Hl);
    [|by apply (authority_inv_frame l); [split_and!|]].
  exists s7, request, (LeaseRequest_ttl_seconds req), now, expires, acq.
  unfold same_fences, same_clock in *. rewrite Hff in Hf. rewrite Hfl in Hl. rewrite Hck in Hc.
  do 4 (split; [done|]). split; [done|]. split; [|by split].
  revert Hw. unfold lease_window, simulation_time. by rewrite Hck, <- Hc.
Qed.
End Acquire.

(** ** The active-lease check *)

Section Check.
Context `{LedgerExt}.

(** The check reads the lease of the variant and the attempt it names. *)
Lemma check_active_lease_Ok subject l u :
  check_active_lease subject l = Ok u ->
  exists lease a, ml_leases l !! id_as_str (als_variant_id subject) = Some lease /\
    ml_attempts l !! id_as_str (ActiveLease_attempt_id lease) = Some a /\
    permits_online_lease_check (Attempt_state a) = true /\
    subject = ActiveLeaseSubject_from_attempt a /\ lease_of_attempt lease a.
Proof.
  unfold check_active_lease. intros Hc.
  apply bind_Ok in Hc as (lease & Hl & Hc). apply ok_or_Ok in Hl.
  apply bind_Ok in Hc as (a & Ha & Hc). apply ok_or_Ok in Ha.
  apply bind_Ok in Hc as (now & _ & Hc).
  apply check_active_lease_snapshot_Ok in Hc as (h & e & n & _ & _ & _ & _ & Hs & Hsub & Hla).
  by exists lease, a.
Qed.

(** A lease that was just written for an attempt that may work passes. *)
Lemma check_active_lease_now `{!ChronoLaws} l a lease ttl now expires :
  lease_window ttl l = Ok (now, expires) -> 1 <= ttl ->
  ml_leases l !! id_as_str (Attempt_variant_id a) = Some lease ->
  ml_attempts l !! id_as_str (Attempt_id a) = Some a ->
  permits_online_lease_check (Attempt_state a) = true -> lease_of_attempt lease a ->
  ActiveLease_heartbeat_at lease = now -> ActiveLease_expires_at lease = expires ->
  check_active_lease (ActiveLeaseSubject_from_attempt a) l = Ok tt.
Proof.
  intros [Hn He]%lease_window_Ok Httl Hl Ha Hs Hla Hh Hx.
  assert (Hid : ActiveLease_attempt_id lease = Attempt_id a) by apply Hla.
  unfold check_active_lease, simulation_time, format_simulation_time. simpl.
  rewrite Hl. run_result. rewrite Hid, Ha. run_result. rewrite Hn. run_result.
  apply check_active_lease_snapshot_Ok.
  exists (ml_simulation_clock_millis l * 1000000),
    ((ml_simulation_clock_millis l + ttl * 1000) * 1000000), (ml_simulation_clock_millis l * 1000000).
  rewrite Hh, Hx. do 3 (split; [by apply parse_format|]). split; [lia|]. done.
Qed.
End Check.

(** The fence that the next holder of a variant gets. *)
Definition fence_after (l : MemoryLedger) (v : string) : Z := default 0 (ml_fences l !! v) + 1.

Section LeaseTheorems.
Context `{LedgerExt} `{Json MaterializeCommandResult} `{Json StoredGraph}
  `{Json CanonicalPlan} `{Json GraphDeltaCommandResult} `{Json GraphDelta}.

(** C24: Acquisition hands authority over. A first acquisition that succeeds on
    a reachable ledger stores a new attempt with the next fence of its variant
    and no other counter or lease changes; from then on the active-lease check
    accepts exactly the granted attempt for that variant, whoever held the
    variant before. *)
Theorem acquire_hands_over_authority `{!ChronoLaws} req l l' g :
  reachable l -> Z.of_nat (length (ml_events l)) <= i64_max ->
  ml_commands l !! LeaseRequest_idempotency_key req = None ->
  acquire_lease req l = (l', Ok g) ->
  let v := id_as_str (LeaseRequest_variant_id req) in
  let a := LeaseGrant_attempt g in
  let fence := fence_after l v in
  Attempt_fence a = fence /\ ml_fences l' = <[v := fence]> (ml_fences l) /\
  ml_leases l' = <[v := LeaseGrant_lease g]> (ml_leases l) /\
  ml_attempts l' !! id_as_str (Attempt_id a) = Some a /\
  (forall subject, als_variant_id subject = LeaseRequest_variant_id req ->
     (check_active_lease subject l' = Ok tt <->
      subject = ActiveLeaseSubject_from_attempt a)).
Proof.
  intros HI%reachable_inv Hn Hnone Hacq v a fence.
  apply acquire_fresh_Ok in Hacq
    as (l1 & request & ttl & now & expires & acq & HI1 & Hf & Hc & Hl & Httl & Hw & Hb & Hcm);
    [|done..].
  apply commit_acquisition_run in Hcm as [Hp|(Hg & Ea & El & Ef & _ & _ & _ & _ & _ & _ & Eck)];
    [done|]. injection Hg as ->.
  apply build_acquisition_Ok in Hb
    as (graph & vidx & variant & pidx & package & _ & _ & _ & _ & _ & _ & Hnol & Hnoa & Hgr & _).
  cbv zeta in Hnoa, Hgr. unfold a. rewrite Hgr in Ea, El, Ef |- *. cbn in Ea, El, Ef |- *.
  assert (Hfe : u64_wrapping_add (default 0 (ml_fences l1 !! v)) 1 = fence).
  { unfold same_fences in Hf. rewrite Hf. by apply next_fence. }
  fold v in Ea, El, Ef |- *. rewrite Hfe in Ea, El, Ef |- *. rewrite Hf in Ef.
  assert (Hle : ml_leases l' = <[v := MkActiveLease (LeaseRequest_variant_id req)
      (id_from_seed (LeaseRequest_attempt_seed req)) fence (LeaseRequest_runner_id req)
      (LeaseRequest_runner_epoch req) (LeaseRequest_workspace_nonce req) now expires ttl]>
      (ml_leases l)).
  { rewrite El. destruct Hl as [-> | ->]; [done|]. by rewrite insert_delete_eq. }
  split; [done|]. split; [done|]. split; [done|].
  split; [by rewrite Ea, lookup_insert_eq|]. intros subject Hv. split.
  - intros (le & b & Hlb & Hb & _ & Hsub & _)%check_active_lease_Ok.
    rewrite Hv in Hlb. fold v in Hlb. rewrite Hle, lookup_insert_eq in Hlb.
    injection Hlb as <-. cbn in Hb. rewrite Ea, lookup_insert_eq in Hb. by injection Hb as <-.
  - intros ->. eapply (check_active_lease_now _ _ _ ttl now expires);
      [|lia|cbn; fold v; by rewrite Hle, lookup_insert_eq|cbn; by rewrite Ea, lookup_insert_eq
      |done|by repeat split|done|done].
    revert Hw. unfold lease_window, simulation_time. by rewrite Eck.
Qed.
End LeaseTheorems.
