(* ===== verification/LedgerExpiry.v ===== *)
(** * Leases are bounded in time

    Every lease of a reachable ledger ends at most fifteen seconds after the
    ledger's clock; what follows for expiry. *)

From S2P Require Import Prelude External Ids States Entities Text Store Records Submissions.
From S2P Require Import Commands NonceLedger RunCoding Effects GraphDelta Authority Context.
From S2P Require Import Memory MemoryLeases MemoryCommands MemoryEffects MemoryGraphs.
From S2P Require Import LedgerFrame LedgerInv LedgerSafety LedgerWrites LedgerLeases.
From stdpp Require Import options.

Local Open Scope Z_scope.

Section Timed.
Context `{LedgerExt}.

(** The window of a lease was written by the clock, at or before [clock]. *)
Definition timed (clock : Z) (lease : ActiveLease) : Prop :=
  exists h, format_millis h = Some (ActiveLease_heartbeat_at lease) /\
    format_millis (h + ActiveLease_ttl_seconds lease * 1000)
      = Some (ActiveLease_expires_at lease) /\
    1 <= ActiveLease_ttl_seconds lease <= 15 /\ 0 <= h <= clock.

Definition times_ok (l : MemoryLedger) : Prop :=
  0 <= ml_simulation_clock_millis l /\
  forall k lease, ml_leases l !! k = Some lease -> timed (ml_simulation_clock_millis l) lease.

Definition keeps_times (l l' : MemoryLedger) : Prop := times_ok l -> times_ok l'.

Global Instance keeps_times_preorder : PreOrder keeps_times.
Proof. split; unfold keeps_times; [by intros l|intros l1 l2 l3; auto]. Qed.

(** No lease is new, and the clock did not go back. *)
Lemma keeps_times_shrink l l' :
  ml_leases l' ⊆ ml_leases l -> ml_simulation_clock_millis l <= ml_simulation_clock_millis l' ->
  keeps_times l l'.
Proof.
  intros Hsub Hc [H0 Ht]. split; [lia|]. intros k lease Hk. eapply lookup_weaken in Hk; [|done].
  destruct (Ht _ _ Hk) as (h & ? & ? & ? & ?). exists h. split_and!; [done|done|lia..].
Qed.

Lemma changes_keeps_times ts l l' :
  bool_decide (TLeases ∈ ts) = false -> bool_decide (TClock ∈ ts) = false ->
  changes ts l l' -> keeps_times l l'.
Proof.
  intros Hl Hc Hch. apply keeps_times_shrink.
  - by rewrite (Hch TLeases Hl).
  - rewrite (Hch TClock Hc). done.
Qed.

Lemma moves_times {A} ts (m : M A) :
  bool_decide (TLeases ∈ ts) = false -> bool_decide (TClock ∈ ts) = false ->
  moves (changes ts) m -> moves keeps_times m.
Proof. intros Hl Hc. apply moves_impl. intros l l'. by apply changes_keeps_times. Qed.

Lemma times_insert l k lease :
  times_ok l -> timed (ml_simulation_clock_millis l) lease ->
  times_ok (set_leases l (<[k := lease]> (ml_leases l))).
Proof.
  intros [H0 Ht] Hn. split; [done|]. intros k' le Hk. cbn in *.
  apply lookup_insert_Some in Hk as [[_ <-]|[_ Hk]]; [done|by eapply Ht].
Qed.

Lemma window_timed l ttl now expires lease :
  times_ok l -> lease_window ttl l = Ok (now, expires) -> 1 <= ttl <= 15 ->
  ActiveLease_heartbeat_at lease = now -> ActiveLease_expires_at lease = expires ->
  ActiveLease_ttl_seconds lease = ttl -> timed (ml_simulation_clock_millis l) lease.
Proof.
  intros [H0 _] [Hn He]%lease_window_Ok Httl Hh Hx Ht. subst. eexists. split_and!; [done|done|lia..].
Qed.

Lemma times_remove_lease k : moves keeps_times (remove_lease k).
Proof.
  apply moves_assign; [apply _|]. intros l. apply keeps_times_shrink; [|done].
  apply delete_subseteq.
Qed.

Lemma times_tick : moves keeps_times tick.
Proof. by apply (moves_times [TFailpoint]), writes_tick. Qed.
Lemma times_push_event k b s c h : moves keeps_times (push_event k b s c h).
Proof. by apply (moves_times [TEvents]), writes_push_event. Qed.
Lemma times_requeue p now : moves keeps_times (requeue_package p now).
Proof. by apply (moves_times [TGraphs; TReady]), writes_requeue. Qed.
Lemma times_set_state k s : moves keeps_times (set_stored_attempt_state k s).
Proof.
  apply (moves_times [TAttempts]); [done..|]. apply moves_assign; [apply _|]. intros l.
  destruct (ml_attempts l !! k); [writes_refl|reflexivity].
Qed.
Lemma times_push_outbox i : moves keeps_times (push_outbox i).
Proof. apply (moves_times [TOutbox]); [done..|]. unfold push_outbox. writes_walk. Qed.
End Timed.

Ltac times_step :=
  match goal with
  | |- moves _ (_ ≫= _) => apply moves_bind; [apply _| |intros ?]
  | |- moves _ (mret _) => apply moves_ret; apply _
  | |- moves _ (reading _) => apply moves_reading; apply _
  | |- moves _ (pure_step _) => apply moves_pure; apply _
  | |- moves _ (domain_refusal _) => apply moves_pure; apply _
  | |- moves _ tick => apply times_tick
  | |- moves _ (push_event _ _ _ _ _) => apply times_push_event
  | |- moves _ (push_outbox _) => apply times_push_outbox
  | |- moves _ (requeue_package _ _) => apply times_requeue
  | |- moves _ (set_stored_attempt_state _ _) => apply times_set_state
  | |- moves _ (remove_lease _) => apply times_remove_lease
  | |- moves _ (if ?b then _ else _) => destruct b
  | |- moves _ (match ?x with _ => _ end) => destruct x
  end.
Ltac times_walk := repeat (times_step; try assumption).

Section TimedOperations.
Context `{LedgerExt}.

Lemma times_reclaim lease now : moves keeps_times (reclaim lease now).
Proof. unfold reclaim. times_walk. Qed.

Lemma times_reclaim_variant v now : moves keeps_times (reclaim_expired_variant v now).
Proof. unfold reclaim_expired_variant. times_walk. apply times_reclaim. Qed.

Lemma times_expire : moves keeps_times expire_leases.
Proof.
  unfold expire_leases. times_walk.
  match goal with |- moves _ (reclaim_all ?x _) => induction x as [|lease rest IH] end;
    cbn [reclaim_all]; times_walk. apply times_reclaim.
Qed.

Lemma times_release req : moves keeps_times (release_lease req).
Proof. unfold release_lease. times_walk. Qed.

Lemma times_triple {A} (m : M A) :
  moves keeps_times m <-> triple times_ok m (fun _ => times_ok) times_ok.
Proof.
  unfold moves, triple, keeps_times.
  split; intros Hm l; [intros Ht|]; specialize (Hm l); destruct (m l) as [l' [a|e|]]; auto.
Qed.

Lemma times_heartbeat req : moves keeps_times (heartbeat req).
Proof.
  unfold heartbeat. apply times_triple. step_pure. rename a into ttl.
  eapply triple_bind.
  { intros l [Ht Httl]. pose proof (times_tick l) as Hm. unfold keeps_times in Hm.
    instantiate (1 := fun _ l => times_ok l /\ 1 <= ttl <= 15 /\ HeartbeatRequest_ttl_seconds req = ttl).
    apply map_err_Ok, validate_lease_ttl_Ok in Httl as [-> Httl].
    destruct (tick l) as [l' [u|e|]]; auto. }
  intros u. cbv beta. step_reading. destruct a as [now expires]. cbv zeta.
  step_reading. rename a into current. destruct current as [current|]; [|apply triple_err; tauto].
  step_reading. rename a into attempt. step_pure. rename a into u1.
  destruct (heartbeat_matches req ttl now current) eqn:Hm; [|apply triple_err; tauto].
  apply triple_assign. intros l (((((Ht & Httl) & Hw) & Hcur) & _) & _).
  apply times_insert; [done|].
  apply (window_timed _ ttl now expires); [done|done|lia|done|done|].
  unfold heartbeat_matches in Hm. rewrite !andb_true_iff, !bool_decide_eq_true in Hm. simpl. tauto.
Qed.

Lemma times_acquire req : moves keeps_times (acquire_lease req).
Proof.
  unfold acquire_lease. apply times_triple. step_pure. rename a into stable.
  step_pure. rename a into request. step_reading. rename a into existing.
  destruct existing as [existing|].
  { eapply triple_conseq; [apply triple_reading|intros l Hl; exact Hl|]; cbv beta; tauto. }
  apply (triple_conseq times_ok _ _ (fun _ => times_ok)); [|tauto|done].
  eapply triple_bind; [apply times_triple, times_tick|intros u; cbv beta].
  step_pure. rename a into ttl. step_reading. destruct a as [now expires]. cbv beta iota.
  apply (triple_bind _ _ _ (fun _ l => times_ok l /\ 1 <= ttl <= 15 /\
    lease_window ttl l = Ok (now, expires))).
  { intros l ((Ht & Httl) & Hw).
    apply map_err_Ok, validate_lease_ttl_Ok in Httl as [-> Httl].
    pose proof (times_reclaim_variant (LeaseRequest_variant_id req) now l) as Hm.
    pose proof (clock_reclaim_variant (LeaseRequest_variant_id req) now l) as Hc.
    unfold keeps_times, same_clock in *.
    destruct (reclaim_expired_variant _ now l) as [l' [r|e|]]; [|auto|done].
    split; [auto|]. split; [done|]. revert Hw. unfold lease_window, simulation_time. by rewrite Hc. }
  intros r. cbv beta. step_reading. rename a into acq.
  intros l ((Ht & Httl & Hw) & Hb).
  destruct (commit_acquisition req acq l) as [l' out] eqn:Hc.
  apply commit_acquisition_run in Hc as [->|(-> & _ & El & _ & _ & _ & _ & _ & _ & _ & Eck)];
    [done|].
  apply build_acquisition_Ok in Hb
    as (graph & vidx & variant & pidx & package & _ & _ & _ & _ & _ & _ & _ & _ & Hg & _).
  cbv zeta in Hg. split; [rewrite Eck; apply Ht|].
  intros k lease Hk. rewrite El, Hg in Hk. rewrite Eck. cbn in Hk.
  apply lookup_insert_Some in Hk as [[_ <-]|[_ Hk]]; [|by eapply (proj2 Ht)].
  by apply (window_timed _ ttl now expires).
Qed.
End TimedOperations.

Section ReachableTimes.
Context `{LedgerExt} `{Json MaterializeCommandResult} `{Json StoredGraph}
  `{Json CanonicalPlan} `{Json GraphDeltaCommandResult} `{Json GraphDelta}.

Lemma times_discard {A} (m : M A) : moves keeps_times m -> moves keeps_times (discard m).
Proof. intros Hm. unfold discard. times_walk. Qed.

Lemma times_advance s : is_u64 s -> moves keeps_times (advance_simulation_time s).
Proof.
  intros Hs l. destruct (advance_simulation_time s l) as [l' out] eqn:Ha.
  unfold advance_simulation_time, reading, mbind, stateful_bind in Ha.
  destruct (ok_or _ _) as [millis|e|] eqn:Hm; [|simplify_eq; first [reflexivity|done]..].
  apply ok_or_Ok, bind_Some in Hm as (s' & [-> _]%to_i64_Some & Hm).
  apply bind_Some in Hm as (ms & [-> _]%to_i64_Some & Hm). apply to_i64_Some in Hm as [-> _].
  case_bool_decide; apply pair_equal_spec in Ha as [<- <-]; [reflexivity|].
  apply keeps_times_shrink; cbn; [done|]. unfold is_u64 in Hs. lia.
Qed.

Lemma run_op_times op : op_typed op -> moves keeps_times (run_op op).
Proof.
  intros Ht. destruct (bool_decide (TLeases ∈ write_set op)) eqn:Hl;
    destruct (bool_decide (TClock ∈ write_set op)) eqn:Hc.
  4: { by apply (moves_times (write_set op)), run_op_writes. }
  all: destruct op; try discriminate Hl; try discriminate Hc; cbn [run_op]; try apply times_discard;
    first [apply times_acquire|apply times_heartbeat|apply times_expire|apply times_release
          |by apply times_advance].
Qed.

Lemma reachable_times l : reachable l -> times_ok l.
Proof.
  intros Hr. assert (times_ok MemoryLedger_new) as Hnew.
  { split; [done|]. intros k lease Hk. cbn in Hk. by rewrite lookup_empty in Hk. }
  revert Hnew. unfold reachable in Hr. induction Hr as [l|l1 l2 l3 Hstep Hrest IH]; [done|].
  intros Ht. apply IH. destruct Hstep as (_ & op & out & Hty & Hrun & Hout).
  pose proof (run_op_times op Hty l1) as Hm. rewrite Hrun in Hm. destruct out; by try apply Hm.
Qed.

(** A lease that is timed by the clock is over fifteen seconds later. *)
Lemma timed_due `{!ChronoLaws} clock lease now :
  timed clock lease -> four_digit_years (clock + 15000) ->
  format_millis (clock + 15000) = Some now -> str_le (ActiveLease_expires_at lease) now.
Proof.
  intros (h & Hh & He & Httl & Hle) Hy' Hnow.
  assert (four_digit_years (h + ActiveLease_ttl_seconds lease * 1000)) as Hye.
  { unfold four_digit_years in *. lia. }
  unfold str_le. pose proof (format_order _ _ _ _ Hy' Hye Hnow He) as Ho.
  destruct (String.leb (ActiveLease_expires_at lease) now) eqn:Hb; [done|exfalso].
  assert (str_lt now (ActiveLease_expires_at lease)) as Hlt; [|apply Ho in Hlt; lia].
  revert Hb. unfold str_lt, String.leb, String.ltb.
  rewrite (str_compare_antisym now). by destruct (String.compare _ now).
Qed.

(** What a successful expiry leaves. *)
Lemma expire_leases_Ok l l' out :
  authority_inv l -> expire_leases l = (l', Ok out) ->
  exists now, simulation_time l = Ok now /\ authority_inv l' /\
    ml_leases l' = drop_leases (due_leases l now) (ml_leases l).
Proof.
  intros HI He. unfold expire_leases in He.
  apply st_bind_Ok in He as (l1 & u & Htick & He).
  apply st_bind_Ok in He as (l2 & now & Hn & He). apply st_reading_Ok in Hn as [-> Hn].
  apply st_bind_Ok in He as (l3 & due & Hd & He). apply st_reading_Ok in Hd as [-> Hd].
  injection Hd as <-.
  pose proof (moves_run _ _ _ _ _ frame_tick Htick) as Hfr.
  pose proof (moves_run _ _ _ _ _ clock_tick Htick) as Hck.
  pose proof (authority_inv_frame _ _ Hfr HI) as HI1.
  destruct (due_leases_rows l1 now HI1) as [Hnd Hall].
  pose proof (reclaim_all_safe l1 (ml_leases l1) _ now Hnd Hall l1
    (conj (kept_refl _ HI1) eq_refl)) as Hs. rewrite He in Hs. destruct Hs as [[HI' _] Hl].
  destruct Hfr as (_ & Hl1 & _). exists now.
  split; [revert Hn; unfold simulation_time, same_clock in *; by rewrite Hck|].
  split; [done|]. unfold due_leases in *. by rewrite Hl1 in Hl.
Qed.

Lemma elem_of_due l now k lease :
  ml_leases l !! k = Some lease -> str_le (ActiveLease_expires_at lease) now ->
  lease ∈ due_leases l now.
Proof.
  intros Hk Hd. unfold due_leases. rewrite merge_sort_Permutation.
  apply list_elem_of_filter. split; [done|]. apply elem_of_map_values. eauto.
Qed.

(** C25: Silence ends authority. In a reachable ledger every lease was written
    for 1 to 15 seconds at or before the current time; so when the clock
    advances by fifteen seconds, to an instant in the years 0 to 9999 (whose
    written form orders as time does), and the expiry sweep then succeeds, no
    lease is left, no attempt may write any more, and every variant is free. *)
Theorem silence_ends_authority `{!ChronoLaws} l l1 l2 out :
  reachable l -> four_digit_years (ml_simulation_clock_millis l + 15000) ->
  advance_simulation_time 15 l = (l1, Ok tt) -> expire_leases l1 = (l2, Ok out) ->
  (forall k lease, ml_leases l !! k = Some lease -> timed (ml_simulation_clock_millis l) lease) /\
  ml_leases l2 = ∅ /\
  (forall k a, ml_attempts l2 !! k = Some a -> permits_expiry_reclaim (Attempt_state a) = false).
Proof.
  intros Hr Hy Hadv Hexp. pose proof (reachable_inv _ Hr) as HI.
  apply reachable_times in Hr as [_ Ht]. split; [done|].
  pose proof (moves_run _ _ _ _ _ (frame_advance 15) Hadv) as Hfr.
  assert (ml_simulation_clock_millis l1 = ml_simulation_clock_millis l + 15000) as Hc1.
  { unfold advance_simulation_time in Hadv.
    apply st_bind_Ok in Hadv as (l0 & millis & Hm & Hadv). apply st_reading_Ok in Hm as [-> Hm].
    apply ok_or_Ok, bind_Some in Hm as (s' & [-> _]%to_i64_Some & Hm).
    apply bind_Some in Hm as (ms & [-> _]%to_i64_Some & Hm). apply to_i64_Some in Hm as [-> _].
    case_bool_decide; [done|]. by apply st_assign_Ok in Hadv as ->. }
  apply expire_leases_Ok in Hexp as (now & Hn & HI2 & Hl2); [|by eapply authority_inv_frame].
  destruct Hfr as (_ & Hl1 & _).
  unfold simulation_time, format_simulation_time in Hn. rewrite Hc1 in Hn. apply expect_Ok in Hn.
  assert (ml_leases l2 = ∅) as Hempty.
  { rewrite Hl2, Hl1. apply map_eq. intros k. rewrite lookup_empty.
    destruct (drop_leases _ _ !! k) as [lease|] eqn:Hk; [exfalso|done].
    apply lookup_drop_leases in Hk as [Hk Hnin]. apply Hnin, list_elem_of_fmap. exists lease.
    destruct (inv_leases _ HI _ _ Hk) as [Hkey _]. split; [done|].
    eapply elem_of_due; [by rewrite Hl1|]. by eapply timed_due; [eapply Ht| |]. }
  split; [done|]. intros k a Ha.
  destruct (permits_expiry_reclaim (Attempt_state a)) eqn:Hlive; [exfalso|done].
  destruct (inv_attempts _ HI2 _ _ Ha) as (_ & _ & Hh). destruct (Hh Hlive) as (le & Hle & _).
  by rewrite Hempty, lookup_empty in Hle.
Qed.
End ReachableTimes.
