(* ===== verification/LedgerBlocked.v ===== *)
(** * A lease whose holder has already ended

    [put_attempt] accepts a terminal state while the lease row of the attempt
    stays. This file shows what follows: nothing that the ledger offers frees
    the variant again. *)

From S2P Require Import Prelude External Ids States Entities Text Store Records Submissions.
From S2P Require Import Commands NonceLedger RunCoding Effects GraphDelta Authority Context.
From S2P Require Import Memory MemoryLeases MemoryCommands MemoryEffects MemoryGraphs.
From S2P Require Import LedgerFrame LedgerInv LedgerSafety LedgerWrites LedgerLeases.
From stdpp Require Import options.

Local Open Scope Z_scope.

(** The row of [v] names the attempt [aid], which has ended. *)
Definition blocked (v : string) (aid : AttemptId) (l : MemoryLedger) : Prop :=
  (exists lease, ml_leases l !! v = Some lease /\ ActiveLease_attempt_id lease = aid) /\
  (exists a, ml_attempts l !! id_as_str aid = Some a /\
     is_terminal_release_target (Attempt_state a) = true).

Lemma blocked_frame v aid l l' :
  ml_leases l' = ml_leases l -> ml_attempts l' = ml_attempts l -> blocked v aid l -> blocked v aid l'.
Proof. unfold blocked. by intros -> ->. Qed.

(** Another row goes. *)
Lemma blocked_delete v aid l k :
  k <> v -> blocked v aid l -> blocked v aid (set_leases l (delete k (ml_leases l))).
Proof.
  intros Hne [(lease & Hl & Hid) Ha]. split; [|done]. exists lease. cbn.
  by rewrite lookup_delete_ne.
Qed.

(** An attempt ends. *)
Lemma blocked_end v aid l k a s :
  is_terminal_release_target s = true -> blocked v aid l ->
  blocked v aid (set_attempts l (<[k := set_Attempt_state a s]> (ml_attempts l))).
Proof.
  intros Hs [Hl (b & Hb & Ht)]. split; [done|]. cbn.
  destruct (decide (k = id_as_str aid)) as [->|Hne].
  - eexists. by rewrite lookup_insert_eq.
  - exists b. by rewrite lookup_insert_ne.
Qed.

Section Blocked.
Context `{LedgerExt}.
Variables (v : string) (aid : AttemptId).

Lemma blocked_moves {A} (m0 : gmap string ActiveLease) (m : M A) :
  moves authority_frame m ->
  triple (fun l => blocked v aid l /\ ml_leases l = m0) m
    (fun _ l => blocked v aid l /\ ml_leases l = m0) (blocked v aid).
Proof.
  intros Hm l [Hb Hl]. specialize (Hm l). destruct (m l) as [l' [a|e|]]; [| |done];
    destruct Hm as (Ha & Hl' & _); [split; [|congruence]|]; by eapply blocked_frame.
Qed.

Lemma blocked_framed {A} (m : M A) :
  moves authority_frame m -> triple (blocked v aid) m (fun _ => blocked v aid) (blocked v aid).
Proof.
  intros Hm l Hb. specialize (Hm l). destruct (m l) as [l' [a|e|]]; [| |done];
    destruct Hm as (Ha & Hl' & _); by eapply blocked_frame.
Qed.

(** The row of an attempt that has a transition left is another one. *)
Lemma blocked_other l k lease a s :
  blocked v aid l -> ml_leases l !! k = Some lease ->
  ml_attempts l !! id_as_str (ActiveLease_attempt_id lease) = Some a ->
  at_edge (Attempt_state a) s -> k <> v.
Proof.
  intros [(le & Hle & Hid) (b & Hbk & Ht)] Hk Ha He ->.
  rewrite Hk in Hle. injection Hle as <-. rewrite Hid, Hbk in Ha. injection Ha as ->.
  exact (proj1 (terminal_iff_absorbing _) Ht s He).
Qed.

Lemma blocked_set_state m0 k s :
  is_terminal_release_target s = true ->
  triple (fun l => blocked v aid l /\ ml_leases l = m0) (set_stored_attempt_state k s)
    (fun _ l => blocked v aid l /\ ml_leases l = m0) (blocked v aid).
Proof.
  intros Hs l [Hb Hl]. unfold set_stored_attempt_state, assign.
  destruct (ml_attempts l !! k) as [a|]; [|done]. split; [by apply blocked_end|done].
Qed.

Lemma blocked_remove m0 k :
  k <> v ->
  triple (fun l => blocked v aid l /\ ml_leases l = m0) (remove_lease k)
    (fun _ l => blocked v aid l /\ ml_leases l = delete k m0) (blocked v aid).
Proof.
  intros Hne l [Hb Hl]. unfold remove_lease, assign. split; [by apply blocked_delete|].
  cbn. by rewrite Hl.
Qed.

(** Closes the rest of a computation that leaves authority alone. *)
Lemma blocked_bind_framed {A B} m0 (m : M A) (f : A -> M B) :
  moves authority_frame m ->
  (forall a, triple (fun l => blocked v aid l /\ ml_leases l = m0) (f a)
     (fun _ l => blocked v aid l /\ ml_leases l = m0) (blocked v aid)) ->
  triple (fun l => blocked v aid l /\ ml_leases l = m0) (m ≫= f)
    (fun _ l => blocked v aid l /\ ml_leases l = m0) (blocked v aid).
Proof.
  intros Hm Hf. eapply triple_bind; [by apply blocked_moves|exact Hf].
Qed.

Lemma reclaim_blocked m0 lease now :
  m0 !! id_as_str (ActiveLease_variant_id lease) = Some lease ->
  triple (fun l => blocked v aid l /\ ml_leases l = m0) (reclaim lease now)
    (fun _ l => blocked v aid l /\
       ml_leases l = delete (id_as_str (ActiveLease_variant_id lease)) m0) (blocked v aid).
Proof.
  intros Hrow. unfold reclaim. cbv zeta. step_reading. rename a into attempt.
  step_pure. rename a into u. step_pure. rename a into next. step_pure. rename a into payload.
  step_reading. rename a into seq.
  intros l ((((((Hb & Hm) & Ha) & _) & Hn) & _) & _).
  apply ok_or_Ok in Ha. apply map_err_Ok, AttemptState_transition_target in Hn as [-> He].
  assert (id_as_str (ActiveLease_variant_id lease) <> v) as Hne.
  { eapply blocked_other; [done|by rewrite Hm|done|done]. }
  revert l Hb Hm Ha. cut (triple (fun l => blocked v aid l /\ ml_leases l = m0)
    (_ ← set_stored_attempt_state (id_as_str (ActiveLease_attempt_id lease)) AtCrashed;
     _ ← remove_lease (id_as_str (ActiveLease_variant_id lease));
     _ ← requeue_package (Attempt_work_package_id attempt) now;
     _ ← push_event "lease_expired" (id_as_str (ActiveLease_attempt_id lease))
           (Some (id_as_str (ActiveLease_variant_id lease))) None None;
     _ ← push_outbox (MkOutboxItem seq None RECLAIM_OUTBOX_KIND payload PhasePending None None);
     mret (MkExpiredLease (ActiveLease_variant_id lease) (ActiveLease_attempt_id lease)
        (Attempt_work_package_id attempt) (ActiveLease_fence lease)))
    (fun _ l => blocked v aid l /\
       ml_leases l = delete (id_as_str (ActiveLease_variant_id lease)) m0) (blocked v aid)).
  { intros Ht l Hb Hm _. by apply Ht. }
  eapply triple_bind; [by apply blocked_set_state|intros ?; cbv beta].
  eapply triple_bind; [by apply blocked_remove|intros ?; cbv beta].
  repeat (apply blocked_bind_framed;
    [first [apply frame_requeue|apply frame_push_event|apply frame_push_outbox]|intros ?]).
  by apply triple_ret.
Qed.

Lemma reclaim_all_blocked m0 leases now :
  NoDup ((fun x => id_as_str (ActiveLease_variant_id x)) <$> leases) ->
  Forall (fun x => m0 !! id_as_str (ActiveLease_variant_id x) = Some x) leases ->
  triple (fun l => blocked v aid l /\ ml_leases l = m0) (reclaim_all leases now)
    (fun _ => blocked v aid) (blocked v aid).
Proof.
  revert m0. induction leases as [|x leases IH]; intros m0 Hnd Hall; cbn [reclaim_all].
  { apply triple_ret. tauto. }
  rewrite fmap_cons in Hnd. apply NoDup_cons in Hnd as [Hx Hnd].
  apply Forall_cons in Hall as [Hmx Hall].
  eapply triple_bind; [by apply reclaim_blocked|intros expired; cbv beta].
  eapply triple_bind; [apply IH; [done|by apply rows_after_delete]|].
  intros out. cbv beta. by apply triple_ret.
Qed.

Lemma expire_blocked :
  triple (fun l => authority_inv l /\ blocked v aid l) expire_leases
    (fun _ => blocked v aid) (blocked v aid).
Proof.
  intros l [HI Hb]. unfold expire_leases.
  pose proof (frame_tick l) as Hf. unfold mbind, stateful_bind, reading.
  destruct (tick l) as [l1 [u|e|]]; [| |done].
  2: { destruct Hf as (? & ? & _). by eapply blocked_frame. }
  pose proof (authority_inv_frame _ _ Hf HI) as HI1.
  assert (blocked v aid l1) as Hb1 by (destruct Hf as (? & ? & _); by eapply blocked_frame).
  destruct (simulation_time l1) as [now|e|]; [|done|done].
  destruct (due_leases_rows l1 now HI1) as [Hnd Hall].
  exact (reclaim_all_blocked (ml_leases l1) _ now Hnd Hall l1 (conj Hb1 eq_refl)).
Qed.

Lemma release_blocked req :
  triple (blocked v aid) (release_lease req) (fun _ => blocked v aid) (blocked v aid).
Proof.
  unfold release_lease. eapply triple_bind; [apply blocked_framed, frame_tick|intros u; cbv beta].
  step_pure. rename a into ut. cbv zeta. step_reading. rename a into now.
  step_reading. rename a into held. destruct held as [lease|].
  - case_bool_decide as Hid; [|apply triple_err; tauto].
    step_reading. rename a into attempt. step_pure. rename a into next.
    intros l (((((Hb & Ht) & _) & Hh) & Ha) & Hn). injection Hh as Hh.
    apply ok_or_Ok in Ha. apply refuse_if_Ok, negb_false_iff in Ht.
    apply map_err_Ok, AttemptState_transition_target in Hn as [-> He]. rewrite <- Hid in Ha.
    pose proof (blocked_other l _ lease attempt _ Hb Hh Ha He) as Hne.
    refine ((_ : triple (fun l' => blocked v aid l' /\ ml_leases l' = ml_leases l) _
      (fun _ => blocked v aid) (blocked v aid)) l (conj Hb eq_refl)).
    eapply triple_bind; [by apply blocked_set_state|intros ?; cbv beta].
    eapply triple_bind; [by apply blocked_remove|intros ?; cbv beta].
    eapply triple_bind; [apply blocked_moves|intros ?; cbv beta].
    { destruct (ReleaseRequest_requeue req); [apply frame_requeue|apply moves_ret; apply _]. }
    eapply triple_conseq; [apply blocked_moves, frame_push_event|intros ? Hx; exact Hx|].
    cbv beta. tauto.
  - step_reading. rename a into stored. destruct stored as [attempt|]; [|apply triple_err; tauto].
    case_bool_decide; [apply triple_ret; tauto|apply triple_err; tauto].
Qed.

Lemma heartbeat_blocked req :
  triple (blocked v aid) (heartbeat req) (fun _ => blocked v aid) (blocked v aid).
Proof.
  unfold heartbeat. step_pure. rename a into ttl.
  eapply triple_bind; [eapply triple_conseq;
    [apply blocked_framed, frame_tick|tauto|intros u l Hl; exact Hl]|].
  intros u. cbv beta. step_reading. destruct a as [now expires]. cbv zeta.
  step_reading. rename a into current. destruct current as [current|]; [|apply triple_err; tauto].
  step_reading. rename a into attempt. step_pure. rename a into u1.
  destruct (heartbeat_matches req ttl now current); [|apply triple_err; tauto].
  apply triple_assign. intros l ((((Hb & _) & Hh) & _) & _). injection Hh as Hh.
  destruct Hb as [(lease & Hl & Hid) Ha]. split; [|done]. cbn.
  destruct (decide (id_as_str (HeartbeatRequest_variant_id req) = v)) as [Heq|Hne].
  - rewrite Heq in Hh |- *. eexists. rewrite lookup_insert_eq. split; [done|]. cbn. congruence.
  - exists lease. by rewrite lookup_insert_ne.
Qed.

Lemma put_attempt_blocked attempt :
  triple (blocked v aid) (put_attempt attempt) (fun _ => blocked v aid) (blocked v aid).
Proof.
  unfold put_attempt. eapply triple_bind; [apply blocked_framed, frame_tick|intros u; cbv beta zeta].
  step_reading. rename a into existing. step_pure. rename a into u1.
  apply (triple_bind _ _ _ (fun _ l => blocked v aid l /\
    ml_attempts l !! id_as_str (Attempt_id attempt) = Some existing /\
    (Attempt_state existing = Attempt_state attempt \/
     at_edge (Attempt_state existing) (Attempt_state attempt)))).
  { case_bool_decide as Hst.
    - apply triple_ret. intros l ((Hb & Ha) & _). apply ok_or_Ok in Ha. auto.
    - step_pure. apply triple_ret. intros l (((Hb & Ha) & _) & Ht). apply ok_or_Ok in Ha.
      apply map_err_Ok, AttemptState_transition_target in Ht as [_ ?]. auto. }
  intros w. cbv beta. apply triple_assign. intros l ([Hl (b & Hb & Ht)] & Ha & Hst).
  split; [done|]. cbn.
  destruct (decide (id_as_str (Attempt_id attempt) = id_as_str aid)) as [Heq|Hne].
  - exists attempt. rewrite Heq, lookup_insert_eq. split; [done|].
    rewrite Heq, Hb in Ha. injection Ha as <-. destruct Hst as [<-|He]; [done|].
    by destruct (proj1 (terminal_iff_absorbing _) Ht _ He).
  - exists b. by rewrite lookup_insert_ne.
Qed.

Lemma acquire_blocked req :
  triple (fun l => authority_inv l /\ blocked v aid l) (acquire_lease req)
    (fun _ => blocked v aid) (blocked v aid).
Proof.
  unfold acquire_lease. step_pure. rename a into stable. step_pure. rename a into request.
  step_reading. rename a into existing. destruct existing as [existing|].
  { eapply triple_conseq; [apply triple_reading|intros l Hl; exact Hl|]; cbv beta; tauto. }
  apply (triple_conseq (fun l => authority_inv l /\ blocked v aid l) _ _
    (fun _ => blocked v aid)); [|tauto|done].
  apply (triple_bind _ _ _ (fun _ l => authority_inv l /\ blocked v aid l)).
  { intros l [HI Hb]. pose proof (frame_tick l) as Hf. destruct (tick l) as [l1 [u|e|]]; [| |done];
      pose proof Hf as (? & ? & _); [split; [by eapply authority_inv_frame|]|];
      by eapply blocked_frame. }
  intros u. cbv beta. step_pure. rename a into ttl. step_reading. destruct a as [now expires].
  cbv beta iota. apply (triple_bind _ _ _ (fun _ => blocked v aid)).
  { intros l (([HI Hb] & _) & _). unfold reclaim_expired_variant, mbind, stateful_bind, reading.
    destruct (ml_leases l !! _) as [lease|] eqn:Hl; [|done]. case_bool_decide; [done|].
    destruct (inv_leases _ HI _ _ Hl) as (Hv & _). rewrite Hv in Hl.
    pose proof (reclaim_blocked (ml_leases l) lease now Hl l (conj Hb eq_refl)) as Hr.
    destruct (reclaim lease now l) as [l' [x|e|]]; [apply Hr|done|done]. }
  intros r. cbv beta. step_reading. rename a into acq. intros l [Hb Hbuild].
  destruct (commit_acquisition req acq l) as [l' out] eqn:Hc.
  apply commit_acquisition_run in Hc as [->|(-> & Ea & El & _)]; [done|].
  apply build_acquisition_Ok in Hbuild
    as (graph & vidx & variant & pidx & package & _ & _ & _ & _ & _ & _ & Hnol & Hnoa & Hg & _).
  cbv zeta in Hg, Hnoa. rewrite Hg in Ea, El. cbn in Ea, El, Hnoa.
  destruct Hb as [(lease & Hl & Hid) (a & Ha & Ht)]. split.
  - exists lease. rewrite El, lookup_insert_ne by congruence. done.
  - exists a. rewrite Ea, lookup_insert_ne by congruence. done.
Qed.
End Blocked.

Section BlockedForever.
Context `{LedgerExt} `{Json MaterializeCommandResult} `{Json StoredGraph}
  `{Json CanonicalPlan} `{Json GraphDeltaCommandResult} `{Json GraphDelta}.

Lemma triple_discard {A} (P Q I : MemoryLedger -> Prop) (m : M A) :
  triple P m (fun _ => Q) I -> triple P (discard m) (fun _ => Q) I.
Proof.
  intros Hm. unfold discard. eapply triple_bind; [exact Hm|intros a; cbv beta].
  by apply triple_ret.
Qed.

Lemma run_op_blocked v aid op :
  triple (fun l => authority_inv l /\ blocked v aid l) (run_op op)
    (fun _ => blocked v aid) (blocked v aid).
Proof.
  destruct (bool_decide (TLeases ∈ write_set op)) eqn:Hl;
    destruct (bool_decide (TAttempts ∈ write_set op)) eqn:Ha.
  4: { intros l [_ Hb]. pose proof (run_op_writes op l) as Hw.
       destruct (run_op op l) as [l' [u|e|]]; [| |done];
         (eapply blocked_frame; [exact (Hw TLeases Hl)|exact (Hw TAttempts Ha)|done]). }
  all: destruct op; try discriminate Hl; try discriminate Ha; cbn [run_op];
    try apply triple_discard; first [apply acquire_blocked|apply expire_blocked|
      (eapply triple_conseq;
        [first [apply heartbeat_blocked|apply release_blocked|apply put_attempt_blocked]
        |tauto|done])].
Qed.

Lemma blocked_forever v aid l l' :
  authority_inv l -> blocked v aid l -> rtc ledger_step l l' -> blocked v aid l'.
Proof.
  intros HI Hb Hsteps. induction Hsteps as [l|l1 l2 l3 Hstep Hrest IH]; [done|].
  destruct (ledger_step_kept _ _ HI Hstep) as [HI2 _]. apply IH; [done|].
  destruct Hstep as (_ & op & out & _ & Hrun & Hout).
  pose proof (run_op_blocked v aid op l1 (conj HI Hb)) as Hs. rewrite Hrun in Hs.
  by destruct out.
Qed.

(** A first acquisition of the variant is refused. *)
Lemma blocked_acquire_refused v aid req l l' g :
  authority_inv l -> blocked v aid l -> id_as_str (LeaseRequest_variant_id req) = v ->
  ml_commands l !! LeaseRequest_idempotency_key req = None ->
  acquire_lease req l <> (l', Ok g).
Proof.
  intros HI Hb Hv Hn Hacq.
  pose proof (acquire_blocked v aid req l (conj HI Hb)) as Hb'. rewrite Hacq in Hb'.
  apply acquire_fresh_Ok in Hacq
    as (l1 & request & ttl & now & expires & acq & _ & _ & _ & _ & _ & _ & Hbld & Hc); [|done..].
  apply commit_acquisition_run in Hc as [?|(_ & Ea & El & _)]; [done|].
  apply build_acquisition_Ok in Hbld
    as (graph & vidx & variant & pidx & package & _ & _ & _ & _ & _ & _ & _ & _ & Hg & _).
  cbv zeta in Hg. rewrite Hg in Ea, El. cbn in Ea, El. rewrite Hv in El.
  destruct Hb' as [(lease & Hl & Hid) (a & Ha & Ht)].
  rewrite El, lookup_insert_eq in Hl. injection Hl as <-. cbn in Hid.
  rewrite Ea, <- Hid, lookup_insert_eq in Ha. by injection Ha as <-.
Qed.

(** C27: A holder that is ended through [put_attempt] blocks its variant for
    good. Once the attempt that a lease names is in a terminal state, every
    later ledger still has that lease and that ended holder, whatever
    operations run and however far the clock moves, and every first
    acquisition of the variant is refused. *)
Theorem ended_holder_blocks_variant l l' v lease a req :
  reachable l -> ml_leases l !! v = Some lease ->
  ml_attempts l !! id_as_str (ActiveLease_attempt_id lease) = Some a ->
  is_terminal_release_target (Attempt_state a) = true ->
  rtc ledger_step l l' ->
  id_as_str (LeaseRequest_variant_id req) = v ->
  ml_commands l' !! LeaseRequest_idempotency_key req = None ->
  blocked v (ActiveLease_attempt_id lease) l' /\
  is_ok (acquire_lease req l').2 = false.
Proof.
  intros HI%reachable_inv Hl Ha Ht Hsteps Hv Hn.
  assert (blocked v (ActiveLease_attempt_id lease) l) as Hb by (split; eauto).
  pose proof (reachable_kept _ _ HI Hsteps) as [HI' _].
  pose proof (blocked_forever _ _ _ _ HI Hb Hsteps) as Hb'. split; [done|].
  destruct (acquire_lease req l') as [l2 [g|e|]] eqn:Hacq; [exfalso|done|done].
  by apply (blocked_acquire_refused _ _ _ _ _ _ HI' Hb' Hv Hn) in Hacq.
Qed.
End BlockedForever.
