(* ===== verification/LedgerQuota.v ===== *)
(** * The coding quota of the ledger

    The units reserved by coding requests never exceed the quota, in any
    reachable ledger; the 64-bit sum that the code computes is exact. *)

From S2P Require Import Prelude External Ids States Entities Text Store Records Submissions.
From S2P Require Import Commands NonceLedger RunCoding Effects GraphDelta Authority Context.
From S2P Require Import Memory MemoryLeases MemoryCommands MemoryEffects MemoryGraphs.
From S2P Require Import LedgerFrame LedgerInv LedgerSafety LedgerWrites.
From stdpp Require Import options.

Local Open Scope Z_scope.

(** ** Sums of tables *)

Definition sum_values (m : gmap string Z) : Z := foldr Z.add 0 (map_values m).

Global Instance sum_perm : Proper ((≡ₚ) ==> (=)) (foldr Z.add 0).
Proof. induction 1; simpl; lia. Qed.

Lemma map_values_perm {V} (m : gmap string V) : map_values m ≡ₚ (map_to_list m).*2.
Proof. unfold map_values. by rewrite iter_map_perm. Qed.

Lemma sum_values_insert m k x :
  m !! k = None -> sum_values (<[k := x]> m) = x + sum_values m.
Proof.
  intros Hk. unfold sum_values. by rewrite !map_values_perm, map_to_list_insert.
Qed.

Lemma sum_nonneg (zs : list Z) : Forall (fun z => 0 <= z) zs -> 0 <= foldr Z.add 0 zs.
Proof. induction 1; simpl; lia. Qed.

(** The wrapping sum is the sum as long as that is a 64-bit number. *)
Lemma u64_sum_exact zs :
  Forall (fun z => 0 <= z) zs -> foldr Z.add 0 zs <= u64_max -> u64_sum zs = foldr Z.add 0 zs.
Proof.
  unfold u64_sum. intros Hz Hmax.
  cut (forall acc, 0 <= acc -> acc + foldr Z.add 0 zs <= u64_max ->
         foldl u64_wrapping_add acc zs = acc + foldr Z.add 0 zs).
  { intros Hc. by rewrite (Hc 0). }
  clear Hmax. induction Hz as [|z zs Hz Hzs IH]; intros acc Hacc Hmax; simpl in *; [lia|].
  pose proof (sum_nonneg _ Hzs). rewrite u64_wrapping_add_small by (unfold u64_max in *; lia).
  rewrite IH; lia.
Qed.

Definition quota_ok (m : gmap string Z) : Prop :=
  (forall k x, m !! k = Some x -> 0 <= x) /\ sum_values m <= MAX_CODING_QUOTA_UNITS.

Lemma quota_values_nonneg m : quota_ok m -> Forall (fun z => 0 <= z) (map_values m).
Proof.
  intros [Hm _]. apply Forall_forall. intros z [k Hk]%elem_of_map_values. by eapply Hm.
Qed.

(** The quota that the code sees is the sum. *)
Lemma quota_used m : quota_ok m -> u64_sum (map_values m) = sum_values m.
Proof.
  intros Hq. apply u64_sum_exact; [by apply quota_values_nonneg|].
  destruct Hq as [_ Hs]. unfold sum_values, u64_max, MAX_CODING_QUOTA_UNITS in *. lia.
Qed.

Lemma quota_insert m k x :
  quota_ok m -> m !! k = None -> 0 <= x ->
  x <= u64_saturating_sub MAX_CODING_QUOTA_UNITS (u64_sum (map_values m)) ->
  quota_ok (<[k := x]> m).
Proof.
  intros Hq Hk Hx Hle. pose proof (sum_nonneg _ (quota_values_nonneg _ Hq)) as Hn.
  rewrite quota_used in Hle by done. unfold u64_saturating_sub in Hle. destruct Hq as [Hm Hs].
  unfold sum_values in Hn. split.
  - intros k' y Hy. apply lookup_insert_Some in Hy as [[_ <-]|[_ Hy]]; [done|by eapply Hm].
  - rewrite sum_values_insert by done. unfold sum_values in *. lia.
Qed.

(** ** Admission *)

(** Decoding gives 64-bit units. *)
Class RunCodingTyped `{Json RunCodingPayload} : Prop :=
  decoded_units s p : of_json s = Ok p -> is_u64 (rc_quota_units p).

Section Quota.
Context `{LedgerExt} `{!RunCodingTyped}.

(** While the reservations are [b]. *)
Definition budget_is (b : gmap string Z) (l : MemoryLedger) : Prop :=
  ml_budget_reservations l = b.

Lemma budget_framed {A} b ts (m : M A) :
  bool_decide (TBudget ∈ ts) = false -> moves (changes ts) m ->
  triple (budget_is b) m (fun _ => budget_is b) (fun _ => True).
Proof.
  intros Ht Hm l Hb. specialize (Hm l). unfold budget_is in *.
  destruct (m l) as [l' [a|e|]]; [|done..]. rewrite <- Hb. exact (Hm TBudget Ht).
Qed.

Lemma admit_quota request existed b :
  quota_ok b ->
  triple (budget_is b) (admit_run_coding request existed)
    (fun _ l => quota_ok (ml_budget_reservations l)) (fun _ => True).
Proof using All.
  intros Hq. unfold admit_run_coding.
  destruct (negb _) eqn:Hkind; [apply triple_ret; by intros l ->|].
  eapply triple_bind; [by apply triple_pure|intros payload; cbv beta].
  eapply triple_bind; [by apply triple_reading|intros epoch; cbv beta].
  eapply triple_bind; [by apply triple_reading|intros used; cbv beta].
  eapply triple_bind; [by apply triple_reading|intros existing; cbv beta zeta].
  apply (triple_bind _ _ _ (fun _ l => budget_is b l /\ used = u64_sum (map_values b) /\
    existing = (fun amount => (rc_quota_reservation payload, amount)) <$>
       b !! rc_quota_reservation payload /\
    RunCodingPayload_parse (CommandRequest_payload request) = Ok payload)).
  { apply triple_assign. intros l ((((Hb & Hp) & _) & Hu) & He). unfold budget_is in Hb.
    rewrite Hb in Hu, He. injection Hu as <-. injection He as <-. apply map_err_Ok in Hp.
    split; [|done]. unfold budget_is. by destruct (_ && _). }
  intros u. cbv beta. eapply triple_bind; [by apply triple_reading|intros nonce; cbv beta zeta].
  eapply triple_bind; [by apply triple_pure|intros plan; cbv beta].
  destruct plan as [plan|].
  2: { apply triple_ret. intros l (((Hb & _) & _) & _). by rewrite Hb. }
  eapply triple_bind; [by apply triple_reading|intros row; cbv beta].
  eapply triple_bind; [by apply triple_pure|intros u1; cbv beta].
  eapply triple_bind.
  { apply (triple_assign _ _ (fun _ l => budget_is b l /\ quota_ok
      (<[(plan_reservation plan).1 := (plan_reservation plan).2]> b))).
    intros l (((((Hb & Hu & He & Hp) & _) & Hplan) & _) & _). split; [done|].
    apply map_err_Ok in Hplan. destruct existed.
    { exfalso. revert Hplan. unfold plan_run_coding_admission. rewrite Hkind, Hp. cbn.
      intros Hplan. apply bind_Ok in Hplan as (? & _ & Hplan). done. }
    apply plan_run_coding_admission_fresh in Hplan
      as (_ & payload' & Hp' & _ & Hnone & Hle & _ & ->).
    rewrite Hp in Hp'. injection Hp' as <-. cbn in *. subst.
    apply fmap_None in Hnone. apply quota_insert; [done|done| |done].
    apply RunCodingPayload_parse_Ok in Hp as [Hp _]. by apply decoded_units in Hp as [? _]. }
  intros u2. cbv beta. apply triple_assign. intros l [Hb Hok]. cbn. by rewrite Hb.
Qed.

Lemma submit_quota request b :
  quota_ok b ->
  triple (budget_is b) (submit_command request)
    (fun _ l => quota_ok (ml_budget_reservations l)) (fun l => quota_ok (ml_budget_reservations l)).
Proof using All.
  intros Hq.
  assert (triple (budget_is b) (submit_body request)
    (fun _ l => quota_ok (ml_budget_reservations l)) (fun _ => True)) as Hbody.
  { unfold submit_body. eapply triple_bind; [by apply triple_reading|intros existed; cbv beta].
    apply (triple_conseq (budget_is b) _ _ (fun _ l => quota_ok (ml_budget_reservations l)));
      [|tauto|done].
    eapply triple_bind; [apply (budget_framed b [TFailpoint; TCommands]);
      [done|by apply writes_record_command]|intros record; cbv beta].
    eapply triple_bind; [apply (budget_framed b []); [done|writes_walk]|
      intros dispatch; cbv beta zeta].
    eapply triple_bind; [apply (budget_framed b [TFailpoint; TOutbox; TEvents]);
      [done|unfold outbox_enqueue; writes_walk]|intros u; cbv beta].
    eapply triple_bind; [by apply admit_quota|intros u1; cbv beta]. by apply triple_ret. }
  intros l Hb. specialize (Hbody l Hb). unfold submit_command, transaction.
  destruct (submit_body request l) as [l' [r|e|]]; [done| |done]. cbn. by rewrite Hb.
Qed.
End Quota.

Section ReachableQuota.
Context `{LedgerExt} `{Json MaterializeCommandResult} `{Json StoredGraph}
  `{Json CanonicalPlan} `{Json GraphDeltaCommandResult} `{Json GraphDelta} `{!RunCodingTyped}.

Lemma run_op_quota op l l' out :
  quota_ok (ml_budget_reservations l) -> run_op op l = (l', out) -> out <> Panic ->
  quota_ok (ml_budget_reservations l').
Proof using All.
  intros Hq Hrun Hp. destruct (bool_decide (TBudget ∈ write_set op)) eqn:Hb.
  - destruct op; try discriminate Hb. cbn [run_op] in Hrun.
    unfold discard, mbind, stateful_bind in Hrun.
    pose proof (submit_quota request _ Hq l eq_refl) as Hs.
    destruct (submit_command request l) as [l1 [r|e|]]; apply pair_equal_spec in Hrun as [<- <-];
      done.
  - pose proof (run_op_writes op l) as Hw. rewrite Hrun in Hw.
    destruct out; try done; by rewrite (Hw TBudget Hb).
Qed.

(** The coding quota holds. In every reachable ledger the reservations are
    non-negative and their sum is at most MAX_CODING_QUOTA_UNITS, so the
    64-bit sum on which admission decides is exact and never wraps. *)
Theorem coding_quota_never_exceeded l :
  reachable l ->
  (forall k x, ml_budget_reservations l !! k = Some x -> 0 <= x) /\
  sum_values (ml_budget_reservations l) <= MAX_CODING_QUOTA_UNITS /\
  u64_sum (map_values (ml_budget_reservations l)) = sum_values (ml_budget_reservations l).
Proof using All.
  intros Hr. assert (quota_ok (ml_budget_reservations l)) as Hq.
  { assert (quota_ok (ml_budget_reservations MemoryLedger_new)) as Hnew.
    { split; [intros k x Hk; cbn in Hk; by rewrite lookup_empty in Hk|done]. }
    revert Hnew. induction Hr as [l|l1 l2 l3 (_ & op & out & _ & Hrun & Hout) Hrest IH]; [done|].
    intros Hq. apply IH. by eapply run_op_quota. }
  split; [apply Hq|]. split; [apply Hq|]. by apply quota_used.
Qed.
End ReachableQuota.
