(* ===== verification/LedgerLaunch.v ===== *)
(** * Launch grants and mutation permits over the in-process ledger

    The ledger as a single-use nonce store under all its operations, and what
    a mint on a reachable ledger binds; the ledger as the lease gate of
    mutation permits. *)

From S2P Require Import Prelude External Ids States Entities Framing Records Text Store.
From S2P Require Import HarnessErrors Canonical LaunchClaims Submissions Commands NonceLedger.
From S2P Require Import RunCoding Effects GraphDelta Authority LaunchGrants Context Memory.
From S2P Require Import MemoryLeases MemoryCommands MemoryEffects MemoryGraphs LaunchIssuer.
From S2P Require Import MutationPermits LedgerFrame LedgerInv LedgerSafety LedgerWrites.
From S2P Require Import LedgerLeases.
From stdpp Require Import options.

Local Open Scope Z_scope.

(** ** The nonce table *)

Section NonceTable.
Context `{LedgerExt}.

Lemma tick_nonces l l' out :
  tick l = (l', out) ->
  ml_launch_grant_nonces l' = ml_launch_grant_nonces l /\
  ml_simulation_clock_millis l' = ml_simulation_clock_millis l /\ out <> Panic.
Proof.
  unfold tick. destruct (ml_fail_after_writes l) as [n|]; [case_bool_decide|];
    by intros [= <- <-].
Qed.

Lemma record_launch_run r l l' out :
  record_launch_grant_nonce r l = (l', out) -> out <> Panic ->
  (out <> Ok tt /\ ml_launch_grant_nonces l' = ml_launch_grant_nonces l) \/
  (out = Ok tt /\ ml_launch_grant_nonces l !! lgn_grant_nonce r = None /\
   ml_simulation_clock_millis l' = ml_simulation_clock_millis l /\
   ml_launch_grant_nonces l' =
     <[lgn_grant_nonce r := MkStoredLaunchGrantNonce r None]> (ml_launch_grant_nonces l)).
Proof.
  unfold record_launch_grant_nonce, mbind, stateful_bind, pure_step, reading, assign.
  intros Hr Hp. destruct (LaunchGrantNonceRecord_validate r) as [?|?|];
    [|left; by injection Hr as <- <-|by injection Hr as <- <-].
  destruct (tick l) as [l1 [?|?|]] eqn:Ht; apply tick_nonces in Ht as (Hn & Hc & Hnp); [| |done].
  - unfold refuse_if in Hr. destruct (_ || _) eqn:Ho; injection Hr as <- <-; [by left|right].
    apply orb_false_iff in Ho as [Ho _]. apply bool_decide_eq_false, eq_None_not_Some in Ho.
    cbn. rewrite <- Hn. done.
  - left. injection Hr as <- <-. done.
Qed.

Lemma consume_launch_run n a l l' out :
  consume_launch_grant_nonce n a l = (l', out) -> out <> Panic ->
  (out <> Ok ConsumedOutcome /\ ml_launch_grant_nonces l' = ml_launch_grant_nonces l) \/
  (out = Ok ConsumedOutcome /\ exists r at_,
     ml_launch_grant_nonces l !! n = Some (MkStoredLaunchGrantNonce r None) /\
     lgn_attempt_id r = a /\ 0 <= ml_simulation_clock_millis l < lgn_expires_at_unix_ms r /\
     ml_launch_grant_nonces l' =
       <[n := MkStoredLaunchGrantNonce r (Some at_)]> (ml_launch_grant_nonces l)).
Proof.
  unfold consume_launch_grant_nonce, mbind, stateful_bind, reading.
  intros Hr Hp.
  destruct (tick l) as [l1 [?|?|]] eqn:Ht; apply tick_nonces in Ht as (Hn & Hc & Hnp);
    [|left; injection Hr as <- <-; done|done].
  destruct (to_u64 _) as [now|] eqn:Hnow; cbn in Hr; [|left; by injection Hr as <- <-].
  apply to_u64_Some in Hnow as [-> Hu].
  case_bool_decide as Ho; [|left; injection Hr as <- <-; by split; [congruence|]].
  pose proof Ho as (r & Hl & Ha & He)%classify_consumed.
  destruct (simulation_time l1) as [at_|?|] eqn:Hs; [right| |by injection Hr as <- <-].
  - cbn in Hr. injection Hr as <- <-. rewrite Ho. split; [done|]. exists r, at_.
    rewrite <- Hn, <- Hc. unfold is_u64 in Hu. split_and!; try done; try lia.
    cbn. apply map_eq. intros k. destruct (decide (k = n)) as [->|Hk].
    + rewrite lookup_alter_eq, lookup_insert_eq, Hl. done.
    + by rewrite lookup_alter_ne, lookup_insert_ne by done.
  - unfold simulation_time, format_simulation_time in Hs. by destruct (format_millis _).
Qed.

Lemma writes_record_launch r :
  moves (changes [TFailpoint; TLaunchNonces]) (record_launch_grant_nonce r).
Proof. unfold record_launch_grant_nonce. writes_walk. Qed.

Lemma record_launch_changes r l l' :
  record_launch_grant_nonce r l = (l', Ok tt) -> changes [TFailpoint; TLaunchNonces] l l'.
Proof. intros Hr. pose proof (writes_record_launch r l) as Hw. by rewrite Hr in Hw. Qed.

(** A nonce that was spent. *)
Definition launch_spent (l : MemoryLedger) (n : string) : Prop :=
  exists stored, ml_launch_grant_nonces l !! n = Some stored /\ is_Some (sln_consumed_at stored).

Lemma launch_spent_insert l l' n r at_ k :
  ml_launch_grant_nonces l' = <[n := MkStoredLaunchGrantNonce r at_]> (ml_launch_grant_nonces l) ->
  ~ launch_spent l n -> launch_spent l k -> launch_spent l' k.
Proof.
  unfold launch_spent. intros -> Hn (s & Hs & Hc). exists s. split; [|done].
  rewrite lookup_insert_ne; [done|]. intros <-. apply Hn. eauto.
Qed.

Lemma unspent_fresh l n r : ml_launch_grant_nonces l !! n = Some (MkStoredLaunchGrantNonce r None) ->
  ~ launch_spent l n.
Proof. intros Hl (s & Hs & Hc). rewrite Hl in Hs. injection Hs as <-. by destruct Hc. Qed.

Lemma unspent_absent l n : ml_launch_grant_nonces l !! n = None -> ~ launch_spent l n.
Proof. intros Hl (s & Hs & _). congruence. Qed.

Definition keeps_spent (l l' : MemoryLedger) : Prop :=
  forall k, launch_spent l k -> launch_spent l' k.

Lemma keeps_spent_same l l' :
  ml_launch_grant_nonces l' = ml_launch_grant_nonces l -> keeps_spent l l'.
Proof. unfold keeps_spent, launch_spent. by intros ->. Qed.

Lemma record_launch_keeps r l l' out :
  record_launch_grant_nonce r l = (l', out) -> out <> Panic -> keeps_spent l l'.
Proof.
  intros Hr Hp. destruct (record_launch_run _ _ _ _ Hr Hp) as [[_ Hn]|(_ & Hnone & _ & Hn)].
  - by apply keeps_spent_same.
  - intros k. eapply launch_spent_insert; [done|]. by apply unspent_absent.
Qed.

Lemma consume_launch_keeps n a l l' out :
  consume_launch_grant_nonce n a l = (l', out) -> out <> Panic -> keeps_spent l l'.
Proof.
  intros Hr Hp.
  destruct (consume_launch_run _ _ _ _ _ Hr Hp) as [[_ Hn]|(_ & r & at_ & Hl & _ & _ & Hn)].
  - by apply keeps_spent_same.
  - intros k. eapply launch_spent_insert; [done|]. by eapply unspent_fresh.
Qed.
End NonceTable.

(** ** The ledger as a single-use store *)

Section LedgerStore.
Context `{LedgerExt} `{Json MaterializeCommandResult} `{Json StoredGraph}
  `{Json CanonicalPlan} `{Json GraphDeltaCommandResult} `{Json GraphDelta}.

Lemma run_op_keeps_spent op l l' out :
  run_op op l = (l', out) -> out <> Panic -> keeps_spent l l'.
Proof.
  intros Hr Hp. destruct (bool_decide (TLaunchNonces ∈ write_set op)) eqn:Hw.
  - destruct op; try discriminate Hw; cbn in Hr.
    + by eapply record_launch_keeps.
    + unfold discard, mbind, stateful_bind in Hr.
      destruct (consume_launch_grant_nonce _ _ l) as [l1 [o|e|]] eqn:Hc; injection Hr as <- <-;
        [| |done]; by eapply consume_launch_keeps.
  - apply keeps_spent_same. pose proof (run_op_writes op l) as Hm. rewrite Hr in Hm.
    destruct out; [|by apply (Hm TLaunchNonces)|done]. by apply (Hm TLaunchNonces).
Qed.

Lemma store_consume_cases n a now l l' out :
  store_consume_nonce n a now l = (l', out) -> out <> Panic ->
  (out <> Ok ConsumedOutcome /\ l' = l) \/
  exists aid out', id_parse (p:="atm") a = Ok aid /\
    consume_launch_grant_nonce n aid l = (l', out') /\ out' <> Panic /\
    (out = Ok ConsumedOutcome -> out' = Ok ConsumedOutcome).
Proof.
  unfold store_consume_nonce, mbind, stateful_bind, pure_step, st_map_err.
  intros Hr Hp. destruct (id_parse a) as [aid|e|] eqn:Hid; cbn in Hr;
    [|left; by injection Hr as <- <-|by injection Hr as <- <-].
  right. destruct (consume_launch_grant_nonce n aid l) as [l1 r] eqn:Hc.
  injection Hr as <- <-. exists aid, r. split; [done|]. split; [done|].
  destruct r; naive_solver.
Qed.

(** Whatever operations run, a spent launch nonce stays spent. *)
Global Instance ledger_single_use : SingleUseStore MemoryLedger ledger_step launch_spent.
Proof.
  split.
  - intros l n a now l' Hc. change (store_consume_nonce n a now l = (l', Ok ConsumedOutcome)) in Hc.
    destruct (store_consume_cases _ _ _ _ _ _ Hc) as [[? _]|(aid & o & _ & Ho & Hp & Hi)];
      [done|done|]. specialize (Hi eq_refl). subst o.
    destruct (consume_launch_run _ _ _ _ _ Ho) as [[? _]|(_ & r & at_ & Hl & _ & _ & Hn)];
      [done|done|]. split; [by eapply unspent_fresh|].
    exists (MkStoredLaunchGrantNonce r (Some at_)). by rewrite Hn, lookup_insert_eq.
  - intros l n a now l' out k Hc Hp. change (store_consume_nonce n a now l = (l', out)) in Hc.
    destruct (store_consume_cases _ _ _ _ _ _ Hc Hp) as [[_ ->]|(aid & o & _ & Ho & Hop & _)];
      [done|]. by eapply consume_launch_keeps.
  - intros l l' k (_ & op & out & _ & Hr & Hp). by eapply run_op_keeps_spent.
Qed.
End LedgerStore.

(** ** Minting *)

Section Mint.
Context `{LedgerExt} `{GrantExt} `{Canon BudgetReservationSubject}.

Lemma durable_lease_binding_Ok id l d :
  durable_lease_binding id l = Ok d ->
  exists a lease expiry,
    ml_attempts l !! id_as_str id = Some a /\
    ml_leases l !! id_as_str (Attempt_variant_id a) = Some lease /\
    ActiveLease_attempt_id lease = Attempt_id a /\ ActiveLease_fence lease = Attempt_fence a /\
    check_active_lease (ActiveLeaseSubject_from_attempt a) l = Ok tt /\
    parse_rfc3339 (ActiveLease_expires_at lease) = Some expiry /\
    dl_lease_expires_at_unix_ms d = expiry / 1000000 /\
    lb_attempt_id (dl_binding d) = id_as_str (Attempt_id a) /\
    lb_variant_id (dl_binding d) = id_as_str (Attempt_variant_id a) /\
    lb_attempt_fence (dl_binding d) = Attempt_fence a /\
    lb_runner_id (dl_binding d) = id_as_str (Attempt_runner_id a) /\
    lb_runner_epoch (dl_binding d) = Attempt_runner_epoch a /\
    lb_workspace_id (dl_binding d) = id_as_str (Attempt_workspace_id a) /\
    lb_authority_epoch (dl_binding d) = na_authority_epoch (current_authority l).
Proof.
  unfold durable_lease_binding, rfc3339_unix_ms. intros Hd. inv_result.
  repeat match goal with x : unit |- _ => destruct x end.
  match goal with Hx : to_u64 _ = Some _ |- _ => apply to_u64_Some in Hx as [-> _] end.
  eexists _, _, _. split_and!; eauto.
Qed.

(** The end of the window that a mint at [now] opens. *)
Definition mint_expiry (request : LaunchGrantRequest) (d : DurableLeaseBinding) (now : Z) : Z :=
  Z.min (now / 1000000 + lr_ttl_ms request) (dl_lease_expires_at_unix_ms d).

Lemma prepare_mint_Ok key policy request now d1 d2 l claims record :
  prepare_mint key policy request now d1 d2 l = Ok (claims, record) ->
  exists d grant_id grant_nonce budget issued_at,
    durable_lease_binding (lr_attempt_id request) l = Ok d /\
    lr_ttl_ms request <= MAX_LAUNCH_GRANT_TTL_MS /\ 0 <= now / 1000000 < mint_expiry request d now /\
    claims = minted_claims key policy request (dl_binding d) grant_id grant_nonce budget
               (now / 1000000) (mint_expiry request d now) /\
    record = MkLaunchGrantNonceRecord grant_nonce grant_id (lr_attempt_id request)
               (lb_attempt_fence (dl_binding d)) (mint_expiry request d now) issued_at.
Proof.
  unfold prepare_mint, datetime_unix_ms. intros Hp.
  apply bind_Ok in Hp as ([] & Hv & Hp). unfold validate_launch_request in Hv.
  apply bind_Ok in Hv as (? & Httl & Hrest). clear Hrest. inv_result.
  repeat match goal with Hx : to_u64 _ = Some _ |- _ => apply to_u64_Some in Hx as [-> ?] end.
  eexists _, _, _, _, _. split; [eassumption|]. unfold mint_expiry, is_u64 in *.
  split_and!; first [lia|reflexivity].
Qed.

Lemma mint_Ok key policy request now d1 d2 l l' g :
  mint key policy request now d1 d2 l = (l', Ok g) ->
  exists d grant_id grant_nonce budget issued_at,
    durable_lease_binding (lr_attempt_id request) l = Ok d /\
    lr_ttl_ms request <= MAX_LAUNCH_GRANT_TTL_MS /\ 0 <= now / 1000000 < mint_expiry request d now /\
    sign_grant key (minted_claims key policy request (dl_binding d) grant_id grant_nonce budget
                      (now / 1000000) (mint_expiry request d now)) = Ok g /\
    record_launch_grant_nonce (MkLaunchGrantNonceRecord grant_nonce grant_id
      (lr_attempt_id request) (lb_attempt_fence (dl_binding d)) (mint_expiry request d now)
      issued_at) l = (l', Ok tt).
Proof.
  unfold mint. intros Hm. apply st_bind_Ok in Hm as (l1 & [claims record] & Hp & Hm).
  apply st_reading_Ok in Hp as [-> Hp]. apply st_bind_Ok in Hm as (l2 & [] & Hr & Hm).
  apply st_map_err_Ok in Hr. apply st_pure_Ok in Hm as [-> Hm]. apply map_err_Ok in Hm. cbn in *.
  apply prepare_mint_Ok in Hp as (d & gid & gn & b & at_ & Hd & Ht & Hw & -> & ->).
  by exists d, gid, gn, b, at_.
Qed.
End Mint.

(** The only change is that a fresh nonce is on record, unspent. *)
Definition nonce_recorded (claims : LaunchGrantClaims) (record : LaunchGrantNonceRecord)
  (l l' : MemoryLedger) : Prop :=
  changes [TFailpoint; TLaunchNonces] l l' /\
  ml_launch_grant_nonces l !! lg_grant_nonce claims = None /\
  ml_launch_grant_nonces l' = <[lg_grant_nonce claims := MkStoredLaunchGrantNonce record None]>
                                (ml_launch_grant_nonces l).

Section MintTheorems.
Context `{LedgerExt} `{Json MaterializeCommandResult} `{Json StoredGraph}
  `{Json CanonicalPlan} `{Json GraphDeltaCommandResult} `{Json GraphDelta}.
Context `{GrantExt} `{Canon BudgetReservationSubject}.

(** C26: A minted grant binds the current writer. When a mint on a reachable
    ledger succeeds, its signed claims name the durable attempt that passes
    the active-lease check, under the current fence of its variant; their
    window opens at the mint, lasts at most fifteen seconds and never ends
    after the lease; and the only change of the ledger is that the fresh nonce
    of the claims is recorded, unspent, for that attempt and that expiry. *)
Theorem mint_binds_current_writer key policy request now d1 d2 l l' g :
  reachable l -> mint key policy request now d1 d2 l = (l', Ok g) ->
  exists claims a lease expiry record,
    sign_grant key claims = Ok g /\
    ml_attempts l !! id_as_str (lr_attempt_id request) = Some a /\
    check_active_lease (ActiveLeaseSubject_from_attempt a) l = Ok tt /\
    ml_leases l !! lg_variant_id claims = Some lease /\
    lg_attempt_id claims = id_as_str (lr_attempt_id request) /\
    ActiveLease_attempt_id lease = lr_attempt_id request /\
    ml_fences l !! lg_variant_id claims = Some (lg_attempt_fence claims) /\
    lg_runner_epoch claims = Attempt_runner_epoch a /\
    lg_authority_epoch claims = na_authority_epoch (current_authority l) /\
    lg_not_before_unix_ms claims = now / 1000000 /\
    now / 1000000 < lg_expires_at_unix_ms claims <= now / 1000000 + MAX_LAUNCH_GRANT_TTL_MS /\
    parse_rfc3339 (ActiveLease_expires_at lease) = Some expiry /\
    lg_expires_at_unix_ms claims * 1000000 <= expiry /\
    nonce_recorded claims record l l' /\
    lgn_attempt_id record = lr_attempt_id request /\
    lgn_expires_at_unix_ms record = lg_expires_at_unix_ms claims.
Proof.
  intros HI%reachable_inv
    (d & gid & gn & b & at_ & Hd & Httl & Hw & Hs & Hr)%mint_Ok.
  apply durable_lease_binding_Ok in Hd as (a & lease & expiry & Ha & Hl & Hla & Hlf & Hck & Hx
    & Hdx & Eat & Eva & Efe & _ & Eep & _ & Eau).
  destruct (inv_attempts _ HI _ _ Ha) as (Hk & _ & _).
  destruct (inv_leases _ HI _ _ Hl) as (_ & Hfe & _).
  assert (Attempt_id a = lr_attempt_id request) as Hid.
  { destruct (Attempt_id a), (lr_attempt_id request). cbn in Hk. by subst. }
  pose proof (record_launch_changes _ _ _ Hr) as Hch.
  apply record_launch_run in Hr as [[? _]|(_ & Hnone & _ & Hn)]; [done|..|done].
  eexists _, a, lease, expiry, _. split; [exact Hs|]. cbn in Hn, Hnone |- *.
  rewrite Eva, Eat, Eep, Eau, Efe, Hid. split; [done|]. split; [done|]. split; [done|].
  split; [done|]. split; [congruence|]. split; [congruence|]. do 3 (split; [done|]).
  unfold mint_expiry in *. rewrite Hdx in *.
  pose proof (Z.mul_div_le expiry 1000000). split; [lia|]. split; [done|]. split; [lia|].
  split; [split; [done|split; [done|exact Hn]]|]. done.
Qed.
End MintTheorems.

(** ** From the mint to the launch *)

Section Launch.
Context `{LedgerExt} `{Json MaterializeCommandResult} `{Json StoredGraph}
  `{Json CanonicalPlan} `{Json GraphDeltaCommandResult} `{Json GraphDelta}.
Context `{GrantExt} `{Canon BudgetReservationSubject}.
Context `{!HexLaws} `{!PasetoLaws} `{!CanonLaws LaunchGrantClaims}.

(** What a runner expects that holds the lease [d] and runs [request]. *)
Definition runner_expectation (request : LaunchGrantRequest) (policy : PolicyBinding)
  (d : DurableLeaseBinding) (protocol : ProviderProtocol) (now : Z) : LaunchGrantExpectation :=
  MkLaunchGrantExpectation now (dl_binding d)
    (MkProviderBinding (lr_provider request) (lr_adapter request) (lr_provider_profile_id request)
       (lr_model request) (lr_credential_generation request) protocol
       (lr_executable_path request) (lr_executable_digest request) (lr_descriptor_digest request)
       (lr_capability_digest request) (lr_sandbox_manifest_digest request)
       (lr_environment_digest request))
    policy.

Lemma minted_claims_expected key policy request d gid gn b nb ex protocol now :
  ProviderProtocol_as_str protocol = lr_protocol request ->
  check_subject (runner_expectation request policy d protocol now)
    (minted_claims key policy request (dl_binding d) gid gn b nb ex) = Ok tt.
Proof.
  intros Hp. apply check_subject_Ok. cbn. split; [|by split_and!].
  unfold claims_lease. cbn. by destruct (dl_binding d).
Qed.

Lemma check_launch_grant_intro grant key e claims digest :
  envelope_digest grant = Ok digest -> authenticate_grant key grant = Ok claims ->
  check_subject e claims = Ok tt ->
  lg_not_before_unix_ms claims <= le_now_unix_ms e < lg_expires_at_unix_ms claims ->
  check_launch_grant grant key e =
    if pob_live_admission_enabled (le_policy e) then Ok (MkVerifiedLaunchGrant claims digest)
    else Err (HePolicyLiveAdmissionDisabled (pob_policy_generation (le_policy e))
                "sandbox_policy.live_admission_enabled").
Proof.
  intros Hd Ha Hs Hw. unfold check_launch_grant, grant_window.
  rewrite Hd. run_result. rewrite Ha. run_result. rewrite Hs. run_result.
  rewrite !bool_decide_false by lia. run_result. by destruct (pob_live_admission_enabled _).
Qed.

(** An authentic envelope has a digest: its domain is a fixed label. *)
Lemma authentic_digest key grant claims :
  authenticate_grant key grant = Ok claims -> exists digest, envelope_digest grant = Ok digest.
Proof.
  unfold authenticate_grant, envelope_digest. intros Ha.
  apply bind_Ok in Ha as ([] & Hv & _). rewrite Hv. by eexists.
Qed.

Lemma tick_open l : ml_fail_after_writes l = None -> tick l = (l, Ok tt).
Proof. unfold tick. by intros ->. Qed.

Lemma record_launch_open r l l' :
  ml_fail_after_writes l = None -> record_launch_grant_nonce r l = (l', Ok tt) ->
  l' = set_launch_grant_nonces l (<[lgn_grant_nonce r := MkStoredLaunchGrantNonce r None]>
         (ml_launch_grant_nonces l)).
Proof.
  unfold record_launch_grant_nonce. intros Hf Hr. apply st_bind_Ok in Hr as (l1 & ? & Hv & Hr).
  apply st_pure_Ok in Hv as [-> _]. apply st_bind_Ok in Hr as (l2 & ? & Ht & Hr).
  rewrite tick_open in Ht by done. injection Ht as <-.
  apply st_bind_Ok in Hr as (l3 & ? & [-> _]%st_reading_Ok & Hr). by apply st_assign_Ok in Hr.
Qed.

(** The store's answers to a nonce on record. *)
Lemma store_consume_fresh n aid r now l :
  ml_fail_after_writes l = None ->
  ml_launch_grant_nonces l !! n = Some (MkStoredLaunchGrantNonce r None) ->
  id_wire_form "atm" (id_as_str aid) -> lgn_attempt_id r = aid ->
  0 <= ml_simulation_clock_millis l < lgn_expires_at_unix_ms r ->
  is_Some (format_millis (ml_simulation_clock_millis l)) ->
  is_u64 (ml_simulation_clock_millis l) ->
  exists at_, store_consume_nonce n (id_as_str aid) now l =
    (set_launch_grant_nonces l (<[n := MkStoredLaunchGrantNonce r (Some at_)]>
       (ml_launch_grant_nonces l)), Ok ConsumedOutcome).
Proof.
  intros Hf Hn Hid Ha Hw [at_ Hat] Hu. exists at_.
  unfold store_consume_nonce, mbind, stateful_bind, pure_step.
  rewrite (proj2 (id_parse_Ok _ _ aid) (conj eq_refl Hid)). cbn.
  unfold st_map_err, consume_launch_grant_nonce, mbind, stateful_bind, reading.
  rewrite tick_open by done. rewrite (proj2 (to_u64_Some _ _) (conj eq_refl Hu)). cbn.
  rewrite (proj2 (classify_consumed _ _ _)) by (exists r; split_and!; [done|done|lia]).
  rewrite bool_decide_true by done. unfold simulation_time, format_simulation_time.
  rewrite Hat. cbn. f_equal. f_equal. apply map_eq. intros k.
  destruct (decide (k = n)) as [->|Hk].
  - by rewrite lookup_alter_eq, lookup_insert_eq, Hn.
  - by rewrite lookup_alter_ne, lookup_insert_ne by done.
Qed.

Lemma store_consume_spent n aid r at_ now l :
  ml_fail_after_writes l = None ->
  ml_launch_grant_nonces l !! n = Some (MkStoredLaunchGrantNonce r (Some at_)) ->
  id_wire_form "atm" (id_as_str aid) -> lgn_attempt_id r = aid ->
  is_u64 (ml_simulation_clock_millis l) ->
  store_consume_nonce n (id_as_str aid) now l = (l, Ok ReplayedOutcome).
Proof.
  intros Hf Hn Hid Ha Hu. unfold store_consume_nonce, mbind, stateful_bind, pure_step.
  rewrite (proj2 (id_parse_Ok _ _ aid) (conj eq_refl Hid)). cbn.
  unfold st_map_err, consume_launch_grant_nonce, mbind, stateful_bind, reading.
  rewrite tick_open by done. rewrite (proj2 (to_u64_Some _ _) (conj eq_refl Hu)). cbn.
  assert (forall z, classify_stored_nonce (ml_launch_grant_nonces l !! n) aid z = ReplayedOutcome)
    as Hc. { intros z. rewrite Hn. cbn. by rewrite (bool_decide_true _ Ha). }
  rewrite Hc. by rewrite bool_decide_false.
Qed.

(** C16: A minted grant launches its runner exactly once, if the policy admits
    live launches at all. Let a key be loaded and its public half published,
    let a mint succeed on a reachable ledger in which no write failure is
    injected, and let the token be at most as long as the reader accepts. Take
    the runner that holds the lease and runs the request under the minted
    policy, with its own clock and the clock of the nonce store in the minted
    window (the latter a 64-bit number of milliseconds that can be written as a
    date). If the policy enables live admission, the grant is admitted, the
    admitted claims carry the durable lease, and the same verification repeated
    is refused as a replay; if it does not, which the mint leaves unchecked,
    the grant is refused for that reason and its nonce is not spent. *)
Theorem minted_grant_launches_once issuer key_id raw key vk policy request protocol now at_ d1 d2
    l l' g d :
  signing_key_from_bytes issuer key_id raw = Ok key -> verification_key key = Ok vk ->
  reachable l -> ml_fail_after_writes l = None ->
  mint key policy request now d1 d2 l = (l', Ok g) ->
  str_len (sg_paseto g) <= MAX_TOKEN_BYTES ->
  durable_lease_binding (lr_attempt_id request) l = Ok d ->
  ProviderProtocol_as_str protocol = lr_protocol request ->
  now / 1000000 <= at_ < mint_expiry request d now ->
  0 <= ml_simulation_clock_millis l < mint_expiry request d now ->
  is_u64 (ml_simulation_clock_millis l) ->
  is_Some (format_millis (ml_simulation_clock_millis l)) ->
  let e := runner_expectation request policy d protocol at_ in
  if pob_live_admission_enabled policy then
    exists l2 v,
      verify_launch_grant g vk e l' = (l2, Ok v) /\
      claims_lease (vg_claims v) = dl_binding d /\
      verify_launch_grant g vk e l2 = (l2, Err (HeLaunchGrantReplayed (lg_grant_id (vg_claims v))))
  else
    verify_launch_grant g vk e l' =
      (l', Err (HePolicyLiveAdmissionDisabled (pob_policy_generation policy)
                  "sandbox_policy.live_admission_enabled")).
Proof using All.
  intros Hsk Hvk HI%reachable_inv Hfail Hm Hlen Hd Hproto Hat Hclk Hu Hfmt e.
  apply mint_Ok in Hm as (d' & gid & gn & b & iat & Hd' & Httl & Hw & Hs & Hr).
  rewrite Hd in Hd'. injection Hd' as <-.
  set (claims := minted_claims _ _ _ _ _ _ _ _ _) in Hs.
  set (record := MkLaunchGrantNonceRecord _ _ _ _ _ _) in Hr.
  destruct (sign_authenticate _ _ _ _ _ _ _ Hsk Hvk Hs Hlen) as [Hauth _].
  destruct (authentic_digest _ _ _ Hauth) as [digest Hdig].
  pose proof (check_launch_grant_intro g vk e claims digest Hdig Hauth
    (minted_claims_expected _ _ _ _ _ _ _ _ _ _ _ Hproto) Hat) as Hck.
  cbn [e runner_expectation le_policy] in Hck.
  destruct (pob_live_admission_enabled policy);
    [|by unfold verify_launch_grant, mbind, stateful_bind; rewrite Hck].
  assert (validate_shape claims = Ok tt) as Hshape.
  { unfold sign_grant in Hs. by apply bind_Ok in Hs as ([] & ? & _). }
  assert (id_wire_form "atm" (id_as_str (lr_attempt_id request)) /\
          lg_attempt_id claims = id_as_str (lr_attempt_id request)) as [Hwire Haid].
  { apply durable_lease_binding_Ok in Hd as (a & lease & expiry & Ha & _ & _ & _ & _ & _ & _ & Eat & _).
    destruct (inv_attempts _ HI _ _ Ha) as [Hk _]. cbn. rewrite Eat, <- Hk.
    split; [|done]. apply validate_shape_attempt in Hshape. cbn in Hshape. by rewrite Eat, <- Hk in Hshape. }
  apply record_launch_open in Hr as ->; [|done].
  set (l1 := set_launch_grant_nonces l _).
  assert (ml_launch_grant_nonces l1 !! gn = Some (MkStoredLaunchGrantNonce record None)) as Hn
    by (cbn; by rewrite lookup_insert_eq).
  destruct (store_consume_fresh gn (lr_attempt_id request) record at_ l1) as [at2 Hc]; [done..|].
  eexists _, (MkVerifiedLaunchGrant claims digest). split; [|split].
  - apply verify_Ok. split; [done|]. cbn [vg_claims]. rewrite Haid. exact Hc.
  - cbn. unfold claims_lease. cbn. by destruct (dl_binding d).
  - unfold verify_launch_grant, mbind, stateful_bind. rewrite Hck. cbn [pure_step vg_claims].
    rewrite Haid. change (consume_nonce ?n ?a ?z) with (store_consume_nonce n a z).
    rewrite (store_consume_spent gn (lr_attempt_id request) record at2);
      [done|done|cbn; by rewrite lookup_insert_eq|done..].
Qed.
End Launch.

(** ** Mutation permits behind the in-process ledger

    The reservation store of [MutationPermits] with the active-lease check of
    the in-process ledger as its gate. *)

Section LedgerGate.
Context `{LedgerExt} `{Json MaterializeCommandResult} `{Json StoredGraph}
  `{Json CanonicalPlan} `{Json GraphDeltaCommandResult} `{Json GraphDelta}.
Context `{GrantExt} `{PermitExt}.

(** The gate repeats the check of the ledger. *)
Global Instance ledger_gate : LeaseGate MemoryLedger :=
  fun subject => reading (check_active_lease subject).

(** The ledger accepts the subject, under the current fence of its variant. *)
Definition current_writer (l : MemoryLedger) (subject : ActiveLeaseSubject) : Prop :=
  check_active_lease subject l = Ok tt /\
  ml_fences l !! id_as_str (als_variant_id subject) = Some (als_fence subject).

(** C17: A mutation is performed at most once and only by the current writer.
    In a run of the reservation store that starts without rows, with the
    in-process ledger as its gate and any ledger operations between the calls,
    no mutation is spent twice; each spent one was reserved before, under the
    same attempt and fence; at that moment the ledger's active-lease check
    accepts the subject, whose fence is the current fence of its variant; and
    a signed permit that came with it is authentic, lives at most one second
    and names exactly that mutation, attempt and fence. *)
Theorem mutation_spent_once_by_writer l0 evs s :
  reachable l0 -> permit_run ledger_step l0 evs s ->
  NoDup (omap spent_id evs) /\
  forall pre l subject p c post, evs = pre ++ EvSpent l subject p c :: post ->
    (exists reserver, EvReserved reserver p ∈ pre /\
       als_attempt_id reserver = als_attempt_id subject /\
       als_fence reserver = als_fence subject) /\
    reachable l /\ current_writer l subject /\
    (forall claims, c = Some claims -> permit_binds claims subject p).
Proof.
  intros Hl0 Hrun. split; [by eapply inv_once, permit_run_inv|].
  intros pre l subject p c post Hev.
  destruct (permit_run_events ledger_step l0 reachable Hl0) with (evs := evs) (s := s)
    as [_ Hok]; [by intros ?? ? ?; eapply rtc_r|done|done|].
  destruct (Hok _ _ _ Hev) as (Hreach & (g' & Hck) & Hres & Hb).
  assert (check_active_lease subject l = Ok tt) as Hc by (by injection Hck).
  split; [done|]. split; [done|]. split; [|done]. split; [done|].
  apply check_active_lease_Ok in Hc as (lease & a & Hl & Ha & _ & Hsub & Hla).
  destruct (inv_leases _ (reachable_inv _ Hreach) _ _ Hl) as (_ & Hf & _).
  rewrite Hf, Hsub. f_equal. apply Hla.
Qed.
End LedgerGate.
