(* ===== verification/LeaseClient.v ===== *)
(** * Lease service, ready queue and the runner's lease client

    Models crates/application/src/leases.rs and queue.rs, and the direct lease
    client of crates/runner/src/lease.rs, over the in-process ledger; then
    composes the client with the heartbeat supervisor. The mutex around the
    shared ledger makes each call one step. *)

From S2P Require Import Prelude External Ids States Entities Text Store Records Submissions.
From S2P Require Import Commands NonceLedger RunCoding Effects GraphDelta Authority Context.
From S2P Require Import Memory MemoryLeases MemoryCommands MemoryEffects MemoryGraphs.
From S2P Require Import LedgerFrame LedgerInv LedgerSafety LedgerWrites LedgerLeases LedgerExpiry.
From S2P Require Import HarnessErrors Runner Heartbeat.
From stdpp Require Import options.

Local Open Scope Z_scope.

Section LeaseService.
Context `{LedgerExt}.

(** ** Lookups *)

(** crates/application/src/memory/mod.rs:257-259 (Ledger::get_attempt) *)
Definition get_attempt (id : AttemptId) (l : MemoryLedger) : option Attempt :=
  ml_attempts l !! id_as_str id.

(** crates/application/src/memory/mod.rs:350-359 (Ledger::ready_rows) *)
Definition ready_rows (l : MemoryLedger) : result LedgerError (list ReadyRow) :=
  mapM (M:=result LedgerError) (fun '(key, enqueued_at) =>
    package ← lift_domain (id_parse key);
    mret (MkReadyRow package enqueued_at)) (iter_map (ml_ready l)).

(** ** The lease service *)

(** crates/application/src/leases.rs:26-54 (LeaseService::request_for) *)
Definition request_for (graph : StoredGraph) (variant_index : nat) (seed : string) (ttl_seconds : Z)
  : result LedgerError LeaseRequest :=
  variant ← ok_or (StoredGraph_variants graph !! variant_index) (LedgerStore "variant missing");
  mret (MkLeaseRequest ("lease:" +:+ seed) (Mission_id (StoredGraph_mission graph))
    (Variant_id variant) seed (id_from_seed seed) 1 (id_from_seed seed)
    (as_bytes (Digest_of seed)) 1 1 ttl_seconds).

(** crates/application/src/leases.rs:94-132 (LeaseService::token_for) *)
Definition token_for (graph : StoredGraph) (attempt : Attempt) : result LedgerError AuthorityToken :=
  let mission := StoredGraph_mission graph in
  variant ← ok_or (List.find (fun v => bool_decide (Variant_id v = Attempt_variant_id attempt))
                     (StoredGraph_variants graph)) (LedgerStore "attempt variant not in graph");
  mret (MkAuthorityToken (Mission_organization_id mission) (Mission_repository_id mission)
    (Mission_id mission) (Mission_acceptance_contract_id mission)
    (PlanRevision_id (StoredGraph_plan graph)) 1 (Attempt_work_package_id attempt)
    (Variant_selection_group_id variant) (Variant_id variant) (Attempt_id attempt)
    (Attempt_fence attempt) (Attempt_runner_id attempt) (Attempt_runner_epoch attempt)
    (Attempt_workspace_id attempt) (Attempt_workspace_nonce attempt)
    (Attempt_scope_revision attempt) (Attempt_context_revision attempt)
    (Digest_of "cfg") (Digest_of "pol") (Digest_of "route")
    None None).

(** crates/application/src/leases.rs:56-73 (LeaseService::acquire) *)
Definition service_acquire (graph : StoredGraph) (variant_index : nat) (seed : string) (ttl_seconds : Z)
  : M (Attempt * AuthorityToken * LeaseGrant) :=
  request ← pure_step (request_for graph variant_index seed ttl_seconds);
  grant ← acquire_lease request;
  token ← pure_step (token_for graph (LeaseGrant_attempt grant));
  mret (LeaseGrant_attempt grant, token, grant).

(** crates/application/src/leases.rs:134-146 (LeaseService::heartbeat_of) *)
Definition heartbeat_of (grant : LeaseGrant) : HeartbeatRequest :=
  let lease := LeaseGrant_lease grant in
  MkHeartbeatRequest (ActiveLease_variant_id lease) (ActiveLease_attempt_id lease)
    (ActiveLease_fence lease) (ActiveLease_runner_id lease) (ActiveLease_runner_epoch lease)
    (ActiveLease_workspace_nonce lease) (ActiveLease_ttl_seconds lease).

(** crates/application/src/leases.rs:148-155 (LeaseService::validate_ttl) *)
Definition service_validate_ttl (ttl_seconds : Z) : result LedgerError Z :=
  lift_domain (validate_lease_ttl ttl_seconds).

(** crates/application/src/leases.rs:157-174 (LeaseService::release) *)
Definition service_release (grant : LeaseGrant) (final_state : AttemptState) (requeue : bool) : M unit :=
  release_lease (MkReleaseRequest (ActiveLease_variant_id (LeaseGrant_lease grant))
    (ActiveLease_attempt_id (LeaseGrant_lease grant)) final_state requeue).

(** crates/application/src/leases.rs:190-208 (LeaseService::authorize_patch_application) *)
Definition authorize_patch_application (token : AuthorityToken) (attempt : Attempt)
  : result LedgerError unit :=
  _ ← lift_domain (AuthorityToken_verify token (Attempt_id attempt) (Attempt_fence attempt));
  refuse_if (negb (permits_patch_application (Attempt_state attempt)))
    (LedgerDomain (StaleAuthority (id_as_str (Attempt_id attempt)
       +:+ " cannot apply a patch while " +:+ AttemptState_debug (Attempt_state attempt)))).

(** ** The ready queue *)

(** crates/application/src/queue.rs:9-16 (ReadyItem) *)
Record ReadyItem : Type := MkReadyItem { ri_mission_id : MissionId; ri_package : WorkPackage }.

(** The graphs of the listed missions. *)
Definition mission_graphs (l : MemoryLedger) : list StoredGraph :=
  omap (fun mission => get_graph l (Mission_id mission)) (list_missions l).

(** crates/application/src/queue.rs:18-50 (ready_queue) *)
Definition ready_queue (l : MemoryLedger) : result LedgerError (list ReadyItem) :=
  rows ← ready_rows l;
  mret (rows ≫= fun row =>
    omap (fun graph =>
      package ← List.find (fun p => bool_decide (WorkPackage_id p = ReadyRow_work_package_id row))
                  (StoredGraph_packages graph);
      Some (MkReadyItem (Mission_id (StoredGraph_mission graph)) package)) (mission_graphs l)).

(** crates/application/src/queue.rs:82-98 (reconstruct_token) *)
Definition reconstruct_token (attempt : Attempt) (l : MemoryLedger) : result LedgerError AuthorityToken :=
  match List.find (fun graph => existsb (fun v => bool_decide (Variant_id v = Attempt_variant_id attempt))
          (StoredGraph_variants graph)) (mission_graphs l) with
  | Some graph => token_for graph attempt
  | None => Err (LedgerStore "attempt graph missing")
  end.

(** crates/application/src/queue.rs:52-80 (claim_ready) *)
Definition claim_ready (seed : string) : M (option (Attempt * AuthorityToken)) :=
  existing ← reading (fun l => Ok (get_attempt (id_from_seed seed) l));
  match existing with
  | Some existing =>
      token ← reading (reconstruct_token existing);
      mret (Some (existing, token))
  | None =>
      queue ← reading ready_queue;
      match head queue with
      | None => mret None
      | Some item =>
          graph ← reading (fun l => ok_or (get_graph l (ri_mission_id item)) (LedgerStore "graph missing"));
          variant_index ← pure_step (ok_or (fst <$> list_find
              (fun v => Variant_work_package_id v = WorkPackage_id (ri_package item))
              (StoredGraph_variants graph)) (LedgerStore "variant missing"));
          '(attempt, token, _) ← service_acquire graph variant_index seed 15;
          mret (Some (attempt, token))
      end
  end.

(** ** The runner's client *)

(** crates/runner/src/lease.rs:24-37 (AcquireRequest) *)
Record AcquireRequest : Type := MkAcquireRequest {
  aq_work_package_id : WorkPackageId;
  aq_runner_id : RunnerId;
  aq_runner_epoch : Z;
  aq_idempotency_key : string;
  aq_ttl_seconds : Z
}.

(** crates/runner/src/lease.rs:39-48 (AcquireGrant) *)
Record AcquireGrant : Type := MkAcquireGrant {
  ag_attempt : Attempt;
  ag_authority_token : AuthorityToken;
  ag_lease : ActiveLease
}.

(** crates/runner/src/lease.rs:50-67 (HeartbeatCall) *)
Record HeartbeatCall : Type := MkHeartbeatCall {
  hb_variant_id : VariantId;
  hb_attempt_id : AttemptId;
  hb_fence : Z;
  hb_runner_id : RunnerId;
  hb_runner_epoch : Z;
  hb_workspace_nonce : array32;
  hb_ttl_seconds : Z
}.

(** crates/runner/src/lease.rs:89-98 (ReleaseCall) *)
Record ReleaseCall : Type := MkReleaseCall {
  rc_attempt_id : AttemptId;
  rc_outcome : AttemptState;
  rc_requeue : bool
}.

(** crates/runner/src/lease.rs:100-113 (ReadyView) *)
Record ReadyView : Type := MkReadyView {
  rv_work_package_id : string;
  rv_mission_id : string;
  rv_variant_id : string;
  rv_title : string;
  rv_enqueued_at : string
}.

(** crates/runner/src/lease.rs:137-145 (map_ledger) *)
Definition map_ledger (e : LedgerError) : RunnerError :=
  if bool_decide (LedgerError_reason_code e = "STALE_AUTHORITY")
  then ReStaleAuthority (LedgerError_display e)
  else ReLease (LedgerError_reason_code e) (LedgerError_display e).

(** crates/runner/src/lease.rs:70-86 (HeartbeatCall::for_grant) *)
Definition for_grant (grant : AcquireGrant) : result RunnerError HeartbeatCall :=
  let lease := ag_lease grant in
  _ ← map_err map_ledger (service_validate_ttl (ActiveLease_ttl_seconds lease));
  mret (MkHeartbeatCall (ActiveLease_variant_id lease) (ActiveLease_attempt_id lease)
    (ActiveLease_fence lease) (ActiveLease_runner_id lease) (ActiveLease_runner_epoch lease)
    (ActiveLease_workspace_nonce lease) (ActiveLease_ttl_seconds lease)).

(** The client holds the shared ledger; its calls are steps of it. *)
Definition RM : Type -> Type := stateful MemoryLedger RunnerError.
Definition on_ledger {A} (m : M A) : RM A := st_map_err map_ledger m.

(** crates/runner/src/lease.rs:168-186 (graph_for_package) *)
Definition graph_for_package (package : WorkPackageId) (l : MemoryLedger)
  : option (StoredGraph * VariantId) :=
  head (omap (fun graph =>
    variant ← List.find (fun v => bool_decide (Variant_work_package_id v = package))
                (StoredGraph_variants graph);
    Some (graph, Variant_id variant)) (mission_graphs l)).

(** crates/runner/src/lease.rs:188-210 (lease_request) *)
Definition lease_request (request : AcquireRequest) (graph : StoredGraph) (variant_id : VariantId)
  : LeaseRequest :=
  let key := aq_idempotency_key request in
  MkLeaseRequest key (Mission_id (StoredGraph_mission graph)) variant_id key (aq_runner_id request)
    (aq_runner_epoch request) (id_from_seed key) (as_bytes (Digest_of key)) 1 1
    (aq_ttl_seconds request).

(** crates/runner/src/lease.rs:214-229 (DirectLeaseClient::acquire) *)
Definition direct_acquire (request : AcquireRequest) : RM AcquireGrant :=
  '(graph, variant_id) ← reading (fun l => ok_or (graph_for_package (aq_work_package_id request) l)
    (ReLease "NOT_FOUND" ("work package " +:+ id_as_str (aq_work_package_id request)
       +:+ " not in any graph")));
  grant ← on_ledger (acquire_lease (lease_request request graph variant_id));
  token ← pure_step (map_err map_ledger (token_for graph (LeaseGrant_attempt grant)));
  mret (MkAcquireGrant (LeaseGrant_attempt grant) token (LeaseGrant_lease grant)).

Definition heartbeat_request (call : HeartbeatCall) : HeartbeatRequest :=
  MkHeartbeatRequest (hb_variant_id call) (hb_attempt_id call) (hb_fence call) (hb_runner_id call)
    (hb_runner_epoch call) (hb_workspace_nonce call) (hb_ttl_seconds call).

(** crates/runner/src/lease.rs:231-243 (DirectLeaseClient::heartbeat) *)
Definition direct_heartbeat (call : HeartbeatCall) : RM unit :=
  on_ledger (heartbeat (heartbeat_request call)).

Definition attempt_unknown (id : AttemptId) : RunnerError :=
  ReLease "NOT_FOUND" ("attempt " +:+ id_as_str id +:+ " unknown").

(** crates/runner/src/lease.rs:245-260 (DirectLeaseClient::advance) *)
Definition direct_advance (attempt_id : AttemptId) (state : AttemptState) : RM unit :=
  attempt ← reading (fun l => ok_or (get_attempt attempt_id l) (attempt_unknown attempt_id));
  on_ledger (put_attempt (set_Attempt_state attempt state)).

(** crates/runner/src/lease.rs:262-279 (DirectLeaseClient::release) *)
Definition direct_release (call : ReleaseCall) : RM unit :=
  attempt ← reading (fun l => ok_or (get_attempt (rc_attempt_id call) l)
              (attempt_unknown (rc_attempt_id call)));
  on_ledger (release_lease (MkReleaseRequest (Attempt_variant_id attempt) (rc_attempt_id call)
    (rc_outcome call) (rc_requeue call))).

(** crates/runner/src/lease.rs:281-302 (DirectLeaseClient::next_ready) *)
Definition direct_next_ready (l : MemoryLedger) : result RunnerError (option ReadyView) :=
  rows ← map_err map_ledger (ready_rows l);
  match head rows with
  | None => mret None
  | Some row =>
      match graph_for_package (ReadyRow_work_package_id row) l with
      | None => mret None
      | Some (graph, variant_id) =>
          let title := default EmptyString (WorkPackage_title <$> List.find
            (fun p => bool_decide (WorkPackage_id p = ReadyRow_work_package_id row))
            (StoredGraph_packages graph)) in
          mret (Some (MkReadyView (id_as_str (ReadyRow_work_package_id row))
            (id_as_str (Mission_id (StoredGraph_mission graph))) (id_as_str variant_id) title
            (ReadyRow_enqueued_at row)))
      end
  end.
End LeaseService.

(** ** The client and the supervisor *)

Section Supervised.
Context `{LedgerExt} `{Json MaterializeCommandResult} `{Json StoredGraph}
  `{Json CanonicalPlan} `{Json GraphDeltaCommandResult} `{Json GraphDelta}.

(** The ledger holds a lease for the call's attempt and fence that runs for
    the call's time to live from [clock] milliseconds on. *)
Definition leased_from (call : HeartbeatCall) (clock : Z) (l : MemoryLedger) : Prop :=
  1 <= hb_ttl_seconds call <= 15 /\
  exists lease, ml_leases l !! id_as_str (hb_variant_id call) = Some lease
    /\ ActiveLease_attempt_id lease = hb_attempt_id call
    /\ ActiveLease_fence lease = hb_fence call
    /\ format_millis (clock + hb_ttl_seconds call * 1000) = Some (ActiveLease_expires_at lease).

(** An acknowledged heartbeat has renewed the lease at the ledger's clock. *)
Lemma direct_heartbeat_Ok call l l' u :
  direct_heartbeat call l = (l', Ok u) -> leased_from call (ml_simulation_clock_millis l) l'.
Proof.
  unfold direct_heartbeat, on_ledger. rewrite st_map_err_Ok. unfold heartbeat. intros Hrun.
  apply st_bind_Ok in Hrun as (l1 & ttl & Httl & Hrun). apply st_pure_Ok in Httl as [-> Httl].
  apply map_err_Ok, validate_lease_ttl_Ok in Httl as [-> Httl].
  apply st_bind_Ok in Hrun as (l2 & u2 & Htick & Hrun).
  apply st_bind_Ok in Hrun as (l3 & [now expires] & Hw & Hrun). apply st_reading_Ok in Hw as [-> Hw].
  cbv beta iota in Hrun.
  apply st_bind_Ok in Hrun as (l4 & cur & Hcur & Hrun). apply st_reading_Ok in Hcur as [-> Hcur].
  injection Hcur as Hcur. destruct cur as [lease|]; [|done].
  apply st_bind_Ok in Hrun as (l5 & att & Hatt & Hrun). apply st_reading_Ok in Hatt as [-> _].
  apply st_bind_Ok in Hrun as (l6 & u6 & Hper & Hrun). apply st_pure_Ok in Hper as [-> _].
  destruct (heartbeat_matches _ _ _ _) eqn:Hm; [|done]. apply st_assign_Ok in Hrun as ->.
  unfold heartbeat_matches in Hm. rewrite !andb_true_iff, !bool_decide_eq_true in Hm.
  pose proof (moves_run _ _ _ _ _ clock_tick Htick) as Hck. unfold same_clock in Hck.
  apply lease_window_Ok in Hw as [_ Hexp]. rewrite Hck in Hexp. split; [done|].
  exists (renew lease now expires). simpl. rewrite lookup_insert_eq. naive_solver.
Qed.

(** A first acquisition has written the lease of its grant at the ledger's
    clock. *)
Lemma direct_acquire_Ok request l l' grant call :
  reachable l -> ml_commands l !! aq_idempotency_key request = None ->
  direct_acquire request l = (l', Ok grant) -> for_grant grant = Ok call ->
  leased_from call (ml_simulation_clock_millis l) l'.
Proof.
  intros HI%reachable_inv Hnone Hrun Hcall. unfold direct_acquire in Hrun.
  apply st_bind_Ok in Hrun as (l1 & [graph variant_id] & Hg & Hrun). apply st_reading_Ok in Hg as [-> _].
  cbv beta iota in Hrun. apply st_bind_Ok in Hrun as (l2 & g & Hacq & Hrun).
  apply st_bind_Ok in Hrun as (l3 & tok & Htok & Hrun). apply st_pure_Ok in Htok as [-> _].
  apply st_ret_Ok in Hrun as [-> <-]. unfold on_ledger in Hacq. rewrite st_map_err_Ok in Hacq.
  apply acquire_fresh_Ok in Hacq
    as (l1 & req & ttl & now & expires & acq & _ & _ & Hc & _ & Httl & Hw & Hb & Hcm); [|done..].
  apply commit_acquisition_run in Hcm as [Hp|(Hg & _ & El & _)]; [done|]. injection Hg as ->.
  apply build_acquisition_Ok in Hb
    as (? & ? & ? & ? & ? & _ & _ & _ & _ & _ & _ & _ & _ & Hgr & _). cbv zeta in Hgr.
  rewrite Hgr in El, Hcall. unfold for_grant in Hcall. inv_result. simpl in *.
  apply lease_window_Ok in Hw as [_ Hexp]. unfold same_clock in Hc. rewrite Hc in Hexp.
  split; [done|]. eexists. rewrite El, lookup_insert_eq. split_and!; [done..|]. done.
Qed.
(** The ledger has granted or renewed the lease of [call]. *)
Definition renewed_by (call : HeartbeatCall) (l l' : MemoryLedger) : Prop :=
  direct_heartbeat call l = (l', Ok tt)
  \/ exists request grant, reachable l /\ ml_commands l !! aq_idempotency_key request = None
     /\ direct_acquire request l = (l', Ok grant) /\ for_grant grant = Ok call.

Lemma renewed_leased call l l' :
  renewed_by call l l' -> leased_from call (ml_simulation_clock_millis l) l'.
Proof.
  intros [Hb|(request & grant & ? & ? & ? & ?)]; [by eapply direct_heartbeat_Ok|by eapply direct_acquire_Ok].
Qed.

Lemma str_lt_not_le a b : str_lt a b -> ~ str_le b a.
Proof.
  unfold str_lt, str_le, String.ltb, String.leb. rewrite (str_compare_antisym a b).
  destruct (String.compare b a) eqn:Hc; simpl; naive_solver.
Qed.

(** When a text of the clock is at or after the expiry of a lease. *)
Lemma due_iff `{!ChronoLaws} call clock l lease m now :
  1 <= hb_ttl_seconds call <= 15 ->
  ml_leases l !! id_as_str (hb_variant_id call) = Some lease ->
  format_millis (clock + hb_ttl_seconds call * 1000) = Some (ActiveLease_expires_at lease) ->
  0 <= clock -> four_digit_years (clock + 15000) -> four_digit_years m -> format_millis m = Some now ->
  (lease ∈ due_leases l now <-> clock + hb_ttl_seconds call * 1000 <= m)
  /\ (str_lt now (ActiveLease_expires_at lease) <-> m < clock + hb_ttl_seconds call * 1000).
Proof.
  intros Httl Hl Hexp Hpos Hyc Hym Hnow.
  assert (str_lt now (ActiveLease_expires_at lease) <-> m < clock + hb_ttl_seconds call * 1000) as Hlt.
  { eapply format_order; [done| |done|done]. unfold four_digit_years in *. lia. }
  split; [|done]. split.
  - unfold due_leases. rewrite merge_sort_Permutation, list_elem_of_filter. intros [Hle _].
    destruct (decide (clock + hb_ttl_seconds call * 1000 <= m)) as [|Hm]; [done|exfalso].
    apply (str_lt_not_le now (ActiveLease_expires_at lease)); [apply Hlt; lia|done].
  - intros Hm. eapply elem_of_due; [done|].
    destruct (total str_le (ActiveLease_expires_at lease) now) as [|Hle]; [done|].
    destruct (decide (str_le (ActiveLease_expires_at lease) now)) as [|Hn]; [done|exfalso].
    assert (m < clock + hb_ttl_seconds call * 1000); [|lia].
    apply Hlt. unfold str_lt, str_le, String.ltb, String.leb in *.
    rewrite str_compare_antisym in Hn. destruct (String.compare now _); simpl in *; done.
Qed.

(** C6: Once a heartbeat was acknowledged, the runner stops before its lease
    ends. Take a supervisor that has had an acknowledged heartbeat (not only
    the grant: the acquisition has no timeout, and until the first
    acknowledged heartbeat nothing is claimed here) and that runs on a runtime
    late by at most [late]; let the ledger have carried out the last
    acknowledged heartbeat at instant [p], no earlier than it was sent, its
    clock counting milliseconds of the same time with any offset, in years of
    four digits. If two cadences, three delays and a millisecond fit into a
    fifth of the time to live, then at every instant [t] at which the
    supervisor may still not have frozen, the lease of exactly this attempt and
    fence, as the ledger wrote it, has not expired, and no sweep at that
    instant would take it. (With the default interval of two seconds the
    condition holds for no admitted time to live; the interval has to be below
    a tenth of it.) *)
Theorem runner_frozen_before_expiry `{!ChronoLaws} call config start late beats sv sv' offset p t l l' now :
  0 <= hc_interval config -> 0 <= late ->
  heartbeat_setup (hb_ttl_seconds call) config start = Ok sv ->
  heartbeat_loop sv beats = Ok (inl sv') ->
  on_time (sv_cadence sv) late start start beats ->
  acknowledged beats ->
  2 * sv_cadence sv + 3 * late + 1000000 <= hb_ttl_seconds call * NANOS / 5 ->
  direct_heartbeat call l = (l', Ok tt) -> ml_simulation_clock_millis l = (p + offset) / 1000000 ->
  (last_ack start start beats).1 <= p ->
  t <= next_firing (sv_cadence sv) late start start beats ->
  four_digit_years ((p + offset) / 1000000 + 15000) -> four_digit_years ((t + offset) / 1000000) ->
  0 <= (p + offset) / 1000000 -> format_millis ((t + offset) / 1000000) = Some now ->
  exists lease, ml_leases l' !! id_as_str (hb_variant_id call) = Some lease
    /\ ActiveLease_attempt_id lease = hb_attempt_id call
    /\ ActiveLease_fence lease = hb_fence call
    /\ str_lt now (ActiveLease_expires_at lease)
    /\ (lease ∉ due_leases l' now).
Proof.
  intros Hint Hlate Hsetup Hloop Hon Hack Hfit Hren Hclock Hp Ht Hyp Hyt Hpos Hnow.
  apply direct_heartbeat_Ok in Hren as (Httl & lease & Hl & Ha & Hf & Hexp). rewrite Hclock in Hexp.
  pose proof (running_until _ _ _ _ _ _ _ Httl Hint Hlate Hsetup Hloop Hon Hack) as Hu.
  assert ((t + offset) / 1000000 < (p + offset) / 1000000 + hb_ttl_seconds call * 1000) as Hlt.
  { unfold NANOS in *. assert (t + offset < p + offset + (hb_ttl_seconds call * 1000 - 1) * 1000000).
    { replace (hb_ttl_seconds call * 1000000000) with (hb_ttl_seconds call * 200000000 * 5) in * by lia.
      rewrite Z.div_mul in * by lia. lia. }
    assert ((t + offset) / 1000000 <= (p + offset) / 1000000 + (hb_ttl_seconds call * 1000 - 1)); [|lia].
    rewrite <-Z.div_add by lia. apply Z.div_le_mono; lia. }
  destruct (due_iff call _ l' lease _ now Httl Hl Hexp Hpos Hyp Hyt Hnow) as [Hdue Hbefore].
  exists lease. split_and!; [done..|by apply Hbefore|]. rewrite Hdue. lia.
Qed.

(** C35: When the self-kill deadline precedes the lease's expiry, exactly. Let
    a supervisor have been running through any calls, on any runtime, and let
    the ledger have carried out the last acknowledged call (a heartbeat or the
    first acquisition of the grant) at the millisecond [p], its clock counting
    the same time with any offset, in years of four digits. The supervisor's
    deadline is before the expiry that the ledger wrote if and only if the
    acknowledgement was received within a fifth of the time to live after [p].
    Otherwise the two overlap: an instant is one at which the deadline has not
    passed and a sweep of the ledger takes the lease of this attempt and fence
    exactly if it lies between the expiry and the deadline, and calls that hang
    until their timeout leave the supervisor running through that window. The
    code waits for a heartbeat for one cadence, which can be longer than the
    fifth, and for the acquisition without a timeout. *)
Theorem deadline_precedes_expiry_iff `{!ChronoLaws} call config start sent beats sv sv' offset p l l' :
  heartbeat_setup (hb_ttl_seconds call) config start = Ok sv ->
  heartbeat_loop sv beats = Ok (inl sv') ->
  renewed_by call l l' -> p + offset = ml_simulation_clock_millis l * 1000000 ->
  0 <= ml_simulation_clock_millis l -> four_digit_years (ml_simulation_clock_millis l + 15000) ->
  let expiry := p + hb_ttl_seconds call * NANOS in
  let deadline := sk_deadline (sv_deadline sv') in
  (deadline < expiry <-> (last_ack sent start beats).2 - p < hb_ttl_seconds call * NANOS / 5)
  /\ (forall more, Forall (fun b => bt_reply b = TimedOut /\ bt_tick b < deadline) more ->
        heartbeat_loop sv (beats ++ more) = Ok (inl sv'))
  /\ exists lease, ml_leases l' !! id_as_str (hb_variant_id call) = Some lease
     /\ ActiveLease_attempt_id lease = hb_attempt_id call /\ ActiveLease_fence lease = hb_fence call
     /\ forall t now, four_digit_years ((t + offset) / 1000000) ->
          format_millis ((t + offset) / 1000000) = Some now ->
          (deadline_expired (sv_deadline sv') t = false /\ lease ∈ due_leases l' now
           <-> expiry <= t < deadline).
Proof.
  intros Hsetup Hloop Hren Hp Hpos Hy expiry deadline.
  apply renewed_leased in Hren as (Httl & lease & Hl & Ha & Hf & Hexp).
  apply heartbeat_setup_Ok in Hsetup as (_ & Hbud & Hdl & _).
  pose proof (running_deadline _ _ _ sent start Hloop Hdl) as Hd. rewrite Hbud in Hd. fold deadline in Hd.
  split; [|split].
  - rewrite Hd. unfold expiry, NANOS.
    replace (hb_ttl_seconds call * 1000000000) with (hb_ttl_seconds call * 200000000 * 5) by lia.
    rewrite Z.div_mul by lia. lia.
  - intros more Hmore. rewrite (heartbeat_loop_app _ _ _ _ Hloop). by apply hanging_calls_continue.
  - exists lease. split_and!; [done..|]. intros t now Hyt Hnow.
    destruct (due_iff call _ l' lease _ now Httl Hl Hexp Hpos Hy Hyt Hnow) as [-> _].
    unfold deadline_expired. rewrite bool_decide_eq_false. fold deadline. unfold expiry, NANOS.
    pose proof (Z.div_mod (t + offset) 1000000). pose proof (Z.mod_pos_bound (t + offset) 1000000). lia.
Qed.
End Supervised.
