(* ===== verification/AttemptRun.v ===== *)
(** * One attempt of the runner

    Models crates/runner/src/attempt.rs with attempt/session.rs, drive.rs,
    drive/finalize.rs and cleanup.rs: acquire, clone, provider turns, checked
    apply, gates, bounded repair, candidate, preservation and release. What
    the attempt talks to (provider adapter, workspace daemon, lease client,
    gate processes, journal, file system) is a class of calls on an abstract
    world, which may answer anything; each call that bears authority is
    appended to a trace with its answer. *)

From S2P Require Import Prelude External Ids States Entities Framing BudgetPolicy Text HarnessErrors.
From S2P Require Import Paths Gates Proposal Events Records Memory Runner Heartbeat Workspace LeaseClient.
From stdpp Require Import options.

Local Open Scope Z_scope.

(** ** Data *)

(** crates/harness-core/src/adapter.rs:177-186 (SessionHandle) *)
Record SessionHandle : Type := MkSessionHandle {
  sh_session_id : string;
  sh_provider : string;
  sh_native_session_id : option string
}.

(** crates/harness-core/src/adapter.rs:188-197 (TurnHandle) *)
Record TurnHandle : Type := MkTurnHandle {
  th_invocation_id : string;
  th_exit_code : option Z;
  th_timed_out : bool
}.

(** The spend cap of a request is always absent here; the schema it enforces
    is the compiled one. *)
(** crates/harness-core/src/adapter.rs:75-92 (StartSession) *)
Record StartSession : Type := MkStartSession {
  ss_session_id : string;
  ss_workdir : string;
  ss_artifact_dir : string;
  ss_model : option string;
  ss_wall_timeout : Z
}.

(** crates/runner/src/attempt.rs:37-64 (AttemptConfig) *)
Record AttemptConfig : Type := MkAttemptConfig {
  ac_source_repo : string;
  ac_base_sha : string;
  ac_workspace_root : string;
  ac_objective : string;
  ac_scope_prefixes : list string;
  ac_admitted_gate_ids : list string;
  ac_max_repair_rounds : Z;
  ac_turn_timeout : Z;
  ac_heartbeat : HeartbeatConfig;
  ac_preservation_destination : option string;
  ac_model : option string
}.

(** crates/runner/src/attempt.rs:184-204 (CandidatePreservation) *)
Record CandidatePreservation : Type := MkCandidatePreservation {
  cp_candidate_id : string;
  cp_base_commit : string;
  cp_head_commit : string;
  cp_tree_hash : string;
  cp_patch_hash : string;
  cp_attempt_id : AttemptId;
  cp_fence : Z;
  cp_receipt : PreservationReceipt
}.

(** crates/runner/src/attempt.rs:167-182 (AttemptOutcome) *)
Record AttemptOutcome : Type := MkAttemptOutcome {
  ao_attempt_id : AttemptId;
  ao_fence : Z;
  ao_candidate : CandidateReceipt;
  ao_preservation : CandidatePreservation;
  ao_repair_rounds : Z;
  ao_gates : list GateReport
}.

(** What a finished gate process left. *)
Record GateOutput : Type := MkGateOutput {
  go_exit_code : option Z;
  go_timed_out : bool;
  go_stdout : string;
  go_stderr : string
}.

(** A call that bears authority, with its answer. *)
Inductive event : Type :=
| EvAcquire (answer : result RunnerError AcquireGrant)
| EvClone (answer : result RunnerError WorkspaceInfo)
| EvFrozen (answer : option FreezeReason)
| EvTurn (prompt : string)
| EvApply (proposal : PatchProposal) (answer : result RunnerError ApplyProposalReceipt)
| EvTree (tree : string) (answer : result RunnerError unit)
| EvGate (gate_id : string) (answer : result RunnerError GateReport)
| EvAdvance (state : AttemptState) (answer : result RunnerError unit)
| EvPrepare (answer : result RunnerError CandidateReceipt)
| EvPreserve (destination : string) (answer : result RunnerError PreservationReceipt)
| EvTerminate (answer : result HarnessError bool)
| EvRelease (call : ReleaseCall) (answer : result RunnerError unit)
| EvCleanup (receipt : PreservationReceipt) (answer : result RunnerError unit).

(** The journal's texts are serialized by serde_json. *)
Class RunnerTexts (V : Type) := {
  schema_source : string;
  facts_json : AttemptOutcome -> string;
  unresolved_json : string -> string -> AttemptOutcome -> string;
  payload_proposal : V -> option V;
  payload_display : V -> string;
  payload_decode : V -> result string PatchProposal
}.

(** The calls of an attempt. *)
Class RunnerPorts (V W : Type) := {
  GateWorkdir : Type;
  PrepareRequest : Type;
  prepare_subject : PrepareRequest -> string;
  hb_frozen : W -> W * option FreezeReason;
  hb_abort : W -> W;
  ad_start : StartSession -> stateful W HarnessError SessionHandle;
  ad_send : SessionHandle -> string -> stateful W HarnessError TurnHandle;
  ad_events : SessionHandle -> W -> W * list (AgentEvent V);
  ad_terminate : SessionHandle -> stateful W HarnessError bool;
  failed_turn : string -> SessionHandle -> TurnHandle -> option (AgentEventKind * V) ->
    stateful W RunnerError RunnerError;
  gd_spawn : AuthorityToken -> stateful W RunnerError unit;
  gd_kill : stateful W RunnerError unit;
  gd_clone : string -> string -> string -> list string -> stateful W RunnerError WorkspaceInfo;
  gd_apply : PatchProposal -> stateful W RunnerError ApplyProposalReceipt;
  gd_checkpoint : stateful W RunnerError CheckpointBinding;
  gd_prepare : PrepareRequest -> stateful W RunnerError CandidateReceipt;
  gd_preserve : string -> stateful W RunnerError PreservationReceipt;
  gd_cleanup : PreservationReceipt -> string -> stateful W RunnerError unit;
  root_open : string -> stateful W RunnerError unit;
  root_bind : AuthorityToken -> Z -> stateful W RunnerError unit;
  open_generation : Z -> stateful W RunnerError GateWorkdir;
  wd_tree : GateWorkdir -> string -> stateful W RunnerError unit;
  run_process : GateWorkdir -> GateDefinition -> stateful W string GateOutput;
  lc_acquire : AcquireRequest -> stateful W RunnerError AcquireGrant;
  lc_advance : AttemptId -> AttemptState -> stateful W RunnerError unit;
  lc_release : ReleaseCall -> stateful W RunnerError unit;
  cp_request : AcquireGrant -> WorkspaceInfo -> CheckpointBinding -> stateful W RunnerError PrepareRequest;
  create_dir_all : string -> stateful W string unit;
  jr_record : string -> string -> W -> W;
  jr_try_record : string -> string -> W -> W * option string
}.

Record run (W : Type) : Type := MkRun { rn_world : W; rn_trace : list event }.
Arguments MkRun {W}. Arguments rn_world {W}. Arguments rn_trace {W}.

Section AttemptRun.
Context `{Blake3} `{Hex} `{Unicode} {V W : Type} `{!Files W} `{!RunnerTexts V} `{!RunnerPorts V W}.

Definition RT : Type -> Type := stateful (run W) RunnerError.

(** A call without a trace, and a call whose answer is recorded. *)
Definition quietly {E A} (m : stateful W E A) : stateful (run W) E A := fun r =>
  let '(w, out) := m (rn_world r) in (MkRun w (rn_trace r), out).
Definition logged {E A} (ev : result E A -> event) (m : stateful W E A) : stateful (run W) E A := fun r =>
  let '(w, out) := m (rn_world r) in (MkRun w (rn_trace r ++ [ev out]), out).
(** The outcome of a call as a value. *)
Definition outcome_of {S E F A} (m : stateful S E A) : stateful S F (result E A) := fun s =>
  match m s with (t, Panic) => (t, Panic) | (t, out) => (t, Ok out) end.

(** [journal.record]. *)
Definition record (stage detail : string) : RT unit := fun r =>
  (MkRun (jr_record stage detail (rn_world r)) (rn_trace r), Ok tt).
Definition abort_heartbeat : RT unit := fun r =>
  (MkRun (hb_abort (rn_world r)) (rn_trace r), Ok tt).

(** [journal.try_record]: the failure, if any. *)
Definition try_record (stage detail : string) : RT (option string) := fun r =>
  let '(w, failure) := jr_try_record stage detail (rn_world r) in (MkRun w (rn_trace r), Ok failure).

(** crates/runner/src/journal.rs:52-68 (require_journal) *)
Definition require_journal (stage detail : string) : RT unit :=
  failure ← try_record stage detail;
  match failure with
  | None => mret tt
  | Some reason => pure_step (Err (ReIo ("journal " +:+ stage) reason))
  end.

(** crates/runner/src/attempt.rs:285-290 (check_freeze) *)
Definition check_freeze : RT unit := fun r =>
  let '(w, frozen) := hb_frozen (rn_world r) in
  (MkRun w (rn_trace r ++ [EvFrozen frozen]),
   match frozen with Some reason => Err (to_error reason) | None => Ok tt end).

(** ** Configuration *)

(** crates/runner/src/attempt.rs:124-152 (AttemptConfig::preservation_destination) *)
Definition preservation_destination (config : AttemptConfig) : RT string :=
  destination ← pure_step (ok_or (ac_preservation_destination config)
    (ReProtocol "successful Candidate preservation is not admitted"));
  _ ← pure_step (refuse_if (negb (path_is_absolute destination)
                            || negb (bool_decide (is_Some (path_file_name destination))))
        (ReProtocol "preservation destination must be an absolute new directory"));
  exists_ ← quietly (asks (fs_exists destination));
  _ ← pure_step (refuse_if exists_
        (ReProtocol ("preservation destination already exists: " +:+ destination)));
  parent ← pure_step (ok_or (path_parent destination)
             (ReProtocol "preservation destination has no parent"));
  canonical ← quietly (st_map_err (ReIo "canonicalize preservation parent") (fs_canonicalize parent));
  _ ← pure_step (refuse_if (negb (path_eq canonical parent))
        (ReProtocol "preservation parent contains a symlink or non-canonical component"));
  mret destination.

(** crates/runner/src/attempt.rs:154-164 (AttemptConfig::capsule) *)
Definition config_capsule (config : AttemptConfig) (grant : AcquireGrant) (ws : WorkspaceInfo) : Capsule :=
  MkCapsule (ac_objective config) (ac_scope_prefixes config) (ac_base_sha config)
    (id_as_str (Attempt_id (ag_attempt grant))) (wi_base_checkpoint_id ws)
    (wi_base_checkpoint_digest ws) (ac_admitted_gate_ids config).

(** crates/runner/src/attempt.rs:302-320 (start_request) *)
Definition start_request (grant : AcquireGrant) (ws : WorkspaceInfo) (config : AttemptConfig) : StartSession :=
  let id := id_as_str (Attempt_id (ag_attempt grant)) in
  MkStartSession id (wi_repo_dir ws) (path_join (path_join (ac_workspace_root config) "artifacts") id)
    (ac_model config) (ac_turn_timeout config).

(** ** The provider's proposal *)

(** crates/harness-core/src/proposal.rs:98-106 (PatchProposal::from_value) *)
Definition proposal_from_value (value : V) : result HarnessError PatchProposal :=
  proposal ← map_err HeProposalParse (payload_decode value);
  _ ← PatchProposal_validate proposal;
  mret proposal.

Definition closes_turn (session : SessionHandle) (turn : TurnHandle) (e : AgentEvent V) : bool :=
  bool_decide (ae_session_id _ e = sh_session_id session)
  && bool_decide (ae_invocation_id _ e = Some (th_invocation_id turn))
  && (bool_decide (ae_kind e = EkTurnCompleted) || bool_decide (ae_kind e = EkTurnFailed)).

(** crates/runner/src/attempt/session.rs:176-221 (latest_proposal) *)
Definition latest_proposal (session : SessionHandle) (turn : TurnHandle) (runtime : string) : RT PatchProposal :=
  events ← (fun r => let '(w, evs) := ad_events session (rn_world r) in
              (MkRun w (rn_trace r), Ok (take 4097 evs)));
  _ ← pure_step (refuse_if (bool_decide (4096 < length events)%nat)
        (ReNoProposal "provider event limit exceeded"));
  let last := (fun e => (ae_kind e, ae_payload e))
                <$> last (filter (fun e => closes_turn session turn e = true) events) in
  let preserve close := failure ← quietly (failed_turn runtime session turn close);
                        pure_step (Err failure) in
  if negb (bool_decide (th_exit_code turn = Some 0)) || th_timed_out turn then preserve last
  else match last with
  | None => pure_step (Err (ReNoProposal "no turn close envelope"))
  | Some (kind, payload) =>
      if bool_decide (kind = EkTurnFailed) then preserve (Some (kind, payload))
      else match payload_proposal payload with
      | None => pure_step (Err (ReNoProposal ("turn completed without a proposal: "
                                              +:+ payload_display payload)))
      | Some value => pure_step (map_err ReHarness (proposal_from_value value))
      end
  end.

(** crates/runner/src/attempt/session.rs:122-126 (Refusal) *)
Record Refusal : Type := MkRefusal { rf_stage : string; rf_detail : string; rf_prompt : string }.

(** The three subjects a proposal must echo. *)
Definition binding_mismatch (capsule : Capsule) (w : PatchProposalWire) : option string :=
  if negb (bool_decide (pp_producing_attempt_id w = cap_producing_attempt_id capsule)) then
    Some ("producing_attempt_id " +:+ pp_producing_attempt_id w +:+ " does not equal active "
          +:+ cap_producing_attempt_id capsule)
  else if negb (bool_decide (pp_base_checkpoint_id w = cap_base_checkpoint_id capsule)) then
    Some ("base_checkpoint_id " +:+ pp_base_checkpoint_id w +:+ " does not equal active "
          +:+ cap_base_checkpoint_id capsule)
  else if negb (bool_decide (pp_base_checkpoint_digest w = cap_base_checkpoint_digest capsule)) then
    Some "base_checkpoint_digest does not equal the active checkpoint digest"
  else None.

(** crates/runner/src/attempt/session.rs:128-174 (pre_apply_refusal) *)
Definition pre_apply_refusal (capsule : Capsule) (proposal : PatchProposal) : option Refusal :=
  match binding_mismatch capsule (pp_wire proposal) with
  | Some detail => Some (MkRefusal "proposal_binding_refused" detail (binding_refusal_prompt capsule detail))
  | None =>
      match validate_proposal (cap_scope_prefixes capsule) proposal with
      | Err (ReScopeDenied path) =>
          Some (MkRefusal "scope_denied" path (scope_denied_prompt capsule path))
      | _ =>
          match require_exact_gates (cap_admitted_gate_ids capsule) (pp_gate_ids (pp_wire proposal)) with
          | Err error => Some (MkRefusal "gate_selection_refused" (RunnerError_display error)
                                 (gate_selection_prompt capsule (RunnerError_display error)))
          | _ => None
          end
      end
  end.

(** crates/runner/src/attempt/session.rs:113-120 (spend_repair_round) *)
Definition spend_repair_round (rounds : Z) (config : AttemptConfig) : result RunnerError Z :=
  let rounds := u32_wrapping_add rounds 1 in
  if bool_decide (ac_max_repair_rounds config < rounds) then Err (ReCapsExhausted rounds) else Ok rounds.

(** ** Gates *)

(** crates/runner/src/gate.rs:98-134 (GateRegistry::run_bound) *)
Definition run_gate_bound (workdir : GateWorkdir) (gate_id : string) : stateful W RunnerError GateReport :=
  gate ← pure_step (registry_definition gate_id);
  output ← st_map_err (ReGate gate_id) (run_process workdir gate);
  mret (MkGateReport gate_id (GateDefinition_argv gate) (go_exit_code output) (go_timed_out output)
          (go_stdout output) (go_stderr output)).

(** [GateWorkdir::verify_git_tree]. *)
Definition verify_git_tree (workdir : GateWorkdir) (tree : string) : RT unit :=
  logged (EvTree tree) (wd_tree workdir tree).

(** crates/runner/src/gate.rs:220-231 (verify_gate_completion) *)
Definition run_gate_bound_verified (workdir : GateWorkdir) (gate_id tree : string) : RT GateReport :=
  report ← outcome_of (logged (EvGate gate_id) (run_gate_bound workdir gate_id));
  _ ← verify_git_tree workdir tree;
  pure_step report.

(** The gates in their order, up to the first that does not pass. *)
Fixpoint run_gates (workdir : GateWorkdir) (tree : string) (gate_ids : list string) : RT (list GateReport) :=
  match gate_ids with
  | [] => mret []
  | gate_id :: rest =>
      report ← run_gate_bound_verified workdir gate_id tree;
      _ ← record "gate_result" ("gate " +:+ gr_gate_id report +:+ " exit "
            +:+ debug_exit (gr_exit_code report) +:+ " timed_out " +:+ debug_bool (gr_timed_out report));
      if gate_passed report then
        reports ← run_gates workdir tree rest;
        mret (report :: reports)
      else mret [report]
  end.

(** ** The repair loop *)

(** Everything between a successful apply and the gates. *)
Definition adopt_generation (ws : WorkspaceInfo) (receipt : ApplyProposalReceipt) (authority : AuthorityToken)
  : RT (GateWorkdir * string) :=
  generation ← quietly (validate_successor ws receipt authority);
  workdir ← quietly (open_generation generation);
  tree ← pure_step (ok_or (gk_git_tree (gn_checkpoint (ar_active_generation receipt)))
           (ReProtocol "generation checkpoint lacks Git tree"));
  _ ← verify_git_tree workdir tree;
  mret (workdir, tree).

(** crates/runner/src/attempt/session.rs:20-111 (session_loop) *)
Fixpoint session_loop (fuel : nat) (session : SessionHandle) (authority : AuthorityToken)
  (config : AttemptConfig) (ws : WorkspaceInfo) (capsule : Capsule) (prompt : string) (rounds : Z)
  : RT (WorkspaceInfo * list GateReport * Z) :=
  match fuel with
  | O => pure_step Panic
  | S fuel =>
      let again ws capsule rounds prompt :=
        session_loop fuel session authority config ws capsule prompt rounds in
      _ ← check_freeze;
      turn ← st_map_err ReHarness (logged (fun _ => EvTurn prompt) (ad_send session prompt));
      _ ← record "turn_finished" ("invocation " +:+ th_invocation_id turn +:+ " exit "
            +:+ debug_exit (th_exit_code turn));
      proposal ← latest_proposal session turn (wi_runtime_dir ws);
      match pre_apply_refusal capsule proposal with
      | Some refusal =>
          _ ← record (rf_stage refusal) (rf_detail refusal);
          rounds ← pure_step (spend_repair_round rounds config);
          again ws capsule rounds (rf_prompt refusal)
      | None =>
          _ ← check_freeze;
          applied ← outcome_of (logged (EvApply proposal) (gd_apply proposal));
          match applied with
          | Panic => pure_step Panic
          | Err err =>
              match path_absent_detail err with
              | None => pure_step (Err err)
              | Some detail =>
                  _ ← record "path_absent" detail;
                  rounds ← pure_step (spend_repair_round rounds config);
                  again ws capsule rounds (path_absent_prompt capsule detail)
              end
          | Ok receipt =>
              _ ← record "patch_applied" (pretty (ar_applied receipt) +:+ " paths");
              '(workdir, tree) ← adopt_generation ws receipt authority;
              let ws := commit_successor ws receipt in
              let capsule := advance_checkpoint capsule (cb_id (ar_checkpoint receipt))
                               (cb_digest (ar_checkpoint receipt)) in
              gates ← run_gates workdir tree (ac_admitted_gate_ids config);
              if bool_decide (length gates = length (ac_admitted_gate_ids config))
                 && forallb gate_passed gates then
                _ ← verify_git_tree workdir tree;
                mret (ws, gates, rounds)
              else
                rounds ← pure_step (spend_repair_round rounds config);
                report ← pure_step (ok_or (last gates)
                           (ReProtocol "admitted gate set produced no report"));
                again ws capsule rounds (gate_feedback_prompt capsule report)
          end
      end
  end.

(** ** Failure and finish *)

Definition is_lower_hex_64 (value : string) : bool := lower_hex_text value 64.

(** crates/runner/src/attempt.rs:245-275 (CandidatePreservation::validate_against) *)
Definition validate_against (b : CandidatePreservation) (candidate : CandidateReceipt)
  (attempt_id : AttemptId) (fence : Z) : RT unit :=
  let receipt := cp_receipt b in
  _ ← pure_step (refuse_if (negb (bool_decide (cp_candidate_id b = cr_id candidate)
        && bool_decide (cp_base_commit b = cr_base_commit candidate)
        && bool_decide (cp_head_commit b = cr_head_commit candidate)
        && bool_decide (cp_tree_hash b = cr_tree_hash candidate)
        && bool_decide (cp_patch_hash b = cr_patch_hash candidate)
        && bool_decide (cp_attempt_id b = attempt_id) && bool_decide (cp_fence b = fence)))
      (ReProtocol "Candidate preservation binding does not match the successful outcome"));
  let invalid := ReProtocol "Candidate preservation contains an invalid sealed receipt" in
  _ ← pure_step (refuse_if (is_empty (pr_token receipt) || negb (is_lower_hex_64 (pr_digest receipt))
        || negb (is_lower_hex_64 (pr_artifact_digest receipt))
        || negb (path_is_absolute (pr_destination receipt))) invalid);
  is_dir ← quietly (asks (fs_is_dir (pr_destination receipt)));
  pure_step (refuse_if (negb is_dir) invalid).

(** crates/runner/src/attempt.rs:207-243 (CandidatePreservation::bind) *)
Definition preservation_bind (candidate : CandidateReceipt) (grant : AcquireGrant)
  (expected_destination : string) (receipt : PreservationReceipt) : RT CandidatePreservation :=
  let differs := ReProtocol "preservation receipt destination differs from the admitted directory" in
  _ ← pure_step (refuse_if (negb (path_eq (pr_destination receipt) expected_destination)) differs);
  is_dir ← quietly (asks (fs_is_dir (pr_destination receipt)));
  _ ← pure_step (refuse_if (negb is_dir) differs);
  _ ← pure_step (refuse_if (is_empty (pr_token receipt) || negb (is_lower_hex_64 (pr_digest receipt))
        || negb (is_lower_hex_64 (pr_artifact_digest receipt)))
      (ReProtocol "preservation receipt is empty or has a malformed digest"));
  _ ← pure_step (refuse_if (is_empty (cr_prepared_at candidate))
        (ReProtocol "Candidate preparation time is absent; cleanup cannot be audited"));
  let attempt := ag_attempt grant in
  let binding := MkCandidatePreservation (cr_id candidate) (cr_base_commit candidate)
    (cr_head_commit candidate) (cr_tree_hash candidate) (cr_patch_hash candidate)
    (Attempt_id attempt) (Attempt_fence attempt) receipt in
  _ ← validate_against binding candidate (Attempt_id attempt) (Attempt_fence attempt);
  mret binding.

Definition release (call : ReleaseCall) : RT unit := logged (EvRelease call) (lc_release call).

Definition debug_released {A} (r : result RunnerError A) : string :=
  "failed requeue=true ok=" +:+ debug_bool (is_ok r).

(** crates/runner/src/attempt/drive.rs:118-137 (cleanup_before_session) *)
Definition cleanup_before_session (grant : AcquireGrant) (stage : string) (error : RunnerError) : RT unit :=
  _ ← record stage (RunnerError_reason_code error);
  released ← outcome_of (release (MkReleaseCall (Attempt_id (ag_attempt grant)) AtFailed true));
  record "released" (debug_released released).

(** crates/runner/src/attempt/cleanup.rs:12-39 (salvage_workspace) *)
Definition salvage_workspace (grant : AcquireGrant) (config : AttemptConfig)
  : RT (CheckpointBinding * PreservationReceipt) :=
  checkpoint ← quietly gd_checkpoint;
  let destination := path_join (path_join (ac_workspace_root config) "salvage")
                       (id_as_str (Attempt_id (ag_attempt grant))) in
  exists_ ← quietly (asks (fs_exists destination));
  _ ← pure_step (refuse_if exists_ (ReProtocol ("salvage destination already exists: " +:+ destination)));
  _ ← (match path_parent destination with
       | Some parent => quietly (st_map_err (ReIo "create salvage parent") (create_dir_all parent))
       | None => mret tt
       end);
  preservation ← logged (EvPreserve destination) (gd_preserve destination);
  mret (checkpoint, preservation).

(** The provider is stopped and the journal told how. *)
Definition stop_provider (session : SessionHandle) (err : RunnerError) : RT unit :=
  stopped ← outcome_of (logged EvTerminate (ad_terminate session));
  match stopped with
  | Err term_err => record "terminate_failed" (HarnessError_display term_err)
  | _ => record "terminated" (RunnerError_reason_code err)
  end.

(** crates/runner/src/attempt/cleanup.rs:41-94 (cleanup_failure) *)
Definition cleanup_failure (grant : AcquireGrant) (config : AttemptConfig) (session : SessionHandle)
  (err : RunnerError) : RT unit :=
  if is_frozen err then
    _ ← record "frozen" (RunnerError_reason_code err);
    salvaged ← outcome_of (salvage_workspace grant config);
    _ ← (match salvaged with
         | Ok (checkpoint, preservation) =>
             _ ← record "salvage_checkpoint" (cb_id checkpoint +:+ " " +:+ cb_digest checkpoint);
             record "salvage_preserved" (pr_digest preservation +:+ " " +:+ pr_destination preservation)
         | Err salvage_err => record "salvage_failed" (RunnerError_display salvage_err)
         | Panic => mret tt
         end);
    stop_provider session err
  else
    _ ← stop_provider session err;
    released ← outcome_of (release (MkReleaseCall (Attempt_id (ag_attempt grant)) AtFailed true));
    record "released" (debug_released released).

(** crates/runner/src/attempt/drive/finalize.rs:75-108 (unresolved) *)
Definition unresolved (outcome : AttemptOutcome) (stage : string) (primary : RunnerError) : RT RunnerError :=
  let receipt := cp_receipt (ao_preservation outcome) in
  journal_error ← try_record "finalization_unresolved"
    (unresolved_json stage (RunnerError_reason_code primary) outcome);
  mret (ReFinalizationUnresolved stage (id_as_str (ao_attempt_id outcome))
    (cr_id (ao_candidate outcome)) (pr_digest receipt) (pr_destination receipt) primary journal_error).

(** `step.map_err(|error| unresolved(&outcome, journal, stage, error))?`. *)
Definition or_unresolved {A} (outcome : AttemptOutcome) (stage : string) (m : RT A) : RT A :=
  out ← outcome_of m;
  match out with
  | Ok a => mret a
  | Err error => e ← unresolved outcome stage error; pure_step (Err e)
  | Panic => pure_step Panic
  end.

(** crates/runner/src/attempt/drive/finalize.rs:11-73 (finish) *)
Definition finish (session : SessionHandle) (outcome : AttemptOutcome) : RT AttemptOutcome :=
  acknowledged ← or_unresolved outcome "provider_termination"
    (st_map_err ReHarness (logged EvTerminate (ad_terminate session)));
  _ ← (if negb acknowledged then
         e ← unresolved outcome "provider_termination"
               (ReProtocol "provider termination was not acknowledged");
         pure_step (Err e)
       else mret tt);
  _ ← or_unresolved outcome "preservation_journal" (require_journal "candidate_preserved" (facts_json outcome));
  _ ← or_unresolved outcome "termination_journal" (require_journal "terminated" "success");
  _ ← or_unresolved outcome "pre_release_authority" check_freeze;
  _ ← or_unresolved outcome "release" (release (MkReleaseCall (ao_attempt_id outcome) AtSucceeded false));
  _ ← or_unresolved outcome "release_journal" (require_journal "released" "succeeded");
  let receipt := cp_receipt (ao_preservation outcome) in
  _ ← or_unresolved outcome "workspace_cleanup"
        (logged (EvCleanup receipt) (gd_cleanup receipt (cr_prepared_at (ao_candidate outcome))));
  _ ← or_unresolved outcome "cleanup_journal"
        (require_journal "workspace_cleaned" (cr_id (ao_candidate outcome)));
  mret outcome.

(** crates/runner/src/attempt/drive/candidate.rs:6-11 (current_checkpoint) *)
Definition current_checkpoint (ws : WorkspaceInfo) : CheckpointBinding :=
  let checkpoint := gn_checkpoint (wi_active_generation ws) in
  MkCheckpointBinding (gk_id checkpoint) (gk_digest checkpoint).

(** crates/runner/src/attempt/drive.rs:139-191 (drive_and_finish) *)
Definition drive_and_finish (fuel : nat) (grant : AcquireGrant) (config : AttemptConfig)
  (session : SessionHandle) (ws : WorkspaceInfo) : RT AttemptOutcome :=
  let capsule := config_capsule config grant ws in
  '(ws, gates, rounds) ← session_loop fuel session (ag_authority_token grant) config ws capsule
    (initial_prompt schema_source capsule) 0;
  _ ← check_freeze;
  _ ← logged (EvAdvance AtPreparing) (lc_advance (Attempt_id (ag_attempt grant)) AtPreparing);
  request ← quietly (cp_request grant ws (current_checkpoint ws));
  _ ← check_freeze;
  _ ← record "candidate_grant_authenticated" (prepare_subject request);
  candidate ← logged EvPrepare (gd_prepare request);
  _ ← record "candidate_prepared" (cr_id candidate);
  destination ← preservation_destination config;
  receipt ← logged (EvPreserve destination) (gd_preserve destination);
  preservation ← preservation_bind candidate grant destination receipt;
  finish session (MkAttemptOutcome (Attempt_id (ag_attempt grant)) (Attempt_fence (ag_attempt grant))
    candidate preservation rounds gates).

Definition finalization_unresolved (e : RunnerError) : bool :=
  match e with ReFinalizationUnresolved _ _ _ _ _ _ _ => true | _ => false end.

(** `handle; return Err(err)`. *)
Definition then_fail {A} (handle : RT unit) (err : RunnerError) : RT A := _ ← handle; pure_step (Err err).

(** A step whose failure aborts the heartbeat, is handled, and returned. *)
Definition or_fail {A B} (m : RT A) (handle : RunnerError -> RT unit) (k : A -> RT B) : RT B :=
  out ← outcome_of m;
  match out with
  | Ok a => k a
  | Err err => _ ← abort_heartbeat; then_fail (handle err) err
  | Panic => pure_step Panic
  end.

(** crates/runner/src/attempt/drive.rs:19-116 (run_cloned_attempt_guarded) *)
Definition run_cloned_attempt_guarded (fuel : nat) (grant : AcquireGrant) (config : AttemptConfig)
  (ws : WorkspaceInfo) : RT AttemptOutcome :=
  _ ← preservation_destination config;
  or_fail check_freeze (cleanup_before_session grant "pre_session_frozen") (fun _ =>
  or_fail (st_map_err ReHarness (quietly (ad_start (start_request grant ws config))))
    (cleanup_before_session grant "session_start_refused") (fun session =>
  or_fail (logged (EvAdvance AtRunning) (lc_advance (Attempt_id (ag_attempt grant)) AtRunning))
    (cleanup_failure grant config session) (fun _ =>
  or_fail (drive_and_finish fuel grant config session ws)
    (fun err => if finalization_unresolved err then mret tt
                else cleanup_failure grant config session err)
    (fun outcome => _ ← abort_heartbeat; mret outcome)))).

(** crates/runner/src/gitd/session.rs:142-159 (GitdSession::finish) *)
Definition gitd_finish {A} (m : RT A) : RT A :=
  outcome ← outcome_of m;
  shutdown ← outcome_of (quietly gd_kill);
  match outcome, shutdown with
  | outcome, Ok _ => pure_step outcome
  | Ok _, Err cleanup => pure_step (Err cleanup)
  | Err primary, Err cleanup => pure_step (Err (ReShutdown primary cleanup))
  | _, _ => pure_step Panic
  end.

(** crates/runner/src/attempt.rs:292-300 (begin_attempt_heartbeat) *)
Definition begin_attempt_heartbeat (grant : AcquireGrant) (config : AttemptConfig) : result RunnerError unit :=
  call ← for_grant grant;
  start_heartbeat (hb_ttl_seconds call) (ac_heartbeat config).

(** crates/runner/src/attempt.rs:322-445 (run_attempt) *)
Definition run_attempt (fuel : nat) (request : AcquireRequest) (config : AttemptConfig) : RT AttemptOutcome :=
  _ ← pure_step (validate_selection (ac_admitted_gate_ids config));
  _ ← preservation_destination config;
  _ ← quietly (root_open (ac_workspace_root config));
  grant ← logged EvAcquire (lc_acquire request);
  _ ← record "lease_acquired" ("attempt " +:+ id_as_str (Attempt_id (ag_attempt grant))
        +:+ " fence " +:+ pretty (Attempt_fence (ag_attempt grant)));
  match begin_attempt_heartbeat grant config with
  | Err error => then_fail (cleanup_before_session grant "heartbeat_start_refused" error) error
  | Panic => pure_step Panic
  | Ok _ =>
      or_fail (quietly (gd_spawn (ag_authority_token grant)))
        (cleanup_before_session grant "workspace_refused") (fun _ =>
      gitd_finish (
        or_fail (logged EvClone (gd_clone (ac_source_repo config) (ac_base_sha config)
                   (ac_workspace_root config) (ac_scope_prefixes config)))
          (cleanup_before_session grant "workspace_refused") (fun ws =>
        or_fail (quietly (validate_initial ws (ac_workspace_root config) (ac_base_sha config)
                   (ag_authority_token grant)))
          (cleanup_before_session grant "workspace_identity_refused") (fun _ =>
        _ ← record "workspace_cloned" (wi_repo_dir ws);
        or_fail (quietly (root_bind (ag_authority_token grant) (gn_generation (wi_active_generation ws))))
          (cleanup_before_session grant "workspace_descriptor_refused") (fun _ =>
        run_cloned_attempt_guarded fuel grant config ws)))))
  end.
End AttemptRun.
