(* ===== verification/AttemptSafety.v ===== *)
(** * The protocol of an attempt

    What an attempt may ask of the workspace daemon, the provider and the lease
    authority, as an abstract machine that watches the calls and their answers
    ([permitted] and [next]); every run of the attempt follows it, whatever
    its ports answer, and terminates within its repair budget. *)

From S2P Require Import Prelude External Ids States Entities Framing BudgetPolicy Text HarnessErrors.
From S2P Require Import Paths Gates Proposal Events Records Memory Runner Heartbeat Workspace LeaseClient AttemptRun.
From stdpp Require Import options.

Local Open Scope Z_scope.

(** ** The specification *)

(** What is known after the calls so far. *)
Record Monitor : Type := MkMonitor {
  mo_attempt : option AttemptId;
  (** the last call was an authority check that passed *)
  mo_fresh : bool;
  (** some authority check failed *)
  mo_frozen : bool;
  (** the checkpoint that the next proposal must be based on *)
  mo_base : option CheckpointBinding;
  mo_applies : Z;
  (** the Git tree under test, and whether it was just verified *)
  mo_tree : option string;
  mo_verified : bool;
  (** the gate that passed and still needs the tree verified, and the gates
      that passed on the tree *)
  mo_pending : option string;
  mo_passed : list string;
  mo_prepared : bool;
  mo_preserved : option PreservationReceipt;
  mo_stopped : bool;
  mo_released : option (AttemptState * bool);
  mo_cleaned : bool
}.

Definition monitor_start : Monitor :=
  MkMonitor None false false None 0 None false None [] false None false None false.

Definition set_fresh (b : bool) (m : Monitor) : Monitor :=
  MkMonitor (mo_attempt m) b (mo_frozen m) (mo_base m) (mo_applies m) (mo_tree m) (mo_verified m)
    (mo_pending m) (mo_passed m) (mo_prepared m) (mo_preserved m) (mo_stopped m) (mo_released m) (mo_cleaned m).
Definition set_frozen (m : Monitor) : Monitor :=
  MkMonitor (mo_attempt m) (mo_fresh m) true (mo_base m) (mo_applies m) (mo_tree m) (mo_verified m)
    (mo_pending m) (mo_passed m) (mo_prepared m) (mo_preserved m) (mo_stopped m) (mo_released m) (mo_cleaned m).
Definition set_attempt (a : AttemptId) (m : Monitor) : Monitor :=
  MkMonitor (Some a) (mo_fresh m) (mo_frozen m) (mo_base m) (mo_applies m) (mo_tree m) (mo_verified m)
    (mo_pending m) (mo_passed m) (mo_prepared m) (mo_preserved m) (mo_stopped m) (mo_released m) (mo_cleaned m).
Definition set_base (b : CheckpointBinding) (m : Monitor) : Monitor :=
  MkMonitor (mo_attempt m) (mo_fresh m) (mo_frozen m) (Some b) (mo_applies m) (mo_tree m) (mo_verified m)
    (mo_pending m) (mo_passed m) (mo_prepared m) (mo_preserved m) (mo_stopped m) (mo_released m) (mo_cleaned m).
Definition count_apply (m : Monitor) : Monitor :=
  MkMonitor (mo_attempt m) (mo_fresh m) (mo_frozen m) (mo_base m) (mo_applies m + 1) (mo_tree m) (mo_verified m)
    (mo_pending m) (mo_passed m) (mo_prepared m) (mo_preserved m) (mo_stopped m) (mo_released m) (mo_cleaned m).
(** Testing starts over on [tree]. *)
Definition set_tree (tree : option string) (m : Monitor) : Monitor :=
  MkMonitor (mo_attempt m) (mo_fresh m) (mo_frozen m) (mo_base m) (mo_applies m) tree false None []
    (mo_prepared m) (mo_preserved m) (mo_stopped m) (mo_released m) (mo_cleaned m).
Definition set_pending (g : string) (m : Monitor) : Monitor :=
  MkMonitor (mo_attempt m) (mo_fresh m) (mo_frozen m) (mo_base m) (mo_applies m) (mo_tree m) false
    (Some g) (mo_passed m) (mo_prepared m) (mo_preserved m) (mo_stopped m) (mo_released m) (mo_cleaned m).
(** The tree is as it was; a pending gate counts. *)
Definition set_verified (m : Monitor) : Monitor :=
  MkMonitor (mo_attempt m) (mo_fresh m) (mo_frozen m) (mo_base m) (mo_applies m) (mo_tree m) true None
    (mo_passed m ++ option_list (mo_pending m)) (mo_prepared m) (mo_preserved m) (mo_stopped m) (mo_released m) (mo_cleaned m).
Definition set_prepared (m : Monitor) : Monitor :=
  MkMonitor (mo_attempt m) (mo_fresh m) (mo_frozen m) (mo_base m) (mo_applies m) (mo_tree m) (mo_verified m)
    (mo_pending m) (mo_passed m) true (mo_preserved m) (mo_stopped m) (mo_released m) (mo_cleaned m).
Definition set_preserved (r : PreservationReceipt) (m : Monitor) : Monitor :=
  MkMonitor (mo_attempt m) (mo_fresh m) (mo_frozen m) (mo_base m) (mo_applies m) (mo_tree m) (mo_verified m)
    (mo_pending m) (mo_passed m) (mo_prepared m) (Some r) (mo_stopped m) (mo_released m) (mo_cleaned m).
Definition set_stopped (m : Monitor) : Monitor :=
  MkMonitor (mo_attempt m) (mo_fresh m) (mo_frozen m) (mo_base m) (mo_applies m) (mo_tree m) (mo_verified m)
    (mo_pending m) (mo_passed m) (mo_prepared m) (mo_preserved m) true (mo_released m) (mo_cleaned m).
Definition set_released (s : AttemptState) (acknowledged : bool) (m : Monitor) : Monitor :=
  MkMonitor (mo_attempt m) (mo_fresh m) (mo_frozen m) (mo_base m) (mo_applies m) (mo_tree m) (mo_verified m)
    (mo_pending m) (mo_passed m) (mo_prepared m) (mo_preserved m) (mo_stopped m) (Some (s, acknowledged)) (mo_cleaned m).
Definition set_cleaned (m : Monitor) : Monitor :=
  MkMonitor (mo_attempt m) (mo_fresh m) (mo_frozen m) (mo_base m) (mo_applies m) (mo_tree m) (mo_verified m)
    (mo_pending m) (mo_passed m) (mo_prepared m) (mo_preserved m) (mo_stopped m) (mo_released m) true.

(** What a call and its answer change. *)
Definition next (m : Monitor) (e : event) : Monitor :=
  let stale := set_fresh false m in
  match e with
  | EvAcquire (Ok grant) => set_attempt (Attempt_id (ag_attempt grant)) stale
  | EvClone (Ok ws) => set_base (MkCheckpointBinding (wi_base_checkpoint_id ws) (wi_base_checkpoint_digest ws)) stale
  | EvFrozen None => set_fresh true m
  | EvFrozen (Some _) => set_frozen stale
  | EvApply _ (Ok receipt) =>
      set_base (ar_checkpoint receipt)
        (set_tree (gk_git_tree (gn_checkpoint (ar_active_generation receipt))) (count_apply stale))
  | EvApply _ _ => set_tree None (count_apply stale)
  | EvTree tree (Ok _) => if decide (mo_tree m = Some tree) then set_verified stale else stale
  | EvGate gate (Ok report) => if gate_passed report then set_pending gate stale else set_tree None stale
  | EvGate _ _ => set_tree None stale
  | EvPrepare (Ok _) => set_prepared stale
  | EvPreserve _ (Ok receipt) => set_preserved receipt stale
  | EvTerminate (Ok true) => set_stopped stale
  | EvRelease call answer => set_released (rc_outcome call) (is_ok answer) stale
  | EvCleanup _ (Ok _) => set_cleaned stale
  | _ => stale
  end.

(** The runner's authority was confirmed by the call just before. *)
Definition authorized (m : Monitor) : Prop := mo_fresh m = true /\ mo_frozen m = false.

Section Protocol.
Context (config : AttemptConfig).

(** Every admitted gate passed, in order, on the tree that was just verified. *)
Definition all_passed (m : Monitor) : Prop :=
  mo_passed m = ac_admitted_gate_ids config /\ is_Some (mo_tree m) /\ mo_verified m = true.

(** A proposal that may be applied: it lies in the granted scope, names this
    attempt, the current checkpoint and exactly the admitted gates. *)
Definition admissible (m : Monitor) (p : PatchProposal) : Prop :=
  let w := pp_wire p in
  Forall (fun o => within (ac_scope_prefixes config) (po_path o)) (pp_operations w)
  /\ id_as_str <$> mo_attempt m = Some (pp_producing_attempt_id w)
  /\ mo_base m = Some (MkCheckpointBinding (pp_base_checkpoint_id w) (pp_base_checkpoint_digest w))
  /\ pp_gate_ids w = ac_admitted_gate_ids config.

(** When a call may be made. *)
Definition permitted (m : Monitor) (e : event) : Prop :=
  match e with
  | EvCleanup receipt _ =>
      mo_released m = Some (AtSucceeded, true) /\ mo_preserved m = Some receipt /\ mo_cleaned m = false
  | _ => mo_released m = None
  end /\
  match e with
  | EvAcquire _ => m = monitor_start
  | EvTurn _ => authorized m
  | EvApply p _ => authorized m /\ admissible m p /\ mo_applies m <= ac_max_repair_rounds config
  | EvGate gate _ =>
      mo_verified m = true /\ is_Some (mo_tree m)
      /\ ac_admitted_gate_ids config !! length (mo_passed m) = Some gate
  | EvAdvance state _ => authorized m /\ (state = AtRunning \/ state = AtPreparing /\ all_passed m)
  | EvPrepare _ => authorized m /\ all_passed m
  | EvRelease call _ =>
      mo_attempt m = Some (rc_attempt_id call)
      /\ (rc_outcome call = AtFailed /\ rc_requeue call = true
          \/ rc_outcome call = AtSucceeded /\ rc_requeue call = false /\ authorized m /\ all_passed m
             /\ mo_prepared m = true /\ is_Some (mo_preserved m) /\ mo_stopped m = true)
  | _ => True
  end.

(** The calls of a trace are permitted one after the other. *)
Fixpoint follows (m : Monitor) (t : list event) (m' : Monitor) : Prop :=
  match t with
  | [] => m' = m
  | e :: t => permitted m e /\ follows (next m e) t m'
  end.

Lemma follows_snoc m t e m1 :
  follows m t m1 -> permitted m1 e -> follows m (t ++ [e]) (next m1 e).
Proof.
  revert m. induction t as [|x t IH]; intros m; simpl.
  - by intros -> ?.
  - intros [Hp Hf] He. split; [done|]. by apply IH.
Qed.

(** ** Specifications of the steps *)

Section Runs.
Context `{Blake3} `{Hex} `{Unicode} {V W : Type} `{!Files W} `{!RunnerTexts V} `{!RunnerPorts V W}.

(** The run has followed the protocol, to a state in [P]. *)
Definition reached (P : Monitor -> Prop) (r : run W) : Prop :=
  exists m, follows monitor_start (rn_trace r) m /\ P m.

Definition ensures {E A} (P : Monitor -> Prop) (m : stateful (run W) E A)
  (Q : A -> Monitor -> Prop) (X : E -> Monitor -> Prop) : Prop :=
  forall r, reached P r -> match m r with
                           | (r', Ok a) => reached (Q a) r'
                           | (r', Err e) => reached (X e) r'
                           | (r', Panic) => reached (fun _ => True) r'
                           end.

Lemma reached_weaken (P Q : Monitor -> Prop) r : (forall m, P m -> Q m) -> reached P r -> reached Q r.
Proof. intros HPQ (m & ? & ?). exists m. auto. Qed.

Lemma ens_weaken {E A} (P P' : Monitor -> Prop) (m : stateful (run W) E A) Q Q' X X' :
  ensures P m Q X -> (forall x, P' x -> P x) -> (forall a x, Q a x -> Q' a x) ->
  (forall e x, X e x -> X' e x) -> ensures P' m Q' X'.
Proof.
  intros Hm HP HQ HX r Hr. specialize (Hm r (reached_weaken _ _ _ HP Hr)).
  destruct (m r) as [r' [a|e|]]; [| |done]; (eapply reached_weaken; [|exact Hm]; auto).
Qed.

Lemma ens_bind {E A B} P (m : stateful (run W) E A) (f : A -> stateful (run W) E B) Q1 Q X :
  ensures P m Q1 X -> (forall a, ensures (Q1 a) (f a) Q X) -> ensures P (m ≫= f) Q X.
Proof.
  intros Hm Hf r Hr. specialize (Hm r Hr). unfold mbind, stateful_bind.
  destruct (m r) as [r' [a|e|]]; [|done|done]. by apply Hf.
Qed.

Lemma ens_ret {E A} (P : Monitor -> Prop) (a : A) Q (X : E -> Monitor -> Prop) :
  (forall x, P x -> Q a x) -> ensures P (mret a) Q X.
Proof. intros HQ r Hr. simpl. by eapply reached_weaken. Qed.

Lemma ensures_pure {E A} (P : Monitor -> Prop) (o : result E A) (Q : A -> Monitor -> Prop) X :
  (forall a x, o = Ok a -> P x -> Q a x) -> (forall e x, o = Err e -> P x -> X e x) ->
  ensures P (pure_step o) Q X.
Proof.
  intros HQ HX r Hr. unfold pure_step. destruct o; (eapply reached_weaken; [|exact Hr]); auto.
Qed.

Lemma ensures_quietly {E A} (P : Monitor -> Prop) (m : stateful W E A) (Q : A -> Monitor -> Prop) X :
  (forall a x, P x -> Q a x) -> (forall e x, P x -> X e x) -> ensures P (quietly m) Q X.
Proof.
  intros HQ HX r (x & Hf & Hx). unfold quietly. destruct (m (rn_world r)) as [w [a|e|]];
    exists x; auto.
Qed.

Lemma ensures_logged {E A} (P : Monitor -> Prop) (ev : result E A -> event) (m : stateful W E A)
  (Q : A -> Monitor -> Prop) X :
  (forall o x, P x -> permitted x (ev o)) ->
  (forall a x, P x -> Q a (next x (ev (Ok a)))) -> (forall e x, P x -> X e (next x (ev (Err e)))) ->
  ensures P (logged ev m) Q X.
Proof.
  intros Hp HQ HX r (x & Hf & Hx). unfold logged. destruct (m (rn_world r)) as [w [a|e|]];
    (eexists; split; [apply follows_snoc; [exact Hf|by apply Hp]|auto]).
Qed.

Lemma ensures_outcome {E F A} P (m : stateful (run W) E A) Q X (Z : F -> Monitor -> Prop) :
  ensures P m Q X ->
  ensures P (outcome_of m) (fun o x => match o with Ok a => Q a x | Err e => X e x | Panic => False end) Z.
Proof.
  intros Hm r Hr. specialize (Hm r Hr). unfold outcome_of. by destruct (m r) as [r' [a|e|]].
Qed.

Lemma ensures_map_err {E F A} P (f : E -> F) (m : stateful (run W) E A) Q X X' :
  ensures P m Q X -> (forall e x, X e x -> X' (f e) x) -> ensures P (st_map_err f m) Q X'.
Proof.
  intros Hm HX r Hr. specialize (Hm r Hr). unfold st_map_err.
  destruct (m r) as [r' [a|e|]]; simpl; [done| |done]. eapply reached_weaken; [|exact Hm]. auto.
Qed.

Lemma ensures_record (P : Monitor -> Prop) stage detail Q X :
  (forall x, P x -> Q tt x) -> ensures P (record stage detail) Q X.
Proof. intros HQ r (x & Hf & Hx). exists x. auto. Qed.

Lemma ensures_after_record {A} (P : Monitor -> Prop) stage detail (k : RT A) Q X :
  ensures P k Q X -> ensures P (_ ← record stage detail; k) Q X.
Proof. intros Hk. eapply (ens_bind _ _ _ (fun _ => P)); [by apply ensures_record|done]. Qed.

Lemma ensures_abort (P : Monitor -> Prop) Q X : (forall x, P x -> Q tt x) -> ensures P abort_heartbeat Q X.
Proof. intros HQ r (x & Hf & Hx). exists x. auto. Qed.

(** A fact about values is kept aside. *)
Lemma ens_given {E A} (phi : Prop) (P : Monitor -> Prop) (m : stateful (run W) E A) Q X :
  (phi -> ensures P m Q X) -> ensures (fun x => phi /\ P x) m Q X.
Proof. intros Hm r (x & Hf & Hphi & Hx). apply (Hm Hphi). by exists x. Qed.

(** A check: it fails and freezes, or it is fresh. *)
Lemma ensures_check (P : Monitor -> Prop) (Q : unit -> Monitor -> Prop) X :
  (forall x, P x -> mo_released x = None) ->
  (forall x, P x -> Q tt (set_fresh true x)) ->
  (forall reason x, P x -> X (to_error reason) (set_frozen (set_fresh false x))) ->
  ensures P check_freeze Q X.
Proof.
  intros Hr HQ HX r (x & Hf & Hx). unfold check_freeze.
  destruct (hb_frozen (rn_world r)) as [w [reason|]];
    (eexists; split; [apply follows_snoc; [exact Hf|by split; [apply Hr|]]|simpl; auto]).
Qed.

(** ** The repair loop follows the protocol *)

(** The attempt is [aid] and its lease was not given back. *)
Definition held (aid : AttemptId) (m : Monitor) : Prop :=
  mo_attempt m = Some aid /\ mo_released m = None.

(** The loop may go on, from checkpoint [b] and with at most [n] applies
    behind it. *)
Definition ready (aid : AttemptId) (b : CheckpointBinding) (n : Z) (m : Monitor) : Prop :=
  held aid m /\ mo_frozen m = false /\ mo_cleaned m = false /\ mo_base m = Some b /\ mo_applies m <= n.

(** The gates [done] passed on [tree], which was just verified. *)
Definition testing (aid : AttemptId) (b : CheckpointBinding) (n : Z) (tree : string) (passed : list string)
  (m : Monitor) : Prop :=
  ready aid b n m /\ mo_tree m = Some tree /\ mo_verified m = true /\ mo_pending m = None
  /\ mo_passed m = passed.

Ltac mon := intros;
  repeat match goal with Hx : context [@ensures] |- _ => clear Hx end; unfold testing, ready, held, authorized, permitted in *; simpl in *;
  repeat match goal with Hx : _ /\ _ |- _ => destruct Hx end; simplify_eq/=; split_and?; try done; try lia.

Lemma registered_gate_id workdir gate_id w w' report :
  run_gate_bound (W:=W) workdir gate_id w = (w', Ok report) -> gr_gate_id report = gate_id.
Proof. unfold run_gate_bound. intros Hrun. inv_st. done. Qed.

(** One gate: the next admitted one, between two verifications of the tree. *)
Lemma gate_ensures aid b n tree passed workdir gate rest :
  passed ++ gate :: rest = ac_admitted_gate_ids config ->
  ensures (testing aid b n tree passed) (run_gate_bound_verified workdir gate tree)
    (fun report m => gr_gate_id report = gate /\
       if gate_passed report then testing aid b n tree (passed ++ [gate]) m else ready aid b n m)
    (fun _ m => held aid m).
Proof.
  intros Hadm. unfold run_gate_bound_verified.
  assert (ac_admitted_gate_ids config !! length passed = Some gate) as Hnext.
  { rewrite <-Hadm. by apply list_lookup_middle. }
  eapply (ens_bind _ _ _ (fun o m => match o with
    | Ok report => gr_gate_id report = gate /\
        if gate_passed report then ready aid b n m /\ mo_tree m = Some tree /\ mo_pending m = Some gate
                                   /\ mo_passed m = passed
        else ready aid b n m
    | _ => ready aid b n m end)).
  { intros r (x & Hf & Hx). unfold outcome_of, logged.
    destruct (run_gate_bound workdir gate (rn_world r)) as [w [report|e|]] eqn:Hrun.
    all: eexists; split; [apply follows_snoc; [exact Hf|mon]|].
    - split; [by eapply registered_gate_id|]. simpl. destruct (gate_passed report); mon.
    - mon.
    - done. }
  intros o. eapply (ens_bind _ _ _ (fun _ m => match o with
    | Ok report => gr_gate_id report = gate /\
        if gate_passed report then testing aid b n tree (passed ++ [gate]) m else ready aid b n m
    | _ => ready aid b n m end)).
  - unfold verify_git_tree. apply ensures_logged.
    + intros out x Hx. destruct o as [report| |]; [destruct Hx as [_ Hx]; destruct (gate_passed report)|..]; mon.
    + intros [] x Hx. cbn [next]. destruct o as [report|e|].
      * destruct Hx as [Hid Hx]. split; [done|]. destruct (gate_passed report).
        -- destruct Hx as (Hr & Ht & Hp & Hs). rewrite decide_True by done.
           unfold testing. simpl. rewrite Hp, Hs. mon.
        -- case_decide; mon.
      * case_decide; mon.
      * case_decide; mon.
    + intros e x Hx. destruct o as [report| |]; [destruct Hx as [_ Hx]; destruct (gate_passed report)|..]; mon.
  - intros _. apply ensures_pure; intros; subst; [done|]. by mon.
Qed.

Lemma run_gates_ensures aid b n tree workdir gates : forall passed,
  passed ++ gates = ac_admitted_gate_ids config ->
  ensures (testing aid b n tree passed) (run_gates workdir tree gates)
    (fun reports m => ready aid b n m /\
       (length reports = length gates -> forallb gate_passed reports = true ->
        testing aid b n tree (ac_admitted_gate_ids config) m /\ gr_gate_id <$> reports = gates))
    (fun _ m => held aid m).
Proof.
  induction gates as [|gate gates IH]; intros passed Hadm; cbn [run_gates].
  { apply ens_ret. intros x Hx. rewrite app_nil_r in Hadm. subst passed.
    split; [by destruct Hx|done]. }
  eapply ens_bind; [by eapply gate_ensures|]. intros report.
  apply ensures_after_record, ens_given. intros Hid. destruct (gate_passed report) eqn:Hpass.
  - eapply ens_bind; [eapply (IH (passed ++ [gate])); by rewrite <-app_assoc|].
    intros reports. apply ens_ret. intros x [Hr Hall]. split; [done|]. simpl. rewrite Hpass. simpl.
    intros Hlen Hok. destruct Hall as [Ht Hids]; [lia|done|]. split; [done|].
    unfold fmap in *. simpl. by rewrite Hid, Hids.
  - apply ens_ret. intros x Hx. split; [done|]. simpl. by rewrite Hpass.
Qed.

(** Calls that bear no authority leave the trace alone. *)
Definition silent {E A} (m : stateful (run W) E A) : Prop := forall r, rn_trace (m r).1 = rn_trace r.

Lemma silent_bind {E A B} (m : stateful (run W) E A) (f : A -> stateful (run W) E B) :
  silent m -> (forall a, silent (f a)) -> silent (m ≫= f).
Proof.
  intros Hm Hf r. specialize (Hm r). unfold mbind, stateful_bind.
  destruct (m r) as [r' [a|e|]]; simpl in *; [|done|done]. by rewrite Hf.
Qed.
Lemma silent_ret {E A} (a : A) : silent (E:=E) (mret a).
Proof. done. Qed.
Lemma silent_pure {E A} (o : result E A) : silent (pure_step o).
Proof. done. Qed.
Lemma silent_quietly {E A} (m : stateful W E A) : silent (quietly m).
Proof. intros r. unfold quietly. by destruct (m (rn_world r)). Qed.
Lemma silent_record stage detail : silent (record stage detail).
Proof. done. Qed.
Lemma silent_try stage detail : silent (try_record stage detail).
Proof. intros r. unfold try_record. by destruct (jr_try_record _ _ _). Qed.

Lemma ensures_silent {E A} (P : Monitor -> Prop) (m : stateful (run W) E A) :
  silent m -> ensures P m (fun _ => P) (fun _ => P).
Proof.
  intros Hm r (x & Hf & Hx). specialize (Hm r). destruct (m r) as [r' [a|e|]]; simpl in Hm;
    exists x; by rewrite Hm.
Qed.

Lemma silent_events session : silent (E:=RunnerError)
  (fun r => let '(w, evs) := ad_events session (rn_world r) in
            (MkRun w (rn_trace r), Ok (take 4097 evs))).
Proof. intros r. by destruct (ad_events session (rn_world r)). Qed.

Create HintDb silence discriminated.
#[local] Hint Resolve silent_ret silent_pure silent_quietly silent_record silent_try silent_events : silence.
Ltac silence := repeat first
  [ solve [auto with silence] | apply silent_bind; [|intros ?] | case_match ].

Lemma latest_proposal_silent session turn runtime : silent (latest_proposal session turn runtime).
Proof. unfold latest_proposal. silence. Qed.
Lemma preservation_destination_silent : silent (preservation_destination config).
Proof. unfold preservation_destination. silence. Qed.
Lemma require_journal_silent stage detail : silent (require_journal stage detail).
Proof. unfold require_journal. silence. Qed.
Lemma unresolved_silent outcome stage primary : silent (unresolved outcome stage primary).
Proof. unfold unresolved. silence. Qed.
Lemma validate_against_silent b candidate aid fence : silent (validate_against b candidate aid fence).
Proof. unfold validate_against. silence. Qed.
#[local] Hint Resolve validate_against_silent : silence.
Lemma preservation_bind_silent candidate grant destination receipt :
  silent (preservation_bind candidate grant destination receipt).
Proof. unfold preservation_bind. silence. Qed.

(** The generation of an accepted apply, with its tree verified. *)
Lemma adopt_ensures aid b n ws receipt authority :
  ensures (fun m => ready aid b n m /\ mo_tree m = gk_git_tree (gn_checkpoint (ar_active_generation receipt))
                    /\ mo_pending m = None /\ mo_passed m = [])
    (adopt_generation ws receipt authority)
    (fun wt m => testing aid b n wt.2 [] m) (fun _ m => held aid m).
Proof.
  unfold adopt_generation.
  eapply ens_bind; [apply ensures_quietly; [intros g x Hx; exact Hx|mon]|intros g].
  eapply ens_bind; [apply ensures_quietly; [intros w x Hx; exact Hx|mon]|intros workdir].
  eapply (ens_bind _ _ _ (fun tree m => ready aid b n m /\ mo_tree m = Some tree
            /\ mo_pending m = None /\ mo_passed m = [])).
  { apply ensures_pure; [|mon]. intros tree x Ho%ok_or_Ok (? & Ht & ? & ?). by rewrite <-Ho. }
  intros tree. eapply (ens_bind _ _ _ (fun _ m => testing aid b n tree [] m)).
  - unfold verify_git_tree. apply ensures_logged; [mon| |mon].
    intros [] x (Hr & Ht & Hp & Hs). cbn [next]. rewrite decide_True by done.
    unfold testing. simpl. rewrite Hp, Hs. mon.
  - intros _. by apply ens_ret.
Qed.

(** The checks of a gate list do not panic. *)
Lemma require_exact_gates_calm admitted proposed : require_exact_gates admitted proposed <> Panic.
Proof.
  assert (forall vs seen parsed, parse_gate_ids_loop vs seen parsed <> Panic) as Hloop.
  { induction vs as [|v vs IH]; intros seen parsed; simpl; [done|]. unfold GateId_parse.
    destruct (negb _); simpl; [done|]. by case_bool_decide. }
  assert (forall l, validate_selection l <> Panic) as Hsel.
  { intros l. unfold validate_selection, gate_refused, parse_gate_ids.
    destruct (bool_decide (l = []) || _); simpl; [done|].
    destruct (parse_gate_ids_loop l ∅ []) as [gs|e|] eqn:Hp; simpl; [|done|by apply Hloop in Hp].
    clear Hp. induction gs as [|g gs IH]; simpl; [done|]. by destruct (negb _). }
  unfold require_exact_gates. intros [?|(? & _ & [?|(? & _ & Hc)]%bind_Panic)]%bind_Panic;
    [by eapply Hsel|by eapply Hsel|]. by destruct (bool_decide _).
Qed.

(** A proposal that is not refused is admissible. *)
Lemma pre_apply_admissible capsule proposal m :
  pre_apply_refusal capsule proposal = None ->
  cap_scope_prefixes capsule = ac_scope_prefixes config ->
  cap_admitted_gate_ids capsule = ac_admitted_gate_ids config ->
  id_as_str <$> mo_attempt m = Some (cap_producing_attempt_id capsule) ->
  mo_base m = Some (MkCheckpointBinding (cap_base_checkpoint_id capsule) (cap_base_checkpoint_digest capsule)) ->
  admissible m proposal.
Proof.
  intros Hpre Hscope Hgates Hid Hbase. unfold pre_apply_refusal, binding_mismatch in Hpre.
  rewrite Hscope, Hgates in Hpre. repeat case_bool_decide; try done. simpl in Hpre.
  assert (exists v, validate_proposal (ac_scope_prefixes config) proposal = Ok v) as [v Hv].
  { unfold validate_proposal in *. clear -Hpre. revert Hpre.
    induction (pp_operations (pp_wire proposal)) as [|o ops IH]; simpl; [by eexists|].
    destruct (path_in_scope _ (po_path o)); simpl; [|done]. done. }
  rewrite Hv in Hpre. destruct (require_exact_gates _ _) as [w|e|] eqn:Hg; [|done|].
  2: by apply require_exact_gates_calm in Hg.
  apply require_exact_gates_Ok in Hg as [Hg _]. apply validate_proposal_Ok in Hv.
  unfold admissible. simpl. split_and!; [done|congruence|congruence|done].
Qed.

Definition capsule_for (aid : AttemptId) (capsule : Capsule) : Prop :=
  cap_scope_prefixes capsule = ac_scope_prefixes config
  /\ cap_admitted_gate_ids capsule = ac_admitted_gate_ids config
  /\ cap_producing_attempt_id capsule = id_as_str aid.
Definition base_of (capsule : Capsule) : CheckpointBinding :=
  MkCheckpointBinding (cap_base_checkpoint_id capsule) (cap_base_checkpoint_digest capsule).

Definition gates_green (gates : list GateReport) : Prop :=
  gr_gate_id <$> gates = ac_admitted_gate_ids config /\ Forall (fun g => gate_passed g = true) gates.

(** What the loop leaves behind. *)
Definition green (aid : AttemptId) (gates : list GateReport) (rounds : Z) (m : Monitor) : Prop :=
  (gates_green gates /\ 0 <= rounds <= ac_max_repair_rounds config)
  /\ held aid m /\ mo_frozen m = false /\ mo_cleaned m = false /\ all_passed m.

(** The repair budget of a configuration that does not overflow its counter. *)
Definition repair_bounded : Prop := 0 <= ac_max_repair_rounds config < u32_max.
Context (Hmax : repair_bounded).

Lemma spend_Ok rounds rounds' :
  0 <= rounds <= ac_max_repair_rounds config -> spend_repair_round rounds config = Ok rounds' ->
  rounds' = rounds + 1 /\ rounds' <= ac_max_repair_rounds config.
Proof using Hmax.
  unfold spend_repair_round, repair_bounded, u32_wrapping_add, u32_max in *. intros Hr. rewrite Z.mod_small by lia.
  case_bool_decide; naive_solver lia.
Qed.

Lemma ensures_spend {A} P rounds (k : Z -> RT A) Q X :
  0 <= rounds <= ac_max_repair_rounds config -> (forall x, P x -> forall e, X e x) ->
  (rounds + 1 <= ac_max_repair_rounds config -> ensures P (k (rounds + 1)) Q X) ->
  ensures P (rounds ← pure_step (spend_repair_round rounds config); k rounds) Q X.
Proof using Hmax.
  intros Hr HX Hk. eapply (ens_bind _ _ _ (fun r' x => (r' = rounds + 1 /\ r' <= ac_max_repair_rounds config) /\ P x)).
  - apply ensures_pure; [|naive_solver]. intros r' x Hs Hx. split; [by apply spend_Ok|done].
  - intros r'. apply ens_given. intros [-> Hle]. auto.
Qed.

(** What is known after an apply. *)
Definition applied (aid : AttemptId) (b : CheckpointBinding) (n : Z)
  (o : result RunnerError ApplyProposalReceipt) (m : Monitor) : Prop :=
  match o with
  | Ok receipt => ready aid (ar_checkpoint receipt) n m
      /\ mo_tree m = gk_git_tree (gn_checkpoint (ar_active_generation receipt))
      /\ mo_pending m = None /\ mo_passed m = []
  | Err _ => ready aid b n m
  | Panic => False
  end.

Lemma apply_ensures aid capsule proposal rounds X :
  capsule_for aid capsule -> pre_apply_refusal capsule proposal = None ->
  rounds <= ac_max_repair_rounds config ->
  ensures (E:=RunnerError) (fun m => ready aid (base_of capsule) rounds m /\ mo_fresh m = true)
    (outcome_of (logged (EvApply proposal) (gd_apply proposal)))
    (applied aid (base_of capsule) (rounds + 1)) X.
Proof.
  intros (Hs & Hg & Hid) Hpre Hr r (x & Hf & Hx & Hfresh). unfold outcome_of, logged.
  assert (forall o, permitted x (EvApply proposal o)) as Hp.
  { intros o. split; [mon|]. split; [mon|]. split; [|mon].
    apply (pre_apply_admissible capsule); [done..| |].
    - destruct Hx as [[-> _] _]. simpl. by rewrite Hid.
    - mon. }
  destruct (gd_apply proposal (rn_world r)) as [w [receipt|e|]];
    (eexists; split; [apply follows_snoc; [exact Hf|apply Hp]|]); unfold applied; [mon|mon|done].
Qed.

Lemma session_loop_ensures aid session authority fuel : forall ws capsule prompt rounds,
  0 <= rounds <= ac_max_repair_rounds config -> capsule_for aid capsule ->
  ensures (ready aid (base_of capsule) rounds)
    (session_loop fuel session authority config ws capsule prompt rounds)
    (fun out m => green aid out.1.2 out.2 m) (fun _ m => held aid m).
Proof using Hmax.
  induction fuel as [|fuel IH]; intros ws capsule prompt rounds Hr Hcap; cbn [session_loop].
  { by apply ensures_pure. }
  set (R := ready aid (base_of capsule) rounds).
  eapply (ens_bind _ _ _ (fun _ m => R m /\ mo_fresh m = true)); [apply ensures_check; subst R; mon|intros _].
  eapply (ens_bind _ _ _ (fun _ => R)).
  { eapply ensures_map_err; [apply (ensures_logged _ _ _ (fun _ => R) (fun _ => held aid)); subst R; mon|done]. }
  intros turn. apply ensures_after_record.
  eapply (ens_bind _ _ _ (fun _ => R)).
  { eapply ens_weaken; [apply ensures_silent, latest_proposal_silent|done|done|subst R; mon]. }
  intros proposal. destruct (pre_apply_refusal capsule proposal) as [refusal|] eqn:Hpre.
  { apply ensures_after_record.
    apply ensures_spend; [done|subst R; mon|]. intros Hle.
    eapply ens_weaken; [apply IH; [lia|done]|subst R; mon|done|done]. }
  eapply (ens_bind _ _ _ (fun _ m => R m /\ mo_fresh m = true)); [apply ensures_check; subst R; mon|intros _].
  eapply ens_bind; [apply apply_ensures; [done|done|lia]|]. intros [receipt|err|]; unfold applied.
  - apply ensures_after_record.
    eapply ens_bind; [apply adopt_ensures|intros [workdir tree]].
    eapply ens_bind; [by apply run_gates_ensures|intros gates].
    destruct (bool_decide _ && forallb gate_passed gates) eqn:Hall.
    + apply andb_true_iff in Hall as [Hlen%bool_decide_eq_true Hall].
      eapply (ens_bind _ _ _ (fun _ m => green aid gates rounds m)); [|by intros _; apply ens_ret].
      unfold verify_git_tree. apply ensures_logged; [by intros o x [Hx _]; mon| |by intros e x [Hx _]; mon].
      intros [] x [_ Hx]. destruct (Hx Hlen Hall) as [Ht Hids]. cbn [next].
      rewrite decide_True by mon. split; [split; [split|]|]; [done|by apply Forall_forall; intros g Hg; eapply forallb_forall; [done|by apply list_elem_of_In]|done|].
      split; [mon|]. split; [mon|]. split; [mon|]. destruct Ht as (_ & Htree & _ & Hp & Hs).
      unfold all_passed. simpl. rewrite Hp, Hs, app_nil_r, Htree. split_and!; [done|by eexists|done].
    + apply ensures_spend; [done|by intros x [Hx _] e; mon|]. intros Hle.
      eapply (ens_bind _ _ _ (fun _ => ready aid (ar_checkpoint receipt) (rounds + 1))).
      * apply ensures_pure; [by intros report x _ [Hx _]|by intros e x _ [Hx _]; mon].
      * intros report. eapply ens_weaken; [apply IH; [lia|]| |done|done].
        -- destruct Hcap as (? & ? & ?). by split_and!.
        -- unfold base_of. simpl. by destruct (ar_checkpoint receipt).
  - destruct (path_absent_detail err) as [detail|]; [|by apply ensures_pure; mon].
    apply ensures_after_record.
    apply ensures_spend; [done|mon|]. intros Hle. apply IH; [lia|done].
  - by apply ensures_pure.
Qed.

(** ** Finishing follows the protocol *)

(** Not released, or released as succeeded. *)
Definition settling (aid : AttemptId) (m : Monitor) : Prop :=
  mo_attempt m = Some aid
  /\ (mo_released m = None \/ exists acknowledged, mo_released m = Some (AtSucceeded, acknowledged)).

Lemma unresolved_ensures (U : Monitor -> Prop) outcome stage primary X :
  ensures U (unresolved outcome stage primary)
    (fun e x => finalization_unresolved e = true /\ U x) X.
Proof.
  intros r (x & Hf & Hx). unfold unresolved, mbind, stateful_bind, try_record.
  destruct (jr_try_record _ _ _) as [w failure]. by exists x.
Qed.

Lemma or_unresolved_ensures {A} P outcome stage (m : RT A) Q U :
  ensures P m Q (fun _ => U) ->
  ensures P (or_unresolved outcome stage m) Q (fun e x => finalization_unresolved e = true /\ U x).
Proof.
  intros Hm. unfold or_unresolved. eapply ens_bind; [by apply ensures_outcome|].
  intros [a|e|]; cbn beta iota; [by apply ens_ret| |by apply ensures_pure].
  eapply ens_bind; [apply unresolved_ensures|]. intros e'. by apply ensures_pure; intros; simplify_eq.
Qed.

(** The candidate is prepared and preserved under [receipt]. *)
Definition finishing (aid : AttemptId) (receipt : PreservationReceipt) (m : Monitor) : Prop :=
  mo_attempt m = Some aid /\ mo_frozen m = false /\ mo_cleaned m = false /\ all_passed m
  /\ mo_prepared m = true /\ mo_preserved m = Some receipt.

(** What a successful attempt leaves. *)
Definition succeeded (aid : AttemptId) (outcome : AttemptOutcome) (m : Monitor) : Prop :=
  mo_attempt m = Some aid /\ mo_frozen m = false
  /\ mo_released m = Some (AtSucceeded, true) /\ mo_cleaned m = true /\ all_passed m
  /\ mo_prepared m = true /\ mo_stopped m = true
  /\ mo_preserved m = Some (cp_receipt (ao_preservation outcome)).

(** Journal writes of the finish. *)
Lemma journal_ensures (P U : Monitor -> Prop) outcome stage entry detail :
  (forall x, P x -> U x) ->
  ensures P (or_unresolved outcome stage (require_journal entry detail)) (fun _ => P)
    (fun e x => finalization_unresolved e = true /\ U x).
Proof.
  intros HU. apply or_unresolved_ensures.
  eapply ens_weaken; [apply (ensures_silent P), require_journal_silent|done|done|].
  intros e x Hx. by apply HU.
Qed.

Lemma finish_ensures aid session outcome :
  ao_attempt_id outcome = aid ->
  ensures (fun m => finishing aid (cp_receipt (ao_preservation outcome)) m /\ mo_released m = None)
    (finish session outcome) (fun o m => o = outcome /\ succeeded aid outcome m)
    (fun e m => finalization_unresolved e = true /\ settling aid m).
Proof.
  intros Haid. unfold finish. set (F := finishing aid (cp_receipt (ao_preservation outcome))).
  eapply (ens_bind _ _ _ (fun a m => F m /\ mo_released m = None /\ (a = true -> mo_stopped m = true))).
  { apply or_unresolved_ensures. apply (ensures_map_err _ _ _ _ (fun _ => settling aid)); [|done].
    apply ensures_logged; [by intros o x [_ Hx]; split| |].
    - intros a x [(? & ? & ? & ? & ? & ?) Hx]. by destruct a; split_and!.
    - intros e x [(? & ? & ? & ? & ? & ?) Hx]. split; [done|by left]. }
  intros ack. eapply (ens_bind _ _ _ (fun _ m => F m /\ mo_released m = None /\ mo_stopped m = true)).
  { destruct ack; simpl; [apply ens_ret; naive_solver|].
    eapply ens_bind; [apply unresolved_ensures|intros e]. apply ensures_pure; [done|].
    intros e' x [= <-] [Hu (HF & Hx & _)]. split; [done|]. split; [by destruct HF|by left]. }
  assert (forall m, F m /\ mo_released m = None /\ mo_stopped m = true -> settling aid m) as Hset.
  { intros m (HF & Hr & _). split; [by destruct HF|by left]. }
  intros _. eapply ens_bind; [by apply journal_ensures|intros ?].
  eapply ens_bind; [by apply journal_ensures|intros ?].
  eapply (ens_bind _ _ _ (fun _ m => (F m /\ mo_released m = None /\ mo_stopped m = true) /\ mo_fresh m = true)).
  { apply or_unresolved_ensures, ensures_check; [naive_solver|by intros x ((? & ? & ? & ? & ? & ?) & ? & ?); split_and!|].
    intros reason x (HF & Hr & _). split; [by destruct HF|by left]. }
  intros _. eapply (ens_bind _ _ _ (fun _ m => (F m /\ mo_stopped m = true) /\ mo_released m = Some (AtSucceeded, true))).
  { apply or_unresolved_ensures. unfold release. apply ensures_logged.
    - intros o x (((? & ? & ? & ? & ? & Hp) & ? & ?) & ?). split; [done|]. simpl. subst aid. split; [done|right].
      unfold authorized. rewrite Hp. by split_and!.
    - intros [] x (((? & ? & ? & ? & ? & Hp) & ? & ?) & ?). by split_and!.
    - intros e x (((? & ? & ? & ? & ? & Hp) & ? & ?) & ?). split; [done|right; by eexists]. }
  intros _. eapply ens_bind; [apply journal_ensures|intros ?].
  { intros x ((HF & _) & Hr). split; [by destruct HF|right; by eexists]. }
  eapply (ens_bind _ _ _ (fun _ m => succeeded aid outcome m)).
  { apply or_unresolved_ensures, ensures_logged.
    - intros o x (((? & ? & ? & ? & ? & ?) & ?) & ?). by split_and!.
    - intros [] x (((? & ? & ? & ? & ? & ?) & ?) & ?). by split_and!.
    - intros e x ((HF & _) & Hr). split; [by destruct HF|right; by eexists]. }
  intros _. eapply ens_bind; [apply journal_ensures|by intros ?; apply ens_ret].
  intros x (? & _ & ? & _). split; [done|right; by eexists].
Qed.

(** ** Failing follows the protocol *)

(** Not released, or released as failed. *)
Definition failing (aid : AttemptId) (m : Monitor) : Prop :=
  mo_attempt m = Some aid
  /\ (mo_released m = None \/ exists acknowledged, mo_released m = Some (AtFailed, acknowledged)).

Lemma held_failing aid m : held aid m -> failing aid m.
Proof. intros [? ?]. split; [done|by left]. Qed.

Lemma ensures_last_record (P : Monitor -> Prop) stage detail X :
  ensures P (record stage detail) (fun _ => P) X.
Proof. by apply ensures_record. Qed.

(** The one release of a failed attempt. *)
Lemma release_failed_ensures aid (X : RunnerError -> Monitor -> Prop) :
  ensures (held aid) (outcome_of (release (MkReleaseCall aid AtFailed true))) (fun _ => failing aid) X.
Proof.
  intros r (x & Hf & Ha & Hr). unfold outcome_of, release, logged.
  assert (forall o, permitted x (EvRelease (MkReleaseCall aid AtFailed true) o)) as Hp.
  { intros o. split; [done|]. split; [done|by left]. }
  destruct (lc_release _ (rn_world r)) as [w [u|e|]];
    (eexists; split; [apply follows_snoc; [exact Hf|apply Hp]|]); [..|done];
    (split; [done|right; by eexists]).
Qed.

Lemma cleanup_before_session_ensures grant stage error :
  ensures (held (Attempt_id (ag_attempt grant))) (cleanup_before_session grant stage error)
    (fun _ => failing (Attempt_id (ag_attempt grant))) (fun _ _ => False).
Proof.
  unfold cleanup_before_session. apply ensures_after_record.
  eapply ens_bind; [apply release_failed_ensures|intros o; apply ensures_last_record].
Qed.

Lemma stop_provider_ensures aid session err :
  ensures (held aid) (stop_provider session err) (fun _ => held aid) (fun _ _ => False).
Proof.
  unfold stop_provider. eapply (ens_bind _ _ _ (fun _ => held aid)).
  - intros r (x & Hf & Ha & Hr). unfold outcome_of, logged.
    destruct (ad_terminate session (rn_world r)) as [w [[|]|e|]];
      (eexists; split; [apply follows_snoc; [exact Hf|by split]|done]).
  - intros o. destruct o; apply ensures_last_record.
Qed.

Lemma salvage_ensures aid grant :
  ensures (held aid) (salvage_workspace grant config) (fun _ => held aid) (fun _ => held aid).
Proof.
  unfold salvage_workspace.
  eapply (ens_bind _ _ _ (fun _ => held aid)); [by apply ensures_quietly|intros ck].
  eapply (ens_bind _ _ _ (fun _ => held aid)); [by apply ensures_quietly|intros there].
  eapply (ens_bind _ _ _ (fun _ => held aid)); [by apply ensures_pure|intros u].
  eapply (ens_bind _ _ _ (fun _ => held aid)).
  { destruct (path_parent _); [by apply ensures_quietly|by apply ens_ret]. }
  intros u'. eapply (ens_bind _ _ _ (fun _ => held aid)); [|by intros p; apply ens_ret].
  apply ensures_logged; mon.
Qed.

Lemma cleanup_failure_ensures grant session err :
  ensures (held (Attempt_id (ag_attempt grant))) (cleanup_failure grant config session err)
    (fun _ => failing (Attempt_id (ag_attempt grant))) (fun _ _ => False).
Proof.
  set (aid := Attempt_id (ag_attempt grant)).
  assert (ensures (held aid) (stop_provider session err) (fun _ => failing aid) (fun _ _ => False)) as Hstop.
  { eapply ens_weaken; [apply (stop_provider_ensures aid)|done| |done]. intros ? x. apply held_failing. }
  unfold cleanup_failure. destruct (is_frozen err).
  - apply ensures_after_record. eapply (ens_bind _ _ _ (fun _ => held aid)).
    { eapply ens_weaken; [eapply (ensures_outcome (F:=RunnerError) _ _ _ _ (fun _ _ => False)),
        (salvage_ensures aid)|done|by intros [| |] x|done]. }
    intros salvaged. eapply (ens_bind _ _ _ (fun _ => held aid)); [|done].
    destruct salvaged as [[ck pr]|e|]; [apply ensures_after_record, ensures_last_record
      |apply ensures_last_record|by apply ens_ret].
  - eapply ens_bind; [apply stop_provider_ensures|intros ?].
    eapply ens_bind; [apply release_failed_ensures|intros o; apply ensures_last_record].
Qed.

Lemma or_fail_ensures {A B} P (m : RT A) handle (k : A -> RT B) Q1 X1 Q X :
  ensures P m Q1 X1 -> (forall err, ensures (X1 err) (handle err) (fun _ => X err) (fun _ _ => False)) ->
  (forall a, ensures (Q1 a) (k a) Q X) -> ensures P (or_fail m handle k) Q X.
Proof.
  intros Hm Hh Hk. unfold or_fail. eapply ens_bind; [by apply ensures_outcome|].
  intros [a|err|]; cbn beta iota; [apply Hk| |by apply ensures_pure].
  eapply (ens_bind _ _ _ (fun _ => X1 err)); [by apply ensures_abort|intros _].
  unfold then_fail. eapply (ens_bind _ _ _ (fun _ => X err)).
  - eapply ens_weaken; [apply Hh|done|done|done].
  - intros _. by apply ensures_pure; intros; simplify_eq.
Qed.

(** ** The attempt follows the protocol *)

Definition complete (aid : AttemptId) (outcome : AttemptOutcome) (m : Monitor) : Prop :=
  succeeded aid outcome m /\ ao_attempt_id outcome = aid /\ gates_green (ao_gates outcome)
  /\ 0 <= ao_repair_rounds outcome <= ac_max_repair_rounds config.

(** A failed drive: a finalization may have released the attempt as
    succeeded, any other failure left it to the cleanup. *)
Definition undone (aid : AttemptId) (e : RunnerError) (m : Monitor) : Prop :=
  if finalization_unresolved e then settling aid m else held aid m.

Lemma held_undone aid e m : held aid m -> undone aid e m.
Proof. intros [? ?]. unfold undone. destruct (finalization_unresolved e); [|done]. split; [done|by left]. Qed.

Definition prepared_by (aid : AttemptId) (m : Monitor) : Prop :=
  held aid m /\ mo_frozen m = false /\ mo_cleaned m = false /\ all_passed m.

Lemma preservation_bind_ensures (P : Monitor -> Prop) candidate grant destination receipt :
  ensures P (preservation_bind candidate grant destination receipt)
    (fun p m => cp_receipt p = receipt /\ P m) (fun _ => P).
Proof.
  intros r Hr. pose proof (ensures_silent P _ (preservation_bind_silent candidate grant destination receipt) r Hr) as Hs.
  destruct (preservation_bind _ _ _ _ r) as [r' [p|e|]] eqn:Hrun; [|done|done].
  destruct Hs as (x & Hf & Hx). exists x. split; [done|]. split; [|done].
  unfold preservation_bind in Hrun. inv_st. done.
Qed.

Lemma drive_ensures grant session ws fuel :
  let aid := Attempt_id (ag_attempt grant) in
  ensures (ready aid (base_of (config_capsule config grant ws)) 0)
    (drive_and_finish fuel grant config session ws) (complete aid) (undone aid).
Proof using Hmax.
  intros aid. unfold drive_and_finish.
  eapply ens_bind.
  { eapply ens_weaken; [apply (session_loop_ensures aid)|done|intros a x Hx; exact Hx|].
    - unfold repair_bounded in Hmax. lia.
    - by split_and!.
    - intros e x. apply held_undone. }
  intros [[ws' gates] rounds]. simpl. apply ens_given. intros [Hgreen Hrounds].
  fold (prepared_by aid). set (G := prepared_by aid).
  assert (forall e x, G x -> undone aid e x) as Hun by (intros e x [Hx _]; by apply held_undone).
  eapply (ens_bind _ _ _ (fun _ m => G m /\ mo_fresh m = true)).
  { apply ensures_check; subst G; unfold prepared_by, all_passed; [mon..|]. intros reason x Hx. apply held_undone. mon. }
  intros _. eapply (ens_bind _ _ _ (fun _ => G)).
  { apply ensures_logged.
    - intros o x [(? & ? & ? & ?) ?]. split; [mon|]. split; [by split|by right].
    - intros a x [(? & ? & ? & ?) ?]. by split_and!.
    - intros e x [(? & ? & ? & ?) ?]. by apply held_undone. }
  intros _. eapply (ens_bind _ _ _ (fun _ => G)); [by apply ensures_quietly; [|apply Hun]|intros req].
  eapply (ens_bind _ _ _ (fun _ m => G m /\ mo_fresh m = true)).
  { apply ensures_check; subst G; unfold prepared_by, all_passed; [mon..|]. intros reason x Hx. apply held_undone. mon. }
  intros _. apply ensures_after_record. eapply (ens_bind _ _ _ (fun _ m => G m /\ mo_prepared m = true)).
  { apply ensures_logged.
    - intros o x [(? & ? & ? & ?) ?]. split; [mon|]. by split_and!.
    - intros a x [(? & ? & ? & ?) ?]. by split_and!.
    - intros e x [(? & ? & ? & ?) ?]. by apply held_undone. }
  intros candidate. apply ensures_after_record.
  eapply (ens_bind _ _ _ (fun _ m => G m /\ mo_prepared m = true)).
  { eapply ens_weaken; [apply (ensures_silent (fun m => G m /\ mo_prepared m = true)), preservation_destination_silent|done|done|].
    intros e x [Hx _]. by apply Hun. }
  intros destination. eapply (ens_bind _ _ _ (fun receipt m => finishing aid receipt m /\ mo_released m = None)).
  { apply ensures_logged.
    - intros o x [(? & ? & ? & ?) ?]. split; [mon|done].
    - intros receipt x [(? & ? & ? & ?) ?]. mon.
    - intros e x [(? & ? & ? & ?) ?]. by apply held_undone. }
  intros receipt. eapply ens_bind; [eapply ens_weaken;
    [apply (preservation_bind_ensures (fun m => finishing aid receipt m /\ mo_released m = None))|done|intros p x Hx; exact Hx|]|].
  { intros e x [(? & _) ?]. by apply held_undone. }
  intros preservation. apply ens_given. intros Hrec. subst receipt.
  eapply ens_weaken; [by apply (finish_ensures aid)|done|..].
  - intros o x [-> Hx]. split; [done|]. split; [done|]. split; [done|]. done.
  - intros e x [He Hx]. unfold undone. by rewrite He.
Qed.

Lemma guarded_ensures grant ws fuel :
  let aid := Attempt_id (ag_attempt grant) in
  ensures (ready aid (base_of (config_capsule config grant ws)) 0)
    (run_cloned_attempt_guarded fuel grant config ws) (complete aid) (fun _ _ => True).
Proof using Hmax.
  intros aid. unfold run_cloned_attempt_guarded. set (R := ready aid _ 0).
  eapply (ens_bind _ _ _ (fun _ => R)).
  { by eapply ens_weaken; [apply (ensures_silent R), preservation_destination_silent|..]. }
  intros _. apply (or_fail_ensures _ _ _ _ (fun _ m => R m /\ mo_fresh m = true) (fun _ => held aid)).
  { apply ensures_check; subst R; mon. }
  { intros err. by eapply ens_weaken; [apply cleanup_before_session_ensures|..]. }
  intros _. apply (or_fail_ensures _ _ _ _ (fun _ m => R m /\ mo_fresh m = true) (fun _ => held aid)).
  { apply (ensures_map_err _ _ _ _ (fun _ => held aid)); [|done].
    apply ensures_quietly; [done|]. by intros e x [[Hx _] _]. }
  { intros err. by eapply ens_weaken; [apply cleanup_before_session_ensures|..]. }
  intros session. apply (or_fail_ensures _ _ _ _ (fun _ => R) (fun _ => held aid)).
  { apply ensures_logged.
    - intros o x [Hx Hfresh]. split; [by destruct Hx as [[? ?] ?]|]. split; [split; [done|]|by left]. subst R. mon.
    - subst R. mon.
    - intros e x [[Hx _] _]. done. }
  { intros err. by eapply ens_weaken; [apply cleanup_failure_ensures|..]. }
  intros _. apply (or_fail_ensures _ _ _ _ (complete aid) (undone aid)).
  { apply drive_ensures. }
  { intros err. unfold undone. destruct (finalization_unresolved err); [by apply ens_ret|].
    by eapply ens_weaken; [apply cleanup_failure_ensures|..]. }
  intros outcome. eapply (ens_bind _ _ _ (fun _ => complete aid outcome)); [by apply ensures_abort|].
  intros _. by apply ens_ret.
Qed.

Lemma gitd_finish_ensures {A} P (m : RT A) Q :
  ensures P m Q (fun _ _ => True) -> ensures P (gitd_finish m) Q (fun _ _ => True).
Proof.
  intros Hm. unfold gitd_finish. eapply ens_bind; [exact (ensures_outcome _ _ _ _ (fun (_ : RunnerError) _ => True) Hm)|].
  intros o. eapply (ens_bind _ _ _ (fun _ x => match o with Ok a => Q a x | Err e => True | Panic => False end)).
  { intros r Hr. pose proof (ensures_quietly _ gd_kill (fun _ x => match o with Ok a => Q a x | Err e => True | Panic => False end)
      (fun _ _ => True) ltac:(done) ltac:(done) r Hr) as Hq.
    unfold outcome_of. destruct (quietly gd_kill r) as [r' [u|e|]] eqn:Hk; [done| |done].
    unfold quietly in Hk. destruct (gd_kill (rn_world r)) as [w out]. injection Hk as <- _.
    destruct Hr as (x & Hf & Hx). by exists x. }
  intros [u|e|]; destruct o; try by apply ensures_pure.
  all: apply ensures_pure; intros; by simplify_eq.
Qed.

(** The grant is there, the clone is not. *)
Definition cloning (aid : AttemptId) (m : Monitor) : Prop :=
  held aid m /\ mo_frozen m = false /\ mo_cleaned m = false /\ mo_applies m = 0.

Lemma run_attempt_ensures fuel request :
  ensures (fun m => m = monitor_start) (run_attempt fuel request config)
    (fun outcome m => exists aid, complete aid outcome m) (fun _ _ => True).
Proof using Hmax.
  unfold run_attempt.
  eapply (ens_bind _ _ _ (fun _ m => m = monitor_start)); [by apply ensures_pure|intros _].
  eapply (ens_bind _ _ _ (fun _ m => m = monitor_start)).
  { by eapply ens_weaken; [apply (ensures_silent (fun m => m = monitor_start)), preservation_destination_silent|..]. }
  intros _. eapply (ens_bind _ _ _ (fun _ m => m = monitor_start)); [by apply ensures_quietly|intros _].
  eapply (ens_bind _ _ _ (fun grant => cloning (Attempt_id (ag_attempt grant)))).
  { apply ensures_logged; [by intros o x ->|by intros grant x ->|done]. }
  intros grant. set (aid := Attempt_id (ag_attempt grant)). apply ensures_after_record.
  destruct (begin_attempt_heartbeat grant config) as [u|e|]; [| |by apply ensures_pure].
  2: { unfold then_fail. eapply (ens_bind _ _ _ (fun _ _ => True)); [|by intros ?; apply ensures_pure].
       eapply ens_weaken; [apply cleanup_before_session_ensures|by intros x [Hx _]|done|done]. }
  assert (forall stage err, ensures (held aid) (cleanup_before_session grant stage err)
    (fun _ _ => True) (fun _ _ => False)) as Hclean.
  { intros stage err. by eapply ens_weaken; [apply cleanup_before_session_ensures|..]. }
  apply (or_fail_ensures _ _ _ _ (fun _ => cloning aid) (fun _ => held aid)); [|done|].
  { apply ensures_quietly; [done|]. by intros e x [Hx _]. }
  intros _. apply gitd_finish_ensures.
  apply (or_fail_ensures _ _ _ _ (fun ws => ready aid (base_of (config_capsule config grant ws)) 0)
           (fun _ => held aid)); [|done|].
  { apply ensures_logged; unfold cloning; [mon..|]. mon. }
  intros ws. set (R := ready aid _ 0).
  apply (or_fail_ensures _ _ _ _ (fun _ => R) (fun _ => held aid)); [|done|].
  { apply ensures_quietly; [done|]. by intros e x [Hx _]. }
  intros _. apply ensures_after_record.
  apply (or_fail_ensures _ _ _ _ (fun _ => R) (fun _ => held aid)); [|done|].
  { apply ensures_quietly; [done|]. by intros e x [Hx _]. }
  intros _. eapply ens_weaken; [apply guarded_ensures|done| |done]. intros o x Hx. by exists aid.
Qed.

(** ** The repair budget bounds the loop *)

Definition agree {E A} (m1 m2 : stateful (run W) E A) : Prop := forall r, m1 r = m2 r.

Lemma agree_refl {E A} (m : stateful (run W) E A) : agree m m.
Proof. done. Qed.
Lemma agree_bind {E A B} (m1 m2 : stateful (run W) E A) (f1 f2 : A -> stateful (run W) E B) :
  agree m1 m2 -> (forall a, agree (f1 a) (f2 a)) -> agree (m1 ≫= f1) (m2 ≫= f2).
Proof.
  intros Hm Hf r. unfold mbind, stateful_bind. rewrite Hm.
  destruct (m2 r) as [r' [a|e|]]; [apply Hf|done|done].
Qed.
Lemma agree_outcome {E F A} (m1 m2 : stateful (run W) E A) :
  agree m1 m2 -> agree (outcome_of (F:=F) m1) (outcome_of m2).
Proof. intros Hm r. unfold outcome_of. by rewrite Hm. Qed.

(** Walks through two computations of the same shape. *)
Ltac agree := repeat first
  [ assumption | apply agree_refl | apply agree_outcome
  | apply agree_bind; [|intros ?] | case_match ].

Lemma agree_or_fail {A B} (m1 m2 : RT A) handle (k1 k2 : A -> RT B) :
  agree m1 m2 -> (forall a, agree (k1 a) (k2 a)) -> agree (or_fail m1 handle k1) (or_fail m2 handle k2).
Proof. intros Hm Hk. unfold or_fail. agree. apply Hk. Qed.

Lemma agree_spend {A} rounds (k1 k2 : Z -> RT A) :
  0 <= rounds <= ac_max_repair_rounds config ->
  (rounds + 1 <= ac_max_repair_rounds config -> agree (k1 (rounds + 1)) (k2 (rounds + 1))) ->
  agree (rounds ← pure_step (spend_repair_round rounds config); k1 rounds)
        (rounds ← pure_step (spend_repair_round rounds config); k2 rounds).
Proof using Hmax.
  intros Hr Hk r. unfold mbind, stateful_bind, pure_step.
  destruct (spend_repair_round rounds config) as [r'|e|] eqn:Hs; [|done|done].
  apply spend_Ok in Hs as [-> Hle]; [|done]. by apply Hk.
Qed.

Lemma session_loop_agree session authority fuel1 : forall fuel2 ws capsule prompt rounds,
  0 <= rounds <= ac_max_repair_rounds config ->
  ac_max_repair_rounds config - rounds < Z.of_nat fuel1 ->
  ac_max_repair_rounds config - rounds < Z.of_nat fuel2 ->
  agree (session_loop fuel1 session authority config ws capsule prompt rounds)
        (session_loop fuel2 session authority config ws capsule prompt rounds).
Proof using Hmax.
  induction fuel1 as [|fuel1 IH]; intros [|fuel2] ws capsule prompt rounds Hr H1' H2'; [lia|lia|lia|].
  cbn [session_loop]. do 4 (apply agree_bind; [apply agree_refl|intros ?]). case_match.
  { apply agree_bind; [apply agree_refl|intros ?]. apply agree_spend; [done|]. intros Hle. apply IH; lia. }
  do 2 (apply agree_bind; [apply agree_refl|intros ?]). case_match; [|case_match|apply agree_refl].
  - apply agree_bind; [apply agree_refl|intros ?]. apply agree_bind; [apply agree_refl|intros [workdir tree]].
    apply agree_bind; [apply agree_refl|intros gates]. case_match; [apply agree_refl|].
    apply agree_spend; [done|]. intros Hle. apply agree_bind; [apply agree_refl|intros ?]. apply IH; lia.
  - apply agree_bind; [apply agree_refl|intros ?]. apply agree_spend; [done|]. intros Hle. apply IH; lia.
  - apply agree_refl.
Qed.

Lemma run_attempt_agree request fuel1 fuel2 :
  ac_max_repair_rounds config < Z.of_nat fuel1 -> ac_max_repair_rounds config < Z.of_nat fuel2 ->
  agree (run_attempt fuel1 request config) (run_attempt fuel2 request config).
Proof using Hmax.
  intros Hf1 Hf2. unfold run_attempt. do 5 (apply agree_bind; [apply agree_refl|intros ?]).
  case_match; [|apply agree_refl|apply agree_refl].
  apply agree_or_fail; [apply agree_refl|intros ?]. unfold gitd_finish.
  apply agree_bind; [|intros ?; apply agree_refl]. apply agree_outcome.
  apply agree_or_fail; [apply agree_refl|intros ws]. apply agree_or_fail; [apply agree_refl|intros ?].
  apply agree_bind; [apply agree_refl|intros ?]. apply agree_or_fail; [apply agree_refl|intros ?].
  unfold run_cloned_attempt_guarded. apply agree_bind; [apply agree_refl|intros ?].
  do 3 (apply agree_or_fail; [apply agree_refl|intros ?]).
  apply agree_or_fail; [|intros ?; apply agree_refl]. unfold drive_and_finish.
  apply agree_bind; [|intros ?; apply agree_refl]. unfold repair_bounded in Hmax.
  apply session_loop_agree; lia.
Qed.
End Runs.
End Protocol.

Section Claims.
Context `{Blake3} `{Hex} `{Unicode} {V W : Type} `{!Files W} `{!RunnerTexts V} `{!RunnerPorts V W}.
Implicit Types (config : AttemptConfig) (r : run W).

(** C5: An attempt follows its protocol, whatever the provider, the workspace
    daemon, the lease authority and the gates answer, and also when it fails,
    for every repair budget but the largest [u32] (whose counter would wrap).
    A proposal is applied only right after an authority check that passed, when
    no check ever failed, if every path lies in the granted scope and it names
    this attempt, the current checkpoint and exactly the admitted gates, and
    at most once per repair round; a gate runs on a verified tree and counts
    once the tree is verified again; the candidate is prepared only with all
    gates passed in order on that tree, and right after a check. The lease is
    released at most once: as succeeded only with the candidate preserved and
    the provider stopped, right after a check, and otherwise as failed; the
    workspace is deleted only after an acknowledged successful release, with
    the preserved receipt. A run that returns an outcome has done all of it,
    and the outcome reports the admitted gates, all passed. *)
Theorem attempt_follows_protocol config fuel request w r out :
  repair_bounded config -> run_attempt fuel request config (MkRun w []) = (r, out) ->
  exists m, follows config monitor_start (rn_trace r) m
  /\ forall outcome, out = Ok outcome ->
     mo_attempt m = Some (ao_attempt_id outcome) /\ mo_released m = Some (AtSucceeded, true)
     /\ mo_cleaned m = true /\ mo_preserved m = Some (cp_receipt (ao_preservation outcome))
     /\ all_passed config m /\ gates_green config (ao_gates outcome)
     /\ 0 <= ao_repair_rounds outcome <= ac_max_repair_rounds config.
Proof.
  intros Hmax Hrun.
  pose proof (run_attempt_ensures config Hmax fuel request (MkRun w []) (ex_intro _ _ (conj eq_refl eq_refl))) as Hm.
  rewrite Hrun in Hm. destruct out as [outcome|e|]; destruct Hm as (m & Hf & Hm); exists m; split; try done.
  intros o [= <-]. destruct Hm as (aid & Hs & <- & Hg & Hr).
  destruct Hs as (? & _ & ? & ? & ? & _ & _ & ?). do 6 (split; [done|]). done.
Qed.

(** C33: An attempt ends within its repair budget: more turns than one per
    repair round and one more are never used, so any larger bound on the loop
    gives the same run, call for call, and the same outcome; for every budget
    but the largest [u32], whose counter would wrap. *)
Theorem attempt_ends_within_budget config fuel request r :
  repair_bounded config -> (Z.to_nat (ac_max_repair_rounds config) + 1 <= fuel)%nat ->
  run_attempt fuel request config r
  = run_attempt (Z.to_nat (ac_max_repair_rounds config) + 1) request config r.
Proof.
  intros Hmax Hf. apply run_attempt_agree; [done|..]; unfold repair_bounded in Hmax; lia.
Qed.
End Claims.
