(* ===== verification/Verifier.v ===== *)
(** * The clean-room verifier

    Models crates/verifier/src/error.rs, request.rs, evidence.rs, aggregate.rs,
    gate.rs, workspace.rs, safe_git.rs and run.rs: the reconstruction of a
    candidate in a fresh clone, the gate that is run on it, and what the
    evidence records. Processes, temporary directories and the clock are the
    calls of a class; beside any world the calls of git and of the gate can be
    recorded with their answers. *)

From S2P Require Import Prelude External Ids Gates Framing Text Paths LocalForge.
From stdpp Require Import options.

Local Open Scope Z_scope.

(** crates/domain/src/gates.rs:174-176 (REASON_ZERO_TESTS) *)
Definition REASON_ZERO_TESTS : string := "ZERO_TESTS".
Definition REASON_GATE_TIMEOUT : string := "GATE_TIMEOUT".
Definition REASON_GATE_NONZERO_EXIT : string := "GATE_NONZERO_EXIT".
Definition REASON_GATE_SPAWN_FAILED : string := "GATE_SPAWN_FAILED".
Definition REASON_GATE_SIGNALED : string := "GATE_SIGNALED".
Definition REASON_CLONE_FAILED : string := "CLONE_FAILED".
Definition REASON_HEAD_UNREACHABLE : string := "HEAD_UNREACHABLE".
Definition REASON_TREE_MISMATCH : string := "TREE_MISMATCH".
Definition REASON_BASE_NOT_ANCESTOR : string := "BASE_NOT_ANCESTOR".
Definition REASON_GIT_READ_FAILED : string := "GIT_READ_FAILED".

(** ** Errors and requests *)

(** crates/verifier/src/error.rs:5-27 (VerifierError) *)
Inductive VerifierError : Type :=
| VeAuthorOverlap (detail : string)
| VeBadInput (reason : string)
| VeIo (detail : string)
| VeGit (op detail : string).

(** crates/verifier/src/error.rs:30-39 (VerifierError::reason_code) *)
Definition VerifierError_reason_code (e : VerifierError) : string :=
  match e with
  | VeAuthorOverlap _ => "VERIFIER_IS_AUTHOR"
  | VeBadInput _ => "BAD_INPUT"
  | VeIo _ => "IO_FAILED"
  | VeGit _ _ => "GIT_FAILED"
  end.

Definition VerifierError_display (e : VerifierError) : string :=
  match e with
  | VeAuthorOverlap d => "verifier and author identities overlap: " +:+ d
  | VeBadInput r => "invalid verifier request: " +:+ r
  | VeIo d => "verifier io: " +:+ d
  | VeGit op d => "git " +:+ op +:+ ": " +:+ d
  end.

(** crates/verifier/src/error.rs:42-44 (io_err) *)
Definition verifier_io_err (op err : string) : VerifierError := VeIo (op +:+ ": " +:+ err).

(** crates/verifier/src/request.rs:7-24 (VerifierRequest) *)
Record VerifierRequest : Type := MkVerifierRequest {
  vr_workspace_repo_path : string;
  vr_base_sha : string;
  vr_head_sha : string;
  vr_tree_sha : string;
  vr_gate_id : GateId;
  vr_author_attempt_id : string
}.

Global Instance VerifierRequest_eq_dec : EqDecision VerifierRequest.
Proof. solve_decision. Defined.

(** crates/verifier/src/request.rs:26-31 (is_full_sha) *)
Definition is_full_sha (text : string) : bool :=
  bool_decide (str_len text = 40) && string_all is_lower_hex text.

(** crates/verifier/src/request.rs:34-66 (VerifierRequest::validate) *)
Definition request_validate (r : VerifierRequest) : result VerifierError unit :=
  _ ← refuse_if (is_empty (vr_workspace_repo_path r)) (VeBadInput "workspace_repo_path is empty");
  _ ← for_each (fun '(name, value) => refuse_if (negb (is_full_sha value))
        (VeBadInput (name +:+ " is not 40 lowercase hex characters")))
      [("base_sha", vr_base_sha r); ("head_sha", vr_head_sha r); ("tree_sha", vr_tree_sha r)];
  _ ← refuse_if (negb (bool_decide (is_Some (gate_definition (vr_gate_id r)))))
        (VeBadInput ("unknown gate_id " +:+ str_debug (GateId_as_str (vr_gate_id r))));
  refuse_if (is_empty (vr_author_attempt_id r)) (VeBadInput "author_attempt_id is empty").

(** ** Evidence and custody *)

(** crates/verifier/src/evidence.rs:9-19 (CandidateSubject) *)
Record CandidateSubject : Type := MkCandidateSubject {
  cs_base_sha : string;
  cs_head_sha : string;
  cs_tree_sha : string
}.
Global Instance CandidateSubject_eq_dec : EqDecision CandidateSubject.
Proof. solve_decision. Defined.

(** crates/verifier/src/evidence.rs:21-29 (EvidenceCustody) *)
Inductive EvidenceCustody : Type := CustodyWriter | CustodyIndependent.
Global Instance EvidenceCustody_eq_dec : EqDecision EvidenceCustody.
Proof. solve_decision. Defined.
Global Instance EvidenceTier_eq_dec : EqDecision EvidenceTier.
Proof. solve_decision. Defined.

(** crates/verifier/src/evidence.rs:31-61 (VerifierEvidence) *)
Record VerifierEvidence : Type := MkVerifierEvidence {
  ve_tier : EvidenceTier;
  ve_gate_id : GateId;
  ve_outcome : GateOutcome;
  ve_reason : option string;
  ve_detail : option string;
  ve_argv : list string;
  ve_timeout_secs : Z;
  ve_exit_code : option Z;
  ve_duration_ms : Z;
  ve_subject : CandidateSubject;
  ve_environment : gmap string string;
  ve_produced_by : string;
  ve_author_attempt_id : string
}.
Global Instance VerifierEvidence_eq_dec : EqDecision VerifierEvidence.
Proof. solve_decision. Defined.

(** crates/verifier/src/evidence.rs:63-76 (CustodyRecord) *)
Record CustodyRecord : Type := MkCustodyRecord {
  cu_subject : CandidateSubject;
  cu_custody : EvidenceCustody;
  cu_tier : EvidenceTier;
  cu_gate : string;
  cu_outcome : GateOutcome
}.

(** The derived order of [EvidenceTier]. *)
Definition tier_rank (t : EvidenceTier) : Z :=
  match t with TierE0 => 0 | TierE1 => 1 | TierE2 => 2 | TierE3 => 3 | TierE4 => 4 end.

(** crates/verifier/src/evidence.rs:78-93 (independent_requirement_satisfied) *)
Definition independent_requirement_satisfied (required : CandidateSubject) (floor : EvidenceTier)
  (records : list CustodyRecord) : bool :=
  existsb (fun record =>
    bool_decide (cu_custody record = CustodyIndependent)
    && bool_decide (tier_rank floor <= tier_rank (cu_tier record))
    && bool_decide (cu_subject record = required)
    && GateOutcome_satisfies_requirement (cu_outcome record)) records.

(** crates/verifier/src/evidence.rs:95-113 (invalidate_on_subject_change) *)
Definition invalidate_on_subject_change (live : CandidateSubject) (records : list CustodyRecord)
  : list CustodyRecord :=
  (fun record =>
    if bool_decide (cu_subject record = live) then record
    else MkCustodyRecord (cu_subject record) (cu_custody record) (cu_tier record) (cu_gate record)
           GateInvalidated) <$> records.

(** ** Gate runs and their aggregation *)

(** crates/verifier/src/gate.rs:17-28 (GateRun) *)
Record GateRun : Type := MkGateRun {
  gu_outcome : GateOutcome;
  gu_reason : option string;
  gu_detail : option string;
  gu_exit_code : option Z
}.

(** crates/verifier/src/aggregate.rs:10-18 (OracleClass) *)
Inductive OracleClass : Type := OracleIndependent | OracleModifyingDiff.
Global Instance OracleClass_eq_dec : EqDecision OracleClass.
Proof. solve_decision. Defined.

(** crates/verifier/src/aggregate.rs:20-31 (AggregatedGate) *)
Record AggregatedGate : Type := MkAggregatedGate {
  agg_catalog_argv_digest : Digest;
  agg_executable_bytes_digest : Digest;
  agg_outcome : GateOutcome;
  agg_oracle_class : OracleClass
}.

(** crates/verifier/src/aggregate.rs:59-65 (AggregationError) *)
Inductive AggregationError : Type := EmptyGateSet.

Section Aggregation.
Context `{Blake3}.

(** crates/verifier/src/aggregate.rs:77-88 (catalog_argv_digest) *)
Definition catalog_argv_digest (argv : list string) : Digest :=
  Digest_of (frame "bullet.verifier.executable.v1" +:+ u64_to_le_bytes (Z.of_nat (length argv))
    +:+ foldr (fun argument acc => frame argument +:+ acc) EmptyString argv).

(** A green run that ran no test, or that was judged by a changed oracle, is
    not green. *)
Definition aggregated_outcome (reason_hint : string) (run : GateRun) (class : OracleClass) : GateOutcome :=
  let outcome := gu_outcome run in
  let outcome := if bool_decide (outcome = GatePass)
                    && (bool_decide (gu_reason run = Some REASON_ZERO_TESTS)
                        || bool_decide (reason_hint = REASON_ZERO_TESTS)) then GateNotRun else outcome in
  if bool_decide (outcome = GatePass) && bool_decide (class = OracleModifyingDiff)
  then GateInvalidated else outcome.

(** crates/verifier/src/aggregate.rs:96-129 (aggregate) *)
Definition aggregate (runs : list (string * list string * Digest * GateRun * OracleClass))
  : result AggregationError (list AggregatedGate) :=
  if bool_decide (length runs = 0%nat) then Err EmptyGateSet
  else Ok ((fun '(reason_hint, argv, executable_bytes_digest, run, class) =>
              MkAggregatedGate (catalog_argv_digest argv) executable_bytes_digest
                (aggregated_outcome reason_hint run class) class) <$> runs).
End Aggregation.

(** ** Workspaces *)

(** crates/verifier/src/workspace.rs:4-11 (CleanWorkspace) *)
Record CleanWorkspace : Type := MkCleanWorkspace {
  cw_writer_workspace : string;
  cw_verifier_workspace : string
}.

(** crates/verifier/src/workspace.rs:14-32 (CleanWorkspace::bind) *)
Definition CleanWorkspace_bind (writer_workspace verifier_workspace : string) : result string CleanWorkspace :=
  _ ← refuse_if (bool_decide (writer_workspace = verifier_workspace))
        "verifier cannot share the writer workspace";
  mret (MkCleanWorkspace writer_workspace verifier_workspace).

(** crates/verifier/src/workspace.rs:35-44 (PreservationReceipt) *)
Record VerifierPreservationReceipt : Type := MkVerifierPreservationReceipt {
  vp_attempt_id : string;
  vp_workspace_nonce : string;
  vp_bundle_digest : string
}.

(** crates/verifier/src/workspace.rs:46-64 (cleanup_workspace) *)
Definition cleanup_workspace (attempt_id workspace_nonce : string)
  (receipt : option VerifierPreservationReceipt) : result string unit :=
  receipt ← ok_or receipt "cleanup requires a preservation receipt";
  _ ← refuse_if (negb (bool_decide (vp_attempt_id receipt = attempt_id))
                 || negb (bool_decide (vp_workspace_nonce receipt = workspace_nonce)))
        "preservation receipt does not bind this workspace";
  refuse_if (is_empty (vp_bundle_digest receipt)) "preservation receipt has no bundle".

(** ** The clean room *)

(** A gate process: program, arguments, directory, environment. *)
Record GateCommand : Type := MkGateCommand {
  gm_program : string;
  gm_args : list string;
  gm_dir : string;
  gm_env : list (string * string)
}.

(** How it ended: not spawned, over its budget, not awaited, or with a status
    (its code, if no signal ended it, and its text). *)
Inductive GateEnd : Type :=
| GateNotSpawned (error : string)
| GateElapsed
| GateWaitFailed (error : string)
| GateExited (code : option Z) (status : string).

Class CleanRoom (W : Type) := {
  room_git :: GitProcess W;
  room_tempdir : stateful W string string;
  room_create_dir_all : string -> stateful W string unit;
  room_rustc : stateful W string (option Z * bytes);
  room_now : W -> W * Z;
  room_gate : GateCommand -> Z -> W -> W * GateEnd
}.

(** crates/verifier/src/safe_git.rs:17-23 (HostileGit) *)
Record HostileGit : Type := MkHostileGit {
  hg_home_dir : string;
  hg_xdg_config_dir : string;
  hg_hooks_dir : string
}.

(** crates/verifier/src/run.rs:26-33 (Reconstruction) *)
Inductive Reconstruction : Type :=
| Ready (clone_dir : string)
| Verdict (outcome : GateOutcome) (reason detail : string).

(** crates/verifier/src/gate.rs:44-67 (classify) *)
Definition classify_exit (code : option Z) (status : string) : GateRun :=
  match code with
  | None => MkGateRun GateInfraError (Some REASON_GATE_SIGNALED)
              (Some ("gate terminated by signal: " +:+ status)) None
  | Some code =>
      if negb (bool_decide (code = 0)) then
        MkGateRun GateFail (Some REASON_GATE_NONZERO_EXIT) None (Some code)
      else MkGateRun GatePass None None (Some code)
  end.

(** crates/verifier/src/gate.rs:30-42 (command_for) *)
Definition command_for (clone_dir : string) (gate : GateDefinition) : GateCommand :=
  MkGateCommand (GateDefinition_program gate) (GateDefinition_args gate) clone_dir
    [("GIT_TERMINAL_PROMPT", "0"); ("LC_ALL", "C")].

(** crates/verifier/src/run.rs:125-151 (record) *)
Definition evidence_record (request : VerifierRequest) (definition : GateDefinition) (gate : GateRun)
  (duration_ms : Z) (environment : gmap string string) : VerifierEvidence :=
  MkVerifierEvidence TierE2 (vr_gate_id request) (gu_outcome gate) (gu_reason gate) (gu_detail gate)
    (GateDefinition_argv definition) (GateDefinition_timeout_secs definition) (gu_exit_code gate)
    duration_ms (MkCandidateSubject (vr_base_sha request) (vr_head_sha request) (vr_tree_sha request))
    environment "bullet-verifier" (vr_author_attempt_id request).

Section CleanRoom.
Context {W : Type} `{!CleanRoom W}.
Definition VM : Type -> Type := stateful W VerifierError.

(** `if let Ok(value) = step`. *)
Definition try_ok {E F A} (m : stateful W E A) : stateful W F (option A) := fun w =>
  match m w with
  | (t, Ok a) => (t, Ok (Some a))
  | (t, Err _) => (t, Ok None)
  | (t, Panic) => (t, Panic)
  end.

(** crates/verifier/src/safe_git.rs:26-43 (HostileGit::new) *)
Definition HostileGit_new (runtime_dir : string) : VM HostileGit :=
  let home_dir := path_join runtime_dir "home" in
  let xdg_config_dir := path_join runtime_dir "xdg-config" in
  let hooks_dir := path_join runtime_dir "hooks-empty" in
  let create dir := st_map_err (verifier_io_err "create runtime dir") (room_create_dir_all dir) in
  _ ← create home_dir;
  _ ← create xdg_config_dir;
  _ ← create hooks_dir;
  mret (MkHostileGit home_dir xdg_config_dir hooks_dir).

(** crates/verifier/src/safe_git.rs:45-77 (HostileGit::command) *)
Definition hostile_command (git : HostileGit) (repo : option string) (allow_local_transport : bool)
  (args : list string) : GitCommand :=
  MkGitCommand
    ((match git_path (W:=W) with Some p => [("PATH", p)] | None => [] end)
     ++ [("HOME", hg_home_dir git); ("XDG_CONFIG_HOME", hg_xdg_config_dir git);
         ("GIT_CONFIG_NOSYSTEM", "1"); ("GIT_CONFIG_GLOBAL", "/dev/null");
         ("GIT_TERMINAL_PROMPT", "0"); ("GIT_ASKPASS", "/bin/false");
         ("GIT_SSH_COMMAND", "false"); ("LC_ALL", "C")])
    (["-c"; "core.hooksPath=" +:+ hg_hooks_dir git; "-c"; "credential.helper=";
      "-c"; "protocol.file.allow=" +:+ (if allow_local_transport then "user" else "never")]
     ++ (match repo with Some r => ["-C"; r] | None => [] end) ++ args).

Definition shown (output : bytes) : string := str_trim (from_utf8_lossy output).

(** crates/verifier/src/safe_git.rs:79-101 (HostileGit::run) *)
Definition hostile_run (git : HostileGit) (repo : option string) (allow_local_transport : bool)
  (args : list string) : VM string :=
  '(code, out, err) ← st_map_err (verifier_io_err "spawn git")
                        (git_output (hostile_command git repo allow_local_transport args));
  if bool_decide (code = Some 0) then mret (shown out)
  else pure_step (Err (VeGit (default "git" (head args)) (shown err))).

(** crates/verifier/src/safe_git.rs:103-115 (HostileGit::probe) *)
Definition hostile_probe (git : HostileGit) (repo : option string) (args : list string) : VM bool :=
  '(code, _, _) ← st_map_err (verifier_io_err "spawn git probe")
                    (git_output (hostile_command git repo false args));
  mret (bool_decide (code = Some 0)).

(** crates/verifier/src/gate.rs:69-99 (run_gate) *)
Definition run_gate (clone_dir : string) (gate : GateDefinition) : VM GateRun := fun w =>
  let timeout_secs := GateDefinition_timeout_secs gate in
  let '(t, ended) := room_gate (command_for clone_dir gate) timeout_secs w in
  (t, Ok (match ended with
          | GateNotSpawned err | GateWaitFailed err =>
              MkGateRun GateInfraError (Some REASON_GATE_SPAWN_FAILED) (Some err) None
          | GateElapsed =>
              MkGateRun GateTimedOut (Some REASON_GATE_TIMEOUT)
                (Some ("gate exceeded " +:+ pretty timeout_secs +:+ "s budget")) None
          | GateExited code status => classify_exit code status
          end)).

(** crates/verifier/src/run.rs:35-49 (capture_environment) *)
Definition capture_environment (git : HostileGit) : VM (gmap string string) :=
  version ← try_ok (hostile_run git None false ["--version"]);
  rustc ← try_ok room_rustc;
  let env := match version with Some v => <["git" := v]> (∅ : gmap string string) | None => ∅ end in
  mret (match rustc with
        | Some (code, out) => if bool_decide (code = Some 0) then <["rustc" := shown out]> env else env
        | None => env
        end).

(** A step whose failure is a verdict. *)
Definition or_verdict {A} (m : VM A) (verdict : VerifierError -> Reconstruction)
  (k : A -> VM Reconstruction) : VM Reconstruction := fun w =>
  match m w with
  | (t, Ok a) => k a t
  | (t, Err e) => (t, Ok (verdict e))
  | (t, Panic) => (t, Panic)
  end.

(** crates/verifier/src/run.rs:51-123 (reconstruct) *)
Definition reconstruct (git : HostileGit) (scratch : string) (request : VerifierRequest) : VM Reconstruction :=
  let clone_dir := path_join scratch "clone" in
  or_verdict (hostile_run git None true
                ["clone"; "--no-checkout"; "--no-hardlinks"; vr_workspace_repo_path request; clone_dir])
    (fun err => Verdict GateInfraError REASON_CLONE_FAILED (VerifierError_display err)) (fun _ =>
  or_verdict (hostile_run git (Some clone_dir) false ["checkout"; "--detach"; "--force"; vr_head_sha request])
    (fun err => Verdict GateInvalidated REASON_HEAD_UNREACHABLE (VerifierError_display err)) (fun _ =>
  or_verdict (hostile_run git (Some clone_dir) false ["rev-parse"; "HEAD^{tree}"])
    (fun err => Verdict GateInfraError REASON_GIT_READ_FAILED (VerifierError_display err)) (fun observed_tree =>
  if negb (bool_decide (observed_tree = vr_tree_sha request)) then
    mret (Verdict GateInvalidated REASON_TREE_MISMATCH ("observed tree " +:+ observed_tree))
  else
    ancestor ← hostile_probe git (Some clone_dir)
                 ["merge-base"; "--is-ancestor"; vr_base_sha request; vr_head_sha request];
    if negb ancestor then
      mret (Verdict GateInvalidated REASON_BASE_NOT_ANCESTOR
              (vr_base_sha request +:+ " is not an ancestor of " +:+ vr_head_sha request))
    else mret (Ready clone_dir)))).

Definition now_step : VM Z := fun w => let '(t, n) := room_now w in (t, Ok n).

(** crates/verifier/src/run.rs:153-196 (execute) *)
Definition execute (request : VerifierRequest) (author_overlap : bool) : VM VerifierEvidence :=
  _ ← pure_step (refuse_if author_overlap
        (VeAuthorOverlap ("caller shares the writer identity of " +:+ vr_author_attempt_id request)));
  _ ← pure_step (request_validate request);
  definition ← pure_step (ok_or (gate_definition (vr_gate_id request))
    (VeBadInput ("unknown gate_id " +:+ str_debug (GateId_as_str (vr_gate_id request)))));
  started ← now_step;
  scratch ← st_map_err (verifier_io_err "create scratch dir") room_tempdir;
  git ← HostileGit_new (path_join scratch "runtime");
  environment ← capture_environment git;
  reconstruction ← reconstruct git scratch request;
  gate ← (match reconstruction with
          | Ready clone_dir => run_gate clone_dir definition
          | Verdict outcome reason detail => mret (MkGateRun outcome (Some reason) (Some detail) None)
          end);
  finished ← now_step;
  let duration_ms := Z.min (Z.max 0 (finished - started) / 1000000) u64_max in
  mret (evidence_record request definition gate duration_ms environment).
End CleanRoom.

(** ** Rooms that remember their processes *)

Inductive room_call : Type :=
| CallGit (cmd : GitCommand) (answer : result string (option Z * bytes * bytes))
| CallGate (cmd : GateCommand) (timeout_secs : Z) (ended : GateEnd).

Definition logged_room (W : Type) : Type := W * list room_call.

Definition unlogged {W E A} (m : stateful W E A) : stateful (logged_room W) E A :=
  fun '(w, t) => let '(w', r) := m w in ((w', t), r).

Global Instance logged_clean_room W `{!CleanRoom W} : CleanRoom (logged_room W) := {|
  room_git := {|
    git_output cmd '(w, t) := let '(w', r) := git_output cmd w in ((w', t ++ [CallGit cmd r]), r);
    git_path := git_path
  |};
  room_tempdir := unlogged room_tempdir;
  room_create_dir_all dir := unlogged (room_create_dir_all dir);
  room_rustc := unlogged room_rustc;
  room_now := fun '(w, t) => let '(w', n) := room_now w in ((w', t), n);
  room_gate cmd secs := fun '(w, t) =>
    let '(w', e) := room_gate cmd secs w in ((w', t ++ [CallGate cmd secs e]), e)
|}.

Section Exactness.
Context {W : Type} `{!CleanRoom W}.
Abbreviation L := (logged_room W).

(** A call that answers with code 0. *)
Definition succeeded (cmd : GitCommand) (out err : bytes) : room_call := CallGit cmd (Ok (Some 0, out, err)).

(** The calls of a green verification, in their order and no others: the
    version of git, a clone of the requested repository into a fresh
    directory, a checkout of the exact head there, a read of the tree that is
    the requested one, the ancestry of the base, and the catalogue's gate,
    which exits with 0 in the same directory. *)
Definition green_calls (request : VerifierRequest) (t : list room_call) : Prop :=
  exists git scratch version definition o1 e1 o2 e2 o3 e3 o4 e4 status,
    let clone := path_join scratch "clone" in
    let inside := hostile_command (W:=L) git (Some clone) false in
    gate_definition (vr_gate_id request) = Some definition
    /\ shown o3 = vr_tree_sha request
    /\ t = [CallGit (hostile_command (W:=L) git None false ["--version"]) version;
            succeeded (hostile_command (W:=L) git None true
              ["clone"; "--no-checkout"; "--no-hardlinks"; vr_workspace_repo_path request; clone]) o1 e1;
            succeeded (inside ["checkout"; "--detach"; "--force"; vr_head_sha request]) o2 e2;
            succeeded (inside ["rev-parse"; "HEAD^{tree}"]) o3 e3;
            succeeded (inside ["merge-base"; "--is-ancestor"; vr_base_sha request; vr_head_sha request]) o4 e4;
            CallGate (MkGateCommand (GateDefinition_program definition) (GateDefinition_args definition) clone
                        [("GIT_TERMINAL_PROMPT", "0"); ("LC_ALL", "C")])
              (GateDefinition_timeout_secs definition) (GateExited (Some 0) status)].

(** What a git call leaves in the log. *)
Lemma hostile_run_log git repo allow args (s : L) s' r :
  hostile_run git repo allow args s = (s', r) ->
  exists answer, s'.2 = s.2 ++ [CallGit (hostile_command (W:=L) git repo allow args) answer]
  /\ forall text, r = Ok text -> exists o e, answer = Ok (Some 0, o, e) /\ shown o = text.
Proof.
  destruct s as [w t]. unfold hostile_run, st_map_err, mbind, stateful_bind. cbn [git_output room_git logged_clean_room].
  destruct (git_output _ w) as [w' [[[code o] e]|err|]]; cbn [map_err].
  - case_bool_decide as Hc; intros [= <- <-]; (eexists; split; [done|]); intros text Ht; [|done].
    injection Ht as <-. subst code. by exists o, e.
  - intros [= <- <-]. eexists. by split.
  - intros [= <- <-]. eexists. by split.
Qed.

Definition is_git_call (c : room_call) : Prop := match c with CallGit _ _ => True | CallGate _ _ _ => False end.

Lemma unlogged_log {E A} (m : stateful W E A) (s s' : L) r : unlogged m s = (s', r) -> s'.2 = s.2.
Proof. destruct s as [w t]. unfold unlogged. destruct (m w). by intros [= <- <-]. Qed.

Lemma now_step_log (s s' : L) r : now_step s = (s', r) -> s'.2 = s.2.
Proof. destruct s as [w t]. unfold now_step. simpl. destruct (room_now w). by intros [= <- <-]. Qed.

Lemma hostile_new_log dir (s s' : L) git : HostileGit_new dir s = (s', Ok git) -> s'.2 = s.2.
Proof.
  unfold HostileGit_new. intros H. inv_st.
  repeat match goal with
         | Hc : st_map_err _ _ _ = (_, Ok _) |- _ => apply st_map_err_Ok, unlogged_log in Hc
         end. congruence.
Qed.

Lemma environment_log git (s s' : L) env :
  capture_environment git s = (s', Ok env) ->
  exists version, s'.2 = s.2 ++ [CallGit (hostile_command (W:=L) git None false ["--version"]) version].
Proof.
  unfold capture_environment. intros H.
  apply st_bind_Ok in H as (s1 & v & Hv & H). apply st_bind_Ok in H as (s2 & rc & Hr & H).
  apply st_ret_Ok in H as [-> _]. unfold try_ok in *.
  destruct (hostile_run _ _ _ _ s) as [s1' r1] eqn:H1. apply hostile_run_log in H1 as (answer & Hl & _).
  destruct (room_rustc s1) as [s2' r2] eqn:H2. apply (unlogged_log room_rustc) in H2.
  exists answer. destruct r1, r2; simplify_eq; congruence.
Qed.

Lemma hostile_probe_log git repo args (s : L) s' b :
  hostile_probe git repo args s = (s', Ok b) ->
  exists answer, s'.2 = s.2 ++ [CallGit (hostile_command (W:=L) git repo false args) answer]
  /\ (b = true -> exists o e, answer = Ok (Some 0, o, e)).
Proof.
  destruct s as [w t]. unfold hostile_probe, st_map_err, mbind, stateful_bind.
  cbn [git_output room_git logged_clean_room].
  destruct (git_output _ w) as [w' [[[code o] e]|err|]]; cbn [map_err]; intros [= <- <-].
  eexists. split; [done|]. intros ->%bool_decide_eq_true. by exists o, e.
Qed.

(** A run of [or_verdict]: the step succeeded and the rest ran, or it is the
    verdict. *)
Lemma or_verdict_Ok {A} (m : stateful L VerifierError A) verdict k s s' rec :
  or_verdict m verdict k s = (s', Ok rec) ->
  (exists s1 a, m s = (s1, Ok a) /\ k a s1 = (s', Ok rec))
  \/ exists e, m s = (s', Err e) /\ rec = verdict e.
Proof. unfold or_verdict. destruct (m s) as [s1 [a|e|]]; [eauto|intros [= <- <-]; eauto|done]. Qed.

Lemma reconstruct_log git scratch request (s s' : L) rec :
  reconstruct git scratch request s = (s', Ok rec) ->
  exists more, s'.2 = s.2 ++ more /\ Forall is_git_call more /\
  match rec with
  | Ready dir =>
      exists o1 e1 o2 e2 o3 e3 o4 e4,
        let clone := path_join scratch "clone" in
        let inside := hostile_command (W:=L) git (Some clone) false in
        dir = clone /\ shown o3 = vr_tree_sha request
        /\ more = [succeeded (hostile_command (W:=L) git None true
              ["clone"; "--no-checkout"; "--no-hardlinks"; vr_workspace_repo_path request; clone]) o1 e1;
            succeeded (inside ["checkout"; "--detach"; "--force"; vr_head_sha request]) o2 e2;
            succeeded (inside ["rev-parse"; "HEAD^{tree}"]) o3 e3;
            succeeded (inside ["merge-base"; "--is-ancestor"; vr_base_sha request; vr_head_sha request]) o4 e4]
  | Verdict outcome _ _ => outcome <> GatePass
  end.
Proof.
  unfold reconstruct. intros H.
  apply or_verdict_Ok in H as [(s1 & x1 & H1 & H)|(err & H1 & ->)];
    apply hostile_run_log in H1 as (a1 & L1 & A1);
    [|eexists; split; [exact L1|]; split; [by repeat constructor|done]].
  apply or_verdict_Ok in H as [(s2 & x2 & H2 & H)|(err & H2 & ->)];
    apply hostile_run_log in H2 as (a2 & L2 & A2); rewrite L1, <-app_assoc in L2;
    [|eexists; split; [exact L2|]; split; [by repeat constructor|done]].
  apply or_verdict_Ok in H as [(s3 & x3 & H3 & H)|(err & H3 & ->)];
    apply hostile_run_log in H3 as (a3 & L3 & A3); rewrite L2, <-app_assoc in L3;
    [|eexists; split; [exact L3|]; split; [by repeat constructor|done]].
  case_bool_decide as Ht; cbn [negb] in H.
  2:{ apply st_ret_Ok in H as [-> <-]. eexists. split; [exact L3|]. by split; [repeat constructor|]. }
  apply st_bind_Ok in H as (s4 & b & H4 & H).
  apply hostile_probe_log in H4 as (a4 & L4 & A4). rewrite L3, <-app_assoc in L4.
  destruct b; cbn [negb] in H; apply st_ret_Ok in H as [-> <-]; (eexists; split; [exact L4|]).
  2:{ by split; [repeat constructor|]. }
  destruct (A1 _ eq_refl) as (o1 & e1 & -> & _), (A2 _ eq_refl) as (o2 & e2 & -> & _).
  destruct (A3 _ eq_refl) as (o3 & e3 & -> & ?), (A4 eq_refl) as (o4 & e4 & ->).
  split; [by repeat constructor|]. exists o1, e1, o2, e2, o3, e3, o4, e4. split; [done|]. split; [congruence|done].
Qed.

(** A gate run is green exactly when its process exits with 0. *)
Lemma run_gate_log dir gate (s s' : L) run :
  run_gate dir gate s = (s', Ok run) ->
  exists ended, s'.2 = s.2 ++ [CallGate (command_for dir gate) (GateDefinition_timeout_secs gate) ended]
  /\ (gu_outcome run = GatePass <-> exists status, ended = GateExited (Some 0) status).
Proof.
  destruct s as [w t]. unfold run_gate. simpl. destruct (room_gate _ _ w) as [w' ended]. intros [= <- <-].
  exists ended. split; [done|]. destruct ended as [| | |[code|] status]; simpl; try naive_solver.
  case_bool_decide; naive_solver.
Qed.

(** C7: Green evidence is about the exact candidate. Whatever git and the
    gate answer, the evidence that the verifier returns names the requested
    subject, gate and author at tier E2 with the catalogue's command, it is
    never produced for the author, and it is a PASS exactly when the run made
    the calls of [green_calls] and no others: no other order, no repeated
    read and no other tree gives a PASS. *)
Theorem green_evidence_exact request overlap (w : W) w' t e :
  execute (W:=L) request overlap (w, []) = ((w', t), Ok e) ->
  overlap = false /\ request_validate request = Ok tt
  /\ ve_subject e = MkCandidateSubject (vr_base_sha request) (vr_head_sha request) (vr_tree_sha request)
  /\ ve_tier e = TierE2 /\ ve_gate_id e = vr_gate_id request
  /\ ve_author_attempt_id e = vr_author_attempt_id request
  /\ (GateDefinition_argv <$> gate_definition (vr_gate_id request)) = Some (ve_argv e)
  /\ (ve_outcome e = GatePass <-> green_calls request t).
Proof.
  unfold execute. intros H.
  apply st_bind_Ok in H as (s1 & u1 & H1 & H). apply st_pure_Ok in H1 as [-> ->%refuse_if_Ok].
  apply st_bind_Ok in H as (s2 & [] & H2 & H). apply st_pure_Ok in H2 as [-> Hvalid].
  apply st_bind_Ok in H as (s3 & definition & H3 & H). apply st_pure_Ok in H3 as [-> Hdef%ok_or_Ok].
  apply st_bind_Ok in H as (s4 & started & L4%now_step_log & H).
  apply st_bind_Ok in H as (s5 & scratch & L5%st_map_err_Ok%unlogged_log & H).
  apply st_bind_Ok in H as (s6 & git & L6%hostile_new_log & H).
  apply st_bind_Ok in H as (s7 & env & (version & L7)%environment_log & H).
  apply st_bind_Ok in H as (s8 & rec & (more & L8 & Hgit & Hrec)%reconstruct_log & H).
  apply st_bind_Ok in H as (s9 & run & Hrun & H).
  apply st_bind_Ok in H as (s10 & finished & L10%now_step_log & H). apply st_ret_Ok in H as [<- <-].
  simpl in L4, L10. rewrite L7, L6, L5, L4 in L8. simpl in L8.
  do 6 (split; [done|]). split; [by rewrite Hdef|]. change (gu_outcome run = GatePass <-> green_calls request t).
  destruct rec as [dir|outcome reason detail].
  - destruct Hrec as (o1 & e1 & o2 & e2 & o3 & e3 & o4 & e4 & -> & Htree & ->).
    apply run_gate_log in Hrun as (ended & L9 & Hpass). rewrite L8 in L9. simpl in L9. rewrite Hpass.
    split.
    + intros [status ->]. exists git, scratch, version, definition, o1, e1, o2, e2, o3, e3, o4, e4, status.
      split; [done|]. split; [done|]. rewrite L10, L9. reflexivity.
    + intros (g & sc & v & d & ? & ? & ? & ? & ? & ? & ? & ? & status & _ & _ & Ht).
      exists status. rewrite L10, L9 in Ht. congruence.
  - apply st_ret_Ok in Hrun as [-> <-]. simpl. split; [done|].
    intros (g & sc & v & d & ? & ? & ? & ? & ? & ? & ? & ? & status & _ & _ & Ht).
    assert (Forall is_git_call t) as Hall by (rewrite L10, L8; by constructor).
    rewrite Ht, !Forall_cons in Hall. by destruct Hall as (_ & _ & _ & _ & _ & [] & _).
Qed.
End Exactness.

(** ** Custody *)

(** Invalidation keeps exactly the claims on the live subject: nothing else
    satisfies a requirement afterwards, whatever the writer recorded. *)
Lemma invalidated_requirement live required floor records :
  independent_requirement_satisfied required floor (invalidate_on_subject_change live records) = true
  <-> live = required /\ exists record, record ∈ records /\ cu_custody record = CustodyIndependent
      /\ tier_rank floor <= tier_rank (cu_tier record) /\ cu_subject record = live
      /\ cu_outcome record = GatePass.
Proof.
  unfold independent_requirement_satisfied, invalidate_on_subject_change.
  rewrite existsb_exists. setoid_rewrite <-list_elem_of_In. setoid_rewrite list_elem_of_fmap.
  setoid_rewrite andb_true_iff. setoid_rewrite andb_true_iff. setoid_rewrite andb_true_iff.
  setoid_rewrite bool_decide_eq_true. split.
  - intros (x & (r & -> & Hr) & ((Hc & Ht) & Hs) & Ho). case_bool_decide as Hl; [|by simpl in Ho].
    split; [congruence|]. exists r. destruct (cu_outcome r) eqn:Hout; try done.
  - intros (-> & r & Hr & Hc & Ht & Hs & Ho). exists r. rewrite Ho. split; [|done].
    exists r. by rewrite bool_decide_true.
Qed.

(** An aggregated gate is green only when its run was, ran a test, and was
    judged by an unchanged oracle. *)
Lemma aggregated_green reason_hint run class :
  aggregated_outcome reason_hint run class = GatePass <->
  gu_outcome run = GatePass /\ gu_reason run <> Some REASON_ZERO_TESTS
  /\ reason_hint <> REASON_ZERO_TESTS /\ class = OracleIndependent.
Proof.
  unfold aggregated_outcome. destruct class; repeat (case_bool_decide; simpl); naive_solver.
Qed.
