(* ===== verification/VerifierChain.v ===== *)
(** * Signed verification chains

    Models crates/verifier/src/signed_chain.rs with signed_chain/records.rs,
    crypto.rs and validation.rs: the kernel signs an intent for an exact
    request, the verifier runs it and signs its evidence and a proof bundle,
    and a chain of the three is admitted by whoever expects the two keys. *)

From S2P Require Import Prelude External Ids Gates BudgetPolicy Framing Merkle Text HarnessErrors.
From S2P Require Import Canonical LaunchGrants LocalForge Verifier.
From stdpp Require Import options.

Local Open Scope Z_scope.

(** crates/verifier/src/signed_chain/records.rs:5-5 (INTENT_SCHEMA) *)
Definition INTENT_SCHEMA : string := "bullet.verification-intent.v1".
(** crates/verifier/src/signed_chain/records.rs:6-6 (EVIDENCE_SCHEMA) *)
Definition EVIDENCE_SCHEMA : string := "bullet.evidence.v1".
(** crates/verifier/src/signed_chain/records.rs:7-7 (PROOF_SCHEMA) *)
Definition PROOF_SCHEMA : string := "bullet.proof-bundle.v1".
(** crates/verifier/src/signed_chain/records.rs:8-8 (CHAIN_SCHEMA) *)
Definition CHAIN_SCHEMA : string := "bullet.verification-chain.v1".
Definition COMPONENT_CLASS : string := "COMPONENT_PROOF".
Definition FIXTURE_TRUST : string := "FIXTURE_KEY_ONLY".
Definition INTENT_ENVELOPE_SCHEMA : string := "bullet.signed-verification-intent.v1".
Definition EVIDENCE_ENVELOPE_SCHEMA : string := "bullet.signed-evidence.v1".
Definition PROOF_ENVELOPE_SCHEMA : string := "bullet.signed-proof-bundle.v1".
Definition INTENT_PURPOSE : string := "verification-intent-signing".
Definition EVIDENCE_PURPOSE : string := "verification-evidence-signing".
Definition PROOF_PURPOSE : string := "verification-proof-bundle-signing".
Definition INTENT_ASSERTION : string := "bullet-farm.verification-intent.v1".
Definition EVIDENCE_ASSERTION : string := "bullet-farm.evidence.v1".
Definition PROOF_ASSERTION : string := "bullet-farm.proof-bundle.v1".
(** crates/verifier/src/signed_chain/validation.rs:14-14 (MAX_INTENT_TTL_MS) *)
Definition MAX_INTENT_TTL_MS : Z := 60000.

(** ** Records *)

(** crates/verifier/src/signed_chain/records.rs:12-34 (VerificationIntentInputV1) *)
Record VerificationIntentInput : Type := MkIntentInput {
  in_candidate_id : CandidateId;
  in_request : VerifierRequest;
  in_verifier_service_id : string;
  in_verifier_key_id : string;
  in_intent_nonce : string;
  in_policy_digest : string;
  in_gate_spec_digest : string;
  in_issued_at_unix_ms : Z;
  in_expires_at_unix_ms : Z
}.

(** crates/verifier/src/signed_chain/records.rs:36-56 (VerificationIntentV1) *)
Record VerificationIntent : Type := MkVerificationIntent {
  vi_schema_version : string;
  vi_evidence_class : string;
  vi_signing_trust : string;
  vi_independent_evidence_eligible : bool;
  vi_transaction_gate_eligible : bool;
  vi_intent_id : string;
  vi_candidate_id : CandidateId;
  vi_request : VerifierRequest;
  vi_request_digest : string;
  vi_verifier_service_id : string;
  vi_verifier_key_id : string;
  vi_intent_nonce : string;
  vi_policy_digest : string;
  vi_gate_spec_digest : string;
  vi_issued_at_unix_ms : Z;
  vi_expires_at_unix_ms : Z
}.
Global Instance VerificationIntent_eq_dec : EqDecision VerificationIntent.
Proof. solve_decision. Defined.

(** crates/verifier/src/signed_chain/records.rs:58-76 (EvidenceV1) *)
Record EvidenceV1 : Type := MkEvidenceV1 {
  ev_schema_version : string;
  ev_evidence_class : string;
  ev_signing_trust : string;
  ev_independent_evidence_eligible : bool;
  ev_transaction_gate_eligible : bool;
  ev_evidence_id : EvidenceId;
  ev_intent_id : string;
  ev_intent_envelope_digest : string;
  ev_candidate_id : CandidateId;
  ev_request_digest : string;
  ev_gate_spec_digest : string;
  ev_verifier_service_id : string;
  ev_verifier_key_id : string;
  ev_record : VerifierEvidence
}.
Global Instance EvidenceV1_eq_dec : EqDecision EvidenceV1.
Proof. solve_decision. Defined.

(** crates/verifier/src/signed_chain/records.rs:78-99 (ProofBundleV1) *)
Record ProofBundleV1 : Type := MkProofBundle {
  pb_schema_version : string;
  pb_evidence_class : string;
  pb_signing_trust : string;
  pb_independent_evidence_eligible : bool;
  pb_transaction_gate_eligible : bool;
  pb_proof_bundle_id : string;
  pb_proof_root : string;
  pb_intent_id : string;
  pb_intent_envelope_digest : string;
  pb_evidence_id : EvidenceId;
  pb_evidence_envelope_digest : string;
  pb_candidate_id : CandidateId;
  pb_request_digest : string;
  pb_gate_spec_digest : string;
  pb_verifier_service_id : string;
  pb_verifier_key_id : string;
  pb_outcome : GateOutcome
}.
Global Instance ProofBundleV1_eq_dec : EqDecision ProofBundleV1.
Proof. solve_decision. Defined.

(** crates/verifier/src/signed_chain/records.rs:101-110 (SignedRecordV1) *)
Record SignedRecord (T : Type) : Type := MkSignedRecord {
  sr_schema_version : string;
  sr_issuer : string;
  sr_key_id : string;
  sr_paseto : string;
  sr_record : T
}.
Arguments MkSignedRecord {T}. Arguments sr_schema_version {T}. Arguments sr_issuer {T}.
Arguments sr_key_id {T}. Arguments sr_paseto {T}. Arguments sr_record {T}.

(** crates/verifier/src/signed_chain/records.rs:116-124 (SignedVerificationChainV1) *)
Record SignedVerificationChain : Type := MkVerificationChain {
  vc_schema_version : string;
  vc_intent : SignedRecord VerificationIntent;
  vc_evidence : SignedRecord EvidenceV1;
  vc_proof_bundle : SignedRecord ProofBundleV1
}.

(** crates/verifier/src/signed_chain.rs:34-54 (SignedChainError) *)
Inductive SignedChainError : Type :=
| ScInvalidRecord (reason : string)
| ScSignatureInvalid
| ScSigningKeyMismatch
| ScIntentTimeInvalid
| ScSubjectMismatch
| ScOutcomeNotAdmissible
| ScExecution (reason_code message : string).

(** crates/verifier/src/signed_chain.rs:57-69 (SignedChainError::reason_code) *)
Definition SignedChainError_reason_code (e : SignedChainError) : string :=
  match e with
  | ScInvalidRecord _ => "SIGNED_VERIFICATION_RECORD_INVALID"
  | ScSignatureInvalid => "SIGNED_VERIFICATION_SIGNATURE_INVALID"
  | ScSigningKeyMismatch => "SIGNED_VERIFICATION_KEY_MISMATCH"
  | ScIntentTimeInvalid => "VERIFICATION_INTENT_TIME_INVALID"
  | ScSubjectMismatch => "VERIFICATION_SUBJECT_MISMATCH"
  | ScOutcomeNotAdmissible => "VERIFICATION_OUTCOME_NOT_ADMISSIBLE"
  | ScExecution code _ => code
  end.

(** The two halves of a role key, for types of secrets and public halves. *)
(** crates/verifier/src/signed_chain/crypto.rs:18-23 (RoleSigningKey) *)
Record RoleSigningKeyOf (Secret Public : Type) : Type := MkRoleSigningKey {
  rk_issuer : string;
  rk_key_id : string;
  rk_secret : Secret;
  rk_public : Public
}.
Arguments MkRoleSigningKey {Secret Public}. Arguments rk_issuer {Secret Public}.
Arguments rk_key_id {Secret Public}. Arguments rk_secret {Secret Public}. Arguments rk_public {Secret Public}.

(** crates/verifier/src/signed_chain/crypto.rs:60-66 (RoleVerificationKey) *)
Record RoleVerificationKeyOf (Public : Type) : Type := MkRoleVerificationKey {
  rv_issuer : string;
  rv_key_id : string;
  rv_public : Public;
  rv_public_hex : string
}.
Arguments MkRoleVerificationKey {Public}. Arguments rv_issuer {Public}.
Arguments rv_key_id {Public}. Arguments rv_public {Public}. Arguments rv_public_hex {Public}.

(** crates/verifier/src/signed_chain/crypto.rs:95-102 (Footer) *)
Record ChainFooter : Type := MkChainFooter {
  cf_schema_version : string;
  cf_purpose : string;
  cf_issuer : string;
  cf_key_id : string
}.

(** The external code a chain rests on: tokens, and the canonical texts of
    what is signed or hashed. *)
Class ChainExt := {
  cx_paseto :: Paseto;
  cx_utf8 :: Utf8Error;
  cx_request :: Canon VerifierRequest;
  cx_input :: Canon VerificationIntentInput;
  cx_intent :: Canon VerificationIntent;
  cx_evidence :: Canon EvidenceV1;
  cx_proof :: Canon ProofBundleV1;
  cx_footer :: Canon ChainFooter;
  cx_signed_intent :: Canon (SignedRecord VerificationIntent);
  cx_signed_evidence :: Canon (SignedRecord EvidenceV1);
  cx_evidence_subject :: Canon (string * VerifierEvidence);
  cx_proof_subject :: Canon (string * string);
  cx_text :: Canon string;
  cx_chain :: Canon SignedVerificationChain
}.

Abbreviation RoleSigningKey := (RoleSigningKeyOf SecretKey PublicKey).
Abbreviation RoleVerificationKey := (RoleVerificationKeyOf PublicKey).

(** crates/verifier/src/signed_chain.rs:72-74 (invalid) *)
Definition chain_invalid {A} (reason : string) : result SignedChainError A := Err (ScInvalidRecord reason).

(** `.map_err(|error| invalid(error.to_string()))`. *)
Definition or_invalid {A} (r : result HarnessError A) : result SignedChainError A :=
  map_err (fun e => ScInvalidRecord (HarnessError_display e)) r.

Section Chain.
Context `{Blake3} `{Hex} `{ChainExt}.

(** ** Keys and signatures *)

(** [AsymmetricKeyPair::generate] draws a pair from the operating system; the
    drawn secret is an argument. *)
(** crates/verifier/src/signed_chain/crypto.rs:35-48 (RoleSigningKey::generate) *)
Definition role_generate (entropy : option SecretKey) (issuer key_id : string)
  : result SignedChainError RoleSigningKey :=
  _ ← or_invalid (validate_label "issuer" issuer);
  _ ← or_invalid (validate_label "key_id" key_id);
  secret ← ok_or entropy (ScInvalidRecord "operating-system entropy unavailable");
  public ← ok_or (public_of_secret secret) (ScInvalidRecord "signing key has no public half");
  mret (MkRoleSigningKey issuer key_id secret public).

(** crates/verifier/src/signed_chain/crypto.rs:50-57 (RoleSigningKey::verification_key) *)
Definition role_verification_key (k : RoleSigningKey) : RoleVerificationKey :=
  MkRoleVerificationKey (rk_issuer k) (rk_key_id k) (rk_public k)
    (hex_encode (public_as_bytes (rk_public k))).

(** crates/verifier/src/signed_chain/crypto.rs:69-92 (RoleVerificationKey::from_public_hex) *)
Definition role_from_public_hex (issuer key_id public_hex : string)
  : result SignedChainError RoleVerificationKey :=
  _ ← or_invalid (validate_label "issuer" issuer);
  _ ← or_invalid (validate_label "key_id" key_id);
  _ ← refuse_if (negb (is_hex_64 public_hex))
        (ScInvalidRecord "verification public key must be 64 lowercase hex");
  b ← map_err (fun _ => ScInvalidRecord "invalid public-key hex") (hex_decode public_hex);
  public ← ok_or (public_from b) (ScInvalidRecord "invalid PASETO v4.public verification key");
  mret (MkRoleVerificationKey issuer key_id public public_hex).

(** crates/verifier/src/signed_chain/crypto.rs:104-136 (sign_record) *)
Definition sign_record {T} `{Canon T} (key : RoleSigningKey) (record : T)
  (envelope_schema purpose assertion : string) : result SignedChainError (SignedRecord T) :=
  payload ← or_invalid (canonical_json record);
  footer ← or_invalid (canonical_json (MkChainFooter envelope_schema purpose (rk_issuer key) (rk_key_id key)));
  paseto ← ok_or (token_sign (rk_secret key) payload footer assertion)
             (ScInvalidRecord "PASETO v4.public signing failed");
  mret (MkSignedRecord envelope_schema (rk_issuer key) (rk_key_id key) paseto record).

(** crates/verifier/src/signed_chain/crypto.rs:138-176 (verify_record) *)
Definition verify_record {T} `{Canon T} `{EqDecision T} (signed : SignedRecord T) (key : RoleVerificationKey)
  (envelope_schema purpose assertion : string) : result SignedChainError T :=
  _ ← refuse_if (negb (bool_decide (sr_schema_version signed = envelope_schema))
                 || negb (bool_decide (sr_issuer signed = rv_issuer key))
                 || negb (bool_decide (sr_key_id signed = rv_key_id key))) ScSigningKeyMismatch;
  footer ← or_invalid (canonical_json (MkChainFooter envelope_schema purpose (rv_issuer key) (rv_key_id key)));
  token ← ok_or (token_from (sr_paseto signed)) ScSignatureInvalid;
  payload ← ok_or (token_verify (rv_public key) token footer assertion) ScSignatureInvalid;
  record ← map_err (fun _ => ScSignatureInvalid) (decode_canonical (A:=T) payload);
  _ ← refuse_if (negb (bool_decide (record = sr_record signed))) ScSignatureInvalid;
  mret record.

(** ** Validation *)

(** crates/verifier/src/signed_chain/validation.rs:204-208 (typed_hex) *)
Definition typed_hex (value prefix : string) : bool := prefixed_hex (prefix +:+ "_") value.

(** crates/verifier/src/signed_chain/validation.rs:210-218 (digest) *)
Definition chain_digest {T} `{Canon T} (domain prefix : string) (value : T) : result SignedChainError string :=
  d ← or_invalid (hash_canonical domain value);
  mret (prefix +:+ "_" +:+ d).

(** crates/verifier/src/signed_chain/validation.rs:16-36 (validate_input) *)
Definition validate_input (input : VerificationIntentInput) : result SignedChainError unit :=
  _ ← map_err (fun e => ScInvalidRecord (VerifierError_display e)) (request_validate (in_request input));
  _ ← or_invalid (validate_label "verifier_service_id" (in_verifier_service_id input));
  _ ← or_invalid (validate_label "verifier_key_id" (in_verifier_key_id input));
  refuse_if (negb (typed_hex (in_intent_nonce input) "non")
             || negb (is_hex_64 (in_policy_digest input))
             || negb (is_hex_64 (in_gate_spec_digest input))
             || bool_decide (MAX_SAFE_INTEGER < in_issued_at_unix_ms input)
             || bool_decide (MAX_SAFE_INTEGER < in_expires_at_unix_ms input)
             || bool_decide (in_expires_at_unix_ms input <= in_issued_at_unix_ms input)
             || bool_decide (MAX_INTENT_TTL_MS < in_expires_at_unix_ms input - in_issued_at_unix_ms input))
    (ScInvalidRecord "intent nonce, digest, or time window is invalid").

(** crates/verifier/src/signed_chain/validation.rs:185-202 (require_markers) *)
Definition require_markers (schema class trust : string) (independent transaction : bool)
  (expected_schema : string) : result SignedChainError unit :=
  refuse_if (negb (bool_decide (schema = expected_schema)) || negb (bool_decide (class = COMPONENT_CLASS))
             || negb (bool_decide (trust = FIXTURE_TRUST)) || independent || transaction)
    (ScInvalidRecord "component eligibility markers cannot be promoted").

(** The input an intent was issued for. *)
Definition intent_input (i : VerificationIntent) : VerificationIntentInput :=
  MkIntentInput (vi_candidate_id i) (vi_request i) (vi_verifier_service_id i) (vi_verifier_key_id i)
    (vi_intent_nonce i) (vi_policy_digest i) (vi_gate_spec_digest i) (vi_issued_at_unix_ms i)
    (vi_expires_at_unix_ms i).

(** crates/verifier/src/signed_chain/validation.rs:38-77 (validate_intent) *)
Definition validate_intent (intent : VerificationIntent) (expected : option (CandidateId * VerifierRequest))
  (now : Z) : result SignedChainError unit :=
  _ ← require_markers (vi_schema_version intent) (vi_evidence_class intent) (vi_signing_trust intent)
        (vi_independent_evidence_eligible intent) (vi_transaction_gate_eligible intent) INTENT_SCHEMA;
  let input := intent_input intent in
  _ ← validate_input input;
  request_digest ← chain_digest "verification.request.v1" "req" (vi_request intent);
  _ ← refuse_if (negb (bool_decide (vi_request_digest intent = request_digest)))
        (ScInvalidRecord "intent derived digest mismatch");
  intent_id ← chain_digest "verification.intent.id.v1" "vfi" input;
  _ ← refuse_if (negb (bool_decide (vi_intent_id intent = intent_id)))
        (ScInvalidRecord "intent derived digest mismatch");
  _ ← refuse_if (bool_decide (now < vi_issued_at_unix_ms intent)
                 || bool_decide (vi_expires_at_unix_ms intent <= now)) ScIntentTimeInvalid;
  refuse_if (match expected with
             | Some (candidate, request) =>
                 negb (bool_decide (candidate = vi_candidate_id intent))
                 || negb (bool_decide (request = vi_request intent))
             | None => false
             end) ScSubjectMismatch.

(** crates/verifier/src/signed_chain/validation.rs:153-183 (validate_verifier_record) *)
Definition validate_verifier_record (intent : VerificationIntent) (record : VerifierEvidence)
  : result SignedChainError unit :=
  let request := vi_request intent in
  let expected_subject := MkCandidateSubject (vr_base_sha request) (vr_head_sha request) (vr_tree_sha request) in
  definition ← ok_or (gate_definition (vr_gate_id request))
    (ScInvalidRecord "intent gate is not in the immutable catalog");
  _ ← refuse_if (negb (bool_decide (ve_subject record = expected_subject))
                 || negb (bool_decide (ve_gate_id record = vr_gate_id request))
                 || negb (bool_decide (ve_author_attempt_id record = vr_author_attempt_id request))
                 || negb (bool_decide (ve_produced_by record = vi_verifier_service_id intent))) ScSubjectMismatch;
  _ ← refuse_if (negb (bool_decide (ve_tier record = TierE2))
                 || negb (bool_decide (ve_argv record = GateDefinition_argv definition))
                 || negb (bool_decide (ve_timeout_secs record = GateDefinition_timeout_secs definition)))
        ScOutcomeNotAdmissible;
  refuse_if (bool_decide (ve_outcome record = GatePass)
             && (bool_decide (is_Some (ve_reason record))
                 || negb (bool_decide (ve_exit_code record = Some 0)))) ScOutcomeNotAdmissible.

(** crates/verifier/src/signed_chain/validation.rs:79-111 (validate_evidence) *)
Definition validate_evidence (intent : VerificationIntent) (signed_intent : SignedRecord VerificationIntent)
  (evidence : EvidenceV1) : result SignedChainError unit :=
  _ ← require_markers (ev_schema_version evidence) (ev_evidence_class evidence) (ev_signing_trust evidence)
        (ev_independent_evidence_eligible evidence) (ev_transaction_gate_eligible evidence) EVIDENCE_SCHEMA;
  _ ← validate_verifier_record intent (ev_record evidence);
  expected_intent_digest ← chain_digest "verification.intent.envelope.v1" "vin" signed_intent;
  expected_id ← chain_digest "verification.evidence.id.v1" "evd" (expected_intent_digest, ev_record evidence);
  refuse_if (negb (bool_decide (ev_intent_id evidence = vi_intent_id intent)
             && bool_decide (ev_intent_envelope_digest evidence = expected_intent_digest)
             && bool_decide (id_as_str (ev_evidence_id evidence) = expected_id)
             && bool_decide (ev_candidate_id evidence = vi_candidate_id intent)
             && bool_decide (ev_request_digest evidence = vi_request_digest intent)
             && bool_decide (ev_gate_spec_digest evidence = vi_gate_spec_digest intent)
             && bool_decide (ev_verifier_service_id evidence = vi_verifier_service_id intent)
             && bool_decide (ev_verifier_key_id evidence = vi_verifier_key_id intent))) ScSubjectMismatch.

(** crates/verifier/src/signed_chain/validation.rs:113-151 (validate_proof) *)
Definition validate_proof (intent : VerificationIntent) (signed_intent : SignedRecord VerificationIntent)
  (signed_evidence : SignedRecord EvidenceV1) (proof : ProofBundleV1) : result SignedChainError unit :=
  _ ← require_markers (pb_schema_version proof) (pb_evidence_class proof) (pb_signing_trust proof)
        (pb_independent_evidence_eligible proof) (pb_transaction_gate_eligible proof) PROOF_SCHEMA;
  intent_digest ← chain_digest "verification.intent.envelope.v1" "vin" signed_intent;
  evidence_digest ← chain_digest "verification.evidence.envelope.v1" "ven" signed_evidence;
  proof_root ← chain_digest "verification.proof.root.v1" "prf" (vi_request_digest intent, evidence_digest);
  proof_id ← chain_digest "verification.proof.id.v1" "prb" proof_root;
  let evidence := sr_record signed_evidence in
  refuse_if (negb (bool_decide (pb_proof_bundle_id proof = proof_id)
             && bool_decide (pb_proof_root proof = proof_root)
             && bool_decide (pb_intent_id proof = vi_intent_id intent)
             && bool_decide (pb_intent_envelope_digest proof = intent_digest)
             && bool_decide (pb_evidence_id proof = ev_evidence_id evidence)
             && bool_decide (pb_evidence_envelope_digest proof = evidence_digest)
             && bool_decide (pb_candidate_id proof = vi_candidate_id intent)
             && bool_decide (pb_request_digest proof = vi_request_digest intent)
             && bool_decide (pb_gate_spec_digest proof = vi_gate_spec_digest intent)
             && bool_decide (pb_verifier_service_id proof = vi_verifier_service_id intent)
             && bool_decide (pb_verifier_key_id proof = vi_verifier_key_id intent)
             && bool_decide (pb_outcome proof = ve_outcome (ev_record evidence)))) ScSubjectMismatch.

(** ** Issue, execute, admit *)

(** crates/verifier/src/signed_chain.rs:140-174 (VerificationIntentSigningKey::issue) *)
Definition issue_intent (key : RoleSigningKey) (input : VerificationIntentInput)
  : result SignedChainError (SignedRecord VerificationIntent) :=
  _ ← validate_input input;
  request_digest ← chain_digest "verification.request.v1" "req" (in_request input);
  intent_id ← chain_digest "verification.intent.id.v1" "vfi" input;
  let record := MkVerificationIntent INTENT_SCHEMA COMPONENT_CLASS FIXTURE_TRUST false false intent_id
    (in_candidate_id input) (in_request input) request_digest (in_verifier_service_id input)
    (in_verifier_key_id input) (in_intent_nonce input) (in_policy_digest input)
    (in_gate_spec_digest input) (in_issued_at_unix_ms input) (in_expires_at_unix_ms input) in
  _ ← validate_intent record None (vi_issued_at_unix_ms record);
  sign_record key record INTENT_ENVELOPE_SCHEMA INTENT_PURPOSE INTENT_ASSERTION.

(** crates/verifier/src/signed_chain.rs:257-271 (authenticate_intent) *)
Definition authenticate_intent (signed : SignedRecord VerificationIntent) (key : RoleVerificationKey) (now : Z)
  : result SignedChainError VerificationIntent :=
  intent ← verify_record signed key INTENT_ENVELOPE_SCHEMA INTENT_PURPOSE INTENT_ASSERTION;
  _ ← validate_intent intent None now;
  mret intent.

(** crates/verifier/src/signed_chain.rs:309-336 (evidence_from) *)
Definition evidence_from (intent : VerificationIntent) (intent_envelope_digest : string)
  (record : VerifierEvidence) : result SignedChainError EvidenceV1 :=
  id ← chain_digest "verification.evidence.id.v1" "evd" (intent_envelope_digest, record);
  evidence_id ← map_err (fun e => ScInvalidRecord (DomainError_display e)) (id_parse (p:="evd") id);
  mret (MkEvidenceV1 EVIDENCE_SCHEMA COMPONENT_CLASS FIXTURE_TRUST false false evidence_id
    (vi_intent_id intent) intent_envelope_digest (vi_candidate_id intent) (vi_request_digest intent)
    (vi_gate_spec_digest intent) (vi_verifier_service_id intent) (vi_verifier_key_id intent) record).

(** crates/verifier/src/signed_chain.rs:338-368 (proof_from) *)
Definition proof_from (intent : VerificationIntent) (evidence : SignedRecord EvidenceV1)
  : result SignedChainError ProofBundleV1 :=
  evidence_envelope_digest ← chain_digest "verification.evidence.envelope.v1" "ven" evidence;
  proof_root ← chain_digest "verification.proof.root.v1" "prf"
                 (vi_request_digest intent, evidence_envelope_digest);
  proof_bundle_id ← chain_digest "verification.proof.id.v1" "prb" proof_root;
  mret (MkProofBundle PROOF_SCHEMA COMPONENT_CLASS FIXTURE_TRUST false false proof_bundle_id proof_root
    (vi_intent_id intent) (ev_intent_envelope_digest (sr_record evidence))
    (ev_evidence_id (sr_record evidence)) evidence_envelope_digest (vi_candidate_id intent)
    (vi_request_digest intent) (vi_gate_spec_digest intent) (vi_verifier_service_id intent)
    (vi_verifier_key_id intent) (ve_outcome (ev_record (sr_record evidence)))).

(** crates/verifier/src/signed_chain.rs:273-307 (verify_chain) *)
Definition verify_verification_chain (chain : SignedVerificationChain) (intent_key verifier_key : RoleVerificationKey)
  (expected_candidate : CandidateId) (expected_request : VerifierRequest) (now : Z)
  : result SignedChainError unit :=
  _ ← refuse_if (negb (bool_decide (vc_schema_version chain = CHAIN_SCHEMA)))
        (ScInvalidRecord "verification chain schema mismatch");
  intent ← authenticate_intent (vc_intent chain) intent_key now;
  _ ← validate_intent intent (Some (expected_candidate, expected_request)) now;
  _ ← refuse_if (negb (bool_decide (vi_verifier_service_id intent = rv_issuer verifier_key))
                 || negb (bool_decide (vi_verifier_key_id intent = rv_key_id verifier_key)))
        ScSigningKeyMismatch;
  evidence ← verify_record (vc_evidence chain) verifier_key EVIDENCE_ENVELOPE_SCHEMA EVIDENCE_PURPOSE
               EVIDENCE_ASSERTION;
  _ ← validate_evidence intent (vc_intent chain) evidence;
  proof ← verify_record (vc_proof_bundle chain) verifier_key PROOF_ENVELOPE_SCHEMA PROOF_PURPOSE
            PROOF_ASSERTION;
  validate_proof intent (vc_intent chain) (vc_evidence chain) proof.

(** crates/verifier/src/signed_chain.rs:235-255 (decode_and_verify_fixture_chain) *)
Definition decode_and_verify_fixture_chain (b : bytes) (intent_key verifier_key : RoleVerificationKey)
  (expected_candidate : CandidateId) (expected_request : VerifierRequest) (now_unix_ms : Z)
  : result SignedChainError SignedVerificationChain :=
  chain ← or_invalid (decode_canonical b);
  _ ← verify_verification_chain chain intent_key verifier_key expected_candidate expected_request now_unix_ms;
  mret chain.

(** crates/verifier/src/signed_chain.rs:370-375 (canonical_chain_bytes) *)
Definition canonical_chain_bytes (chain : SignedVerificationChain) : result SignedChainError bytes :=
  or_invalid (canonical_json chain).

(** The checks before the verifier works, and what it does with the result. *)
Definition chain_of (key : RoleSigningKey) (signed_intent : SignedRecord VerificationIntent)
  (intent : VerificationIntent) (record : VerifierEvidence) : result SignedChainError SignedVerificationChain :=
  _ ← validate_verifier_record intent record;
  intent_envelope_digest ← chain_digest "verification.intent.envelope.v1" "vin" signed_intent;
  evidence ← evidence_from intent intent_envelope_digest record;
  signed_evidence ← sign_record key evidence EVIDENCE_ENVELOPE_SCHEMA EVIDENCE_PURPOSE EVIDENCE_ASSERTION;
  proof ← proof_from intent signed_evidence;
  signed_proof ← sign_record key proof PROOF_ENVELOPE_SCHEMA PROOF_PURPOSE PROOF_ASSERTION;
  mret (MkVerificationChain CHAIN_SCHEMA signed_intent signed_evidence signed_proof).

(** crates/verifier/src/signed_chain.rs:189-232 (FixtureVerifierSigningKey::execute_chain) *)
Definition execute_chain {W} `{!CleanRoom W} (key : RoleSigningKey)
  (signed_intent : SignedRecord VerificationIntent) (intent_key : RoleVerificationKey) (now_unix_ms : Z)
  (author_overlap : bool) : stateful W SignedChainError SignedVerificationChain :=
  intent ← pure_step (authenticate_intent signed_intent intent_key now_unix_ms);
  _ ← pure_step (refuse_if (negb (bool_decide (vi_verifier_service_id intent = rk_issuer key))
                            || negb (bool_decide (vi_verifier_key_id intent = rk_key_id key)))
                   ScSigningKeyMismatch);
  record ← st_map_err (fun e => ScExecution (VerifierError_reason_code e) (VerifierError_display e))
             (execute (vi_request intent) author_overlap);
  pure_step (chain_of key signed_intent intent record).
End Chain.

(** ** What an admitted chain says *)

Section Accepted.
Context `{Blake3} `{Hex} `{ChainExt}.

(** The token of a record verifies under a key, for one purpose, to the
    canonical text of the record. *)
Definition signed_by {T} `{Canon T} (key : RoleVerificationKey) (schema purpose assertion : string)
  (signed : SignedRecord T) : Prop :=
  sr_issuer signed = rv_issuer key /\ sr_key_id signed = rv_key_id key /\ sr_schema_version signed = schema
  /\ exists footer token payload,
     to_jcs (MkChainFooter schema purpose (rv_issuer key) (rv_key_id key)) = Ok footer
     /\ token_from (sr_paseto signed) = Some token
     /\ token_verify (rv_public key) token footer assertion = Some payload
     /\ to_jcs (sr_record signed) = Ok payload.

Lemma or_invalid_Ok {A} (r : result HarnessError A) a : or_invalid r = Ok a <-> r = Ok a.
Proof. apply map_err_Ok. Qed.

Lemma canonical_json_Ok {T} `{Canon T} (x : T) b : canonical_json x = Ok b <-> to_jcs x = Ok b.
Proof. apply map_err_Ok. Qed.

Lemma verify_record_Ok {T} `{Canon T} `{EqDecision T} (signed : SignedRecord T) key schema purpose assertion r :
  verify_record signed key schema purpose assertion = Ok r ->
  r = sr_record signed /\ signed_by key schema purpose assertion signed.
Proof.
  unfold verify_record. intros Hv. inv_result.
  repeat match goal with
         | Hc : or_invalid _ = Ok _ |- _ => apply or_invalid_Ok, canonical_json_Ok in Hc
         | Hc : decode_canonical _ = Ok _ |- _ => apply decode_canonical_Ok in Hc as [_ Hc]
         end.
  split; [done|]. split; [done|]. split; [done|]. split; [done|]. do 3 eexists. by split_and!.
Qed.

Lemma require_markers_Ok schema class trust independent transaction expected u :
  require_markers schema class trust independent transaction expected = Ok u ->
  schema = expected /\ class = COMPONENT_CLASS /\ trust = FIXTURE_TRUST
  /\ independent = false /\ transaction = false.
Proof.
  unfold require_markers. intros Hr. inv_result. done.
Qed.

(** What holds of an intent at an instant. *)
Definition intent_live (i : VerificationIntent) (now : Z) : Prop :=
  vi_issued_at_unix_ms i <= now < vi_expires_at_unix_ms i
  /\ vi_expires_at_unix_ms i - vi_issued_at_unix_ms i <= MAX_INTENT_TTL_MS
  /\ request_validate (vi_request i) = Ok tt
  /\ chain_digest "verification.request.v1" "req" (vi_request i) = Ok (vi_request_digest i)
  /\ chain_digest "verification.intent.id.v1" "vfi" (intent_input i) = Ok (vi_intent_id i).

Lemma validate_intent_Ok i expected now u :
  validate_intent i expected now = Ok u ->
  intent_live i now /\ vi_independent_evidence_eligible i = false /\ vi_transaction_gate_eligible i = false
  /\ forall c r, expected = Some (c, r) -> vi_candidate_id i = c /\ vi_request i = r.
Proof.
  unfold validate_intent, validate_input. intros Hv.
  apply bind_Ok in Hv as (u1 & (_ & _ & _ & ? & ?)%require_markers_Ok & Hv). cbv zeta in Hv. inv_result.
  split; [|by split_and!; [done..|intros c r ->; inv_result]].
  unfold intent_live. simpl in *. split_and!; try done; try lia. by destruct x5.
Qed.

(** What an admitted record says of the request it was made for. *)
Definition record_for (request : VerifierRequest) (service : string) (r : VerifierEvidence) : Prop :=
  ve_subject r = MkCandidateSubject (vr_base_sha request) (vr_head_sha request) (vr_tree_sha request)
  /\ ve_gate_id r = vr_gate_id request /\ ve_author_attempt_id r = vr_author_attempt_id request
  /\ ve_produced_by r = service /\ ve_tier r = TierE2
  /\ (fun d => (GateDefinition_argv d, GateDefinition_timeout_secs d)) <$> gate_definition (vr_gate_id request)
     = Some (ve_argv r, ve_timeout_secs r)
  /\ (ve_outcome r = GatePass -> ve_reason r = None /\ ve_exit_code r = Some 0).

Lemma validate_verifier_record_Ok i r u :
  validate_verifier_record i r = Ok u <-> u = tt /\ record_for (vi_request i) (vi_verifier_service_id i) r.
Proof.
  unfold validate_verifier_record, record_for. destruct u.
  destruct (gate_definition _) as [d|]; [|by naive_solver]. simpl. split.
  - intros Hv. apply bind_Ok in Hv as (u1 & E1%refuse_if_Ok & Hv).
    apply bind_Ok in Hv as (u2 & E2%refuse_if_Ok & E3%refuse_if_Ok).
    rewrite !orb_false_iff, !negb_false_iff, !bool_decide_eq_true in E1.
    rewrite !orb_false_iff, !negb_false_iff, !bool_decide_eq_true in E2.
    destruct_and?. split_and!; try done; try congruence.
    intros Ho. rewrite (bool_decide_true _ Ho) in E3. simpl in E3.
    apply orb_false_iff in E3 as [E3%bool_decide_eq_false E4%negb_false_iff%bool_decide_eq_true].
    split; [|done]. by apply eq_None_not_Some.
  - intros (_ & -> & -> & -> & -> & -> & Hd & Hp). injection Hd as -> ->.
    repeat match goal with
           | |- context [bool_decide (?x = ?x)] => rewrite (bool_decide_true (x = x)) by done
           end.
    simpl. case_bool_decide as Ho; [|done]. destruct (Hp Ho) as [-> ->].
    rewrite bool_decide_false by by intros [? ?]. done.
Qed.

(** The links of a chain, envelope by envelope. *)
Record chain_links (chain : SignedVerificationChain) : Prop := {
  cl_service : ev_verifier_service_id (sr_record (vc_evidence chain))
               = vi_verifier_service_id (sr_record (vc_intent chain));
  cl_evidence_candidate : ev_candidate_id (sr_record (vc_evidence chain))
                          = vi_candidate_id (sr_record (vc_intent chain));
  cl_intent : chain_digest "verification.intent.envelope.v1" "vin" (vc_intent chain)
              = Ok (ev_intent_envelope_digest (sr_record (vc_evidence chain)));
  cl_evidence_id : chain_digest "verification.evidence.id.v1" "evd"
      (ev_intent_envelope_digest (sr_record (vc_evidence chain)), ev_record (sr_record (vc_evidence chain)))
      = Ok (id_as_str (ev_evidence_id (sr_record (vc_evidence chain))));
  cl_evidence : chain_digest "verification.evidence.envelope.v1" "ven" (vc_evidence chain)
                = Ok (pb_evidence_envelope_digest (sr_record (vc_proof_bundle chain)));
  cl_root : chain_digest "verification.proof.root.v1" "prf"
      (vi_request_digest (sr_record (vc_intent chain)),
       pb_evidence_envelope_digest (sr_record (vc_proof_bundle chain)))
      = Ok (pb_proof_root (sr_record (vc_proof_bundle chain)));
  cl_proof_id : pb_evidence_id (sr_record (vc_proof_bundle chain)) = ev_evidence_id (sr_record (vc_evidence chain));
  cl_proof_candidate : pb_candidate_id (sr_record (vc_proof_bundle chain))
                       = vi_candidate_id (sr_record (vc_intent chain));
  cl_outcome : pb_outcome (sr_record (vc_proof_bundle chain)) = ve_outcome (ev_record (sr_record (vc_evidence chain)))
}.

(** None of the three records claims to be more than a component proof. *)
Definition not_eligible (chain : SignedVerificationChain) : Prop :=
  vi_independent_evidence_eligible (sr_record (vc_intent chain)) = false
  /\ vi_transaction_gate_eligible (sr_record (vc_intent chain)) = false
  /\ ev_independent_evidence_eligible (sr_record (vc_evidence chain)) = false
  /\ ev_transaction_gate_eligible (sr_record (vc_evidence chain)) = false
  /\ pb_independent_evidence_eligible (sr_record (vc_proof_bundle chain)) = false
  /\ pb_transaction_gate_eligible (sr_record (vc_proof_bundle chain)) = false.

Lemma verify_chain_Ok chain ik vk candidate request now u :
  verify_verification_chain chain ik vk candidate request now = Ok u ->
  signed_by ik INTENT_ENVELOPE_SCHEMA INTENT_PURPOSE INTENT_ASSERTION (vc_intent chain)
  /\ signed_by vk EVIDENCE_ENVELOPE_SCHEMA EVIDENCE_PURPOSE EVIDENCE_ASSERTION (vc_evidence chain)
  /\ signed_by vk PROOF_ENVELOPE_SCHEMA PROOF_PURPOSE PROOF_ASSERTION (vc_proof_bundle chain)
  /\ intent_live (sr_record (vc_intent chain)) now
  /\ vi_candidate_id (sr_record (vc_intent chain)) = candidate /\ vi_request (sr_record (vc_intent chain)) = request
  /\ vi_verifier_service_id (sr_record (vc_intent chain)) = rv_issuer vk
  /\ vi_verifier_key_id (sr_record (vc_intent chain)) = rv_key_id vk
  /\ record_for request (rv_issuer vk) (ev_record (sr_record (vc_evidence chain)))
  /\ chain_links chain /\ not_eligible chain.
Proof.
  unfold verify_verification_chain, authenticate_intent. intros Hv.
  apply bind_Ok in Hv as (u1 & _ & Hv). apply bind_Ok in Hv as (i & Hi & Hv).
  apply bind_Ok in Hi as (i' & [-> Hik]%verify_record_Ok & Hi). apply bind_Ok in Hi as (u0 & _ & Hi).
  injection Hi as <-. apply bind_Ok in Hv as (u2 & (Hlive & ? & ? & Hexp)%validate_intent_Ok & Hv).
  destruct (Hexp _ _ eq_refl) as [Hc Hr]. apply bind_Ok in Hv as (u3 & Hk & Hv).
  apply bind_Ok in Hv as (e & [-> Hek]%verify_record_Ok & Hv). apply bind_Ok in Hv as (u4 & He & Hv).
  apply bind_Ok in Hv as (p & [-> Hpk]%verify_record_Ok & Hp). unfold validate_evidence in He.
  apply bind_Ok in He as (u5 & (_ & _ & _ & ? & ?)%require_markers_Ok & He).
  apply bind_Ok in He as (u6 & [_ Hrec]%validate_verifier_record_Ok & He). inv_result.
  unfold validate_proof in Hp. apply bind_Ok in Hp as (u7 & (_ & _ & _ & ? & ?)%require_markers_Ok & Hp).
  inv_result. split_and!; try done. match goal with Hs : vi_verifier_service_id _ = rv_issuer _ |- _ => by rewrite <-Hs end.
Qed.

(** C8: An admitted chain is about the expected candidate and nothing else.
    If the bytes of a chain are accepted for a candidate, a request and an
    instant, they are the canonical text of the chain; its intent was signed
    by the intent key and its evidence and proof by the verifier key, each
    for its own purpose; the intent is for this candidate and this request and
    is live, for at most a minute; the evidence is of the requested subject,
    gate, author and command, and green only if the gate exited with 0 for no
    other reason; the proof has the outcome and identity of this evidence; and
    no record claims independence. *)
Theorem admitted_chain_binds_request b ik vk candidate request now chain :
  decode_and_verify_fixture_chain b ik vk candidate request now = Ok chain ->
  to_jcs chain = Ok b
  /\ signed_by ik INTENT_ENVELOPE_SCHEMA INTENT_PURPOSE INTENT_ASSERTION (vc_intent chain)
  /\ signed_by vk EVIDENCE_ENVELOPE_SCHEMA EVIDENCE_PURPOSE EVIDENCE_ASSERTION (vc_evidence chain)
  /\ signed_by vk PROOF_ENVELOPE_SCHEMA PROOF_PURPOSE PROOF_ASSERTION (vc_proof_bundle chain)
  /\ intent_live (sr_record (vc_intent chain)) now
  /\ vi_candidate_id (sr_record (vc_intent chain)) = candidate /\ vi_request (sr_record (vc_intent chain)) = request
  /\ record_for request (rv_issuer vk) (ev_record (sr_record (vc_evidence chain)))
  /\ ev_candidate_id (sr_record (vc_evidence chain)) = candidate
  /\ pb_candidate_id (sr_record (vc_proof_bundle chain)) = candidate
  /\ pb_evidence_id (sr_record (vc_proof_bundle chain)) = ev_evidence_id (sr_record (vc_evidence chain))
  /\ pb_outcome (sr_record (vc_proof_bundle chain)) = ve_outcome (ev_record (sr_record (vc_evidence chain)))
  /\ not_eligible chain.
Proof.
  unfold decode_and_verify_fixture_chain. intros Hd.
  apply bind_Ok in Hd as (c & [_ Hj]%or_invalid_Ok%decode_canonical_Ok & Hd).
  apply bind_Ok in Hd as (u & Hv & Hd). injection Hd as ->.
  apply verify_chain_Ok in Hv as (? & ? & ? & ? & Hc & ? & _ & _ & ? & [] & ?).
  split_and!; try done; congruence.
Qed.
End Accepted.

(** ** What a proof root commits to *)

(** Two values have one canonical text only if they are equal. *)
Class CanonInj (T : Type) `{Canon T} : Prop :=
  to_jcs_inj (x y : T) t : to_jcs x = Ok t -> to_jcs y = Ok t -> x = y.

Section Commitment.
Context `{Blake3} `{HexLaws} `{ChainExt}.

(** The bytes that [chain_digest] hashes. *)
Definition chain_preimage {T} `{Canon T} (domain : string) (x : T) : bytes :=
  FRAMED_DOMAIN_PREFIX +:+ frame domain
  +:+ frame (match to_jcs x with Ok text => text | _ => EmptyString end).

Lemma chain_digest_inj {T} `{Canon T} `{!CanonInj T} domain prefix (x y : T) t :
  chain_digest domain prefix x = Ok t -> chain_digest domain prefix y = Ok t ->
  x = y \/ collides [(chain_preimage domain x, chain_preimage domain y)].
Proof using All.
  unfold chain_digest, hash_canonical, hash_framed_bytes, chain_preimage. intros Hx Hy.
  apply bind_Ok in Hx as (dx & Hx%or_invalid_Ok & Hdx). apply bind_Ok in Hy as (dy & Hy%or_invalid_Ok & Hdy).
  injection Hdx as <-. injection Hdy as Heq. apply (inj (String.append _)) in Heq.
  apply (inj (String.append "_")) in Heq as ->.
  apply bind_Ok in Hx as (? & _ & Hx), Hy as (? & _ & Hy).
  apply bind_Ok in Hx as (tx & Htx%canonical_json_Ok & Hx), Hy as (ty & Hty%canonical_json_Ok & Hy).
  apply bind_Ok in Hx as (? & _ & Hx), Hy as (? & _ & Hy). injection Hx as <-. injection Hy as Heq.
  symmetry in Heq. rewrite Htx, Hty. apply to_hex_inj, Digest_of_inj in Heq as [Heq|Hc]; [left|by right].
  do 2 apply (inj (String.append _)) in Heq. unfold frame in Heq.
  apply string_app_inj_len in Heq as [_ ->]; [by eapply to_jcs_inj|].
  unfold u64_to_le_bytes. by rewrite !le_bytes_length.
Qed.

(** What the checks of two chains hash on the way from the proof root to the
    request: the roots, the signed evidence and the signed intents. *)
Definition chain_pairs (c1 c2 : SignedVerificationChain) : list (bytes * bytes) :=
  let root c := (vi_request_digest (sr_record (vc_intent c)),
                 pb_evidence_envelope_digest (sr_record (vc_proof_bundle c))) in
  let beside {T} `{Canon T} domain (f : SignedVerificationChain -> T) :=
    (chain_preimage domain (f c1), chain_preimage domain (f c2)) in
  [beside "verification.proof.root.v1" root;
   beside "verification.evidence.envelope.v1" vc_evidence;
   beside "verification.intent.envelope.v1" vc_intent].

(** C10: A proof root commits the whole verification. If two chains are
    admitted, for whatever keys, candidates, requests and instants, and their
    proof bundles have the same proof root, then they are for the same
    candidate and request, and they hold the same signed intent and the same
    signed evidence, field by field. The only exception is a BLAKE3 collision
    within these two checks: the preimages of the two proof roots, of the two
    evidence digests or of the two intent digests ([chain_pairs], computed from
    the chains) differ and have one digest. The canonical encoding of the
    crates is taken to be injective on the three encoded types. *)
Theorem proof_root_commits_chain `{!CanonInj (SignedRecord VerificationIntent)}
  `{!CanonInj (SignedRecord EvidenceV1)} `{!CanonInj (string * string)%type}
  c1 c2 ik1 ik2 vk1 vk2 candidate1 candidate2 request1 request2 now1 now2 :
  verify_verification_chain c1 ik1 vk1 candidate1 request1 now1 = Ok tt ->
  verify_verification_chain c2 ik2 vk2 candidate2 request2 now2 = Ok tt ->
  pb_proof_root (sr_record (vc_proof_bundle c1)) = pb_proof_root (sr_record (vc_proof_bundle c2)) ->
  (candidate1 = candidate2 /\ request1 = request2 /\ vc_intent c1 = vc_intent c2 /\ vc_evidence c1 = vc_evidence c2)
  \/ collides (chain_pairs c1 c2).
Proof using All.
  intros Hv1 Hv2 Hroot.
  apply verify_chain_Ok in Hv1 as (_ & _ & _ & (_ & _ & _ & Hq1 & _) & <- & <- & _ & _ & _ & L1 & _).
  apply verify_chain_Ok in Hv2 as (_ & _ & _ & (_ & _ & _ & Hq2 & _) & <- & <- & _ & _ & _ & L2 & _).
  pose proof (cl_root _ L1) as Hr1. rewrite Hroot in Hr1.
  destruct (chain_digest_inj _ _ _ _ _ Hr1 (cl_root _ L2)) as [Heq|Hc];
    [|right; exact (collides_app_l [_] _ Hc)].
  injection Heq as Hreq Hev.
  pose proof (cl_evidence _ L1) as He1. rewrite Hev in He1.
  destruct (chain_digest_inj _ _ _ _ _ He1 (cl_evidence _ L2)) as [Hse|Hc];
    [|right; exact (collides_app_r [_] _ (collides_app_l [_] _ Hc))].
  pose proof (cl_intent _ L1) as Hi1. rewrite Hse in Hi1.
  destruct (chain_digest_inj _ _ _ _ _ Hi1 (cl_intent _ L2)) as [Hsi|Hc];
    [|right; exact (collides_app_r [_; _] _ Hc)].
  left. by rewrite Hsi.
Qed.
End Commitment.

(** ** What the verifier signs is admitted *)

Section Roundtrip.
Context `{Blake3} `{HexLaws} `{ChainExt} `{!PasetoLaws}.
Context `{!CanonLaws EvidenceV1} `{!CanonLaws ProofBundleV1} `{!CanonLaws SignedVerificationChain}.

(** The canonical text of a value is within the limit of the decoder. *)
Definition encodes_small {T} `{Canon T} (x : T) : Prop :=
  forall t, to_jcs x = Ok t -> str_len t <= MAX_CANONICAL_BYTES.

Lemma role_generate_Ok entropy issuer key_id k :
  role_generate entropy issuer key_id = Ok k -> public_of_secret (rk_secret k) = Some (rk_public k).
Proof. unfold role_generate. intros Hg. by inv_result. Qed.

Lemma sign_verify {T} `{Canon T} `{!CanonLaws T} `{EqDecision T} k (r : T) schema purpose assertion signed :
  public_of_secret (rk_secret k) = Some (rk_public k) -> encodes_small r ->
  sign_record k r schema purpose assertion = Ok signed ->
  sr_record signed = r /\ verify_record signed (role_verification_key k) schema purpose assertion = Ok r.
Proof using All.
  intros Hk Hs Hsign. unfold sign_record in Hsign.
  apply bind_Ok in Hsign as (payload & Hp%or_invalid_Ok%canonical_json_Ok & Hsign).
  apply bind_Ok in Hsign as (footer & Hf & Hsign). apply bind_Ok in Hsign as (token & Ht%ok_or_Ok & Hsign).
  injection Hsign as <-. split; [done|]. unfold verify_record, role_verification_key. simpl.
  rewrite !bool_decide_true by done. simpl. rewrite Hf. simpl.
  destruct (sign_verifies _ _ _ _ _ _ Hk Ht) as (u & -> & Hu). simpl. rewrite Hu. simpl.
  rewrite (decode_encoded _ _ Hp (Hs _ Hp)). simpl. by rewrite bool_decide_true.
Qed.

Lemma validate_intent_retime i candidate request now now' :
  validate_intent i None now = Ok tt -> vi_issued_at_unix_ms i <= now' < vi_expires_at_unix_ms i ->
  vi_candidate_id i = candidate -> vi_request i = request ->
  validate_intent i (Some (candidate, request)) now' = Ok tt /\ validate_intent i None now' = Ok tt.
Proof.
  unfold validate_intent. intros Hv Hw <- <-. apply bind_Ok in Hv as (u1 & -> & Hv). simpl in *.
  apply bind_Ok in Hv as (u2 & -> & Hv). apply bind_Ok in Hv as (d & -> & Hv). simpl in *.
  apply bind_Ok in Hv as (u3 & -> & Hv). apply bind_Ok in Hv as (d' & -> & Hv). simpl in *.
  apply bind_Ok in Hv as (u4 & -> & Hv). simpl.
  rewrite !(bool_decide_false (_ < _)), !(bool_decide_false (_ <= _)) by lia. simpl.
  by rewrite !bool_decide_true.
Qed.

(** The records that the verifier derives pass its reader's checks. *)
Lemma evidence_from_valid i signed digest record e :
  chain_digest "verification.intent.envelope.v1" "vin" signed = Ok digest ->
  validate_verifier_record i record = Ok tt -> evidence_from i digest record = Ok e ->
  validate_evidence i signed e = Ok tt /\ ev_intent_envelope_digest e = digest.
Proof.
  intros Hd Hr He. unfold evidence_from in He. apply bind_Ok in He as (id & Hid & He).
  apply bind_Ok in He as (eid & [Heid _]%map_err_Ok%id_parse_Ok & He). injection He as <-.
  split; [|done]. unfold validate_evidence, require_markers. simpl.
  rewrite Hr. simpl. rewrite Hd. simpl. rewrite Hid. simpl. by rewrite !bool_decide_true.
Qed.

Lemma proof_from_valid i signed signed_evidence p :
  chain_digest "verification.intent.envelope.v1" "vin" signed
    = Ok (ev_intent_envelope_digest (sr_record signed_evidence)) ->
  proof_from i signed_evidence = Ok p -> validate_proof i signed signed_evidence p = Ok tt.
Proof.
  intros Hd Hp. unfold proof_from in Hp. apply bind_Ok in Hp as (ed & Hed & Hp).
  apply bind_Ok in Hp as (root & Hroot & Hp). apply bind_Ok in Hp as (id & Hid & Hp). injection Hp as <-.
  unfold validate_proof, require_markers. simpl. rewrite Hd. simpl. rewrite Hed. simpl. rewrite Hroot. simpl.
  rewrite Hid. simpl. by rewrite !bool_decide_true.
Qed.

(** C9: What the verifier signs is admitted. Take an intent that was issued
    for an input and run by the verifier that it names, whatever git and the
    gate answered, so that a signed chain came out, green or not. Then the
    canonical bytes of this chain are admitted by everyone who expects the two
    keys, the candidate and the request, at every instant of the intent's
    window, and give back the same chain; provided that the evidence, the
    proof and the chain are within the 64 KiB of a canonical document. *)
Theorem executed_chain_admitted {W} `{!CleanRoom W} entropy issuer key_id ikey vkey input signed
  now overlap (w w' : W) chain b now' :
  role_generate entropy issuer key_id = Ok vkey ->
  issue_intent ikey input = Ok signed ->
  execute_chain vkey signed (role_verification_key ikey) now overlap w = (w', Ok chain) ->
  canonical_chain_bytes chain = Ok b -> encodes_small chain ->
  encodes_small (sr_record (vc_evidence chain)) -> encodes_small (sr_record (vc_proof_bundle chain)) ->
  in_issued_at_unix_ms input <= now' < in_expires_at_unix_ms input ->
  decode_and_verify_fixture_chain b (role_verification_key ikey) (role_verification_key vkey)
    (in_candidate_id input) (in_request input) now' = Ok chain.
Proof using All.
  intros Hvk%role_generate_Ok Hissue Hrun Hb%or_invalid_Ok%canonical_json_Ok Hsc Hse Hsp Hnow.
  unfold execute_chain, authenticate_intent in Hrun.
  apply st_bind_Ok in Hrun as (s1 & i & Hi & Hrun). apply st_pure_Ok in Hi as [-> Hi].
  apply bind_Ok in Hi as (i' & Hver & Hi). apply bind_Ok in Hi as ([] & Hval & Hi). injection Hi as ->.
  apply st_bind_Ok in Hrun as (s2 & u & Hkey & Hrun). apply st_pure_Ok in Hkey as [-> Hkey].
  apply st_bind_Ok in Hrun as (s3 & record & _ & Hrun). apply st_pure_Ok in Hrun as [-> Hrun].
  pose proof Hver as [-> _]%verify_record_Ok.
  assert (intent_input (sr_record signed) = input) as Hinput.
  { unfold issue_intent in Hissue. do 4 (apply bind_Ok in Hissue as (? & _ & Hissue)).
    unfold sign_record in Hissue. do 3 (apply bind_Ok in Hissue as (? & _ & Hissue)).
    injection Hissue as <-. by destruct input. }
  rewrite <- Hinput in *. simpl in *.
  destruct (validate_intent_retime _ _ _ _ now' Hval Hnow eq_refl eq_refl) as [Hsome Hnone].
  unfold chain_of in Hrun. apply bind_Ok in Hrun as ([] & Hrec & Hrun).
  apply bind_Ok in Hrun as (digest & Hd & Hrun). apply bind_Ok in Hrun as (e & He & Hrun).
  apply bind_Ok in Hrun as (se & Hes & Hrun). apply bind_Ok in Hrun as (p & Hp & Hrun).
  apply bind_Ok in Hrun as (sp & Hps & Hrun). injection Hrun as <-. simpl in *.
  assert (sr_record se = e /\ sr_record sp = p) as [Hre Hrp].
  { unfold sign_record in Hes, Hps. by inv_result. }
  rewrite Hre in Hse. rewrite Hrp in Hsp.
  destruct (sign_verify _ _ _ _ _ _ Hvk Hse Hes) as [_ Hev].
  destruct (sign_verify _ _ _ _ _ _ Hvk Hsp Hps) as [_ Hpv].
  destruct (evidence_from_valid _ _ _ _ _ Hd Hrec He) as [Hve Hed].
  assert (validate_proof (sr_record signed) signed se p = Ok tt) as Hvp.
  { apply proof_from_valid; [|done]. by rewrite Hre, Hed. }
  unfold decode_and_verify_fixture_chain. rewrite (decode_encoded _ _ Hb (Hsc _ Hb)). simpl.
  unfold verify_verification_chain, authenticate_intent. simpl. rewrite Hver. simpl. rewrite Hnone. simpl.
  rewrite Hsome. simpl. apply refuse_if_Ok in Hkey. rewrite Hkey. simpl. rewrite Hev. simpl. rewrite Hve. simpl.
  rewrite Hpv. simpl. by rewrite Hvp.
Qed.
End Roundtrip.
