(* ===== verification/ToyLedger.v ===== *)
(** * A concrete environment for the ledger

    Instances of the interfaces of the ledger that satisfy their laws, and a
    small scenario; the examples of the ledger's properties run in it. They
    stand for no code of the repository. *)

From S2P Require Import Prelude External Ids States Entities Framing Toy Records Text Store.
From S2P Require Import Submissions Commands NonceLedger RunCoding Effects GraphDelta Authority.
From S2P Require Import Context Memory MemoryLeases MemoryCommands MemoryEffects MemoryGraphs.
From S2P Require Import LedgerFrame LedgerInv LedgerSafety LedgerWrites LedgerLeases LedgerExpiry.
From S2P Require Import LedgerBlocked LedgerQuota.
From stdpp Require Import options.

Local Open Scope Z_scope.

(** ** A clock that writes instants as sixteen decimal digits *)

Definition digit_char (d : Z) : Ascii.ascii := byte_of (48 + d).

(** The [n] decimal digits of [z], most significant first. *)
Fixpoint be_digits (n : nat) (z : Z) : string :=
  match n with
  | O => EmptyString
  | S n => String (digit_char (z / 10 ^ Z.of_nat n)) (be_digits n (z mod 10 ^ Z.of_nat n))
  end.

Fixpoint read_digits (s : string) (acc : Z) : Z :=
  match s with
  | EmptyString => acc
  | String a rest => read_digits rest (acc * 10 + (byte_val a - 48))
  end.

Definition toy_epoch : Z := 62167219200000.

Definition toy_write (m : Z) : string := be_digits 16 (m + toy_epoch).

Definition toy_chrono : Chrono := {|
  format_millis m := if decide (four_digit_years m) then Some (toy_write m)
                     else None;
  parse_rfc3339 s := if decide (String.length s = 16%nat)
                     then Some ((read_digits s 0 - toy_epoch) * 1000000) else None
|}.

Lemma digit_char_val d : 0 <= d < 10 -> byte_val (digit_char d) = 48 + d.
Proof.
  intros Hd. unfold digit_char, byte_of, byte_val. rewrite Ascii.N_ascii_embedding; lia.
Qed.

Lemma be_digits_length n z : String.length (be_digits n z) = n.
Proof. revert z. induction n as [|n IH]; intros z; simpl; [done|]. by rewrite IH. Qed.

Lemma digit_range n z : 0 <= z < 10 ^ Z.of_nat (S n) -> 0 <= z / 10 ^ Z.of_nat n < 10.
Proof.
  rewrite Nat2Z.inj_succ, Z.pow_succ_r by lia. intros Hz.
  pose proof (Z.pow_pos_nonneg 10 (Z.of_nat n)).
  split; [apply Z.div_pos; lia|apply Z.div_lt_upper_bound; lia].
Qed.

Lemma read_be_digits n z acc :
  0 <= z < 10 ^ Z.of_nat n -> read_digits (be_digits n z) acc = acc * 10 ^ Z.of_nat n + z.
Proof.
  revert z acc. induction n as [|n IH]; intros z acc Hz; cbn [be_digits read_digits].
  { change (10 ^ Z.of_nat 0) with 1 in *. lia. }
  pose proof (Z.pow_pos_nonneg 10 (Z.of_nat n)).
  rewrite digit_char_val by by apply digit_range.
  rewrite IH by (apply Z.mod_pos_bound; lia).
  rewrite Nat2Z.inj_succ, Z.pow_succ_r by lia.
  rewrite (Z.div_mod z (10 ^ Z.of_nat n)) at 3 by lia. lia.
Qed.

Lemma ascii_compare_val a b : Ascii.compare a b = Z.compare (byte_val a) (byte_val b).
Proof. unfold Ascii.compare, byte_val. by rewrite N2Z.inj_compare. Qed.

Lemma be_digits_compare n x y :
  0 <= x < 10 ^ Z.of_nat n -> 0 <= y < 10 ^ Z.of_nat n ->
  String.compare (be_digits n x) (be_digits n y) = Z.compare x y.
Proof.
  revert x y. induction n as [|n IH]; intros x y Hx Hy; cbn [be_digits String.compare].
  { change (10 ^ Z.of_nat 0) with 1 in *. symmetry. apply Z.compare_eq_iff. lia. }
  pose proof (Z.pow_pos_nonneg 10 (Z.of_nat n)).
  pose proof (digit_range n x Hx). pose proof (digit_range n y Hy).
  pose proof (Z.div_mod x (10 ^ Z.of_nat n)). pose proof (Z.div_mod y (10 ^ Z.of_nat n)).
  pose proof (Z.mod_pos_bound x (10 ^ Z.of_nat n)). pose proof (Z.mod_pos_bound y (10 ^ Z.of_nat n)).
  rewrite ascii_compare_val, !digit_char_val by done.
  destruct (Z.compare_spec (48 + x / 10 ^ Z.of_nat n) (48 + y / 10 ^ Z.of_nat n)) as [Heq|Hlt|Hlt].
  - rewrite IH by lia. assert (x / 10 ^ Z.of_nat n = y / 10 ^ Z.of_nat n) as Hd by lia.
    destruct (Z.compare_spec (x mod 10 ^ Z.of_nat n) (y mod 10 ^ Z.of_nat n));
      symmetry; [apply Z.compare_eq_iff|apply Z.compare_lt_iff|apply Z.compare_gt_iff]; nia.
  - symmetry. apply Z.compare_lt_iff. nia.
  - symmetry. apply Z.compare_gt_iff. nia.
Qed.

Lemma toy_chrono_laws : @ChronoLaws toy_chrono.
Proof.
  assert (Hrange : forall m, four_digit_years m -> 0 <= m + toy_epoch < 10 ^ Z.of_nat 16).
  { unfold four_digit_years, toy_epoch. simpl. lia. }
  split; cbn [format_millis parse_rfc3339 toy_chrono].
  - intros m s Hm. case_decide as Hy; [|done]. apply (inj Some) in Hm as <-.
    rewrite decide_True by apply (be_digits_length 16).
    unfold toy_write. rewrite read_be_digits by by apply Hrange. f_equal. lia.
  - intros m Hy. by rewrite decide_True.
  - intros m1 m2 s1 s2 Hy1 Hy2. rewrite !decide_True by done.
    intros <-%(inj Some) <-%(inj Some).
    unfold str_lt, String.ltb, toy_write. rewrite be_digits_compare by by apply Hrange.
    destruct (Z.compare_spec (m1 + toy_epoch) (m2 + toy_epoch)); split; try done; lia.
Qed.

(** ** A scenario: one graph, one grant *)

(** A parser that admits every non-empty text. *)
Definition toy_value : JsonValue := {|
  Value := unit;
  value_from_str s := if is_empty s then Err "empty" else Ok tt;
  value_get _ _ := None
|}.

(** A codec without values. *)
Definition no_json {A} : Json A := {|
  to_json _ := Err "unsupported";
  of_json _ := Err "unsupported"
|}.

Lemma no_json_laws {A} : @JsonLaws A no_json.
Proof. intros a b Hx. done. Qed.

(** A codec whose output is never read back. *)
Definition write_json {A} (write : A -> string) : Json A := {|
  to_json a := Ok (write a);
  of_json _ := Err "unsupported"
|}.

Global Instance CodingProvider_eq_dec : EqDecision CodingProvider.
Proof. solve_decision. Defined.
Global Instance RunCodingPayload_eq_dec : EqDecision RunCodingPayload.
Proof. solve_decision. Defined.

Definition toy_coding : RunCodingPayload :=
  MkRunCodingPayload "acct" Claude "model" None 1 (sample_hex "a")
    ("rsv_" +:+ sample_hex "b") 5 ("run_" +:+ sample_hex "c").

Definition toy_command : CommandExt := {|
  cx_blake3 := fixed_blake3;
  cx_hex := toy_hex;
  cx_value := toy_value;
  cx_run_coding := one_value_json toy_coding "{coding}";
  cx_task := no_json;
  cx_message := no_json;
  cx_request := write_json (fun r => "{" +:+ CommandRequest_idempotency_key r +:+ "}");
  cx_resolution := write_json (fun r => rb_code r)
|}.

Definition toy_request : LeaseRequest :=
  MkLeaseRequest "lease:1" (MkId "m") (MkId "v") "seed" (MkId "runner") 1 (MkId "ws")
    zero_array32 1 1 10.

Definition toy_attempt : Attempt :=
  MkAttempt (@id_from_seed fixed_blake3 toy_hex "atm" "seed") (MkId "v") (MkId "w") 1
    (MkId "runner") 1 (MkId "ws") zero_array32 1 1 AtStarting.

Definition toy_lease : ActiveLease :=
  MkActiveLease (MkId "v") (Attempt_id toy_attempt) 1 (MkId "runner") 1 zero_array32
    (toy_write 0) (toy_write 10000) 10.

Definition toy_grant : LeaseGrant := MkLeaseGrant toy_attempt toy_lease.

Global Instance LeasePayload_eq_dec : EqDecision LeasePayload.
Proof. solve_decision. Defined.

Definition toy_ext : LedgerExt := {|
  lx_command := toy_command;
  lx_chrono := toy_chrono;
  lx_content := write_json (fun c => ic_package_title c);
  lx_lease_payload := one_value_json (lease_payload toy_request) "{payload}";
  lx_grant := one_value_json toy_grant "{grant}";
  lx_expired := write_json (fun e => id_as_str (ExpiredLease_attempt_id e));
  lx_effect := write_json (fun p => ep_logical_effect_key p)
|}.

Definition toy_run := @run_ops toy_ext no_json no_json no_json no_json.

(** The graph of [GraphDelta], materialised and leased. *)
Definition toy_ops : list ledger_op :=
  [OpMaterializeGraph (sample_graph WpReady 0) (toy_write 0); OpAcquireLease toy_request].

Definition toy_ledger (ops : list ledger_op) : MemoryLedger :=
  default MemoryLedger_new (toy_run MemoryLedger_new ops).

Definition toy_reachable := @reachable toy_ext no_json no_json no_json no_json.

Example toy_scenario :
  ml_attempts (toy_ledger toy_ops) !! id_as_str (Attempt_id toy_attempt) = Some toy_attempt /\
  ml_leases (toy_ledger toy_ops) !! "v" = Some toy_lease /\
  ml_fences (toy_ledger toy_ops) !! "v" = Some 1.
Proof. vm_compute. done. Qed.

(** Whether a run ends without a panic. *)
Definition completes (r : option MemoryLedger) : bool :=
  match r with Some _ => true | None => false end.

Lemma toy_ledger_steps ops more :
  completes (toy_run (toy_ledger ops) more) = true ->
  rtc (@ledger_step toy_ext no_json no_json no_json no_json) (toy_ledger ops)
    (default MemoryLedger_new (toy_run (toy_ledger ops) more)).
Proof.
  destruct (toy_run (toy_ledger ops) more) as [l|] eqn:Hl; [|done]. intros _.
  exact (@run_ops_steps toy_ext no_json no_json no_json no_json _ _ _ Hl).
Qed.

Lemma toy_ledger_reachable ops :
  completes (toy_run MemoryLedger_new ops) = true -> toy_reachable (toy_ledger ops).
Proof.
  unfold toy_ledger. destruct (toy_run MemoryLedger_new ops) as [l|] eqn:Hl; [|done]. intros _.
  exact (@run_ops_steps toy_ext no_json no_json no_json no_json _ _ _ Hl).
Qed.

(** The granted attempt is the only writer of its variant. *)
Lemma single_writer_per_variant_witness :
  ml_fences (toy_ledger toy_ops) !! "v" = Some (Attempt_fence toy_attempt).
Proof.
  refine (proj1 (proj2 (@single_writer_per_variant toy_ext no_json no_json no_json no_json
    (toy_ledger toy_ops) (id_as_str (Attempt_id toy_attempt)) toy_attempt _ _ _))).
  - apply toy_ledger_reachable. vm_compute. reflexivity.
  - vm_compute. reflexivity.
  - reflexivity.
Defined.

(** The attempt is renewed, released as crashed and its package requeued: the
    counter and the identity stay. *)
Definition toy_more : list ledger_op :=
  [OpAdvanceTime 3;
   OpHeartbeat (MkHeartbeatRequest (MkId "v") (Attempt_id toy_attempt) 1 (MkId "runner") 1
                  zero_array32 10);
   OpReleaseLease (MkReleaseRequest (MkId "v") (Attempt_id toy_attempt) AtCrashed true)].

Lemma authority_only_moves_forward_witness :
  let l' := default MemoryLedger_new (toy_run (toy_ledger toy_ops) toy_more) in
  (exists f', ml_fences l' !! "v" = Some f' /\ 1 <= f') /\ ml_leases l' !! "v" = None.
Proof.
  intros l'. split; [|vm_compute; reflexivity].
  refine (proj1 (@authority_only_moves_forward toy_ext no_json no_json no_json no_json
    (toy_ledger toy_ops) l' _ _) "v" 1 _).
  - apply toy_ledger_reachable. vm_compute. reflexivity.
  - apply toy_ledger_steps. vm_compute. reflexivity.
  - vm_compute. reflexivity.
Defined.

(** ** Scenarios of the in-process ledger

    Concrete runs in the environment of [ToyLedger]: a refused renewal, an
    acquisition, an expiry sweep, a coding admission and a variant whose
    holder was ended by a direct write. *)

Definition toy_op := @run_op toy_ext no_json no_json no_json no_json.

(** A renewal with a stale fence is refused and writes nothing. *)
Definition stale_heartbeat : ledger_op :=
  OpHeartbeat (MkHeartbeatRequest (MkId "v") (Attempt_id toy_attempt) 7 (MkId "runner") 1
                 zero_array32 10).

Lemma operations_write_only_their_tables_witness :
  let s := toy_op stale_heartbeat (toy_ledger toy_ops) in
  is_err s.2 = true /\ changes [TFailpoint] (toy_ledger toy_ops) s.1.
Proof.
  intros s. assert (is_err s.2 = true) as He by (vm_compute; reflexivity). split; [done|].
  refine (proj2 (@operations_write_only_their_tables toy_ext no_json no_json no_json no_json
    stale_heartbeat (toy_ledger toy_ops) s.1 s.2 _ _) _ He).
  - unfold s, toy_op. by destruct (run_op _ _).
  - destruct s.2; done.
  - reflexivity.
Defined.

(** The first acquisition of the scenario. *)
Definition materialized : MemoryLedger :=
  toy_ledger [OpMaterializeGraph (sample_graph WpReady 0) (toy_write 0)].

Lemma acquire_hands_over_authority_witness :
  let s := @acquire_lease toy_ext toy_request materialized in
  s.2 = Ok toy_grant /\
  @check_active_lease toy_ext (ActiveLeaseSubject_from_attempt toy_attempt) s.1 = Ok tt.
Proof.
  intros s. assert (s.2 = Ok toy_grant) as Hs by (vm_compute; reflexivity). split; [done|].
  refine (proj2 (proj2 (proj2 (proj2 (proj2 (@acquire_hands_over_authority toy_ext no_json no_json
    no_json no_json toy_chrono_laws toy_request materialized s.1 toy_grant _ _ _ _))))
    (ActiveLeaseSubject_from_attempt toy_attempt) _) _).
  - apply toy_ledger_reachable. vm_compute. reflexivity.
  - vm_compute. discriminate.
  - vm_compute. reflexivity.
  - rewrite <- Hs. unfold s. by destruct (acquire_lease _ _).
  - vm_compute. reflexivity.
  - reflexivity.
Defined.

(** Fifteen seconds without a renewal. *)
Lemma silence_ends_authority_witness :
  let l1 := (@advance_simulation_time toy_ext 15 (toy_ledger toy_ops)).1 in
  let l2 := (@expire_leases toy_ext l1).1 in
  ml_leases (toy_ledger toy_ops) !! "v" = Some toy_lease /\ ml_leases l2 = ∅.
Proof.
  intros l1 l2. split; [vm_compute; reflexivity|].
  refine (proj1 (proj2 (@silence_ends_authority toy_ext no_json no_json no_json no_json
    toy_chrono_laws (toy_ledger toy_ops) l1 l2
    [MkExpiredLease (MkId "v") (Attempt_id toy_attempt) (MkId "w") 1] _ _ _ _))).
  - apply toy_ledger_reachable. vm_compute. reflexivity.
  - apply (bool_decide_eq_true_1 _). vm_compute. reflexivity.
  - vm_compute. reflexivity.
  - vm_compute. reflexivity.
Defined.

(** The holder is written down as crashed while its lease stays. *)
Definition ended_ops : list ledger_op :=
  toy_ops ++ [OpPutAttempt (set_Attempt_state toy_attempt AtCrashed)].

Definition later_ops : list ledger_op := [OpAdvanceTime 3600; OpExpireLeases].

Definition second_request : LeaseRequest :=
  MkLeaseRequest "lease:2" (MkId "m") (MkId "v") "seed2" (MkId "runner") 1 (MkId "ws")
    zero_array32 1 1 10.

Lemma ended_holder_blocks_variant_witness :
  let l' := default MemoryLedger_new (toy_run (toy_ledger ended_ops) later_ops) in
  is_ok (@acquire_lease toy_ext second_request l').2 = false.
Proof.
  intros l'.
  refine (proj2 (@ended_holder_blocks_variant toy_ext no_json no_json no_json no_json
    (toy_ledger ended_ops) l' "v" toy_lease (set_Attempt_state toy_attempt AtCrashed)
    second_request _ _ _ _ _ _ _)).
  - apply toy_ledger_reachable. vm_compute. reflexivity.
  - vm_compute. reflexivity.
  - vm_compute. reflexivity.
  - reflexivity.
  - apply toy_ledger_steps. vm_compute. reflexivity.
  - reflexivity.
  - vm_compute. reflexivity.
Defined.

(** One admitted coding request of five units. *)
Lemma toy_coding_typed : @RunCodingTyped (@cx_run_coding toy_command).
Proof.
  intros s p Hp. cbn in Hp. destruct (decide (s = "{coding}")) as [Heq|]; [|done].
  injection Hp as <-. vm_compute. split; discriminate.
Qed.

Definition coding_request : CommandRequest :=
  MkCommandRequest "coding:1" RUN_CODING_KIND "{coding}".

Lemma coding_quota_never_exceeded_witness :
  let l := toy_ledger [OpSubmitCommand coding_request] in
  sum_values (ml_budget_reservations l) = 5 /\
  sum_values (ml_budget_reservations l) <= MAX_CODING_QUOTA_UNITS.
Proof.
  intros l. split; [vm_compute; reflexivity|].
  refine (proj1 (proj2 (@coding_quota_never_exceeded toy_ext no_json no_json no_json no_json
    no_json toy_coding_typed l _))).
  apply toy_ledger_reachable. vm_compute. reflexivity.
Defined.
