(* ===== verification/ToyLaunch.v ===== *)
(** * A concrete environment for launch grants and permits

    Instances of the token and document interfaces that satisfy their laws,
    and a ledger with identifiers in wire form; the examples of the grant and
    permit properties run in it. They stand for no code of the repository. *)

From S2P Require Import Prelude External Ids States Entities Framing Toy Records Text Store.
From S2P Require Import HarnessErrors Canonical LaunchClaims Submissions Commands NonceLedger.
From S2P Require Import RunCoding Effects GraphDelta Authority LaunchGrants Context Memory.
From S2P Require Import MemoryLeases MemoryCommands MemoryEffects MemoryGraphs LaunchIssuer.
From S2P Require Import MutationPermits LedgerFrame LedgerInv LedgerSafety LedgerWrites.
From S2P Require Import LedgerLeases LedgerLaunch ToyLedger.
From stdpp Require Import options.

Local Open Scope Z_scope.

(** ** Tokens: a tag of the key, footer and assertion in front of the payload *)

Definition toy_tag (pk : array32) (footer assertion : bytes) : bytes :=
  array32_bytes pk +:+ frame footer +:+ frame assertion.

Definition toy_public (sk : bytes) : array32 := @blake3_hash fixed_blake3 sk.

Definition toy_token (sk payload footer assertion : bytes) : string :=
  TOKEN_PREFIX +:+ toy_encode (toy_tag (toy_public sk) footer assertion +:+ payload).

Definition toy_paseto : Paseto := {|
  SecretKey := bytes;
  PublicKey := array32;
  UntrustedToken := bytes;
  secret_from b := Some b;
  secret_as_bytes b := b;
  public_of_secret b := Some (toy_public b);
  public_from := to_array32;
  public_as_bytes := array32_bytes;
  token_sign sk payload footer assertion := Some (toy_token sk payload footer assertion);
  token_from token :=
    match strip_prefix TOKEN_PREFIX token with
    | Some body => match toy_decode body with Ok b => Some b | _ => None end
    | None => None
    end;
  token_verify pk u footer assertion := strip_prefix (toy_tag pk footer assertion) u
|}.

Lemma lower_hex_token_byte a : is_lower_hex a = true -> token_byte_ok a = true.
Proof.
  unfold is_lower_hex, token_byte_ok, is_ascii_alphanumeric, is_ascii_lowercase, is_ascii_digit.
  rewrite orb_true_iff, !bool_decide_eq_true. intros [Ha|Ha]; apply orb_true_iff; left.
  - rewrite (bool_decide_true (48 <= byte_val a <= 57)) by lia. by rewrite orb_true_r.
  - rewrite (bool_decide_true (97 <= byte_val a <= 122)) by lia. done.
Qed.

Lemma toy_token_framed sk payload footer assertion :
  starts_with TOKEN_PREFIX (toy_token sk payload footer assertion) = true /\
  string_all token_byte_ok (toy_token sk payload footer assertion) = true /\
  str_len payload <= str_len (toy_token sk payload footer assertion).
Proof.
  unfold toy_token. generalize (toy_tag (toy_public sk) footer assertion). intros tag.
  split; [|split].
  - apply starts_with_spec. by eexists.
  - rewrite string_all_app. apply andb_true_iff. split; [reflexivity|].
    eapply string_all_impl; [apply lower_hex_token_byte|].
    apply (@hex_encode_lower toy_hex toy_hex_laws).
  - unfold str_len. rewrite string_app_length.
    pose proof (@hex_encode_length toy_hex toy_hex_laws (tag +:+ payload)) as Hl. cbn [hex_encode toy_hex] in Hl.
    rewrite Hl, string_app_length. lia.
Qed.

Lemma toy_paseto_laws : @PasetoLaws toy_paseto.
Proof.
  split; cbn [SecretKey PublicKey UntrustedToken secret_from secret_as_bytes public_of_secret
              public_from public_as_bytes token_sign token_from token_verify toy_paseto].
  - intros sk pk payload footer assertion token <-%(inj Some) <-%(inj Some).
    unfold toy_token. rewrite strip_prefix_app.
    pose proof (@hex_decode_encode toy_hex toy_hex_laws) as Hd. cbn [hex_decode hex_encode toy_hex] in Hd.
    rewrite Hd. eexists. split; [done|]. apply strip_prefix_app.
  - intros sk payload footer assertion token <-%(inj Some). apply toy_token_framed.
  - intros pk. apply to_array32_bytes.
  - done.
Qed.

(** A canonical codec that knows one value, and one that is never read. *)
Definition one_value_canon {A} `{EqDecision A} (a : A) (text : string) : Canon A := {|
  to_jcs x := if decide (x = a) then Ok text else Err "unknown value";
  from_json_str s := if decide (s = text) then Ok a else Err "unknown text"
|}.

Lemma one_value_canon_laws {A} `{EqDecision A} (a : A) text :
  starts_with "{" text = true -> utf8_valid text = true ->
  @CanonLaws A (one_value_canon a text).
Proof.
  intros Ho Hu. split; intros x b Hx; cbn in *; (destruct (decide (x = a)) as [->|]; [|done]);
    injection Hx as <-; [by rewrite decide_True|done|done].
Qed.

Definition write_canon {A} (write : A -> string) : Canon A := {|
  to_jcs a := Ok (write a);
  from_json_str _ := Err "unsupported"
|}.

(** ** A ledger with identifiers in wire form *)

Definition wire_id (p seed : string) : Id p := @id_from_seed fixed_blake3 toy_hex p seed.

Definition launch_graph : StoredGraph :=
  MkStoredGraph
    (MkMission (wire_id "mis" "m") (wire_id "org" "o") (wire_id "rep" "r") "title" "objective"
       (wire_id "acc" "a") MissionActive)
    (MkPlanRevision (wire_id "pln" "p") (wire_id "mis" "m") (MkDigest zero_array32))
    [MkWorkPackage (wire_id "wpk" "w") (wire_id "mis" "m") (wire_id "pln" "p") CodeReview
       "package" WpReady]
    [MkVariant (wire_id "var" "v") (wire_id "sel" "g") (wire_id "wpk" "w") 0].

Definition launch_nonce : array32 := fill (byte_of 110).

Definition launch_lease_request : LeaseRequest :=
  MkLeaseRequest "lease:1" (wire_id "mis" "m") (wire_id "var" "v") "seed" (wire_id "run" "runner") 1
    (wire_id "wsp" "ws") launch_nonce 1 1 10.

Definition launch_attempt : Attempt :=
  MkAttempt (wire_id "atm" "seed") (wire_id "var" "v") (wire_id "wpk" "w") 1
    (wire_id "run" "runner") 1 (wire_id "wsp" "ws") launch_nonce 1 1 AtStarting.

Definition launch_lease : ActiveLease :=
  MkActiveLease (wire_id "var" "v") (Attempt_id launch_attempt) 1 (wire_id "run" "runner") 1
    launch_nonce (toy_write 0) (toy_write 10000) 10.

Definition launch_command : CommandExt := {|
  cx_blake3 := fixed_blake3;
  cx_hex := toy_hex;
  cx_value := toy_value;
  cx_run_coding := no_json;
  cx_task := no_json;
  cx_message := no_json;
  cx_request := write_json (fun r => "{" +:+ CommandRequest_idempotency_key r +:+ "}");
  cx_resolution := write_json (fun r => rb_code r)
|}.

Definition launch_ext : LedgerExt := {|
  lx_command := launch_command;
  lx_chrono := toy_chrono;
  lx_content := write_json (fun c => ic_package_title c);
  lx_lease_payload := one_value_json (lease_payload launch_lease_request) "{payload}";
  lx_grant := one_value_json (MkLeaseGrant launch_attempt launch_lease) "{grant}";
  lx_expired := write_json (fun e => id_as_str (ExpiredLease_attempt_id e));
  lx_effect := write_json (fun p => ep_logical_effect_key p)
|}.

Definition launch_run := @run_ops launch_ext no_json no_json no_json no_json.

Definition launch_ops : list ledger_op :=
  [OpMaterializeGraph launch_graph (toy_write 0); OpAcquireLease launch_lease_request].

Definition launch_ledger : MemoryLedger :=
  default MemoryLedger_new (launch_run MemoryLedger_new launch_ops).

Lemma launch_ledger_reachable :
  completes (launch_run MemoryLedger_new launch_ops) = true ->
  @reachable launch_ext no_json no_json no_json no_json launch_ledger.
Proof.
  unfold launch_ledger. destruct (launch_run _ _) as [l|] eqn:Hl; [|done]. intros _.
  exact (@run_ops_steps launch_ext no_json no_json no_json no_json _ _ _ Hl).
Qed.

(** ** A grant for its attempt *)

Definition operator_secret : bytes := String.concat EmptyString (replicate 64 "k").

Definition budget_canon : Canon BudgetReservationSubject := write_canon (fun b => br_grant_id b).

Definition launch_policy : PolicyBinding := MkPolicyBinding (sample_hex "d") 1 true.

Definition launch_request : LaunchGrantRequest :=
  MkLaunchGrantRequest (Attempt_id launch_attempt) "claude" "adapter" (id_as_str (wire_id "prf" "p"))
    "model" 1 "claude_stream_json" "/usr/bin/claude" (sample_hex "1") (sample_hex "2")
    (sample_hex "3") (sample_hex "4") (sample_hex "5") ["gat_" +:+ sample_hex "6"] 1 1000 0 5000.

Definition draw (z : Z) : result string array32 := Ok (fill (byte_of z)).

Definition no_binding : LeaseBinding :=
  let e := EmptyString in MkLeaseBinding e e e e e e 0 e 0 e e 0 0.

(** The lease half of the claims, and the claims: what a mint at instant 1s
    writes. *)
Definition launch_durable : DurableLeaseBinding :=
  match @durable_lease_binding launch_ext (Attempt_id launch_attempt) launch_ledger with
  | Ok d => d
  | _ => MkDurableLeaseBinding no_binding 0
  end.

Global Instance LaunchGrantClaims_eq_dec : EqDecision LaunchGrantClaims.
Proof. solve_decision. Defined.
Global Instance LaunchGrantFooter_eq_dec : EqDecision LaunchGrantFooter.
Proof. solve_decision. Defined.

(** The codecs, but for the one of the claims. *)
Definition launch_tokens (claims : Canon LaunchGrantClaims) : GrantExt := {|
  gx_paseto := toy_paseto;
  gx_utf8 := fun _ => "invalid";
  gx_claims := claims;
  gx_footer := one_value_canon (LaunchGrantFooter_new "issuer" "key") "{footer}"
|}.

Definition launch_key : SigningKeyOf bytes :=
  MkLaunchGrantSigningKey "issuer" "key" operator_secret
    (toy_encode (array32_bytes (toy_public operator_secret))).

Definition grant_hex (z : Z) : string := toy_encode (array32_bytes (fill (byte_of z))).

Definition launch_budget : string :=
  match @hash_canonical fixed_blake3 toy_hex _ budget_canon BUDGET_RESERVATION_DOMAIN
    (MkBudgetReservationSubject (grant_hex 1) (id_as_str (Attempt_id launch_attempt)) 1 1 1000 0)
  with Ok b => b | _ => EmptyString end.

Definition launch_claims : LaunchGrantClaims :=
  let unread := write_canon (fun _ => EmptyString) in
  @minted_claims (launch_tokens unread) launch_key launch_policy launch_request
    (dl_binding launch_durable) (grant_hex 1) (grant_hex 2) launch_budget 1000 6000.

Definition launch_codec : Canon LaunchGrantClaims := one_value_canon launch_claims "{claims}".
Definition launch_grants : GrantExt := launch_tokens launch_codec.

Definition launch_minted :=
  @mint launch_ext launch_grants budget_canon launch_key launch_policy launch_request
    1000000000 (draw 1) (draw 2) launch_ledger.

Example launch_minted_ok : is_ok launch_minted.2 = true.
Proof. vm_compute. reflexivity. Qed.

(** ** Scenarios of launch grants and mutation permits

    One grant that is minted, verified and replayed, and one mutation that is
    reserved and spent, in the environment of [ToyLaunch]. *)

#[local] Existing Instance launch_ext.
#[local] Existing Instance launch_grants.
#[local] Existing Instance budget_canon.
#[local] Existing Instance no_json.
#[local] Existing Instance toy_hex_laws.

#[local] Instance launch_paseto_laws : PasetoLaws := toy_paseto_laws.

#[local] Instance launch_claims_laws : CanonLaws LaunchGrantClaims.
Proof. apply one_value_canon_laws; vm_compute; reflexivity. Qed.

Definition ok_value {E A} (r : result E A) (otherwise : A) : A :=
  match r with Ok a => a | _ => otherwise end.

Definition grant_key : @SigningKeyOf (@SecretKey (@gx_paseto launch_grants)) := launch_key.

Definition launch_grant : SignedLaunchGrant :=
  ok_value (@sign_grant launch_grants grant_key launch_claims)
    (MkSignedLaunchGrant "v1alpha1" "issuer" "key" "unknown").

Definition launch_vk : VerificationKeyOf (@PublicKey (@gx_paseto launch_grants)) :=
  ok_value (@verification_key toy_hex launch_grants grant_key)
    (MkLaunchGrantVerificationKey "issuer" "key" zero_array32 "unknown").

Definition launch_expectation (at_ : Z) : LaunchGrantExpectation :=
  runner_expectation launch_request launch_policy launch_durable ClaudeStreamJson at_.

Definition launched : MemoryLedger := launch_minted.1.

Lemma launch_mint : mint grant_key launch_policy launch_request 1000000000 (draw 1)
  (draw 2) launch_ledger = (launched, Ok launch_grant).
Proof. unfold launched. vm_compute. reflexivity. Qed.

(** The grant authenticates; an envelope with another label does not. *)
Lemma signed_grant_authenticates_witness :
  authenticate_grant launch_vk launch_grant = Ok launch_claims.
Proof.
  refine (proj1 (signed_grant_authenticates "issuer" "key" operator_secret grant_key launch_vk
    launch_claims launch_grant _ _ _ _)).
  - vm_compute. reflexivity.
  - vm_compute. reflexivity.
  - vm_compute. reflexivity.
  - vm_compute. discriminate.
Defined.

(** The grant is admitted and its replay is refused. *)
Lemma launch_grant_admits_once_witness :
  let v := verify_launch_grant launch_grant launch_vk (launch_expectation 2000) launched in
  let r := verify_launch_grant launch_grant launch_vk (launch_expectation 2000) v.1 in
  exists vg, v.2 = Ok vg /\ is_err r.2 = true /\
    NoDup (admitted_nonce <$> [(launch_expectation 2000, vg)]).
Proof.
  intros v r. eexists. split; [vm_compute; reflexivity|]. split; [vm_compute; reflexivity|].
  refine (proj1 (launch_grant_admits_once ledger_step launch_spent launched _ r.1 _)).
  eapply (admit_verified ledger_step launch_grant launch_vk (launch_expectation 2000) _ v.1).
  { vm_compute. reflexivity. }
  eapply (admit_refused ledger_step launch_grant launch_vk (launch_expectation 2000) _ r.1);
    [vm_compute; reflexivity|apply admit_done].
Defined.

(** The minted window ends at six seconds, before the lease. *)
Lemma mint_binds_current_writer_witness :
  exists claims, sign_grant grant_key claims = Ok launch_grant /\
    lg_expires_at_unix_ms claims <= 1000 + MAX_LAUNCH_GRANT_TTL_MS.
Proof.
  destruct (mint_binds_current_writer grant_key launch_policy launch_request 1000000000
    (draw 1) (draw 2) launch_ledger launched launch_grant
    (launch_ledger_reachable ltac:(vm_compute; reflexivity)) launch_mint)
    as (claims & a & lease & expiry & record & Hs & _ & _ & _ & _ & _ & _ & _ & _ & _ & Hw & _).
  exists claims. split; [exact Hs|]. exact (proj2 Hw).
Defined.

(** The runner is admitted two seconds after the epoch, once. *)
Lemma minted_grant_launches_once_witness :
  exists l2 v, verify_launch_grant launch_grant launch_vk (launch_expectation 2000) launched
    = (l2, Ok v) /\ claims_lease (vg_claims v) = dl_binding launch_durable.
Proof.
  destruct (minted_grant_launches_once "issuer" "key" operator_secret grant_key launch_vk
    launch_policy launch_request ClaudeStreamJson 1000000000 2000 (draw 1) (draw 2)
    launch_ledger launched launch_grant launch_durable) as (l2 & v & Hv & Hl & _);
    [vm_compute; reflexivity|vm_compute; reflexivity
    |apply launch_ledger_reachable; vm_compute; reflexivity|vm_compute; reflexivity
    |exact launch_mint|vm_compute; discriminate|vm_compute; reflexivity|reflexivity
    |vm_compute; split; [discriminate|reflexivity]|vm_compute; split; [discriminate|reflexivity]
    |vm_compute; split; discriminate|vm_compute; eexists; reflexivity|].
  exists l2, v. split; [exact Hv|exact Hl].
Defined.

(** ** A mutation *)

Definition writer : ActiveLeaseSubject := ActiveLeaseSubject_from_attempt launch_attempt.

Definition patch_request : MutationReserveRequest :=
  MkMutationReserveRequest ("mut_" +:+ sample_hex "7") "apply-patch" (sample_hex "8").

Definition patch_permit : OneUsePermit :=
  MkOneUsePermit ("rsv_" +:+ grant_hex 97) ("mut_" +:+ sample_hex "7")
    "apply-patch" (sample_hex "8").

Definition patch_binding : MutationPermitBinding :=
  MkMutationPermitBinding (id_as_str (wire_id "rep" "r")) 1 1 0 (sample_hex "9") (sample_hex "a").

Definition patch_claims : MutationPermitClaims :=
  MkMutationPermitClaims "v1alpha1" "issuer" BulletGitd ApplyPatch (sample_hex "9") (sample_hex "a")
    (op_mutation_id patch_permit) (op_reservation_id patch_permit) (sample_hex "8")
    (id_as_str (wire_id "rep" "r")) (id_as_str (wire_id "wsp" "ws")) 1
    (id_as_str (Attempt_id launch_attempt)) 1 1 0 3000 3000 4000 (grant_hex 3).

Global Instance MutationPermitClaims_eq_dec : EqDecision MutationPermitClaims.
Proof. solve_decision. Defined.
Global Instance PermitFooter_eq_dec : EqDecision PermitFooter.
Proof. solve_decision. Defined.

Definition patch_codecs : PermitExt := {|
  px_claims := one_value_canon patch_claims "{permit}";
  px_footer := one_value_canon (permit_footer "issuer" "key") "{permit-footer}"
|}.
#[local] Existing Instance patch_codecs.

Definition patch_signed : SignedMutationPermit :=
  ok_value (mint_signed_permit grant_key writer patch_permit patch_binding 3000 (draw 3))
    (MkSignedMutationPermit "v1alpha1" "issuer" "key" "unknown").

Definition patch_start : MutationReservationStore MemoryLedger :=
  MkMutationReservationStore launch_ledger ∅.
Definition patch_reserved : MutationReservationStore MemoryLedger :=
  (reserve writer patch_request patch_start).1.
Definition patch_consumed :=
  consume_signed_permit launch_vk (Some patch_signed) writer patch_permit patch_binding 3500
    patch_reserved.

Definition patch_events : list permit_event :=
  ([] ++ [EvReserved writer patch_permit]) ++
  [EvSpent (mrs_gate patch_reserved) writer patch_permit (Some patch_claims)].

(** The writer reserves a patch and spends it with its signed permit. *)
Lemma mutation_spent_once_by_writer_witness :
  let l : MemoryLedger := mrs_gate patch_reserved in
  ml_fences l !! id_as_str (als_variant_id writer) = Some (als_fence writer) /\
  permit_binds patch_claims writer patch_permit.
Proof.
  intros l.
  destruct (mutation_spent_once_by_writer launch_ledger patch_events patch_consumed.1)
    as [_ Hev].
  - apply launch_ledger_reachable. vm_compute. reflexivity.
  - apply run_consumed with launch_vk (Some patch_signed) patch_binding 3500.
    + apply run_reserved with patch_request patch_start; [apply run_new|vm_compute; reflexivity].
    + vm_compute. reflexivity.
  - destruct (Hev _ (mrs_gate patch_reserved) writer patch_permit
      (Some patch_claims) [] eq_refl) as (_ & _ & [_ Hf] & Hb).
    split; [exact Hf|]. exact (Hb patch_claims eq_refl).
Defined.
