(* ===== verification/ToyHarness.v ===== *)
(** * Scenarios of provider admission

    A small file system, constant JSON texts and a constant hash, with which a
    provider is staged, evaluated and dispatched. They stand for no code of
    the repository. *)

From S2P Require Import Prelude External Ids Entities Framing Toy Text HarnessErrors Canonical.
From S2P Require Import LaunchClaims Capability LaunchGrants Paths Argv Proposal Events Credentials.
From S2P Require Import Admission.
From stdpp Require Import options.

Local Open Scope Z_scope.

(** A result that is known to be [Ok]. *)
Definition known {E A} (r : result E A) (H : is_ok r = true) : A :=
  match r return is_ok r = true -> A with
  | Ok a => fun _ => a
  | Err _ | Panic => fun H => False_rect _ (Bool.diff_false_true H)
  end H.

Lemma known_eq {E A} (r : result E A) H : r = Ok (known r H).
Proof. by destruct r. Qed.

Lemma run_known {S E A} (m : S * result E A) H : m = (m.1, Ok (known m.2 H)).
Proof. destruct m as [s r]. cbn. f_equal. apply known_eq. Qed.

Lemma bind_known {E A B} (m : result E A) (f : A -> result E B) H1 H2 :
  f (known m H1) = Ok (known (m ≫= f) H2).
Proof. by destruct m; [rewrite <-known_eq|..]. Qed.

(** ** A file system in memory *)

Record toy_file : Type := MkToyFile {
  tf_kind : file_kind;
  tf_content : bytes;
  tf_mode : Z
}.

Definition toy_fs : Type := gmap string toy_file.

Definition toy_lookup {A} (path : string) (f : toy_file -> A) : stateful toy_fs string A :=
  fun s => (s, match s !! path with Some n => Ok (f n) | None => Err "not found" end).

Definition toy_meta (n : toy_file) : Metadata :=
  MkMetadata (tf_kind n) (str_len (tf_content n)) 1 1 (tf_mode n).

Definition toy_create (kind : file_kind) (path : string) : stateful toy_fs string unit :=
  fun s => match s !! path with
           | Some _ => (s, Err "exists")
           | None => (<[path := MkToyFile kind EmptyString 0]> s, Ok tt)
           end.

Definition toy_files : Files toy_fs := {|
  fs_handle := string;
  fs_symlink_metadata path := toy_lookup path toy_meta;
  fs_canonicalize path := toy_lookup path (fun _ => path);
  fs_is_dir path := fun s => (s, match s !! path with
                                 | Some n => bool_decide (tf_kind n = IsDir)
                                 | None => false
                                 end);
  fs_exists path := fun s => (s, bool_decide (is_Some (s !! path)));
  fs_read path := toy_lookup path tf_content;
  fs_open path := toy_lookup path (fun _ => path);
  fs_handle_metadata path := toy_lookup path toy_meta;
  fs_read_to_end path := toy_lookup path tf_content;
  fs_read_limited path n := toy_lookup path (fun f =>
    if bool_decide (str_len (tf_content f) <= n) then tf_content f
    else str_take (Z.to_nat n) (tf_content f));
  fs_create_dir path := toy_create IsDir path;
  fs_create_new path := fun s => match toy_create IsFile path s with
                                 | (t, Ok _) => (t, Ok path)
                                 | (t, Err e) => (t, Err e)
                                 | (t, Panic) => (t, Panic)
                                 end;
  fs_write_all path content := fun s => (<[path := MkToyFile IsFile content 0]> s, Ok tt);
  fs_sync_all _ := mret tt;
  fs_set_mode path mode := fun s => (alter (fun n => MkToyFile (tf_kind n) (tf_content n) mode) path s, Ok tt);
  fs_remove_file path := fun s => (delete path s, Ok tt);
  fs_remove_dir path := fun s => (delete path s, Ok tt)
|}.

Definition const_json (A : Type) : Json A :=
  {| to_json := fun _ => Ok "{}"; of_json := fun _ => Err "one way" |}.

Definition const_canon : Canon (gmap string string) :=
  {| to_jcs := fun _ => Ok "{}"; from_json_str := fun _ => Err "one way" |}.

#[local] Existing Instance fixed_blake3.
#[local] Existing Instance toy_hex.
#[local] Existing Instance toy_files.
#[local] Existing Instance const_json.
#[local] Existing Instance const_canon.
#[local] Existing Instance ascii_unicode.

(** The digest of everything under the constant hash. *)
Definition toy_digest : string := file_digest EmptyString.

Definition toy_disk : toy_fs :=
  <["/run" := MkToyFile IsDir EmptyString 448]>
  (<["/opt/claude" := MkToyFile IsFile "binary" 493]>
  (<["/keys/oauth.json" := MkToyFile IsFile "token" 256]> ∅)).

Definition toy_grant : CredentialGrant :=
  MkCredentialGrant "/keys/oauth.json" ".claude/oauth.json" toy_digest.

Definition toy_environ : list (string * string) :=
  [("HOME", "/home/u"); ("LANG", "C"); ("GH_TOKEN", "secret")].

Definition toy_staged := stage "u1" "/run" [".claude/oauth.json"] [toy_grant] toy_environ toy_disk.

Lemma toy_staged_ok : is_ok toy_staged.2 = true.
Proof. vm_compute. reflexivity. Qed.

Definition toy_home : PreparedProviderHome := known toy_staged.2 toy_staged_ok.

Example toy_home_files :
  (home ← toy_staged.2; mret (ph_files home, ph_env home))
  = Ok (["/run/provider-home-u1/.claude/oauth.json"],
     [("HOME", "/run/provider-home-u1"); ("LANG", "C");
      ("TMPDIR", "/run/provider-home-u1/tmp");
      ("XDG_CACHE_HOME", "/run/provider-home-u1/.cache");
      ("XDG_CONFIG_HOME", "/run/provider-home-u1/.config")]).
Proof. vm_compute. reflexivity. Qed.

(** The same run with its calls recorded. *)
Definition toy_recorded : recording (S:=toy_fs) * result HarnessError PreparedProviderHome :=
  @stage fixed_blake3 toy_hex _ recorded_files "u1" "/run" [".claude/oauth.json"] [toy_grant]
    toy_environ (toy_disk, []).

Lemma toy_recorded_ok : is_ok toy_recorded.2 = true.
Proof. vm_compute. reflexivity. Qed.

Lemma staged_home_holds_only_grants_witness :
  (exists log, grant_log "/run/provider-home-u1" toy_grant log /\ log ⊆ toy_recorded.1.2)
  /\ ph_credentials (known toy_recorded.2 toy_recorded_ok) ≡ₚ [grant_receipt toy_grant].
Proof.
  destruct (staged_home_holds_only_grants "u1" "/run" [".claude/oauth.json"] [toy_grant]
    toy_environ (toy_disk, []) toy_recorded.1 _ (run_known toy_recorded toy_recorded_ok))
    as [(canonical & h0 & h1 & logs & _ & _ & Hlogs & Hlog & _) [Hc _]].
  split; [|exact Hc]. inversion Hlogs as [|? log ? rest Hg Hrest]; subst. exists log. split.
  - exact Hg.
  - intros ev Hev. rewrite Hlog. do 3 (apply elem_of_app; right). apply elem_of_app; left.
    cbn [concat]. apply elem_of_app; left. exact Hev.
Defined.

(** A drifted credential is refused and the home is removed again. *)
Example toy_stage_cleans_up :
  let bad := MkCredentialGrant "/keys/oauth.json" ".claude/oauth.json" (sample_id EmptyString "0") in
  let r := stage "u1" "/run" [".claude/oauth.json"] [bad] toy_environ toy_disk in
  r.2 = Err (HeAdmissionRefused "credential digest mismatch")
  /\ r.1 !! "/run/provider-home-u1" = None
  /\ size r.1 = size toy_disk.
Proof. vm_compute. done. Qed.

(** ** One admission *)

Definition toy_matrix : CapabilityMatrix :=
  foldl (fun m c => matrix_with m c CapSupported) CapabilityMatrix_new STRUCTURED.

Definition toy_profile : ProfileRef :=
  MkProfileRef (id_from_seed "profile") (MkExpectedProfile (Some "a@b.c") None).

Definition toy_policy : ProviderAdmissionPolicy := {|
  pap_provider := "claude";
  pap_executable := "/opt/claude";
  pap_executable_blake3 := toy_digest;
  pap_version := "2.1";
  pap_descriptor_blake3 := toy_digest;
  pap_profile := toy_profile;
  pap_required_protocol := ClaudeStreamJson;
  pap_max_probe_age_seconds := 60;
  pap_runtime_root := "/run";
  pap_credential_targets := [".claude/oauth.json"];
  pap_credentials := [toy_grant]
|}.

Definition toy_probe : RuntimeProbeSnapshot := {|
  rp_descriptor := MkHarnessDescriptor "claude" "claude" (ObsValue "2.1") StContractPass toy_matrix;
  rp_executable := "/opt/claude";
  rp_executable_blake3 := toy_digest;
  rp_protocol := ClaudeStreamJson;
  rp_identity := MkProbeResult
    (ObsValue (MkProfileIdentity "claude" (Some "a@b.c") None None None)) "2.1";
  rp_observed_at := 1000000000
|}.

Definition toy_canaries : CanarySecrets := MkCanarySecrets ["canary-canary-0001"].

Definition toy_prepared :=
  prepare "u1" toy_policy toy_probe toy_environ toy_canaries 2000000000 toy_disk.

Definition toy_evidence : ConformanceEvidence string :=
  MkConformanceEvidence "out" EmptyString (take 3 sample_envelopes) sample_proposal.

Definition toy_admission : result HarnessError EvaluatedAdmission :=
  a ← toy_prepared.2; finalize a toy_evidence.

Definition toy_claims : LaunchGrantClaims := {|
  lg_schema_version := LAUNCH_GRANT_SCHEMA_VERSION;
  lg_grant_id := toy_digest;
  lg_audience := LAUNCH_GRANT_AUDIENCE;
  lg_operation := LAUNCH_GRANT_OPERATION;
  lg_issuer := "kernel";
  lg_key_id := "key";
  lg_issued_at_unix_ms := 1000;
  lg_not_before_unix_ms := 1000;
  lg_expires_at_unix_ms := 9000;
  lg_grant_nonce := toy_digest;
  lg_mission_id := "m";
  lg_repository_id := "r";
  lg_graph_revision_id := "g";
  lg_work_package_id := "w";
  lg_variant_id := "v";
  lg_attempt_id := "a";
  lg_attempt_fence := 1;
  lg_runner_id := "n";
  lg_runner_epoch := 1;
  lg_workspace_id := "s";
  lg_workspace_nonce_digest := toy_digest;
  lg_authority_epoch := 0;
  lg_freeze_generation := 0;
  lg_provider := "claude";
  lg_adapter := "claude";
  lg_provider_profile_id := id_as_str (pref_profile_id toy_profile);
  lg_model := "model";
  lg_credential_generation := 0;
  lg_protocol := "claude_stream_json";
  lg_executable_path := "/opt/claude";
  lg_executable_digest := toy_digest;
  lg_descriptor_digest := toy_digest;
  lg_capability_digest := toy_digest;
  lg_policy_snapshot_digest := toy_digest;
  lg_policy_generation := 1;
  lg_sandbox_manifest_digest := toy_digest;
  lg_environment_digest := toy_digest;
  lg_gate_ids := [];
  lg_budget_reservation_id := toy_digest;
  lg_max_invocations := 1;
  lg_max_wall_clock_ms := 1;
  lg_max_cost_micro_usd := 0
|}.

Definition toy_signed : VerifiedLaunchGrant := MkVerifiedLaunchGrant toy_claims toy_digest.

Definition toy_egress : EgressIsolationEvidence :=
  MkEgressIsolationEvidence toy_digest toy_digest toy_digest
    [MkEgressProbe "host-jeryu" EgressRefused; MkEgressProbe "direct-internet" EgressUnreachable].

Definition toy_cleared : result HarnessError EvaluatedAdmission :=
  a ← toy_admission; clear_all a [ClearedEgress toy_egress; ClearedSigned toy_signed].

(** With one blocker left the admission does not dispatch; with none it does. *)
Example toy_dispatch :
  (a ← toy_admission; a ← clear_all a [ClearedEgress toy_egress]; require_dispatch a)
  = Err (HeAdmissionBlocked "SIGNED_ADMISSION_UNAVAILABLE")
  /\ (a ← toy_cleared; require_dispatch a) = Ok tt.
Proof. split; vm_compute; reflexivity. Qed.

Lemma toy_prepared_ok : is_ok toy_prepared.2 = true.
Proof. vm_compute. reflexivity. Qed.
Lemma toy_admission_ok : is_ok toy_admission = true.
Proof. vm_compute. reflexivity. Qed.
Lemma toy_cleared_ok : is_ok toy_cleared = true.
Proof. vm_compute. reflexivity. Qed.

Lemma live_dispatch_needs_all_evidence_witness :
  exists g e, contained e /\ lg_provider (vg_claims g) = "claude"
    /\ [ClearedEgress toy_egress; ClearedSigned toy_signed] = [ClearedEgress e; ClearedSigned g].
Proof.
  destruct (live_dispatch_needs_all_evidence "u1" toy_policy toy_probe toy_environ toy_canaries
    2000000000 toy_disk toy_prepared.1 (known _ toy_prepared_ok) toy_evidence
    (known _ toy_admission_ok) [ClearedEgress toy_egress; ClearedSigned toy_signed]
    (known _ toy_cleared_ok))
    as (required & g & e & environment & _ & _ & _ & _ & _ & _ & Hcs & He & _ & Hp & _).
  - exact (run_known toy_prepared toy_prepared_ok).
  - exact (bind_known toy_prepared.2 (fun a => finalize a toy_evidence)
      toy_prepared_ok toy_admission_ok).
  - exact (bind_known toy_admission
      (fun a => clear_all a [ClearedEgress toy_egress; ClearedSigned toy_signed])
      toy_admission_ok toy_cleared_ok).
  - vm_compute. reflexivity.
  - exists g, e. split; [exact He|split; [exact Hp|]]. destruct Hcs as [Hcs|Hcs]; [discriminate Hcs|exact Hcs].
Defined.
