(* ===== verification/ToyBroker.v ===== *)
(** * A delivery whose first response is lost

    One run of the effect broker over the in-process ledger and a forge kept
    in memory: the dispatch is lost before it reaches the remote, the
    reconciliation reads the remote, proves that nothing happened, retries
    once and commits; then a restart that retries and adopts. *)

From S2P Require Import Prelude External Ids States Entities Toy Records Text Store Forge Canonical.
From S2P Require Import LaunchClaims Submissions Commands Effects GraphDelta Authority LaunchGrants.
From S2P Require Import Recovery Context Memory MemoryLeases MemoryCommands MemoryEffects Broker.
From S2P Require Import BrokerMemory RestartRecovery ToyLedger.
From stdpp Require Import options.

Local Open Scope Z_scope.

(** A forge that keeps its refs in a list. *)
Definition toy_refs : Type := list (string * string).

Definition toy_ref (refs : toy_refs) (name : string) : option string :=
  snd <$> find (fun '(n, _) => bool_decide (n = name)) refs.

Definition toy_push (req : PushRequest) : stateful toy_refs EffectsError unit := fun refs =>
  let expected := if is_create (push_expected_old_oid req) then None
                  else Some (push_expected_old_oid req) in
  let current := toy_ref refs (push_ref_name req) in
  if bool_decide (current = expected)
  then ((push_ref_name req, push_new_oid req) :: refs, Ok tt)
  else (refs, Err (EePushRejected (push_ref_name req) current)).

Global Instance toy_forge : ForgeEffects toy_refs := {|
  descriptor _ := MkForgeDescriptor "toy" true true EmptyString;
  push_candidate_ref := toy_push;
  read_ref name refs := (refs, Ok (toy_ref refs name))
|}.

Definition toy_oid : string := "1111111111111111111111111111111111111111".

Definition toy_input : IntentInput :=
  MkIntentInput "local-bare" "deliver" "refs/heads/bullet/candidate/can_1" toy_oid ZERO_OID
    (Attempt_id toy_attempt) 1 "policy" None.

Definition toy_effect : EffectId := @id_from_seed fixed_blake3 toy_hex "efi" "local-bare:deliver".

Definition toy_token : AuthorityToken :=
  MkAuthorityToken (MkId "o") (MkId "r") (MkId "m") (MkId "ac") (MkId "p") 0 (MkId "w") (MkId "sg")
    (MkId "v") (Attempt_id toy_attempt) 1 (MkId "runner") 1 (MkId "ws") zero_array32 1 1
    (MkDigest zero_array32) (MkDigest zero_array32) (MkDigest zero_array32) None None.

Definition toy_intent_json : Json EffectIntentRecord := write_json ei_logical_effect_key.

Abbreviation toy_world := (world MemoryLedger (LostResponseForge toy_refs)).

(** The ledger with one active lease, and a forge about to lose a response. *)
Definition leased_world : toy_world :=
  MkWorld (set_leases MemoryLedger_new {["v" := toy_lease]})
    (MkLostResponseForge [] (Some BeforePush)) [].

Definition toy_step : broker_op -> toy_world -> option toy_world :=
  @broker_step fixed_blake3 toy_hex toy_intent_json MemoryLedger (LostResponseForge toy_refs)
    (@MemoryLedger_effects toy_ext) _.

Definition toy_delivery : list broker_op :=
  [OpPropose toy_input "t0"; OpAuthorize toy_effect toy_token "t1";
   OpDispatch toy_effect "/ws" (Some 1) "t2"; OpReconcile toy_effect "/ws" (Some 1) "t3"].

Fixpoint toy_steps (ops : list broker_op) (w : toy_world) : option toy_world :=
  match ops with
  | [] => Some w
  | op :: rest => w' ← toy_step op w; toy_steps rest w'
  end.

Definition delivered : toy_world := default leased_world (toy_steps toy_delivery leased_world).

Definition toy_broker_run : toy_world -> toy_world -> Prop :=
  @broker_run fixed_blake3 toy_hex toy_intent_json MemoryLedger (LostResponseForge toy_refs)
    (@MemoryLedger_effects toy_ext) (@MemoryLedger_effect_laws toy_ext) _.

Lemma toy_steps_run w0 ops w w' : toy_broker_run w0 w -> toy_steps ops w = Some w' -> toy_broker_run w0 w'.
Proof.
  revert w. induction ops as [|op ops IH]; intros w Hw Hs; [by simplify_eq/=|].
  apply bind_Some in Hs as (w1 & Hop & Hs). eapply IH, Hs. by eapply broker_run_op.
Qed.

Lemma delivered_reached : toy_steps toy_delivery leased_world = Some delivered.
Proof. vm_compute. reflexivity. Qed.

Lemma delivered_run : toy_broker_run leased_world delivered.
Proof. apply (toy_steps_run _ toy_delivery leased_world); [constructor|exact delivered_reached]. Qed.

Definition delivered_state (w : toy_world) : option (EffectState * Z) :=
  (fun row => (ei_state row, ei_unknown_retries row))
    <$> ml_effect_intents (w_ledger w) !! id_as_str toy_effect.

(** Committed after one lost push, one proof of absence and one retry. *)
Example delivery_commits :
  delivered_state delivered = Some (EfCommitted, 1)
  /\ pushes toy_effect (w_trace delivered) = 2%nat
  /\ toy_ref (lf_inner (w_forge delivered)) "refs/heads/bullet/candidate/can_1" = Some toy_oid.
Proof. vm_compute. done. Qed.

Lemma committed_effects_were_observed_witness :
  exists row, delivered_state delivered = Some (EfCommitted, 1)
    /\ FRead (ei_target_identity row) (Ok (Some (ei_desired_state_hash row))) ∈ w_trace delivered.
Proof.
  destruct (ml_effect_intents (w_ledger delivered) !! id_as_str toy_effect) as [row|] eqn:Hrow.
  - exists row. split; [exact (proj1 delivery_commits)|].
    apply (@committed_effects_were_observed fixed_blake3 toy_hex toy_intent_json
             MemoryLedger (LostResponseForge toy_refs) (@MemoryLedger_effects toy_ext)
             (@MemoryLedger_effect_laws toy_ext) _ (w_ledger leased_world) (w_forge leased_world)
             delivered (id_as_str toy_effect) row);
      [reflexivity|exact delivered_run|exact Hrow|].
    right. pose proof (proj1 delivery_commits) as Hst. unfold delivered_state in Hst.
    rewrite Hrow in Hst. by injection Hst.
  - exfalso. pose proof (proj1 delivery_commits) as Hst. unfold delivered_state in Hst.
    rewrite Hrow in Hst. discriminate.
Defined.

Lemma retries_follow_proof_of_nonexecution_witness :
  pushes toy_effect (w_trace delivered) = 2%nat /\ (pushes toy_effect (w_trace delivered) <= 2)%nat.
Proof.
  split; [exact (proj1 (proj2 delivery_commits))|].
  apply (@retries_follow_proof_of_nonexecution fixed_blake3 toy_hex toy_intent_json
           MemoryLedger (LostResponseForge toy_refs) (@MemoryLedger_effects toy_ext)
           (@MemoryLedger_effect_laws toy_ext) _ (w_ledger leased_world) (w_forge leased_world) delivered);
    [reflexivity|exact delivered_run].
Defined.

(** ** A restart that retries and adopts

    A claim store kept in a map and the forge of [ToyBroker]: one restart pass
    finds the candidate ref missing, pushes it with the single retry, reads it
    back and adopts it. *)

#[local] Existing Instance fixed_blake3.
#[local] Existing Instance toy_hex.
#[local] Instance utc_zero : Rfc3339 := fun _ => Ok (0, 0).
#[local] Instance payload_json : Json EffectPayload := write_json ep_logical_effect_key.
#[local] Instance token_json : Json AuthorityToken := write_json (fun t => id_as_str (AuthorityToken_attempt_id t)).
#[local] Instance authority_json : Json EffectRecoveryAuthority := write_json ra_schema_version.
#[local] Instance subject_json : Json RecoveryReceiptSubject := write_json rs_schema_version.

Definition toy_candidate : CandidateId := id_from_seed "candidate".

Definition toy_digest : Digest := Digest_of "toy".

Definition unknown_intent : EffectIntentRecord := {|
  ei_id := MkId "efi_1"; ei_logical_effect_key := "deliver"; ei_provider := "local-bare";
  ei_target_identity := CANDIDATE_REF_PREFIX +:+ id_as_str toy_candidate;
  ei_desired_state_hash := toy_oid; ei_expected_old_oid := ZERO_OID;
  ei_attempt_id := MkId "att_1"; ei_fence := 1; ei_policy_version := "policy";
  ei_payload_hash := to_hex toy_digest; ei_provider_idempotency_key := None;
  ei_state := EfOutcomeUnknown; ei_unknown_retries := 0; ei_created_at := "t0" |}.

Definition toy_authority : EffectRecoveryAuthority :=
  MkEffectRecoveryAuthority EFFECT_RECOVERY_AUTHORITY_SCHEMA toy_digest (MkId "runner") 1
    (MkId "att_2") 2 (MkId "v") (MkId "ws") (as_bytes toy_digest) 1 0 0.

Definition toy_claim : EffectRecoveryClaim := {|
  rl_schema_version := EFFECT_RECOVERY_CLAIM_SCHEMA;
  rl_claim_id := "ecl_" +:+ to_hex toy_digest;
  rl_intent := unknown_intent; rl_intent_payload_digest := toy_digest;
  rl_original_attempt_id := MkId "att_1"; rl_original_fence := 1;
  rl_successor_authority_digest := toy_digest; rl_successor_authority_fingerprint := toy_digest;
  rl_recovery_runner_id := MkId "runner"; rl_recovery_runner_epoch := 1;
  rl_recovery_attempt_id := MkId "att_2"; rl_recovery_attempt_fence := 2;
  rl_recovery_variant_id := MkId "v"; rl_recovery_workspace_id := MkId "ws";
  rl_recovery_workspace_nonce := as_bytes toy_digest; rl_authority_epoch := 1;
  rl_freeze_generation := 0; rl_restore_epoch := 0; rl_claim_generation := 1;
  rl_outbox_sequence := 1; rl_disposition := RdClaimed; rl_invalidated_from := None;
  rl_claimed_at := "t1"; rl_updated_at := "t1" |}.

(** A claim after an edge. *)
Definition moved (c : EffectRecoveryClaim) (to : EffectRecoveryDisposition) : EffectRecoveryClaim := {|
  rl_schema_version := rl_schema_version c; rl_claim_id := rl_claim_id c;
  rl_intent := set_intent_state (rl_intent c)
    (match to with
     | RdRetryReserved => EfDispatching | RdAdopted => EfCommitted | RdOrphaned => EfOrphanedRemote
     | RdQuarantined => EfQuarantined | _ => EfOutcomeUnknown
     end)
    (ei_unknown_retries (rl_intent c) + (if bool_decide (to = RdRetryReserved) then 1 else 0));
  rl_intent_payload_digest := rl_intent_payload_digest c;
  rl_original_attempt_id := rl_original_attempt_id c; rl_original_fence := rl_original_fence c;
  rl_successor_authority_digest := rl_successor_authority_digest c;
  rl_successor_authority_fingerprint := rl_successor_authority_fingerprint c;
  rl_recovery_runner_id := rl_recovery_runner_id c; rl_recovery_runner_epoch := rl_recovery_runner_epoch c;
  rl_recovery_attempt_id := rl_recovery_attempt_id c; rl_recovery_attempt_fence := rl_recovery_attempt_fence c;
  rl_recovery_variant_id := rl_recovery_variant_id c; rl_recovery_workspace_id := rl_recovery_workspace_id c;
  rl_recovery_workspace_nonce := rl_recovery_workspace_nonce c; rl_authority_epoch := rl_authority_epoch c;
  rl_freeze_generation := rl_freeze_generation c; rl_restore_epoch := rl_restore_epoch c;
  rl_claim_generation := rl_claim_generation c; rl_outbox_sequence := rl_outbox_sequence c;
  rl_disposition := to; rl_invalidated_from := rl_invalidated_from c;
  rl_claimed_at := rl_claimed_at c; rl_updated_at := rl_updated_at c |}.

(** The store keeps one claim, if any. *)
Global Instance toy_store : EffectRecoveryStore (option EffectRecoveryClaim) := {|
  claim_effect_recovery _ _ s := (s, Ok s);
  readback_effect_recovery _ _ s := Ok s;
  apply_effect_recovery req _ s :=
    match s with
    | Some c => if bool_decide (rl_claim_id c = rt_claim_id req)
                then let c' := moved c (rt_to req) in (Some c', Ok c')
                else (s, Err RecUnknownClaim)
    | None => (s, Err RecUnknownClaim)
    end
|}.

Definition store_map (s : option EffectRecoveryClaim) : gmap string EffectRecoveryClaim :=
  match s with Some c => {[rl_claim_id c := c]} | None => ∅ end.

Global Instance toy_store_laws : EffectRecoveryStoreLaws (option EffectRecoveryClaim).
Proof.
  refine {| rs_claims := store_map |}.
  - intros id a s s' c [= <- ->]. cbn. by rewrite lookup_singleton_eq.
  - intros id a s c [= ->]. cbn. by rewrite lookup_singleton_eq.
  - intros req a s s' c. cbn. destruct s as [p|]; [|done]. case_bool_decide as Hid; [|done].
    intros [= <- <-]. exists p. rewrite <-Hid. cbn. rewrite lookup_singleton_eq, insert_singleton_eq.
    split_and!; try done.
Defined.

Global Instance bare_forge : ForgeEffects toy_refs := {|
  descriptor _ := MkForgeDescriptor "local-bare" true true EmptyString;
  push_candidate_ref := toy_push;
  read_ref name refs := (refs, Ok (toy_ref refs name))
|}.

Abbreviation restart_world := (world (option EffectRecoveryClaim) toy_refs).

Definition stranded : restart_world := MkWorld (Some toy_claim) [] [].

Definition toy_restart (fuel : nat) (w : restart_world) :=
  reconcile_local_bare_restart (F:=toy_refs) (ForgeEffects0:=bare_forge) (pure_step Panic) fuel (ei_id unknown_intent)
    toy_authority "/ws" w.

(** The pass pushes once and adopts what it reads back. *)
Example restart_adopts :
  snd (toy_restart 2 stranded) = Ok RrAdopted
  /\ length (w_trace (fst (toy_restart 2 stranded))) = 3%nat.
Proof. vm_compute. done. Qed.

Lemma restart_pass_contained_witness :
  exists t, w_trace (fst (toy_restart 2 stranded)) = t /\ length t = 3%nat
  /\ outcome_grounds (rl_intent toy_claim) RrAdopted t.
Proof.
  destruct (restart_pass_contained (ForgeEffects0:=bare_forge) (pure_step Panic) 0 (ei_id unknown_intent)
              toy_authority "/ws" stranded (fst (toy_restart 2 stranded)) (Ok RrAdopted))
    as (t & Ht & Hcase).
  - vm_compute. reflexivity.
  - exists t. split; [exact Ht|]. destruct Hcase as [[-> Hno]|(s & c & Hc & _ & Hout)].
    + discriminate (Hno RrAdopted eq_refl).
    + injection Hc as <- <-. split.
      * cbn [w_trace stranded app] in Ht. rewrite <-Ht. vm_compute. reflexivity.
      * apply (Hout RrAdopted eq_refl).
Defined.

Lemma restart_pass_terminates_witness :
  snd (toy_restart 7 stranded) = Ok RrAdopted.
Proof.
  unfold toy_restart. rewrite (restart_pass_terminates (pure_step Panic) (pure_step Panic) 5).
  vm_compute. reflexivity.
Defined.

Lemma recovery_transition_sound_witness :
  transition_grounds toy_claim RdRetryReserved (Some (restart_observation toy_claim None)).
Proof.
  refine (match recovery_transition_sound toy_claim toy_authority RdRetryReserved
            (Some (restart_observation toy_claim None)) None
            _ _ _ with conj _ (conj _ (conj _ (conj _ (conj _ (conj _ (conj _ (conj _ (conj _ (conj _ G))))))))) => G end).
  - vm_compute. discriminate.
  - vm_compute. reflexivity.
Defined.
