(* ===== verification/ToyPolicy.v ===== *)
(** * A live policy and an aborted activation

    One generation becomes active, a second one is activated and aborted, and
    admission binds the first again; and a policy snapshot that enables live
    admission with one runner key. *)

From S2P Require Import Prelude External Ids States Entities BudgetPolicy Text Store HarnessErrors Canonical.
From S2P Require Import Policy LaunchClaims LaunchGrants Records Submissions Commands NonceLedger.
From S2P Require Import Effects GraphDelta Authority MutationPermits Toy ToyLedger ToyLaunch.
From stdpp Require Import options.

Local Open Scope Z_scope.

#[local] Existing Instance fixed_blake3.
#[local] Existing Instance toy_hex.
#[local] Instance generation_canon : Canon GenerationContent := write_canon (fun c => gc_activation_subject c).

Definition toy_content (number : Z) : GenerationContent :=
  MkGenerationContent number (sample_hex "1") (sample_hex "2") "operator" 0 (components Component_ALL).

(** The hash is constant, so every digest is the same text. *)
Definition toy_generation (number : Z) : ConfigurationGeneration :=
  MkConfigurationGeneration (toy_content number) (to_hex (Digest_of "any")).

Definition toy_activations : list activation_op :=
  [OpActivate (cg_recorded (toy_generation 1)) 10]
  ++ ((fun c => OpAcknowledge c 1 (cg_digest (toy_generation 1))) <$> Component_ALL)
  ++ [OpActivate (cg_recorded (toy_generation 2)) 20;
      OpAcknowledge CoKernel 2 (cg_digest (toy_generation 2)); OpAbort "operator" 30].

Fixpoint perform_all (ops : list activation_op) (evs : list activation_event) (l : ActivationLedger)
  : list activation_event * ActivationLedger :=
  match ops with
  | [] => (evs, l)
  | op :: rest => let '(l', ev) := perform op l in perform_all rest (evs ++ ev) l'
  end.

Lemma perform_all_run ops evs l :
  activation_run evs l -> activation_run (perform_all ops evs l).1 (perform_all ops evs l).2.
Proof.
  revert evs l. induction ops as [|op ops IH]; intros evs l Hrun; [done|].
  cbn [perform_all]. destruct (perform op l) as [l' ev] eqn:Hp. apply IH. by econstructor.
Qed.

Definition toy_performed : list activation_event * ActivationLedger :=
  perform_all toy_activations [] ActivationLedger_default.

Example toy_activation_falls_back :
  generation_for_admission toy_performed.2 = Ok (toy_generation 1)
  /\ length toy_performed.1 = 8%nat /\ al_highest toy_performed.2 = 2.
Proof. vm_compute. done. Qed.

Lemma admission_binds_acknowledged_generation_witness :
  EvActivated (toy_generation 1) ∈ toy_performed.1 /\ EvAborted 1 ∉ toy_performed.1.
Proof.
  destruct (admission_binds_acknowledged_generation toy_performed.1 toy_performed.2 (toy_generation 1))
    as (_ & _ & Hact & _ & Hab & _ & _).
  - apply perform_all_run. constructor.
  - exact (proj1 toy_activation_falls_back).
  - split; [exact Hact|exact Hab].
Defined.

(** ** A live policy *)

Definition runner_public : string := toy_encode (array32_bytes (toy_public operator_secret)).

Definition toy_runner_key : IssuerKey :=
  MkIssuerKey "v1alpha1" "issuer" "key" AuthoritySigning PasetoV4Public runner_public
    [ProviderRunner] 0 1000 None 16000.

Definition toy_snapshot : PolicySnapshot :=
  MkPolicySnapshot "v1alpha2" 2 (sample_hex "3") (sample_hex "4")
    (MkRiskPolicy "v1alpha1" "low" "high") (MkEvidencePolicy "v1alpha1" true false false)
    (MkSandboxPolicy "v1alpha1" "none" false "deny" true) (MkBudgetPolicyDoc "v1alpha1" 15 false 10 600)
    (MkRoutePolicy "v1alpha1" "T0" "human" false) [toy_runner_key] 0 500.

#[local] Instance IssuerKey_eq_dec : EqDecision IssuerKey.
Proof. solve_decision. Defined.
#[local] Instance RiskPolicy_eq_dec : EqDecision RiskPolicy.
Proof. solve_decision. Defined.
#[local] Instance EvidencePolicy_eq_dec : EqDecision EvidencePolicy.
Proof. solve_decision. Defined.
#[local] Instance SandboxPolicy_eq_dec : EqDecision SandboxPolicy.
Proof. solve_decision. Defined.
#[local] Instance BudgetPolicyDoc_eq_dec : EqDecision BudgetPolicyDoc.
Proof. solve_decision. Defined.
#[local] Instance RoutePolicy_eq_dec : EqDecision RoutePolicy.
Proof. solve_decision. Defined.
#[local] Instance PolicySnapshot_eq_dec : EqDecision PolicySnapshot.
Proof. solve_decision. Defined.

#[local] Existing Instance launch_grants.
#[local] Instance snapshot_canon : Canon PolicySnapshot := one_value_canon toy_snapshot "{policy}".

Definition toy_loaded : LoadedPolicy :=
  MkLoadedPolicy toy_snapshot V1Alpha2 (to_hex (Digest_of "any")).

Example toy_policy_loads : LoadedPolicy_from_bytes "{policy}" = Ok toy_loaded.
Proof. vm_compute. reflexivity. Qed.

Lemma loaded_policy_conservative_witness :
  conservative toy_snapshot /\ (exists k, k ∈ sn_issuer_keys toy_snapshot /\ runner_key k).
Proof.
  destruct (loaded_policy_conservative "{policy}" toy_loaded) as (_ & _ & Hco & _ & Hlive).
  - vm_compute. discriminate.
  - exact toy_policy_loads.
  - split; [exact Hco|]. destruct (Hlive eq_refl) as (_ & _ & (k & Hin & Hk & _) & _).
    exists k. split; [exact Hin|exact Hk].
Defined.

Lemma live_policy_resolves_runner_key_witness :
  exists k key, k ∈ sn_issuer_keys toy_snapshot /\ runner_key k
    /\ authority_key_at toy_snapshot (ik_issuer k) (ik_key_id k) "provider-runner" 100 = Ok key.
Proof.
  apply (live_policy_resolves_runner_key toy_snapshot 100).
  - vm_compute. discriminate.
  - vm_compute. reflexivity.
  - reflexivity.
Defined.
