(* ===== verification/ToyRunner.v ===== *)
(** * Scenarios of the runner

    Ports of an attempt over the small file system of [ToyHarness], with a
    gate that fails on the first generation and passes on the second, and the
    reports, leases and heartbeats of the other runner properties. They stand
    for no code of the repository. *)

From S2P Require Import Prelude External Ids States Entities Framing Toy Text Store Records.
From S2P Require Import HarnessErrors Merkle GraphDelta Paths Gates Proposal Events Memory MemoryLeases MemoryGraphs.
From S2P Require Import LedgerFrame LedgerInv LedgerSafety Runner Heartbeat Workspace LeaseClient.
From S2P Require Import AttemptRun AttemptSafety ToyLedger ToyHarness.
From stdpp Require Import options.

Local Open Scope Z_scope.

#[local] Existing Instance fixed_blake3.
#[local] Existing Instance toy_hex.
#[local] Existing Instance toy_hex_laws.
#[local] Existing Instance toy_files.
#[local] Existing Instance ascii_unicode.

(** ** Reports of generations *)

Definition toy_text : string := to_hex (Digest_of EmptyString).
Definition toy_tree : string := "sha1:" +:+ String.concat EmptyString (replicate 40 "a").
Definition toy_authority : AuthorityToken :=
  MkAuthorityToken (MkId "o") (MkId "r") (MkId "m") (MkId "ac") (MkId "p") 1 (MkId "w") (MkId "g")
    (MkId "v") (Attempt_id toy_attempt) 1 (MkId "runner") 1 (MkId "ws") zero_array32 1 1
    (Digest_of "cfg") (Digest_of "pol") (Digest_of "route") None None.

(** Under the constant hash every digest of a report is the same text. *)
Definition toy_checkpoint : GenerationCheckpointBinding :=
  MkGenerationCheckpoint ("ckp_" +:+ toy_text) 0 toy_text (Some toy_tree) toy_text.
Definition toy_binding : CheckpointBinding := MkCheckpointBinding ("ckp_" +:+ toy_text) toy_text.
Definition toy_generation (n : Z) : ActiveGenerationBinding :=
  MkActiveGeneration n (if bool_decide (n = 0) then None else Some (MkGenerationParent (n - 1) toy_text))
    toy_text toy_text toy_checkpoint.


(** ** A supervised lease *)

Definition toy_call : HeartbeatCall :=
  MkHeartbeatCall (MkId "v") (Attempt_id toy_attempt) 1 (MkId "runner") 1 zero_array32 10.

(** A supervisor that starts at 0 and has one acknowledged beat that
    took 0.1 s, on a runtime that is never late. *)
Definition toy_cadence : HeartbeatConfig := MkHeartbeatConfig 500000000.
Definition toy_beats : list Beat := [MkBeat 0 Acknowledged 100000000].

Lemma runner_frozen_before_expiry_witness :
  let s := @direct_heartbeat toy_ext toy_call (toy_ledger toy_ops) in
  exists lease, ml_leases s.1 !! "v" = Some lease
    /\ ActiveLease_attempt_id lease = Attempt_id toy_attempt /\ ActiveLease_fence lease = 1
    /\ str_lt (toy_write 500) (ActiveLease_expires_at lease)
    /\ (lease ∉ due_leases s.1 (toy_write 500)).
Proof.
  intros s. assert (s.2 = Ok tt) as Hs by (vm_compute; reflexivity).
  refine (@runner_frozen_before_expiry toy_ext toy_chrono_laws
    toy_call toy_cadence 0 0 toy_beats
    (MkSupervisor (MkSelfKillDeadline (8 * NANOS) (8 * NANOS)) 500000000)
    (MkSupervisor (MkSelfKillDeadline (8 * NANOS) (8 * NANOS + 100000000)) 500000000)
    0 0 500000000 (toy_ledger toy_ops) s.1 (toy_write 500) _ _ _ _ _ _ _ _ _ _ _ _ _ _ _).
  - apply (bool_decide_eq_true_1 _). reflexivity.
  - lia.
  - vm_compute. reflexivity.
  - vm_compute. reflexivity.
  - simpl. unfold NANOS. lia.
  - by constructor.
  - apply (bool_decide_eq_true_1 _). vm_compute. reflexivity.
  - rewrite <- Hs. unfold s. by destruct (direct_heartbeat _ _).
  - vm_compute. reflexivity.
  - simpl. lia.
  - simpl. unfold NANOS. lia.
  - apply (bool_decide_eq_true_1 _). vm_compute. reflexivity.
  - apply (bool_decide_eq_true_1 _). vm_compute. reflexivity.
  - apply (bool_decide_eq_true_1 _). vm_compute. reflexivity.
  - vm_compute. reflexivity.
Defined.

(** A lease of ten seconds with heartbeats every four: the ledger writes the
    row at 0, the acknowledgement arrives after 3.9 s, and no call is answered
    afterwards. At 11 s the lease is due and the supervisor still runs. *)
Lemma deadline_precedes_expiry_iff_witness :
  let s := @direct_heartbeat toy_ext toy_call (toy_ledger toy_ops) in
  let late := MkSupervisor (MkSelfKillDeadline (8 * NANOS) (8 * NANOS + 3900000000)) (4 * NANOS) in
  heartbeat_loop (MkSupervisor (MkSelfKillDeadline (8 * NANOS) (8 * NANOS)) (4 * NANOS))
    ([MkBeat 0 Acknowledged 3900000000] ++ [MkBeat 4000000000 TimedOut 8000000000]) = Ok (inl late)
  /\ exists lease, ml_leases s.1 !! "v" = Some lease
     /\ deadline_expired (sv_deadline late) 11000000000 = false
     /\ lease ∈ due_leases s.1 (toy_write 11000).
Proof.
  intros s late. assert (s.2 = Ok tt) as Hs by (vm_compute; reflexivity).
  destruct (@deadline_precedes_expiry_iff toy_ext no_json no_json no_json no_json toy_chrono_laws
    toy_call (MkHeartbeatConfig (4 * NANOS)) 0 0 [MkBeat 0 Acknowledged 3900000000]
    (MkSupervisor (MkSelfKillDeadline (8 * NANOS) (8 * NANOS)) (4 * NANOS)) late
    0 0 (toy_ledger toy_ops) s.1) as (_ & Hmore & lease & Hl & _ & _ & Hwin).
  - vm_compute. reflexivity.
  - vm_compute. reflexivity.
  - left. rewrite <- Hs. unfold s. by destruct (direct_heartbeat _ _).
  - vm_compute. reflexivity.
  - vm_compute. discriminate.
  - apply (bool_decide_eq_true_1 _). vm_compute. reflexivity.
  - split.
    + apply Hmore. constructor; [|constructor]. split; [reflexivity|]. simpl. unfold NANOS. lia.
    + exists lease. split; [exact Hl|]. apply (Hwin 11000000000 (toy_write 11000)).
      * apply (bool_decide_eq_true_1 _). vm_compute. reflexivity.
      * vm_compute. reflexivity.
      * simpl. unfold NANOS. lia.
Defined.

(** ** One attempt *)

Definition toy_gate : string := REPOSITORY_GATE_ID.
Definition toy_config : AttemptConfig := {|
  ac_source_repo := "/src"; ac_base_sha := "base"; ac_workspace_root := "/ws";
  ac_objective := "pong"; ac_scope_prefixes := ["PONG.txt"]; ac_admitted_gate_ids := [toy_gate];
  ac_max_repair_rounds := 2; ac_turn_timeout := 60; ac_heartbeat := HeartbeatConfig_default;
  ac_preservation_destination := Some "/keep/a"; ac_model := None
|}.

Definition toy_patch : PatchProposal := MkPatchProposal
  (MkPatchProposalWire 1 (sample_id "cnt_" "1") (id_as_str (Attempt_id toy_attempt))
     ("ckp_" +:+ toy_text) toy_text [MkPatchOperation "PONG.txt" PreAbsent (MutWrite "PONG")] [toy_gate])
  "create" [] [] true.

Definition toy_repo (n : Z) : string := generation_repo "/ws" toy_authority n.
Definition toy_runtime : string := "/ws/runtime/" +:+ id_as_str (Attempt_id toy_attempt).
Definition dir (path : string) (disk : toy_fs) : toy_fs := <[path := MkToyFile IsDir EmptyString 448]> disk.

(** The content of "/gen" is as long as the number of the generation. *)
Definition toy_number (disk : toy_fs) : Z :=
  match disk !! "/gen" with Some f => str_len (tf_content f) | None => 0 end.

Definition toy_apply (p : PatchProposal) : stateful toy_fs RunnerError ApplyProposalReceipt := fun disk =>
  let n := toy_number disk + 1 in
  (dir (toy_repo n) (<["/gen" := MkToyFile IsFile (string_repeat (Z.to_nat n) (byte_of 97)) 0]> disk),
   Ok (MkApplyReceipt (pp_proposal_id (pp_wire p)) 1 toy_binding (toy_repo n) (toy_generation n))).

Definition toy_workspace : WorkspaceInfo :=
  MkWorkspaceInfo (toy_repo 0) toy_runtime "main" "base" ("ckp_" +:+ toy_text) toy_text (toy_generation 0).

Definition toy_candidate : CandidateReceipt :=
  MkCandidateReceipt "cand" "content" "base" "head" "tree" "patch" ["PONG.txt"] "now".

Definition toy_event (p : PatchProposal) : AgentEvent PatchProposal :=
  MkAgentEvent "e" "s" (Some "i") None "claude" None EkTurnCompleted 0 0 None p None.

Definition toy_texts : RunnerTexts PatchProposal := {|
  schema_source := "{}";
  facts_json := fun _ => "{}";
  unresolved_json := fun _ _ _ => "{}";
  payload_proposal := Some;
  payload_display := fun _ => "{}";
  payload_decode := Ok
|}.

Definition toy_ports : RunnerPorts PatchProposal toy_fs := {|
  GateWorkdir := Z;
  PrepareRequest := string;
  prepare_subject := fun s => s;
  hb_frozen := fun d => (d, None);
  hb_abort := fun d => d;
  ad_start := fun _ => mret (MkSessionHandle "s" "claude" None);
  ad_send := fun _ _ => mret (MkTurnHandle "i" (Some 0) false);
  ad_events := fun _ d => (d, [toy_event toy_patch]);
  ad_terminate := fun _ => mret true;
  failed_turn := fun _ _ _ _ => mret (ReNoProposal "failed");
  gd_spawn := fun _ => mret tt;
  gd_kill := mret tt;
  gd_clone := fun _ _ _ _ d => (dir (toy_repo 0) (dir toy_runtime d), Ok toy_workspace);
  gd_apply := toy_apply;
  gd_checkpoint := mret toy_binding;
  gd_prepare := fun _ => mret toy_candidate;
  gd_preserve := fun destination d =>
    (dir destination d, Ok (MkPreservationReceipt "token" toy_text toy_text destination));
  gd_cleanup := fun _ _ => mret tt;
  root_open := fun _ => mret tt;
  root_bind := fun _ _ => mret tt;
  open_generation := fun n => mret n;
  wd_tree := fun _ _ => mret tt;
  run_process := fun n _ => mret (MkGateOutput (Some (if bool_decide (n = 1) then 1 else 0)) false
                                    EmptyString EmptyString);
  lc_acquire := fun _ => mret (MkAcquireGrant toy_attempt toy_authority toy_lease);
  lc_advance := fun _ _ => mret tt;
  lc_release := fun _ => mret tt;
  cp_request := fun _ _ _ => mret "request";
  create_dir_all := fun _ => mret tt;
  jr_record := fun _ _ d => d;
  jr_try_record := fun _ _ d => (d, None)
|}.

#[local] Existing Instance toy_texts.
#[local] Existing Instance toy_ports.

Definition toy_acquire : AcquireRequest := MkAcquireRequest (MkId "w") (MkId "runner") 1 "lease:1" 15.
Definition toy_disk0 : toy_fs := dir "/ws" (dir "/keep" ∅).
Definition toy_attempt_run (fuel : nat) : run toy_fs * result RunnerError AttemptOutcome :=
  run_attempt fuel toy_acquire toy_config (MkRun toy_disk0 []).

Example toy_attempt_outcome :
  (o ← (toy_attempt_run 3).2; mret (ao_repair_rounds o, gate_passed <$> ao_gates o)) = Ok (1, [true]).
Proof. vm_compute. reflexivity. Qed.

Lemma toy_attempt_ok : is_ok (toy_attempt_run 3).2 = true.
Proof. vm_compute. reflexivity. Qed.

Lemma toy_repair_bounded : repair_bounded toy_config.
Proof. apply (bool_decide_eq_true_1 (_ /\ _)). vm_compute. reflexivity. Qed.

(** The gate fails once and the attempt succeeds after one repair round; its
    run is one of the protocol's. *)
Lemma attempt_follows_protocol_witness :
  let o := known (toy_attempt_run 3).2 toy_attempt_ok in
  exists m, follows toy_config monitor_start (rn_trace (toy_attempt_run 3).1) m
  /\ mo_attempt m = Some (ao_attempt_id o) /\ mo_released m = Some (AtSucceeded, true)
  /\ all_passed toy_config m.
Proof.
  intros o.
  destruct (attempt_follows_protocol toy_config 3 toy_acquire toy_disk0 (toy_attempt_run 3).1 (Ok o)
    toy_repair_bounded (run_known (toy_attempt_run 3) toy_attempt_ok)) as (m & Hf & Ho).
  exists m. split; [exact Hf|]. destruct (Ho o eq_refl) as (Ha & Hr & _ & _ & Hp & _).
  split; [exact Ha|]. split; [exact Hr|exact Hp].
Defined.

Lemma attempt_ends_within_budget_witness :
  toy_attempt_run 100 = toy_attempt_run 3 /\ is_ok (toy_attempt_run 3).2 = true.
Proof.
  split; [|exact toy_attempt_ok].
  refine (attempt_ends_within_budget toy_config 100 toy_acquire (MkRun toy_disk0 []) toy_repair_bounded _).
  apply (bool_decide_eq_true_1 _). vm_compute. reflexivity.
Defined.
