(* ===== verification/ToyVerifier.v ===== *)
(** * A verification and its chain

    A clean room in which git reports the requested tree and the gate exits
    with 0, and a chain over it with a constant hash and codecs that know the
    values of the scenario. They stand for no code of the repository. *)

From S2P Require Import Prelude External Ids Gates Framing Merkle Toy Text HarnessErrors Paths.
From S2P Require Import Canonical LaunchGrants LocalForge Proposal Verifier VerifierChain ToyLedger.
From S2P Require Import ToyLaunch ToyHarness.
From stdpp Require Import options.

Local Open Scope Z_scope.

#[local] Existing Instance fixed_blake3.
#[local] Existing Instance toy_hex.
#[local] Existing Instance toy_hex_laws.

(** ** The clean room *)

Definition sha (digit : string) : string := String.concat EmptyString (replicate 40 digit).

Definition verify_request : VerifierRequest :=
  MkVerifierRequest "/src" (sha "a") (sha "b") (sha "c") (MkGateId REPOSITORY_GATE_ID) "atm_x".

#[local] Instance toy_room : CleanRoom unit := {|
  room_git := {|
    git_output := fun _ => mret (Some 0, sha "c" +:+ String (byte_of 10) EmptyString, EmptyString);
    git_path := None
  |};
  room_tempdir := mret "/tmp/v";
  room_create_dir_all := fun _ => mret tt;
  room_rustc := fun w => (w, Err "not found");
  room_now := fun w => (w, 0);
  room_gate := fun _ _ w => (w, GateExited (Some 0) "exit status: 0")
|}.

Definition toy_verification : logged_room unit * result VerifierError VerifierEvidence :=
  execute verify_request false (tt, []).

Lemma toy_verification_ok : is_ok toy_verification.2 = true.
Proof. vm_compute. reflexivity. Qed.

Lemma green_evidence_exact_witness :
  let e := known toy_verification.2 toy_verification_ok in
  ve_outcome e = GatePass /\ green_calls verify_request toy_verification.1.2.
Proof.
  intros e. assert (ve_outcome e = GatePass) as Ho by (vm_compute; reflexivity). split; [exact Ho|].
  destruct (green_evidence_exact verify_request false tt toy_verification.1.1 toy_verification.1.2 e)
    as (_ & _ & _ & _ & _ & _ & _ & Hg).
  - rewrite <- surjective_pairing. exact (run_known toy_verification toy_verification_ok).
  - exact (proj1 Hg Ho).
Defined.

(** ** The records of a chain *)

Global Instance IntentInput_eq_dec : EqDecision VerificationIntentInput.
Proof. solve_decision. Defined.
Global Instance SignedRecord_eq_dec T `{EqDecision T} : EqDecision (SignedRecord T).
Proof. solve_decision. Defined.
Global Instance Chain_eq_dec : EqDecision SignedVerificationChain.
Proof. solve_decision. Defined.
Global Instance ChainFooter_eq_dec : EqDecision ChainFooter.
Proof. solve_decision. Defined.

Definition constant_text : string := to_hex (Digest_of EmptyString).
Definition verify_candidate : CandidateId := MkId ("can_" +:+ constant_text).

Definition verify_input : VerificationIntentInput :=
  MkIntentInput verify_candidate verify_request "bullet-verifier" "key" ("non_" +:+ constant_text)
    constant_text constant_text 1000 2000.

Definition verify_intent : VerificationIntent :=
  MkVerificationIntent INTENT_SCHEMA COMPONENT_CLASS FIXTURE_TRUST false false ("vfi_" +:+ constant_text)
    verify_candidate verify_request ("req_" +:+ constant_text) "bullet-verifier" "key"
    ("non_" +:+ constant_text) constant_text constant_text 1000 2000.

Definition room_record : VerifierEvidence :=
  MkVerifierEvidence TierE2 (MkGateId REPOSITORY_GATE_ID) GatePass None None
    ["/usr/bin/grep"; "-qx"; "PONG"; "PONG.txt"] 2 (Some 0) 0
    (MkCandidateSubject (sha "a") (sha "b") (sha "c")) {["git" := sha "c"]} "bullet-verifier" "atm_x".

Definition verify_evidence : EvidenceV1 :=
  MkEvidenceV1 EVIDENCE_SCHEMA COMPONENT_CLASS FIXTURE_TRUST false false (MkId ("evd_" +:+ constant_text))
    ("vfi_" +:+ constant_text) ("vin_" +:+ constant_text) verify_candidate ("req_" +:+ constant_text)
    constant_text "bullet-verifier" "key" room_record.

Definition verify_proof : ProofBundleV1 :=
  MkProofBundle PROOF_SCHEMA COMPONENT_CLASS FIXTURE_TRUST false false ("prb_" +:+ constant_text)
    ("prf_" +:+ constant_text) ("vfi_" +:+ constant_text) ("vin_" +:+ constant_text)
    (MkId ("evd_" +:+ constant_text)) ("ven_" +:+ constant_text) verify_candidate
    ("req_" +:+ constant_text) constant_text "bullet-verifier" "key" GatePass.

(** ** The chain *)

Definition footer_text (f : ChainFooter) : string := "{" +:+ cf_purpose f +:+ "}".

Definition kernel_secret : bytes := "kernel".
Definition verifier_secret : bytes := "verifier".

Definition envelope {T} (issuer key_id secret schema purpose assertion text : string) (record : T) : SignedRecord T :=
  MkSignedRecord schema issuer key_id (toy_token secret text ("{" +:+ purpose +:+ "}") assertion) record.

Definition intent_envelope : SignedRecord VerificationIntent :=
  envelope "kernel" "k1" kernel_secret INTENT_ENVELOPE_SCHEMA INTENT_PURPOSE INTENT_ASSERTION "{intent}" verify_intent.
Definition evidence_envelope : SignedRecord EvidenceV1 :=
  envelope "bullet-verifier" "key" verifier_secret EVIDENCE_ENVELOPE_SCHEMA EVIDENCE_PURPOSE EVIDENCE_ASSERTION
    "{evidence}" verify_evidence.
Definition toy_chain : SignedVerificationChain :=
  MkVerificationChain CHAIN_SCHEMA intent_envelope evidence_envelope
    (envelope "bullet-verifier" "key" verifier_secret PROOF_ENVELOPE_SCHEMA PROOF_PURPOSE PROOF_ASSERTION
       "{proof}" verify_proof).

#[local] Instance toy_chain_ext : ChainExt := {|
  cx_paseto := toy_paseto;
  cx_utf8 := fun _ => "invalid";
  cx_request := one_value_canon verify_request "{request}";
  cx_input := write_canon (fun _ => "{input}");
  cx_intent := one_value_canon verify_intent "{intent}";
  cx_evidence := one_value_canon verify_evidence "{evidence}";
  cx_proof := one_value_canon verify_proof "{proof}";
  cx_footer := write_canon footer_text;
  cx_signed_intent := one_value_canon intent_envelope "{intent-envelope}";
  cx_signed_evidence := one_value_canon evidence_envelope "{evidence-envelope}";
  cx_evidence_subject := write_canon (fun s => "[" +:+ s.1 +:+ "]");
  cx_proof_subject := one_value_canon ("req_" +:+ constant_text, "ven_" +:+ constant_text) "[root]";
  cx_text := write_canon (fun s => s);
  cx_chain := one_value_canon toy_chain "{chain}"
|}.

Definition kernel_key : RoleSigningKey := MkRoleSigningKey "kernel" "k1" kernel_secret (toy_public kernel_secret).
Definition verifier_key : RoleSigningKey :=
  MkRoleSigningKey "bullet-verifier" "key" verifier_secret (toy_public verifier_secret).

Definition admitted (now : Z) : result SignedChainError SignedVerificationChain :=
  decode_and_verify_fixture_chain "{chain}" (role_verification_key kernel_key)
    (role_verification_key verifier_key) verify_candidate verify_request now.

Example toy_chain_window :
  admitted 1000 = Ok toy_chain /\ admitted 2000 = Err ScIntentTimeInvalid.
Proof. split; vm_compute; reflexivity. Qed.

Lemma one_value_inj {A} `{EqDecision A} (a : A) text : @CanonInj A (one_value_canon a text).
Proof.
  intros x y t Hx Hy. cbn in *. destruct (decide (x = a)) as [->|]; [|done].
  by destruct (decide (y = a)) as [->|].
Qed.

Lemma one_value_small {A} `{EqDecision A} (a : A) text x :
  str_len text <= MAX_CANONICAL_BYTES -> @encodes_small A (one_value_canon a text) x.
Proof. intros Hs t Ht. cbn in Ht. case_decide; [|done]. by injection Ht as <-. Qed.

Lemma admitted_chain_binds_request_witness :
  admitted 1500 = Ok toy_chain
  /\ record_for verify_request "bullet-verifier" room_record /\ not_eligible toy_chain.
Proof.
  assert (admitted 1500 = Ok toy_chain) as Ha by (vm_compute; reflexivity). split; [exact Ha|].
  destruct (admitted_chain_binds_request "{chain}" (role_verification_key kernel_key)
    (role_verification_key verifier_key) verify_candidate verify_request 1500 toy_chain Ha)
    as (_ & _ & _ & _ & _ & _ & _ & Hr & _ & _ & _ & _ & Hn).
  split; [exact Hr|exact Hn].
Defined.

Lemma proof_root_commits_chain_witness :
  ~ collides (chain_pairs toy_chain toy_chain)
  /\ verify_candidate = verify_candidate /\ verify_request = verify_request
  /\ vc_intent toy_chain = vc_intent toy_chain /\ vc_evidence toy_chain = vc_evidence toy_chain.
Proof.
  assert (~ collides (chain_pairs toy_chain toy_chain)) as Hc.
  { apply (bool_decide_eq_false_1 _). vm_compute. reflexivity. }
  split; [exact Hc|].
  assert (forall now, 1000 <= now < 1002 -> verify_verification_chain toy_chain (role_verification_key kernel_key)
    (role_verification_key verifier_key) verify_candidate verify_request now = Ok tt) as Hv.
  { intros now Hn. assert (now = 1000 \/ now = 1001) as [-> | ->] by lia; vm_compute; reflexivity. }
  destruct (@proof_root_commits_chain fixed_blake3 toy_hex toy_hex_laws toy_chain_ext
    (one_value_inj _ _) (one_value_inj _ _) (one_value_inj _ _)
    toy_chain toy_chain _ _ _ _ _ _ _ _ 1000 1001 (Hv 1000 ltac:(lia)) (Hv 1001 ltac:(lia)) eq_refl)
    as [Heq|Hx]; [exact Heq|contradiction].
Defined.

Lemma executed_chain_admitted_witness :
  (execute_chain verifier_key intent_envelope (role_verification_key kernel_key) 1200 false tt).2 = Ok toy_chain
  /\ admitted 1999 = Ok toy_chain.
Proof.
  assert ((execute_chain verifier_key intent_envelope (role_verification_key kernel_key) 1200 false tt).2
    = Ok toy_chain) as He by (vm_compute; reflexivity).
  split; [exact He|].
  refine (@executed_chain_admitted fixed_blake3 toy_hex toy_hex_laws toy_chain_ext toy_paseto_laws
    (one_value_canon_laws verify_evidence "{evidence}" eq_refl eq_refl)
    (one_value_canon_laws verify_proof "{proof}" eq_refl eq_refl)
    (one_value_canon_laws toy_chain "{chain}" eq_refl eq_refl) unit toy_room (Some verifier_secret) "bullet-verifier" "key"
    kernel_key verifier_key verify_input intent_envelope 1200 false tt tt toy_chain "{chain}" 1999
    _ _ _ _ _ _ _ _).
  - vm_compute. reflexivity.
  - vm_compute. reflexivity.
  - rewrite <- He. by destruct (execute_chain _ _ _ _ _ _) as [[] r].
  - vm_compute. reflexivity.
  - apply one_value_small. vm_compute. discriminate.
  - apply one_value_small. vm_compute. discriminate.
  - apply one_value_small. vm_compute. discriminate.
  - simpl. lia.
Defined.
